(* ===== verification/_CoqProject ===== *)
-Q . S2P
Prelude.v
HeapLogic.v
Trees.v
OrderedSet.v
RBTree.v
RBShape.v
RBInsert.v
RBSearch.v
RBRemove.v
RBDelete.v
RBIter.v
RBSet.v
SplayTree.v
SplayProofs.v
SplaySet.v
TreeModels.v
TreeProperties.v
ByteMemory.v
V8Internal.v
V8Value.v
V8Handles.v
V8Callback.v
NodeObjectWrap.v
V8InternalFacts.v
V8Specs.v
V8Persistent.v
V8Objects.v
ObjectWrapProofs.v
V8Reads.v
V8Engine.v
V8Traced.v
V8Models.v
V8HandleProperties.v
V8Maybe.v
V8ValueProperties.v
UvErrno.v
UvProperties.v
OpensslErr.v
OpensslFacts.v
OpensslReasons.v
OpensslAlerts.v
OpensslProperties.v
Versions.v
VersionProperties.v
Zlib.v
Bio.v
IoProperties.v
ObjMac.v
Objects.v
ObjProperties.v
OpensslFlags.v
FlagProperties.v
TlsCiphers.v
TlsProperties.v
CoreDispatch.v
DispatchProperties.v
OpensslSizes.v
SizeProperties.v
CtrlCommands.v
CtrlProperties.v
OpensslRaise.v
RaiseProperties.v
TypedMacros.v
SafeStack.v
StackTables.v
TypedMacrosFacts.v
StackProperties.v
Asn1Macros.v
PemMacros.v
Asn1Declarations.v
CodecFacts.v
CodecModels.v
CodecProperties.v
ObjSearch.v
ObjSearchProperties.v
EngineLoad.v
V8Embedder.v
NodeAddon.v
NodeModels.v
NodeProperties.v
