(* ===== verification/Prelude.v ===== *)
(** * The C code of the repository: a verification development

    The repository is a fork of ONOS, a controller written in Java. Its C and
    C++ code is the set of headers of Node.js 18.14.0 that it carries under
    [src/node-js/include/node]: libuv, V8, Node.js itself, OpenSSL and zlib. Most
    of their lines declare functions of compiled libraries; this development
    models what the headers themselves compute: macros, generated functions and
    inline functions. File names below are relative to that directory.

    ** The parts

    - The intrusive trees of [uv/tree.h]. The red-black part is [RBTree] (one
      definition per macro or generated function), proved in [RBShape] (the tree
      in memory), [RBInsert], [RBSearch], [RBRemove], [RBDelete] and [RBIter]; the
      splay part is [SplayTree], proved in [SplayProofs]. [Trees] has the
      mathematical trees, contexts and sorted lists that both refine, [OrderedSet]
      the interface of an ordered set, which [RBSet] and [SplaySet] implement, and
      [TreeModels] concrete memories. The statements are in [TreeProperties].
    - The V8 headers. [V8Internal] is [v8-internal.h] (Smis, tags, layout, raw
      accesses), [V8Value] the inline functions on values, objects, contexts,
      isolates and script origins, [V8Handles] the local, persistent, global,
      traced and eternal handles, [V8Callback] the arguments and return values of
      callbacks, [V8Maybe] the type of [v8-maybe.h] with the programs that use
      it. [NodeObjectWrap] is [node_object_wrap.h], a client of the handles. [V8InternalFacts], [V8Specs],
      [V8Persistent], [V8Traced], [V8Objects], [V8Reads] and [ObjectWrapProofs]
      specify and prove them ([V8InternalFacts] also has the tagging scheme of
      external pointers that a comment of [v8-internal.h] describes), [V8Engine] and [V8Models] make them run, and the statements are
      in [V8HandleProperties] and [V8ValueProperties].
    - Error codes. [UvErrno] is [uv/errno.h] with the enumerations of [uv.h];
      [OpensslErr] the packing of [openssl/err.h], [OpensslReasons] the reason
      tables of the headers [openssl/*err.h], [OpensslAlerts] the TLS alerts;
      the statements are in [UvProperties] and [OpensslProperties].
      [OpensslRaise] has the macros that raise an error and the groups of trace
      output, with [RaiseProperties].
    - The tables of OpenSSL. [ObjMac] is [openssl/obj_mac.h], [Objects] the
      encoding of its identifiers ([ObjProperties]); [OpensslFlags] the words of
      flags ([FlagProperties]); [TlsCiphers] the cipher suites and versions of TLS
      ([TlsProperties]); [CoreDispatch] the function tables between the library and
      its providers ([DispatchProperties]); [OpensslSizes] the sizes that callers
      give their buffers ([SizeProperties]); [CtrlCommands] the commands of the
      control calls with the macros that make them ([CtrlProperties]).
    - The containers of OpenSSL. [TypedMacros] is the part of C that type-safe
      wrappers need (in it a program evaluates the arguments of a call in an order
      that is a parameter, [ArgumentOrder]), [SafeStack] the functions that [openssl/safestack.h] and
      [openssl/lhash.h] define for a type, [StackTables] the generated macros of
      every type; [TypedMacrosFacts] has the lemmas and [StackProperties] the
      statement.
    - The encodings of OpenSSL. [Asn1Macros] has the macros of [openssl/asn1.h]
      and [openssl/asn1t.h] that declare and implement the functions of a type
      (to allocate, free, encode, decode, copy and print), [PemMacros] those of
      [openssl/pem.h] that read and write PEM, over the fragment of C of
      [TypedMacros]; [Asn1Declarations] the declarations that the headers make
      with them. What the names a build defines leave out (no file functions, no
      deprecated functions, an algorithm less) is an argument of these macros, of
      the type [build]. [CodecFacts] has the lemmas, [CodecModels] the laws of the
      library's encoders and a library that meets them, and [CodecProperties] the
      statements.
    - Searches and engines. [ObjSearch] has the typed searches of
      [openssl/objects.h] ([ObjSearchProperties]), [EngineLoad] the two functions
      of [openssl/engine.h] by which a shared library is loaded as an engine,
      with their statement.
    - Addons and embedders. [NodeAddon] is what [node.h], [node_api.h] and
      [node_buffer.h] compute: the macros that register modules, with the functions
      that they have run when a library is loaded, the functions
      that install methods and constants, flags, bounds and the resources of an
      embedder; [V8Embedder] the start of the engine, the handles of shared memory
      and the scopes. [NodeModels] has the laws of the engine's functions and an
      engine that meets them, [NodeProperties] the statements.
    - [Versions] has the version numbers and the API levels of
      [openssl/macros.h], with [VersionProperties]; [Bio] the retry flags of
      [openssl/bio.h] and [Zlib] the macro [gzgetc] of [zlib.h], with
      [IoProperties].

    ** How the code is modelled

    A C function that reads or writes memory is a function in the state monad
    [M] of this file: it returns a value with the new memory, or has undefined
    behaviour ([Undef]), or did not end within its fuel ([NoFuel]). A failed
    [assert], a null or dangling dereference, a signed overflow and the fatal
    errors of V8's checks are [Undef]. [HeapLogic] is the memory of the trees, a
    finite map from addresses to structures; [ByteMemory] that of V8, bytes at
    integer addresses, with little-endian words of a given width. Both carry an
    affine separation logic with a total weakest precondition: a triple
    [⦃ P ⦄ e ⦃ v, Q ⦄] says that [e] returns in every memory that contains [P],
    and that the rest of the memory is untouched. So every statement with a
    triple includes termination and the absence of undefined behaviour.

    A [while] loop is [loop] with fuel. The fuel a statement asks for is a bound
    on the iterations that the code itself respects: more than the height for
    the searches and rotations of the red-black trees, more than the size for
    iterations and for the splay trees (whose height may be their size), more
    than the number of elements ever inserted in the refinement theorems. More
    fuel never changes a result ([loop_mono]). Machine integers are [Z] with
    their wrap-around written out ([to_unsigned], [to_signed]).

    What is not in the headers is a parameter with laws. [V8Config] has the build
    options (pointer width, compression, sandbox), and the theorems hold for all
    their values unless they name one; [V8Library] has the functions of the
    engine, of which [GlobalHandles], [TracedHandles] and [JSObjects] state the
    documented behaviour; [V8Engine] is an implementation that meets them.
    [CmpOrder] is the comparison function of a tree, [platform] the system's
    [errno.h], [BioLaws] the functions on a BIO's flags, [gz_function_ok] the
    function behind [gzgetc], [LocalScopes] the creation of a local handle,
    [ObjectAllocator] the [operator delete] of a wrapped object,
    [ErrLaws] the functions behind [ERR_raise], [TraceLaws] those that lock a trace
    channel and print its prefix and suffix, [PemLibrary] the encoders and the PEM reader and writer,
    [SearchLibrary] the search of an untyped table, [EngineLaws] what an engine
    asks the library for, [V8Laws] the functions of the engine that [node.h]
    calls. Each has an instance that runs, on which the examples are computed.
    Relaxed atomic accesses of the traced handles are
    plain ones: no other thread is modelled.

    ** What the theorems show

    - Trees: each operation returns what the corresponding operation on the
      sorted list of the elements returns, and keeps the tree's invariant; every
      sequence of operations refines the sorted list, for both trees; the height
      bound of the red-black trees; iteration visits every element once and in
      order, also when the body removes the current element.
    - V8: encodings round-trip and are never mistaken for one another; handles own
      their nodes, and copying, moving and resetting them neither leaks nor shares
      one; the reference count of [ObjectWrap] is that of a counter, and it is
      weak exactly at zero; from its constructor to its collection an object
      leaks no node, and its memory is released once; a program on [Maybe] computes
      what it computes on options; accesses to callback arguments are in bounds.
    - Tables: error codes are distinct and in their ranges on every platform;
      packed OpenSSL errors decode to what was packed and two reasons never share
      a code; API levels are accepted and mark declarations as deprecated from the versions
      they name; an object
      identifier is the encoding of its arcs and no two objects share one; the
      flags of a word are disjoint bits, so that each can be set and cleared alone;
      cipher suites have distinct numbers; a dispatch table read by its identifiers
      gives functions of the declared types; buffers of the documented sizes hold
      what is written to them; wrapper macros send the commands of their names.
    - Containers: the macros of a type are the inline functions of the same names,
      for the compiler and when they run, and none takes another type's container.
    - Encodings: the functions that the ASN.1 and PEM macros implement are those
      that are declared, and the compiler accepts them; a macro that checks a type
      refuses an object of another type, but takes a pointer to void; what is written in PEM is read back in order, and a read
      whose object is missing, sealed or malformed returns [NULL]. A typed search
      of a sorted table finds the element, or there is none.
    - Addons: methods and constants are installed under their names with their
      attributes, and on every path where that cannot be done either nothing has
      changed or the process stops; a module is registered with the version and
      name that the loader looks for, once by each library that is loaded; bounds are tested without overflow; an
      embedder's setup and its hooks are freed exactly once. An engine uses the
      memory functions of its loader.
    - Protocols: an error is recorded with its place and reason, as the newest of the
      queue; a trace group that runs to its end or is cancelled prints its prefix,
      its output and its suffix and unlocks tracing, and one that is left by [break]
      does not.
    - Divergences found: self-assignment of [Persistent] loses the object;
      [MaybeLocal::ToLocal] writes its argument when it is empty; the default API
      level of [openssl/macros.h] is unreachable; three numbers of [openssl/ssl.h]
      stand for two commands each; three macros of [openssl/objects.h],
      [openssl/asn1.h] and [openssl/asn1t.h] cannot be used; the compiler tests of
      [node.h] confuse versions; some comments do not describe the code. The
      manifest lists them with the theorems that show them.

    ** Not modelled

    Functions that are only declared (the event loop of libuv, the V8 engine,
    OpenSSL's and zlib's algorithms), because their code is not in the
    repository; casts between handle types, which only reinterpret pointers;
    functions that only return a field or a constant, as those of [v8-statistics.h]
    or the default methods of [v8-platform.h]; structures without code; the templates that describe an ASN.1 type to the
    library's encoders, which are data without a meaning of their own in the
    headers; the per-platform copies of the OpenSSL headers (the one for
    linux-x86_64 stands for them); garbage collection and threads, but for the
    callback the collector makes. The rest of the repository is not C. *)

From stdpp Require Export base tactics option list gmap.
From Stdlib Require Export ZArith Lia.

#[export] Set Warnings "-rewrite-rw,-redundant-canonical-projection,-clear-no-such-hyp".

(** ** Outcomes of C code

    A C expression either yields a value, has undefined behaviour (a null or
    dangling pointer is dereferenced, an assertion fails), or is a loop that
    has not ended within the fuel the model gave it. *)

Inductive outcome (A : Type) : Type :=
| Ret (a : A)
| Undef
| NoFuel.
Arguments Ret {A} a.
Arguments Undef {A}.
Arguments NoFuel {A}.

#[export] Instance outcome_eq_dec {A} `{EqDecision A} : EqDecision (outcome A).
Proof. solve_decision. Defined.

Definition outcome_value {A} (o : outcome A) : option A :=
  match o with Ret a => Some a | _ => None end.

(** ** The state monad of the stateful components

    A component whose functions read and write a store [S] is a function from
    the store to an outcome. *)

Definition M (S A : Type) : Type := S → outcome (A * S).

#[export] Instance M_ret {S} : MRet (M S) := λ A a s, Ret (a, s).
#[export] Instance M_bind {S} : MBind (M S) := λ A B f m s,
  match m s with
  | Ret (a, s') => f a s'
  | Undef => Undef
  | NoFuel => NoFuel
  end.
#[export] Instance M_fmap {S} : FMap (M S) := λ A B f m, a ← m; mret (f a).

Definition undef {S A} : M S A := λ _, Undef.
Definition out_of_fuel {S A} : M S A := λ _, NoFuel.

(** A C [assert]: undefined behaviour (the process aborts) when it fails. *)
Definition assert {S} (b : bool) : M S unit := if b then mret tt else undef.

(** A C loop: the body either goes on with a new local state ([inl]) or leaves
    the loop with a result ([inr]). Each iteration costs one unit of fuel. *)
Fixpoint loop {S L R} (fuel : nat) (body : L → M S (L + R)) (l : L) : M S R :=
  match fuel with
  | O => out_of_fuel
  | Datatypes.S fuel =>
      r ← body l;
      match r with
      | inl l' => loop fuel body l'
      | inr x => mret x
      end
  end.

Lemma M_bind_ret_l {S A B} (a : A) (f : A → M S B) : (mret a ≫= f) = f a.
Proof. reflexivity. Qed.

Lemma M_bind_Ret {S A B} (m : M S A) (f : A → M S B) s a s' :
  m s = Ret (a, s') → (m ≫= f) s = f a s'.
Proof. intros H. cbv [mbind M_bind]. by rewrite H. Qed.

Lemma M_bind_assoc {S A B C} (m : M S A) (f : A → M S B) (g : B → M S C) s :
  ((m ≫= f) ≫= g) s = (m ≫= (λ a, f a ≫= g)) s.
Proof. cbv [mbind M_bind]. by destruct (m s) as [[]| |]. Qed.

Lemma M_bind_ext {S A B} (m : M S A) (f g : A → M S B) s :
  (∀ a s', f a s' = g a s') → (m ≫= f) s = (m ≫= g) s.
Proof. intros H. cbv [mbind M_bind]. destruct (m s) as [[]| |]; auto. Qed.

(** More fuel does not change a result that was reached. *)
Lemma loop_mono {S L R} n n' (body : L → M S (L + R)) l s x :
  n ≤ n' → loop n body l s = Ret x → loop n' body l s = Ret x.
Proof.
  revert n' l s. induction n as [|n IH]; intros n' l s Hle H; [done|].
  destruct n' as [|n']; [lia|]. cbn in *. cbv [mbind M_bind] in *.
  destruct (body l s) as [[[l'|r] s']| |]; [|done..].
  apply IH; [lia|done].
Qed.

(** ** Lists *)

(** A function that tells the elements of a list apart is injective on it. *)
Lemma NoDup_fmap_inj {A B} (f : A → B) (l : list A) x y :
  NoDup (f <$> l) → x ∈ l → y ∈ l → f x = f y → x = y.
Proof.
  induction l as [|z l IH]; cbn [fmap list_fmap]; intros Hd; [set_solver|].
  apply NoDup_cons in Hd as [Hz Hd]. intros [->|Hx]%elem_of_cons [->|Hy]%elem_of_cons E;
    [done| | |by apply IH]; contradict Hz; [rewrite E|rewrite <- E]; by apply list_elem_of_fmap_2.
Qed.

(** A list of keys and values that is a function, checked with a map. *)
Section functional.
Context {K V : Type} `{Countable K, EqDecision V}.

Fixpoint functional_from (m : gmap K V) (l : list (K * V)) : bool :=
  match l with
  | [] => true
  | (k, v) :: l =>
      match m !! k with
      | Some v' => bool_decide (v = v') && functional_from m l
      | None => functional_from (<[k := v]> m) l
      end
  end.
Definition functionalb (l : list (K * V)) : bool := functional_from ∅ l.

Lemma functional_from_lookup m l k v v' :
  functional_from m l = true → m !! k = Some v → (k, v') ∈ l → v' = v.
Proof.
  revert m. induction l as [|[k1 v1] l IH]; intros m; cbn; [set_solver|].
  destruct (m !! k1) as [w|] eqn:E.
  - intros [->%bool_decide_eq_true ?]%andb_prop Hk [[= -> ->]|Hin]%elem_of_cons; [congruence|by eapply IH].
  - intros Hl Hk [[= -> ->]|Hin]%elem_of_cons; [congruence|]. eapply IH; [done| |done].
    rewrite lookup_insert_ne; [done|congruence].
Qed.

Lemma functionalb_spec l k v v' : functionalb l = true → (k, v) ∈ l → (k, v') ∈ l → v = v'.
Proof.
  unfold functionalb. generalize (∅ : gmap K V). induction l as [|[k1 v1] l IH]; intros m; cbn; [set_solver|].
  intros Hl Hv Hv'. destruct (m !! k1) as [w|] eqn:E.
  - apply andb_prop in Hl as [->%bool_decide_eq_true Hl].
    assert (∀ u, (k, u) ∈ (k1, w) :: l → k = k1 → u = w) as Hu.
    { intros u [[= -> ->]|Hin]%elem_of_cons ?; [done|]. subst k. by eapply functional_from_lookup. }
    destruct (decide (k = k1)) as [Hk|Hk]; [by rewrite (Hu v), (Hu v')|].
    apply elem_of_cons in Hv as [[= ? ?]|Hv], Hv' as [[= ? ?]|Hv']; [done..|by eapply IH].
  - assert (∀ u, (k, u) ∈ (k1, v1) :: l → k = k1 → u = v1) as Hu.
    { intros u [[= ?]|Hin]%elem_of_cons ?; [done|]. subst k.
      eapply functional_from_lookup; [exact Hl|apply lookup_insert_eq|done]. }
    destruct (decide (k = k1)) as [Hk|Hk]; [by rewrite (Hu v), (Hu v')|].
    apply elem_of_cons in Hv as [[= ? ?]|Hv], Hv' as [[= ? ?]|Hv']; [done..|by eapply IH].
Qed.
End functional.
