(* ===== verification/HeapLogic.v ===== *)
(** * Linked memory and its separation logic

    The memory of the pointer-linked components ([uv/tree.h]): a finite map
    from addresses to structs, the loads and stores the C code performs on it,
    and an affine separation logic over it (an instance of Iris's [bi], so that
    its proof mode applies) with a total-correctness weakest precondition. *)

From S2P Require Import Prelude.
From iris.bi Require Export interface derived_connectives derived_laws.
From iris.proofmode Require Export proofmode.
From Stdlib Require Import String.
From iris.proofmode Require Import coq_tactics environments reduction.

(** ** Memory *)

Abbreviation addr := positive (only parsing).
Abbreviation ptr := (option positive) (only parsing).

Abbreviation heap C := (gmap positive C).

(** A pointer used as a condition, and pointer equality. *)
Definition is_null (p : ptr) : bool := match p with None => true | Some _ => false end.
Definition ptr_eqb (p q : ptr) : bool := bool_decide (p = q).

Lemma ptr_eqb_eq (p : ptr) : ptr_eqb p p = true.
Proof. by apply bool_decide_true. Qed.
Lemma ptr_eqb_ne (p q : ptr) : p ≠ q → ptr_eqb p q = false.
Proof. by apply bool_decide_false. Qed.

Section operations.
Context {C : Type}.

(** [*p] as an rvalue. *)
Definition load (p : ptr) : M (heap C) C := λ h,
  match p with
  | None => Undef
  | Some a => match h !! a with Some c => Ret (c, h) | None => Undef end
  end.

(** [*p = c]: the target must be a live object. *)
Definition store (p : ptr) (c : C) : M (heap C) unit := λ h,
  match p with
  | None => Undef
  | Some a =>
      match h !! a with Some _ => Ret (tt, <[a := c]> h) | None => Undef end
  end.

(** A call of a comparison function on two elements, which reads both. *)
Definition call_cmp (cmp : addr → addr → Z) (x y : ptr) : M (heap C) Z :=
  match x, y with Some x, Some y => mret (cmp x y) | _, _ => undef end.

Lemma call_cmp_Some cmp x y : call_cmp cmp (Some x) (Some y) = mret (cmp x y).
Proof. done. Qed.

(** An address above every live one. *)
Definition fresh_addr (h : heap C) : addr :=
  Pos.succ (map_fold (λ k _ m, Pos.max k m) 1%positive h).

(** A local variable of struct type: allocated on entry, dead on exit. *)
Definition alloc (c : C) : M (heap C) addr := λ h,
  let a := fresh_addr h in Ret (a, <[a := c]> h).
Definition dealloc (a : addr) : M (heap C) unit := λ h,
  match h !! a with Some _ => Ret (tt, delete a h) | None => Undef end.
Definition with_local {A} (c : C) (body : addr → M (heap C) A) : M (heap C) A :=
  a ← alloc c; r ← body a; _ ← dealloc a; mret r.

Lemma fresh_addr_fresh (h : heap C) : h !! fresh_addr h = None.
Proof.
  cut (∀ k, is_Some (h !! k) → (k < fresh_addr h)%positive).
  { intros H. destruct (h !! fresh_addr h) eqn:E; [|done].
    specialize (H (fresh_addr h)). rewrite E in H. specialize (H (mk_is_Some _ _ eq_refl)).
    lia. }
  unfold fresh_addr.
  apply (map_fold_weak_ind (λ m (h' : heap C), ∀ k, is_Some (h' !! k) → (k < Pos.succ m)%positive)).
  - intros k [x Hx]. by rewrite lookup_empty in Hx.
  - intros i x m r Hm IH k. rewrite lookup_insert. case_decide; [subst; lia|].
    intros Hk%IH. lia.
Qed.
End operations.

(** ** Heap predicates *)

Record hprop (C : Type) := Hprop {
  hprop_holds :> heap C → Prop;
  hprop_mono h h' : h ⊆ h' → hprop_holds h → hprop_holds h';
}.
Arguments Hprop {C} _ _.
Arguments hprop_holds {C} _ _ : simpl never.

Section hprop_bi.
Context {C : Type}.
Local Abbreviation hp := (hprop C).

Inductive hprop_equiv' (P Q : hp) : Prop := HpropEquiv { hprop_in_equiv h : P h ↔ Q h }.
#[export] Instance hprop_equiv : Equiv hp := hprop_equiv'.
#[export] Instance hprop_equivalence : Equivalence (≡@{hp}).
Proof.
  split; repeat destruct 1; constructor; intros h; [done|naive_solver|naive_solver].
Qed.
Canonical Structure hpropO := discreteO hp.

Inductive hprop_entails (P Q : hp) : Prop := HpropEntails { hprop_in_entails h : P h → Q h }.

Program Definition hprop_emp : hp := Hprop (λ _, True) _.
Next Obligation. done. Qed.
Program Definition hprop_pure (φ : Prop) : hp := Hprop (λ _, φ) _.
Next Obligation. done. Qed.
Program Definition hprop_and (P Q : hp) : hp := Hprop (λ h, P h ∧ Q h) _.
Next Obligation. intros P Q h h' ? [??]. split; eapply hprop_mono; eauto. Qed.
Program Definition hprop_or (P Q : hp) : hp := Hprop (λ h, P h ∨ Q h) _.
Next Obligation. intros P Q h h' ? [?|?]; [left|right]; eapply hprop_mono; eauto. Qed.
Program Definition hprop_impl (P Q : hp) : hp :=
  Hprop (λ h, ∀ h', h ⊆ h' → P h' → Q h') _.
Next Obligation. intros P Q h h' ? H h'' ??. apply H; [by etrans|done]. Qed.
Program Definition hprop_forall {A} (Φ : A → hp) : hp := Hprop (λ h, ∀ a, Φ a h) _.
Next Obligation. intros A Φ h h' ? H a. eapply hprop_mono; eauto. Qed.
Program Definition hprop_exist {A} (Φ : A → hp) : hp := Hprop (λ h, ∃ a, Φ a h) _.
Next Obligation. intros A Φ h h' ? [a ?]. exists a. eapply hprop_mono; eauto. Qed.
Program Definition hprop_sep (P Q : hp) : hp :=
  Hprop (λ h, ∃ h1 h2, h = h1 ∪ h2 ∧ h1 ##ₘ h2 ∧ P h1 ∧ Q h2) _.
Next Obligation.
  intros P Q h h' Hsub (h1 & h2 & -> & Hd & HP & HQ).
  exists h1, (h' ∖ h1). split_and!.
  - symmetry. apply map_difference_union. etrans; [|done]. apply map_union_subseteq_l.
  - by apply map_disjoint_difference_r1.
  - done.
  - eapply hprop_mono; [|done]. apply map_subseteq_spec. intros i x Hi.
    apply lookup_difference_Some. split.
    + eapply lookup_weaken; [|done]. rewrite lookup_union_r; [done|].
      eapply map_disjoint_Some_r; eauto.
    + eapply map_disjoint_Some_r; eauto.
Qed.
Program Definition hprop_wand (P Q : hp) : hp :=
  Hprop (λ h, ∀ h', h ##ₘ h' → P h' → Q (h ∪ h')) _.
Next Obligation.
  intros P Q h h' Hsub H h'' Hd HP. eapply hprop_mono; [|apply (H h'')].
  - by apply map_union_mono_r.
  - by eapply map_disjoint_weaken_l.
  - done.
Qed.
Definition hprop_persistently (P : hp) : hp := hprop_pure (hprop_entails hprop_emp P).
Definition hprop_later (P : hp) : hp := P.

Ltac hprop_solve :=
  repeat match goal with
  | H : hprop_entails _ _ |- _ => destruct H as [H]
  | H : ?P ≡@{hp} ?Q |- _ => destruct H as [H]
  end.

Lemma hprop_bi_mixin :
  BiMixin hprop_entails hprop_emp hprop_pure hprop_and hprop_or hprop_impl
    (@hprop_forall) (@hprop_exist) hprop_sep hprop_wand.
Proof.
  split.
  - split; [by intros P; constructor|intros P Q R [H1] [H2]; constructor; auto].
  - intros P Q. split.
    + intros [H]. split; constructor; naive_solver.
    + intros [[H1] [H2]]. constructor. naive_solver.
  - intros n φ φ' H. by constructor.
  - intros n P P' [HP] Q Q' [HQ]. constructor. unfold hprop_holds; cbn. naive_solver.
  - intros n P P' [HP] Q Q' [HQ]. constructor. unfold hprop_holds; cbn. naive_solver.
  - intros n P P' [HP] Q Q' [HQ]. constructor. intros h. cbv [hprop_holds hprop_impl].
    split; intros H h' Hs Hp; apply HQ, H; try done; by apply HP.
  - intros A n Φ Φ' H. constructor. intros h. cbv [hprop_holds hprop_forall].
    split; intros H' a; apply (H a), H'.
  - intros A n Φ Φ' H. constructor. intros h. cbv [hprop_holds hprop_exist].
    split; intros [a Ha]; exists a; apply (H a), Ha.
  - intros n P P' [HP] Q Q' [HQ]. constructor. intros h. cbv [hprop_holds hprop_sep].
    split; intros (h1 & h2 & ? & ? & ? & ?); exists h1, h2; split_and!; auto;
      by (apply HP || apply HQ).
  - intros n P P' [HP] Q Q' [HQ]. constructor. intros h. cbv [hprop_holds hprop_wand].
    split; intros H h' Hd Hp; apply HQ, H; auto; by apply HP.
  - intros φ P Hφ. by constructor.
  - intros φ P H. constructor. intros h Hφ. by apply (H Hφ).
  - intros P Q. constructor. by intros h [??].
  - intros P Q. constructor. by intros h [??].
  - intros P Q R [H1] [H2]. constructor. intros h HP. split; auto.
  - intros P Q. constructor. intros h HP. by left.
  - intros P Q. constructor. intros h HP. by right.
  - intros P Q R [H1] [H2]. constructor. intros h [?|?]; auto.
  - intros P Q R [H]. constructor. intros h HP h' Hs HQ. apply H. split; [|done].
    by eapply hprop_mono.
  - intros P Q R [H]. constructor. intros h [HP HQ]. by apply (H h HP h).
  - intros A P Ψ H. constructor. intros h HP a. by apply (H a).
  - intros A Ψ a. constructor. intros h H. apply H.
  - intros A Ψ a. constructor. intros h H. by exists a.
  - intros A Φ Q H. constructor. intros h [a Ha]. by apply (H a).
  - intros P P' Q Q' [H1] [H2]. constructor.
    intros h (h1 & h2 & ? & ? & ? & ?). exists h1, h2. split_and!; auto.
  - intros P. constructor. intros h HP. exists ∅, h.
    split_and!; [by rewrite left_id_L|apply map_disjoint_empty_l|done|done].
  - intros P. constructor. intros h (h1 & h2 & -> & Hd & _ & HP).
    eapply hprop_mono; [|done]. by apply map_union_subseteq_r.
  - intros P Q. constructor. intros h (h1 & h2 & -> & Hd & HP & HQ).
    exists h2, h1. split_and!; auto. by apply map_union_comm.
  - intros P Q R. constructor.
    intros h (h12 & h3 & -> & Hd & (h1 & h2 & -> & Hd' & HP & HQ) & HR).
    apply map_disjoint_union_l in Hd as [??].
    exists h1, (h2 ∪ h3). split_and!; auto.
    + by rewrite assoc_L.
    + by apply map_disjoint_union_r.
    + by exists h2, h3.
  - intros P Q R [H]. constructor. intros h HP h' Hd HQ. apply H. by exists h, h'.
  - intros P Q R [H]. constructor. intros h (h1 & h2 & -> & Hd & HP & HQ).
    by apply (H h1 HP h2).
Qed.

Lemma hprop_bi_persistently_mixin :
  BiPersistentlyMixin hprop_entails hprop_emp hprop_and (@hprop_exist)
    hprop_sep hprop_persistently.
Proof.
  eapply bi_persistently_mixin_discrete, hprop_bi_mixin; [done| |done].
  intros A Φ [H]. destruct (H ∅ I) as [x Hx]. exists x. constructor. intros h _.
  eapply hprop_mono; [|done]. apply map_empty_subseteq.
Qed.

Lemma hprop_bi_later_mixin :
  BiLaterMixin hprop_entails hprop_pure hprop_or hprop_impl
    (@hprop_forall) (@hprop_exist) hprop_sep hprop_persistently hprop_later.
Proof. eapply bi_later_mixin_id, hprop_bi_mixin. done. Qed.

Canonical Structure hpropI : bi :=
  {| bi_ofe_mixin := ofe_mixin_of hp;
     bi_bi_mixin := hprop_bi_mixin;
     bi_bi_persistently_mixin := hprop_bi_persistently_mixin;
     bi_bi_later_mixin := hprop_bi_later_mixin |}.

#[export] Instance hprop_affine : BiAffine hpropI.
Proof. intros P. constructor. done. Qed.
#[export] Instance hprop_pure_forall : BiPureForall hpropI.
Proof. intros A φ. constructor. intros h H. exact H. Qed.
End hprop_bi.
Arguments hpropI C : clear implicits.

(** ** Points-to, typed accesses and the weakest precondition *)

(** [get prj p] reads the part of [*p] that [prj] selects and [modify upd p]
    updates it: a struct of the wrong type has no such part. *)
Definition get {C B} (prj : C → option B) (p : ptr) : M (heap C) B :=
  c ← load p; match prj c with Some b => mret b | None => undef end.
Definition modify {C} (upd : C → option C) (p : ptr) : M (heap C) unit :=
  c ← load p; match upd c with Some c' => store p c' | None => undef end.

Section wp.
Context {C : Type}.
Implicit Types (P Q : hpropI C) (a : addr) (c : C).

Program Definition mapsto (a : addr) (c : C) : hpropI C := Hprop (λ h, h !! a = Some c) _.
Next Obligation. intros a c h h' Hs H. exact (lookup_weaken _ _ _ _ H Hs). Qed.

(** [wp m Φ]: from this part of the memory, whatever the rest of the memory,
    [m] returns (it neither gets stuck nor runs out of fuel), leaves the rest
    alone, and its result and the part it leaves satisfy [Φ]. *)
Program Definition wp {A} (m : M (heap C) A) (Φ : A → hpropI C) : hpropI C :=
  Hprop (λ h, ∀ hf, h ##ₘ hf → ∃ x h', m (h ∪ hf) = Ret (x, h' ∪ hf) ∧ h' ##ₘ hf ∧ Φ x h') _.
Next Obligation.
  intros A m Φ h h' Hsub H hf Hd.
  assert (h ##ₘ h' ∖ h) as Hd' by by apply map_disjoint_difference_r1.
  pose proof (map_difference_union h h' Hsub) as Hh'.
  revert Hd Hd' Hh'. generalize (h' ∖ h) as h2. intros h2 Hd Hd' <-.
  apply map_disjoint_union_l in Hd as [Hd1 Hd2].
  rewrite -(assoc_L (∪)). destruct (H (h2 ∪ hf)) as (x & h1 & -> & Hd1' & HΦ).
  { by apply map_disjoint_union_r. }
  apply map_disjoint_union_r in Hd1' as [??].
  exists x, (h1 ∪ h2). rewrite -(assoc_L (∪)). split_and!; [done| |].
  - by apply map_disjoint_union_l.
  - eapply hprop_mono; [|done]. by apply map_union_subseteq_l.
Qed.

Lemma wp_ret {A} (x : A) Φ : Φ x ⊢ wp (mret x) Φ.
Proof. constructor. intros h H hf Hd. by exists x, h. Qed.

Lemma wp_bind {A B} (m : M (heap C) A) (k : A → M (heap C) B) Φ :
  wp m (λ x, wp (k x) Φ) ⊢ wp (m ≫= k) Φ.
Proof.
  constructor. intros h H hf Hd. destruct (H hf Hd) as (x & h' & Hm & Hd' & Hk).
  rewrite (M_bind_Ret _ _ _ _ _ Hm). by apply Hk.
Qed.

Lemma wp_wand {A} (m : M (heap C) A) Φ Ψ :
  wp m Φ ⊢ (∀ x, Φ x -∗ Ψ x) -∗ wp m Ψ.
Proof.
  constructor. intros h H h2 Hd Hw hf Hd2. apply map_disjoint_union_l in Hd2 as [??].
  rewrite -(assoc_L (∪)). destruct (H (h2 ∪ hf)) as (x & h' & -> & Hd' & Hk).
  { by apply map_disjoint_union_r. }
  apply map_disjoint_union_r in Hd' as [??].
  exists x, (h' ∪ h2). rewrite -(assoc_L (∪)). split_and!; [done| |].
  - by apply map_disjoint_union_l.
  - rewrite map_union_comm //. by apply (Hw x).
Qed.

Lemma wp_ext {A} (m m' : M (heap C) A) Φ : (∀ h, m h = m' h) → wp m Φ ⊢ wp m' Φ.
Proof. intros Hm. constructor. intros h H hf Hd. rewrite -Hm. by apply H. Qed.

Lemma wp_assoc {A B D} (m : M (heap C) A) (f : A → M (heap C) B) (g : B → M (heap C) D) Φ :
  wp (m ≫= λ x, f x ≫= g) Φ ⊢ wp ((m ≫= f) ≫= g) Φ.
Proof. apply wp_ext. intros h. by rewrite M_bind_assoc. Qed.

Lemma wp_assoc_rev {A B D} (m : M (heap C) A) (f : A → M (heap C) B) (g : B → M (heap C) D) Φ :
  wp (m ≫= f) (λ y, wp (g y) Φ) ⊢ wp (m ≫= λ x, f x ≫= g) Φ.
Proof. rewrite wp_bind. apply wp_ext. intros h. by rewrite M_bind_assoc. Qed.

Lemma wp_ret_bind {A B} (x : A) (k : A → M (heap C) B) Φ : wp (k x) Φ ⊢ wp (mret x ≫= k) Φ.
Proof. by apply wp_ext. Qed.

Lemma wp_bind_ret_r {A} (m : M (heap C) A) Φ : wp (m ≫= mret) Φ ⊢ wp m Φ.
Proof. apply wp_ext. intros h. cbv [mbind M_bind]. by destruct (m h) as [[]| |]. Qed.

Lemma wp_load a c Φ : mapsto a c ⊢ (mapsto a c -∗ Φ c) -∗ wp (load (Some a)) Φ.
Proof.
  constructor. intros h Ha h2 Hd Hw hf Hd2. exists c, (h ∪ h2). split_and!; [|done|].
  - unfold load. by rewrite -(assoc_L (∪)) (lookup_union_Some_l _ _ _ _ Ha).
  - rewrite map_union_comm //. by apply (Hw h).
Qed.

Lemma wp_store a c c' Φ : mapsto a c ⊢ (mapsto a c' -∗ Φ tt) -∗ wp (store (Some a) c') Φ.
Proof.
  constructor. intros h Ha h2 Hd Hw hf Hd2. unfold hprop_holds in Ha. cbn in Ha.
  apply map_disjoint_union_l in Hd2 as [??].
  exists tt, (<[a:=c']> h ∪ h2). split_and!.
  - unfold store. rewrite -(assoc_L (∪)) (lookup_union_Some_l _ _ _ _ Ha).
    by rewrite insert_union_l (assoc_L (∪)).
  - apply map_disjoint_union_l. split; [|done]. apply map_disjoint_insert_l. split; [|done].
    by eapply map_disjoint_Some_l; [|eassumption].
  - assert (<[a:=c']> h ##ₘ h2) as Hd3.
    { apply map_disjoint_insert_l. split; [|done]. by eapply map_disjoint_Some_l; [|eassumption]. }
    rewrite map_union_comm //. apply (Hw (<[a:=c']> h)); [done|]. apply lookup_insert_eq.
Qed.

Lemma wp_get {B} (prj : C → option B) a c b Φ :
  prj c = Some b → mapsto a c ⊢ (mapsto a c -∗ Φ b) -∗ wp (get prj (Some a)) Φ.
Proof.
  iIntros (Hb) "Ha HΦ". iApply wp_bind. iApply (wp_load with "Ha"). iIntros "Ha".
  rewrite Hb. iApply wp_ret. by iApply "HΦ".
Qed.

Lemma wp_modify (upd : C → option C) a c c' Φ :
  upd c = Some c' → mapsto a c ⊢ (mapsto a c' -∗ Φ tt) -∗ wp (modify upd (Some a)) Φ.
Proof.
  iIntros (Hb) "Ha HΦ". iApply wp_bind. iApply (wp_load with "Ha"). iIntros "Ha".
  rewrite Hb. by iApply (wp_store with "Ha").
Qed.

Lemma mapsto_ne a c a' c' : mapsto a c ⊢ mapsto a' c' -∗ ⌜a ≠ a'⌝.
Proof.
  constructor. intros h Ha h2 Hd Ha' ->. exact (proj1 (map_disjoint_spec h h2) Hd _ _ _ Ha Ha').
Qed.

Lemma wp_with_local {A} c (body : addr → M (heap C) A) Φ :
  (∀ a, mapsto a c -∗ wp (body a) (λ r, (∃ c', mapsto a c') ∗ Φ r)) ⊢ wp (with_local c body) Φ.
Proof.
  constructor. intros h H hf Hd. unfold with_local.
  set (a := fresh_addr (h ∪ hf)).
  destruct (proj1 (lookup_union_None h hf a) (fresh_addr_fresh _)) as [Hh Hf].
  assert (h ##ₘ {[a := c]}) as Hda by by apply map_disjoint_singleton_r.
  destruct (H a {[a := c]} Hda) with (hf := hf) as (r & h' & Hr & Hd' & Hq).
  { apply lookup_singleton_eq. }
  { apply map_disjoint_union_l. split; [done|]. by apply map_disjoint_singleton_l. }
  destruct Hq as (h1 & h2 & -> & Hd12 & [c' Hc'] & HΦ). unfold hprop_holds in Hc'; cbn in Hc'.
  apply map_disjoint_union_l in Hd' as [Hd1 Hd2].
  exists r, (delete a h1 ∪ h2). split_and!.
  - cbv [mbind M_bind alloc]. fold a.
    replace (<[a:=c]> (h ∪ hf)) with (h ∪ {[a:=c]} ∪ hf).
    2:{ rewrite (map_union_comm h) // -(assoc_L (∪)). by rewrite insert_union_singleton_l. }
    rewrite Hr /dealloc. rewrite -(assoc_L (∪)) (lookup_union_Some_l _ _ _ _ Hc').
    rewrite delete_union. cbv [mret M_ret]. do 2 f_equal.
    rewrite (delete_id (h2 ∪ hf)); [by rewrite (assoc_L (∪))|].
    apply lookup_union_None. split; [by eapply map_disjoint_Some_l; [|eassumption]|done].
  - apply map_disjoint_union_l. split; [by apply map_disjoint_delete_l|done].
  - eapply hprop_mono; [|done]. apply map_union_subseteq_r. by apply map_disjoint_delete_l.
Qed.

(** What a proof in the logic says of a run on a concrete memory: the part of
    the memory outside the precondition's footprint is untouched. *)
Lemma wp_run {A} (m : M (heap C) A) P Φ h hf :
  (P ⊢ wp m Φ) → P h → h ##ₘ hf →
  ∃ x h', m (h ∪ hf) = Ret (x, h' ∪ hf) ∧ h' ##ₘ hf ∧ Φ x h'.
Proof. intros [H] HP Hd. by apply (H h HP hf). Qed.

Lemma wp_run_all {A} (m : M (heap C) A) P Φ h :
  (P ⊢ wp m Φ) → P h → ∃ x h', m h = Ret (x, h') ∧ Φ x h'.
Proof.
  intros H HP. destruct (wp_run m P Φ h ∅ H HP) as (x & h' & Hm & _ & HΦ).
  { apply map_disjoint_empty_r. }
  rewrite !(right_id_L ∅ (∪)) in Hm. eauto.
Qed.

(** The same as a triple: run on any memory of which a part satisfies [P], the
    program returns, leaves the rest of the memory as it was, and the part it
    leaves and its result satisfy [Φ]. *)
Definition triple {A} (P : hpropI C) (m : M (heap C) A) (Φ : A → hpropI C) : Prop :=
  ∀ h hf, P h → h ##ₘ hf →
  ∃ x h', m (h ∪ hf) = Ret (x, h' ∪ hf) ∧ h' ##ₘ hf ∧ Φ x h'.

Lemma wp_triple {A} (m : M (heap C) A) P Φ : (P ⊢ wp m Φ) → triple P m Φ.
Proof. intros H h hf HP Hd. by apply (wp_run m P Φ). Qed.

Lemma triple_run {A} P (m : M (heap C) A) Φ h :
  triple P m Φ → P h → ∃ v h', m h = Ret (v, h') ∧ Φ v h'.
Proof.
  intros H HP. destruct (H h ∅ HP (map_disjoint_empty_r h)) as (v & h' & Hm & _ & HΦ).
  rewrite !(right_id_L ∅ (∪)) in Hm. eauto.
Qed.

(** Satisfying a separating conjunction by a concrete memory. *)
Lemma sep_intro P Q h1 h2 : P h1 → Q h2 → h1 ##ₘ h2 → (P ∗ Q)%I (h1 ∪ h2).
Proof. intros HP HQ Hd. by exists h1, h2. Qed.
Lemma mapsto_singleton a c : mapsto a c {[a := c]}.
Proof. apply lookup_singleton_eq. Qed.

(** [wp_stuck m]: on this part of the memory [m] is undefined, whatever the
    rest. *)
Program Definition wp_stuck {A} (m : M (heap C) A) : hpropI C :=
  Hprop (λ h, ∀ hf, h ##ₘ hf → m (h ∪ hf) = Undef) _.
Next Obligation.
  intros A m h h' Hsub H hf Hd.
  assert (h ##ₘ h' ∖ h) as Hd' by by apply map_disjoint_difference_r1.
  pose proof (map_difference_union h h' Hsub) as Hh'.
  revert Hd Hd' Hh'. generalize (h' ∖ h) as h2. intros h2 Hd Hd' <-.
  apply map_disjoint_union_l in Hd as [Hd1 Hd2].
  rewrite -(assoc_L (∪)). apply H. by apply map_disjoint_union_r.
Qed.

Lemma wp_stuck_undef {A} : ⊢ wp_stuck (undef : M (heap C) A).
Proof. by constructor. Qed.

Lemma wp_stuck_bind {A B} (m : M (heap C) A) (k : A → M (heap C) B) :
  wp m (λ x, wp_stuck (k x)) ⊢ wp_stuck (m ≫= k).
Proof.
  constructor. intros h H hf Hd. destruct (H hf Hd) as (x & h' & Hm & Hd' & Hk).
  rewrite (M_bind_Ret _ _ _ _ _ Hm). by apply Hk.
Qed.

Lemma wp_stuck_here {A B} (m : M (heap C) A) (k : A → M (heap C) B) :
  wp_stuck m ⊢ wp_stuck (m ≫= k).
Proof. constructor. intros h H hf Hd. cbv [mbind M_bind]. by rewrite H. Qed.

Lemma wp_stuck_ext {A} (m m' : M (heap C) A) : (∀ h, m h = m' h) → wp_stuck m ⊢ wp_stuck m'.
Proof. intros Hm. constructor. intros h H hf Hd. rewrite -Hm. by apply H. Qed.

Lemma wp_stuck_assoc {A B D} (m : M (heap C) A) (f : A → M (heap C) B) (g : B → M (heap C) D) :
  wp_stuck (m ≫= λ x, f x ≫= g) ⊢ wp_stuck ((m ≫= f) ≫= g).
Proof. apply wp_stuck_ext. intros h. by rewrite M_bind_assoc. Qed.

Lemma wp_stuck_ret_bind {A B} (x : A) (k : A → M (heap C) B) :
  wp_stuck (k x) ⊢ wp_stuck (mret x ≫= k).
Proof. by apply wp_stuck_ext. Qed.

Lemma wp_stuck_run {A} (m : M (heap C) A) P h hf :
  (P ⊢ wp_stuck m) → P h → h ##ₘ hf → m (h ∪ hf) = Undef.
Proof. intros [H] HP Hd. by apply (H h HP hf). Qed.

Lemma wp_loop_S {L R} n (body : L → M (heap C) (L + R)) l Φ :
  wp (body l) (λ r, match r with inl l' => wp (loop n body l') Φ | inr x => Φ x end)
  ⊢ wp (loop (S n) body l) Φ.
Proof.
  iIntros "H". cbn [loop]. iApply wp_bind. iApply (wp_wand with "H").
  iIntros ([l'|x]) "H"; [done|]. by iApply wp_ret.
Qed.
End wp.

#[warnings="-closed-notation-not-level-0"]
Notation "'⦃' P '⦄' m '⦃' v , Q '⦄'" := (triple P%I m (λ v, Q%I))
  (at level 20, P, m, Q at level 200, v binder,
   format "'⦃'  P  '⦄' '/ '  m '/ ' '⦃'  v ,  Q  '⦄'").
Notation "a ↦ c" := (mapsto a c) (at level 20) : bi_scope.
#[global] Arguments loop : simpl never.
#[global] Typeclasses Opaque mapsto wp wp_stuck.

(** ** Proof-mode tactics for straight-line code *)

Section tactics.
Context {C : Type}.
Implicit Types Δ : envs (hpropI C).

Lemma tac_wp_get {A B} Δ i (prj : C → option B) a c b (k : B → M (heap C) A) Φ :
  envs_lookup i Δ = Some (false, mapsto a c) → prj c = Some b →
  envs_entails Δ (wp (k b) Φ) → envs_entails Δ (wp (get prj (Some a) ≫= k) Φ).
Proof.
  rewrite envs_entails_unseal=> Hi Hb HΔ. rewrite -wp_bind envs_lookup_split //= HΔ.
  iIntros "[Ha Hk]". by iApply (wp_get with "Ha").
Qed.

Lemma tac_wp_modify {A} Δ i (upd : C → option C) a c c' (k : unit → M (heap C) A) Φ :
  envs_lookup i Δ = Some (false, mapsto a c) → upd c = Some c' →
  match envs_simple_replace i false (Esnoc Enil i (mapsto a c')) Δ with
  | Some Δ' => envs_entails Δ' (wp (k tt) Φ)
  | None => False
  end →
  envs_entails Δ (wp (modify upd (Some a) ≫= k) Φ).
Proof.
  rewrite envs_entails_unseal=> Hi Hb. destruct (envs_simple_replace _ _ _) as [Δ'|] eqn:HΔ'; [|done].
  intros HΔ. rewrite -wp_bind envs_simple_replace_sound //; simpl; rewrite bi.sep_emp HΔ.
  iIntros "[Ha Hk]". by iApply (wp_modify with "Ha").
Qed.
End tactics.

#[global] Opaque get modify.

(** [wp_get] and [wp_modify] step over an access at the head of the program,
    finding the points-to in the context; [wp_norm] brings the first access to
    the head. The components redefine [wp_simpl], which computes with their
    data. *)
Ltac wp_simpl := idtac.
Ltac wp_norm :=
  cbn beta iota; wp_simpl;
  lazymatch goal with
  | |- envs_entails _ (wp (mbind ?g (mbind ?f ?m)) _) => iApply wp_assoc; wp_norm
  | |- envs_entails _ (wp (mbind ?k (mret ?x)) _) => iApply wp_ret_bind; wp_norm
  | |- _ => idtac
  end.
(** Make the program a [mbind] when it is a single access. *)
Ltac wp_tail :=
  lazymatch goal with
  | |- envs_entails _ (wp (mbind _ _) _) => idtac
  | |- envs_entails _ (wp _ _) => iApply wp_bind_ret_r
  end.
Ltac wp_get :=
  wp_norm; wp_tail; eapply tac_wp_get; [iAssumptionCore|reflexivity|wp_norm].
Ltac wp_modify :=
  wp_norm; wp_tail; eapply tac_wp_modify; [iAssumptionCore|reflexivity|pm_reduce; wp_norm].
Ltac wp_step := first [wp_get | wp_modify].
Ltac wp_steps := repeat wp_step.
(** A call of a function with a specification [P ⊢ wp m Φ], whose precondition
    the hypotheses [Hs] provide; [wp_pre] closes the precondition. *)
Ltac wp_pre := iFrame.
Tactic Notation "wp_call" open_constr(lem) "with" constr(Hs) :=
  wp_norm; wp_tail; iApply wp_bind;
  let spec := eval vm_compute in (String.append "[" (String.append Hs "]")) in
  iApply (wp_wand with spec); [iApply lem; try first [done | wp_pre]|].

(** The same for a program that is to be undefined. *)
Ltac stuck_norm :=
  cbn beta iota;
  lazymatch goal with
  | |- envs_entails _ (wp_stuck (mbind ?g (mbind ?f ?m))) => iApply wp_stuck_assoc; stuck_norm
  | |- envs_entails _ (wp_stuck (mbind ?k (mret ?x))) => iApply wp_stuck_ret_bind; stuck_norm
  | |- _ => idtac
  end.
Ltac stuck_here := stuck_norm; try iApply wp_stuck_here; by iApply wp_stuck_undef.
Tactic Notation "stuck_call" open_constr(lem) "with" constr(Hs) :=
  stuck_norm; iApply wp_stuck_bind;
  let spec := eval vm_compute in (String.append "[" (String.append Hs "]")) in
  iApply (wp_wand with spec); [iApply lem; try first [done | wp_pre]|].
