(* ===== verification/Trees.v ===== *)
(** * Binary trees, contexts and sorted lists

    The mathematical objects the two tree structures of [uv/tree.h] are
    related to: binary trees whose nodes are the addresses of the linked
    elements, one-hole contexts (a path from a position up to the root), and
    the strictly sorted list of elements a search tree stands for, with the
    operations a container promises on it. *)

From S2P Require Import Prelude HeapLogic.
From Stdlib Require Import Sorted.

(** ** Comparison functions

    The tree macros take a function [cmp] on two elements, which returns a
    negative number, zero or a positive number. It is not part of the header;
    what its users rely on is that its sign is a total preorder. *)

Class CmpOrder (cmp : addr → addr → Z) : Prop := {
  cmp_sgn_opp x y : Z.sgn (cmp y x) = (- Z.sgn (cmp x y))%Z;
  cmp_lt_trans x y z : (cmp x y < 0 → cmp y z < 0 → cmp x z < 0)%Z;
  cmp_eq_l x y z : cmp x y = 0%Z → Z.sgn (cmp x z) = Z.sgn (cmp y z);
}.

Section order.
Context {cmp : addr → addr → Z} `{!CmpOrder cmp}.
Local Open Scope Z_scope.

Lemma cmp_refl x : cmp x x = 0.
Proof. pose proof (cmp_sgn_opp x x). lia. Qed.

Lemma cmp_flip_lt x y : cmp x y < 0 ↔ cmp y x > 0.
Proof. pose proof (cmp_sgn_opp x y). lia. Qed.

Lemma cmp_flip_eq x y : cmp x y = 0 ↔ cmp y x = 0.
Proof. pose proof (cmp_sgn_opp x y). lia. Qed.

Lemma cmp_eq_r x y z : cmp y z = 0 → Z.sgn (cmp x y) = Z.sgn (cmp x z).
Proof.
  intros H. pose proof (cmp_eq_l y z x H). pose proof (cmp_sgn_opp y x).
  pose proof (cmp_sgn_opp z x). lia.
Qed.

Lemma cmp_le_lt_trans x y z : cmp x y ≤ 0 → cmp y z < 0 → cmp x z < 0.
Proof.
  intros H1 H2. destruct (decide (cmp x y = 0)) as [E|].
  - pose proof (cmp_eq_l x y z E). lia.
  - apply (cmp_lt_trans x y); lia.
Qed.

Lemma cmp_lt_le_trans x y z : cmp x y < 0 → cmp y z ≤ 0 → cmp x z < 0.
Proof.
  intros H1 H2. destruct (decide (cmp y z = 0)) as [E|].
  - pose proof (cmp_eq_r x y z E). lia.
  - apply (cmp_lt_trans x y); lia.
Qed.

Lemma cmp_gt_lt_trans x y z : cmp x y > 0 → cmp z y < 0 → cmp x z > 0.
Proof. intros ??. apply cmp_flip_lt, (cmp_lt_trans z y); [done|]. by apply cmp_flip_lt, Z.lt_gt, Z.gt_lt. Qed.
End order.

(** ** Sorted lists *)

Definition cmp_lt (cmp : addr → addr → Z) (x y : addr) : Prop := (cmp x y < 0)%Z.
Abbreviation sorted cmp := (StronglySorted (cmp_lt cmp)).

Section sorted_lists.
Context (cmp : addr → addr → Z).

(** The element equal to [x], the least element not below [x]. *)
Fixpoint sl_find (x : addr) (l : list addr) : option addr :=
  match l with
  | [] => None
  | y :: l => if (cmp x y =? 0)%Z then Some y else sl_find x l
  end.
Fixpoint sl_nfind (x : addr) (l : list addr) : option addr :=
  match l with
  | [] => None
  | y :: l => if (cmp x y <=? 0)%Z then Some y else sl_nfind x l
  end.
Fixpoint sl_insert (x : addr) (l : list addr) : list addr :=
  match l with
  | [] => [x]
  | y :: l' => if (cmp x y <? 0)%Z then x :: l else y :: sl_insert x l'
  end.
Definition sl_remove (x : addr) (l : list addr) : list addr := filter (.≠ x) l.
(** The element after [x]. *)
Fixpoint sl_next (x : addr) (l : list addr) : option addr :=
  match l with
  | [] => None
  | y :: l => if decide (y = x) then head l else sl_next x l
  end.

Lemma sorted_app l1 l2 :
  sorted cmp (l1 ++ l2) ↔
  sorted cmp l1 ∧ sorted cmp l2 ∧ (∀ x y, x ∈ l1 → y ∈ l2 → cmp_lt cmp x y).
Proof.
  induction l1 as [|x l1 IH]; cbn.
  - split; [intros; split_and!; [constructor|done|set_solver]|naive_solver].
  - split.
    + intros H. inversion H as [|?? Hs Hf]; subst. apply IH in Hs as (?&?&?).
      apply Forall_app in Hf as [? Hf]. rewrite ->Forall_forall in Hf.
      split_and!; [by constructor|done|]. intros ?? [->|?]%elem_of_cons ?; auto.
    + intros (H1 & H2 & H12). inversion H1; subst. constructor.
      * apply IH. split_and!; auto. intros. apply H12; set_solver.
      * apply Forall_app. split; [done|]. apply Forall_forall. intros. apply H12; set_solver.
Qed.

Lemma sorted_cons x l : sorted cmp (x :: l) ↔ sorted cmp l ∧ (∀ y, y ∈ l → cmp_lt cmp x y).
Proof.
  split.
  - intros H. inversion H as [|?? Hs Hf]; subst. rewrite ->Forall_forall in Hf. done.
  - intros [? ?]. constructor; [done|]. by apply Forall_forall.
Qed.

Lemma sorted_mid l1 a l2 :
  sorted cmp (l1 ++ a :: l2) ↔
  sorted cmp l1 ∧ sorted cmp l2 ∧ (∀ x, x ∈ l1 → cmp_lt cmp x a) ∧
  (∀ y, y ∈ l2 → cmp_lt cmp a y) ∧ (∀ x y, x ∈ l1 → y ∈ l2 → cmp_lt cmp x y).
Proof. rewrite sorted_app sorted_cons. set_solver. Qed.
End sorted_lists.

Lemma NoDup_mid_unique {A} (l1 l1' l2 l2' : list A) (a : A) :
  NoDup (l1 ++ a :: l2) → l1 ++ a :: l2 = l1' ++ a :: l2' → l1 = l1' ∧ l2 = l2'.
Proof.
  intros Hnd E. assert (NoDup (l1' ++ a :: l2')) as Hnd' by by rewrite -E.
  apply NoDup_app in Hnd as (_&H1&_), Hnd' as (_&H1'&_).
  apply app_eq_inv in E as [(m & -> & Em)|(m & -> & Em)]; destruct m as [|y m]; cbn in Em.
  1, 3: by rewrite app_nil_r; injection Em as ->.
  all: injection Em as -> Em; exfalso; rewrite Em in H1 H1'; set_solver.
Qed.

Section sorted_list_ops.
Context {cmp : addr → addr → Z} `{!CmpOrder cmp}.
Implicit Types (x y a : addr) (l : list addr).

(** [x] lies strictly between the elements of [l1] and those of [l2]. *)
Definition splits (cmp : addr → addr → Z) x l1 l2 : Prop :=
  (∀ y, y ∈ l1 → (cmp x y > 0)%Z) ∧ (∀ y, y ∈ l2 → (cmp x y < 0)%Z).

Lemma splits_nil x : splits cmp x [] [].
Proof. split; set_solver. Qed.

Lemma sl_find_eq x l1 a l2 :
  (∀ y, y ∈ l1 → (cmp x y > 0)%Z) → cmp x a = 0%Z → sl_find cmp x (l1 ++ a :: l2) = Some a.
Proof.
  induction l1 as [|y l1 IH]; cbn; intros H1 Ha.
  - by rewrite Ha.
  - destruct (Z.eqb_spec (cmp x y) 0) as [E|].
    + specialize (H1 y ltac:(left)). lia.
    + apply IH; [set_solver|done].
Qed.

Lemma sl_find_splits x l1 l2 : splits cmp x l1 l2 → sl_find cmp x (l1 ++ l2) = None.
Proof.
  intros [H1 H2]. assert (∀ y, y ∈ l1 ++ l2 → cmp x y ≠ 0%Z) as H.
  { intros y [Hy|Hy]%elem_of_app; [specialize (H1 y Hy)|specialize (H2 y Hy)]; lia. }
  clear H1 H2. induction (l1 ++ l2) as [|y l IH]; cbn; [done|].
  destruct (Z.eqb_spec (cmp x y) 0) as [E|]; [by destruct (H y); [left|]|].
  apply IH. set_solver.
Qed.

Lemma sl_nfind_eq x l1 a l2 :
  (∀ y, y ∈ l1 → (cmp x y > 0)%Z) → (cmp x a ≤ 0)%Z → sl_nfind cmp x (l1 ++ a :: l2) = Some a.
Proof.
  induction l1 as [|y l1 IH]; cbn; intros H1 Ha.
  - by destruct (Z.leb_spec (cmp x a) 0); [|lia].
  - destruct (Z.leb_spec (cmp x y) 0).
    + specialize (H1 y ltac:(left)). lia.
    + apply IH; [set_solver|done].
Qed.

Lemma sl_nfind_splits x l1 l2 : splits cmp x l1 l2 → sl_nfind cmp x (l1 ++ l2) = head l2.
Proof.
  intros [H1 H2]. destruct l2 as [|a l2].
  - rewrite app_nil_r. clear H2. induction l1 as [|y l1 IH]; cbn; [done|].
    destruct (Z.leb_spec (cmp x y) 0); [|apply IH; set_solver].
    specialize (H1 y ltac:(left)). lia.
  - rewrite sl_nfind_eq //. specialize (H2 a ltac:(left)). lia.
Qed.

Lemma sl_insert_splits x l1 l2 :
  splits cmp x l1 l2 → sl_insert cmp x (l1 ++ l2) = l1 ++ x :: l2.
Proof.
  intros [H1 H2]. induction l1 as [|y l1 IH]; cbn.
  - destruct l2 as [|y l2]; [done|]. cbn. specialize (H2 y ltac:(left)).
    by destruct (Z.ltb_spec (cmp x y) 0); [|lia].
  - pose proof (H1 y ltac:(left)). destruct (Z.ltb_spec (cmp x y) 0); [lia|].
    f_equal. apply IH. set_solver.
Qed.

Lemma sorted_insert_splits x l1 l2 :
  splits cmp x l1 l2 → sorted cmp (l1 ++ l2) → sorted cmp (l1 ++ x :: l2).
Proof.
  intros [H1 H2] (?&?&?)%sorted_app. apply sorted_mid. split_and!; auto.
  intros y Hy%H1. unfold cmp_lt. apply cmp_flip_lt. lia.
Qed.

Lemma sorted_NoDup l : sorted cmp l → NoDup l.
Proof.
  induction l as [|x l IH]; [constructor|]. intros [? H]%sorted_cons.
  constructor; [|auto]. intros Hx%H. unfold cmp_lt in Hx. rewrite cmp_refl in Hx. lia.
Qed.

Lemma filter_all (P : addr → Prop) `{!∀ x, Decision (P x)} l :
  (∀ x, x ∈ l → P x) → filter P l = l.
Proof.
  induction l as [|x l IH]; intros HP; [done|].
  rewrite filter_cons_True; last by (apply HP; left).
  f_equal. apply IH. intros y ?. apply HP. by right.
Qed.

Lemma sl_remove_mid a l1 l2 : NoDup (l1 ++ a :: l2) → sl_remove a (l1 ++ a :: l2) = l1 ++ l2.
Proof.
  intros (?&Hd&[??]%NoDup_cons)%NoDup_app. unfold sl_remove.
  rewrite filter_app filter_cons_False; last by (intros Hne; by apply Hne).
  rewrite !filter_all //; intros y Hy ->; [done|].
  by apply (Hd a Hy); left.
Qed.

Lemma sorted_remove a l1 l2 : sorted cmp (l1 ++ a :: l2) → sorted cmp (l1 ++ l2).
Proof. intros (?&?&?&?&?)%sorted_mid. by apply sorted_app. Qed.

Lemma sl_next_mid a l1 l2 : a ∉ l1 → sl_next a (l1 ++ a :: l2) = head l2.
Proof.
  induction l1 as [|y l1 IH]; cbn; intros H; [by rewrite decide_True|].
  rewrite decide_False; set_solver.
Qed.
End sorted_list_ops.

(** ** Trees *)

Inductive tree (B : Type) : Type :=
| Leaf
| Node (b : B) (l : tree B) (a : addr) (r : tree B).
Arguments Leaf {B}.
Arguments Node {B} b l a r.

#[export] Instance tree_eq_dec {B} `{EqDecision B} : EqDecision (tree B).
Proof. solve_decision. Defined.

(** A frame of a context: the hole is the left ([L]) or the right ([R]) child
    of the frame's node, whose other child is given. *)
Inductive dir : Type := L | R.
Record frame (B : Type) := Frame { fdir : dir; fdec : B; faddr : addr; fsib : tree B }.
Arguments Frame {B} fdir fdec faddr fsib.
Arguments fdir {B} _.
Arguments fdec {B} _.
Arguments faddr {B} _.
Arguments fsib {B} _.
(** Innermost frame first. *)
Abbreviation ctx B := (list (frame B)).

Section trees.
Context {B : Type}.
Implicit Types (t l r : tree B) (k : ctx B).

Fixpoint inorder t : list addr :=
  match t with Leaf => [] | Node _ l a r => inorder l ++ a :: inorder r end.
Fixpoint height t : nat :=
  match t with Leaf => 0 | Node _ l _ r => S (Nat.max (height l) (height r)) end.
Definition size t : nat := length (inorder t).
(** The pointer to the tree's root. *)
Definition root t : ptr := match t with Leaf => None | Node _ _ a _ => Some a end.

Definition fill (f : frame B) t : tree B :=
  match fdir f with
  | L => Node (fdec f) t (faddr f) (fsib f)
  | R => Node (fdec f) (fsib f) (faddr f) t
  end.
Fixpoint plug k t : tree B := match k with [] => t | f :: k => plug k (fill f t) end.
(** The parent pointer of the hole. *)
Definition top k : ptr := match k with [] => None | f :: _ => Some (faddr f) end.

(** The elements before and after the hole. *)
Fixpoint lefts k : list addr :=
  match k with
  | [] => []
  | f :: k => match fdir f with L => lefts k | R => lefts k ++ inorder (fsib f) ++ [faddr f] end
  end.
Fixpoint rights k : list addr :=
  match k with
  | [] => []
  | f :: k => match fdir f with L => faddr f :: inorder (fsib f) ++ rights k | R => rights k end
  end.

Lemma inorder_plug k t : inorder (plug k t) = lefts k ++ inorder t ++ rights k.
Proof.
  revert t. induction k as [|[[] b a s] k IH]; intros t; cbn; [by rewrite app_nil_r|..];
    rewrite IH; cbn; by rewrite -?app_assoc /= -?app_assoc.
Qed.

Lemma plug_app k1 k2 t : plug (k1 ++ k2) t = plug k2 (plug k1 t).
Proof. revert t. induction k1; intros t; cbn; auto. Qed.

Lemma lefts_app k1 k2 : lefts (k1 ++ k2) = lefts k2 ++ lefts k1.
Proof.
  induction k1 as [|[[] b a s] k IH]; cbn; [by rewrite app_nil_r|done|].
  by rewrite IH -app_assoc.
Qed.

Lemma rights_app k1 k2 : rights (k1 ++ k2) = rights k1 ++ rights k2.
Proof.
  induction k1 as [|[[] b a s] k IH]; cbn; [done| |done]. by rewrite IH -app_assoc.
Qed.

Lemma size_Node b l a r : size (Node b l a r) = S (size l + size r).
Proof. unfold size. cbn. rewrite length_app /=. lia. Qed.

Lemma height_le_size t : height t ≤ size t.
Proof. induction t; [done|]. rewrite size_Node. cbn. lia. Qed.

Lemma size_plug k t : size (plug k t) = length (lefts k) + size t + length (rights k).
Proof. unfold size. rewrite inorder_plug !length_app. lia. Qed.

Lemma length_ctx_le k t : length k + size t ≤ size (plug k t).
Proof.
  revert t. induction k as [|f k IH]; intros t; cbn [length plug]; [lia|].
  specialize (IH (fill f t)). unfold fill in *. destruct (fdir f); rewrite size_Node in IH; lia.
Qed.

Lemma length_ctx_height k t : length k + height t ≤ height (plug k t).
Proof.
  revert t. induction k as [|f k IH]; intros t; cbn [length plug]; [lia|].
  specialize (IH (fill f t)). unfold fill in *. destruct (fdir f); cbn [height] in IH; lia.
Qed.

(** The root of the whole tree is outside the hole. *)
Lemma root_plug k t : k ≠ [] → ∃ x, root (plug k t) = Some x ∧ x ∈ lefts k ++ rights k.
Proof.
  revert t. induction k as [|f k IH]; intros t Hk; [done|]. destruct k as [|g k].
  - exists (faddr f). cbn. unfold fill. destruct (fdir f); set_solver.
  - destruct (IH (fill f t)) as (x & Hx & Hin); [done|]. exists x. split; [done|].
    revert Hin. generalize (g :: k). intros k'. cbn. destruct (fdir f); set_solver.
Qed.

Lemma root_plug_ne k t : k ≠ [] → NoDup (inorder (plug k t)) → root t ≠ root (plug k t).
Proof.
  intros Hk Hnd. destruct (root_plug k t Hk) as (x & -> & Hx). rewrite inorder_plug in Hnd.
  destruct t as [|b l a r]; cbn; [done|]. intros [= ->]. cbn in Hnd.
  apply NoDup_app in Hnd as (_ & Hl & Hnd). apply NoDup_app in Hnd as (_ & Hr & _). set_solver.
Qed.

(** Every element of the tree is the root of a subtree in some context. *)
Lemma focus t a : a ∈ inorder t → ∃ k b l r, t = plug k (Node b l a r).
Proof.
  cut (∀ k, a ∈ inorder t → ∃ k' b l r, plug k t = plug k' (Node b l a r)).
  { intros H. apply (H []). }
  induction t as [|b l IHl x r IHr]; intros k; cbn; [by intros ?%elem_of_nil|].
  intros [?|[->|?]%elem_of_cons]%elem_of_app.
  - by apply (IHl (Frame L b x r :: k)).
  - by exists k, b, l, r.
  - by apply (IHr (Frame R b x l :: k)).
Qed.
End trees.

Lemma sl_remove_plug {B} (k : ctx B) b l a r :
  NoDup (inorder (plug k (Node b l a r))) →
  sl_remove a (inorder (plug k (Node b l a r))) = lefts k ++ inorder l ++ inorder r ++ rights k.
Proof.
  rewrite inorder_plug /= -app_assoc /= (assoc_L (++) (lefts k)) => ?.
  by rewrite sl_remove_mid // -app_assoc.
Qed.

#[global] Arguments size : simpl never.
#[global] Arguments plug : simpl nomatch.
Create Rewrite HintDb trees.
#[export] Hint Rewrite @inorder_plug @size_Node @size_plug : trees.

(** Normal form of concatenations. *)
Ltac list_norm :=
  repeat first [ rewrite -app_assoc | progress cbn [app inorder lefts rights fill fdir fdec faddr fsib] ].

(** ** Searching *)

Section search.
Context {cmp : addr → addr → Z} `{!CmpOrder cmp} {B : Type}.
Implicit Types (t l r : tree B) (k : ctx B) (x a : addr).

(** The hole of [k] is where [x] belongs. *)
Definition ctx_splits x k : Prop := splits cmp x (lefts k) (rights k).

Lemma sorted_plug_node k b l a r :
  sorted cmp (inorder (plug k (Node b l a r))) →
  (∀ y, y ∈ lefts k ++ inorder l → cmp_lt cmp y a) ∧
  (∀ y, y ∈ inorder r ++ rights k → cmp_lt cmp a y).
Proof.
  rewrite inorder_plug /= -app_assoc /= app_assoc. intros (_&_&?&?&_)%sorted_mid. done.
Qed.

Lemma ctx_splits_L x k b l a r :
  ctx_splits x k → sorted cmp (inorder (plug k (Node b l a r))) → (cmp x a < 0)%Z →
  ctx_splits x (Frame L b a r :: k).
Proof.
  intros [H1 H2] [_ Hs]%sorted_plug_node Ha. split; [done|]. cbn. intros y [->|Hy]%elem_of_cons; [done|].
  apply (cmp_lt_trans x a y); [done|]. by apply Hs.
Qed.

Lemma ctx_splits_R x k b l a r :
  ctx_splits x k → sorted cmp (inorder (plug k (Node b l a r))) → (cmp x a > 0)%Z →
  ctx_splits x (Frame R b a l :: k).
Proof.
  intros [H1 H2] [Hs _]%sorted_plug_node Ha. split; [|done]. cbn.
  intros y [Hy|[Hy| ->%list_elem_of_singleton]%elem_of_app]%elem_of_app; [by apply H1| |done].
  apply (cmp_gt_lt_trans x a y); [done|]. apply Hs. set_solver.
Qed.

(** At a node equal to [x], and at a leaf, the search is over. *)
Lemma sl_find_node x k b l a r :
  sorted cmp (inorder (plug k (Node b l a r))) → cmp x a = 0%Z →
  sl_find cmp x (inorder (plug k (Node b l a r))) = Some a.
Proof.
  intros [Hs _]%sorted_plug_node Ha. rewrite inorder_plug /= -app_assoc /= app_assoc.
  apply sl_find_eq; [|done]. intros y Hy%Hs. unfold cmp_lt in Hy.
  pose proof (cmp_eq_l x a y Ha). apply cmp_flip_lt in Hy. lia.
Qed.

Lemma sl_nfind_node x k b l a r :
  sorted cmp (inorder (plug k (Node b l a r))) → cmp x a = 0%Z →
  sl_nfind cmp x (inorder (plug k (Node b l a r))) = Some a.
Proof.
  intros [Hs _]%sorted_plug_node Ha. rewrite inorder_plug /= -app_assoc /= app_assoc.
  apply sl_nfind_eq; [|lia]. intros y Hy%Hs. unfold cmp_lt in Hy.
  pose proof (cmp_eq_l x a y Ha). apply cmp_flip_lt in Hy. lia.
Qed.

Lemma sl_find_leaf x k : ctx_splits x k → sl_find cmp x (inorder (plug (B:=B) k Leaf)) = None.
Proof. intros H. rewrite inorder_plug /=. by apply sl_find_splits. Qed.

Lemma sl_nfind_leaf x k :
  ctx_splits x k → sl_nfind cmp x (inorder (plug (B:=B) k Leaf)) = head (rights k).
Proof. intros H. rewrite inorder_plug /=. by apply sl_nfind_splits. Qed.

Lemma sl_insert_leaf x k :
  ctx_splits x k → sl_insert cmp x (inorder (plug (B:=B) k Leaf)) = lefts k ++ x :: rights k.
Proof. intros H. rewrite inorder_plug /=. by apply sl_insert_splits. Qed.
End search.
