(* ===== verification/OrderedSet.v ===== *)
(** * The two trees as one abstract container

    An interface for an intrusive ordered set, which the red-black trees and
    the splay trees of [uv/tree.h] both implement, and the theorem, proved
    against the interface, that a sequence of operations returns what it
    returns on a sorted list. *)

From S2P Require Import Prelude HeapLogic Trees.
From stdpp Require Import gmap.

(** ** Operations on the abstract state *)

Section sortedness.
Context {cmp : addr → addr → Z} `{!CmpOrder cmp}.
Implicit Types (x y : addr) (xs : list addr).

Lemma sl_find_elem x xs : x ∈ xs → sorted cmp xs → sl_find cmp x xs = Some x.
Proof.
  intros (l1 & l2 & ->)%list_elem_of_split Hs. apply sl_find_eq; [|apply cmp_refl].
  apply sorted_mid in Hs as (_&_&Hl&_). intros y Hy%Hl. apply Z.lt_gt, Z.gt_lt.
  by apply cmp_flip_lt.
Qed.

Lemma elem_of_sl_insert x y xs : y ∈ sl_insert cmp x xs ↔ y = x ∨ y ∈ xs.
Proof.
  induction xs as [|z xs IH]; cbn; [set_solver|]. destruct (Z.ltb_spec (cmp x z) 0); set_solver.
Qed.

Lemma elem_of_sl_remove x y xs : y ∈ sl_remove x xs ↔ y ≠ x ∧ y ∈ xs.
Proof. unfold sl_remove. by rewrite list_elem_of_filter. Qed.

Lemma sorted_insert x xs :
  sorted cmp xs → sl_find cmp x xs = None → sorted cmp (sl_insert cmp x xs).
Proof.
  induction xs as [|y xs IH]; cbn; intros Hs Hx; [by repeat constructor|].
  apply sorted_cons in Hs as Hs'. destruct Hs' as [Hs' Hy].
  destruct (Z.eqb_spec (cmp x y) 0); [done|]. destruct (Z.ltb_spec (cmp x y) 0) as [Hlt|].
  - apply sorted_cons. split; [done|]. intros z [->|Hz%Hy]%elem_of_cons; [done|].
    by apply (cmp_lt_trans x y z).
  - apply sorted_cons. split; [auto|]. intros z [->|Hz]%elem_of_sl_insert; [|auto].
    apply cmp_flip_lt. lia.
Qed.

Lemma sorted_sl_remove x xs : sorted cmp xs → sorted cmp (sl_remove x xs).
Proof.
  unfold sl_remove. induction xs as [|y xs IH]; [done|]. intros [Hs Hy]%sorted_cons.
  destruct (decide (y ≠ x)).
  - rewrite filter_cons_True //. apply sorted_cons. split; [auto|].
    intros z [_ ?]%list_elem_of_filter. auto.
  - rewrite filter_cons_False //. auto.
Qed.
End sortedness.

Inductive set_op : Type :=
| OpInsert (x : addr)
| OpRemove (x : addr)
| OpFind (x : addr)
| OpNext (x : addr)
| OpMin
| OpMax.

#[export] Instance set_op_eq_dec : EqDecision set_op.
Proof. solve_decision. Defined.

Section abstract.
Context (cmp : addr → addr → Z).

(** One operation on the sorted list of the elements: the pointer it returns
    and the new list. Removing an element that is not there, asking for its
    successor, and inserting an object that is not one of the caller's [pool]
    are errors of the caller. *)
Definition spec_op (pool : gset addr) (o : set_op) (xs : list addr) : option (ptr * list addr) :=
  match o with
  | OpInsert x =>
      if decide (x ∈ pool) then
        match sl_find cmp x xs with
        | Some y => Some (Some y, xs)
        | None => Some (None, sl_insert cmp x xs)
        end
      else None
  | OpRemove x => if decide (x ∈ xs) then Some (Some x, sl_remove x xs) else None
  | OpFind x => Some (sl_find cmp x xs, xs)
  | OpNext x => if decide (x ∈ xs) then Some (sl_next x xs, xs) else None
  | OpMin => Some (list.head xs, xs)
  | OpMax => Some (last xs, xs)
  end.

Fixpoint spec_run (pool : gset addr) (os : list set_op) (xs : list addr) :
    option (list ptr * list addr) :=
  match os with
  | [] => Some ([], xs)
  | o :: os =>
      '(v, xs) ← spec_op pool o xs;
      '(vs, xs) ← spec_run pool os xs;
      Some (v :: vs, xs)
  end.
End abstract.

(** ** The interface *)

Class OrderedSet (C : Type) (cmp : addr → addr → Z) := {
  os_own : addr → list addr → hpropI C;
  os_elem : addr → hpropI C;
  os_insert : nat → addr → addr → M (heap C) ptr;
  os_remove : nat → addr → addr → M (heap C) ptr;
  os_find : nat → addr → addr → M (heap C) ptr;
  os_next : nat → addr → addr → M (heap C) ptr;
  os_min : nat → addr → M (heap C) ptr;
  os_max : nat → addr → M (heap C) ptr;
  os_sorted head xs : os_own head xs ⊢ ⌜sorted cmp xs⌝;
  os_insert_spec fuel head xs x : length xs < fuel →
    os_own head xs ∗ (match sl_find cmp x xs with Some _ => emp | None => os_elem x end) ⊢
    wp (os_insert fuel head x)
       (λ v, ⌜v = sl_find cmp x xs⌝ ∗
             os_own head (match sl_find cmp x xs with Some _ => xs | None => sl_insert cmp x xs end));
  os_remove_spec fuel head xs x : length xs < fuel → x ∈ xs →
    os_own head xs ⊢
    wp (os_remove fuel head x) (λ v, ⌜v = Some x⌝ ∗ os_own head (sl_remove x xs) ∗ os_elem x);
  os_find_spec fuel head xs x : length xs < fuel →
    os_own head xs ⊢ wp (os_find fuel head x) (λ v, ⌜v = sl_find cmp x xs⌝ ∗ os_own head xs);
  os_next_spec fuel head xs x : length xs < fuel → x ∈ xs →
    os_own head xs ⊢ wp (os_next fuel head x) (λ v, ⌜v = sl_next x xs⌝ ∗ os_own head xs);
  os_min_spec fuel head xs : length xs < fuel →
    os_own head xs ⊢ wp (os_min fuel head) (λ v, ⌜v = list.head xs⌝ ∗ os_own head xs);
  os_max_spec fuel head xs : length xs < fuel →
    os_own head xs ⊢ wp (os_max fuel head) (λ v, ⌜v = last xs⌝ ∗ os_own head xs);
}.
#[global] Hint Mode OrderedSet ! - : typeclass_instances.

(** ** Clients of the interface *)

Section client.
Context {C : Type} {cmp : addr → addr → Z} `{!CmpOrder cmp} `{!OrderedSet C cmp}.
Implicit Types (pool : gset addr) (xs : list addr) (o : set_op).

Definition run_op (fuel : nat) (head : addr) o : M (heap C) ptr :=
  match o with
  | OpInsert x => os_insert (cmp:=cmp) fuel head x
  | OpRemove x => os_remove (cmp:=cmp) fuel head x
  | OpFind x => os_find (cmp:=cmp) fuel head x
  | OpNext x => os_next (cmp:=cmp) fuel head x
  | OpMin => os_min (cmp:=cmp) fuel head
  | OpMax => os_max (cmp:=cmp) fuel head
  end.

Fixpoint run_ops (fuel : nat) (head : addr) (os : list set_op) : M (heap C) (list ptr) :=
  match os with
  | [] => mret []
  | o :: os => v ← run_op fuel head o; vs ← run_ops fuel head os; mret (v :: vs)
  end.

(** The container holds [xs], the caller the other elements of the pool. *)
Definition set_state pool head xs : hpropI C :=
  ⌜∀ x, x ∈ xs → x ∈ pool⌝ ∗ os_own head xs ∗ [∗ set] x ∈ (pool ∖ list_to_set xs), os_elem x.

Lemma set_state_length pool head xs : set_state pool head xs ⊢ ⌜length xs ≤ base.size pool⌝.
Proof.
  iIntros "(%Hsub & H & _)". iDestruct (os_sorted with "H") as %Hs. iPureIntro.
  rewrite -(size_list_to_set (C:=gset addr) xs); [|by eapply sorted_NoDup].
  apply subseteq_size. intros x Hx%elem_of_list_to_set. auto.
Qed.

(** Each operation refines the operation on the list. *)
Lemma run_op_spec fuel head pool o xs v xs' :
  base.size pool < fuel → spec_op cmp pool o xs = Some (v, xs') →
  set_state pool head xs ⊢ wp (run_op fuel head o) (λ r, ⌜r = v⌝ ∗ set_state pool head xs').
Proof.
  iIntros (Hf Ho) "H". iDestruct (set_state_length with "H") as %Hlen.
  iDestruct "H" as "(%Hsub & H & Hp)". destruct o as [x|x|x|x| |]; cbn in Ho |- *.
  - case_decide as Hx; [|done]. iDestruct (os_sorted with "H") as %Hs.
    destruct (sl_find cmp x xs) as [y|] eqn:Ex.
    + injection Ho as <- <-. iApply (wp_wand with "[H]").
      { iApply (os_insert_spec fuel head xs x); [lia|]. rewrite Ex. by iFrame. }
      iIntros (r) "[-> H]". rewrite Ex. by iFrame.
    + injection Ho as <- <-.
      assert (x ∉ xs) as Hnx by (intros Hin; by rewrite sl_find_elem in Ex).
      rewrite (big_sepS_delete _ _ x); [|set_solver]. iDestruct "Hp" as "[Hx Hp]".
      iApply (wp_wand with "[H Hx]").
      { iApply (os_insert_spec fuel head xs x); [lia|]. rewrite Ex. by iFrame. }
      iIntros (r) "[-> H]". rewrite Ex. iFrame. iSplit; [done|]. iSplit.
      { iPureIntro. intros y [->|?]%elem_of_sl_insert; auto. }
      iApply (big_sepS_subseteq with "Hp"). intros y.
      rewrite !elem_of_difference !elem_of_list_to_set elem_of_sl_insert elem_of_singleton. tauto.
  - case_decide as Hx; [|done]. injection Ho as <- <-.
    iApply (wp_wand with "[H]"); [iApply (os_remove_spec fuel head xs x); [lia|done..]|].
    iIntros (r) "(-> & H & Hx)". iFrame. iSplit; [done|]. iSplit.
    { iPureIntro. intros y [_ ?]%elem_of_sl_remove; auto. }
    iAssert ([∗ set] y ∈ ({[x]} ∪ pool ∖ list_to_set xs), os_elem y)%I with "[Hp Hx]" as "Hp".
    { rewrite big_sepS_union; [|set_solver]. rewrite big_sepS_singleton. iFrame. }
    iApply (big_sepS_subseteq with "Hp"). intros y.
    rewrite elem_of_union !elem_of_difference !elem_of_list_to_set elem_of_sl_remove elem_of_singleton.
    destruct (decide (y = x)); tauto.
  - injection Ho as <- <-. iApply (wp_wand with "[H]"); [iApply (os_find_spec fuel head xs x); [lia|done]|].
    iIntros (r) "[-> H]". by iFrame.
  - case_decide as Hx; [|done]. injection Ho as <- <-.
    iApply (wp_wand with "[H]"); [iApply (os_next_spec fuel head xs x); [lia|done..]|].
    iIntros (r) "[-> H]". by iFrame.
  - injection Ho as <- <-. iApply (wp_wand with "[H]"); [iApply (os_min_spec fuel head xs); [lia|done]|].
    iIntros (r) "[-> H]". by iFrame.
  - injection Ho as <- <-. iApply (wp_wand with "[H]"); [iApply (os_max_spec fuel head xs); [lia|done]|].
    iIntros (r) "[-> H]". by iFrame.
Qed.

(** A sequence of operations refines its run on the list. *)
Lemma run_ops_spec fuel head pool os xs vs xs' :
  base.size pool < fuel → spec_run cmp pool os xs = Some (vs, xs') →
  set_state pool head xs ⊢ wp (run_ops fuel head os) (λ r, ⌜r = vs⌝ ∗ set_state pool head xs').
Proof.
  intros Hf. revert xs vs. induction os as [|o os IH]; intros xs vs; cbn.
  { intros [= <- <-]. iIntros "H". iApply wp_ret. by iFrame. }
  destruct (spec_op cmp pool o xs) as [[v xs1]|] eqn:Eo; [|done]. cbn.
  destruct (spec_run cmp pool os xs1) as [[vs1 xs2]|] eqn:Er; [|done]. intros [= <- <-].
  iIntros "H". iApply wp_bind. iApply (wp_wand with "[H]"); [by iApply run_op_spec|].
  iIntros (r) "[-> H]". iApply wp_bind. iApply (wp_wand with "[H]"); [by iApply IH|].
  iIntros (rs) "[-> H]". iApply wp_ret. by iFrame.
Qed.
End client.
