(* ===== verification/RBTree.v ===== *)
(** * Red-black trees of [uv/tree.h]: the code

    The [RB_*] macros, one definition per macro or generated function, over
    the memory of [HeapLogic]: an object of the memory is either a tree head
    ([struct name], with its [rbh_root]) or an element ([struct type], of which
    the macros see only the [RB_ENTRY] called [field]). Loops take fuel; the
    proofs in the files that follow give a bound that is enough. *)

From S2P Require Import Prelude HeapLogic Trees.
Local Open Scope Z_scope.

Definition RB_BLACK : Z := 0.
Definition RB_RED : Z := 1.

Record RB_ENTRY := {
  rbe_left : ptr;
  rbe_right : ptr;
  rbe_parent : ptr;
  rbe_color : Z;
}.
Inductive rb_obj :=
| RB_HEAD (rbh_root : ptr)
| RB_ELEM (field : RB_ENTRY).

Abbreviation RB A := (M (heap rb_obj) A).

Definition rb_entry (o : rb_obj) : option RB_ENTRY :=
  match o with RB_ELEM e => Some e | RB_HEAD _ => None end.

(** Field accesses, as lvalues ([set_...]) and as rvalues. *)
Definition RB_LEFT : ptr → RB ptr := get (λ o, rbe_left <$> rb_entry o).
Definition RB_RIGHT : ptr → RB ptr := get (λ o, rbe_right <$> rb_entry o).
Definition RB_PARENT : ptr → RB ptr := get (λ o, rbe_parent <$> rb_entry o).
Definition RB_COLOR : ptr → RB Z := get (λ o, rbe_color <$> rb_entry o).
Definition RB_ROOT : ptr → RB ptr :=
  get (λ o, match o with RB_HEAD r => Some r | RB_ELEM _ => None end).
Definition RB_EMPTY (head : ptr) : RB bool := r ← RB_ROOT head; mret (is_null r).

Definition set_RB_LEFT (p q : ptr) : RB unit :=
  modify (λ o, (λ e, RB_ELEM {| rbe_left := q; rbe_right := rbe_right e;
                                rbe_parent := rbe_parent e; rbe_color := rbe_color e |})
               <$> rb_entry o) p.
Definition set_RB_RIGHT (p q : ptr) : RB unit :=
  modify (λ o, (λ e, RB_ELEM {| rbe_left := rbe_left e; rbe_right := q;
                                rbe_parent := rbe_parent e; rbe_color := rbe_color e |})
               <$> rb_entry o) p.
Definition set_RB_PARENT (p q : ptr) : RB unit :=
  modify (λ o, (λ e, RB_ELEM {| rbe_left := rbe_left e; rbe_right := rbe_right e;
                                rbe_parent := q; rbe_color := rbe_color e |})
               <$> rb_entry o) p.
Definition set_RB_COLOR (p : ptr) (c : Z) : RB unit :=
  modify (λ o, (λ e, RB_ELEM {| rbe_left := rbe_left e; rbe_right := rbe_right e;
                                rbe_parent := rbe_parent e; rbe_color := c |})
               <$> rb_entry o) p.
Definition set_RB_ROOT (head r : ptr) : RB unit :=
  modify (λ o, match o with RB_HEAD _ => Some (RB_HEAD r) | RB_ELEM _ => None end) head.

Definition RB_INIT (root : ptr) : RB unit := set_RB_ROOT root None.

Definition RB_SET (elm parent : ptr) : RB unit :=
  set_RB_PARENT elm parent;;
  set_RB_RIGHT elm None;; set_RB_LEFT elm None;;
  set_RB_COLOR elm RB_RED.

Definition RB_SET_BLACKRED (black red : ptr) : RB unit :=
  set_RB_COLOR black RB_BLACK;;
  set_RB_COLOR red RB_RED.

(** The default of the augmentation hook does nothing. *)
Definition RB_AUGMENT (x : ptr) : RB unit := mret tt.

(** The macros assign their argument [tmp]: here it is the result. *)
Definition RB_ROTATE_LEFT (head elm : ptr) : RB ptr :=
  tmp ← RB_RIGHT elm;
  x ← RB_LEFT tmp;
  set_RB_RIGHT elm x;;
  (if negb (is_null x) then x ← RB_LEFT tmp; set_RB_PARENT x elm else mret tt);;
  RB_AUGMENT elm;;
  p ← RB_PARENT elm;
  set_RB_PARENT tmp p;;
  (if negb (is_null p) then
     p ← RB_PARENT elm;
     pl ← RB_LEFT p;
     if ptr_eqb elm pl then p ← RB_PARENT elm; set_RB_LEFT p tmp
     else p ← RB_PARENT elm; set_RB_RIGHT p tmp
   else set_RB_ROOT head tmp);;
  set_RB_LEFT tmp elm;;
  set_RB_PARENT elm tmp;;
  RB_AUGMENT tmp;;
  p ← RB_PARENT tmp;
  (if negb (is_null p) then p ← RB_PARENT tmp; RB_AUGMENT p else mret tt);;
  mret tmp.

Definition RB_ROTATE_RIGHT (head elm : ptr) : RB ptr :=
  tmp ← RB_LEFT elm;
  x ← RB_RIGHT tmp;
  set_RB_LEFT elm x;;
  (if negb (is_null x) then x ← RB_RIGHT tmp; set_RB_PARENT x elm else mret tt);;
  RB_AUGMENT elm;;
  p ← RB_PARENT elm;
  set_RB_PARENT tmp p;;
  (if negb (is_null p) then
     p ← RB_PARENT elm;
     pl ← RB_LEFT p;
     if ptr_eqb elm pl then p ← RB_PARENT elm; set_RB_LEFT p tmp
     else p ← RB_PARENT elm; set_RB_RIGHT p tmp
   else set_RB_ROOT head tmp);;
  set_RB_RIGHT tmp elm;;
  set_RB_PARENT elm tmp;;
  RB_AUGMENT tmp;;
  p ← RB_PARENT tmp;
  (if negb (is_null p) then p ← RB_PARENT tmp; RB_AUGMENT p else mret tt);;
  mret tmp.

(** [tmp && RB_COLOR(tmp, field) == RB_RED] *)
Definition is_red (tmp : ptr) : RB bool :=
  if is_null tmp then mret false else c ← RB_COLOR tmp; mret (c =? RB_RED).
(** [x == NULL || RB_COLOR(x, field) == RB_BLACK] *)
Definition is_black (x : ptr) : RB bool :=
  if is_null x then mret true else c ← RB_COLOR x; mret (c =? RB_BLACK).

(** One iteration of the loop of [RB_INSERT_COLOR]; the loop variable is [elm]. *)
Definition RB_INSERT_COLOR_body (head elm : ptr) : RB (ptr + unit) :=
  parent ← RB_PARENT elm;
  red ← is_red parent;
  if negb red then mret (inr tt) else
  gparent ← RB_PARENT parent;
  gl ← RB_LEFT gparent;
  if ptr_eqb parent gl then
    tmp ← RB_RIGHT gparent;
    tmp_red ← is_red tmp;
    if tmp_red : bool then
      set_RB_COLOR tmp RB_BLACK;;
      RB_SET_BLACKRED parent gparent;;
      mret (inl gparent)
    else
      pr ← RB_RIGHT parent;
      '(parent, elm) ←
        (if ptr_eqb pr elm then
           _ ← RB_ROTATE_LEFT head parent;
           mret (elm, parent)
         else mret (parent, elm));
      RB_SET_BLACKRED parent gparent;;
      _ ← RB_ROTATE_RIGHT head gparent;
      mret (inl elm)
  else
    tmp ← RB_LEFT gparent;
    tmp_red ← is_red tmp;
    if tmp_red : bool then
      set_RB_COLOR tmp RB_BLACK;;
      RB_SET_BLACKRED parent gparent;;
      mret (inl gparent)
    else
      pl ← RB_LEFT parent;
      '(parent, elm) ←
        (if ptr_eqb pl elm then
           _ ← RB_ROTATE_RIGHT head parent;
           mret (elm, parent)
         else mret (parent, elm));
      RB_SET_BLACKRED parent gparent;;
      _ ← RB_ROTATE_LEFT head gparent;
      mret (inl elm).

Definition RB_INSERT_COLOR (fuel : nat) (head elm : ptr) : RB unit :=
  _ ← loop fuel (RB_INSERT_COLOR_body head) elm;
  r ← RB_ROOT head;
  set_RB_COLOR r RB_BLACK.

(** ** Removal

    The loop body of [RB_REMOVE_COLOR] is cut into the fragments of the C text:
    making the sibling black, the test of its children, and the final
    rotations, for [elm] a left and a right child. *)

(** [tmp] is the sibling, made black by a rotation if it was red. *)
Definition RB_REMOVE_COLOR_sibling_left (head parent : ptr) : RB ptr :=
  tmp ← RB_RIGHT parent;
  c ← RB_COLOR tmp;
  if c =? RB_RED then
    RB_SET_BLACKRED tmp parent;;
    _ ← RB_ROTATE_LEFT head parent;
    RB_RIGHT parent
  else mret tmp.
Definition RB_REMOVE_COLOR_sibling_right (head parent : ptr) : RB ptr :=
  tmp ← RB_LEFT parent;
  c ← RB_COLOR tmp;
  if c =? RB_RED then
    RB_SET_BLACKRED tmp parent;;
    _ ← RB_ROTATE_RIGHT head parent;
    RB_LEFT parent
  else mret tmp.

(** Both children of [tmp] are black or absent. *)
Definition RB_REMOVE_COLOR_both_black (tmp : ptr) : RB bool :=
  tl ← RB_LEFT tmp;
  tl_black ← is_black tl;
  if tl_black : bool then tr ← RB_RIGHT tmp; is_black tr else mret false.

(** Not both are: one or two rotations end the loop. *)
Definition RB_REMOVE_COLOR_rotate_left (head parent tmp : ptr) : RB ptr :=
  tr ← RB_RIGHT tmp;
  tr_black ← is_black tr;
  tmp ← (if tr_black : bool then
           oleft ← RB_LEFT tmp;
           (if negb (is_null oleft) then set_RB_COLOR oleft RB_BLACK else mret tt);;
           set_RB_COLOR tmp RB_RED;;
           _ ← RB_ROTATE_RIGHT head tmp;
           RB_RIGHT parent
         else mret tmp);
  c ← RB_COLOR parent;
  set_RB_COLOR tmp c;;
  set_RB_COLOR parent RB_BLACK;;
  tr ← RB_RIGHT tmp;
  (if negb (is_null tr) then tr ← RB_RIGHT tmp; set_RB_COLOR tr RB_BLACK else mret tt);;
  _ ← RB_ROTATE_LEFT head parent;
  RB_ROOT head.
Definition RB_REMOVE_COLOR_rotate_right (head parent tmp : ptr) : RB ptr :=
  tl ← RB_LEFT tmp;
  tl_black ← is_black tl;
  tmp ← (if tl_black : bool then
           oright ← RB_RIGHT tmp;
           (if negb (is_null oright) then set_RB_COLOR oright RB_BLACK else mret tt);;
           set_RB_COLOR tmp RB_RED;;
           _ ← RB_ROTATE_LEFT head tmp;
           RB_LEFT parent
         else mret tmp);
  c ← RB_COLOR parent;
  set_RB_COLOR tmp c;;
  set_RB_COLOR parent RB_BLACK;;
  tl ← RB_LEFT tmp;
  (if negb (is_null tl) then tl ← RB_LEFT tmp; set_RB_COLOR tl RB_BLACK else mret tt);;
  _ ← RB_ROTATE_RIGHT head parent;
  RB_ROOT head.

(** One iteration; the loop variables are [parent] and [elm], and the result is
    the value of [elm] after the loop. *)
Definition RB_REMOVE_COLOR_body (head : ptr) (v : ptr * ptr) : RB (ptr * ptr + ptr) :=
  let '(parent, elm) := v in
  elm_black ← is_black elm;
  continue ← (if elm_black : bool then r ← RB_ROOT head; mret (negb (ptr_eqb elm r))
              else mret false);
  if negb continue then mret (inr elm) else
  pl ← RB_LEFT parent;
  if ptr_eqb pl elm then
    tmp ← RB_REMOVE_COLOR_sibling_left head parent;
    both_black ← RB_REMOVE_COLOR_both_black tmp;
    if both_black : bool then
      set_RB_COLOR tmp RB_RED;;
      let elm := parent in
      parent ← RB_PARENT elm;
      mret (inl (parent, elm))
    else
      elm ← RB_REMOVE_COLOR_rotate_left head parent tmp;
      mret (inr elm)
  else
    tmp ← RB_REMOVE_COLOR_sibling_right head parent;
    both_black ← RB_REMOVE_COLOR_both_black tmp;
    if both_black : bool then
      set_RB_COLOR tmp RB_RED;;
      let elm := parent in
      parent ← RB_PARENT elm;
      mret (inl (parent, elm))
    else
      elm ← RB_REMOVE_COLOR_rotate_right head parent tmp;
      mret (inr elm).

Definition RB_REMOVE_COLOR (fuel : nat) (head parent elm : ptr) : RB unit :=
  elm ← loop fuel (RB_REMOVE_COLOR_body head) (parent, elm);
  if negb (is_null elm) then set_RB_COLOR elm RB_BLACK else mret tt.

(** [(elm)->field = (old)->field] *)
Definition copy_field (elm old : ptr) : RB unit :=
  e ← get rb_entry old;
  modify (λ o, (λ _, RB_ELEM e) <$> rb_entry o) elm.

(** [while ((left = RB_LEFT(elm, field)) != NULL) elm = left;] *)
Definition leftmost (fuel : nat) (elm : ptr) : RB ptr :=
  loop fuel (λ elm,
    left ← RB_LEFT elm;
    mret (if negb (is_null left) then inl left else inr elm)) elm.
Definition rightmost (fuel : nat) (elm : ptr) : RB ptr :=
  loop fuel (λ elm,
    right ← RB_RIGHT elm;
    mret (if negb (is_null right) then inl right else inr elm)) elm.

(** The child pointer of [parent] (or the root pointer) that is [elm] becomes
    [new]. *)
Definition replace_child (head parent elm new : ptr) : RB unit :=
  if negb (is_null parent) then
    (pl ← RB_LEFT parent;
     if ptr_eqb pl elm then set_RB_LEFT parent new else set_RB_RIGHT parent new);;
    RB_AUGMENT parent
  else set_RB_ROOT head new.

(** The code after the label [color]. *)
Definition RB_REMOVE_finish (fuel : nat) (head : ptr) (v : ptr * ptr * Z) : RB unit :=
  let '(child, parent, color) := v in
  if color =? RB_BLACK then RB_REMOVE_COLOR fuel head parent child else mret tt.

(** The removed element has at most one child: it is spliced out. *)
Definition RB_REMOVE_splice (head elm child : ptr) : RB (ptr * ptr * Z) :=
  parent ← RB_PARENT elm;
  color ← RB_COLOR elm;
  (if negb (is_null child) then set_RB_PARENT child parent else mret tt);;
  replace_child head parent elm child;;
  mret (child, parent, color).

(** It has two: its successor [elm] is spliced out and takes its place. *)
Definition RB_REMOVE_succ (fuel : nat) (head old : ptr) : RB (ptr * ptr * Z) :=
  elm ← RB_RIGHT old;
  elm ← leftmost fuel elm;
  child ← RB_RIGHT elm;
  parent ← RB_PARENT elm;
  color ← RB_COLOR elm;
  (if negb (is_null child) then set_RB_PARENT child parent else mret tt);;
  replace_child head parent elm child;;
  ep ← RB_PARENT elm;
  let parent := if ptr_eqb ep old then elm else parent in
  copy_field elm old;;
  op ← RB_PARENT old;
  replace_child head op old elm;;
  ol ← RB_LEFT old;
  set_RB_PARENT ol elm;;
  orr ← RB_RIGHT old;
  (if negb (is_null orr) then orr ← RB_RIGHT old; set_RB_PARENT orr elm else mret tt);;
  (if negb (is_null parent) then
     loop fuel (λ left,
       RB_AUGMENT left;;
       left ← RB_PARENT left;
       mret (if negb (is_null left) then inl left else inr tt)) parent
   else mret tt);;
  mret (child, parent, color).

Definition RB_REMOVE (fuel : nat) (head elm : ptr) : RB ptr :=
  let old := elm in
  l ← RB_LEFT elm;
  v ← (if is_null l then
         child ← RB_RIGHT elm; RB_REMOVE_splice head elm child
       else
         r ← RB_RIGHT elm;
         if is_null r then
           child ← RB_LEFT elm; RB_REMOVE_splice head elm child
         else RB_REMOVE_succ fuel head old);
  RB_REMOVE_finish fuel head v;;
  mret old.

(** ** Operations that compare *)

Section compare.
Context (cmp : addr → addr → Z).

(** The search loop of [RB_INSERT]: either an equal element, or the last
    element visited and the outcome of its comparison. *)
Definition RB_INSERT_search (fuel : nat) (head elm : ptr) : RB (ptr + ptr * Z) :=
  tmp ← RB_ROOT head;
  loop fuel (λ '(tmp, parent, comp),
    if is_null tmp then mret (inr (inr (parent, comp))) else
    let parent := tmp in
    comp ← call_cmp cmp elm parent;
    if comp <? 0 then tmp ← RB_LEFT tmp; mret (inl (tmp, parent, comp))
    else if comp >? 0 then tmp ← RB_RIGHT tmp; mret (inl (tmp, parent, comp))
    else mret (inr (inl tmp))) (tmp, None, 0).

Definition RB_INSERT (fuel : nat) (head elm : ptr) : RB ptr :=
  found ← RB_INSERT_search fuel head elm;
  match found with
  | inl tmp => mret tmp
  | inr (parent, comp) =>
      RB_SET elm parent;;
      (if negb (is_null parent) then
         (if comp <? 0 then set_RB_LEFT parent elm else set_RB_RIGHT parent elm);;
         RB_AUGMENT parent
       else set_RB_ROOT head elm);;
      RB_INSERT_COLOR fuel head elm;;
      mret None
  end.

(** Finds the node with the same key as [elm] *)
Definition RB_FIND (fuel : nat) (head elm : ptr) : RB ptr :=
  tmp ← RB_ROOT head;
  loop fuel (λ tmp,
    if is_null tmp then mret (inr None) else
    comp ← call_cmp cmp elm tmp;
    if comp <? 0 then inl <$> RB_LEFT tmp
    else if comp >? 0 then inl <$> RB_RIGHT tmp
    else mret (inr tmp)) tmp.

(** Finds the first node greater than or equal to the search key *)
Definition RB_NFIND (fuel : nat) (head elm : ptr) : RB ptr :=
  tmp ← RB_ROOT head;
  loop fuel (λ '(tmp, res),
    if is_null tmp then mret (inr res) else
    comp ← call_cmp cmp elm tmp;
    if comp <? 0 then let res := tmp in tmp ← RB_LEFT tmp; mret (inl (tmp, res))
    else if comp >? 0 then tmp ← RB_RIGHT tmp; mret (inl (tmp, res))
    else mret (inr tmp)) (tmp, None).
End compare.

(** ** Traversal *)

(** [while (RB_PARENT(elm, field) && elm == RB_SIDE(RB_PARENT(elm, field), field))
      elm = RB_PARENT(elm, field);] *)
Definition RB_climb (side : ptr → RB ptr) (fuel : nat) (elm : ptr) : RB ptr :=
  loop fuel (λ elm,
    p ← RB_PARENT elm;
    if is_null p then mret (inr elm) else
    p ← RB_PARENT elm;
    s ← side p;
    if ptr_eqb elm s then inl <$> RB_PARENT elm else mret (inr elm)) elm.

(** [RB_PARENT(elm, field) && (elm == RB_SIDE(RB_PARENT(elm, field), field))] *)
Definition RB_is_child (side : ptr → RB ptr) (elm : ptr) : RB bool :=
  p ← RB_PARENT elm;
  if is_null p then mret false else
  p ← RB_PARENT elm; s ← side p; mret (ptr_eqb elm s).

Definition RB_NEXT (fuel : nat) (elm : ptr) : RB ptr :=
  r ← RB_RIGHT elm;
  if negb (is_null r) then
    elm ← RB_RIGHT elm;
    leftmost fuel elm
  else
    c ← RB_is_child RB_LEFT elm;
    if c : bool then RB_PARENT elm
    else elm ← RB_climb RB_RIGHT fuel elm; RB_PARENT elm.

Definition RB_PREV (fuel : nat) (elm : ptr) : RB ptr :=
  l ← RB_LEFT elm;
  if negb (is_null l) then
    elm ← RB_LEFT elm;
    rightmost fuel elm
  else
    c ← RB_is_child RB_RIGHT elm;
    if c : bool then RB_PARENT elm
    else elm ← RB_climb RB_LEFT fuel elm; RB_PARENT elm.

Definition RB_MINMAX (fuel : nat) (head : ptr) (val : Z) : RB ptr :=
  tmp ← RB_ROOT head;
  loop fuel (λ '(tmp, parent),
    if is_null tmp then mret (inr parent) else
    let parent := tmp in
    tmp ← (if val <? 0 then RB_LEFT tmp else RB_RIGHT tmp);
    mret (inl (tmp, parent))) (tmp, None).

Definition RB_NEGINF : Z := -1.
Definition RB_INF : Z := 1.
Definition RB_MIN (fuel : nat) (head : ptr) : RB ptr := RB_MINMAX fuel head RB_NEGINF.
Definition RB_MAX (fuel : nat) (head : ptr) : RB ptr := RB_MINMAX fuel head RB_INF.

(** The iteration macros: [body] is the statement they control, with its own
    local state. *)
Definition RB_FOREACH {S} (fuel : nat) (head : ptr) (body : S → ptr → RB S) (s : S) : RB S :=
  x ← RB_MIN fuel head;
  loop fuel (λ '(x, s),
    if is_null x then mret (inr s) else
    s ← body s x;
    x ← RB_NEXT fuel x;
    mret (inl (x, s))) (x, s).

Definition RB_FOREACH_REVERSE {S} (fuel : nat) (head : ptr) (body : S → ptr → RB S) (s : S) : RB S :=
  x ← RB_MAX fuel head;
  loop fuel (λ '(x, s),
    if is_null x then mret (inr s) else
    s ← body s x;
    x ← RB_PREV fuel x;
    mret (inl (x, s))) (x, s).

(** [RB_FOREACH_FROM] and [RB_FOREACH_SAFE] fetch the next element before the
    body runs. *)
Definition RB_FOREACH_FROM {S} (fuel : nat) (y : ptr) (body : S → ptr → RB S) (s : S) : RB S :=
  loop fuel (λ '(x, s),
    if is_null x then mret (inr s) else
    y ← RB_NEXT fuel x;
    s ← body s x;
    mret (inl (y, s))) (y, s).
Definition RB_FOREACH_SAFE {S} (fuel : nat) (head : ptr) (body : S → ptr → RB S) (s : S) : RB S :=
  x ← RB_MIN fuel head;
  RB_FOREACH_FROM fuel x body s.
Definition RB_FOREACH_REVERSE_FROM {S} (fuel : nat) (y : ptr) (body : S → ptr → RB S) (s : S) : RB S :=
  loop fuel (λ '(x, s),
    if is_null x then mret (inr s) else
    y ← RB_PREV fuel x;
    s ← body s x;
    mret (inl (y, s))) (y, s).
Definition RB_FOREACH_REVERSE_SAFE {S} (fuel : nat) (head : ptr) (body : S → ptr → RB S) (s : S) : RB S :=
  x ← RB_MAX fuel head;
  RB_FOREACH_REVERSE_FROM fuel x body s.
