(* ===== verification/RBShape.v ===== *)
(** * Red-black trees in memory

    The memory predicate that relates the linked structure to a tree of
    addresses, the same for a tree with a hole, and the effect of the two
    rotation macros on it. *)

From S2P Require Import Prelude HeapLogic Trees RBTree.

Inductive color : Type := Red | Black.
#[export] Instance color_eq_dec : EqDecision color.
Proof. solve_decision. Defined.
Definition color_code (c : color) : Z := match c with Red => RB_RED | Black => RB_BLACK end.

Definition color_eqb (c c' : color) : bool :=
  match c, c' with Red, Red | Black, Black => true | _, _ => false end.

Abbreviation rbtree := (tree color).
Abbreviation entry l r p c :=
  (RB_ELEM {| rbe_left := l; rbe_right := r; rbe_parent := p; rbe_color := color_code c |}).

Definition rcolor (t : rbtree) : color := match t with Leaf => Black | Node c _ _ _ => c end.
(** The colour of the parent of the hole; no parent counts as black. *)
Definition tcolor (k : ctx color) : color := match k with [] => Black | f :: _ => fdec f end.

Section shape.
Implicit Types (t l r : rbtree) (k : ctx color) (a b : addr) (p : ptr).

(** [rbt t p]: the nodes of [t] are in memory, linked to each other, and the
    root's parent pointer is [p]. *)
Fixpoint rbt t p : hpropI rb_obj :=
  match t with
  | Leaf => emp
  | Node c l a r => a ↦ entry (root l) (root r) p c ∗ rbt l (Some a) ∗ rbt r (Some a)
  end%I.

Definition fentry (f : frame color) (hole par : ptr) : rb_obj :=
  match fdir f with
  | L => entry hole (root (fsib f)) par (fdec f)
  | R => entry (root (fsib f)) hole par (fdec f)
  end.

(** [rbc head k p]: the head and the nodes of the context [k] are in memory,
    and the pointer in the hole is [p]. *)
Fixpoint rbc (head : addr) k p : hpropI rb_obj :=
  match k with
  | [] => head ↦ RB_HEAD p
  | f :: k => faddr f ↦ fentry f p (top k) ∗ rbt (fsib f) (Some (faddr f)) ∗ rbc head k (Some (faddr f))
  end%I.

(** The whole tree. *)
Definition RB_tree (head : addr) t : hpropI rb_obj := (rbc head [] (root t) ∗ rbt t None)%I.

(** A tree in focus: [t] in the hole of [k]. *)
Definition RB_zip (head : addr) k t : hpropI rb_obj := (rbc head k (root t) ∗ rbt t (top k))%I.

Lemma RB_zip_fill head f k t : RB_zip head (f :: k) t ⊣⊢ RB_zip head k (fill f t).
Proof.
  unfold RB_zip, fill. destruct f as [[] c a s]; cbn; iSplit;
    [iIntros "[(?&?&?) ?]"|iIntros "[? (?&?&?)]"|iIntros "[(?&?&?) ?]"|iIntros "[? (?&?&?)]"]; iFrame.
Qed.

Lemma RB_zip_plug head k t : RB_zip head k t ⊣⊢ RB_tree head (plug k t).
Proof.
  revert t. induction k as [|f k IH]; intros t; [done|]. by rewrite RB_zip_fill IH.
Qed.

Lemma rbt_root_ne t p a o : rbt t p ⊢ a ↦ o -∗ ⌜root t ≠ Some a⌝.
Proof.
  destruct t as [|c l b r]; iIntros "H Ha"; [done|]. iDestruct "H" as "(Hb & _)".
  iDestruct (mapsto_ne with "Ha Hb") as %?. iPureIntro. cbn. congruence.
Qed.

(** The elements of a tree in memory are distinct. *)
Lemma rbt_elem t p a : a ∈ inorder t → rbt t p ⊢ ∃ o, a ↦ o.
Proof.
  revert p. induction t as [|c l IHl b r IHr]; intros p; cbn; [by intros ?%elem_of_nil|].
  iIntros ([Hl|[->|Hr]%elem_of_cons]%elem_of_app) "(Hb & Hl & Hr)".
  - by iApply IHl.
  - by iExists _.
  - by iApply IHr.
Qed.

Lemma rbt_NoDup t p : rbt t p ⊢ ⌜NoDup (inorder t)⌝.
Proof.
  revert p. induction t as [|c l IHl b r IHr]; intros p; cbn; iIntros "H"; [iPureIntro; constructor|].
  iDestruct "H" as "(Hb & Hl & Hr)".
  iDestruct (IHl with "Hl") as %?. iDestruct (IHr with "Hr") as %?.
  rewrite NoDup_app NoDup_cons.
  repeat (iSplit; try done).
  - iIntros (x Hx Hx'). iDestruct (rbt_elem _ _ _ Hx with "Hl") as (o) "Hx".
    apply elem_of_cons in Hx' as [->|Hx']; [by iDestruct (mapsto_ne with "Hb Hx") as %?|].
    iDestruct (rbt_elem _ _ _ Hx' with "Hr") as (o') "Hx'".
    by iDestruct (mapsto_ne with "Hx Hx'") as %?.
  - iIntros (Hx). iDestruct (rbt_elem _ _ _ Hx with "Hr") as (o) "Hx".
    by iDestruct (mapsto_ne with "Hb Hx") as %?.
Qed.

(** The root's parent pointer can be set. *)
Lemma rbt_set_parent t p p' Φ :
  rbt t p ⊢ (rbt t p' -∗ Φ tt) -∗
  wp (if negb (is_null (root t)) then set_RB_PARENT (root t) p' else mret tt) Φ.
Proof.
  iIntros "H HΦ". destruct t as [|c l a r]; cbn; [by iApply wp_ret; iApply "HΦ"|].
  iDestruct "H" as "(Ha & Hl & Hr)". unfold set_RB_PARENT. 
  iApply (wp_modify with "Ha"); [reflexivity|]. iIntros "Ha". iApply "HΦ". iFrame.
Qed.
End shape.

(** From here on the predicates are used through their equations. *)
Lemma rbt_Leaf p : rbt Leaf p ⊣⊢ emp.
Proof. done. Qed.
Lemma rbt_Node c l a r p :
  rbt (Node c l a r) p ⊣⊢ a ↦ entry (root l) (root r) p c ∗ rbt l (Some a) ∗ rbt r (Some a).
Proof. done. Qed.
Lemma rbc_nil head p : rbc head [] p ⊣⊢ head ↦ RB_HEAD p.
Proof. done. Qed.
Lemma rbc_cons head f k p :
  rbc head (f :: k) p ⊣⊢
  faddr f ↦ fentry f p (top k) ∗ rbt (fsib f) (Some (faddr f)) ∗ rbc head k (Some (faddr f)).
Proof. done. Qed.
#[global] Opaque rbt rbc.

#[export] Instance rbt_Node_into_sep c l a r p :
  IntoSep (rbt (Node c l a r) p) (a ↦ entry (root l) (root r) p c)
          (rbt l (Some a) ∗ rbt r (Some a)).
Proof. by rewrite /IntoSep rbt_Node. Qed.
#[export] Instance rbc_cons_into_sep head f k p :
  IntoSep (rbc head (f :: k) p) (faddr f ↦ fentry f p (top k))
          (rbt (fsib f) (Some (faddr f)) ∗ rbc head k (Some (faddr f))).
Proof. by rewrite /IntoSep rbc_cons. Qed.

Ltac wp_simpl ::=
  cbn [root top fentry fdir faddr fsib fdec is_null negb fmap option_fmap option_map rb_entry
       rbe_left rbe_right rbe_parent rbe_color fst snd color_eqb rcolor tcolor];
  change RB_RED with (color_code Red); change RB_BLACK with (color_code Black).
(** Close a goal that owns a tree in focus. *)
Ltac rb_frame :=
  rewrite /RB_zip /fill; wp_simpl; rewrite ?rbc_cons ?rbc_nil; wp_simpl; iFrame;
  rewrite ?rbt_Node ?rbt_Leaf; wp_simpl; iFrame; try done.

Ltac wp_pre ::= rb_frame.

Lemma color_code_eqb c c' : (color_code c =? color_code c')%Z = color_eqb c c'.
Proof. by destruct c, c'. Qed.

#[global] Arguments RB_AUGMENT : simpl never.
Lemma RB_AUGMENT_eq x : RB_AUGMENT x = mret tt.
Proof. done. Qed.

Lemma is_red_Some a : is_red (Some a) = (c ← RB_COLOR (Some a); mret (c =? RB_RED)%Z).
Proof. done. Qed.
Lemma is_red_None : is_red None = mret false.
Proof. done. Qed.
Lemma is_black_Some a : is_black (Some a) = (c ← RB_COLOR (Some a); mret (c =? RB_BLACK)%Z).
Proof. done. Qed.
Lemma is_black_None : is_black None = mret true.
Proof. done. Qed.

(** Straight-line code of this component: accesses, the null hook, pointer
    tests whose outcome is known. *)
Ltac rb_step :=
  first
    [ wp_step
    | rewrite RB_AUGMENT_eq; wp_norm
    | rewrite color_code_eqb; wp_norm
    | rewrite ptr_eqb_eq; wp_norm
    | first [rewrite is_red_Some | rewrite is_red_None | rewrite is_black_Some | rewrite is_black_None]; wp_norm
    | rewrite ptr_eqb_ne; [wp_norm|congruence]
    | iApply wp_ret ].
Ltac rb_steps := wp_norm; repeat rb_step.

(** Open the innermost frame of the context ["Hk"] of the node owned as ["Ha"]. *)
Ltac rb_open_ctx k :=
  destruct k as [|[[] ? ? ?] k];
  [ rewrite rbc_nil
  | iDestruct "Hk" as "(Hf & Hs & Hk)"; wp_simpl;
    iDestruct (rbt_root_ne with "Hs Ha") as %?..].
(** Open a subtree owned as [Hm], keeping both cases. *)
Ltac rb_open_sub m Hm :=
  destruct m as [|? ? ? ?]; [|iDestruct Hm as "(? & ? & ?)"].

Section rotations.
Implicit Types (t l r m : rbtree) (k : ctx color) (a b : addr).

Lemma RB_ROTATE_LEFT_spec head k c l a c' m b r :
  RB_zip head k (Node c l a (Node c' m b r)) ⊢
  wp (RB_ROTATE_LEFT (Some head) (Some a))
     (λ tmp, ⌜tmp = Some b⌝ ∗ RB_zip head k (Node c' (Node c l a m) b r)).
Proof.
  iIntros "[Hk (Ha & Hl & Hb & Hm & Hr)]". unfold RB_ROTATE_LEFT.
  rb_open_ctx k; rb_open_sub m "Hm"; rb_steps; rb_frame.
Qed.

Lemma RB_ROTATE_RIGHT_spec head k c c' l b m a r :
  RB_zip head k (Node c (Node c' l b m) a r) ⊢
  wp (RB_ROTATE_RIGHT (Some head) (Some a))
     (λ tmp, ⌜tmp = Some b⌝ ∗ RB_zip head k (Node c' l b (Node c m a r))).
Proof.
  iIntros "[Hk (Ha & (Hb & Hl & Hm) & Hr)]". unfold RB_ROTATE_RIGHT.
  rb_open_ctx k; rb_open_sub m "Hm"; rb_steps; rb_frame.
Qed.
End rotations.

(** ** Colours *)

Section colors.
Implicit Types (t l r : rbtree) (k : ctx color) (a : addr) (p : ptr).

Lemma wp_is_red t p :
  rbt t p ⊢ wp (is_red (root t)) (λ b, ⌜b = color_eqb (rcolor t) Red⌝ ∗ rbt t p).
Proof.
  iIntros "H". unfold is_red. rb_open_sub t "H"; rb_steps; rb_frame.
Qed.

Lemma wp_is_black t p :
  rbt t p ⊢ wp (is_black (root t)) (λ b, ⌜b = color_eqb (rcolor t) Black⌝ ∗ rbt t p).
Proof.
  iIntros "H". unfold is_black. rb_open_sub t "H"; rb_steps; rb_frame.
Qed.

Lemma wp_is_red_top head k p :
  rbc head k p ⊢ wp (is_red (top k)) (λ b, ⌜b = color_eqb (tcolor k) Red⌝ ∗ rbc head k p).
Proof.
  iIntros "Hk". unfold is_red. destruct k as [|[[] c f s] k]; [|iDestruct "Hk" as "(Hf & Hs & Hk)"..];
    rb_steps; rb_frame.
Qed.

(** Colouring the node in focus. *)
Lemma set_RB_COLOR_spec head k c c' l a r :
  RB_zip head k (Node c l a r) ⊢
  wp (set_RB_COLOR (Some a) (color_code c')) (λ _, RB_zip head k (Node c' l a r)).
Proof. iIntros "[Hk (Ha & Hl & Hr)]". unfold set_RB_COLOR. rb_steps. rb_frame. Qed.
End colors.
