(* ===== verification/RBInsert.v ===== *)
(** * Red-black trees: the balance invariant and insertion

    The red-black invariant on trees and on trees with a hole, and the proof
    that the loop of [RB_INSERT_COLOR] restores it. *)

From S2P Require Import Prelude HeapLogic Trees RBTree RBShape.

(** ** The invariant *)

(** [rb n t]: no red node of [t] has a red child and every path from the root
    to a leaf has [n] black nodes. *)
Inductive rb : nat → rbtree → Prop :=
| rb_Leaf : rb 0 Leaf
| rb_Red n l a r : rb n l → rb n r → rcolor l = Black → rcolor r = Black → rb n (Node Red l a r)
| rb_Black n l a r : rb n l → rb n r → rb (S n) (Node Black l a r).

(** A tree between two operations: its root is black. *)
Definition RB_ok (t : rbtree) : Prop := rcolor t = Black ∧ ∃ n, rb n t.

(** [rb_ctx n k]: the context [k] wants a tree of black height [n]; a red frame
    has a black frame above it. *)
Fixpoint rb_ctx (n : nat) (k : ctx color) : Prop :=
  match k with
  | [] => True
  | f :: k =>
      rb n (fsib f) ∧
      match fdec f with
      | Black => rb_ctx (S n) k
      | Red => rcolor (fsib f) = Black ∧ (∃ g k', k = g :: k' ∧ fdec g = Black) ∧ rb_ctx n k
      end
  end.

Create HintDb rb.
#[export] Hint Constructors rb : rb.

Lemma rb_inv_Red n l a r :
  rb n (Node Red l a r) → rb n l ∧ rb n r ∧ rcolor l = Black ∧ rcolor r = Black.
Proof. intros H. inversion H; subst. auto. Qed.
Lemma rb_inv_Black n l a r : rb n (Node Black l a r) → ∃ m, n = S m ∧ rb m l ∧ rb m r.
Proof. intros H. inversion H; subst. eauto. Qed.
Lemma rb_inv_Leaf n : rb n Leaf → n = 0.
Proof. by inversion 1. Qed.

Lemma rb_blacken n c l a r : rb n (Node c l a r) → ∃ m, rb m (Node Black l a r).
Proof. intros H. inversion H; subst; eauto with rb. Qed.

Lemma rb_fill n f k t :
  rb_ctx n (f :: k) → rb n t → (fdec f = Red → rcolor t = Black) →
  ∃ m, rb m (fill f t) ∧ rb_ctx m k ∧ (tcolor k = Red → rcolor (fill f t) = Black).
Proof.
  destruct f as [d [] a s]; cbn; intros [Hs Hk] Ht Hc.
  - destruct Hk as (? & (g & k' & -> & Hg) & ?). exists n. split_and!; [|done|cbn; congruence].
    destruct d; cbn; constructor; auto.
  - exists (S n). split_and!; [|done|by destruct d]. destruct d; by constructor.
Qed.

(** Plugging a tree of the wanted height, with a black root if the hole's
    parent is red, yields a red-black tree. *)
Lemma rb_plug n k t :
  rb_ctx n k → rb n t → (tcolor k = Red → rcolor t = Black) → ∃ m, rb m (plug k t).
Proof.
  revert n t. induction k as [|f k IH]; intros n t Hk Ht Hc; [by exists n|].
  destruct (rb_fill n f k t) as (m & ? & ? & ?); [done..|]. by apply (IH m).
Qed.

Lemma rcolor_plug k t : k ≠ [] → ∀ n, rb_ctx n k → rcolor (plug k t) = Black.
Proof.
  revert t. induction k as [|f k IH]; intros t Hk n Hc; [done|].
  destruct f as [d c a s]. cbn in *. destruct c.
  - destruct Hc as (_ & _ & (g & k' & -> & Hg) & Hk'). by eapply IH.
  - destruct Hc as [_ Hc]. destruct k as [|g k]; [by destruct d|]. by eapply IH.
Qed.

(** Conversely, every position of a red-black tree with a black root sees such
    a context. *)
Lemma rb_unplug k t m :
  rb m (plug k t) → rcolor (plug k t) = Black →
  ∃ n, rb n t ∧ rb_ctx n k ∧ (tcolor k = Red → rcolor t = Black) ∧ (k = [] → rcolor t = Black).
Proof.
  revert t. induction k as [|f k IH]; intros t Hm Hr.
  { exists m. by split_and!. }
  destruct (IH _ Hm Hr) as (n & Hn & Hk & Hc & H0). destruct f as [d [] a s]; cbn in *.
  - assert (rb n t ∧ rb n s ∧ rcolor t = Black ∧ rcolor s = Black) as (?&?&?&?).
    { destruct d; apply rb_inv_Red in Hn; tauto. }
    exists n. split_and!; [done..| |done|done|done].
    destruct k as [|g k]; [by destruct d; specialize (H0 eq_refl)|].
    exists g, k. split; [done|]. destruct (fdec g) eqn:E; [|done].
    cbn in Hc. rewrite E in Hc. destruct d; naive_solver.
  - assert (∃ m', n = S m' ∧ rb m' t ∧ rb m' s) as (m' & -> & ? & ?).
    { destruct d; apply rb_inv_Black in Hn; naive_solver. }
    exists m'. by split_and!.
Qed.

Section insert_color.
Implicit Types (t l r u s : rbtree) (k : ctx color) (a p g : addr).

Abbreviation insert_loop n head elm := (loop n (RB_INSERT_COLOR_body (Some head)) (Some elm)).

(** What the loop leaves: a tree with the same elements in the same order, red
    and black but for the colour of its root. *)
Definition insert_post (head : addr) (l : list addr) : hpropI rb_obj :=
  ∃ t', RB_tree head t' ∗ ⌜inorder t' = l ∧ ∃ m, rb m t'⌝.

(** The loop stops at a black parent. *)
Lemma insert_loop_stop n head k l a r :
  tcolor k = Black → (∃ m, rb m (plug k (Node Red l a r))) →
  RB_zip head k (Node Red l a r) ⊢
  wp (insert_loop (S n) head a) (λ _, insert_post head (inorder (plug k (Node Red l a r)))).
Proof.
  iIntros (Hc Hm) "[Hk (Ha & Hl & Hr)]". iApply wp_loop_S. unfold RB_INSERT_COLOR_body.
  rb_steps. wp_call wp_is_red_top with "Hk". iIntros (b) "[-> Hk]". rewrite Hc. rb_steps.
  iExists (plug k (Node Red l a r)). rewrite -RB_zip_plug. rb_frame.
Qed.

(** An iteration with a red uncle: the grandparent is the new focus, and red. *)
Lemma insert_body_red_uncle head d p s d2 g ul ua ur k l a r :
  RB_zip head (Frame d Red p s :: Frame d2 Black g (Node Red ul ua ur) :: k) (Node Red l a r) ⊢
  wp (RB_INSERT_COLOR_body (Some head) (Some a))
     (λ v, ⌜v = inl (Some g)⌝ ∗
           RB_zip head k (fill (Frame d2 Red g (Node Black ul ua ur))
                               (fill (Frame d Black p s) (Node Red l a r)))).
Proof.
  iIntros "[Hk (Ha & Hl & Hr)]". unfold RB_INSERT_COLOR_body.
  unfold RB_SET_BLACKRED.
  iDestruct "Hk" as "(Hp & Hs & Hg & (Hu & Hul & Hur) & Hk)".
  iAssert ⌜p ≠ ua⌝%I as %?; [iApply (mapsto_ne with "Hp Hu")|].
  destruct d, d2; rb_steps; rb_frame.
Qed.

(** An iteration with a black uncle: one or two rotations, after which the red
    node in focus has a black parent. *)
Lemma insert_body_black_uncle head d p s d2 g u k l a r :
  rcolor u = Black →
  RB_zip head (Frame d Red p s :: Frame d2 Black g u :: k) (Node Red l a r) ⊢
  wp (RB_INSERT_COLOR_body (Some head) (Some a))
     (λ v, ∃ x f l' r', ⌜v = inl (Some x)⌝ ∗ RB_zip head (f :: k) (Node Red l' x r') ∗
        ⌜fill f (Node Red l' x r') =
           match d2, d with
           | L, L => Node Black (Node Red l a r) p (Node Red s g u)
           | L, R => Node Black (Node Red s p l) a (Node Red r g u)
           | R, R => Node Black (Node Red u g s) p (Node Red l a r)
           | R, L => Node Black (Node Red u g l) a (Node Red r p s)
           end ∧ fdec f = Black⌝).
Proof.
  iIntros (Hu) "[Hk (Ha & Hl & Hr)]". unfold RB_INSERT_COLOR_body. unfold RB_SET_BLACKRED.
  iDestruct "Hk" as "(Hp & Hs & Hg & Hu & Hk)". wp_simpl.
  iDestruct (rbt_root_ne with "Hu Hp") as %?.
  iDestruct (rbt_root_ne with "Hs Ha") as %?.
  destruct d, d2; rb_steps; wp_call wp_is_red with "Hu"; iIntros (?) "[-> Hu]"; rewrite Hu; rb_steps.
  - wp_call (RB_ROTATE_RIGHT_spec head k Red Black (Node Red l a r) p s g u)
      with "Hk Hg Hp Hs Hu Ha Hl Hr".
    iIntros (?) "[-> H]". rb_steps. iExists a, (Frame L Black p (Node Red s g u)), l, r.
    rewrite RB_zip_fill. by iFrame.
  - wp_call (RB_ROTATE_RIGHT_spec head (Frame R Black g u :: k) Red Red l a r p s)
      with "Hk Hg Hp Hs Hu Ha Hl Hr".
    iIntros (?) "[-> [(Hg & Hu & Hk) (Ha & Hl & (Hp & Hr & Hs))]]". rb_steps.
    wp_call (RB_ROTATE_LEFT_spec head k Red u g Black l a (Node Red r p s))
      with "Hk Hg Hp Hs Hu Ha Hl Hr".
    iIntros (?) "[-> H]". rb_steps. iExists p, (Frame R Black a (Node Red u g l)), r, s.
    rewrite RB_zip_fill. by iFrame.
  - wp_call (RB_ROTATE_LEFT_spec head (Frame L Black g u :: k) Red s p Red l a r)
      with "Hk Hg Hp Hs Hu Ha Hl Hr".
    iIntros (?) "[-> [(Hg & Hu & Hk) (Ha & (Hp & Hs & Hl) & Hr)]]". rb_steps.
    wp_call (RB_ROTATE_RIGHT_spec head k Red Black (Node Red s p l) a r g u)
      with "Hk Hg Hp Hs Hu Ha Hl Hr".
    iIntros (?) "[-> H]". rb_steps. iExists p, (Frame L Black a (Node Red r g u)), s, l.
    rewrite RB_zip_fill. by iFrame.
  - wp_call (RB_ROTATE_LEFT_spec head k Red u g Black s p (Node Red l a r))
      with "Hk Hg Hp Hs Hu Ha Hl Hr".
    iIntros (?) "[-> H]". rb_steps. iExists a, (Frame R Black p (Node Red u g s)), l, r.
    rewrite RB_zip_fill. by iFrame.
Qed.

(** The loop: [length k + 1] iterations are enough. *)
Lemma insert_loop_spec head n m k l a r :
  length k < n → rb_ctx m k → rb m (Node Red l a r) →
  RB_zip head k (Node Red l a r) ⊢
  wp (insert_loop n head a) (λ _, insert_post head (inorder (plug k (Node Red l a r)))).
Proof.
  remember (length k) as len eqn:Hlen. revert n m k l a r Hlen.
  induction (lt_wf len) as [len _ IH]; intros n m k l a r -> Hn Hk Ht.
  destruct n as [|n]; [lia|]. destruct (tcolor k) eqn:Hc; last first.
  { iIntros "H". iApply (insert_loop_stop with "H"); [done|].
    apply (rb_plug m); [done..|]. by rewrite Hc. }
  destruct k as [|[d c p s] k]; [done|]. cbn in Hc; subst c.
  destruct Hk as (Hs & Hsc & ([d2 c2 g u] & k' & -> & Hg) & Hu & Hk). cbn in *; subst c2.
  apply rb_inv_Red in Ht as (Hl & Hr & Hlc & Hrc).
  iIntros "H". iApply wp_loop_S. destruct (rcolor u) eqn:Huc.
  - destruct u as [|[] ul ua ur]; [done| |done].
    apply rb_inv_Red in Hu as (Hul & Hur & ? & ?).
    iApply (wp_wand with "[H]"); [iApply (insert_body_red_uncle with "H")|].
    iIntros (v) "[-> H]".
    set (t := fill _ (fill _ _)).
    assert (∃ l' r', t = Node Red l' g r' ∧ rb (S m) t) as (l' & r' & Et & Hrb).
    { subst t. destruct d, d2; cbn; do 2 eexists; split; [done|auto 8 with rb|done|auto 8 with rb
        |done|auto 8 with rb|done|auto 8 with rb]. }
    rewrite Et in Hrb |- *. iApply (wp_wand with "[H]").
    { iApply (IH with "H"); [|done| |done..]; lia. }
    iIntros (_) "(%t' & Ht' & %Hi & %Hb)". iExists t'. iFrame. iPureIntro. split; [|done].
    rewrite Hi -Et !inorder_plug. subst t. destruct d, d2; done.
  - iApply (wp_wand with "[H]"); [iApply (insert_body_black_uncle with "H"); done|].
    iIntros (v) "(%x & %f & %l' & %r' & -> & H & %Hf & %Hfc)".
    destruct n as [|n]; [lia|].
    iApply (wp_wand with "[H]").
    { iApply (insert_loop_stop with "H"); [done|]. rewrite /= Hf.
      destruct d, d2; apply (rb_plug (S m)); auto with rb. }
    iIntros (_) "(%t' & Ht' & %Hi & %Hb)". iExists t'. iFrame. iPureIntro. split; [|done].
    rewrite Hi /= Hf !inorder_plug. destruct d, d2; by list_norm.
Qed.
End insert_color.
