(* ===== verification/RBSearch.v ===== *)
(** * Red-black trees: lookup and insertion

    [RB_FIND], [RB_NFIND], [RB_MINMAX] and [RB_INSERT] implement the operations
    of the sorted list of the tree's elements. *)

From S2P Require Import Prelude HeapLogic Trees RBTree RBShape RBInsert.

Section search.
Context {cmp : addr → addr → Z} `{!CmpOrder cmp}.
Implicit Types (t l r : rbtree) (k : ctx color) (x a : addr).

Lemma RB_FIND_loop n head k t x :
  ctx_splits (cmp:=cmp) x k → sorted cmp (inorder (plug k t)) → height t < n →
  RB_zip head k t ⊢
  wp (loop n (λ tmp, if is_null tmp then mret (inr None) else
        comp ← call_cmp cmp (Some x) tmp;
        if (comp <? 0)%Z then inl <$> RB_LEFT tmp
        else if (comp >? 0)%Z then inl <$> RB_RIGHT tmp
        else mret (inr tmp)) (root t))
     (λ v, ⌜v = sl_find cmp x (inorder (plug k t))⌝ ∗ RB_tree head (plug k t)).
Proof.
  revert k t. induction n as [|n IH]; intros k t Hx Hs Hn; [lia|].
  iIntros "H". iApply wp_loop_S. destruct t as [|c l a r]; wp_simpl.
  - iApply wp_ret. rewrite RB_zip_plug sl_find_leaf //. by iFrame.
  - cbn in Hn. rewrite call_cmp_Some. wp_norm. destruct (Z.ltb_spec (cmp x a) 0) as [Hc|Hc].
    + iDestruct "H" as "[Hk (Ha & Hl & Hr)]". unfold fmap, M_fmap. rb_steps.
      iApply (IH (Frame L c a r :: k) l); [by eapply ctx_splits_L|done|lia|]. rb_frame.
    + destruct (cmp x a >? 0)%Z eqn:Hc'.
      * iDestruct "H" as "[Hk (Ha & Hl & Hr)]". unfold fmap, M_fmap. rb_steps.
        iApply (IH (Frame R c a l :: k) r); [eapply ctx_splits_R; [done..|lia]|done|lia|]. rb_frame.
      * iApply wp_ret. rewrite sl_find_node //; [|lia]. rewrite -RB_zip_plug. by iFrame.
Qed.

Lemma RB_FIND_spec fuel head t x :
  sorted cmp (inorder t) → height t < fuel →
  RB_tree head t ⊢
  wp (RB_FIND cmp fuel (Some head) (Some x))
     (λ v, ⌜v = sl_find cmp x (inorder t)⌝ ∗ RB_tree head t).
Proof.
  iIntros (Hs Hn) "[Hh Ht]". unfold RB_FIND. rewrite rbc_nil. unfold RB_ROOT. rb_steps.
  iApply (RB_FIND_loop _ _ []); [split; set_solver|done|done|]. rb_frame.
Qed.

Lemma RB_NFIND_loop n head k t x :
  ctx_splits (cmp:=cmp) x k → sorted cmp (inorder (plug k t)) → height t < n →
  RB_zip head k t ⊢
  wp (loop n (λ '(tmp, res), if is_null tmp then mret (inr res) else
        comp ← call_cmp cmp (Some x) tmp;
        if (comp <? 0)%Z then let res := tmp in tmp ← RB_LEFT tmp; mret (inl (tmp, res))
        else if (comp >? 0)%Z then tmp ← RB_RIGHT tmp; mret (inl (tmp, res))
        else mret (inr tmp)) (root t, list.head (rights k)))
     (λ v, ⌜v = sl_nfind cmp x (inorder (plug k t))⌝ ∗ RB_tree head (plug k t)).
Proof.
  revert k t. induction n as [|n IH]; intros k t Hx Hs Hn; [lia|].
  iIntros "H". iApply wp_loop_S. destruct t as [|c l a r]; wp_simpl.
  - iApply wp_ret. rewrite RB_zip_plug sl_nfind_leaf //. by iFrame.
  - cbn in Hn. rewrite call_cmp_Some. wp_norm. destruct (Z.ltb_spec (cmp x a) 0) as [Hc|Hc].
    + iDestruct "H" as "[Hk (Ha & Hl & Hr)]". rb_steps.
      iApply (IH (Frame L c a r :: k) l); [by eapply ctx_splits_L|done|lia|]. rb_frame.
    + destruct (cmp x a >? 0)%Z eqn:Hc'.
      * iDestruct "H" as "[Hk (Ha & Hl & Hr)]". rb_steps.
        iApply (IH (Frame R c a l :: k) r); [eapply ctx_splits_R; [done..|lia]|done|lia|]. rb_frame.
      * iApply wp_ret. rewrite sl_nfind_node //; [|lia]. rewrite -RB_zip_plug. by iFrame.
Qed.

Lemma RB_NFIND_spec fuel head t x :
  sorted cmp (inorder t) → height t < fuel →
  RB_tree head t ⊢
  wp (RB_NFIND cmp fuel (Some head) (Some x))
     (λ v, ⌜v = sl_nfind cmp x (inorder t)⌝ ∗ RB_tree head t).
Proof.
  iIntros (Hs Hn) "[Hh Ht]". unfold RB_NFIND. rewrite rbc_nil. unfold RB_ROOT. rb_steps.
  iApply (RB_NFIND_loop _ _ []); [split; set_solver|done|done|]. rb_frame.
Qed.

(** The outcome of the last comparison tells the side of the hole. *)
Definition side_ok (comp : Z) k : Prop :=
  match k with [] => True | f :: _ => match fdir f with L => comp < 0 | R => comp > 0 end end%Z.

Definition insert_search_post head t x (v : ptr + ptr * Z) : hpropI rb_obj :=
  match v with
  | inl p => ∃ a, ⌜p = Some a ∧ sl_find cmp x (inorder t) = Some a⌝ ∗ RB_tree head t
  | inr (p, comp) => ∃ k, ⌜p = top k ∧ t = plug k Leaf ∧ ctx_splits (cmp:=cmp) x k ∧ side_ok comp k⌝ ∗
                          RB_zip head k Leaf
  end.

Lemma RB_INSERT_search_loop n head k t x comp :
  ctx_splits (cmp:=cmp) x k → sorted cmp (inorder (plug k t)) → height t < n → side_ok comp k →
  RB_zip head k t ⊢
  wp (loop n (λ '(tmp, parent, comp),
        if is_null tmp then mret (inr (inr (parent, comp))) else
        let parent := tmp in
        comp ← call_cmp cmp (Some x) parent;
        if (comp <? 0)%Z then tmp ← RB_LEFT tmp; mret (inl (tmp, parent, comp))
        else if (comp >? 0)%Z then tmp ← RB_RIGHT tmp; mret (inl (tmp, parent, comp))
        else mret (inr (inl tmp))) (root t, top k, comp))
     (insert_search_post head (plug k t) x).
Proof.
  revert k t comp. induction n as [|n IH]; intros k t comp Hx Hs Hn Ho; [lia|].
  iIntros "H". iApply wp_loop_S. destruct t as [|c l a r]; wp_simpl.
  - iApply wp_ret. iExists k. by iFrame.
  - cbn in Hn. rewrite call_cmp_Some. wp_norm. destruct (Z.ltb_spec (cmp x a) 0) as [Hc|Hc].
    + iDestruct "H" as "[Hk (Ha & Hl & Hr)]". rb_steps.
      iApply (IH (Frame L c a r :: k) l); [by eapply ctx_splits_L|done|lia|done|]. rb_frame.
    + destruct (cmp x a >? 0)%Z eqn:Hc'.
      * iDestruct "H" as "[Hk (Ha & Hl & Hr)]". rb_steps.
        iApply (IH (Frame R c a l :: k) r); [eapply ctx_splits_R; [done..|lia]|done|lia|cbn; lia|].
        rb_frame.
      * iApply wp_ret. iExists a. rewrite sl_find_node //; [|lia]. rewrite -RB_zip_plug. by iFrame.
Qed.

Lemma RB_INSERT_search_spec fuel head t x :
  sorted cmp (inorder t) → height t < fuel →
  RB_tree head t ⊢
  wp (RB_INSERT_search cmp fuel (Some head) (Some x)) (insert_search_post head t x).
Proof.
  iIntros (Hs Hn) "[Hh Ht]". unfold RB_INSERT_search. rewrite rbc_nil. unfold RB_ROOT. rb_steps.
  iApply (RB_INSERT_search_loop _ _ []); [split; set_solver|done|done|done|]. rb_frame.
Qed.

(** ** Insertion *)

Lemma RB_INSERT_COLOR_spec fuel head m k l a r :
  length k < fuel → rb_ctx m k → rb m (Node Red l a r) →
  RB_zip head k (Node Red l a r) ⊢
  wp (RB_INSERT_COLOR fuel (Some head) (Some a))
     (λ _, ∃ t', RB_tree head t' ∗ ⌜inorder t' = inorder (plug k (Node Red l a r)) ∧ RB_ok t'⌝).
Proof.
  iIntros (Hf Hk Ht) "H". unfold RB_INSERT_COLOR.
  wp_call (insert_loop_spec head fuel m k l a r) with "H".
  iIntros (_) "(%t' & [Hh Ht] & %Hi & %mm & %Hb)". rewrite rbc_nil. unfold RB_ROOT. rb_steps.
  destruct t' as [|c tl b tr].
  { rewrite inorder_plug in Hi. symmetry in Hi. apply app_nil in Hi as [_ Hi].
    apply app_nil in Hi as [Hi _]. cbn in Hi. by apply app_nil in Hi as [_ ?]. }
  iDestruct "Ht" as "(Hb & Hl & Hr)". rb_steps.
  iExists (Node Black tl b tr). rewrite /RB_tree. rb_frame. iPureIntro. split; [done|].
  split; [done|]. by eapply rb_blacken.
Qed.

(** The element is linked in as a red leaf of the hole the search found. *)
Lemma RB_INSERT_link head k x comp e :
  side_ok comp k →
  RB_zip head k Leaf ∗ x ↦ RB_ELEM e ⊢
  wp (RB_SET (Some x) (top k);;
      if negb (is_null (top k)) then
        (if (comp <? 0)%Z then set_RB_LEFT (top k) (Some x) else set_RB_RIGHT (top k) (Some x));;
        RB_AUGMENT (top k)
      else set_RB_ROOT (Some head) (Some x))
     (λ _, RB_zip head k (Node Red Leaf x Leaf)).
Proof.
  iIntros (Ho) "[[Hk _] Hx]". unfold RB_SET, set_RB_ROOT.
  destruct k as [|[[] c f s] k]; [rewrite rbc_nil|iDestruct "Hk" as "(Hf & Hs & Hk)"..]; cbn in Ho.
  - rb_steps. rb_frame.
  - destruct (Z.ltb_spec comp 0); [|lia]. rb_steps. rb_frame.
  - destruct (Z.ltb_spec comp 0); [lia|]. rb_steps. rb_frame.
Qed.

(** The element to insert must be allocated, unless an equal one is found. *)
Definition insert_pre (x : addr) t : hpropI rb_obj :=
  match sl_find cmp x (inorder t) with Some _ => emp | None => ∃ e, x ↦ RB_ELEM e end.

Lemma RB_INSERT_spec fuel head t x :
  sorted cmp (inorder t) → RB_ok t → height t < fuel →
  RB_tree head t ∗ insert_pre x t ⊢
  wp (RB_INSERT cmp fuel (Some head) (Some x))
     (λ v, ⌜v = sl_find cmp x (inorder t)⌝ ∗
           match sl_find cmp x (inorder t) with
           | Some _ => RB_tree head t
           | None => ∃ t', RB_tree head t' ∗ ⌜inorder t' = sl_insert cmp x (inorder t) ∧ RB_ok t'⌝
           end).
Proof.
  iIntros (Hs [Hr [n Hb]] Hf) "[Ht Hx]". unfold RB_INSERT.
  wp_call (RB_INSERT_search_spec fuel head t x) with "Ht".
  iIntros ([p|[p comp]]) "Ht"; cbn -[RB_INSERT_COLOR].
  { iDestruct "Ht" as (a) "[[-> %Hfind] Ht]". iApply wp_ret. rewrite Hfind. by iFrame. }
  iDestruct "Ht" as (k) "[(-> & -> & %Hsp & %Ho) Ht]".
  unfold insert_pre. rewrite (sl_find_leaf _ _ Hsp) (sl_insert_leaf _ _ Hsp).
  iDestruct "Hx" as (e) "Hx".
  destruct (rb_unplug k Leaf n Hb Hr) as (n' & Hn'%rb_inv_Leaf & Hk & _); subst n'.
  pose proof (length_ctx_height k (Leaf (B:=color))).
  iApply wp_assoc_rev. iApply (wp_wand with "[Ht Hx]").
  { iApply RB_INSERT_link; [done|iFrame]. }
  iIntros (_) "H". wp_call (RB_INSERT_COLOR_spec fuel head 0 k Leaf x Leaf) with "H".
  { lia. }
  { constructor; by constructor. }
  iIntros (_) "(%t' & Ht & %Hi & %Hok)". iApply wp_ret. iSplit; [done|]. iExists t'. iFrame.
  iPureIntro. by rewrite Hi inorder_plug.
Qed.

(** ** The least and the greatest element *)

Lemma RB_MINMAX_loop_min n head k t :
  height t < n → lefts k = [] →
  RB_zip head k t ⊢
  wp (loop n (λ '(tmp, parent), if is_null tmp then mret (inr parent) else
        let parent := tmp in
        tmp ← (if (RB_NEGINF <? 0)%Z then RB_LEFT tmp else RB_RIGHT tmp);
        mret (inl (tmp, parent))) (root t, list.head (rights k)))
     (λ v, ⌜v = list.head (inorder (plug k t))⌝ ∗ RB_tree head (plug k t)).
Proof.
  revert k t. induction n as [|n IH]; intros k t Hn Hk; [lia|].
  iIntros "H". iApply wp_loop_S. destruct t as [|c l a r]; wp_simpl.
  - iApply wp_ret. rewrite RB_zip_plug inorder_plug Hk. by iFrame.
  - cbn in Hn. iDestruct "H" as "[Hk (Ha & Hl & Hr)]". cbn [RB_NEGINF Z.ltb Z.compare]. rb_steps.
    iApply (IH (Frame L c a r :: k) l); [lia|done|]. rb_frame.
Qed.

Lemma RB_MINMAX_loop_max n head k t :
  height t < n → rights k = [] →
  RB_zip head k t ⊢
  wp (loop n (λ '(tmp, parent), if is_null tmp then mret (inr parent) else
        let parent := tmp in
        tmp ← (if (RB_INF <? 0)%Z then RB_LEFT tmp else RB_RIGHT tmp);
        mret (inl (tmp, parent))) (root t, last (lefts k)))
     (λ v, ⌜v = last (inorder (plug k t))⌝ ∗ RB_tree head (plug k t)).
Proof.
  revert k t. induction n as [|n IH]; intros k t Hn Hk; [lia|].
  iIntros "H". iApply wp_loop_S. destruct t as [|c l a r]; wp_simpl.
  - iApply wp_ret. rewrite RB_zip_plug inorder_plug Hk /= app_nil_r. by iFrame.
  - cbn in Hn. iDestruct "H" as "[Hk (Ha & Hl & Hr)]". cbn [RB_INF Z.ltb Z.compare]. rb_steps.
    assert (last (lefts (Frame R c a l :: k)) = Some a) as E
      by (cbn; by rewrite app_assoc last_snoc).
    specialize (IH (Frame R c a l :: k) r). rewrite E in IH. iApply IH; [lia|done|]. rb_frame.
Qed.

Lemma RB_MIN_spec fuel head t :
  height t < fuel →
  RB_tree head t ⊢ wp (RB_MIN fuel (Some head))
                      (λ v, ⌜v = list.head (inorder t)⌝ ∗ RB_tree head t).
Proof.
  iIntros (Hn) "[Hh Ht]". unfold RB_MIN, RB_MINMAX. rewrite rbc_nil. unfold RB_ROOT. rb_steps.
  iApply (RB_MINMAX_loop_min _ _ []); [done..|]. rb_frame.
Qed.

Lemma RB_MAX_spec fuel head t :
  height t < fuel →
  RB_tree head t ⊢ wp (RB_MAX fuel (Some head)) (λ v, ⌜v = last (inorder t)⌝ ∗ RB_tree head t).
Proof.
  iIntros (Hn) "[Hh Ht]". unfold RB_MAX, RB_MINMAX. rewrite rbc_nil. unfold RB_ROOT. rb_steps.
  iApply (RB_MINMAX_loop_max _ _ []); [done..|]. rb_frame.
Qed.
End search.
