(* ===== verification/RBRemove.v ===== *)
(** * Red-black trees: rebalancing after a removal

    The loop of [RB_REMOVE_COLOR] works on a tree with a hole filled by a tree
    one black node short; it moves the deficit up, or ends it by rotations. *)

From S2P Require Import Prelude HeapLogic Trees RBTree RBShape RBInsert.

Definition blacken (t : rbtree) : rbtree :=
  match t with Leaf => Leaf | Node _ l a r => Node Black l a r end.

(** A tree of black height [n] whose root may be red with red children. *)
Definition rb_weak (n : nat) (t : rbtree) : Prop :=
  match t with Node Red l a r => rb n l ∧ rb n r | _ => rb n t end.

Lemma rb_weaken n t : rb n t → rb_weak n t.
Proof. destruct t as [|[] l a r]; [done| |done]. intros (?&?&?&?)%rb_inv_Red. done. Qed.

Lemma rb_blacken_weak n t : rb_weak n t → ∃ m, rb m (blacken t).
Proof.
  destruct t as [|[] l a r]; cbn.
  - eauto with rb.
  - intros [??]. eauto with rb.
  - eauto.
Qed.

Lemma inorder_blacken t : inorder (blacken t) = inorder t.
Proof. by destruct t. Qed.

Section remove_color.
Implicit Types (t l r s w : rbtree) (k : ctx color) (a p : addr).

Lemma sibling_left_spec head n c p s k t :
  rb_ctx (S n) (Frame L c p s :: k) →
  RB_zip head (Frame L c p s :: k) t ⊢
  wp (RB_REMOVE_COLOR_sibling_left (Some head) (Some p))
     (λ v, ∃ c' w k', ⌜v = root w ∧ rcolor w = Black ∧ rb_ctx (S n) (Frame L c' p w :: k') ∧
         inorder (plug (Frame L c' p w :: k') t) = inorder (plug (Frame L c p s :: k) t) ∧
         length k' ≤ S (length k) ∧ (c' = Red ∨ length k' = length k)⌝ ∗
       RB_zip head (Frame L c' p w :: k') t).
Proof.
  iIntros (Hk) "[(Hp & Hs & Hk) Ht]". unfold RB_REMOVE_COLOR_sibling_left. wp_simpl.
  pose proof Hk as [Hs Hc]. cbn in Hs, Hc.
  destruct s as [|cs sl sa sr]; [by apply rb_inv_Leaf in Hs|].
  iDestruct "Hs" as "(Hsa & Hsl & Hsr)". unfold RB_SET_BLACKRED. rb_steps.
  destruct cs; rb_steps.
  - destruct c; [by destruct Hc|].
    wp_call (RB_ROTATE_LEFT_spec head k Red t p Black sl sa sr) with "Hk Hp Ht Hsa Hsl Hsr".
    iIntros (?) "[_ [Hk (Hsa & (Hp & Ht & Hsl) & Hsr)]]". rb_steps.
    apply rb_inv_Red in Hs as (?&?&?&?).
    iExists Red, sl, (Frame L Black sa sr :: k). rb_frame. iPureIntro.
    split_and!; [done..| | |cbn; lia|by left].
    + cbn. split_and!; eauto.
    + rewrite !inorder_plug. by list_norm.
  - iExists c, (Node Black sl sa sr), k. rb_frame. iPureIntro. split_and!; auto.
Qed.

Lemma sibling_right_spec head n c p s k t :
  rb_ctx (S n) (Frame R c p s :: k) →
  RB_zip head (Frame R c p s :: k) t ⊢
  wp (RB_REMOVE_COLOR_sibling_right (Some head) (Some p))
     (λ v, ∃ c' w k', ⌜v = root w ∧ rcolor w = Black ∧ rb_ctx (S n) (Frame R c' p w :: k') ∧
         inorder (plug (Frame R c' p w :: k') t) = inorder (plug (Frame R c p s :: k) t) ∧
         length k' ≤ S (length k) ∧ (c' = Red ∨ length k' = length k)⌝ ∗
       RB_zip head (Frame R c' p w :: k') t).
Proof.
  iIntros (Hk) "[(Hp & Hs & Hk) Ht]". unfold RB_REMOVE_COLOR_sibling_right. wp_simpl.
  pose proof Hk as [Hs Hc]. cbn in Hs, Hc.
  destruct s as [|cs sl sa sr]; [by apply rb_inv_Leaf in Hs|].
  iDestruct "Hs" as "(Hsa & Hsl & Hsr)". unfold RB_SET_BLACKRED. rb_steps.
  destruct cs; rb_steps.
  - destruct c; [by destruct Hc|].
    wp_call (RB_ROTATE_RIGHT_spec head k Red Black sl sa sr p t) with "Hk Hp Ht Hsa Hsl Hsr".
    iIntros (?) "[_ [Hk (Hsa & Hsl & (Hp & Hsr & Ht))]]". rb_steps.
    apply rb_inv_Red in Hs as (?&?&?&?).
    iExists Red, sr, (Frame R Black sa sl :: k). rb_frame. iPureIntro.
    split_and!; [done..| | |cbn; lia|by left].
    + cbn. split_and!; eauto.
    + rewrite !inorder_plug. by list_norm.
  - iExists c, (Node Black sl sa sr), k. rb_frame. iPureIntro. split_and!; auto.
Qed.

Lemma both_black_spec c l a r q :
  rbt (Node c l a r) q ⊢
  wp (RB_REMOVE_COLOR_both_black (Some a))
     (λ b, ⌜b = color_eqb (rcolor l) Black && color_eqb (rcolor r) Black⌝ ∗ rbt (Node c l a r) q).
Proof.
  iIntros "(Ha & Hl & Hr)". unfold RB_REMOVE_COLOR_both_black. rb_steps.
  wp_call wp_is_black with "Hl". iIntros (?) "[-> Hl]". destruct (rcolor l); rb_steps; [rb_frame|].
  iApply (wp_wand with "[Hr]"); [by iApply wp_is_black|]. iIntros (?) "[-> Hr]". rb_frame.
Qed.

(** Reading the root of the tree in focus. *)
Lemma RB_ROOT_spec head t :
  RB_tree head t ⊢ wp (RB_ROOT (Some head)) (λ v, ⌜v = root t⌝ ∗ RB_tree head t).
Proof.
  iIntros "[Hh Ht]". rewrite rbc_nil. unfold RB_ROOT. rb_steps. rewrite /RB_tree. rb_frame.
Qed.

Lemma rotate_left_far_spec head k c t p wl wa x b y :
  RB_zip head (Frame L c p (Node Black wl wa (Node Red x b y)) :: k) t ⊢
  wp (RB_REMOVE_COLOR_rotate_left (Some head) (Some p) (Some wa))
     (λ v, let t' := plug k (Node c (Node Black t p wl) wa (Node Black x b y)) in
           ⌜v = root t'⌝ ∗ RB_tree head t').
Proof.
  iIntros "[(Hp & (Hw & Hwl & (Hb & Hx & Hy)) & Hk) Ht]". unfold RB_REMOVE_COLOR_rotate_left.
  rb_steps.
  wp_call (RB_ROTATE_LEFT_spec head k Black t p c wl wa (Node Black x b y))
    with "Hp Hw Hwl Hb Hx Hy Hk Ht".
  iIntros (?) "[_ H]". rewrite RB_zip_plug. iApply (RB_ROOT_spec with "H").
Qed.

Lemma rotate_left_near_spec head k c t p (a1 : rbtree) b (a2 : rbtree) wa wr :
  rcolor wr = Black →
  RB_zip head (Frame L c p (Node Black (Node Red a1 b a2) wa wr) :: k) t ⊢
  wp (RB_REMOVE_COLOR_rotate_left (Some head) (Some p) (Some wa))
     (λ v, let t' := plug k (Node c (Node Black t p a1) b (Node Black a2 wa wr)) in
           ⌜v = root t'⌝ ∗ RB_tree head t').
Proof.
  iIntros (Hwr) "[(Hp & (Hw & (Hb & Ha1 & Ha2) & Hwr) & Hk) Ht]".
  unfold RB_REMOVE_COLOR_rotate_left. rb_steps.
  wp_call wp_is_black with "Hwr". iIntros (?) "[-> Hwr]". rewrite Hwr. rb_steps.
  wp_call (RB_ROTATE_RIGHT_spec head (Frame R c p t :: k) Red Black a1 b a2 wa wr)
    with "Hp Hw Hwr Hb Ha1 Ha2 Hk Ht".
  iIntros (?) "[_ [(Hp & Ht & Hk) (Hb & Ha1 & (Hw & Ha2 & Hwr))]]". rb_steps.
  wp_call (RB_ROTATE_LEFT_spec head k Black t p c a1 b (Node Black a2 wa wr))
    with "Hp Hw Hwr Hb Ha1 Ha2 Hk Ht".
  iIntros (?) "[_ H]". rewrite RB_zip_plug. iApply (RB_ROOT_spec with "H").
Qed.

Lemma rotate_right_far_spec head k c t p wr wa x b y :
  RB_zip head (Frame R c p (Node Black (Node Red x b y) wa wr) :: k) t ⊢
  wp (RB_REMOVE_COLOR_rotate_right (Some head) (Some p) (Some wa))
     (λ v, let t' := plug k (Node c (Node Black x b y) wa (Node Black wr p t)) in
           ⌜v = root t'⌝ ∗ RB_tree head t').
Proof.
  iIntros "[(Hp & (Hw & (Hb & Hx & Hy) & Hwr) & Hk) Ht]". unfold RB_REMOVE_COLOR_rotate_right.
  rb_steps.
  wp_call (RB_ROTATE_RIGHT_spec head k Black c (Node Black x b y) wa wr p t)
    with "Hp Hw Hwr Hb Hx Hy Hk Ht".
  iIntros (?) "[_ H]". rewrite RB_zip_plug. iApply (RB_ROOT_spec with "H").
Qed.

Lemma rotate_right_near_spec head k c t p (a1 : rbtree) b (a2 : rbtree) wa wl :
  rcolor wl = Black →
  RB_zip head (Frame R c p (Node Black wl wa (Node Red a1 b a2)) :: k) t ⊢
  wp (RB_REMOVE_COLOR_rotate_right (Some head) (Some p) (Some wa))
     (λ v, let t' := plug k (Node c (Node Black wl wa a1) b (Node Black a2 p t)) in
           ⌜v = root t'⌝ ∗ RB_tree head t').
Proof.
  iIntros (Hwl) "[(Hp & (Hw & Hwl & (Hb & Ha1 & Ha2)) & Hk) Ht]".
  unfold RB_REMOVE_COLOR_rotate_right. rb_steps.
  wp_call wp_is_black with "Hwl". iIntros (?) "[-> Hwl]". rewrite Hwl. rb_steps.
  wp_call (RB_ROTATE_LEFT_spec head (Frame L c p t :: k) Red wl wa Black a1 b a2)
    with "Hp Hw Hwl Hb Ha1 Ha2 Hk Ht".
  iIntros (?) "[_ [(Hp & Ht & Hk) (Hb & (Hw & Hwl & Ha1) & Ha2)]]". rb_steps.
  wp_call (RB_ROTATE_RIGHT_spec head k Black c (Node Black wl wa a1) b a2 p t)
    with "Hp Hw Hwl Hb Ha1 Ha2 Hk Ht".
  iIntros (?) "[_ H]". rewrite RB_zip_plug. iApply (RB_ROOT_spec with "H").
Qed.

(** [elm != RB_ROOT(head)], for [elm] the tree in focus. *)
Lemma RB_ROOT_zip_spec head k t :
  RB_zip head k t ⊢
  wp (RB_ROOT (Some head))
     (λ v, ⌜ptr_eqb (root t) v = bool_decide (k = [])⌝ ∗ RB_zip head k t).
Proof.
  iIntros "H". rewrite {1}RB_zip_plug. iAssert ⌜NoDup (inorder (plug k t))⌝%I as %Hnd.
  { iDestruct "H" as "[_ H]". iApply (rbt_NoDup with "H"). }
  iApply (wp_wand with "[H]"); [by iApply RB_ROOT_spec|]. iIntros (?) "[-> H]".
  rewrite RB_zip_plug. iFrame. iPureIntro. destruct k as [|f k]; [apply ptr_eqb_eq|]. apply ptr_eqb_ne. by apply root_plug_ne.
Qed.

Abbreviation remove_loop n head k t :=
  (loop n (RB_REMOVE_COLOR_body (Some head)) (top k, root t)).
Definition remove_post (head : addr) (l : list addr) (v : ptr) : hpropI rb_obj :=
  ∃ k t, ⌜v = root t ∧ inorder (plug k t) = l ∧ RB_ok (plug k (blacken t))⌝ ∗ RB_zip head k t.

(** A red focus, or a focus that is the whole tree, ends the loop. *)
Lemma remove_loop_exit n m head k t :
  rcolor t = Red ∨ k = [] → rb_ctx (S m) k → rb_weak m t →
  RB_zip head k t ⊢
  wp (remove_loop (S n) head k t) (remove_post head (inorder (plug k t))).
Proof.
  iIntros (Hor Hk Ht) "[Hk Ht]". iApply wp_loop_S. unfold RB_REMOVE_COLOR_body. wp_norm.
  wp_call wp_is_black with "Ht". iIntros (?) "[-> Ht]".
  iAssert (RB_zip head k t -∗ remove_post head (inorder (plug k t)) (root t))%I as "Hpost".
  { iIntros "H". iExists k, t. iFrame. iPureIntro. split_and!; [done..|].
    assert (∃ m', rb m' (plug k (blacken t))) as (m' & Hm').
    { destruct k as [|f k]; [by eapply rb_blacken_weak|]. destruct Hor as [Hr|]; [|done].
      destruct t as [|[] l a r]; [done| |done]. destruct Ht.
      apply (rb_plug (S m)); [done|by constructor|done]. }
    split; [|by exists m']. destruct k as [|f k]; [by destruct t|]. by eapply rcolor_plug. }
  destruct (rcolor t) eqn:Hc; rb_steps.
  - iApply "Hpost". rb_frame.
  - destruct Hor as [|Hk0]; [done|].
    wp_call (RB_ROOT_zip_spec head k t) with "Hk Ht". iIntros (v) "[%Hv H]".
    rewrite Hv bool_decide_true //. rb_steps. by iApply "Hpost".
Qed.

(** What one iteration does to a black focus below the root: either the loop
    goes on from the parent, or it ends with a repaired tree. *)
Definition remove_body_post head k t (v : ptr * ptr + ptr) : hpropI rb_obj :=
  match v with
  | inl v' => ∃ k' t' m, ⌜v' = (top k', root t') ∧ rb_ctx (S m) k' ∧ rb_weak m t' ∧
                inorder (plug k' t') = inorder (plug k t) ∧
                (rcolor t' = Red ∨ length k' < length k)⌝ ∗ RB_zip head k' t'
  | inr v' => remove_post head (inorder (plug k t)) v'
  end.

Lemma rb_ctx_top_sib n f k : rb_ctx (S n) (f :: k) → ∃ c l a r, fsib f = Node c l a r.
Proof. intros [Hs _]. destruct (fsib f); [by apply rb_inv_Leaf in Hs|eauto]. Qed.

(** The bookkeeping when both children of the black sibling are black. *)
Lemma recolor_step m d c p wl wa wr k t :
  rb_ctx (S m) (Frame d c p (Node Black wl wa wr) :: k) → rb m t → rcolor t = Black →
  rcolor wl = Black → rcolor wr = Black →
  ∃ m', rb_ctx (S m') k ∧ rb_weak m' (fill (Frame d c p (Node Red wl wa wr)) t).
Proof.
  intros [Hs Hc] Ht ? ??. apply rb_inv_Black in Hs as (m' & [= <-] & ? & ?).
  assert (rb m (Node Red wl wa wr)) by by constructor.
  destruct c; cbn in Hc.
  - exists m. split; [tauto|]. by destruct d.
  - exists (S m). split; [done|]. apply rb_weaken. by destruct d; constructor.
Qed.

(** The bookkeeping of the final rotations. *)
Lemma rotate_step m c t' k (xs : list positive) :
  rb_ctx m k → rb m t' → rcolor t' = c → (c = Red → tcolor k = Black) →
  k ≠ [] ∨ c = Black → inorder (plug k t') = xs →
  ∀ head v, ⌜v = root (plug k t')⌝ ∗ RB_tree head (plug k t') ⊢ remove_post head xs v.
Proof.
  iIntros (Hk Ht Hc Htc Hor Hl head v) "[-> H]". iExists [], (plug k t'). iFrame. iPureIntro.
  split_and!; [done..|]. cbn.
  assert (rcolor (plug k t') = Black) as Hr.
  { destruct k as [|f k]; [destruct Hor; cbn; congruence|]. by eapply rcolor_plug. }
  destruct (rb_plug m k t') as (m' & Hm'); [done..| |].
  { intros Htk. destruct c; [by rewrite Htc in Htk|done]. }
  split; [by destruct (plug k t')|]. destruct (plug k t'); cbn in *; subst; eauto.
Qed.

Lemma rb_ctx_Red_top n d p s k : rb_ctx n (Frame d Red p s :: k) → k ≠ [] ∧ tcolor k = Black.
Proof. intros (_ & _ & (g & k' & -> & Hg) & _). by split. Qed.

Lemma rb_ctx_under n d c p s k :
  rb_ctx n (Frame d c p s :: k) → rb_ctx (match c with Red => n | Black => S n end) k.
Proof. destruct c; cbn; tauto. Qed.

Lemma rotate_done n d c p w k l a r (xs : list positive) :
  rb_ctx (S n) (Frame d c p w :: k) → rb (S n) l → rb (S n) r →
  rcolor l = Black → rcolor r = Black → inorder (plug k (Node c l a r)) = xs →
  ∀ head v, ⌜v = root (plug k (Node c l a r))⌝ ∗ RB_tree head (plug k (Node c l a r)) ⊢
            remove_post head xs v.
Proof.
  intros Hk ????. pose proof (rb_ctx_under _ _ _ _ _ _ Hk) as Hk2.
  apply (rotate_step (match c with Red => S n | Black => S (S n) end) c); [done| |done|..].
  - destruct c; by constructor.
  - intros ->. by apply rb_ctx_Red_top in Hk as [_ ?].
  - destruct c; [|by right]. apply rb_ctx_Red_top in Hk as [? _]. by left.
Qed.

Lemma remove_body_left head n c p s k t :
  rb_ctx (S n) (Frame L c p s :: k) → rb n t → rcolor t = Black →
  RB_zip head (Frame L c p s :: k) t ⊢
  wp (RB_REMOVE_COLOR_body (Some head) (Some p, root t))
     (remove_body_post head (Frame L c p s :: k) t).
Proof.
  iIntros (Hk Ht Hc) "[Hk Ht]". unfold RB_REMOVE_COLOR_body. wp_norm.
  wp_call wp_is_black with "Ht". iIntros (?) "[-> Ht]". rewrite Hc. rb_steps.
  wp_call (RB_ROOT_zip_spec head (Frame L c p s :: k) t) with "Hk Ht".
  iIntros (v) "[%Hv [(Hp & Hs & Hk) Ht]]". rewrite Hv bool_decide_false //. rb_steps.
  wp_call (sibling_left_spec head n c p s k t) with "Hp Hs Hk Ht".
  iIntros (?) "(%c' & %w & %k' & (-> & %Hwc & %Hk' & %Hi & _ & %Hlen) & [(Hp & Hw & Hk) Ht])".
  wp_simpl. destruct (rb_ctx_top_sib _ _ _ Hk') as (cw & wl & wa & wr & E); cbn in E; subst w.
  cbn in Hwc; subst cw. wp_call (both_black_spec Black wl wa wr (Some p)) with "Hw".
  iIntros (?) "[-> Hw]".
  pose proof (rb_ctx_under _ _ _ _ _ _ Hk') as Hk2.
  destruct (rcolor wl) eqn:Hwl, (rcolor wr) eqn:Hwr; wp_norm; cbn [andb].
  4:{ iDestruct "Hw" as "(Hwa & Hwl & Hwr)". rb_steps.
      destruct (recolor_step n L c' p wl wa wr k' t) as (m' & ? & ?); [done..|].
      iExists k', (fill (Frame L c' p (Node Red wl wa wr)) t), m'. iSplitR; last first.
      { rewrite -RB_zip_fill. rb_frame. }
      iPureIntro. split_and!; [done..| |].
      - rewrite -Hi !inorder_plug. by list_norm.
      - destruct Hlen as [->|]; [by left|right; cbn; lia]. }
  all: destruct (rb_inv_Black _ _ _ _ (proj1 Hk')) as (n' & [= <-] & Hrl & Hrr).
  1,3: destruct wr as [|[] x b y]; [done| |done]; apply rb_inv_Red in Hrr as (?&?&?&?);
    wp_call (rotate_left_far_spec head k' c' t p wl wa x b y) with "Hp Hk Ht Hw";
    iIntros (v') "H"; iApply wp_ret; iApply (rotate_done with "H"); [done|auto with rb..|];
    rewrite -Hi !inorder_plug; by list_norm.
  destruct wl as [|[] x b y]; [done| |done]. apply rb_inv_Red in Hrl as (?&?&?&?).
  wp_call (rotate_left_near_spec head k' c' t p x b y wa wr) with "Hp Hk Ht Hw".
  iIntros (v') "H". iApply wp_ret. iApply (rotate_done with "H"); [done|auto with rb..|].
  rewrite -Hi !inorder_plug. by list_norm.
Qed.

Lemma remove_body_right head n c p s k t :
  rb_ctx (S n) (Frame R c p s :: k) → rb n t → rcolor t = Black →
  RB_zip head (Frame R c p s :: k) t ⊢
  wp (RB_REMOVE_COLOR_body (Some head) (Some p, root t))
     (remove_body_post head (Frame R c p s :: k) t).
Proof.
  iIntros (Hk Ht Hc) "[Hk Ht]". unfold RB_REMOVE_COLOR_body. wp_norm.
  wp_call wp_is_black with "Ht". iIntros (?) "[-> Ht]". rewrite Hc. rb_steps.
  wp_call (RB_ROOT_zip_spec head (Frame R c p s :: k) t) with "Hk Ht".
  iIntros (v) "[%Hv [(Hp & Hs & Hk) Ht]]". rewrite Hv bool_decide_false //. wp_simpl.
  iAssert ⌜root s ≠ root t⌝%I as %Hne.
  { destruct (rb_ctx_top_sib _ _ _ Hk) as (cs & sl & sa & sr & E). cbn in E; subst s.
    iDestruct "Hs" as "[Hs _]". iDestruct (rbt_root_ne with "Ht Hs") as %?. done. }
  rb_steps.
  wp_call (sibling_right_spec head n c p s k t) with "Hp Hs Hk Ht".
  iIntros (?) "(%c' & %w & %k' & (-> & %Hwc & %Hk' & %Hi & _ & %Hlen) & [(Hp & Hw & Hk) Ht])".
  wp_simpl. destruct (rb_ctx_top_sib _ _ _ Hk') as (cw & wl & wa & wr & E); cbn in E; subst w.
  cbn in Hwc; subst cw. wp_call (both_black_spec Black wl wa wr (Some p)) with "Hw".
  iIntros (?) "[-> Hw]".
  destruct (rcolor wl) eqn:Hwl, (rcolor wr) eqn:Hwr; wp_norm; cbn [andb].
  4:{ iDestruct "Hw" as "(Hwa & Hwl & Hwr)". rb_steps.
      destruct (recolor_step n R c' p wl wa wr k' t) as (m' & ? & ?); [done..|].
      iExists k', (fill (Frame R c' p (Node Red wl wa wr)) t), m'. iSplitR; last first.
      { rewrite -RB_zip_fill. rb_frame. }
      iPureIntro. split_and!; [done..| |].
      - rewrite -Hi !inorder_plug. by list_norm.
      - destruct Hlen as [->|]; [by left|right; cbn; lia]. }
  all: destruct (rb_inv_Black _ _ _ _ (proj1 Hk')) as (n' & [= <-] & Hrl & Hrr).
  1,2: destruct wl as [|[] x b y]; [done| |done]; apply rb_inv_Red in Hrl as (?&?&?&?);
    wp_call (rotate_right_far_spec head k' c' t p wr wa x b y) with "Hp Hk Ht Hw";
    iIntros (v') "H"; iApply wp_ret; iApply (rotate_done with "H"); [done|auto with rb..|];
    rewrite -Hi !inorder_plug; by list_norm.
  destruct wr as [|[] x b y]; [done| |done]. apply rb_inv_Red in Hrr as (?&?&?&?).
  wp_call (rotate_right_near_spec head k' c' t p x b y wa wl) with "Hp Hk Ht Hw".
  iIntros (v') "H". iApply wp_ret. iApply (rotate_done with "H"); [done|auto with rb..|].
  rewrite -Hi !inorder_plug. by list_norm.
Qed.

(** The loop: [length k + 2] iterations are enough. *)
Lemma remove_loop_spec head fuel n k t :
  length k + 2 ≤ fuel → rb_ctx (S n) k → rb_weak n t →
  RB_zip head k t ⊢
  wp (remove_loop fuel head k t) (remove_post head (inorder (plug k t))).
Proof.
  revert n k t. induction fuel as [|fuel IH]; intros n k t Hf Hk Ht; [lia|].
  destruct (rcolor t) eqn:Hc; [iApply remove_loop_exit; eauto|].
  destruct k as [|[d c p s] k]; [iApply remove_loop_exit; eauto|].
  assert (rb n t) as Hrb by by destruct t as [|[] ? ? ?].
  iIntros "H". iApply wp_loop_S.
  iApply (wp_wand _ (remove_body_post head (Frame d c p s :: k) t) with "[H]").
  { destruct d; [by iApply remove_body_left|by iApply remove_body_right]. }
  iIntros ([v|v]) "H"; [|done].
  iDestruct "H" as (k' t' m) "[(-> & %Hk' & %Ht' & %Hi & %Hor) H]". rewrite -Hi.
  destruct Hor as [Hr|Hlen].
  - cbn in Hf. destruct fuel as [|fuel]; [lia|]. iApply (remove_loop_exit with "H"); eauto.
  - iApply (IH with "H"); [cbn in *; lia|done..].
Qed.

Lemma RB_REMOVE_COLOR_spec head fuel n k t :
  length k + 2 ≤ fuel → rb_ctx (S n) k → rb_weak n t →
  RB_zip head k t ⊢
  wp (RB_REMOVE_COLOR fuel (Some head) (top k) (root t))
     (λ _, ∃ t', RB_tree head t' ∗ ⌜inorder t' = inorder (plug k t) ∧ RB_ok t'⌝).
Proof.
  iIntros (Hf Hk Ht) "H". unfold RB_REMOVE_COLOR.
  wp_call (remove_loop_spec head fuel n k t) with "H".
  iIntros (v) "(%k' & %t' & (-> & %Hi & %Hok) & [Hk Ht'])".
  destruct t' as [|c l a r]; rb_steps.
  - iExists (plug k' Leaf). rewrite -RB_zip_plug. rb_frame.
  - iDestruct "Ht'" as "(Ha & Hl & Hr)". rb_steps. iExists (plug k' (Node Black l a r)).
    rewrite -RB_zip_plug. rb_frame. iPureIntro. by rewrite -Hi !inorder_plug.
Qed.
End remove_color.
