(* ===== verification/RBDelete.v ===== *)
(** * Red-black trees: removal

    [RB_REMOVE] cuts the element out of the tree, moving its successor into
    its place when it has two children, and repairs the balance. *)

From S2P Require Import Prelude HeapLogic Trees RBTree RBShape RBInsert RBRemove.

Section remove.
Implicit Types (t l r m : rbtree) (k : ctx color) (a b : addr).

(** [leftmost] and [rightmost] end at the first and the last node of a subtree. *)
Lemma leftmost_spec fuel c l a r p :
  height l < fuel →
  rbt (Node c l a r) p ⊢
  wp (leftmost fuel (Some a))
     (λ v, ∃ kl c' b r', ⌜v = Some b ∧ Node c l a r = plug kl (Node c' Leaf b r') ∧ lefts kl = []⌝ ∗
           rbt (Node c l a r) p).
Proof.
  unfold leftmost. revert c l a r p. induction fuel as [|n IH]; intros c l a r p Hn; [lia|].
  iIntros "(Ha & Hl & Hr)". iApply wp_loop_S. rb_steps. destruct l as [|cl ll al lr]; rb_steps.
  - iExists [], c, a, r. rb_frame.
  - cbn in Hn. iApply (wp_wand with "[Hl]"); [iApply (IH cl ll al lr); [lia|done]|].
    iIntros (v) "(%kl & %c' & %b & %r' & (-> & %E & %Hkl) & Hl)".
    iExists (kl ++ [Frame L c a r]), c', b, r'. rewrite plug_app lefts_app Hkl -E. rb_frame.
Qed.
Lemma replace_child_spec head k a o new :
  rbc head k (Some a) ∗ a ↦ o ⊢
  wp (replace_child (Some head) (top k) (Some a) new) (λ _, rbc head k new ∗ a ↦ o).
Proof.
  iIntros "[Hk Ha]". unfold replace_child, set_RB_ROOT. rb_open_ctx k; rb_steps; rb_frame.
Qed.

Lemma RB_REMOVE_splice_spec head k c a pl pr m :
  a ↦ entry pl pr (top k) c ∗ rbc head k (Some a) ∗ rbt m (Some a) ⊢
  wp (RB_REMOVE_splice (Some head) (Some a) (root m))
     (λ v, ⌜v = (root m, top k, color_code c)⌝ ∗ a ↦ entry pl pr (top k) c ∗ RB_zip head k m).
Proof.
  iIntros "(Ha & Hk & Hm)". unfold RB_REMOVE_splice. rb_steps. iApply wp_bind.
  iApply (rbt_set_parent _ _ (top k) with "Hm"). iIntros "Hm".
  wp_call (replace_child_spec head k a) with "Hk Ha". iIntros (_) "[Hk Ha]". rb_steps. rb_frame.
Qed.

(** What is left of the balance when a node of colour [c] with the only child
    [m] is cut out of a position of black height [n]. *)
Definition rb_cut (n : nat) (c : color) m : Prop :=
  match c with Red => rb n m ∧ rcolor m = Black | Black => ∃ n', n = S n' ∧ rb n' m end.

Lemma rb_cut_l n c a r : rb n (Node c Leaf a r) → rb_cut n c r.
Proof. intros H. inversion H; subst; cbn; eauto. Qed.
Lemma rb_cut_r n c l a : rb n (Node c l a Leaf) → rb_cut n c l.
Proof. intros H. inversion H; subst; cbn; eauto. Qed.

Lemma RB_REMOVE_finish_spec head fuel n k c m :
  length k + 2 ≤ fuel → rb_ctx n k → rb_cut n c m → (k = [] → c = Black) →
  RB_zip head k m ⊢
  wp (RB_REMOVE_finish fuel (Some head) (root m, top k, color_code c))
     (λ _, ∃ t', RB_tree head t' ∗ ⌜inorder t' = inorder (plug k m) ∧ RB_ok t'⌝).
Proof.
  iIntros (Hf Hk Hc Hnil) "H". unfold RB_REMOVE_finish. rb_steps. destruct c; rb_steps.
  - rewrite RB_zip_plug. iExists _. iFrame. iPureIntro. destruct Hc as [Hm Hr].
    split; [done|split].
    + destruct k as [|f k]; [naive_solver|]. by eapply rcolor_plug.
    + by apply (rb_plug n).
  - destruct Hc as (n' & -> & Hm). iApply (RB_REMOVE_COLOR_spec with "H"); [done..|].
    by apply rb_weaken.
Qed.

Lemma rb_ctx_app n k1 d c a b s k2 :
  rb_ctx n (k1 ++ Frame d c a s :: k2) → rb_ctx n (k1 ++ Frame d c b s :: k2).
Proof.
  revert n. induction k1 as [|[d' [] x s'] k1 IH]; intros n; [done| |]; cbn; intros [Hs H]; split; auto.
  destruct H as (? & (g & k' & E & Hg) & ?). split_and!; auto.
  destruct k1; cbn in *; injection E as <- <-; eauto.
Qed.

(** The loop that re-augments the ancestors reaches the root. *)
Lemma RB_REMOVE_augment_spec head fuel k p :
  length k ≤ fuel → k ≠ [] →
  rbc head k p ⊢
  wp (loop fuel (λ left,
       RB_AUGMENT left;;
       left ← RB_PARENT left;
       mret (if negb (is_null left) then inl left else inr tt)) (top k))
     (λ _, rbc head k p).
Proof.
  revert k p. induction fuel as [|n IH]; intros [|f k] p Hn Hk; cbn in Hn; [done|lia|done|].
  iIntros "(Hf & Hs & Hk)". iApply wp_loop_S. destruct f as [[] c a s]; rb_steps.
  all: destruct k as [|g k]; rb_steps; [rb_frame|].
  all: iApply (wp_wand with "[Hk]"); [iApply (IH (g :: k)); [cbn in *; lia|done|done]|].
  all: iIntros (?) "Hk"; rb_frame.
Qed.
(** The right child of [old], if any, gets the parent [elm]. *)
Lemma set_right_parent_spec old t pl pp p c elm :
  old ↦ entry pl (root t) pp c ∗ rbt t p ⊢
  wp (if negb (is_null (root t)) then orr ← RB_RIGHT (Some old); set_RB_PARENT orr elm else mret tt)
     (λ _, old ↦ entry pl (root t) pp c ∗ rbt t elm).
Proof. iIntros "[Ho Ht]". unfold set_RB_PARENT. rb_open_sub t "Ht"; rb_steps; rb_frame. Qed.

Lemma RB_zip_under head kr c l a k t :
  RB_zip head (kr ++ Frame R c a l :: k) t ⊣⊢ RB_zip head k (Node c l a (plug kr t)).
Proof. by rewrite !RB_zip_plug plug_app. Qed.

(** The successor is found at the left end of the right subtree. *)
Lemma RB_REMOVE_succ_spec head fuel k c l a r :
  height (Node c l a r) < fuel → length k + height (Node c l a r) < fuel → l ≠ Leaf → r ≠ Leaf →
  RB_zip head k (Node c l a r) ⊢
  wp (RB_REMOVE_succ fuel (Some head) (Some a))
     (λ v, ∃ kr c' b m, let k' := kr ++ Frame R c b l :: k in
           ⌜v = (root m, top k', color_code c') ∧ r = plug kr (Node c' Leaf b m) ∧ lefts kr = []⌝ ∗
           RB_zip head k' m ∗ ∃ e, a ↦ RB_ELEM e).
Proof.
  iIntros (Hf Hfk Hl Hr) "[Hk (Ha & Hl & Hr)]". unfold RB_REMOVE_succ. rb_steps.
  destruct r as [|cr rl ra rr]; [done|]. cbn [height] in *.
  wp_call (leftmost_spec fuel cr rl ra rr) with "Hr". { lia. }
  iIntros (v) "(%kr & %c' & %b & %m & (-> & %E & %Hkr) & Hr)".
  replace (Some ra) with (root (plug kr (Node c' Leaf b m))) by (by rewrite -E).
  rewrite E. iAssert (RB_zip head (kr ++ Frame R c a l :: k) (Node c' Leaf b m)) with "[Hk Ha Hl Hr]" as "[Hk (Hb & _ & Hm)]".
  { rewrite RB_zip_under. rb_frame. }
  rb_steps.
  iApply wp_bind.
  iApply (rbt_set_parent _ _ (top (kr ++ Frame R c a l :: k)) with "Hm"). iIntros "Hm".
  wp_call (replace_child_spec head (kr ++ Frame R c a l :: k) b) with "Hk Hb".
  iIntros (_) "[Hk Hb]". rb_steps.
  iAssert (RB_zip head k (Node c l a (plug kr m))) with "[Hk Hm]" as "[Hk (Ha & Hl & Hr)]".
  { rewrite -RB_zip_under. rb_frame. }
  iAssert ⌜(if ptr_eqb (top (kr ++ Frame R c a l :: k)) (Some a) then Some b
            else top (kr ++ Frame R c a l :: k)) = top (kr ++ Frame R c b l :: k)⌝%I as %->.
  { destruct kr as [|g kr]; cbn [app top]; [by rewrite ptr_eqb_eq|].
    iDestruct (rbt_elem _ _ (faddr g) with "Hr") as (o) "Hg".
    { rewrite inorder_plug. by destruct g as [[] ? ? ?]; set_solver. }
    iDestruct (mapsto_ne with "Ha Hg") as %?. rewrite ptr_eqb_ne //. cbn. congruence. }
  unfold copy_field. rb_steps.
  wp_call (replace_child_spec head k a) with "Hk Ha". iIntros (_) "[Hk Ha]". rb_steps.
  unfold set_RB_PARENT at 1. destruct l as [|cl ll al lr]; [done|]. iDestruct "Hl" as "(Hal & Hll & Hlr)".
  rb_steps.
  wp_call (set_right_parent_spec a (plug kr m)) with "Ha Hr". iIntros (_) "[Ha Hr]". 
  set (l := Node cl ll al lr).
  iAssert (RB_zip head (kr ++ Frame R c b l :: k) m) with "[Hk Hb Hal Hll Hlr Hr]" as "[Hk Hm]".
  { rewrite RB_zip_under. rb_frame. }
  destruct (top (kr ++ Frame R c b l :: k)) eqn:Et; [|by destruct kr].
  cbn [is_null negb]. rewrite -Et.
  wp_call (RB_REMOVE_augment_spec head fuel (kr ++ Frame R c b l :: k)) with "Hk".
  { rewrite length_app /=. 
    pose proof (length_ctx_height kr (Node c' Leaf b m)) as Hh. rewrite -E in Hh. cbn [height] in Hh. lia. }
  { by destruct kr. }
  iIntros (_) "Hk". rb_steps. iExists kr, c', b, m. rb_frame.
Qed.
(** What [RB_REMOVE] achieves: the element leaves the tree, and is the
    caller's again. *)
Definition remove_result head a (xs : list addr) : hpropI rb_obj :=
  (∃ e, a ↦ RB_ELEM e) ∗ ∃ t', RB_tree head t' ∗ ⌜inorder t' = xs ∧ RB_ok t'⌝.

(** One of the children is absent. *)
Lemma RB_REMOVE_one_child head fuel n k c l a r m :
  length k + 2 ≤ fuel → rb_ctx n k → rb_cut n c m → (k = [] → c = Black) →
  inorder l ++ inorder r = inorder m →
  NoDup (inorder (plug k (Node c l a r))) →
  rbc head k (Some a) ∗ a ↦ entry (root l) (root r) (top k) c ∗ rbt m (Some a) ⊢
  wp (v ← RB_REMOVE_splice (Some head) (Some a) (root m);
      RB_REMOVE_finish fuel (Some head) v;; mret (Some a))
     (λ v, ⌜v = Some a⌝ ∗ remove_result head a (sl_remove a (inorder (plug k (Node c l a r))))).
Proof.
  iIntros (Hf Hk Hc Hnil Hi Hnd) "(Hk & Ha & Hm)".
  wp_call (RB_REMOVE_splice_spec head k c a) with "Hk Ha Hm".
  iIntros (v) "(-> & Ha & H)".
  wp_call (RB_REMOVE_finish_spec head fuel n k c m) with "H".
  iIntros (_) "(%t' & Ht & %Hi' & %Hok)". iApply wp_ret. iSplit; [done|].
  iSplitL "Ha"; [by iExists _|]. iExists t'. iFrame. iPureIntro. split; [|done].
  rewrite Hi' sl_remove_plug // inorder_plug.
  by rewrite -Hi -!app_assoc.
Qed.

Lemma RB_REMOVE_spec head fuel t a :
  a ∈ inorder t → RB_ok t → height t < fuel →
  RB_tree head t ⊢
  wp (RB_REMOVE fuel (Some head) (Some a))
     (λ v, ⌜v = Some a⌝ ∗ remove_result head a (sl_remove a (inorder t))).
Proof.
  iIntros (Ha [Hr [n Hb]] Hf) "H".
  iAssert ⌜NoDup (inorder t)⌝%I as %Hnd. { iDestruct "H" as "[_ H]". iApply (rbt_NoDup with "H"). }
  destruct (focus t a Ha) as (k & c & l & r & ->).
  destruct (rb_unplug k _ n Hb Hr) as (n' & Hn & Hk & _ & Hnil).
  pose proof (length_ctx_height k (Node c l a r)) as Hh.
  rewrite -RB_zip_plug. iDestruct "H" as "[Hk (Ha & Hl & Hr)]". unfold RB_REMOVE. rb_steps.
  destruct l as [|cl ll al lr]; rb_steps.
  { cbn [height] in Hh. iApply (RB_REMOVE_one_child head fuel n' k c Leaf a r r); 
      [lia|done|by eapply rb_cut_l|exact Hnil|done|done|iFrame]. }
  destruct r as [|cr rl ra rr]; rb_steps.
  { cbn [height] in Hh.
    iApply (RB_REMOVE_one_child head fuel n' k c (Node cl ll al lr) a Leaf (Node cl ll al lr)); 
      [lia|done|by eapply rb_cut_r|exact Hnil|by rewrite app_nil_r|done|iFrame]. }
  wp_call (RB_REMOVE_succ_spec head fuel k c (Node cl ll al lr) a (Node cr rl ra rr))
    with "Hk Ha Hl Hr". { lia. } { lia. }
  iIntros (v) "(%kr & %c' & %b & %m & (-> & %E & %Hkr) & H & Ha)".
  set (l := Node cl ll al lr) in *. rewrite E in Hb, Hr, Hnd, Hh |- *.
  assert (plug k (Node c l a (plug kr (Node c' Leaf b m))) =
          plug (kr ++ Frame R c a l :: k) (Node c' Leaf b m)) as Ep by by rewrite plug_app.
  rewrite Ep in Hb, Hr. destruct (rb_unplug _ _ n Hb Hr) as (n2 & Hn2 & Hk2 & _ & _).
  pose proof (length_ctx_height (kr ++ Frame R c a l :: k) (Node c' Leaf b m)) as Hh2.
  rewrite E in Hf. rewrite -Ep length_app /= in Hh2.
  wp_call (RB_REMOVE_finish_spec head fuel n2 (kr ++ Frame R c b l :: k) c' m) with "H".
  { rewrite length_app /=. lia. }
  { by eapply rb_ctx_app. }
  { by eapply rb_cut_l. }
  { by destruct kr. }
  iIntros (_) "(%t' & Ht & %Hi' & %Hok)". iApply wp_ret. iSplit; [done|]. iFrame "Ha".
  iExists t'. iFrame. iPureIntro. split; [|done].
  rewrite Hi' sl_remove_plug // !inorder_plug lefts_app rights_app Hkr. clear. by list_norm.
Qed.
End remove.
