(* ===== verification/RBIter.v ===== *)
(** * Red-black trees: height and traversal

    The height bound the header of [uv/tree.h] promises, [RB_NEXT] and
    [RB_PREV], and the iteration macros. *)

From S2P Require Import Prelude HeapLogic Trees RBTree RBShape RBInsert RBSearch RBRemove RBDelete.

(** ** Height *)

Lemma rb_size n t : rb n t → 2 ^ n ≤ size t + 1.
Proof.
  induction 1; rewrite ?size_Node ?Nat.pow_succ_r'; [done|lia..].
Qed.

Lemma rb_height n t :
  rb n t → height t ≤ 2 * n + match rcolor t with Red => 1 | Black => 0 end.
Proof.
  induction 1; cbn [rcolor height] in *; [lia| |].
  - destruct (rcolor l), (rcolor r); try done. lia.
  - destruct (rcolor l), (rcolor r); lia.
Qed.

Lemma RB_ok_height t : RB_ok t → 2 ^ height t ≤ (size t + 1) ^ 2.
Proof.
  intros [Hr [n Hn]]. pose proof (rb_size n t Hn). pose proof (rb_height n t Hn) as Hh.
  rewrite Hr Nat.add_0_r in Hh. etrans; [by apply Nat.pow_le_mono_r, Hh|].
  rewrite Nat.mul_comm Nat.pow_mul_r. by apply Nat.pow_le_mono_l.
Qed.

(** ** Neighbours *)

(** The macros for the two sides are mirror images. *)
Definition RB_SIDE (d : dir) : ptr → RB ptr := match d with L => RB_LEFT | R => RB_RIGHT end.
(** The elements of the context beyond the hole on the side away from [d]. *)
Definition beyond (d : dir) (k : ctx color) : list addr :=
  match d with L => lefts k | R => rights k end.
Definition starts (d : dir) (k : ctx color) : bool :=
  match k with
  | [] => false
  | f :: _ => match fdir f, d with L, L | R, R => true | _, _ => false end
  end.

Section neighbours.
Implicit Types (t l r m : rbtree) (k : ctx color) (a b : addr).

Lemma rightmost_spec fuel c l a r p :
  height r < fuel →
  rbt (Node c l a r) p ⊢
  wp (rightmost fuel (Some a))
     (λ v, ⌜v = last (inorder (Node c l a r))⌝ ∗ rbt (Node c l a r) p).
Proof.
  unfold rightmost. revert c l a r p. induction fuel as [|n IH]; intros c l a r p Hn; [lia|].
  iIntros "(Ha & Hl & Hr)". iApply wp_loop_S. rb_steps. destruct r as [|cr rl ra rr]; rb_steps.
  - rb_frame. iPureIntro. by rewrite last_snoc.
  - cbn in Hn. iApply (wp_wand with "[Hr]"); [iApply (IH cr rl ra rr); [lia|done]|].
    iIntros (v) "[-> Hr]". rb_frame. iPureIntro.
    cbn. by rewrite !last_app_cons app_comm_cons last_app_cons.
Qed.

Lemma leftmost_head fuel c l a r p :
  height l < fuel →
  rbt (Node c l a r) p ⊢
  wp (leftmost fuel (Some a))
     (λ v, ⌜v = list.head (inorder (Node c l a r))⌝ ∗ rbt (Node c l a r) p).
Proof.
  iIntros (Hf) "H". iApply (wp_wand with "[H]"); [by iApply leftmost_spec|].
  iIntros (v) "(%kl & %c' & %b & %r' & (-> & %E & %Hkl) & H)". iFrame. iPureIntro.
  by rewrite E inorder_plug Hkl.
Qed.

Lemma RB_is_child_spec d head k c l a r :
  RB_zip head k (Node c l a r) ⊢
  wp (RB_is_child (RB_SIDE d) (Some a)) (λ v, ⌜v = starts d k⌝ ∗ RB_zip head k (Node c l a r)).
Proof.
  iIntros "[Hk (Ha & Hl & Hr)]". unfold RB_is_child. rb_open_ctx k; destruct d; cbn [RB_SIDE]; rb_steps; rb_frame.
Qed.

(** Climbing stops below the first frame of the other side. *)
Lemma RB_climb_spec d head fuel k c l a r :
  length k < fuel →
  RB_zip head k (Node c l a r) ⊢
  wp (RB_climb (RB_SIDE d) fuel (Some a))
     (λ v, ∃ k' c' l' b r', ⌜v = Some b ∧ starts d k' = false ∧
             plug k' (Node c' l' b r') = plug k (Node c l a r) ∧ beyond d k' = beyond d k⌝ ∗
           RB_zip head k' (Node c' l' b r')).
Proof.
  unfold RB_climb. revert k c l a r. induction fuel as [|n IH]; intros k c l a r Hf; [lia|].
  iIntros "[Hk (Ha & Hl & Hr)]". iApply wp_loop_S. unfold fmap, M_fmap.
  rb_open_ctx k; destruct d; cbn [RB_SIDE length] in *; rb_steps.
  1-2: iExists [], c, l, a, r; rb_frame.
  2: iExists (Frame L fdec faddr fsib :: k), c, l, a, r; rb_frame.
  2: iExists (Frame R fdec faddr fsib :: k), c, l, a, r; rb_frame.
  - iApply (wp_wand with "[-]"); [iApply (IH k fdec (Node c l a r) faddr fsib); [lia|rb_frame]|].
    iIntros (v) "(%k' & %c' & %l' & %b & %r' & (-> & %H1 & %H2 & %H3) & H)".
    iExists k', c', l', b, r'. by iFrame.
  - iApply (wp_wand with "[-]"); [iApply (IH k fdec fsib faddr (Node c l a r)); [lia|rb_frame]|].
    iIntros (v) "(%k' & %c' & %l' & %b & %r' & (-> & %H1 & %H2 & %H3) & H)".
    iExists k', c', l', b, r'. by iFrame.
Qed.

Lemma starts_nil d k : starts d k = false → beyond d k ≠ [] → ∃ f k', k = f :: k' ∧
  fdir f = match d with L => R | R => L end.
Proof. destruct k as [|[[] ? ? ?] k], d; try done; intros _ _; eauto. Qed.

Lemma RB_NEXT_zip head fuel k c l a r :
  length k < fuel → height r < fuel →
  RB_zip head k (Node c l a r) ⊢
  wp (RB_NEXT fuel (Some a))
     (λ v, ⌜v = list.head (inorder r ++ rights k)⌝ ∗ RB_tree head (plug k (Node c l a r))).
Proof.
  iIntros (Hk Hr) "[Hk (Ha & Hl & Hr)]". unfold RB_NEXT. rb_steps. destruct r as [|cr rl ra rr]; rb_steps.
  - wp_call (RB_is_child_spec L head k c l a Leaf) with "Hk Ha Hl Hr".
    iIntros (v) "[-> [Hk (Ha & Hl & Hr)]]". destruct (starts L k) eqn:E.
    + destruct k as [|[[] ? ? ?] k]; try done. rb_steps. rewrite -RB_zip_plug. rb_frame.
    + change RB_RIGHT with (RB_SIDE R). wp_call (RB_climb_spec R head fuel k c l a Leaf) with "Hk Ha Hl Hr".
      iIntros (v) "(%k' & %c' & %l' & %b & %r' & (-> & %Hs & %Hp & %Hb) & [Hk (Ha & Hl & Hr)])".
      cbn in Hb. rewrite -Hp /= -Hb.
      destruct k' as [|[[] ? ? ?] k']; try done; rb_steps; rewrite -RB_zip_plug; rb_frame.
  - iApply (wp_wand with "[Hr]").
    + iApply (leftmost_head fuel cr rl ra rr); [|done]. cbn in Hr. lia.
    + iIntros (v) "[-> Hr]". rewrite -RB_zip_plug. rb_frame. iPureIntro. cbn. by destruct (inorder rl).
Qed.

Lemma RB_PREV_zip head fuel k c l a r :
  length k < fuel → height l < fuel →
  RB_zip head k (Node c l a r) ⊢
  wp (RB_PREV fuel (Some a))
     (λ v, ⌜v = last (lefts k ++ inorder l)⌝ ∗ RB_tree head (plug k (Node c l a r))).
Proof.
  iIntros (Hk Hl) "[Hk (Ha & Hl & Hr)]". unfold RB_PREV. rb_steps. destruct l as [|cl ll la lr]; rb_steps.
  - wp_call (RB_is_child_spec R head k c Leaf a r) with "Hk Ha Hl Hr".
    iIntros (v) "[-> [Hk (Ha & Hl & Hr)]]". rewrite app_nil_r. destruct (starts R k) eqn:E.
    + destruct k as [|[[] ? ? ?] k]; try done. rb_steps. rewrite -RB_zip_plug. rb_frame.
      iPureIntro. cbn. by rewrite (assoc_L (++)) last_snoc.
    + change RB_LEFT with (RB_SIDE L). wp_call (RB_climb_spec L head fuel k c Leaf a r) with "Hk Ha Hl Hr".
      iIntros (v) "(%k' & %c' & %l' & %b & %r' & (-> & %Hs & %Hp & %Hb) & [Hk (Ha & Hl & Hr)])".
      cbn in Hb. rewrite -Hp /= -Hb.
      destruct k' as [|[[] ? ? ?] k']; try done; rb_steps; rewrite -RB_zip_plug; rb_frame.
      iPureIntro. cbn. by rewrite (assoc_L (++)) last_snoc.
  - iApply (wp_wand with "[Hl]").
    + iApply (rightmost_spec fuel cl ll la lr); [|done]. cbn in Hl. lia.
    + iIntros (v) "[-> Hl]". rewrite -RB_zip_plug. rb_frame. iPureIntro. cbn. by rewrite !last_app_cons (assoc_L (++)) last_app_cons.
Qed.
(** At an element of the tree, the neighbours in the list of its elements. *)
Lemma RB_focus t a :
  a ∈ inorder t → ∃ k c l r, t = plug k (Node c l a r) ∧
    inorder t = (lefts k ++ inorder l) ++ a :: (inorder r ++ rights k) ∧
    length k < height t ∧ height l < height t ∧ height r < height t.
Proof.
  intros (k & c & l & r & ->)%focus. exists k, c, l, r.
  pose proof (length_ctx_height k (Node c l a r)) as H. cbn [height] in H.
  rewrite inorder_plug. split_and!; [done|by list_norm|lia..].
Qed.

Lemma RB_NEXT_spec head fuel t a (l1 l2 : list addr) :
  inorder t = l1 ++ a :: l2 → height t ≤ fuel →
  RB_tree head t ⊢
  wp (RB_NEXT fuel (Some a)) (λ v, ⌜v = list.head l2⌝ ∗ RB_tree head t).
Proof.
  iIntros (E Hf) "H". iAssert ⌜NoDup (inorder t)⌝%I as %Hnd.
  { iDestruct "H" as "[_ H]". iApply (rbt_NoDup with "H"). }
  destruct (RB_focus t a) as (k & c & l & r & -> & E' & ?&?&?); [rewrite E; set_solver|].
  rewrite E' in E, Hnd. destruct (NoDup_mid_unique _ _ _ _ _ Hnd E) as [_ <-].
  rewrite -{1}RB_zip_plug. iApply (RB_NEXT_zip with "H"); lia.
Qed.

Lemma RB_PREV_spec head fuel t a (l1 l2 : list addr) :
  inorder t = l1 ++ a :: l2 → height t ≤ fuel →
  RB_tree head t ⊢
  wp (RB_PREV fuel (Some a)) (λ v, ⌜v = last l1⌝ ∗ RB_tree head t).
Proof.
  iIntros (E Hf) "H". iAssert ⌜NoDup (inorder t)⌝%I as %Hnd.
  { iDestruct "H" as "[_ H]". iApply (rbt_NoDup with "H"). }
  destruct (RB_focus t a) as (k & c & l & r & -> & E' & ?&?&?); [rewrite E; set_solver|].
  rewrite E' in E, Hnd. destruct (NoDup_mid_unique _ _ _ _ _ Hnd E) as [<- _].
  rewrite -{1}RB_zip_plug. iApply (RB_PREV_zip with "H"); lia.
Qed.

End neighbours.

(** ** Iteration *)

Section iteration.
Context {S : Type} (head : addr) (fuel : nat).
Implicit Types (t : rbtree) (xs ys : list addr) (s : S).

(** A body that leaves the tree alone visits its elements in order: [I xs s]
    is what holds of the body's state [s] after it ran on [xs]. *)
Lemma RB_FOREACH_spec t (body : S → ptr → RB S) (I : list addr → S → hpropI rb_obj) s0 :
  (∀ xs x ys s, inorder t = xs ++ x :: ys →
     I xs s ∗ RB_tree head t ⊢ wp (body s (Some x)) (λ s', I (xs ++ [x]) s' ∗ RB_tree head t)) →
  size t < fuel →
  I [] s0 ∗ RB_tree head t ⊢
  wp (RB_FOREACH fuel (Some head) body s0) (λ s', I (inorder t) s' ∗ RB_tree head t).
Proof.
  intros Hbody Hf. pose proof (height_le_size t).
  assert (∀ n xs ys s, inorder t = xs ++ ys → length ys < n →
    I xs s ∗ RB_tree head t ⊢
    wp (loop n (λ '(x, s), if is_null x then mret (inr s) else
          s ← body s x; x ← RB_NEXT fuel x; mret (inl (x, s))) (list.head ys, s))
       (λ s', I (inorder t) s' ∗ RB_tree head t)) as Hloop.
  { induction n as [|n IH]; intros xs ys s E Hn; [lia|]. iIntros "[HI H]". iApply wp_loop_S.
    destruct ys as [|y ys]; cbn [list.head]; wp_simpl.
    - iApply wp_ret. rewrite E app_nil_r. iFrame.
    - cbn in Hn. wp_call (Hbody xs y ys s E) with "HI H". iIntros (s') "[HI H]".
      wp_call (RB_NEXT_spec head fuel t y xs ys) with "H". { lia. } iIntros (v) "[-> H]". iApply wp_ret.
      iApply (IH with "[$HI $H]"); [by rewrite -app_assoc|lia]. }
  iIntros "[HI H]". unfold RB_FOREACH. wp_call (RB_MIN_spec fuel head t) with "H". { lia. }
  iIntros (v) "[-> H]". iApply (Hloop fuel [] with "[$HI $H]"); [done|exact Hf].
Qed.
Lemma RB_FOREACH_REVERSE_spec t (body : S → ptr → RB S) (I : list addr → S → hpropI rb_obj) s0 :
  (∀ xs x ys s, inorder t = xs ++ x :: ys →
     I ys s ∗ RB_tree head t ⊢ wp (body s (Some x)) (λ s', I (x :: ys) s' ∗ RB_tree head t)) →
  size t < fuel →
  I [] s0 ∗ RB_tree head t ⊢
  wp (RB_FOREACH_REVERSE fuel (Some head) body s0) (λ s', I (inorder t) s' ∗ RB_tree head t).
Proof.
  intros Hbody Hf. pose proof (height_le_size t).
  assert (∀ n xs ys s, inorder t = xs ++ ys → length xs < n →
    I ys s ∗ RB_tree head t ⊢
    wp (loop n (λ '(x, s), if is_null x then mret (inr s) else
          s ← body s x; x ← RB_PREV fuel x; mret (inl (x, s))) (last xs, s))
       (λ s', I (inorder t) s' ∗ RB_tree head t)) as Hloop.
  { induction n as [|n IH]; intros xs ys s E Hn; [lia|]. iIntros "[HI H]". iApply wp_loop_S.
    induction xs as [|y xs _] using rev_ind; [|rewrite last_snoc]; wp_simpl.
    - iApply wp_ret. rewrite E. iFrame.
    - rewrite length_app /= in Hn. rewrite -app_assoc /= in E.
      wp_call (Hbody xs y ys s E) with "HI H". iIntros (s') "[HI H]".
      wp_call (RB_PREV_spec head fuel t y xs ys) with "H". { lia. } iIntros (v) "[-> H]". iApply wp_ret.
      iApply (IH with "[$HI $H]"); [done|lia]. }
  iIntros "[HI H]". unfold RB_FOREACH_REVERSE. wp_call (RB_MAX_spec fuel head t) with "H". { lia. }
  iIntros (v) "[-> H]". iApply (Hloop fuel _ [] with "[$HI $H]"); [by rewrite app_nil_r|exact Hf].
Qed.

(** The safe variant has fetched the next element before the body runs, so the
    body may change the tree as long as the elements to come stay, in order,
    at its end: [I xs ys s t] is what holds with [xs] visited, [ys] to come. *)
Lemma RB_FOREACH_FROM_spec (body : S → ptr → RB S)
    (I : list addr → list addr → S → rbtree → hpropI rb_obj) :
  (∀ xs ys s t, I xs ys s t ⊢ ⌜∃ pre, inorder t = pre ++ ys ∧ size t < fuel⌝) →
  (∀ xs x ys s t, I xs (x :: ys) s t ∗ RB_tree head t ⊢
     wp (body s (Some x)) (λ s', ∃ t', I (xs ++ [x]) ys s' t' ∗ RB_tree head t')) →
  ∀ n xs ys s t, length ys < n →
  I xs ys s t ∗ RB_tree head t ⊢
  wp (loop n (λ '(x, s), if is_null x then mret (inr s) else
        y ← RB_NEXT fuel x; s ← body s x; mret (inl (y, s))) (list.head ys, s))
     (λ s', ∃ t', I (xs ++ ys) [] s' t' ∗ RB_tree head t').
Proof.
  intros HI Hbody n. induction n as [|n IH]; intros xs ys s t Hn; [lia|]. iIntros "[HI H]".
  iApply wp_loop_S. iDestruct (HI with "HI") as %(pre & E & Hf). pose proof (height_le_size t).
  destruct ys as [|y ys]; cbn [list.head]; wp_simpl.
  - iApply wp_ret. rewrite app_nil_r. iExists t. iFrame.
  - cbn in Hn. wp_call (RB_NEXT_spec head fuel t y pre ys) with "H". { lia. } iIntros (v) "[-> H]".
    wp_call Hbody with "HI H". iIntros (s') "(%t' & HI & H)". iApply wp_ret.
    iApply (wp_wand with "[HI H]"); [iApply (IH with "[$HI $H]"); lia|].
    iIntros (s'') "H". by rewrite -app_assoc.
Qed.
End iteration.

(** Removing every element in a safe traversal: the loop of the users of the
    header that tear a tree down. *)
Definition remove_all (fuel : nat) (head : ptr) : RB unit :=
  RB_FOREACH_SAFE fuel head (λ _ x, _ ← RB_REMOVE fuel head x; mret tt) tt.

Definition remove_all_inv (fuel : nat) (xs ys : list addr) (s : unit) (t : rbtree) : hpropI rb_obj :=
  ⌜inorder t = ys ∧ RB_ok t ∧ size t < fuel⌝ ∗ [∗ list] x ∈ xs, ∃ e, x ↦ RB_ELEM e.

Lemma remove_all_body head fuel (xs : list addr) x (ys : list addr) (s : unit) t :
  remove_all_inv fuel xs (x :: ys) s t ∗ RB_tree head t ⊢
  wp (_ ← RB_REMOVE fuel (Some head) (Some x); mret tt)
     (λ s', ∃ t', remove_all_inv fuel (xs ++ [x]) ys s' t' ∗ RB_tree head t').
Proof.
  iIntros "[[(%E & %Ht & %Hs) Hxs] H]". pose proof (height_le_size t).
  iAssert ⌜NoDup (inorder t)⌝%I as %Hnd. { iDestruct "H" as "[_ H]". iApply (rbt_NoDup with "H"). }
  wp_call (RB_REMOVE_spec head fuel t x) with "H". { rewrite E. by left. } { lia. }
  iIntros (v) "(-> & Hx & %t' & H & %E' & %Hok')". iApply wp_ret. iExists t'. iFrame.
  iSplit; [|done]. iPureIntro. rewrite E (sl_remove_mid x []) in E'; [|by rewrite -E].
  split_and!; [done..|]. unfold size in *. rewrite E' /=. rewrite E /= in Hs. lia.
Qed.

Lemma remove_all_spec head fuel t :
  RB_ok t → size t < fuel →
  RB_tree head t ⊢
  wp (remove_all fuel (Some head))
     (λ _, RB_tree head Leaf ∗ [∗ list] x ∈ inorder t, ∃ e, x ↦ RB_ELEM e).
Proof.
  iIntros (Hok Hf) "H". pose proof (height_le_size t). unfold remove_all, RB_FOREACH_SAFE.
  wp_call (RB_MIN_spec fuel head t) with "H". { lia. } iIntros (v) "[-> H]".
  assert (∀ (xs ys : list addr) (s : unit) t',
    remove_all_inv fuel xs ys s t' ⊢ ⌜∃ pre, inorder t' = pre ++ ys ∧ size t' < fuel⌝) as Hinv.
  { iIntros (xs ys s t') "[(<- & _ & %) _]". iPureIntro. by exists []. }
  iApply (wp_wand with "[H]").
  - iApply (RB_FOREACH_FROM_spec head fuel (λ _ x, _ ← RB_REMOVE fuel (Some head) x; mret tt)
      (remove_all_inv fuel) Hinv (remove_all_body head fuel)
      fuel [] (inorder t) tt t Hf with "[$H]"). by iSplit.
  - iIntros (s) "(%t' & [(%E & _) Hx] & H)". cbn [app]. destruct t' as [|c l b r]; [by iFrame|].
    cbn in E. by destruct (inorder l).
Qed.
