(* ===== verification/RBSet.v ===== *)
(** * Red-black trees implement the ordered set *)

From S2P Require Import Prelude HeapLogic Trees OrderedSet.
From S2P Require Import RBTree RBShape RBInsert RBSearch RBRemove RBDelete RBIter.

Section instance.
Context (cmp : addr → addr → Z) `{!CmpOrder cmp}.
Implicit Types (xs : list addr) (x head : addr).

Definition RB_own head xs : hpropI rb_obj :=
  ∃ t, ⌜inorder t = xs ∧ sorted cmp xs ∧ RB_ok t⌝ ∗ RB_tree head t.
Definition RB_elem x : hpropI rb_obj := ∃ e, x ↦ RB_ELEM e.

Lemma RB_own_sorted head xs : RB_own head xs ⊢ ⌜sorted cmp xs⌝.
Proof. iIntros "(%t & (_ & $ & _) & _)". Qed.

Lemma RB_own_insert fuel head xs x : length xs < fuel →
  RB_own head xs ∗ (match sl_find cmp x xs with Some _ => emp | None => RB_elem x end) ⊢
  wp (RB_INSERT cmp fuel (Some head) (Some x))
     (λ v, ⌜v = sl_find cmp x xs⌝ ∗
           RB_own head (match sl_find cmp x xs with Some _ => xs | None => sl_insert cmp x xs end)).
Proof.
  iIntros (Hf) "[(%t & (<- & %Hs & %Hok) & H) Hx]". pose proof (height_le_size t).
  iApply (wp_wand with "[H Hx]").
  { iApply (RB_INSERT_spec fuel head t x with "[H Hx]"); [done..|unfold size in *; lia|].
    iFrame "H". rewrite /insert_pre. destruct (sl_find _ _ _); iFrame. }
  iIntros (v) "[$ H]". destruct (sl_find cmp x (inorder t)) as [y|] eqn:E.
  - iExists t. by iFrame.
  - iDestruct "H" as "(%t' & H & %Hi & %Hok')". iExists t'. iFrame. iPureIntro.
    split_and!; [done|by apply sorted_insert|done].
Qed.

Lemma RB_own_remove fuel head xs x : length xs < fuel → x ∈ xs →
  RB_own head xs ⊢
  wp (RB_REMOVE fuel (Some head) (Some x))
     (λ v, ⌜v = Some x⌝ ∗ RB_own head (sl_remove x xs) ∗ RB_elem x).
Proof.
  iIntros (Hf Hx) "(%t & (<- & %Hs & %Hok) & H)". pose proof (height_le_size t).
  iApply (wp_wand with "[H]"); [iApply (RB_REMOVE_spec head fuel t x with "H"); [done..|unfold size in *; lia]|].
  iIntros (v) "(-> & $ & %t' & H & %Hi & %Hok')". iSplit; [done|]. iExists t'. iFrame. iPureIntro.
  split_and!; [done|by apply sorted_sl_remove|done].
Qed.

Lemma RB_own_find fuel head xs x : length xs < fuel →
  RB_own head xs ⊢
  wp (RB_FIND cmp fuel (Some head) (Some x)) (λ v, ⌜v = sl_find cmp x xs⌝ ∗ RB_own head xs).
Proof.
  iIntros (Hf) "(%t & (<- & %Hs & %Hok) & H)". pose proof (height_le_size t).
  iApply (wp_wand with "[H]"); [iApply (RB_FIND_spec fuel head t x with "H"); [done|unfold size in *; lia]|].
  iIntros (v) "[-> H]". iSplit; [done|]. iExists t. by iFrame.
Qed.

Lemma RB_own_next fuel head xs x : length xs < fuel → x ∈ xs →
  RB_own head xs ⊢ wp (RB_NEXT fuel (Some x)) (λ v, ⌜v = sl_next x xs⌝ ∗ RB_own head xs).
Proof.
  iIntros (Hf Hx) "(%t & (<- & %Hs & %Hok) & H)". pose proof (height_le_size t).
  apply list_elem_of_split in Hx as (l1 & l2 & E).
  iApply (wp_wand with "[H]"); [iApply (RB_NEXT_spec head fuel t x l1 l2 with "H"); [done|unfold size in *; lia]|].
  iIntros (v) "[-> H]". rewrite E sl_next_mid; last first.
  { rewrite E in Hs. apply sorted_NoDup, NoDup_app in Hs as (_&Hl&_). intros Hx%Hl. by apply Hx; left. }
  iSplit; [done|]. iExists t. iFrame. iPureIntro. by rewrite -E.
Qed.

Lemma RB_own_min fuel head xs : length xs < fuel →
  RB_own head xs ⊢ wp (RB_MIN fuel (Some head)) (λ v, ⌜v = list.head xs⌝ ∗ RB_own head xs).
Proof.
  iIntros (Hf) "(%t & (<- & %Hs & %Hok) & H)". pose proof (height_le_size t).
  iApply (wp_wand with "[H]"); [iApply (RB_MIN_spec fuel head t with "H"); unfold size in *; lia|].
  iIntros (v) "[-> H]". iSplit; [done|]. iExists t. by iFrame.
Qed.

Lemma RB_own_max fuel head xs : length xs < fuel →
  RB_own head xs ⊢ wp (RB_MAX fuel (Some head)) (λ v, ⌜v = last xs⌝ ∗ RB_own head xs).
Proof.
  iIntros (Hf) "(%t & (<- & %Hs & %Hok) & H)". pose proof (height_le_size t).
  iApply (wp_wand with "[H]"); [iApply (RB_MAX_spec fuel head t with "H"); unfold size in *; lia|].
  iIntros (v) "[-> H]". iSplit; [done|]. iExists t. by iFrame.
Qed.

#[export] Instance RB_OrderedSet : OrderedSet rb_obj cmp := {|
  os_own := RB_own;
  os_elem := RB_elem;
  os_insert fuel head x := RB_INSERT cmp fuel (Some head) (Some x);
  os_remove fuel head x := RB_REMOVE fuel (Some head) (Some x);
  os_find fuel head x := RB_FIND cmp fuel (Some head) (Some x);
  os_next fuel head x := RB_NEXT fuel (Some x);
  os_min fuel head := RB_MIN fuel (Some head);
  os_max fuel head := RB_MAX fuel (Some head);
  os_sorted := RB_own_sorted;
  os_insert_spec := RB_own_insert;
  os_remove_spec := RB_own_remove;
  os_find_spec := RB_own_find;
  os_next_spec := RB_own_next;
  os_min_spec := RB_own_min;
  os_max_spec := RB_own_max;
|}.
End instance.
