(* ===== verification/SplayTree.v ===== *)
(** * Splay trees of [uv/tree.h]: the code

    The [SPLAY_*] macros, one definition per macro or generated function. An
    object of the memory is either a tree head ([struct name], with its
    [sph_root]) or an element ([struct type], of which the macros see only the
    [SPLAY_ENTRY] called [field]); the temporary [__node] of the generated
    functions is an element allocated for the time of the call. *)

From S2P Require Import Prelude HeapLogic Trees.
Local Open Scope Z_scope.

Record SPLAY_ENTRY := {
  spe_left : ptr;
  spe_right : ptr;
}.
Inductive splay_obj :=
| SPLAY_HEAD (sph_root : ptr)
| SPLAY_ELEM (field : SPLAY_ENTRY).

Abbreviation SP A := (M (heap splay_obj) A).

Definition splay_entry (o : splay_obj) : option SPLAY_ENTRY :=
  match o with SPLAY_ELEM e => Some e | SPLAY_HEAD _ => None end.

Definition SPLAY_LEFT : ptr → SP ptr := get (λ o, spe_left <$> splay_entry o).
Definition SPLAY_RIGHT : ptr → SP ptr := get (λ o, spe_right <$> splay_entry o).
Definition SPLAY_ROOT : ptr → SP ptr :=
  get (λ o, match o with SPLAY_HEAD r => Some r | SPLAY_ELEM _ => None end).
Definition SPLAY_EMPTY (head : ptr) : SP bool := r ← SPLAY_ROOT head; mret (is_null r).

Definition set_SPLAY_LEFT (p q : ptr) : SP unit :=
  modify (λ o, (λ e, SPLAY_ELEM {| spe_left := q; spe_right := spe_right e |}) <$> splay_entry o) p.
Definition set_SPLAY_RIGHT (p q : ptr) : SP unit :=
  modify (λ o, (λ e, SPLAY_ELEM {| spe_left := spe_left e; spe_right := q |}) <$> splay_entry o) p.
Definition set_SPLAY_ROOT (head r : ptr) : SP unit :=
  modify (λ o, match o with SPLAY_HEAD _ => Some (SPLAY_HEAD r) | SPLAY_ELEM _ => None end) head.

Definition SPLAY_INIT (root : ptr) : SP unit := set_SPLAY_ROOT root None.

(** SPLAY_ROTATE_{LEFT,RIGHT} expect that tmp hold SPLAY_{RIGHT,LEFT} *)
Definition SPLAY_ROTATE_RIGHT (head tmp : ptr) : SP unit :=
  r ← SPLAY_ROOT head;
  tr ← SPLAY_RIGHT tmp;
  set_SPLAY_LEFT r tr;;
  r ← SPLAY_ROOT head;
  set_SPLAY_RIGHT tmp r;;
  set_SPLAY_ROOT head tmp.
Definition SPLAY_ROTATE_LEFT (head tmp : ptr) : SP unit :=
  r ← SPLAY_ROOT head;
  tl ← SPLAY_LEFT tmp;
  set_SPLAY_RIGHT r tl;;
  r ← SPLAY_ROOT head;
  set_SPLAY_LEFT tmp r;;
  set_SPLAY_ROOT head tmp.

(** The macros assign their argument [tmp]: here it is the result. *)
Definition SPLAY_LINKLEFT (head tmp : ptr) : SP ptr :=
  r ← SPLAY_ROOT head;
  set_SPLAY_LEFT tmp r;;
  tmp ← SPLAY_ROOT head;
  r ← SPLAY_ROOT head;
  l ← SPLAY_LEFT r;
  set_SPLAY_ROOT head l;;
  mret tmp.
Definition SPLAY_LINKRIGHT (head tmp : ptr) : SP ptr :=
  r ← SPLAY_ROOT head;
  set_SPLAY_RIGHT tmp r;;
  tmp ← SPLAY_ROOT head;
  r ← SPLAY_ROOT head;
  l ← SPLAY_RIGHT r;
  set_SPLAY_ROOT head l;;
  mret tmp.

Definition SPLAY_ASSEMBLE (head node left right : ptr) : SP unit :=
  r ← SPLAY_ROOT head; rl ← SPLAY_LEFT r;
  set_SPLAY_RIGHT left rl;;
  r ← SPLAY_ROOT head; rr ← SPLAY_RIGHT r;
  set_SPLAY_LEFT right rr;;
  r ← SPLAY_ROOT head; nr ← SPLAY_RIGHT node;
  set_SPLAY_LEFT r nr;;
  r ← SPLAY_ROOT head; nl ← SPLAY_LEFT node;
  set_SPLAY_RIGHT r nl.

(** The branches of the loop bodies of [SPLAY] and [SPLAY_MINMAX], which differ
    in their tests only: [deeper] is the test that asks for a rotation. The
    loop variables are [__left] and [__right]; a [break] yields them. *)
Definition SPLAY_branch_left (head : ptr) (deeper : ptr → SP bool) (v : ptr * ptr) :
    SP (ptr * ptr + ptr * ptr) :=
  let '(__left, __right) := v in
  r ← SPLAY_ROOT head;
  tmp ← SPLAY_LEFT r;
  if is_null tmp then mret (inr (__left, __right)) else
  d ← deeper tmp;
  stop ← (if d : bool then
            SPLAY_ROTATE_RIGHT head tmp;;
            r ← SPLAY_ROOT head; rl ← SPLAY_LEFT r; mret (is_null rl)
          else mret false);
  if stop : bool then mret (inr (__left, __right)) else
  __right ← SPLAY_LINKLEFT head __right;
  mret (inl (__left, __right)).
Definition SPLAY_branch_right (head : ptr) (deeper : ptr → SP bool) (v : ptr * ptr) :
    SP (ptr * ptr + ptr * ptr) :=
  let '(__left, __right) := v in
  r ← SPLAY_ROOT head;
  tmp ← SPLAY_RIGHT r;
  if is_null tmp then mret (inr (__left, __right)) else
  d ← deeper tmp;
  stop ← (if d : bool then
            SPLAY_ROTATE_LEFT head tmp;;
            r ← SPLAY_ROOT head; rr ← SPLAY_RIGHT r; mret (is_null rr)
          else mret false);
  if stop : bool then mret (inr (__left, __right)) else
  __left ← SPLAY_LINKRIGHT head __left;
  mret (inl (__left, __right)).

(** The temporary, as declared. *)
Definition splay_node : splay_obj := SPLAY_ELEM {| spe_left := None; spe_right := None |}.

(** Around the loops: set up [__node], run the loop, put the trees together. *)
Definition SPLAY_with (fuel : nat) (head : ptr)
    (body : ptr * ptr → SP (ptr * ptr + ptr * ptr)) : SP unit :=
  with_local splay_node (λ node,
    let node := Some node in
    set_SPLAY_RIGHT node None;; set_SPLAY_LEFT node None;;
    '(__left, __right) ← loop fuel body (node, node);
    SPLAY_ASSEMBLE head node __left __right).

Definition SPLAY_MINMAX_body (head : ptr) (comp : Z) (v : ptr * ptr) : SP (ptr * ptr + ptr * ptr) :=
  if comp <? 0 then SPLAY_branch_left head (λ _, mret (comp <? 0)) v
  else if comp >? 0 then SPLAY_branch_right head (λ _, mret (comp >? 0)) v
  else mret (inl v).

(** Splay with either the minimum or the maximum element *)
Definition SPLAY_MINMAX (fuel : nat) (head : ptr) (comp : Z) : SP unit :=
  SPLAY_with fuel head (SPLAY_MINMAX_body head comp).

Section compare.
Context (cmp : addr → addr → Z).

Definition SPLAY_body (head elm : ptr) (v : ptr * ptr) : SP (ptr * ptr + ptr * ptr) :=
  r ← SPLAY_ROOT head;
  comp ← call_cmp cmp elm r;
  if comp =? 0 then mret (inr v)
  else if comp <? 0 then
    SPLAY_branch_left head (λ tmp, c ← call_cmp cmp elm tmp; mret (c <? 0)) v
  else if comp >? 0 then
    SPLAY_branch_right head (λ tmp, c ← call_cmp cmp elm tmp; mret (c >? 0)) v
  else mret (inl v).

(** Main splay operation. *)
Definition SPLAY (fuel : nat) (head elm : ptr) : SP unit :=
  SPLAY_with fuel head (SPLAY_body head elm).

Definition SPLAY_INSERT (fuel : nat) (head elm : ptr) : SP ptr :=
  empty ← SPLAY_EMPTY head;
  if empty : bool then
    set_SPLAY_RIGHT elm None;; set_SPLAY_LEFT elm None;;
    set_SPLAY_ROOT head elm;;
    mret None
  else
    SPLAY fuel head elm;;
    r ← SPLAY_ROOT head;
    comp ← call_cmp cmp elm r;
    if comp <? 0 then
      r ← SPLAY_ROOT head; rl ← SPLAY_LEFT r; set_SPLAY_LEFT elm rl;;
      r ← SPLAY_ROOT head; set_SPLAY_RIGHT elm r;;
      r ← SPLAY_ROOT head; set_SPLAY_LEFT r None;;
      set_SPLAY_ROOT head elm;;
      mret None
    else if comp >? 0 then
      r ← SPLAY_ROOT head; rr ← SPLAY_RIGHT r; set_SPLAY_RIGHT elm rr;;
      r ← SPLAY_ROOT head; set_SPLAY_LEFT elm r;;
      r ← SPLAY_ROOT head; set_SPLAY_RIGHT r None;;
      set_SPLAY_ROOT head elm;;
      mret None
    else SPLAY_ROOT head.

Definition SPLAY_REMOVE (fuel : nat) (head elm : ptr) : SP ptr :=
  empty ← SPLAY_EMPTY head;
  if empty : bool then mret None else
  SPLAY fuel head elm;;
  r ← SPLAY_ROOT head;
  comp ← call_cmp cmp elm r;
  if comp =? 0 then
    r ← SPLAY_ROOT head;
    l ← SPLAY_LEFT r;
    (if is_null l then
       r ← SPLAY_ROOT head; rr ← SPLAY_RIGHT r; set_SPLAY_ROOT head rr
     else
       r ← SPLAY_ROOT head; tmp ← SPLAY_RIGHT r;
       r ← SPLAY_ROOT head; rl ← SPLAY_LEFT r; set_SPLAY_ROOT head rl;;
       SPLAY fuel head elm;;
       r ← SPLAY_ROOT head; set_SPLAY_RIGHT r tmp);;
    mret elm
  else mret None.

(** Finds the node with the same key as elm *)
Definition SPLAY_FIND (fuel : nat) (head elm : ptr) : SP ptr :=
  empty ← SPLAY_EMPTY head;
  if empty : bool then mret None else
  SPLAY fuel head elm;;
  r ← SPLAY_ROOT head;
  comp ← call_cmp cmp elm r;
  if comp =? 0 then SPLAY_ROOT head else mret None.

Definition SPLAY_NEXT (fuel : nat) (head elm : ptr) : SP ptr :=
  SPLAY fuel head elm;;
  r ← SPLAY_RIGHT elm;
  if negb (is_null r) then
    elm ← SPLAY_RIGHT elm;
    loop fuel (λ elm,
      l ← SPLAY_LEFT elm;
      if negb (is_null l) then inl <$> SPLAY_LEFT elm else mret (inr elm)) elm
  else mret None.
End compare.

Definition SPLAY_MIN_MAX (fuel : nat) (head : ptr) (val : Z) : SP ptr :=
  SPLAY_MINMAX fuel head val;;
  SPLAY_ROOT head.

Definition SPLAY_NEGINF : Z := -1.
Definition SPLAY_INF : Z := 1.
Definition SPLAY_MIN (fuel : nat) (head : ptr) : SP ptr :=
  empty ← SPLAY_EMPTY head;
  if empty : bool then mret None else SPLAY_MIN_MAX fuel head SPLAY_NEGINF.
Definition SPLAY_MAX (fuel : nat) (head : ptr) : SP ptr :=
  empty ← SPLAY_EMPTY head;
  if empty : bool then mret None else SPLAY_MIN_MAX fuel head SPLAY_INF.

Definition SPLAY_FOREACH {S} (cmp : addr → addr → Z) (fuel : nat) (head : ptr)
    (body : S → ptr → SP S) (s : S) : SP S :=
  x ← SPLAY_MIN fuel head;
  loop fuel (λ '(x, s),
    if is_null x then mret (inr s) else
    s ← body s x;
    x ← SPLAY_NEXT cmp fuel head x;
    mret (inl (x, s))) (x, s).
