(* ===== verification/SplayProofs.v ===== *)
(** * Splay trees: what the operations do

    The memory predicate of splay trees, the loop of [SPLAY] and
    [SPLAY_MINMAX], and the operations on the sorted list of the elements. *)

From S2P Require Import Prelude HeapLogic Trees SplayTree.

Abbreviation stree := (tree unit).
Abbreviation sentry l r := (SPLAY_ELEM {| spe_left := l; spe_right := r |}).

Section shape.
Implicit Types (t l r : stree) (k : ctx unit) (a b : addr) (p q : ptr).

Fixpoint spt t : hpropI splay_obj :=
  match t with
  | Leaf => emp
  | Node _ l a r => a ↦ sentry (root l) (root r) ∗ spt l ∗ spt r
  end%I.

Definition sfentry (f : frame unit) (hole : ptr) : splay_obj :=
  match fdir f with
  | L => sentry hole (root (fsib f))
  | R => sentry (root (fsib f)) hole
  end.

(** The nodes of a context, whose hole holds the pointer [p]. *)
Fixpoint chain k p : hpropI splay_obj :=
  match k with
  | [] => emp
  | f :: k => faddr f ↦ sfentry f p ∗ spt (fsib f) ∗ chain k (Some (faddr f))
  end%I.
(** The pointer to its outermost node: that of the hole if there is none. *)
Fixpoint kroot k p : ptr := match k with [] => p | f :: k => kroot k (Some (faddr f)) end.

Definition SPLAY_tree (head : addr) t : hpropI splay_obj := (head ↦ SPLAY_HEAD (root t) ∗ spt t)%I.

Lemma root_fill f t : root (fill f t) = Some (faddr f).
Proof. by destruct f as [[] ? ? ?]. Qed.

Lemma kroot_plug k t : kroot k (root t) = root (plug k t).
Proof.
  revert t. induction k as [|f k IH]; intros t; [done|]. cbn [kroot plug]. by rewrite -IH root_fill.
Qed.

Lemma chain_plug k t : chain k (root t) ∗ spt t ⊣⊢ spt (plug k t).
Proof.
  revert t. induction k as [|f k IH]; intros t; cbn [chain plug]; [iSplit; [iIntros "[_ $]"|iIntros "$"]|].
  rewrite -IH root_fill. destruct f as [[] c a s]; cbn; iSplit; iIntros "H".
  - iDestruct "H" as "((?&?&?)&?)". iFrame.
  - iDestruct "H" as "(?&?&?&?)". iFrame.
  - iDestruct "H" as "((?&?&?)&?)". iFrame.
  - iDestruct "H" as "(?&?&?&?)". iFrame.
Qed.

Lemma spt_elem t a : a ∈ inorder t → spt t ⊢ ∃ o, a ↦ o.
Proof.
  induction t as [|c l IHl b r IHr]; cbn; [by intros ?%elem_of_nil|].
  iIntros ([Hl|[->|Hr]%elem_of_cons]%elem_of_app) "(Hb & Hl & Hr)".
  - by iApply IHl.
  - by iExists _.
  - by iApply IHr.
Qed.

(** A context on one side only. *)
Definition side_ctx (d : dir) k : Prop := ∀ f, f ∈ k → fdir f = d.

Lemma side_ctx_cons d f k : side_ctx d (f :: k) ↔ fdir f = d ∧ side_ctx d k.
Proof. unfold side_ctx. set_solver. Qed.

Lemma side_ctx_R k : side_ctx R k → rights k = [].
Proof. induction k as [|f k IH]; [done|]. intros [Hf Hk]%side_ctx_cons. cbn. rewrite Hf. auto. Qed.
Lemma side_ctx_L k : side_ctx L k → lefts k = [].
Proof. induction k as [|f k IH]; [done|]. intros [Hf Hk]%side_ctx_cons. cbn. rewrite Hf. auto. Qed.

(** The address whose field is the hole. *)
Definition hole_of (node : addr) k : addr := match k with [] => node | f :: _ => faddr f end.
End shape.

Lemma spt_Node u l a r : spt (Node u l a r) ⊣⊢ a ↦ sentry (root l) (root r) ∗ spt l ∗ spt r.
Proof. done. Qed.
Lemma spt_Leaf : spt Leaf ⊣⊢ emp.
Proof. done. Qed.
Lemma chain_nil p : chain [] p ⊣⊢ emp.
Proof. done. Qed.
Lemma chain_cons f k p :
  chain (f :: k) p ⊣⊢ faddr f ↦ sfentry f p ∗ spt (fsib f) ∗ chain k (Some (faddr f)).
Proof. done. Qed.
#[global] Opaque spt chain.

#[export] Instance spt_Node_into_sep u l a r :
  IntoSep (spt (Node u l a r)) (a ↦ sentry (root l) (root r)) (spt l ∗ spt r).
Proof. by rewrite /IntoSep spt_Node. Qed.
#[export] Instance chain_cons_into_sep f k p :
  IntoSep (chain (f :: k) p) (faddr f ↦ sfentry f p) (spt (fsib f) ∗ chain k (Some (faddr f))).
Proof. by rewrite /IntoSep chain_cons. Qed.

Ltac wp_simpl ::=
  cbn [root sfentry fdir faddr fsib fdec is_null negb fmap option_fmap option_map splay_entry
       spe_left spe_right fst snd hole_of kroot].
Ltac sp_frame :=
  rewrite /SPLAY_tree; wp_simpl; iFrame; rewrite ?spt_Node ?spt_Leaf ?chain_cons ?chain_nil;
  wp_simpl; iFrame; try done.
Ltac wp_pre ::= sp_frame.
Ltac sp_step := first [wp_step | rewrite call_cmp_Some; wp_norm | iApply wp_ret].
Ltac sp_steps := wp_norm; repeat sp_step.

(** ** The top-down splay *)

Section splay.
Implicit Types (t l r : stree) (k kl kr : ctx unit) (a b x : addr) (p q : ptr).

(** The state of the loops: the tree [t] still to search under [head], the
    elements found smaller in the chain [kl], the larger ones in [kr]. Both
    chains hang off the temporary [node], with stale pointers in their holes. *)
Definition splay_state (head node : addr) kl t kr : hpropI splay_obj :=
  (∃ p q, head ↦ SPLAY_HEAD (root t) ∗ spt t ∗
     node ↦ sentry (kroot kr q) (kroot kl p) ∗ chain kl p ∗ chain kr q)%I.

Lemma set_left_hole node kl p q (x : ptr) :
  side_ctx R kl →
  node ↦ sentry x (kroot kl p) ∗ chain kl p ⊢
  wp (set_SPLAY_RIGHT (Some (hole_of node kl)) q)
     (λ _, node ↦ sentry x (kroot kl q) ∗ chain kl q).
Proof.
  iIntros (Hk) "[Hn Hc]". unfold set_SPLAY_RIGHT. destruct kl as [|[d [] a s] kl]; sp_steps; [sp_frame|].
  apply side_ctx_cons in Hk as [Hd _]; cbn in Hd; subst d.
  iDestruct "Hc" as "(Ha & Hs & Hc)". sp_steps. sp_frame.
Qed.

Lemma set_right_hole node kr p q (x : ptr) :
  side_ctx L kr →
  node ↦ sentry (kroot kr p) x ∗ chain kr p ⊢
  wp (set_SPLAY_LEFT (Some (hole_of node kr)) q)
     (λ _, node ↦ sentry (kroot kr q) x ∗ chain kr q).
Proof.
  iIntros (Hk) "[Hn Hc]". unfold set_SPLAY_LEFT. destruct kr as [|[d [] a s] kr]; sp_steps; [sp_frame|].
  apply side_ctx_cons in Hk as [Hd _]; cbn in Hd; subst d.
  iDestruct "Hc" as "(Ha & Hs & Hc)". sp_steps. sp_frame.
Qed.

Lemma SPLAY_LINKRIGHT_spec head node kl u l a r kr :
  side_ctx R kl →
  splay_state head node kl (Node u l a r) kr ⊢
  wp (SPLAY_LINKRIGHT (Some head) (Some (hole_of node kl)))
     (λ v, ⌜v = Some a⌝ ∗ splay_state head node (Frame R u a l :: kl) r kr).
Proof.
  iIntros (Hk) "(%p & %q & Hh & (Ha & Hl & Hr) & Hn & Hkl & Hkr)". unfold SPLAY_LINKRIGHT.
  unfold SPLAY_ROOT, set_SPLAY_ROOT. sp_steps.
  wp_call (set_left_hole node kl p) with "Hn Hkl". iIntros (_) "[Hn Hkl]". sp_steps.
  iSplit; [done|]. iExists (root r), q. sp_frame.
Qed.

Lemma SPLAY_LINKLEFT_spec head node kl u l a r kr :
  side_ctx L kr →
  splay_state head node kl (Node u l a r) kr ⊢
  wp (SPLAY_LINKLEFT (Some head) (Some (hole_of node kr)))
     (λ v, ⌜v = Some a⌝ ∗ splay_state head node kl l (Frame L u a r :: kr)).
Proof.
  iIntros (Hk) "(%p & %q & Hh & (Ha & Hl & Hr) & Hn & Hkl & Hkr)". unfold SPLAY_LINKLEFT.
  unfold SPLAY_ROOT, set_SPLAY_ROOT. sp_steps.
  wp_call (set_right_hole node kr q) with "Hn Hkr". iIntros (_) "[Hn Hkr]". sp_steps.
  iSplit; [done|]. iExists p, (root l). sp_frame.
Qed.

Lemma SPLAY_ASSEMBLE_spec head node kl u l a r kr :
  side_ctx R kl → side_ctx L kr →
  splay_state head node kl (Node u l a r) kr ⊢
  wp (SPLAY_ASSEMBLE (Some head) (Some node) (Some (hole_of node kl)) (Some (hole_of node kr)))
     (λ _, (∃ o, node ↦ o) ∗ SPLAY_tree head (Node u (plug kl l) a (plug kr r))).
Proof.
  iIntros (Hkl Hkr) "(%p & %q & Hh & (Ha & Hl & Hr) & Hn & Hkl & Hkr)". unfold SPLAY_ASSEMBLE.
  unfold SPLAY_ROOT, set_SPLAY_ROOT. sp_steps.
  wp_call (set_left_hole node kl p) with "Hn Hkl". iIntros (_) "[Hn Hkl]". sp_steps.
  wp_call (set_right_hole node kr q) with "Hn Hkr". iIntros (_) "[Hn Hkr]". sp_steps.
  rewrite !kroot_plug. unfold set_SPLAY_LEFT, set_SPLAY_RIGHT. sp_steps.
  rewrite /SPLAY_tree spt_Node -!chain_plug. sp_frame.
Qed.
(** The loops are driven by [sel], the outcome of the comparison at an
    element: the comparison with the key, or a constant. *)
Definition good (sel : addr → Z) kl kr : Prop :=
  side_ctx R kl ∧ side_ctx L kr ∧
  (∀ f, f ∈ kl → (sel (faddr f) > 0)%Z) ∧ (∀ f, f ∈ kr → (sel (faddr f) < 0)%Z).

(** Where the loops stop. *)
Definition exit_at (sel : addr → Z) t : Prop :=
  match t with
  | Leaf => False
  | Node _ l a r => sel a = 0%Z ∨ ((sel a < 0)%Z ∧ l = Leaf) ∨ ((sel a > 0)%Z ∧ r = Leaf)
  end.

Abbreviation holes node kl kr := (Some (hole_of node kl), Some (hole_of node kr)).

Definition step_post sel head node kl t kr (v : ptr * ptr + ptr * ptr) : hpropI splay_obj :=
  ∃ kl' t' kr',
    ⌜good sel kl' kr' ∧ t' ≠ Leaf ∧
     lefts kl' ++ inorder t' ++ rights kr' = lefts kl ++ inorder t ++ rights kr ∧
     match v with
     | inl v' => v' = holes node kl' kr' ∧ height t' < height t
     | inr v' => v' = holes node kl' kr' ∧ exit_at sel t'
     end⌝ ∗ splay_state head node kl' t' kr'.

Lemma good_L sel u a r kl kr : good sel kl kr → (sel a < 0)%Z → good sel kl (Frame L u a r :: kr).
Proof.
  intros (?&?&?&?) ?. split_and!; auto.
  - by apply side_ctx_cons.
  - intros f [->|?]%elem_of_cons; auto.
Qed.
Lemma good_R sel u a l kl kr : good sel kl kr → (sel a > 0)%Z → good sel (Frame R u a l :: kl) kr.
Proof.
  intros (?&?&?&?) ?. split_and!; auto.
  - by apply side_ctx_cons.
  - intros f [->|?]%elem_of_cons; auto.
Qed.

Lemma SPLAY_branch_left_spec sel deeper head node kl u l a r kr :
  (∀ b, deeper (Some b) = mret (sel b <? 0)%Z) → good sel kl kr → (sel a < 0)%Z →
  splay_state head node kl (Node u l a r) kr ⊢
  wp (SPLAY_branch_left (Some head) deeper (holes node kl kr))
     (step_post sel head node kl (Node u l a r) kr).
Proof.
  iIntros (Hd Hg Ha) "(%p & %q & Hh & (Ha & Hl & Hr) & Hn & Hkl & Hkr)".
  pose proof Hg as (_ & Hgr & _). unfold SPLAY_branch_left, SPLAY_ROOT. sp_steps.
  destruct l as [|ul ll b lr]; sp_steps.
  { iExists kl, (Node u Leaf a r), kr. iSplit.
    - iPureIntro. split_and!; [done..|]. cbn. auto.
    - iExists p, q. sp_frame. }
  rewrite Hd. sp_steps. destruct (Z.ltb_spec (sel b) 0) as [Hb|Hb]; wp_norm.
  - iDestruct "Hl" as "(Hb & Hll & Hlr)".
    unfold SPLAY_ROTATE_RIGHT, SPLAY_ROOT, set_SPLAY_ROOT, set_SPLAY_LEFT at 1, set_SPLAY_RIGHT.
    sp_steps. destruct ll as [|u' l' c r']; sp_steps.
    + iExists kl, (Node ul Leaf b (Node u lr a r)), kr. iSplit.
      * iPureIntro. split_and!; [done..|by list_norm|]. cbn. auto.
      * iExists p, q. sp_frame.
    + wp_call (SPLAY_LINKLEFT_spec head node kl ul (Node u' l' c r') b (Node u lr a r) kr)
        with "Hh Ha Hb Hll Hlr Hr Hn Hkl Hkr".
      iIntros (v) "[-> H]". iApply wp_ret.
      iExists kl, (Node u' l' c r'), (Frame L ul b (Node u lr a r) :: kr). iFrame. iPureIntro.
      split_and!; [by apply good_L|done|by list_norm|done|cbn; lia].
  - wp_call (SPLAY_LINKLEFT_spec head node kl u (Node ul ll b lr) a r kr)
      with "Hh Ha Hl Hr Hn Hkl Hkr".
    iIntros (v) "[-> H]". iApply wp_ret.
    iExists kl, (Node ul ll b lr), (Frame L u a r :: kr). iFrame. iPureIntro.
    split_and!; [by apply good_L|done|by list_norm|done|cbn; lia].
Qed.

Lemma SPLAY_branch_right_spec sel deeper head node kl u l a r kr :
  (∀ b, deeper (Some b) = mret (sel b >? 0)%Z) → good sel kl kr → (sel a > 0)%Z →
  splay_state head node kl (Node u l a r) kr ⊢
  wp (SPLAY_branch_right (Some head) deeper (holes node kl kr))
     (step_post sel head node kl (Node u l a r) kr).
Proof.
  iIntros (Hd Hg Ha) "(%p & %q & Hh & (Ha & Hl & Hr) & Hn & Hkl & Hkr)".
  pose proof Hg as (Hgl & _). unfold SPLAY_branch_right, SPLAY_ROOT. sp_steps.
  destruct r as [|ur rl b rr]; sp_steps.
  { iExists kl, (Node u l a Leaf), kr. iSplit.
    - iPureIntro. split_and!; [done..|]. cbn. auto.
    - iExists p, q. sp_frame. }
  rewrite Hd. sp_steps. destruct (Z.gtb_spec (sel b) 0) as [Hb|Hb]; wp_norm.
  - iDestruct "Hr" as "(Hb & Hrl & Hrr)".
    unfold SPLAY_ROTATE_LEFT, SPLAY_ROOT, set_SPLAY_ROOT, set_SPLAY_RIGHT at 1, set_SPLAY_LEFT.
    sp_steps. destruct rr as [|u' l' c r']; sp_steps.
    + iExists kl, (Node ur (Node u l a rl) b Leaf), kr. iSplit.
      * iPureIntro. split_and!; [done|done|by list_norm|done|]. cbn. right; right. split; [lia|done].
      * iExists p, q. sp_frame.
    + wp_call (SPLAY_LINKRIGHT_spec head node kl ur (Node u l a rl) b (Node u' l' c r') kr)
        with "Hh Ha Hb Hrr Hrl Hl Hn Hkl Hkr".
      iIntros (v) "[-> H]". iApply wp_ret.
      iExists (Frame R ur b (Node u l a rl) :: kl), (Node u' l' c r'), kr. iFrame. iPureIntro.
      split_and!; [apply good_R; [done|lia]|done|by list_norm|done|cbn; lia].
  - wp_call (SPLAY_LINKRIGHT_spec head node kl u l a (Node ur rl b rr) kr)
      with "Hh Ha Hl Hr Hn Hkl Hkr".
    iIntros (v) "[-> H]". iApply wp_ret.
    iExists (Frame R u a l :: kl), (Node ur rl b rr), kr. iFrame. iPureIntro.
    split_and!; [by apply good_R|done|by list_norm|done|cbn; lia].
Qed.
(** A loop whose every iteration is such a step ends, having brought an
    element at which it may stop to the root. *)
Definition body_ok sel head (body : ptr * ptr → SP (ptr * ptr + ptr * ptr)) : Prop :=
  ∀ node kl u l a r kr, good sel kl kr →
    splay_state head node kl (Node u l a r) kr ⊢
    wp (body (holes node kl kr)) (step_post sel head node kl (Node u l a r) kr).

Definition splayed sel l a r : Prop :=
  ∃ kl l0 kr r0, l = plug kl l0 ∧ r = plug kr r0 ∧ good sel kl kr ∧ exit_at sel (Node tt l0 a r0).

Definition splay_post sel head t : hpropI splay_obj :=
  ∃ l a r, SPLAY_tree head (Node tt l a r) ∗
           ⌜inorder (Node tt l a r) = inorder t ∧ splayed sel l a r⌝.

Definition loop_post sel head node kl t kr (v : ptr * ptr) : hpropI splay_obj :=
  ∃ kl' t' kr', ⌜v = holes node kl' kr' ∧ good sel kl' kr' ∧ exit_at sel t' ∧
    lefts kl' ++ inorder t' ++ rights kr' = lefts kl ++ inorder t ++ rights kr⌝ ∗
    splay_state head node kl' t' kr'.

Lemma SPLAY_loop_spec sel head node body fuel kl t kr :
  body_ok sel head body → t ≠ Leaf → height t ≤ fuel → good sel kl kr →
  splay_state head node kl t kr ⊢
  wp (loop fuel body (holes node kl kr)) (loop_post sel head node kl t kr).
Proof.
  intros Hb. revert kl t kr. induction fuel as [|n IH]; intros kl t kr Ht Hn Hg;
    (destruct t as [|u l a r]; [done|]); cbn in Hn; [lia|].
  iIntros "H". iApply wp_loop_S. iApply (wp_wand with "[H]"); [by iApply Hb|].
  iIntros ([v|v]) "(%kl' & %t' & %kr' & (%Hg' & %Ht' & %Hi & (-> & %Hv)) & H)".
  - cbn in Hv. iApply (wp_wand with "[H]"); [iApply (IH with "H"); [done|lia|done]|].
    iIntros (v) "(%kl2 & %t2 & %kr2 & (-> & %Hg2 & %He & %Hi2) & H)". iExists kl2, t2, kr2.
    iFrame. iPureIntro. split_and!; [done..|congruence].
  - iExists kl', t', kr'. by iFrame.
Qed.

Lemma SPLAY_with_spec sel head body fuel t :
  body_ok sel head body → t ≠ Leaf → height t ≤ fuel →
  SPLAY_tree head t ⊢ wp (SPLAY_with fuel (Some head) body) (λ _, splay_post sel head t).
Proof.
  iIntros (Hb Ht Hn) "[Hh Ht]". unfold SPLAY_with. iApply wp_with_local. iIntros (node) "Hn".
  unfold splay_node, set_SPLAY_RIGHT at 1, set_SPLAY_LEFT at 1. sp_steps.
  assert (good sel [] []) as Hg by (split_and!; intros f ?%elem_of_nil; done).
  wp_call (SPLAY_loop_spec sel head node body fuel [] t []) with "Hh Ht Hn".
  iIntros (v) "(%kl & %t' & %kr & (-> & %Hg' & %He & %Hi) & H)". wp_norm.
  destruct t' as [|[] l a r]; [done|]. pose proof Hg' as (Hl & Hr & _).
  iApply (wp_wand with "[H]"); [by iApply SPLAY_ASSEMBLE_spec|].
  iIntros (_) "[$ H]". iExists (plug kl l), a, (plug kr r). iFrame. iPureIntro. split.
  - rewrite app_nil_r /= in Hi. rewrite -Hi /= !inorder_plug (side_ctx_R kl) // (side_ctx_L kr) // app_nil_r.
    cbn. by list_norm.
  - by exists kl, l, kr, r.
Qed.

Lemma SPLAY_MINMAX_body_ok head c : c ≠ 0%Z → body_ok (λ _, c) head (SPLAY_MINMAX_body (Some head) c).
Proof.
  intros Hc node kl u l a r kr Hg. unfold SPLAY_MINMAX_body. destruct (Z.ltb_spec c 0).
  - apply SPLAY_branch_left_spec; [|done|lia]. intros b. by destruct (Z.ltb_spec c 0); [|lia].
  - destruct (Z.gtb_spec c 0); [|lia]. apply SPLAY_branch_right_spec; [|done|lia].
    intros b. by destruct (Z.gtb_spec c 0); [|lia].
Qed.

Lemma SPLAY_body_ok cmp head x : body_ok (cmp x) head (SPLAY_body cmp (Some head) (Some x)).
Proof.
  iIntros (node kl u l a r kr Hg) "(%p & %q & Hh & Ht & H)". unfold SPLAY_body, SPLAY_ROOT. sp_steps.
  destruct (Z.eqb_spec (cmp x a) 0).
  { iApply wp_ret. iExists kl, (Node u l a r), kr. iSplit.
    - iPureIntro. split_and!; [done..|]. cbn. auto.
    - iExists p, q. sp_frame. }
  destruct (Z.ltb_spec (cmp x a) 0).
  - iApply SPLAY_branch_left_spec; [done..|]. iExists p, q. sp_frame.
  - destruct (Z.gtb_spec (cmp x a) 0); [|lia].
    iApply SPLAY_branch_right_spec; [done|done|lia|]. iExists p, q. sp_frame.
Qed.
End splay.

(** A loop that does not return makes the function not return. *)
Lemma SPLAY_with_run fuel head body h :
  let a := fresh_addr h in
  SPLAY_with fuel head body h =
  match loop fuel body (Some a, Some a) (<[a := splay_node]> h) with
  | Ret ((__left, __right), h') =>
      (_ ← SPLAY_ASSEMBLE head (Some a) __left __right; _ ← dealloc a; mret tt) h'
  | Undef => Undef
  | NoFuel => NoFuel
  end.
Proof.
  Transparent modify. unfold SPLAY_with, with_local, alloc, set_SPLAY_LEFT, set_SPLAY_RIGHT, modify.
  cbv [mbind M_bind load store]. cbn zeta. rewrite !lookup_insert_eq. cbn -[loop].
  rewrite !lookup_insert_eq. cbn -[loop]. rewrite !insert_insert_eq. change (SPLAY_ELEM _) with splay_node.
  rewrite lookup_insert_eq.
  destruct (loop _ _ _ _) as [[[? ?] ?]| |]; [|done..].
  destruct (SPLAY_ASSEMBLE _ _ _ _ _) as [[u ?]| |]; [by destruct u|done..].
  Opaque modify.
Qed.

(** [SPLAY] of an empty tree compares with the null root. *)
Lemma SPLAY_empty cmp fuel head x h :
  0 < fuel → h !! head = Some (SPLAY_HEAD None) → SPLAY cmp fuel (Some head) (Some x) h = Undef.
Proof.
  intros Hf Hh. unfold SPLAY. rewrite SPLAY_with_run. destruct fuel as [|n]; [lia|].
  assert (fresh_addr h ≠ head) as Hne by (intros E; pose proof (fresh_addr_fresh h); congruence).
  unfold loop, SPLAY_body, SPLAY_ROOT. Transparent get. unfold get. cbv [mbind M_bind load].
  rewrite lookup_insert_ne // Hh. done.
  Opaque get.
Qed.

(** [SPLAY_MINMAX] with a zero argument never leaves its loop. *)
Lemma SPLAY_MINMAX_zero fuel head h : SPLAY_MINMAX fuel head 0 h = NoFuel.
Proof.
  assert (∀ n (v : ptr * ptr) (h' : heap splay_obj), loop n (SPLAY_MINMAX_body head 0) v h' = NoFuel) as Hl.
  { induction n as [|n IH]; intros v h'; [done|]. exact (IH v h'). }
  unfold SPLAY_MINMAX. rewrite SPLAY_with_run. by rewrite Hl.
Qed.

(** ** Operations *)

Section operations.
Context {cmp : addr → addr → Z} `{!CmpOrder cmp}.
Implicit Types (t l r : stree) (k kl kr : ctx unit) (a b x : addr).

(** After a splay for [x] with [a] at the root, either [a] equals [x] or it is
    a neighbour of [x] in the order: no element lies between them. *)
Definition splayed_at cmp x (ls : list addr) a (rs : list addr) : Prop :=
  cmp x a = 0%Z ∨
  ((cmp x a < 0)%Z ∧ splits cmp x ls (a :: rs)) ∨
  ((cmp x a > 0)%Z ∧ splits cmp x (ls ++ [a]) rs).

Lemma good_lefts x kl t :
  side_ctx R kl → (∀ f, f ∈ kl → (cmp x (faddr f) > 0)%Z) → sorted cmp (inorder (plug kl t)) →
  ∀ y, y ∈ lefts kl → (cmp x y > 0)%Z.
Proof.
  revert t. induction kl as [|f kl IH]; intros t Hd Hf Hsort y; cbn; [by intros ?%elem_of_nil|].
  apply side_ctx_cons in Hd as [Hd Hs].
  rewrite Hd. destruct f as [d u a s]; cbn in *; subst d.
  pose proof (sorted_plug_node _ _ _ _ _ Hsort) as [Hlt _].
  assert (cmp x a > 0)%Z by (apply (Hf (Frame R u a s)); left).
  intros [Hy|[Hy| ->%list_elem_of_singleton]%elem_of_app]%elem_of_app; [| |done].
  - eapply IH; [done| |exact Hsort|done]. intros; apply Hf; by right.
  - apply (cmp_gt_lt_trans x a y); [done|]. apply Hlt. set_solver.
Qed.

Lemma good_rights x kr t :
  side_ctx L kr → (∀ f, f ∈ kr → (cmp x (faddr f) < 0)%Z) → sorted cmp (inorder (plug kr t)) →
  ∀ y, y ∈ rights kr → (cmp x y < 0)%Z.
Proof.
  revert t. induction kr as [|f kr IH]; intros t Hd Hf Hsort y; cbn; [by intros ?%elem_of_nil|].
  apply side_ctx_cons in Hd as [Hd Hs].
  rewrite Hd. destruct f as [d u a s]; cbn in *; subst d.
  pose proof (sorted_plug_node _ _ _ _ _ Hsort) as [_ Hlt].
  assert (cmp x a < 0)%Z by (apply (Hf (Frame L u a s)); left).
  intros [->|[Hy|Hy]%elem_of_app]%elem_of_cons; [done| |].
  - apply (cmp_lt_trans x a y); [done|]. apply Hlt. set_solver.
  - eapply IH; [done| |exact Hsort|done]. intros; apply Hf; by right.
Qed.

Lemma splayed_splits x l a r :
  sorted cmp (inorder (Node tt l a r)) → splayed (cmp x) l a r →
  splayed_at cmp x (inorder l) a (inorder r).
Proof.
  intros Hs (kl & l0 & kr & r0 & -> & -> & (HR & HL & Hl & Hr) & He).
  pose proof Hs as (Hsl & Hsr & Hla & Har & _)%sorted_mid.
  destruct He as [He|[[Ha ->]|[Ha ->]]]; [by left|right; left|right; right];
    (split; [done|]); split; intros y Hy.
  - eapply good_lefts; [done..|]. rewrite inorder_plug (side_ctx_R kl) // /= app_nil_r in Hy. done.
  - apply elem_of_cons in Hy as [->|Hy]; [done|]. apply (cmp_lt_trans x a y); [done|]. by apply Har.
  - apply elem_of_app in Hy as [Hy| ->%list_elem_of_singleton]; [|done].
    apply (cmp_gt_lt_trans x a y); [done|]. by apply Hla.
  - eapply good_rights; [done..|]. by rewrite inorder_plug (side_ctx_L kr) // in Hy.
Qed.

Lemma SPLAY_spec fuel head t x :
  sorted cmp (inorder t) → t ≠ Leaf → size t ≤ fuel →
  SPLAY_tree head t ⊢
  wp (SPLAY cmp fuel (Some head) (Some x))
     (λ _, ∃ l a r, SPLAY_tree head (Node tt l a r) ∗
           ⌜inorder (Node tt l a r) = inorder t ∧ splayed_at cmp x (inorder l) a (inorder r)⌝).
Proof.
  iIntros (Hs Ht Hn) "H". pose proof (height_le_size t). unfold SPLAY.
  iApply (wp_wand with "[H]"); [iApply SPLAY_with_spec; [apply SPLAY_body_ok|done|lia|done]|].
  iIntros (_) "(%l & %a & %r & H & %Hi & %Hsp)". iExists l, a, r. iFrame. iPureIntro.
  split; [done|]. apply splayed_splits; [by rewrite Hi|done].
Qed.

(** What a splay for [x] says of lookup, insertion and removal. *)
Lemma splayed_eq_lt x ls a rs y :
  sorted cmp (ls ++ a :: rs) → cmp x a = 0%Z → y ∈ ls → (cmp x y > 0)%Z.
Proof.
  intros (_&_&Hla&_)%sorted_mid E Hy%Hla. unfold cmp_lt in Hy.
  pose proof (cmp_eq_l x a y E). apply cmp_flip_lt in Hy. lia.
Qed.

Lemma splayed_find x ls a rs :
  sorted cmp (ls ++ a :: rs) → splayed_at cmp x ls a rs →
  sl_find cmp x (ls ++ a :: rs) = if decide (cmp x a = 0%Z) then Some a else None.
Proof.
  intros Hs Hsp. case_decide as E.
  - apply sl_find_eq; [|done]. intros y. by apply (splayed_eq_lt x ls a rs).
  - destruct Hsp as [?|[[_ Hsp]|[_ Hsp]]]; [done| |].
    + by apply sl_find_splits.
    + rewrite (cons_middle a) (assoc_L (++)). by apply sl_find_splits.
Qed.

Lemma splayed_insert_lt x ls a rs :
  splayed_at cmp x ls a rs → (cmp x a < 0)%Z →
  sl_insert cmp x (ls ++ a :: rs) = ls ++ x :: a :: rs.
Proof. intros [?|[[_ Hsp]|[? _]]] ?; [lia| |lia]. by apply sl_insert_splits. Qed.

Lemma splayed_insert_gt x ls a rs :
  splayed_at cmp x ls a rs → (cmp x a > 0)%Z →
  sl_insert cmp x (ls ++ a :: rs) = ls ++ a :: x :: rs.
Proof.
  intros [?|[[? _]|[_ Hsp]]] ?; [lia|lia|].
  rewrite (cons_middle a ls rs) (assoc_L (++)) sl_insert_splits // -app_assoc //.
Qed.

Lemma SPLAY_EMPTY_spec head t :
  SPLAY_tree head t ⊢ wp (SPLAY_EMPTY (Some head)) (λ v, ⌜v = is_null (root t)⌝ ∗ SPLAY_tree head t).
Proof. iIntros "[Hh Ht]". unfold SPLAY_EMPTY, SPLAY_ROOT. sp_steps. sp_frame. Qed.

(** The element to insert must be allocated, unless an equal one is found. *)
Definition splay_insert_pre x t : hpropI splay_obj :=
  match sl_find cmp x (inorder t) with Some _ => emp | None => ∃ e, x ↦ SPLAY_ELEM e end.

Lemma SPLAY_INSERT_spec fuel head t x :
  sorted cmp (inorder t) → size t ≤ fuel →
  SPLAY_tree head t ∗ splay_insert_pre x t ⊢
  wp (SPLAY_INSERT cmp fuel (Some head) (Some x))
     (λ v, ⌜v = sl_find cmp x (inorder t)⌝ ∗ ∃ t', SPLAY_tree head t' ∗
           ⌜inorder t' = match sl_find cmp x (inorder t) with
                         | Some _ => inorder t
                         | None => sl_insert cmp x (inorder t)
                         end⌝).
Proof.
  iIntros (Hs Hf) "[Ht Hx]". unfold SPLAY_INSERT, splay_insert_pre.
  wp_call (SPLAY_EMPTY_spec head t) with "Ht". iIntros (v) "[-> Ht]".
  destruct t as [|[] l0 a0 r0]; wp_norm.
  { iDestruct "Hx" as (e) "Hx". destruct e as [el er]. iDestruct "Ht" as "[Hh _]".
    unfold set_SPLAY_ROOT, set_SPLAY_RIGHT, set_SPLAY_LEFT. sp_steps.
    iSplit; [done|]. iExists (Node tt Leaf x Leaf). sp_frame. }
  set (t := Node tt l0 a0 r0) in *.
  wp_call (SPLAY_spec fuel head t x) with "Ht". iIntros (_) "(%l & %a & %r & [Hh Ht] & %Hi & %Hsp)".
  rewrite -Hi in Hs |- *. cbn [inorder] in Hs |- *. rewrite splayed_find //.
  iDestruct "Ht" as "(Ha & Hl & Hr)". unfold SPLAY_ROOT. sp_steps.
  destruct (Z.ltb_spec (cmp x a) 0).
  { rewrite decide_False; [|lia]. iDestruct "Hx" as (e) "Hx". destruct e as [el er].
    unfold set_SPLAY_ROOT, set_SPLAY_RIGHT, set_SPLAY_LEFT. sp_steps.
    iSplit; [done|]. iExists (Node tt l x (Node tt Leaf a r)). sp_frame. iPureIntro.
    by rewrite splayed_insert_lt. }
  destruct (Z.gtb_spec (cmp x a) 0).
  { rewrite decide_False; [|lia]. iDestruct "Hx" as (e) "Hx". destruct e as [el er].
    unfold set_SPLAY_ROOT, set_SPLAY_RIGHT, set_SPLAY_LEFT. sp_steps.
    iSplit; [done|]. iExists (Node tt (Node tt l a Leaf) x r). sp_frame. iPureIntro.
    rewrite splayed_insert_gt //; [|lia]. by list_norm. }
  rewrite decide_True; [|lia]. sp_steps. iSplit; [done|]. iExists (Node tt l a r). sp_frame.
Qed.

Lemma SPLAY_FIND_spec fuel head t x :
  sorted cmp (inorder t) → size t ≤ fuel →
  SPLAY_tree head t ⊢
  wp (SPLAY_FIND cmp fuel (Some head) (Some x))
     (λ v, ⌜v = sl_find cmp x (inorder t)⌝ ∗ ∃ t', SPLAY_tree head t' ∗
           ⌜inorder t' = inorder t ∧ (is_Some v → root t' = v)⌝).
Proof.
  iIntros (Hs Hf) "Ht". unfold SPLAY_FIND.
  wp_call (SPLAY_EMPTY_spec head t) with "Ht". iIntros (v) "[-> Ht]".
  destruct t as [|[] l0 a0 r0]; wp_norm.
  { iApply wp_ret. iSplit; [done|]. iExists Leaf. iFrame. iPureIntro. by split; [|intros []]. }
  set (t := Node tt l0 a0 r0) in *.
  wp_call (SPLAY_spec fuel head t x) with "Ht". iIntros (_) "(%l & %a & %r & [Hh Ht] & %Hi & %Hsp)".
  rewrite -Hi in Hs |- *. cbn [inorder] in Hs |- *. rewrite splayed_find //.
  iDestruct "Ht" as "(Ha & Hl & Hr)". unfold SPLAY_ROOT. sp_steps.
  destruct (Z.eqb_spec (cmp x a) 0) as [E|E].
  - rewrite decide_True //. sp_steps. iSplit; [done|]. iExists (Node tt l a r). sp_frame.
  - rewrite decide_False //. sp_steps. iSplit; [done|]. iExists (Node tt l a r). sp_frame.
Qed.
Lemma inorder_nil (t : stree) : inorder t = [] → t = Leaf.
Proof. destruct t; [done|]. cbn. by intros [_ ?]%app_nil. Qed.

(** The second splay of [SPLAY_REMOVE] brings the greatest element of the left
    subtree to its root. *)
Lemma splayed_at_max x ls a rs :
  (∀ y, y ∈ ls ++ a :: rs → (cmp x y > 0)%Z) → splayed_at cmp x ls a rs → rs = [].
Proof.
  intros H. pose proof (H a ltac:(set_solver)) as Ha.
  intros [?|[[? _]|[_ [_ Hr]]]]; [lia|lia|]. destruct rs as [|y rs]; [done|].
  pose proof (H y ltac:(set_solver)). pose proof (Hr y ltac:(set_solver)). lia.
Qed.

Definition splay_remove_post x head (xs : list addr) : hpropI splay_obj :=
  ∃ t', SPLAY_tree head t' ∗
    match sl_find cmp x xs with
    | Some a => ⌜inorder t' = sl_remove a xs⌝ ∗ ∃ e, a ↦ SPLAY_ELEM e
    | None => ⌜inorder t' = xs⌝
    end.

Lemma SPLAY_REMOVE_spec fuel head t x :
  sorted cmp (inorder t) → size t ≤ fuel →
  SPLAY_tree head t ⊢
  wp (SPLAY_REMOVE cmp fuel (Some head) (Some x))
     (λ v, ⌜v = (λ _, x) <$> sl_find cmp x (inorder t)⌝ ∗ splay_remove_post x head (inorder t)).
Proof.
  iIntros (Hs Hf) "Ht". unfold SPLAY_REMOVE.
  wp_call (SPLAY_EMPTY_spec head t) with "Ht". iIntros (v) "[-> Ht]".
  destruct t as [|[] l0 a0 r0]; wp_norm.
  { iApply wp_ret. iSplit; [done|]. iExists Leaf. by iFrame. }
  set (t := Node tt l0 a0 r0) in *. unfold size in Hf.
  wp_call (SPLAY_spec fuel head t x) with "Ht". iIntros (_) "(%l & %a & %r & [Hh Ht] & %Hi & %Hsp)".
  rewrite -Hi in Hs Hf |- *. cbn [inorder] in Hs, Hf |- *. unfold splay_remove_post. rewrite splayed_find //.
  iDestruct "Ht" as "(Ha & Hl & Hr)". unfold SPLAY_ROOT. sp_steps.
  destruct (Z.eqb_spec (cmp x a) 0) as [E|E]; last first.
  { rewrite decide_False //. sp_steps. iSplit; [done|]. iExists (Node tt l a r). sp_frame. }
  rewrite decide_True //. sp_steps. pose proof (sorted_NoDup _ Hs) as Hnd.
  destruct l as [|u ll b lr]; wp_simpl.
  { unfold set_SPLAY_ROOT. sp_steps. iSplit; [done|]. iExists r. sp_frame. iPureIntro.
    by rewrite (sl_remove_mid a []). }
  unfold set_SPLAY_ROOT. sp_steps. 
  assert (∀ y, y ∈ inorder (Node u ll b lr) → (cmp x y > 0)%Z) as Hlt.
  { intros y. by apply (splayed_eq_lt x _ a (inorder r)). }
  pose proof Hs as (Hsl & _)%sorted_mid. rewrite length_app in Hf.
  wp_call (SPLAY_spec fuel head (Node u ll b lr) x) with "Hh Hl".
  { unfold size. lia. }
  iIntros (_) "(%l2 & %a2 & %r2 & [Hh Ht] & %Hi2 & %Hsp2)".
  rewrite -Hi2 in Hlt Hnd |- *. cbn [inorder] in Hlt.
  apply splayed_at_max in Hsp2; [|done]. apply inorder_nil in Hsp2 as ->.
  iDestruct "Ht" as "(Ha2 & Hl2 & _)". unfold set_SPLAY_RIGHT. sp_steps. iSplit; [done|].
  iExists (Node tt l2 a2 r). sp_frame. iPureIntro. rewrite sl_remove_mid //. by list_norm.
Qed.

(** An element of the tree is splayed to the root itself. *)
Lemma splayed_elem x ls a rs :
  sorted cmp (ls ++ a :: rs) → x ∈ ls ++ a :: rs → splayed_at cmp x ls a rs → a = x.
Proof.
  intros Hs Hx Hsp. pose proof (cmp_refl (cmp:=cmp) x).
  assert (cmp x a = 0%Z) as E.
  { destruct Hsp as [?|[[? [H1 H2]]|[? [H1 H2]]]]; [done|exfalso|exfalso].
    - apply elem_of_app in Hx as [Hx%H1|Hx%H2]; lia.
    - rewrite (cons_middle a) (assoc_L (++)) in Hx. apply elem_of_app in Hx as [Hx%H1|Hx%H2]; lia. }
  apply sorted_mid in Hs as (_&_&Hla&Har&_). unfold cmp_lt in *.
  apply elem_of_app in Hx as [Hx%Hla|[->|Hx%Har]%elem_of_cons]; [|done|].
  - lia.
  - apply cmp_flip_lt in Hx. lia.
Qed.

Lemma SPLAY_leftmost_spec n u l a r :
  height l < n →
  spt (Node u l a r) ⊢
  wp (loop n (λ elm, l ← SPLAY_LEFT elm;
        if negb (is_null l) then inl <$> SPLAY_LEFT elm else mret (inr elm)) (Some a))
     (λ v, ⌜v = list.head (inorder (Node u l a r))⌝ ∗ spt (Node u l a r)).
Proof.
  revert u l a r. induction n as [|n IH]; intros u l a r Hn; [lia|].
  iIntros "(Ha & Hl & Hr)". iApply wp_loop_S. unfold fmap, M_fmap. sp_steps.
  destruct l as [|ul ll al lr]; sp_steps; [sp_frame|].
  cbn [height] in Hn. iApply (wp_wand with "[Hl]"); [iApply (IH ul ll al lr); [lia|done]|].
  iIntros (v) "[-> Hl]". sp_frame. iPureIntro. cbn. by destruct (inorder ll).
Qed.

Lemma SPLAY_NEXT_spec fuel head t x (l1 l2 : list addr) :
  sorted cmp (inorder t) → inorder t = l1 ++ x :: l2 → size t ≤ fuel →
  SPLAY_tree head t ⊢
  wp (SPLAY_NEXT cmp fuel (Some head) (Some x))
     (λ v, ⌜v = list.head l2⌝ ∗ ∃ t', SPLAY_tree head t' ∗ ⌜inorder t' = inorder t⌝).
Proof.
  iIntros (Hs E Hf) "Ht". unfold SPLAY_NEXT.
  assert (t ≠ Leaf) as Ht by (intros ->; by destruct l1).
  wp_call (SPLAY_spec fuel head t x) with "Ht". iIntros (_) "(%l & %a & %r & [Hh Ht] & %Hi & %Hsp)".
  rewrite -Hi in Hs E |- *. unfold size in Hf. rewrite -Hi in Hf. cbn [inorder] in Hs, E, Hf |- *.
  assert (a = x) as ->. { eapply splayed_elem; [done| |done]. rewrite E. set_solver. }
  apply NoDup_mid_unique in E as [_ <-]; [|by apply sorted_NoDup].
  iDestruct "Ht" as "(Ha & Hl & Hr)". sp_steps.
  destruct r as [|ur rl ra rr]; sp_steps.
  { iSplit; [done|]. iExists (Node tt l x Leaf). sp_frame. }
  iApply (wp_wand with "[Hr]"); [iApply (SPLAY_leftmost_spec fuel with "Hr")|].
  { pose proof (height_le_size rl). unfold size in *. rewrite length_app /= length_app in Hf. lia. }
  iIntros (v) "[-> Hr]". iSplit; [done|]. iExists (Node tt l x (Node ur rl ra rr)). sp_frame.
Qed.
(** A constant comparison splays an extremal element to the root. *)
Lemma splayed_min l a r : splayed (λ _, SPLAY_NEGINF) l a r → inorder l = [].
Proof.
  intros (kl & l0 & kr & r0 & -> & _ & (_ & _ & Hl & _) & He).
  destruct kl as [|f kl]; [|by specialize (Hl f ltac:(left))].
  cbn in *. by destruct He as [?|[[_ ->]|[? _]]].
Qed.
Lemma splayed_max l a r : splayed (λ _, SPLAY_INF) l a r → inorder r = [].
Proof.
  intros (kl & l0 & kr & r0 & _ & -> & (_ & _ & _ & Hr) & He).
  destruct kr as [|f kr]; [|by specialize (Hr f ltac:(left))].
  cbn in *. by destruct He as [?|[[? _]|[_ ->]]].
Qed.

Lemma SPLAY_MIN_spec fuel head t :
  height t ≤ fuel →
  SPLAY_tree head t ⊢
  wp (SPLAY_MIN fuel (Some head))
     (λ v, ⌜v = list.head (inorder t)⌝ ∗ ∃ t', SPLAY_tree head t' ∗
           ⌜inorder t' = inorder t ∧ root t' = v⌝).
Proof.
  iIntros (Hf) "Ht". unfold SPLAY_MIN. wp_call (SPLAY_EMPTY_spec head t) with "Ht".
  iIntros (v) "[-> Ht]". destruct t as [|[] l0 a0 r0]; wp_norm.
  { iApply wp_ret. iSplit; [done|]. iExists Leaf. by iFrame. }
  set (t := Node tt l0 a0 r0) in *. unfold SPLAY_MIN_MAX, SPLAY_MINMAX.
  wp_call (SPLAY_with_spec _ head _ fuel t (SPLAY_MINMAX_body_ok head SPLAY_NEGINF ltac:(done))) with "Ht".
  iIntros (_) "(%l & %a & %r & [Hh Ht] & %Hi & %Hsp)". unfold SPLAY_ROOT. sp_steps.
  rewrite -Hi. cbn [inorder]. rewrite (splayed_min _ _ _ Hsp). iSplit; [done|].
  iExists (Node tt l a r). iFrame. iPureIntro. by rewrite /= (splayed_min _ _ _ Hsp).
Qed.

Lemma SPLAY_MAX_spec fuel head t :
  height t ≤ fuel →
  SPLAY_tree head t ⊢
  wp (SPLAY_MAX fuel (Some head))
     (λ v, ⌜v = last (inorder t)⌝ ∗ ∃ t', SPLAY_tree head t' ∗
           ⌜inorder t' = inorder t ∧ root t' = v⌝).
Proof.
  iIntros (Hf) "Ht". unfold SPLAY_MAX. wp_call (SPLAY_EMPTY_spec head t) with "Ht".
  iIntros (v) "[-> Ht]". destruct t as [|[] l0 a0 r0]; wp_norm.
  { iApply wp_ret. iSplit; [done|]. iExists Leaf. by iFrame. }
  set (t := Node tt l0 a0 r0) in *. unfold SPLAY_MIN_MAX, SPLAY_MINMAX.
  wp_call (SPLAY_with_spec _ head _ fuel t (SPLAY_MINMAX_body_ok head SPLAY_INF ltac:(done))) with "Ht".
  iIntros (_) "(%l & %a & %r & [Hh Ht] & %Hi & %Hsp)". unfold SPLAY_ROOT. sp_steps.
  rewrite -Hi. cbn [inorder]. rewrite (splayed_max _ _ _ Hsp) last_snoc. iSplit; [done|].
  iExists (Node tt l a r). iFrame. iPureIntro. by rewrite /= (splayed_max _ _ _ Hsp).
Qed.

(** A traversal splays each element to the root in turn: the tree changes its
    shape, its elements are visited in order. *)
Lemma SPLAY_FOREACH_spec {S} fuel head t (body : S → ptr → SP S)
    (I : list addr → S → hpropI splay_obj) s0 :
  sorted cmp (inorder t) → size t < fuel →
  (∀ xs x ys s t', inorder t' = inorder t → inorder t = xs ++ x :: ys →
     I xs s ∗ SPLAY_tree head t' ⊢ wp (body s (Some x)) (λ s', I (xs ++ [x]) s' ∗ SPLAY_tree head t')) →
  I [] s0 ∗ SPLAY_tree head t ⊢
  wp (SPLAY_FOREACH cmp fuel (Some head) body s0)
     (λ s', I (inorder t) s' ∗ ∃ t', SPLAY_tree head t' ∗ ⌜inorder t' = inorder t⌝).
Proof.
  intros Hs Hf Hbody. pose proof (height_le_size t).
  assert (∀ n xs ys s t', inorder t' = inorder t → inorder t = xs ++ ys → length ys < n →
    I xs s ∗ SPLAY_tree head t' ⊢
    wp (loop n (λ '(x, s), if is_null x then mret (inr s) else
          s ← body s x; x ← SPLAY_NEXT cmp fuel (Some head) x; mret (inl (x, s))) (list.head ys, s))
       (λ s', I (inorder t) s' ∗ ∃ t', SPLAY_tree head t' ∗ ⌜inorder t' = inorder t⌝)) as Hloop.
  { induction n as [|n IH]; intros xs ys s t' Et E Hn; [lia|]. iIntros "[HI H]". iApply wp_loop_S.
    destruct ys as [|y ys]; cbn [list.head]; wp_simpl.
    - iApply wp_ret. rewrite E app_nil_r. iFrame. iPureIntro. by rewrite Et E app_nil_r.
    - cbn in Hn. wp_call (Hbody xs y ys s t' Et E) with "HI H". iIntros (s') "[HI H]".
      wp_call (SPLAY_NEXT_spec fuel head t' y xs ys) with "H".
      { by rewrite Et. } { by rewrite Et. } { unfold size in *. rewrite Et. lia. }
      iIntros (v) "[-> (%t2 & H & %Et2)]". iApply wp_ret.
      iApply (IH with "[$HI $H]"); [congruence|by rewrite -app_assoc|lia]. }
  iIntros "[HI H]". unfold SPLAY_FOREACH. wp_call (SPLAY_MIN_spec fuel head t) with "H". { lia. }
  iIntros (v) "[-> (%t' & H & %Et & _)]". iApply (Hloop fuel [] with "[$HI $H]"); [done|done|exact Hf].
Qed.
End operations.
