(* ===== verification/SplaySet.v ===== *)
(** * Splay trees implement the ordered set *)

From S2P Require Import Prelude HeapLogic Trees OrderedSet SplayTree SplayProofs.

Section instance.
Context (cmp : addr → addr → Z) `{!CmpOrder cmp}.
Implicit Types (xs : list addr) (x head : addr).

Definition SPLAY_own head xs : hpropI splay_obj :=
  ∃ t, ⌜inorder t = xs ∧ sorted cmp xs⌝ ∗ SPLAY_tree head t.
Definition SPLAY_elem x : hpropI splay_obj := ∃ e, x ↦ SPLAY_ELEM e.

Lemma SPLAY_own_sorted head xs : SPLAY_own head xs ⊢ ⌜sorted cmp xs⌝.
Proof. iIntros "(%t & (_ & $) & _)". Qed.

Lemma SPLAY_own_insert fuel head xs x : length xs < fuel →
  SPLAY_own head xs ∗ (match sl_find cmp x xs with Some _ => emp | None => SPLAY_elem x end) ⊢
  wp (SPLAY_INSERT cmp fuel (Some head) (Some x))
     (λ v, ⌜v = sl_find cmp x xs⌝ ∗
           SPLAY_own head (match sl_find cmp x xs with Some _ => xs | None => sl_insert cmp x xs end)).
Proof.
  iIntros (Hf) "[(%t & (<- & %Hs) & H) Hx]".
  iApply (wp_wand with "[H Hx]").
  { iApply (SPLAY_INSERT_spec fuel head t x with "[H Hx]"); [done|unfold size; lia|].
    iFrame "H". rewrite /splay_insert_pre. destruct (sl_find _ _ _); iFrame. }
  iIntros (v) "[$ (%t' & H & %Hi)]". iExists t'. iFrame. iPureIntro. rewrite Hi. split; [done|].
  destruct (sl_find cmp x (inorder t)) eqn:E; [done|by apply sorted_insert].
Qed.

Lemma SPLAY_own_remove fuel head xs x : length xs < fuel → x ∈ xs →
  SPLAY_own head xs ⊢
  wp (SPLAY_REMOVE cmp fuel (Some head) (Some x))
     (λ v, ⌜v = Some x⌝ ∗ SPLAY_own head (sl_remove x xs) ∗ SPLAY_elem x).
Proof.
  iIntros (Hf Hx) "(%t & (<- & %Hs) & H)".
  iApply (wp_wand with "[H]"); [iApply (SPLAY_REMOVE_spec fuel head t x with "H"); [done|unfold size; lia]|].
  iIntros (v) "[-> (%t' & H & Hx)]". rewrite sl_find_elem //. iDestruct "Hx" as "[%Hi $]".
  iSplit; [done|]. iExists t'. iFrame. iPureIntro. split; [done|by apply sorted_sl_remove].
Qed.

Lemma SPLAY_own_find fuel head xs x : length xs < fuel →
  SPLAY_own head xs ⊢
  wp (SPLAY_FIND cmp fuel (Some head) (Some x)) (λ v, ⌜v = sl_find cmp x xs⌝ ∗ SPLAY_own head xs).
Proof.
  iIntros (Hf) "(%t & (<- & %Hs) & H)".
  iApply (wp_wand with "[H]"); [iApply (SPLAY_FIND_spec fuel head t x with "H"); [done|unfold size; lia]|].
  iIntros (v) "[-> (%t' & H & %Hi & _)]". iSplit; [done|]. iExists t'. by iFrame.
Qed.

Lemma SPLAY_own_next fuel head xs x : length xs < fuel → x ∈ xs →
  SPLAY_own head xs ⊢
  wp (SPLAY_NEXT cmp fuel (Some head) (Some x)) (λ v, ⌜v = sl_next x xs⌝ ∗ SPLAY_own head xs).
Proof.
  iIntros (Hf Hx) "(%t & (<- & %Hs) & H)". apply list_elem_of_split in Hx as (l1 & l2 & E).
  iApply (wp_wand with "[H]"); [iApply (SPLAY_NEXT_spec fuel head t x l1 l2 with "H"); [done..|unfold size; lia]|].
  iIntros (v) "[-> (%t' & H & %Hi)]". rewrite {1}E sl_next_mid; last first.
  { rewrite E in Hs. apply sorted_NoDup, NoDup_app in Hs as (_&Hl&_). intros Hx%Hl. by apply Hx; left. }
  iSplit; [done|]. iExists t'. by iFrame.
Qed.

Lemma SPLAY_own_min fuel head xs : length xs < fuel →
  SPLAY_own head xs ⊢ wp (SPLAY_MIN fuel (Some head)) (λ v, ⌜v = list.head xs⌝ ∗ SPLAY_own head xs).
Proof.
  iIntros (Hf) "(%t & (<- & %Hs) & H)". pose proof (height_le_size t).
  iApply (wp_wand with "[H]"); [iApply (SPLAY_MIN_spec fuel head t with "H"); unfold size in *; lia|].
  iIntros (v) "[-> (%t' & H & %Hi & _)]". iSplit; [done|]. iExists t'. by iFrame.
Qed.

Lemma SPLAY_own_max fuel head xs : length xs < fuel →
  SPLAY_own head xs ⊢ wp (SPLAY_MAX fuel (Some head)) (λ v, ⌜v = last xs⌝ ∗ SPLAY_own head xs).
Proof.
  iIntros (Hf) "(%t & (<- & %Hs) & H)". pose proof (height_le_size t).
  iApply (wp_wand with "[H]"); [iApply (SPLAY_MAX_spec fuel head t with "H"); unfold size in *; lia|].
  iIntros (v) "[-> (%t' & H & %Hi & _)]". iSplit; [done|]. iExists t'. by iFrame.
Qed.

#[export] Instance SPLAY_OrderedSet : OrderedSet splay_obj cmp := {|
  os_own := SPLAY_own;
  os_elem := SPLAY_elem;
  os_insert fuel head x := SPLAY_INSERT cmp fuel (Some head) (Some x);
  os_remove fuel head x := SPLAY_REMOVE cmp fuel (Some head) (Some x);
  os_find fuel head x := SPLAY_FIND cmp fuel (Some head) (Some x);
  os_next fuel head x := SPLAY_NEXT cmp fuel (Some head) (Some x);
  os_min fuel head := SPLAY_MIN fuel (Some head);
  os_max fuel head := SPLAY_MAX fuel (Some head);
  os_sorted := SPLAY_own_sorted;
  os_insert_spec := SPLAY_own_insert;
  os_remove_spec := SPLAY_own_remove;
  os_find_spec := SPLAY_own_find;
  os_next_spec := SPLAY_own_next;
  os_min_spec := SPLAY_own_min;
  os_max_spec := SPLAY_own_max;
|}.
End instance.
