(* ===== verification/TreeModels.v ===== *)
(** * Concrete memories holding a tree

    The memory a tree occupies, as a function of the tree: what the examples
    run on. *)

From S2P Require Import Prelude HeapLogic Trees OrderedSet.
From S2P Require Import RBTree RBShape RBInsert SplayTree SplayProofs.

(** Elements compared by their address. *)
Definition addr_cmp (x y : addr) : Z := (Z.pos x - Z.pos y)%Z.
#[export] Instance addr_cmp_order : CmpOrder addr_cmp.
Proof. split; unfold addr_cmp; intros; lia. Qed.

Fixpoint rb_cells (t : rbtree) (p : ptr) : heap rb_obj :=
  match t with
  | Leaf => ∅
  | Node c l a r =>
      {[a := entry (root l) (root r) p c]} ∪ (rb_cells l (Some a) ∪ rb_cells r (Some a))
  end.
Definition rb_heap (head : addr) (t : rbtree) : heap rb_obj :=
  {[head := RB_HEAD (root t)]} ∪ rb_cells t None.

Fixpoint splay_cells (t : stree) : heap splay_obj :=
  match t with
  | Leaf => ∅
  | Node _ l a r => {[a := sentry (root l) (root r)]} ∪ (splay_cells l ∪ splay_cells r)
  end.
Definition splay_heap (head : addr) (t : stree) : heap splay_obj :=
  {[head := SPLAY_HEAD (root t)]} ∪ splay_cells t.

Lemma rb_cells_dom t p a : is_Some (rb_cells t p !! a) → a ∈ inorder t.
Proof.
  revert p. induction t as [|c l IHl b r IHr]; intros p; cbn; [by intros [? ?]|].
  rewrite !lookup_union_is_Some. intros [[? [<- _]%lookup_singleton_Some]|[?%IHl|?%IHr]]; set_solver.
Qed.
Lemma splay_cells_dom t a : is_Some (splay_cells t !! a) → a ∈ inorder t.
Proof.
  induction t as [|c l IHl b r IHr]; cbn; [by intros [? ?]|].
  rewrite !lookup_union_is_Some. intros [[? [<- _]%lookup_singleton_Some]|[?%IHl|?%IHr]]; set_solver.
Qed.

Lemma disjoint_of_dom {C} (h1 h2 : heap C) (l1 l2 : list addr) :
  (∀ a, is_Some (h1 !! a) → a ∈ l1) → (∀ a, is_Some (h2 !! a) → a ∈ l2) →
  (∀ a, a ∈ l1 → a ∉ l2) → h1 ##ₘ h2.
Proof.
  intros H1 H2 Hd. apply map_disjoint_spec. intros a x y Hx Hy.
  apply (Hd a); [apply H1|apply H2]; eauto.
Qed.

Lemma singleton_dom {C} (a : addr) (c : C) b : is_Some (({[a := c]} : heap C) !! b) → b ∈ [a].
Proof. intros [? [-> _]%lookup_singleton_Some]. by left. Qed.

Lemma rb_cells_sat t p : NoDup (inorder t) → rbt t p (rb_cells t p).
Proof.
  Transparent rbt. revert p. induction t as [|c l IHl a r IHr]; intros p; cbn; [done|].
  intros (Hl & Hlr & [Ha Hr]%NoDup_cons)%NoDup_app.
  pose proof (rb_cells_dom l (Some a)). pose proof (rb_cells_dom r (Some a)).
  apply sep_intro; [apply mapsto_singleton| |].
  - apply sep_intro; [by apply IHl|by apply IHr|]. eapply disjoint_of_dom; [done..|].
    intros b Hb Hb'. apply (Hlr b Hb). by right.
  - apply map_disjoint_union_r. split; (eapply disjoint_of_dom; [apply singleton_dom|done|]).
    + intros b ->%list_elem_of_singleton Hb. apply (Hlr a Hb). by left.
    + by intros b ->%list_elem_of_singleton.
  Opaque rbt.
Qed.

Lemma rb_heap_sat head t : NoDup (head :: inorder t) → RB_tree head t (rb_heap head t).
Proof.
  intros [Hh Hn]%NoDup_cons. Transparent rbc. apply sep_intro; [apply mapsto_singleton|by apply rb_cells_sat|].
  Opaque rbc. eapply disjoint_of_dom; [apply singleton_dom|apply rb_cells_dom|].
  by intros b ->%list_elem_of_singleton.
Qed.

Lemma splay_cells_sat t : NoDup (inorder t) → spt t (splay_cells t).
Proof.
  Transparent spt. induction t as [|c l IHl a r IHr]; cbn; [done|].
  intros (Hl & Hlr & [Ha Hr]%NoDup_cons)%NoDup_app.
  pose proof (splay_cells_dom l). pose proof (splay_cells_dom r).
  apply sep_intro; [apply mapsto_singleton| |].
  - apply sep_intro; [by apply IHl|by apply IHr|]. eapply disjoint_of_dom; [done..|].
    intros b Hb Hb'. apply (Hlr b Hb). by right.
  - apply map_disjoint_union_r. split; (eapply disjoint_of_dom; [apply singleton_dom|done|]).
    + intros b ->%list_elem_of_singleton Hb. apply (Hlr a Hb). by left.
    + by intros b ->%list_elem_of_singleton.
  Opaque spt.
Qed.

Lemma splay_heap_sat head t : NoDup (head :: inorder t) → SPLAY_tree head t (splay_heap head t).
Proof.
  intros [Hh Hn]%NoDup_cons. apply sep_intro; [apply mapsto_singleton|by apply splay_cells_sat|].
  eapply disjoint_of_dom; [apply singleton_dom|apply splay_cells_dom|].
  by intros b ->%list_elem_of_singleton.
Qed.

(** A tree of four elements, 1 to 5 without 3, and a head at 9. *)
Definition rb_sample : rbtree :=
  Node Black (Node Black (@Leaf color) 1 (@Leaf color)) 2
             (Node Black (@Leaf color) 4 (Node Red (@Leaf color) 5 (@Leaf color))).
Lemma rb_sample_ok : RB_ok rb_sample.
Proof. split; [done|]. exists 2. repeat constructor. Qed.
Definition splay_sample : stree :=
  Node tt (Node tt Leaf 1 Leaf) 2 (Node tt Leaf 4 (Node tt Leaf 5 Leaf)).
Lemma sample_sorted : sorted addr_cmp (inorder rb_sample).
Proof. cbn. unfold cmp_lt, addr_cmp. repeat constructor. Qed.

(** ** Memories for the statements of the properties *)

(** A pool of unlinked elements, all with the contents [c]. *)
Fixpoint pool_heap {C} (c : C) (l : list addr) : heap C :=
  match l with [] => ∅ | x :: l => {[x := c]} ∪ pool_heap c l end.

Lemma pool_heap_dom {C} (c : C) l a : is_Some (pool_heap c l !! a) → a ∈ l.
Proof.
  induction l as [|x l IH]; cbn; [by intros [? ?]|].
  rewrite lookup_union_is_Some. intros [[? [<- _]%lookup_singleton_Some]|?%IH]; set_solver.
Qed.

Lemma pool_heap_sat {C} (Φ : addr → hpropI C) (c : C) l :
  (∀ x, x ↦ c ⊢ Φ x) → NoDup l →
  ([∗ set] x ∈ (list_to_set l : gset addr), Φ x)%I (pool_heap c l).
Proof.
  intros HΦ. induction l as [|x l IH]; intros Hnd.
  { apply (hprop_in_entails emp%I); [|done]. by rewrite list_to_set_nil big_sepS_empty. }
  apply NoDup_cons in Hnd as [Hx Hnd]. cbn [list_to_set pool_heap].
  apply (hprop_in_entails (x ↦ c ∗ [∗ set] x ∈ (list_to_set l : gset addr), Φ x)%I).
  { rewrite big_sepS_insert; [|by rewrite elem_of_list_to_set]. by rewrite HΦ. }
  apply sep_intro; [apply mapsto_singleton|by apply IH|].
  eapply disjoint_of_dom; [apply singleton_dom|apply pool_heap_dom|]. by intros b ->%list_elem_of_singleton.
Qed.

(** A sequence of operations on the pool 1, 2, 3 that touches every kind. *)
Definition sample_pool : gset addr := list_to_set [1; 2; 3]%positive.
Definition sample_ops : list set_op :=
  [OpInsert 2; OpInsert 1; OpInsert 3; OpInsert 2; OpFind 1; OpNext 1; OpRemove 2; OpNext 1; OpFind 2;
   OpMin; OpMax]%positive.
Definition sample_results : list ptr :=
  [None; None; None; Some 2; Some 1; Some 2; Some 2; Some 3; None; Some 1; Some 3]%positive.
Lemma sample_run : spec_run addr_cmp sample_pool sample_ops [] = Some (sample_results, [1; 3]%positive).
Proof. vm_compute. reflexivity. Qed.

Definition rb_free : rb_obj := entry None None None Black.
Definition splay_free : splay_obj := sentry None None.

Lemma rb_sample_sat : RB_tree 9 rb_sample (rb_heap 9 rb_sample).
Proof. apply rb_heap_sat. by repeat (constructor; [set_solver|]); constructor. Qed.
Lemma splay_sample_sat : SPLAY_tree 9 splay_sample (splay_heap 9 splay_sample).
Proof. apply splay_heap_sat. by repeat (constructor; [set_solver|]); constructor. Qed.
