(* ===== verification/TreeProperties.v ===== *)
(** * Properties of the trees of [uv/tree.h]

    The correctness statements of the two tree structures, each a consequence
    of the component's specifications, and their instances on concrete
    memories. A [triple] covers every memory that contains the tree: the
    program returns, and what is outside the tree stays as it was. *)

From S2P Require Import Prelude HeapLogic Trees OrderedSet.
From S2P Require Import RBTree RBShape RBInsert RBSearch RBRemove RBDelete RBIter RBSet.
From S2P Require Import SplayTree SplayProofs SplaySet TreeModels.

Section statements.
Context {cmp : addr → addr → Z} `{!CmpOrder cmp}.

(** C2: RB_INSERT returns the equal element and leaves the tree alone when
    there is one; otherwise it returns NULL, the elements are those of the
    sorted insertion, and the result is again a red-black tree with a black
    root. *)
Theorem RB_INSERT_correct fuel head t x :
  sorted cmp (inorder t) → RB_ok t → height t < fuel →
  ⦃ RB_tree head t ∗ insert_pre (cmp:=cmp) x t ⦄
    RB_INSERT cmp fuel (Some head) (Some x)
    ⦃ v, ⌜v = sl_find cmp x (inorder t)⌝ ∗
          match sl_find cmp x (inorder t) with
          | Some _ => RB_tree head t
          | None => ∃ t', RB_tree head t' ∗
                      ⌜inorder t' = sl_insert cmp x (inorder t) ∧ RB_ok t'⌝
          end ⦄.
Proof. intros. by apply wp_triple, RB_INSERT_spec. Qed.

(** C1: RB_REMOVE of an element of the tree returns it, takes it and nothing
    else out of the tree, keeps the red-black invariant, and does not free or
    lose the element's memory. *)
Theorem RB_REMOVE_correct fuel head t a :
  a ∈ inorder t → RB_ok t → height t < fuel →
  ⦃ RB_tree head t ⦄ RB_REMOVE fuel (Some head) (Some a)
    ⦃ v, ⌜v = Some a⌝ ∗ (∃ e, a ↦ RB_ELEM e) ∗
          ∃ t', RB_tree head t' ∗ ⌜inorder t' = sl_remove a (inorder t) ∧ RB_ok t'⌝ ⦄.
Proof. intros. by apply wp_triple, RB_REMOVE_spec. Qed.

(** C3: the red-black tree refines the sorted list: from an empty tree, every
    sequence of insertions, removals, lookups, successors, minima and maxima
    that the list allows returns the pointers that the list returns. *)
Theorem RB_refines_sorted_list fuel head (pool : gset addr) os vs xs :
  base.size pool < fuel → spec_run cmp pool os [] = Some (vs, xs) →
  ⦃ RB_tree head Leaf ∗ [∗ set] x ∈ pool, RB_elem x ⦄
    run_ops (cmp:=cmp) (C:=rb_obj) fuel head os
    ⦃ r, ⌜r = vs⌝ ∗ RB_own cmp head xs ∗ [∗ set] x ∈ (pool ∖ list_to_set xs), RB_elem x ⦄.
Proof.
  intros Hf Hr. apply wp_triple. iIntros "[H Hp]".
  iApply (wp_wand with "[H Hp]"); [iApply (run_ops_spec fuel head pool os [] vs xs Hf Hr)|].
  - iSplit; [by iIntros (x ?%elem_of_nil)|]. rewrite difference_empty_L. iFrame "Hp".
    iExists Leaf. iFrame. iPureIntro. split_and!; [done|constructor|]. split; [done|]. exists 0. constructor.
  - iIntros (r) "($ & _ & $ & $)".
Qed.

(** C5: so does the splay tree. *)
Theorem SPLAY_refines_sorted_list fuel head (pool : gset addr) os vs xs :
  base.size pool < fuel → spec_run cmp pool os [] = Some (vs, xs) →
  ⦃ SPLAY_tree head Leaf ∗ [∗ set] x ∈ pool, SPLAY_elem x ⦄
    run_ops (cmp:=cmp) (C:=splay_obj) fuel head os
    ⦃ r, ⌜r = vs⌝ ∗ SPLAY_own cmp head xs ∗ [∗ set] x ∈ (pool ∖ list_to_set xs), SPLAY_elem x ⦄.
Proof.
  intros Hf Hr. apply wp_triple. iIntros "[H Hp]".
  iApply (wp_wand with "[H Hp]"); [iApply (run_ops_spec fuel head pool os [] vs xs Hf Hr)|].
  - iSplit; [by iIntros (x ?%elem_of_nil)|]. rewrite difference_empty_L. iFrame "Hp".
    iExists Leaf. iFrame. iPureIntro. split; [done|constructor].
  - iIntros (r) "($ & _ & $ & $)".
Qed.

(** The header's bound: the height of a red-black tree of n elements is at
    most 2 lg (n + 1). *)
Lemma RB_height_bound t : RB_ok t → height t ≤ 2 * Nat.log2 (size t + 1) + 1 ∧
  2 ^ height t ≤ (size t + 1) ^ 2.
Proof.
  intros H. pose proof (RB_ok_height t H) as Hp. split; [|done].
  apply Nat.log2_le_mono in Hp. rewrite Nat.log2_pow2 in Hp; [|lia].
  rewrite Nat.pow_2_r in Hp. pose proof (Nat.log2_mul_above (size t + 1) (size t + 1)). lia.
Qed.

(** C11: the queries of the red-black tree, none of which writes to it. RB_FIND
    returns the element with the key of its argument, RB_NFIND the least element
    not below it; RB_MIN and RB_MAX return the first and the last element, NULL
    for an empty tree; RB_NEXT and RB_PREV return the neighbours of an element,
    NULL at the ends. Each of them ends within the height of the tree, which is at
    most 2 lg (n + 1) for n elements, the bound that the header gives. *)
Theorem RB_queries_correct fuel head t :
  height t < fuel →
  (∀ x, sorted cmp (inorder t) →
    ⦃ RB_tree head t ⦄ RB_FIND cmp fuel (Some head) (Some x)
      ⦃ v, ⌜v = sl_find cmp x (inorder t)⌝ ∗ RB_tree head t ⦄ ∧
    ⦃ RB_tree head t ⦄ RB_NFIND cmp fuel (Some head) (Some x)
      ⦃ v, ⌜v = sl_nfind cmp x (inorder t)⌝ ∗ RB_tree head t ⦄) ∧
  ⦃ RB_tree head t ⦄ RB_MIN fuel (Some head) ⦃ v, ⌜v = list.head (inorder t)⌝ ∗ RB_tree head t ⦄ ∧
  ⦃ RB_tree head t ⦄ RB_MAX fuel (Some head) ⦃ v, ⌜v = last (inorder t)⌝ ∗ RB_tree head t ⦄ ∧
  (∀ a l1 l2, inorder t = l1 ++ a :: l2 →
    ⦃ RB_tree head t ⦄ RB_NEXT fuel (Some a) ⦃ v, ⌜v = list.head l2⌝ ∗ RB_tree head t ⦄ ∧
    ⦃ RB_tree head t ⦄ RB_PREV fuel (Some a) ⦃ v, ⌜v = last l1⌝ ∗ RB_tree head t ⦄) ∧
  (RB_ok t → height t ≤ 2 * Nat.log2 (size t + 1) + 1 ∧ 2 ^ height t ≤ (size t + 1) ^ 2).
Proof.
  intros Hf. split_and!; [|by apply wp_triple, RB_MIN_spec|by apply wp_triple, RB_MAX_spec| |apply RB_height_bound].
  - intros. split; apply wp_triple; [by apply RB_FIND_spec|by apply RB_NFIND_spec].
  - intros a l1 l2 E. split; apply wp_triple.
    + by apply (RB_NEXT_spec head fuel t a l1 l2); [|lia].
    + by apply (RB_PREV_spec head fuel t a l1 l2); [|lia].
Qed.

(** SPLAY_MIN and SPLAY_MAX return the first and the last element and leave
    it at the root, NULL for an empty tree; SPLAY_NEXT returns the successor of
    an element; SPLAY_FOREACH runs its body on the elements in order, although
    every step restructures the tree. *)
Lemma SPLAY_traversal fuel head t :
  sorted cmp (inorder t) → size t < fuel →
  ⦃ SPLAY_tree head t ⦄ SPLAY_MIN fuel (Some head)
    ⦃ v, ⌜v = list.head (inorder t)⌝ ∗ ∃ t', SPLAY_tree head t' ∗
         ⌜inorder t' = inorder t ∧ root t' = v⌝ ⦄ ∧
  ⦃ SPLAY_tree head t ⦄ SPLAY_MAX fuel (Some head)
    ⦃ v, ⌜v = last (inorder t)⌝ ∗ ∃ t', SPLAY_tree head t' ∗
         ⌜inorder t' = inorder t ∧ root t' = v⌝ ⦄ ∧
  (∀ l1 x l2, inorder t = l1 ++ x :: l2 →
    ⦃ SPLAY_tree head t ⦄ SPLAY_NEXT cmp fuel (Some head) (Some x)
      ⦃ v, ⌜v = list.head l2⌝ ∗ ∃ t', SPLAY_tree head t' ∗ ⌜inorder t' = inorder t⌝ ⦄) ∧
  ⦃ SPLAY_tree head t ⦄
    SPLAY_FOREACH cmp fuel (Some head) (λ xs x, mret (xs ++ [x])) []
    ⦃ xs, ⌜xs = Some <$> inorder t⌝ ∗ ∃ t', SPLAY_tree head t' ∗ ⌜inorder t' = inorder t⌝ ⦄.
Proof.
  intros Hs Hf. pose proof (height_le_size t). split_and!; [| |intros l1 x l2 E|]; apply wp_triple.
  - apply SPLAY_MIN_spec. lia.
  - apply SPLAY_MAX_spec. lia.
  - by apply (SPLAY_NEXT_spec fuel head t x l1 l2); [..|lia].
  - iIntros "H". iApply (SPLAY_FOREACH_spec fuel head t _ (λ xs s, ⌜s = Some <$> xs⌝)%I with "[$H //]"); [done..|].
    iIntros (xs x ys s t' _ _) "[-> H]". iApply wp_ret. iFrame. iPureIntro. by rewrite fmap_app.
Qed.

(** C10: the operations of the splay tree on any tree with sorted elements.
    SPLAY_INSERT splays, then links the element in next to the root, or returns
    the equal element: the elements are those of the sorted insertion.
    SPLAY_REMOVE takes the element with the key of its argument out of the tree,
    if there is one; the pointer it then returns is its argument, which need not
    be the element removed. SPLAY_FIND returns the element with the key of its
    argument and leaves it at the root, with the same elements in the same
    order. SPLAY_MIN and SPLAY_MAX return the first and the last element and leave
    it at the root, NULL for an empty tree; SPLAY_NEXT returns the successor of
    an element; SPLAY_FOREACH ends and runs its body on the elements in order,
    although every step restructures the tree. *)
Theorem SPLAY_operations_correct fuel head t x :
  sorted cmp (inorder t) → size t ≤ fuel →
  ⦃ SPLAY_tree head t ∗ splay_insert_pre (cmp:=cmp) x t ⦄
    SPLAY_INSERT cmp fuel (Some head) (Some x)
    ⦃ v, ⌜v = sl_find cmp x (inorder t)⌝ ∗ ∃ t', SPLAY_tree head t' ∗
          ⌜inorder t' = match sl_find cmp x (inorder t) with
                        | Some _ => inorder t
                        | None => sl_insert cmp x (inorder t)
                        end⌝ ⦄ ∧
  ⦃ SPLAY_tree head t ⦄ SPLAY_REMOVE cmp fuel (Some head) (Some x)
    ⦃ v, ⌜v = (λ _, x) <$> sl_find cmp x (inorder t)⌝ ∗
          ∃ t', SPLAY_tree head t' ∗
            match sl_find cmp x (inorder t) with
            | Some a => ⌜inorder t' = sl_remove a (inorder t)⌝ ∗ ∃ e, a ↦ SPLAY_ELEM e
            | None => ⌜inorder t' = inorder t⌝
            end ⦄ ∧
  ⦃ SPLAY_tree head t ⦄ SPLAY_FIND cmp fuel (Some head) (Some x)
    ⦃ v, ⌜v = sl_find cmp x (inorder t)⌝ ∗ ∃ t', SPLAY_tree head t' ∗
          ⌜inorder t' = inorder t ∧ (is_Some v → root t' = v)⌝ ⦄ ∧
  (size t < fuel →
    ⦃ SPLAY_tree head t ⦄ SPLAY_MIN fuel (Some head)
      ⦃ v, ⌜v = list.head (inorder t)⌝ ∗ ∃ t', SPLAY_tree head t' ∗
           ⌜inorder t' = inorder t ∧ root t' = v⌝ ⦄ ∧
    ⦃ SPLAY_tree head t ⦄ SPLAY_MAX fuel (Some head)
      ⦃ v, ⌜v = last (inorder t)⌝ ∗ ∃ t', SPLAY_tree head t' ∗
           ⌜inorder t' = inorder t ∧ root t' = v⌝ ⦄ ∧
    (∀ l1 x l2, inorder t = l1 ++ x :: l2 →
      ⦃ SPLAY_tree head t ⦄ SPLAY_NEXT cmp fuel (Some head) (Some x)
        ⦃ v, ⌜v = list.head l2⌝ ∗ ∃ t', SPLAY_tree head t' ∗ ⌜inorder t' = inorder t⌝ ⦄) ∧
    ⦃ SPLAY_tree head t ⦄
      SPLAY_FOREACH cmp fuel (Some head) (λ xs x, mret (xs ++ [x])) []
      ⦃ xs, ⌜xs = Some <$> inorder t⌝ ∗ ∃ t', SPLAY_tree head t' ∗ ⌜inorder t' = inorder t⌝ ⦄).
Proof.
  intros. split_and!; [..|by apply SPLAY_traversal]; apply wp_triple;
    [by apply SPLAY_INSERT_spec|by apply SPLAY_REMOVE_spec|by apply SPLAY_FIND_spec].
Qed.

(** C4: SPLAY moves a neighbour of the key to the root of a tree with the same
    elements: either the root equals the key, or no element lies between. *)
Theorem SPLAY_correct fuel head t x :
  sorted cmp (inorder t) → t ≠ Leaf → size t ≤ fuel →
  ⦃ SPLAY_tree head t ⦄ SPLAY cmp fuel (Some head) (Some x)
    ⦃ _, ∃ l a r, SPLAY_tree head (Node tt l a r) ∗
          ⌜inorder (Node tt l a r) = inorder t ∧
           splayed_at cmp x (inorder l) a (inorder r)⌝ ⦄.
Proof. intros. by apply wp_triple, SPLAY_spec. Qed.

(** C9: the loops end and do what they are for. RB_FOREACH runs its body on the
    elements in increasing order, once each, RB_FOREACH_REVERSE in decreasing
    order; RB_FOREACH_SAFE tolerates a body that removes the current element: the
    loop that removes every element leaves an empty tree and hands all the
    elements back. *)
Theorem RB_FOREACH_correct fuel head t :
  size t < fuel →
  ⦃ RB_tree head t ⦄ RB_FOREACH fuel (Some head) (λ xs x, mret (xs ++ [x])) []
    ⦃ xs, ⌜xs = Some <$> inorder t⌝ ∗ RB_tree head t ⦄ ∧
  ⦃ RB_tree head t ⦄ RB_FOREACH_REVERSE fuel (Some head) (λ xs x, mret (xs ++ [x])) []
    ⦃ xs, ⌜xs = Some <$> reverse (inorder t)⌝ ∗ RB_tree head t ⦄ ∧
  (RB_ok t →
   ⦃ RB_tree head t ⦄
     RB_FOREACH_SAFE fuel (Some head) (λ _ x, _ ← RB_REMOVE fuel (Some head) x; mret tt) tt
     ⦃ _, RB_tree head Leaf ∗ [∗ list] x ∈ inorder t, ∃ e, x ↦ RB_ELEM e ⦄).
Proof.
  intros Hf. split_and!; [| |intros; by apply wp_triple, remove_all_spec]; apply wp_triple; iIntros "H".
  - iApply (RB_FOREACH_spec head fuel t _ (λ xs s, ⌜s = Some <$> xs⌝)%I with "[$H //]"); [|done].
    iIntros (xs x ys s _) "[-> H]". iApply wp_ret. iFrame. iPureIntro. by rewrite fmap_app.
  - iApply (RB_FOREACH_REVERSE_spec head fuel t _ (λ xs s, ⌜s = Some <$> reverse xs⌝)%I with "[$H //]"); [|done].
    iIntros (xs x ys s _) "[-> H]". iApply wp_ret. iFrame. iPureIntro. by rewrite reverse_cons fmap_app.
Qed.

End statements.

(** Two calls the splay code does not survive: SPLAY on an empty tree
    dereferences the null root (every caller tests for it first), and
    SPLAY_MINMAX with a zero argument never leaves its loop, whatever the fuel. *)
Lemma SPLAY_partiality cmp fuel head x h :
  (0 < fuel → h !! head = Some (SPLAY_HEAD None) → SPLAY cmp fuel (Some head) (Some x) h = Undef) ∧
  SPLAY_MINMAX fuel (Some head) 0 h = NoFuel.
Proof. split; [apply SPLAY_empty|apply SPLAY_MINMAX_zero]. Qed.

(** ** Instances on concrete memories *)

Local Open Scope positive_scope.

Lemma RB_INSERT_correct_witness :
  ∃ v h', RB_INSERT addr_cmp 10 (Some 9) (Some 3) (rb_heap 9 rb_sample ∪ {[3 := rb_free]})%positive = Ret (v, h') ∧
  (⌜v = None⌝ ∗ ∃ t', RB_tree 9 t' ∗ ⌜inorder t' = [1; 2; 3; 4; 5]%positive ∧ RB_ok t'⌝)%I h'.
Proof.
  refine (triple_run _ _ _ _
    (RB_INSERT_correct (cmp:=addr_cmp) 10 9 rb_sample 3 sample_sorted rb_sample_ok ltac:(cbn; lia)) _).
  apply sep_intro; [exact rb_sample_sat| |by apply map_disjoint_singleton_r; vm_compute].
  exists {| rbe_left := None; rbe_right := None; rbe_parent := None; rbe_color := RB_BLACK |}.
  apply mapsto_singleton.
Defined.

Lemma RB_REMOVE_correct_witness :
  ∃ v h', RB_REMOVE 10 (Some 9) (Some 2) (rb_heap 9 rb_sample)%positive = Ret (v, h') ∧
  (⌜v = Some 2%positive⌝ ∗ (∃ e, 2%positive ↦ RB_ELEM e) ∗
   ∃ t', RB_tree 9 t' ∗ ⌜inorder t' = sl_remove 2 [1; 2; 4; 5]%positive ∧ RB_ok t'⌝)%I h'.
Proof.
  refine (triple_run _ _ _ _ (RB_REMOVE_correct 10 9 rb_sample 2 ltac:(cbn; set_solver) rb_sample_ok ltac:(cbn; lia)) _).
  exact rb_sample_sat.
Defined.

Lemma RB_refines_sorted_list_witness :
  ∃ v h', run_ops (cmp:=addr_cmp) (C:=rb_obj) 10 9 sample_ops
            ({[9%positive := RB_HEAD None]} ∪ pool_heap rb_free [1; 2; 3]%positive) = Ret (v, h') ∧
  (⌜v = sample_results⌝ ∗ RB_own addr_cmp 9 [1; 3]%positive ∗
   [∗ set] x ∈ (sample_pool ∖ list_to_set [1; 3]%positive), RB_elem x)%I h'.
Proof.
  refine (triple_run _ _ _ _
    (RB_refines_sorted_list (cmp:=addr_cmp) 10 9 sample_pool sample_ops _ _ ltac:(vm_compute; lia) sample_run) _).
  apply sep_intro.
  - exact (rb_heap_sat 9 Leaf ltac:(repeat constructor; set_solver)).
  - apply pool_heap_sat; [intros x; by iIntros "$"|]. by repeat (constructor; [set_solver|]); constructor.
  - apply map_disjoint_singleton_l. by vm_compute.
Defined.

Lemma SPLAY_refines_sorted_list_witness :
  ∃ v h', run_ops (cmp:=addr_cmp) (C:=splay_obj) 10 9 sample_ops
            ({[9%positive := SPLAY_HEAD None]} ∪ pool_heap splay_free [1; 2; 3]%positive) = Ret (v, h') ∧
  (⌜v = sample_results⌝ ∗ SPLAY_own addr_cmp 9 [1; 3]%positive ∗
   [∗ set] x ∈ (sample_pool ∖ list_to_set [1; 3]%positive), SPLAY_elem x)%I h'.
Proof.
  refine (triple_run _ _ _ _
    (SPLAY_refines_sorted_list (cmp:=addr_cmp) 10 9 sample_pool sample_ops _ _ ltac:(vm_compute; lia) sample_run) _).
  apply sep_intro.
  - exact (splay_heap_sat 9 Leaf ltac:(repeat constructor; set_solver)).
  - apply pool_heap_sat; [intros x; by iIntros "$"|]. by repeat (constructor; [set_solver|]); constructor.
  - apply map_disjoint_singleton_l. by vm_compute.
Defined.

Lemma RB_queries_correct_witness :
  (∃ v h', RB_FIND addr_cmp 10 (Some 9) (Some 4) (rb_heap 9 rb_sample)%positive = Ret (v, h') ∧
    (⌜v = Some 4%positive⌝ ∗ RB_tree 9 rb_sample)%I h') ∧
  (∃ v h', RB_NFIND addr_cmp 10 (Some 9) (Some 3) (rb_heap 9 rb_sample)%positive = Ret (v, h') ∧
    (⌜v = Some 4%positive⌝ ∗ RB_tree 9 rb_sample)%I h') ∧
  (∃ v h', RB_MIN 10 (Some 9) (rb_heap 9 rb_sample)%positive = Ret (v, h') ∧
    (⌜v = Some 1%positive⌝ ∗ RB_tree 9 rb_sample)%I h') ∧
  (∃ v h', RB_NEXT 10 (Some 2) (rb_heap 9 rb_sample)%positive = Ret (v, h') ∧
    (⌜v = Some 4%positive⌝ ∗ RB_tree 9 rb_sample)%I h') ∧
  (∃ v h', RB_PREV 10 (Some 1) (rb_heap 9 rb_sample)%positive = Ret (v, h') ∧
    (⌜v = None⌝ ∗ RB_tree 9 rb_sample)%I h') ∧
  (2 ^ height rb_sample ≤ 5 ^ 2)%nat.
Proof.
  destruct (RB_queries_correct (cmp:=addr_cmp) 10 9 rb_sample ltac:(cbn; lia)) as (Hfind & Hmin & _ & Hnav & Hheight).
  split_and!; [..|exact (proj2 (Hheight rb_sample_ok))]; (refine (triple_run _ _ _ _ _ rb_sample_sat)).
  - exact (proj1 (Hfind 4 sample_sorted)).
  - exact (proj2 (Hfind 3 sample_sorted)).
  - exact Hmin.
  - exact (proj1 (Hnav 2 [1%positive] [4; 5]%positive eq_refl)).
  - exact (proj2 (Hnav 1 [] [2; 4; 5]%positive eq_refl)).
Defined.

Lemma SPLAY_operations_correct_witness :
  (∃ v h', SPLAY_INSERT addr_cmp 10 (Some 9) (Some 3)
             (splay_heap 9 splay_sample ∪ {[3 := splay_free]})%positive = Ret (v, h') ∧
   (⌜v = None⌝ ∗ ∃ t', SPLAY_tree 9 t' ∗ ⌜inorder t' = [1; 2; 3; 4; 5]%positive⌝)%I h') ∧
  (∃ v h', SPLAY_REMOVE addr_cmp 10 (Some 9) (Some 2) (splay_heap 9 splay_sample)%positive = Ret (v, h') ∧
   (⌜v = Some 2%positive⌝ ∗ ∃ t', SPLAY_tree 9 t' ∗
    (⌜inorder t' = sl_remove 2 [1; 2; 4; 5]%positive⌝ ∗ ∃ e, 2%positive ↦ SPLAY_ELEM e))%I h') ∧
  (∃ v h', SPLAY_FIND addr_cmp 10 (Some 9) (Some 5) (splay_heap 9 splay_sample)%positive = Ret (v, h') ∧
   (⌜v = Some 5%positive⌝ ∗ ∃ t', SPLAY_tree 9 t' ∗
    ⌜inorder t' = [1; 2; 4; 5]%positive ∧ (is_Some v → root t' = v)⌝)%I h') ∧
  (∃ v h', SPLAY_MAX 10 (Some 9) (splay_heap 9 splay_sample)%positive = Ret (v, h') ∧
    (⌜v = Some 5%positive⌝ ∗ ∃ t', SPLAY_tree 9 t' ∗ ⌜inorder t' = [1; 2; 4; 5]%positive ∧ root t' = v⌝)%I h') ∧
  (∃ v h', SPLAY_NEXT addr_cmp 10 (Some 9) (Some 2) (splay_heap 9 splay_sample)%positive = Ret (v, h') ∧
    (⌜v = Some 4%positive⌝ ∗ ∃ t', SPLAY_tree 9 t' ∗ ⌜inorder t' = [1; 2; 4; 5]%positive⌝)%I h') ∧
  (∃ v h', SPLAY_FOREACH addr_cmp 10 (Some 9%positive) (λ xs x, mret (xs ++ [x])%list) []
             (splay_heap 9 splay_sample) = Ret (v, h') ∧
    (⌜v = Some <$> [1; 2; 4; 5]%positive⌝ ∗ ∃ t', SPLAY_tree 9 t' ∗ ⌜inorder t' = [1; 2; 4; 5]%positive⌝)%I h').
Proof.
  pose proof (λ x, SPLAY_operations_correct (cmp:=addr_cmp) 10 9 splay_sample x sample_sorted ltac:(vm_compute; lia)) as H.
  split_and!.
  - refine (triple_run _ _ _ _ (proj1 (H 3)) _).
    apply sep_intro; [exact splay_sample_sat| |by apply map_disjoint_singleton_r; vm_compute].
    exists {| spe_left := None; spe_right := None |}. apply mapsto_singleton.
  - exact (triple_run _ _ _ _ (proj1 (proj2 (H 2))) splay_sample_sat).
  - exact (triple_run _ _ _ _ (proj1 (proj2 (proj2 (H 5)))) splay_sample_sat).
  - exact (triple_run _ _ _ _ (proj1 (proj2 (proj2 (proj2 (proj2 (H 5))) ltac:(vm_compute; lia)))) splay_sample_sat).
  - exact (triple_run _ _ _ _ (proj1 (proj2 (proj2 (proj2 (proj2 (proj2 (H 5))) ltac:(vm_compute; lia))))
      [1%positive] 2 [4; 5]%positive eq_refl) splay_sample_sat).
  - exact (triple_run _ _ _ _ (proj2 (proj2 (proj2 (proj2 (proj2 (proj2 (H 5))) ltac:(vm_compute; lia)))))
      splay_sample_sat).
Defined.

Lemma SPLAY_correct_witness :
  ∃ v h', SPLAY addr_cmp 10 (Some 9) (Some 3) (splay_heap 9 splay_sample)%positive = Ret (v, h') ∧
  (∃ l a r, SPLAY_tree 9 (Node tt l a r) ∗
     ⌜inorder (Node tt l a r) = [1; 2; 4; 5]%positive ∧
      splayed_at addr_cmp 3 (inorder l) a (inorder r)⌝)%I h'.
Proof.
  refine (triple_run _ _ _ _
    (SPLAY_correct (cmp:=addr_cmp) 10 9 splay_sample 3 sample_sorted ltac:(done) ltac:(vm_compute; lia)) _).
  exact splay_sample_sat.
Defined.

Lemma RB_FOREACH_correct_witness :
  (∃ v h', RB_FOREACH 10 (Some 9%positive) (λ xs x, mret (xs ++ [x])%list) [] (rb_heap 9 rb_sample) = Ret (v, h') ∧
    (⌜v = Some <$> [1; 2; 4; 5]%positive⌝ ∗ RB_tree 9 rb_sample)%I h') ∧
  (∃ v h', RB_FOREACH_REVERSE 10 (Some 9%positive) (λ xs x, mret (xs ++ [x])%list) [] (rb_heap 9 rb_sample) = Ret (v, h') ∧
    (⌜v = Some <$> [5; 4; 2; 1]%positive⌝ ∗ RB_tree 9 rb_sample)%I h') ∧
  (∃ v h', RB_FOREACH_SAFE 10 (Some 9%positive) (λ _ x, _ ← RB_REMOVE 10 (Some 9%positive) x; mret tt) tt
             (rb_heap 9 rb_sample) = Ret (v, h') ∧
    (RB_tree 9 Leaf ∗ [∗ list] x ∈ [1; 2; 4; 5]%positive, ∃ e, x ↦ RB_ELEM e)%I h').
Proof.
  destruct (RB_FOREACH_correct 10 9 rb_sample ltac:(vm_compute; lia)) as (Hfwd & Hrev & Hsafe).
  split_and!; (refine (triple_run _ _ _ _ _ rb_sample_sat)).
  - exact Hfwd.
  - exact Hrev.
  - exact (Hsafe rb_sample_ok).
Defined.

(** An empty tree, and a tree of four elements. *)
Lemma SPLAY_partiality_instance :
  SPLAY addr_cmp 10 (Some 9) (Some 2) (splay_heap 9 Leaf)%positive = Undef ∧
  SPLAY_MINMAX 1000 (Some 9%positive) 0 (splay_heap 9 splay_sample) = NoFuel.
Proof.
  split.
  - exact (proj1 (SPLAY_partiality addr_cmp 10 9 2 (splay_heap 9 Leaf)) ltac:(lia) eq_refl).
  - exact (proj2 (SPLAY_partiality addr_cmp 1000 9 2 (splay_heap 9 splay_sample))).
Defined.
