(* ===== verification/ByteMemory.v ===== *)
(** * Machine integers and byte memory

    Two's complement integers of a given width, and the byte-addressed memory
    the V8 headers read and write through casts of [internal::Address]: the
    memory of [HeapLogic] with bytes as its objects, little-endian words over
    it, and the rules of the logic for word accesses. *)

From S2P Require Import Prelude HeapLogic.
Local Open Scope Z_scope.

(** ** Integers of [w] bits *)

(** [static_cast] to an unsigned and to a signed integer type. *)
Definition to_unsigned (w x : Z) : Z := x mod 2 ^ w.
Definition to_signed (w x : Z) : Z :=
  let u := x mod 2 ^ w in if u <? 2 ^ (w - 1) then u else u - 2 ^ w.
Definition in_unsigned (w x : Z) : Prop := 0 ≤ x < 2 ^ w.
Definition in_signed (w x : Z) : Prop := - 2 ^ (w - 1) ≤ x < 2 ^ (w - 1).

Section integers.
Context (w : Z).

Lemma pow2_half : 0 < w → 2 ^ w = 2 * 2 ^ (w - 1).
Proof. intros. rewrite -Z.pow_succ_r; [f_equal; lia|lia]. Qed.

Lemma to_unsigned_in x : 0 ≤ w → in_unsigned w (to_unsigned w x).
Proof. intros. apply Z.mod_pos_bound. apply Z.pow_pos_nonneg; lia. Qed.

Lemma to_unsigned_id x : in_unsigned w x → to_unsigned w x = x.
Proof. intros. by apply Z.mod_small. Qed.

Lemma to_signed_in x : 0 < w → in_signed w (to_signed w x).
Proof.
  intros Hw. unfold to_signed, in_signed. pose proof (pow2_half Hw).
  pose proof (Z.mod_pos_bound x (2 ^ w)). destruct (Z.ltb_spec (x mod 2 ^ w) (2 ^ (w - 1))); lia.
Qed.

Lemma to_signed_id x : 0 < w → in_signed w x → to_signed w x = x.
Proof.
  intros Hw Hx. unfold to_signed, in_signed in *. pose proof (pow2_half Hw).
  destruct (Z.lt_ge_cases x 0).
  - replace (x mod 2 ^ w) with (x + 2 ^ w).
    + destruct (Z.ltb_spec (x + 2 ^ w) (2 ^ (w - 1))); lia.
    + apply Z.mod_unique with (-1); lia.
  - rewrite Z.mod_small; [|lia]. destruct (Z.ltb_spec x (2 ^ (w - 1))); lia.
Qed.

Lemma to_signed_unsigned x : 0 < w → to_signed w (to_unsigned w x) = to_signed w x.
Proof. intros. unfold to_signed, to_unsigned. rewrite Z.mod_mod; [done|]. pose proof (pow2_half ltac:(done)). lia. Qed.

Lemma to_unsigned_signed x : 0 < w → to_unsigned w (to_signed w x) = to_unsigned w x.
Proof.
  intros Hw. unfold to_signed, to_unsigned. pose proof (pow2_half Hw).
  destruct (_ <? _); [apply Z.mod_mod; lia|].
  replace (x mod 2 ^ w - 2 ^ w) with (x mod 2 ^ w + (-1) * 2 ^ w) by lia.
  rewrite Z.mod_add; [|lia]. apply Z.mod_mod. lia.
Qed.

Lemma to_signed_mod x y : 0 < w → x mod 2 ^ w = y mod 2 ^ w → to_signed w x = to_signed w y.
Proof. unfold to_signed. by intros _ ->. Qed.
End integers.

(** ** Memory accesses

    Addresses are integers; an access at zero or at a dead address is
    undefined behaviour. *)

Abbreviation byte_memory := (heap Z).
Abbreviation mem A := (M byte_memory A).

Definition byte_ptr (a : Z) : ptr := match a with Zpos p => Some p | _ => None end.

(** [*reinterpret_cast<const uintN_t*>(a)], with [N] eight times [n]. *)
Fixpoint load_word (n : nat) (a : Z) : mem Z :=
  match n with
  | O => mret 0
  | S n =>
      b ← load (byte_ptr a);
      r ← load_word n (a + 1);
      mret (b + 256 * r)
  end.
(** [*reinterpret_cast<uintN_t*>(a) = v] *)
Fixpoint store_word (n : nat) (a v : Z) : mem unit :=
  match n with
  | O => mret tt
  | S n => store (byte_ptr a) (v mod 256);; store_word n (a + 1) (v / 256)
  end.

(** ** Words in the logic *)

Fixpoint word (n : nat) (a v : Z) : hpropI Z :=
  match n with
  | O => ⌜v = 0⌝
  | S n => ∃ p, ⌜a = Zpos p⌝ ∗ p ↦ (v mod 256) ∗ word n (a + 1) (v / 256)
  end%I.
Notation "a ↦[ n ] v" := (word n a v) (at level 20, n at level 50, format "a  ↦[ n ]  v") : bi_scope.

Definition word_size (n : nat) : Z := 2 ^ (8 * Z.of_nat n).

Lemma word_size_S n : word_size (S n) = 256 * word_size n.
Proof.
  unfold word_size. replace (8 * Z.of_nat (S n)) with (8 + 8 * Z.of_nat n) by lia.
  rewrite Z.pow_add_r; [done|lia..].
Qed.
Lemma word_size_pos n : 0 < word_size n.
Proof. unfold word_size. apply Z.pow_pos_nonneg; lia. Qed.

Lemma word_range n a v : a ↦[n] v ⊢ ⌜0 ≤ v < word_size n⌝.
Proof.
  revert a v. induction n as [|n IH]; intros a v; cbn [word].
  { iIntros "->". iPureIntro. done. }
  iIntros "(%p & _ & _ & H)". iDestruct (IH with "H") as %H. iPureIntro.
  rewrite word_size_S. pose proof (Z.div_mod v 256). pose proof (Z.mod_pos_bound v 256). lia.
Qed.

Lemma wp_load_word n a v Φ : a ↦[n] v ⊢ (a ↦[n] v -∗ Φ v) -∗ wp (load_word n a) Φ.
Proof.
  revert a v Φ. induction n as [|n IH]; intros a v Φ; cbn [word load_word].
  { iIntros "-> HΦ". iApply wp_ret. by iApply "HΦ". }
  iIntros "(%p & -> & Hp & H) HΦ". iApply wp_bind. iApply (wp_load with "Hp"). iIntros "Hp".
  iApply wp_bind. iApply (IH with "H"). iIntros "H". iApply wp_ret.
  replace (v mod 256 + 256 * (v / 256)) with v by (pose proof (Z.div_mod v 256); lia).
  iApply "HΦ". iExists p. by iFrame.
Qed.

Lemma wp_store_word n a v x Φ :
  a ↦[n] v ⊢ (a ↦[n] (x mod word_size n) -∗ Φ tt) -∗ wp (store_word n a x) Φ.
Proof.
  revert a v x Φ. induction n as [|n IH]; intros a v x Φ; cbn [word store_word].
  { iIntros "_ HΦ". iApply wp_ret. iApply "HΦ". iPureIntro. apply Z.mod_1_r. }
  iIntros "(%p & -> & Hp & H) HΦ". iApply wp_bind. iApply (wp_store with "Hp"). iIntros "Hp".
  iApply (IH with "H"). iIntros "H". iApply "HΦ". iExists p. iSplit; [done|].
  rewrite word_size_S. pose proof (word_size_pos n).
  rewrite Z.rem_mul_r // (Z.mul_comm 256).
  rewrite Z.mod_add // Z.mod_mod // Z.div_add // (Z.div_small (x mod 256)); [by iFrame|].
  by apply Z.mod_pos_bound.
Qed.

(** The rules for an access at the head of a program. *)
Lemma wp_load_bind {A} n a v (k : Z → mem A) Φ :
  a ↦[n] v ⊢ (a ↦[n] v -∗ wp (k v) Φ) -∗ wp (load_word n a ≫= k) Φ.
Proof. iIntros "H HΦ". iApply wp_bind. by iApply (wp_load_word with "H"). Qed.
Lemma wp_store_bind {A} n a v x (k : unit → mem A) Φ :
  a ↦[n] v ⊢ (a ↦[n] (x mod word_size n) -∗ wp (k tt) Φ) -∗ wp (store_word n a x ≫= k) Φ.
Proof. iIntros "H HΦ". iApply wp_bind. by iApply (wp_store_word with "H"). Qed.

(** Words at distinct addresses are apart. *)
Lemma word_ne n m a v b w : a ↦[S n] v ⊢ b ↦[S m] w -∗ ⌜a ≠ b⌝.
Proof.
  cbn [word]. iIntros "(%p & -> & Hp & _) (%q & -> & Hq & _) %E". injection E as ->.
  by iDestruct (mapsto_ne with "Hp Hq") as %?.
Qed.

Lemma word_pos n a v : a ↦[S n] v ⊢ ⌜0 < a⌝.
Proof. cbn [word]. by iIntros "(%p & -> & _)". Qed.

(** Steps over an access at the head of a program whose word is in the context. *)
Section tactics.
Implicit Types Δ : environments.envs (hpropI Z).

Lemma tac_wp_load {A} Δ i n a v (k : Z → mem A) Φ :
  environments.envs_lookup i Δ = Some (false, word n a v) →
  environments.envs_entails Δ (wp (k v) Φ) →
  environments.envs_entails Δ (wp (load_word n a ≫= k) Φ).
Proof.
  rewrite environments.envs_entails_unseal=> Hi HΔ.
  rewrite environments.envs_lookup_split //= HΔ. iIntros "[Ha Hk]". by iApply (wp_load_bind with "Ha").
Qed.

Lemma tac_wp_store {A} Δ i n a v x (k : unit → mem A) Φ :
  environments.envs_lookup i Δ = Some (false, word n a v) →
  match environments.envs_simple_replace i false
          (environments.Esnoc environments.Enil i (word n a (x mod word_size n))) Δ with
  | Some Δ' => environments.envs_entails Δ' (wp (k tt) Φ)
  | None => False
  end →
  environments.envs_entails Δ (wp (store_word n a x ≫= k) Φ).
Proof.
  rewrite environments.envs_entails_unseal=> Hi.
  destruct (environments.envs_simple_replace _ _ _) as [Δ'|] eqn:HΔ'; [|done].
  intros HΔ. rewrite environments.envs_simple_replace_sound //; simpl; rewrite bi.sep_emp HΔ.
  iIntros "[Ha Hk]". by iApply (wp_store_bind with "Ha").
Qed.
End tactics.

#[global] Opaque word load_word store_word.
#[global] Typeclasses Opaque word.

Ltac mem_load := wp_norm; wp_tail; eapply tac_wp_load; [iAssumptionCore|wp_norm].
Ltac mem_store := wp_norm; wp_tail; eapply tac_wp_store; [iAssumptionCore|reduction.pm_reduce; wp_norm].
Ltac mem_step := first [mem_load | mem_store | iApply wp_ret].
Ltac mem_steps := wp_norm; repeat mem_step.

(** ** Concrete memories *)

(** The [n] bytes of [v] at [a]. *)
Fixpoint word_bytes (n : nat) (a v : Z) : byte_memory :=
  match n, byte_ptr a with
  | S n, Some p => <[p := v mod 256]> (word_bytes n (a + 1) (v / 256))
  | _, _ => ∅
  end.

Lemma word_bytes_dom n a v p : is_Some (word_bytes n a v !! p) → a ≤ Zpos p < a + Z.of_nat n.
Proof.
  revert a v. induction n as [|n IH]; intros a v; cbn [word_bytes]; [by intros [? ?]|].
  destruct (byte_ptr a) as [q|] eqn:Ea; [|by intros [? ?]]. destruct a; try done. injection Ea as ->.
  rewrite lookup_insert. case_decide as E; [subst; lia|]. intros H%IH. lia.
Qed.

Lemma word_bytes_sat n a v :
  0 < a → 0 ≤ v < word_size n → (a ↦[n] v)%I (word_bytes n a v).
Proof.
  Transparent word. revert a v. induction n as [|n IH]; intros a v Ha Hv.
  { cbn. change (v = 0). unfold word_size in Hv. cbn in Hv. lia. }
  destruct a as [|p|]; [done| |done]. cbn [word word_bytes byte_ptr].
  exists p. apply (hprop_in_entails (p ↦ (v mod 256) ∗ (Zpos p + 1) ↦[n] (v / 256))%I).
  { iIntros "$". done. }
  rewrite insert_union_singleton_l. apply sep_intro; [apply mapsto_singleton| |].
  - apply IH; [lia|]. rewrite word_size_S in Hv. split; [apply Z.div_pos; lia|].
    apply Z.div_lt_upper_bound; lia.
  - apply map_disjoint_singleton_l. destruct (_ !! p) eqn:E; [|done].
    pose proof (word_bytes_dom n (Zpos p + 1) (v / 256) p). rewrite E in H. ospecialize (H _); [done|lia].
  Opaque word.
Qed.

(** A memory given by its words: [(n, a, v)] is the word [v] of [n] bytes at
    [a]. *)
Definition cell_word (c : nat * Z * Z) : hpropI Z := let '(n, a, v) := c in (a ↦[n] v)%I.
Fixpoint cells (cs : list (nat * Z * Z)) : byte_memory :=
  match cs with [] => ∅ | (n, a, v) :: cs => word_bytes n a v ∪ cells cs end.
Definition cell_apart (c d : nat * Z * Z) : bool :=
  let '(n, a, _) := c in let '(m, b, _) := d in (a + Z.of_nat n <=? b) || (b + Z.of_nat m <=? a).
Fixpoint cells_ok (cs : list (nat * Z * Z)) : bool :=
  match cs with
  | [] => true
  | (n, a, v) :: cs =>
      (0 <? a) && (0 <=? v) && (v <? word_size n) && forallb (cell_apart (n, a, v)) cs && cells_ok cs
  end.

Lemma cells_dom cs p :
  is_Some (cells cs !! p) → ∃ n a v, (n, a, v) ∈ cs ∧ a ≤ Zpos p < a + Z.of_nat n.
Proof.
  induction cs as [|[[n a] v] cs IH]; cbn [cells]; [by intros [? ?]|].
  intros [x [H|[_ H]]%lookup_union_Some_raw].
  - exists n, a, v. split; [left|]. by apply (word_bytes_dom n a v).
  - destruct IH as (n' & a' & v' & ? & ?); [done|]. exists n', a', v'. split; [by right|done].
Qed.

Lemma cells_sat cs : cells_ok cs = true → ([∗ list] c ∈ cs, cell_word c)%I (cells cs).
Proof.
  induction cs as [|[[n a] v] cs IH]; [done|]. cbn [cells_ok cells].
  intros ((((Ha & Hv0)%andb_prop & Hv)%andb_prop & Hapart)%andb_prop & Hcs)%andb_prop.
  change ((cell_word (n, a, v) ∗ [∗ list] c ∈ cs, cell_word c)%I (word_bytes n a v ∪ cells cs)).
  apply sep_intro; [|by apply IH|].
  - apply word_bytes_sat; lia.
  - apply map_disjoint_spec. intros p x y Hx Hy.
    destruct (cells_dom cs p) as (m & b & w & Hin & Hp); [by eexists|].
    pose proof (word_bytes_dom n a v p (mk_is_Some _ _ Hx)).
    rewrite forallb_forall in Hapart. specialize (Hapart (m, b, w)).
    rewrite -list_elem_of_In in Hapart. specialize (Hapart Hin). cbn in Hapart. lia.
Qed.

(** So an assertion those words provide has a memory. *)
Lemma cells_intro cs (P : hpropI Z) :
  cells_ok cs = true → (([∗ list] c ∈ cs, cell_word c) ⊢ P) → P (cells cs).
Proof. intros Hok [H]. by apply H, cells_sat. Qed.
