(* ===== verification/V8Internal.v ===== *)
(** * [v8-internal.h]: tagging, layout and raw accesses

    The constants and inline functions through which the V8 headers look into
    the engine's heap: Smi tagging, the external pointer tags, the offsets of
    the isolate and of heap objects, and the functions of class [Internals]. A
    build configuration (the preprocessor symbols of the headers) is a
    parameter; so are the functions the library exports. *)

From S2P Require Import Prelude HeapLogic ByteMemory.
Local Open Scope Z_scope.

(** The build configuration: the size of a pointer and the [V8_*] symbols. *)
Class V8Config := {
  sizeof_ptr : Z;
  V8_COMPRESS_POINTERS : bool;
  V8_31BIT_SMIS_ON_64BIT_ARCH : bool;
  V8_SANDBOX : bool;
  V8_SANDBOXED_EXTERNAL_POINTERS : bool;
  V8_SANDBOXED_POINTERS : bool;
  V8_MAP_PACKING : bool;
  V8_ENABLE_CHECKS : bool;
}.
(** The platforms: 32 or 64 bits, compression on the latter only (which the
    header asserts). *)
Definition V8Config_ok (c : V8Config) : Prop :=
  (sizeof_ptr = 4 ∨ sizeof_ptr = 8) ∧ (V8_COMPRESS_POINTERS = true → sizeof_ptr = 8).

(** Sizes that do not depend on the configuration. *)
Definition KB : Z := 1024.
Definition MB : Z := KB * 1024.
Definition GB : Z := MB * 1024.
Definition TB : Z := GB * 1024.
Definition kNullAddress : Z := 0.
Definition kApiDoubleSize : Z := 8.
Definition kApiInt32Size : Z := 4.
Definition kApiInt64Size : Z := 8.

(** Tag information for HeapObject. *)
Definition kHeapObjectTag : Z := 1.
Definition kWeakHeapObjectTag : Z := 3.
Definition kHeapObjectTagSize : Z := 2.
Definition kHeapObjectTagMask : Z := Z.shiftl 1 kHeapObjectTagSize - 1.
(** Tag information for forwarding pointers. *)
Definition kForwardingTag : Z := 0.
Definition kForwardingTagSize : Z := 2.
Definition kForwardingTagMask : Z := Z.shiftl 1 kForwardingTagSize - 1.
(** Tag information for Smi. *)
Definition kSmiTag : Z := 0.
Definition kSmiTagSize : Z := 1.
Definition kSmiTagMask : Z := Z.shiftl 1 kSmiTagSize - 1.

(** ** Smis *)

Section smi.
Context `{!V8Config}.

Definition kApiSystemPointerSize : Z := sizeof_ptr.
Definition kApiSizetSize : Z := sizeof_ptr.
Definition ptr_bits : Z := 8 * sizeof_ptr.
Definition kIntptrAllBitsSet : Z := -1.
Definition kUintptrAllBitsSet : Z := to_unsigned ptr_bits kIntptrAllBitsSet.

(** The two specialisations of the template [SmiTagging]. *)
Inductive SmiTagging : Type := SmiTagging4 | SmiTagging8.

Definition SmiTagging_kSmiShiftSize (t : SmiTagging) : Z :=
  match t with SmiTagging4 => 0 | SmiTagging8 => 31 end.
Definition SmiTagging_kSmiValueSize (t : SmiTagging) : Z :=
  match t with SmiTagging4 => 31 | SmiTagging8 => 32 end.
Definition SmiTagging_kSmiMinValue (t : SmiTagging) : Z :=
  to_signed ptr_bits
    (to_unsigned ptr_bits (Z.shiftl kUintptrAllBitsSet (SmiTagging_kSmiValueSize t - 1))).
Definition SmiTagging_kSmiMaxValue (t : SmiTagging) : Z := - (SmiTagging_kSmiMinValue t + 1).

Definition SmiToInt (t : SmiTagging) (value : Z) : Z :=
  let shift_bits := kSmiTagSize + SmiTagging_kSmiShiftSize t in
  match t with
  | SmiTagging4 => Z.shiftr (to_signed 32 (to_unsigned 32 value)) shift_bits
  | SmiTagging8 => to_signed 32 (Z.shiftr (to_signed ptr_bits value) shift_bits)
  end.
Definition SmiTagging_IsValidSmi (t : SmiTagging) (value : Z) : bool :=
  match t with
  | SmiTagging4 =>
      to_unsigned ptr_bits (to_unsigned ptr_bits value - to_unsigned ptr_bits (SmiTagging_kSmiMinValue t))
      <=? to_unsigned ptr_bits (to_unsigned ptr_bits (SmiTagging_kSmiMaxValue t)
                                - to_unsigned ptr_bits (SmiTagging_kSmiMinValue t))
  | SmiTagging8 => value =? to_signed 32 value
  end.

Definition kPtrComprCageReservationSize : Z := Z.shiftl 1 32.
Definition kPtrComprCageBaseAlignment : Z := Z.shiftl 1 32.
Definition kApiTaggedSize : Z :=
  if V8_COMPRESS_POINTERS then kApiInt32Size else kApiSystemPointerSize.
Definition PointerCompressionIsEnabled : bool := negb (kApiTaggedSize =? kApiSystemPointerSize).

Definition PlatformSmiTagging : SmiTagging :=
  if V8_31BIT_SMIS_ON_64BIT_ARCH then SmiTagging4
  else if kApiTaggedSize =? 4 then SmiTagging4 else SmiTagging8.
Definition kSmiShiftSize : Z := SmiTagging_kSmiShiftSize PlatformSmiTagging.
Definition kSmiValueSize : Z := SmiTagging_kSmiValueSize PlatformSmiTagging.
Definition kSmiMinValue : Z := to_signed 32 (SmiTagging_kSmiMinValue PlatformSmiTagging).
Definition kSmiMaxValue : Z := to_signed 32 (SmiTagging_kSmiMaxValue PlatformSmiTagging).
Definition SmiValuesAre31Bits : bool := kSmiValueSize =? 31.
Definition SmiValuesAre32Bits : bool := kSmiValueSize =? 32.

Definition IntToSmi (value : Z) : Z :=
  Z.lor (to_unsigned ptr_bits (Z.shiftl (to_unsigned ptr_bits value) (kSmiTagSize + kSmiShiftSize))) kSmiTag.
End smi.

(** ** The sandbox *)

Section sandbox.
Context `{!V8Config}.

Definition SandboxIsEnabled : bool := V8_SANDBOX.
Definition SandboxedExternalPointersAreEnabled : bool := V8_SANDBOXED_EXTERNAL_POINTERS.
(** [sizeof(ExternalPointer_t)] *)
Definition ExternalPointer_t_size : Z :=
  if V8_SANDBOXED_EXTERNAL_POINTERS then 4 else kApiSystemPointerSize.

Definition kSandboxSizeLog2 : Z := 40.
Definition kSandboxSize : Z := Z.shiftl 1 kSandboxSizeLog2.
Definition kSandboxAlignment : Z := kPtrComprCageBaseAlignment.
Definition kSandboxedPointerShift : Z := 64 - kSandboxSizeLog2.
Definition kSandboxGuardRegionSize : Z := 32 * GB.
Definition kSandboxMinimumSize : Z := 32 * GB.
Definition kSandboxMinimumReservationSize : Z := 8 * GB.
Definition kAllowBackingStoresOutsideSandbox : bool := negb V8_SANDBOXED_POINTERS.
Definition kExternalPointerTableReservationSize : Z := 128 * MB.
Definition kMaxSandboxedExternalPointers : Z :=
  kExternalPointerTableReservationSize / kApiSystemPointerSize.
Definition kExternalPointerIndexShift : Z := 8.

(** The [static_assert]s of the section. *)
Definition sandbox_static_asserts : bool :=
  (kSandboxGuardRegionSize mod kSandboxAlignment =? 0) &&
  (kSandboxMinimumSize <=? kSandboxSize) &&
  (kSandboxMinimumSize >? kPtrComprCageReservationSize) &&
  (kSandboxMinimumReservationSize >? kPtrComprCageReservationSize) &&
  (Z.shiftl 1 (32 - kExternalPointerIndexShift) =? kMaxSandboxedExternalPointers).
End sandbox.

Definition kExternalPointerTagMask : Z := 0xffff000000000000.
Definition kExternalPointerTagShift : Z := 48.
Definition MAKE_TAG (v : Z) : Z := to_unsigned 64 (Z.shiftl v kExternalPointerTagShift).

Inductive ExternalPointerTag : Type :=
| kExternalPointerNullTag
| kExternalPointerFreeEntryTag
| kExternalStringResourceTag
| kExternalStringResourceDataTag
| kForeignForeignAddressTag
| kNativeContextMicrotaskQueueTag
| kEmbedderDataSlotPayloadTag
| kCodeEntryPointTag
| kExternalObjectValueTag.
#[export] Instance ExternalPointerTag_eq_dec : EqDecision ExternalPointerTag.
Proof. solve_decision. Defined.

Definition tag_value (t : ExternalPointerTag) : Z :=
  match t with
  | kExternalPointerNullTag => MAKE_TAG 0x0000
  | kExternalPointerFreeEntryTag => MAKE_TAG 0x7f80
  | kExternalStringResourceTag => MAKE_TAG 0x80ff
  | kExternalStringResourceDataTag => MAKE_TAG 0x817f
  | kForeignForeignAddressTag => MAKE_TAG 0x81bf
  | kNativeContextMicrotaskQueueTag => MAKE_TAG 0x81df
  | kEmbedderDataSlotPayloadTag => MAKE_TAG 0x81ef
  | kCodeEntryPointTag => MAKE_TAG 0x81f7
  | kExternalObjectValueTag => MAKE_TAG 0x81fb
  end.

(** ** Class [Internals]: the layout *)

Section layout.
Context `{!V8Config}.

Definition kHeapObjectMapOffset : Z := 0.
Definition kMapInstanceTypeOffset : Z := 1 * kApiTaggedSize + kApiInt32Size.
Definition kStringResourceOffset : Z := 1 * kApiTaggedSize + 2 * kApiInt32Size.
Definition kOddballKindOffset : Z := 4 * kApiTaggedSize + kApiDoubleSize.
Definition kJSObjectHeaderSize : Z := 3 * kApiTaggedSize.
Definition kFixedArrayHeaderSize : Z := 2 * kApiTaggedSize.
Definition kEmbedderDataArrayHeaderSize : Z := 2 * kApiTaggedSize.
Definition kEmbedderDataSlotSize : Z := kApiSystemPointerSize.
Definition kEmbedderDataSlotRawPayloadOffset : Z := kApiTaggedSize.
Definition kNativeContextEmbedderDataOffset : Z := 6 * kApiTaggedSize.
Definition kStringRepresentationAndEncodingMask : Z := 0x0f.
Definition kStringEncodingMask : Z := 0x8.
Definition kExternalTwoByteRepresentationTag : Z := 0x02.
Definition kExternalOneByteRepresentationTag : Z := 0x0a.
Definition kNumIsolateDataSlots : Z := 4.
Definition kStackGuardSize : Z := 7 * kApiSystemPointerSize.
Definition kBuiltinTier0EntryTableSize : Z := 10 * kApiSystemPointerSize.
Definition kBuiltinTier0TableSize : Z := 10 * kApiSystemPointerSize.
(** IsolateData layout guarantees. *)
Definition kIsolateCageBaseOffset : Z := 0.
Definition kIsolateStackGuardOffset : Z := kIsolateCageBaseOffset + kApiSystemPointerSize.
Definition kBuiltinTier0EntryTableOffset : Z := kIsolateStackGuardOffset + kStackGuardSize.
Definition kBuiltinTier0TableOffset : Z := kBuiltinTier0EntryTableOffset + kBuiltinTier0EntryTableSize.
Definition kIsolateEmbedderDataOffset : Z := kBuiltinTier0TableOffset + kBuiltinTier0TableSize.
Definition kIsolateFastCCallCallerFpOffset : Z :=
  kIsolateEmbedderDataOffset + kNumIsolateDataSlots * kApiSystemPointerSize.
Definition kIsolateFastCCallCallerPcOffset : Z := kIsolateFastCCallCallerFpOffset + kApiSystemPointerSize.
Definition kIsolateFastApiCallTargetOffset : Z := kIsolateFastCCallCallerPcOffset + kApiSystemPointerSize.
Definition kIsolateLongTaskStatsCounterOffset : Z := kIsolateFastApiCallTargetOffset + kApiSystemPointerSize.
Definition kIsolateRootsOffset : Z := kIsolateLongTaskStatsCounterOffset + kApiSizetSize.
Definition kExternalPointerTableBufferOffset : Z := 0.
Definition kExternalPointerTableCapacityOffset : Z :=
  kExternalPointerTableBufferOffset + kApiSystemPointerSize.
Definition kExternalPointerTableFreelistHeadOffset : Z :=
  kExternalPointerTableCapacityOffset + kApiInt32Size.
Definition kUndefinedValueRootIndex : Z := 4.
Definition kTheHoleValueRootIndex : Z := 5.
Definition kNullValueRootIndex : Z := 6.
Definition kTrueValueRootIndex : Z := 7.
Definition kFalseValueRootIndex : Z := 8.
Definition kEmptyStringRootIndex : Z := 9.
Definition kNodeClassIdOffset : Z := 1 * kApiSystemPointerSize.
Definition kNodeFlagsOffset : Z := 1 * kApiSystemPointerSize + 3.
Definition kNodeStateMask : Z := 0x7.
Definition kNodeStateIsWeakValue : Z := 2.
Definition kNodeStateIsPendingValue : Z := 3.
Definition kFirstNonstringType : Z := 0x80.
Definition kOddballType : Z := 0x83.
Definition kForeignType : Z := 0xcc.
Definition kJSSpecialApiObjectType : Z := 0x410.
Definition kJSObjectType : Z := 0x421.
Definition kFirstJSApiObjectType : Z := 0x422.
Definition kLastJSApiObjectType : Z := 0x80A.
Definition kUndefinedOddballKind : Z := 5.
Definition kNullOddballKind : Z := 3.
Definition kThrowOnError : Z := 0.
Definition kDontThrow : Z := 1.
Definition kInferShouldThrowMode : Z := 2.
Definition kExternalAllocationSoftLimit : Z := 64 * 1024 * 1024.
Definition kMapWordMetadataMask : Z := Z.shiftl 0xffff 48.
Definition kMapWordSignature : Z := 2.
Definition kMapWordXorMask : Z := 3.
End layout.

(** ** Class [Internals]: the functions *)

Section internals.
Context `{!V8Config}.

(** [sizeof] of a pointer as a number of bytes to access. *)
Definition ptr_bytes : nat := Z.to_nat sizeof_ptr.
(** Arithmetic on [Address]. *)
Definition addr_add (a b : Z) : Z := to_unsigned ptr_bits (a + b).

Definition UnpackMapWord (mapword : Z) : Z := Z.lxor mapword kMapWordXorMask.

Definition HasHeapObjectTag (value : Z) : bool := Z.land value kHeapObjectTagMask =? kHeapObjectTag.
Definition SmiValue (value : Z) : Z := SmiToInt PlatformSmiTagging value.
Definition IsValidSmi (value : Z) : bool := SmiTagging_IsValidSmi PlatformSmiTagging value.

(** [ReadRawField<uintN_t>], with [N] eight times [n]: the two ways of reading
    it (unaligned for wide fields of a compressed heap) read the same bytes. *)
Definition ReadRawField (n : nat) (heap_object_ptr offset : Z) : mem Z :=
  load_word n (addr_add (addr_add heap_object_ptr offset) (- kHeapObjectTag)).

Definition GetPtrComprCageBaseFromOnHeapAddress (a : Z) : Z :=
  Z.land a (to_unsigned ptr_bits (- kPtrComprCageBaseAlignment)).
Definition DecompressTaggedAnyField (heap_object_ptr value : Z) : Z :=
  addr_add (GetPtrComprCageBaseFromOnHeapAddress heap_object_ptr) value.

Definition ReadTaggedPointerField (heap_object_ptr offset : Z) : mem Z :=
  if V8_COMPRESS_POINTERS then
    value ← ReadRawField 4 heap_object_ptr offset;
    mret (addr_add (GetPtrComprCageBaseFromOnHeapAddress heap_object_ptr) value)
  else ReadRawField ptr_bytes heap_object_ptr offset.
Definition ReadTaggedSignedField (heap_object_ptr offset : Z) : mem Z :=
  if V8_COMPRESS_POINTERS then ReadRawField 4 heap_object_ptr offset
  else ReadRawField ptr_bytes heap_object_ptr offset.

Definition GetInstanceType (obj : Z) : mem Z :=
  map ← ReadTaggedPointerField obj kHeapObjectMapOffset;
  let map := if V8_MAP_PACKING then UnpackMapWord map else map in
  ReadRawField 2 map kMapInstanceTypeOffset.
Definition GetOddballKind (obj : Z) : mem Z :=
  k ← ReadTaggedSignedField obj kOddballKindOffset; mret (SmiValue k).
Definition IsExternalTwoByteString (instance_type : Z) : bool :=
  Z.land instance_type kStringRepresentationAndEncodingMask =? kExternalTwoByteRepresentationTag.

(** The flags byte of a global handle node. *)
Definition GetNodeFlag (obj shift : Z) : mem Z :=
  b ← load_word 1 (addr_add obj kNodeFlagsOffset);
  mret (Z.land b (to_unsigned 8 (Z.shiftl 1 shift))).
Definition UpdateNodeFlag (obj : Z) (value : bool) (shift : Z) : mem unit :=
  let mask := to_unsigned 8 (Z.shiftl 1 shift) in
  b ← load_word 1 (addr_add obj kNodeFlagsOffset);
  store_word 1 (addr_add obj kNodeFlagsOffset)
    (to_unsigned 8 (Z.lor (Z.land b (Z.lnot mask)) (Z.shiftl (Z.b2z value) shift))).
Definition GetNodeState (obj : Z) : mem Z :=
  b ← load_word 1 (addr_add obj kNodeFlagsOffset);
  mret (Z.land b kNodeStateMask).
Definition UpdateNodeState (obj value : Z) : mem unit :=
  b ← load_word 1 (addr_add obj kNodeFlagsOffset);
  store_word 1 (addr_add obj kNodeFlagsOffset)
    (to_unsigned 8 (Z.lor (Z.land b (Z.lnot kNodeStateMask)) value)).

(** The embedder's slots, the statistics counter and the roots of an isolate. *)
Definition SetEmbedderData (isolate slot data : Z) : mem unit :=
  store_word ptr_bytes (addr_add (addr_add isolate kIsolateEmbedderDataOffset) (to_unsigned 32 (slot * kApiSystemPointerSize))) data.
Definition GetEmbedderData (isolate slot : Z) : mem Z :=
  load_word ptr_bytes (addr_add (addr_add isolate kIsolateEmbedderDataOffset) (to_unsigned 32 (slot * kApiSystemPointerSize))).
Definition IncrementLongTasksStatsCounter (isolate : Z) : mem unit :=
  let a := addr_add isolate kIsolateLongTaskStatsCounterOffset in
  c ← load_word ptr_bytes a;
  store_word ptr_bytes a (to_unsigned ptr_bits (c + 1)).
Definition GetRoot (isolate index : Z) : Z :=
  addr_add (addr_add isolate kIsolateRootsOffset) (index * kApiSystemPointerSize).

End internals.

(** ** The library

    The functions the headers declare and the engine's library defines. They
    are not in the repository: every definition that calls one takes it from
    this interface. *)
Class V8Library := {
  number : Type;                                      (* double *)
  CheckInitializedImpl : Z → mem unit;
  IsolateFromNeverReadOnlySpaceObject : Z → mem Z;
  DecodeExternalPointerImpl : Z → Z → ExternalPointerTag → mem Z;
  lib_ShouldThrowOnError : Z → mem bool;
  CanHaveInternalField : Z → mem bool;
  CreateHandle : Z → Z → mem Z;                       (* HandleScope::CreateHandle *)
  EscapeSlot : Z → Z → mem Z;                         (* EscapableHandleScope::Escape *)
  ToLocalEmpty : mem unit;
  FullIsUndefined : Z → mem bool;
  FullIsNull : Z → mem bool;
  FullIsString : Z → mem bool;
  SlowGetInternalField : Z → Z → mem Z;
  SlowGetAlignedPointerFromInternalField : Z → Z → mem Z;
  SlowGetEmbedderData : Z → Z → mem Z;
  SlowGetAlignedPointerFromEmbedderData : Z → Z → mem Z;
  GetExternalStringResourceSlow : Z → mem Z;
  VerifyExternalStringResource : Z → mem unit;
  GetExternalStringResourceBaseSlow : Z → Z → mem Z;
  VerifyExternalStringResourceBase : Z → Z → mem unit;
  Number_New : Z → number → mem Z;
  Integer_New : Z → Z → mem Z;
  Integer_NewFromUnsigned : Z → Z → mem Z;
  Eternalize : Z → Z → mem Z;
  GlobalizeReference : Z → Z → mem Z;
  CopyGlobalReference : Z → mem Z;
  DisposeGlobal : Z → mem unit;
  MoveGlobalReference : Z → Z → mem unit;
  MakeWeak : Z → Z → Z → Z → mem unit;                (* location, data, callback, type *)
  MakeWeakPhantom : Z → mem unit;                     (* MakeWeak(Address ** ) *)
  lib_ClearWeak : Z → mem Z;
  lib_AnnotateStrongRetainer : Z → Z → mem unit;
  GlobalizeTracedReference : Z → Z → Z → bool → mem Z; (* true: kInitializingStore *)
  MoveTracedReference : Z → Z → mem unit;
  CopyTracedReference : Z → Z → mem unit;
  DisposeTracedReference : Z → mem unit;
  TracedReferenceBase_CheckValue : Z → mem unit;
  InternalFieldCount : Z → mem Z;
  SetAlignedPointerInInternalField : Z → Z → Z → mem unit;
  Isolate_GetCurrent : mem Z;
}.

Section library_calls.
Context `{!V8Config, !V8Library}.

Definition CheckInitialized (isolate : Z) : mem unit :=
  if V8_ENABLE_CHECKS then CheckInitializedImpl isolate else mret tt.
Definition GetIsolateForSandbox (obj : Z) : mem Z :=
  if V8_SANDBOXED_EXTERNAL_POINTERS then IsolateFromNeverReadOnlySpaceObject obj else mret 0.
Definition DecodeExternalPointer (isolate encoded_pointer : Z) (tag : ExternalPointerTag) : mem Z :=
  if V8_SANDBOXED_EXTERNAL_POINTERS then DecodeExternalPointerImpl isolate encoded_pointer tag
  else mret encoded_pointer.
Definition ReadExternalPointerField (isolate heap_object_ptr offset : Z) (tag : ExternalPointerTag) : mem Z :=
  if V8_SANDBOXED_EXTERNAL_POINTERS then
    encoded_value ← ReadRawField 4 heap_object_ptr offset;
    if encoded_value =? 0 then mret 0 else DecodeExternalPointer isolate encoded_value tag
  else ReadRawField ptr_bytes heap_object_ptr offset.
End library_calls.
