(* ===== verification/V8Value.v ===== *)
(** * Values, roots, internal fields and embedder data

    The inline functions of [v8-value.h], [v8-primitive.h], [v8-object.h],
    [v8-context.h], [v8-isolate.h] and the options of [v8-message.h]. A [Value*]
    is the address of a handle slot, which holds the tagged pointer. *)

From S2P Require Import Prelude HeapLogic ByteMemory V8Internal.
Local Open Scope Z_scope.

Section values.
Context `{!V8Config, !V8Library}.

(** ** [v8-value.h] *)

Definition QuickIsOddball (kinds : list Z) (this : Z) : mem bool :=
  obj ← load_word ptr_bytes this;
  if negb (HasHeapObjectTag obj) then mret false else
  type ← GetInstanceType obj;
  if negb (type =? kOddballType) then mret false else
  kind ← GetOddballKind obj;
  mret (existsb (Z.eqb kind) kinds).
Definition Value_QuickIsUndefined : Z → mem bool := QuickIsOddball [kUndefinedOddballKind].
Definition Value_QuickIsNull : Z → mem bool := QuickIsOddball [kNullOddballKind].
Definition Value_QuickIsNullOrUndefined : Z → mem bool :=
  QuickIsOddball [kNullOddballKind; kUndefinedOddballKind].
Definition Value_QuickIsString (this : Z) : mem bool :=
  obj ← load_word ptr_bytes this;
  if negb (HasHeapObjectTag obj) then mret false else
  type ← GetInstanceType obj;
  mret (type <? kFirstNonstringType).

Definition Value_IsUndefined (this : Z) : mem bool :=
  if V8_ENABLE_CHECKS then FullIsUndefined this else Value_QuickIsUndefined this.
Definition Value_IsNull (this : Z) : mem bool :=
  if V8_ENABLE_CHECKS then FullIsNull this else Value_QuickIsNull this.
Definition Value_IsNullOrUndefined (this : Z) : mem bool :=
  if V8_ENABLE_CHECKS then
    n ← FullIsNull this;
    if n : bool then mret true else FullIsUndefined this
  else Value_QuickIsNullOrUndefined this.
Definition Value_IsString (this : Z) : mem bool :=
  if V8_ENABLE_CHECKS then FullIsString this else Value_QuickIsString this.

(** ** [v8-primitive.h]: the roots, as handles to their slots *)

Definition root_handle (index isolate : Z) : mem Z :=
  CheckInitialized isolate;;
  mret (GetRoot isolate index).
Definition String_Empty : Z → mem Z := root_handle kEmptyStringRootIndex.
Definition Undefined : Z → mem Z := root_handle kUndefinedValueRootIndex.
Definition Null : Z → mem Z := root_handle kNullValueRootIndex.
Definition True_ : Z → mem Z := root_handle kTrueValueRootIndex.
Definition False_ : Z → mem Z := root_handle kFalseValueRootIndex.
Definition Boolean_New (isolate : Z) (value : bool) : mem Z :=
  if value then True_ isolate else False_ isolate.

Definition String_GetExternalStringResource (this : Z) : mem Z :=
  obj ← load_word ptr_bytes this;
  type ← GetInstanceType obj;
  result ← (if IsExternalTwoByteString type then
              isolate ← GetIsolateForSandbox obj;
              ReadExternalPointerField isolate obj kStringResourceOffset kExternalStringResourceTag
            else GetExternalStringResourceSlow this);
  (if V8_ENABLE_CHECKS then VerifyExternalStringResource result else mret tt);;
  mret result.

(** The encoding goes to [*encoding_out], an [enum] of four bytes. *)
Definition String_GetExternalStringResourceBase (this encoding_out : Z) : mem Z :=
  obj ← load_word ptr_bytes this;
  instance_type ← GetInstanceType obj;
  let type := Z.land instance_type kStringRepresentationAndEncodingMask in
  store_word 4 encoding_out (Z.land type kStringEncodingMask);;
  resource ← (if (type =? kExternalOneByteRepresentationTag) || (type =? kExternalTwoByteRepresentationTag) then
                isolate ← GetIsolateForSandbox obj;
                ReadExternalPointerField isolate obj kStringResourceOffset kExternalStringResourceTag
              else GetExternalStringResourceBaseSlow this encoding_out);
  (if V8_ENABLE_CHECKS then
     encoding ← load_word 4 encoding_out; VerifyExternalStringResourceBase resource encoding
   else mret tt);;
  mret resource.

(** ** [v8-object.h]: internal fields *)

Definition Object_GetInternalField (this index : Z) : mem Z :=
  if V8_ENABLE_CHECKS then SlowGetInternalField this index else
  obj ← load_word ptr_bytes this;
  instance_type ← GetInstanceType obj;
  fast ← CanHaveInternalField instance_type;
  if fast : bool then
    let offset := kJSObjectHeaderSize + kEmbedderDataSlotSize * index in
    value ← ReadRawField ptr_bytes obj offset;
    let value := if V8_COMPRESS_POINTERS then DecompressTaggedAnyField obj (to_unsigned 32 value)
                 else value in
    isolate ← IsolateFromNeverReadOnlySpaceObject obj;
    CreateHandle isolate value
  else SlowGetInternalField this index.

Definition Object_GetAlignedPointerFromInternalField (this index : Z) : mem Z :=
  if V8_ENABLE_CHECKS then SlowGetAlignedPointerFromInternalField this index else
  obj ← load_word ptr_bytes this;
  instance_type ← GetInstanceType obj;
  fast ← CanHaveInternalField instance_type;
  if fast : bool then
    let offset := kJSObjectHeaderSize + kEmbedderDataSlotSize * index in
    let offset := if V8_SANDBOXED_EXTERNAL_POINTERS then offset + kEmbedderDataSlotRawPayloadOffset
                  else offset in
    isolate ← GetIsolateForSandbox obj;
    ReadExternalPointerField isolate obj offset kEmbedderDataSlotPayloadTag
  else SlowGetAlignedPointerFromInternalField this index.

(** ** [v8-context.h]: embedder data *)

Definition Context_GetEmbedderData (this index : Z) : mem Z :=
  if V8_ENABLE_CHECKS then SlowGetEmbedderData this index else
  ctx ← load_word ptr_bytes this;
  embedder_data ← ReadTaggedPointerField ctx kNativeContextEmbedderDataOffset;
  let value_offset := kEmbedderDataArrayHeaderSize + kEmbedderDataSlotSize * index in
  value ← ReadRawField ptr_bytes embedder_data value_offset;
  let value := if V8_COMPRESS_POINTERS then DecompressTaggedAnyField embedder_data (to_unsigned 32 value)
               else value in
  ctx ← load_word ptr_bytes this;
  isolate ← IsolateFromNeverReadOnlySpaceObject ctx;
  CreateHandle isolate value.

Definition Context_GetAlignedPointerFromEmbedderData (this index : Z) : mem Z :=
  if V8_ENABLE_CHECKS then SlowGetAlignedPointerFromEmbedderData this index else
  ctx ← load_word ptr_bytes this;
  embedder_data ← ReadTaggedPointerField ctx kNativeContextEmbedderDataOffset;
  let value_offset := kEmbedderDataArrayHeaderSize + kEmbedderDataSlotSize * index in
  let value_offset := if V8_SANDBOXED_EXTERNAL_POINTERS
                      then value_offset + kEmbedderDataSlotRawPayloadOffset else value_offset in
  isolate ← GetIsolateForSandbox ctx;
  ReadExternalPointerField isolate embedder_data value_offset kEmbedderDataSlotPayloadTag.

(** ** [v8-isolate.h]: the embedder's slots *)

Definition Isolate_SetData (this slot data : Z) : mem unit := SetEmbedderData this slot data.
Definition Isolate_GetData (this slot : Z) : mem Z := GetEmbedderData this slot.
Definition Isolate_GetNumberOfDataSlots : Z := kNumIsolateDataSlots.
End values.

(** ** [v8-message.h]: the flags of a script's origin *)

Definition kIsSharedCrossOrigin : Z := 1.
Definition kIsOpaque : Z := Z.shiftl 1 1.
Definition kIsWasm : Z := Z.shiftl 1 2.
Definition kIsModule : Z := Z.shiftl 1 3.
Record ScriptOriginOptions := { flags_ : Z }.
Definition ScriptOriginOptions_of_bools (is_shared_cross_origin is_opaque is_wasm is_module : bool) :
    ScriptOriginOptions := {|
  flags_ := Z.lor (Z.lor (Z.lor (if is_shared_cross_origin then kIsSharedCrossOrigin else 0)
                                (if is_wasm then kIsWasm else 0))
                         (if is_opaque then kIsOpaque else 0))
                  (if is_module then kIsModule else 0) |}.
Definition ScriptOriginOptions_of_flags (flags : Z) : ScriptOriginOptions := {|
  flags_ := Z.land flags (Z.lor (Z.lor (Z.lor kIsSharedCrossOrigin kIsOpaque) kIsWasm) kIsModule) |}.
Definition IsSharedCrossOrigin (o : ScriptOriginOptions) : bool :=
  negb (Z.land (flags_ o) kIsSharedCrossOrigin =? 0).
Definition IsOpaque (o : ScriptOriginOptions) : bool := negb (Z.land (flags_ o) kIsOpaque =? 0).
Definition IsWasm (o : ScriptOriginOptions) : bool := negb (Z.land (flags_ o) kIsWasm =? 0).
Definition IsModule (o : ScriptOriginOptions) : bool := negb (Z.land (flags_ o) kIsModule =? 0).
Definition Flags (o : ScriptOriginOptions) : Z := flags_ o.

Record ScriptOrigin := {
  isolate_ : Z;
  resource_name_ : Z;
  resource_line_offset_ : Z;
  resource_column_offset_ : Z;
  options_ : ScriptOriginOptions;
  script_id_ : Z;
  source_map_url_ : Z;
  host_defined_options_ : Z;
}.
(** The constructor calls [VerifyHostDefinedOptions], a function of the library;
    the defaults of its optional arguments are in [ScriptOrigin_default]. *)
Section script_origin.
Context (VerifyHostDefinedOptions : ScriptOrigin → mem unit).

Definition ScriptOrigin_new (isolate resource_name resource_line_offset resource_column_offset : Z)
    (resource_is_shared_cross_origin : bool) (script_id source_map_url : Z)
    (resource_is_opaque is_wasm is_module : bool) (host_defined_options : Z) : mem ScriptOrigin :=
  let this := {|
    isolate_ := isolate;
    resource_name_ := resource_name;
    resource_line_offset_ := resource_line_offset;
    resource_column_offset_ := resource_column_offset;
    options_ := ScriptOriginOptions_of_bools resource_is_shared_cross_origin resource_is_opaque
                  is_wasm is_module;
    script_id_ := script_id;
    source_map_url_ := source_map_url;
    host_defined_options_ := host_defined_options |} in
  VerifyHostDefinedOptions this;;
  mret this.
Definition ScriptOrigin_default (isolate resource_name : Z) : mem ScriptOrigin :=
  ScriptOrigin_new isolate resource_name 0 0 false (-1) 0 false false false 0.
End script_origin.

(** The accessors, which the header defines after class [Message]. *)
Definition ScriptOrigin_ResourceName (o : ScriptOrigin) : Z := resource_name_ o.
Definition ScriptOrigin_LineOffset (o : ScriptOrigin) : Z := resource_line_offset_ o.
Definition ScriptOrigin_ColumnOffset (o : ScriptOrigin) : Z := resource_column_offset_ o.
Definition ScriptOrigin_ScriptId (o : ScriptOrigin) : Z := script_id_ o.
Definition ScriptOrigin_SourceMapUrl (o : ScriptOrigin) : Z := source_map_url_ o.
Definition ScriptOrigin_GetHostDefinedOptions (o : ScriptOrigin) : Z := host_defined_options_ o.
Definition ScriptOrigin_Options (o : ScriptOrigin) : ScriptOriginOptions := options_ o.
