(* ===== verification/V8Handles.v ===== *)
(** * Handles

    [v8-local-handle.h], [v8-persistent-handle.h], [v8-traced-handle.h] and
    [v8-weak-callback-info.h]. A local handle is a value, the address of its
    slot (zero when empty); a persistent or traced handle is a C++ object in
    memory, given by the address of its [val_], because its operations change
    it and because two of them may be the same object. *)

From S2P Require Import Prelude HeapLogic ByteMemory V8Internal.
Local Open Scope Z_scope.

Section handles.
Context `{!V8Config, !V8Library}.

(** Two handles refer to the same object: the comparison all handle classes
    share, on the values of their [val_]. *)
Definition slots_equal (a b : Z) : mem bool :=
  if a =? 0 then mret (b =? 0)
  else if b =? 0 then mret false
  else x ← load_word ptr_bytes a; y ← load_word ptr_bytes b; mret (x =? y).

(** ** Local handles *)

Definition Local_empty : Z := 0.
Definition Local_IsEmpty (val_ : Z) : bool := val_ =? 0.
Definition Local_Clear : Z := 0.
(** The conversion from a handle to a subclass, and [Cast] without checks, keep
    the slot. *)
Definition Local_of_Local (that : Z) : Z := that.
Definition Local_eq (this that : Z) : mem bool := slots_equal this that.
Definition Local_ne (this that : Z) : mem bool := b ← Local_eq this that; mret (negb b).
Definition Local_eq_Persistent (this that : Z) : mem bool :=
  b ← load_word ptr_bytes that; slots_equal this b.
Definition Local_ne_Persistent (this that : Z) : mem bool :=
  b ← Local_eq_Persistent this that; mret (negb b).
(** [Local<T>::New(isolate, T* that)], and from the other kinds of handles. *)
Definition Local_New (isolate that : Z) : mem Z :=
  if that =? 0 then mret Local_empty else
  v ← load_word ptr_bytes that;
  CreateHandle isolate v.
Definition Local_New_Local (isolate that : Z) : mem Z := Local_New isolate that.
Definition Local_New_Persistent (isolate that : Z) : mem Z :=
  v ← load_word ptr_bytes that; Local_New isolate v.
Definition BasicTracedReference_deref (this : Z) : mem Z :=
  (if V8_ENABLE_CHECKS then TracedReferenceBase_CheckValue this else mret tt);;
  load_word ptr_bytes this.
Definition Local_New_Traced (isolate that : Z) : mem Z :=
  v ← BasicTracedReference_deref that; Local_New isolate v.

(** [MaybeLocal] has the representation of a local handle. [out] is the address
    of the caller's [Local]. *)
Definition MaybeLocal_IsEmpty (val_ : Z) : bool := val_ =? 0.
Definition MaybeLocal_ToLocal (val_ out : Z) : mem bool :=
  store_word ptr_bytes out (if MaybeLocal_IsEmpty val_ then 0 else val_);;
  mret (negb (MaybeLocal_IsEmpty val_)).
Definition MaybeLocal_ToLocalChecked (val_ : Z) : mem Z :=
  (if val_ =? 0 then ToLocalEmpty else mret tt);;
  mret val_.
Definition MaybeLocal_FromMaybe (val_ default_value : Z) : Z :=
  if MaybeLocal_IsEmpty val_ then default_value else val_.

Definition EscapableHandleScope_Escape (this value : Z) : mem Z := EscapeSlot this value.
Definition EscapableHandleScope_EscapeMaybe (this value : Z) : mem Z :=
  EscapableHandleScope_Escape this (MaybeLocal_FromMaybe value Local_empty).

(** ** Eternal handles *)

Definition Eternal_init (this : Z) : mem unit := store_word ptr_bytes this 0.
Definition Eternal_Set (this isolate handle : Z) : mem unit :=
  v ← Eternalize isolate handle; store_word ptr_bytes this v.
Definition Eternal_new (this isolate handle : Z) : mem unit :=
  Eternal_init this;; Eternal_Set this isolate handle.
Definition Eternal_Get (this isolate : Z) : mem Z := load_word ptr_bytes this.
Definition Eternal_IsEmpty (this : Z) : mem bool := v ← load_word ptr_bytes this; mret (v =? 0).

(** ** Persistent handles *)

Definition PersistentBase_IsEmpty (this : Z) : mem bool := v ← load_word ptr_bytes this; mret (v =? 0).
Definition PersistentBase_Empty (this : Z) : mem unit := store_word ptr_bytes this 0.
Definition PersistentBase_Get (this isolate : Z) : mem Z := Local_New_Persistent isolate this.
Definition PersistentBase_eq (this that : Z) : mem bool :=
  a ← load_word ptr_bytes this; b ← load_word ptr_bytes that; slots_equal a b.
Definition PersistentBase_eq_Local (this that : Z) : mem bool :=
  a ← load_word ptr_bytes this; slots_equal a that.
Definition PersistentBase_ne (this that : Z) : mem bool :=
  b ← PersistentBase_eq this that; mret (negb b).
Definition PersistentBase_ne_Local (this that : Z) : mem bool :=
  b ← PersistentBase_eq_Local this that; mret (negb b).

Definition PersistentBase_New (isolate that : Z) : mem Z :=
  if that =? 0 then mret 0 else GlobalizeReference isolate that.

Definition PersistentBase_Reset (this : Z) : mem unit :=
  empty ← PersistentBase_IsEmpty this;
  if empty : bool then mret tt else
  v ← load_word ptr_bytes this;
  DisposeGlobal v;;
  store_word ptr_bytes this 0.
Definition PersistentBase_Reset_Local (this isolate other : Z) : mem unit :=
  PersistentBase_Reset this;;
  if Local_IsEmpty other then mret tt else
  v ← PersistentBase_New isolate other;
  store_word ptr_bytes this v.
Definition PersistentBase_Reset_Persistent (this isolate other : Z) : mem unit :=
  PersistentBase_Reset this;;
  empty ← PersistentBase_IsEmpty other;
  if empty : bool then mret tt else
  o ← load_word ptr_bytes other;
  v ← PersistentBase_New isolate o;
  store_word ptr_bytes this v.

Definition PersistentBase_IsWeak (this : Z) : mem bool :=
  empty ← PersistentBase_IsEmpty this;
  if empty : bool then mret false else
  v ← load_word ptr_bytes this;
  s ← GetNodeState v;
  mret (s =? kNodeStateIsWeakValue).
Definition PersistentBase_SetWeak (this parameter callback type : Z) : mem unit :=
  v ← load_word ptr_bytes this; MakeWeak v parameter callback type.
Definition PersistentBase_SetWeak_phantom (this : Z) : mem unit := MakeWeakPhantom this.
Definition PersistentBase_ClearWeak (this : Z) : mem Z :=
  v ← load_word ptr_bytes this; lib_ClearWeak v.
Definition PersistentBase_AnnotateStrongRetainer (this label : Z) : mem unit :=
  v ← load_word ptr_bytes this; lib_AnnotateStrongRetainer v label.
Definition PersistentBase_SetWrapperClassId (this class_id : Z) : mem unit :=
  empty ← PersistentBase_IsEmpty this;
  if empty : bool then mret tt else
  obj ← load_word ptr_bytes this;
  store_word 2 (addr_add obj kNodeClassIdOffset) class_id.
Definition PersistentBase_WrapperClassId (this : Z) : mem Z :=
  empty ← PersistentBase_IsEmpty this;
  if empty : bool then mret 0 else
  obj ← load_word ptr_bytes this;
  load_word 2 (addr_add obj kNodeClassIdOffset).

(** The traits of [Persistent]: whether the destructor resets the handle. The
    [Copy] hook of the copyable traits does nothing; that of the others does
    not compile. *)
Definition NonCopyablePersistentTraits_kResetInDestructor : bool := false.
Definition CopyablePersistentTraits_kResetInDestructor : bool := true.

Definition Persistent_init (this : Z) : mem unit := store_word ptr_bytes this 0.
Definition Persistent_of_Local (this isolate that : Z) : mem unit :=
  v ← PersistentBase_New isolate that; store_word ptr_bytes this v.
Definition Persistent_of_Persistent (this isolate that : Z) : mem unit :=
  t ← load_word ptr_bytes that;
  v ← PersistentBase_New isolate t; store_word ptr_bytes this v.
(** [Persistent::Copy], with the copyable traits. *)
Definition Persistent_Copy (this that : Z) : mem unit :=
  PersistentBase_Reset this;;
  empty ← PersistentBase_IsEmpty that;
  if empty : bool then mret tt else
  p ← load_word ptr_bytes that;
  v ← CopyGlobalReference p;
  store_word ptr_bytes this v.
Definition Persistent_copy_new (this that : Z) : mem unit :=
  Persistent_init this;; Persistent_Copy this that.
Definition Persistent_assign (this that : Z) : mem unit := Persistent_Copy this that.
Definition Persistent_destroy (kResetInDestructor : bool) (this : Z) : mem unit :=
  if kResetInDestructor then PersistentBase_Reset this else mret tt.

(** ** Global handles *)

Definition Global_init (this : Z) : mem unit := store_word ptr_bytes this 0.
Definition Global_of_Local (this isolate that : Z) : mem unit :=
  v ← PersistentBase_New isolate that; store_word ptr_bytes this v.
Definition Global_of_Persistent (this isolate that : Z) : mem unit :=
  t ← load_word ptr_bytes that;
  v ← PersistentBase_New isolate t; store_word ptr_bytes this v.
Definition Global_move_new (this other : Z) : mem unit :=
  o ← load_word ptr_bytes other;
  store_word ptr_bytes this o;;
  o ← load_word ptr_bytes other;
  if negb (o =? 0) then
    MoveGlobalReference other this;;
    store_word ptr_bytes other 0
  else mret tt.
Definition Global_destroy (this : Z) : mem unit := PersistentBase_Reset this.
Definition Global_move_assign (this rhs : Z) : mem unit :=
  if negb (this =? rhs) then
    PersistentBase_Reset this;;
    r ← load_word ptr_bytes rhs;
    if negb (r =? 0) then
      r ← load_word ptr_bytes rhs;
      store_word ptr_bytes this r;;
      MoveGlobalReference rhs this;;
      store_word ptr_bytes rhs 0
    else mret tt
  else mret tt.

(** ** Traced handles *)

Definition TracedReferenceBase_IsEmpty (this : Z) : mem bool := v ← load_word ptr_bytes this; mret (v =? 0).
(** The thread-safe accesses are relaxed atomic ones of the same slot. *)
Definition TracedReferenceBase_SetSlotThreadSafe (this new_val : Z) : mem unit :=
  store_word ptr_bytes this new_val.
Definition TracedReferenceBase_GetSlotThreadSafe (this : Z) : mem Z := load_word ptr_bytes this.
Definition TracedReferenceBase_IsEmptyThreadSafe (this : Z) : mem bool :=
  v ← TracedReferenceBase_GetSlotThreadSafe this; mret (v =? 0).
Definition TracedReferenceBase_Reset (this : Z) : mem unit :=
  empty ← TracedReferenceBase_IsEmpty this;
  if empty : bool then mret tt else
  v ← load_word ptr_bytes this;
  DisposeTracedReference v;;
  TracedReferenceBase_SetSlotThreadSafe this 0.
Definition TracedReferenceBase_Get (this isolate : Z) : mem Z :=
  empty ← TracedReferenceBase_IsEmpty this;
  if empty : bool then mret Local_empty else
  v ← load_word ptr_bytes this; Local_New isolate v.
Definition TracedReferenceBase_SetWrapperClassId (this class_id : Z) : mem unit :=
  empty ← TracedReferenceBase_IsEmpty this;
  if empty : bool then mret tt else
  obj ← load_word ptr_bytes this;
  store_word 2 (addr_add obj kNodeClassIdOffset) class_id.
Definition TracedReferenceBase_WrapperClassId (this : Z) : mem Z :=
  empty ← TracedReferenceBase_IsEmpty this;
  if empty : bool then mret 0 else
  obj ← load_word ptr_bytes this;
  load_word 2 (addr_add obj kNodeClassIdOffset).
Definition TracedReferenceBase_eq (lhs rhs : Z) : mem bool :=
  a ← load_word ptr_bytes lhs; b ← load_word ptr_bytes rhs; slots_equal a b.
Definition TracedReferenceBase_eq_Local (lhs rhs : Z) : mem bool :=
  a ← load_word ptr_bytes lhs; slots_equal a rhs.
Definition TracedReferenceBase_ne (lhs rhs : Z) : mem bool :=
  b ← TracedReferenceBase_eq lhs rhs; mret (negb b).
Definition TracedReferenceBase_ne_Local (lhs rhs : Z) : mem bool :=
  b ← TracedReferenceBase_eq_Local lhs rhs; mret (negb b).
Definition BasicTracedReference_Get (this isolate : Z) : mem Z := Local_New_Traced isolate this.
Definition BasicTracedReference_New (isolate that slot : Z) (initializing : bool) : mem Z :=
  if that =? 0 then mret 0 else GlobalizeTracedReference isolate that slot initializing.

Definition TracedReference_init (this : Z) : mem unit := store_word ptr_bytes this 0.
Definition TracedReference_of_Local (this isolate that : Z) : mem unit :=
  TracedReference_init this;;
  v ← BasicTracedReference_New isolate that this true;
  store_word ptr_bytes this v.
Definition TracedReference_Reset_Local (this isolate other : Z) : mem unit :=
  TracedReferenceBase_Reset this;;
  if Local_IsEmpty other then mret tt else
  v ← BasicTracedReference_New isolate other this false;
  TracedReferenceBase_SetSlotThreadSafe this v.
Definition TracedReference_move_assign (this rhs : Z) : mem unit :=
  if negb (this =? rhs) then MoveTracedReference rhs this else mret tt.
Definition TracedReference_copy_assign (this rhs : Z) : mem unit :=
  if negb (this =? rhs) then
    TracedReferenceBase_Reset this;;
    r ← load_word ptr_bytes rhs;
    if negb (r =? 0) then CopyTracedReference rhs this else mret tt
  else mret tt.
Definition TracedReference_move_new (this other : Z) : mem unit :=
  TracedReference_init this;; TracedReference_move_assign this other.
Definition TracedReference_copy_new (this other : Z) : mem unit :=
  TracedReference_init this;; TracedReference_copy_assign this other.
End handles.

(** ** [v8-weak-callback-info.h] *)

Definition kInternalFieldsInWeakCallback : Z := 2.
Definition kEmbedderFieldsInWeakCallback : Z := 2.
Inductive WeakCallbackType : Type := kParameter | kInternalFields | kFinalizer.
Definition WeakCallbackType_code (t : WeakCallbackType) : Z :=
  match t with kParameter => 0 | kInternalFields => 1 | kFinalizer => 2 end.

Record WeakCallbackInfo := {
  wci_isolate_ : Z;
  wci_parameter_ : Z;
  wci_callback_ : Z;
  wci_embedder_fields_ : list Z;
}.
Definition WeakCallbackInfo_GetIsolate (data : WeakCallbackInfo) : Z := wci_isolate_ data.
Definition WeakCallbackInfo_GetParameter (data : WeakCallbackInfo) : Z := wci_parameter_ data.
(** The constructor copies the fields by a loop over their number. *)
Definition WeakCallbackInfo_new (isolate parameter : Z) (embedder_fields : list Z) (callback : Z) :
    option WeakCallbackInfo :=
  fields ← mapM (λ i, embedder_fields !! i) (seq 0 (Z.to_nat kEmbedderFieldsInWeakCallback));
  Some {| wci_isolate_ := isolate; wci_parameter_ := parameter; wci_callback_ := callback;
          wci_embedder_fields_ := fields |}.
(** Out of bounds: a crash with checks, undefined behaviour without. *)
Definition WeakCallbackInfo_GetInternalField (data : WeakCallbackInfo) (index : Z) : option Z :=
  if (index <? 0) || (index >=? kEmbedderFieldsInWeakCallback) then None
  else wci_embedder_fields_ data !! Z.to_nat index.
Definition WeakCallbackInfo_SetSecondPassCallback `{!V8Config} (data : WeakCallbackInfo) (callback : Z) : mem unit :=
  store_word ptr_bytes (wci_callback_ data) callback.
