(* ===== verification/V8Callback.v ===== *)
(** * [v8-function-callback.h]: return values and callback arguments

    A [ReturnValue] is the address of a slot of the arguments the engine laid
    out on the stack: the default value lies one slot below it, the isolate two
    below. *)

From S2P Require Import Prelude HeapLogic ByteMemory V8Internal V8Value V8Handles.
Local Open Scope Z_scope.

Section callback.
Context `{!V8Config, !V8Library}.

(** [&p[i]] for [Address* p] *)
Definition slot_at (p i : Z) : Z := addr_add p (i * kApiSystemPointerSize).

(** ** [ReturnValue] *)

Definition ReturnValue_GetIsolate (value_ : Z) : mem Z := load_word ptr_bytes (slot_at value_ (-2)).
Definition ReturnValue_GetDefaultValue (value_ : Z) : mem Z := load_word ptr_bytes (slot_at value_ (-1)).
Definition ReturnValue_SetInternal (value_ value : Z) : mem unit := store_word ptr_bytes value_ value.

(** The three setters from a handle differ in how the handle holds its slot;
    here they get the slot's address. *)
Definition ReturnValue_Set_slot (value_ handle : Z) : mem unit :=
  if handle =? 0 then
    d ← ReturnValue_GetDefaultValue value_; store_word ptr_bytes value_ d
  else
    v ← load_word ptr_bytes handle; store_word ptr_bytes value_ v.
Definition ReturnValue_Set_Local (value_ handle : Z) : mem unit := ReturnValue_Set_slot value_ handle.
Definition ReturnValue_Set_Global (value_ handle : Z) : mem unit :=
  h ← load_word ptr_bytes handle; ReturnValue_Set_slot value_ h.
Definition ReturnValue_Set_Traced (value_ handle : Z) : mem unit :=
  h ← load_word ptr_bytes handle; ReturnValue_Set_slot value_ h.

Definition ReturnValue_Set_double (value_ : Z) (i : number) : mem unit :=
  isolate ← ReturnValue_GetIsolate value_;
  h ← Number_New isolate i;
  ReturnValue_Set_Local value_ h.
Definition ReturnValue_Set_int32 (value_ i : Z) : mem unit :=
  if IsValidSmi i then store_word ptr_bytes value_ (IntToSmi i) else
  isolate ← ReturnValue_GetIsolate value_;
  h ← Integer_New isolate i;
  ReturnValue_Set_Local value_ h.
Definition ReturnValue_Set_uint32 (value_ i : Z) : mem unit :=
  let fits_into_int32_t := Z.land i (Z.shiftl 1 31) =? 0 in
  if fits_into_int32_t then ReturnValue_Set_int32 value_ (to_signed 32 i) else
  isolate ← ReturnValue_GetIsolate value_;
  h ← Integer_NewFromUnsigned isolate i;
  ReturnValue_Set_Local value_ h.

Definition ReturnValue_Set_root (root_index value_ : Z) : mem unit :=
  isolate ← ReturnValue_GetIsolate value_;
  r ← load_word ptr_bytes (GetRoot isolate root_index);
  store_word ptr_bytes value_ r.
Definition ReturnValue_Set_bool (value_ : Z) (value : bool) : mem unit :=
  let root_index := if value then kTrueValueRootIndex else kFalseValueRootIndex in
  ReturnValue_Set_root root_index value_.
Definition ReturnValue_SetNull : Z → mem unit := ReturnValue_Set_root kNullValueRootIndex.
Definition ReturnValue_SetUndefined : Z → mem unit := ReturnValue_Set_root kUndefinedValueRootIndex.
Definition ReturnValue_SetEmptyString : Z → mem unit := ReturnValue_Set_root kEmptyStringRootIndex.

Definition ReturnValue_Get (value_ : Z) : mem Z :=
  v ← load_word ptr_bytes value_;
  isolate ← ReturnValue_GetIsolate value_;
  hole ← load_word ptr_bytes (GetRoot isolate kTheHoleValueRootIndex);
  isolate ← ReturnValue_GetIsolate value_;
  if v =? hole then Undefined isolate else Local_New isolate value_.

(** ** [FunctionCallbackInfo] *)

Definition FunctionCallbackInfo_kArgsLength : Z := 6.
Definition FunctionCallbackInfo_kHolderIndex : Z := 0.
Definition FunctionCallbackInfo_kIsolateIndex : Z := 1.
Definition FunctionCallbackInfo_kReturnValueDefaultValueIndex : Z := 2.
Definition FunctionCallbackInfo_kReturnValueIndex : Z := 3.
Definition FunctionCallbackInfo_kDataIndex : Z := 4.
Definition FunctionCallbackInfo_kNewTargetIndex : Z := 5.

Record FunctionCallbackInfo := {
  implicit_args_ : Z;
  values_ : Z;
  length_ : Z;
}.
Implicit Types info : FunctionCallbackInfo.

Definition FunctionCallbackInfo_GetIsolate info : mem Z :=
  load_word ptr_bytes (slot_at (implicit_args_ info) FunctionCallbackInfo_kIsolateIndex).
(** [info[i]]: a handle to the argument, or to undefined out of bounds. *)
Definition FunctionCallbackInfo_index info (i : Z) : mem Z :=
  if (i <? 0) || (length_ info <=? i) then
    isolate ← FunctionCallbackInfo_GetIsolate info; Undefined isolate
  else mret (slot_at (values_ info) i).
Definition FunctionCallbackInfo_This info : Z := slot_at (values_ info) (-1).
Definition FunctionCallbackInfo_Holder info : Z :=
  slot_at (implicit_args_ info) FunctionCallbackInfo_kHolderIndex.
Definition FunctionCallbackInfo_NewTarget info : Z :=
  slot_at (implicit_args_ info) FunctionCallbackInfo_kNewTargetIndex.
Definition FunctionCallbackInfo_Data info : Z :=
  slot_at (implicit_args_ info) FunctionCallbackInfo_kDataIndex.
Definition FunctionCallbackInfo_GetReturnValue info : Z :=
  slot_at (implicit_args_ info) FunctionCallbackInfo_kReturnValueIndex.
Definition FunctionCallbackInfo_IsConstructCall info : mem bool :=
  u ← Value_IsUndefined (FunctionCallbackInfo_NewTarget info); mret (negb u).
Definition FunctionCallbackInfo_Length info : Z := length_ info.

(** ** [PropertyCallbackInfo], given by its [args_] *)

Definition PropertyCallbackInfo_kArgsLength : Z := 7.
Definition PropertyCallbackInfo_kShouldThrowOnErrorIndex : Z := 0.
Definition PropertyCallbackInfo_kHolderIndex : Z := 1.
Definition PropertyCallbackInfo_kIsolateIndex : Z := 2.
Definition PropertyCallbackInfo_kReturnValueDefaultValueIndex : Z := 3.
Definition PropertyCallbackInfo_kReturnValueIndex : Z := 4.
Definition PropertyCallbackInfo_kDataIndex : Z := 5.
Definition PropertyCallbackInfo_kThisIndex : Z := 6.

Definition PropertyCallbackInfo_GetIsolate (args_ : Z) : mem Z :=
  load_word ptr_bytes (slot_at args_ PropertyCallbackInfo_kIsolateIndex).
Definition PropertyCallbackInfo_Data (args_ : Z) : Z := slot_at args_ PropertyCallbackInfo_kDataIndex.
Definition PropertyCallbackInfo_This (args_ : Z) : Z := slot_at args_ PropertyCallbackInfo_kThisIndex.
Definition PropertyCallbackInfo_Holder (args_ : Z) : Z := slot_at args_ PropertyCallbackInfo_kHolderIndex.
Definition PropertyCallbackInfo_GetReturnValue (args_ : Z) : Z :=
  slot_at args_ PropertyCallbackInfo_kReturnValueIndex.
Definition PropertyCallbackInfo_ShouldThrowOnError (args_ : Z) : mem bool :=
  m ← load_word ptr_bytes (slot_at args_ PropertyCallbackInfo_kShouldThrowOnErrorIndex);
  if negb (m =? IntToSmi kInferShouldThrowMode) then
    m ← load_word ptr_bytes (slot_at args_ PropertyCallbackInfo_kShouldThrowOnErrorIndex);
    mret (negb (m =? IntToSmi kDontThrow))
  else
    isolate ← PropertyCallbackInfo_GetIsolate args_;
    lib_ShouldThrowOnError isolate.
End callback.
