(* ===== verification/NodeObjectWrap.v ===== *)
(** * [node_object_wrap.h]: C++ objects tied to JavaScript objects

    [node::ObjectWrap] counts the references that keep its JavaScript object
    alive and makes its persistent handle weak when there are none. An object
    is the address of its memory: [refs_] (an [int]) and [handle_] (a
    [Persistent] of the non-copyable traits). *)

From S2P Require Import Prelude HeapLogic ByteMemory V8Internal V8Value V8Handles.
Local Open Scope Z_scope.

Section object_wrap.
Context `{!V8Config, !V8Library}.
(** The addresses of the two members of the object [this], which the compiler
    lays out, and of the static function [WeakCallback]. *)
Context (refs_ handle_ : Z → Z) (WeakCallback_address : Z).
(** [operator delete] of C++, which releases the memory of an object. *)
Context (operator_delete : Z → mem unit).

Definition persistent (this : Z) : Z := handle_ this.

(** [refs_] is signed: its increment is undefined at [INT_MAX]. *)
Definition read_refs (this : Z) : mem Z := r ← load_word 4 (refs_ this); mret (to_signed 32 r).
Definition write_refs (this r : Z) : mem unit :=
  assert (bool_decide (in_signed 32 r));; store_word 4 (refs_ this) (to_unsigned 32 r).
#[global] Instance in_signed_dec w x : Decision (in_signed w x).
Proof. unfold in_signed. apply _. Defined.

(** The constructor, and that of the member [handle_]. *)
Definition ObjectWrap_new (this : Z) : mem unit :=
  Persistent_init (handle_ this);; write_refs this 0.

Definition ObjectWrap_destroy (this : Z) : mem unit :=
  empty ← PersistentBase_IsEmpty (persistent this);
  (if empty : bool then mret tt else
     _ ← PersistentBase_ClearWeak (persistent this);
     PersistentBase_Reset (persistent this));;
  Persistent_destroy NonCopyablePersistentTraits_kResetInDestructor (handle_ this).

Definition ObjectWrap_MakeWeak (this : Z) : mem unit :=
  PersistentBase_SetWeak (persistent this) this WeakCallback_address (WeakCallbackType_code kParameter).

Definition ObjectWrap_Wrap (this handle : Z) : mem unit :=
  empty ← PersistentBase_IsEmpty (persistent this);
  assert empty;;
  n ← InternalFieldCount handle;
  assert (n >? 0);;
  SetAlignedPointerInInternalField handle 0 this;;
  isolate ← Isolate_GetCurrent;
  PersistentBase_Reset_Local (persistent this) isolate handle;;
  ObjectWrap_MakeWeak this.

Definition ObjectWrap_handle (this isolate : Z) : mem Z := Local_New_Persistent isolate (persistent this).
Definition ObjectWrap_handle_current (this : Z) : mem Z :=
  isolate ← Isolate_GetCurrent; ObjectWrap_handle this isolate.

(** The object's address, from the internal field of its handle. *)
Definition ObjectWrap_Unwrap (handle : Z) : mem Z :=
  assert (negb (Local_IsEmpty handle));;
  n ← InternalFieldCount handle;
  assert (n >? 0);;
  Object_GetAlignedPointerFromInternalField handle 0.

Definition ObjectWrap_Ref (this : Z) : mem unit :=
  empty ← PersistentBase_IsEmpty (persistent this);
  assert (negb empty);;
  _ ← PersistentBase_ClearWeak (persistent this);
  r ← read_refs this;
  write_refs this (r + 1).

Definition ObjectWrap_Unref (this : Z) : mem unit :=
  empty ← PersistentBase_IsEmpty (persistent this);
  assert (negb empty);;
  weak ← PersistentBase_IsWeak (persistent this);
  assert (negb weak);;
  r ← read_refs this;
  assert (r >? 0);;
  write_refs this (r - 1);;
  r ← read_refs this;
  if r =? 0 then ObjectWrap_MakeWeak this else mret tt.

(** [delete wrap] runs the destructor and releases the memory; the destructor is
    virtual, and that of a class derived from this one would run before it. *)
Definition ObjectWrap_delete (wrap : Z) : mem unit := ObjectWrap_destroy wrap;; operator_delete wrap.

(** The weak callback: the garbage collector found the object unreachable. *)
Definition ObjectWrap_WeakCallback (data : WeakCallbackInfo) : mem unit :=
  let wrap := WeakCallbackInfo_GetParameter data in
  r ← read_refs wrap;
  assert (r =? 0);;
  PersistentBase_Reset (handle_ wrap);;
  ObjectWrap_delete wrap.
End object_wrap.
