(* ===== verification/V8InternalFacts.v ===== *)
(** * Facts about tagging and layout

    Smis, external pointer tags, pointer compression and map words, for every
    configuration the headers support. *)

From S2P Require Import Prelude HeapLogic ByteMemory V8Internal.
Local Open Scope Z_scope.

(** ** Bits *)

(** A mask that covers the low bits of a number leaves it alone. *)
Lemma land_low n p m : 0 ≤ n → 0 ≤ p < 2 ^ n → Z.land (Z.ones n) m = Z.ones n → Z.land p m = p.
Proof.
  intros Hn Hp Hm.
  assert (p = Z.land p (Z.ones n)) as E by (rewrite Z.land_ones // Z.mod_small //).
  rewrite E -Z.land_assoc Hm. done.
Qed.

Lemma shiftr_small n p : 0 ≤ n → 0 ≤ p < 2 ^ n → Z.shiftr p n = 0.
Proof. intros. rewrite Z.shiftr_div_pow2 // Z.div_small //. Qed.

Lemma land_high x : 0 ≤ x < 2 ^ 64 → Z.land x (Z.shiftl (Z.ones 32) 32) = 2 ^ 32 * (x / 2 ^ 32).
Proof.
  intros Hx. rewrite Z.mul_comm -Z.shiftl_mul_pow2 // -Z.shiftr_div_pow2 //.
  apply Z.bits_inj'. intros i Hi. rewrite Z.land_spec !(Z.shiftl_spec _ 32 i Hi).
  destruct (Z.lt_ge_cases i 32).
  - rewrite !(Z.testbit_neg_r _ (i - 32)); [|lia..]. apply andb_false_r.
  - rewrite Z.shiftr_spec; [|lia]. replace (i - 32 + 32) with i by lia.
    destruct (Z.lt_ge_cases i 64).
    + rewrite Z.ones_spec_low ?andb_true_r //; lia.
    + rewrite (_ : Z.testbit x i = false) //. rewrite -(Z.mod_small x (2 ^ 64)) //.
      by apply Z.mod_pow2_bits_high.
Qed.

(** ** Smis *)

Section smi.
Context `{!V8Config} (Hok : V8Config_ok _).

(** The tagging of the platform and the width of an address. *)
Lemma platform_cases :
  (PlatformSmiTagging = SmiTagging4 ∧ (ptr_bits = 32 ∨ ptr_bits = 64)) ∨
  (PlatformSmiTagging = SmiTagging8 ∧ ptr_bits = 64).
Proof.
  destruct Hok as [Hp Hc]. unfold PlatformSmiTagging, kApiTaggedSize, kApiSystemPointerSize, ptr_bits.
  destruct V8_31BIT_SMIS_ON_64BIT_ARCH; [left; split; [done|lia]|].
  destruct V8_COMPRESS_POINTERS; [left; split; [done|lia]|].
  destruct (Z.eqb_spec sizeof_ptr 4); [left; split; [done|lia]|right; split; [done|lia]].
Qed.

Lemma smi_limits :
  (PlatformSmiTagging = SmiTagging4 ∧ kSmiMinValue = - 2 ^ 30 ∧ kSmiMaxValue = 2 ^ 30 - 1) ∨
  (PlatformSmiTagging = SmiTagging8 ∧ kSmiMinValue = - 2 ^ 31 ∧ kSmiMaxValue = 2 ^ 31 - 1).
Proof.
  unfold kSmiMinValue, kSmiMaxValue, SmiTagging_kSmiMaxValue, SmiTagging_kSmiMinValue, kUintptrAllBitsSet.
  destruct platform_cases as [[-> [-> | ->]]|[-> ->]]; [left|left|right]; done.
Qed.

Lemma IsValidSmi_range v :
  in_signed ptr_bits v → IsValidSmi v = true ↔ kSmiMinValue ≤ v ≤ kSmiMaxValue.
Proof.
  intros Hv. unfold IsValidSmi, SmiTagging_IsValidSmi.
  destruct platform_cases as [[E Hb]|[E Hb]]; destruct smi_limits as [(E' & Hmin & Hmax)|(E' & Hmin & Hmax)];
    rewrite E in E' |- *; try done; rewrite Hmin Hmax.
  - set (m := SmiTagging_kSmiMinValue SmiTagging4). set (M := SmiTagging_kSmiMaxValue SmiTagging4).
    assert (m = - 2 ^ 30 ∧ M = 2 ^ 30 - 1) as [-> ->].
    { unfold m, M, SmiTagging_kSmiMaxValue, SmiTagging_kSmiMinValue, kUintptrAllBitsSet.
      by destruct Hb as [-> | ->]. }
    unfold to_unsigned, in_signed in *. rewrite Z.leb_le.
    rewrite -Zminus_mod. assert (0 < 2 ^ ptr_bits) by (by destruct Hb as [-> | ->]).
    replace (((2 ^ 30 - 1) mod 2 ^ ptr_bits - (- 2 ^ 30) mod 2 ^ ptr_bits) mod 2 ^ ptr_bits) with (2 ^ 31 - 1)
      by (by destruct Hb as [-> | ->]).
    assert (2 ^ ptr_bits = 2 * 2 ^ (ptr_bits - 1)) as Hp by (by destruct Hb as [-> | ->]).
    assert (2 ^ 31 ≤ 2 ^ (ptr_bits - 1)) by (by destruct Hb as [-> | ->]).
    destruct (Z.lt_ge_cases v (- 2 ^ 30)).
    + rewrite -(Z.mod_add _ 1); [|lia]. rewrite Z.mod_small; [|lia]. lia.
    + rewrite Z.mod_small; [|lia]. lia.
  - rewrite Z.eqb_eq. split.
    + intros ->. pose proof (to_signed_in 32 v). unfold in_signed in *. lia.
    + intros ?. symmetry. apply to_signed_id; [done|]. unfold in_signed. lia.
Qed.

Lemma IntToSmi_eq v : IntToSmi v = to_unsigned ptr_bits (v * 2 ^ (1 + kSmiShiftSize)).
Proof.
  unfold IntToSmi, kSmiTag, kSmiTagSize. rewrite Z.lor_0_r.
  assert (0 ≤ kSmiShiftSize). { unfold kSmiShiftSize. by destruct PlatformSmiTagging. }
  rewrite Z.shiftl_mul_pow2; [|lia]. unfold to_unsigned.
  rewrite Z.mul_mod_idemp_l //. destruct platform_cases as [[_ [-> | ->]]|[_ ->]]; done.
Qed.

Lemma IntToSmi_range v : 0 ≤ IntToSmi v < 2 ^ ptr_bits.
Proof.
  rewrite IntToSmi_eq. apply to_unsigned_in. destruct platform_cases as [[_ [-> | ->]]|[_ ->]]; done.
Qed.

(** A Smi is told from a heap pointer by its lowest bit. *)
Lemma IntToSmi_tag v : Z.land (IntToSmi v) kSmiTagMask = kSmiTag ∧ HasHeapObjectTag (IntToSmi v) = false.
Proof.
  assert (Z.testbit (IntToSmi v) 0 = false) as H0.
  { rewrite IntToSmi_eq /to_unsigned. unfold kSmiShiftSize.
    rewrite Z.mod_pow2_bits_low; [|destruct platform_cases as [[_ [-> | ->]]|[_ ->]]; done].
    apply Z.mul_pow2_bits_low. by destruct PlatformSmiTagging. }
  split.
  - change kSmiTagMask with (Z.ones 1). rewrite Z.land_ones // -Z.bit0_mod H0 //.
  - unfold HasHeapObjectTag. apply Z.eqb_neq. intros E.
    apply (f_equal (λ x, Z.testbit x 0)) in E. by rewrite Z.land_spec H0 in E.
Qed.

Lemma SmiValue_IntToSmi v : kSmiMinValue ≤ v ≤ kSmiMaxValue → SmiValue (IntToSmi v) = v.
Proof.
  intros Hv. rewrite IntToSmi_eq. unfold SmiValue, SmiToInt, kSmiShiftSize.
  destruct smi_limits as [(E & Hmin & Hmax)|(E & Hmin & Hmax)]; rewrite Hmin Hmax in Hv; rewrite E;
    cbn [SmiTagging_kSmiShiftSize]; unfold kSmiTagSize.
  - change (2 ^ (1 + 0)) with 2.
    assert (to_signed 32 (to_unsigned 32 (to_unsigned ptr_bits (v * 2))) = v * 2) as ->.
    { rewrite to_signed_unsigned //. etrans; [|apply (to_signed_id 32); [done|unfold in_signed; lia]].
      apply to_signed_mod; [done|]. unfold to_unsigned.
      destruct platform_cases as [[_ [-> | ->]]|[E' _]]; [by apply Z.mod_mod| |congruence].
      apply Z.mod_mod_divide. by exists (2 ^ 32). }
    rewrite Z.shiftr_div_pow2 // Z.div_mul //.
  - destruct platform_cases as [[E' _]|[_ Hb]]; [congruence|]. rewrite Hb.
    rewrite to_signed_unsigned // (to_signed_id 64) //; [|unfold in_signed; lia].
    rewrite Z.shiftr_div_pow2 // Z.div_mul //. apply to_signed_id; [done|unfold in_signed; lia].
Qed.

Lemma SmiValue_range w : kSmiMinValue ≤ SmiValue w ≤ kSmiMaxValue.
Proof.
  unfold SmiValue, SmiToInt. destruct smi_limits as [(E & -> & ->)|(E & -> & ->)]; rewrite E;
    cbn [SmiTagging_kSmiShiftSize]; unfold kSmiTagSize.
  - pose proof (to_signed_in 32 (to_unsigned 32 w) ltac:(done)) as Hr. unfold in_signed in Hr.
    rewrite Z.shiftr_div_pow2 //. change (2 ^ (1 + 0)) with 2. change (2 ^ (32 - 1)) with (2 * 2 ^ 30) in Hr.
    split; [apply Z.div_le_lower_bound|apply Z.lt_succ_r, Z.div_lt_upper_bound]; lia.
  - pose proof (to_signed_in 32 (Z.shiftr (to_signed ptr_bits w) (1 + 31)) ltac:(done)) as Hr.
    unfold in_signed in Hr. change (2 ^ (32 - 1)) with (2 ^ 31) in Hr. lia.
Qed.

(** ** Pointer compression and map words *)

Lemma decompress_same_cage obj p :
  ptr_bits = 64 → in_unsigned 64 obj → in_unsigned 64 p → obj / 2 ^ 32 = p / 2 ^ 32 →
  DecompressTaggedAnyField obj (to_unsigned 32 p) = p.
Proof.
  intros Hb Ho Hp Hc. unfold DecompressTaggedAnyField, GetPtrComprCageBaseFromOnHeapAddress, addr_add.
  rewrite Hb. change (to_unsigned 64 (- kPtrComprCageBaseAlignment)) with (Z.shiftl (Z.ones 32) 32).
  rewrite land_high // Hc. unfold to_unsigned. rewrite -Z.div_mod // Z.mod_small //.
Qed.

(** The map word of an uncompressed heap carries the signature, and unpacking
    it gives the map back. *)
Lemma UnpackMapWord_involutive m : UnpackMapWord (UnpackMapWord m) = m.
Proof. unfold UnpackMapWord. by rewrite Z.lxor_assoc Z.lxor_nilpotent Z.lxor_0_r. Qed.

Lemma map_word_signature m :
  Z.land m kHeapObjectTagMask = kHeapObjectTag → Z.land (UnpackMapWord m) 3 = kMapWordSignature.
Proof.
  unfold UnpackMapWord, kHeapObjectTagMask, kHeapObjectTag, kHeapObjectTagSize, kMapWordXorMask. cbn.
  intros Hm. rewrite (_ : Z.land (Z.lxor m 3) 3 = Z.lxor (Z.land m 3) 3); [by rewrite Hm|].
  apply Z.bits_inj'. intros i _. rewrite !Z.land_spec !Z.lxor_spec Z.land_spec.
  by destruct (Z.testbit m i), (Z.testbit 3 i).
Qed.
End smi.

(** ** The tags of external pointers *)

(** What the comment before the tags in [v8-internal.h] says that V8 does, in code
    that is not in the headers: a pointer is stored ORed with its tag and loaded
    ANDed with the inverse of the expected one. *)
Definition tag_external_pointer (p : Z) (t : ExternalPointerTag) : Z := Z.lor p (tag_value t).
Definition untag_external_pointer (e : Z) (t : ExternalPointerTag) : Z :=
  Z.land e (to_unsigned 64 (Z.lnot (tag_value t))).

Lemma tag_value_high t : Z.land (tag_value t) kExternalPointerTagMask = tag_value t.
Proof. by destruct t. Qed.

(** A matching tag gives the pointer back; a mismatch leaves bits above the
    48-bit address space, so that the pointer is not a valid address. *)
Lemma untag_same t p : 0 ≤ p < 2 ^ 48 → untag_external_pointer (tag_external_pointer p t) t = p.
Proof.
  intros Hp. unfold untag_external_pointer, tag_external_pointer. rewrite Z.land_lor_distr_l.
  rewrite (land_low 48) //; [|by destruct t].
  rewrite (_ : Z.land (tag_value t) _ = 0); [by rewrite Z.lor_0_r|by destruct t].
Qed.

Lemma untag_other t t' p :
  t ≠ kExternalPointerNullTag → t ≠ t' → 0 ≤ p < 2 ^ 48 →
  2 ^ 48 ≤ untag_external_pointer (tag_external_pointer p t) t'.
Proof.
  intros Hnull Hne Hp. unfold untag_external_pointer, tag_external_pointer. rewrite Z.land_lor_distr_l.
  rewrite (land_low 48) //; [|by destruct t'].
  set (x := Z.land (tag_value t) _).
  assert (1 ≤ Z.shiftr (Z.lor p x) 48) as H1.
  { rewrite Z.shiftr_lor (shiftr_small 48) // Z.lor_0_l. by destruct t, t'. }
  rewrite Z.shiftr_div_pow2 // in H1.
  assert (0 ≤ Z.lor p x) by (apply Z.lor_nonneg; split; [lia|by destruct t, t']).
  destruct (Z.lt_ge_cases (Z.lor p x) (2 ^ 48)); [|done]. rewrite Z.div_small in H1; lia.
Qed.

(** A live entry is written with the mark bit set and read with it cleared; the
    free entry is not marked. *)
Lemma mark_bit t :
  t ≠ kExternalPointerNullTag → Z.testbit (tag_value t) 63 = bool_decide (t ≠ kExternalPointerFreeEntryTag).
Proof. by destruct t. Qed.

(** ** The sandbox and the isolate *)

Lemma sandbox_asserts_hold `{!V8Config} : sizeof_ptr = 8 → sandbox_static_asserts = true.
Proof.
  intros E. unfold sandbox_static_asserts, kMaxSandboxedExternalPointers, kApiSystemPointerSize.
  by rewrite E.
Qed.

Lemma isolate_layout `{!V8Config} :
  kIsolateEmbedderDataOffset = 28 * sizeof_ptr ∧ kIsolateRootsOffset = 36 * sizeof_ptr.
Proof.
  unfold kIsolateRootsOffset, kIsolateLongTaskStatsCounterOffset, kIsolateFastApiCallTargetOffset,
    kIsolateFastCCallCallerPcOffset, kIsolateFastCCallCallerFpOffset, kNumIsolateDataSlots,
    kIsolateEmbedderDataOffset, kBuiltinTier0TableOffset, kBuiltinTier0TableSize,
    kBuiltinTier0EntryTableOffset, kBuiltinTier0EntryTableSize, kIsolateStackGuardOffset,
    kStackGuardSize, kIsolateCageBaseOffset, kApiSizetSize, kApiSystemPointerSize. lia.
Qed.
