(* ===== verification/V8Specs.v ===== *)
(** * Specifications of the V8 inline functions

    What the accessors of handle nodes, isolates, return values and callback
    arguments do to the memory they own. *)

From S2P Require Import Prelude HeapLogic ByteMemory V8Internal V8InternalFacts V8Value V8Handles V8Callback.
Local Open Scope Z_scope.

(** ** Bits of a byte *)

Lemma testbit_shift1 s i : 0 ≤ s → 0 ≤ i → Z.testbit (Z.shiftl 1 s) i = (i =? s).
Proof.
  intros. rewrite Z.shiftl_1_l Z.pow2_bits_eqb //. by rewrite Z.eqb_sym.
Qed.

Lemma byte_eq x y :
  0 ≤ x < 256 → 0 ≤ y < 256 → (∀ i, 0 ≤ i < 8 → Z.testbit x i = Z.testbit y i) → x = y.
Proof.
  intros Hx Hy H. rewrite -(Z.mod_small x (2 ^ 8)) // -(Z.mod_small y (2 ^ 8)) //.
  apply Z.bits_inj'. intros i Hi. destruct (Z.lt_ge_cases i 8).
  - rewrite !Z.mod_pow2_bits_low //. by apply H.
  - by rewrite !Z.mod_pow2_bits_high.
Qed.

(** The byte [UpdateNodeFlag] and [UpdateNodeState] write. *)
Definition set_flag (b : Z) (value : bool) (shift : Z) : Z :=
  to_unsigned 8 (Z.lor (Z.land b (Z.lnot (to_unsigned 8 (Z.shiftl 1 shift)))) (Z.shiftl (Z.b2z value) shift)).
Definition set_state (b value : Z) : Z := to_unsigned 8 (Z.lor (Z.land b (Z.lnot kNodeStateMask)) value).

Lemma set_flag_bits b value s i :
  0 ≤ s < 8 → 0 ≤ i < 8 →
  Z.testbit (set_flag b value s) i = if i =? s then value else Z.testbit b i.
Proof.
  intros Hs Hi. unfold set_flag, to_unsigned.
  rewrite Z.mod_pow2_bits_low; [|lia]. rewrite Z.lor_spec Z.land_spec Z.lnot_spec; [|lia].
  rewrite Z.mod_pow2_bits_low; [|lia]. rewrite testbit_shift1; [|lia..].
  destruct value; cbn [Z.b2z]; [rewrite testbit_shift1; [|lia..]|rewrite Z.shiftl_0_l Z.bits_0];
    destruct (i =? s), (Z.testbit b i); done.
Qed.

Lemma testbit_7 i : 0 ≤ i → Z.testbit 7 i = (i <? 3).
Proof.
  intros Hi. change 7 with (Z.ones 3). destruct (Z.ltb_spec i 3).
  - by apply Z.ones_spec_low.
  - apply Z.ones_spec_high. lia.
Qed.

Lemma set_state_bits b v i :
  0 ≤ v < 8 → 0 ≤ i < 8 →
  Z.testbit (set_state b v) i = if i <? 3 then Z.testbit v i else Z.testbit b i.
Proof.
  intros Hv Hi. unfold set_state, to_unsigned, kNodeStateMask.
  rewrite Z.mod_pow2_bits_low; [|lia]. rewrite Z.lor_spec Z.land_spec Z.lnot_spec; [|lia].
  rewrite testbit_7; [|lia]. destruct (Z.ltb_spec i 3).
  - by rewrite andb_false_r.
  - rewrite andb_true_r. rewrite (_ : Z.testbit v i = false) ?orb_false_r //.
    rewrite -(Z.mod_small v (2 ^ 3)) //. by apply Z.mod_pow2_bits_high.
Qed.

Lemma set_state_get b v : 0 ≤ v < 8 → Z.land (set_state b v) kNodeStateMask = v.
Proof.
  intros Hv. apply byte_eq; [|lia|].
  - unfold kNodeStateMask. change 7 with (Z.ones 3). rewrite Z.land_ones //.
    change (2 ^ 3) with 8. pose proof (Z.mod_pos_bound (set_state b v) 8). lia.
  - intros i Hi. rewrite Z.land_spec set_state_bits // /kNodeStateMask testbit_7; [|lia].
    destruct (Z.ltb_spec i 3); [by rewrite andb_true_r|]. rewrite andb_false_r.
    rewrite -(Z.mod_small v (2 ^ 3)) //. symmetry. by apply Z.mod_pow2_bits_high.
Qed.

Lemma set_flag_get b value s :
  0 ≤ s < 8 →
  (Z.land (set_flag b value s) (to_unsigned 8 (Z.shiftl 1 s)) =? 0) = negb value.
Proof.
  intros Hs. assert (∀ i, 0 ≤ i < 8 → Z.testbit (to_unsigned 8 (Z.shiftl 1 s)) i = (i =? s)) as Hm.
  { intros i Hi. unfold to_unsigned. rewrite Z.mod_pow2_bits_low; [|lia]. apply testbit_shift1; lia. }
  destruct value; cbn [negb]; [apply Z.eqb_neq; intros E|apply Z.eqb_eq].
  - apply (f_equal (λ x, Z.testbit x s)) in E.
    rewrite Z.land_spec set_flag_bits // Hm // Z.eqb_refl Z.bits_0 in E. done.
  - apply Z.bits_inj'. intros i Hi. rewrite Z.land_spec Z.bits_0. destruct (Z.lt_ge_cases i 8).
    + rewrite set_flag_bits // Hm //. destruct (Z.eqb_spec i s); [done|by rewrite andb_false_r].
    + unfold to_unsigned at 1. rewrite andb_comm. unfold to_unsigned. by rewrite Z.mod_pow2_bits_high.
Qed.

Lemma set_state_range b v : 0 ≤ set_state b v < 256.
Proof. apply (to_unsigned_in 8). done. Qed.
Lemma set_flag_range b v s : 0 ≤ set_flag b v s < 256.
Proof. apply (to_unsigned_in 8). done. Qed.

(** ** Handle nodes *)

Section specs.
Context `{!V8Config, !V8Library}.

Definition node_flags (obj b : Z) : hpropI Z := (addr_add obj kNodeFlagsOffset ↦[1] b)%I.

Lemma byte_mod x : 0 ≤ x < 256 → x mod word_size 1 = x.
Proof. intros. by apply Z.mod_small. Qed.

Lemma GetNodeState_spec obj b :
  node_flags obj b ⊢ wp (GetNodeState obj) (λ s, ⌜s = Z.land b kNodeStateMask⌝ ∗ node_flags obj b).
Proof. iIntros "H". unfold GetNodeState, node_flags. mem_steps. by iFrame. Qed.

Lemma UpdateNodeState_spec obj b v :
  node_flags obj b ⊢ wp (UpdateNodeState obj v) (λ _, node_flags obj (set_state b v)).
Proof.
  iIntros "H". unfold UpdateNodeState, node_flags. mem_steps.
  rewrite -/(set_state b v) byte_mod; [done|apply set_state_range].
Qed.

Lemma GetNodeFlag_spec obj b s :
  node_flags obj b ⊢
  wp (GetNodeFlag obj s) (λ r, ⌜r = Z.land b (to_unsigned 8 (Z.shiftl 1 s))⌝ ∗ node_flags obj b).
Proof. iIntros "H". unfold GetNodeFlag, node_flags. mem_steps. by iFrame. Qed.

Lemma UpdateNodeFlag_spec obj b v s :
  node_flags obj b ⊢ wp (UpdateNodeFlag obj v s) (λ _, node_flags obj (set_flag b v s)).
Proof.
  iIntros "H". unfold UpdateNodeFlag, node_flags. mem_steps.
  rewrite -/(set_flag b v s) byte_mod; [done|apply set_flag_range].
Qed.

(** ** The isolate *)

(** The embedder's slots hold [ds]. *)
Definition embedder_slot (isolate slot : Z) : Z :=
  addr_add (addr_add isolate kIsolateEmbedderDataOffset) (to_unsigned 32 (slot * kApiSystemPointerSize)).
Definition embedder_slots (isolate : Z) (ds : list Z) : hpropI Z :=
  ([∗ list] i ↦ d ∈ ds, embedder_slot isolate (Z.of_nat i) ↦[ptr_bytes] d)%I.

Lemma Isolate_GetData_spec isolate ds (i : nat) d :
  ds !! i = Some d →
  embedder_slots isolate ds ⊢
  wp (Isolate_GetData isolate (Z.of_nat i)) (λ r, ⌜r = d⌝ ∗ embedder_slots isolate ds).
Proof.
  iIntros (Hi) "H". unfold Isolate_GetData, GetEmbedderData, embedder_slots.
  iDestruct (big_sepL_lookup_acc with "H") as "[Hd H]"; [done|]. unfold embedder_slot.
  mem_steps. iSplit; [done|]. by iApply "H".
Qed.

Lemma Isolate_SetData_spec isolate ds (i : nat) d :
  i < length ds → 0 ≤ d < word_size ptr_bytes →
  embedder_slots isolate ds ⊢
  wp (Isolate_SetData isolate (Z.of_nat i) d) (λ _, embedder_slots isolate (<[i := d]> ds)).
Proof.
  iIntros (Hi Hd) "H". destruct (lookup_lt_is_Some_2 ds i) as [d0 Hd0]; [lia|].
  unfold Isolate_SetData, SetEmbedderData, embedder_slots.
  iDestruct (big_sepL_insert_acc with "H") as "[Hd H]"; [done|]. unfold embedder_slot.
  mem_steps. rewrite Z.mod_small //. by iApply "H".
Qed.

(** ** Return values *)

(** The slots a return value sees. *)
Definition return_slots (value_ isolate default v : Z) : hpropI Z :=
  (slot_at value_ (-2) ↦[ptr_bytes] isolate ∗ slot_at value_ (-1) ↦[ptr_bytes] default ∗
   value_ ↦[ptr_bytes] v)%I.

Lemma ReturnValue_Set_slot_spec value_ isolate default v h x :
  return_slots value_ isolate default v ∗ h ↦[ptr_bytes] x ∗ ⌜h ≠ 0⌝ ⊢
  wp (ReturnValue_Set_slot value_ h) (λ _, return_slots value_ isolate default x ∗ h ↦[ptr_bytes] x).
Proof.
  iIntros "((Hi & Hd & Hv) & Hh & %Hne)". unfold ReturnValue_Set_slot.
  destruct (Z.eqb_spec h 0); [done|]. iDestruct (word_range with "Hh") as %Hx.
  mem_steps. rewrite Z.mod_small //. iFrame.
Qed.

Lemma ReturnValue_Set_slot_empty value_ isolate default v :
  return_slots value_ isolate default v ⊢
  wp (ReturnValue_Set_slot value_ 0) (λ _, return_slots value_ isolate default default).
Proof.
  iIntros "(Hi & Hd & Hv)". unfold ReturnValue_Set_slot, ReturnValue_GetDefaultValue. cbn [Z.eqb].
  iDestruct (word_range with "Hd") as %Hx. mem_steps. rewrite Z.mod_small //. iFrame.
Qed.

Lemma word_size_ptr (Hok : V8Config_ok _) : word_size ptr_bytes = 2 ^ ptr_bits.
Proof.
  unfold word_size, ptr_bytes, ptr_bits. destruct Hok as [[-> | ->] _]; done.
Qed.

Lemma ReturnValue_Set_int32_smi (Hok : V8Config_ok _) value_ isolate default v i :
  IsValidSmi i = true →
  return_slots value_ isolate default v ⊢
  wp (ReturnValue_Set_int32 value_ i) (λ _, return_slots value_ isolate default (IntToSmi i)).
Proof.
  iIntros (Hi) "(H1 & H2 & H3)". unfold ReturnValue_Set_int32. rewrite Hi. mem_steps.
  rewrite Z.mod_small; [iFrame|]. rewrite word_size_ptr //. by apply IntToSmi_range.
Qed.

Lemma sign_bit i : 0 ≤ i < 2 ^ 32 → (Z.land i (Z.shiftl 1 31) =? 0) = (i <? 2 ^ 31).
Proof.
  intros Hi. assert (Z.land i (Z.shiftl 1 31) = if Z.testbit i 31 then 2 ^ 31 else 0) as ->.
  { apply Z.bits_inj'. intros j Hj. rewrite Z.land_spec testbit_shift1 //.
    destruct (Z.eqb_spec j 31) as [->|Hne].
    - rewrite andb_true_r. destruct (Z.testbit i 31); [done|by rewrite Z.bits_0].
    - rewrite andb_false_r. destruct (Z.testbit i 31); [|by rewrite Z.bits_0].
      rewrite Z.pow2_bits_eqb //. by rewrite (proj2 (Z.eqb_neq 31 j)). }
  rewrite Z.testbit_eqb // -(Z.mod_small (i / 2 ^ 31) 2).
  2: { split; [by apply Z.div_pos; lia|apply Z.div_lt_upper_bound; lia]. }
  rewrite Z.mod_mod //. destruct (Z.ltb_spec i (2 ^ 31)).
  - rewrite Z.div_small; [done|lia].
  - replace (i / 2 ^ 31) with 1; [done|]. apply Z.div_unique with (i - 2 ^ 31); lia.
Qed.

Lemma Set_uint32_small value_ i :
  0 ≤ i < 2 ^ 31 → ReturnValue_Set_uint32 value_ i = ReturnValue_Set_int32 value_ i.
Proof.
  intros Hi. unfold ReturnValue_Set_uint32. rewrite sign_bit; [|lia].
  rewrite (proj2 (Z.ltb_lt i (2 ^ 31))); [|lia]. rewrite to_signed_id //. unfold in_signed. lia.
Qed.
Lemma Set_uint32_large value_ i :
  2 ^ 31 ≤ i < 2 ^ 32 →
  ReturnValue_Set_uint32 value_ i =
  (isolate ← ReturnValue_GetIsolate value_;
   h ← Integer_NewFromUnsigned isolate i;
   ReturnValue_Set_Local value_ h).
Proof.
  intros Hi. unfold ReturnValue_Set_uint32. rewrite sign_bit; [|lia].
  by rewrite (proj2 (Z.ltb_ge i (2 ^ 31))); [|lia].
Qed.

Lemma ReturnValue_Set_root_spec value_ isolate default v index x :
  return_slots value_ isolate default v ∗ GetRoot isolate index ↦[ptr_bytes] x ⊢
  wp (ReturnValue_Set_root index value_)
     (λ _, return_slots value_ isolate default x ∗ GetRoot isolate index ↦[ptr_bytes] x).
Proof.
  iIntros "[(Hi & Hd & Hv) Hr]". unfold ReturnValue_Set_root, ReturnValue_GetIsolate.
  iDestruct (word_range with "Hr") as %Hx. mem_steps. rewrite Z.mod_small //. iFrame.
Qed.

Lemma ReturnValue_Get_hole value_ isolate default hole :
  V8_ENABLE_CHECKS = false →
  return_slots value_ isolate default hole ∗ GetRoot isolate kTheHoleValueRootIndex ↦[ptr_bytes] hole ⊢
  wp (ReturnValue_Get value_)
     (λ r, ⌜r = GetRoot isolate kUndefinedValueRootIndex⌝ ∗ return_slots value_ isolate default hole ∗
           GetRoot isolate kTheHoleValueRootIndex ↦[ptr_bytes] hole).
Proof.
  iIntros (Hc) "[(Hi & Hd & Hv) Hr]". unfold ReturnValue_Get, ReturnValue_GetIsolate. mem_steps.
  rewrite Z.eqb_refl. unfold Undefined, root_handle, CheckInitialized. rewrite Hc. wp_norm.
  iApply wp_ret. by iFrame.
Qed.

(** ** Callback arguments *)

Lemma FunctionCallbackInfo_index_spec info i isolate :
  V8_ENABLE_CHECKS = false →
  slot_at (implicit_args_ info) FunctionCallbackInfo_kIsolateIndex ↦[ptr_bytes] isolate ⊢
  wp (FunctionCallbackInfo_index info i)
     (λ r, ⌜r = if bool_decide (0 ≤ i < length_ info) then slot_at (values_ info) i
                else GetRoot isolate kUndefinedValueRootIndex⌝ ∗
           slot_at (implicit_args_ info) FunctionCallbackInfo_kIsolateIndex ↦[ptr_bytes] isolate).
Proof.
  iIntros (Hc) "H". unfold FunctionCallbackInfo_index.
  destruct (Z.ltb_spec i 0), (Z.leb_spec (length_ info) i); cbn [orb].
  1-3: rewrite bool_decide_false; [|lia]; unfold FunctionCallbackInfo_GetIsolate, Undefined, root_handle,
         CheckInitialized; rewrite Hc; mem_steps; by iFrame.
  rewrite bool_decide_true; [|lia]. iApply wp_ret. by iFrame.
Qed.

Lemma ShouldThrowOnError_spec (Hok : V8Config_ok _) args_ m :
  m = kThrowOnError ∨ m = kDontThrow →
  slot_at args_ PropertyCallbackInfo_kShouldThrowOnErrorIndex ↦[ptr_bytes] IntToSmi m ⊢
  wp (PropertyCallbackInfo_ShouldThrowOnError args_)
     (λ b, ⌜b = bool_decide (m = kThrowOnError)⌝ ∗
           slot_at args_ PropertyCallbackInfo_kShouldThrowOnErrorIndex ↦[ptr_bytes] IntToSmi m).
Proof.
  iIntros (Hm) "H". unfold PropertyCallbackInfo_ShouldThrowOnError.
  assert (∀ x y, kSmiMinValue ≤ x ≤ kSmiMaxValue → kSmiMinValue ≤ y ≤ kSmiMaxValue →
    (IntToSmi x =? IntToSmi y) = (x =? y)) as Hinj.
  { intros x y Hx Hy. apply eq_true_iff_eq. rewrite !Z.eqb_eq. split; [|by intros ->].
    intros E%(f_equal SmiValue). by rewrite !SmiValue_IntToSmi in E. }
  assert (∀ x, 0 ≤ x ≤ 2 → kSmiMinValue ≤ x ≤ kSmiMaxValue) as Hr.
  { intros x Hx. destruct (smi_limits Hok) as [(_ & -> & ->)|(_ & -> & ->)]; lia. }
  mem_load. rewrite Hinj; [|apply Hr..]; [|destruct Hm as [-> | ->]; done|done].
  destruct Hm as [-> | ->]; cbn; mem_steps; rewrite Hinj; try (apply Hr; done); by iFrame.
Qed.
End specs.
