(* ===== verification/V8Persistent.v ===== *)
(** * Persistent and global handles against the engine's interface

    What the headers rely on in the engine's storage of global handles, as a
    class of laws, and what the operations of [PersistentBase], [Persistent]
    and [Global] do under it. *)

From S2P Require Import Prelude HeapLogic ByteMemory V8Internal V8Value V8Handles.
Local Open Scope Z_scope.

(** A node of the engine's table of global handles: the object it holds, its
    class id and its flags. *)
Definition node `{!V8Config} (p v class_id flags : Z) : hpropI Z :=
  (⌜0 < p < word_size ptr_bytes⌝ ∗ p ↦[ptr_bytes] v ∗ addr_add p kNodeClassIdOffset ↦[2] class_id ∗
   addr_add p kNodeFlagsOffset ↦[1] flags)%I.
Definition is_weak (flags : Z) : bool := Z.land flags kNodeStateMask =? kNodeStateIsWeakValue.

(** The documented behaviour of the functions of [api_internal]: a new node has
    no class id and is not weak; copying clones the contents only; [n] is the
    number of nodes there is still room for. *)
Class GlobalHandles `{!V8Config, !V8Library} := {
  handles : nat → hpropI Z;
  GlobalizeReference_spec n isolate h v :
    handles (S n) ∗ h ↦[ptr_bytes] v ⊢
    wp (GlobalizeReference isolate h)
       (λ p, handles n ∗ h ↦[ptr_bytes] v ∗ ∃ f, ⌜is_weak f = false⌝ ∗ node p v 0 f);
  CopyGlobalReference_spec n p v c f :
    handles (S n) ∗ node p v c f ⊢
    wp (CopyGlobalReference p)
       (λ q, handles n ∗ node p v c f ∗ ∃ f', ⌜is_weak f' = false⌝ ∗ node q v 0 f');
  DisposeGlobal_spec n p v c f :
    handles n ∗ node p v c f ⊢ wp (DisposeGlobal p) (λ _, handles (S n));
  MoveGlobalReference_spec n from to p v c f :
    handles n ∗ from ↦[ptr_bytes] p ∗ to ↦[ptr_bytes] p ∗ node p v c f ⊢
    wp (MoveGlobalReference from to)
       (λ _, handles n ∗ from ↦[ptr_bytes] p ∗ to ↦[ptr_bytes] p ∗ node p v c f);
  MakeWeak_spec n p v c f data callback type :
    handles n ∗ node p v c f ⊢
    wp (MakeWeak p data callback type)
       (λ _, handles n ∗ ∃ f', ⌜is_weak f' = true⌝ ∗ node p v c f');
  ClearWeak_spec n p v c f :
    handles n ∗ node p v c f ⊢
    wp (lib_ClearWeak p) (λ _, handles n ∗ ∃ f', ⌜is_weak f' = false⌝ ∗ node p v c f');
}.

Section persistent.
Context `{!V8Config, !V8Library, !GlobalHandles}.

(** A persistent handle: empty, or the owner of a node. *)
Definition persistent_handle (this : Z) (o : option (Z * Z * bool)) : hpropI Z :=
  match o with
  | None => this ↦[ptr_bytes] 0
  | Some (v, c, weak) => ∃ p f, this ↦[ptr_bytes] p ∗ ⌜is_weak f = weak⌝ ∗ node p v c f
  end%I.
Definition owned_nodes (o : option (Z * Z * bool)) : nat := match o with Some _ => 1 | None => 0 end.

Lemma persistent_open this v c weak :
  persistent_handle this (Some (v, c, weak)) ⊢
  ∃ p f, this ↦[ptr_bytes] p ∗ ⌜is_weak f = weak ∧ 0 < p < word_size ptr_bytes⌝ ∗ node p v c f.
Proof.
  iIntros "(%p & %f & Ht & %Hw & %Hp & Hn)". iExists p, f. by iFrame.
Qed.

Lemma IsEmpty_spec this o :
  persistent_handle this o ⊢
  wp (PersistentBase_IsEmpty this) (λ b, ⌜b = bool_decide (o = None)⌝ ∗ persistent_handle this o).
Proof.
  iIntros "H". unfold PersistentBase_IsEmpty. destruct o as [[[v c] w]|].
  - rewrite {1}persistent_open. iDestruct "H" as (p f) "(Ht & (%Hw & %Hp) & Hn)". mem_steps.
    iSplit; [iPureIntro; apply Z.eqb_neq; lia|]. iExists p, f. by iFrame.
  - unfold persistent_handle. mem_steps. by iFrame.
Qed.

Lemma Reset_spec n this o :
  handles n ∗ persistent_handle this o ⊢
  wp (PersistentBase_Reset this) (λ _, handles (owned_nodes o + n) ∗ persistent_handle this None).
Proof.
  iIntros "[Hh H]". unfold PersistentBase_Reset. wp_norm. iApply wp_bind.
  iApply (wp_wand with "[H]"); [by iApply IsEmpty_spec|]. iIntros (?) "[-> H]".
  destruct o as [[[v c] w]|]; cbn [bool_decide decide].
  - rewrite bool_decide_false //. iDestruct "H" as (p f) "(Ht & %Hw & Hn)". mem_load. iApply wp_bind.
    iApply (wp_wand with "[Hh Hn]"); [iApply DisposeGlobal_spec; iFrame|]. iIntros (_) "Hh".
    mem_steps. unfold persistent_handle. iFrame.
  - rewrite bool_decide_true //. iApply wp_ret. iFrame.
Qed.

Lemma New_spec n isolate h v :
  h ≠ 0 →
  handles (S n) ∗ h ↦[ptr_bytes] v ⊢
  wp (PersistentBase_New isolate h)
     (λ p, handles n ∗ h ↦[ptr_bytes] v ∗ ∃ f, ⌜is_weak f = false⌝ ∗ node p v 0 f).
Proof.
  iIntros (Hh) "H". unfold PersistentBase_New. destruct (Z.eqb_spec h 0); [done|].
  by iApply GlobalizeReference_spec.
Qed.

Lemma store_handle {A} this u p v c f w (k : unit → mem A) Φ :
  is_weak f = w →
  this ↦[ptr_bytes] u ∗ node p v c f ⊢
  (persistent_handle this (Some (v, c, w)) -∗ wp (k tt) Φ) -∗
  wp (store_word ptr_bytes this p ≫= k) Φ.
Proof.
  iIntros (Hf) "[Ht Hn] HΦ". iDestruct "Hn" as "[%Hp Hn]". mem_store. iApply "HΦ".
  rewrite Z.mod_small; [|lia]. iExists p, f. by iFrame.
Qed.

Lemma Reset_Local_spec n this o isolate h v :
  h ≠ 0 →
  handles (S n) ∗ persistent_handle this o ∗ h ↦[ptr_bytes] v ⊢
  wp (PersistentBase_Reset_Local this isolate h)
     (λ _, handles (owned_nodes o + n) ∗ h ↦[ptr_bytes] v ∗ persistent_handle this (Some (v, 0, false))).
Proof.
  iIntros (Hh) "(Hs & Ht & Hv)". unfold PersistentBase_Reset_Local, Local_IsEmpty.
  wp_norm. iApply wp_bind. iApply (wp_wand with "[Hs Ht]"); [iApply Reset_spec; iFrame|].
  iIntros (_) "[Hs Ht]". destruct (Z.eqb_spec h 0); [done|]. cbn [persistent_handle].
  rewrite -plus_n_Sm. wp_norm. iApply wp_bind.
  iApply (wp_wand with "[Hs Hv]"); [iApply New_spec; [done|iFrame]|].
  iIntros (p) "(Hs & Hv & %f & %Hf & Hn)". wp_norm. wp_tail.
  iApply (store_handle with "[$Ht $Hn]"); [done|]. iIntros "Ht". iApply wp_ret. iFrame.
Qed.
(** Copying another handle: the node is cloned, with its contents only. *)
Lemma Persistent_assign_spec n this that o o' :
  handles (owned_nodes o' + n) ∗ persistent_handle this o ∗ persistent_handle that o' ⊢
  wp (Persistent_assign this that)
     (λ _, handles (owned_nodes o + n) ∗ persistent_handle that o' ∗
           persistent_handle this ((λ '(v, _, _), (v, 0, false)) <$> o')).
Proof.
  iIntros "(Hs & Ht & Hv)". unfold Persistent_assign, Persistent_Copy.
  wp_call Reset_spec with "Hs Ht". iIntros (_) "[Hs Ht]".
  wp_call IsEmpty_spec with "Hv". iIntros (?) "[-> Hv]".
  destruct o' as [[[v c] w]|]; cbn [owned_nodes fmap option_fmap option_map].
  2:{ rewrite bool_decide_true //. iApply wp_ret. iFrame. }
  rewrite bool_decide_false //. cbn [persistent_handle]. iDestruct "Hv" as (q g) "(Hv & %Hg & Hq)".
  rewrite -plus_n_Sm. mem_load. wp_call CopyGlobalReference_spec with "Hs Hq".
  iIntros (p) "(Hs & Hq & %f & %Hf & Hp)". wp_norm. wp_tail.
  iApply (store_handle with "[$Ht $Hp]"); [done|]. iIntros "Ht". iApply wp_ret. by iFrame.
Qed.

(** ... but its own copy is empty: it is reset before it is read. *)
Lemma Persistent_assign_self_spec n this o :
  handles n ∗ persistent_handle this o ⊢
  wp (Persistent_assign this this)
     (λ _, handles (owned_nodes o + n) ∗ persistent_handle this None).
Proof.
  iIntros "[Hs Ht]". unfold Persistent_assign, Persistent_Copy.
  wp_call Reset_spec with "Hs Ht". iIntros (_) "[Hs Ht]".
  wp_call IsEmpty_spec with "Ht". iIntros (?) "[-> Ht]".
  rewrite bool_decide_true //. iApply wp_ret. iFrame.
Qed.

Lemma Reset_Persistent_self_spec n this isolate o :
  handles n ∗ persistent_handle this o ⊢
  wp (PersistentBase_Reset_Persistent this isolate this)
     (λ _, handles (owned_nodes o + n) ∗ persistent_handle this None).
Proof.
  iIntros "[Hs Ht]". unfold PersistentBase_Reset_Persistent.
  wp_call Reset_spec with "Hs Ht". iIntros (_) "[Hs Ht]".
  wp_call IsEmpty_spec with "Ht". iIntros (?) "[-> Ht]".
  rewrite bool_decide_true //. iApply wp_ret. iFrame.
Qed.

Lemma Reset_Persistent_spec n this that isolate o o' :
  handles (owned_nodes o' + n) ∗ persistent_handle this o ∗ persistent_handle that o' ⊢
  wp (PersistentBase_Reset_Persistent this isolate that)
     (λ _, handles (owned_nodes o + n) ∗ persistent_handle that o' ∗
           persistent_handle this ((λ '(v, _, _), (v, 0, false)) <$> o')).
Proof.
  iIntros "(Hs & Ht & Hv)". unfold PersistentBase_Reset_Persistent.
  wp_call Reset_spec with "Hs Ht". iIntros (_) "[Hs Ht]".
  wp_call IsEmpty_spec with "Hv". iIntros (?) "[-> Hv]".
  destruct o' as [[[v c] w]|]; cbn [owned_nodes fmap option_fmap option_map].
  2:{ rewrite bool_decide_true //. iApply wp_ret. iFrame. }
  rewrite bool_decide_false //. cbn [persistent_handle].
  iDestruct "Hv" as (q g) "(Hv & %Hg & %Hq & Hqv & Hqc)".
  rewrite -plus_n_Sm. mem_load. wp_call New_spec with "Hs Hqv"; [lia|].
  iIntros (p) "(Hs & Hqv & %f & %Hf & Hp)". wp_norm. wp_tail.
  iApply (store_handle with "[$Ht $Hp]"); [done|]. iIntros "Ht". iApply wp_ret. by iFrame.
Qed.

(** Moving out of a global handle empties it and costs no node; a move to
    itself does nothing. *)
Lemma Global_move_assign_spec n this rhs o o' :
  this ≠ rhs →
  handles n ∗ persistent_handle this o ∗ persistent_handle rhs o' ⊢
  wp (Global_move_assign this rhs)
     (λ _, handles (owned_nodes o + n) ∗ persistent_handle this o' ∗ persistent_handle rhs None).
Proof.
  iIntros (Hne) "(Hs & Ht & Hv)". unfold Global_move_assign. destruct (Z.eqb_spec this rhs); [done|]. cbn [negb].
  wp_call Reset_spec with "Hs Ht". iIntros (_) "[Hs Ht]". cbn [persistent_handle].
  destruct o' as [[[v c] w]|]; cbn [persistent_handle]; [|mem_load; mem_steps; iFrame].
  iDestruct "Hv" as (p f) "(Hv & %Hf & %Hp & Hn)". mem_load. destruct (Z.eqb_spec p 0); [lia|]. cbn [negb]. mem_load.
  mem_store. rewrite Z.mod_small; [|lia].
  wp_call (MoveGlobalReference_spec _ rhs this p v c f) with "Hs Hv Ht Hn"; [by iFrame|].
  iIntros (_) "(Hs & Hv & Ht & Hn)". mem_steps. by iFrame.
Qed.

Lemma Global_move_assign_self this h : Global_move_assign this this h = Ret (tt, h).
Proof. unfold Global_move_assign. by rewrite Z.eqb_refl. Qed.

Lemma Global_move_new_spec n this other u o :
  handles n ∗ this ↦[ptr_bytes] u ∗ persistent_handle other o ⊢
  wp (Global_move_new this other)
     (λ _, handles n ∗ persistent_handle this o ∗ persistent_handle other None).
Proof.
  iIntros "(Hs & Ht & Hv)". unfold Global_move_new. cbn [persistent_handle].
  destruct o as [[[v c] w]|]; cbn [persistent_handle].
  2:{ mem_load. mem_store. mem_load. iApply wp_ret. by iFrame. }
  iDestruct "Hv" as (p f) "(Hv & %Hf & %Hp & Hn)". mem_load. mem_store. mem_load.
  rewrite Z.mod_small; [|lia]. destruct (Z.eqb_spec p 0); [lia|]. cbn [negb].
  wp_call (MoveGlobalReference_spec _ other this p v c f) with "Hs Hv Ht Hn"; [by iFrame|].
  iIntros (_) "(Hs & Hv & Ht & Hn)". mem_steps. by iFrame.
Qed.

(** Weak handles. *)
Lemma IsWeak_spec this o :
  persistent_handle this o ⊢
  wp (PersistentBase_IsWeak this)
     (λ b, ⌜b = match o with Some (_, _, w) => w | None => false end⌝ ∗ persistent_handle this o).
Proof.
  iIntros "H". unfold PersistentBase_IsWeak. wp_call IsEmpty_spec with "H". iIntros (?) "[-> H]".
  destruct o as [[[v c] w]|]; [|rewrite bool_decide_true //; iApply wp_ret; by iFrame].
  rewrite bool_decide_false //. iDestruct "H" as (p f) "(Ht & %Hw & %Hp & Hv & Hc & Hf)".
  mem_load. unfold GetNodeState. mem_load. iApply wp_ret. iSplit; [done|]. iExists p, f. by iFrame.
Qed.

Lemma SetWeak_spec n this v c w parameter callback type :
  handles n ∗ persistent_handle this (Some (v, c, w)) ⊢
  wp (PersistentBase_SetWeak this parameter callback type)
     (λ _, handles n ∗ persistent_handle this (Some (v, c, true))).
Proof.
  iIntros "[Hs H]". unfold PersistentBase_SetWeak. iDestruct "H" as (p f) "(Ht & %Hw & Hn)".
  mem_load. iApply (wp_wand with "[Hs Hn]"); [iApply MakeWeak_spec; iFrame|].
  iIntros (_) "($ & %g & %Hg & Hn)". iExists p, g. by iFrame.
Qed.

Lemma ClearWeak_spec' n this v c w :
  handles n ∗ persistent_handle this (Some (v, c, w)) ⊢
  wp (PersistentBase_ClearWeak this)
     (λ _, handles n ∗ persistent_handle this (Some (v, c, false))).
Proof.
  iIntros "[Hs H]". unfold PersistentBase_ClearWeak. iDestruct "H" as (p f) "(Ht & %Hw & Hn)".
  mem_load. iApply (wp_wand with "[Hs Hn]"); [iApply ClearWeak_spec; iFrame|].
  iIntros (_) "($ & %g & %Hg & Hn)". iExists p, g. by iFrame.
Qed.

(** The class id of the node, which a handle sets and reads. *)
Lemma SetWrapperClassId_spec this o class_id :
  0 ≤ class_id < word_size 2 →
  persistent_handle this o ⊢
  wp (PersistentBase_SetWrapperClassId this class_id)
     (λ _, persistent_handle this ((λ '(v, _, w), (v, class_id, w)) <$> o)).
Proof.
  iIntros (Hc) "H". unfold PersistentBase_SetWrapperClassId. wp_call IsEmpty_spec with "H".
  iIntros (?) "[-> H]". destruct o as [[[v c] w]|]; [|rewrite bool_decide_true //; by iApply wp_ret].
  rewrite bool_decide_false //. iDestruct "H" as (p f) "(Ht & %Hw & %Hp & Hv & Hc & Hf)".
  mem_load. mem_store. rewrite Z.mod_small //. iApply wp_ret. iExists p, f. by iFrame.
Qed.

Lemma WrapperClassId_spec this o :
  persistent_handle this o ⊢
  wp (PersistentBase_WrapperClassId this)
     (λ i, ⌜i = match o with Some (_, c, _) => c | None => 0 end⌝ ∗ persistent_handle this o).
Proof.
  iIntros "H". unfold PersistentBase_WrapperClassId. wp_call IsEmpty_spec with "H".
  iIntros (?) "[-> H]". destruct o as [[[v c] w]|]; [|rewrite bool_decide_true //; iApply wp_ret; by iFrame].
  rewrite bool_decide_false //. iDestruct "H" as (p f) "(Ht & %Hw & %Hp & Hv & Hc & Hf)".
  mem_load. mem_load. iApply wp_ret. iSplit; [done|]. iExists p, f. by iFrame.
Qed.

(** [MaybeLocal::ToLocal] writes its argument in both cases. *)
Lemma ToLocal_spec val_ out u :
  0 ≤ val_ < word_size ptr_bytes →
  out ↦[ptr_bytes] u ⊢
  wp (MaybeLocal_ToLocal val_ out) (λ b, ⌜b = negb (val_ =? 0)⌝ ∗ out ↦[ptr_bytes] val_).
Proof.
  iIntros (Hv) "H". unfold MaybeLocal_ToLocal, MaybeLocal_IsEmpty. mem_store. iApply wp_ret.
  iSplit; [done|]. destruct (Z.eqb_spec val_ 0) as [->|]; [done|]. by rewrite Z.mod_small.
Qed.
End persistent.
