(* ===== verification/V8Objects.v ===== *)
(** * Heap objects as the headers read them

    The layout of an object with internal fields, as [v8-internal.h] fixes it,
    what the headers rely on in the functions of the library that work on it,
    and the inline reads of [v8-object.h] against both. *)

From S2P Require Import Prelude HeapLogic ByteMemory V8Internal V8Value V8Handles V8Persistent.
Local Open Scope Z_scope.

Section layout.
Context `{!V8Config}.

(** The address of a field of the tagged object [obj], and a field that holds a
    tagged pointer (its low half, when pointers are compressed). *)
Definition field_addr (obj offset : Z) : Z := addr_add (addr_add obj offset) (- kHeapObjectTag).
Definition tagged_field (obj offset v : Z) : hpropI Z :=
  (if V8_COMPRESS_POINTERS then
     ∃ low, ⌜addr_add (GetPtrComprCageBaseFromOnHeapAddress obj) low = v⌝ ∗ field_addr obj offset ↦[4] low
   else field_addr obj offset ↦[ptr_bytes] v)%I.
(** The header of an object: its map, whose instance type is [type]. *)
Definition has_type (obj type : Z) : hpropI Z :=
  (∃ m, tagged_field obj kHeapObjectMapOffset m ∗
        field_addr (if V8_MAP_PACKING then UnpackMapWord m else m) kMapInstanceTypeOffset ↦[2] type)%I.
(** The types of the objects that can have internal fields. *)
Definition api_type (type : Z) : Prop :=
  type = kJSSpecialApiObjectType ∨ type = kJSObjectType ∨ kFirstJSApiObjectType ≤ type ≤ kLastJSApiObjectType.
#[global] Instance api_type_dec type : Decision (api_type type).
Proof. unfold api_type. apply _. Defined.
Definition internal_field_offset (i : nat) : Z := kJSObjectHeaderSize + kEmbedderDataSlotSize * Z.of_nat i.
Definition fields_at (obj : Z) (fields : list Z) : hpropI Z :=
  ([∗ list] i ↦ p ∈ fields, field_addr obj (internal_field_offset i) ↦[ptr_bytes] p)%I.

Lemma ReadTaggedPointerField_spec obj offset v :
  tagged_field obj offset v ⊢
  wp (ReadTaggedPointerField obj offset) (λ r, ⌜r = v⌝ ∗ tagged_field obj offset v).
Proof.
  unfold tagged_field, ReadTaggedPointerField, ReadRawField, field_addr. destruct V8_COMPRESS_POINTERS.
  - iIntros "(%low & %E & H)". mem_load. iApply wp_ret. iSplit; [done|]. iExists low. by iFrame.
  - iIntros "H". mem_load. iApply wp_ret. by iFrame.
Qed.

Lemma GetInstanceType_spec obj type :
  has_type obj type ⊢ wp (GetInstanceType obj) (λ r, ⌜r = type⌝ ∗ has_type obj type).
Proof.
  iIntros "(%m & Hm & Ht)". unfold GetInstanceType. wp_call ReadTaggedPointerField_spec with "Hm".
  iIntros (?) "[-> Hm]". unfold ReadRawField, field_addr. mem_load. iApply wp_ret. iSplit; [done|].
  iExists m. iFrame.
Qed.

(** The kind of an oddball (undefined, null, ...), a Smi in its header. *)
Definition tagged_bytes : nat := if V8_COMPRESS_POINTERS then 4%nat else ptr_bytes.
Definition oddball_kind (obj kind : Z) : hpropI Z :=
  (∃ smi, ⌜SmiValue smi = kind⌝ ∗ field_addr obj kOddballKindOffset ↦[tagged_bytes] smi)%I.

Lemma GetOddballKind_spec obj kind :
  oddball_kind obj kind ⊢ wp (GetOddballKind obj) (λ r, ⌜r = kind⌝ ∗ oddball_kind obj kind).
Proof.
  iIntros "(%smi & %E & H)". unfold GetOddballKind, ReadTaggedSignedField, ReadRawField, tagged_bytes, field_addr.
  iAssert (∀ k, (field_addr obj kOddballKindOffset ↦[tagged_bytes] smi -∗ wp (k smi) (λ r, ⌜r = kind⌝ ∗ oddball_kind obj kind)) -∗
            wp (ReadTaggedSignedField obj kOddballKindOffset ≫= k) (λ r, ⌜r = kind⌝ ∗ oddball_kind obj kind))%I
    with "[H]" as "Hread".
  { unfold ReadTaggedSignedField, ReadRawField, tagged_bytes, field_addr.
    iIntros (k) "Hk". destruct V8_COMPRESS_POINTERS; mem_load; by iApply "Hk". }
  iApply "Hread". iIntros "H". iApply wp_ret. iSplit; [done|]. iExists smi. by iFrame.
Qed.

(** [QuickIsOddball] on a Smi, on an oddball and on other objects. *)
Lemma QuickIsOddball_smi kinds this smi :
  HasHeapObjectTag smi = false →
  this ↦[ptr_bytes] smi ⊢ wp (QuickIsOddball kinds this) (λ b, ⌜b = false⌝ ∗ this ↦[ptr_bytes] smi).
Proof.
  iIntros (Ht) "H". unfold QuickIsOddball. mem_load. rewrite Ht. cbn [negb]. iApply wp_ret. by iFrame.
Qed.

Lemma QuickIsOddball_other kinds this obj type :
  HasHeapObjectTag obj = true → type ≠ kOddballType →
  this ↦[ptr_bytes] obj ∗ has_type obj type ⊢
  wp (QuickIsOddball kinds this) (λ b, ⌜b = false⌝ ∗ this ↦[ptr_bytes] obj ∗ has_type obj type).
Proof.
  iIntros (Ht Htype) "[H Hty]". unfold QuickIsOddball. mem_load. rewrite Ht. cbn [negb].
  wp_call GetInstanceType_spec with "Hty". iIntros (?) "[-> Hty]".
  rewrite (proj2 (Z.eqb_neq type kOddballType) Htype). cbn [negb]. iApply wp_ret. by iFrame.
Qed.

Lemma QuickIsOddball_oddball kinds this obj kind :
  HasHeapObjectTag obj = true →
  this ↦[ptr_bytes] obj ∗ has_type obj kOddballType ∗ oddball_kind obj kind ⊢
  wp (QuickIsOddball kinds this)
     (λ b, ⌜b = existsb (Z.eqb kind) kinds⌝ ∗ this ↦[ptr_bytes] obj ∗ has_type obj kOddballType ∗ oddball_kind obj kind).
Proof.
  iIntros (Ht) "(H & Hty & Hk)". unfold QuickIsOddball. mem_load. rewrite Ht. cbn [negb].
  wp_call GetInstanceType_spec with "Hty". iIntros (?) "[-> Hty]". rewrite Z.eqb_refl. cbn [negb].
  wp_call GetOddballKind_spec with "Hk". iIntros (?) "[-> Hk]". iApply wp_ret. by iFrame.
Qed.

Lemma QuickIsString_spec this obj type :
  HasHeapObjectTag obj = true →
  this ↦[ptr_bytes] obj ∗ has_type obj type ⊢
  wp (Value_QuickIsString this)
     (λ b, ⌜b = (type <? kFirstNonstringType)⌝ ∗ this ↦[ptr_bytes] obj ∗ has_type obj type).
Proof.
  iIntros (Ht) "[H Hty]". unfold Value_QuickIsString. mem_load. rewrite Ht. cbn [negb].
  wp_call GetInstanceType_spec with "Hty". iIntros (?) "[-> Hty]". iApply wp_ret. by iFrame.
Qed.
End layout.

(** The library's functions on such objects: the number of internal fields, and
    writing one of them. *)
Class JSObjects `{!V8Config, !V8Library} := {
  field_count : Z → nat → hpropI Z;
  InternalFieldCount_spec h obj k :
    h ↦[ptr_bytes] obj ∗ field_count obj k ⊢
    wp (InternalFieldCount h) (λ r, ⌜r = Z.of_nat k⌝ ∗ h ↦[ptr_bytes] obj ∗ field_count obj k);
  SetAlignedPointerInInternalField_spec h obj fields (i : nat) p :
    (i < length fields)%nat → 0 ≤ p < word_size ptr_bytes →
    h ↦[ptr_bytes] obj ∗ fields_at obj fields ⊢
    wp (SetAlignedPointerInInternalField h (Z.of_nat i) p)
       (λ _, h ↦[ptr_bytes] obj ∗ fields_at obj (<[i := p]> fields));
  CanHaveInternalField_spec type :
    api_type type → ⊢ wp (CanHaveInternalField type) (λ b, ⌜b = true⌝ : hpropI Z);
  Isolate_GetCurrent_spec : ⊢ wp Isolate_GetCurrent (λ _, True : hpropI Z);
}.

Section objects.
Context `{!V8Config, !V8Library, !JSObjects}.
Context (Hsandbox : V8_SANDBOXED_EXTERNAL_POINTERS = false) (Hchecks : V8_ENABLE_CHECKS = false).

(** A local handle [h] to the object [obj] with internal fields [fields]. *)
Definition js_object (h obj : Z) (fields : list Z) : hpropI Z :=
  (⌜h ≠ 0⌝ ∗ h ↦[ptr_bytes] obj ∗ (∃ type, ⌜api_type type⌝ ∗ has_type obj type) ∗
   field_count obj (length fields) ∗ fields_at obj fields)%I.

Lemma InternalFieldCount_object h obj fields :
  js_object h obj fields ⊢
  wp (InternalFieldCount h) (λ r, ⌜r = Z.of_nat (length fields)⌝ ∗ js_object h obj fields).
Proof.
  iIntros "(%Hh & Hs & Ht & Hc & Hf)".
  iApply (wp_wand with "[Hs Hc]"); [iApply InternalFieldCount_spec; iFrame|].
  iIntros (r) "(-> & Hs & Hc)". by iFrame.
Qed.

Lemma SetAlignedPointer_object h obj fields (i : nat) p :
  (i < length fields)%nat → 0 ≤ p < word_size ptr_bytes →
  js_object h obj fields ⊢
  wp (SetAlignedPointerInInternalField h (Z.of_nat i) p) (λ _, js_object h obj (<[i := p]> fields)).
Proof.
  iIntros (Hi Hp) "(%Hh & Hs & Ht & Hc & Hf)".
  iApply (wp_wand with "[Hs Hf]"); [iApply SetAlignedPointerInInternalField_spec; [done..|iFrame]|].
  iIntros (r) "[Hs Hf]". unfold js_object. rewrite length_insert. by iFrame.
Qed.

Lemma GetAlignedPointer_object h obj fields (i : nat) p :
  fields !! i = Some p →
  js_object h obj fields ⊢
  wp (Object_GetAlignedPointerFromInternalField h (Z.of_nat i)) (λ r, ⌜r = p⌝ ∗ js_object h obj fields).
Proof.
  iIntros (Hi) "(%Hh & Hs & (%type & %Htype & Ht) & Hc & Hf)".
  unfold Object_GetAlignedPointerFromInternalField, ReadExternalPointerField, GetIsolateForSandbox.
  rewrite Hchecks Hsandbox. mem_load.
  wp_call GetInstanceType_spec with "Ht". iIntros (?) "[-> Ht]".
  wp_norm. iApply wp_bind. iApply wp_wand; [by iApply CanHaveInternalField_spec|]. iIntros (?) "->".
  iDestruct (big_sepL_lookup_acc with "Hf") as "[Hp Hf]"; [done|].
  unfold ReadRawField, field_addr, internal_field_offset. mem_load. iApply wp_ret.
  iSplit; [done|]. iSplit; [done|]. iFrame. iSplitR; [done|]. by iApply "Hf".
Qed.
End objects.
