(* ===== verification/ObjectWrapProofs.v ===== *)
(** * The life of an [ObjectWrap]

    The state machine of a wrapped object, and the proof that the operations of
    [node_object_wrap.h] implement it: where it has no step the code is
    undefined (an [assert] fails). *)

From S2P Require Import Prelude HeapLogic ByteMemory V8Internal V8Value V8Handles V8Persistent V8Objects NodeObjectWrap.
Local Open Scope Z_scope.

(** ** The state machine *)

Inductive wrap_op : Type := Op_Ref | Op_Unref.

(** [refs_], a C++ [int], after an operation; [None] where the operation is not
    allowed. *)
Definition wrap_step (refs : Z) (o : wrap_op) : option Z :=
  match o with
  | Op_Ref => if refs <? 2 ^ 31 - 1 then Some (refs + 1) else None
  | Op_Unref => if 0 <? refs then Some (refs - 1) else None
  end.
Fixpoint wrap_steps (refs : Z) (os : list wrap_op) : option Z :=
  match os with [] => Some refs | o :: os => refs' ← wrap_step refs o; wrap_steps refs' os end.

Lemma wrap_step_range refs o refs' :
  0 ≤ refs < 2 ^ 31 → wrap_step refs o = Some refs' → 0 ≤ refs' < 2 ^ 31.
Proof. destruct o; cbn -[Z.pow]; intros; case_match; simplify_eq; lia. Qed.

(** What [operator delete] does to an object of [ObjectWrap]: it takes back the
    memory of one that was [allocated], and is not released twice. *)
Class ObjectAllocator `{!V8Config} (refs_ handle_ : Z → Z) (operator_delete : Z → mem unit) : Type := {
  allocated : Z → hpropI Z;
  released : Z → hpropI Z;
  operator_delete_law this :
    allocated this ∗ refs_ this ↦[4] 0 ∗ persistent_handle (handle_ this) None ⊢
    wp (operator_delete this) (λ _, released this);
}.

Section object_wrap.
Context `{!V8Config, !V8Library, !GlobalHandles}.
Context (refs_ handle_ : Z → Z) (WeakCallback_address : Z).

Abbreviation Ref := (ObjectWrap_Ref refs_ handle_).
Abbreviation Unref := (ObjectWrap_Unref refs_ handle_ WeakCallback_address).

Definition run_wrap_op (this : Z) (o : wrap_op) : mem unit :=
  match o with Op_Ref => Ref this | Op_Unref => Unref this end.
Fixpoint run_wrap_ops (this : Z) (os : list wrap_op) : mem unit :=
  match os with [] => mret tt | o :: os => run_wrap_op this o;; run_wrap_ops this os end.

(** A wrapped object: its counter, and its handle to [v], weak exactly when the
    counter is zero. *)
Definition wrapped (this v c refs : Z) : hpropI Z :=
  (⌜0 ≤ refs < 2 ^ 31⌝ ∗ refs_ this ↦[4] refs ∗
   persistent_handle (handle_ this) (Some (v, c, refs =? 0)))%I.

Lemma read_refs_spec this r :
  0 ≤ r < 2 ^ 31 → refs_ this ↦[4] r ⊢ wp (read_refs refs_ this) (λ x, ⌜x = r⌝ ∗ refs_ this ↦[4] r).
Proof.
  iIntros (Hr) "H". unfold read_refs. mem_steps. iFrame. iPureIntro. apply to_signed_id; [done|].
  unfold in_signed. lia.
Qed.

Lemma write_refs_spec this u r :
  0 ≤ r < 2 ^ 31 → refs_ this ↦[4] u ⊢ wp (write_refs refs_ this r) (λ _, refs_ this ↦[4] r).
Proof.
  iIntros (Hr) "H". unfold write_refs. rewrite bool_decide_true; [|unfold in_signed; lia].
  cbn [assert]. mem_steps. rewrite to_unsigned_id; [|unfold in_unsigned; lia].
  change (word_size 4) with (2 ^ 32). by rewrite Z.mod_small; [|lia].
Qed.

Lemma ObjectWrap_new_spec this a b :
  refs_ this ↦[4] a ∗ handle_ this ↦[ptr_bytes] b ⊢
  wp (ObjectWrap_new refs_ handle_ this)
     (λ _, refs_ this ↦[4] 0 ∗ persistent_handle (handle_ this) None).
Proof.
  iIntros "[Hr Hh]". unfold ObjectWrap_new, Persistent_init. mem_store.
  wp_call write_refs_spec with "Hr". iIntros ([]) "Hr". iApply wp_ret. iFrame.
Qed.

Lemma Ref_spec n this v c refs :
  refs < 2 ^ 31 - 1 →
  handles n ∗ wrapped this v c refs ⊢ wp (Ref this) (λ _, handles n ∗ wrapped this v c (refs + 1)).
Proof.
  iIntros (Hr) "(Hs & %Hrange & Hr & Hh)". unfold ObjectWrap_Ref.
  wp_call IsEmpty_spec with "Hh". iIntros (?) "[-> Hh]". rewrite bool_decide_false //. cbn [negb assert].
  wp_call ClearWeak_spec' with "Hs Hh". iIntros (_) "[Hs Hh]".
  wp_call read_refs_spec with "Hr". iIntros (?) "[-> Hr]".
  iApply (wp_wand with "[Hr]"); [iApply write_refs_spec; [lia|done]|]. iIntros (_) "Hr". iFrame.
  iSplit; [iPureIntro; lia|]. rewrite (_ : (refs + 1 =? 0) = false) //. lia.
Qed.

Lemma Unref_spec n this v c refs :
  0 < refs →
  handles n ∗ wrapped this v c refs ⊢ wp (Unref this) (λ _, handles n ∗ wrapped this v c (refs - 1)).
Proof.
  iIntros (Hr) "(Hs & %Hrange & Hr & Hh)". unfold ObjectWrap_Unref.
  wp_call IsEmpty_spec with "Hh". iIntros (?) "[-> Hh]". rewrite bool_decide_false //. cbn [negb assert].
  wp_call IsWeak_spec with "Hh". iIntros (?) "[-> Hh]". destruct (Z.eqb_spec refs 0); [lia|]. cbn [negb assert].
  wp_call read_refs_spec with "Hr". iIntros (?) "[-> Hr]". rewrite (proj2 (Z.gtb_lt refs 0) Hr).
  cbn [assert]. wp_call write_refs_spec with "Hr"; [lia|]. iIntros (_) "Hr".
  wp_call (read_refs_spec this (refs - 1)) with "Hr"; [lia|]. iIntros (?) "[-> Hr]".
  destruct (Z.eqb_spec (refs - 1) 0) as [E|E].
  - unfold ObjectWrap_MakeWeak. iApply (wp_wand with "[Hs Hh]"); [iApply SetWeak_spec; iFrame|].
    iIntros (_) "[Hs Hh]". unfold wrapped. rewrite E. iFrame. iPureIntro. lia.
  - iApply wp_ret. unfold wrapped. rewrite (_ : (refs - 1 =? 0) = false); [|lia]. iFrame. iPureIntro. lia.
Qed.

(** Where the state machine has no step, the code is undefined. *)
Lemma Unref_stuck n this v c :
  handles n ∗ wrapped this v c 0 ⊢ wp_stuck (Unref this).
Proof.
  iIntros "(Hs & _ & Hr & Hh)". unfold ObjectWrap_Unref.
  stuck_call IsEmpty_spec with "Hh". iIntros (?) "[-> Hh]". rewrite bool_decide_false //. cbn [negb assert].
  stuck_call IsWeak_spec with "Hh". iIntros (?) "[-> Hh]". cbn [negb assert Z.eqb].
  stuck_here.
Qed.

Lemma write_refs_stuck this r :
  2 ^ 31 ≤ r → ⊢ wp_stuck (write_refs refs_ this r).
Proof.
  intros Hr. unfold write_refs. rewrite bool_decide_false; [|unfold in_signed; lia].
  stuck_here.
Qed.

Lemma Ref_stuck n this v c refs :
  2 ^ 31 - 1 ≤ refs → handles n ∗ wrapped this v c refs ⊢ wp_stuck (Ref this).
Proof.
  iIntros (Hr) "(Hs & %Hrange & Hr & Hh)". unfold ObjectWrap_Ref.
  stuck_call IsEmpty_spec with "Hh". iIntros (?) "[-> Hh]". rewrite bool_decide_false //. cbn [negb assert].
  stuck_call ClearWeak_spec' with "Hs Hh". iIntros (_) "[Hs Hh]".
  stuck_call read_refs_spec with "Hr". iIntros (?) "[-> Hr]".
  iApply write_refs_stuck. lia.
Qed.

(** A handle that was never set, or reset, allows no operation. *)
Lemma op_stuck_empty this o : persistent_handle (handle_ this) None ⊢ wp_stuck (run_wrap_op this o).
Proof.
  iIntros "Hh". destruct o; cbn [run_wrap_op]; unfold ObjectWrap_Ref, ObjectWrap_Unref;
  stuck_call IsEmpty_spec with "Hh"; iIntros (?) "[-> Hh]"; rewrite bool_decide_true //; cbn [negb assert];
  stuck_here.
Qed.

(** One operation, and a sequence of them. *)
Lemma run_wrap_op_spec n this v c refs o refs' :
  wrap_step refs o = Some refs' →
  handles n ∗ wrapped this v c refs ⊢ wp (run_wrap_op this o) (λ _, handles n ∗ wrapped this v c refs').
Proof.
  destruct o; cbn -[Z.pow]; case_match eqn:E; intros; simplify_eq.
  - apply Ref_spec. lia.
  - apply Unref_spec. lia.
Qed.

Lemma run_wrap_op_stuck n this v c refs o :
  0 ≤ refs → wrap_step refs o = None →
  handles n ∗ wrapped this v c refs ⊢ wp_stuck (run_wrap_op this o).
Proof.
  destruct o; cbn -[Z.pow]; case_match eqn:E; intros; simplify_eq.
  - apply Ref_stuck. lia.
  - replace refs with 0 by lia. apply Unref_stuck.
Qed.

Lemma run_wrap_ops_spec n this v c os refs refs' :
  wrap_steps refs os = Some refs' →
  handles n ∗ wrapped this v c refs ⊢ wp (run_wrap_ops this os) (λ _, handles n ∗ wrapped this v c refs').
Proof.
  revert refs. induction os as [|o os IH]; cbn [wrap_steps run_wrap_ops]; intros refs Hr.
  { simplify_eq. iIntros "H". by iApply wp_ret. }
  destruct (wrap_step refs o) as [r|] eqn:Eo; [|done]. cbn in Hr.
  iIntros "H". wp_call run_wrap_op_spec with "H". iIntros ([]) "H".
  by iApply (IH with "H").
Qed.

Lemma run_wrap_ops_stuck n this v c os refs :
  0 ≤ refs < 2 ^ 31 → wrap_steps refs os = None →
  handles n ∗ wrapped this v c refs ⊢ wp_stuck (run_wrap_ops this os).
Proof.
  revert refs. induction os as [|o os IH]; cbn [wrap_steps run_wrap_ops]; intros refs Hrange Hr; [done|].
  destruct (wrap_step refs o) as [r|] eqn:Eo; cbn in Hr.
  - iIntros "H". stuck_call run_wrap_op_spec with "H". iIntros (_) "H".
    iApply (IH with "H"); [|done]. by eapply wrap_step_range.
  - iIntros "H". iApply wp_stuck_here. iApply (run_wrap_op_stuck with "H"); [lia|done].
Qed.

(** The destructor and the callback of the garbage collector free the node. *)
Lemma ObjectWrap_destroy_spec n this o :
  handles n ∗ persistent_handle (handle_ this) o ⊢
  wp (ObjectWrap_destroy handle_ this)
     (λ _, handles (owned_nodes o + n) ∗ persistent_handle (handle_ this) None).
Proof.
  iIntros "[Hs Hh]". unfold ObjectWrap_destroy, NodeObjectWrap.persistent.
  wp_call IsEmpty_spec with "Hh". iIntros (?) "[-> Hh]". destruct o as [[[v c] w]|].
  - rewrite bool_decide_false //. wp_call ClearWeak_spec' with "Hs Hh". iIntros (_) "[Hs Hh]".
    wp_call Reset_spec with "Hs Hh". iIntros (_) "[Hs Hh]". iApply wp_ret. iFrame.
  - rewrite bool_decide_true //. wp_norm. iApply wp_ret. iFrame.
Qed.

Lemma ObjectWrap_WeakCallback_spec operator_delete `{!ObjectAllocator refs_ handle_ operator_delete} n this v c data :
  wci_parameter_ data = this →
  handles n ∗ allocated this ∗ wrapped this v c 0 ⊢
  wp (ObjectWrap_WeakCallback refs_ handle_ operator_delete data) (λ _, handles (S n) ∗ released this).
Proof.
  iIntros (<-) "(Hs & Ha & _ & Hr & Hh)". unfold ObjectWrap_WeakCallback, ObjectWrap_delete.
  wp_call read_refs_spec with "Hr". iIntros (?) "[-> Hr]". cbn [assert Z.eqb].
  wp_call Reset_spec with "Hs Hh". iIntros (_) "[Hs Hh]".
  wp_call ObjectWrap_destroy_spec with "Hs Hh". iIntros (_) "[Hs Hh]".
  iApply (wp_wand with "[Ha Hr Hh]"); [iApply operator_delete_law; iFrame|].
  iIntros (_) "Hd". iFrame.
Qed.

Lemma WeakCallback_stuck operator_delete n this v c refs data :
  wci_parameter_ data = this → refs ≠ 0 →
  handles n ∗ wrapped this v c refs ⊢ wp_stuck (ObjectWrap_WeakCallback refs_ handle_ operator_delete data).
Proof.
  iIntros (<- Hr) "(Hs & %Hrange & Hr & Hh)". unfold ObjectWrap_WeakCallback, WeakCallbackInfo_GetParameter.
  stuck_call read_refs_spec with "Hr". iIntros (?) "[-> Hr]". rewrite (proj2 (Z.eqb_neq refs 0) Hr).
  cbn [assert]. stuck_here.
Qed.
End object_wrap.

(** ** Wrapping and unwrapping *)

Section wrap.
Context `{!V8Config, !V8Library, !GlobalHandles, !JSObjects}.
Context (refs_ handle_ : Z → Z) (WeakCallback_address : Z).
Abbreviation Wrap := (ObjectWrap_Wrap handle_ WeakCallback_address).

Lemma Wrap_spec n this h obj p ps :
  0 ≤ this < word_size ptr_bytes →
  handles (S n) ∗ refs_ this ↦[4] 0 ∗ persistent_handle (handle_ this) None ∗ js_object h obj (p :: ps) ⊢
  wp (Wrap this h) (λ _, handles n ∗ wrapped refs_ handle_ this obj 0 0 ∗ js_object h obj (this :: ps)).
Proof.
  iIntros (Hthis) "(Hs & Hr & Hh & Ho)". unfold ObjectWrap_Wrap, NodeObjectWrap.persistent.
  wp_call IsEmpty_spec with "Hh". iIntros (?) "[-> Hh]". rewrite bool_decide_true //. cbn [assert].
  wp_call InternalFieldCount_object with "Ho". iIntros (?) "[-> Ho]". cbn [length assert].
  rewrite (proj2 (Z.gtb_lt (Z.of_nat (S (length ps))) 0)); [|lia]. cbn [assert].
  wp_call (SetAlignedPointer_object h obj (p :: ps) 0 this) with "Ho"; [cbn; lia|].
  iIntros (_) "Ho". cbn [insert list_insert].
  wp_norm. iApply wp_bind. iApply wp_wand; [by iApply Isolate_GetCurrent_spec|]. iIntros (isolate) "_".
  iDestruct "Ho" as "(%Hne & Hslot & Ho)".
  wp_call Reset_Local_spec with "Hs Hh Hslot". iIntros (_) "(Hs & Hslot & Hh)".
  unfold ObjectWrap_MakeWeak. iApply (wp_wand with "[Hs Hh]"); [iApply SetWeak_spec; iFrame|].
  iIntros (_) "[Hs Hh]". cbn [owned_nodes]. by iFrame.
Qed.

Lemma Wrap_stuck_wrapped n this h v c refs :
  handles n ∗ wrapped refs_ handle_ this v c refs ⊢ wp_stuck (Wrap this h).
Proof.
  iIntros "(_ & _ & _ & Hh)". unfold ObjectWrap_Wrap, NodeObjectWrap.persistent.
  stuck_call IsEmpty_spec with "Hh". iIntros (?) "[-> Hh]". rewrite bool_decide_false //. cbn [assert].
  stuck_here.
Qed.

Lemma Wrap_stuck_no_field this h obj :
  persistent_handle (handle_ this) None ∗ js_object h obj [] ⊢ wp_stuck (Wrap this h).
Proof.
  iIntros "[Hh Ho]". unfold ObjectWrap_Wrap, NodeObjectWrap.persistent.
  stuck_call IsEmpty_spec with "Hh". iIntros (?) "[-> Hh]". rewrite bool_decide_true //. cbn [assert].
  stuck_call InternalFieldCount_object with "Ho". iIntros (?) "[-> Ho]". cbn [assert length Z.of_nat Z.gtb Z.compare].
  stuck_here.
Qed.

Context (Hsandbox : V8_SANDBOXED_EXTERNAL_POINTERS = false) (Hchecks : V8_ENABLE_CHECKS = false).

Lemma Unwrap_spec h obj p ps :
  js_object h obj (p :: ps) ⊢
  wp (ObjectWrap_Unwrap h) (λ r, ⌜r = p⌝ ∗ js_object h obj (p :: ps)).
Proof.
  iIntros "Ho". iAssert ⌜h ≠ 0⌝%I as %Hh; [iDestruct "Ho" as "[$ _]"|].
  unfold ObjectWrap_Unwrap, Local_IsEmpty. rewrite (proj2 (Z.eqb_neq h 0) Hh). cbn [negb assert].
  wp_call InternalFieldCount_object with "Ho". iIntros (?) "[-> Ho]". cbn [length].
  rewrite (proj2 (Z.gtb_lt (Z.of_nat (S (length ps))) 0)); [|lia]. cbn [assert]. wp_norm.
  by iApply (GetAlignedPointer_object Hsandbox Hchecks h obj (p :: ps) 0 p with "Ho").
Qed.
End wrap.
