(* ===== verification/V8Reads.v ===== *)
(** * The inline reads of heap objects

    What [v8-object.h], [v8-context.h] and [v8-primitive.h] read from a heap
    object without calling the engine: internal fields, embedder data, aligned
    pointers and the resources of external strings. A read that returns a value
    makes a local handle for it, which the engine's handle scope provides: its
    documented behaviour is a class of laws. *)

From S2P Require Import Prelude HeapLogic ByteMemory V8Internal V8InternalFacts V8Value V8Persistent V8Objects.
Local Open Scope Z_scope.

(** A handle scope with room for [n] more handles: a new handle is not empty and
    refers to the value. *)
Class LocalScopes `{!V8Config, !V8Library} := {
  local_slots : nat → hpropI Z;
  CreateHandle_spec n isolate v :
    0 ≤ v < word_size ptr_bytes →
    local_slots (S n) ⊢ wp (CreateHandle isolate v) (λ h, ⌜h ≠ 0⌝ ∗ local_slots n ∗ h ↦[ptr_bytes] v);
  IsolateFromNeverReadOnlySpaceObject_spec obj :
    ⊢ wp (IsolateFromNeverReadOnlySpaceObject obj) (λ _, True : hpropI Z);
}.

Section slots.
Context `{!V8Config}.

(** The word [raw] in a slot of [obj] stands for the tagged value [p]: it is
    [p], or ends in the low half of [p], which is then in the cage of [obj]. *)
Definition holds_tagged (obj raw p : Z) : Prop :=
  if V8_COMPRESS_POINTERS then
    to_unsigned 32 raw = to_unsigned 32 p ∧ in_unsigned 64 obj ∧ in_unsigned 64 p ∧ obj / 2 ^ 32 = p / 2 ^ 32
  else raw = p.

Lemma holds_tagged_decompress obj raw p :
  V8Config_ok _ → holds_tagged obj raw p →
  (if V8_COMPRESS_POINTERS then DecompressTaggedAnyField obj (to_unsigned 32 raw) else raw) = p.
Proof.
  unfold holds_tagged. intros [_ H8]. destruct V8_COMPRESS_POINTERS eqn:Hc; [|done].
  intros (-> & Ho & Hp & Hcage). apply decompress_same_cage; [unfold ptr_bits; by rewrite H8|done..].
Qed.

Lemma holds_tagged_range obj raw p :
  V8Config_ok _ → 0 ≤ raw < word_size ptr_bytes → holds_tagged obj raw p → 0 ≤ p < word_size ptr_bytes.
Proof.
  unfold holds_tagged. intros [_ H8] Hr. destruct V8_COMPRESS_POINTERS eqn:Hc; [|by intros ->].
  intros (_ & _ & Hp & _). unfold ptr_bytes. by rewrite H8.
Qed.

(** The embedder data of the native context [ctx]: a tagged pointer to the array
    [arr], whose slots hold [raws]. *)
Definition embedder_offset (i : nat) : Z := kEmbedderDataArrayHeaderSize + kEmbedderDataSlotSize * Z.of_nat i.
Definition context_data (ctx arr : Z) (raws : list Z) : hpropI Z :=
  (tagged_field ctx kNativeContextEmbedderDataOffset arr ∗
   [∗ list] i ↦ raw ∈ raws, field_addr arr (embedder_offset i) ↦[ptr_bytes] raw)%I.

(** A string of instance type [type] whose resource is at [resource]. *)
Definition external_string (this obj type resource : Z) : hpropI Z :=
  (this ↦[ptr_bytes] obj ∗ has_type obj type ∗ field_addr obj kStringResourceOffset ↦[ptr_bytes] resource)%I.
End slots.

Section reads.
Context `{!V8Config, !V8Library}.

Lemma ReadRawField_spec n obj offset v :
  field_addr obj offset ↦[n] v ⊢
  wp (ReadRawField n obj offset) (λ r, ⌜r = v⌝ ∗ field_addr obj offset ↦[n] v).
Proof. iIntros "H". unfold ReadRawField, field_addr. mem_load. iApply wp_ret. by iFrame. Qed.

(** With compressed pointers, a field that holds the low half of a pointer to
    the cage of the object reads as that pointer. *)
Lemma ReadTaggedPointerField_low obj offset p :
  V8Config_ok _ → V8_COMPRESS_POINTERS = true →
  in_unsigned 64 obj → in_unsigned 64 p → obj / 2 ^ 32 = p / 2 ^ 32 →
  field_addr obj offset ↦[4] to_unsigned 32 p ⊢
  wp (ReadTaggedPointerField obj offset) (λ r, ⌜r = p⌝ ∗ field_addr obj offset ↦[4] to_unsigned 32 p).
Proof.
  iIntros ([_ H8] Hc Ho Hp Hcage) "H". unfold ReadTaggedPointerField. rewrite Hc.
  wp_call ReadRawField_spec with "H". iIntros (?) "[-> H]". iApply wp_ret. iFrame. iPureIntro.
  apply decompress_same_cage; [unfold ptr_bits; by rewrite H8|done..].
Qed.

Section fast.
Context `{!JSObjects, !LocalScopes}.
Context (Hok : V8Config_ok _).
Context (Hsandbox : V8_SANDBOXED_EXTERNAL_POINTERS = false) (Hchecks : V8_ENABLE_CHECKS = false).

(** The end of the reads that return a value: decompress, find the isolate and
    make a handle. *)
Lemma new_handle_spec obj obj' raw p n :
  0 ≤ raw < word_size ptr_bytes → holds_tagged obj raw p →
  local_slots (S n) ⊢
  wp (let value := if V8_COMPRESS_POINTERS then DecompressTaggedAnyField obj (to_unsigned 32 raw) else raw in
      isolate ← IsolateFromNeverReadOnlySpaceObject obj'; CreateHandle isolate value)
     (λ h, ⌜h ≠ 0⌝ ∗ local_slots n ∗ h ↦[ptr_bytes] p).
Proof.
  iIntros (Hraw Hp) "Hs". cbv zeta. rewrite (holds_tagged_decompress _ _ _ Hok Hp).
  iApply wp_bind. iApply wp_wand; [iApply IsolateFromNeverReadOnlySpaceObject_spec|]. iIntros (isolate) "_".
  iApply (CreateHandle_spec with "Hs"). by eapply holds_tagged_range.
Qed.

Lemma Object_GetInternalField_spec h obj fields (i n : nat) raw p :
  fields !! i = Some raw → holds_tagged obj raw p →
  js_object h obj fields ∗ local_slots (S n) ⊢
  wp (Object_GetInternalField h (Z.of_nat i))
     (λ r, ⌜r ≠ 0⌝ ∗ r ↦[ptr_bytes] p ∗ js_object h obj fields ∗ local_slots n).
Proof.
  iIntros (Hi Hp) "[(%Hh & Hs & (%type & %Htype & Ht) & Hc & Hf) Hl]".
  unfold Object_GetInternalField. rewrite Hchecks. mem_load.
  wp_call GetInstanceType_spec with "Ht". iIntros (?) "[-> Ht]".
  wp_norm. iApply wp_bind. iApply wp_wand; [by iApply CanHaveInternalField_spec|]. iIntros (?) "->".
  iDestruct (big_sepL_lookup_acc with "Hf") as "[Hp Hf]"; [done|].
  iDestruct (word_range with "Hp") as %Hraw.
  wp_call ReadRawField_spec with "Hp". iIntros (?) "[-> Hp]".
  iApply (wp_wand with "[Hl]"); [by iApply (new_handle_spec with "Hl")|].
  iIntros (r) "($ & $ & $)". iFrame "Hs Hc". iSplit; [done|]. iSplitL "Ht"; [iExists type; by iFrame|].
  by iApply "Hf".
Qed.

Lemma Context_GetEmbedderData_spec this ctx arr raws (i n : nat) raw p :
  raws !! i = Some raw → holds_tagged arr raw p →
  this ↦[ptr_bytes] ctx ∗ context_data ctx arr raws ∗ local_slots (S n) ⊢
  wp (Context_GetEmbedderData this (Z.of_nat i))
     (λ r, ⌜r ≠ 0⌝ ∗ r ↦[ptr_bytes] p ∗ this ↦[ptr_bytes] ctx ∗ context_data ctx arr raws ∗ local_slots n).
Proof.
  iIntros (Hi Hp) "(Hs & [Ha Hf] & Hl)". unfold Context_GetEmbedderData. rewrite Hchecks. mem_load.
  wp_call ReadTaggedPointerField_spec with "Ha". iIntros (?) "[-> Ha]".
  iDestruct (big_sepL_lookup_acc with "Hf") as "[Hp Hf]"; [done|].
  iDestruct (word_range with "Hp") as %Hraw.
  wp_call ReadRawField_spec with "Hp". iIntros (?) "[-> Hp]". mem_load.
  iApply (wp_wand with "[Hl]"); [by iApply (new_handle_spec with "Hl")|].
  iIntros (r) "($ & $ & $)". iFrame. by iApply "Hf".
Qed.

Lemma Context_GetAlignedPointer_spec this ctx arr raws (i : nat) raw :
  raws !! i = Some raw →
  this ↦[ptr_bytes] ctx ∗ context_data ctx arr raws ⊢
  wp (Context_GetAlignedPointerFromEmbedderData this (Z.of_nat i))
     (λ r, ⌜r = raw⌝ ∗ this ↦[ptr_bytes] ctx ∗ context_data ctx arr raws).
Proof.
  iIntros (Hi) "(Hs & [Ha Hf])".
  unfold Context_GetAlignedPointerFromEmbedderData, GetIsolateForSandbox, ReadExternalPointerField.
  rewrite Hchecks Hsandbox. mem_load.
  wp_call ReadTaggedPointerField_spec with "Ha". iIntros (?) "[-> Ha]". wp_norm.
  iDestruct (big_sepL_lookup_acc with "Hf") as "[Hp Hf]"; [done|].
  iApply (wp_wand with "[Hp]"); [by iApply ReadRawField_spec|].
  iIntros (?) "[-> Hp]". iSplit; [done|]. iFrame. by iApply "Hf".
Qed.

(** ** External strings *)

Lemma String_GetExternalStringResource_spec this obj type resource :
  IsExternalTwoByteString type = true →
  external_string this obj type resource ⊢
  wp (String_GetExternalStringResource this) (λ r, ⌜r = resource⌝ ∗ external_string this obj type resource).
Proof.
  iIntros (Ht) "(Hs & Hty & Hr)".
  unfold String_GetExternalStringResource, GetIsolateForSandbox, ReadExternalPointerField.
  rewrite Hchecks Hsandbox. mem_load.
  wp_call GetInstanceType_spec with "Hty". iIntros (?) "[-> Hty]". rewrite Ht. wp_norm.
  wp_call ReadRawField_spec with "Hr". iIntros (?) "[-> Hr]". mem_steps. by iFrame.
Qed.

(** The representation and encoding of an instance type. *)
Definition is_external (type : Z) : Prop :=
  Z.land type kStringRepresentationAndEncodingMask = kExternalOneByteRepresentationTag ∨
  Z.land type kStringRepresentationAndEncodingMask = kExternalTwoByteRepresentationTag.
Definition string_encoding (type : Z) : Z := Z.land type kStringEncodingMask.

Lemma string_encoding_masked type :
  Z.land (Z.land type kStringRepresentationAndEncodingMask) kStringEncodingMask = string_encoding type.
Proof. by rewrite -Z.land_assoc. Qed.
Lemma string_encoding_range type : 0 ≤ string_encoding type < word_size 4.
Proof.
  assert (string_encoding type = string_encoding type mod 2 ^ 4) as ->.
  { unfold string_encoding, kStringEncodingMask. by rewrite -Z.land_ones // -Z.land_assoc. }
  change (word_size 4) with (2 ^ 32). pose proof (Z.mod_pos_bound (string_encoding type) (2 ^ 4)). lia.
Qed.

Lemma String_GetExternalStringResourceBase_spec this out obj type resource old :
  is_external type →
  external_string this obj type resource ∗ out ↦[4] old ⊢
  wp (String_GetExternalStringResourceBase this out)
     (λ r, ⌜r = resource⌝ ∗ external_string this obj type resource ∗ out ↦[4] string_encoding type).
Proof.
  iIntros (Ht) "((Hs & Hty & Hr) & Ho)".
  unfold String_GetExternalStringResourceBase, GetIsolateForSandbox, ReadExternalPointerField.
  rewrite Hchecks Hsandbox. mem_load.
  wp_call GetInstanceType_spec with "Hty". iIntros (?) "[-> Hty]". cbv zeta.
  rewrite string_encoding_masked. mem_store. rewrite Z.mod_small; [|apply string_encoding_range].
  rewrite (_ : (_ =? _) || (_ =? _) = true).
  2: { apply orb_true_iff. rewrite !Z.eqb_eq. by destruct Ht as [-> | ->]; [left|right]. }
  wp_norm. wp_call ReadRawField_spec with "Hr". iIntros (?) "[-> Hr]". mem_steps. by iFrame.
Qed.
End fast.
End reads.
