(* ===== verification/V8Engine.v ===== *)
(** * An engine for the examples

    A small implementation of the functions of [V8Library] that the handles and
    the wrapped objects use: a table of nodes with a free list. It shows that
    the laws of [GlobalHandles] can be met, and lets the examples run. *)

From S2P Require Import Prelude HeapLogic ByteMemory V8Internal V8InternalFacts V8Specs V8Value V8Handles V8Persistent V8Objects V8Reads.
Local Open Scope Z_scope.

Section engine.
Context `{!V8Config}.

(** The address of the head of the free list; a free node holds the next one. *)
Definition free_head : Z := 8.
Definition pop_node : mem Z :=
  p ← load_word ptr_bytes free_head;
  next ← load_word ptr_bytes p;
  store_word ptr_bytes free_head next;;
  mret p.
Definition push_node (p : Z) : mem unit :=
  head ← load_word ptr_bytes free_head;
  store_word ptr_bytes p head;;
  store_word ptr_bytes free_head p.
Definition new_node (slot : Z) : mem Z :=
  v ← load_word ptr_bytes slot;
  p ← pop_node;
  store_word ptr_bytes p v;;
  store_word 2 (addr_add p kNodeClassIdOffset) 0;;
  store_word 1 (addr_add p kNodeFlagsOffset) 1;;
  mret p.
(** The slots of the current handle scope: a free list of its own. *)
Definition local_head : Z := 16.
Definition new_slot (v : Z) : mem Z :=
  h ← load_word ptr_bytes local_head;
  next ← load_word ptr_bytes h;
  store_word ptr_bytes local_head next;;
  store_word ptr_bytes h v;;
  mret h.
(** The number of internal fields of an object is kept in its second word. *)
Definition field_count_address (obj : Z) : Z := field_addr obj 8.

#[global] Instance engine : V8Library := {|
  number := Z;
  CheckInitializedImpl _ := mret tt;
  IsolateFromNeverReadOnlySpaceObject _ := mret 0;
  DecodeExternalPointerImpl _ e _ := mret e;
  lib_ShouldThrowOnError _ := mret false;
  CanHaveInternalField type := mret (bool_decide (api_type type));
  CreateHandle _ v := new_slot v;
  EscapeSlot _ v := mret v;
  ToLocalEmpty := undef;
  FullIsUndefined _ := mret false;
  FullIsNull _ := mret false;
  FullIsString _ := mret false;
  SlowGetInternalField _ _ := undef;
  SlowGetAlignedPointerFromInternalField _ _ := undef;
  SlowGetEmbedderData _ _ := undef;
  SlowGetAlignedPointerFromEmbedderData _ _ := undef;
  GetExternalStringResourceSlow _ := undef;
  VerifyExternalStringResource _ := mret tt;
  GetExternalStringResourceBaseSlow _ _ := undef;
  VerifyExternalStringResourceBase _ _ := mret tt;
  Number_New _ _ := undef;
  Integer_New _ _ := undef;
  Integer_NewFromUnsigned _ _ := undef;
  Eternalize _ _ := mret 1;
  GlobalizeReference _ slot := new_node slot;
  CopyGlobalReference p := new_node p;
  DisposeGlobal p := push_node p;
  MoveGlobalReference _ _ := mret tt;
  MakeWeak p _ _ _ := UpdateNodeState p kNodeStateIsWeakValue;
  MakeWeakPhantom h := p ← load_word ptr_bytes h; UpdateNodeState p kNodeStateIsWeakValue;
  lib_ClearWeak p := UpdateNodeState p 1;; mret 0;
  lib_AnnotateStrongRetainer _ _ := mret tt;
  GlobalizeTracedReference _ slot _ _ := new_node slot;
  MoveTracedReference from to := v ← load_word ptr_bytes from; store_word ptr_bytes to v;; store_word ptr_bytes from 0;
  CopyTracedReference from to := v ← load_word ptr_bytes from; p ← new_node v; store_word ptr_bytes to p;
  DisposeTracedReference p := push_node p;
  TracedReferenceBase_CheckValue _ := mret tt;
  InternalFieldCount h := obj ← load_word ptr_bytes h; load_word ptr_bytes (field_count_address obj);
  SetAlignedPointerInInternalField h index p :=
    obj ← load_word ptr_bytes h; store_word ptr_bytes (field_addr obj (kJSObjectHeaderSize + kEmbedderDataSlotSize * index)) p;
  Isolate_GetCurrent := mret 0;
|}.

(** ** The laws *)

Fixpoint free_nodes (p : Z) (n : nat) : hpropI Z :=
  match n with
  | O => ⌜p = 0⌝
  | S n => ∃ next c f, node p next c f ∗ free_nodes next n
  end%I.
Definition engine_handles (n : nat) : hpropI Z := (∃ p, free_head ↦[ptr_bytes] p ∗ free_nodes p n)%I.

Lemma free_nodes_range p n : free_nodes p n ⊢ ⌜0 ≤ p < word_size ptr_bytes⌝.
Proof.
  destruct n; cbn [free_nodes]; [iIntros "->"; iPureIntro; pose proof (word_size_pos ptr_bytes); lia|].
  iIntros "(% & % & % & (%Hp & _) & _)". iPureIntro. lia.
Qed.

Lemma node_open p v c f :
  node p v c f ⊣⊢
  ⌜0 < p < word_size ptr_bytes⌝ ∗ p ↦[ptr_bytes] v ∗ addr_add p kNodeClassIdOffset ↦[2] c ∗ addr_add p kNodeFlagsOffset ↦[1] f.
Proof. done. Qed.

Lemma new_node_spec n h v :
  engine_handles (S n) ∗ h ↦[ptr_bytes] v ⊢
  wp (new_node h) (λ p, engine_handles n ∗ h ↦[ptr_bytes] v ∗ ∃ f, ⌜is_weak f = false⌝ ∗ node p v 0 f).
Proof.
  iIntros "[(%p & Hp & %next & %c & %f & Hn & Hfree) Hv]". rewrite node_open.
  iDestruct "Hn" as "(%Hp & Hn & Hc & Hf)". iDestruct (word_range with "Hv") as %Hv.
  iDestruct (free_nodes_range with "Hfree") as %Hnext.
  unfold new_node, pop_node. mem_steps. rewrite !(Z.mod_small next) // !(Z.mod_small v) //.
  iFrame "Hv". iSplitL "Hp Hfree"; [iExists next; iFrame|]. iExists 1. rewrite node_open. by iFrame.
Qed.

Lemma push_node_spec n p v c f :
  engine_handles n ∗ node p v c f ⊢ wp (push_node p) (λ _, engine_handles (S n)).
Proof.
  iIntros "[(%q & Hq & Hfree) Hn]". rewrite node_open. iDestruct "Hn" as "(%Hp & Hn & Hc & Hf)".
  iDestruct (free_nodes_range with "Hfree") as %Hq.
  unfold push_node. mem_steps. rewrite !Z.mod_small //; [|lia].
  iExists p. iFrame "Hq". cbn [free_nodes]. iExists q, c, f. rewrite node_open. by iFrame.
Qed.

Lemma UpdateNodeState_node p v c f s :
  0 ≤ s < 8 →
  node p v c f ⊢ wp (UpdateNodeState p s) (λ _, ∃ f', ⌜is_weak f' = (s =? kNodeStateIsWeakValue)⌝ ∗ node p v c f').
Proof.
  iIntros (Hs) "(%Hp & Hv & Hc & Hf)".
  iApply (wp_wand with "[Hf]"); [iApply UpdateNodeState_spec; iApply "Hf"|].
  iIntros (_) "Hf". iExists (set_state f s). iFrame. iPureIntro. split; [|done].
  unfold is_weak. by rewrite set_state_get.
Qed.

#[global] Program Instance engine_GlobalHandles : GlobalHandles := {| handles := engine_handles |}.
Next Obligation. intros. apply new_node_spec. Qed.
Next Obligation.
  intros n p v c f. iIntros "(Hs & %Hp & Hv & Hcf)".
  iApply (wp_wand with "[Hs Hv]"); [iApply (new_node_spec n p v); iSplitL "Hs"; done|].
  iIntros (q) "(Hs & Hv & Hn)". iSplitL "Hs"; [done|]. iSplitR "Hn"; [by iFrame|done].
Qed.
Next Obligation. intros. apply push_node_spec. Qed.
Next Obligation. intros. iIntros "H". iApply wp_ret. done. Qed.
Next Obligation.
  intros. iIntros "[Hs H]".
  iApply (wp_wand with "[H]"); [by iApply (UpdateNodeState_node with "H")|].
  iIntros (_) "H". by iSplitL "Hs".
Qed.
Next Obligation.
  intros. iIntros "[Hs H]". iApply wp_bind.
  iApply (wp_wand with "[H]"); [by iApply (UpdateNodeState_node with "H")|].
  iIntros (_) "H". iApply wp_ret. by iSplitL "Hs".
Qed.

#[global] Program Instance engine_JSObjects : JSObjects :=
  {| field_count obj k := (field_count_address obj ↦[ptr_bytes] Z.of_nat k)%I |}.
Next Obligation.
  intros h obj k. iIntros "[Hh Hc]". cbn [InternalFieldCount engine]. mem_steps. by iFrame.
Qed.
Next Obligation.
  intros h obj fields i p Hi Hp. iIntros "[Hh Hf]". cbn [SetAlignedPointerInInternalField engine].
  destruct (lookup_lt_is_Some_2 fields i Hi) as [q Hq].
  iDestruct (big_sepL_insert_acc with "Hf") as "[Hq Hf]"; [done|].
  mem_load. mem_store. iApply wp_ret. rewrite Z.mod_small //. iFrame. by iApply "Hf".
Qed.
Next Obligation. intros type Ht. iApply wp_ret. iPureIntro. by apply bool_decide_true. Qed.
Next Obligation. by iApply wp_ret. Qed.

Fixpoint free_slots (p : Z) (n : nat) : hpropI Z :=
  match n with
  | O => ⌜p = 0⌝
  | S n => ⌜0 < p < word_size ptr_bytes⌝ ∗ ∃ next, p ↦[ptr_bytes] next ∗ free_slots next n
  end%I.
Definition engine_slots (n : nat) : hpropI Z := (∃ p, local_head ↦[ptr_bytes] p ∗ free_slots p n)%I.

#[global] Program Instance engine_LocalScopes : LocalScopes := {| local_slots := engine_slots |}.
Next Obligation.
  intros n isolate v Hv. iIntros "(%p & Hp & %Hr & %next & Hn & Hfree)". cbn [CreateHandle engine].
  iDestruct (word_range with "Hn") as %Hnext. unfold new_slot. mem_steps.
  rewrite !Z.mod_small //. iSplit; [iPureIntro; lia|]. iFrame.
Qed.
Next Obligation. intros. by iApply wp_ret. Qed.
End engine.

(** The configuration of the binaries of Node.js for 64-bit machines. *)
#[export] Instance node64 : V8Config := {|
  sizeof_ptr := 8;
  V8_COMPRESS_POINTERS := false;
  V8_31BIT_SMIS_ON_64BIT_ARCH := false;
  V8_SANDBOX := false;
  V8_SANDBOXED_EXTERNAL_POINTERS := false;
  V8_SANDBOXED_POINTERS := false;
  V8_MAP_PACKING := false;
  V8_ENABLE_CHECKS := false;
|}.
Lemma node64_ok : V8Config_ok node64.
Proof. split; [by right|done]. Qed.

