(* ===== verification/V8Traced.v ===== *)
(** * Traced references against the engine's interface

    What the headers rely on in the engine's storage of traced references, as a
    class of laws, and what the operations of [TracedReferenceBase] and
    [TracedReference] do under it. *)

From S2P Require Import Prelude HeapLogic ByteMemory V8Internal V8Value V8Handles V8Persistent V8Objects V8Engine.
Local Open Scope Z_scope.

(** The documented behaviour of the functions of [api_internal] for traced
    references; [n] is the number of nodes there is still room for. A copy fills
    an empty reference with a node of its own. *)
Class TracedHandles `{!V8Config, !V8Library} := {
  traced_handles : nat → hpropI Z;
  GlobalizeTracedReference_spec n isolate h slot mode v :
    traced_handles (S n) ∗ h ↦[ptr_bytes] v ⊢
    wp (GlobalizeTracedReference isolate h slot mode)
       (λ p, traced_handles n ∗ h ↦[ptr_bytes] v ∗ ∃ f, node p v 0 f);
  CopyTracedReference_spec n from to p v c f :
    traced_handles (S n) ∗ from ↦[ptr_bytes] p ∗ node p v c f ∗ to ↦[ptr_bytes] 0 ⊢
    wp (CopyTracedReference from to)
       (λ _, traced_handles n ∗ from ↦[ptr_bytes] p ∗ node p v c f ∗
             ∃ q f', to ↦[ptr_bytes] q ∗ node q v 0 f');
  DisposeTracedReference_spec n p v c f :
    traced_handles n ∗ node p v c f ⊢ wp (DisposeTracedReference p) (λ _, traced_handles (S n));
}.

Section traced.
Context `{!V8Config, !V8Library, !TracedHandles}.

(** A traced reference: empty, or the owner of a node with an object and a class
    id. *)
Definition traced_reference (this : Z) (o : option (Z * Z)) : hpropI Z :=
  match o with
  | None => this ↦[ptr_bytes] 0
  | Some (v, c) => ∃ p f, this ↦[ptr_bytes] p ∗ node p v c f
  end%I.
Definition traced_nodes (o : option (Z * Z)) : nat := match o with Some _ => 1 | None => 0 end.
(** What a copy has: the object, and no class id. *)
Definition traced_copy (o : option (Z * Z)) : option (Z * Z) := (λ '(v, _), (v, 0)) <$> o.

Lemma traced_IsEmpty_spec this o :
  traced_reference this o ⊢
  wp (TracedReferenceBase_IsEmpty this) (λ b, ⌜b = bool_decide (o = None)⌝ ∗ traced_reference this o).
Proof.
  iIntros "H". unfold TracedReferenceBase_IsEmpty. destruct o as [[v c]|].
  - iDestruct "H" as (p f) "(Ht & %Hp & Hn)". mem_load. iApply wp_ret.
    iSplit; [iPureIntro; apply Z.eqb_neq; lia|]. iExists p, f. by iFrame.
  - unfold traced_reference. mem_load. iApply wp_ret. by iFrame.
Qed.

Lemma traced_Reset_spec n this o :
  traced_handles n ∗ traced_reference this o ⊢
  wp (TracedReferenceBase_Reset this) (λ _, traced_handles (traced_nodes o + n) ∗ traced_reference this None).
Proof.
  iIntros "[Hs H]". unfold TracedReferenceBase_Reset. wp_call traced_IsEmpty_spec with "H". iIntros (?) "[-> H]".
  destruct o as [[v c]|]; [|rewrite bool_decide_true //; iApply wp_ret; iFrame].
  rewrite bool_decide_false //. iDestruct "H" as (p f) "[Ht Hn]". mem_load.
  wp_call DisposeTracedReference_spec with "Hs Hn". iIntros (_) "Hs".
  unfold TracedReferenceBase_SetSlotThreadSafe. mem_steps. unfold traced_reference. iFrame.
Qed.

Lemma store_traced {A} this u p v c f (k : unit → mem A) Φ :
  this ↦[ptr_bytes] u ∗ node p v c f ⊢
  (traced_reference this (Some (v, c)) -∗ wp (k tt) Φ) -∗
  wp (store_word ptr_bytes this p ≫= k) Φ.
Proof.
  iIntros "[Ht Hn] HΦ". iDestruct "Hn" as "[%Hp Hn]". mem_store. iApply "HΦ".
  rewrite Z.mod_small; [|lia]. iExists p, f. by iFrame.
Qed.

(** [Reset(isolate, other)]: the slot of [other], or an empty handle. *)
Lemma traced_Reset_Local_spec n this o isolate h v :
  h ≠ 0 →
  traced_handles (S n) ∗ traced_reference this o ∗ h ↦[ptr_bytes] v ⊢
  wp (TracedReference_Reset_Local this isolate h)
     (λ _, traced_handles (traced_nodes o + n) ∗ h ↦[ptr_bytes] v ∗ traced_reference this (Some (v, 0))).
Proof.
  iIntros (Hh) "(Hs & Ht & Hv)". unfold TracedReference_Reset_Local, Local_IsEmpty.
  wp_call traced_Reset_spec with "Hs Ht". iIntros (_) "[Hs Ht]". destruct (Z.eqb_spec h 0); [done|].
  cbn [traced_reference]. unfold BasicTracedReference_New. destruct (Z.eqb_spec h 0); [done|].
  rewrite -plus_n_Sm. wp_call GlobalizeTracedReference_spec with "Hs Hv".
  iIntros (p) "(Hs & Hv & %f & Hn)". unfold TracedReferenceBase_SetSlotThreadSafe. wp_norm. wp_tail.
  iApply (store_traced with "[$Ht $Hn]"). iIntros "Ht". iApply wp_ret. iFrame.
Qed.
Lemma traced_Reset_empty_spec n this o isolate :
  traced_handles n ∗ traced_reference this o ⊢
  wp (TracedReference_Reset_Local this isolate Local_empty)
     (λ _, traced_handles (traced_nodes o + n) ∗ traced_reference this None).
Proof.
  iIntros "[Hs Ht]". unfold TracedReference_Reset_Local.
  wp_call traced_Reset_spec with "Hs Ht". iIntros (_) "[Hs Ht]". iApply wp_ret. iFrame.
Qed.

Lemma traced_copy_assign_spec n this rhs o o' :
  this ≠ rhs →
  traced_handles (traced_nodes o' + n) ∗ traced_reference this o ∗ traced_reference rhs o' ⊢
  wp (TracedReference_copy_assign this rhs)
     (λ _, traced_handles (traced_nodes o + n) ∗ traced_reference rhs o' ∗
           traced_reference this (traced_copy o')).
Proof.
  iIntros (Hne) "(Hs & Ht & Hv)". unfold TracedReference_copy_assign.
  destruct (Z.eqb_spec this rhs); [done|]. cbn [negb].
  wp_call traced_Reset_spec with "Hs Ht". iIntros (_) "[Hs Ht]". cbn [traced_reference].
  destruct o' as [[v c]|]; cbn [traced_nodes traced_copy fmap option_fmap option_map traced_reference].
  2:{ mem_load. iApply wp_ret. iFrame. }
  iDestruct "Hv" as (p f) "(Hv & %Hp & Hn)". mem_load. destruct (Z.eqb_spec p 0); [lia|]. cbn [negb].
  rewrite -plus_n_Sm. iApply (wp_wand with "[Hs Ht Hv Hn]").
  { iApply (CopyTracedReference_spec _ rhs this p v c f). iFrame "Hs Ht Hv". by iFrame. }
  iIntros (_) "($ & $ & $ & %q & %g & Ht & Hq)". iExists q, g. iFrame.
Qed.

Lemma traced_copy_new_spec n this rhs u o :
  this ≠ rhs →
  traced_handles (traced_nodes o + n) ∗ this ↦[ptr_bytes] u ∗ traced_reference rhs o ⊢
  wp (TracedReference_copy_new this rhs)
     (λ _, traced_handles n ∗ traced_reference rhs o ∗ traced_reference this (traced_copy o)).
Proof.
  iIntros (Hne) "(Hs & Ht & Hv)". unfold TracedReference_copy_new, TracedReference_init. mem_store.
  by iApply (traced_copy_assign_spec n this rhs None o with "[$Hs $Ht $Hv]").
Qed.

(** Assignment to itself tests for it and does nothing. *)
Lemma traced_assign_self this h :
  TracedReference_copy_assign this this h = Ret (tt, h) ∧ TracedReference_move_assign this this h = Ret (tt, h).
Proof. unfold TracedReference_copy_assign, TracedReference_move_assign. by rewrite Z.eqb_refl. Qed.

(** Equality compares the objects, not the nodes. *)
Lemma traced_eq_spec a b o o' :
  traced_reference a o ∗ traced_reference b o' ⊢
  wp (TracedReferenceBase_eq a b)
     (λ r, ⌜r = bool_decide (fst <$> o = fst <$> o')⌝ ∗ traced_reference a o ∗ traced_reference b o').
Proof.
  iIntros "[Ha Hb]". unfold TracedReferenceBase_eq, slots_equal, traced_reference.
  destruct o as [[v c]|], o' as [[v' c']|]; cbn [fmap option_fmap option_map fst];
    [iDestruct "Ha" as (p f) "(Ha & %Hp & Hpv & Hn)"; iDestruct "Hb" as (q g) "(Hb & %Hq & Hqv & Hm)"
    |iDestruct "Ha" as (p f) "(Ha & %Hp & Hpv & Hn)"|iDestruct "Hb" as (q g) "(Hb & %Hq & Hqv & Hm)"|];
    mem_load; mem_load; repeat (case_match; try lia).
  - mem_load. mem_load. iApply wp_ret. iSplit.
    + iPureIntro. destruct (Z.eqb_spec v v') as [->|]; [by rewrite bool_decide_true|].
      rewrite bool_decide_false //. by intros [= ].
    + iSplitL "Ha Hpv Hn"; [iExists p, f|iExists q, g]; by iFrame.
  - iApply wp_ret. iSplit; [by rewrite bool_decide_false|]. iSplitR "Hb"; [iExists p, f; by iFrame|done].
  - iApply wp_ret. iSplit; [iPureIntro; rewrite bool_decide_false //; apply Z.eqb_neq; lia|].
    iSplitL "Ha"; [done|iExists q, g; by iFrame].
  - iApply wp_ret. by iFrame.
Qed.
End traced.

(** ** The engine of the examples *)

#[global] Program Instance engine_TracedHandles `{!V8Config} : TracedHandles := {| traced_handles := engine_handles |}.
Next Obligation.
  intros. iIntros "H". iApply (wp_wand with "[H]"); [by iApply new_node_spec|].
  iIntros (p) "($ & $ & %g & _ & Hn)". by iExists g.
Qed.
Next Obligation.
  intros V8Config0 n from to p v c f. iIntros "(Hs & Hfrom & (%Hp & Hv & Hcf) & Hto)".
  cbn [CopyTracedReference engine]. mem_load.
  iApply wp_bind. iApply (wp_wand with "[Hs Hv]"); [iApply (new_node_spec n p v); iSplitL "Hs"; done|].
  iIntros (q) "(Hs & Hv & %g & _ & Hn)". rewrite (node_open q). iDestruct "Hn" as "(%Hq & Hn)".
  mem_steps. iSplitL "Hs"; [done|]. iFrame "Hfrom". iSplitL "Hv Hcf"; [by iFrame|].
  iExists q, g. iSplitL "Hto"; [rewrite Z.mod_small //; lia|]. rewrite node_open. by iFrame.
Qed.
Next Obligation. intros. apply push_node_spec. Qed.
