(* ===== verification/V8Models.v ===== *)
(** * Memories for the statements about the V8 headers

    Words that make up the assertions of the specifications, with the engine of
    [V8Engine]. *)

From S2P Require Import Prelude HeapLogic ByteMemory V8Internal V8Value V8Handles V8Callback V8Specs V8Persistent V8Objects V8Engine.
From S2P Require Import NodeObjectWrap ObjectWrapProofs.
Local Open Scope Z_scope.

Abbreviation words cs := ([∗ list] c ∈ cs, cell_word c)%I.

Lemma words_app cs ds (P Q : hpropI Z) :
  (words cs ⊢ P) → (words ds ⊢ Q) → words (cs ++ ds) ⊢ P ∗ Q.
Proof. intros HP HQ. by rewrite big_sepL_app HP HQ. Qed.

(** An allocator with a word before each object that is 1 while it is allocated;
    it overwrites what it releases, and stops at what is not allocated. *)
Definition release `{!V8Config} (header refs handle : Z) : mem unit :=
  h ← load_word ptr_bytes header;
  assert (h =? 1);;
  store_word ptr_bytes header 0;;
  store_word 4 refs 0xdd;;
  store_word ptr_bytes handle 0.
Lemma release_spec `{!V8Config} header refs handle x y :
  header ↦[ptr_bytes] 1 ∗ refs ↦[4] x ∗ handle ↦[ptr_bytes] y ⊢
  wp (release header refs handle) (λ _, header ↦[ptr_bytes] 0 ∗ refs ↦[4] 0xdd ∗ handle ↦[ptr_bytes] 0).
Proof.
  iIntros "(Ha & Hr & Hh)". unfold release. mem_load. cbn [assert Z.eqb Pos.eqb]. mem_steps. iFrame.
Qed.

Section models.
Context `{!V8Config}.

Definition node_words (p v c f : Z) : list (nat * Z * Z) :=
  [(ptr_bytes, p, v); (2%nat, addr_add p kNodeClassIdOffset, c); (1%nat, addr_add p kNodeFlagsOffset, f)].
Fixpoint free_words (ps : list Z) : list (nat * Z * Z) :=
  match ps with [] => [] | p :: ps => node_words p (default 0 (head ps)) 0 0 ++ free_words ps end.
Definition engine_words (ps : list Z) : list (nat * Z * Z) :=
  (ptr_bytes, free_head, default 0 (head ps)) :: free_words ps.
Definition handle_words (this p v c f : Z) : list (nat * Z * Z) :=
  (ptr_bytes, this, p) :: node_words p v c f.

Definition addresses_ok (ps : list Z) : bool := forallb (λ p, (0 <? p) && (p <? word_size ptr_bytes)) ps.

Lemma node_words_sat p v c f :
  addresses_ok [p] = true → words (node_words p v c f) ⊢ node p v c f.
Proof.
  cbn. rewrite andb_true_r andb_true_iff. intros [??]. unfold node.
  iIntros "($ & $ & $ & _)". iPureIntro. lia.
Qed.

Lemma engine_words_sat ps :
  addresses_ok ps = true → words (engine_words ps) ⊢ engine_handles (length ps).
Proof.
  intros Hps. iIntros "[Hp H]". iExists _. iFrame "Hp".
  iInduction ps as [|p ps] "IH"; [done|]. cbn [addresses_ok forallb] in Hps.
  apply andb_prop in Hps as [Hp Hps]. cbn [free_words]. iDestruct "H" as "[Hn H]".
  cbn [length free_nodes head default]. iExists _, 0, 0. iSplitL "Hn"; [|by iApply "IH"].
  iApply (node_words_sat with "Hn"). cbn. by rewrite Hp.
Qed.

Lemma handle_words_sat this p v c f w :
  addresses_ok [p] = true → is_weak f = w →
  words (handle_words this p v c f) ⊢ persistent_handle this (Some (v, c, w)).
Proof.
  intros Hp Hw. iIntros "[Ht Hn]". iExists p, f. iFrame "Ht". iSplit; [done|].
  by iApply (node_words_sat with "Hn").
Qed.

Lemma empty_words_sat this : words [(ptr_bytes, this, 0)] ⊢ persistent_handle this None.
Proof. by iIntros "[$ _]". Qed.

Lemma word_sat n a v : words [(n, a, v)] ⊢ a ↦[n] v.
Proof. by iIntros "[$ _]". Qed.

(** A wrapped object with its counter and its handle. *)
Lemma wrapped_words_sat refs_ handle_ this p v c f refs :
  addresses_ok [p] = true → is_weak f = (refs =? 0) → 0 ≤ refs < 2 ^ 31 →
  words ((4%nat, refs_ this, refs) :: handle_words (handle_ this) p v c f) ⊢
  wrapped refs_ handle_ this v c refs.
Proof.
  intros Hp Hw Hr. iIntros "[Hr H]". unfold wrapped. iFrame "Hr". iSplit; [done|].
  by iApply (handle_words_sat with "H").
Qed.

(** A JavaScript object with one internal field, and a handle to it. *)
Definition object_words (h obj map type field : Z) : list (nat * Z * Z) :=
  [(ptr_bytes, h, obj); (ptr_bytes, field_addr obj kHeapObjectMapOffset, map);
   (2%nat, field_addr map kMapInstanceTypeOffset, type);
   (ptr_bytes, field_count_address obj, 1);
   (ptr_bytes, field_addr obj (internal_field_offset 0), field)].

Lemma object_words_sat h obj map type field :
  V8_COMPRESS_POINTERS = false → V8_MAP_PACKING = false → h ≠ 0 → api_type type →
  words (object_words h obj map type field) ⊢ js_object h obj [field].
Proof.
  intros Hc Hm Hh Ht. iIntros "(Hs & Hmap & Htype & Hcount & Hf & _)".
  unfold js_object, fields_at. iSplit; [done|]. iFrame "Hs Hcount".
  iSplitL "Hmap Htype"; [|by iFrame]. iExists type. iSplit; [done|]. unfold has_type, tagged_field.
  rewrite Hc Hm. iExists map. iFrame.
Qed.
End models.
