(* ===== verification/V8HandleProperties.v ===== *)
(** * Properties of the handles and of [ObjectWrap]

    Each holds for every build configuration and every library that meets the
    laws of [GlobalHandles] (and [JSObjects], where objects are read); the
    witnesses run on the engine of [V8Engine]. *)

From S2P Require Import Prelude HeapLogic ByteMemory V8Internal V8Value V8Handles V8Callback V8Specs V8Persistent V8Objects V8Engine.
From S2P Require Import NodeObjectWrap ObjectWrapProofs V8Traced V8Models.
Local Open Scope Z_scope.

(** What a copy of a handle holds: the same object, class id 0 and not weak. *)
Definition cloned (o : option (Z * Z * bool)) : option (Z * Z * bool) :=
  (λ '(v, _, _), (v, 0, false)) <$> o.

Section statements.
Context `{!V8Config, !V8Library, !GlobalHandles}.

(** C7: assignment of handles. Assigning a copyable persistent handle releases
    the node of the target and clones that of the source, which stays as it was;
    but assigning a handle to itself empties it, because [Copy] resets the target
    before it reads the source. A global handle moves: the target takes over the
    node with its weakness and class id, having released its own, the source is
    left empty, and a move to itself changes nothing; no node is allocated. *)
Theorem handle_assignment_correct :
  (∀ n this that o o',
     ⦃ handles (owned_nodes o' + n) ∗ persistent_handle this o ∗ persistent_handle that o' ⦄
       Persistent_assign this that
       ⦃ _, handles (owned_nodes o + n) ∗ persistent_handle that o' ∗ persistent_handle this (cloned o') ⦄) ∧
  (∀ n this o,
     ⦃ handles n ∗ persistent_handle this o ⦄
       Persistent_assign this this
       ⦃ _, handles (owned_nodes o + n) ∗ persistent_handle this None ⦄) ∧
  (∀ n this rhs o o', this ≠ rhs →
     ⦃ handles n ∗ persistent_handle this o ∗ persistent_handle rhs o' ⦄ Global_move_assign this rhs
       ⦃ _, handles (owned_nodes o + n) ∗ persistent_handle this o' ∗ persistent_handle rhs None ⦄) ∧
  (∀ n this other u o,
     ⦃ handles n ∗ this ↦[ptr_bytes] u ∗ persistent_handle other o ⦄ Global_move_new this other
       ⦃ _, handles n ∗ persistent_handle this o ∗ persistent_handle other None ⦄) ∧
  (∀ this h, Global_move_assign this this h = Ret (tt, h)).
Proof.
  split_and!; intros; [apply wp_triple, Persistent_assign_spec|apply wp_triple, Persistent_assign_self_spec
    |apply wp_triple; by apply Global_move_assign_spec|apply wp_triple, Global_move_new_spec|apply Global_move_assign_self].
Qed.

(** C12: the node a persistent handle owns. Reset releases it, if any; Reset with
    a local handle or with another persistent handle makes the handle own a new
    node for the same object; Reset with itself leaves it empty. SetWeak makes it
    weak and ClearWeak strong again, as IsWeak reports, and neither changes the
    object the handle refers to or its class id; the class id that
    SetWrapperClassId stores is the one WrapperClassId reads back, while an empty
    handle ignores the first and returns 0. *)
Theorem PersistentBase_correct :
  (∀ n this o,
     ⦃ handles n ∗ persistent_handle this o ⦄ PersistentBase_Reset this
       ⦃ _, handles (owned_nodes o + n) ∗ persistent_handle this None ⦄) ∧
  (∀ n this o isolate h v, h ≠ 0 →
     ⦃ handles (S n) ∗ persistent_handle this o ∗ h ↦[ptr_bytes] v ⦄
       PersistentBase_Reset_Local this isolate h
       ⦃ _, handles (owned_nodes o + n) ∗ h ↦[ptr_bytes] v ∗ persistent_handle this (Some (v, 0, false)) ⦄) ∧
  (∀ n this that isolate o o',
     ⦃ handles (owned_nodes o' + n) ∗ persistent_handle this o ∗ persistent_handle that o' ⦄
       PersistentBase_Reset_Persistent this isolate that
       ⦃ _, handles (owned_nodes o + n) ∗ persistent_handle that o' ∗ persistent_handle this (cloned o') ⦄) ∧
  (∀ n this isolate o,
     ⦃ handles n ∗ persistent_handle this o ⦄ PersistentBase_Reset_Persistent this isolate this
       ⦃ _, handles (owned_nodes o + n) ∗ persistent_handle this None ⦄) ∧
  (∀ n this v c w parameter callback type,
    ⦃ handles n ∗ persistent_handle this (Some (v, c, w)) ⦄
      (w0 ← PersistentBase_IsWeak this;
       PersistentBase_SetWeak this parameter callback type;;
       w1 ← PersistentBase_IsWeak this;
       _ ← PersistentBase_ClearWeak this;
       w2 ← PersistentBase_IsWeak this;
       mret (w0, w1, w2))
      ⦃ r, ⌜r = (w, true, false)⌝ ∗ handles n ∗ persistent_handle this (Some (v, c, false)) ⦄) ∧
  (∀ this o class_id, 0 ≤ class_id < 2 ^ 16 →
    ⦃ persistent_handle this o ⦄
      (PersistentBase_SetWrapperClassId this class_id;; PersistentBase_WrapperClassId this)
      ⦃ r, ⌜r = match o with Some _ => class_id | None => 0 end⌝ ∗
            persistent_handle this ((λ '(v, _, w), (v, class_id, w)) <$> o) ⦄).
Proof.
  split_and!; [| | | |intros n this v c w parameter callback type|intros this o class_id Hc]; intros; apply wp_triple;
    [apply Reset_spec|by apply Reset_Local_spec|apply Reset_Persistent_spec|apply Reset_Persistent_self_spec| |].
  - iIntros "[Hs H]".
    wp_call IsWeak_spec with "H". iIntros (?) "[-> H]".
    wp_call SetWeak_spec with "Hs H". iIntros (_) "[Hs H]".
    wp_call IsWeak_spec with "H". iIntros (?) "[-> H]".
    wp_call ClearWeak_spec' with "Hs H". iIntros (_) "[Hs H]".
    wp_call IsWeak_spec with "H". iIntros (?) "[-> H]". iApply wp_ret. by iFrame.
  - iIntros "H". wp_call SetWrapperClassId_spec with "H".
    iIntros (_) "H". iApply (wp_wand with "[H]"); [by iApply WrapperClassId_spec|].
    iIntros (r) "[-> $]". by destruct o as [[[??]?]|].
Qed.

(** C13: traced references: assignment by copy releases the node of the target and
    gives it a node of its own with the object of the source, or empties it when
    the source is empty; assignment of a reference to itself, by copy or move,
    does nothing; Reset releases the node, and with a local handle takes a new
    one for its object; references are equal when they refer to the same object
    or are both empty, whichever nodes they own. *)
Theorem TracedReference_correct `{!TracedHandles} :
  (∀ n this rhs o o', this ≠ rhs →
    ⦃ traced_handles (traced_nodes o' + n) ∗ traced_reference this o ∗ traced_reference rhs o' ⦄
      TracedReference_copy_assign this rhs
      ⦃ _, traced_handles (traced_nodes o + n) ∗ traced_reference rhs o' ∗ traced_reference this (traced_copy o') ⦄) ∧
  (∀ this h, TracedReference_copy_assign this this h = Ret (tt, h) ∧ TracedReference_move_assign this this h = Ret (tt, h)) ∧
  (∀ n this o, ⦃ traced_handles n ∗ traced_reference this o ⦄ TracedReferenceBase_Reset this
    ⦃ _, traced_handles (traced_nodes o + n) ∗ traced_reference this None ⦄) ∧
  (∀ n this o isolate h v, h ≠ 0 →
    ⦃ traced_handles (S n) ∗ traced_reference this o ∗ h ↦[ptr_bytes] v ⦄ TracedReference_Reset_Local this isolate h
      ⦃ _, traced_handles (traced_nodes o + n) ∗ h ↦[ptr_bytes] v ∗ traced_reference this (Some (v, 0)) ⦄) ∧
  (∀ a b o o', ⦃ traced_reference a o ∗ traced_reference b o' ⦄ TracedReferenceBase_eq a b
    ⦃ r, ⌜r = bool_decide (fst <$> o = fst <$> o')⌝ ∗ traced_reference a o ∗ traced_reference b o' ⦄).
Proof.
  split_and!; intros; [| apply traced_assign_self | | |]; apply wp_triple.
  - by apply traced_copy_assign_spec.
  - by apply traced_Reset_spec.
  - by apply traced_Reset_Local_spec.
  - by apply traced_eq_spec.
Qed.

Context (refs_ handle_ : Z → Z) (WeakCallback_address : Z).
Abbreviation wrapped := (wrapped refs_ handle_).
Abbreviation run_wrap_ops := (run_wrap_ops refs_ handle_ WeakCallback_address).

(** C6: ObjectWrap refines a counter: after any sequence of Ref and Unref that
    the counter allows, [refs_] is the counter and the handle is weak exactly
    when it is zero; a sequence it does not allow (an Unref at zero, a Ref at
    INT_MAX) is undefined behaviour. *)
Theorem ObjectWrap_refines_counter n this v c refs os :
  (∀ refs', wrap_steps refs os = Some refs' →
     ⦃ handles n ∗ wrapped this v c refs ⦄ run_wrap_ops this os ⦃ _, handles n ∗ wrapped this v c refs' ⦄) ∧
  (wrap_steps refs os = None → 0 ≤ refs < 2 ^ 31 →
     ∀ h hf, (handles n ∗ wrapped this v c refs)%I h → h ##ₘ hf → run_wrap_ops this os (h ∪ hf) = Undef).
Proof.
  split; intros.
  - by apply wp_triple, run_wrap_ops_spec.
  - eapply wp_stuck_run; [by apply run_wrap_ops_stuck|done|done].
Qed.

Context `{!JSObjects} (operator_delete : Z → mem unit) `{!ObjectAllocator refs_ handle_ operator_delete}.

(** When the collector calls back, an object without references gives its node
    and its memory back, once each; with references left, the callback is
    undefined. So a whole life leaks nothing: constructed in raw memory, wrapped,
    referenced and unreferenced in any way that ends without references and
    collected, an object leaves the table with the free nodes it had. *)
Lemma ObjectWrap_collection v c data :
  let this := wci_parameter_ data in
  (∀ n, ⦃ handles n ∗ allocated this ∗ wrapped this v c 0 ⦄ ObjectWrap_WeakCallback refs_ handle_ operator_delete data
    ⦃ _, handles (S n) ∗ released this ⦄) ∧
  (∀ n refs h hf, refs ≠ 0 → (handles n ∗ wrapped this v c refs)%I h → h ##ₘ hf →
     ObjectWrap_WeakCallback refs_ handle_ operator_delete data (h ∪ hf) = Undef) ∧
  (∀ n a b h p ps os, 0 ≤ this < word_size ptr_bytes → wrap_steps 0 os = Some 0 →
     ⦃ handles (S n) ∗ allocated this ∗ refs_ this ↦[4] a ∗ handle_ this ↦[ptr_bytes] b ∗ js_object h v (p :: ps) ⦄
       (ObjectWrap_new refs_ handle_ this;; ObjectWrap_Wrap handle_ WeakCallback_address this h;;
        run_wrap_ops this os;; ObjectWrap_WeakCallback refs_ handle_ operator_delete data)
       ⦃ _, handles (S n) ∗ released this ∗ js_object h v (this :: ps) ⦄) ∧
  (∀ n o, ⦃ handles n ∗ persistent_handle (handle_ this) o ⦄ ObjectWrap_destroy handle_ this
     ⦃ _, handles (owned_nodes o + n) ∗ persistent_handle (handle_ this) None ⦄).
Proof.
  intros this. split_and!; intros.
  - apply wp_triple. by iApply ObjectWrap_WeakCallback_spec.
  - eapply wp_stuck_run; [by eapply WeakCallback_stuck|done|done].
  - apply wp_triple. iIntros "(Hs & Ha & Hr & Hh & Ho)".
    wp_call ObjectWrap_new_spec with "Hr Hh". iIntros (_) "[Hr Hh]".
    wp_call (Wrap_spec refs_ handle_ WeakCallback_address) with "Hs Hr Hh Ho".
    iIntros (_) "(Hs & Hw & Ho)".
    wp_call run_wrap_ops_spec with "Hs Hw". iIntros (_) "[Hs Hw]".
    iApply (wp_wand with "[Hs Ha Hw]"); [iApply ObjectWrap_WeakCallback_spec; [done|iFrame]|].
    iIntros (_) "[? ?]". iFrame.
  - by apply wp_triple, ObjectWrap_destroy_spec.
Qed.

(** Unwrap finds the object that Wrap tied to a JavaScript object, Wrap
    takes one node and leaves the object detached (no references, a weak
    handle); wrapping it twice is undefined, and so is an object without
    internal fields. *)
Lemma ObjectWrap_Wrap_Unwrap this h obj :
  V8_SANDBOXED_EXTERNAL_POINTERS = false → V8_ENABLE_CHECKS = false → 0 ≤ this < word_size ptr_bytes →
  (∀ n p ps,
     ⦃ handles (S n) ∗ refs_ this ↦[4] 0 ∗ persistent_handle (handle_ this) None ∗ js_object h obj (p :: ps) ⦄
       (ObjectWrap_Wrap handle_ WeakCallback_address this h;; ObjectWrap_Unwrap h)
       ⦃ r, ⌜r = this⌝ ∗ handles n ∗ wrapped this obj 0 0 ∗ js_object h obj (this :: ps) ⦄) ∧
  (∀ n v c refs m hf, (handles n ∗ wrapped this v c refs)%I m → m ##ₘ hf →
     ObjectWrap_Wrap handle_ WeakCallback_address this h (m ∪ hf) = Undef) ∧
  (∀ m hf, (persistent_handle (handle_ this) None ∗ js_object h obj [])%I m → m ##ₘ hf →
     ObjectWrap_Wrap handle_ WeakCallback_address this h (m ∪ hf) = Undef).
Proof.
  intros Hs Hc Hthis. split_and!; intros.
  - apply wp_triple. iIntros "H". wp_call (Wrap_spec refs_) with "H". iIntros (_) "(Hs & Hw & Ho)".
    iApply (wp_wand with "[Ho]"); [by iApply (Unwrap_spec Hs Hc)|]. iIntros (r) "[-> Ho]". by iFrame.
  - eapply wp_stuck_run; [by apply (Wrap_stuck_wrapped refs_)|done|done].
  - eapply wp_stuck_run; [by apply Wrap_stuck_no_field|done|done].
Qed.

(** C14: the life of an ObjectWrap. Unwrap finds the object that Wrap tied to a
    JavaScript object; Wrap takes one node and leaves the object detached (no
    references, a weak handle); wrapping it twice is undefined, and so is an
    object without internal fields. When the collector calls back, an object
    without references gives its node back and ends with an empty handle, the
    destructor does not touch the node again, and the memory is released, once;
    with references left, the callback is undefined. So a whole life leaks
    nothing: constructed in raw memory, wrapped, referenced and unreferenced in
    any way that ends without references and collected, an object is released and
    leaves the table with the free nodes it had. The destructor gives back the
    node of an object that still has one. *)
Theorem ObjectWrap_life v c data obj :
  (let this := wci_parameter_ data in
  (∀ n, ⦃ handles n ∗ allocated this ∗ wrapped this v c 0 ⦄ ObjectWrap_WeakCallback refs_ handle_ operator_delete data
    ⦃ _, handles (S n) ∗ released this ⦄) ∧
  (∀ n refs h hf, refs ≠ 0 → (handles n ∗ wrapped this v c refs)%I h → h ##ₘ hf →
     ObjectWrap_WeakCallback refs_ handle_ operator_delete data (h ∪ hf) = Undef) ∧
  (∀ n a b h p ps os, 0 ≤ this < word_size ptr_bytes → wrap_steps 0 os = Some 0 →
     ⦃ handles (S n) ∗ allocated this ∗ refs_ this ↦[4] a ∗ handle_ this ↦[ptr_bytes] b ∗ js_object h v (p :: ps) ⦄
       (ObjectWrap_new refs_ handle_ this;; ObjectWrap_Wrap handle_ WeakCallback_address this h;;
        run_wrap_ops this os;; ObjectWrap_WeakCallback refs_ handle_ operator_delete data)
       ⦃ _, handles (S n) ∗ released this ∗ js_object h v (this :: ps) ⦄) ∧
  (∀ n o, ⦃ handles n ∗ persistent_handle (handle_ this) o ⦄ ObjectWrap_destroy handle_ this
     ⦃ _, handles (owned_nodes o + n) ∗ persistent_handle (handle_ this) None ⦄)) ∧
  (∀ this h, V8_SANDBOXED_EXTERNAL_POINTERS = false → V8_ENABLE_CHECKS = false → 0 ≤ this < word_size ptr_bytes →
    (∀ n p ps,
       ⦃ handles (S n) ∗ refs_ this ↦[4] 0 ∗ persistent_handle (handle_ this) None ∗ js_object h obj (p :: ps) ⦄
         (ObjectWrap_Wrap handle_ WeakCallback_address this h;; ObjectWrap_Unwrap h)
         ⦃ r, ⌜r = this⌝ ∗ handles n ∗ wrapped this obj 0 0 ∗ js_object h obj (this :: ps) ⦄) ∧
    (∀ n v c refs m hf, (handles n ∗ wrapped this v c refs)%I m → m ##ₘ hf →
       ObjectWrap_Wrap handle_ WeakCallback_address this h (m ∪ hf) = Undef) ∧
    (∀ m hf, (persistent_handle (handle_ this) None ∗ js_object h obj [])%I m → m ##ₘ hf →
       ObjectWrap_Wrap handle_ WeakCallback_address this h (m ∪ hf) = Undef)).
Proof. split; [apply ObjectWrap_collection|intros; by apply ObjectWrap_Wrap_Unwrap]. Qed.
End statements.

(** ** Instances: 64-bit Node.js and the engine of the examples *)

(** A table with one free node, a weak handle at 0x100 and a strong one at
    0x108, both owners of a node. *)
Definition two_handles : byte_memory :=
  cells (engine_words [0x1000] ++ handle_words 0x100 0x2000 77 5 2 ++ handle_words 0x108 0x2010 78 6 1).
Lemma two_handles_sat :
  (handles 1 ∗ persistent_handle 0x100 (Some (77, 5, true)) ∗ persistent_handle 0x108 (Some (78, 6, false)))%I
    two_handles.
Proof.
  apply cells_intro; [vm_compute; reflexivity|].
  apply words_app; [by apply (engine_words_sat [0x1000])|].
  apply words_app; by apply handle_words_sat.
Qed.

Lemma handle_assignment_correct_witness :
  (∃ v h', Persistent_assign 0x100 0x108 two_handles = Ret (v, h') ∧
    (handles 1 ∗ persistent_handle 0x108 (Some (78, 6, false)) ∗
     persistent_handle 0x100 (Some (78, 0, false)))%I h') ∧
  (∃ v h', Global_move_assign 0x100 0x108 two_handles = Ret (v, h') ∧
    (handles 2 ∗ persistent_handle 0x100 (Some (78, 6, false)) ∗ persistent_handle 0x108 None)%I h').
Proof.
  destruct handle_assignment_correct as (Hassign & _ & Hmove & _). split.
  - exact (triple_run _ _ _ _ (Hassign 0%nat 0x100 0x108 (Some (77, 5, true)) (Some (78, 6, false))) two_handles_sat).
  - exact (triple_run _ _ _ _ (Hmove 1%nat 0x100 0x108 (Some (77, 5, true)) (Some (78, 6, false)) ltac:(done)) two_handles_sat).
Defined.

(** A strong handle at 0x100, a free node, and a slot of a local handle at
    0x200. *)
Definition handle_and_local : byte_memory :=
  cells (engine_words [0x1000] ++ handle_words 0x100 0x2000 77 5 1 ++ [(ptr_bytes, 0x200, 99)]).
Lemma handle_and_local_sat :
  (handles 1 ∗ persistent_handle 0x100 (Some (77, 5, false)) ∗ 0x200 ↦[ptr_bytes] 99)%I handle_and_local.
Proof.
  apply cells_intro; [vm_compute; reflexivity|].
  apply words_app; [by apply (engine_words_sat [0x1000])|].
  apply words_app; [by apply handle_words_sat|apply word_sat].
Qed.

(** One handle and no free node. *)
Definition one_handle : byte_memory := cells (engine_words [] ++ handle_words 0x100 0x2000 77 5 1).
Lemma one_handle_sat : (handles 0 ∗ persistent_handle 0x100 (Some (77, 5, false)))%I one_handle.
Proof.
  apply cells_intro; [vm_compute; reflexivity|].
  apply words_app; [by apply (engine_words_sat [])|by apply handle_words_sat].
Qed.

Lemma PersistentBase_correct_witness :
  (∃ v h', PersistentBase_Reset_Local 0x100 0 0x200 handle_and_local = Ret (v, h') ∧
    (handles 1 ∗ 0x200 ↦[ptr_bytes] 99 ∗ persistent_handle 0x100 (Some (99, 0, false)))%I h') ∧
  (∃ r h',
    (w0 ← PersistentBase_IsWeak 0x100;
     PersistentBase_SetWeak 0x100 7 8 0;;
     w1 ← PersistentBase_IsWeak 0x100;
     _ ← PersistentBase_ClearWeak 0x100;
     w2 ← PersistentBase_IsWeak 0x100;
     mret (w0, w1, w2)) one_handle = Ret (r, h') ∧
    (⌜r = (false, true, false)⌝ ∗ handles 0 ∗ persistent_handle 0x100 (Some (77, 5, false)))%I h') ∧
  (∃ r h',
    (PersistentBase_SetWrapperClassId 0x100 9;; PersistentBase_WrapperClassId 0x100)
      (cells (handle_words 0x100 0x2000 77 5 1)) = Ret (r, h') ∧
    (⌜r = 9⌝ ∗ persistent_handle 0x100 (Some (77, 9, false)))%I h').
Proof.
  destruct PersistentBase_correct as (_ & Hlocal & _ & _ & Hweak & Hclass). split_and!.
  - exact (triple_run _ _ _ _ (Hlocal 0%nat 0x100 (Some (77, 5, false)) 0 0x200 99 ltac:(done)) handle_and_local_sat).
  - exact (triple_run _ _ _ _ (Hweak 0%nat 0x100 77 5 false 7 8 0) one_handle_sat).
  - refine (triple_run _ _ _ _ (Hclass 0x100 (Some (77, 5, false)) 9 ltac:(done)) _).
    apply cells_intro; [vm_compute; reflexivity|by apply handle_words_sat].
Defined.

(** Two references to different objects, with one free node: after the
    assignment they are equal. *)
Definition two_references : byte_memory :=
  cells (engine_words [0x1000] ++ handle_words 0x100 0x2000 77 5 1 ++ handle_words 0x108 0x2010 78 6 1).
Lemma reference_words_sat this p v c f :
  addresses_ok [p] = true → words (handle_words this p v c f) ⊢ traced_reference this (Some (v, c)).
Proof. intros Hp. iIntros "[Ht Hn]". iExists p, f. iFrame "Ht". by iApply (node_words_sat with "Hn"). Qed.
Lemma two_references_sat :
  (traced_handles 1 ∗ traced_reference 0x100 (Some (77, 5)) ∗ traced_reference 0x108 (Some (78, 6)))%I
    two_references.
Proof.
  apply cells_intro; [vm_compute; reflexivity|].
  apply words_app; [by apply (engine_words_sat [0x1000])|].
  apply words_app; by apply reference_words_sat.
Qed.

Lemma TracedReference_correct_witness :
  ∃ v h', TracedReference_copy_assign 0x100 0x108 two_references = Ret (v, h') ∧
    (traced_handles 1 ∗ traced_reference 0x108 (Some (78, 6)) ∗ traced_reference 0x100 (Some (78, 0)))%I h'.
Proof.
  exact (triple_run _ _ _ _
    (proj1 TracedReference_correct 0%nat 0x100 0x108 (Some (77, 5)) (Some (78, 6)) ltac:(done)) two_references_sat).
Defined.

(** Objects with [handle_] at offset 16 and [refs_] at offset 8, like a class
    with one virtual table pointer. *)
Definition refs_at (this : Z) : Z := this + 8.
Definition handle_at (this : Z) : Z := this + 16.
Definition wrapped_object (refs f : Z) : byte_memory :=
  cells (engine_words [] ++ (4%nat, refs_at 0x300, refs) :: handle_words (handle_at 0x300) 0x2000 77 0 f).
Lemma wrapped_object_sat refs f :
  cells_ok (engine_words [] ++ (4%nat, refs_at 0x300, refs) :: handle_words (handle_at 0x300) 0x2000 77 0 f) = true →
  is_weak f = (refs =? 0) → 0 ≤ refs < 2 ^ 31 →
  (handles 0 ∗ wrapped refs_at handle_at 0x300 77 0 refs)%I (wrapped_object refs f).
Proof.
  intros Hok Hf Hr. apply cells_intro; [done|].
  apply words_app; [by apply (engine_words_sat [])|by apply wrapped_words_sat].
Qed.

(** From one reference, one Ref and two Unrefs; a further Unref is
    undefined. *)
Lemma ObjectWrap_refines_counter_witness :
  let ops := [Op_Ref; Op_Unref; Op_Unref] in
  (∃ v h', run_wrap_ops refs_at handle_at 0 0x300 ops (wrapped_object 1 1) = Ret (v, h') ∧
     (handles 0 ∗ wrapped refs_at handle_at 0x300 77 0 0)%I h') ∧
  run_wrap_ops refs_at handle_at 0 0x300 (ops ++ [Op_Unref]) (wrapped_object 1 1) = Undef.
Proof.
  assert ((handles 0 ∗ wrapped refs_at handle_at 0x300 77 0 1)%I (wrapped_object 1 1)) as Hsat.
  { by apply wrapped_object_sat; [vm_compute| |]. }
  split.
  - exact (triple_run _ _ _ _
      (proj1 (ObjectWrap_refines_counter refs_at handle_at 0 0%nat 0x300 77 0 1 [Op_Ref; Op_Unref; Op_Unref]) 0 eq_refl) Hsat).
  - rewrite -(right_id_L ∅ (∪) (wrapped_object 1 1)).
    apply (proj2 (ObjectWrap_refines_counter refs_at handle_at 0 0%nat 0x300 77 0 1
                    [Op_Ref; Op_Unref; Op_Unref; Op_Unref]) eq_refl ltac:(done)); [exact Hsat|].
    apply map_disjoint_empty_r.
Defined.

(** An object at 0x300, and at 0x401 (with its tag) a JavaScript object whose
    map is at 0x501. *)
Definition unwrapped_object : byte_memory :=
  cells (engine_words [0x1000] ++ [(4%nat, refs_at 0x300, 0)] ++ [(ptr_bytes, handle_at 0x300, 0)] ++
         object_words 0x200 0x401 0x501 kJSObjectType 0).
Lemma unwrapped_object_sat :
  (handles 1 ∗ refs_at 0x300 ↦[4] 0 ∗ persistent_handle (handle_at 0x300) None ∗ js_object 0x200 0x401 [0])%I
    unwrapped_object.
Proof.
  apply cells_intro; [vm_compute; reflexivity|].
  apply words_app; [by apply (engine_words_sat [0x1000])|].
  apply words_app; [apply word_sat|].
  apply words_app; [apply empty_words_sat|].
  apply object_words_sat; try done. by right; left.
Qed.

Definition header_at (this : Z) : Z := this - 8.
Definition operator_delete (this : Z) : mem unit := release (header_at this) (refs_at this) (handle_at this).
#[local] Instance model_allocator : ObjectAllocator refs_at handle_at operator_delete := {|
  allocated this := (header_at this ↦[ptr_bytes] 1)%I;
  released this := (header_at this ↦[ptr_bytes] 0 ∗ refs_at this ↦[4] 0xdd ∗ handle_at this ↦[ptr_bytes] 0)%I;
  operator_delete_law this := release_spec (header_at this) (refs_at this) (handle_at this) 0 0;
|}.

(** The same before the constructor ran: the members hold arbitrary bits. *)
Definition raw_object : byte_memory :=
  cells (engine_words [0x1000] ++ [(ptr_bytes, header_at 0x300, 1)] ++ [(4%nat, refs_at 0x300, 7)] ++ [(ptr_bytes, handle_at 0x300, 0xdead)] ++
         object_words 0x200 0x401 0x501 kJSObjectType 0).
Lemma raw_object_sat :
  (handles 1 ∗ header_at 0x300 ↦[ptr_bytes] 1 ∗ refs_at 0x300 ↦[4] 7 ∗ handle_at 0x300 ↦[ptr_bytes] 0xdead ∗ js_object 0x200 0x401 [0])%I
    raw_object.
Proof.
  apply cells_intro; [vm_compute; reflexivity|].
  apply words_app; [by apply (engine_words_sat [0x1000])|].
  do 3 (apply words_app; [apply word_sat|]).
  apply object_words_sat; try done. by right; left.
Qed.

(** An object of the allocator without references. *)
Definition allocated_object : byte_memory :=
  cells (engine_words [] ++ [(ptr_bytes, header_at 0x300, 1)] ++
         (4%nat, refs_at 0x300, 0) :: handle_words (handle_at 0x300) 0x2000 77 0 2).
Lemma allocated_object_sat :
  (handles 0 ∗ header_at 0x300 ↦[ptr_bytes] 1 ∗ wrapped refs_at handle_at 0x300 77 0 0)%I allocated_object.
Proof.
  apply cells_intro; [vm_compute; reflexivity|].
  apply words_app; [by apply (engine_words_sat [])|].
  apply words_app; [apply word_sat|by apply wrapped_words_sat].
Qed.

Lemma ObjectWrap_life_witness :
  let data := {| wci_isolate_ := 0; wci_parameter_ := 0x300; wci_callback_ := 0; wci_embedder_fields_ := [0; 0] |} in
  (∃ v h', ObjectWrap_WeakCallback refs_at handle_at operator_delete data allocated_object = Ret (v, h') ∧
    (handles 1 ∗ header_at 0x300 ↦[ptr_bytes] 0 ∗ refs_at 0x300 ↦[4] 0xdd ∗
     handle_at 0x300 ↦[ptr_bytes] 0)%I h') ∧
  (∃ v h',
    (ObjectWrap_new refs_at handle_at 0x300;; ObjectWrap_Wrap handle_at 0 0x300 0x200;;
     run_wrap_ops refs_at handle_at 0 0x300 [Op_Ref; Op_Ref; Op_Unref; Op_Unref];;
     ObjectWrap_WeakCallback refs_at handle_at operator_delete data) raw_object = Ret (v, h') ∧
    (handles 1 ∗ (header_at 0x300 ↦[ptr_bytes] 0 ∗ refs_at 0x300 ↦[4] 0xdd ∗
     handle_at 0x300 ↦[ptr_bytes] 0) ∗ js_object 0x200 0x401 [0x300])%I h') ∧
  (∃ r h',
      (ObjectWrap_Wrap handle_at 0 0x300 0x200;; ObjectWrap_Unwrap 0x200) unwrapped_object = Ret (r, h') ∧
      (⌜r = 0x300⌝ ∗ handles 0 ∗ wrapped refs_at handle_at 0x300 0x401 0 0 ∗ js_object 0x200 0x401 [0x300])%I h').
Proof.
  intros data. split_and!.
  - refine (triple_run _ _ _ _ (proj1 (proj1 (ObjectWrap_life refs_at handle_at 0 operator_delete 77 0 data 0)) 0%nat) _).
    exact allocated_object_sat.
  - exact (triple_run _ _ _ _
      (proj1 (proj2 (proj2 (proj1 (ObjectWrap_life refs_at handle_at 0 operator_delete 0x401 0 data 0)))) 0%nat 7 0xdead 0x200 0 []
         [Op_Ref; Op_Ref; Op_Unref; Op_Unref] ltac:(done) eq_refl) raw_object_sat).
  - exact (triple_run _ _ _ _
      (proj1 (proj2 (ObjectWrap_life refs_at handle_at 0 operator_delete 0 0 data 0x401) 0x300 0x200 eq_refl eq_refl ltac:(done)) 0%nat 0 [])
      unwrapped_object_sat).
Defined.
