(* ===== verification/V8Maybe.v ===== *)
(** * [v8-maybe.h]: results that may be absent

    [Maybe<T>] is a flag and a value: the value of a [Nothing] exists, as the
    default constructor of [T] leaves it, and the operations must not let it
    out. *)

From S2P Require Import Prelude.
From stdpp Require Import functions ssreflect.

Section maybe.
Context {T : Type}.

Record Maybe := { has_value_ : bool; value_ : T }.

Definition Maybe_Just (t : T) : Maybe := {| has_value_ := true; value_ := t |}.
(** [uninitialised] is what the memory of [value_] holds. *)
Definition Maybe_Nothing (uninitialised : T) : Maybe :=
  {| has_value_ := false; value_ := uninitialised |}.

Definition IsNothing (m : Maybe) : bool := negb (has_value_ m).
Definition IsJust (m : Maybe) : bool := has_value_ m.

(** [FromJustIsNothing] stops the process: [None] here. *)
Definition FromJustIsNothing {A} : option A := None.
Definition FromJust (m : Maybe) : option T :=
  if negb (IsJust m) then FromJustIsNothing else Some (value_ m).
Definition ToChecked (m : Maybe) : option T := FromJust m.
Definition Maybe_Check (m : Maybe) : option unit :=
  if negb (IsJust m) then FromJustIsNothing else Some tt.

(** [To] returns its boolean and what [*out] holds afterwards. *)
Definition To (m : Maybe) (out : T) : bool * T :=
  (IsJust m, if IsJust m then value_ m else out).
Definition FromMaybe (m : Maybe) (default_value : T) : T :=
  if has_value_ m then value_ m else default_value.

(** [operator==], from that of [T]. *)
Definition Maybe_eqb (eqb : T → T → bool) (m other : Maybe) : option bool :=
  if negb (Bool.eqb (IsJust m) (IsJust other)) then Some false
  else if negb (IsJust m) then Some true
  else x ← FromJust m; y ← FromJust other; Some (eqb x y).
Definition Maybe_neb (eqb : T → T → bool) (m other : Maybe) : option bool :=
  b ← Maybe_eqb eqb m other; Some (negb b).

(** The value a [Maybe] stands for. *)
Definition denote (m : Maybe) : option T := if has_value_ m then Some (value_ m) else None.

Lemma FromJust_denote m : FromJust m = denote m.
Proof. by destruct m as [[] v]. Qed.
Lemma To_denote m out :
  To m out = match denote m with Some v => (true, v) | None => (false, out) end.
Proof. by destruct m as [[] v]. Qed.
Lemma FromMaybe_denote m d : FromMaybe m d = default d (denote m).
Proof. by destruct m as [[] v]. Qed.
Lemma Maybe_eqb_denote eqb m o :
  Maybe_eqb eqb m o =
  Some match denote m, denote o with
       | Some x, Some y => eqb x y | None, None => true | _, _ => false
       end.
Proof. by destruct m as [[] v], o as [[] w]. Qed.
End maybe.
Arguments Maybe T : clear implicits.

(** ** [Maybe<void>] *)

Record MaybeVoid := { is_valid_ : bool }.
Definition JustVoid : MaybeVoid := {| is_valid_ := true |}.
Definition NothingVoid : MaybeVoid := {| is_valid_ := false |}.
Definition MaybeVoid_IsNothing (m : MaybeVoid) : bool := negb (is_valid_ m).
Definition MaybeVoid_IsJust (m : MaybeVoid) : bool := is_valid_ m.
Definition MaybeVoid_eqb (m other : MaybeVoid) : bool :=
  Bool.eqb (MaybeVoid_IsJust m) (MaybeVoid_IsJust other).
Definition MaybeVoid_neb (m other : MaybeVoid) : bool := negb (MaybeVoid_eqb m other).

(** ** Clients *)

(** What a client calls, for a representation [R] of [Maybe<T>] and [RV] of
    [Maybe<void>]; [None] is where the process stops. [nothing] is given what the
    memory holds. *)
Record maybe_operations (T R RV : Type) : Type := MaybeOperations {
  just : T → R;
  nothing : T → R;
  is_nothing : R → bool;
  is_just : R → bool;
  to_checked : R → option T;
  from_just : R → option T;
  check : R → option unit;
  to : R → T → bool * T;
  from_maybe : R → T → T;
  equal : R → R → option bool;
  not_equal : R → R → option bool;
  just_void : RV;
  nothing_void : RV;
  void_is_nothing : RV → bool;
  void_is_just : RV → bool;
  void_equal : RV → RV → bool;
  void_not_equal : RV → RV → bool;
}.
Arguments just {T R RV}.
Arguments nothing {T R RV}.
Arguments is_nothing {T R RV}.
Arguments is_just {T R RV}.
Arguments to_checked {T R RV}.
Arguments from_just {T R RV}.
Arguments check {T R RV}.
Arguments to {T R RV}.
Arguments from_maybe {T R RV}.
Arguments equal {T R RV}.
Arguments not_equal {T R RV}.
Arguments just_void {T R RV}.
Arguments nothing_void {T R RV}.
Arguments void_is_nothing {T R RV}.
Arguments void_is_just {T R RV}.
Arguments void_equal {T R RV}.
Arguments void_not_equal {T R RV}.

(** A statement of a client, on variables that hold a [Maybe<T>], a [Maybe<void>]
    or a [T]: [To x v] is [x.To(&v)], [FromMaybe x d v] is [v = x.FromMaybe(d)]. *)
Inductive client : Type :=
| DoJust (x v : nat)
| DoNothing (x : nat)
| DoCopy (x y : nat)
| DoIsNothing (x : nat)
| DoIsJust (x : nat)
| DoToChecked (x v : nat)
| DoFromJust (x v : nat)
| DoCheck (x : nat)
| DoTo (x v : nat)
| DoFromMaybe (x d v : nat)
| DoEqual (x y : nat)
| DoNotEqual (x y : nat)
| DoJustVoid (x : nat)
| DoNothingVoid (x : nat)
| DoVoidIsNothing (x : nat)
| DoVoidIsJust (x : nat)
| DoVoidEqual (x y : nat)
| DoVoidNotEqual (x y : nat).

Section client.
Context {T R RV : Type} (ops : maybe_operations T R RV).

Record variables : Type := Variables {
  maybes : nat → R;
  voids : nat → RV;
  values : nat → T;
}.
Definition set_maybe (x : nat) (m : R) (s : variables) : variables :=
  Variables (<[x := m]> (maybes s)) (voids s) (values s).
Definition set_void (x : nat) (m : RV) (s : variables) : variables :=
  Variables (maybes s) (<[x := m]> (voids s)) (values s).
Definition set_value (x : nat) (v : T) (s : variables) : variables :=
  Variables (maybes s) (voids s) (<[x := v]> (values s)).

(** What a statement shows, and the variables after it. *)
Definition client_step (uninitialised : T) (i : client) (s : variables) : option (list bool * variables) :=
  let m := maybes s in let w := voids s in let t := values s in
  match i with
  | DoJust x v => Some ([], set_maybe x (just ops (t v)) s)
  | DoNothing x => Some ([], set_maybe x (nothing ops uninitialised) s)
  | DoCopy x y => Some ([], set_maybe x (m y) s)
  | DoIsNothing x => Some ([is_nothing ops (m x)], s)
  | DoIsJust x => Some ([is_just ops (m x)], s)
  | DoToChecked x v => a ← to_checked ops (m x); Some ([], set_value v a s)
  | DoFromJust x v => a ← from_just ops (m x); Some ([], set_value v a s)
  | DoCheck x => check ops (m x);; Some ([], s)
  | DoTo x v => let '(b, a) := to ops (m x) (t v) in Some ([b], set_value v a s)
  | DoFromMaybe x d v => Some ([], set_value v (from_maybe ops (m x) (t d)) s)
  | DoEqual x y => b ← equal ops (m x) (m y); Some ([b], s)
  | DoNotEqual x y => b ← not_equal ops (m x) (m y); Some ([b], s)
  | DoJustVoid x => Some ([], set_void x (just_void ops) s)
  | DoNothingVoid x => Some ([], set_void x (nothing_void ops) s)
  | DoVoidIsNothing x => Some ([void_is_nothing ops (w x)], s)
  | DoVoidIsJust x => Some ([void_is_just ops (w x)], s)
  | DoVoidEqual x y => Some ([void_equal ops (w x) (w y)], s)
  | DoVoidNotEqual x y => Some ([void_not_equal ops (w x) (w y)], s)
  end.
(** A program shows a list of booleans and ends, or stops. *)
Fixpoint client_run (garbage : list T) (l : list client) (d : T) (s : variables) : list bool * option variables :=
  match l with
  | [] => ([], Some s)
  | i :: l =>
      match client_step (default d (head garbage)) i s with
      | Some (o, s') => let '(os, r) := client_run (tail garbage) l d s' in (o ++ os, r)
      | None => ([], None)
      end
  end.
End client.
Arguments variables T R RV : clear implicits.

Definition Maybe_operations {T} (eqb : T → T → bool) : maybe_operations T (Maybe T) MaybeVoid := {|
  just := Maybe_Just; nothing := Maybe_Nothing; is_nothing := IsNothing; is_just := IsJust; to_checked := ToChecked;
  from_just := FromJust; check := Maybe_Check; to := To; from_maybe := FromMaybe; equal := Maybe_eqb eqb;
  not_equal := Maybe_neb eqb; just_void := JustVoid; nothing_void := NothingVoid; void_is_nothing := MaybeVoid_IsNothing;
  void_is_just := MaybeVoid_IsJust; void_equal := MaybeVoid_eqb; void_not_equal := MaybeVoid_neb;
|}.

(** The same on options. *)
Definition same_option {T} (eqb : T → T → bool) (m o : option T) : bool :=
  match m, o with Some x, Some y => eqb x y | None, None => true | _, _ => false end.
Definition option_operations {T} (eqb : T → T → bool) : maybe_operations T (option T) (option unit) := {|
  just := Some; nothing := λ _, None; is_nothing m := negb (bool_decide (is_Some m)); is_just m := bool_decide (is_Some m);
  to_checked := id; from_just := id; check m := (λ _, tt) <$> m;
  to m out := match m with Some v => (true, v) | None => (false, out) end; from_maybe m d := default d m;
  equal m o := Some (same_option eqb m o); not_equal m o := Some (negb (same_option eqb m o));
  just_void := Some tt; nothing_void := None; void_is_nothing m := negb (bool_decide (is_Some m));
  void_is_just m := bool_decide (is_Some m); void_equal m o := bool_decide (m = o);
  void_not_equal m o := negb (bool_decide (m = o));
|}.

(** ** Refinement *)

Definition denote_void (m : MaybeVoid) : option unit := if is_valid_ m then Some tt else None.

(** Variables of the code hold what those of the specification do. *)
Record represents {T} (s : variables T (Maybe T) MaybeVoid) (s' : variables T (option T) (option unit)) : Prop := {
  represents_maybes x : denote (maybes s x) = maybes s' x;
  represents_voids x : denote_void (voids s x) = voids s' x;
  represents_values x : values s x = values s' x;
}.

Section refinement.
Context {T : Type} (eqb : T → T → bool).
Local Abbreviation code_state := (variables T (Maybe T) MaybeVoid).
Local Abbreviation option_state := (variables T (option T) (option unit)).

Lemma represents_set_maybe (s : code_state) (s' : option_state) x m : represents s s' → represents (set_maybe x m s) (set_maybe x (denote m) s').
Proof.
  intros [Hm Hv Ht]. split; cbn; [|done..]. intros y.
  destruct (decide (x = y)) as [->|]; [by rewrite !fn_lookup_insert|by rewrite !fn_lookup_insert_ne].
Qed.
Lemma represents_set_void (s : code_state) (s' : option_state) x m : represents s s' → represents (set_void x m s) (set_void x (denote_void m) s').
Proof.
  intros [Hm Hv Ht]. split; cbn; [done| |done]. intros y.
  destruct (decide (x = y)) as [->|]; [by rewrite !fn_lookup_insert|by rewrite !fn_lookup_insert_ne].
Qed.
Lemma represents_set_value (s : code_state) (s' : option_state) x v : represents s s' → represents (set_value x v s) (set_value x v s').
Proof.
  intros [Hm Hv Ht]. split; cbn; [done..|]. intros y.
  destruct (decide (x = y)) as [->|]; [by rewrite !fn_lookup_insert|by rewrite !fn_lookup_insert_ne].
Qed.

(** Both show the same and go on with variables that hold the same, or stop. *)
Definition agree (r : option (list bool * code_state))
    (r' : option (list bool * option_state)) : Prop :=
  match r, r' with
  | Some (o, s), Some (o', s') => o = o' ∧ represents s s'
  | None, None => True
  | _, _ => False
  end.

Lemma void_eqb_denote m o : MaybeVoid_eqb m o = bool_decide (denote_void m = denote_void o).
Proof. by destruct m as [[]], o as [[]]. Qed.

Lemma client_step_refines u u' i (s : code_state) (s' : option_state) :
  represents s s' → agree (client_step (Maybe_operations eqb) u i s) (client_step (option_operations eqb) u' i s').
Proof.
  intros Hs. pose proof Hs as [Hm Hv Ht].
  destruct i as [x v|x|x y|x|x|x v|x v|x|x v|x d v|x y|x y|x|x|x|x|x y|x y]; cbn -[denote To Maybe_eqb].
  - split; [done|]. rewrite -(Ht v). by apply represents_set_maybe.
  - split; [done|]. by apply (represents_set_maybe _ _ _ (Maybe_Nothing u)).
  - split; [done|]. rewrite -(Hm y). by apply represents_set_maybe.
  - rewrite -Hm. unfold denote, IsNothing. by destruct (has_value_ _).
  - rewrite -Hm. unfold denote, IsJust. by destruct (has_value_ _).
  - unfold ToChecked. rewrite FromJust_denote -Hm. destruct (denote _); [|done]. split; [done|]. by apply represents_set_value.
  - rewrite FromJust_denote -Hm. destruct (denote _); [|done]. split; [done|]. by apply represents_set_value.
  - rewrite -Hm. unfold denote, Maybe_Check, IsJust. by destruct (has_value_ _).
  - rewrite To_denote -Hm -Ht. destruct (denote _); (split; [done|]; by apply represents_set_value).
  - rewrite FromMaybe_denote -Hm -Ht. split; [done|]. by apply represents_set_value.
  - by rewrite Maybe_eqb_denote -!Hm.
  - unfold Maybe_neb. by rewrite Maybe_eqb_denote -!Hm.
  - split; [done|]. by apply (represents_set_void _ _ _ JustVoid).
  - split; [done|]. by apply (represents_set_void _ _ _ NothingVoid).
  - rewrite -Hv. unfold denote_void, MaybeVoid_IsNothing. by destruct (is_valid_ _).
  - rewrite -Hv. unfold denote_void, MaybeVoid_IsJust. by destruct (is_valid_ _).
  - by rewrite void_eqb_denote !Hv.
  - unfold MaybeVoid_neb. by rewrite void_eqb_denote !Hv.
Qed.

Lemma client_run_refines g g' l d d' (s : code_state) (s' : option_state) :
  represents s s' →
  let r := client_run (Maybe_operations eqb) g l d s in
  let r' := client_run (option_operations eqb) g' l d' s' in
  r.1 = r'.1 ∧ match r.2, r'.2 with Some t, Some t' => represents t t' | None, None => True | _, _ => False end.
Proof.
  revert g g' s s'. induction l as [|i l IH]; intros g g' s s' Hs; cbn; [done|].
  pose proof (client_step_refines (default d (head g)) (default d' (head g')) i s s' Hs) as Ha.
  destruct (client_step _ _ i s) as [[o t]|], (client_step _ _ i s') as [[o' t']|]; try done.
  destruct Ha as [-> Ht]. destruct (IH (tail g) (tail g') t t' Ht) as [Hr Hf].
  destruct (client_run _ (tail g) l d t) as [os r], (client_run _ (tail g') l d' t') as [os' r']. cbn in *.
  by rewrite Hr.
Qed.
End refinement.
