(* ===== verification/V8ValueProperties.v ===== *)
(** * Properties of the tagging scheme, the accessors and the callbacks

    Smis and tags, the layout the headers assume, the bytes of a handle's node,
    the slots of an isolate, return values and callback arguments. *)

From S2P Require Import Prelude HeapLogic ByteMemory V8Internal V8InternalFacts V8Value V8Handles V8Callback V8Specs V8Maybe.
From S2P Require Import V8Persistent V8Objects V8Reads V8Engine V8Models.
Local Open Scope Z_scope.

Section statements.
Context `{!V8Config}.




(** A packed map word carries the signature, so that it cannot be taken for
    a heap pointer or a forwarding pointer, and unpacking it gives the map. *)
Lemma map_word_packing m :
  HasHeapObjectTag m = true →
  let packed := UnpackMapWord m in
  Z.land packed 3 = kMapWordSignature ∧ HasHeapObjectTag packed = false ∧
  Z.land packed kForwardingTagMask ≠ kForwardingTag ∧ UnpackMapWord packed = m.
Proof.
  unfold HasHeapObjectTag. intros Hm%Z.eqb_eq. cbv zeta.
  pose proof (map_word_signature m Hm) as Hs.
  change kHeapObjectTagMask with 3. change kForwardingTagMask with 3. rewrite Hs.
  split_and!; [done|done|done|apply UnpackMapWord_involutive].
Qed.

(** The regions of the isolate's data, in order. *)
Definition isolate_regions : list (Z * Z) :=
  [(kIsolateCageBaseOffset, kApiSystemPointerSize); (kIsolateStackGuardOffset, kStackGuardSize);
   (kBuiltinTier0EntryTableOffset, kBuiltinTier0EntryTableSize);
   (kBuiltinTier0TableOffset, kBuiltinTier0TableSize);
   (kIsolateEmbedderDataOffset, kNumIsolateDataSlots * kApiSystemPointerSize);
   (kIsolateFastCCallCallerFpOffset, kApiSystemPointerSize);
   (kIsolateFastCCallCallerPcOffset, kApiSystemPointerSize);
   (kIsolateFastApiCallTargetOffset, kApiSystemPointerSize);
   (kIsolateLongTaskStatsCounterOffset, kApiSizetSize)].
Fixpoint contiguous (a : Z) (rs : list (Z * Z)) (z : Z) : Prop :=
  match rs with [] => a = z | (o, s) :: rs => o = a ∧ 0 < s ∧ contiguous (a + s) rs z end.

Context `{!V8Library}.

(** C16: the state the headers keep in the engine's structures. The flag
    UpdateNodeFlag sets is the one GetNodeFlag reads, and no other bit of the
    node's byte changes; UpdateNodeState, which does not mask the
    state that it is given, sets the three bits that GetNodeState reads to a state
    from 0 to 7, and no flag. The fields of the isolate's data the headers know follow
    one another without a gap or an overlap up to the roots, and the static
    assertions about the sandbox hold on 64-bit machines; what an embedder stores
    in one of the slots of an isolate is what it reads back from that slot, and
    the other slots keep their contents. *)
Theorem internals_state_correct :
  (∀ obj b,
    (∀ value s, 0 ≤ s < 8 →
       ⦃ node_flags obj b ⦄ (UpdateNodeFlag obj value s;; GetNodeFlag obj s)
         ⦃ r, ⌜(r =? 0) = negb value⌝ ∗ ∃ b', node_flags obj b' ∗
              ⌜∀ i, 0 ≤ i < 8 → i ≠ s → Z.testbit b' i = Z.testbit b i⌝ ⦄) ∧
    (∀ state, 0 ≤ state < 8 →
       ⦃ node_flags obj b ⦄ (UpdateNodeState obj state;; GetNodeState obj)
         ⦃ r, ⌜r = state⌝ ∗ ∃ b', node_flags obj b' ∗
              ⌜∀ i, 3 ≤ i < 8 → Z.testbit b' i = Z.testbit b i⌝ ⦄)) ∧
  (V8Config_ok _ →
   contiguous 0 isolate_regions kIsolateRootsOffset ∧
   (sizeof_ptr = 8 → sandbox_static_asserts = true) ∧
   (∀ isolate ds (i j : nat) d, (i < length ds)%nat → (j < length ds)%nat → 0 ≤ d < word_size ptr_bytes →
     ⦃ embedder_slots isolate ds ⦄ (Isolate_SetData isolate (Z.of_nat i) d;; Isolate_GetData isolate (Z.of_nat j))
       ⦃ r, ⌜Some r = if decide (i = j) then Some d else ds !! j⌝ ∗ embedder_slots isolate (<[i := d]> ds) ⦄)).
Proof.
  split; [intros obj b; split|].
  - intros value s Hs. apply wp_triple. iIntros "H". wp_call UpdateNodeFlag_spec with "H".
    iIntros (_) "H". iApply (wp_wand with "[H]"); [by iApply GetNodeFlag_spec|]. iIntros (r) "[-> H]".
    iSplit; [iPureIntro; by apply set_flag_get|]. iExists _. iFrame. iPureIntro.
    intros i Hi Hne. rewrite set_flag_bits //. by rewrite (proj2 (Z.eqb_neq i s) Hne).
  - intros state Hs. apply wp_triple. iIntros "H". wp_call UpdateNodeState_spec with "H".
    iIntros (_) "H". iApply (wp_wand with "[H]"); [by iApply GetNodeState_spec|]. iIntros (r) "[-> H]".
    iSplit; [iPureIntro; by apply set_state_get|]. iExists _. iFrame. iPureIntro.
    intros i Hi. rewrite set_state_bits //; [|lia]. by rewrite (proj2 (Z.ltb_ge i 3)); [|lia].
  - intros [Hp _]. split_and!; [|apply sandbox_asserts_hold|].
    { unfold isolate_regions, contiguous. unfold kStackGuardSize, kBuiltinTier0EntryTableSize,
        kBuiltinTier0TableSize, kNumIsolateDataSlots, kApiSizetSize, kApiSystemPointerSize.
      split_and!; try lia; reflexivity. }
    intros isolate ds i j d.
    intros Hi Hj Hd. apply wp_triple. iIntros "H". wp_call Isolate_SetData_spec with "H"; [lia|].
    iIntros (_) "H". destruct (lookup_lt_is_Some_2 (<[i:=d]> ds) j) as [x Hx]; [by rewrite length_insert|].
    iApply (wp_wand with "[H]"); [by iApply (Isolate_GetData_spec _ _ j x)|]. iIntros (r) "[-> $]".
    iPureIntro. rewrite -Hx. case_decide as E; [subst; by apply list_lookup_insert_eq|].
    by apply list_lookup_insert_ne.
Qed.

(** Every setter of a return value. An integer that fits a Smi is stored as
    its Smi, for the signed and the unsigned setter alike; an unsigned integer
    with the sign bit set is never truncated: it goes to the library's
    constructor. A handle sets the return value to the object in its slot and an
    empty one to the default; null, undefined, the booleans and the empty string
    set it to the isolate's root; and Get turns the hole into undefined. *)
Lemma ReturnValue_Set_all value_ isolate default v :
  (V8Config_ok _ →
   (∀ i, kSmiMinValue ≤ i ≤ kSmiMaxValue →
      ⦃ return_slots value_ isolate default v ⦄
        (ReturnValue_Set_int32 value_ i;; load_word ptr_bytes value_)
        ⦃ r, ⌜SmiValue r = i ∧ HasHeapObjectTag r = false⌝ ∗ return_slots value_ isolate default r ⦄) ∧
   (∀ i, 0 ≤ i ≤ kSmiMaxValue → ReturnValue_Set_uint32 value_ i = ReturnValue_Set_int32 value_ i) ∧
   (∀ i, 2 ^ 31 ≤ i < 2 ^ 32 →
      ReturnValue_Set_uint32 value_ i =
      (isolate ← ReturnValue_GetIsolate value_;
       h ← Integer_NewFromUnsigned isolate i;
       ReturnValue_Set_Local value_ h))) ∧
  (∀ h x, h ≠ 0 →
     ⦃ return_slots value_ isolate default v ∗ h ↦[ptr_bytes] x ⦄ ReturnValue_Set_Local value_ h
       ⦃ _, return_slots value_ isolate default x ∗ h ↦[ptr_bytes] x ⦄) ∧
  ⦃ return_slots value_ isolate default v ⦄ ReturnValue_Set_Local value_ Local_empty
    ⦃ _, return_slots value_ isolate default default ⦄ ∧
  (∀ set index x,
     In (set, index) [(ReturnValue_SetNull, kNullValueRootIndex); (ReturnValue_SetUndefined, kUndefinedValueRootIndex);
                      (ReturnValue_SetEmptyString, kEmptyStringRootIndex);
                      ((λ r, ReturnValue_Set_bool r true), kTrueValueRootIndex);
                      ((λ r, ReturnValue_Set_bool r false), kFalseValueRootIndex)] →
     ⦃ return_slots value_ isolate default v ∗ GetRoot isolate index ↦[ptr_bytes] x ⦄ set value_
       ⦃ _, return_slots value_ isolate default x ∗ GetRoot isolate index ↦[ptr_bytes] x ⦄) ∧
  (V8_ENABLE_CHECKS = false →
   ⦃ return_slots value_ isolate default v ∗ GetRoot isolate kTheHoleValueRootIndex ↦[ptr_bytes] v ⦄
     ReturnValue_Get value_
     ⦃ r, ⌜r = GetRoot isolate kUndefinedValueRootIndex⌝ ∗ return_slots value_ isolate default v ∗
          GetRoot isolate kTheHoleValueRootIndex ↦[ptr_bytes] v ⦄).
Proof.
  split; [intros Hok; split_and!; intros i Hi|split_and!].
  - apply wp_triple. iIntros "H". wp_call (ReturnValue_Set_int32_smi Hok) with "H".
    { apply IsValidSmi_range; [done| |done].
      destruct (smi_limits Hok) as [(_ & E1 & E2)|(_ & E1 & E2)], (platform_cases Hok) as [[_ [Hb|Hb]]|[_ Hb]];
        rewrite E1 E2 in Hi; rewrite Hb /in_signed; lia. }
    iIntros (_) "(H1 & H2 & H3)". mem_load. iApply wp_ret. iFrame. iPureIntro.
    split; [by apply SmiValue_IntToSmi|by apply IntToSmi_tag].
  - by apply Set_uint32_small; destruct (smi_limits Hok) as [(_ & _ & E)|(_ & _ & E)]; rewrite E in Hi; lia.
  - by apply Set_uint32_large.
  - intros h x Hh. apply wp_triple. iIntros "[H Hx]". by iApply (ReturnValue_Set_slot_spec with "[$H $Hx]").
  - by apply wp_triple, ReturnValue_Set_slot_empty.
  - intros set index x Hin. apply wp_triple. cbn in Hin.
    destruct_or! Hin; try done; injection Hin as <- <-; apply ReturnValue_Set_root_spec.
  - intros Hc. by apply wp_triple, ReturnValue_Get_hole.
Qed.

(** What the engine passes to a callback: info[i] is a handle to the i-th
    argument when 0 <= i < Length(), and to undefined for every other integer, so
    that no access is out of bounds; ShouldThrowOnError decodes the mode the
    engine passed, true for kThrowOnError and false for kDontThrow, without
    asking the library. *)
Lemma callback_arguments :
  (∀ info i isolate, V8_ENABLE_CHECKS = false →
    ⦃ slot_at (implicit_args_ info) FunctionCallbackInfo_kIsolateIndex ↦[ptr_bytes] isolate ⦄
      FunctionCallbackInfo_index info i
      ⦃ r, ⌜r = if bool_decide (0 ≤ i < FunctionCallbackInfo_Length info) then slot_at (values_ info) i
                else GetRoot isolate kUndefinedValueRootIndex⌝ ∗
           slot_at (implicit_args_ info) FunctionCallbackInfo_kIsolateIndex ↦[ptr_bytes] isolate ⦄) ∧
  (∀ args_ m, V8Config_ok _ → m = kThrowOnError ∨ m = kDontThrow →
    ⦃ slot_at args_ PropertyCallbackInfo_kShouldThrowOnErrorIndex ↦[ptr_bytes] IntToSmi m ⦄
      PropertyCallbackInfo_ShouldThrowOnError args_
      ⦃ b, ⌜b = bool_decide (m = kThrowOnError)⌝ ∗
           slot_at args_ PropertyCallbackInfo_kShouldThrowOnErrorIndex ↦[ptr_bytes] IntToSmi m ⦄).
Proof.
  split.
  - intros info i isolate Hc. by apply wp_triple, FunctionCallbackInfo_index_spec.
  - intros args_ m Hok Hm. by apply wp_triple, ShouldThrowOnError_spec.
Qed.

(** C17: what a callback exchanges with the engine. info[i] is a handle to the
    i-th argument when 0 <= i < Length(), and to undefined for every other
    integer, so that no access is out of bounds; ShouldThrowOnError decodes the
    mode the engine passed, true for kThrowOnError and false for kDontThrow,
    without asking the library. An integer that fits a Smi is returned as its
    Smi, by the signed and the unsigned setter alike; an unsigned integer with
    the sign bit set is never truncated: it goes to the library's constructor. A
    handle sets the return value to the object in its slot and an empty one to
    the default; null, undefined, the booleans and the empty string set it to
    the isolate's root; and Get turns the hole into undefined. *)
Theorem callbacks_correct :
  ((∀ info i isolate, V8_ENABLE_CHECKS = false →
     ⦃ slot_at (implicit_args_ info) FunctionCallbackInfo_kIsolateIndex ↦[ptr_bytes] isolate ⦄
       FunctionCallbackInfo_index info i
       ⦃ r, ⌜r = if bool_decide (0 ≤ i < FunctionCallbackInfo_Length info) then slot_at (values_ info) i
                 else GetRoot isolate kUndefinedValueRootIndex⌝ ∗
            slot_at (implicit_args_ info) FunctionCallbackInfo_kIsolateIndex ↦[ptr_bytes] isolate ⦄) ∧
   (∀ args_ m, V8Config_ok _ → m = kThrowOnError ∨ m = kDontThrow →
     ⦃ slot_at args_ PropertyCallbackInfo_kShouldThrowOnErrorIndex ↦[ptr_bytes] IntToSmi m ⦄
       PropertyCallbackInfo_ShouldThrowOnError args_
       ⦃ b, ⌜b = bool_decide (m = kThrowOnError)⌝ ∗
            slot_at args_ PropertyCallbackInfo_kShouldThrowOnErrorIndex ↦[ptr_bytes] IntToSmi m ⦄)) ∧
  (∀ value_ isolate default v,
   (V8Config_ok _ →
    (∀ i, kSmiMinValue ≤ i ≤ kSmiMaxValue →
       ⦃ return_slots value_ isolate default v ⦄
         (ReturnValue_Set_int32 value_ i;; load_word ptr_bytes value_)
         ⦃ r, ⌜SmiValue r = i ∧ HasHeapObjectTag r = false⌝ ∗ return_slots value_ isolate default r ⦄) ∧
    (∀ i, 0 ≤ i ≤ kSmiMaxValue → ReturnValue_Set_uint32 value_ i = ReturnValue_Set_int32 value_ i) ∧
    (∀ i, 2 ^ 31 ≤ i < 2 ^ 32 →
       ReturnValue_Set_uint32 value_ i =
       (isolate ← ReturnValue_GetIsolate value_;
        h ← Integer_NewFromUnsigned isolate i;
        ReturnValue_Set_Local value_ h))) ∧
   (∀ h x, h ≠ 0 →
      ⦃ return_slots value_ isolate default v ∗ h ↦[ptr_bytes] x ⦄ ReturnValue_Set_Local value_ h
        ⦃ _, return_slots value_ isolate default x ∗ h ↦[ptr_bytes] x ⦄) ∧
   ⦃ return_slots value_ isolate default v ⦄ ReturnValue_Set_Local value_ Local_empty
     ⦃ _, return_slots value_ isolate default default ⦄ ∧
   (∀ set index x,
      In (set, index) [(ReturnValue_SetNull, kNullValueRootIndex); (ReturnValue_SetUndefined, kUndefinedValueRootIndex);
                       (ReturnValue_SetEmptyString, kEmptyStringRootIndex);
                       ((λ r, ReturnValue_Set_bool r true), kTrueValueRootIndex);
                       ((λ r, ReturnValue_Set_bool r false), kFalseValueRootIndex)] →
      ⦃ return_slots value_ isolate default v ∗ GetRoot isolate index ↦[ptr_bytes] x ⦄ set value_
        ⦃ _, return_slots value_ isolate default x ∗ GetRoot isolate index ↦[ptr_bytes] x ⦄) ∧
   (V8_ENABLE_CHECKS = false →
    ⦃ return_slots value_ isolate default v ∗ GetRoot isolate kTheHoleValueRootIndex ↦[ptr_bytes] v ⦄
      ReturnValue_Get value_
      ⦃ r, ⌜r = GetRoot isolate kUndefinedValueRootIndex⌝ ∗ return_slots value_ isolate default v ∗
           GetRoot isolate kTheHoleValueRootIndex ↦[ptr_bytes] v ⦄)).
Proof. split; [exact callback_arguments|exact ReturnValue_Set_all]. Qed.

(** The inline tests of Value: on an oddball, null and undefined are told by
    its kind, and IsNullOrUndefined is their disjunction; no Smi and no other
    heap object is either; strings are the objects below kFirstNonstringType. *)
Lemma Value_tests this :
  (∀ obj kind, HasHeapObjectTag obj = true →
     ⦃ this ↦[ptr_bytes] obj ∗ has_type obj kOddballType ∗ oddball_kind obj kind ⦄
       (u ← Value_QuickIsUndefined this; n ← Value_QuickIsNull this; e ← Value_QuickIsNullOrUndefined this; mret (u, n, e))
       ⦃ r, ⌜r = (kind =? kUndefinedOddballKind, kind =? kNullOddballKind,
                  (kind =? kNullOddballKind) || (kind =? kUndefinedOddballKind))⌝ ∗
            this ↦[ptr_bytes] obj ∗ has_type obj kOddballType ∗ oddball_kind obj kind ⦄) ∧
  (∀ smi kinds, HasHeapObjectTag smi = false →
     ⦃ this ↦[ptr_bytes] smi ⦄ QuickIsOddball kinds this ⦃ b, ⌜b = false⌝ ∗ this ↦[ptr_bytes] smi ⦄) ∧
  (∀ obj type kinds, HasHeapObjectTag obj = true → type ≠ kOddballType →
     ⦃ this ↦[ptr_bytes] obj ∗ has_type obj type ⦄
       (b ← QuickIsOddball kinds this; s ← Value_QuickIsString this; mret (b, s))
       ⦃ r, ⌜r = (false, type <? kFirstNonstringType)⌝ ∗ this ↦[ptr_bytes] obj ∗ has_type obj type ⦄).
Proof.
  split_and!; intros; apply wp_triple.
  - iIntros "H". do 3 (wp_call QuickIsOddball_oddball with "H"; iIntros (?) "[-> H]").
    iApply wp_ret. iFrame. iPureIntro. cbn [existsb]. by rewrite !orb_false_r.
  - by apply QuickIsOddball_smi.
  - iIntros "H". wp_call QuickIsOddball_other with "H". iIntros (?) "[-> H]".
    wp_call QuickIsString_spec with "H". iIntros (?) "[-> H]". iApply wp_ret. by iFrame.
Qed.

(** The reads of heap objects that do not call the engine. With compressed
    pointers, reading the low half of a pointer to an object of the same 4GB cage
    and adding the cage's base gives the pointer. Object::GetInternalField and
    Context::GetEmbedderData return a new, nonempty handle to the value that the
    slot stands for, compressed or not; the aligned pointer of a context's slot is
    returned as it is; and an external string gives its resource, with its
    encoding in *encoding_out. The objects read stay as they are. *)
Lemma inline_reads `{!JSObjects, !LocalScopes} :
  V8Config_ok _ →
  (∀ obj offset p, V8_COMPRESS_POINTERS = true →
    in_unsigned 64 obj → in_unsigned 64 p → obj / 2 ^ 32 = p / 2 ^ 32 →
    ⦃ field_addr obj offset ↦[4] to_unsigned 32 p ⦄ ReadTaggedPointerField obj offset
      ⦃ r, ⌜r = p⌝ ∗ field_addr obj offset ↦[4] to_unsigned 32 p ⦄) ∧
  (V8_ENABLE_CHECKS = false →
   (∀ h obj fields (i n : nat) raw p, fields !! i = Some raw → holds_tagged obj raw p →
     ⦃ js_object h obj fields ∗ local_slots (S n) ⦄ Object_GetInternalField h (Z.of_nat i)
       ⦃ r, ⌜r ≠ 0⌝ ∗ r ↦[ptr_bytes] p ∗ js_object h obj fields ∗ local_slots n ⦄) ∧
   (∀ this ctx arr raws (i n : nat) raw p, raws !! i = Some raw → holds_tagged arr raw p →
     ⦃ this ↦[ptr_bytes] ctx ∗ context_data ctx arr raws ∗ local_slots (S n) ⦄
       Context_GetEmbedderData this (Z.of_nat i)
       ⦃ r, ⌜r ≠ 0⌝ ∗ r ↦[ptr_bytes] p ∗ this ↦[ptr_bytes] ctx ∗ context_data ctx arr raws ∗ local_slots n ⦄) ∧
   (V8_SANDBOXED_EXTERNAL_POINTERS = false →
    (∀ this ctx arr raws (i : nat) raw, raws !! i = Some raw →
      ⦃ this ↦[ptr_bytes] ctx ∗ context_data ctx arr raws ⦄
        Context_GetAlignedPointerFromEmbedderData this (Z.of_nat i)
        ⦃ r, ⌜r = raw⌝ ∗ this ↦[ptr_bytes] ctx ∗ context_data ctx arr raws ⦄) ∧
    (∀ this obj type resource, IsExternalTwoByteString type = true →
      ⦃ external_string this obj type resource ⦄ String_GetExternalStringResource this
        ⦃ r, ⌜r = resource⌝ ∗ external_string this obj type resource ⦄) ∧
    (∀ this out obj type resource old, is_external type →
      ⦃ external_string this obj type resource ∗ out ↦[4] old ⦄ String_GetExternalStringResourceBase this out
        ⦃ r, ⌜r = resource⌝ ∗ external_string this obj type resource ∗ out ↦[4] string_encoding type ⦄))).
Proof.
  intros Hok. split; [intros; by apply wp_triple, ReadTaggedPointerField_low|intros Hchecks].
  split_and!; intros; [..|split_and!; intros]; apply wp_triple.
  - by eapply Object_GetInternalField_spec.
  - by eapply Context_GetEmbedderData_spec.
  - by apply Context_GetAlignedPointer_spec.
  - by apply String_GetExternalStringResource_spec.
  - by apply String_GetExternalStringResourceBase_spec.
Qed.
(** C15: what the headers read of heap objects without calling the engine. On an
    oddball, null and undefined are told by its kind, and IsNullOrUndefined is
    their disjunction; no Smi and no other heap object is either; strings are the
    objects below kFirstNonstringType. With compressed pointers, reading the low
    half of a pointer to an object of the same 4GB cage and adding the cage's
    base gives the pointer. Object::GetInternalField and
    Context::GetEmbedderData return a new, nonempty handle to the value that the
    slot stands for, compressed or not; the aligned pointer of a context's slot
    is returned as it is; and an external string gives its resource, with its
    encoding in *encoding_out. The objects read stay as they are. *)
Theorem inline_reads_correct `{!JSObjects, !LocalScopes} :
  (∀ this,
   (∀ obj kind, HasHeapObjectTag obj = true →
      ⦃ this ↦[ptr_bytes] obj ∗ has_type obj kOddballType ∗ oddball_kind obj kind ⦄
        (u ← Value_QuickIsUndefined this; n ← Value_QuickIsNull this; e ← Value_QuickIsNullOrUndefined this; mret (u, n, e))
        ⦃ r, ⌜r = (kind =? kUndefinedOddballKind, kind =? kNullOddballKind,
                   (kind =? kNullOddballKind) || (kind =? kUndefinedOddballKind))⌝ ∗
             this ↦[ptr_bytes] obj ∗ has_type obj kOddballType ∗ oddball_kind obj kind ⦄) ∧
   (∀ smi kinds, HasHeapObjectTag smi = false →
      ⦃ this ↦[ptr_bytes] smi ⦄ QuickIsOddball kinds this ⦃ b, ⌜b = false⌝ ∗ this ↦[ptr_bytes] smi ⦄) ∧
   (∀ obj type kinds, HasHeapObjectTag obj = true → type ≠ kOddballType →
      ⦃ this ↦[ptr_bytes] obj ∗ has_type obj type ⦄
        (b ← QuickIsOddball kinds this; s ← Value_QuickIsString this; mret (b, s))
        ⦃ r, ⌜r = (false, type <? kFirstNonstringType)⌝ ∗ this ↦[ptr_bytes] obj ∗ has_type obj type ⦄)) ∧
  (V8Config_ok _ →
   (∀ obj offset p, V8_COMPRESS_POINTERS = true →
     in_unsigned 64 obj → in_unsigned 64 p → obj / 2 ^ 32 = p / 2 ^ 32 →
     ⦃ field_addr obj offset ↦[4] to_unsigned 32 p ⦄ ReadTaggedPointerField obj offset
       ⦃ r, ⌜r = p⌝ ∗ field_addr obj offset ↦[4] to_unsigned 32 p ⦄) ∧
   (V8_ENABLE_CHECKS = false →
    (∀ h obj fields (i n : nat) raw p, fields !! i = Some raw → holds_tagged obj raw p →
      ⦃ js_object h obj fields ∗ local_slots (S n) ⦄ Object_GetInternalField h (Z.of_nat i)
        ⦃ r, ⌜r ≠ 0⌝ ∗ r ↦[ptr_bytes] p ∗ js_object h obj fields ∗ local_slots n ⦄) ∧
    (∀ this ctx arr raws (i n : nat) raw p, raws !! i = Some raw → holds_tagged arr raw p →
      ⦃ this ↦[ptr_bytes] ctx ∗ context_data ctx arr raws ∗ local_slots (S n) ⦄
        Context_GetEmbedderData this (Z.of_nat i)
        ⦃ r, ⌜r ≠ 0⌝ ∗ r ↦[ptr_bytes] p ∗ this ↦[ptr_bytes] ctx ∗ context_data ctx arr raws ∗ local_slots n ⦄) ∧
    (V8_SANDBOXED_EXTERNAL_POINTERS = false →
     (∀ this ctx arr raws (i : nat) raw, raws !! i = Some raw →
       ⦃ this ↦[ptr_bytes] ctx ∗ context_data ctx arr raws ⦄
         Context_GetAlignedPointerFromEmbedderData this (Z.of_nat i)
         ⦃ r, ⌜r = raw⌝ ∗ this ↦[ptr_bytes] ctx ∗ context_data ctx arr raws ⦄) ∧
     (∀ this obj type resource, IsExternalTwoByteString type = true →
       ⦃ external_string this obj type resource ⦄ String_GetExternalStringResource this
         ⦃ r, ⌜r = resource⌝ ∗ external_string this obj type resource ⦄) ∧
     (∀ this out obj type resource old, is_external type →
       ⦃ external_string this obj type resource ∗ out ↦[4] old ⦄ String_GetExternalStringResourceBase this out
         ⦃ r, ⌜r = resource⌝ ∗ external_string this obj type resource ∗ out ↦[4] string_encoding type ⦄)))).
Proof. split; [exact Value_tests|exact inline_reads]. Qed.
End statements.

(** The four flags of a script's origin survive the constructor from
    booleans and the conversion to an integer and back; the constructor from an
    integer keeps exactly its four lowest bits, each read by its accessor. *)
Lemma ScriptOriginOptions_roundtrip :
  (∀ a b c d,
     let o := ScriptOriginOptions_of_bools a b c d in
     IsSharedCrossOrigin o = a ∧ IsOpaque o = b ∧ IsWasm o = c ∧ IsModule o = d ∧
     ScriptOriginOptions_of_flags (Flags o) = o) ∧
  (∀ flags,
     let o := ScriptOriginOptions_of_flags flags in
     Flags o = flags mod 16 ∧
     ScriptOriginOptions_of_bools (IsSharedCrossOrigin o) (IsOpaque o) (IsWasm o) (IsModule o) = o).
Proof.
  split; [by intros [] [] [] []|]. intros flags o. subst o. unfold ScriptOriginOptions_of_flags.
  change (Z.lor _ kIsModule) with (Z.ones 4). rewrite Z.land_ones //. cbn [Flags flags_].
  split; [done|]. change (2 ^ 4) with 16. pose proof (Z.mod_pos_bound flags 16 ltac:(done)) as Hr.
  revert Hr. generalize (flags mod 16) as x. intros x Hx.
  assert (x ∈ (λ n, Z.of_nat n) <$> seq 0 16) as Hin.
  { apply list_elem_of_fmap. exists (Z.to_nat x). rewrite elem_of_seq. lia. }
  clear Hx. revert x Hin. apply Forall_forall. by repeat constructor.
Qed.



(** ** Instances *)


(** A build with compressed pointers. *)
Definition compressed64 : V8Config := {|
  sizeof_ptr := 8;
  V8_COMPRESS_POINTERS := true;
  V8_31BIT_SMIS_ON_64BIT_ARCH := true;
  V8_SANDBOX := false;
  V8_SANDBOXED_EXTERNAL_POINTERS := false;
  V8_SANDBOXED_POINTERS := false;
  V8_MAP_PACKING := false;
  V8_ENABLE_CHECKS := false;
|}.
Lemma compressed64_ok : V8Config_ok compressed64.
Proof. split; [by right|done]. Qed.

(** A context at 0x501 whose embedder data has a slot with the object 0x999, a
    free slot 0x700, and a two-byte external string with resource 0xbeef0. *)
Lemma inline_reads_correct_witness :
  (∃ b h', QuickIsOddball [kNullOddballKind] 0x200 (cells [(ptr_bytes, 0x200, IntToSmi 3)]) = Ret (b, h') ∧
    (⌜b = false⌝ ∗ 0x200 ↦[ptr_bytes] IntToSmi 3)%I h') ∧
  (∃ r h', @ReadTaggedPointerField compressed64 0x500000401 8
             (cells [(4%nat, 0x500000408, 0x801)]) = Ret (r, h') ∧
     (⌜r = 0x500000801⌝ ∗ @field_addr compressed64 0x500000401 8 ↦[4] to_unsigned 32 0x500000801)%I h') ∧
  (∃ r h', Context_GetEmbedderData 0x200 0
             (cells [(ptr_bytes, 0x200, 0x501); (ptr_bytes, field_addr 0x501 kNativeContextEmbedderDataOffset, 0x601);
                     (ptr_bytes, field_addr 0x601 (embedder_offset 0), 0x999);
                     (ptr_bytes, local_head, 0x700); (ptr_bytes, 0x700, 0)]) = Ret (r, h') ∧
     (⌜r ≠ 0⌝ ∗ r ↦[ptr_bytes] 0x999 ∗ 0x200 ↦[ptr_bytes] 0x501 ∗ context_data 0x501 0x601 [0x999] ∗ local_slots 0)%I h') ∧
  (∃ r h', String_GetExternalStringResource 0x200
             (cells [(ptr_bytes, 0x200, 0x501); (ptr_bytes, field_addr 0x501 kHeapObjectMapOffset, 0x601);
                     (2%nat, field_addr 0x601 kMapInstanceTypeOffset, 0x22);
                     (ptr_bytes, field_addr 0x501 kStringResourceOffset, 0xbeef0)]) = Ret (r, h') ∧
     (⌜r = 0xbeef0⌝ ∗ external_string 0x200 0x501 0x22 0xbeef0)%I h').
Proof.
  destruct inline_reads_correct as [Htests Hreads]. split_and!.
  - refine (triple_run _ _ _ _ (proj1 (proj2 (Htests 0x200)) (IntToSmi 3) [kNullOddballKind] ltac:(by vm_compute)) _).
    apply cells_intro; [vm_compute; reflexivity|apply word_sat].
  - refine (triple_run _ _ _ _ (proj1 (proj2 (@inline_reads_correct compressed64 (@engine compressed64) (@engine_JSObjects compressed64) (@engine_LocalScopes compressed64)) compressed64_ok)
              0x500000401 8 0x500000801 eq_refl ltac:(done) ltac:(done) ltac:(done)) _).
    apply cells_intro; [vm_compute; reflexivity|apply word_sat].
  - destruct (Hreads node64_ok) as (_ & H). destruct (H eq_refl) as (_ & Hctx & _).
    refine (triple_run _ _ _ _ (Hctx 0x200 0x501 0x601 [0x999] 0%nat 0%nat 0x999 0x999 eq_refl eq_refl) _).
    apply cells_intro; [vm_compute; reflexivity|].
    iIntros "(Hs & Hd & He & Hl & Hf & _)". iSplitL "Hs"; [iExact "Hs"|].
    iSplitL "Hd He"; [iSplitL "Hd"; [iExact "Hd"|by iSplitL "He"]|].
    iExists 0x700. iSplitL "Hl"; [iExact "Hl"|]. iSplit; [done|]. iExists 0. by iSplitL "Hf"; [iExact "Hf"|].
  - destruct (Hreads node64_ok) as (_ & H). destruct (H eq_refl) as (_ & _ & Hfast).
    destruct (Hfast eq_refl) as (_ & Hstr & _).
    refine (triple_run _ _ _ _ (Hstr 0x200 0x501 0x22 0xbeef0 eq_refl) _).
    apply cells_intro; [vm_compute; reflexivity|].
    iIntros "(Hs & Hm & Ht & Hr & _)". iSplitL "Hs"; [iExact "Hs"|]. iSplitL "Hm Ht"; [|iExact "Hr"].
    iExists 0x601. iSplitL "Hm"; [iExact "Hm"|iExact "Ht"].
Defined.

Lemma internals_state_correct_witness :
  (∃ r h', (UpdateNodeState 0x2000 2;; GetNodeState 0x2000) (cells [(1%nat, 0x200b, 0x81)]) = Ret (r, h') ∧
    (⌜r = 2⌝ ∗ ∃ b', node_flags 0x2000 b' ∗ ⌜∀ i, 3 ≤ i < 8 → Z.testbit b' i = Z.testbit 0x81 i⌝)%I h') ∧
  contiguous 0 isolate_regions 288 ∧
  (∃ r h', (Isolate_SetData 0x1000 1 42;; Isolate_GetData 0x1000 1)
            (cells [(ptr_bytes, 0x10e0, 7); (ptr_bytes, 0x10e8, 8)]) = Ret (r, h') ∧
    (⌜Some r = Some 42⌝ ∗ embedder_slots 0x1000 [7; 42])%I h').
Proof.
  destruct internals_state_correct as [Hflags Hisolate]. destruct (Hisolate node64_ok) as (Hlayout & _ & Hdata).
  split_and!; [|exact Hlayout|].
  - refine (triple_run _ _ _ _ (proj2 (Hflags 0x2000 0x81) 2 ltac:(done)) _).
    apply cells_intro; [vm_compute; reflexivity|apply word_sat].
  - refine (triple_run _ _ _ _ (Hdata 0x1000 [7; 8] 1%nat 1%nat 42 ltac:(cbn; lia) ltac:(cbn; lia) ltac:(done)) _).
    apply cells_intro; [vm_compute; reflexivity|done].
Defined.

(** The slots of a return value at 0x1010, of the isolate at 0x4000. *)
Definition return_words (v : Z) : list (nat * Z * Z) :=
  [(ptr_bytes, slot_at 0x1010 (-2), 0x4000); (ptr_bytes, slot_at 0x1010 (-1), 0x77); (ptr_bytes, 0x1010, v)].
Lemma return_words_sat v : words (return_words v) ⊢ return_slots 0x1010 0x4000 0x77 v.
Proof. by iIntros "($ & $ & $ & _)". Qed.

Lemma callbacks_correct_witness :
  let info := {| implicit_args_ := 0x3000; values_ := 0x3100; length_ := 2 |} in
  (∃ r h', FunctionCallbackInfo_index info 2 (cells [(ptr_bytes, 0x3008, 0x4000)]) = Ret (r, h') ∧
    (⌜r = GetRoot 0x4000 kUndefinedValueRootIndex⌝ ∗
     slot_at (implicit_args_ info) FunctionCallbackInfo_kIsolateIndex ↦[ptr_bytes] 0x4000)%I h') ∧
  (∃ b h', PropertyCallbackInfo_ShouldThrowOnError 0x3000 (cells [(ptr_bytes, 0x3000, IntToSmi 1)]) = Ret (b, h') ∧
    (⌜b = false⌝ ∗ slot_at 0x3000 PropertyCallbackInfo_kShouldThrowOnErrorIndex ↦[ptr_bytes] IntToSmi 1)%I h') ∧
  (∃ r h', (ReturnValue_Set_int32 0x1010 (-7);; load_word ptr_bytes 0x1010) (cells (return_words 1)) = Ret (r, h') ∧
    (⌜SmiValue r = -7 ∧ HasHeapObjectTag r = false⌝ ∗ return_slots 0x1010 0x4000 0x77 r)%I h') ∧
  (∃ u h', ReturnValue_SetNull 0x1010 (cells (return_words 1 ++ [(ptr_bytes, GetRoot 0x4000 kNullValueRootIndex, 0x99)]))
            = Ret (u, h') ∧
    (return_slots 0x1010 0x4000 0x77 0x99 ∗ GetRoot 0x4000 kNullValueRootIndex ↦[ptr_bytes] 0x99)%I h').
Proof.
  intros info. destruct callbacks_correct as [[Hindex Hmode] Hset].
  destruct (Hset 0x1010 0x4000 0x77 1) as (Hint & _ & _ & Hroot & _).
  destruct (Hint node64_ok) as (Hsmi & _). split_and!.
  - refine (triple_run _ _ _ _ (Hindex info 2 0x4000 eq_refl) _).
    apply cells_intro; [vm_compute; reflexivity|apply word_sat].
  - refine (triple_run _ _ _ _ (Hmode 0x3000 kDontThrow node64_ok ltac:(by right)) _).
    apply cells_intro; [vm_compute; reflexivity|apply word_sat].
  - refine (triple_run _ _ _ _ (Hsmi (-7) ltac:(by vm_compute)) _).
    apply cells_intro; [vm_compute; reflexivity|apply return_words_sat].
  - refine (triple_run _ _ _ _ (Hroot ReturnValue_SetNull kNullValueRootIndex 0x99 ltac:(by left)) _).
    apply cells_intro; [vm_compute; reflexivity|]. apply words_app; [apply return_words_sat|apply word_sat].
Defined.

