(* ===== verification/UvErrno.v ===== *)
(** * Error codes and enumerations of libuv

    [uv/errno.h] and the [X-macro] lists of [uv.h]. The macros of the system's
    [<errno.h>] are a parameter, the platform: a code is the negated value of
    the system's macro where it exists, and a fixed number elsewhere. *)

From S2P Require Import Prelude.
From stdpp Require Export strings.
From Stdlib Require Import ssreflect.
Local Open Scope string_scope.
Local Open Scope Z_scope.

(** What the preprocessor knows of a platform. [BSD] stands for the list of
    systems that [errno.h] names for EHOSTDOWN. *)
Record platform := {
  WIN32 : bool;
  BSD : bool;
  EDOM : Z;
  errno_h : string → option Z;
}.

Section codes.
Context (p : platform).

Definition UV__ERR (x : Z) : Z := if EDOM p >? 0 then - x else x.

(** [#if defined(name) && !defined(_WIN32)] ... [#else] ... [#endif] *)
Definition sys_code (name : string) (fallback : Z) : Z :=
  match errno_h p name with
  | Some x => if negb (WIN32 p) then UV__ERR x else fallback
  | None => fallback
  end.

Definition UV__EOF : Z := (-4095).
Definition UV__UNKNOWN : Z := (-4094).
Definition UV__EAI_ADDRFAMILY : Z := (-3000).
Definition UV__EAI_AGAIN : Z := (-3001).
Definition UV__EAI_BADFLAGS : Z := (-3002).
Definition UV__EAI_CANCELED : Z := (-3003).
Definition UV__EAI_FAIL : Z := (-3004).
Definition UV__EAI_FAMILY : Z := (-3005).
Definition UV__EAI_MEMORY : Z := (-3006).
Definition UV__EAI_NODATA : Z := (-3007).
Definition UV__EAI_NONAME : Z := (-3008).
Definition UV__EAI_OVERFLOW : Z := (-3009).
Definition UV__EAI_SERVICE : Z := (-3010).
Definition UV__EAI_SOCKTYPE : Z := (-3011).
Definition UV__EAI_BADHINTS : Z := (-3013).
Definition UV__EAI_PROTOCOL : Z := (-3014).
Definition UV__E2BIG : Z := sys_code "E2BIG" (-4093).
Definition UV__EACCES : Z := sys_code "EACCES" (-4092).
Definition UV__EADDRINUSE : Z := sys_code "EADDRINUSE" (-4091).
Definition UV__EADDRNOTAVAIL : Z := sys_code "EADDRNOTAVAIL" (-4090).
Definition UV__EAFNOSUPPORT : Z := sys_code "EAFNOSUPPORT" (-4089).
Definition UV__EAGAIN : Z := sys_code "EAGAIN" (-4088).
Definition UV__EALREADY : Z := sys_code "EALREADY" (-4084).
Definition UV__EBADF : Z := sys_code "EBADF" (-4083).
Definition UV__EBUSY : Z := sys_code "EBUSY" (-4082).
Definition UV__ECANCELED : Z := sys_code "ECANCELED" (-4081).
Definition UV__ECHARSET : Z := sys_code "ECHARSET" (-4080).
Definition UV__ECONNABORTED : Z := sys_code "ECONNABORTED" (-4079).
Definition UV__ECONNREFUSED : Z := sys_code "ECONNREFUSED" (-4078).
Definition UV__ECONNRESET : Z := sys_code "ECONNRESET" (-4077).
Definition UV__EDESTADDRREQ : Z := sys_code "EDESTADDRREQ" (-4076).
Definition UV__EEXIST : Z := sys_code "EEXIST" (-4075).
Definition UV__EFAULT : Z := sys_code "EFAULT" (-4074).
Definition UV__EHOSTUNREACH : Z := sys_code "EHOSTUNREACH" (-4073).
Definition UV__EINTR : Z := sys_code "EINTR" (-4072).
Definition UV__EINVAL : Z := sys_code "EINVAL" (-4071).
Definition UV__EIO : Z := sys_code "EIO" (-4070).
Definition UV__EISCONN : Z := sys_code "EISCONN" (-4069).
Definition UV__EISDIR : Z := sys_code "EISDIR" (-4068).
Definition UV__ELOOP : Z := sys_code "ELOOP" (-4067).
Definition UV__EMFILE : Z := sys_code "EMFILE" (-4066).
Definition UV__EMSGSIZE : Z := sys_code "EMSGSIZE" (-4065).
Definition UV__ENAMETOOLONG : Z := sys_code "ENAMETOOLONG" (-4064).
Definition UV__ENETDOWN : Z := sys_code "ENETDOWN" (-4063).
Definition UV__ENETUNREACH : Z := sys_code "ENETUNREACH" (-4062).
Definition UV__ENFILE : Z := sys_code "ENFILE" (-4061).
Definition UV__ENOBUFS : Z := sys_code "ENOBUFS" (-4060).
Definition UV__ENODEV : Z := sys_code "ENODEV" (-4059).
Definition UV__ENOENT : Z := sys_code "ENOENT" (-4058).
Definition UV__ENOMEM : Z := sys_code "ENOMEM" (-4057).
Definition UV__ENONET : Z := sys_code "ENONET" (-4056).
Definition UV__ENOSPC : Z := sys_code "ENOSPC" (-4055).
Definition UV__ENOSYS : Z := sys_code "ENOSYS" (-4054).
Definition UV__ENOTCONN : Z := sys_code "ENOTCONN" (-4053).
Definition UV__ENOTDIR : Z := sys_code "ENOTDIR" (-4052).
Definition UV__ENOTEMPTY : Z := sys_code "ENOTEMPTY" (-4051).
Definition UV__ENOTSOCK : Z := sys_code "ENOTSOCK" (-4050).
Definition UV__ENOTSUP : Z := sys_code "ENOTSUP" (-4049).
Definition UV__EPERM : Z := sys_code "EPERM" (-4048).
Definition UV__EPIPE : Z := sys_code "EPIPE" (-4047).
Definition UV__EPROTO : Z := sys_code "EPROTO" (-4046).
Definition UV__EPROTONOSUPPORT : Z := sys_code "EPROTONOSUPPORT" (-4045).
Definition UV__EPROTOTYPE : Z := sys_code "EPROTOTYPE" (-4044).
Definition UV__EROFS : Z := sys_code "EROFS" (-4043).
Definition UV__ESHUTDOWN : Z := sys_code "ESHUTDOWN" (-4042).
Definition UV__ESPIPE : Z := sys_code "ESPIPE" (-4041).
Definition UV__ESRCH : Z := sys_code "ESRCH" (-4040).
Definition UV__ETIMEDOUT : Z := sys_code "ETIMEDOUT" (-4039).
Definition UV__ETXTBSY : Z := sys_code "ETXTBSY" (-4038).
Definition UV__EXDEV : Z := sys_code "EXDEV" (-4037).
Definition UV__EFBIG : Z := sys_code "EFBIG" (-4036).
Definition UV__ENOPROTOOPT : Z := sys_code "ENOPROTOOPT" (-4035).
Definition UV__ERANGE : Z := sys_code "ERANGE" (-4034).
Definition UV__ENXIO : Z := sys_code "ENXIO" (-4033).
Definition UV__EMLINK : Z := sys_code "EMLINK" (-4032).
Definition UV__EHOSTDOWN : Z := sys_code "EHOSTDOWN" (if BSD p then (-64) else (-4031)).
Definition UV__EREMOTEIO : Z := sys_code "EREMOTEIO" (-4030).
Definition UV__ENOTTY : Z := sys_code "ENOTTY" (-4029).
Definition UV__EFTYPE : Z := sys_code "EFTYPE" (-4028).
Definition UV__EILSEQ : Z := sys_code "EILSEQ" (-4027).
Definition UV__EOVERFLOW : Z := sys_code "EOVERFLOW" (-4026).
Definition UV__ESOCKTNOSUPPORT : Z := sys_code "ESOCKTNOSUPPORT" (-4025).

(** [XX] gets the name, the code [UV__##name] and the message. *)
Definition UV_ERRNO_MAP {A} (XX : string → Z → string → A) : list A := [
  XX "E2BIG" UV__E2BIG "argument list too long";
  XX "EACCES" UV__EACCES "permission denied";
  XX "EADDRINUSE" UV__EADDRINUSE "address already in use";
  XX "EADDRNOTAVAIL" UV__EADDRNOTAVAIL "address not available";
  XX "EAFNOSUPPORT" UV__EAFNOSUPPORT "address family not supported";
  XX "EAGAIN" UV__EAGAIN "resource temporarily unavailable";
  XX "EAI_ADDRFAMILY" UV__EAI_ADDRFAMILY "address family not supported";
  XX "EAI_AGAIN" UV__EAI_AGAIN "temporary failure";
  XX "EAI_BADFLAGS" UV__EAI_BADFLAGS "bad ai_flags value";
  XX "EAI_BADHINTS" UV__EAI_BADHINTS "invalid value for hints";
  XX "EAI_CANCELED" UV__EAI_CANCELED "request canceled";
  XX "EAI_FAIL" UV__EAI_FAIL "permanent failure";
  XX "EAI_FAMILY" UV__EAI_FAMILY "ai_family not supported";
  XX "EAI_MEMORY" UV__EAI_MEMORY "out of memory";
  XX "EAI_NODATA" UV__EAI_NODATA "no address";
  XX "EAI_NONAME" UV__EAI_NONAME "unknown node or service";
  XX "EAI_OVERFLOW" UV__EAI_OVERFLOW "argument buffer overflow";
  XX "EAI_PROTOCOL" UV__EAI_PROTOCOL "resolved protocol is unknown";
  XX "EAI_SERVICE" UV__EAI_SERVICE "service not available for socket type";
  XX "EAI_SOCKTYPE" UV__EAI_SOCKTYPE "socket type not supported";
  XX "EALREADY" UV__EALREADY "connection already in progress";
  XX "EBADF" UV__EBADF "bad file descriptor";
  XX "EBUSY" UV__EBUSY "resource busy or locked";
  XX "ECANCELED" UV__ECANCELED "operation canceled";
  XX "ECHARSET" UV__ECHARSET "invalid Unicode character";
  XX "ECONNABORTED" UV__ECONNABORTED "software caused connection abort";
  XX "ECONNREFUSED" UV__ECONNREFUSED "connection refused";
  XX "ECONNRESET" UV__ECONNRESET "connection reset by peer";
  XX "EDESTADDRREQ" UV__EDESTADDRREQ "destination address required";
  XX "EEXIST" UV__EEXIST "file already exists";
  XX "EFAULT" UV__EFAULT "bad address in system call argument";
  XX "EFBIG" UV__EFBIG "file too large";
  XX "EHOSTUNREACH" UV__EHOSTUNREACH "host is unreachable";
  XX "EINTR" UV__EINTR "interrupted system call";
  XX "EINVAL" UV__EINVAL "invalid argument";
  XX "EIO" UV__EIO "i/o error";
  XX "EISCONN" UV__EISCONN "socket is already connected";
  XX "EISDIR" UV__EISDIR "illegal operation on a directory";
  XX "ELOOP" UV__ELOOP "too many symbolic links encountered";
  XX "EMFILE" UV__EMFILE "too many open files";
  XX "EMSGSIZE" UV__EMSGSIZE "message too long";
  XX "ENAMETOOLONG" UV__ENAMETOOLONG "name too long";
  XX "ENETDOWN" UV__ENETDOWN "network is down";
  XX "ENETUNREACH" UV__ENETUNREACH "network is unreachable";
  XX "ENFILE" UV__ENFILE "file table overflow";
  XX "ENOBUFS" UV__ENOBUFS "no buffer space available";
  XX "ENODEV" UV__ENODEV "no such device";
  XX "ENOENT" UV__ENOENT "no such file or directory";
  XX "ENOMEM" UV__ENOMEM "not enough memory";
  XX "ENONET" UV__ENONET "machine is not on the network";
  XX "ENOPROTOOPT" UV__ENOPROTOOPT "protocol not available";
  XX "ENOSPC" UV__ENOSPC "no space left on device";
  XX "ENOSYS" UV__ENOSYS "function not implemented";
  XX "ENOTCONN" UV__ENOTCONN "socket is not connected";
  XX "ENOTDIR" UV__ENOTDIR "not a directory";
  XX "ENOTEMPTY" UV__ENOTEMPTY "directory not empty";
  XX "ENOTSOCK" UV__ENOTSOCK "socket operation on non-socket";
  XX "ENOTSUP" UV__ENOTSUP "operation not supported on socket";
  XX "EOVERFLOW" UV__EOVERFLOW "value too large for defined data type";
  XX "EPERM" UV__EPERM "operation not permitted";
  XX "EPIPE" UV__EPIPE "broken pipe";
  XX "EPROTO" UV__EPROTO "protocol error";
  XX "EPROTONOSUPPORT" UV__EPROTONOSUPPORT "protocol not supported";
  XX "EPROTOTYPE" UV__EPROTOTYPE "protocol wrong type for socket";
  XX "ERANGE" UV__ERANGE "result too large";
  XX "EROFS" UV__EROFS "read-only file system";
  XX "ESHUTDOWN" UV__ESHUTDOWN "cannot send after transport endpoint shutdown";
  XX "ESPIPE" UV__ESPIPE "invalid seek";
  XX "ESRCH" UV__ESRCH "no such process";
  XX "ETIMEDOUT" UV__ETIMEDOUT "connection timed out";
  XX "ETXTBSY" UV__ETXTBSY "text file is busy";
  XX "EXDEV" UV__EXDEV "cross-device link not permitted";
  XX "UNKNOWN" UV__UNKNOWN "unknown error";
  XX "EOF" UV__EOF "end of file";
  XX "ENXIO" UV__ENXIO "no such device or address";
  XX "EMLINK" UV__EMLINK "too many links";
  XX "EHOSTDOWN" UV__EHOSTDOWN "host is down";
  XX "EREMOTEIO" UV__EREMOTEIO "remote I/O error";
  XX "ENOTTY" UV__ENOTTY "inappropriate ioctl for device";
  XX "EFTYPE" UV__EFTYPE "inappropriate file type or format";
  XX "EILSEQ" UV__EILSEQ "illegal byte sequence";
  XX "ESOCKTNOSUPPORT" UV__ESOCKTNOSUPPORT "socket type not supported"].

Definition uv_errno_t : list (string * Z) := UV_ERRNO_MAP (λ code v _, ("UV_" +:+ code, v)).
Definition UV_ERRNO_MAX : Z := UV__EOF - 1.
End codes.

(** ** Handle and request types *)

(** The enumerators of an [enum] that starts at zero. *)
Definition enum (names : list string) : list (string * Z) :=
  zip names (Z.of_nat <$> seq 0 (length names)).

Definition UV_HANDLE_TYPE_MAP {A} (XX : string → string → A) : list A := [
  XX "ASYNC" "async";
  XX "CHECK" "check";
  XX "FS_EVENT" "fs_event";
  XX "FS_POLL" "fs_poll";
  XX "HANDLE" "handle";
  XX "IDLE" "idle";
  XX "NAMED_PIPE" "pipe";
  XX "POLL" "poll";
  XX "PREPARE" "prepare";
  XX "PROCESS" "process";
  XX "STREAM" "stream";
  XX "TCP" "tcp";
  XX "TIMER" "timer";
  XX "TTY" "tty";
  XX "UDP" "udp";
  XX "SIGNAL" "signal"].

Definition UV_REQ_TYPE_MAP {A} (XX : string → string → A) : list A := [
  XX "REQ" "req";
  XX "CONNECT" "connect";
  XX "WRITE" "write";
  XX "SHUTDOWN" "shutdown";
  XX "UDP_SEND" "udp_send";
  XX "FS" "fs";
  XX "WORK" "work";
  XX "GETADDRINFO" "getaddrinfo";
  XX "GETNAMEINFO" "getnameinfo";
  XX "RANDOM" "random"].

Definition uv_handle_type : list (string * Z) :=
  enum ("UV_UNKNOWN_HANDLE" :: UV_HANDLE_TYPE_MAP (λ uc _, "UV_" +:+ uc) ++ ["UV_FILE"; "UV_HANDLE_TYPE_MAX"]).
(** The private types of Windows; there are none elsewhere. *)
Definition UV_REQ_TYPE_PRIVATE (win : bool) : list string :=
  if win then ["UV_ACCEPT"; "UV_FS_EVENT_REQ"; "UV_POLL_REQ"; "UV_PROCESS_EXIT"; "UV_READ"; "UV_UDP_RECV";
               "UV_WAKEUP"; "UV_SIGNAL_REQ"]
  else [].
Definition uv_req_type (win : bool) : list (string * Z) :=
  enum ("UV_UNKNOWN_REQ" :: UV_REQ_TYPE_MAP (λ uc _, "UV_" +:+ uc) ++ UV_REQ_TYPE_PRIVATE win ++ ["UV_REQ_TYPE_MAX"]).

(** ** The codes as a table *)

(** How a code is defined: a number, or from the system with a fallback. *)
Inductive code_kind : Type := Fixed (z : Z) | System (fallback : Z).
Definition code_table (bsd : bool) : list (string * code_kind) := [
  ("E2BIG", System (-4093));
  ("EACCES", System (-4092));
  ("EADDRINUSE", System (-4091));
  ("EADDRNOTAVAIL", System (-4090));
  ("EAFNOSUPPORT", System (-4089));
  ("EAGAIN", System (-4088));
  ("EAI_ADDRFAMILY", Fixed (-3000));
  ("EAI_AGAIN", Fixed (-3001));
  ("EAI_BADFLAGS", Fixed (-3002));
  ("EAI_BADHINTS", Fixed (-3013));
  ("EAI_CANCELED", Fixed (-3003));
  ("EAI_FAIL", Fixed (-3004));
  ("EAI_FAMILY", Fixed (-3005));
  ("EAI_MEMORY", Fixed (-3006));
  ("EAI_NODATA", Fixed (-3007));
  ("EAI_NONAME", Fixed (-3008));
  ("EAI_OVERFLOW", Fixed (-3009));
  ("EAI_PROTOCOL", Fixed (-3014));
  ("EAI_SERVICE", Fixed (-3010));
  ("EAI_SOCKTYPE", Fixed (-3011));
  ("EALREADY", System (-4084));
  ("EBADF", System (-4083));
  ("EBUSY", System (-4082));
  ("ECANCELED", System (-4081));
  ("ECHARSET", System (-4080));
  ("ECONNABORTED", System (-4079));
  ("ECONNREFUSED", System (-4078));
  ("ECONNRESET", System (-4077));
  ("EDESTADDRREQ", System (-4076));
  ("EEXIST", System (-4075));
  ("EFAULT", System (-4074));
  ("EFBIG", System (-4036));
  ("EHOSTUNREACH", System (-4073));
  ("EINTR", System (-4072));
  ("EINVAL", System (-4071));
  ("EIO", System (-4070));
  ("EISCONN", System (-4069));
  ("EISDIR", System (-4068));
  ("ELOOP", System (-4067));
  ("EMFILE", System (-4066));
  ("EMSGSIZE", System (-4065));
  ("ENAMETOOLONG", System (-4064));
  ("ENETDOWN", System (-4063));
  ("ENETUNREACH", System (-4062));
  ("ENFILE", System (-4061));
  ("ENOBUFS", System (-4060));
  ("ENODEV", System (-4059));
  ("ENOENT", System (-4058));
  ("ENOMEM", System (-4057));
  ("ENONET", System (-4056));
  ("ENOPROTOOPT", System (-4035));
  ("ENOSPC", System (-4055));
  ("ENOSYS", System (-4054));
  ("ENOTCONN", System (-4053));
  ("ENOTDIR", System (-4052));
  ("ENOTEMPTY", System (-4051));
  ("ENOTSOCK", System (-4050));
  ("ENOTSUP", System (-4049));
  ("EOVERFLOW", System (-4026));
  ("EPERM", System (-4048));
  ("EPIPE", System (-4047));
  ("EPROTO", System (-4046));
  ("EPROTONOSUPPORT", System (-4045));
  ("EPROTOTYPE", System (-4044));
  ("ERANGE", System (-4034));
  ("EROFS", System (-4043));
  ("ESHUTDOWN", System (-4042));
  ("ESPIPE", System (-4041));
  ("ESRCH", System (-4040));
  ("ETIMEDOUT", System (-4039));
  ("ETXTBSY", System (-4038));
  ("EXDEV", System (-4037));
  ("UNKNOWN", Fixed (-4094));
  ("EOF", Fixed (-4095));
  ("ENXIO", System (-4033));
  ("EMLINK", System (-4032));
  ("EHOSTDOWN", System (if bsd then (-64) else (-4031)));
  ("EREMOTEIO", System (-4030));
  ("ENOTTY", System (-4029));
  ("EFTYPE", System (-4028));
  ("EILSEQ", System (-4027));
  ("ESOCKTNOSUPPORT", System (-4025))].

#[export] Instance code_kind_eq_dec : EqDecision code_kind.
Proof. solve_decision. Defined.

Definition fallback (e : string * code_kind) : Z := match e.2 with Fixed z => z | System fb => fb end.

(** What the proofs need of the table: different names, different fallbacks,
    which lie in the range libuv keeps to itself but for the BSD EHOSTDOWN. *)
Definition fallback_ok (e : string * code_kind) : bool :=
  ((UV_ERRNO_MAX <? fallback e) && (fallback e <=? -3000)) ||
  (bool_decide (e.1 = "EHOSTDOWN") && (fallback e =? -64) && negb (bool_decide (e.2 = Fixed (-64)))).
Definition table_ok (t : list (string * code_kind)) : bool :=
  forallb (λ e, fallback_ok e &&
                forallb (λ e', negb (fallback e =? fallback e') || bool_decide (e.1 = e'.1)) t) t &&
  bool_decide (NoDup t.*1).

Lemma code_table_ok bsd : table_ok (code_table bsd) = true.
Proof. by destruct bsd; vm_compute. Qed.

Section table.
Context (p : platform).
Abbreviation table := (code_table (BSD p)).

Definition table_code (e : string * code_kind) : Z :=
  match e with (n, Fixed z) => z | (n, System fb) => sys_code p n fb end.

Lemma uv_errno_t_table : uv_errno_t p = (λ e, ("UV_" +:+ e.1, table_code e)) <$> table.
Proof. reflexivity. Qed.

(** A platform whose error numbers are positive, below the range libuv keeps to
    itself, and different for different names; where the BSD number of EHOSTDOWN
    stands in for a missing macro, no other name has it. *)
Definition system_value (n : string) : option Z :=
  match errno_h p n with
  | Some x => if WIN32 p then None else Some x
  | None => None
  end.
Definition platform_ok : Prop :=
  (WIN32 p = false → 0 < EDOM p) ∧
  (∀ n x, n ∈ table.*1 → system_value n = Some x → 0 < x < 3000) ∧
  (∀ n m x, n ∈ table.*1 → m ∈ table.*1 → system_value n = Some x → system_value m = Some x → n = m) ∧
  (BSD p = true → system_value "EHOSTDOWN" = None → ∀ n, n ∈ table.*1 → system_value n ≠ Some 64).

Context (Hok : platform_ok).

Lemma sys_code_value n fb :
  sys_code p n fb = match system_value n with Some x => - x | None => fb end.
Proof.
  destruct Hok as [HE _]. unfold sys_code, system_value, UV__ERR. destruct (errno_h p n); [|done].
  destruct (WIN32 p); [done|]. cbn [negb]. by rewrite (proj2 (Z.gtb_lt (EDOM p) 0) (HE eq_refl)).
Qed.

Lemma table_fallback e : e ∈ table → fallback_ok e = true.
Proof.
  pose proof (code_table_ok (BSD p)) as H. unfold table_ok in H. apply andb_prop in H as [H _].
  rewrite forallb_forall in H. intros He. specialize (H e). rewrite -list_elem_of_In in H.
  by apply (proj1 (andb_prop _ _ (H He))).
Qed.
Lemma table_distinct e e' : e ∈ table → e' ∈ table → fallback e = fallback e' → e.1 = e'.1.
Proof.
  pose proof (code_table_ok (BSD p)) as H. unfold table_ok in H. apply andb_prop in H as [H _].
  rewrite forallb_forall in H. intros He He' E. specialize (H e). rewrite -list_elem_of_In in H.
  specialize (H He). apply andb_prop in H as [_ H]. rewrite forallb_forall in H. specialize (H e').
  rewrite -list_elem_of_In in H. specialize (H He'). rewrite E Z.eqb_refl in H. cbn [negb orb] in H.
  by apply bool_decide_eq_true in H.
Qed.
Lemma table_names : NoDup table.*1.
Proof.
  pose proof (code_table_ok (BSD p)) as H. unfold table_ok in H. apply andb_prop in H as [_ H].
  by apply bool_decide_eq_true in H.
Qed.

Lemma table_name e : e ∈ table → e.1 ∈ table.*1.
Proof. intros He. by apply list_elem_of_fmap_2. Qed.

(** A code is the negated system value, or else the fallback. *)
Definition real_value (e : string * code_kind) : option Z :=
  match e.2 with Fixed _ => None | System _ => system_value e.1 end.
Lemma table_code_value e :
  table_code e = match real_value e with Some x => - x | None => fallback e end.
Proof. destruct e as [n [z|fb]]; [done|]. cbn. apply sys_code_value. Qed.

Lemma real_value_system e x : real_value e = Some x → system_value e.1 = Some x.
Proof. by destruct e as [n [z|fb]]. Qed.

Lemma fallback_real e e' x :
  e ∈ table → e' ∈ table → real_value e = None → real_value e' = Some x → fallback e ≠ - x.
Proof.
  intros He He' Hn Hx E. destruct Hok as (_ & Hr & _ & Hhost).
  apply real_value_system in Hx as Hs.
  assert (e'.1 ∈ table.*1) as Hin by by apply table_name.
  pose proof (Hr _ _ Hin Hs) as Hrange.
  pose proof (table_fallback e He) as Hf. unfold fallback_ok in Hf.
  destruct (Z.leb_spec (fallback e) (-3000)); [lia|]. rewrite andb_false_r orb_false_l in Hf.
  apply andb_prop in Hf as [[Hname Hfb]%andb_prop Hk]. apply bool_decide_eq_true in Hname.
  apply Z.eqb_eq in Hfb. assert (x = 64) as -> by lia.
  destruct (BSD p) eqn:Hb.
  - apply (Hhost eq_refl) in Hs; [done| |done]. rewrite -Hname.
    destruct e as [n [z|fb]]; [|done]. exfalso. cbn in Hfb. subst z. cbn in Hk. done.
  - assert (forallb (λ e, negb (fallback e =? -64)) (code_table false) = true) as Hno by by vm_compute.
    rewrite forallb_forall in Hno. specialize (Hno e). rewrite -list_elem_of_In in Hno.
    specialize (Hno He). by rewrite Hfb in Hno.
Qed.

Lemma table_code_inj e e' : e ∈ table → e' ∈ table → table_code e = table_code e' → e.1 = e'.1.
Proof.
  intros He He'. rewrite !table_code_value.
  destruct (real_value e) as [x|] eqn:Hx, (real_value e') as [x'|] eqn:Hx'; intros E.
  - destruct Hok as (_ & _ & Hinj & _). assert (x = x') as <- by lia.
    apply (Hinj _ _ x); [by apply table_name|by apply table_name|by apply real_value_system|by apply real_value_system].
  - by destruct (fallback_real e' e x He' He Hx' Hx).
  - by destruct (fallback_real e e' x' He He' Hx Hx').
  - by apply table_distinct.
Qed.

Lemma table_code_range e : e ∈ table → UV_ERRNO_MAX < table_code e < 0.
Proof.
  intros He. rewrite table_code_value. destruct (real_value e) as [x|] eqn:Hx.
  - destruct Hok as (_ & Hr & _). apply real_value_system in Hx.
    assert (0 < x < 3000) by by apply (Hr e.1); [apply table_name|].
    unfold UV_ERRNO_MAX, UV__EOF. lia.
  - pose proof (table_fallback e He) as Hf. unfold fallback_ok in Hf.
    apply orb_prop in Hf as [[H1 H2]%andb_prop|[[_ H]%andb_prop _]%andb_prop].
    + lia.
    + apply Z.eqb_eq in H. rewrite H. unfold UV_ERRNO_MAX, UV__EOF. lia.
Qed.
End table.
