(* ===== verification/UvProperties.v ===== *)
(** * Properties of libuv's error codes and enumerations *)

From S2P Require Import Prelude UvErrno.
From Stdlib Require Import ssreflect.
Local Open Scope string_scope.
Local Open Scope Z_scope.

(** ** The platforms the table is used on *)

(** Deciding [platform_ok]. *)
Definition platform_okb (p : platform) : bool :=
  let names := (code_table (BSD p)).*1 in
  let values := omap (λ n, (n,.) <$> system_value p n) names in
  (WIN32 p || (0 <? EDOM p)) &&
  forallb (λ v, (0 <? v.2) && (v.2 <? 3000)) values &&
  bool_decide (NoDup values.*2) &&
  (negb (BSD p) || bool_decide (system_value p "EHOSTDOWN" ≠ None) || bool_decide (64 ∉ values.*2)).

Lemma platform_okb_ok p : platform_okb p = true → platform_ok p.
Proof.
  unfold platform_okb. intros [[[HE Hr]%andb_prop Hd]%andb_prop Hh]%andb_prop.
  apply bool_decide_eq_true in Hd. set (values := omap _ _) in *.
  assert (∀ n x, n ∈ (code_table (BSD p)).*1 → system_value p n = Some x → (n, x) ∈ values) as Hin.
  { intros n x Hn Hx. apply list_elem_of_omap. exists n. by rewrite Hx. }
  unfold platform_ok. split_and!.
  - intros Hw. rewrite Hw in HE. lia.
  - intros n x Hn Hx. rewrite forallb_forall in Hr. specialize (Hr (n, x)). rewrite -list_elem_of_In in Hr.
    specialize (Hr (Hin _ _ Hn Hx)). cbn in Hr. lia.
  - intros n m x Hn Hm Hx Hy.
    pose proof (NoDup_fmap_inj snd values (n, x) (m, x) Hd (Hin _ _ Hn Hx) (Hin _ _ Hm Hy) eq_refl). congruence.
  - intros Hb Hnone n Hn Hx. rewrite Hb Hnone in Hh. cbn [negb orb] in Hh.
    apply orb_prop in Hh as [Hh|Hh]; apply bool_decide_eq_true in Hh; [done|].
    apply Hh. apply list_elem_of_fmap. exists (n, 64). split; [done|by apply Hin].
Qed.

(** The error numbers of Linux. *)
Definition linux_errno : list (string * Z) := [
  ("E2BIG", 7); ("EACCES", 13); ("EADDRINUSE", 98); ("EADDRNOTAVAIL", 99); ("EAFNOSUPPORT", 97);
  ("EAGAIN", 11); ("EALREADY", 114); ("EBADF", 9); ("EBUSY", 16); ("ECANCELED", 125);
  ("ECONNABORTED", 103); ("ECONNREFUSED", 111); ("ECONNRESET", 104); ("EDESTADDRREQ", 89);
  ("EEXIST", 17); ("EFAULT", 14); ("EFBIG", 27); ("EHOSTUNREACH", 113); ("EINTR", 4); ("EINVAL", 22);
  ("EIO", 5); ("EISCONN", 106); ("EISDIR", 21); ("ELOOP", 40); ("EMFILE", 24); ("EMSGSIZE", 90);
  ("ENAMETOOLONG", 36); ("ENETDOWN", 100); ("ENETUNREACH", 101); ("ENFILE", 23); ("ENOBUFS", 105);
  ("ENODEV", 19); ("ENOENT", 2); ("ENOMEM", 12); ("ENONET", 64); ("ENOPROTOOPT", 92); ("ENOSPC", 28);
  ("ENOSYS", 38); ("ENOTCONN", 107); ("ENOTDIR", 20); ("ENOTEMPTY", 39); ("ENOTSOCK", 88);
  ("ENOTSUP", 95); ("EOVERFLOW", 75); ("EPERM", 1); ("EPIPE", 32); ("EPROTO", 71);
  ("EPROTONOSUPPORT", 93); ("EPROTOTYPE", 91); ("ERANGE", 34); ("EROFS", 30); ("ESHUTDOWN", 108);
  ("ESPIPE", 29); ("ESRCH", 3); ("ETIMEDOUT", 110); ("ETXTBSY", 26); ("EXDEV", 18); ("ENXIO", 6);
  ("EMLINK", 31); ("EHOSTDOWN", 112); ("EREMOTEIO", 121); ("ENOTTY", 25); ("EILSEQ", 84);
  ("ESOCKTNOSUPPORT", 94)].
Definition linux : platform :=
  {| WIN32 := false; BSD := false; EDOM := 33; errno_h n := (list_to_map linux_errno : gmap string Z) !! n |}.

(** ** The codes *)

(** C36: on every platform whose error numbers are positive, small and different,
    libuv's error enumeration names every code once, gives no two names the same
    value, stays strictly between UV_ERRNO_MAX and zero, and gives a name the
    system knows the negated system number: translating a system error by
    negation lands on the code of that name and on no other. On Windows no
    code depends on the C library's numbers. *)
Theorem uv_errno_codes (p : platform) (Hp : platform_ok p) :
  NoDup (uv_errno_t p).*1 ∧ NoDup (uv_errno_t p).*2 ∧
  Forall (λ c, UV_ERRNO_MAX < c.2 < 0) (uv_errno_t p) ∧
  (∀ n fb x, (n, System fb) ∈ code_table (BSD p) → system_value p n = Some x →
     ∀ m, (m, - x) ∈ uv_errno_t p ↔ m = "UV_" +:+ n) ∧
  (WIN32 p = true → uv_errno_t p = (λ e, ("UV_" +:+ e.1, fallback e)) <$> code_table (BSD p)).
Proof.
  pose proof (table_names p) as Hnames.
  pose proof (NoDup_fmap_inj fst (code_table (BSD p))) as Hkey.
  rewrite uv_errno_t_table -!list_fmap_compose. split_and!.
  - apply NoDup_fmap_2_strong; [|by apply (NoDup_fmap_1 fst)].
    intros e e' He He' [=]. by apply Hkey.
  - apply NoDup_fmap_2_strong; [|by apply (NoDup_fmap_1 fst)].
    intros e e' He He' E. apply Hkey; [done..|]. by apply (table_code_inj p Hp).
  - apply Forall_fmap, Forall_forall. intros e He. by apply (table_code_range p Hp).
  - intros n fb x Hn Hx m.
    assert (table_code p (n, System fb) = - x) as Hcode by by rewrite (table_code_value p Hp) /real_value Hx.
    rewrite list_elem_of_fmap. split.
    + intros (e & [= -> E] & He). f_equal. apply (table_code_inj p Hp e (n, System fb) He Hn). congruence.
    + intros ->. exists (n, System fb). by rewrite Hcode.
  - intros Hw. apply list_fmap_ext. intros i e _. f_equal. rewrite (table_code_value p Hp).
    unfold real_value, system_value. rewrite Hw. destruct e as [n []]; [done|]. cbn. by destruct (errno_h p n).
Qed.

Lemma uv_errno_codes_witness :
  NoDup (uv_errno_t linux).*2 ∧ ("UV_ECONNREFUSED", -111) ∈ uv_errno_t linux ∧
  Forall (λ c, UV_ERRNO_MAX < c.2 < 0) (uv_errno_t linux).
Proof.
  pose proof (uv_errno_codes linux (platform_okb_ok linux eq_refl)) as (_ & Hv & Hr & Hs & _).
  split; [exact Hv|]. split; [|exact Hr].
  apply (Hs "ECONNREFUSED" (-4078) 111); [|reflexivity|reflexivity].
  apply (bool_decide_eq_true_1 _). vm_compute. reflexivity.
Defined.
