(* ===== verification/OpensslErr.v ===== *)
(** * OpenSSL's error codes: packing and decoding

    [openssl/err.h] (the copy for linux-x86_64, as every platform has it). An error code
    is an [unsigned long], whose width the platform chooses. *)

From S2P Require Import Prelude ByteMemory.
From stdpp Require Import strings.
Local Open Scope string_scope.
Local Open Scope Z_scope.

Definition INT_MAX : Z := 2 ^ 31 - 1.

(** ** The constants of the encoding *)

Definition ERR_SYSTEM_FLAG : Z := to_unsigned 32 (INT_MAX + 1).
Definition ERR_SYSTEM_MASK : Z := to_unsigned 32 INT_MAX.
Definition ERR_LIB_OFFSET : Z := 23.
Definition ERR_LIB_MASK : Z := 0xFF.
Definition ERR_RFLAGS_OFFSET : Z := 18.
Definition ERR_RFLAGS_MASK : Z := 0x1F.
Definition ERR_REASON_MASK : Z := 0x7FFFFF.
Definition ERR_RFLAG_FATAL : Z := Z.shiftl 0x1 ERR_RFLAGS_OFFSET.
Definition ERR_RFLAG_COMMON : Z := Z.shiftl 0x2 ERR_RFLAGS_OFFSET.

(** ** Libraries *)

Definition ERR_LIB_NONE : Z := 1.
Definition ERR_LIB_SYS : Z := 2.
Definition ERR_LIB_BN : Z := 3.
Definition ERR_LIB_RSA : Z := 4.
Definition ERR_LIB_DH : Z := 5.
Definition ERR_LIB_EVP : Z := 6.
Definition ERR_LIB_BUF : Z := 7.
Definition ERR_LIB_OBJ : Z := 8.
Definition ERR_LIB_PEM : Z := 9.
Definition ERR_LIB_DSA : Z := 10.
Definition ERR_LIB_X509 : Z := 11.
Definition ERR_LIB_ASN1 : Z := 13.
Definition ERR_LIB_CONF : Z := 14.
Definition ERR_LIB_CRYPTO : Z := 15.
Definition ERR_LIB_EC : Z := 16.
Definition ERR_LIB_SSL : Z := 20.
Definition ERR_LIB_BIO : Z := 32.
Definition ERR_LIB_PKCS7 : Z := 33.
Definition ERR_LIB_X509V3 : Z := 34.
Definition ERR_LIB_PKCS12 : Z := 35.
Definition ERR_LIB_RAND : Z := 36.
Definition ERR_LIB_DSO : Z := 37.
Definition ERR_LIB_ENGINE : Z := 38.
Definition ERR_LIB_OCSP : Z := 39.
Definition ERR_LIB_UI : Z := 40.
Definition ERR_LIB_COMP : Z := 41.
Definition ERR_LIB_ECDSA : Z := 42.
Definition ERR_LIB_ECDH : Z := 43.
Definition ERR_LIB_OSSL_STORE : Z := 44.
Definition ERR_LIB_FIPS : Z := 45.
Definition ERR_LIB_CMS : Z := 46.
Definition ERR_LIB_TS : Z := 47.
Definition ERR_LIB_HMAC : Z := 48.
Definition ERR_LIB_CT : Z := 50.
Definition ERR_LIB_ASYNC : Z := 51.
Definition ERR_LIB_KDF : Z := 52.
Definition ERR_LIB_SM2 : Z := 53.
Definition ERR_LIB_ESS : Z := 54.
Definition ERR_LIB_PROP : Z := 55.
Definition ERR_LIB_CRMF : Z := 56.
Definition ERR_LIB_PROV : Z := 57.
Definition ERR_LIB_CMP : Z := 58.
Definition ERR_LIB_OSSL_ENCODER : Z := 59.
Definition ERR_LIB_OSSL_DECODER : Z := 60.
Definition ERR_LIB_HTTP : Z := 61.
Definition ERR_LIB_USER : Z := 128.

(** ** Reasons common to all libraries *)

Definition ERR_R_SYS_LIB : Z := Z.lor ERR_LIB_SYS ERR_RFLAG_COMMON.
Definition ERR_R_BN_LIB : Z := Z.lor ERR_LIB_BN ERR_RFLAG_COMMON.
Definition ERR_R_RSA_LIB : Z := Z.lor ERR_LIB_RSA ERR_RFLAG_COMMON.
Definition ERR_R_DH_LIB : Z := Z.lor ERR_LIB_DH ERR_RFLAG_COMMON.
Definition ERR_R_EVP_LIB : Z := Z.lor ERR_LIB_EVP ERR_RFLAG_COMMON.
Definition ERR_R_BUF_LIB : Z := Z.lor ERR_LIB_BUF ERR_RFLAG_COMMON.
Definition ERR_R_OBJ_LIB : Z := Z.lor ERR_LIB_OBJ ERR_RFLAG_COMMON.
Definition ERR_R_PEM_LIB : Z := Z.lor ERR_LIB_PEM ERR_RFLAG_COMMON.
Definition ERR_R_DSA_LIB : Z := Z.lor ERR_LIB_DSA ERR_RFLAG_COMMON.
Definition ERR_R_X509_LIB : Z := Z.lor ERR_LIB_X509 ERR_RFLAG_COMMON.
Definition ERR_R_ASN1_LIB : Z := Z.lor ERR_LIB_ASN1 ERR_RFLAG_COMMON.
Definition ERR_R_CONF_LIB : Z := Z.lor ERR_LIB_CONF ERR_RFLAG_COMMON.
Definition ERR_R_CRYPTO_LIB : Z := Z.lor ERR_LIB_CRYPTO ERR_RFLAG_COMMON.
Definition ERR_R_EC_LIB : Z := Z.lor ERR_LIB_EC ERR_RFLAG_COMMON.
Definition ERR_R_SSL_LIB : Z := Z.lor ERR_LIB_SSL ERR_RFLAG_COMMON.
Definition ERR_R_BIO_LIB : Z := Z.lor ERR_LIB_BIO ERR_RFLAG_COMMON.
Definition ERR_R_PKCS7_LIB : Z := Z.lor ERR_LIB_PKCS7 ERR_RFLAG_COMMON.
Definition ERR_R_X509V3_LIB : Z := Z.lor ERR_LIB_X509V3 ERR_RFLAG_COMMON.
Definition ERR_R_PKCS12_LIB : Z := Z.lor ERR_LIB_PKCS12 ERR_RFLAG_COMMON.
Definition ERR_R_RAND_LIB : Z := Z.lor ERR_LIB_RAND ERR_RFLAG_COMMON.
Definition ERR_R_DSO_LIB : Z := Z.lor ERR_LIB_DSO ERR_RFLAG_COMMON.
Definition ERR_R_ENGINE_LIB : Z := Z.lor ERR_LIB_ENGINE ERR_RFLAG_COMMON.
Definition ERR_R_UI_LIB : Z := Z.lor ERR_LIB_UI ERR_RFLAG_COMMON.
Definition ERR_R_ECDSA_LIB : Z := Z.lor ERR_LIB_ECDSA ERR_RFLAG_COMMON.
Definition ERR_R_OSSL_STORE_LIB : Z := Z.lor ERR_LIB_OSSL_STORE ERR_RFLAG_COMMON.
Definition ERR_R_CMS_LIB : Z := Z.lor ERR_LIB_CMS ERR_RFLAG_COMMON.
Definition ERR_R_TS_LIB : Z := Z.lor ERR_LIB_TS ERR_RFLAG_COMMON.
Definition ERR_R_CT_LIB : Z := Z.lor ERR_LIB_CT ERR_RFLAG_COMMON.
Definition ERR_R_PROV_LIB : Z := Z.lor ERR_LIB_PROV ERR_RFLAG_COMMON.
Definition ERR_R_ESS_LIB : Z := Z.lor ERR_LIB_ESS ERR_RFLAG_COMMON.
Definition ERR_R_CMP_LIB : Z := Z.lor ERR_LIB_CMP ERR_RFLAG_COMMON.
Definition ERR_R_OSSL_ENCODER_LIB : Z := Z.lor ERR_LIB_OSSL_ENCODER ERR_RFLAG_COMMON.
Definition ERR_R_OSSL_DECODER_LIB : Z := Z.lor ERR_LIB_OSSL_DECODER ERR_RFLAG_COMMON.
Definition ERR_R_FATAL : Z := Z.lor ERR_RFLAG_FATAL ERR_RFLAG_COMMON.
Definition ERR_R_MALLOC_FAILURE : Z := Z.lor 256 ERR_R_FATAL.
Definition ERR_R_SHOULD_NOT_HAVE_BEEN_CALLED : Z := Z.lor 257 ERR_R_FATAL.
Definition ERR_R_PASSED_NULL_PARAMETER : Z := Z.lor 258 ERR_R_FATAL.
Definition ERR_R_INTERNAL_ERROR : Z := Z.lor 259 ERR_R_FATAL.
Definition ERR_R_DISABLED : Z := Z.lor 260 ERR_R_FATAL.
Definition ERR_R_INIT_FAIL : Z := Z.lor 261 ERR_R_FATAL.
Definition ERR_R_PASSED_INVALID_ARGUMENT : Z := Z.lor 262 ERR_RFLAG_COMMON.
Definition ERR_R_OPERATION_FAIL : Z := Z.lor 263 ERR_R_FATAL.
Definition ERR_R_INVALID_PROVIDER_FUNCTIONS : Z := Z.lor 264 ERR_R_FATAL.
Definition ERR_R_INTERRUPTED_OR_CANCELLED : Z := Z.lor 265 ERR_RFLAG_COMMON.
Definition ERR_R_NESTED_ASN1_ERROR : Z := Z.lor 266 ERR_RFLAG_COMMON.
Definition ERR_R_MISSING_ASN1_EOS : Z := Z.lor 267 ERR_RFLAG_COMMON.
Definition ERR_R_UNSUPPORTED : Z := Z.lor 268 ERR_RFLAG_COMMON.
Definition ERR_R_FETCH_FAILED : Z := Z.lor 269 ERR_RFLAG_COMMON.
Definition ERR_R_INVALID_PROPERTY_DEFINITION : Z := Z.lor 270 ERR_RFLAG_COMMON.
Definition ERR_R_UNABLE_TO_GET_READ_LOCK : Z := Z.lor 271 ERR_R_FATAL.
Definition ERR_R_UNABLE_TO_GET_WRITE_LOCK : Z := Z.lor 272 ERR_R_FATAL.

(** ** Decoding and packing *)

Definition ERR_SYSTEM_ERROR (errcode : Z) : bool := negb (Z.land errcode ERR_SYSTEM_FLAG =? 0).

(** The functions return [int]: the last step of each is the conversion. *)
Definition ERR_GET_LIB (errcode : Z) : Z :=
  if ERR_SYSTEM_ERROR errcode then ERR_LIB_SYS
  else to_signed 32 (Z.land (Z.shiftr errcode ERR_LIB_OFFSET) ERR_LIB_MASK).
Definition ERR_GET_RFLAGS (errcode : Z) : Z :=
  if ERR_SYSTEM_ERROR errcode then 0
  else to_signed 32 (Z.land errcode (Z.shiftl ERR_RFLAGS_MASK ERR_RFLAGS_OFFSET)).
Definition ERR_GET_REASON (errcode : Z) : Z :=
  if ERR_SYSTEM_ERROR errcode then to_signed 32 (Z.land errcode ERR_SYSTEM_MASK)
  else to_signed 32 (Z.land errcode ERR_REASON_MASK).
Definition ERR_FATAL_ERROR (errcode : Z) : bool := negb (Z.land (ERR_GET_RFLAGS errcode) ERR_RFLAG_FATAL =? 0).
Definition ERR_COMMON_ERROR (errcode : Z) : bool := negb (Z.land (ERR_GET_RFLAGS errcode) ERR_RFLAG_COMMON =? 0).

(** [ulong_bits] is the width of [unsigned long], to which [lib] and [reason]
    are converted and in which the shift is done. *)
Definition ERR_PACK (ulong_bits lib func reason : Z) : Z :=
  Z.lor (to_unsigned ulong_bits (Z.shiftl (Z.land (to_unsigned ulong_bits lib) ERR_LIB_MASK) ERR_LIB_OFFSET))
        (Z.land (to_unsigned ulong_bits reason) ERR_REASON_MASK).

(** ** The constants, with their names *)

Definition library_numbers : list (string * Z) := [
  ("ERR_LIB_NONE", ERR_LIB_NONE); ("ERR_LIB_SYS", ERR_LIB_SYS); ("ERR_LIB_BN", ERR_LIB_BN);
  ("ERR_LIB_RSA", ERR_LIB_RSA); ("ERR_LIB_DH", ERR_LIB_DH); ("ERR_LIB_EVP", ERR_LIB_EVP);
  ("ERR_LIB_BUF", ERR_LIB_BUF); ("ERR_LIB_OBJ", ERR_LIB_OBJ); ("ERR_LIB_PEM", ERR_LIB_PEM);
  ("ERR_LIB_DSA", ERR_LIB_DSA); ("ERR_LIB_X509", ERR_LIB_X509); ("ERR_LIB_ASN1", ERR_LIB_ASN1);
  ("ERR_LIB_CONF", ERR_LIB_CONF); ("ERR_LIB_CRYPTO", ERR_LIB_CRYPTO); ("ERR_LIB_EC", ERR_LIB_EC);
  ("ERR_LIB_SSL", ERR_LIB_SSL); ("ERR_LIB_BIO", ERR_LIB_BIO); ("ERR_LIB_PKCS7", ERR_LIB_PKCS7);
  ("ERR_LIB_X509V3", ERR_LIB_X509V3); ("ERR_LIB_PKCS12", ERR_LIB_PKCS12); ("ERR_LIB_RAND", ERR_LIB_RAND);
  ("ERR_LIB_DSO", ERR_LIB_DSO); ("ERR_LIB_ENGINE", ERR_LIB_ENGINE); ("ERR_LIB_OCSP", ERR_LIB_OCSP);
  ("ERR_LIB_UI", ERR_LIB_UI); ("ERR_LIB_COMP", ERR_LIB_COMP); ("ERR_LIB_ECDSA", ERR_LIB_ECDSA);
  ("ERR_LIB_ECDH", ERR_LIB_ECDH); ("ERR_LIB_OSSL_STORE", ERR_LIB_OSSL_STORE);
  ("ERR_LIB_FIPS", ERR_LIB_FIPS); ("ERR_LIB_CMS", ERR_LIB_CMS); ("ERR_LIB_TS", ERR_LIB_TS);
  ("ERR_LIB_HMAC", ERR_LIB_HMAC); ("ERR_LIB_CT", ERR_LIB_CT); ("ERR_LIB_ASYNC", ERR_LIB_ASYNC);
  ("ERR_LIB_KDF", ERR_LIB_KDF); ("ERR_LIB_SM2", ERR_LIB_SM2); ("ERR_LIB_ESS", ERR_LIB_ESS);
  ("ERR_LIB_PROP", ERR_LIB_PROP); ("ERR_LIB_CRMF", ERR_LIB_CRMF); ("ERR_LIB_PROV", ERR_LIB_PROV);
  ("ERR_LIB_CMP", ERR_LIB_CMP); ("ERR_LIB_OSSL_ENCODER", ERR_LIB_OSSL_ENCODER);
  ("ERR_LIB_OSSL_DECODER", ERR_LIB_OSSL_DECODER); ("ERR_LIB_HTTP", ERR_LIB_HTTP);
  ("ERR_LIB_USER", ERR_LIB_USER)].
Definition common_reasons : list (string * Z) := [
  ("ERR_R_SYS_LIB", ERR_R_SYS_LIB); ("ERR_R_BN_LIB", ERR_R_BN_LIB); ("ERR_R_RSA_LIB", ERR_R_RSA_LIB);
  ("ERR_R_DH_LIB", ERR_R_DH_LIB); ("ERR_R_EVP_LIB", ERR_R_EVP_LIB); ("ERR_R_BUF_LIB", ERR_R_BUF_LIB);
  ("ERR_R_OBJ_LIB", ERR_R_OBJ_LIB); ("ERR_R_PEM_LIB", ERR_R_PEM_LIB); ("ERR_R_DSA_LIB", ERR_R_DSA_LIB);
  ("ERR_R_X509_LIB", ERR_R_X509_LIB); ("ERR_R_ASN1_LIB", ERR_R_ASN1_LIB);
  ("ERR_R_CONF_LIB", ERR_R_CONF_LIB); ("ERR_R_CRYPTO_LIB", ERR_R_CRYPTO_LIB);
  ("ERR_R_EC_LIB", ERR_R_EC_LIB); ("ERR_R_SSL_LIB", ERR_R_SSL_LIB); ("ERR_R_BIO_LIB", ERR_R_BIO_LIB);
  ("ERR_R_PKCS7_LIB", ERR_R_PKCS7_LIB); ("ERR_R_X509V3_LIB", ERR_R_X509V3_LIB);
  ("ERR_R_PKCS12_LIB", ERR_R_PKCS12_LIB); ("ERR_R_RAND_LIB", ERR_R_RAND_LIB);
  ("ERR_R_DSO_LIB", ERR_R_DSO_LIB); ("ERR_R_ENGINE_LIB", ERR_R_ENGINE_LIB);
  ("ERR_R_UI_LIB", ERR_R_UI_LIB); ("ERR_R_ECDSA_LIB", ERR_R_ECDSA_LIB);
  ("ERR_R_OSSL_STORE_LIB", ERR_R_OSSL_STORE_LIB); ("ERR_R_CMS_LIB", ERR_R_CMS_LIB);
  ("ERR_R_TS_LIB", ERR_R_TS_LIB); ("ERR_R_CT_LIB", ERR_R_CT_LIB); ("ERR_R_PROV_LIB", ERR_R_PROV_LIB);
  ("ERR_R_ESS_LIB", ERR_R_ESS_LIB); ("ERR_R_CMP_LIB", ERR_R_CMP_LIB);
  ("ERR_R_OSSL_ENCODER_LIB", ERR_R_OSSL_ENCODER_LIB); ("ERR_R_OSSL_DECODER_LIB", ERR_R_OSSL_DECODER_LIB);
  ("ERR_R_FATAL", ERR_R_FATAL); ("ERR_R_MALLOC_FAILURE", ERR_R_MALLOC_FAILURE);
  ("ERR_R_SHOULD_NOT_HAVE_BEEN_CALLED", ERR_R_SHOULD_NOT_HAVE_BEEN_CALLED);
  ("ERR_R_PASSED_NULL_PARAMETER", ERR_R_PASSED_NULL_PARAMETER);
  ("ERR_R_INTERNAL_ERROR", ERR_R_INTERNAL_ERROR); ("ERR_R_DISABLED", ERR_R_DISABLED);
  ("ERR_R_INIT_FAIL", ERR_R_INIT_FAIL); ("ERR_R_PASSED_INVALID_ARGUMENT", ERR_R_PASSED_INVALID_ARGUMENT);
  ("ERR_R_OPERATION_FAIL", ERR_R_OPERATION_FAIL);
  ("ERR_R_INVALID_PROVIDER_FUNCTIONS", ERR_R_INVALID_PROVIDER_FUNCTIONS);
  ("ERR_R_INTERRUPTED_OR_CANCELLED", ERR_R_INTERRUPTED_OR_CANCELLED);
  ("ERR_R_NESTED_ASN1_ERROR", ERR_R_NESTED_ASN1_ERROR);
  ("ERR_R_MISSING_ASN1_EOS", ERR_R_MISSING_ASN1_EOS); ("ERR_R_UNSUPPORTED", ERR_R_UNSUPPORTED);
  ("ERR_R_FETCH_FAILED", ERR_R_FETCH_FAILED);
  ("ERR_R_INVALID_PROPERTY_DEFINITION", ERR_R_INVALID_PROPERTY_DEFINITION);
  ("ERR_R_UNABLE_TO_GET_READ_LOCK", ERR_R_UNABLE_TO_GET_READ_LOCK);
  ("ERR_R_UNABLE_TO_GET_WRITE_LOCK", ERR_R_UNABLE_TO_GET_WRITE_LOCK)].
