(* ===== verification/OpensslFacts.v ===== *)
(** * Lemmas on the packing of OpenSSL's error codes

    The masks and shifts of [OpensslErr] as remainders and quotients, and the
    test of a single bit. *)

From S2P Require Import Prelude ByteMemory OpensslErr.
From Stdlib Require Import ssreflect.
Local Open Scope Z_scope.

(** ** Single bits *)

Lemma land_bit x n : 0 ≤ n → negb (Z.land x (2 ^ n) =? 0) = Z.testbit x n.
Proof.
  intros Hn. destruct (Z.testbit x n) eqn:E.
  - apply negb_true_iff, Z.eqb_neq. intros H. apply (f_equal (λ y, Z.testbit y n)) in H.
    by rewrite Z.land_spec E Z.pow2_bits_true // Z.bits_0 in H.
  - apply negb_false_iff, Z.eqb_eq. apply Z.bits_inj'. intros i Hi.
    rewrite Z.land_spec Z.bits_0 Z.pow2_bits_eqb //.
    destruct (Z.eqb_spec n i) as [<-|]; [by rewrite E|by rewrite andb_false_r].
Qed.

Lemma testbit_high x n : 0 ≤ n → 0 ≤ x < 2 ^ (n + 1) → Z.testbit x n = (2 ^ n <=? x).
Proof.
  intros Hn Hx. rewrite Z.pow_add_r // in Hx. rewrite Z.testbit_eqb //.
  destruct (Z.leb_spec (2 ^ n) x).
  - rewrite (_ : x / 2 ^ n = 1) //. symmetry. apply Z.div_unique with (x - 2 ^ n); lia.
  - rewrite Z.div_small //; lia.
Qed.

Lemma bits_lt x n : 0 ≤ n → (∀ i, n ≤ i → Z.testbit x i = false) → 0 ≤ x < 2 ^ n.
Proof.
  intros Hn Hx. rewrite (_ : x = x mod 2 ^ n); [apply Z.mod_pos_bound; lia|].
  apply Z.bits_inj'. intros i Hi. destruct (Z.ltb_spec i n).
  - by rewrite Z.mod_pow2_bits_low.
  - by rewrite Z.mod_pow2_bits_high; [apply Hx|lia].
Qed.

(** ** The fields of a code *)

Lemma system_error_spec e : 0 ≤ e < 2 ^ 32 → ERR_SYSTEM_ERROR e = (2 ^ 31 <=? e).
Proof. intros He. unfold ERR_SYSTEM_ERROR. rewrite (land_bit e 31) //. by apply testbit_high. Qed.

Lemma to_signed_32_small x : 0 ≤ x < 2 ^ 31 → to_signed 32 x = x.
Proof. intros Hx. apply to_signed_id; [done|]. unfold in_signed. lia. Qed.

Section library_error.
Context (e : Z) (He : 0 ≤ e < 2 ^ 31).

Lemma library_not_system : ERR_SYSTEM_ERROR e = false.
Proof. rewrite system_error_spec; [apply Z.leb_gt|]; lia. Qed.

Lemma GET_LIB_spec : ERR_GET_LIB e = e / 2 ^ 23.
Proof.
  unfold ERR_GET_LIB. rewrite library_not_system. rewrite (Z.land_ones _ 8) // Z.shiftr_div_pow2 //.
  assert (0 ≤ e / 2 ^ 23 < 2 ^ 8) by (split; [apply Z.div_pos; lia|apply Z.div_lt_upper_bound; lia]).
  rewrite Z.mod_small //. apply to_signed_32_small. lia.
Qed.

Lemma GET_REASON_spec : ERR_GET_REASON e = e mod 2 ^ 23.
Proof.
  unfold ERR_GET_REASON. rewrite library_not_system (Z.land_ones _ 23) //. apply to_signed_32_small.
  pose proof (Z.mod_pos_bound e (2 ^ 23)). lia.
Qed.

Lemma GET_RFLAGS_bit i :
  0 ≤ i → Z.testbit (ERR_GET_RFLAGS e) i = (18 <=? i) && (i <? 23) && Z.testbit e i.
Proof.
  intros Hi. unfold ERR_GET_RFLAGS. rewrite library_not_system. rewrite to_signed_32_small.
  - rewrite Z.land_spec. change (Z.shiftl _ _) with (Z.shiftl (Z.ones 5) 18).
    rewrite Z.shiftl_spec // andb_comm. f_equal.
    destruct (Z.leb_spec 18 i); [|rewrite Z.testbit_neg_r; [done|lia]].
    rewrite Z.testbit_ones; [|lia]. destruct (Z.ltb_spec i 23), (Z.ltb_spec (i - 18) 5), (Z.leb_spec 0 (i - 18)); done || lia.
  - enough (0 ≤ Z.land e (Z.shiftl ERR_RFLAGS_MASK ERR_RFLAGS_OFFSET) < 2 ^ 23) by lia.
    apply bits_lt; [done|]. intros j Hj. rewrite Z.land_spec.
    rewrite (Z.bits_above_log2 (Z.shiftl _ _) j); [apply andb_false_r|done|].
    change (Z.log2 _) with 22. lia.
Qed.

Lemma FATAL_spec : ERR_FATAL_ERROR e = Z.testbit e 18.
Proof. unfold ERR_FATAL_ERROR. rewrite (land_bit _ 18) // GET_RFLAGS_bit //. Qed.
Lemma COMMON_spec : ERR_COMMON_ERROR e = Z.testbit e 19.
Proof. unfold ERR_COMMON_ERROR. rewrite (land_bit _ 19) // GET_RFLAGS_bit //. Qed.
End library_error.

(** ** Packing *)

Lemma to_unsigned_mod w n x : 0 ≤ n ≤ w → to_unsigned w x mod 2 ^ n = x mod 2 ^ n.
Proof.
  intros Hn. apply Z.mod_mod_divide. exists (2 ^ (w - n)). rewrite -Z.pow_add_r; [f_equal|..]; lia.
Qed.

Lemma PACK_spec w lib func reason :
  31 ≤ w → ERR_PACK w lib func reason = lib mod 2 ^ 8 * 2 ^ 23 + reason mod 2 ^ 23.
Proof.
  intros Hw. unfold ERR_PACK. rewrite (Z.land_ones _ 8) // (Z.land_ones _ 23) // !to_unsigned_mod; [|lia..].
  rewrite Z.shiftl_mul_pow2 //. pose proof (Z.mod_pos_bound lib (2 ^ 8)).
  pose proof (Z.mod_pos_bound reason (2 ^ 23)). pose proof (Z.pow_le_mono_r 2 31 w).
  rewrite to_unsigned_id; [|unfold in_unsigned, ERR_LIB_OFFSET; lia].
  unfold ERR_LIB_OFFSET. rewrite -Z.lxor_lor; [symmetry; apply Z.add_nocarry_lxor|];
    (apply Z.bits_inj'; intros i Hi; rewrite Z.land_spec Z.bits_0;
     destruct (Z.ltb_spec i 23); [by rewrite Z.mul_pow2_bits_low|]; rewrite (Z.mod_pow2_bits_high reason 23) ?andb_false_r //; lia).
Qed.

Lemma PACK_range w lib func reason : 31 ≤ w → 0 ≤ ERR_PACK w lib func reason < 2 ^ 31.
Proof.
  intros Hw. rewrite PACK_spec //. pose proof (Z.mod_pos_bound lib (2 ^ 8)).
  pose proof (Z.mod_pos_bound reason (2 ^ 23)). lia.
Qed.

Lemma PACK_lib w lib func reason : 31 ≤ w → ERR_GET_LIB (ERR_PACK w lib func reason) = lib mod 2 ^ 8.
Proof.
  intros Hw. rewrite GET_LIB_spec; [|by apply PACK_range]. rewrite PACK_spec //.
  pose proof (Z.mod_pos_bound reason (2 ^ 23)). rewrite Z.div_add_l // Z.div_small; lia.
Qed.
Lemma PACK_reason w lib func reason : 31 ≤ w → ERR_GET_REASON (ERR_PACK w lib func reason) = reason mod 2 ^ 23.
Proof.
  intros Hw. rewrite GET_REASON_spec; [|by apply PACK_range]. rewrite PACK_spec //.
  rewrite Z.add_comm Z.mod_add // Z.mod_mod //.
Qed.
Lemma PACK_bit w lib func reason i :
  31 ≤ w → 0 ≤ i < 23 → Z.testbit (ERR_PACK w lib func reason) i = Z.testbit reason i.
Proof.
  intros Hw Hi. rewrite PACK_spec // -(Z.mod_pow2_bits_low _ 23) // 1?Z.add_comm; [|lia].
  rewrite Z.mod_add // Z.mod_mod // Z.mod_pow2_bits_low //; lia.
Qed.
