(* ===== verification/OpensslReasons.v ===== *)
(** * The reason codes of OpenSSL's libraries

    One table per header [openssl/*err.h]: the macros with their values, in the
    order of the header. [error_libraries] gives each library number its
    table. *)

From S2P Require Import Prelude OpensslErr.
From stdpp Require Import strings.
Local Open Scope string_scope.
Local Open Scope Z_scope.

Definition reasons : Type := list (string * Z).

Definition ASN1_R : reasons := [
  ("ASN1_R_ADDING_OBJECT", 171);
  ("ASN1_R_ASN1_PARSE_ERROR", 203);
  ("ASN1_R_ASN1_SIG_PARSE_ERROR", 204);
  ("ASN1_R_AUX_ERROR", 100);
  ("ASN1_R_BAD_OBJECT_HEADER", 102);
  ("ASN1_R_BAD_TEMPLATE", 230);
  ("ASN1_R_BMPSTRING_IS_WRONG_LENGTH", 214);
  ("ASN1_R_BN_LIB", 105);
  ("ASN1_R_BOOLEAN_IS_WRONG_LENGTH", 106);
  ("ASN1_R_BUFFER_TOO_SMALL", 107);
  ("ASN1_R_CIPHER_HAS_NO_OBJECT_IDENTIFIER", 108);
  ("ASN1_R_CONTEXT_NOT_INITIALISED", 217);
  ("ASN1_R_DATA_IS_WRONG", 109);
  ("ASN1_R_DECODE_ERROR", 110);
  ("ASN1_R_DEPTH_EXCEEDED", 174);
  ("ASN1_R_DIGEST_AND_KEY_TYPE_NOT_SUPPORTED", 198);
  ("ASN1_R_ENCODE_ERROR", 112);
  ("ASN1_R_ERROR_GETTING_TIME", 173);
  ("ASN1_R_ERROR_LOADING_SECTION", 172);
  ("ASN1_R_ERROR_SETTING_CIPHER_PARAMS", 114);
  ("ASN1_R_EXPECTING_AN_INTEGER", 115);
  ("ASN1_R_EXPECTING_AN_OBJECT", 116);
  ("ASN1_R_EXPLICIT_LENGTH_MISMATCH", 119);
  ("ASN1_R_EXPLICIT_TAG_NOT_CONSTRUCTED", 120);
  ("ASN1_R_FIELD_MISSING", 121);
  ("ASN1_R_FIRST_NUM_TOO_LARGE", 122);
  ("ASN1_R_HEADER_TOO_LONG", 123);
  ("ASN1_R_ILLEGAL_BITSTRING_FORMAT", 175);
  ("ASN1_R_ILLEGAL_BOOLEAN", 176);
  ("ASN1_R_ILLEGAL_CHARACTERS", 124);
  ("ASN1_R_ILLEGAL_FORMAT", 177);
  ("ASN1_R_ILLEGAL_HEX", 178);
  ("ASN1_R_ILLEGAL_IMPLICIT_TAG", 179);
  ("ASN1_R_ILLEGAL_INTEGER", 180);
  ("ASN1_R_ILLEGAL_NEGATIVE_VALUE", 226);
  ("ASN1_R_ILLEGAL_NESTED_TAGGING", 181);
  ("ASN1_R_ILLEGAL_NULL", 125);
  ("ASN1_R_ILLEGAL_NULL_VALUE", 182);
  ("ASN1_R_ILLEGAL_OBJECT", 183);
  ("ASN1_R_ILLEGAL_OPTIONAL_ANY", 126);
  ("ASN1_R_ILLEGAL_OPTIONS_ON_ITEM_TEMPLATE", 170);
  ("ASN1_R_ILLEGAL_PADDING", 221);
  ("ASN1_R_ILLEGAL_TAGGED_ANY", 127);
  ("ASN1_R_ILLEGAL_TIME_VALUE", 184);
  ("ASN1_R_ILLEGAL_ZERO_CONTENT", 222);
  ("ASN1_R_INTEGER_NOT_ASCII_FORMAT", 185);
  ("ASN1_R_INTEGER_TOO_LARGE_FOR_LONG", 128);
  ("ASN1_R_INVALID_BIT_STRING_BITS_LEFT", 220);
  ("ASN1_R_INVALID_BMPSTRING_LENGTH", 129);
  ("ASN1_R_INVALID_DIGIT", 130);
  ("ASN1_R_INVALID_MIME_TYPE", 205);
  ("ASN1_R_INVALID_MODIFIER", 186);
  ("ASN1_R_INVALID_NUMBER", 187);
  ("ASN1_R_INVALID_OBJECT_ENCODING", 216);
  ("ASN1_R_INVALID_SCRYPT_PARAMETERS", 227);
  ("ASN1_R_INVALID_SEPARATOR", 131);
  ("ASN1_R_INVALID_STRING_TABLE_VALUE", 218);
  ("ASN1_R_INVALID_UNIVERSALSTRING_LENGTH", 133);
  ("ASN1_R_INVALID_UTF8STRING", 134);
  ("ASN1_R_INVALID_VALUE", 219);
  ("ASN1_R_LENGTH_TOO_LONG", 231);
  ("ASN1_R_LIST_ERROR", 188);
  ("ASN1_R_MIME_NO_CONTENT_TYPE", 206);
  ("ASN1_R_MIME_PARSE_ERROR", 207);
  ("ASN1_R_MIME_SIG_PARSE_ERROR", 208);
  ("ASN1_R_MISSING_EOC", 137);
  ("ASN1_R_MISSING_SECOND_NUMBER", 138);
  ("ASN1_R_MISSING_VALUE", 189);
  ("ASN1_R_MSTRING_NOT_UNIVERSAL", 139);
  ("ASN1_R_MSTRING_WRONG_TAG", 140);
  ("ASN1_R_NESTED_ASN1_STRING", 197);
  ("ASN1_R_NESTED_TOO_DEEP", 201);
  ("ASN1_R_NON_HEX_CHARACTERS", 141);
  ("ASN1_R_NOT_ASCII_FORMAT", 190);
  ("ASN1_R_NOT_ENOUGH_DATA", 142);
  ("ASN1_R_NO_CONTENT_TYPE", 209);
  ("ASN1_R_NO_MATCHING_CHOICE_TYPE", 143);
  ("ASN1_R_NO_MULTIPART_BODY_FAILURE", 210);
  ("ASN1_R_NO_MULTIPART_BOUNDARY", 211);
  ("ASN1_R_NO_SIG_CONTENT_TYPE", 212);
  ("ASN1_R_NULL_IS_WRONG_LENGTH", 144);
  ("ASN1_R_OBJECT_NOT_ASCII_FORMAT", 191);
  ("ASN1_R_ODD_NUMBER_OF_CHARS", 145);
  ("ASN1_R_SECOND_NUMBER_TOO_LARGE", 147);
  ("ASN1_R_SEQUENCE_LENGTH_MISMATCH", 148);
  ("ASN1_R_SEQUENCE_NOT_CONSTRUCTED", 149);
  ("ASN1_R_SEQUENCE_OR_SET_NEEDS_CONFIG", 192);
  ("ASN1_R_SHORT_LINE", 150);
  ("ASN1_R_SIG_INVALID_MIME_TYPE", 213);
  ("ASN1_R_STREAMING_NOT_SUPPORTED", 202);
  ("ASN1_R_STRING_TOO_LONG", 151);
  ("ASN1_R_STRING_TOO_SHORT", 152);
  ("ASN1_R_THE_ASN1_OBJECT_IDENTIFIER_IS_NOT_KNOWN_FOR_THIS_MD", 154);
  ("ASN1_R_TIME_NOT_ASCII_FORMAT", 193);
  ("ASN1_R_TOO_LARGE", 223);
  ("ASN1_R_TOO_LONG", 155);
  ("ASN1_R_TOO_SMALL", 224);
  ("ASN1_R_TYPE_NOT_CONSTRUCTED", 156);
  ("ASN1_R_TYPE_NOT_PRIMITIVE", 195);
  ("ASN1_R_UNEXPECTED_EOC", 159);
  ("ASN1_R_UNIVERSALSTRING_IS_WRONG_LENGTH", 215);
  ("ASN1_R_UNKNOWN_DIGEST", 229);
  ("ASN1_R_UNKNOWN_FORMAT", 160);
  ("ASN1_R_UNKNOWN_MESSAGE_DIGEST_ALGORITHM", 161);
  ("ASN1_R_UNKNOWN_OBJECT_TYPE", 162);
  ("ASN1_R_UNKNOWN_PUBLIC_KEY_TYPE", 163);
  ("ASN1_R_UNKNOWN_SIGNATURE_ALGORITHM", 199);
  ("ASN1_R_UNKNOWN_TAG", 194);
  ("ASN1_R_UNSUPPORTED_ANY_DEFINED_BY_TYPE", 164);
  ("ASN1_R_UNSUPPORTED_CIPHER", 228);
  ("ASN1_R_UNSUPPORTED_PUBLIC_KEY_TYPE", 167);
  ("ASN1_R_UNSUPPORTED_TYPE", 196);
  ("ASN1_R_WRONG_INTEGER_TYPE", 225);
  ("ASN1_R_WRONG_PUBLIC_KEY_TYPE", 200);
  ("ASN1_R_WRONG_TAG", 168)].

Definition ASYNC_R : reasons := [
  ("ASYNC_R_FAILED_TO_SET_POOL", 101);
  ("ASYNC_R_FAILED_TO_SWAP_CONTEXT", 102);
  ("ASYNC_R_INIT_FAILED", 105);
  ("ASYNC_R_INVALID_POOL_SIZE", 103)].

Definition BIO_R : reasons := [
  ("BIO_R_ACCEPT_ERROR", 100);
  ("BIO_R_ADDRINFO_ADDR_IS_NOT_AF_INET", 141);
  ("BIO_R_AMBIGUOUS_HOST_OR_SERVICE", 129);
  ("BIO_R_BAD_FOPEN_MODE", 101);
  ("BIO_R_BROKEN_PIPE", 124);
  ("BIO_R_CONNECT_ERROR", 103);
  ("BIO_R_CONNECT_TIMEOUT", 147);
  ("BIO_R_GETHOSTBYNAME_ADDR_IS_NOT_AF_INET", 107);
  ("BIO_R_GETSOCKNAME_ERROR", 132);
  ("BIO_R_GETSOCKNAME_TRUNCATED_ADDRESS", 133);
  ("BIO_R_GETTING_SOCKTYPE", 134);
  ("BIO_R_INVALID_ARGUMENT", 125);
  ("BIO_R_INVALID_SOCKET", 135);
  ("BIO_R_IN_USE", 123);
  ("BIO_R_LENGTH_TOO_LONG", 102);
  ("BIO_R_LISTEN_V6_ONLY", 136);
  ("BIO_R_LOOKUP_RETURNED_NOTHING", 142);
  ("BIO_R_MALFORMED_HOST_OR_SERVICE", 130);
  ("BIO_R_NBIO_CONNECT_ERROR", 110);
  ("BIO_R_NO_ACCEPT_ADDR_OR_SERVICE_SPECIFIED", 143);
  ("BIO_R_NO_HOSTNAME_OR_SERVICE_SPECIFIED", 144);
  ("BIO_R_NO_PORT_DEFINED", 113);
  ("BIO_R_NO_SUCH_FILE", 128);
  ("BIO_R_NULL_PARAMETER", 115);
  ("BIO_R_TRANSFER_ERROR", 104);
  ("BIO_R_TRANSFER_TIMEOUT", 105);
  ("BIO_R_UNABLE_TO_BIND_SOCKET", 117);
  ("BIO_R_UNABLE_TO_CREATE_SOCKET", 118);
  ("BIO_R_UNABLE_TO_KEEPALIVE", 137);
  ("BIO_R_UNABLE_TO_LISTEN_SOCKET", 119);
  ("BIO_R_UNABLE_TO_NODELAY", 138);
  ("BIO_R_UNABLE_TO_REUSEADDR", 139);
  ("BIO_R_UNAVAILABLE_IP_FAMILY", 145);
  ("BIO_R_UNINITIALIZED", 120);
  ("BIO_R_UNKNOWN_INFO_TYPE", 140);
  ("BIO_R_UNSUPPORTED_IP_FAMILY", 146);
  ("BIO_R_UNSUPPORTED_METHOD", 121);
  ("BIO_R_UNSUPPORTED_PROTOCOL_FAMILY", 131);
  ("BIO_R_WRITE_TO_READ_ONLY_BIO", 126);
  ("BIO_R_WSASTARTUP", 122)].

Definition BN_R : reasons := [
  ("BN_R_ARG2_LT_ARG3", 100);
  ("BN_R_BAD_RECIPROCAL", 101);
  ("BN_R_BIGNUM_TOO_LONG", 114);
  ("BN_R_BITS_TOO_SMALL", 118);
  ("BN_R_CALLED_WITH_EVEN_MODULUS", 102);
  ("BN_R_DIV_BY_ZERO", 103);
  ("BN_R_ENCODING_ERROR", 104);
  ("BN_R_EXPAND_ON_STATIC_BIGNUM_DATA", 105);
  ("BN_R_INPUT_NOT_REDUCED", 110);
  ("BN_R_INVALID_LENGTH", 106);
  ("BN_R_INVALID_RANGE", 115);
  ("BN_R_INVALID_SHIFT", 119);
  ("BN_R_NOT_A_SQUARE", 111);
  ("BN_R_NOT_INITIALIZED", 107);
  ("BN_R_NO_INVERSE", 108);
  ("BN_R_NO_PRIME_CANDIDATE", 121);
  ("BN_R_NO_SOLUTION", 116);
  ("BN_R_NO_SUITABLE_DIGEST", 120);
  ("BN_R_PRIVATE_KEY_TOO_LARGE", 117);
  ("BN_R_P_IS_NOT_PRIME", 112);
  ("BN_R_TOO_MANY_ITERATIONS", 113);
  ("BN_R_TOO_MANY_TEMPORARY_VARIABLES", 109)].

Definition CMP_R : reasons := [
  ("CMP_R_ALGORITHM_NOT_SUPPORTED", 139);
  ("CMP_R_BAD_CHECKAFTER_IN_POLLREP", 167);
  ("CMP_R_BAD_REQUEST_ID", 108);
  ("CMP_R_CERTHASH_UNMATCHED", 156);
  ("CMP_R_CERTID_NOT_FOUND", 109);
  ("CMP_R_CERTIFICATE_NOT_ACCEPTED", 169);
  ("CMP_R_CERTIFICATE_NOT_FOUND", 112);
  ("CMP_R_CERTREQMSG_NOT_FOUND", 157);
  ("CMP_R_CERTRESPONSE_NOT_FOUND", 113);
  ("CMP_R_CERT_AND_KEY_DO_NOT_MATCH", 114);
  ("CMP_R_CHECKAFTER_OUT_OF_RANGE", 181);
  ("CMP_R_ENCOUNTERED_KEYUPDATEWARNING", 176);
  ("CMP_R_ENCOUNTERED_WAITING", 162);
  ("CMP_R_ERROR_CALCULATING_PROTECTION", 115);
  ("CMP_R_ERROR_CREATING_CERTCONF", 116);
  ("CMP_R_ERROR_CREATING_CERTREP", 117);
  ("CMP_R_ERROR_CREATING_CERTREQ", 163);
  ("CMP_R_ERROR_CREATING_ERROR", 118);
  ("CMP_R_ERROR_CREATING_GENM", 119);
  ("CMP_R_ERROR_CREATING_GENP", 120);
  ("CMP_R_ERROR_CREATING_PKICONF", 122);
  ("CMP_R_ERROR_CREATING_POLLREP", 123);
  ("CMP_R_ERROR_CREATING_POLLREQ", 124);
  ("CMP_R_ERROR_CREATING_RP", 125);
  ("CMP_R_ERROR_CREATING_RR", 126);
  ("CMP_R_ERROR_PARSING_PKISTATUS", 107);
  ("CMP_R_ERROR_PROCESSING_MESSAGE", 158);
  ("CMP_R_ERROR_PROTECTING_MESSAGE", 127);
  ("CMP_R_ERROR_SETTING_CERTHASH", 128);
  ("CMP_R_ERROR_UNEXPECTED_CERTCONF", 160);
  ("CMP_R_ERROR_VALIDATING_PROTECTION", 140);
  ("CMP_R_ERROR_VALIDATING_SIGNATURE", 171);
  ("CMP_R_FAILED_BUILDING_OWN_CHAIN", 164);
  ("CMP_R_FAILED_EXTRACTING_PUBKEY", 141);
  ("CMP_R_FAILURE_OBTAINING_RANDOM", 110);
  ("CMP_R_FAIL_INFO_OUT_OF_RANGE", 129);
  ("CMP_R_INVALID_ARGS", 100);
  ("CMP_R_INVALID_OPTION", 174);
  ("CMP_R_MISSING_CERTID", 165);
  ("CMP_R_MISSING_KEY_INPUT_FOR_CREATING_PROTECTION", 130);
  ("CMP_R_MISSING_KEY_USAGE_DIGITALSIGNATURE", 142);
  ("CMP_R_MISSING_P10CSR", 121);
  ("CMP_R_MISSING_PBM_SECRET", 166);
  ("CMP_R_MISSING_PRIVATE_KEY", 131);
  ("CMP_R_MISSING_PROTECTION", 143);
  ("CMP_R_MISSING_REFERENCE_CERT", 168);
  ("CMP_R_MISSING_SENDER_IDENTIFICATION", 111);
  ("CMP_R_MISSING_TRUST_STORE", 144);
  ("CMP_R_MULTIPLE_REQUESTS_NOT_SUPPORTED", 161);
  ("CMP_R_MULTIPLE_RESPONSES_NOT_SUPPORTED", 170);
  ("CMP_R_MULTIPLE_SAN_SOURCES", 102);
  ("CMP_R_NO_STDIO", 194);
  ("CMP_R_NO_SUITABLE_SENDER_CERT", 145);
  ("CMP_R_NULL_ARGUMENT", 103);
  ("CMP_R_PKIBODY_ERROR", 146);
  ("CMP_R_PKISTATUSINFO_NOT_FOUND", 132);
  ("CMP_R_POLLING_FAILED", 172);
  ("CMP_R_POTENTIALLY_INVALID_CERTIFICATE", 147);
  ("CMP_R_RECEIVED_ERROR", 180);
  ("CMP_R_RECIPNONCE_UNMATCHED", 148);
  ("CMP_R_REQUEST_NOT_ACCEPTED", 149);
  ("CMP_R_REQUEST_REJECTED_BY_SERVER", 182);
  ("CMP_R_SENDER_GENERALNAME_TYPE_NOT_SUPPORTED", 150);
  ("CMP_R_SRVCERT_DOES_NOT_VALIDATE_MSG", 151);
  ("CMP_R_TOTAL_TIMEOUT", 184);
  ("CMP_R_TRANSACTIONID_UNMATCHED", 152);
  ("CMP_R_TRANSFER_ERROR", 159);
  ("CMP_R_UNEXPECTED_PKIBODY", 133);
  ("CMP_R_UNEXPECTED_PKISTATUS", 185);
  ("CMP_R_UNEXPECTED_PVNO", 153);
  ("CMP_R_UNKNOWN_ALGORITHM_ID", 134);
  ("CMP_R_UNKNOWN_CERT_TYPE", 135);
  ("CMP_R_UNKNOWN_PKISTATUS", 186);
  ("CMP_R_UNSUPPORTED_ALGORITHM", 136);
  ("CMP_R_UNSUPPORTED_KEY_TYPE", 137);
  ("CMP_R_UNSUPPORTED_PROTECTION_ALG_DHBASEDMAC", 154);
  ("CMP_R_VALUE_TOO_LARGE", 175);
  ("CMP_R_VALUE_TOO_SMALL", 177);
  ("CMP_R_WRONG_ALGORITHM_OID", 138);
  ("CMP_R_WRONG_CERTID", 189);
  ("CMP_R_WRONG_CERTID_IN_RP", 187);
  ("CMP_R_WRONG_PBM_VALUE", 155);
  ("CMP_R_WRONG_RP_COMPONENT_COUNT", 188);
  ("CMP_R_WRONG_SERIAL_IN_RP", 173)].

Definition CMS_R : reasons := [
  ("CMS_R_ADD_SIGNER_ERROR", 99);
  ("CMS_R_ATTRIBUTE_ERROR", 161);
  ("CMS_R_CERTIFICATE_ALREADY_PRESENT", 175);
  ("CMS_R_CERTIFICATE_HAS_NO_KEYID", 160);
  ("CMS_R_CERTIFICATE_VERIFY_ERROR", 100);
  ("CMS_R_CIPHER_AEAD_SET_TAG_ERROR", 184);
  ("CMS_R_CIPHER_GET_TAG", 185);
  ("CMS_R_CIPHER_INITIALISATION_ERROR", 101);
  ("CMS_R_CIPHER_PARAMETER_INITIALISATION_ERROR", 102);
  ("CMS_R_CMS_DATAFINAL_ERROR", 103);
  ("CMS_R_CMS_LIB", 104);
  ("CMS_R_CONTENTIDENTIFIER_MISMATCH", 170);
  ("CMS_R_CONTENT_NOT_FOUND", 105);
  ("CMS_R_CONTENT_TYPE_MISMATCH", 171);
  ("CMS_R_CONTENT_TYPE_NOT_COMPRESSED_DATA", 106);
  ("CMS_R_CONTENT_TYPE_NOT_ENVELOPED_DATA", 107);
  ("CMS_R_CONTENT_TYPE_NOT_SIGNED_DATA", 108);
  ("CMS_R_CONTENT_VERIFY_ERROR", 109);
  ("CMS_R_CTRL_ERROR", 110);
  ("CMS_R_CTRL_FAILURE", 111);
  ("CMS_R_DECODE_ERROR", 187);
  ("CMS_R_DECRYPT_ERROR", 112);
  ("CMS_R_ERROR_GETTING_PUBLIC_KEY", 113);
  ("CMS_R_ERROR_READING_MESSAGEDIGEST_ATTRIBUTE", 114);
  ("CMS_R_ERROR_SETTING_KEY", 115);
  ("CMS_R_ERROR_SETTING_RECIPIENTINFO", 116);
  ("CMS_R_ESS_SIGNING_CERTID_MISMATCH_ERROR", 183);
  ("CMS_R_INVALID_ENCRYPTED_KEY_LENGTH", 117);
  ("CMS_R_INVALID_KEY_ENCRYPTION_PARAMETER", 176);
  ("CMS_R_INVALID_KEY_LENGTH", 118);
  ("CMS_R_INVALID_LABEL", 190);
  ("CMS_R_INVALID_OAEP_PARAMETERS", 191);
  ("CMS_R_KDF_PARAMETER_ERROR", 186);
  ("CMS_R_MD_BIO_INIT_ERROR", 119);
  ("CMS_R_MESSAGEDIGEST_ATTRIBUTE_WRONG_LENGTH", 120);
  ("CMS_R_MESSAGEDIGEST_WRONG_LENGTH", 121);
  ("CMS_R_MSGSIGDIGEST_ERROR", 172);
  ("CMS_R_MSGSIGDIGEST_VERIFICATION_FAILURE", 162);
  ("CMS_R_MSGSIGDIGEST_WRONG_LENGTH", 163);
  ("CMS_R_NEED_ONE_SIGNER", 164);
  ("CMS_R_NOT_A_SIGNED_RECEIPT", 165);
  ("CMS_R_NOT_ENCRYPTED_DATA", 122);
  ("CMS_R_NOT_KEK", 123);
  ("CMS_R_NOT_KEY_AGREEMENT", 181);
  ("CMS_R_NOT_KEY_TRANSPORT", 124);
  ("CMS_R_NOT_PWRI", 177);
  ("CMS_R_NOT_SUPPORTED_FOR_THIS_KEY_TYPE", 125);
  ("CMS_R_NO_CIPHER", 126);
  ("CMS_R_NO_CONTENT", 127);
  ("CMS_R_NO_CONTENT_TYPE", 173);
  ("CMS_R_NO_DEFAULT_DIGEST", 128);
  ("CMS_R_NO_DIGEST_SET", 129);
  ("CMS_R_NO_KEY", 130);
  ("CMS_R_NO_KEY_OR_CERT", 174);
  ("CMS_R_NO_MATCHING_DIGEST", 131);
  ("CMS_R_NO_MATCHING_RECIPIENT", 132);
  ("CMS_R_NO_MATCHING_SIGNATURE", 166);
  ("CMS_R_NO_MSGSIGDIGEST", 167);
  ("CMS_R_NO_PASSWORD", 178);
  ("CMS_R_NO_PRIVATE_KEY", 133);
  ("CMS_R_NO_PUBLIC_KEY", 134);
  ("CMS_R_NO_RECEIPT_REQUEST", 168);
  ("CMS_R_NO_SIGNERS", 135);
  ("CMS_R_PEER_KEY_ERROR", 188);
  ("CMS_R_PRIVATE_KEY_DOES_NOT_MATCH_CERTIFICATE", 136);
  ("CMS_R_RECEIPT_DECODE_ERROR", 169);
  ("CMS_R_RECIPIENT_ERROR", 137);
  ("CMS_R_SHARED_INFO_ERROR", 189);
  ("CMS_R_SIGNER_CERTIFICATE_NOT_FOUND", 138);
  ("CMS_R_SIGNFINAL_ERROR", 139);
  ("CMS_R_SMIME_TEXT_ERROR", 140);
  ("CMS_R_STORE_INIT_ERROR", 141);
  ("CMS_R_TYPE_NOT_COMPRESSED_DATA", 142);
  ("CMS_R_TYPE_NOT_DATA", 143);
  ("CMS_R_TYPE_NOT_DIGESTED_DATA", 144);
  ("CMS_R_TYPE_NOT_ENCRYPTED_DATA", 145);
  ("CMS_R_TYPE_NOT_ENVELOPED_DATA", 146);
  ("CMS_R_UNABLE_TO_FINALIZE_CONTEXT", 147);
  ("CMS_R_UNKNOWN_CIPHER", 148);
  ("CMS_R_UNKNOWN_DIGEST_ALGORITHM", 149);
  ("CMS_R_UNKNOWN_ID", 150);
  ("CMS_R_UNSUPPORTED_COMPRESSION_ALGORITHM", 151);
  ("CMS_R_UNSUPPORTED_CONTENT_TYPE", 152);
  ("CMS_R_UNSUPPORTED_ENCRYPTION_TYPE", 192);
  ("CMS_R_UNSUPPORTED_KEK_ALGORITHM", 153);
  ("CMS_R_UNSUPPORTED_KEY_ENCRYPTION_ALGORITHM", 179);
  ("CMS_R_UNSUPPORTED_LABEL_SOURCE", 193);
  ("CMS_R_UNSUPPORTED_RECIPIENTINFO_TYPE", 155);
  ("CMS_R_UNSUPPORTED_RECIPIENT_TYPE", 154);
  ("CMS_R_UNSUPPORTED_TYPE", 156);
  ("CMS_R_UNWRAP_ERROR", 157);
  ("CMS_R_UNWRAP_FAILURE", 180);
  ("CMS_R_VERIFICATION_FAILURE", 158);
  ("CMS_R_WRAP_ERROR", 159)].

Definition COMP_R : reasons := [
  ("COMP_R_ZLIB_DEFLATE_ERROR", 99);
  ("COMP_R_ZLIB_INFLATE_ERROR", 100);
  ("COMP_R_ZLIB_NOT_SUPPORTED", 101)].

Definition CONF_R : reasons := [
  ("CONF_R_ERROR_LOADING_DSO", 110);
  ("CONF_R_INVALID_PRAGMA", 122);
  ("CONF_R_LIST_CANNOT_BE_NULL", 115);
  ("CONF_R_MANDATORY_BRACES_IN_VARIABLE_EXPANSION", 123);
  ("CONF_R_MISSING_CLOSE_SQUARE_BRACKET", 100);
  ("CONF_R_MISSING_EQUAL_SIGN", 101);
  ("CONF_R_MISSING_INIT_FUNCTION", 112);
  ("CONF_R_MODULE_INITIALIZATION_ERROR", 109);
  ("CONF_R_NO_CLOSE_BRACE", 102);
  ("CONF_R_NO_CONF", 105);
  ("CONF_R_NO_CONF_OR_ENVIRONMENT_VARIABLE", 106);
  ("CONF_R_NO_SECTION", 107);
  ("CONF_R_NO_SUCH_FILE", 114);
  ("CONF_R_NO_VALUE", 108);
  ("CONF_R_NUMBER_TOO_LARGE", 121);
  ("CONF_R_OPENSSL_CONF_REFERENCES_MISSING_SECTION", 124);
  ("CONF_R_RECURSIVE_DIRECTORY_INCLUDE", 111);
  ("CONF_R_RELATIVE_PATH", 125);
  ("CONF_R_SSL_COMMAND_SECTION_EMPTY", 117);
  ("CONF_R_SSL_COMMAND_SECTION_NOT_FOUND", 118);
  ("CONF_R_SSL_SECTION_EMPTY", 119);
  ("CONF_R_SSL_SECTION_NOT_FOUND", 120);
  ("CONF_R_UNABLE_TO_CREATE_NEW_SECTION", 103);
  ("CONF_R_UNKNOWN_MODULE_NAME", 113);
  ("CONF_R_VARIABLE_EXPANSION_TOO_LONG", 116);
  ("CONF_R_VARIABLE_HAS_NO_VALUE", 104)].

Definition CRMF_R : reasons := [
  ("CRMF_R_BAD_PBM_ITERATIONCOUNT", 100);
  ("CRMF_R_CRMFERROR", 102);
  ("CRMF_R_ERROR", 103);
  ("CRMF_R_ERROR_DECODING_CERTIFICATE", 104);
  ("CRMF_R_ERROR_DECRYPTING_CERTIFICATE", 105);
  ("CRMF_R_ERROR_DECRYPTING_SYMMETRIC_KEY", 106);
  ("CRMF_R_FAILURE_OBTAINING_RANDOM", 107);
  ("CRMF_R_ITERATIONCOUNT_BELOW_100", 108);
  ("CRMF_R_MALFORMED_IV", 101);
  ("CRMF_R_NULL_ARGUMENT", 109);
  ("CRMF_R_POPOSKINPUT_NOT_SUPPORTED", 113);
  ("CRMF_R_POPO_INCONSISTENT_PUBLIC_KEY", 117);
  ("CRMF_R_POPO_MISSING", 121);
  ("CRMF_R_POPO_MISSING_PUBLIC_KEY", 118);
  ("CRMF_R_POPO_MISSING_SUBJECT", 119);
  ("CRMF_R_POPO_RAVERIFIED_NOT_ACCEPTED", 120);
  ("CRMF_R_SETTING_MAC_ALGOR_FAILURE", 110);
  ("CRMF_R_SETTING_OWF_ALGOR_FAILURE", 111);
  ("CRMF_R_UNSUPPORTED_ALGORITHM", 112);
  ("CRMF_R_UNSUPPORTED_CIPHER", 114);
  ("CRMF_R_UNSUPPORTED_METHOD_FOR_CREATING_POPO", 115);
  ("CRMF_R_UNSUPPORTED_POPO_METHOD", 116)].

Definition CRYPTO_R : reasons := [
  ("CRYPTO_R_BAD_ALGORITHM_NAME", 117);
  ("CRYPTO_R_CONFLICTING_NAMES", 118);
  ("CRYPTO_R_HEX_STRING_TOO_SHORT", 121);
  ("CRYPTO_R_ILLEGAL_HEX_DIGIT", 102);
  ("CRYPTO_R_INSUFFICIENT_DATA_SPACE", 106);
  ("CRYPTO_R_INSUFFICIENT_PARAM_SIZE", 107);
  ("CRYPTO_R_INSUFFICIENT_SECURE_DATA_SPACE", 108);
  ("CRYPTO_R_INVALID_NEGATIVE_VALUE", 122);
  ("CRYPTO_R_INVALID_NULL_ARGUMENT", 109);
  ("CRYPTO_R_INVALID_OSSL_PARAM_TYPE", 110);
  ("CRYPTO_R_ODD_NUMBER_OF_DIGITS", 103);
  ("CRYPTO_R_PROVIDER_ALREADY_EXISTS", 104);
  ("CRYPTO_R_PROVIDER_SECTION_ERROR", 105);
  ("CRYPTO_R_RANDOM_SECTION_ERROR", 119);
  ("CRYPTO_R_SECURE_MALLOC_FAILURE", 111);
  ("CRYPTO_R_STRING_TOO_LONG", 112);
  ("CRYPTO_R_TOO_MANY_BYTES", 113);
  ("CRYPTO_R_TOO_MANY_RECORDS", 114);
  ("CRYPTO_R_TOO_SMALL_BUFFER", 116);
  ("CRYPTO_R_UNKNOWN_NAME_IN_RANDOM_SECTION", 120);
  ("CRYPTO_R_ZERO_LENGTH_NUMBER", 115)].

Definition CT_R : reasons := [
  ("CT_R_BASE64_DECODE_ERROR", 108);
  ("CT_R_INVALID_LOG_ID_LENGTH", 100);
  ("CT_R_LOG_CONF_INVALID", 109);
  ("CT_R_LOG_CONF_INVALID_KEY", 110);
  ("CT_R_LOG_CONF_MISSING_DESCRIPTION", 111);
  ("CT_R_LOG_CONF_MISSING_KEY", 112);
  ("CT_R_LOG_KEY_INVALID", 113);
  ("CT_R_SCT_FUTURE_TIMESTAMP", 116);
  ("CT_R_SCT_INVALID", 104);
  ("CT_R_SCT_INVALID_SIGNATURE", 107);
  ("CT_R_SCT_LIST_INVALID", 105);
  ("CT_R_SCT_LOG_ID_MISMATCH", 114);
  ("CT_R_SCT_NOT_SET", 106);
  ("CT_R_SCT_UNSUPPORTED_VERSION", 115);
  ("CT_R_UNRECOGNIZED_SIGNATURE_NID", 101);
  ("CT_R_UNSUPPORTED_ENTRY_TYPE", 102);
  ("CT_R_UNSUPPORTED_VERSION", 103)].

Definition OSSL_DECODER_R : reasons := [
  ("OSSL_DECODER_R_COULD_NOT_DECODE_OBJECT", 101);
  ("OSSL_DECODER_R_DECODER_NOT_FOUND", 102);
  ("OSSL_DECODER_R_MISSING_GET_PARAMS", 100)].

Definition DH_R : reasons := [
  ("DH_R_BAD_FFC_PARAMETERS", 127);
  ("DH_R_BAD_GENERATOR", 101);
  ("DH_R_BN_DECODE_ERROR", 109);
  ("DH_R_BN_ERROR", 106);
  ("DH_R_CHECK_INVALID_J_VALUE", 115);
  ("DH_R_CHECK_INVALID_Q_VALUE", 116);
  ("DH_R_CHECK_PUBKEY_INVALID", 122);
  ("DH_R_CHECK_PUBKEY_TOO_LARGE", 123);
  ("DH_R_CHECK_PUBKEY_TOO_SMALL", 124);
  ("DH_R_CHECK_P_NOT_PRIME", 117);
  ("DH_R_CHECK_P_NOT_SAFE_PRIME", 118);
  ("DH_R_CHECK_Q_NOT_PRIME", 119);
  ("DH_R_DECODE_ERROR", 104);
  ("DH_R_INVALID_PARAMETER_NAME", 110);
  ("DH_R_INVALID_PARAMETER_NID", 114);
  ("DH_R_INVALID_PUBKEY", 102);
  ("DH_R_INVALID_SECRET", 128);
  ("DH_R_KDF_PARAMETER_ERROR", 112);
  ("DH_R_KEYS_NOT_SET", 108);
  ("DH_R_MISSING_PUBKEY", 125);
  ("DH_R_MODULUS_TOO_LARGE", 103);
  ("DH_R_MODULUS_TOO_SMALL", 126);
  ("DH_R_NOT_SUITABLE_GENERATOR", 120);
  ("DH_R_NO_PARAMETERS_SET", 107);
  ("DH_R_NO_PRIVATE_VALUE", 100);
  ("DH_R_PARAMETER_ENCODING_ERROR", 105);
  ("DH_R_PEER_KEY_ERROR", 111);
  ("DH_R_SHARED_INFO_ERROR", 113);
  ("DH_R_UNABLE_TO_CHECK_GENERATOR", 121)].

Definition DSA_R : reasons := [
  ("DSA_R_BAD_FFC_PARAMETERS", 114);
  ("DSA_R_BAD_Q_VALUE", 102);
  ("DSA_R_BN_DECODE_ERROR", 108);
  ("DSA_R_BN_ERROR", 109);
  ("DSA_R_DECODE_ERROR", 104);
  ("DSA_R_INVALID_DIGEST_TYPE", 106);
  ("DSA_R_INVALID_PARAMETERS", 112);
  ("DSA_R_MISSING_PARAMETERS", 101);
  ("DSA_R_MISSING_PRIVATE_KEY", 111);
  ("DSA_R_MODULUS_TOO_LARGE", 103);
  ("DSA_R_NO_PARAMETERS_SET", 107);
  ("DSA_R_PARAMETER_ENCODING_ERROR", 105);
  ("DSA_R_P_NOT_PRIME", 115);
  ("DSA_R_Q_NOT_PRIME", 113);
  ("DSA_R_SEED_LEN_SMALL", 110)].

Definition EC_R : reasons := [
  ("EC_R_ASN1_ERROR", 115);
  ("EC_R_BAD_SIGNATURE", 156);
  ("EC_R_BIGNUM_OUT_OF_RANGE", 144);
  ("EC_R_BUFFER_TOO_SMALL", 100);
  ("EC_R_CANNOT_INVERT", 165);
  ("EC_R_COORDINATES_OUT_OF_RANGE", 146);
  ("EC_R_CURVE_DOES_NOT_SUPPORT_ECDH", 160);
  ("EC_R_CURVE_DOES_NOT_SUPPORT_ECDSA", 170);
  ("EC_R_CURVE_DOES_NOT_SUPPORT_SIGNING", 159);
  ("EC_R_DECODE_ERROR", 142);
  ("EC_R_DISCRIMINANT_IS_ZERO", 118);
  ("EC_R_EC_GROUP_NEW_BY_NAME_FAILURE", 119);
  ("EC_R_EXPLICIT_PARAMS_NOT_SUPPORTED", 127);
  ("EC_R_FAILED_MAKING_PUBLIC_KEY", 166);
  ("EC_R_FIELD_TOO_LARGE", 143);
  ("EC_R_GF2M_NOT_SUPPORTED", 147);
  ("EC_R_GROUP2PKPARAMETERS_FAILURE", 120);
  ("EC_R_I2D_ECPKPARAMETERS_FAILURE", 121);
  ("EC_R_INCOMPATIBLE_OBJECTS", 101);
  ("EC_R_INVALID_A", 168);
  ("EC_R_INVALID_ARGUMENT", 112);
  ("EC_R_INVALID_B", 169);
  ("EC_R_INVALID_COFACTOR", 171);
  ("EC_R_INVALID_COMPRESSED_POINT", 110);
  ("EC_R_INVALID_COMPRESSION_BIT", 109);
  ("EC_R_INVALID_CURVE", 141);
  ("EC_R_INVALID_DIGEST", 151);
  ("EC_R_INVALID_DIGEST_TYPE", 138);
  ("EC_R_INVALID_ENCODING", 102);
  ("EC_R_INVALID_FIELD", 103);
  ("EC_R_INVALID_FORM", 104);
  ("EC_R_INVALID_GENERATOR", 173);
  ("EC_R_INVALID_GROUP_ORDER", 122);
  ("EC_R_INVALID_KEY", 116);
  ("EC_R_INVALID_LENGTH", 117);
  ("EC_R_INVALID_NAMED_GROUP_CONVERSION", 174);
  ("EC_R_INVALID_OUTPUT_LENGTH", 161);
  ("EC_R_INVALID_P", 172);
  ("EC_R_INVALID_PEER_KEY", 133);
  ("EC_R_INVALID_PENTANOMIAL_BASIS", 132);
  ("EC_R_INVALID_PRIVATE_KEY", 123);
  ("EC_R_INVALID_SEED", 175);
  ("EC_R_INVALID_TRINOMIAL_BASIS", 137);
  ("EC_R_KDF_PARAMETER_ERROR", 148);
  ("EC_R_KEYS_NOT_SET", 140);
  ("EC_R_LADDER_POST_FAILURE", 136);
  ("EC_R_LADDER_PRE_FAILURE", 153);
  ("EC_R_LADDER_STEP_FAILURE", 162);
  ("EC_R_MISSING_OID", 167);
  ("EC_R_MISSING_PARAMETERS", 124);
  ("EC_R_MISSING_PRIVATE_KEY", 125);
  ("EC_R_NEED_NEW_SETUP_VALUES", 157);
  ("EC_R_NOT_A_NIST_PRIME", 135);
  ("EC_R_NOT_IMPLEMENTED", 126);
  ("EC_R_NOT_INITIALIZED", 111);
  ("EC_R_NO_PARAMETERS_SET", 139);
  ("EC_R_NO_PRIVATE_VALUE", 154);
  ("EC_R_OPERATION_NOT_SUPPORTED", 152);
  ("EC_R_PASSED_NULL_PARAMETER", 134);
  ("EC_R_PEER_KEY_ERROR", 149);
  ("EC_R_POINT_ARITHMETIC_FAILURE", 155);
  ("EC_R_POINT_AT_INFINITY", 106);
  ("EC_R_POINT_COORDINATES_BLIND_FAILURE", 163);
  ("EC_R_POINT_IS_NOT_ON_CURVE", 107);
  ("EC_R_RANDOM_NUMBER_GENERATION_FAILED", 158);
  ("EC_R_SHARED_INFO_ERROR", 150);
  ("EC_R_SLOT_FULL", 108);
  ("EC_R_UNDEFINED_GENERATOR", 113);
  ("EC_R_UNDEFINED_ORDER", 128);
  ("EC_R_UNKNOWN_COFACTOR", 164);
  ("EC_R_UNKNOWN_GROUP", 129);
  ("EC_R_UNKNOWN_ORDER", 114);
  ("EC_R_UNSUPPORTED_FIELD", 131);
  ("EC_R_WRONG_CURVE_PARAMETERS", 145);
  ("EC_R_WRONG_ORDER", 130)].

Definition OSSL_ENCODER_R : reasons := [
  ("OSSL_ENCODER_R_ENCODER_NOT_FOUND", 101);
  ("OSSL_ENCODER_R_INCORRECT_PROPERTY_QUERY", 100);
  ("OSSL_ENCODER_R_MISSING_GET_PARAMS", 102)].

Definition ENGINE_R : reasons := [
  ("ENGINE_R_ALREADY_LOADED", 100);
  ("ENGINE_R_ARGUMENT_IS_NOT_A_NUMBER", 133);
  ("ENGINE_R_CMD_NOT_EXECUTABLE", 134);
  ("ENGINE_R_COMMAND_TAKES_INPUT", 135);
  ("ENGINE_R_COMMAND_TAKES_NO_INPUT", 136);
  ("ENGINE_R_CONFLICTING_ENGINE_ID", 103);
  ("ENGINE_R_CTRL_COMMAND_NOT_IMPLEMENTED", 119);
  ("ENGINE_R_DSO_FAILURE", 104);
  ("ENGINE_R_DSO_NOT_FOUND", 132);
  ("ENGINE_R_ENGINES_SECTION_ERROR", 148);
  ("ENGINE_R_ENGINE_CONFIGURATION_ERROR", 102);
  ("ENGINE_R_ENGINE_IS_NOT_IN_LIST", 105);
  ("ENGINE_R_ENGINE_SECTION_ERROR", 149);
  ("ENGINE_R_FAILED_LOADING_PRIVATE_KEY", 128);
  ("ENGINE_R_FAILED_LOADING_PUBLIC_KEY", 129);
  ("ENGINE_R_FINISH_FAILED", 106);
  ("ENGINE_R_ID_OR_NAME_MISSING", 108);
  ("ENGINE_R_INIT_FAILED", 109);
  ("ENGINE_R_INTERNAL_LIST_ERROR", 110);
  ("ENGINE_R_INVALID_ARGUMENT", 143);
  ("ENGINE_R_INVALID_CMD_NAME", 137);
  ("ENGINE_R_INVALID_CMD_NUMBER", 138);
  ("ENGINE_R_INVALID_INIT_VALUE", 151);
  ("ENGINE_R_INVALID_STRING", 150);
  ("ENGINE_R_NOT_INITIALISED", 117);
  ("ENGINE_R_NOT_LOADED", 112);
  ("ENGINE_R_NO_CONTROL_FUNCTION", 120);
  ("ENGINE_R_NO_INDEX", 144);
  ("ENGINE_R_NO_LOAD_FUNCTION", 125);
  ("ENGINE_R_NO_REFERENCE", 130);
  ("ENGINE_R_NO_SUCH_ENGINE", 116);
  ("ENGINE_R_UNIMPLEMENTED_CIPHER", 146);
  ("ENGINE_R_UNIMPLEMENTED_DIGEST", 147);
  ("ENGINE_R_UNIMPLEMENTED_PUBLIC_KEY_METHOD", 101);
  ("ENGINE_R_VERSION_INCOMPATIBILITY", 145)].

Definition ESS_R : reasons := [
  ("ESS_R_EMPTY_ESS_CERT_ID_LIST", 107);
  ("ESS_R_ESS_CERT_DIGEST_ERROR", 103);
  ("ESS_R_ESS_CERT_ID_NOT_FOUND", 104);
  ("ESS_R_ESS_CERT_ID_WRONG_ORDER", 105);
  ("ESS_R_ESS_DIGEST_ALG_UNKNOWN", 106);
  ("ESS_R_ESS_SIGNING_CERTIFICATE_ERROR", 102);
  ("ESS_R_ESS_SIGNING_CERT_ADD_ERROR", 100);
  ("ESS_R_ESS_SIGNING_CERT_V2_ADD_ERROR", 101);
  ("ESS_R_MISSING_SIGNING_CERTIFICATE_ATTRIBUTE", 108)].

Definition EVP_R : reasons := [
  ("EVP_R_AES_KEY_SETUP_FAILED", 143);
  ("EVP_R_ARIA_KEY_SETUP_FAILED", 176);
  ("EVP_R_BAD_ALGORITHM_NAME", 200);
  ("EVP_R_BAD_DECRYPT", 100);
  ("EVP_R_BAD_KEY_LENGTH", 195);
  ("EVP_R_BUFFER_TOO_SMALL", 155);
  ("EVP_R_CACHE_CONSTANTS_FAILED", 225);
  ("EVP_R_CAMELLIA_KEY_SETUP_FAILED", 157);
  ("EVP_R_CANNOT_GET_PARAMETERS", 197);
  ("EVP_R_CANNOT_SET_PARAMETERS", 198);
  ("EVP_R_CIPHER_NOT_GCM_MODE", 184);
  ("EVP_R_CIPHER_PARAMETER_ERROR", 122);
  ("EVP_R_COMMAND_NOT_SUPPORTED", 147);
  ("EVP_R_CONFLICTING_ALGORITHM_NAME", 201);
  ("EVP_R_COPY_ERROR", 173);
  ("EVP_R_CTRL_NOT_IMPLEMENTED", 132);
  ("EVP_R_CTRL_OPERATION_NOT_IMPLEMENTED", 133);
  ("EVP_R_DATA_NOT_MULTIPLE_OF_BLOCK_LENGTH", 138);
  ("EVP_R_DECODE_ERROR", 114);
  ("EVP_R_DEFAULT_QUERY_PARSE_ERROR", 210);
  ("EVP_R_DIFFERENT_KEY_TYPES", 101);
  ("EVP_R_DIFFERENT_PARAMETERS", 153);
  ("EVP_R_ERROR_LOADING_SECTION", 165);
  ("EVP_R_EXPECTING_AN_HMAC_KEY", 174);
  ("EVP_R_EXPECTING_AN_RSA_KEY", 127);
  ("EVP_R_EXPECTING_A_DH_KEY", 128);
  ("EVP_R_EXPECTING_A_DSA_KEY", 129);
  ("EVP_R_EXPECTING_A_ECX_KEY", 219);
  ("EVP_R_EXPECTING_A_EC_KEY", 142);
  ("EVP_R_EXPECTING_A_POLY1305_KEY", 164);
  ("EVP_R_EXPECTING_A_SIPHASH_KEY", 175);
  ("EVP_R_FINAL_ERROR", 188);
  ("EVP_R_GENERATE_ERROR", 214);
  ("EVP_R_GET_RAW_KEY_FAILED", 182);
  ("EVP_R_ILLEGAL_SCRYPT_PARAMETERS", 171);
  ("EVP_R_INACCESSIBLE_DOMAIN_PARAMETERS", 204);
  ("EVP_R_INACCESSIBLE_KEY", 203);
  ("EVP_R_INITIALIZATION_ERROR", 134);
  ("EVP_R_INPUT_NOT_INITIALIZED", 111);
  ("EVP_R_INVALID_CUSTOM_LENGTH", 185);
  ("EVP_R_INVALID_DIGEST", 152);
  ("EVP_R_INVALID_IV_LENGTH", 194);
  ("EVP_R_INVALID_KEY", 163);
  ("EVP_R_INVALID_KEY_LENGTH", 130);
  ("EVP_R_INVALID_LENGTH", 221);
  ("EVP_R_INVALID_NULL_ALGORITHM", 218);
  ("EVP_R_INVALID_OPERATION", 148);
  ("EVP_R_INVALID_PROVIDER_FUNCTIONS", 193);
  ("EVP_R_INVALID_SALT_LENGTH", 186);
  ("EVP_R_INVALID_SECRET_LENGTH", 223);
  ("EVP_R_INVALID_SEED_LENGTH", 220);
  ("EVP_R_INVALID_VALUE", 222);
  ("EVP_R_KEYMGMT_EXPORT_FAILURE", 205);
  ("EVP_R_KEY_SETUP_FAILED", 180);
  ("EVP_R_LOCKING_NOT_SUPPORTED", 213);
  ("EVP_R_MEMORY_LIMIT_EXCEEDED", 172);
  ("EVP_R_MESSAGE_DIGEST_IS_NULL", 159);
  ("EVP_R_METHOD_NOT_SUPPORTED", 144);
  ("EVP_R_MISSING_PARAMETERS", 103);
  ("EVP_R_NOT_ABLE_TO_COPY_CTX", 190);
  ("EVP_R_NOT_XOF_OR_INVALID_LENGTH", 178);
  ("EVP_R_NO_CIPHER_SET", 131);
  ("EVP_R_NO_DEFAULT_DIGEST", 158);
  ("EVP_R_NO_DIGEST_SET", 139);
  ("EVP_R_NO_IMPORT_FUNCTION", 206);
  ("EVP_R_NO_KEYMGMT_AVAILABLE", 199);
  ("EVP_R_NO_KEYMGMT_PRESENT", 196);
  ("EVP_R_NO_KEY_SET", 154);
  ("EVP_R_NO_OPERATION_SET", 149);
  ("EVP_R_NULL_MAC_PKEY_CTX", 208);
  ("EVP_R_ONLY_ONESHOT_SUPPORTED", 177);
  ("EVP_R_OPERATION_NOT_INITIALIZED", 151);
  ("EVP_R_OPERATION_NOT_SUPPORTED_FOR_THIS_KEYTYPE", 150);
  ("EVP_R_OUTPUT_WOULD_OVERFLOW", 202);
  ("EVP_R_PARAMETER_TOO_LARGE", 187);
  ("EVP_R_PARTIALLY_OVERLAPPING", 162);
  ("EVP_R_PBKDF2_ERROR", 181);
  ("EVP_R_PKEY_APPLICATION_ASN1_METHOD_ALREADY_REGISTERED", 179);
  ("EVP_R_PRIVATE_KEY_DECODE_ERROR", 145);
  ("EVP_R_PRIVATE_KEY_ENCODE_ERROR", 146);
  ("EVP_R_PUBLIC_KEY_NOT_RSA", 106);
  ("EVP_R_SETTING_XOF_FAILED", 227);
  ("EVP_R_SET_DEFAULT_PROPERTY_FAILURE", 209);
  ("EVP_R_TOO_MANY_RECORDS", 183);
  ("EVP_R_UNABLE_TO_ENABLE_LOCKING", 212);
  ("EVP_R_UNABLE_TO_GET_MAXIMUM_REQUEST_SIZE", 215);
  ("EVP_R_UNABLE_TO_GET_RANDOM_STRENGTH", 216);
  ("EVP_R_UNABLE_TO_LOCK_CONTEXT", 211);
  ("EVP_R_UNABLE_TO_SET_CALLBACKS", 217);
  ("EVP_R_UNKNOWN_CIPHER", 160);
  ("EVP_R_UNKNOWN_DIGEST", 161);
  ("EVP_R_UNKNOWN_KEY_TYPE", 207);
  ("EVP_R_UNKNOWN_OPTION", 169);
  ("EVP_R_UNKNOWN_PBE_ALGORITHM", 121);
  ("EVP_R_UNSUPPORTED_ALGORITHM", 156);
  ("EVP_R_UNSUPPORTED_CIPHER", 107);
  ("EVP_R_UNSUPPORTED_KEYLENGTH", 123);
  ("EVP_R_UNSUPPORTED_KEY_DERIVATION_FUNCTION", 124);
  ("EVP_R_UNSUPPORTED_KEY_SIZE", 108);
  ("EVP_R_UNSUPPORTED_KEY_TYPE", 224);
  ("EVP_R_UNSUPPORTED_NUMBER_OF_ROUNDS", 135);
  ("EVP_R_UNSUPPORTED_PRF", 125);
  ("EVP_R_UNSUPPORTED_PRIVATE_KEY_ALGORITHM", 118);
  ("EVP_R_UNSUPPORTED_SALT_TYPE", 126);
  ("EVP_R_UPDATE_ERROR", 189);
  ("EVP_R_WRAP_MODE_NOT_ALLOWED", 170);
  ("EVP_R_WRONG_FINAL_BLOCK_LENGTH", 109);
  ("EVP_R_XTS_DATA_UNIT_IS_TOO_LARGE", 191);
  ("EVP_R_XTS_DUPLICATED_KEYS", 192)].

Definition HTTP_R : reasons := [
  ("HTTP_R_ASN1_LEN_EXCEEDS_MAX_RESP_LEN", 108);
  ("HTTP_R_CONNECT_FAILURE", 100);
  ("HTTP_R_ERROR_PARSING_ASN1_LENGTH", 109);
  ("HTTP_R_ERROR_PARSING_CONTENT_LENGTH", 119);
  ("HTTP_R_ERROR_PARSING_URL", 101);
  ("HTTP_R_ERROR_RECEIVING", 103);
  ("HTTP_R_ERROR_SENDING", 102);
  ("HTTP_R_FAILED_READING_DATA", 128);
  ("HTTP_R_HEADER_PARSE_ERROR", 126);
  ("HTTP_R_INCONSISTENT_CONTENT_LENGTH", 120);
  ("HTTP_R_INVALID_PORT_NUMBER", 123);
  ("HTTP_R_INVALID_URL_PATH", 125);
  ("HTTP_R_INVALID_URL_SCHEME", 124);
  ("HTTP_R_MAX_RESP_LEN_EXCEEDED", 117);
  ("HTTP_R_MISSING_ASN1_ENCODING", 110);
  ("HTTP_R_MISSING_CONTENT_TYPE", 121);
  ("HTTP_R_MISSING_REDIRECT_LOCATION", 111);
  ("HTTP_R_RECEIVED_ERROR", 105);
  ("HTTP_R_RECEIVED_WRONG_HTTP_VERSION", 106);
  ("HTTP_R_REDIRECTION_FROM_HTTPS_TO_HTTP", 112);
  ("HTTP_R_REDIRECTION_NOT_ENABLED", 116);
  ("HTTP_R_RESPONSE_LINE_TOO_LONG", 113);
  ("HTTP_R_RESPONSE_PARSE_ERROR", 104);
  ("HTTP_R_RETRY_TIMEOUT", 129);
  ("HTTP_R_SERVER_CANCELED_CONNECTION", 127);
  ("HTTP_R_SOCK_NOT_SUPPORTED", 122);
  ("HTTP_R_STATUS_CODE_UNSUPPORTED", 114);
  ("HTTP_R_TLS_NOT_ENABLED", 107);
  ("HTTP_R_TOO_MANY_REDIRECTIONS", 115);
  ("HTTP_R_UNEXPECTED_CONTENT_TYPE", 118)].

Definition OBJ_R : reasons := [
  ("OBJ_R_OID_EXISTS", 102);
  ("OBJ_R_UNKNOWN_NID", 101);
  ("OBJ_R_UNKNOWN_OBJECT_NAME", 103)].

Definition OCSP_R : reasons := [
  ("OCSP_R_CERTIFICATE_VERIFY_ERROR", 101);
  ("OCSP_R_DIGEST_ERR", 102);
  ("OCSP_R_DIGEST_NAME_ERR", 106);
  ("OCSP_R_DIGEST_SIZE_ERR", 107);
  ("OCSP_R_ERROR_IN_NEXTUPDATE_FIELD", 122);
  ("OCSP_R_ERROR_IN_THISUPDATE_FIELD", 123);
  ("OCSP_R_MISSING_OCSPSIGNING_USAGE", 103);
  ("OCSP_R_NEXTUPDATE_BEFORE_THISUPDATE", 124);
  ("OCSP_R_NOT_BASIC_RESPONSE", 104);
  ("OCSP_R_NO_CERTIFICATES_IN_CHAIN", 105);
  ("OCSP_R_NO_RESPONSE_DATA", 108);
  ("OCSP_R_NO_REVOKED_TIME", 109);
  ("OCSP_R_NO_SIGNER_KEY", 130);
  ("OCSP_R_PRIVATE_KEY_DOES_NOT_MATCH_CERTIFICATE", 110);
  ("OCSP_R_REQUEST_NOT_SIGNED", 128);
  ("OCSP_R_RESPONSE_CONTAINS_NO_REVOCATION_DATA", 111);
  ("OCSP_R_ROOT_CA_NOT_TRUSTED", 112);
  ("OCSP_R_SIGNATURE_FAILURE", 117);
  ("OCSP_R_SIGNER_CERTIFICATE_NOT_FOUND", 118);
  ("OCSP_R_STATUS_EXPIRED", 125);
  ("OCSP_R_STATUS_NOT_YET_VALID", 126);
  ("OCSP_R_STATUS_TOO_OLD", 127);
  ("OCSP_R_UNKNOWN_MESSAGE_DIGEST", 119);
  ("OCSP_R_UNKNOWN_NID", 120);
  ("OCSP_R_UNSUPPORTED_REQUESTORNAME_TYPE", 129)].

Definition PEM_R : reasons := [
  ("PEM_R_BAD_BASE64_DECODE", 100);
  ("PEM_R_BAD_DECRYPT", 101);
  ("PEM_R_BAD_END_LINE", 102);
  ("PEM_R_BAD_IV_CHARS", 103);
  ("PEM_R_BAD_MAGIC_NUMBER", 116);
  ("PEM_R_BAD_PASSWORD_READ", 104);
  ("PEM_R_BAD_VERSION_NUMBER", 117);
  ("PEM_R_BIO_WRITE_FAILURE", 118);
  ("PEM_R_CIPHER_IS_NULL", 127);
  ("PEM_R_ERROR_CONVERTING_PRIVATE_KEY", 115);
  ("PEM_R_EXPECTING_DSS_KEY_BLOB", 131);
  ("PEM_R_EXPECTING_PRIVATE_KEY_BLOB", 119);
  ("PEM_R_EXPECTING_PUBLIC_KEY_BLOB", 120);
  ("PEM_R_EXPECTING_RSA_KEY_BLOB", 132);
  ("PEM_R_HEADER_TOO_LONG", 128);
  ("PEM_R_INCONSISTENT_HEADER", 121);
  ("PEM_R_KEYBLOB_HEADER_PARSE_ERROR", 122);
  ("PEM_R_KEYBLOB_TOO_SHORT", 123);
  ("PEM_R_MISSING_DEK_IV", 129);
  ("PEM_R_NOT_DEK_INFO", 105);
  ("PEM_R_NOT_ENCRYPTED", 106);
  ("PEM_R_NOT_PROC_TYPE", 107);
  ("PEM_R_NO_START_LINE", 108);
  ("PEM_R_PROBLEMS_GETTING_PASSWORD", 109);
  ("PEM_R_PVK_DATA_TOO_SHORT", 124);
  ("PEM_R_PVK_TOO_SHORT", 125);
  ("PEM_R_READ_KEY", 111);
  ("PEM_R_SHORT_HEADER", 112);
  ("PEM_R_UNEXPECTED_DEK_IV", 130);
  ("PEM_R_UNSUPPORTED_CIPHER", 113);
  ("PEM_R_UNSUPPORTED_ENCRYPTION", 114);
  ("PEM_R_UNSUPPORTED_KEY_COMPONENTS", 126);
  ("PEM_R_UNSUPPORTED_PUBLIC_KEY_TYPE", 110)].

Definition PKCS12_R : reasons := [
  ("PKCS12_R_CANT_PACK_STRUCTURE", 100);
  ("PKCS12_R_CONTENT_TYPE_NOT_DATA", 121);
  ("PKCS12_R_DECODE_ERROR", 101);
  ("PKCS12_R_ENCODE_ERROR", 102);
  ("PKCS12_R_ENCRYPT_ERROR", 103);
  ("PKCS12_R_ERROR_SETTING_ENCRYPTED_DATA_TYPE", 120);
  ("PKCS12_R_INVALID_NULL_ARGUMENT", 104);
  ("PKCS12_R_INVALID_NULL_PKCS12_POINTER", 105);
  ("PKCS12_R_INVALID_TYPE", 112);
  ("PKCS12_R_IV_GEN_ERROR", 106);
  ("PKCS12_R_KEY_GEN_ERROR", 107);
  ("PKCS12_R_MAC_ABSENT", 108);
  ("PKCS12_R_MAC_GENERATION_ERROR", 109);
  ("PKCS12_R_MAC_SETUP_ERROR", 110);
  ("PKCS12_R_MAC_STRING_SET_ERROR", 111);
  ("PKCS12_R_MAC_VERIFY_FAILURE", 113);
  ("PKCS12_R_PARSE_ERROR", 114);
  ("PKCS12_R_PKCS12_CIPHERFINAL_ERROR", 116);
  ("PKCS12_R_UNKNOWN_DIGEST_ALGORITHM", 118);
  ("PKCS12_R_UNSUPPORTED_PKCS12_MODE", 119)].

Definition PKCS7_R : reasons := [
  ("PKCS7_R_CERTIFICATE_VERIFY_ERROR", 117);
  ("PKCS7_R_CIPHER_HAS_NO_OBJECT_IDENTIFIER", 144);
  ("PKCS7_R_CIPHER_NOT_INITIALIZED", 116);
  ("PKCS7_R_CONTENT_AND_DATA_PRESENT", 118);
  ("PKCS7_R_CTRL_ERROR", 152);
  ("PKCS7_R_DECRYPT_ERROR", 119);
  ("PKCS7_R_DIGEST_FAILURE", 101);
  ("PKCS7_R_ENCRYPTION_CTRL_FAILURE", 149);
  ("PKCS7_R_ENCRYPTION_NOT_SUPPORTED_FOR_THIS_KEY_TYPE", 150);
  ("PKCS7_R_ERROR_ADDING_RECIPIENT", 120);
  ("PKCS7_R_ERROR_SETTING_CIPHER", 121);
  ("PKCS7_R_INVALID_NULL_POINTER", 143);
  ("PKCS7_R_INVALID_SIGNED_DATA_TYPE", 155);
  ("PKCS7_R_NO_CONTENT", 122);
  ("PKCS7_R_NO_DEFAULT_DIGEST", 151);
  ("PKCS7_R_NO_MATCHING_DIGEST_TYPE_FOUND", 154);
  ("PKCS7_R_NO_RECIPIENT_MATCHES_CERTIFICATE", 115);
  ("PKCS7_R_NO_SIGNATURES_ON_DATA", 123);
  ("PKCS7_R_NO_SIGNERS", 142);
  ("PKCS7_R_OPERATION_NOT_SUPPORTED_ON_THIS_TYPE", 104);
  ("PKCS7_R_PKCS7_ADD_SIGNATURE_ERROR", 124);
  ("PKCS7_R_PKCS7_ADD_SIGNER_ERROR", 153);
  ("PKCS7_R_PKCS7_DATASIGN", 145);
  ("PKCS7_R_PRIVATE_KEY_DOES_NOT_MATCH_CERTIFICATE", 127);
  ("PKCS7_R_SIGNATURE_FAILURE", 105);
  ("PKCS7_R_SIGNER_CERTIFICATE_NOT_FOUND", 128);
  ("PKCS7_R_SIGNING_CTRL_FAILURE", 147);
  ("PKCS7_R_SIGNING_NOT_SUPPORTED_FOR_THIS_KEY_TYPE", 148);
  ("PKCS7_R_SMIME_TEXT_ERROR", 129);
  ("PKCS7_R_UNABLE_TO_FIND_CERTIFICATE", 106);
  ("PKCS7_R_UNABLE_TO_FIND_MEM_BIO", 107);
  ("PKCS7_R_UNABLE_TO_FIND_MESSAGE_DIGEST", 108);
  ("PKCS7_R_UNKNOWN_DIGEST_TYPE", 109);
  ("PKCS7_R_UNKNOWN_OPERATION", 110);
  ("PKCS7_R_UNSUPPORTED_CIPHER_TYPE", 111);
  ("PKCS7_R_UNSUPPORTED_CONTENT_TYPE", 112);
  ("PKCS7_R_WRONG_CONTENT_TYPE", 113);
  ("PKCS7_R_WRONG_PKCS7_TYPE", 114)].

Definition PROV_R : reasons := [
  ("PROV_R_ADDITIONAL_INPUT_TOO_LONG", 184);
  ("PROV_R_ALGORITHM_MISMATCH", 173);
  ("PROV_R_ALREADY_INSTANTIATED", 185);
  ("PROV_R_BAD_DECRYPT", 100);
  ("PROV_R_BAD_ENCODING", 141);
  ("PROV_R_BAD_LENGTH", 142);
  ("PROV_R_BAD_TLS_CLIENT_VERSION", 161);
  ("PROV_R_BN_ERROR", 160);
  ("PROV_R_CIPHER_OPERATION_FAILED", 102);
  ("PROV_R_DERIVATION_FUNCTION_INIT_FAILED", 205);
  ("PROV_R_DIGEST_NOT_ALLOWED", 174);
  ("PROV_R_ENTROPY_SOURCE_STRENGTH_TOO_WEAK", 186);
  ("PROV_R_ERROR_INSTANTIATING_DRBG", 188);
  ("PROV_R_ERROR_RETRIEVING_ENTROPY", 189);
  ("PROV_R_ERROR_RETRIEVING_NONCE", 190);
  ("PROV_R_FAILED_DURING_DERIVATION", 164);
  ("PROV_R_FAILED_TO_CREATE_LOCK", 180);
  ("PROV_R_FAILED_TO_DECRYPT", 162);
  ("PROV_R_FAILED_TO_GENERATE_KEY", 121);
  ("PROV_R_FAILED_TO_GET_PARAMETER", 103);
  ("PROV_R_FAILED_TO_SET_PARAMETER", 104);
  ("PROV_R_FAILED_TO_SIGN", 175);
  ("PROV_R_FIPS_MODULE_CONDITIONAL_ERROR", 227);
  ("PROV_R_FIPS_MODULE_ENTERING_ERROR_STATE", 224);
  ("PROV_R_FIPS_MODULE_IN_ERROR_STATE", 225);
  ("PROV_R_GENERATE_ERROR", 191);
  ("PROV_R_ILLEGAL_OR_UNSUPPORTED_PADDING_MODE", 165);
  ("PROV_R_INDICATOR_INTEGRITY_FAILURE", 210);
  ("PROV_R_INSUFFICIENT_DRBG_STRENGTH", 181);
  ("PROV_R_INVALID_AAD", 108);
  ("PROV_R_INVALID_CONFIG_DATA", 211);
  ("PROV_R_INVALID_CONSTANT_LENGTH", 157);
  ("PROV_R_INVALID_CURVE", 176);
  ("PROV_R_INVALID_CUSTOM_LENGTH", 111);
  ("PROV_R_INVALID_DATA", 115);
  ("PROV_R_INVALID_DIGEST", 122);
  ("PROV_R_INVALID_DIGEST_LENGTH", 166);
  ("PROV_R_INVALID_DIGEST_SIZE", 218);
  ("PROV_R_INVALID_INPUT_LENGTH", 230);
  ("PROV_R_INVALID_ITERATION_COUNT", 123);
  ("PROV_R_INVALID_IV_LENGTH", 109);
  ("PROV_R_INVALID_KEY", 158);
  ("PROV_R_INVALID_KEY_LENGTH", 105);
  ("PROV_R_INVALID_MAC", 151);
  ("PROV_R_INVALID_MGF1_MD", 167);
  ("PROV_R_INVALID_MODE", 125);
  ("PROV_R_INVALID_OUTPUT_LENGTH", 217);
  ("PROV_R_INVALID_PADDING_MODE", 168);
  ("PROV_R_INVALID_PUBINFO", 198);
  ("PROV_R_INVALID_SALT_LENGTH", 112);
  ("PROV_R_INVALID_SEED_LENGTH", 154);
  ("PROV_R_INVALID_SIGNATURE_SIZE", 179);
  ("PROV_R_INVALID_STATE", 212);
  ("PROV_R_INVALID_TAG", 110);
  ("PROV_R_INVALID_TAG_LENGTH", 118);
  ("PROV_R_INVALID_UKM_LENGTH", 200);
  ("PROV_R_INVALID_X931_DIGEST", 170);
  ("PROV_R_IN_ERROR_STATE", 192);
  ("PROV_R_KEY_SETUP_FAILED", 101);
  ("PROV_R_KEY_SIZE_TOO_SMALL", 171);
  ("PROV_R_LENGTH_TOO_LARGE", 202);
  ("PROV_R_MISMATCHING_DOMAIN_PARAMETERS", 203);
  ("PROV_R_MISSING_CEK_ALG", 144);
  ("PROV_R_MISSING_CIPHER", 155);
  ("PROV_R_MISSING_CONFIG_DATA", 213);
  ("PROV_R_MISSING_CONSTANT", 156);
  ("PROV_R_MISSING_KEY", 128);
  ("PROV_R_MISSING_MAC", 150);
  ("PROV_R_MISSING_MESSAGE_DIGEST", 129);
  ("PROV_R_MISSING_OID", 209);
  ("PROV_R_MISSING_PASS", 130);
  ("PROV_R_MISSING_SALT", 131);
  ("PROV_R_MISSING_SECRET", 132);
  ("PROV_R_MISSING_SEED", 140);
  ("PROV_R_MISSING_SESSION_ID", 133);
  ("PROV_R_MISSING_TYPE", 134);
  ("PROV_R_MISSING_XCGHASH", 135);
  ("PROV_R_MODULE_INTEGRITY_FAILURE", 214);
  ("PROV_R_NOT_A_PRIVATE_KEY", 221);
  ("PROV_R_NOT_A_PUBLIC_KEY", 220);
  ("PROV_R_NOT_INSTANTIATED", 193);
  ("PROV_R_NOT_PARAMETERS", 226);
  ("PROV_R_NOT_SUPPORTED", 136);
  ("PROV_R_NOT_XOF_OR_INVALID_LENGTH", 113);
  ("PROV_R_NO_KEY_SET", 114);
  ("PROV_R_NO_PARAMETERS_SET", 177);
  ("PROV_R_OPERATION_NOT_SUPPORTED_FOR_THIS_KEYTYPE", 178);
  ("PROV_R_OUTPUT_BUFFER_TOO_SMALL", 106);
  ("PROV_R_PARENT_CANNOT_GENERATE_RANDOM_NUMBERS", 228);
  ("PROV_R_PARENT_CANNOT_SUPPLY_ENTROPY_SEED", 187);
  ("PROV_R_PARENT_LOCKING_NOT_ENABLED", 182);
  ("PROV_R_PARENT_STRENGTH_TOO_WEAK", 194);
  ("PROV_R_PATH_MUST_BE_ABSOLUTE", 219);
  ("PROV_R_PERSONALISATION_STRING_TOO_LONG", 195);
  ("PROV_R_PSS_SALTLEN_TOO_SMALL", 172);
  ("PROV_R_REQUEST_TOO_LARGE_FOR_DRBG", 196);
  ("PROV_R_REQUIRE_CTR_MODE_CIPHER", 206);
  ("PROV_R_RESEED_ERROR", 197);
  ("PROV_R_SEARCH_ONLY_SUPPORTED_FOR_DIRECTORIES", 222);
  ("PROV_R_SEED_SOURCES_MUST_NOT_HAVE_A_PARENT", 229);
  ("PROV_R_SELF_TEST_KAT_FAILURE", 215);
  ("PROV_R_SELF_TEST_POST_FAILURE", 216);
  ("PROV_R_TAG_NOT_NEEDED", 120);
  ("PROV_R_TAG_NOT_SET", 119);
  ("PROV_R_TOO_MANY_RECORDS", 126);
  ("PROV_R_UNABLE_TO_FIND_CIPHERS", 207);
  ("PROV_R_UNABLE_TO_GET_PARENT_STRENGTH", 199);
  ("PROV_R_UNABLE_TO_GET_PASSPHRASE", 159);
  ("PROV_R_UNABLE_TO_INITIALISE_CIPHERS", 208);
  ("PROV_R_UNABLE_TO_LOAD_SHA256", 147);
  ("PROV_R_UNABLE_TO_LOCK_PARENT", 201);
  ("PROV_R_UNABLE_TO_RESEED", 204);
  ("PROV_R_UNSUPPORTED_CEK_ALG", 145);
  ("PROV_R_UNSUPPORTED_KEY_SIZE", 153);
  ("PROV_R_UNSUPPORTED_MAC_TYPE", 137);
  ("PROV_R_UNSUPPORTED_NUMBER_OF_ROUNDS", 152);
  ("PROV_R_URI_AUTHORITY_UNSUPPORTED", 223);
  ("PROV_R_VALUE_ERROR", 138);
  ("PROV_R_WRONG_FINAL_BLOCK_LENGTH", 107);
  ("PROV_R_WRONG_OUTPUT_BUFFER_SIZE", 139);
  ("PROV_R_XOF_DIGESTS_NOT_ALLOWED", 183);
  ("PROV_R_XTS_DATA_UNIT_IS_TOO_LARGE", 148);
  ("PROV_R_XTS_DUPLICATED_KEYS", 149)].

Definition RAND_R : reasons := [
  ("RAND_R_ADDITIONAL_INPUT_TOO_LONG", 102);
  ("RAND_R_ALREADY_INSTANTIATED", 103);
  ("RAND_R_ARGUMENT_OUT_OF_RANGE", 105);
  ("RAND_R_CANNOT_OPEN_FILE", 121);
  ("RAND_R_DRBG_ALREADY_INITIALIZED", 129);
  ("RAND_R_DRBG_NOT_INITIALISED", 104);
  ("RAND_R_ENTROPY_INPUT_TOO_LONG", 106);
  ("RAND_R_ENTROPY_OUT_OF_RANGE", 124);
  ("RAND_R_ERROR_ENTROPY_POOL_WAS_IGNORED", 127);
  ("RAND_R_ERROR_INITIALISING_DRBG", 107);
  ("RAND_R_ERROR_INSTANTIATING_DRBG", 108);
  ("RAND_R_ERROR_RETRIEVING_ADDITIONAL_INPUT", 109);
  ("RAND_R_ERROR_RETRIEVING_ENTROPY", 110);
  ("RAND_R_ERROR_RETRIEVING_NONCE", 111);
  ("RAND_R_FAILED_TO_CREATE_LOCK", 126);
  ("RAND_R_FUNC_NOT_IMPLEMENTED", 101);
  ("RAND_R_FWRITE_ERROR", 123);
  ("RAND_R_GENERATE_ERROR", 112);
  ("RAND_R_INSUFFICIENT_DRBG_STRENGTH", 139);
  ("RAND_R_INTERNAL_ERROR", 113);
  ("RAND_R_IN_ERROR_STATE", 114);
  ("RAND_R_NOT_A_REGULAR_FILE", 122);
  ("RAND_R_NOT_INSTANTIATED", 115);
  ("RAND_R_NO_DRBG_IMPLEMENTATION_SELECTED", 128);
  ("RAND_R_PARENT_LOCKING_NOT_ENABLED", 130);
  ("RAND_R_PARENT_STRENGTH_TOO_WEAK", 131);
  ("RAND_R_PERSONALISATION_STRING_TOO_LONG", 116);
  ("RAND_R_PREDICTION_RESISTANCE_NOT_SUPPORTED", 133);
  ("RAND_R_PRNG_NOT_SEEDED", 100);
  ("RAND_R_RANDOM_POOL_OVERFLOW", 125);
  ("RAND_R_RANDOM_POOL_UNDERFLOW", 134);
  ("RAND_R_REQUEST_TOO_LARGE_FOR_DRBG", 117);
  ("RAND_R_RESEED_ERROR", 118);
  ("RAND_R_SELFTEST_FAILURE", 119);
  ("RAND_R_TOO_LITTLE_NONCE_REQUESTED", 135);
  ("RAND_R_TOO_MUCH_NONCE_REQUESTED", 136);
  ("RAND_R_UNABLE_TO_CREATE_DRBG", 143);
  ("RAND_R_UNABLE_TO_FETCH_DRBG", 144);
  ("RAND_R_UNABLE_TO_GET_PARENT_RESEED_PROP_COUNTER", 141);
  ("RAND_R_UNABLE_TO_GET_PARENT_STRENGTH", 138);
  ("RAND_R_UNABLE_TO_LOCK_PARENT", 140);
  ("RAND_R_UNSUPPORTED_DRBG_FLAGS", 132);
  ("RAND_R_UNSUPPORTED_DRBG_TYPE", 120)].

Definition RSA_R : reasons := [
  ("RSA_R_ALGORITHM_MISMATCH", 100);
  ("RSA_R_BAD_E_VALUE", 101);
  ("RSA_R_BAD_FIXED_HEADER_DECRYPT", 102);
  ("RSA_R_BAD_PAD_BYTE_COUNT", 103);
  ("RSA_R_BAD_SIGNATURE", 104);
  ("RSA_R_BLOCK_TYPE_IS_NOT_01", 106);
  ("RSA_R_BLOCK_TYPE_IS_NOT_02", 107);
  ("RSA_R_DATA_GREATER_THAN_MOD_LEN", 108);
  ("RSA_R_DATA_TOO_LARGE", 109);
  ("RSA_R_DATA_TOO_LARGE_FOR_KEY_SIZE", 110);
  ("RSA_R_DATA_TOO_LARGE_FOR_MODULUS", 132);
  ("RSA_R_DATA_TOO_SMALL", 111);
  ("RSA_R_DATA_TOO_SMALL_FOR_KEY_SIZE", 122);
  ("RSA_R_DIGEST_DOES_NOT_MATCH", 158);
  ("RSA_R_DIGEST_NOT_ALLOWED", 145);
  ("RSA_R_DIGEST_TOO_BIG_FOR_RSA_KEY", 112);
  ("RSA_R_DMP1_NOT_CONGRUENT_TO_D", 124);
  ("RSA_R_DMQ1_NOT_CONGRUENT_TO_D", 125);
  ("RSA_R_D_E_NOT_CONGRUENT_TO_1", 123);
  ("RSA_R_FIRST_OCTET_INVALID", 133);
  ("RSA_R_ILLEGAL_OR_UNSUPPORTED_PADDING_MODE", 144);
  ("RSA_R_INVALID_DIGEST", 157);
  ("RSA_R_INVALID_DIGEST_LENGTH", 143);
  ("RSA_R_INVALID_HEADER", 137);
  ("RSA_R_INVALID_KEYPAIR", 171);
  ("RSA_R_INVALID_KEY_LENGTH", 173);
  ("RSA_R_INVALID_LABEL", 160);
  ("RSA_R_INVALID_LENGTH", 181);
  ("RSA_R_INVALID_MESSAGE_LENGTH", 131);
  ("RSA_R_INVALID_MGF1_MD", 156);
  ("RSA_R_INVALID_MODULUS", 174);
  ("RSA_R_INVALID_MULTI_PRIME_KEY", 167);
  ("RSA_R_INVALID_OAEP_PARAMETERS", 161);
  ("RSA_R_INVALID_PADDING", 138);
  ("RSA_R_INVALID_PADDING_MODE", 141);
  ("RSA_R_INVALID_PSS_PARAMETERS", 149);
  ("RSA_R_INVALID_PSS_SALTLEN", 146);
  ("RSA_R_INVALID_REQUEST", 175);
  ("RSA_R_INVALID_SALT_LENGTH", 150);
  ("RSA_R_INVALID_STRENGTH", 176);
  ("RSA_R_INVALID_TRAILER", 139);
  ("RSA_R_INVALID_X931_DIGEST", 142);
  ("RSA_R_IQMP_NOT_INVERSE_OF_Q", 126);
  ("RSA_R_KEY_PRIME_NUM_INVALID", 165);
  ("RSA_R_KEY_SIZE_TOO_SMALL", 120);
  ("RSA_R_LAST_OCTET_INVALID", 134);
  ("RSA_R_MGF1_DIGEST_NOT_ALLOWED", 152);
  ("RSA_R_MISSING_PRIVATE_KEY", 179);
  ("RSA_R_MODULUS_TOO_LARGE", 105);
  ("RSA_R_MP_COEFFICIENT_NOT_INVERSE_OF_R", 168);
  ("RSA_R_MP_EXPONENT_NOT_CONGRUENT_TO_D", 169);
  ("RSA_R_MP_R_NOT_PRIME", 170);
  ("RSA_R_NO_PUBLIC_EXPONENT", 140);
  ("RSA_R_NULL_BEFORE_BLOCK_MISSING", 113);
  ("RSA_R_N_DOES_NOT_EQUAL_PRODUCT_OF_PRIMES", 172);
  ("RSA_R_N_DOES_NOT_EQUAL_P_Q", 127);
  ("RSA_R_OAEP_DECODING_ERROR", 121);
  ("RSA_R_OPERATION_NOT_SUPPORTED_FOR_THIS_KEYTYPE", 148);
  ("RSA_R_PADDING_CHECK_FAILED", 114);
  ("RSA_R_PAIRWISE_TEST_FAILURE", 177);
  ("RSA_R_PKCS_DECODING_ERROR", 159);
  ("RSA_R_PSS_SALTLEN_TOO_SMALL", 164);
  ("RSA_R_PUB_EXPONENT_OUT_OF_RANGE", 178);
  ("RSA_R_P_NOT_PRIME", 128);
  ("RSA_R_Q_NOT_PRIME", 129);
  ("RSA_R_RANDOMNESS_SOURCE_STRENGTH_INSUFFICIENT", 180);
  ("RSA_R_RSA_OPERATIONS_NOT_SUPPORTED", 130);
  ("RSA_R_SLEN_CHECK_FAILED", 136);
  ("RSA_R_SLEN_RECOVERY_FAILED", 135);
  ("RSA_R_SSLV3_ROLLBACK_ATTACK", 115);
  ("RSA_R_THE_ASN1_OBJECT_IDENTIFIER_IS_NOT_KNOWN_FOR_THIS_MD", 116);
  ("RSA_R_UNKNOWN_ALGORITHM_TYPE", 117);
  ("RSA_R_UNKNOWN_DIGEST", 166);
  ("RSA_R_UNKNOWN_MASK_DIGEST", 151);
  ("RSA_R_UNKNOWN_PADDING_TYPE", 118);
  ("RSA_R_UNSUPPORTED_ENCRYPTION_TYPE", 162);
  ("RSA_R_UNSUPPORTED_LABEL_SOURCE", 163);
  ("RSA_R_UNSUPPORTED_MASK_ALGORITHM", 153);
  ("RSA_R_UNSUPPORTED_MASK_PARAMETER", 154);
  ("RSA_R_UNSUPPORTED_SIGNATURE_TYPE", 155);
  ("RSA_R_VALUE_MISSING", 147);
  ("RSA_R_WRONG_SIGNATURE_LENGTH", 119)].

Definition SSL_R_1 : reasons := [
  ("SSL_R_APPLICATION_DATA_AFTER_CLOSE_NOTIFY", 291);
  ("SSL_R_APP_DATA_IN_HANDSHAKE", 100);
  ("SSL_R_ATTEMPT_TO_REUSE_SESSION_IN_DIFFERENT_CONTEXT", 272);
  ("SSL_R_AT_LEAST_TLS_1_2_NEEDED_IN_SUITEB_MODE", 158);
  ("SSL_R_BAD_CHANGE_CIPHER_SPEC", 103);
  ("SSL_R_BAD_CIPHER", 186);
  ("SSL_R_BAD_DATA", 390);
  ("SSL_R_BAD_DATA_RETURNED_BY_CALLBACK", 106);
  ("SSL_R_BAD_DECOMPRESSION", 107);
  ("SSL_R_BAD_DH_VALUE", 102);
  ("SSL_R_BAD_DIGEST_LENGTH", 111);
  ("SSL_R_BAD_EARLY_DATA", 233);
  ("SSL_R_BAD_ECC_CERT", 304);
  ("SSL_R_BAD_ECPOINT", 306);
  ("SSL_R_BAD_EXTENSION", 110);
  ("SSL_R_BAD_HANDSHAKE_LENGTH", 332);
  ("SSL_R_BAD_HANDSHAKE_STATE", 236);
  ("SSL_R_BAD_HELLO_REQUEST", 105);
  ("SSL_R_BAD_HRR_VERSION", 263);
  ("SSL_R_BAD_KEY_SHARE", 108);
  ("SSL_R_BAD_KEY_UPDATE", 122);
  ("SSL_R_BAD_LEGACY_VERSION", 292);
  ("SSL_R_BAD_LENGTH", 271);
  ("SSL_R_BAD_PACKET", 240);
  ("SSL_R_BAD_PACKET_LENGTH", 115);
  ("SSL_R_BAD_PROTOCOL_VERSION_NUMBER", 116);
  ("SSL_R_BAD_PSK", 219);
  ("SSL_R_BAD_PSK_IDENTITY", 114);
  ("SSL_R_BAD_RECORD_TYPE", 443);
  ("SSL_R_BAD_RSA_ENCRYPT", 119);
  ("SSL_R_BAD_SIGNATURE", 123);
  ("SSL_R_BAD_SRP_A_LENGTH", 347);
  ("SSL_R_BAD_SRP_PARAMETERS", 371);
  ("SSL_R_BAD_SRTP_MKI_VALUE", 352);
  ("SSL_R_BAD_SRTP_PROTECTION_PROFILE_LIST", 353);
  ("SSL_R_BAD_SSL_FILETYPE", 124);
  ("SSL_R_BAD_VALUE", 384);
  ("SSL_R_BAD_WRITE_RETRY", 127);
  ("SSL_R_BINDER_DOES_NOT_VERIFY", 253);
  ("SSL_R_BIO_NOT_SET", 128);
  ("SSL_R_BLOCK_CIPHER_PAD_IS_WRONG", 129);
  ("SSL_R_BN_LIB", 130);
  ("SSL_R_CALLBACK_FAILED", 234);
  ("SSL_R_CANNOT_CHANGE_CIPHER", 109);
  ("SSL_R_CANNOT_GET_GROUP_NAME", 299);
  ("SSL_R_CA_DN_LENGTH_MISMATCH", 131);
  ("SSL_R_CA_KEY_TOO_SMALL", 397);
  ("SSL_R_CA_MD_TOO_WEAK", 398);
  ("SSL_R_CCS_RECEIVED_EARLY", 133);
  ("SSL_R_CERTIFICATE_VERIFY_FAILED", 134);
  ("SSL_R_CERT_CB_ERROR", 377);
  ("SSL_R_CERT_LENGTH_MISMATCH", 135);
  ("SSL_R_CIPHERSUITE_DIGEST_HAS_CHANGED", 218);
  ("SSL_R_CIPHER_CODE_WRONG_LENGTH", 137);
  ("SSL_R_CLIENTHELLO_TLSEXT", 226);
  ("SSL_R_COMPRESSED_LENGTH_TOO_LONG", 140);
  ("SSL_R_COMPRESSION_DISABLED", 343);
  ("SSL_R_COMPRESSION_FAILURE", 141);
  ("SSL_R_COMPRESSION_ID_NOT_WITHIN_PRIVATE_RANGE", 307);
  ("SSL_R_COMPRESSION_LIBRARY_ERROR", 142);
  ("SSL_R_CONNECTION_TYPE_NOT_SET", 144);
  ("SSL_R_CONTEXT_NOT_DANE_ENABLED", 167);
  ("SSL_R_COOKIE_GEN_CALLBACK_FAILURE", 400);
  ("SSL_R_COOKIE_MISMATCH", 308);
  ("SSL_R_COPY_PARAMETERS_FAILED", 296);
  ("SSL_R_CUSTOM_EXT_HANDLER_ALREADY_INSTALLED", 206);
  ("SSL_R_DANE_ALREADY_ENABLED", 172);
  ("SSL_R_DANE_CANNOT_OVERRIDE_MTYPE_FULL", 173);
  ("SSL_R_DANE_NOT_ENABLED", 175);
  ("SSL_R_DANE_TLSA_BAD_CERTIFICATE", 180);
  ("SSL_R_DANE_TLSA_BAD_CERTIFICATE_USAGE", 184);
  ("SSL_R_DANE_TLSA_BAD_DATA_LENGTH", 189);
  ("SSL_R_DANE_TLSA_BAD_DIGEST_LENGTH", 192);
  ("SSL_R_DANE_TLSA_BAD_MATCHING_TYPE", 200);
  ("SSL_R_DANE_TLSA_BAD_PUBLIC_KEY", 201);
  ("SSL_R_DANE_TLSA_BAD_SELECTOR", 202);
  ("SSL_R_DANE_TLSA_NULL_DATA", 203);
  ("SSL_R_DATA_BETWEEN_CCS_AND_FINISHED", 145);
  ("SSL_R_DATA_LENGTH_TOO_LONG", 146);
  ("SSL_R_DECRYPTION_FAILED", 147);
  ("SSL_R_DECRYPTION_FAILED_OR_BAD_RECORD_MAC", 281);
  ("SSL_R_DH_KEY_TOO_SMALL", 394);
  ("SSL_R_DH_PUBLIC_VALUE_LENGTH_IS_WRONG", 148);
  ("SSL_R_DIGEST_CHECK_FAILED", 149);
  ("SSL_R_DTLS_MESSAGE_TOO_BIG", 334);
  ("SSL_R_DUPLICATE_COMPRESSION_ID", 309);
  ("SSL_R_ECC_CERT_NOT_FOR_SIGNING", 318);
  ("SSL_R_ECDH_REQUIRED_FOR_SUITEB_MODE", 374);
  ("SSL_R_EE_KEY_TOO_SMALL", 399);
  ("SSL_R_EMPTY_SRTP_PROTECTION_PROFILE_LIST", 354);
  ("SSL_R_ENCRYPTED_LENGTH_TOO_LONG", 150);
  ("SSL_R_ERROR_IN_RECEIVED_CIPHER_LIST", 151);
  ("SSL_R_ERROR_SETTING_TLSA_BASE_DOMAIN", 204);
  ("SSL_R_EXCEEDS_MAX_FRAGMENT_SIZE", 194);
  ("SSL_R_EXCESSIVE_MESSAGE_SIZE", 152);
  ("SSL_R_EXTENSION_NOT_RECEIVED", 279);
  ("SSL_R_EXTRA_DATA_IN_MESSAGE", 153);
  ("SSL_R_EXT_LENGTH_MISMATCH", 163);
  ("SSL_R_FAILED_TO_INIT_ASYNC", 405);
  ("SSL_R_FRAGMENTED_CLIENT_HELLO", 401);
  ("SSL_R_GOT_A_FIN_BEFORE_A_CCS", 154);
  ("SSL_R_HTTPS_PROXY_REQUEST", 155);
  ("SSL_R_HTTP_REQUEST", 156);
  ("SSL_R_ILLEGAL_POINT_COMPRESSION", 162);
  ("SSL_R_ILLEGAL_SUITEB_DIGEST", 380);
  ("SSL_R_INAPPROPRIATE_FALLBACK", 373);
  ("SSL_R_INCONSISTENT_COMPRESSION", 340);
  ("SSL_R_INCONSISTENT_EARLY_DATA_ALPN", 222);
  ("SSL_R_INCONSISTENT_EARLY_DATA_SNI", 231);
  ("SSL_R_INCONSISTENT_EXTMS", 104);
  ("SSL_R_INSUFFICIENT_SECURITY", 241);
  ("SSL_R_INVALID_ALERT", 205);
  ("SSL_R_INVALID_CCS_MESSAGE", 260);
  ("SSL_R_INVALID_CERTIFICATE_OR_ALG", 238);
  ("SSL_R_INVALID_COMMAND", 280);
  ("SSL_R_INVALID_COMPRESSION_ALGORITHM", 341);
  ("SSL_R_INVALID_CONFIG", 283);
  ("SSL_R_INVALID_CONFIGURATION_NAME", 113);
  ("SSL_R_INVALID_CONTEXT", 282);
  ("SSL_R_INVALID_CT_VALIDATION_TYPE", 212);
  ("SSL_R_INVALID_KEY_UPDATE_TYPE", 120);
  ("SSL_R_INVALID_MAX_EARLY_DATA", 174);
  ("SSL_R_INVALID_NULL_CMD_NAME", 385);
  ("SSL_R_INVALID_SEQUENCE_NUMBER", 402);
  ("SSL_R_INVALID_SERVERINFO_DATA", 388);
  ("SSL_R_INVALID_SESSION_ID", 999);
  ("SSL_R_INVALID_SRP_USERNAME", 357);
  ("SSL_R_INVALID_STATUS_RESPONSE", 328);
  ("SSL_R_INVALID_TICKET_KEYS_LENGTH", 325);
  ("SSL_R_LENGTH_MISMATCH", 159);
  ("SSL_R_LENGTH_TOO_LONG", 404);
  ("SSL_R_LENGTH_TOO_SHORT", 160);
  ("SSL_R_LIBRARY_BUG", 274);
  ("SSL_R_LIBRARY_HAS_NO_CIPHERS", 161);
  ("SSL_R_MISSING_DSA_SIGNING_CERT", 165);
  ("SSL_R_MISSING_ECDSA_SIGNING_CERT", 381);
  ("SSL_R_MISSING_FATAL", 256);
  ("SSL_R_MISSING_PARAMETERS", 290);
  ("SSL_R_MISSING_PSK_KEX_MODES_EXTENSION", 310);
  ("SSL_R_MISSING_QUIC_TRANSPORT_PARAMETERS_EXTENSION", 801);
  ("SSL_R_MISSING_RSA_CERTIFICATE", 168);
  ("SSL_R_MISSING_RSA_ENCRYPTING_CERT", 169);
  ("SSL_R_MISSING_RSA_SIGNING_CERT", 170);
  ("SSL_R_MISSING_SIGALGS_EXTENSION", 112);
  ("SSL_R_MISSING_SIGNING_CERT", 221);
  ("SSL_R_MISSING_SRP_PARAM", 358);
  ("SSL_R_MISSING_SUPPORTED_GROUPS_EXTENSION", 209);
  ("SSL_R_MISSING_TMP_DH_KEY", 171);
  ("SSL_R_MISSING_TMP_ECDH_KEY", 311);
  ("SSL_R_MIXED_HANDSHAKE_AND_NON_HANDSHAKE_DATA", 293)].

Definition SSL_R_2 : reasons := [
  ("SSL_R_NOT_ON_RECORD_BOUNDARY", 182);
  ("SSL_R_NOT_REPLACING_CERTIFICATE", 289);
  ("SSL_R_NOT_SERVER", 284);
  ("SSL_R_NO_APPLICATION_PROTOCOL", 235);
  ("SSL_R_NO_CERTIFICATES_RETURNED", 176);
  ("SSL_R_NO_CERTIFICATE_ASSIGNED", 177);
  ("SSL_R_NO_CERTIFICATE_SET", 179);
  ("SSL_R_NO_CHANGE_FOLLOWING_HRR", 214);
  ("SSL_R_NO_CIPHERS_AVAILABLE", 181);
  ("SSL_R_NO_CIPHERS_SPECIFIED", 183);
  ("SSL_R_NO_CIPHER_MATCH", 185);
  ("SSL_R_NO_CLIENT_CERT_METHOD", 331);
  ("SSL_R_NO_COMPRESSION_SPECIFIED", 187);
  ("SSL_R_NO_COOKIE_CALLBACK_SET", 287);
  ("SSL_R_NO_GOST_CERTIFICATE_SENT_BY_PEER", 330);
  ("SSL_R_NO_METHOD_SPECIFIED", 188);
  ("SSL_R_NO_PEM_EXTENSIONS", 389);
  ("SSL_R_NO_PRIVATE_KEY_ASSIGNED", 190);
  ("SSL_R_NO_PROTOCOLS_AVAILABLE", 191);
  ("SSL_R_NO_RENEGOTIATION", 339);
  ("SSL_R_NO_REQUIRED_DIGEST", 324);
  ("SSL_R_NO_SHARED_CIPHER", 193);
  ("SSL_R_NO_SHARED_GROUPS", 410);
  ("SSL_R_NO_SHARED_SIGNATURE_ALGORITHMS", 376);
  ("SSL_R_NO_SRTP_PROFILES", 359);
  ("SSL_R_NO_SUITABLE_DIGEST_ALGORITHM", 297);
  ("SSL_R_NO_SUITABLE_GROUPS", 295);
  ("SSL_R_NO_SUITABLE_KEY_SHARE", 101);
  ("SSL_R_NO_SUITABLE_SIGNATURE_ALGORITHM", 118);
  ("SSL_R_NO_VALID_SCTS", 216);
  ("SSL_R_NO_VERIFY_COOKIE_CALLBACK", 403);
  ("SSL_R_NULL_SSL_CTX", 195);
  ("SSL_R_NULL_SSL_METHOD_PASSED", 196);
  ("SSL_R_OCSP_CALLBACK_FAILURE", 305);
  ("SSL_R_OLD_SESSION_CIPHER_NOT_RETURNED", 197);
  ("SSL_R_OLD_SESSION_COMPRESSION_ALGORITHM_NOT_RETURNED", 344);
  ("SSL_R_OVERFLOW_ERROR", 237);
  ("SSL_R_PACKET_LENGTH_TOO_LONG", 198);
  ("SSL_R_PARSE_TLSEXT", 227);
  ("SSL_R_PATH_TOO_LONG", 270);
  ("SSL_R_PEER_DID_NOT_RETURN_A_CERTIFICATE", 199);
  ("SSL_R_PEM_NAME_BAD_PREFIX", 391);
  ("SSL_R_PEM_NAME_TOO_SHORT", 392);
  ("SSL_R_PIPELINE_FAILURE", 406);
  ("SSL_R_POST_HANDSHAKE_AUTH_ENCODING_ERR", 278);
  ("SSL_R_PRIVATE_KEY_MISMATCH", 288);
  ("SSL_R_PROTOCOL_IS_SHUTDOWN", 207);
  ("SSL_R_PSK_IDENTITY_NOT_FOUND", 223);
  ("SSL_R_PSK_NO_CLIENT_CB", 224);
  ("SSL_R_PSK_NO_SERVER_CB", 225);
  ("SSL_R_READ_BIO_NOT_SET", 211);
  ("SSL_R_READ_TIMEOUT_EXPIRED", 312);
  ("SSL_R_RECORD_LENGTH_MISMATCH", 213);
  ("SSL_R_RECORD_TOO_SMALL", 298);
  ("SSL_R_RENEGOTIATE_EXT_TOO_LONG", 335);
  ("SSL_R_RENEGOTIATION_ENCODING_ERR", 336);
  ("SSL_R_RENEGOTIATION_MISMATCH", 337);
  ("SSL_R_REQUEST_PENDING", 285);
  ("SSL_R_REQUEST_SENT", 286);
  ("SSL_R_REQUIRED_CIPHER_MISSING", 215);
  ("SSL_R_REQUIRED_COMPRESSION_ALGORITHM_MISSING", 342);
  ("SSL_R_SCSV_RECEIVED_WHEN_RENEGOTIATING", 345);
  ("SSL_R_SCT_VERIFICATION_FAILED", 208);
  ("SSL_R_SERVERHELLO_TLSEXT", 275);
  ("SSL_R_SESSION_ID_CONTEXT_UNINITIALIZED", 277);
  ("SSL_R_SHUTDOWN_WHILE_IN_INIT", 407);
  ("SSL_R_SIGNATURE_ALGORITHMS_ERROR", 360);
  ("SSL_R_SIGNATURE_FOR_NON_SIGNING_CERTIFICATE", 220);
  ("SSL_R_SRP_A_CALC", 361);
  ("SSL_R_SRTP_COULD_NOT_ALLOCATE_PROFILES", 362);
  ("SSL_R_SRTP_PROTECTION_PROFILE_LIST_TOO_LONG", 363);
  ("SSL_R_SRTP_UNKNOWN_PROTECTION_PROFILE", 364);
  ("SSL_R_SSL3_EXT_INVALID_MAX_FRAGMENT_LENGTH", 232);
  ("SSL_R_SSL3_EXT_INVALID_SERVERNAME", 319);
  ("SSL_R_SSL3_EXT_INVALID_SERVERNAME_TYPE", 320);
  ("SSL_R_SSL3_SESSION_ID_TOO_LONG", 300);
  ("SSL_R_SSLV3_ALERT_BAD_CERTIFICATE", 1042);
  ("SSL_R_SSLV3_ALERT_BAD_RECORD_MAC", 1020);
  ("SSL_R_SSLV3_ALERT_CERTIFICATE_EXPIRED", 1045);
  ("SSL_R_SSLV3_ALERT_CERTIFICATE_REVOKED", 1044);
  ("SSL_R_SSLV3_ALERT_CERTIFICATE_UNKNOWN", 1046);
  ("SSL_R_SSLV3_ALERT_DECOMPRESSION_FAILURE", 1030);
  ("SSL_R_SSLV3_ALERT_HANDSHAKE_FAILURE", 1040);
  ("SSL_R_SSLV3_ALERT_ILLEGAL_PARAMETER", 1047);
  ("SSL_R_SSLV3_ALERT_NO_CERTIFICATE", 1041);
  ("SSL_R_SSLV3_ALERT_UNEXPECTED_MESSAGE", 1010);
  ("SSL_R_SSLV3_ALERT_UNSUPPORTED_CERTIFICATE", 1043);
  ("SSL_R_SSL_COMMAND_SECTION_EMPTY", 117);
  ("SSL_R_SSL_COMMAND_SECTION_NOT_FOUND", 125);
  ("SSL_R_SSL_CTX_HAS_NO_DEFAULT_SSL_VERSION", 228);
  ("SSL_R_SSL_HANDSHAKE_FAILURE", 229);
  ("SSL_R_SSL_LIBRARY_HAS_NO_CIPHERS", 230);
  ("SSL_R_SSL_NEGATIVE_LENGTH", 372);
  ("SSL_R_SSL_SECTION_EMPTY", 126);
  ("SSL_R_SSL_SECTION_NOT_FOUND", 136);
  ("SSL_R_SSL_SESSION_ID_CALLBACK_FAILED", 301);
  ("SSL_R_SSL_SESSION_ID_CONFLICT", 302);
  ("SSL_R_SSL_SESSION_ID_CONTEXT_TOO_LONG", 273);
  ("SSL_R_SSL_SESSION_ID_HAS_BAD_LENGTH", 303);
  ("SSL_R_SSL_SESSION_ID_TOO_LONG", 408);
  ("SSL_R_SSL_SESSION_VERSION_MISMATCH", 210);
  ("SSL_R_STILL_IN_INIT", 121);
  ("SSL_R_TLSV13_ALERT_CERTIFICATE_REQUIRED", 1116);
  ("SSL_R_TLSV13_ALERT_MISSING_EXTENSION", 1109);
  ("SSL_R_TLSV1_ALERT_ACCESS_DENIED", 1049);
  ("SSL_R_TLSV1_ALERT_DECODE_ERROR", 1050);
  ("SSL_R_TLSV1_ALERT_DECRYPTION_FAILED", 1021);
  ("SSL_R_TLSV1_ALERT_DECRYPT_ERROR", 1051);
  ("SSL_R_TLSV1_ALERT_EXPORT_RESTRICTION", 1060);
  ("SSL_R_TLSV1_ALERT_INAPPROPRIATE_FALLBACK", 1086);
  ("SSL_R_TLSV1_ALERT_INSUFFICIENT_SECURITY", 1071);
  ("SSL_R_TLSV1_ALERT_INTERNAL_ERROR", 1080);
  ("SSL_R_TLSV1_ALERT_NO_RENEGOTIATION", 1100);
  ("SSL_R_TLSV1_ALERT_PROTOCOL_VERSION", 1070);
  ("SSL_R_TLSV1_ALERT_RECORD_OVERFLOW", 1022);
  ("SSL_R_TLSV1_ALERT_UNKNOWN_CA", 1048);
  ("SSL_R_TLSV1_ALERT_USER_CANCELLED", 1090);
  ("SSL_R_TLSV1_BAD_CERTIFICATE_HASH_VALUE", 1114);
  ("SSL_R_TLSV1_BAD_CERTIFICATE_STATUS_RESPONSE", 1113);
  ("SSL_R_TLSV1_CERTIFICATE_UNOBTAINABLE", 1111);
  ("SSL_R_TLSV1_UNRECOGNIZED_NAME", 1112);
  ("SSL_R_TLSV1_UNSUPPORTED_EXTENSION", 1110);
  ("SSL_R_TLS_ILLEGAL_EXPORTER_LABEL", 367);
  ("SSL_R_TLS_INVALID_ECPOINTFORMAT_LIST", 157);
  ("SSL_R_TOO_MANY_KEY_UPDATES", 132);
  ("SSL_R_TOO_MANY_WARN_ALERTS", 409);
  ("SSL_R_TOO_MUCH_EARLY_DATA", 164);
  ("SSL_R_UNABLE_TO_FIND_ECDH_PARAMETERS", 314);
  ("SSL_R_UNABLE_TO_FIND_PUBLIC_KEY_PARAMETERS", 239);
  ("SSL_R_UNABLE_TO_LOAD_SSL3_MD5_ROUTINES", 242);
  ("SSL_R_UNABLE_TO_LOAD_SSL3_SHA1_ROUTINES", 243);
  ("SSL_R_UNEXPECTED_CCS_MESSAGE", 262);
  ("SSL_R_UNEXPECTED_END_OF_EARLY_DATA", 178);
  ("SSL_R_UNEXPECTED_EOF_WHILE_READING", 294);
  ("SSL_R_UNEXPECTED_MESSAGE", 244);
  ("SSL_R_UNEXPECTED_RECORD", 245);
  ("SSL_R_UNINITIALIZED", 276);
  ("SSL_R_UNKNOWN_ALERT_TYPE", 246);
  ("SSL_R_UNKNOWN_CERTIFICATE_TYPE", 247);
  ("SSL_R_UNKNOWN_CIPHER_RETURNED", 248);
  ("SSL_R_UNKNOWN_CIPHER_TYPE", 249);
  ("SSL_R_UNKNOWN_CMD_NAME", 386);
  ("SSL_R_UNKNOWN_COMMAND", 139);
  ("SSL_R_UNKNOWN_DIGEST", 368);
  ("SSL_R_UNKNOWN_KEY_EXCHANGE_TYPE", 250);
  ("SSL_R_UNKNOWN_PKEY_TYPE", 251);
  ("SSL_R_UNKNOWN_PROTOCOL", 252);
  ("SSL_R_UNKNOWN_SSL_VERSION", 254);
  ("SSL_R_UNKNOWN_STATE", 255);
  ("SSL_R_UNSAFE_LEGACY_RENEGOTIATION_DISABLED", 338)].

Definition SSL_R_3 : reasons := [
  ("SSL_R_UNSOLICITED_EXTENSION", 217);
  ("SSL_R_UNSUPPORTED_COMPRESSION_ALGORITHM", 257);
  ("SSL_R_UNSUPPORTED_ELLIPTIC_CURVE", 315);
  ("SSL_R_UNSUPPORTED_PROTOCOL", 258);
  ("SSL_R_UNSUPPORTED_SSL_VERSION", 259);
  ("SSL_R_UNSUPPORTED_STATUS_TYPE", 329);
  ("SSL_R_USE_SRTP_NOT_NEGOTIATED", 369);
  ("SSL_R_VERSION_TOO_HIGH", 166);
  ("SSL_R_VERSION_TOO_LOW", 396);
  ("SSL_R_WRONG_CERTIFICATE_TYPE", 383);
  ("SSL_R_WRONG_CIPHER_RETURNED", 261);
  ("SSL_R_WRONG_CURVE", 378);
  ("SSL_R_WRONG_ENCRYPTION_LEVEL_RECEIVED", 800);
  ("SSL_R_WRONG_SIGNATURE_LENGTH", 264);
  ("SSL_R_WRONG_SIGNATURE_SIZE", 265);
  ("SSL_R_WRONG_SIGNATURE_TYPE", 370);
  ("SSL_R_WRONG_SSL_VERSION", 266);
  ("SSL_R_WRONG_VERSION_NUMBER", 267);
  ("SSL_R_X509_LIB", 268);
  ("SSL_R_X509_VERIFICATION_SETUP_PROBLEMS", 269)].

Definition SSL_R : reasons := (SSL_R_1 ++ SSL_R_2 ++ SSL_R_3)%list.

Definition OSSL_STORE_R : reasons := [
  ("OSSL_STORE_R_AMBIGUOUS_CONTENT_TYPE", 107);
  ("OSSL_STORE_R_BAD_PASSWORD_READ", 115);
  ("OSSL_STORE_R_ERROR_VERIFYING_PKCS12_MAC", 113);
  ("OSSL_STORE_R_FINGERPRINT_SIZE_DOES_NOT_MATCH_DIGEST", 121);
  ("OSSL_STORE_R_INVALID_SCHEME", 106);
  ("OSSL_STORE_R_IS_NOT_A", 112);
  ("OSSL_STORE_R_LOADER_INCOMPLETE", 116);
  ("OSSL_STORE_R_LOADING_STARTED", 117);
  ("OSSL_STORE_R_NOT_A_CERTIFICATE", 100);
  ("OSSL_STORE_R_NOT_A_CRL", 101);
  ("OSSL_STORE_R_NOT_A_NAME", 103);
  ("OSSL_STORE_R_NOT_A_PRIVATE_KEY", 102);
  ("OSSL_STORE_R_NOT_A_PUBLIC_KEY", 122);
  ("OSSL_STORE_R_NOT_PARAMETERS", 104);
  ("OSSL_STORE_R_NO_LOADERS_FOUND", 123);
  ("OSSL_STORE_R_PASSPHRASE_CALLBACK_ERROR", 114);
  ("OSSL_STORE_R_PATH_MUST_BE_ABSOLUTE", 108);
  ("OSSL_STORE_R_SEARCH_ONLY_SUPPORTED_FOR_DIRECTORIES", 119);
  ("OSSL_STORE_R_UI_PROCESS_INTERRUPTED_OR_CANCELLED", 109);
  ("OSSL_STORE_R_UNREGISTERED_SCHEME", 105);
  ("OSSL_STORE_R_UNSUPPORTED_CONTENT_TYPE", 110);
  ("OSSL_STORE_R_UNSUPPORTED_OPERATION", 118);
  ("OSSL_STORE_R_UNSUPPORTED_SEARCH_TYPE", 120);
  ("OSSL_STORE_R_URI_AUTHORITY_UNSUPPORTED", 111)].

Definition TS_R : reasons := [
  ("TS_R_BAD_PKCS7_TYPE", 132);
  ("TS_R_BAD_TYPE", 133);
  ("TS_R_CANNOT_LOAD_CERT", 137);
  ("TS_R_CANNOT_LOAD_KEY", 138);
  ("TS_R_CERTIFICATE_VERIFY_ERROR", 100);
  ("TS_R_COULD_NOT_SET_ENGINE", 127);
  ("TS_R_COULD_NOT_SET_TIME", 115);
  ("TS_R_DETACHED_CONTENT", 134);
  ("TS_R_ESS_ADD_SIGNING_CERT_ERROR", 116);
  ("TS_R_ESS_ADD_SIGNING_CERT_V2_ERROR", 139);
  ("TS_R_ESS_SIGNING_CERTIFICATE_ERROR", 101);
  ("TS_R_INVALID_NULL_POINTER", 102);
  ("TS_R_INVALID_SIGNER_CERTIFICATE_PURPOSE", 117);
  ("TS_R_MESSAGE_IMPRINT_MISMATCH", 103);
  ("TS_R_NONCE_MISMATCH", 104);
  ("TS_R_NONCE_NOT_RETURNED", 105);
  ("TS_R_NO_CONTENT", 106);
  ("TS_R_NO_TIME_STAMP_TOKEN", 107);
  ("TS_R_PKCS7_ADD_SIGNATURE_ERROR", 118);
  ("TS_R_PKCS7_ADD_SIGNED_ATTR_ERROR", 119);
  ("TS_R_PKCS7_TO_TS_TST_INFO_FAILED", 129);
  ("TS_R_POLICY_MISMATCH", 108);
  ("TS_R_PRIVATE_KEY_DOES_NOT_MATCH_CERTIFICATE", 120);
  ("TS_R_RESPONSE_SETUP_ERROR", 121);
  ("TS_R_SIGNATURE_FAILURE", 109);
  ("TS_R_THERE_MUST_BE_ONE_SIGNER", 110);
  ("TS_R_TIME_SYSCALL_ERROR", 122);
  ("TS_R_TOKEN_NOT_PRESENT", 130);
  ("TS_R_TOKEN_PRESENT", 131);
  ("TS_R_TSA_NAME_MISMATCH", 111);
  ("TS_R_TSA_UNTRUSTED", 112);
  ("TS_R_TST_INFO_SETUP_ERROR", 123);
  ("TS_R_TS_DATASIGN", 124);
  ("TS_R_UNACCEPTABLE_POLICY", 125);
  ("TS_R_UNSUPPORTED_MD_ALGORITHM", 126);
  ("TS_R_UNSUPPORTED_VERSION", 113);
  ("TS_R_VAR_BAD_VALUE", 135);
  ("TS_R_VAR_LOOKUP_FAILURE", 136);
  ("TS_R_WRONG_CONTENT_TYPE", 114)].

Definition UI_R : reasons := [
  ("UI_R_COMMON_OK_AND_CANCEL_CHARACTERS", 104);
  ("UI_R_INDEX_TOO_LARGE", 102);
  ("UI_R_INDEX_TOO_SMALL", 103);
  ("UI_R_NO_RESULT_BUFFER", 105);
  ("UI_R_PROCESSING_ERROR", 107);
  ("UI_R_RESULT_TOO_LARGE", 100);
  ("UI_R_RESULT_TOO_SMALL", 101);
  ("UI_R_SYSASSIGN_ERROR", 109);
  ("UI_R_SYSDASSGN_ERROR", 110);
  ("UI_R_SYSQIOW_ERROR", 111);
  ("UI_R_UNKNOWN_CONTROL_COMMAND", 106);
  ("UI_R_UNKNOWN_TTYGET_ERRNO_VALUE", 108);
  ("UI_R_USER_DATA_DUPLICATION_UNSUPPORTED", 112)].

Definition X509_R : reasons := [
  ("X509_R_AKID_MISMATCH", 110);
  ("X509_R_BAD_SELECTOR", 133);
  ("X509_R_BAD_X509_FILETYPE", 100);
  ("X509_R_BASE64_DECODE_ERROR", 118);
  ("X509_R_CANT_CHECK_DH_KEY", 114);
  ("X509_R_CERTIFICATE_VERIFICATION_FAILED", 139);
  ("X509_R_CERT_ALREADY_IN_HASH_TABLE", 101);
  ("X509_R_CRL_ALREADY_DELTA", 127);
  ("X509_R_CRL_VERIFY_FAILURE", 131);
  ("X509_R_ERROR_GETTING_MD_BY_NID", 141);
  ("X509_R_ERROR_USING_SIGINF_SET", 142);
  ("X509_R_IDP_MISMATCH", 128);
  ("X509_R_INVALID_ATTRIBUTES", 138);
  ("X509_R_INVALID_DIRECTORY", 113);
  ("X509_R_INVALID_DISTPOINT", 143);
  ("X509_R_INVALID_FIELD_NAME", 119);
  ("X509_R_INVALID_TRUST", 123);
  ("X509_R_ISSUER_MISMATCH", 129);
  ("X509_R_KEY_TYPE_MISMATCH", 115);
  ("X509_R_KEY_VALUES_MISMATCH", 116);
  ("X509_R_LOADING_CERT_DIR", 103);
  ("X509_R_LOADING_DEFAULTS", 104);
  ("X509_R_METHOD_NOT_SUPPORTED", 124);
  ("X509_R_NAME_TOO_LONG", 134);
  ("X509_R_NEWER_CRL_NOT_NEWER", 132);
  ("X509_R_NO_CERTIFICATE_FOUND", 135);
  ("X509_R_NO_CERTIFICATE_OR_CRL_FOUND", 136);
  ("X509_R_NO_CERT_SET_FOR_US_TO_VERIFY", 105);
  ("X509_R_NO_CRL_FOUND", 137);
  ("X509_R_NO_CRL_NUMBER", 130);
  ("X509_R_PUBLIC_KEY_DECODE_ERROR", 125);
  ("X509_R_PUBLIC_KEY_ENCODE_ERROR", 126);
  ("X509_R_SHOULD_RETRY", 106);
  ("X509_R_UNABLE_TO_FIND_PARAMETERS_IN_CHAIN", 107);
  ("X509_R_UNABLE_TO_GET_CERTS_PUBLIC_KEY", 108);
  ("X509_R_UNKNOWN_KEY_TYPE", 117);
  ("X509_R_UNKNOWN_NID", 109);
  ("X509_R_UNKNOWN_PURPOSE_ID", 121);
  ("X509_R_UNKNOWN_SIGID_ALGS", 144);
  ("X509_R_UNKNOWN_TRUST_ID", 120);
  ("X509_R_UNSUPPORTED_ALGORITHM", 111);
  ("X509_R_WRONG_LOOKUP_TYPE", 112);
  ("X509_R_WRONG_TYPE", 122)].

Definition X509V3_R : reasons := [
  ("X509V3_R_BAD_IP_ADDRESS", 118);
  ("X509V3_R_BAD_OBJECT", 119);
  ("X509V3_R_BN_DEC2BN_ERROR", 100);
  ("X509V3_R_BN_TO_ASN1_INTEGER_ERROR", 101);
  ("X509V3_R_DIRNAME_ERROR", 149);
  ("X509V3_R_DISTPOINT_ALREADY_SET", 160);
  ("X509V3_R_DUPLICATE_ZONE_ID", 133);
  ("X509V3_R_EMPTY_KEY_USAGE", 169);
  ("X509V3_R_ERROR_CONVERTING_ZONE", 131);
  ("X509V3_R_ERROR_CREATING_EXTENSION", 144);
  ("X509V3_R_ERROR_IN_EXTENSION", 128);
  ("X509V3_R_EXPECTED_A_SECTION_NAME", 137);
  ("X509V3_R_EXTENSION_EXISTS", 145);
  ("X509V3_R_EXTENSION_NAME_ERROR", 115);
  ("X509V3_R_EXTENSION_NOT_FOUND", 102);
  ("X509V3_R_EXTENSION_SETTING_NOT_SUPPORTED", 103);
  ("X509V3_R_EXTENSION_VALUE_ERROR", 116);
  ("X509V3_R_ILLEGAL_EMPTY_EXTENSION", 151);
  ("X509V3_R_INCORRECT_POLICY_SYNTAX_TAG", 152);
  ("X509V3_R_INVALID_ASNUMBER", 162);
  ("X509V3_R_INVALID_ASRANGE", 163);
  ("X509V3_R_INVALID_BOOLEAN_STRING", 104);
  ("X509V3_R_INVALID_CERTIFICATE", 158);
  ("X509V3_R_INVALID_EMPTY_NAME", 108);
  ("X509V3_R_INVALID_EXTENSION_STRING", 105);
  ("X509V3_R_INVALID_INHERITANCE", 165);
  ("X509V3_R_INVALID_IPADDRESS", 166);
  ("X509V3_R_INVALID_MULTIPLE_RDNS", 161);
  ("X509V3_R_INVALID_NAME", 106);
  ("X509V3_R_INVALID_NULL_ARGUMENT", 107);
  ("X509V3_R_INVALID_NULL_VALUE", 109);
  ("X509V3_R_INVALID_NUMBER", 140);
  ("X509V3_R_INVALID_NUMBERS", 141);
  ("X509V3_R_INVALID_OBJECT_IDENTIFIER", 110);
  ("X509V3_R_INVALID_OPTION", 138);
  ("X509V3_R_INVALID_POLICY_IDENTIFIER", 134);
  ("X509V3_R_INVALID_PROXY_POLICY_SETTING", 153);
  ("X509V3_R_INVALID_PURPOSE", 146);
  ("X509V3_R_INVALID_SAFI", 164);
  ("X509V3_R_INVALID_SECTION", 135);
  ("X509V3_R_INVALID_SYNTAX", 143);
  ("X509V3_R_ISSUER_DECODE_ERROR", 126);
  ("X509V3_R_MISSING_VALUE", 124);
  ("X509V3_R_NEED_ORGANIZATION_AND_NUMBERS", 142);
  ("X509V3_R_NEGATIVE_PATHLEN", 168);
  ("X509V3_R_NO_CONFIG_DATABASE", 136);
  ("X509V3_R_NO_ISSUER_CERTIFICATE", 121);
  ("X509V3_R_NO_ISSUER_DETAILS", 127);
  ("X509V3_R_NO_POLICY_IDENTIFIER", 139);
  ("X509V3_R_NO_PROXY_CERT_POLICY_LANGUAGE_DEFINED", 154);
  ("X509V3_R_NO_PUBLIC_KEY", 114);
  ("X509V3_R_NO_SUBJECT_DETAILS", 125);
  ("X509V3_R_OPERATION_NOT_DEFINED", 148);
  ("X509V3_R_OTHERNAME_ERROR", 147);
  ("X509V3_R_POLICY_LANGUAGE_ALREADY_DEFINED", 155);
  ("X509V3_R_POLICY_PATH_LENGTH", 156);
  ("X509V3_R_POLICY_PATH_LENGTH_ALREADY_DEFINED", 157);
  ("X509V3_R_POLICY_WHEN_PROXY_LANGUAGE_REQUIRES_NO_POLICY", 159);
  ("X509V3_R_SECTION_NOT_FOUND", 150);
  ("X509V3_R_UNABLE_TO_GET_ISSUER_DETAILS", 122);
  ("X509V3_R_UNABLE_TO_GET_ISSUER_KEYID", 123);
  ("X509V3_R_UNKNOWN_BIT_STRING_ARGUMENT", 111);
  ("X509V3_R_UNKNOWN_EXTENSION", 129);
  ("X509V3_R_UNKNOWN_EXTENSION_NAME", 130);
  ("X509V3_R_UNKNOWN_OPTION", 120);
  ("X509V3_R_UNSUPPORTED_OPTION", 117);
  ("X509V3_R_UNSUPPORTED_TYPE", 167);
  ("X509V3_R_USER_TOO_LONG", 132)].

(** The libraries with a table. *)
Definition error_libraries : list (Z * reasons) := [
  (ERR_LIB_ASN1, ASN1_R);
  (ERR_LIB_ASYNC, ASYNC_R);
  (ERR_LIB_BIO, BIO_R);
  (ERR_LIB_BN, BN_R);
  (ERR_LIB_CMP, CMP_R);
  (ERR_LIB_CMS, CMS_R);
  (ERR_LIB_COMP, COMP_R);
  (ERR_LIB_CONF, CONF_R);
  (ERR_LIB_CRMF, CRMF_R);
  (ERR_LIB_CRYPTO, CRYPTO_R);
  (ERR_LIB_CT, CT_R);
  (ERR_LIB_OSSL_DECODER, OSSL_DECODER_R);
  (ERR_LIB_DH, DH_R);
  (ERR_LIB_DSA, DSA_R);
  (ERR_LIB_EC, EC_R);
  (ERR_LIB_OSSL_ENCODER, OSSL_ENCODER_R);
  (ERR_LIB_ENGINE, ENGINE_R);
  (ERR_LIB_ESS, ESS_R);
  (ERR_LIB_EVP, EVP_R);
  (ERR_LIB_HTTP, HTTP_R);
  (ERR_LIB_OBJ, OBJ_R);
  (ERR_LIB_OCSP, OCSP_R);
  (ERR_LIB_PEM, PEM_R);
  (ERR_LIB_PKCS12, PKCS12_R);
  (ERR_LIB_PKCS7, PKCS7_R);
  (ERR_LIB_PROV, PROV_R);
  (ERR_LIB_RAND, RAND_R);
  (ERR_LIB_RSA, RSA_R);
  (ERR_LIB_SSL, SSL_R);
  (ERR_LIB_OSSL_STORE, OSSL_STORE_R);
  (ERR_LIB_TS, TS_R);
  (ERR_LIB_UI, UI_R);
  (ERR_LIB_X509, X509_R);
  (ERR_LIB_X509V3, X509V3_R)].
