(* ===== verification/OpensslAlerts.v ===== *)
(** * TLS alerts and their error reasons

    The alert numbers of [openssl/ssl3.h] and [openssl/tls1.h] under the names
    [openssl/ssl.h] gives them. When a peer sends an alert, the reason reported
    is [SSL_AD_REASON_OFFSET] plus the number. *)

From S2P Require Import Prelude.
From stdpp Require Import strings.
Local Open Scope string_scope.
Local Open Scope Z_scope.

Definition SSL_AD_REASON_OFFSET : Z := 1000.

Definition SSL3_AD_CLOSE_NOTIFY : Z := 0.
Definition SSL3_AD_UNEXPECTED_MESSAGE : Z := 10.
Definition SSL3_AD_BAD_RECORD_MAC : Z := 20.
Definition SSL3_AD_DECOMPRESSION_FAILURE : Z := 30.
Definition SSL3_AD_HANDSHAKE_FAILURE : Z := 40.
Definition SSL3_AD_NO_CERTIFICATE : Z := 41.
Definition SSL3_AD_BAD_CERTIFICATE : Z := 42.
Definition SSL3_AD_UNSUPPORTED_CERTIFICATE : Z := 43.
Definition SSL3_AD_CERTIFICATE_REVOKED : Z := 44.
Definition SSL3_AD_CERTIFICATE_EXPIRED : Z := 45.
Definition SSL3_AD_CERTIFICATE_UNKNOWN : Z := 46.
Definition SSL3_AD_ILLEGAL_PARAMETER : Z := 47.
Definition TLS1_AD_DECRYPTION_FAILED : Z := 21.
Definition TLS1_AD_RECORD_OVERFLOW : Z := 22.
Definition TLS1_AD_UNKNOWN_CA : Z := 48.
Definition TLS1_AD_ACCESS_DENIED : Z := 49.
Definition TLS1_AD_DECODE_ERROR : Z := 50.
Definition TLS1_AD_DECRYPT_ERROR : Z := 51.
Definition TLS1_AD_EXPORT_RESTRICTION : Z := 60.
Definition TLS1_AD_PROTOCOL_VERSION : Z := 70.
Definition TLS1_AD_INSUFFICIENT_SECURITY : Z := 71.
Definition TLS1_AD_INTERNAL_ERROR : Z := 80.
Definition TLS1_AD_INAPPROPRIATE_FALLBACK : Z := 86.
Definition TLS1_AD_USER_CANCELLED : Z := 90.
Definition TLS1_AD_NO_RENEGOTIATION : Z := 100.
Definition TLS13_AD_MISSING_EXTENSION : Z := 109.
Definition TLS13_AD_CERTIFICATE_REQUIRED : Z := 116.
Definition TLS1_AD_UNSUPPORTED_EXTENSION : Z := 110.
Definition TLS1_AD_CERTIFICATE_UNOBTAINABLE : Z := 111.
Definition TLS1_AD_UNRECOGNIZED_NAME : Z := 112.
Definition TLS1_AD_BAD_CERTIFICATE_STATUS_RESPONSE : Z := 113.
Definition TLS1_AD_BAD_CERTIFICATE_HASH_VALUE : Z := 114.
Definition TLS1_AD_UNKNOWN_PSK_IDENTITY : Z := 115.
Definition TLS1_AD_NO_APPLICATION_PROTOCOL : Z := 120.

Definition SSL_AD_CLOSE_NOTIFY : Z := SSL3_AD_CLOSE_NOTIFY.
Definition SSL_AD_UNEXPECTED_MESSAGE : Z := SSL3_AD_UNEXPECTED_MESSAGE.
Definition SSL_AD_BAD_RECORD_MAC : Z := SSL3_AD_BAD_RECORD_MAC.
Definition SSL_AD_DECRYPTION_FAILED : Z := TLS1_AD_DECRYPTION_FAILED.
Definition SSL_AD_RECORD_OVERFLOW : Z := TLS1_AD_RECORD_OVERFLOW.
Definition SSL_AD_DECOMPRESSION_FAILURE : Z := SSL3_AD_DECOMPRESSION_FAILURE.
Definition SSL_AD_HANDSHAKE_FAILURE : Z := SSL3_AD_HANDSHAKE_FAILURE.
Definition SSL_AD_NO_CERTIFICATE : Z := SSL3_AD_NO_CERTIFICATE.
Definition SSL_AD_BAD_CERTIFICATE : Z := SSL3_AD_BAD_CERTIFICATE.
Definition SSL_AD_UNSUPPORTED_CERTIFICATE : Z := SSL3_AD_UNSUPPORTED_CERTIFICATE.
Definition SSL_AD_CERTIFICATE_REVOKED : Z := SSL3_AD_CERTIFICATE_REVOKED.
Definition SSL_AD_CERTIFICATE_EXPIRED : Z := SSL3_AD_CERTIFICATE_EXPIRED.
Definition SSL_AD_CERTIFICATE_UNKNOWN : Z := SSL3_AD_CERTIFICATE_UNKNOWN.
Definition SSL_AD_ILLEGAL_PARAMETER : Z := SSL3_AD_ILLEGAL_PARAMETER.
Definition SSL_AD_UNKNOWN_CA : Z := TLS1_AD_UNKNOWN_CA.
Definition SSL_AD_ACCESS_DENIED : Z := TLS1_AD_ACCESS_DENIED.
Definition SSL_AD_DECODE_ERROR : Z := TLS1_AD_DECODE_ERROR.
Definition SSL_AD_DECRYPT_ERROR : Z := TLS1_AD_DECRYPT_ERROR.
Definition SSL_AD_EXPORT_RESTRICTION : Z := TLS1_AD_EXPORT_RESTRICTION.
Definition SSL_AD_PROTOCOL_VERSION : Z := TLS1_AD_PROTOCOL_VERSION.
Definition SSL_AD_INSUFFICIENT_SECURITY : Z := TLS1_AD_INSUFFICIENT_SECURITY.
Definition SSL_AD_INTERNAL_ERROR : Z := TLS1_AD_INTERNAL_ERROR.
Definition SSL_AD_USER_CANCELLED : Z := TLS1_AD_USER_CANCELLED.
Definition SSL_AD_NO_RENEGOTIATION : Z := TLS1_AD_NO_RENEGOTIATION.
Definition SSL_AD_MISSING_EXTENSION : Z := TLS13_AD_MISSING_EXTENSION.
Definition SSL_AD_CERTIFICATE_REQUIRED : Z := TLS13_AD_CERTIFICATE_REQUIRED.
Definition SSL_AD_UNSUPPORTED_EXTENSION : Z := TLS1_AD_UNSUPPORTED_EXTENSION.
Definition SSL_AD_CERTIFICATE_UNOBTAINABLE : Z := TLS1_AD_CERTIFICATE_UNOBTAINABLE.
Definition SSL_AD_UNRECOGNIZED_NAME : Z := TLS1_AD_UNRECOGNIZED_NAME.
Definition SSL_AD_BAD_CERTIFICATE_STATUS_RESPONSE : Z := TLS1_AD_BAD_CERTIFICATE_STATUS_RESPONSE.
Definition SSL_AD_BAD_CERTIFICATE_HASH_VALUE : Z := TLS1_AD_BAD_CERTIFICATE_HASH_VALUE.
Definition SSL_AD_UNKNOWN_PSK_IDENTITY : Z := TLS1_AD_UNKNOWN_PSK_IDENTITY.
Definition SSL_AD_INAPPROPRIATE_FALLBACK : Z := TLS1_AD_INAPPROPRIATE_FALLBACK.
Definition SSL_AD_NO_APPLICATION_PROTOCOL : Z := TLS1_AD_NO_APPLICATION_PROTOCOL.
(** The alerts, without the prefix [SSL_AD_]. *)
Definition alerts : list (string * Z) := [
  ("CLOSE_NOTIFY", SSL_AD_CLOSE_NOTIFY);
  ("UNEXPECTED_MESSAGE", SSL_AD_UNEXPECTED_MESSAGE);
  ("BAD_RECORD_MAC", SSL_AD_BAD_RECORD_MAC);
  ("DECRYPTION_FAILED", SSL_AD_DECRYPTION_FAILED);
  ("RECORD_OVERFLOW", SSL_AD_RECORD_OVERFLOW);
  ("DECOMPRESSION_FAILURE", SSL_AD_DECOMPRESSION_FAILURE);
  ("HANDSHAKE_FAILURE", SSL_AD_HANDSHAKE_FAILURE);
  ("NO_CERTIFICATE", SSL_AD_NO_CERTIFICATE);
  ("BAD_CERTIFICATE", SSL_AD_BAD_CERTIFICATE);
  ("UNSUPPORTED_CERTIFICATE", SSL_AD_UNSUPPORTED_CERTIFICATE);
  ("CERTIFICATE_REVOKED", SSL_AD_CERTIFICATE_REVOKED);
  ("CERTIFICATE_EXPIRED", SSL_AD_CERTIFICATE_EXPIRED);
  ("CERTIFICATE_UNKNOWN", SSL_AD_CERTIFICATE_UNKNOWN);
  ("ILLEGAL_PARAMETER", SSL_AD_ILLEGAL_PARAMETER);
  ("UNKNOWN_CA", SSL_AD_UNKNOWN_CA);
  ("ACCESS_DENIED", SSL_AD_ACCESS_DENIED);
  ("DECODE_ERROR", SSL_AD_DECODE_ERROR);
  ("DECRYPT_ERROR", SSL_AD_DECRYPT_ERROR);
  ("EXPORT_RESTRICTION", SSL_AD_EXPORT_RESTRICTION);
  ("PROTOCOL_VERSION", SSL_AD_PROTOCOL_VERSION);
  ("INSUFFICIENT_SECURITY", SSL_AD_INSUFFICIENT_SECURITY);
  ("INTERNAL_ERROR", SSL_AD_INTERNAL_ERROR);
  ("USER_CANCELLED", SSL_AD_USER_CANCELLED);
  ("NO_RENEGOTIATION", SSL_AD_NO_RENEGOTIATION);
  ("MISSING_EXTENSION", SSL_AD_MISSING_EXTENSION);
  ("CERTIFICATE_REQUIRED", SSL_AD_CERTIFICATE_REQUIRED);
  ("UNSUPPORTED_EXTENSION", SSL_AD_UNSUPPORTED_EXTENSION);
  ("CERTIFICATE_UNOBTAINABLE", SSL_AD_CERTIFICATE_UNOBTAINABLE);
  ("UNRECOGNIZED_NAME", SSL_AD_UNRECOGNIZED_NAME);
  ("BAD_CERTIFICATE_STATUS_RESPONSE", SSL_AD_BAD_CERTIFICATE_STATUS_RESPONSE);
  ("BAD_CERTIFICATE_HASH_VALUE", SSL_AD_BAD_CERTIFICATE_HASH_VALUE);
  ("UNKNOWN_PSK_IDENTITY", SSL_AD_UNKNOWN_PSK_IDENTITY);
  ("INAPPROPRIATE_FALLBACK", SSL_AD_INAPPROPRIATE_FALLBACK);
  ("NO_APPLICATION_PROTOCOL", SSL_AD_NO_APPLICATION_PROTOCOL)].
