(* ===== verification/OpensslProperties.v ===== *)
(** * Properties of OpenSSL's error codes and alerts *)

From S2P Require Import Prelude ByteMemory OpensslErr OpensslFacts OpensslReasons OpensslAlerts.
From stdpp Require Import strings ssreflect.
Local Open Scope string_scope.
Local Open Scope Z_scope.

(** ** Packing *)

(** Packing and decoding are inverse to each other: ERR_PACK keeps the low
    8 bits of the library and the low 23 of the reason, which ERR_GET_LIB and
    ERR_GET_REASON give back, never makes a system error, and every code below
    2^31 is packed from its two parts; ERR_FATAL_ERROR and ERR_COMMON_ERROR are
    bits 18 and 19 of the reason. A code with bit 31 is a system error: its
    library is ERR_LIB_SYS, its reason the remaining 31 bits, and no flag is
    set. *)
Lemma ERR_PACK_decoded w (Hw : 31 ≤ w) :
  (∀ lib func reason, let e := ERR_PACK w lib func reason in
     ERR_SYSTEM_ERROR e = false ∧ ERR_GET_LIB e = lib mod 2 ^ 8 ∧ ERR_GET_REASON e = reason mod 2 ^ 23 ∧
     ERR_FATAL_ERROR e = Z.testbit reason 18 ∧ ERR_COMMON_ERROR e = Z.testbit reason 19) ∧
  (∀ e func, 0 ≤ e < 2 ^ 31 → ERR_PACK w (ERR_GET_LIB e) func (ERR_GET_REASON e) = e) ∧
  (∀ n, 0 ≤ n < 2 ^ 31 → let e := 2 ^ 31 + n in
     ERR_SYSTEM_ERROR e = true ∧ ERR_GET_LIB e = ERR_LIB_SYS ∧ ERR_GET_REASON e = n ∧
     ERR_GET_RFLAGS e = 0 ∧ ERR_FATAL_ERROR e = false ∧ ERR_COMMON_ERROR e = false).
Proof.
  split_and!.
  - intros lib func reason e. pose proof (PACK_range w lib func reason Hw).
    rewrite library_not_system // PACK_lib // PACK_reason // FATAL_spec // COMMON_spec // !PACK_bit //.
  - intros e func He. rewrite PACK_spec // GET_LIB_spec // GET_REASON_spec // Z.mod_mod //.
    rewrite (Z.mod_small (e / 2 ^ 23)); [pose proof (Z.div_mod e (2 ^ 23)); lia|].
    split; [apply Z.div_pos; lia|apply Z.div_lt_upper_bound; lia].
  - intros n Hn e. assert (ERR_SYSTEM_ERROR e = true) as Hs by (rewrite system_error_spec; [apply Z.leb_le|]; lia).
    unfold ERR_FATAL_ERROR, ERR_COMMON_ERROR, ERR_GET_LIB, ERR_GET_REASON, ERR_GET_RFLAGS. rewrite Hs.
    split_and!; [done..| |done|done|done]. rewrite (Z.land_ones _ 31) //.
    rewrite (_ : e mod 2 ^ 31 = n); [by apply to_signed_32_small|].
    unfold e. rewrite -{1}(Z.mul_1_l (2 ^ 31)) Z.add_comm Z.mod_add // Z.mod_small //.
Qed.

(** ** The reasons *)

(** What the tables have to satisfy. *)
Definition table_okb (t : Z * reasons) : bool :=
  (0 <? t.1) && (t.1 <? 2 ^ 8) && bool_decide (NoDup t.2.*2) && bool_decide (NoDup t.2.*1) &&
  forallb (λ e, (0 <? e.2) && (e.2 <? 2 ^ 18)) t.2.
Lemma error_libraries_ok :
  forallb table_okb error_libraries && bool_decide (NoDup error_libraries.*1) = true.
Proof. by vm_compute. Qed.

Lemma error_library_ok lib rs : (lib, rs) ∈ error_libraries →
  0 < lib < 2 ^ 8 ∧ NoDup rs.*2 ∧ ∀ e, e ∈ rs → 0 < e.2 < 2 ^ 18.
Proof.
  pose proof error_libraries_ok as [H _]%andb_prop. rewrite forallb_forall in H.
  intros Hin%list_elem_of_In. apply H in Hin. unfold table_okb in Hin. cbn [fst snd] in Hin.
  apply andb_prop in Hin as [[[Hlib Hv]%andb_prop _]%andb_prop Hr]. split; [lia|].
  apply bool_decide_eq_true in Hv. split; [done|]. rewrite forallb_forall in Hr.
  intros e He%list_elem_of_In. apply Hr in He. lia.
Qed.

Lemma error_library_unique lib rs rs' :
  (lib, rs) ∈ error_libraries → (lib, rs') ∈ error_libraries → rs = rs'.
Proof.
  intros H H'. pose proof error_libraries_ok as [_ Hd]%andb_prop. apply bool_decide_eq_true in Hd.
  pose proof (NoDup_fmap_inj fst error_libraries (lib, rs) (lib, rs') Hd H H' eq_refl). congruence.
Qed.

Definition common_okb (e : string * Z) : bool :=
  Z.testbit e.2 19 && (0 <? e.2) && (e.2 <? 2 ^ 20).
Lemma common_reasons_ok : forallb common_okb common_reasons && bool_decide (NoDup common_reasons.*2) = true.
Proof. by vm_compute. Qed.

Lemma library_reasons w (Hw : 31 ≤ w) :
  (∀ lib rs n r, (lib, rs) ∈ error_libraries → (n, r) ∈ rs → let e := ERR_PACK w lib 0 r in
     ERR_GET_LIB e = lib ∧ ERR_GET_REASON e = r ∧ ERR_FATAL_ERROR e = false ∧ ERR_COMMON_ERROR e = false) ∧
  (∀ lib rs n r lib' rs' n' r', (lib, rs) ∈ error_libraries → (lib', rs') ∈ error_libraries →
     (n, r) ∈ rs → (n', r') ∈ rs' → ERR_PACK w lib 0 r = ERR_PACK w lib' 0 r' → lib = lib' ∧ n = n') ∧
  (∀ lib n r, (n, r) ∈ common_reasons → let e := ERR_PACK w lib 0 r in
     ERR_COMMON_ERROR e = true ∧ ERR_GET_REASON e = r) ∧
  NoDup common_reasons.*2.
Proof.
  pose proof common_reasons_ok as [Hc Hd]%andb_prop. apply bool_decide_eq_true in Hd.
  assert (∀ lib rs n r, (lib, rs) ∈ error_libraries → (n, r) ∈ rs →
    ERR_GET_LIB (ERR_PACK w lib 0 r) = lib ∧ ERR_GET_REASON (ERR_PACK w lib 0 r) = r ∧ 0 < r < 2 ^ 18) as Hdec.
  { intros lib rs n r Hl Hr. apply error_library_ok in Hl as (Hl & _ & H). pose proof (H _ Hr) as Hr'. cbn in Hr'.
    rewrite PACK_lib // PACK_reason // !Z.mod_small //; lia. }
  split_and!; [| | |done].
  - intros lib rs n r Hl Hr e. destruct (Hdec lib rs n r Hl Hr) as (? & ? & Hrange).
    pose proof (PACK_range w lib 0 r Hw). rewrite FATAL_spec // COMMON_spec // !PACK_bit //.
    split_and!; [done|done|..]; apply (Z.bits_above_log2 r); try lia; apply Z.log2_lt_pow2; lia.
  - intros lib rs n r lib' rs' n' r' Hl Hl' Hr Hr' E.
    destruct (Hdec lib rs n r Hl Hr) as (E1 & E2 & _), (Hdec lib' rs' n' r' Hl' Hr') as (E1' & E2' & _).
    assert (lib' = lib) as -> by congruence. assert (r' = r) as -> by congruence.
    rewrite (error_library_unique lib rs' rs Hl' Hl) in Hr'. split; [done|].
    apply error_library_ok in Hl as (_ & Hv & _).
    pose proof (NoDup_fmap_inj snd rs (n, r) (n', r) Hv Hr Hr' eq_refl). congruence.
  - intros lib n r Hr e. rewrite forallb_forall in Hc. apply list_elem_of_In, Hc in Hr.
    unfold common_okb in Hr. cbn [snd] in Hr. apply andb_prop in Hr as [[Hb H0]%andb_prop H1].
    pose proof (PACK_range w lib 0 r Hw). rewrite COMMON_spec // PACK_bit // PACK_reason // Z.mod_small //; lia.
Qed.

(** ** Alerts *)

Fixpoint ends_with (suffix s : string) : bool :=
  bool_decide (suffix = s) || match s with EmptyString => false | String _ s => ends_with suffix s end.

(** The alert whose number a reason reports. *)
Definition alert_of (r : Z) : list (string * Z) := filter (λ a, r = SSL_AD_REASON_OFFSET + a.2) alerts.
Definition reason_of (v : Z) : list (string * Z) := filter (λ e, e.2 = SSL_AD_REASON_OFFSET + v) SSL_R.

(** The alerts that are not reported as an error of their own. *)
Definition silent_alerts : list string := ["CLOSE_NOTIFY"; "UNKNOWN_PSK_IDENTITY"; "NO_APPLICATION_PROTOCOL"].

Lemma alert_reasons :
  (∀ n r, (n, r) ∈ SSL_R → SSL_AD_REASON_OFFSET ≤ r →
     ∃ a, alert_of r = [a] ∧ r = SSL_AD_REASON_OFFSET + a.2 ∧ ends_with a.1 n = true) ∧
  (∀ a v, (a, v) ∈ alerts → 0 ≤ v < 2 ^ 8 ∧
     if decide (a ∈ silent_alerts) then reason_of v = [] else ∃ e, reason_of v = [e] ∧ ends_with a e.1 = true).
Proof.
  split.
  - assert (forallb (λ e, (e.2 <? SSL_AD_REASON_OFFSET) ||
      match alert_of e.2 with [a] => (e.2 =? SSL_AD_REASON_OFFSET + a.2) && ends_with a.1 e.1 | _ => false end)
      SSL_R = true) as H by by vm_compute.
    intros n r Hin%list_elem_of_In Hr. rewrite forallb_forall in H. apply H in Hin. cbn [fst snd] in Hin.
    rewrite (proj2 (Z.ltb_ge _ _) Hr) in Hin. cbn [orb] in Hin. destruct (alert_of r) as [|a []]; [done| |done].
    apply andb_prop in Hin as [E%Z.eqb_eq ?]. by exists a.
  - assert (forallb (λ a, (0 <=? a.2) && (a.2 <? 2 ^ 8) &&
      if decide (a.1 ∈ silent_alerts) then bool_decide (reason_of a.2 = [])
      else match reason_of a.2 with [e] => ends_with a.1 e.1 | _ => false end) alerts = true) as H by by vm_compute.
    intros a v Hin%list_elem_of_In. rewrite forallb_forall in H. apply H in Hin. cbn [fst snd] in Hin.
    apply andb_prop in Hin as [Hv Hin]. split; [lia|]. case_decide; [by apply bool_decide_eq_true in Hin|].
    destruct (reason_of v) as [|e []]; [done|by exists e|done].
Qed.

(** ** Reasons *)

(** The reason tables of the libraries fit the encoding: a packed reason
    decodes to its library and value, carries neither the fatal nor the common
    flag, which err.h reserves for the ERR_R_ codes, and two reasons of any two
    libraries have the same packed code only if they are the same; the ERR_R_
    codes all carry the common flag, and differ from each other and from every
    reason of a library's own. Alerts and reasons correspond: every reason of the
    SSL library from SSL_AD_REASON_OFFSET on is the offset plus the number of
    exactly one alert, whose name ends the name of the reason, every alert but
    three has exactly one such reason, and all other reasons lie below the
    offset. *)
Lemma reasons_distinguished w (Hw : 31 ≤ w) :
  (∀ lib rs n r, (lib, rs) ∈ error_libraries → (n, r) ∈ rs → let e := ERR_PACK w lib 0 r in
     ERR_GET_LIB e = lib ∧ ERR_GET_REASON e = r ∧ ERR_FATAL_ERROR e = false ∧ ERR_COMMON_ERROR e = false) ∧
  (∀ lib rs n r lib' rs' n' r', (lib, rs) ∈ error_libraries → (lib', rs') ∈ error_libraries →
     (n, r) ∈ rs → (n', r') ∈ rs' → ERR_PACK w lib 0 r = ERR_PACK w lib' 0 r' → lib = lib' ∧ n = n') ∧
  (∀ lib n r, (n, r) ∈ common_reasons → let e := ERR_PACK w lib 0 r in
     ERR_COMMON_ERROR e = true ∧ ERR_GET_REASON e = r) ∧
  NoDup common_reasons.*2 ∧
  (∀ n r, (n, r) ∈ SSL_R → SSL_AD_REASON_OFFSET ≤ r →
     ∃ a, alert_of r = [a] ∧ r = SSL_AD_REASON_OFFSET + a.2 ∧ ends_with a.1 n = true) ∧
  (∀ a v, (a, v) ∈ alerts → 0 ≤ v < 2 ^ 8 ∧
     if decide (a ∈ silent_alerts) then reason_of v = [] else ∃ e, reason_of v = [e] ∧ ends_with a e.1 = true).
Proof.
  destruct (library_reasons w Hw) as (? & ? & ? & ?), alert_reasons as [? ?]. by split_and!.
Qed.

(** C37: packing and decoding are inverse to each other: ERR_PACK keeps the low
    8 bits of the library and the low 23 of the reason, which ERR_GET_LIB and
    ERR_GET_REASON give back, never makes a system error, and every code below
    2^31 is packed from its two parts; ERR_FATAL_ERROR and ERR_COMMON_ERROR are
    bits 18 and 19 of the reason. A code with bit 31 is a system error: its
    library is ERR_LIB_SYS, its reason the remaining 31 bits, and no flag is
    set. The reason tables of the libraries fit the encoding: a packed reason
    decodes to its library and value, carries neither the fatal nor the common
    flag, which err.h reserves for the ERR_R_ codes, and two reasons of any two
    libraries have the same packed code only if they are the same; the ERR_R_
    codes all carry the common flag, and differ from each other and from every
    reason of a library's own. Alerts and reasons correspond: every reason of the
    SSL library from SSL_AD_REASON_OFFSET on is the offset plus the number of
    exactly one alert, whose name ends the name of the reason, every alert but
    three has exactly one such reason, and all other reasons lie below the
    offset. *)
Theorem error_codes_roundtrip w (Hw : 31 ≤ w) :
  ((∀ lib func reason, let e := ERR_PACK w lib func reason in
      ERR_SYSTEM_ERROR e = false ∧ ERR_GET_LIB e = lib mod 2 ^ 8 ∧ ERR_GET_REASON e = reason mod 2 ^ 23 ∧
      ERR_FATAL_ERROR e = Z.testbit reason 18 ∧ ERR_COMMON_ERROR e = Z.testbit reason 19) ∧
   (∀ e func, 0 ≤ e < 2 ^ 31 → ERR_PACK w (ERR_GET_LIB e) func (ERR_GET_REASON e) = e) ∧
   (∀ n, 0 ≤ n < 2 ^ 31 → let e := 2 ^ 31 + n in
      ERR_SYSTEM_ERROR e = true ∧ ERR_GET_LIB e = ERR_LIB_SYS ∧ ERR_GET_REASON e = n ∧
      ERR_GET_RFLAGS e = 0 ∧ ERR_FATAL_ERROR e = false ∧ ERR_COMMON_ERROR e = false)) ∧
  ((∀ lib rs n r, (lib, rs) ∈ error_libraries → (n, r) ∈ rs → let e := ERR_PACK w lib 0 r in
      ERR_GET_LIB e = lib ∧ ERR_GET_REASON e = r ∧ ERR_FATAL_ERROR e = false ∧ ERR_COMMON_ERROR e = false) ∧
   (∀ lib rs n r lib' rs' n' r', (lib, rs) ∈ error_libraries → (lib', rs') ∈ error_libraries →
      (n, r) ∈ rs → (n', r') ∈ rs' → ERR_PACK w lib 0 r = ERR_PACK w lib' 0 r' → lib = lib' ∧ n = n') ∧
   (∀ lib n r, (n, r) ∈ common_reasons → let e := ERR_PACK w lib 0 r in
      ERR_COMMON_ERROR e = true ∧ ERR_GET_REASON e = r) ∧
   NoDup common_reasons.*2 ∧
   (∀ n r, (n, r) ∈ SSL_R → SSL_AD_REASON_OFFSET ≤ r →
      ∃ a, alert_of r = [a] ∧ r = SSL_AD_REASON_OFFSET + a.2 ∧ ends_with a.1 n = true) ∧
   (∀ a v, (a, v) ∈ alerts → 0 ≤ v < 2 ^ 8 ∧
      if decide (a ∈ silent_alerts) then reason_of v = [] else ∃ e, reason_of v = [e] ∧ ends_with a e.1 = true)).
Proof. split; [exact (ERR_PACK_decoded w Hw)|exact (reasons_distinguished w Hw)]. Qed.

Lemma error_codes_roundtrip_witness :
  (ERR_GET_LIB (ERR_PACK 64 ERR_LIB_SSL 0 ERR_R_MALLOC_FAILURE) = 20 ∧
   ERR_FATAL_ERROR (ERR_PACK 64 ERR_LIB_SSL 0 ERR_R_MALLOC_FAILURE) = true ∧
   ERR_PACK 64 20 7 (ERR_GET_REASON (ERR_PACK 64 20 0 134)) = ERR_PACK 64 20 0 134 ∧
   ERR_GET_REASON (2 ^ 31 + 111) = 111) ∧
  (ERR_COMMON_ERROR (ERR_PACK 32 ERR_LIB_BN 0 103) = false ∧
   (∀ n, ("BN_R_DIV_BY_ZERO", 103) ∈ BN_R → (n, 103) ∈ BN_R → "BN_R_DIV_BY_ZERO" = n) ∧
   ERR_COMMON_ERROR (ERR_PACK 32 ERR_LIB_BN 0 ERR_R_PASSED_NULL_PARAMETER) = true ∧
   (∃ e, reason_of 40 = [e] ∧ ends_with "HANDSHAKE_FAILURE" e.1 = true) ∧ reason_of 115 = []).
Proof.
  split.
  - destruct (proj1 (error_codes_roundtrip 64 ltac:(lia))) as (Hpack & Hcode & Hsys).
    destruct (Hpack ERR_LIB_SSL 0 ERR_R_MALLOC_FAILURE) as (_ & Hl & _ & Hf & _).
    split_and!; [exact Hl|exact Hf| |by apply Hsys].
    exact (Hcode (ERR_PACK 64 20 0 134) 7 ltac:(vm_compute; split; done)).
  - assert ((ERR_LIB_BN, BN_R) ∈ error_libraries) as HBN by (unfold error_libraries; do 3 right; left).
    assert (("BN_R_DIV_BY_ZERO", 103) ∈ BN_R) as Hdiv by (unfold BN_R; do 5 right; left).
    destruct (proj2 (error_codes_roundtrip 32 ltac:(lia))) as (Hone & Htwo & Hcommon & _ & _ & Halert).
    split_and!.
    * exact (proj2 (proj2 (proj2 (Hone _ _ _ _ HBN Hdiv)))).
    * intros n _ Hn. exact (proj2 (Htwo _ _ _ _ _ _ _ _ HBN HBN Hdiv Hn eq_refl)).
    * refine (proj1 (Hcommon ERR_LIB_BN "ERR_R_PASSED_NULL_PARAMETER" _ _)).
      apply (bool_decide_eq_true_1 _). vm_compute. reflexivity.
    * refine (proj2 (Halert "HANDSHAKE_FAILURE" 40 _)). apply (bool_decide_eq_true_1 _). vm_compute. reflexivity.
    * refine (proj2 (Halert "UNKNOWN_PSK_IDENTITY" 115 _)). apply (bool_decide_eq_true_1 _). vm_compute. reflexivity.
Defined.
