(* ===== verification/Versions.v ===== *)
(** * Version numbers and the tests on them

    [node_version.h], [v8-version.h], [uv/version.h], the compiler test of
    [v8config.h], [openssl/opensslv.h] (the copy for linux-x86_64) and the API levels of
    [openssl/macros.h]. Preprocessor arithmetic is that of [Z]: the numbers
    stay far below its 64 bits. *)

From S2P Require Import Prelude.
From stdpp Require Import strings pretty.
Local Open Scope string_scope.
Local Open Scope Z_scope.

(** ** Node.js *)

Definition NODE_MAJOR_VERSION : Z := 18.
Definition NODE_MINOR_VERSION : Z := 14.
Definition NODE_PATCH_VERSION : Z := 0.
Definition NODE_VERSION_IS_RELEASE : Z := 1.
Definition NODE_MODULE_VERSION : Z := 108.
Definition NAPI_VERSION : Z := 8.

(** The text of a macro argument that is a decimal number. *)
Definition NODE_STRINGIFY (n : Z) : string := pretty n.
(** When the build does not pass a tag of its own. *)
Definition NODE_TAG : string := if bool_decide (NODE_VERSION_IS_RELEASE ≠ 0) then "" else "-pre".
Definition NODE_VERSION_STRING : string :=
  NODE_STRINGIFY NODE_MAJOR_VERSION +:+ "." +:+ NODE_STRINGIFY NODE_MINOR_VERSION +:+ "." +:+
  NODE_STRINGIFY NODE_PATCH_VERSION +:+ NODE_TAG.
Definition NODE_VERSION : string := "v" +:+ NODE_VERSION_STRING.

Definition NODE_VERSION_AT_LEAST (major minor patch : Z) : bool :=
  (major <? NODE_MAJOR_VERSION)
  || ((major =? NODE_MAJOR_VERSION) && (minor <? NODE_MINOR_VERSION))
  || ((major =? NODE_MAJOR_VERSION) && (minor =? NODE_MINOR_VERSION) && (patch <=? NODE_PATCH_VERSION)).

(** ** V8 *)

Definition V8_MAJOR_VERSION : Z := 10.
Definition V8_MINOR_VERSION : Z := 2.
Definition V8_BUILD_NUMBER : Z := 154.
Definition V8_PATCH_LEVEL : Z := 23.

(** The compiler defines [__GNUC__], [__GNUC_MINOR__] and
    [__GNUC_PATCHLEVEL__], or only the first two, or not even these. *)
Record gnu_compiler := {
  __GNUC__ : option Z;
  __GNUC_MINOR__ : option Z;
  __GNUC_PATCHLEVEL__ : option Z;
}.
Definition V8_GNUC_PREREQ (cc : gnu_compiler) (major minor patchlevel : Z) : bool :=
  match __GNUC__ cc, __GNUC_MINOR__ cc, __GNUC_PATCHLEVEL__ cc with
  | Some gnuc, Some gnuc_minor, Some gnuc_patchlevel =>
      major * 10000 + minor * 100 + patchlevel <=? gnuc * 10000 + gnuc_minor * 100 + gnuc_patchlevel
  | Some gnuc, Some gnuc_minor, None =>
      major * 10000 + minor * 100 + patchlevel <=? gnuc * 10000 + gnuc_minor * 100
  | _, _, _ => false
  end.

(** ** libuv *)

Definition UV_VERSION_MAJOR : Z := 1.
Definition UV_VERSION_MINOR : Z := 44.
Definition UV_VERSION_PATCH : Z := 2.
Definition UV_VERSION_IS_RELEASE : Z := 1.
Definition UV_VERSION_SUFFIX : string := "".
Definition UV_VERSION_HEX : Z :=
  Z.lor (Z.lor (Z.shiftl UV_VERSION_MAJOR 16) (Z.shiftl UV_VERSION_MINOR 8)) UV_VERSION_PATCH.

(** ** OpenSSL *)

Definition OPENSSL_VERSION_MAJOR : Z := 3.
Definition OPENSSL_VERSION_MINOR : Z := 0.
Definition OPENSSL_VERSION_PATCH : Z := 7.
(** Defined, although empty. *)
Definition OPENSSL_VERSION_PRE_RELEASE : option string := Some "".
Definition OPENSSL_VERSION_BUILD_METADATA : string := "+quic".
Definition OPENSSL_VERSION_STR : string := "3.0.7".
Definition OPENSSL_FULL_VERSION_STR : string := "3.0.7+quic".

Definition OPENSSL_VERSION_PREREQ (maj min : Z) : bool :=
  Z.shiftl maj 16 + min <=? Z.shiftl OPENSSL_VERSION_MAJOR 16 + OPENSSL_VERSION_MINOR.

Definition _OPENSSL_VERSION_PRE_RELEASE : Z :=
  match OPENSSL_VERSION_PRE_RELEASE with Some _ => 0x0 | None => 0xf end.
Definition OPENSSL_VERSION_NUMBER : Z :=
  Z.lor (Z.lor (Z.lor (Z.shiftl OPENSSL_VERSION_MAJOR 28) (Z.shiftl OPENSSL_VERSION_MINOR 20))
               (Z.shiftl OPENSSL_VERSION_PATCH 4)) _OPENSSL_VERSION_PRE_RELEASE.

(** ** API levels *)

(** [OPENSSL_API_COMPAT] as an API level. *)
Definition API_COMPAT_level (compat : Z) : Z :=
  if compat <? 0x900000 then compat
  else Z.land (Z.shiftr compat 28) 0xF * 10000 + Z.land (Z.shiftr compat 20) 0xFF * 100
       + Z.land (Z.shiftr compat 12) 0xFF.

(** [OPENSSL_API_LEVEL], from [OPENSSL_API_COMPAT], which the application may
    define, and [OPENSSL_CONFIGURED_API], from the configuration. *)
Definition OPENSSL_API_LEVEL (OPENSSL_API_COMPAT : option Z) (OPENSSL_CONFIGURED_API : Z) : Z :=
  match OPENSSL_API_COMPAT with
  | Some compat => API_COMPAT_level compat
  | None =>
      if OPENSSL_CONFIGURED_API >? 0 then OPENSSL_CONFIGURED_API
      else OPENSSL_VERSION_MAJOR * 10000 + OPENSSL_VERSION_MINOR * 100
  end.

Inductive api_error : Type :=
| Higher_than_configured
| Higher_than_version
| Version_2
| Below_0_9_8.
#[export] Instance api_error_eq_dec : EqDecision api_error.
Proof. solve_decision. Defined.

(** The first [#error] that the checks of sane values meet. *)
Definition API_LEVEL_check (level OPENSSL_CONFIGURED_API : Z) : option api_error :=
  if level >? OPENSSL_CONFIGURED_API then Some Higher_than_configured
  else if level >? OPENSSL_VERSION_MAJOR * 10000 + OPENSSL_VERSION_MINOR * 100 then Some Higher_than_version
  else if (level <? 30000) && (level >=? 20000) then Some Version_2
  else if level <? 908 then Some Below_0_9_8
  else None.
Definition API_level (OPENSSL_API_COMPAT : option Z) (OPENSSL_CONFIGURED_API : Z) : api_error + Z :=
  let level := OPENSSL_API_LEVEL OPENSSL_API_COMPAT OPENSSL_CONFIGURED_API in
  match API_LEVEL_check level OPENSSL_CONFIGURED_API with Some e => inl e | None => inr level end.

(** ** Deprecation *)

(** What becomes of the declarations deprecated in one version:
    [OSSL_DEPRECATEDIN_v] is an attribute, [OPENSSL_NO_DEPRECATED_v] is defined
    and guards them out, or [OSSL_DEPRECATEDIN_v] is empty. *)
Inductive declaration : Type := Deprecated | Removed | Plain.
#[export] Instance declaration_eq_dec : EqDecision declaration.
Proof. solve_decision. Defined.

Inductive ossl_version : Type := v3_0 | v1_1_1 | v1_1_0 | v1_0_2 | v1_0_1 | v1_0_0 | v0_9_8.
Definition deprecated_in (v : ossl_version) (level : Z) (OPENSSL_NO_DEPRECATED : bool) : declaration :=
  let decl (threshold : Z) :=
    if level >=? threshold then if negb OPENSSL_NO_DEPRECATED then Deprecated else Removed else Plain in
  match v with
  | v3_0 => decl 30000
  | v1_1_1 => decl 10101
  | v1_1_0 => decl 10100
  | v1_0_2 => decl 10002
  | v1_0_1 => decl 10001
  | v1_0_0 => decl 10000
  | v0_9_8 => decl 908
  end.
