(* ===== verification/VersionProperties.v ===== *)
(** * Properties of the version tests *)

From S2P Require Import Prelude Versions.
From stdpp Require Import strings ssreflect.
Local Open Scope string_scope.
Local Open Scope Z_scope.

(** The order of versions. *)
Definition lex2 (a b : Z * Z) : Prop := a.1 < b.1 ∨ (a.1 = b.1 ∧ a.2 ≤ b.2).
Definition lex3 (a b : Z * Z * Z) : Prop :=
  a.1.1 < b.1.1 ∨ (a.1.1 = b.1.1 ∧ (a.1.2 < b.1.2 ∨ (a.1.2 = b.1.2 ∧ a.2 ≤ b.2))).

(** The tests for a version compare lexicographically: NODE_VERSION_AT_LEAST
    on all numbers, OPENSSL_VERSION_PREREQ for a minor number below 2^16 and
    V8_GNUC_PREREQ for minor numbers and patch levels below 100, those of the
    compiler included; without a patch level the compiler's counts as 0, and
    without a GNU compiler the test fails. *)
Lemma version_tests_lexicographic :
  (∀ major minor patch, NODE_VERSION_AT_LEAST major minor patch = true ↔
     lex3 (major, minor, patch) (NODE_MAJOR_VERSION, NODE_MINOR_VERSION, NODE_PATCH_VERSION)) ∧
  (∀ maj min, 0 ≤ min < 2 ^ 16 → OPENSSL_VERSION_PREREQ maj min = true ↔
     lex2 (maj, min) (OPENSSL_VERSION_MAJOR, OPENSSL_VERSION_MINOR)) ∧
  (∀ cc a b c a' b' c', __GNUC__ cc = Some a' → __GNUC_MINOR__ cc = Some b' →
     default 0 (__GNUC_PATCHLEVEL__ cc) = c' →
     0 ≤ b < 100 → 0 ≤ c < 100 → 0 ≤ b' < 100 → 0 ≤ c' < 100 →
     V8_GNUC_PREREQ cc a b c = true ↔ lex3 (a, b, c) (a', b', c')) ∧
  (∀ cc a b c, __GNUC__ cc = None → V8_GNUC_PREREQ cc a b c = false).
Proof.
  unfold lex2, lex3. cbn [fst snd]. split_and!.
  - intros. unfold NODE_VERSION_AT_LEAST. rewrite !orb_true_iff !andb_true_iff !Z.ltb_lt !Z.eqb_eq Z.leb_le.
    split; [intros [[?|[? ?]]|[[? ?] ?]]|intros [?|[? [?|[? ?]]]]]; tauto.
  - intros maj min Hmin. unfold OPENSSL_VERSION_PREREQ. rewrite Z.leb_le !Z.shiftl_mul_pow2 //.
    unfold OPENSSL_VERSION_MAJOR, OPENSSL_VERSION_MINOR. lia.
  - intros [ga gb gc] a b c a' b' c'. cbn. intros -> -> Hc Hb Hc0 Hb' Hc'. unfold V8_GNUC_PREREQ. cbn.
    destruct gc as [gc|]; cbn in Hc; subst; rewrite Z.leb_le; lia.
  - intros [ga gb gc] a b c. cbn. by intros ->.
Qed.

Lemma version_tests_lexicographic_instance :
  NODE_VERSION_AT_LEAST 16 99 0 = true ∧ OPENSSL_VERSION_PREREQ 3 1 = false ∧
  V8_GNUC_PREREQ {| __GNUC__ := Some 4; __GNUC_MINOR__ := Some 9; __GNUC_PATCHLEVEL__ := None |} 4 8 5 = true.
Proof.
  destruct version_tests_lexicographic as (Hnode & Hssl & Hgcc & _). split_and!.
  - apply Hnode. left. done.
  - apply not_true_iff_false. intros H. apply Hssl in H; [|done]. by destruct H as [|[]].
  - eapply Hgcc; [reflexivity|reflexivity|reflexivity|done|done|done|done|]. right. split; [done|left; done].
Defined.

(** ** Packed numbers *)

(** Old-style OpenSSL version numbers 0xMNNFFPPS. *)
Definition old_style (M N F P S : Z) : Z := M * 2 ^ 28 + N * 2 ^ 20 + F * 2 ^ 12 + P * 2 ^ 4 + S.

Lemma field_land x k n : 0 ≤ k → 0 ≤ n → Z.land (Z.shiftr x k) (2 ^ n - 1) = x / 2 ^ k mod 2 ^ n.
Proof.
  intros Hk Hn. rewrite (_ : 2 ^ n - 1 = Z.ones n); [|rewrite Z.ones_equiv; lia].
  rewrite Z.land_ones // Z.shiftr_div_pow2 //.
Qed.

Lemma div_mod_field x hi k n d r :
  0 ≤ k → 0 ≤ n → x = (hi * 2 ^ n + d) * 2 ^ k + r → 0 ≤ d < 2 ^ n → 0 ≤ r < 2 ^ k → x / 2 ^ k mod 2 ^ n = d.
Proof.
  intros Hk Hn -> Hd Hr. rewrite Z.div_add_l; [|lia]. rewrite (Z.div_small r) // Z.add_0_r Z.add_comm Z.mod_add; [|lia].
  by apply Z.mod_small.
Qed.

Lemma API_COMPAT_level_old M N F P S :
  0 ≤ M < 2 ^ 4 → 0 ≤ N < 2 ^ 8 → 0 ≤ F < 2 ^ 8 → 0 ≤ P < 2 ^ 8 → 0 ≤ S < 2 ^ 4 →
  0x900000 ≤ old_style M N F P S →
  API_COMPAT_level (old_style M N F P S) = M * 10000 + N * 100 + F.
Proof.
  intros HM HN HF HP HS Hlow. unfold API_COMPAT_level. rewrite (proj2 (Z.ltb_ge _ _) Hlow).
  rewrite (field_land _ 28 4) // (field_land _ 20 8) // (field_land _ 12 8) //.
  rewrite (div_mod_field _ 0 28 4 M (N * 2 ^ 20 + F * 2 ^ 12 + P * 2 ^ 4 + S)) //; [|unfold old_style; lia|lia].
  rewrite (div_mod_field _ M 20 8 N (F * 2 ^ 12 + P * 2 ^ 4 + S)) //; [|unfold old_style; lia|lia].
  rewrite (div_mod_field _ (M * 2 ^ 8 + N) 12 8 F (P * 2 ^ 4 + S)) //; [unfold old_style; lia|lia].
Qed.

(** The versions the deprecation macros know, with their API levels. *)
Definition version_level (v : ossl_version) : Z :=
  match v with
  | v3_0 => 30000 | v1_1_1 => 10101 | v1_1_0 => 10100 | v1_0_2 => 10002
  | v1_0_1 => 10001 | v1_0_0 => 10000 | v0_9_8 => 908
  end.

(** C40: OPENSSL_API_COMPAT gives the API level, and the level says what becomes of
    the declarations deprecated in a version: an old-style number 0xMNNFFPPS
    gives the level MNNFF in decimal, whatever its patch and status, and a number
    below 0x900000 is a level itself; with the configuration of this repository a
    level is accepted exactly when it is 30000 or lies from 908 to 19999. When
    the level is below the version the declarations are left as they are. When it
    reaches the version they are marked as deprecated, and suppressed only if
    OPENSSL_NO_DEPRECATED is defined as well: OPENSSL_API_COMPAT alone never
    suppresses them, other than the comment at the top of macros.h says. A
    configuration without an API level of its own is never accepted, although a
    default is computed for it. *)
Theorem OPENSSL_API_levels :
  (∀ M N F P S, 0 ≤ M < 2 ^ 4 → 0 ≤ N < 2 ^ 8 → 0 ≤ F < 2 ^ 8 → 0 ≤ P < 2 ^ 8 → 0 ≤ S < 2 ^ 4 →
     0x900000 ≤ old_style M N F P S →
     OPENSSL_API_LEVEL (Some (old_style M N F P S)) 30000 = M * 10000 + N * 100 + F) ∧
  (∀ level, level < 0x900000 → OPENSSL_API_LEVEL (Some level) 30000 = level) ∧
  (∀ compat level, API_level compat 30000 = inr level ↔
     OPENSSL_API_LEVEL compat 30000 = level ∧ (level = 30000 ∨ 908 ≤ level < 20000)) ∧
  API_level None 30000 = inr 30000 ∧
  (∀ v level no_deprecated, deprecated_in v level no_deprecated =
     if decide (version_level v ≤ level) then if no_deprecated : bool then Removed else Deprecated else Plain) ∧
  (∀ v level, deprecated_in v level false ≠ Removed) ∧
  (∀ configured, configured ≤ 0 → API_level None configured = inl Higher_than_configured).
Proof.
  split_and!.
  - intros. by apply API_COMPAT_level_old.
  - intros level Hl. cbn. unfold API_COMPAT_level. by rewrite (proj2 (Z.ltb_lt _ _) Hl).
  - intros compat level. unfold API_level, API_LEVEL_check. change (_ * 10000 + _ * 100) with 30000.
    generalize (OPENSSL_API_LEVEL compat 30000) as l. intros l. rewrite !Z.gtb_ltb Z.geb_leb.
    destruct (Z.ltb_spec 30000 l); [split; [done|intros [<- ?]; lia]|].
    destruct (Z.ltb_spec l 30000), (Z.leb_spec 20000 l); cbn [andb]; try (split; [done|intros [<- ?]; lia]);
      (destruct (Z.ltb_spec l 908); [split; [done|intros [<- ?]; lia]|]);
      (split; [intros [= <-]; split; [done|lia]|by intros [-> _]]).
  - done.
  - intros v level no. assert (∀ t, (level >=? t) = bool_decide (t ≤ level)) as Hge.
    { intros t. rewrite Z.geb_leb. symmetry.
      destruct (Z.leb_spec t level); [by apply bool_decide_eq_true_2|apply bool_decide_eq_false_2; lia]. }
    unfold deprecated_in. rewrite !Hge.
    by destruct v; cbn [version_level]; case_decide as Hv;
      rewrite ?(bool_decide_eq_true_2 _ Hv) ?(bool_decide_eq_false_2 _ Hv); destruct no.
  - intros v level. destruct v; unfold deprecated_in; cbn [negb]; by case_match.
  - intros configured Hc. unfold API_level, OPENSSL_API_LEVEL, API_LEVEL_check. rewrite !Z.gtb_ltb.
    rewrite (proj2 (Z.ltb_ge 0 configured) Hc). change (_ * 10000 + _ * 100) with 30000.
    rewrite (proj2 (Z.ltb_lt configured 30000)) //. lia.
Qed.

(** OPENSSL_API_COMPAT as 1.1.0 and as 1.1.1d: both accepted, the first leaves the
    declarations deprecated in 1.1.1 alone. *)
Lemma OPENSSL_API_levels_witness :
  OPENSSL_API_LEVEL (Some 0x10100000) 30000 = 10100 ∧ API_level (Some 0x1010104f) 30000 = inr 10101 ∧
  deprecated_in v1_1_1 10100 true = Plain ∧ deprecated_in v1_1_0 10100 true = Removed.
Proof.
  destruct OPENSSL_API_levels as (Hold & _ & Hacc & _ & Hdep & _). split_and!.
  - exact (Hold 1 1 0 0 0 ltac:(done) ltac:(done) ltac:(done) ltac:(done) ltac:(done) ltac:(done)).
  - apply Hacc. split; [|right; done].
    exact (Hold 1 1 1 4 15 ltac:(done) ltac:(done) ltac:(done) ltac:(done) ltac:(done) ltac:(done)).
  - exact (Hdep v1_1_1 10100 true).
  - exact (Hdep v1_1_0 10100 true).
Defined.

(** ** The version strings and numbers *)

Lemma version_numbers :
  NODE_VERSION = "v18.14.0" ∧ UV_VERSION_HEX = UV_VERSION_MAJOR * 2 ^ 16 + UV_VERSION_MINOR * 2 ^ 8 + UV_VERSION_PATCH ∧
  OPENSSL_VERSION_NUMBER = old_style OPENSSL_VERSION_MAJOR OPENSSL_VERSION_MINOR 0 OPENSSL_VERSION_PATCH 0 ∧
  OPENSSL_FULL_VERSION_STR = OPENSSL_VERSION_STR +:+ default "" OPENSSL_VERSION_PRE_RELEASE +:+ OPENSSL_VERSION_BUILD_METADATA.
Proof. by vm_compute. Qed.
