(* ===== verification/Zlib.v ===== *)
(** * Reading a gzip file byte by byte: the macro [gzgetc] of [zlib.h]

    The macro takes bytes from the buffer that the open file exposes and calls
    the function of the same name when the buffer is empty. *)

From S2P Require Import Prelude ByteMemory.
Local Open Scope Z_scope.

(** [struct gzFile_s], with the memory its [next] points into and what the
    library keeps behind the structure. *)
Record gz_file (hidden : Type) : Type := {
  have : Z;
  next : Z;
  pos : Z;
  buffer : Z → Z;
  behind : hidden;
}.
Arguments have {_} _.
Arguments next {_} _.
Arguments pos {_} _.
Arguments buffer {_} _ _.
Arguments behind {_} _.

Section gzgetc.
Context {hidden : Type} (gzgetc_function : M (gz_file hidden) Z).

(** [pos] is a signed 64-bit offset: its increment is undefined at the largest
    one. [have] is not zero when it is decremented. *)
Definition gzgetc : M (gz_file hidden) Z := λ g,
  if negb (have g =? 0) then
    if pos g + 1 <? 2 ^ 63 then
      Ret (buffer g (next g),
           {| have := to_unsigned 32 (have g - 1); next := next g + 1; pos := pos g + 1;
              buffer := buffer g; behind := behind g |})
    else Undef
  else gzgetc_function g.
End gzgetc.

(** Reading [n] bytes in a row. *)
Fixpoint gzgetc_times {hidden} (gzgetc_function : M (gz_file hidden) Z) (n : nat) : M (gz_file hidden) (list Z) :=
  match n with
  | O => mret []
  | S n => b ← gzgetc gzgetc_function; bs ← gzgetc_times gzgetc_function n; mret (b :: bs)
  end.
