(* ===== verification/Bio.v ===== *)
(** * Retry flags, types and callbacks of OpenSSL's BIOs

    The macros of [openssl/bio.h] (the copy for linux-x86_64). A BIO is known by
    its flags only, an [int]; the library's functions on them are a parameter. *)

From S2P Require Import Prelude ByteMemory.
Local Open Scope Z_scope.

(** ** Flags *)

Definition BIO_FLAGS_READ : Z := 0x01.
Definition BIO_FLAGS_WRITE : Z := 0x02.
Definition BIO_FLAGS_IO_SPECIAL : Z := 0x04.
Definition BIO_FLAGS_RWS : Z := Z.lor (Z.lor BIO_FLAGS_READ BIO_FLAGS_WRITE) BIO_FLAGS_IO_SPECIAL.
Definition BIO_FLAGS_SHOULD_RETRY : Z := 0x08.
Definition BIO_FLAGS_BASE64_NO_NL : Z := 0x100.
Definition BIO_FLAGS_MEM_RDONLY : Z := 0x200.
Definition BIO_FLAGS_NONCLEAR_RST : Z := 0x400.
Definition BIO_FLAGS_IN_EOF : Z := 0x800.

(** The three functions, on a BIO [b] of any representation. *)
Class BioLibrary (BIO : Type) := {
  BIO_set_flags : BIO → Z → BIO;
  BIO_test_flags : BIO → Z → Z;
  BIO_clear_flags : BIO → Z → BIO;
}.

Section macros.
Context {BIO : Type} `{!BioLibrary BIO}.
Implicit Types b a : BIO.

Definition BIO_get_flags b : Z := BIO_test_flags b (Z.lnot 0x0).
Definition BIO_set_retry_special b : BIO := BIO_set_flags b (Z.lor BIO_FLAGS_IO_SPECIAL BIO_FLAGS_SHOULD_RETRY).
Definition BIO_set_retry_read b : BIO := BIO_set_flags b (Z.lor BIO_FLAGS_READ BIO_FLAGS_SHOULD_RETRY).
Definition BIO_set_retry_write b : BIO := BIO_set_flags b (Z.lor BIO_FLAGS_WRITE BIO_FLAGS_SHOULD_RETRY).
Definition BIO_clear_retry_flags b : BIO := BIO_clear_flags b (Z.lor BIO_FLAGS_RWS BIO_FLAGS_SHOULD_RETRY).
Definition BIO_get_retry_flags b : Z := BIO_test_flags b (Z.lor BIO_FLAGS_RWS BIO_FLAGS_SHOULD_RETRY).

Definition BIO_should_read a : Z := BIO_test_flags a BIO_FLAGS_READ.
Definition BIO_should_write a : Z := BIO_test_flags a BIO_FLAGS_WRITE.
Definition BIO_should_io_special a : Z := BIO_test_flags a BIO_FLAGS_IO_SPECIAL.
Definition BIO_retry_type a : Z := BIO_test_flags a BIO_FLAGS_RWS.
Definition BIO_should_retry a : Z := BIO_test_flags a BIO_FLAGS_SHOULD_RETRY.
End macros.

(** ** Callbacks *)

Definition BIO_CB_FREE : Z := 0x01.
Definition BIO_CB_READ : Z := 0x02.
Definition BIO_CB_WRITE : Z := 0x03.
Definition BIO_CB_PUTS : Z := 0x04.
Definition BIO_CB_GETS : Z := 0x05.
Definition BIO_CB_CTRL : Z := 0x06.
Definition BIO_CB_RETURN : Z := 0x80.
Definition BIO_CB_return (a : Z) : Z := Z.lor a BIO_CB_RETURN.
Definition BIO_cb_pre (a : Z) : bool := Z.land a BIO_CB_RETURN =? 0.
Definition BIO_cb_post (a : Z) : Z := Z.land a BIO_CB_RETURN.

(** ** Types *)

Definition BIO_TYPE_DESCRIPTOR : Z := 0x0100.
Definition BIO_TYPE_FILTER : Z := 0x0200.
Definition BIO_TYPE_SOURCE_SINK : Z := 0x0400.
Definition BIO_TYPE_START : Z := 128.
Definition BIO_TYPE_NONE : Z := 0.
Definition BIO_TYPE_MEM : Z := Z.lor 1 BIO_TYPE_SOURCE_SINK.
Definition BIO_TYPE_FILE : Z := Z.lor 2 BIO_TYPE_SOURCE_SINK.
Definition BIO_TYPE_FD : Z := Z.lor (Z.lor 4 BIO_TYPE_SOURCE_SINK) BIO_TYPE_DESCRIPTOR.
Definition BIO_TYPE_SOCKET : Z := Z.lor (Z.lor 5 BIO_TYPE_SOURCE_SINK) BIO_TYPE_DESCRIPTOR.
Definition BIO_TYPE_NULL : Z := Z.lor 6 BIO_TYPE_SOURCE_SINK.
Definition BIO_TYPE_SSL : Z := Z.lor 7 BIO_TYPE_FILTER.
Definition BIO_TYPE_MD : Z := Z.lor 8 BIO_TYPE_FILTER.
Definition BIO_TYPE_BUFFER : Z := Z.lor 9 BIO_TYPE_FILTER.
Definition BIO_TYPE_CIPHER : Z := Z.lor 10 BIO_TYPE_FILTER.
Definition BIO_TYPE_BASE64 : Z := Z.lor 11 BIO_TYPE_FILTER.
Definition BIO_TYPE_CONNECT : Z := Z.lor (Z.lor 12 BIO_TYPE_SOURCE_SINK) BIO_TYPE_DESCRIPTOR.
Definition BIO_TYPE_ACCEPT : Z := Z.lor (Z.lor 13 BIO_TYPE_SOURCE_SINK) BIO_TYPE_DESCRIPTOR.
Definition BIO_TYPE_NBIO_TEST : Z := Z.lor 16 BIO_TYPE_FILTER.
Definition BIO_TYPE_NULL_FILTER : Z := Z.lor 17 BIO_TYPE_FILTER.
Definition BIO_TYPE_BIO : Z := Z.lor 19 BIO_TYPE_SOURCE_SINK.
Definition BIO_TYPE_LINEBUFFER : Z := Z.lor 20 BIO_TYPE_FILTER.
Definition BIO_TYPE_DGRAM : Z := Z.lor (Z.lor 21 BIO_TYPE_SOURCE_SINK) BIO_TYPE_DESCRIPTOR.
Definition BIO_TYPE_ASN1 : Z := Z.lor 22 BIO_TYPE_FILTER.
Definition BIO_TYPE_COMP : Z := Z.lor 23 BIO_TYPE_FILTER.
Definition BIO_TYPE_DGRAM_SCTP : Z := Z.lor (Z.lor 24 BIO_TYPE_SOURCE_SINK) BIO_TYPE_DESCRIPTOR.
Definition BIO_TYPE_CORE_TO_PROV : Z := Z.lor 25 BIO_TYPE_SOURCE_SINK.

(** The types that are defined, but for BIO_TYPE_NONE. *)
Definition BIO_TYPES (OPENSSL_NO_SCTP : bool) : list Z :=
  (if OPENSSL_NO_SCTP then [] else [BIO_TYPE_DGRAM_SCTP]) ++ [
  BIO_TYPE_MEM; BIO_TYPE_FILE; BIO_TYPE_FD; BIO_TYPE_SOCKET; BIO_TYPE_NULL; BIO_TYPE_SSL; BIO_TYPE_MD;
  BIO_TYPE_BUFFER; BIO_TYPE_CIPHER; BIO_TYPE_BASE64; BIO_TYPE_CONNECT; BIO_TYPE_ACCEPT;
  BIO_TYPE_NBIO_TEST; BIO_TYPE_NULL_FILTER; BIO_TYPE_BIO; BIO_TYPE_LINEBUFFER; BIO_TYPE_DGRAM;
  BIO_TYPE_ASN1; BIO_TYPE_COMP; BIO_TYPE_CORE_TO_PROV].
