(* ===== verification/IoProperties.v ===== *)
(** * Properties of the reading macro of zlib and of the flags of BIOs *)

From S2P Require Import Prelude ByteMemory OpensslErr OpensslFacts Zlib Bio.
From stdpp Require Import list_numbers ssreflect.
Local Open Scope Z_scope.

(** ** [gzgetc] *)

Section gz.
Context {hidden : Type} (rest : hidden → list Z).

(** What is still to be read: the exposed buffer, then what the library has. *)
Definition stream (g : gz_file hidden) : list Z := (buffer g <$> seqZ (next g) (have g)) ++ rest (behind g).
Definition gz_ok (g : gz_file hidden) : Prop := 0 ≤ have g < 2 ^ 32 ∧ 0 ≤ pos g.

(** The documented behaviour of the function on an empty buffer: it returns the
    next byte and may fill the buffer, or returns -1 at the end of the file. *)
Definition gz_function_ok (f : M (gz_file hidden) Z) : Prop :=
  ∀ g, gz_ok g → have g = 0 →
    match rest (behind g) with
    | [] => ∃ g', f g = Ret (-1, g') ∧ gz_ok g' ∧ stream g' = [] ∧ pos g' = pos g
    | b :: s => pos g + 1 < 2 ^ 63 → ∃ g', f g = Ret (b, g') ∧ gz_ok g' ∧ stream g' = s ∧ pos g' = pos g + 1
    end.

Lemma stream_cons g : 0 < have g →
  stream g = buffer g (next g) :: (buffer g <$> seqZ (next g + 1) (have g - 1)) ++ rest (behind g).
Proof. intros H. unfold stream. by rewrite seqZ_cons. Qed.

Lemma gzgetc_step f g :
  gz_function_ok f → gz_ok g → pos g + 1 < 2 ^ 63 →
  ∃ g', gzgetc f g = Ret (default (-1) (head (stream g)), g') ∧ gz_ok g' ∧ stream g' = tail (stream g) ∧
        pos g' = pos g + Z.min 1 (Z.of_nat (length (stream g))).
Proof.
  intros Hf Hg Hp. unfold gzgetc. destruct (Z.eqb_spec (have g) 0) as [H0|H0]; cbn [negb].
  - specialize (Hf g Hg H0). assert (stream g = rest (behind g)) as -> by (unfold stream; by rewrite H0).
    destruct (rest (behind g)) as [|b s]; cbn.
    + destruct Hf as (g' & -> & ? & ? & ?). exists g'. split_and!; [done..|lia].
    + destruct (Hf Hp) as (g' & -> & ? & ? & ?). exists g'. split_and!; [done..|lia].
  - destruct Hg as [Hh Hp0]. rewrite (proj2 (Z.ltb_lt _ _) Hp). eexists. split.
    { do 2 f_equal. rewrite (stream_cons g); [done|lia]. }
    rewrite (stream_cons g); [|lia]. unfold gz_ok, stream. cbn.
    rewrite to_unsigned_id; [|unfold in_unsigned; lia]. split_and!; [lia..|done|lia].
Qed.

(** C39: reading a gzip file with the macro gzgetc gives the bytes of the file in
    order, whether they come from the exposed buffer or from the function behind
    it, and then -1 for ever; pos counts the bytes read, and have never wraps
    around. *)
Theorem gzgetc_reads_stream f n g :
  gz_function_ok f → gz_ok g → pos g + Z.of_nat n < 2 ^ 63 →
  ∃ g', gzgetc_times f n g = Ret (take n (stream g) ++ replicate (n - length (stream g)) (-1), g') ∧
        gz_ok g' ∧ stream g' = drop n (stream g) ∧ pos g' = pos g + Z.min (Z.of_nat n) (Z.of_nat (length (stream g))).
Proof.
  intros Hf. revert g. induction n as [|n IH]; intros g Hg Hp.
  - exists g. cbn. rewrite drop_0. split_and!; [done|apply Hg..|done|lia].
  - destruct (gzgetc_step f g Hf Hg) as (g1 & E1 & Hg1 & Hs1 & Hp1); [lia|].
    destruct (IH g1 Hg1) as (g2 & E2 & Hg2 & Hs2 & Hp2); [lia|].
    exists g2. cbn [gzgetc_times]. rewrite (M_bind_Ret _ _ _ _ _ E1) (M_bind_Ret _ _ _ _ _ E2).
    rewrite Hs2 Hs1 Hp2 Hs1 Hp1. destruct (stream g) as [|b s]; cbn.
    + split_and!; [|apply Hg2..|by rewrite !drop_nil|lia]. rewrite take_nil Nat.sub_0_r. done.
    + split_and!; [done|apply Hg2..|done|lia].
Qed.
End gz.

(** A library that keeps the rest of the file and puts one byte at a time into
    the buffer. *)
Definition refill : M (gz_file (list Z)) Z := λ g,
  let reach hv b l := {| have := hv; next := 0; pos := pos g + 1; buffer := λ _, b; behind := l |} in
  match behind g with
  | [] => Ret (-1, g)
  | [a] => Ret (a, reach 0 0 [])
  | a :: b :: l => Ret (a, reach 1 b l)
  end.
Lemma refill_ok : gz_function_ok (λ l, l) refill.
Proof.
  intros g [Hh Hp] H0. unfold refill. destruct (behind g) as [|a [|b l]] eqn:E.
  - exists g. unfold stream. by rewrite H0 E.
  - intros _. eexists. split; [done|]. unfold gz_ok, stream. cbn. split_and!; done || lia.
  - intros _. eexists. split; [done|]. unfold gz_ok, stream. cbn. split_and!; done || lia.
Qed.

Definition five_bytes : gz_file (list Z) :=
  {| have := 2; next := 100; pos := 7; buffer := λ a, a; behind := [1; 2; 3] |}.
Lemma gzgetc_reads_stream_witness :
  ∃ g', gzgetc_times refill 7 five_bytes = Ret ([100; 101; 1; 2; 3; -1; -1], g') ∧
    gz_ok g' ∧ stream (λ l, l) g' = [] ∧ pos g' = 12.
Proof.
  exact (gzgetc_reads_stream (λ l, l) refill 7 five_bytes refill_ok ltac:(by vm_compute) ltac:(by vm_compute)).
Defined.

(** ** Flags of a BIO *)

(** The documented behaviour of the library's functions. *)
Class BioLaws (BIO : Type) `{!BioLibrary BIO} := {
  bio_flags : BIO → Z;
  set_flags_law b f : bio_flags (BIO_set_flags b f) = Z.lor (bio_flags b) f;
  clear_flags_law b f : bio_flags (BIO_clear_flags b f) = Z.land (bio_flags b) (Z.lnot f);
  test_flags_law b f : BIO_test_flags b f = Z.land (bio_flags b) f;
}.

(** The abstract machine: the reasons to retry. *)
Inductive retry_op : Type := Retry_read | Retry_write | Retry_special | Clear_retry.
Record reasons_to_retry := { rd : bool; wr : bool; sp : bool }.
Definition no_reason : reasons_to_retry := {| rd := false; wr := false; sp := false |}.
Definition retry_step (s : reasons_to_retry) (o : retry_op) : reasons_to_retry :=
  match o with
  | Retry_read => {| rd := true; wr := wr s; sp := sp s |}
  | Retry_write => {| rd := rd s; wr := true; sp := sp s |}
  | Retry_special => {| rd := rd s; wr := wr s; sp := true |}
  | Clear_retry => no_reason
  end.

Section bio.
Context {BIO : Type} `{!BioLibrary BIO, !BioLaws BIO}.

Definition run_retry_op (b : BIO) (o : retry_op) : BIO :=
  match o with
  | Retry_read => BIO_set_retry_read b
  | Retry_write => BIO_set_retry_write b
  | Retry_special => BIO_set_retry_special b
  | Clear_retry => BIO_clear_retry_flags b
  end.

(** The low four bits of the flags are those of the abstract state. *)
Definition flag_bit (s : reasons_to_retry) (i : Z) : bool :=
  match i with 0 => rd s | 1 => wr s | 2 => sp s | 3 => rd s || wr s || sp s | _ => false end.
Definition retry_rel (x0 x : Z) (s : reasons_to_retry) : Prop :=
  (∀ i, 0 ≤ i < 4 → Z.testbit x i = flag_bit s i) ∧ (∀ i, 4 ≤ i → Z.testbit x i = Z.testbit x0 i).

Lemma small_bits m i : 0 ≤ m < 16 → 4 ≤ i → Z.testbit m i = false.
Proof.
  intros Hm Hi. destruct (Z.eq_dec m 0) as [->|]; [by rewrite Z.bits_0|].
  apply Z.bits_above_log2; [lia|]. apply Z.log2_lt_pow2; [lia|].
  pose proof (Z.pow_le_mono_r 2 4 i). lia.
Qed.

Lemma retry_rel_step b x0 s o :
  retry_rel x0 (bio_flags b) s → retry_rel x0 (bio_flags (run_retry_op b o)) (retry_step s o).
Proof.
  intros [Hlow Hhigh]. split; intros i Hi; destruct o; cbn [run_retry_op];
    unfold BIO_set_retry_read, BIO_set_retry_write, BIO_set_retry_special, BIO_clear_retry_flags;
    rewrite ?set_flags_law ?clear_flags_law ?Z.lor_spec ?Z.land_spec ?Z.lnot_spec //; try lia.
  1-4: rewrite Hlow //; assert (i = 0 ∨ i = 1 ∨ i = 2 ∨ i = 3) as Hcases by lia;
    destruct_or! Hcases; subst i; by destruct s as [[] [] []].
  all: rewrite ?(small_bits (Z.lor BIO_FLAGS_RWS _)) ?(small_bits BIO_FLAGS_READ) ?(small_bits BIO_FLAGS_WRITE)
    ?(small_bits BIO_FLAGS_IO_SPECIAL) ?(small_bits BIO_FLAGS_SHOULD_RETRY) // ?orb_false_r ?andb_true_r; by apply Hhigh.
Qed.

Lemma retry_rel_run b x0 s os :
  retry_rel x0 (bio_flags b) s →
  retry_rel x0 (bio_flags (fold_left run_retry_op os b)) (fold_left retry_step os s).
Proof. revert b s. induction os as [|o os IH]; intros b s H; [done|]. by apply IH, retry_rel_step. Qed.

Lemma test_bit b n : 0 ≤ n → negb (BIO_test_flags b (2 ^ n) =? 0) = Z.testbit (bio_flags b) n.
Proof. intros. by rewrite test_flags_law land_bit. Qed.
End bio.

(** C38: the retry flags of a BIO are a set of reasons: after any sequence of the
    setters and of BIO_clear_retry_flags, begun with the latter, the macros that
    test them report exactly the reasons set since the last clearing, and
    BIO_should_retry holds if and only if there is one; no other flag of the BIO
    ever changes. *)
Theorem BIO_retry_flags_refine_reasons `{!BioLibrary BIO, !BioLaws BIO} (b : BIO) os :
  let b' := fold_left run_retry_op os (BIO_clear_retry_flags b) in
  let s := fold_left retry_step os no_reason in
  negb (BIO_should_read b' =? 0) = rd s ∧ negb (BIO_should_write b' =? 0) = wr s ∧
  negb (BIO_should_io_special b' =? 0) = sp s ∧
  negb (BIO_should_retry b' =? 0) = rd s || wr s || sp s ∧
  (∀ i, 4 ≤ i → Z.testbit (BIO_get_flags b') i = Z.testbit (BIO_get_flags b) i).
Proof.
  intros b' s. assert (retry_rel (bio_flags b) (bio_flags b') s) as [Hlow Hhigh].
  { apply retry_rel_run. unfold BIO_clear_retry_flags. rewrite clear_flags_law. split; intros i Hi; rewrite Z.land_spec.
    - assert (i = 0 ∨ i = 1 ∨ i = 2 ∨ i = 3) as Hcases by lia. destruct_or! Hcases; subst i; apply andb_false_r.
    - rewrite Z.lnot_spec ?(small_bits (Z.lor _ _)) ?andb_true_r //; lia. }
  unfold BIO_should_read, BIO_should_write, BIO_should_io_special, BIO_should_retry, BIO_get_flags.
  rewrite (test_bit _ 0) // (test_bit _ 1) // (test_bit _ 2) // (test_bit _ 3) // !Hlow //.
  split_and!; [done..|]. intros i Hi. rewrite !test_flags_law !Z.land_spec Hhigh //.
Qed.

(** A BIO that is its flags. *)
#[export] Instance flags_library : BioLibrary Z := {|
  BIO_set_flags b f := Z.lor b f;
  BIO_test_flags b f := Z.land b f;
  BIO_clear_flags b f := Z.land b (Z.lnot f);
|}.
#[export] Program Instance flags_laws : BioLaws Z := {| bio_flags b := b |}.
Solve Obligations with done.

Lemma BIO_retry_flags_refine_reasons_witness :
  let b' := fold_left run_retry_op [Retry_write; Clear_retry; Retry_read; Retry_special] (BIO_clear_retry_flags 0x20a) in
  negb (BIO_should_read b' =? 0) = true ∧ negb (BIO_should_write b' =? 0) = false ∧
  negb (BIO_should_retry b' =? 0) = true.
Proof.
  destruct (BIO_retry_flags_refine_reasons 0x20a [Retry_write; Clear_retry; Retry_read; Retry_special])
    as (Hr & Hw & _ & Ht & _).
  split_and!; [exact Hr|exact Hw|exact Ht].
Defined.

(** ** Types and callbacks *)

Definition type_okb (t : Z) : bool :=
  xorb (Z.land t BIO_TYPE_FILTER =? 0) (Z.land t BIO_TYPE_SOURCE_SINK =? 0) &&
  ((Z.land t BIO_TYPE_DESCRIPTOR =? 0) || negb (Z.land t BIO_TYPE_SOURCE_SINK =? 0)) &&
  (Z.land t 0xff <? BIO_TYPE_START) && (0 <? Z.land t 0xff).

(** Every type is either a filter or a source and sink, only the latter have
    descriptors, and the types differ in their low bytes, below those left to
    applications. *)
Lemma BIO_TYPES_ok no_sctp :
  forallb type_okb (BIO_TYPES no_sctp) = true ∧ NoDup ((λ t, Z.land t 0xff) <$> BIO_TYPES no_sctp).
Proof.
  split; [by destruct no_sctp; vm_compute|]. apply (bool_decide_eq_true_1 _). by destruct no_sctp; vm_compute.
Qed.

(** The callback before and after an operation. *)
Lemma BIO_cb_pre_return a : 0 ≤ a < 0x80 →
  BIO_cb_pre a = true ∧ BIO_cb_pre (BIO_CB_return a) = false ∧ Z.land (BIO_CB_return a) 0x7f = a.
Proof.
  intros Ha. assert (Z.testbit a 7 = false) as H7 by (rewrite testbit_high; [apply Z.leb_gt; lia|done|lia]).
  unfold BIO_cb_pre, BIO_CB_return, BIO_CB_RETURN. split_and!.
  - apply negb_false_iff. by rewrite (land_bit a 7).
  - apply negb_true_iff. by rewrite (land_bit _ 7) // Z.lor_spec H7.
  - rewrite Z.land_lor_distr_l. rewrite (_ : Z.land 0x80 0x7f = 0) // Z.lor_0_r (Z.land_ones _ 7) // Z.mod_small //.
Qed.
