(* ===== verification/ObjMac.v ===== *)
(** * [openssl/obj_mac.h]: OpenSSL's objects

    The generated table of objects: an object has a short name, a long name, a
    number (NID) and an object identifier, each a macro that may be missing or
    stand for that of another object. The identifier's macro is a list of arcs
    that usually starts with the macro of the object above it.

    The table, one entry per object in the order of the header, is in chunks;
    [ObjFacts] has what the preprocessor makes of it. *)

From S2P Require Import Prelude.
From stdpp Require Import strings.
Local Open Scope string_scope.
Local Open Scope Z_scope.

(** The body of a macro [SN_x], [LN_x] or [NID_x]: a literal, or the macro of the
    same kind of another object. *)
Inductive body (A : Type) : Type := Undefined | Is (v : A) | Alias (x : string).
Arguments Undefined {A}.
Arguments Is {A} v.
Arguments Alias {A} x.

(** An item of the body of [OBJ_x]: an arc, or the macro [OBJ_y]. *)
Inductive item : Type := Arc (n : Z) | Obj (y : string).

(** The macros named after the object [x]; no body of [OBJ_x] is empty, so [[]]
    says that there is none. *)
Record object : Type := Object {
  obj_name : string;
  SN : body string;
  LN : body string;
  NID : body Z;
  OBJ : list item
}.

Definition objects_1 : list object := [
  Object "undef" (Is "UNDEF") (Is "undefined") (Is 0) [Arc 0];
  Object "itu_t" (Is "ITU-T") (Is "itu-t") (Is 645) [Arc 0];
  Object "ccitt" Undefined Undefined (Is 404) [Obj "itu_t"];
  Object "iso" (Is "ISO") (Is "iso") (Is 181) [Arc 1];
  Object "joint_iso_itu_t" (Is "JOINT-ISO-ITU-T") (Is "joint-iso-itu-t") (Is 646) [Arc 2];
  Object "joint_iso_ccitt" Undefined Undefined (Is 393) [Obj "joint_iso_itu_t"];
  Object "member_body" (Is "member-body") (Is "ISO Member Body") (Is 182) [Obj "iso"; Arc 2];
  Object "identified_organization" (Is "identified-organization") Undefined (Is 676) [Obj "iso"; Arc 3];
  Object "gmac" (Is "GMAC") (Is "gmac") (Is 1195) [Obj "iso"; Arc 0; Arc 9797; Arc 3; Arc 4];
  Object "hmac_md5" (Is "HMAC-MD5") (Is "hmac-md5")
    (Is 780) [Obj "identified_organization"; Arc 6; Arc 1; Arc 5; Arc 5; Arc 8; Arc 1; Arc 1];
  Object "hmac_sha1" (Is "HMAC-SHA1") (Is "hmac-sha1")
    (Is 781) [Obj "identified_organization"; Arc 6; Arc 1; Arc 5; Arc 5; Arc 8; Arc 1; Arc 2];
  Object "x509ExtAdmission" (Is "x509ExtAdmission") (Is "Professional Information or basis for Admission")
    (Is 1093) [Obj "identified_organization"; Arc 36; Arc 8; Arc 3; Arc 3];
  Object "certicom_arc" (Is "certicom-arc") Undefined (Is 677) [Obj "identified_organization"; Arc 132];
  Object "ieee" (Is "ieee") Undefined (Is 1170) [Obj "identified_organization"; Arc 111];
  Object "ieee_siswg" (Is "ieee-siswg") (Is "IEEE Security in Storage Working Group")
    (Is 1171) [Obj "ieee"; Arc 2; Arc 1619];
  Object "international_organizations" (Is "international-organizations") (Is "International Organizations")
    (Is 647) [Obj "joint_iso_itu_t"; Arc 23];
  Object "wap" (Is "wap") Undefined (Is 678) [Obj "international_organizations"; Arc 43];
  Object "wap_wsg" (Is "wap-wsg") Undefined (Is 679) [Obj "wap"; Arc 1];
  Object "selected_attribute_types" (Is "selected-attribute-types") (Is "Selected Attribute Types")
    (Is 394) [Obj "joint_iso_itu_t"; Arc 5; Arc 1; Arc 5];
  Object "clearance" (Is "clearance") Undefined (Is 395) [Obj "selected_attribute_types"; Arc 55];
  Object "ISO_US" (Is "ISO-US") (Is "ISO US Member Body") (Is 183) [Obj "member_body"; Arc 840];
  Object "X9_57" (Is "X9-57") (Is "X9.57") (Is 184) [Obj "ISO_US"; Arc 10040];
  Object "X9cm" (Is "X9cm") (Is "X9.57 CM ?") (Is 185) [Obj "X9_57"; Arc 4];
  Object "ISO_CN" (Is "ISO-CN") (Is "ISO CN Member Body") (Is 1140) [Obj "member_body"; Arc 156];
  Object "oscca" (Is "oscca") Undefined (Is 1141) [Obj "ISO_CN"; Arc 10197];
  Object "sm_scheme" (Is "sm-scheme") Undefined (Is 1142) [Obj "oscca"; Arc 1];
  Object "dsa" (Is "DSA") (Is "dsaEncryption") (Is 116) [Obj "X9cm"; Arc 1];
  Object "dsaWithSHA1" (Is "DSA-SHA1") (Is "dsaWithSHA1") (Is 113) [Obj "X9cm"; Arc 3];
  Object "ansi_X9_62" (Is "ansi-X9-62") (Is "ANSI X9.62") (Is 405) [Obj "ISO_US"; Arc 10045];
  Object "X9_62_id_fieldType" Undefined Undefined Undefined [Obj "ansi_X9_62"; Arc 1];
  Object "X9_62_prime_field" (Is "prime-field") Undefined (Is 406) [Obj "X9_62_id_fieldType"; Arc 1];
  Object "X9_62_characteristic_two_field" (Is "characteristic-two-field") Undefined
    (Is 407) [Obj "X9_62_id_fieldType"; Arc 2];
  Object "X9_62_id_characteristic_two_basis" (Is "id-characteristic-two-basis") Undefined
    (Is 680) [Obj "X9_62_characteristic_two_field"; Arc 3]].

Definition objects_2 : list object := [
  Object "X9_62_onBasis" (Is "onBasis") Undefined (Is 681) [Obj "X9_62_id_characteristic_two_basis"; Arc 1];
  Object "X9_62_tpBasis" (Is "tpBasis") Undefined (Is 682) [Obj "X9_62_id_characteristic_two_basis"; Arc 2];
  Object "X9_62_ppBasis" (Is "ppBasis") Undefined (Is 683) [Obj "X9_62_id_characteristic_two_basis"; Arc 3];
  Object "X9_62_id_publicKeyType" Undefined Undefined Undefined [Obj "ansi_X9_62"; Arc 2];
  Object "X9_62_id_ecPublicKey" (Is "id-ecPublicKey") Undefined (Is 408) [Obj "X9_62_id_publicKeyType"; Arc 1];
  Object "X9_62_ellipticCurve" Undefined Undefined Undefined [Obj "ansi_X9_62"; Arc 3];
  Object "X9_62_c_TwoCurve" Undefined Undefined Undefined [Obj "X9_62_ellipticCurve"; Arc 0];
  Object "X9_62_c2pnb163v1" (Is "c2pnb163v1") Undefined (Is 684) [Obj "X9_62_c_TwoCurve"; Arc 1];
  Object "X9_62_c2pnb163v2" (Is "c2pnb163v2") Undefined (Is 685) [Obj "X9_62_c_TwoCurve"; Arc 2];
  Object "X9_62_c2pnb163v3" (Is "c2pnb163v3") Undefined (Is 686) [Obj "X9_62_c_TwoCurve"; Arc 3];
  Object "X9_62_c2pnb176v1" (Is "c2pnb176v1") Undefined (Is 687) [Obj "X9_62_c_TwoCurve"; Arc 4];
  Object "X9_62_c2tnb191v1" (Is "c2tnb191v1") Undefined (Is 688) [Obj "X9_62_c_TwoCurve"; Arc 5];
  Object "X9_62_c2tnb191v2" (Is "c2tnb191v2") Undefined (Is 689) [Obj "X9_62_c_TwoCurve"; Arc 6];
  Object "X9_62_c2tnb191v3" (Is "c2tnb191v3") Undefined (Is 690) [Obj "X9_62_c_TwoCurve"; Arc 7];
  Object "X9_62_c2onb191v4" (Is "c2onb191v4") Undefined (Is 691) [Obj "X9_62_c_TwoCurve"; Arc 8];
  Object "X9_62_c2onb191v5" (Is "c2onb191v5") Undefined (Is 692) [Obj "X9_62_c_TwoCurve"; Arc 9];
  Object "X9_62_c2pnb208w1" (Is "c2pnb208w1") Undefined (Is 693) [Obj "X9_62_c_TwoCurve"; Arc 10];
  Object "X9_62_c2tnb239v1" (Is "c2tnb239v1") Undefined (Is 694) [Obj "X9_62_c_TwoCurve"; Arc 11];
  Object "X9_62_c2tnb239v2" (Is "c2tnb239v2") Undefined (Is 695) [Obj "X9_62_c_TwoCurve"; Arc 12];
  Object "X9_62_c2tnb239v3" (Is "c2tnb239v3") Undefined (Is 696) [Obj "X9_62_c_TwoCurve"; Arc 13];
  Object "X9_62_c2onb239v4" (Is "c2onb239v4") Undefined (Is 697) [Obj "X9_62_c_TwoCurve"; Arc 14];
  Object "X9_62_c2onb239v5" (Is "c2onb239v5") Undefined (Is 698) [Obj "X9_62_c_TwoCurve"; Arc 15];
  Object "X9_62_c2pnb272w1" (Is "c2pnb272w1") Undefined (Is 699) [Obj "X9_62_c_TwoCurve"; Arc 16];
  Object "X9_62_c2pnb304w1" (Is "c2pnb304w1") Undefined (Is 700) [Obj "X9_62_c_TwoCurve"; Arc 17];
  Object "X9_62_c2tnb359v1" (Is "c2tnb359v1") Undefined (Is 701) [Obj "X9_62_c_TwoCurve"; Arc 18];
  Object "X9_62_c2pnb368w1" (Is "c2pnb368w1") Undefined (Is 702) [Obj "X9_62_c_TwoCurve"; Arc 19];
  Object "X9_62_c2tnb431r1" (Is "c2tnb431r1") Undefined (Is 703) [Obj "X9_62_c_TwoCurve"; Arc 20];
  Object "X9_62_primeCurve" Undefined Undefined Undefined [Obj "X9_62_ellipticCurve"; Arc 1];
  Object "X9_62_prime192v1" (Is "prime192v1") Undefined (Is 409) [Obj "X9_62_primeCurve"; Arc 1];
  Object "X9_62_prime192v2" (Is "prime192v2") Undefined (Is 410) [Obj "X9_62_primeCurve"; Arc 2];
  Object "X9_62_prime192v3" (Is "prime192v3") Undefined (Is 411) [Obj "X9_62_primeCurve"; Arc 3];
  Object "X9_62_prime239v1" (Is "prime239v1") Undefined (Is 412) [Obj "X9_62_primeCurve"; Arc 4];
  Object "X9_62_prime239v2" (Is "prime239v2") Undefined (Is 413) [Obj "X9_62_primeCurve"; Arc 5];
  Object "X9_62_prime239v3" (Is "prime239v3") Undefined (Is 414) [Obj "X9_62_primeCurve"; Arc 6];
  Object "X9_62_prime256v1" (Is "prime256v1") Undefined (Is 415) [Obj "X9_62_primeCurve"; Arc 7];
  Object "X9_62_id_ecSigType" Undefined Undefined Undefined [Obj "ansi_X9_62"; Arc 4];
  Object "ecdsa_with_SHA1" (Is "ecdsa-with-SHA1") Undefined (Is 416) [Obj "X9_62_id_ecSigType"; Arc 1];
  Object "ecdsa_with_Recommended" (Is "ecdsa-with-Recommended") Undefined (Is 791) [Obj "X9_62_id_ecSigType"; Arc 2];
  Object "ecdsa_with_Specified" (Is "ecdsa-with-Specified") Undefined (Is 792) [Obj "X9_62_id_ecSigType"; Arc 3];
  Object "ecdsa_with_SHA224" (Is "ecdsa-with-SHA224") Undefined (Is 793) [Obj "ecdsa_with_Specified"; Arc 1]].

Definition objects_3 : list object := [
  Object "ecdsa_with_SHA256" (Is "ecdsa-with-SHA256") Undefined (Is 794) [Obj "ecdsa_with_Specified"; Arc 2];
  Object "ecdsa_with_SHA384" (Is "ecdsa-with-SHA384") Undefined (Is 795) [Obj "ecdsa_with_Specified"; Arc 3];
  Object "ecdsa_with_SHA512" (Is "ecdsa-with-SHA512") Undefined (Is 796) [Obj "ecdsa_with_Specified"; Arc 4];
  Object "secg_ellipticCurve" Undefined Undefined Undefined [Obj "certicom_arc"; Arc 0];
  Object "secp112r1" (Is "secp112r1") Undefined (Is 704) [Obj "secg_ellipticCurve"; Arc 6];
  Object "secp112r2" (Is "secp112r2") Undefined (Is 705) [Obj "secg_ellipticCurve"; Arc 7];
  Object "secp128r1" (Is "secp128r1") Undefined (Is 706) [Obj "secg_ellipticCurve"; Arc 28];
  Object "secp128r2" (Is "secp128r2") Undefined (Is 707) [Obj "secg_ellipticCurve"; Arc 29];
  Object "secp160k1" (Is "secp160k1") Undefined (Is 708) [Obj "secg_ellipticCurve"; Arc 9];
  Object "secp160r1" (Is "secp160r1") Undefined (Is 709) [Obj "secg_ellipticCurve"; Arc 8];
  Object "secp160r2" (Is "secp160r2") Undefined (Is 710) [Obj "secg_ellipticCurve"; Arc 30];
  Object "secp192k1" (Is "secp192k1") Undefined (Is 711) [Obj "secg_ellipticCurve"; Arc 31];
  Object "secp224k1" (Is "secp224k1") Undefined (Is 712) [Obj "secg_ellipticCurve"; Arc 32];
  Object "secp224r1" (Is "secp224r1") Undefined (Is 713) [Obj "secg_ellipticCurve"; Arc 33];
  Object "secp256k1" (Is "secp256k1") Undefined (Is 714) [Obj "secg_ellipticCurve"; Arc 10];
  Object "secp384r1" (Is "secp384r1") Undefined (Is 715) [Obj "secg_ellipticCurve"; Arc 34];
  Object "secp521r1" (Is "secp521r1") Undefined (Is 716) [Obj "secg_ellipticCurve"; Arc 35];
  Object "sect113r1" (Is "sect113r1") Undefined (Is 717) [Obj "secg_ellipticCurve"; Arc 4];
  Object "sect113r2" (Is "sect113r2") Undefined (Is 718) [Obj "secg_ellipticCurve"; Arc 5];
  Object "sect131r1" (Is "sect131r1") Undefined (Is 719) [Obj "secg_ellipticCurve"; Arc 22];
  Object "sect131r2" (Is "sect131r2") Undefined (Is 720) [Obj "secg_ellipticCurve"; Arc 23];
  Object "sect163k1" (Is "sect163k1") Undefined (Is 721) [Obj "secg_ellipticCurve"; Arc 1];
  Object "sect163r1" (Is "sect163r1") Undefined (Is 722) [Obj "secg_ellipticCurve"; Arc 2];
  Object "sect163r2" (Is "sect163r2") Undefined (Is 723) [Obj "secg_ellipticCurve"; Arc 15];
  Object "sect193r1" (Is "sect193r1") Undefined (Is 724) [Obj "secg_ellipticCurve"; Arc 24];
  Object "sect193r2" (Is "sect193r2") Undefined (Is 725) [Obj "secg_ellipticCurve"; Arc 25];
  Object "sect233k1" (Is "sect233k1") Undefined (Is 726) [Obj "secg_ellipticCurve"; Arc 26];
  Object "sect233r1" (Is "sect233r1") Undefined (Is 727) [Obj "secg_ellipticCurve"; Arc 27];
  Object "sect239k1" (Is "sect239k1") Undefined (Is 728) [Obj "secg_ellipticCurve"; Arc 3];
  Object "sect283k1" (Is "sect283k1") Undefined (Is 729) [Obj "secg_ellipticCurve"; Arc 16];
  Object "sect283r1" (Is "sect283r1") Undefined (Is 730) [Obj "secg_ellipticCurve"; Arc 17];
  Object "sect409k1" (Is "sect409k1") Undefined (Is 731) [Obj "secg_ellipticCurve"; Arc 36];
  Object "sect409r1" (Is "sect409r1") Undefined (Is 732) [Obj "secg_ellipticCurve"; Arc 37];
  Object "sect571k1" (Is "sect571k1") Undefined (Is 733) [Obj "secg_ellipticCurve"; Arc 38];
  Object "sect571r1" (Is "sect571r1") Undefined (Is 734) [Obj "secg_ellipticCurve"; Arc 39];
  Object "wap_wsg_idm_ecid" Undefined Undefined Undefined [Obj "wap_wsg"; Arc 4];
  Object "wap_wsg_idm_ecid_wtls1" (Is "wap-wsg-idm-ecid-wtls1") Undefined (Is 735) [Obj "wap_wsg_idm_ecid"; Arc 1];
  Object "wap_wsg_idm_ecid_wtls3" (Is "wap-wsg-idm-ecid-wtls3") Undefined (Is 736) [Obj "wap_wsg_idm_ecid"; Arc 3]].

Definition objects_4 : list object := [
  Object "wap_wsg_idm_ecid_wtls4" (Is "wap-wsg-idm-ecid-wtls4") Undefined (Is 737) [Obj "wap_wsg_idm_ecid"; Arc 4];
  Object "wap_wsg_idm_ecid_wtls5" (Is "wap-wsg-idm-ecid-wtls5") Undefined (Is 738) [Obj "wap_wsg_idm_ecid"; Arc 5];
  Object "wap_wsg_idm_ecid_wtls6" (Is "wap-wsg-idm-ecid-wtls6") Undefined (Is 739) [Obj "wap_wsg_idm_ecid"; Arc 6];
  Object "wap_wsg_idm_ecid_wtls7" (Is "wap-wsg-idm-ecid-wtls7") Undefined (Is 740) [Obj "wap_wsg_idm_ecid"; Arc 7];
  Object "wap_wsg_idm_ecid_wtls8" (Is "wap-wsg-idm-ecid-wtls8") Undefined (Is 741) [Obj "wap_wsg_idm_ecid"; Arc 8];
  Object "wap_wsg_idm_ecid_wtls9" (Is "wap-wsg-idm-ecid-wtls9") Undefined (Is 742) [Obj "wap_wsg_idm_ecid"; Arc 9];
  Object "wap_wsg_idm_ecid_wtls10" (Is "wap-wsg-idm-ecid-wtls10") Undefined (Is 743) [Obj "wap_wsg_idm_ecid"; Arc 10];
  Object "wap_wsg_idm_ecid_wtls11" (Is "wap-wsg-idm-ecid-wtls11") Undefined (Is 744) [Obj "wap_wsg_idm_ecid"; Arc 11];
  Object "wap_wsg_idm_ecid_wtls12" (Is "wap-wsg-idm-ecid-wtls12") Undefined (Is 745) [Obj "wap_wsg_idm_ecid"; Arc 12];
  Object "cast5_cbc" (Is "CAST5-CBC") (Is "cast5-cbc") (Is 108) [Obj "ISO_US"; Arc 113533; Arc 7; Arc 66; Arc 10];
  Object "cast5_ecb" (Is "CAST5-ECB") (Is "cast5-ecb") (Is 109) [];
  Object "cast5_cfb64" (Is "CAST5-CFB") (Is "cast5-cfb") (Is 110) [];
  Object "cast5_ofb64" (Is "CAST5-OFB") (Is "cast5-ofb") (Is 111) [];
  Object "pbeWithMD5AndCast5_CBC" Undefined (Is "pbeWithMD5AndCast5CBC")
    (Is 112) [Obj "ISO_US"; Arc 113533; Arc 7; Arc 66; Arc 12];
  Object "id_PasswordBasedMAC" (Is "id-PasswordBasedMAC") (Is "password based MAC")
    (Is 782) [Obj "ISO_US"; Arc 113533; Arc 7; Arc 66; Arc 13];
  Object "id_DHBasedMac" (Is "id-DHBasedMac") (Is "Diffie-Hellman based MAC")
    (Is 783) [Obj "ISO_US"; Arc 113533; Arc 7; Arc 66; Arc 30];
  Object "rsadsi" (Is "rsadsi") (Is "RSA Data Security, Inc.") (Is 1) [Obj "ISO_US"; Arc 113549];
  Object "pkcs" (Is "pkcs") (Is "RSA Data Security, Inc. PKCS") (Is 2) [Obj "rsadsi"; Arc 1];
  Object "pkcs1" (Is "pkcs1") Undefined (Is 186) [Obj "pkcs"; Arc 1];
  Object "rsaEncryption" Undefined (Is "rsaEncryption") (Is 6) [Obj "pkcs1"; Arc 1];
  Object "md2WithRSAEncryption" (Is "RSA-MD2") (Is "md2WithRSAEncryption") (Is 7) [Obj "pkcs1"; Arc 2];
  Object "md4WithRSAEncryption" (Is "RSA-MD4") (Is "md4WithRSAEncryption") (Is 396) [Obj "pkcs1"; Arc 3];
  Object "md5WithRSAEncryption" (Is "RSA-MD5") (Is "md5WithRSAEncryption") (Is 8) [Obj "pkcs1"; Arc 4];
  Object "sha1WithRSAEncryption" (Is "RSA-SHA1") (Is "sha1WithRSAEncryption") (Is 65) [Obj "pkcs1"; Arc 5];
  Object "rsaesOaep" (Is "RSAES-OAEP") (Is "rsaesOaep") (Is 919) [Obj "pkcs1"; Arc 7];
  Object "mgf1" (Is "MGF1") (Is "mgf1") (Is 911) [Obj "pkcs1"; Arc 8];
  Object "pSpecified" (Is "PSPECIFIED") (Is "pSpecified") (Is 935) [Obj "pkcs1"; Arc 9];
  Object "rsassaPss" (Is "RSASSA-PSS") (Is "rsassaPss") (Is 912) [Obj "pkcs1"; Arc 10];
  Object "sha256WithRSAEncryption" (Is "RSA-SHA256") (Is "sha256WithRSAEncryption") (Is 668) [Obj "pkcs1"; Arc 11];
  Object "sha384WithRSAEncryption" (Is "RSA-SHA384") (Is "sha384WithRSAEncryption") (Is 669) [Obj "pkcs1"; Arc 12];
  Object "sha512WithRSAEncryption" (Is "RSA-SHA512") (Is "sha512WithRSAEncryption") (Is 670) [Obj "pkcs1"; Arc 13];
  Object "sha224WithRSAEncryption" (Is "RSA-SHA224") (Is "sha224WithRSAEncryption") (Is 671) [Obj "pkcs1"; Arc 14];
  Object "sha512_224WithRSAEncryption" (Is "RSA-SHA512/224") (Is "sha512-224WithRSAEncryption")
    (Is 1145) [Obj "pkcs1"; Arc 15]].

Definition objects_5 : list object := [
  Object "sha512_256WithRSAEncryption" (Is "RSA-SHA512/256") (Is "sha512-256WithRSAEncryption")
    (Is 1146) [Obj "pkcs1"; Arc 16];
  Object "pkcs3" (Is "pkcs3") Undefined (Is 27) [Obj "pkcs"; Arc 3];
  Object "dhKeyAgreement" Undefined (Is "dhKeyAgreement") (Is 28) [Obj "pkcs3"; Arc 1];
  Object "pkcs5" (Is "pkcs5") Undefined (Is 187) [Obj "pkcs"; Arc 5];
  Object "pbeWithMD2AndDES_CBC" (Is "PBE-MD2-DES") (Is "pbeWithMD2AndDES-CBC") (Is 9) [Obj "pkcs5"; Arc 1];
  Object "pbeWithMD5AndDES_CBC" (Is "PBE-MD5-DES") (Is "pbeWithMD5AndDES-CBC") (Is 10) [Obj "pkcs5"; Arc 3];
  Object "pbeWithMD2AndRC2_CBC" (Is "PBE-MD2-RC2-64") (Is "pbeWithMD2AndRC2-CBC") (Is 168) [Obj "pkcs5"; Arc 4];
  Object "pbeWithMD5AndRC2_CBC" (Is "PBE-MD5-RC2-64") (Is "pbeWithMD5AndRC2-CBC") (Is 169) [Obj "pkcs5"; Arc 6];
  Object "pbeWithSHA1AndDES_CBC" (Is "PBE-SHA1-DES") (Is "pbeWithSHA1AndDES-CBC") (Is 170) [Obj "pkcs5"; Arc 10];
  Object "pbeWithSHA1AndRC2_CBC" (Is "PBE-SHA1-RC2-64") (Is "pbeWithSHA1AndRC2-CBC") (Is 68) [Obj "pkcs5"; Arc 11];
  Object "id_pbkdf2" Undefined (Is "PBKDF2") (Is 69) [Obj "pkcs5"; Arc 12];
  Object "pbes2" Undefined (Is "PBES2") (Is 161) [Obj "pkcs5"; Arc 13];
  Object "pbmac1" Undefined (Is "PBMAC1") (Is 162) [Obj "pkcs5"; Arc 14];
  Object "pkcs7" (Is "pkcs7") Undefined (Is 20) [Obj "pkcs"; Arc 7];
  Object "pkcs7_data" Undefined (Is "pkcs7-data") (Is 21) [Obj "pkcs7"; Arc 1];
  Object "pkcs7_signed" Undefined (Is "pkcs7-signedData") (Is 22) [Obj "pkcs7"; Arc 2];
  Object "pkcs7_enveloped" Undefined (Is "pkcs7-envelopedData") (Is 23) [Obj "pkcs7"; Arc 3];
  Object "pkcs7_signedAndEnveloped" Undefined (Is "pkcs7-signedAndEnvelopedData") (Is 24) [Obj "pkcs7"; Arc 4];
  Object "pkcs7_digest" Undefined (Is "pkcs7-digestData") (Is 25) [Obj "pkcs7"; Arc 5];
  Object "pkcs7_encrypted" Undefined (Is "pkcs7-encryptedData") (Is 26) [Obj "pkcs7"; Arc 6];
  Object "pkcs9" (Is "pkcs9") Undefined (Is 47) [Obj "pkcs"; Arc 9];
  Object "pkcs9_emailAddress" Undefined (Is "emailAddress") (Is 48) [Obj "pkcs9"; Arc 1];
  Object "pkcs9_unstructuredName" Undefined (Is "unstructuredName") (Is 49) [Obj "pkcs9"; Arc 2];
  Object "pkcs9_contentType" Undefined (Is "contentType") (Is 50) [Obj "pkcs9"; Arc 3];
  Object "pkcs9_messageDigest" Undefined (Is "messageDigest") (Is 51) [Obj "pkcs9"; Arc 4];
  Object "pkcs9_signingTime" Undefined (Is "signingTime") (Is 52) [Obj "pkcs9"; Arc 5];
  Object "pkcs9_countersignature" Undefined (Is "countersignature") (Is 53) [Obj "pkcs9"; Arc 6];
  Object "pkcs9_challengePassword" Undefined (Is "challengePassword") (Is 54) [Obj "pkcs9"; Arc 7];
  Object "pkcs9_unstructuredAddress" Undefined (Is "unstructuredAddress") (Is 55) [Obj "pkcs9"; Arc 8];
  Object "pkcs9_extCertAttributes" Undefined (Is "extendedCertificateAttributes") (Is 56) [Obj "pkcs9"; Arc 9];
  Object "ext_req" (Is "extReq") (Is "Extension Request") (Is 172) [Obj "pkcs9"; Arc 14];
  Object "SMIMECapabilities" (Is "SMIME-CAPS") (Is "S/MIME Capabilities") (Is 167) [Obj "pkcs9"; Arc 15];
  Object "SMIME" (Is "SMIME") (Is "S/MIME") (Is 188) [Obj "pkcs9"; Arc 16];
  Object "id_smime_mod" (Is "id-smime-mod") Undefined (Is 189) [Obj "SMIME"; Arc 0];
  Object "id_smime_ct" (Is "id-smime-ct") Undefined (Is 190) [Obj "SMIME"; Arc 1]].

Definition objects_6 : list object := [
  Object "id_smime_aa" (Is "id-smime-aa") Undefined (Is 191) [Obj "SMIME"; Arc 2];
  Object "id_smime_alg" (Is "id-smime-alg") Undefined (Is 192) [Obj "SMIME"; Arc 3];
  Object "id_smime_cd" (Is "id-smime-cd") Undefined (Is 193) [Obj "SMIME"; Arc 4];
  Object "id_smime_spq" (Is "id-smime-spq") Undefined (Is 194) [Obj "SMIME"; Arc 5];
  Object "id_smime_cti" (Is "id-smime-cti") Undefined (Is 195) [Obj "SMIME"; Arc 6];
  Object "id_smime_mod_cms" (Is "id-smime-mod-cms") Undefined (Is 196) [Obj "id_smime_mod"; Arc 1];
  Object "id_smime_mod_ess" (Is "id-smime-mod-ess") Undefined (Is 197) [Obj "id_smime_mod"; Arc 2];
  Object "id_smime_mod_oid" (Is "id-smime-mod-oid") Undefined (Is 198) [Obj "id_smime_mod"; Arc 3];
  Object "id_smime_mod_msg_v3" (Is "id-smime-mod-msg-v3") Undefined (Is 199) [Obj "id_smime_mod"; Arc 4];
  Object "id_smime_mod_ets_eSignature_88" (Is "id-smime-mod-ets-eSignature-88") Undefined
    (Is 200) [Obj "id_smime_mod"; Arc 5];
  Object "id_smime_mod_ets_eSignature_97" (Is "id-smime-mod-ets-eSignature-97") Undefined
    (Is 201) [Obj "id_smime_mod"; Arc 6];
  Object "id_smime_mod_ets_eSigPolicy_88" (Is "id-smime-mod-ets-eSigPolicy-88") Undefined
    (Is 202) [Obj "id_smime_mod"; Arc 7];
  Object "id_smime_mod_ets_eSigPolicy_97" (Is "id-smime-mod-ets-eSigPolicy-97") Undefined
    (Is 203) [Obj "id_smime_mod"; Arc 8];
  Object "id_smime_ct_receipt" (Is "id-smime-ct-receipt") Undefined (Is 204) [Obj "id_smime_ct"; Arc 1];
  Object "id_smime_ct_authData" (Is "id-smime-ct-authData") Undefined (Is 205) [Obj "id_smime_ct"; Arc 2];
  Object "id_smime_ct_publishCert" (Is "id-smime-ct-publishCert") Undefined (Is 206) [Obj "id_smime_ct"; Arc 3];
  Object "id_smime_ct_TSTInfo" (Is "id-smime-ct-TSTInfo") Undefined (Is 207) [Obj "id_smime_ct"; Arc 4];
  Object "id_smime_ct_TDTInfo" (Is "id-smime-ct-TDTInfo") Undefined (Is 208) [Obj "id_smime_ct"; Arc 5];
  Object "id_smime_ct_contentInfo" (Is "id-smime-ct-contentInfo") Undefined (Is 209) [Obj "id_smime_ct"; Arc 6];
  Object "id_smime_ct_DVCSRequestData" (Is "id-smime-ct-DVCSRequestData") Undefined
    (Is 210) [Obj "id_smime_ct"; Arc 7];
  Object "id_smime_ct_DVCSResponseData" (Is "id-smime-ct-DVCSResponseData") Undefined
    (Is 211) [Obj "id_smime_ct"; Arc 8];
  Object "id_smime_ct_compressedData" (Is "id-smime-ct-compressedData") Undefined (Is 786) [Obj "id_smime_ct"; Arc 9];
  Object "id_smime_ct_contentCollection" (Is "id-smime-ct-contentCollection") Undefined
    (Is 1058) [Obj "id_smime_ct"; Arc 19];
  Object "id_smime_ct_authEnvelopedData" (Is "id-smime-ct-authEnvelopedData") Undefined
    (Is 1059) [Obj "id_smime_ct"; Arc 23];
  Object "id_ct_routeOriginAuthz" (Is "id-ct-routeOriginAuthz") Undefined (Is 1234) [Obj "id_smime_ct"; Arc 24];
  Object "id_ct_rpkiManifest" (Is "id-ct-rpkiManifest") Undefined (Is 1235) [Obj "id_smime_ct"; Arc 26];
  Object "id_ct_asciiTextWithCRLF" (Is "id-ct-asciiTextWithCRLF") Undefined (Is 787) [Obj "id_smime_ct"; Arc 27];
  Object "id_ct_xml" (Is "id-ct-xml") Undefined (Is 1060) [Obj "id_smime_ct"; Arc 28];
  Object "id_ct_rpkiGhostbusters" (Is "id-ct-rpkiGhostbusters") Undefined (Is 1236) [Obj "id_smime_ct"; Arc 35];
  Object "id_ct_resourceTaggedAttest" (Is "id-ct-resourceTaggedAttest") Undefined
    (Is 1237) [Obj "id_smime_ct"; Arc 36];
  Object "id_ct_geofeedCSVwithCRLF" (Is "id-ct-geofeedCSVwithCRLF") Undefined (Is 1246) [Obj "id_smime_ct"; Arc 47];
  Object "id_ct_signedChecklist" (Is "id-ct-signedChecklist") Undefined (Is 1247) [Obj "id_smime_ct"; Arc 48];
  Object "id_smime_aa_receiptRequest" (Is "id-smime-aa-receiptRequest") Undefined (Is 212) [Obj "id_smime_aa"; Arc 1];
  Object "id_smime_aa_securityLabel" (Is "id-smime-aa-securityLabel") Undefined (Is 213) [Obj "id_smime_aa"; Arc 2];
  Object "id_smime_aa_mlExpandHistory" (Is "id-smime-aa-mlExpandHistory") Undefined
    (Is 214) [Obj "id_smime_aa"; Arc 3];
  Object "id_smime_aa_contentHint" (Is "id-smime-aa-contentHint") Undefined (Is 215) [Obj "id_smime_aa"; Arc 4];
  Object "id_smime_aa_msgSigDigest" (Is "id-smime-aa-msgSigDigest") Undefined (Is 216) [Obj "id_smime_aa"; Arc 5]].

Definition objects_7 : list object := [
  Object "id_smime_aa_encapContentType" (Is "id-smime-aa-encapContentType") Undefined
    (Is 217) [Obj "id_smime_aa"; Arc 6];
  Object "id_smime_aa_contentIdentifier" (Is "id-smime-aa-contentIdentifier") Undefined
    (Is 218) [Obj "id_smime_aa"; Arc 7];
  Object "id_smime_aa_macValue" (Is "id-smime-aa-macValue") Undefined (Is 219) [Obj "id_smime_aa"; Arc 8];
  Object "id_smime_aa_equivalentLabels" (Is "id-smime-aa-equivalentLabels") Undefined
    (Is 220) [Obj "id_smime_aa"; Arc 9];
  Object "id_smime_aa_contentReference" (Is "id-smime-aa-contentReference") Undefined
    (Is 221) [Obj "id_smime_aa"; Arc 10];
  Object "id_smime_aa_encrypKeyPref" (Is "id-smime-aa-encrypKeyPref") Undefined (Is 222) [Obj "id_smime_aa"; Arc 11];
  Object "id_smime_aa_signingCertificate" (Is "id-smime-aa-signingCertificate") Undefined
    (Is 223) [Obj "id_smime_aa"; Arc 12];
  Object "id_smime_aa_smimeEncryptCerts" (Is "id-smime-aa-smimeEncryptCerts") Undefined
    (Is 224) [Obj "id_smime_aa"; Arc 13];
  Object "id_smime_aa_timeStampToken" (Is "id-smime-aa-timeStampToken") Undefined (Is 225) [Obj "id_smime_aa"; Arc 14];
  Object "id_smime_aa_ets_sigPolicyId" (Is "id-smime-aa-ets-sigPolicyId") Undefined
    (Is 226) [Obj "id_smime_aa"; Arc 15];
  Object "id_smime_aa_ets_commitmentType" (Is "id-smime-aa-ets-commitmentType") Undefined
    (Is 227) [Obj "id_smime_aa"; Arc 16];
  Object "id_smime_aa_ets_signerLocation" (Is "id-smime-aa-ets-signerLocation") Undefined
    (Is 228) [Obj "id_smime_aa"; Arc 17];
  Object "id_smime_aa_ets_signerAttr" (Is "id-smime-aa-ets-signerAttr") Undefined (Is 229) [Obj "id_smime_aa"; Arc 18];
  Object "id_smime_aa_ets_otherSigCert" (Is "id-smime-aa-ets-otherSigCert") Undefined
    (Is 230) [Obj "id_smime_aa"; Arc 19];
  Object "id_smime_aa_ets_contentTimestamp" (Is "id-smime-aa-ets-contentTimestamp") Undefined
    (Is 231) [Obj "id_smime_aa"; Arc 20];
  Object "id_smime_aa_ets_CertificateRefs" (Is "id-smime-aa-ets-CertificateRefs") Undefined
    (Is 232) [Obj "id_smime_aa"; Arc 21];
  Object "id_smime_aa_ets_RevocationRefs" (Is "id-smime-aa-ets-RevocationRefs") Undefined
    (Is 233) [Obj "id_smime_aa"; Arc 22];
  Object "id_smime_aa_ets_certValues" (Is "id-smime-aa-ets-certValues") Undefined (Is 234) [Obj "id_smime_aa"; Arc 23];
  Object "id_smime_aa_ets_revocationValues" (Is "id-smime-aa-ets-revocationValues") Undefined
    (Is 235) [Obj "id_smime_aa"; Arc 24];
  Object "id_smime_aa_ets_escTimeStamp" (Is "id-smime-aa-ets-escTimeStamp") Undefined
    (Is 236) [Obj "id_smime_aa"; Arc 25];
  Object "id_smime_aa_ets_certCRLTimestamp" (Is "id-smime-aa-ets-certCRLTimestamp") Undefined
    (Is 237) [Obj "id_smime_aa"; Arc 26];
  Object "id_smime_aa_ets_archiveTimeStamp" (Is "id-smime-aa-ets-archiveTimeStamp") Undefined
    (Is 238) [Obj "id_smime_aa"; Arc 27];
  Object "id_smime_aa_signatureType" (Is "id-smime-aa-signatureType") Undefined (Is 239) [Obj "id_smime_aa"; Arc 28];
  Object "id_smime_aa_dvcs_dvc" (Is "id-smime-aa-dvcs-dvc") Undefined (Is 240) [Obj "id_smime_aa"; Arc 29];
  Object "id_smime_aa_signingCertificateV2" (Is "id-smime-aa-signingCertificateV2") Undefined
    (Is 1086) [Obj "id_smime_aa"; Arc 47];
  Object "id_smime_alg_ESDHwith3DES" (Is "id-smime-alg-ESDHwith3DES") Undefined (Is 241) [Obj "id_smime_alg"; Arc 1];
  Object "id_smime_alg_ESDHwithRC2" (Is "id-smime-alg-ESDHwithRC2") Undefined (Is 242) [Obj "id_smime_alg"; Arc 2];
  Object "id_smime_alg_3DESwrap" (Is "id-smime-alg-3DESwrap") Undefined (Is 243) [Obj "id_smime_alg"; Arc 3];
  Object "id_smime_alg_RC2wrap" (Is "id-smime-alg-RC2wrap") Undefined (Is 244) [Obj "id_smime_alg"; Arc 4];
  Object "id_smime_alg_ESDH" (Is "id-smime-alg-ESDH") Undefined (Is 245) [Obj "id_smime_alg"; Arc 5];
  Object "id_smime_alg_CMS3DESwrap" (Is "id-smime-alg-CMS3DESwrap") Undefined (Is 246) [Obj "id_smime_alg"; Arc 6];
  Object "id_smime_alg_CMSRC2wrap" (Is "id-smime-alg-CMSRC2wrap") Undefined (Is 247) [Obj "id_smime_alg"; Arc 7];
  Object "id_alg_PWRI_KEK" (Is "id-alg-PWRI-KEK") Undefined (Is 893) [Obj "id_smime_alg"; Arc 9];
  Object "id_smime_cd_ldap" (Is "id-smime-cd-ldap") Undefined (Is 248) [Obj "id_smime_cd"; Arc 1];
  Object "id_smime_spq_ets_sqt_uri" (Is "id-smime-spq-ets-sqt-uri") Undefined (Is 249) [Obj "id_smime_spq"; Arc 1];
  Object "id_smime_spq_ets_sqt_unotice" (Is "id-smime-spq-ets-sqt-unotice") Undefined
    (Is 250) [Obj "id_smime_spq"; Arc 2];
  Object "id_smime_cti_ets_proofOfOrigin" (Is "id-smime-cti-ets-proofOfOrigin") Undefined
    (Is 251) [Obj "id_smime_cti"; Arc 1]].

Definition objects_8 : list object := [
  Object "id_smime_cti_ets_proofOfReceipt" (Is "id-smime-cti-ets-proofOfReceipt") Undefined
    (Is 252) [Obj "id_smime_cti"; Arc 2];
  Object "id_smime_cti_ets_proofOfDelivery" (Is "id-smime-cti-ets-proofOfDelivery") Undefined
    (Is 253) [Obj "id_smime_cti"; Arc 3];
  Object "id_smime_cti_ets_proofOfSender" (Is "id-smime-cti-ets-proofOfSender") Undefined
    (Is 254) [Obj "id_smime_cti"; Arc 4];
  Object "id_smime_cti_ets_proofOfApproval" (Is "id-smime-cti-ets-proofOfApproval") Undefined
    (Is 255) [Obj "id_smime_cti"; Arc 5];
  Object "id_smime_cti_ets_proofOfCreation" (Is "id-smime-cti-ets-proofOfCreation") Undefined
    (Is 256) [Obj "id_smime_cti"; Arc 6];
  Object "friendlyName" Undefined (Is "friendlyName") (Is 156) [Obj "pkcs9"; Arc 20];
  Object "localKeyID" Undefined (Is "localKeyID") (Is 157) [Obj "pkcs9"; Arc 21];
  Object "ms_csp_name" (Is "CSPName") (Is "Microsoft CSP Name")
    (Is 417) [Arc 1; Arc 3; Arc 6; Arc 1; Arc 4; Arc 1; Arc 311; Arc 17; Arc 1];
  Object "LocalKeySet" (Is "LocalKeySet") (Is "Microsoft Local Key set")
    (Is 856) [Arc 1; Arc 3; Arc 6; Arc 1; Arc 4; Arc 1; Arc 311; Arc 17; Arc 2];
  Object "certTypes" Undefined Undefined Undefined [Obj "pkcs9"; Arc 22];
  Object "x509Certificate" Undefined (Is "x509Certificate") (Is 158) [Obj "certTypes"; Arc 1];
  Object "sdsiCertificate" Undefined (Is "sdsiCertificate") (Is 159) [Obj "certTypes"; Arc 2];
  Object "crlTypes" Undefined Undefined Undefined [Obj "pkcs9"; Arc 23];
  Object "x509Crl" Undefined (Is "x509Crl") (Is 160) [Obj "crlTypes"; Arc 1];
  Object "pkcs12" Undefined Undefined Undefined [Obj "pkcs"; Arc 12];
  Object "pkcs12_pbeids" Undefined Undefined Undefined [Obj "pkcs12"; Arc 1];
  Object "pbe_WithSHA1And128BitRC4" (Is "PBE-SHA1-RC4-128") (Is "pbeWithSHA1And128BitRC4")
    (Is 144) [Obj "pkcs12_pbeids"; Arc 1];
  Object "pbe_WithSHA1And40BitRC4" (Is "PBE-SHA1-RC4-40") (Is "pbeWithSHA1And40BitRC4")
    (Is 145) [Obj "pkcs12_pbeids"; Arc 2];
  Object "pbe_WithSHA1And3_Key_TripleDES_CBC" (Is "PBE-SHA1-3DES") (Is "pbeWithSHA1And3-KeyTripleDES-CBC")
    (Is 146) [Obj "pkcs12_pbeids"; Arc 3];
  Object "pbe_WithSHA1And2_Key_TripleDES_CBC" (Is "PBE-SHA1-2DES") (Is "pbeWithSHA1And2-KeyTripleDES-CBC")
    (Is 147) [Obj "pkcs12_pbeids"; Arc 4];
  Object "pbe_WithSHA1And128BitRC2_CBC" (Is "PBE-SHA1-RC2-128") (Is "pbeWithSHA1And128BitRC2-CBC")
    (Is 148) [Obj "pkcs12_pbeids"; Arc 5];
  Object "pbe_WithSHA1And40BitRC2_CBC" (Is "PBE-SHA1-RC2-40") (Is "pbeWithSHA1And40BitRC2-CBC")
    (Is 149) [Obj "pkcs12_pbeids"; Arc 6];
  Object "pkcs12_Version1" Undefined Undefined Undefined [Obj "pkcs12"; Arc 10];
  Object "pkcs12_BagIds" Undefined Undefined Undefined [Obj "pkcs12_Version1"; Arc 1];
  Object "keyBag" Undefined (Is "keyBag") (Is 150) [Obj "pkcs12_BagIds"; Arc 1];
  Object "pkcs8ShroudedKeyBag" Undefined (Is "pkcs8ShroudedKeyBag") (Is 151) [Obj "pkcs12_BagIds"; Arc 2];
  Object "certBag" Undefined (Is "certBag") (Is 152) [Obj "pkcs12_BagIds"; Arc 3];
  Object "crlBag" Undefined (Is "crlBag") (Is 153) [Obj "pkcs12_BagIds"; Arc 4];
  Object "secretBag" Undefined (Is "secretBag") (Is 154) [Obj "pkcs12_BagIds"; Arc 5];
  Object "safeContentsBag" Undefined (Is "safeContentsBag") (Is 155) [Obj "pkcs12_BagIds"; Arc 6];
  Object "md2" (Is "MD2") (Is "md2") (Is 3) [Obj "rsadsi"; Arc 2; Arc 2];
  Object "md4" (Is "MD4") (Is "md4") (Is 257) [Obj "rsadsi"; Arc 2; Arc 4];
  Object "md5" (Is "MD5") (Is "md5") (Is 4) [Obj "rsadsi"; Arc 2; Arc 5];
  Object "md5_sha1" (Is "MD5-SHA1") (Is "md5-sha1") (Is 114) [];
  Object "hmacWithMD5" Undefined (Is "hmacWithMD5") (Is 797) [Obj "rsadsi"; Arc 2; Arc 6];
  Object "hmacWithSHA1" Undefined (Is "hmacWithSHA1") (Is 163) [Obj "rsadsi"; Arc 2; Arc 7];
  Object "sm2" (Is "SM2") (Is "sm2") (Is 1172) [Obj "sm_scheme"; Arc 301]].

Definition objects_9 : list object := [
  Object "sm3" (Is "SM3") (Is "sm3") (Is 1143) [Obj "sm_scheme"; Arc 401];
  Object "sm3WithRSAEncryption" (Is "RSA-SM3") (Is "sm3WithRSAEncryption") (Is 1144) [Obj "sm_scheme"; Arc 504];
  Object "SM2_with_SM3" (Is "SM2-SM3") (Is "SM2-with-SM3") (Is 1204) [Obj "sm_scheme"; Arc 501];
  Object "hmacWithSHA224" Undefined (Is "hmacWithSHA224") (Is 798) [Obj "rsadsi"; Arc 2; Arc 8];
  Object "hmacWithSHA256" Undefined (Is "hmacWithSHA256") (Is 799) [Obj "rsadsi"; Arc 2; Arc 9];
  Object "hmacWithSHA384" Undefined (Is "hmacWithSHA384") (Is 800) [Obj "rsadsi"; Arc 2; Arc 10];
  Object "hmacWithSHA512" Undefined (Is "hmacWithSHA512") (Is 801) [Obj "rsadsi"; Arc 2; Arc 11];
  Object "hmacWithSHA512_224" Undefined (Is "hmacWithSHA512-224") (Is 1193) [Obj "rsadsi"; Arc 2; Arc 12];
  Object "hmacWithSHA512_256" Undefined (Is "hmacWithSHA512-256") (Is 1194) [Obj "rsadsi"; Arc 2; Arc 13];
  Object "rc2_cbc" (Is "RC2-CBC") (Is "rc2-cbc") (Is 37) [Obj "rsadsi"; Arc 3; Arc 2];
  Object "rc2_ecb" (Is "RC2-ECB") (Is "rc2-ecb") (Is 38) [];
  Object "rc2_cfb64" (Is "RC2-CFB") (Is "rc2-cfb") (Is 39) [];
  Object "rc2_ofb64" (Is "RC2-OFB") (Is "rc2-ofb") (Is 40) [];
  Object "rc2_40_cbc" (Is "RC2-40-CBC") (Is "rc2-40-cbc") (Is 98) [];
  Object "rc2_64_cbc" (Is "RC2-64-CBC") (Is "rc2-64-cbc") (Is 166) [];
  Object "rc4" (Is "RC4") (Is "rc4") (Is 5) [Obj "rsadsi"; Arc 3; Arc 4];
  Object "rc4_40" (Is "RC4-40") (Is "rc4-40") (Is 97) [];
  Object "des_ede3_cbc" (Is "DES-EDE3-CBC") (Is "des-ede3-cbc") (Is 44) [Obj "rsadsi"; Arc 3; Arc 7];
  Object "rc5_cbc" (Is "RC5-CBC") (Is "rc5-cbc") (Is 120) [Obj "rsadsi"; Arc 3; Arc 8];
  Object "rc5_ecb" (Is "RC5-ECB") (Is "rc5-ecb") (Is 121) [];
  Object "rc5_cfb64" (Is "RC5-CFB") (Is "rc5-cfb") (Is 122) [];
  Object "rc5_ofb64" (Is "RC5-OFB") (Is "rc5-ofb") (Is 123) [];
  Object "ms_ext_req" (Is "msExtReq") (Is "Microsoft Extension Request")
    (Is 171) [Arc 1; Arc 3; Arc 6; Arc 1; Arc 4; Arc 1; Arc 311; Arc 2; Arc 1; Arc 14];
  Object "ms_code_ind" (Is "msCodeInd") (Is "Microsoft Individual Code Signing")
    (Is 134) [Arc 1; Arc 3; Arc 6; Arc 1; Arc 4; Arc 1; Arc 311; Arc 2; Arc 1; Arc 21];
  Object "ms_code_com" (Is "msCodeCom") (Is "Microsoft Commercial Code Signing")
    (Is 135) [Arc 1; Arc 3; Arc 6; Arc 1; Arc 4; Arc 1; Arc 311; Arc 2; Arc 1; Arc 22];
  Object "ms_ctl_sign" (Is "msCTLSign") (Is "Microsoft Trust List Signing")
    (Is 136) [Arc 1; Arc 3; Arc 6; Arc 1; Arc 4; Arc 1; Arc 311; Arc 10; Arc 3; Arc 1];
  Object "ms_sgc" (Is "msSGC") (Is "Microsoft Server Gated Crypto")
    (Is 137) [Arc 1; Arc 3; Arc 6; Arc 1; Arc 4; Arc 1; Arc 311; Arc 10; Arc 3; Arc 3];
  Object "ms_efs" (Is "msEFS") (Is "Microsoft Encrypted File System")
    (Is 138) [Arc 1; Arc 3; Arc 6; Arc 1; Arc 4; Arc 1; Arc 311; Arc 10; Arc 3; Arc 4];
  Object "ms_smartcard_login" (Is "msSmartcardLogin") (Is "Microsoft Smartcard Login")
    (Is 648) [Arc 1; Arc 3; Arc 6; Arc 1; Arc 4; Arc 1; Arc 311; Arc 20; Arc 2; Arc 2];
  Object "ms_upn" (Is "msUPN") (Is "Microsoft User Principal Name")
    (Is 649) [Arc 1; Arc 3; Arc 6; Arc 1; Arc 4; Arc 1; Arc 311; Arc 20; Arc 2; Arc 3];
  Object "idea_cbc" (Is "IDEA-CBC") (Is "idea-cbc")
    (Is 34) [Arc 1; Arc 3; Arc 6; Arc 1; Arc 4; Arc 1; Arc 188; Arc 7; Arc 1; Arc 1; Arc 2];
  Object "idea_ecb" (Is "IDEA-ECB") (Is "idea-ecb") (Is 36) [];
  Object "idea_cfb64" (Is "IDEA-CFB") (Is "idea-cfb") (Is 35) []].

Definition objects_10 : list object := [
  Object "idea_ofb64" (Is "IDEA-OFB") (Is "idea-ofb") (Is 46) [];
  Object "bf_cbc" (Is "BF-CBC") (Is "bf-cbc")
    (Is 91) [Arc 1; Arc 3; Arc 6; Arc 1; Arc 4; Arc 1; Arc 3029; Arc 1; Arc 2];
  Object "bf_ecb" (Is "BF-ECB") (Is "bf-ecb") (Is 92) [];
  Object "bf_cfb64" (Is "BF-CFB") (Is "bf-cfb") (Is 93) [];
  Object "bf_ofb64" (Is "BF-OFB") (Is "bf-ofb") (Is 94) [];
  Object "id_pkix" (Is "PKIX") Undefined (Is 127) [Arc 1; Arc 3; Arc 6; Arc 1; Arc 5; Arc 5; Arc 7];
  Object "id_pkix_mod" (Is "id-pkix-mod") Undefined (Is 258) [Obj "id_pkix"; Arc 0];
  Object "id_pe" (Is "id-pe") Undefined (Is 175) [Obj "id_pkix"; Arc 1];
  Object "id_qt" (Is "id-qt") Undefined (Is 259) [Obj "id_pkix"; Arc 2];
  Object "id_kp" (Is "id-kp") Undefined (Is 128) [Obj "id_pkix"; Arc 3];
  Object "id_it" (Is "id-it") Undefined (Is 260) [Obj "id_pkix"; Arc 4];
  Object "id_pkip" (Is "id-pkip") Undefined (Is 261) [Obj "id_pkix"; Arc 5];
  Object "id_alg" (Is "id-alg") Undefined (Is 262) [Obj "id_pkix"; Arc 6];
  Object "id_cmc" (Is "id-cmc") Undefined (Is 263) [Obj "id_pkix"; Arc 7];
  Object "id_on" (Is "id-on") Undefined (Is 264) [Obj "id_pkix"; Arc 8];
  Object "id_pda" (Is "id-pda") Undefined (Is 265) [Obj "id_pkix"; Arc 9];
  Object "id_aca" (Is "id-aca") Undefined (Is 266) [Obj "id_pkix"; Arc 10];
  Object "id_qcs" (Is "id-qcs") Undefined (Is 267) [Obj "id_pkix"; Arc 11];
  Object "id_cp" (Is "id-cp") Undefined (Is 1238) [Obj "id_pkix"; Arc 14];
  Object "id_cct" (Is "id-cct") Undefined (Is 268) [Obj "id_pkix"; Arc 12];
  Object "id_ppl" (Is "id-ppl") Undefined (Is 662) [Obj "id_pkix"; Arc 21];
  Object "id_ad" (Is "id-ad") Undefined (Is 176) [Obj "id_pkix"; Arc 48];
  Object "id_pkix1_explicit_88" (Is "id-pkix1-explicit-88") Undefined (Is 269) [Obj "id_pkix_mod"; Arc 1];
  Object "id_pkix1_implicit_88" (Is "id-pkix1-implicit-88") Undefined (Is 270) [Obj "id_pkix_mod"; Arc 2];
  Object "id_pkix1_explicit_93" (Is "id-pkix1-explicit-93") Undefined (Is 271) [Obj "id_pkix_mod"; Arc 3];
  Object "id_pkix1_implicit_93" (Is "id-pkix1-implicit-93") Undefined (Is 272) [Obj "id_pkix_mod"; Arc 4];
  Object "id_mod_crmf" (Is "id-mod-crmf") Undefined (Is 273) [Obj "id_pkix_mod"; Arc 5];
  Object "id_mod_cmc" (Is "id-mod-cmc") Undefined (Is 274) [Obj "id_pkix_mod"; Arc 6];
  Object "id_mod_kea_profile_88" (Is "id-mod-kea-profile-88") Undefined (Is 275) [Obj "id_pkix_mod"; Arc 7];
  Object "id_mod_kea_profile_93" (Is "id-mod-kea-profile-93") Undefined (Is 276) [Obj "id_pkix_mod"; Arc 8];
  Object "id_mod_cmp" (Is "id-mod-cmp") Undefined (Is 277) [Obj "id_pkix_mod"; Arc 9];
  Object "id_mod_qualified_cert_88" (Is "id-mod-qualified-cert-88") Undefined (Is 278) [Obj "id_pkix_mod"; Arc 10];
  Object "id_mod_qualified_cert_93" (Is "id-mod-qualified-cert-93") Undefined (Is 279) [Obj "id_pkix_mod"; Arc 11];
  Object "id_mod_attribute_cert" (Is "id-mod-attribute-cert") Undefined (Is 280) [Obj "id_pkix_mod"; Arc 12];
  Object "id_mod_timestamp_protocol" (Is "id-mod-timestamp-protocol") Undefined (Is 281) [Obj "id_pkix_mod"; Arc 13];
  Object "id_mod_ocsp" (Is "id-mod-ocsp") Undefined (Is 282) [Obj "id_pkix_mod"; Arc 14];
  Object "id_mod_dvcs" (Is "id-mod-dvcs") Undefined (Is 283) [Obj "id_pkix_mod"; Arc 15]].

Definition objects_11 : list object := [
  Object "id_mod_cmp2000" (Is "id-mod-cmp2000") Undefined (Is 284) [Obj "id_pkix_mod"; Arc 16];
  Object "info_access" (Is "authorityInfoAccess") (Is "Authority Information Access") (Is 177) [Obj "id_pe"; Arc 1];
  Object "biometricInfo" (Is "biometricInfo") (Is "Biometric Info") (Is 285) [Obj "id_pe"; Arc 2];
  Object "qcStatements" (Is "qcStatements") Undefined (Is 286) [Obj "id_pe"; Arc 3];
  Object "ac_auditEntity" (Is "ac-auditEntity") Undefined (Is 287) [Obj "id_pe"; Arc 4];
  Object "ac_targeting" (Is "ac-targeting") Undefined (Is 288) [Obj "id_pe"; Arc 5];
  Object "aaControls" (Is "aaControls") Undefined (Is 289) [Obj "id_pe"; Arc 6];
  Object "sbgp_ipAddrBlock" (Is "sbgp-ipAddrBlock") Undefined (Is 290) [Obj "id_pe"; Arc 7];
  Object "sbgp_autonomousSysNum" (Is "sbgp-autonomousSysNum") Undefined (Is 291) [Obj "id_pe"; Arc 8];
  Object "sbgp_routerIdentifier" (Is "sbgp-routerIdentifier") Undefined (Is 292) [Obj "id_pe"; Arc 9];
  Object "ac_proxying" (Is "ac-proxying") Undefined (Is 397) [Obj "id_pe"; Arc 10];
  Object "sinfo_access" (Is "subjectInfoAccess") (Is "Subject Information Access") (Is 398) [Obj "id_pe"; Arc 11];
  Object "proxyCertInfo" (Is "proxyCertInfo") (Is "Proxy Certificate Information") (Is 663) [Obj "id_pe"; Arc 14];
  Object "tlsfeature" (Is "tlsfeature") (Is "TLS Feature") (Is 1020) [Obj "id_pe"; Arc 24];
  Object "sbgp_ipAddrBlockv2" (Is "sbgp-ipAddrBlockv2") Undefined (Is 1239) [Obj "id_pe"; Arc 28];
  Object "sbgp_autonomousSysNumv2" (Is "sbgp-autonomousSysNumv2") Undefined (Is 1240) [Obj "id_pe"; Arc 29];
  Object "id_qt_cps" (Is "id-qt-cps") (Is "Policy Qualifier CPS") (Is 164) [Obj "id_qt"; Arc 1];
  Object "id_qt_unotice" (Is "id-qt-unotice") (Is "Policy Qualifier User Notice") (Is 165) [Obj "id_qt"; Arc 2];
  Object "textNotice" (Is "textNotice") Undefined (Is 293) [Obj "id_qt"; Arc 3];
  Object "server_auth" (Is "serverAuth") (Is "TLS Web Server Authentication") (Is 129) [Obj "id_kp"; Arc 1];
  Object "client_auth" (Is "clientAuth") (Is "TLS Web Client Authentication") (Is 130) [Obj "id_kp"; Arc 2];
  Object "code_sign" (Is "codeSigning") (Is "Code Signing") (Is 131) [Obj "id_kp"; Arc 3];
  Object "email_protect" (Is "emailProtection") (Is "E-mail Protection") (Is 132) [Obj "id_kp"; Arc 4];
  Object "ipsecEndSystem" (Is "ipsecEndSystem") (Is "IPSec End System") (Is 294) [Obj "id_kp"; Arc 5];
  Object "ipsecTunnel" (Is "ipsecTunnel") (Is "IPSec Tunnel") (Is 295) [Obj "id_kp"; Arc 6];
  Object "ipsecUser" (Is "ipsecUser") (Is "IPSec User") (Is 296) [Obj "id_kp"; Arc 7];
  Object "time_stamp" (Is "timeStamping") (Is "Time Stamping") (Is 133) [Obj "id_kp"; Arc 8];
  Object "OCSP_sign" (Is "OCSPSigning") (Is "OCSP Signing") (Is 180) [Obj "id_kp"; Arc 9];
  Object "dvcs" (Is "DVCS") (Is "dvcs") (Is 297) [Obj "id_kp"; Arc 10];
  Object "ipsec_IKE" (Is "ipsecIKE") (Is "ipsec Internet Key Exchange") (Is 1022) [Obj "id_kp"; Arc 17];
  Object "capwapAC" (Is "capwapAC") (Is "Ctrl/provision WAP Access") (Is 1023) [Obj "id_kp"; Arc 18];
  Object "capwapWTP" (Is "capwapWTP") (Is "Ctrl/Provision WAP Termination") (Is 1024) [Obj "id_kp"; Arc 19]].

Definition objects_12 : list object := [
  Object "sshClient" (Is "secureShellClient") (Is "SSH Client") (Is 1025) [Obj "id_kp"; Arc 21];
  Object "sshServer" (Is "secureShellServer") (Is "SSH Server") (Is 1026) [Obj "id_kp"; Arc 22];
  Object "sendRouter" (Is "sendRouter") (Is "Send Router") (Is 1027) [Obj "id_kp"; Arc 23];
  Object "sendProxiedRouter" (Is "sendProxiedRouter") (Is "Send Proxied Router") (Is 1028) [Obj "id_kp"; Arc 24];
  Object "sendOwner" (Is "sendOwner") (Is "Send Owner") (Is 1029) [Obj "id_kp"; Arc 25];
  Object "sendProxiedOwner" (Is "sendProxiedOwner") (Is "Send Proxied Owner") (Is 1030) [Obj "id_kp"; Arc 26];
  Object "cmcCA" (Is "cmcCA") (Is "CMC Certificate Authority") (Is 1131) [Obj "id_kp"; Arc 27];
  Object "cmcRA" (Is "cmcRA") (Is "CMC Registration Authority") (Is 1132) [Obj "id_kp"; Arc 28];
  Object "cmcArchive" (Is "cmcArchive") (Is "CMC Archive Server") (Is 1219) [Obj "id_kp"; Arc 29];
  Object "id_kp_bgpsec_router" (Is "id-kp-bgpsec-router") (Is "BGPsec Router") (Is 1220) [Obj "id_kp"; Arc 30];
  Object "id_kp_BrandIndicatorforMessageIdentification" (Is "id-kp-BrandIndicatorforMessageIdentification") (Is "Brand Indicator for Message Identification")
    (Is 1221) [Obj "id_kp"; Arc 31];
  Object "cmKGA" (Is "cmKGA") (Is "Certificate Management Key Generation Authority") (Is 1222) [Obj "id_kp"; Arc 32];
  Object "id_it_caProtEncCert" (Is "id-it-caProtEncCert") Undefined (Is 298) [Obj "id_it"; Arc 1];
  Object "id_it_signKeyPairTypes" (Is "id-it-signKeyPairTypes") Undefined (Is 299) [Obj "id_it"; Arc 2];
  Object "id_it_encKeyPairTypes" (Is "id-it-encKeyPairTypes") Undefined (Is 300) [Obj "id_it"; Arc 3];
  Object "id_it_preferredSymmAlg" (Is "id-it-preferredSymmAlg") Undefined (Is 301) [Obj "id_it"; Arc 4];
  Object "id_it_caKeyUpdateInfo" (Is "id-it-caKeyUpdateInfo") Undefined (Is 302) [Obj "id_it"; Arc 5];
  Object "id_it_currentCRL" (Is "id-it-currentCRL") Undefined (Is 303) [Obj "id_it"; Arc 6];
  Object "id_it_unsupportedOIDs" (Is "id-it-unsupportedOIDs") Undefined (Is 304) [Obj "id_it"; Arc 7];
  Object "id_it_subscriptionRequest" (Is "id-it-subscriptionRequest") Undefined (Is 305) [Obj "id_it"; Arc 8];
  Object "id_it_subscriptionResponse" (Is "id-it-subscriptionResponse") Undefined (Is 306) [Obj "id_it"; Arc 9];
  Object "id_it_keyPairParamReq" (Is "id-it-keyPairParamReq") Undefined (Is 307) [Obj "id_it"; Arc 10];
  Object "id_it_keyPairParamRep" (Is "id-it-keyPairParamRep") Undefined (Is 308) [Obj "id_it"; Arc 11];
  Object "id_it_revPassphrase" (Is "id-it-revPassphrase") Undefined (Is 309) [Obj "id_it"; Arc 12];
  Object "id_it_implicitConfirm" (Is "id-it-implicitConfirm") Undefined (Is 310) [Obj "id_it"; Arc 13];
  Object "id_it_confirmWaitTime" (Is "id-it-confirmWaitTime") Undefined (Is 311) [Obj "id_it"; Arc 14];
  Object "id_it_origPKIMessage" (Is "id-it-origPKIMessage") Undefined (Is 312) [Obj "id_it"; Arc 15];
  Object "id_it_suppLangTags" (Is "id-it-suppLangTags") Undefined (Is 784) [Obj "id_it"; Arc 16];
  Object "id_it_caCerts" (Is "id-it-caCerts") Undefined (Is 1223) [Obj "id_it"; Arc 17];
  Object "id_it_rootCaKeyUpdate" (Is "id-it-rootCaKeyUpdate") Undefined (Is 1224) [Obj "id_it"; Arc 18];
  Object "id_it_certReqTemplate" (Is "id-it-certReqTemplate") Undefined (Is 1225) [Obj "id_it"; Arc 19];
  Object "id_regCtrl" (Is "id-regCtrl") Undefined (Is 313) [Obj "id_pkip"; Arc 1];
  Object "id_regInfo" (Is "id-regInfo") Undefined (Is 314) [Obj "id_pkip"; Arc 2];
  Object "id_regCtrl_regToken" (Is "id-regCtrl-regToken") Undefined (Is 315) [Obj "id_regCtrl"; Arc 1]].

Definition objects_13 : list object := [
  Object "id_regCtrl_authenticator" (Is "id-regCtrl-authenticator") Undefined (Is 316) [Obj "id_regCtrl"; Arc 2];
  Object "id_regCtrl_pkiPublicationInfo" (Is "id-regCtrl-pkiPublicationInfo") Undefined
    (Is 317) [Obj "id_regCtrl"; Arc 3];
  Object "id_regCtrl_pkiArchiveOptions" (Is "id-regCtrl-pkiArchiveOptions") Undefined
    (Is 318) [Obj "id_regCtrl"; Arc 4];
  Object "id_regCtrl_oldCertID" (Is "id-regCtrl-oldCertID") Undefined (Is 319) [Obj "id_regCtrl"; Arc 5];
  Object "id_regCtrl_protocolEncrKey" (Is "id-regCtrl-protocolEncrKey") Undefined (Is 320) [Obj "id_regCtrl"; Arc 6];
  Object "id_regInfo_utf8Pairs" (Is "id-regInfo-utf8Pairs") Undefined (Is 321) [Obj "id_regInfo"; Arc 1];
  Object "id_regInfo_certReq" (Is "id-regInfo-certReq") Undefined (Is 322) [Obj "id_regInfo"; Arc 2];
  Object "id_alg_des40" (Is "id-alg-des40") Undefined (Is 323) [Obj "id_alg"; Arc 1];
  Object "id_alg_noSignature" (Is "id-alg-noSignature") Undefined (Is 324) [Obj "id_alg"; Arc 2];
  Object "id_alg_dh_sig_hmac_sha1" (Is "id-alg-dh-sig-hmac-sha1") Undefined (Is 325) [Obj "id_alg"; Arc 3];
  Object "id_alg_dh_pop" (Is "id-alg-dh-pop") Undefined (Is 326) [Obj "id_alg"; Arc 4];
  Object "id_cmc_statusInfo" (Is "id-cmc-statusInfo") Undefined (Is 327) [Obj "id_cmc"; Arc 1];
  Object "id_cmc_identification" (Is "id-cmc-identification") Undefined (Is 328) [Obj "id_cmc"; Arc 2];
  Object "id_cmc_identityProof" (Is "id-cmc-identityProof") Undefined (Is 329) [Obj "id_cmc"; Arc 3];
  Object "id_cmc_dataReturn" (Is "id-cmc-dataReturn") Undefined (Is 330) [Obj "id_cmc"; Arc 4];
  Object "id_cmc_transactionId" (Is "id-cmc-transactionId") Undefined (Is 331) [Obj "id_cmc"; Arc 5];
  Object "id_cmc_senderNonce" (Is "id-cmc-senderNonce") Undefined (Is 332) [Obj "id_cmc"; Arc 6];
  Object "id_cmc_recipientNonce" (Is "id-cmc-recipientNonce") Undefined (Is 333) [Obj "id_cmc"; Arc 7];
  Object "id_cmc_addExtensions" (Is "id-cmc-addExtensions") Undefined (Is 334) [Obj "id_cmc"; Arc 8];
  Object "id_cmc_encryptedPOP" (Is "id-cmc-encryptedPOP") Undefined (Is 335) [Obj "id_cmc"; Arc 9];
  Object "id_cmc_decryptedPOP" (Is "id-cmc-decryptedPOP") Undefined (Is 336) [Obj "id_cmc"; Arc 10];
  Object "id_cmc_lraPOPWitness" (Is "id-cmc-lraPOPWitness") Undefined (Is 337) [Obj "id_cmc"; Arc 11];
  Object "id_cmc_getCert" (Is "id-cmc-getCert") Undefined (Is 338) [Obj "id_cmc"; Arc 15];
  Object "id_cmc_getCRL" (Is "id-cmc-getCRL") Undefined (Is 339) [Obj "id_cmc"; Arc 16];
  Object "id_cmc_revokeRequest" (Is "id-cmc-revokeRequest") Undefined (Is 340) [Obj "id_cmc"; Arc 17];
  Object "id_cmc_regInfo" (Is "id-cmc-regInfo") Undefined (Is 341) [Obj "id_cmc"; Arc 18];
  Object "id_cmc_responseInfo" (Is "id-cmc-responseInfo") Undefined (Is 342) [Obj "id_cmc"; Arc 19];
  Object "id_cmc_queryPending" (Is "id-cmc-queryPending") Undefined (Is 343) [Obj "id_cmc"; Arc 21];
  Object "id_cmc_popLinkRandom" (Is "id-cmc-popLinkRandom") Undefined (Is 344) [Obj "id_cmc"; Arc 22];
  Object "id_cmc_popLinkWitness" (Is "id-cmc-popLinkWitness") Undefined (Is 345) [Obj "id_cmc"; Arc 23];
  Object "id_cmc_confirmCertAcceptance" (Is "id-cmc-confirmCertAcceptance") Undefined (Is 346) [Obj "id_cmc"; Arc 24];
  Object "id_on_personalData" (Is "id-on-personalData") Undefined (Is 347) [Obj "id_on"; Arc 1];
  Object "id_on_permanentIdentifier" (Is "id-on-permanentIdentifier") (Is "Permanent Identifier")
    (Is 858) [Obj "id_on"; Arc 3];
  Object "XmppAddr" (Is "id-on-xmppAddr") (Is "XmppAddr") (Is 1209) [Obj "id_on"; Arc 5];
  Object "SRVName" (Is "id-on-dnsSRV") (Is "SRVName") (Is 1210) [Obj "id_on"; Arc 7];
  Object "NAIRealm" (Is "id-on-NAIRealm") (Is "NAIRealm") (Is 1211) [Obj "id_on"; Arc 8]].

Definition objects_14 : list object := [
  Object "id_on_SmtpUTF8Mailbox" (Is "id-on-SmtpUTF8Mailbox") (Is "Smtp UTF8 Mailbox") (Is 1208) [Obj "id_on"; Arc 9];
  Object "id_pda_dateOfBirth" (Is "id-pda-dateOfBirth") Undefined (Is 348) [Obj "id_pda"; Arc 1];
  Object "id_pda_placeOfBirth" (Is "id-pda-placeOfBirth") Undefined (Is 349) [Obj "id_pda"; Arc 2];
  Object "id_pda_gender" (Is "id-pda-gender") Undefined (Is 351) [Obj "id_pda"; Arc 3];
  Object "id_pda_countryOfCitizenship" (Is "id-pda-countryOfCitizenship") Undefined (Is 352) [Obj "id_pda"; Arc 4];
  Object "id_pda_countryOfResidence" (Is "id-pda-countryOfResidence") Undefined (Is 353) [Obj "id_pda"; Arc 5];
  Object "id_aca_authenticationInfo" (Is "id-aca-authenticationInfo") Undefined (Is 354) [Obj "id_aca"; Arc 1];
  Object "id_aca_accessIdentity" (Is "id-aca-accessIdentity") Undefined (Is 355) [Obj "id_aca"; Arc 2];
  Object "id_aca_chargingIdentity" (Is "id-aca-chargingIdentity") Undefined (Is 356) [Obj "id_aca"; Arc 3];
  Object "id_aca_group" (Is "id-aca-group") Undefined (Is 357) [Obj "id_aca"; Arc 4];
  Object "id_aca_role" (Is "id-aca-role") Undefined (Is 358) [Obj "id_aca"; Arc 5];
  Object "id_aca_encAttrs" (Is "id-aca-encAttrs") Undefined (Is 399) [Obj "id_aca"; Arc 6];
  Object "id_qcs_pkixQCSyntax_v1" (Is "id-qcs-pkixQCSyntax-v1") Undefined (Is 359) [Obj "id_qcs"; Arc 1];
  Object "ipAddr_asNumber" (Is "ipAddr-asNumber") Undefined (Is 1241) [Obj "id_cp"; Arc 2];
  Object "ipAddr_asNumberv2" (Is "ipAddr-asNumberv2") Undefined (Is 1242) [Obj "id_cp"; Arc 3];
  Object "id_cct_crs" (Is "id-cct-crs") Undefined (Is 360) [Obj "id_cct"; Arc 1];
  Object "id_cct_PKIData" (Is "id-cct-PKIData") Undefined (Is 361) [Obj "id_cct"; Arc 2];
  Object "id_cct_PKIResponse" (Is "id-cct-PKIResponse") Undefined (Is 362) [Obj "id_cct"; Arc 3];
  Object "id_ppl_anyLanguage" (Is "id-ppl-anyLanguage") (Is "Any language") (Is 664) [Obj "id_ppl"; Arc 0];
  Object "id_ppl_inheritAll" (Is "id-ppl-inheritAll") (Is "Inherit all") (Is 665) [Obj "id_ppl"; Arc 1];
  Object "Independent" (Is "id-ppl-independent") (Is "Independent") (Is 667) [Obj "id_ppl"; Arc 2];
  Object "ad_OCSP" (Is "OCSP") (Is "OCSP") (Is 178) [Obj "id_ad"; Arc 1];
  Object "ad_ca_issuers" (Is "caIssuers") (Is "CA Issuers") (Is 179) [Obj "id_ad"; Arc 2];
  Object "ad_timeStamping" (Is "ad_timestamping") (Is "AD Time Stamping") (Is 363) [Obj "id_ad"; Arc 3];
  Object "ad_dvcs" (Is "AD_DVCS") (Is "ad dvcs") (Is 364) [Obj "id_ad"; Arc 4];
  Object "caRepository" (Is "caRepository") (Is "CA Repository") (Is 785) [Obj "id_ad"; Arc 5];
  Object "rpkiManifest" (Is "rpkiManifest") (Is "RPKI Manifest") (Is 1243) [Obj "id_ad"; Arc 10];
  Object "signedObject" (Is "signedObject") (Is "Signed Object") (Is 1244) [Obj "id_ad"; Arc 11];
  Object "rpkiNotify" (Is "rpkiNotify") (Is "RPKI Notify") (Is 1245) [Obj "id_ad"; Arc 13];
  Object "id_pkix_OCSP" Undefined Undefined Undefined [Obj "ad_OCSP"];
  Object "id_pkix_OCSP_basic" (Is "basicOCSPResponse") (Is "Basic OCSP Response") (Is 365) [Obj "id_pkix_OCSP"; Arc 1];
  Object "id_pkix_OCSP_Nonce" (Is "Nonce") (Is "OCSP Nonce") (Is 366) [Obj "id_pkix_OCSP"; Arc 2];
  Object "id_pkix_OCSP_CrlID" (Is "CrlID") (Is "OCSP CRL ID") (Is 367) [Obj "id_pkix_OCSP"; Arc 3];
  Object "id_pkix_OCSP_acceptableResponses" (Is "acceptableResponses") (Is "Acceptable OCSP Responses")
    (Is 368) [Obj "id_pkix_OCSP"; Arc 4]].

Definition objects_15 : list object := [
  Object "id_pkix_OCSP_noCheck" (Is "noCheck") (Is "OCSP No Check") (Is 369) [Obj "id_pkix_OCSP"; Arc 5];
  Object "id_pkix_OCSP_archiveCutoff" (Is "archiveCutoff") (Is "OCSP Archive Cutoff")
    (Is 370) [Obj "id_pkix_OCSP"; Arc 6];
  Object "id_pkix_OCSP_serviceLocator" (Is "serviceLocator") (Is "OCSP Service Locator")
    (Is 371) [Obj "id_pkix_OCSP"; Arc 7];
  Object "id_pkix_OCSP_extendedStatus" (Is "extendedStatus") (Is "Extended OCSP Status")
    (Is 372) [Obj "id_pkix_OCSP"; Arc 8];
  Object "id_pkix_OCSP_valid" (Is "valid") Undefined (Is 373) [Obj "id_pkix_OCSP"; Arc 9];
  Object "id_pkix_OCSP_path" (Is "path") Undefined (Is 374) [Obj "id_pkix_OCSP"; Arc 10];
  Object "id_pkix_OCSP_trustRoot" (Is "trustRoot") (Is "Trust Root") (Is 375) [Obj "id_pkix_OCSP"; Arc 11];
  Object "algorithm" (Is "algorithm") (Is "algorithm") (Is 376) [Arc 1; Arc 3; Arc 14; Arc 3; Arc 2];
  Object "md5WithRSA" (Is "RSA-NP-MD5") (Is "md5WithRSA") (Is 104) [Obj "algorithm"; Arc 3];
  Object "des_ecb" (Is "DES-ECB") (Is "des-ecb") (Is 29) [Obj "algorithm"; Arc 6];
  Object "des_cbc" (Is "DES-CBC") (Is "des-cbc") (Is 31) [Obj "algorithm"; Arc 7];
  Object "des_ofb64" (Is "DES-OFB") (Is "des-ofb") (Is 45) [Obj "algorithm"; Arc 8];
  Object "des_cfb64" (Is "DES-CFB") (Is "des-cfb") (Is 30) [Obj "algorithm"; Arc 9];
  Object "rsaSignature" (Is "rsaSignature") Undefined (Is 377) [Obj "algorithm"; Arc 11];
  Object "dsa_2" (Is "DSA-old") (Is "dsaEncryption-old") (Is 67) [Obj "algorithm"; Arc 12];
  Object "dsaWithSHA" (Is "DSA-SHA") (Is "dsaWithSHA") (Is 66) [Obj "algorithm"; Arc 13];
  Object "shaWithRSAEncryption" (Is "RSA-SHA") (Is "shaWithRSAEncryption") (Is 42) [Obj "algorithm"; Arc 15];
  Object "des_ede_ecb" (Is "DES-EDE") (Is "des-ede") (Is 32) [Obj "algorithm"; Arc 17];
  Object "des_ede3_ecb" (Is "DES-EDE3") (Is "des-ede3") (Is 33) [];
  Object "des_ede_cbc" (Is "DES-EDE-CBC") (Is "des-ede-cbc") (Is 43) [];
  Object "des_ede_cfb64" (Is "DES-EDE-CFB") (Is "des-ede-cfb") (Is 60) [];
  Object "des_ede3_cfb64" (Is "DES-EDE3-CFB") (Is "des-ede3-cfb") (Is 61) [];
  Object "des_ede_ofb64" (Is "DES-EDE-OFB") (Is "des-ede-ofb") (Is 62) [];
  Object "des_ede3_ofb64" (Is "DES-EDE3-OFB") (Is "des-ede3-ofb") (Is 63) [];
  Object "desx_cbc" (Is "DESX-CBC") (Is "desx-cbc") (Is 80) [];
  Object "sha" (Is "SHA") (Is "sha") (Is 41) [Obj "algorithm"; Arc 18];
  Object "sha1" (Is "SHA1") (Is "sha1") (Is 64) [Obj "algorithm"; Arc 26];
  Object "dsaWithSHA1_2" (Is "DSA-SHA1-old") (Is "dsaWithSHA1-old") (Is 70) [Obj "algorithm"; Arc 27];
  Object "sha1WithRSA" (Is "RSA-SHA1-2") (Is "sha1WithRSA") (Is 115) [Obj "algorithm"; Arc 29];
  Object "ripemd160" (Is "RIPEMD160") (Is "ripemd160") (Is 117) [Arc 1; Arc 3; Arc 36; Arc 3; Arc 2; Arc 1];
  Object "ripemd160WithRSA" (Is "RSA-RIPEMD160") (Is "ripemd160WithRSA")
    (Is 119) [Arc 1; Arc 3; Arc 36; Arc 3; Arc 3; Arc 1; Arc 2];
  Object "blake2bmac" (Is "BLAKE2BMAC") (Is "blake2bmac")
    (Is 1201) [Arc 1; Arc 3; Arc 6; Arc 1; Arc 4; Arc 1; Arc 1722; Arc 12; Arc 2; Arc 1]].

Definition objects_16 : list object := [
  Object "blake2smac" (Is "BLAKE2SMAC") (Is "blake2smac")
    (Is 1202) [Arc 1; Arc 3; Arc 6; Arc 1; Arc 4; Arc 1; Arc 1722; Arc 12; Arc 2; Arc 2];
  Object "blake2b512" (Is "BLAKE2b512") (Is "blake2b512") (Is 1056) [Obj "blake2bmac"; Arc 16];
  Object "blake2s256" (Is "BLAKE2s256") (Is "blake2s256") (Is 1057) [Obj "blake2smac"; Arc 8];
  Object "sxnet" (Is "SXNetID") (Is "Strong Extranet ID") (Is 143) [Arc 1; Arc 3; Arc 101; Arc 1; Arc 4; Arc 1];
  Object "X500" (Is "X500") (Is "directory services (X.500)") (Is 11) [Arc 2; Arc 5];
  Object "X509" (Is "X509") Undefined (Is 12) [Obj "X500"; Arc 4];
  Object "commonName" (Is "CN") (Is "commonName") (Is 13) [Obj "X509"; Arc 3];
  Object "surname" (Is "SN") (Is "surname") (Is 100) [Obj "X509"; Arc 4];
  Object "serialNumber" Undefined (Is "serialNumber") (Is 105) [Obj "X509"; Arc 5];
  Object "countryName" (Is "C") (Is "countryName") (Is 14) [Obj "X509"; Arc 6];
  Object "localityName" (Is "L") (Is "localityName") (Is 15) [Obj "X509"; Arc 7];
  Object "stateOrProvinceName" (Is "ST") (Is "stateOrProvinceName") (Is 16) [Obj "X509"; Arc 8];
  Object "streetAddress" (Is "street") (Is "streetAddress") (Is 660) [Obj "X509"; Arc 9];
  Object "organizationName" (Is "O") (Is "organizationName") (Is 17) [Obj "X509"; Arc 10];
  Object "organizationalUnitName" (Is "OU") (Is "organizationalUnitName") (Is 18) [Obj "X509"; Arc 11];
  Object "title" (Is "title") (Is "title") (Is 106) [Obj "X509"; Arc 12];
  Object "description" Undefined (Is "description") (Is 107) [Obj "X509"; Arc 13];
  Object "searchGuide" Undefined (Is "searchGuide") (Is 859) [Obj "X509"; Arc 14];
  Object "businessCategory" Undefined (Is "businessCategory") (Is 860) [Obj "X509"; Arc 15];
  Object "postalAddress" Undefined (Is "postalAddress") (Is 861) [Obj "X509"; Arc 16];
  Object "postalCode" Undefined (Is "postalCode") (Is 661) [Obj "X509"; Arc 17];
  Object "postOfficeBox" Undefined (Is "postOfficeBox") (Is 862) [Obj "X509"; Arc 18];
  Object "physicalDeliveryOfficeName" Undefined (Is "physicalDeliveryOfficeName") (Is 863) [Obj "X509"; Arc 19];
  Object "telephoneNumber" Undefined (Is "telephoneNumber") (Is 864) [Obj "X509"; Arc 20];
  Object "telexNumber" Undefined (Is "telexNumber") (Is 865) [Obj "X509"; Arc 21];
  Object "teletexTerminalIdentifier" Undefined (Is "teletexTerminalIdentifier") (Is 866) [Obj "X509"; Arc 22];
  Object "facsimileTelephoneNumber" Undefined (Is "facsimileTelephoneNumber") (Is 867) [Obj "X509"; Arc 23];
  Object "x121Address" Undefined (Is "x121Address") (Is 868) [Obj "X509"; Arc 24];
  Object "internationaliSDNNumber" Undefined (Is "internationaliSDNNumber") (Is 869) [Obj "X509"; Arc 25];
  Object "registeredAddress" Undefined (Is "registeredAddress") (Is 870) [Obj "X509"; Arc 26];
  Object "destinationIndicator" Undefined (Is "destinationIndicator") (Is 871) [Obj "X509"; Arc 27];
  Object "preferredDeliveryMethod" Undefined (Is "preferredDeliveryMethod") (Is 872) [Obj "X509"; Arc 28];
  Object "presentationAddress" Undefined (Is "presentationAddress") (Is 873) [Obj "X509"; Arc 29];
  Object "supportedApplicationContext" Undefined (Is "supportedApplicationContext") (Is 874) [Obj "X509"; Arc 30]].

Definition objects_17 : list object := [
  Object "member" (Is "member") Undefined (Is 875) [Obj "X509"; Arc 31];
  Object "owner" (Is "owner") Undefined (Is 876) [Obj "X509"; Arc 32];
  Object "roleOccupant" Undefined (Is "roleOccupant") (Is 877) [Obj "X509"; Arc 33];
  Object "seeAlso" (Is "seeAlso") Undefined (Is 878) [Obj "X509"; Arc 34];
  Object "userPassword" Undefined (Is "userPassword") (Is 879) [Obj "X509"; Arc 35];
  Object "userCertificate" Undefined (Is "userCertificate") (Is 880) [Obj "X509"; Arc 36];
  Object "cACertificate" Undefined (Is "cACertificate") (Is 881) [Obj "X509"; Arc 37];
  Object "authorityRevocationList" Undefined (Is "authorityRevocationList") (Is 882) [Obj "X509"; Arc 38];
  Object "certificateRevocationList" Undefined (Is "certificateRevocationList") (Is 883) [Obj "X509"; Arc 39];
  Object "crossCertificatePair" Undefined (Is "crossCertificatePair") (Is 884) [Obj "X509"; Arc 40];
  Object "name" (Is "name") (Is "name") (Is 173) [Obj "X509"; Arc 41];
  Object "givenName" (Is "GN") (Is "givenName") (Is 99) [Obj "X509"; Arc 42];
  Object "initials" (Is "initials") (Is "initials") (Is 101) [Obj "X509"; Arc 43];
  Object "generationQualifier" Undefined (Is "generationQualifier") (Is 509) [Obj "X509"; Arc 44];
  Object "x500UniqueIdentifier" Undefined (Is "x500UniqueIdentifier") (Is 503) [Obj "X509"; Arc 45];
  Object "dnQualifier" (Is "dnQualifier") (Is "dnQualifier") (Is 174) [Obj "X509"; Arc 46];
  Object "enhancedSearchGuide" Undefined (Is "enhancedSearchGuide") (Is 885) [Obj "X509"; Arc 47];
  Object "protocolInformation" Undefined (Is "protocolInformation") (Is 886) [Obj "X509"; Arc 48];
  Object "distinguishedName" Undefined (Is "distinguishedName") (Is 887) [Obj "X509"; Arc 49];
  Object "uniqueMember" Undefined (Is "uniqueMember") (Is 888) [Obj "X509"; Arc 50];
  Object "houseIdentifier" Undefined (Is "houseIdentifier") (Is 889) [Obj "X509"; Arc 51];
  Object "supportedAlgorithms" Undefined (Is "supportedAlgorithms") (Is 890) [Obj "X509"; Arc 52];
  Object "deltaRevocationList" Undefined (Is "deltaRevocationList") (Is 891) [Obj "X509"; Arc 53];
  Object "dmdName" (Is "dmdName") Undefined (Is 892) [Obj "X509"; Arc 54];
  Object "pseudonym" Undefined (Is "pseudonym") (Is 510) [Obj "X509"; Arc 65];
  Object "role" (Is "role") (Is "role") (Is 400) [Obj "X509"; Arc 72];
  Object "organizationIdentifier" Undefined (Is "organizationIdentifier") (Is 1089) [Obj "X509"; Arc 97];
  Object "countryCode3c" (Is "c3") (Is "countryCode3c") (Is 1090) [Obj "X509"; Arc 98];
  Object "countryCode3n" (Is "n3") (Is "countryCode3n") (Is 1091) [Obj "X509"; Arc 99];
  Object "dnsName" Undefined (Is "dnsName") (Is 1092) [Obj "X509"; Arc 100];
  Object "X500algorithms" (Is "X500algorithms") (Is "directory services - algorithms") (Is 378) [Obj "X500"; Arc 8];
  Object "rsa" (Is "RSA") (Is "rsa") (Is 19) [Obj "X500algorithms"; Arc 1; Arc 1];
  Object "mdc2WithRSA" (Is "RSA-MDC2") (Is "mdc2WithRSA") (Is 96) [Obj "X500algorithms"; Arc 3; Arc 100];
  Object "mdc2" (Is "MDC2") (Is "mdc2") (Is 95) [Obj "X500algorithms"; Arc 3; Arc 101]].

Definition objects_18 : list object := [
  Object "id_ce" (Is "id-ce") Undefined (Is 81) [Obj "X500"; Arc 29];
  Object "subject_directory_attributes" (Is "subjectDirectoryAttributes") (Is "X509v3 Subject Directory Attributes")
    (Is 769) [Obj "id_ce"; Arc 9];
  Object "subject_key_identifier" (Is "subjectKeyIdentifier") (Is "X509v3 Subject Key Identifier")
    (Is 82) [Obj "id_ce"; Arc 14];
  Object "key_usage" (Is "keyUsage") (Is "X509v3 Key Usage") (Is 83) [Obj "id_ce"; Arc 15];
  Object "private_key_usage_period" (Is "privateKeyUsagePeriod") (Is "X509v3 Private Key Usage Period")
    (Is 84) [Obj "id_ce"; Arc 16];
  Object "subject_alt_name" (Is "subjectAltName") (Is "X509v3 Subject Alternative Name") (Is 85) [Obj "id_ce"; Arc 17];
  Object "issuer_alt_name" (Is "issuerAltName") (Is "X509v3 Issuer Alternative Name") (Is 86) [Obj "id_ce"; Arc 18];
  Object "basic_constraints" (Is "basicConstraints") (Is "X509v3 Basic Constraints") (Is 87) [Obj "id_ce"; Arc 19];
  Object "crl_number" (Is "crlNumber") (Is "X509v3 CRL Number") (Is 88) [Obj "id_ce"; Arc 20];
  Object "crl_reason" (Is "CRLReason") (Is "X509v3 CRL Reason Code") (Is 141) [Obj "id_ce"; Arc 21];
  Object "invalidity_date" (Is "invalidityDate") (Is "Invalidity Date") (Is 142) [Obj "id_ce"; Arc 24];
  Object "delta_crl" (Is "deltaCRL") (Is "X509v3 Delta CRL Indicator") (Is 140) [Obj "id_ce"; Arc 27];
  Object "issuing_distribution_point" (Is "issuingDistributionPoint") (Is "X509v3 Issuing Distribution Point")
    (Is 770) [Obj "id_ce"; Arc 28];
  Object "certificate_issuer" (Is "certificateIssuer") (Is "X509v3 Certificate Issuer") (Is 771) [Obj "id_ce"; Arc 29];
  Object "name_constraints" (Is "nameConstraints") (Is "X509v3 Name Constraints") (Is 666) [Obj "id_ce"; Arc 30];
  Object "crl_distribution_points" (Is "crlDistributionPoints") (Is "X509v3 CRL Distribution Points")
    (Is 103) [Obj "id_ce"; Arc 31];
  Object "certificate_policies" (Is "certificatePolicies") (Is "X509v3 Certificate Policies")
    (Is 89) [Obj "id_ce"; Arc 32];
  Object "any_policy" (Is "anyPolicy") (Is "X509v3 Any Policy") (Is 746) [Obj "certificate_policies"; Arc 0];
  Object "policy_mappings" (Is "policyMappings") (Is "X509v3 Policy Mappings") (Is 747) [Obj "id_ce"; Arc 33];
  Object "authority_key_identifier" (Is "authorityKeyIdentifier") (Is "X509v3 Authority Key Identifier")
    (Is 90) [Obj "id_ce"; Arc 35];
  Object "policy_constraints" (Is "policyConstraints") (Is "X509v3 Policy Constraints") (Is 401) [Obj "id_ce"; Arc 36];
  Object "ext_key_usage" (Is "extendedKeyUsage") (Is "X509v3 Extended Key Usage") (Is 126) [Obj "id_ce"; Arc 37];
  Object "freshest_crl" (Is "freshestCRL") (Is "X509v3 Freshest CRL") (Is 857) [Obj "id_ce"; Arc 46];
  Object "inhibit_any_policy" (Is "inhibitAnyPolicy") (Is "X509v3 Inhibit Any Policy") (Is 748) [Obj "id_ce"; Arc 54];
  Object "target_information" (Is "targetInformation") (Is "X509v3 AC Targeting") (Is 402) [Obj "id_ce"; Arc 55];
  Object "no_rev_avail" (Is "noRevAvail") (Is "X509v3 No Revocation Available") (Is 403) [Obj "id_ce"; Arc 56];
  Object "anyExtendedKeyUsage" (Is "anyExtendedKeyUsage") (Is "Any Extended Key Usage")
    (Is 910) [Obj "ext_key_usage"; Arc 0];
  Object "netscape" (Is "Netscape") (Is "Netscape Communications Corp.")
    (Is 57) [Arc 2; Arc 16; Arc 840; Arc 1; Arc 113730];
  Object "netscape_cert_extension" (Is "nsCertExt") (Is "Netscape Certificate Extension")
    (Is 58) [Obj "netscape"; Arc 1];
  Object "netscape_data_type" (Is "nsDataType") (Is "Netscape Data Type") (Is 59) [Obj "netscape"; Arc 2]].

Definition objects_19 : list object := [
  Object "netscape_cert_type" (Is "nsCertType") (Is "Netscape Cert Type")
    (Is 71) [Obj "netscape_cert_extension"; Arc 1];
  Object "netscape_base_url" (Is "nsBaseUrl") (Is "Netscape Base Url") (Is 72) [Obj "netscape_cert_extension"; Arc 2];
  Object "netscape_revocation_url" (Is "nsRevocationUrl") (Is "Netscape Revocation Url")
    (Is 73) [Obj "netscape_cert_extension"; Arc 3];
  Object "netscape_ca_revocation_url" (Is "nsCaRevocationUrl") (Is "Netscape CA Revocation Url")
    (Is 74) [Obj "netscape_cert_extension"; Arc 4];
  Object "netscape_renewal_url" (Is "nsRenewalUrl") (Is "Netscape Renewal Url")
    (Is 75) [Obj "netscape_cert_extension"; Arc 7];
  Object "netscape_ca_policy_url" (Is "nsCaPolicyUrl") (Is "Netscape CA Policy Url")
    (Is 76) [Obj "netscape_cert_extension"; Arc 8];
  Object "netscape_ssl_server_name" (Is "nsSslServerName") (Is "Netscape SSL Server Name")
    (Is 77) [Obj "netscape_cert_extension"; Arc 12];
  Object "netscape_comment" (Is "nsComment") (Is "Netscape Comment") (Is 78) [Obj "netscape_cert_extension"; Arc 13];
  Object "netscape_cert_sequence" (Is "nsCertSequence") (Is "Netscape Certificate Sequence")
    (Is 79) [Obj "netscape_data_type"; Arc 5];
  Object "ns_sgc" (Is "nsSGC") (Is "Netscape Server Gated Crypto") (Is 139) [Obj "netscape"; Arc 4; Arc 1];
  Object "org" (Is "ORG") (Is "org") (Is 379) [Obj "iso"; Arc 3];
  Object "dod" (Is "DOD") (Is "dod") (Is 380) [Obj "org"; Arc 6];
  Object "iana" (Is "IANA") (Is "iana") (Is 381) [Obj "dod"; Arc 1];
  Object "internet" Undefined Undefined Undefined [Obj "iana"];
  Object "Directory" (Is "directory") (Is "Directory") (Is 382) [Obj "internet"; Arc 1];
  Object "Management" (Is "mgmt") (Is "Management") (Is 383) [Obj "internet"; Arc 2];
  Object "Experimental" (Is "experimental") (Is "Experimental") (Is 384) [Obj "internet"; Arc 3];
  Object "Private" (Is "private") (Is "Private") (Is 385) [Obj "internet"; Arc 4];
  Object "Security" (Is "security") (Is "Security") (Is 386) [Obj "internet"; Arc 5];
  Object "SNMPv2" (Is "snmpv2") (Is "SNMPv2") (Is 387) [Obj "internet"; Arc 6];
  Object "Mail" Undefined (Is "Mail") (Is 388) [Obj "internet"; Arc 7];
  Object "Enterprises" (Is "enterprises") (Is "Enterprises") (Is 389) [Obj "Private"; Arc 1];
  Object "dcObject" (Is "dcobject") (Is "dcObject") (Is 390) [Obj "Enterprises"; Arc 1466; Arc 344];
  Object "mime_mhs" (Is "mime-mhs") (Is "MIME MHS") (Is 504) [Obj "Mail"; Arc 1];
  Object "mime_mhs_headings" (Is "mime-mhs-headings") (Is "mime-mhs-headings") (Is 505) [Obj "mime_mhs"; Arc 1];
  Object "mime_mhs_bodies" (Is "mime-mhs-bodies") (Is "mime-mhs-bodies") (Is 506) [Obj "mime_mhs"; Arc 2];
  Object "id_hex_partial_message" (Is "id-hex-partial-message") (Is "id-hex-partial-message")
    (Is 507) [Obj "mime_mhs_headings"; Arc 1];
  Object "id_hex_multipart_message" (Is "id-hex-multipart-message") (Is "id-hex-multipart-message")
    (Is 508) [Obj "mime_mhs_headings"; Arc 2];
  Object "zlib_compression" (Is "ZLIB") (Is "zlib compression") (Is 125) [Obj "id_smime_alg"; Arc 8];
  Object "csor" Undefined Undefined Undefined [Arc 2; Arc 16; Arc 840; Arc 1; Arc 101; Arc 3];
  Object "nistAlgorithms" Undefined Undefined Undefined [Obj "csor"; Arc 4];
  Object "aes" Undefined Undefined Undefined [Obj "nistAlgorithms"; Arc 1]].

Definition objects_20 : list object := [
  Object "aes_128_ecb" (Is "AES-128-ECB") (Is "aes-128-ecb") (Is 418) [Obj "aes"; Arc 1];
  Object "aes_128_cbc" (Is "AES-128-CBC") (Is "aes-128-cbc") (Is 419) [Obj "aes"; Arc 2];
  Object "aes_128_ofb128" (Is "AES-128-OFB") (Is "aes-128-ofb") (Is 420) [Obj "aes"; Arc 3];
  Object "aes_128_cfb128" (Is "AES-128-CFB") (Is "aes-128-cfb") (Is 421) [Obj "aes"; Arc 4];
  Object "id_aes128_wrap" (Is "id-aes128-wrap") Undefined (Is 788) [Obj "aes"; Arc 5];
  Object "aes_128_gcm" (Is "id-aes128-GCM") (Is "aes-128-gcm") (Is 895) [Obj "aes"; Arc 6];
  Object "aes_128_ccm" (Is "id-aes128-CCM") (Is "aes-128-ccm") (Is 896) [Obj "aes"; Arc 7];
  Object "id_aes128_wrap_pad" (Is "id-aes128-wrap-pad") Undefined (Is 897) [Obj "aes"; Arc 8];
  Object "aes_192_ecb" (Is "AES-192-ECB") (Is "aes-192-ecb") (Is 422) [Obj "aes"; Arc 21];
  Object "aes_192_cbc" (Is "AES-192-CBC") (Is "aes-192-cbc") (Is 423) [Obj "aes"; Arc 22];
  Object "aes_192_ofb128" (Is "AES-192-OFB") (Is "aes-192-ofb") (Is 424) [Obj "aes"; Arc 23];
  Object "aes_192_cfb128" (Is "AES-192-CFB") (Is "aes-192-cfb") (Is 425) [Obj "aes"; Arc 24];
  Object "id_aes192_wrap" (Is "id-aes192-wrap") Undefined (Is 789) [Obj "aes"; Arc 25];
  Object "aes_192_gcm" (Is "id-aes192-GCM") (Is "aes-192-gcm") (Is 898) [Obj "aes"; Arc 26];
  Object "aes_192_ccm" (Is "id-aes192-CCM") (Is "aes-192-ccm") (Is 899) [Obj "aes"; Arc 27];
  Object "id_aes192_wrap_pad" (Is "id-aes192-wrap-pad") Undefined (Is 900) [Obj "aes"; Arc 28];
  Object "aes_256_ecb" (Is "AES-256-ECB") (Is "aes-256-ecb") (Is 426) [Obj "aes"; Arc 41];
  Object "aes_256_cbc" (Is "AES-256-CBC") (Is "aes-256-cbc") (Is 427) [Obj "aes"; Arc 42];
  Object "aes_256_ofb128" (Is "AES-256-OFB") (Is "aes-256-ofb") (Is 428) [Obj "aes"; Arc 43];
  Object "aes_256_cfb128" (Is "AES-256-CFB") (Is "aes-256-cfb") (Is 429) [Obj "aes"; Arc 44];
  Object "id_aes256_wrap" (Is "id-aes256-wrap") Undefined (Is 790) [Obj "aes"; Arc 45];
  Object "aes_256_gcm" (Is "id-aes256-GCM") (Is "aes-256-gcm") (Is 901) [Obj "aes"; Arc 46];
  Object "aes_256_ccm" (Is "id-aes256-CCM") (Is "aes-256-ccm") (Is 902) [Obj "aes"; Arc 47];
  Object "id_aes256_wrap_pad" (Is "id-aes256-wrap-pad") Undefined (Is 903) [Obj "aes"; Arc 48];
  Object "aes_128_xts" (Is "AES-128-XTS") (Is "aes-128-xts") (Is 913) [Obj "ieee_siswg"; Arc 0; Arc 1; Arc 1];
  Object "aes_256_xts" (Is "AES-256-XTS") (Is "aes-256-xts") (Is 914) [Obj "ieee_siswg"; Arc 0; Arc 1; Arc 2];
  Object "aes_128_cfb1" (Is "AES-128-CFB1") (Is "aes-128-cfb1") (Is 650) [];
  Object "aes_192_cfb1" (Is "AES-192-CFB1") (Is "aes-192-cfb1") (Is 651) [];
  Object "aes_256_cfb1" (Is "AES-256-CFB1") (Is "aes-256-cfb1") (Is 652) [];
  Object "aes_128_cfb8" (Is "AES-128-CFB8") (Is "aes-128-cfb8") (Is 653) [];
  Object "aes_192_cfb8" (Is "AES-192-CFB8") (Is "aes-192-cfb8") (Is 654) [];
  Object "aes_256_cfb8" (Is "AES-256-CFB8") (Is "aes-256-cfb8") (Is 655) []].

Definition objects_21 : list object := [
  Object "aes_128_ctr" (Is "AES-128-CTR") (Is "aes-128-ctr") (Is 904) [];
  Object "aes_192_ctr" (Is "AES-192-CTR") (Is "aes-192-ctr") (Is 905) [];
  Object "aes_256_ctr" (Is "AES-256-CTR") (Is "aes-256-ctr") (Is 906) [];
  Object "aes_128_ocb" (Is "AES-128-OCB") (Is "aes-128-ocb") (Is 958) [];
  Object "aes_192_ocb" (Is "AES-192-OCB") (Is "aes-192-ocb") (Is 959) [];
  Object "aes_256_ocb" (Is "AES-256-OCB") (Is "aes-256-ocb") (Is 960) [];
  Object "des_cfb1" (Is "DES-CFB1") (Is "des-cfb1") (Is 656) [];
  Object "des_cfb8" (Is "DES-CFB8") (Is "des-cfb8") (Is 657) [];
  Object "des_ede3_cfb1" (Is "DES-EDE3-CFB1") (Is "des-ede3-cfb1") (Is 658) [];
  Object "des_ede3_cfb8" (Is "DES-EDE3-CFB8") (Is "des-ede3-cfb8") (Is 659) [];
  Object "nist_hashalgs" Undefined Undefined Undefined [Obj "nistAlgorithms"; Arc 2];
  Object "sha256" (Is "SHA256") (Is "sha256") (Is 672) [Obj "nist_hashalgs"; Arc 1];
  Object "sha384" (Is "SHA384") (Is "sha384") (Is 673) [Obj "nist_hashalgs"; Arc 2];
  Object "sha512" (Is "SHA512") (Is "sha512") (Is 674) [Obj "nist_hashalgs"; Arc 3];
  Object "sha224" (Is "SHA224") (Is "sha224") (Is 675) [Obj "nist_hashalgs"; Arc 4];
  Object "sha512_224" (Is "SHA512-224") (Is "sha512-224") (Is 1094) [Obj "nist_hashalgs"; Arc 5];
  Object "sha512_256" (Is "SHA512-256") (Is "sha512-256") (Is 1095) [Obj "nist_hashalgs"; Arc 6];
  Object "sha3_224" (Is "SHA3-224") (Is "sha3-224") (Is 1096) [Obj "nist_hashalgs"; Arc 7];
  Object "sha3_256" (Is "SHA3-256") (Is "sha3-256") (Is 1097) [Obj "nist_hashalgs"; Arc 8];
  Object "sha3_384" (Is "SHA3-384") (Is "sha3-384") (Is 1098) [Obj "nist_hashalgs"; Arc 9];
  Object "sha3_512" (Is "SHA3-512") (Is "sha3-512") (Is 1099) [Obj "nist_hashalgs"; Arc 10];
  Object "shake128" (Is "SHAKE128") (Is "shake128") (Is 1100) [Obj "nist_hashalgs"; Arc 11];
  Object "shake256" (Is "SHAKE256") (Is "shake256") (Is 1101) [Obj "nist_hashalgs"; Arc 12];
  Object "hmac_sha3_224" (Is "id-hmacWithSHA3-224") (Is "hmac-sha3-224") (Is 1102) [Obj "nist_hashalgs"; Arc 13];
  Object "hmac_sha3_256" (Is "id-hmacWithSHA3-256") (Is "hmac-sha3-256") (Is 1103) [Obj "nist_hashalgs"; Arc 14];
  Object "hmac_sha3_384" (Is "id-hmacWithSHA3-384") (Is "hmac-sha3-384") (Is 1104) [Obj "nist_hashalgs"; Arc 15];
  Object "hmac_sha3_512" (Is "id-hmacWithSHA3-512") (Is "hmac-sha3-512") (Is 1105) [Obj "nist_hashalgs"; Arc 16];
  Object "kmac128" (Is "KMAC128") (Is "kmac128") (Is 1196) [Obj "nist_hashalgs"; Arc 19];
  Object "kmac256" (Is "KMAC256") (Is "kmac256") (Is 1197) [Obj "nist_hashalgs"; Arc 20];
  Object "dsa_with_sha2" Undefined Undefined Undefined [Obj "nistAlgorithms"; Arc 3];
  Object "dsa_with_SHA224" (Is "dsa_with_SHA224") Undefined (Is 802) [Obj "dsa_with_sha2"; Arc 1];
  Object "dsa_with_SHA256" (Is "dsa_with_SHA256") Undefined (Is 803) [Obj "dsa_with_sha2"; Arc 2];
  Object "sigAlgs" Undefined Undefined Undefined [Obj "nistAlgorithms"; Arc 3];
  Object "dsa_with_SHA384" (Is "id-dsa-with-sha384") (Is "dsa_with_SHA384") (Is 1106) [Obj "sigAlgs"; Arc 3]].

Definition objects_22 : list object := [
  Object "dsa_with_SHA512" (Is "id-dsa-with-sha512") (Is "dsa_with_SHA512") (Is 1107) [Obj "sigAlgs"; Arc 4];
  Object "dsa_with_SHA3_224" (Is "id-dsa-with-sha3-224") (Is "dsa_with_SHA3-224") (Is 1108) [Obj "sigAlgs"; Arc 5];
  Object "dsa_with_SHA3_256" (Is "id-dsa-with-sha3-256") (Is "dsa_with_SHA3-256") (Is 1109) [Obj "sigAlgs"; Arc 6];
  Object "dsa_with_SHA3_384" (Is "id-dsa-with-sha3-384") (Is "dsa_with_SHA3-384") (Is 1110) [Obj "sigAlgs"; Arc 7];
  Object "dsa_with_SHA3_512" (Is "id-dsa-with-sha3-512") (Is "dsa_with_SHA3-512") (Is 1111) [Obj "sigAlgs"; Arc 8];
  Object "ecdsa_with_SHA3_224" (Is "id-ecdsa-with-sha3-224") (Is "ecdsa_with_SHA3-224")
    (Is 1112) [Obj "sigAlgs"; Arc 9];
  Object "ecdsa_with_SHA3_256" (Is "id-ecdsa-with-sha3-256") (Is "ecdsa_with_SHA3-256")
    (Is 1113) [Obj "sigAlgs"; Arc 10];
  Object "ecdsa_with_SHA3_384" (Is "id-ecdsa-with-sha3-384") (Is "ecdsa_with_SHA3-384")
    (Is 1114) [Obj "sigAlgs"; Arc 11];
  Object "ecdsa_with_SHA3_512" (Is "id-ecdsa-with-sha3-512") (Is "ecdsa_with_SHA3-512")
    (Is 1115) [Obj "sigAlgs"; Arc 12];
  Object "RSA_SHA3_224" (Is "id-rsassa-pkcs1-v1_5-with-sha3-224") (Is "RSA-SHA3-224")
    (Is 1116) [Obj "sigAlgs"; Arc 13];
  Object "RSA_SHA3_256" (Is "id-rsassa-pkcs1-v1_5-with-sha3-256") (Is "RSA-SHA3-256")
    (Is 1117) [Obj "sigAlgs"; Arc 14];
  Object "RSA_SHA3_384" (Is "id-rsassa-pkcs1-v1_5-with-sha3-384") (Is "RSA-SHA3-384")
    (Is 1118) [Obj "sigAlgs"; Arc 15];
  Object "RSA_SHA3_512" (Is "id-rsassa-pkcs1-v1_5-with-sha3-512") (Is "RSA-SHA3-512")
    (Is 1119) [Obj "sigAlgs"; Arc 16];
  Object "hold_instruction_code" (Is "holdInstructionCode") (Is "Hold Instruction Code")
    (Is 430) [Obj "id_ce"; Arc 23];
  Object "holdInstruction" Undefined Undefined Undefined [Obj "X9_57"; Arc 2];
  Object "hold_instruction_none" (Is "holdInstructionNone") (Is "Hold Instruction None")
    (Is 431) [Obj "holdInstruction"; Arc 1];
  Object "hold_instruction_call_issuer" (Is "holdInstructionCallIssuer") (Is "Hold Instruction Call Issuer")
    (Is 432) [Obj "holdInstruction"; Arc 2];
  Object "hold_instruction_reject" (Is "holdInstructionReject") (Is "Hold Instruction Reject")
    (Is 433) [Obj "holdInstruction"; Arc 3];
  Object "data" (Is "data") Undefined (Is 434) [Obj "itu_t"; Arc 9];
  Object "pss" (Is "pss") Undefined (Is 435) [Obj "data"; Arc 2342];
  Object "ucl" (Is "ucl") Undefined (Is 436) [Obj "pss"; Arc 19200300];
  Object "pilot" (Is "pilot") Undefined (Is 437) [Obj "ucl"; Arc 100];
  Object "pilotAttributeType" Undefined (Is "pilotAttributeType") (Is 438) [Obj "pilot"; Arc 1];
  Object "pilotAttributeSyntax" Undefined (Is "pilotAttributeSyntax") (Is 439) [Obj "pilot"; Arc 3];
  Object "pilotObjectClass" Undefined (Is "pilotObjectClass") (Is 440) [Obj "pilot"; Arc 4];
  Object "pilotGroups" Undefined (Is "pilotGroups") (Is 441) [Obj "pilot"; Arc 10];
  Object "iA5StringSyntax" Undefined (Is "iA5StringSyntax") (Is 442) [Obj "pilotAttributeSyntax"; Arc 4];
  Object "caseIgnoreIA5StringSyntax" Undefined (Is "caseIgnoreIA5StringSyntax")
    (Is 443) [Obj "pilotAttributeSyntax"; Arc 5];
  Object "pilotObject" Undefined (Is "pilotObject") (Is 444) [Obj "pilotObjectClass"; Arc 3];
  Object "pilotPerson" Undefined (Is "pilotPerson") (Is 445) [Obj "pilotObjectClass"; Arc 4];
  Object "account" (Is "account") Undefined (Is 446) [Obj "pilotObjectClass"; Arc 5];
  Object "document" (Is "document") Undefined (Is 447) [Obj "pilotObjectClass"; Arc 6];
  Object "room" (Is "room") Undefined (Is 448) [Obj "pilotObjectClass"; Arc 7]].

Definition objects_23 : list object := [
  Object "documentSeries" Undefined (Is "documentSeries") (Is 449) [Obj "pilotObjectClass"; Arc 9];
  Object "Domain" (Is "domain") (Is "Domain") (Is 392) [Obj "pilotObjectClass"; Arc 13];
  Object "rFC822localPart" Undefined (Is "rFC822localPart") (Is 450) [Obj "pilotObjectClass"; Arc 14];
  Object "dNSDomain" Undefined (Is "dNSDomain") (Is 451) [Obj "pilotObjectClass"; Arc 15];
  Object "domainRelatedObject" Undefined (Is "domainRelatedObject") (Is 452) [Obj "pilotObjectClass"; Arc 17];
  Object "friendlyCountry" Undefined (Is "friendlyCountry") (Is 453) [Obj "pilotObjectClass"; Arc 18];
  Object "simpleSecurityObject" Undefined (Is "simpleSecurityObject") (Is 454) [Obj "pilotObjectClass"; Arc 19];
  Object "pilotOrganization" Undefined (Is "pilotOrganization") (Is 455) [Obj "pilotObjectClass"; Arc 20];
  Object "pilotDSA" Undefined (Is "pilotDSA") (Is 456) [Obj "pilotObjectClass"; Arc 21];
  Object "qualityLabelledData" Undefined (Is "qualityLabelledData") (Is 457) [Obj "pilotObjectClass"; Arc 22];
  Object "userId" (Is "UID") (Is "userId") (Is 458) [Obj "pilotAttributeType"; Arc 1];
  Object "textEncodedORAddress" Undefined (Is "textEncodedORAddress") (Is 459) [Obj "pilotAttributeType"; Arc 2];
  Object "rfc822Mailbox" (Is "mail") (Is "rfc822Mailbox") (Is 460) [Obj "pilotAttributeType"; Arc 3];
  Object "info" (Is "info") Undefined (Is 461) [Obj "pilotAttributeType"; Arc 4];
  Object "favouriteDrink" Undefined (Is "favouriteDrink") (Is 462) [Obj "pilotAttributeType"; Arc 5];
  Object "roomNumber" Undefined (Is "roomNumber") (Is 463) [Obj "pilotAttributeType"; Arc 6];
  Object "photo" (Is "photo") Undefined (Is 464) [Obj "pilotAttributeType"; Arc 7];
  Object "userClass" Undefined (Is "userClass") (Is 465) [Obj "pilotAttributeType"; Arc 8];
  Object "host" (Is "host") Undefined (Is 466) [Obj "pilotAttributeType"; Arc 9];
  Object "manager" (Is "manager") Undefined (Is 467) [Obj "pilotAttributeType"; Arc 10];
  Object "documentIdentifier" Undefined (Is "documentIdentifier") (Is 468) [Obj "pilotAttributeType"; Arc 11];
  Object "documentTitle" Undefined (Is "documentTitle") (Is 469) [Obj "pilotAttributeType"; Arc 12];
  Object "documentVersion" Undefined (Is "documentVersion") (Is 470) [Obj "pilotAttributeType"; Arc 13];
  Object "documentAuthor" Undefined (Is "documentAuthor") (Is 471) [Obj "pilotAttributeType"; Arc 14];
  Object "documentLocation" Undefined (Is "documentLocation") (Is 472) [Obj "pilotAttributeType"; Arc 15];
  Object "homeTelephoneNumber" Undefined (Is "homeTelephoneNumber") (Is 473) [Obj "pilotAttributeType"; Arc 20];
  Object "secretary" (Is "secretary") Undefined (Is 474) [Obj "pilotAttributeType"; Arc 21];
  Object "otherMailbox" Undefined (Is "otherMailbox") (Is 475) [Obj "pilotAttributeType"; Arc 22];
  Object "lastModifiedTime" Undefined (Is "lastModifiedTime") (Is 476) [Obj "pilotAttributeType"; Arc 23];
  Object "lastModifiedBy" Undefined (Is "lastModifiedBy") (Is 477) [Obj "pilotAttributeType"; Arc 24];
  Object "domainComponent" (Is "DC") (Is "domainComponent") (Is 391) [Obj "pilotAttributeType"; Arc 25];
  Object "aRecord" Undefined (Is "aRecord") (Is 478) [Obj "pilotAttributeType"; Arc 26];
  Object "pilotAttributeType27" Undefined (Is "pilotAttributeType27") (Is 479) [Obj "pilotAttributeType"; Arc 27];
  Object "mXRecord" Undefined (Is "mXRecord") (Is 480) [Obj "pilotAttributeType"; Arc 28];
  Object "nSRecord" Undefined (Is "nSRecord") (Is 481) [Obj "pilotAttributeType"; Arc 29];
  Object "sOARecord" Undefined (Is "sOARecord") (Is 482) [Obj "pilotAttributeType"; Arc 30]].

Definition objects_24 : list object := [
  Object "cNAMERecord" Undefined (Is "cNAMERecord") (Is 483) [Obj "pilotAttributeType"; Arc 31];
  Object "associatedDomain" Undefined (Is "associatedDomain") (Is 484) [Obj "pilotAttributeType"; Arc 37];
  Object "associatedName" Undefined (Is "associatedName") (Is 485) [Obj "pilotAttributeType"; Arc 38];
  Object "homePostalAddress" Undefined (Is "homePostalAddress") (Is 486) [Obj "pilotAttributeType"; Arc 39];
  Object "personalTitle" Undefined (Is "personalTitle") (Is 487) [Obj "pilotAttributeType"; Arc 40];
  Object "mobileTelephoneNumber" Undefined (Is "mobileTelephoneNumber") (Is 488) [Obj "pilotAttributeType"; Arc 41];
  Object "pagerTelephoneNumber" Undefined (Is "pagerTelephoneNumber") (Is 489) [Obj "pilotAttributeType"; Arc 42];
  Object "friendlyCountryName" Undefined (Is "friendlyCountryName") (Is 490) [Obj "pilotAttributeType"; Arc 43];
  Object "uniqueIdentifier" (Is "uid") (Is "uniqueIdentifier") (Is 102) [Obj "pilotAttributeType"; Arc 44];
  Object "organizationalStatus" Undefined (Is "organizationalStatus") (Is 491) [Obj "pilotAttributeType"; Arc 45];
  Object "janetMailbox" Undefined (Is "janetMailbox") (Is 492) [Obj "pilotAttributeType"; Arc 46];
  Object "mailPreferenceOption" Undefined (Is "mailPreferenceOption") (Is 493) [Obj "pilotAttributeType"; Arc 47];
  Object "buildingName" Undefined (Is "buildingName") (Is 494) [Obj "pilotAttributeType"; Arc 48];
  Object "dSAQuality" Undefined (Is "dSAQuality") (Is 495) [Obj "pilotAttributeType"; Arc 49];
  Object "singleLevelQuality" Undefined (Is "singleLevelQuality") (Is 496) [Obj "pilotAttributeType"; Arc 50];
  Object "subtreeMinimumQuality" Undefined (Is "subtreeMinimumQuality") (Is 497) [Obj "pilotAttributeType"; Arc 51];
  Object "subtreeMaximumQuality" Undefined (Is "subtreeMaximumQuality") (Is 498) [Obj "pilotAttributeType"; Arc 52];
  Object "personalSignature" Undefined (Is "personalSignature") (Is 499) [Obj "pilotAttributeType"; Arc 53];
  Object "dITRedirect" Undefined (Is "dITRedirect") (Is 500) [Obj "pilotAttributeType"; Arc 54];
  Object "audio" (Is "audio") Undefined (Is 501) [Obj "pilotAttributeType"; Arc 55];
  Object "documentPublisher" Undefined (Is "documentPublisher") (Is 502) [Obj "pilotAttributeType"; Arc 56];
  Object "id_set" (Is "id-set") (Is "Secure Electronic Transactions")
    (Is 512) [Obj "international_organizations"; Arc 42];
  Object "set_ctype" (Is "set-ctype") (Is "content types") (Is 513) [Obj "id_set"; Arc 0];
  Object "set_msgExt" (Is "set-msgExt") (Is "message extensions") (Is 514) [Obj "id_set"; Arc 1];
  Object "set_attr" (Is "set-attr") Undefined (Is 515) [Obj "id_set"; Arc 3];
  Object "set_policy" (Is "set-policy") Undefined (Is 516) [Obj "id_set"; Arc 5];
  Object "set_certExt" (Is "set-certExt") (Is "certificate extensions") (Is 517) [Obj "id_set"; Arc 7];
  Object "set_brand" (Is "set-brand") Undefined (Is 518) [Obj "id_set"; Arc 8];
  Object "setct_PANData" (Is "setct-PANData") Undefined (Is 519) [Obj "set_ctype"; Arc 0];
  Object "setct_PANToken" (Is "setct-PANToken") Undefined (Is 520) [Obj "set_ctype"; Arc 1];
  Object "setct_PANOnly" (Is "setct-PANOnly") Undefined (Is 521) [Obj "set_ctype"; Arc 2];
  Object "setct_OIData" (Is "setct-OIData") Undefined (Is 522) [Obj "set_ctype"; Arc 3];
  Object "setct_PI" (Is "setct-PI") Undefined (Is 523) [Obj "set_ctype"; Arc 4];
  Object "setct_PIData" (Is "setct-PIData") Undefined (Is 524) [Obj "set_ctype"; Arc 5];
  Object "setct_PIDataUnsigned" (Is "setct-PIDataUnsigned") Undefined (Is 525) [Obj "set_ctype"; Arc 6];
  Object "setct_HODInput" (Is "setct-HODInput") Undefined (Is 526) [Obj "set_ctype"; Arc 7]].

Definition objects_25 : list object := [
  Object "setct_AuthResBaggage" (Is "setct-AuthResBaggage") Undefined (Is 527) [Obj "set_ctype"; Arc 8];
  Object "setct_AuthRevReqBaggage" (Is "setct-AuthRevReqBaggage") Undefined (Is 528) [Obj "set_ctype"; Arc 9];
  Object "setct_AuthRevResBaggage" (Is "setct-AuthRevResBaggage") Undefined (Is 529) [Obj "set_ctype"; Arc 10];
  Object "setct_CapTokenSeq" (Is "setct-CapTokenSeq") Undefined (Is 530) [Obj "set_ctype"; Arc 11];
  Object "setct_PInitResData" (Is "setct-PInitResData") Undefined (Is 531) [Obj "set_ctype"; Arc 12];
  Object "setct_PI_TBS" (Is "setct-PI-TBS") Undefined (Is 532) [Obj "set_ctype"; Arc 13];
  Object "setct_PResData" (Is "setct-PResData") Undefined (Is 533) [Obj "set_ctype"; Arc 14];
  Object "setct_AuthReqTBS" (Is "setct-AuthReqTBS") Undefined (Is 534) [Obj "set_ctype"; Arc 16];
  Object "setct_AuthResTBS" (Is "setct-AuthResTBS") Undefined (Is 535) [Obj "set_ctype"; Arc 17];
  Object "setct_AuthResTBSX" (Is "setct-AuthResTBSX") Undefined (Is 536) [Obj "set_ctype"; Arc 18];
  Object "setct_AuthTokenTBS" (Is "setct-AuthTokenTBS") Undefined (Is 537) [Obj "set_ctype"; Arc 19];
  Object "setct_CapTokenData" (Is "setct-CapTokenData") Undefined (Is 538) [Obj "set_ctype"; Arc 20];
  Object "setct_CapTokenTBS" (Is "setct-CapTokenTBS") Undefined (Is 539) [Obj "set_ctype"; Arc 21];
  Object "setct_AcqCardCodeMsg" (Is "setct-AcqCardCodeMsg") Undefined (Is 540) [Obj "set_ctype"; Arc 22];
  Object "setct_AuthRevReqTBS" (Is "setct-AuthRevReqTBS") Undefined (Is 541) [Obj "set_ctype"; Arc 23];
  Object "setct_AuthRevResData" (Is "setct-AuthRevResData") Undefined (Is 542) [Obj "set_ctype"; Arc 24];
  Object "setct_AuthRevResTBS" (Is "setct-AuthRevResTBS") Undefined (Is 543) [Obj "set_ctype"; Arc 25];
  Object "setct_CapReqTBS" (Is "setct-CapReqTBS") Undefined (Is 544) [Obj "set_ctype"; Arc 26];
  Object "setct_CapReqTBSX" (Is "setct-CapReqTBSX") Undefined (Is 545) [Obj "set_ctype"; Arc 27];
  Object "setct_CapResData" (Is "setct-CapResData") Undefined (Is 546) [Obj "set_ctype"; Arc 28];
  Object "setct_CapRevReqTBS" (Is "setct-CapRevReqTBS") Undefined (Is 547) [Obj "set_ctype"; Arc 29];
  Object "setct_CapRevReqTBSX" (Is "setct-CapRevReqTBSX") Undefined (Is 548) [Obj "set_ctype"; Arc 30];
  Object "setct_CapRevResData" (Is "setct-CapRevResData") Undefined (Is 549) [Obj "set_ctype"; Arc 31];
  Object "setct_CredReqTBS" (Is "setct-CredReqTBS") Undefined (Is 550) [Obj "set_ctype"; Arc 32];
  Object "setct_CredReqTBSX" (Is "setct-CredReqTBSX") Undefined (Is 551) [Obj "set_ctype"; Arc 33];
  Object "setct_CredResData" (Is "setct-CredResData") Undefined (Is 552) [Obj "set_ctype"; Arc 34];
  Object "setct_CredRevReqTBS" (Is "setct-CredRevReqTBS") Undefined (Is 553) [Obj "set_ctype"; Arc 35];
  Object "setct_CredRevReqTBSX" (Is "setct-CredRevReqTBSX") Undefined (Is 554) [Obj "set_ctype"; Arc 36];
  Object "setct_CredRevResData" (Is "setct-CredRevResData") Undefined (Is 555) [Obj "set_ctype"; Arc 37];
  Object "setct_PCertReqData" (Is "setct-PCertReqData") Undefined (Is 556) [Obj "set_ctype"; Arc 38];
  Object "setct_PCertResTBS" (Is "setct-PCertResTBS") Undefined (Is 557) [Obj "set_ctype"; Arc 39];
  Object "setct_BatchAdminReqData" (Is "setct-BatchAdminReqData") Undefined (Is 558) [Obj "set_ctype"; Arc 40];
  Object "setct_BatchAdminResData" (Is "setct-BatchAdminResData") Undefined (Is 559) [Obj "set_ctype"; Arc 41];
  Object "setct_CardCInitResTBS" (Is "setct-CardCInitResTBS") Undefined (Is 560) [Obj "set_ctype"; Arc 42];
  Object "setct_MeAqCInitResTBS" (Is "setct-MeAqCInitResTBS") Undefined (Is 561) [Obj "set_ctype"; Arc 43];
  Object "setct_RegFormResTBS" (Is "setct-RegFormResTBS") Undefined (Is 562) [Obj "set_ctype"; Arc 44];
  Object "setct_CertReqData" (Is "setct-CertReqData") Undefined (Is 563) [Obj "set_ctype"; Arc 45]].

Definition objects_26 : list object := [
  Object "setct_CertReqTBS" (Is "setct-CertReqTBS") Undefined (Is 564) [Obj "set_ctype"; Arc 46];
  Object "setct_CertResData" (Is "setct-CertResData") Undefined (Is 565) [Obj "set_ctype"; Arc 47];
  Object "setct_CertInqReqTBS" (Is "setct-CertInqReqTBS") Undefined (Is 566) [Obj "set_ctype"; Arc 48];
  Object "setct_ErrorTBS" (Is "setct-ErrorTBS") Undefined (Is 567) [Obj "set_ctype"; Arc 49];
  Object "setct_PIDualSignedTBE" (Is "setct-PIDualSignedTBE") Undefined (Is 568) [Obj "set_ctype"; Arc 50];
  Object "setct_PIUnsignedTBE" (Is "setct-PIUnsignedTBE") Undefined (Is 569) [Obj "set_ctype"; Arc 51];
  Object "setct_AuthReqTBE" (Is "setct-AuthReqTBE") Undefined (Is 570) [Obj "set_ctype"; Arc 52];
  Object "setct_AuthResTBE" (Is "setct-AuthResTBE") Undefined (Is 571) [Obj "set_ctype"; Arc 53];
  Object "setct_AuthResTBEX" (Is "setct-AuthResTBEX") Undefined (Is 572) [Obj "set_ctype"; Arc 54];
  Object "setct_AuthTokenTBE" (Is "setct-AuthTokenTBE") Undefined (Is 573) [Obj "set_ctype"; Arc 55];
  Object "setct_CapTokenTBE" (Is "setct-CapTokenTBE") Undefined (Is 574) [Obj "set_ctype"; Arc 56];
  Object "setct_CapTokenTBEX" (Is "setct-CapTokenTBEX") Undefined (Is 575) [Obj "set_ctype"; Arc 57];
  Object "setct_AcqCardCodeMsgTBE" (Is "setct-AcqCardCodeMsgTBE") Undefined (Is 576) [Obj "set_ctype"; Arc 58];
  Object "setct_AuthRevReqTBE" (Is "setct-AuthRevReqTBE") Undefined (Is 577) [Obj "set_ctype"; Arc 59];
  Object "setct_AuthRevResTBE" (Is "setct-AuthRevResTBE") Undefined (Is 578) [Obj "set_ctype"; Arc 60];
  Object "setct_AuthRevResTBEB" (Is "setct-AuthRevResTBEB") Undefined (Is 579) [Obj "set_ctype"; Arc 61];
  Object "setct_CapReqTBE" (Is "setct-CapReqTBE") Undefined (Is 580) [Obj "set_ctype"; Arc 62];
  Object "setct_CapReqTBEX" (Is "setct-CapReqTBEX") Undefined (Is 581) [Obj "set_ctype"; Arc 63];
  Object "setct_CapResTBE" (Is "setct-CapResTBE") Undefined (Is 582) [Obj "set_ctype"; Arc 64];
  Object "setct_CapRevReqTBE" (Is "setct-CapRevReqTBE") Undefined (Is 583) [Obj "set_ctype"; Arc 65];
  Object "setct_CapRevReqTBEX" (Is "setct-CapRevReqTBEX") Undefined (Is 584) [Obj "set_ctype"; Arc 66];
  Object "setct_CapRevResTBE" (Is "setct-CapRevResTBE") Undefined (Is 585) [Obj "set_ctype"; Arc 67];
  Object "setct_CredReqTBE" (Is "setct-CredReqTBE") Undefined (Is 586) [Obj "set_ctype"; Arc 68];
  Object "setct_CredReqTBEX" (Is "setct-CredReqTBEX") Undefined (Is 587) [Obj "set_ctype"; Arc 69];
  Object "setct_CredResTBE" (Is "setct-CredResTBE") Undefined (Is 588) [Obj "set_ctype"; Arc 70];
  Object "setct_CredRevReqTBE" (Is "setct-CredRevReqTBE") Undefined (Is 589) [Obj "set_ctype"; Arc 71];
  Object "setct_CredRevReqTBEX" (Is "setct-CredRevReqTBEX") Undefined (Is 590) [Obj "set_ctype"; Arc 72];
  Object "setct_CredRevResTBE" (Is "setct-CredRevResTBE") Undefined (Is 591) [Obj "set_ctype"; Arc 73];
  Object "setct_BatchAdminReqTBE" (Is "setct-BatchAdminReqTBE") Undefined (Is 592) [Obj "set_ctype"; Arc 74];
  Object "setct_BatchAdminResTBE" (Is "setct-BatchAdminResTBE") Undefined (Is 593) [Obj "set_ctype"; Arc 75];
  Object "setct_RegFormReqTBE" (Is "setct-RegFormReqTBE") Undefined (Is 594) [Obj "set_ctype"; Arc 76];
  Object "setct_CertReqTBE" (Is "setct-CertReqTBE") Undefined (Is 595) [Obj "set_ctype"; Arc 77];
  Object "setct_CertReqTBEX" (Is "setct-CertReqTBEX") Undefined (Is 596) [Obj "set_ctype"; Arc 78];
  Object "setct_CertResTBE" (Is "setct-CertResTBE") Undefined (Is 597) [Obj "set_ctype"; Arc 79];
  Object "setct_CRLNotificationTBS" (Is "setct-CRLNotificationTBS") Undefined (Is 598) [Obj "set_ctype"; Arc 80];
  Object "setct_CRLNotificationResTBS" (Is "setct-CRLNotificationResTBS") Undefined (Is 599) [Obj "set_ctype"; Arc 81];
  Object "setct_BCIDistributionTBS" (Is "setct-BCIDistributionTBS") Undefined (Is 600) [Obj "set_ctype"; Arc 82]].

Definition objects_27 : list object := [
  Object "setext_genCrypt" (Is "setext-genCrypt") (Is "generic cryptogram") (Is 601) [Obj "set_msgExt"; Arc 1];
  Object "setext_miAuth" (Is "setext-miAuth") (Is "merchant initiated auth") (Is 602) [Obj "set_msgExt"; Arc 3];
  Object "setext_pinSecure" (Is "setext-pinSecure") Undefined (Is 603) [Obj "set_msgExt"; Arc 4];
  Object "setext_pinAny" (Is "setext-pinAny") Undefined (Is 604) [Obj "set_msgExt"; Arc 5];
  Object "setext_track2" (Is "setext-track2") Undefined (Is 605) [Obj "set_msgExt"; Arc 7];
  Object "setext_cv" (Is "setext-cv") (Is "additional verification") (Is 606) [Obj "set_msgExt"; Arc 8];
  Object "set_policy_root" (Is "set-policy-root") Undefined (Is 607) [Obj "set_policy"; Arc 0];
  Object "setCext_hashedRoot" (Is "setCext-hashedRoot") Undefined (Is 608) [Obj "set_certExt"; Arc 0];
  Object "setCext_certType" (Is "setCext-certType") Undefined (Is 609) [Obj "set_certExt"; Arc 1];
  Object "setCext_merchData" (Is "setCext-merchData") Undefined (Is 610) [Obj "set_certExt"; Arc 2];
  Object "setCext_cCertRequired" (Is "setCext-cCertRequired") Undefined (Is 611) [Obj "set_certExt"; Arc 3];
  Object "setCext_tunneling" (Is "setCext-tunneling") Undefined (Is 612) [Obj "set_certExt"; Arc 4];
  Object "setCext_setExt" (Is "setCext-setExt") Undefined (Is 613) [Obj "set_certExt"; Arc 5];
  Object "setCext_setQualf" (Is "setCext-setQualf") Undefined (Is 614) [Obj "set_certExt"; Arc 6];
  Object "setCext_PGWYcapabilities" (Is "setCext-PGWYcapabilities") Undefined (Is 615) [Obj "set_certExt"; Arc 7];
  Object "setCext_TokenIdentifier" (Is "setCext-TokenIdentifier") Undefined (Is 616) [Obj "set_certExt"; Arc 8];
  Object "setCext_Track2Data" (Is "setCext-Track2Data") Undefined (Is 617) [Obj "set_certExt"; Arc 9];
  Object "setCext_TokenType" (Is "setCext-TokenType") Undefined (Is 618) [Obj "set_certExt"; Arc 10];
  Object "setCext_IssuerCapabilities" (Is "setCext-IssuerCapabilities") Undefined (Is 619) [Obj "set_certExt"; Arc 11];
  Object "setAttr_Cert" (Is "setAttr-Cert") Undefined (Is 620) [Obj "set_attr"; Arc 0];
  Object "setAttr_PGWYcap" (Is "setAttr-PGWYcap") (Is "payment gateway capabilities") (Is 621) [Obj "set_attr"; Arc 1];
  Object "setAttr_TokenType" (Is "setAttr-TokenType") Undefined (Is 622) [Obj "set_attr"; Arc 2];
  Object "setAttr_IssCap" (Is "setAttr-IssCap") (Is "issuer capabilities") (Is 623) [Obj "set_attr"; Arc 3];
  Object "set_rootKeyThumb" (Is "set-rootKeyThumb") Undefined (Is 624) [Obj "setAttr_Cert"; Arc 0];
  Object "set_addPolicy" (Is "set-addPolicy") Undefined (Is 625) [Obj "setAttr_Cert"; Arc 1];
  Object "setAttr_Token_EMV" (Is "setAttr-Token-EMV") Undefined (Is 626) [Obj "setAttr_TokenType"; Arc 1];
  Object "setAttr_Token_B0Prime" (Is "setAttr-Token-B0Prime") Undefined (Is 627) [Obj "setAttr_TokenType"; Arc 2];
  Object "setAttr_IssCap_CVM" (Is "setAttr-IssCap-CVM") Undefined (Is 628) [Obj "setAttr_IssCap"; Arc 3];
  Object "setAttr_IssCap_T2" (Is "setAttr-IssCap-T2") Undefined (Is 629) [Obj "setAttr_IssCap"; Arc 4];
  Object "setAttr_IssCap_Sig" (Is "setAttr-IssCap-Sig") Undefined (Is 630) [Obj "setAttr_IssCap"; Arc 5];
  Object "setAttr_GenCryptgrm" (Is "setAttr-GenCryptgrm") (Is "generate cryptogram")
    (Is 631) [Obj "setAttr_IssCap_CVM"; Arc 1];
  Object "setAttr_T2Enc" (Is "setAttr-T2Enc") (Is "encrypted track 2") (Is 632) [Obj "setAttr_IssCap_T2"; Arc 1];
  Object "setAttr_T2cleartxt" (Is "setAttr-T2cleartxt") (Is "cleartext track 2")
    (Is 633) [Obj "setAttr_IssCap_T2"; Arc 2];
  Object "setAttr_TokICCsig" (Is "setAttr-TokICCsig") (Is "ICC or token signature")
    (Is 634) [Obj "setAttr_IssCap_Sig"; Arc 1];
  Object "setAttr_SecDevSig" (Is "setAttr-SecDevSig") (Is "secure device signature")
    (Is 635) [Obj "setAttr_IssCap_Sig"; Arc 2]].

Definition objects_28 : list object := [
  Object "set_brand_IATA_ATA" (Is "set-brand-IATA-ATA") Undefined (Is 636) [Obj "set_brand"; Arc 1];
  Object "set_brand_Diners" (Is "set-brand-Diners") Undefined (Is 637) [Obj "set_brand"; Arc 30];
  Object "set_brand_AmericanExpress" (Is "set-brand-AmericanExpress") Undefined (Is 638) [Obj "set_brand"; Arc 34];
  Object "set_brand_JCB" (Is "set-brand-JCB") Undefined (Is 639) [Obj "set_brand"; Arc 35];
  Object "set_brand_Visa" (Is "set-brand-Visa") Undefined (Is 640) [Obj "set_brand"; Arc 4];
  Object "set_brand_MasterCard" (Is "set-brand-MasterCard") Undefined (Is 641) [Obj "set_brand"; Arc 5];
  Object "set_brand_Novus" (Is "set-brand-Novus") Undefined (Is 642) [Obj "set_brand"; Arc 6011];
  Object "des_cdmf" (Is "DES-CDMF") (Is "des-cdmf") (Is 643) [Obj "rsadsi"; Arc 3; Arc 10];
  Object "rsaOAEPEncryptionSET" (Is "rsaOAEPEncryptionSET") Undefined (Is 644) [Obj "rsadsi"; Arc 1; Arc 1; Arc 6];
  Object "ipsec3" (Is "Oakley-EC2N-3") (Is "ipsec3") (Is 749) [];
  Object "ipsec4" (Is "Oakley-EC2N-4") (Is "ipsec4") (Is 750) [];
  Object "whirlpool" (Is "whirlpool") Undefined (Is 804) [Obj "iso"; Arc 0; Arc 10118; Arc 3; Arc 0; Arc 55];
  Object "cryptopro" (Is "cryptopro") Undefined (Is 805) [Obj "member_body"; Arc 643; Arc 2; Arc 2];
  Object "cryptocom" (Is "cryptocom") Undefined (Is 806) [Obj "member_body"; Arc 643; Arc 2; Arc 9];
  Object "id_tc26" (Is "id-tc26") Undefined (Is 974) [Obj "member_body"; Arc 643; Arc 7; Arc 1];
  Object "id_GostR3411_94_with_GostR3410_2001" (Is "id-GostR3411-94-with-GostR3410-2001") (Is "GOST R 34.11-94 with GOST R 34.10-2001")
    (Is 807) [Obj "cryptopro"; Arc 3];
  Object "id_GostR3411_94_with_GostR3410_94" (Is "id-GostR3411-94-with-GostR3410-94") (Is "GOST R 34.11-94 with GOST R 34.10-94")
    (Is 808) [Obj "cryptopro"; Arc 4];
  Object "id_GostR3411_94" (Is "md_gost94") (Is "GOST R 34.11-94") (Is 809) [Obj "cryptopro"; Arc 9];
  Object "id_HMACGostR3411_94" (Is "id-HMACGostR3411-94") (Is "HMAC GOST 34.11-94") (Is 810) [Obj "cryptopro"; Arc 10];
  Object "id_GostR3410_2001" (Is "gost2001") (Is "GOST R 34.10-2001") (Is 811) [Obj "cryptopro"; Arc 19];
  Object "id_GostR3410_94" (Is "gost94") (Is "GOST R 34.10-94") (Is 812) [Obj "cryptopro"; Arc 20];
  Object "id_Gost28147_89" (Is "gost89") (Is "GOST 28147-89") (Is 813) [Obj "cryptopro"; Arc 21];
  Object "gost89_cnt" (Is "gost89-cnt") Undefined (Is 814) [];
  Object "gost89_cnt_12" (Is "gost89-cnt-12") Undefined (Is 975) [];
  Object "gost89_cbc" (Is "gost89-cbc") Undefined (Is 1009) [];
  Object "gost89_ecb" (Is "gost89-ecb") Undefined (Is 1010) [];
  Object "gost89_ctr" (Is "gost89-ctr") Undefined (Is 1011) [];
  Object "id_Gost28147_89_MAC" (Is "gost-mac") (Is "GOST 28147-89 MAC") (Is 815) [Obj "cryptopro"; Arc 22];
  Object "gost_mac_12" (Is "gost-mac-12") Undefined (Is 976) [];
  Object "id_GostR3411_94_prf" (Is "prf-gostr3411-94") (Is "GOST R 34.11-94 PRF") (Is 816) [Obj "cryptopro"; Arc 23];
  Object "id_GostR3410_2001DH" (Is "id-GostR3410-2001DH") (Is "GOST R 34.10-2001 DH")
    (Is 817) [Obj "cryptopro"; Arc 98];
  Object "id_GostR3410_94DH" (Is "id-GostR3410-94DH") (Is "GOST R 34.10-94 DH") (Is 818) [Obj "cryptopro"; Arc 99];
  Object "id_Gost28147_89_CryptoPro_KeyMeshing" (Is "id-Gost28147-89-CryptoPro-KeyMeshing") Undefined
    (Is 819) [Obj "cryptopro"; Arc 14; Arc 1];
  Object "id_Gost28147_89_None_KeyMeshing" (Is "id-Gost28147-89-None-KeyMeshing") Undefined
    (Is 820) [Obj "cryptopro"; Arc 14; Arc 0];
  Object "id_GostR3411_94_TestParamSet" (Is "id-GostR3411-94-TestParamSet") Undefined
    (Is 821) [Obj "cryptopro"; Arc 30; Arc 0];
  Object "id_GostR3411_94_CryptoProParamSet" (Is "id-GostR3411-94-CryptoProParamSet") Undefined
    (Is 822) [Obj "cryptopro"; Arc 30; Arc 1]].

Definition objects_29 : list object := [
  Object "id_Gost28147_89_TestParamSet" (Is "id-Gost28147-89-TestParamSet") Undefined
    (Is 823) [Obj "cryptopro"; Arc 31; Arc 0];
  Object "id_Gost28147_89_CryptoPro_A_ParamSet" (Is "id-Gost28147-89-CryptoPro-A-ParamSet") Undefined
    (Is 824) [Obj "cryptopro"; Arc 31; Arc 1];
  Object "id_Gost28147_89_CryptoPro_B_ParamSet" (Is "id-Gost28147-89-CryptoPro-B-ParamSet") Undefined
    (Is 825) [Obj "cryptopro"; Arc 31; Arc 2];
  Object "id_Gost28147_89_CryptoPro_C_ParamSet" (Is "id-Gost28147-89-CryptoPro-C-ParamSet") Undefined
    (Is 826) [Obj "cryptopro"; Arc 31; Arc 3];
  Object "id_Gost28147_89_CryptoPro_D_ParamSet" (Is "id-Gost28147-89-CryptoPro-D-ParamSet") Undefined
    (Is 827) [Obj "cryptopro"; Arc 31; Arc 4];
  Object "id_Gost28147_89_CryptoPro_Oscar_1_1_ParamSet" (Is "id-Gost28147-89-CryptoPro-Oscar-1-1-ParamSet") Undefined
    (Is 828) [Obj "cryptopro"; Arc 31; Arc 5];
  Object "id_Gost28147_89_CryptoPro_Oscar_1_0_ParamSet" (Is "id-Gost28147-89-CryptoPro-Oscar-1-0-ParamSet") Undefined
    (Is 829) [Obj "cryptopro"; Arc 31; Arc 6];
  Object "id_Gost28147_89_CryptoPro_RIC_1_ParamSet" (Is "id-Gost28147-89-CryptoPro-RIC-1-ParamSet") Undefined
    (Is 830) [Obj "cryptopro"; Arc 31; Arc 7];
  Object "id_GostR3410_94_TestParamSet" (Is "id-GostR3410-94-TestParamSet") Undefined
    (Is 831) [Obj "cryptopro"; Arc 32; Arc 0];
  Object "id_GostR3410_94_CryptoPro_A_ParamSet" (Is "id-GostR3410-94-CryptoPro-A-ParamSet") Undefined
    (Is 832) [Obj "cryptopro"; Arc 32; Arc 2];
  Object "id_GostR3410_94_CryptoPro_B_ParamSet" (Is "id-GostR3410-94-CryptoPro-B-ParamSet") Undefined
    (Is 833) [Obj "cryptopro"; Arc 32; Arc 3];
  Object "id_GostR3410_94_CryptoPro_C_ParamSet" (Is "id-GostR3410-94-CryptoPro-C-ParamSet") Undefined
    (Is 834) [Obj "cryptopro"; Arc 32; Arc 4];
  Object "id_GostR3410_94_CryptoPro_D_ParamSet" (Is "id-GostR3410-94-CryptoPro-D-ParamSet") Undefined
    (Is 835) [Obj "cryptopro"; Arc 32; Arc 5];
  Object "id_GostR3410_94_CryptoPro_XchA_ParamSet" (Is "id-GostR3410-94-CryptoPro-XchA-ParamSet") Undefined
    (Is 836) [Obj "cryptopro"; Arc 33; Arc 1];
  Object "id_GostR3410_94_CryptoPro_XchB_ParamSet" (Is "id-GostR3410-94-CryptoPro-XchB-ParamSet") Undefined
    (Is 837) [Obj "cryptopro"; Arc 33; Arc 2];
  Object "id_GostR3410_94_CryptoPro_XchC_ParamSet" (Is "id-GostR3410-94-CryptoPro-XchC-ParamSet") Undefined
    (Is 838) [Obj "cryptopro"; Arc 33; Arc 3];
  Object "id_GostR3410_2001_TestParamSet" (Is "id-GostR3410-2001-TestParamSet") Undefined
    (Is 839) [Obj "cryptopro"; Arc 35; Arc 0];
  Object "id_GostR3410_2001_CryptoPro_A_ParamSet" (Is "id-GostR3410-2001-CryptoPro-A-ParamSet") Undefined
    (Is 840) [Obj "cryptopro"; Arc 35; Arc 1];
  Object "id_GostR3410_2001_CryptoPro_B_ParamSet" (Is "id-GostR3410-2001-CryptoPro-B-ParamSet") Undefined
    (Is 841) [Obj "cryptopro"; Arc 35; Arc 2];
  Object "id_GostR3410_2001_CryptoPro_C_ParamSet" (Is "id-GostR3410-2001-CryptoPro-C-ParamSet") Undefined
    (Is 842) [Obj "cryptopro"; Arc 35; Arc 3];
  Object "id_GostR3410_2001_CryptoPro_XchA_ParamSet" (Is "id-GostR3410-2001-CryptoPro-XchA-ParamSet") Undefined
    (Is 843) [Obj "cryptopro"; Arc 36; Arc 0];
  Object "id_GostR3410_2001_CryptoPro_XchB_ParamSet" (Is "id-GostR3410-2001-CryptoPro-XchB-ParamSet") Undefined
    (Is 844) [Obj "cryptopro"; Arc 36; Arc 1];
  Object "id_GostR3410_94_a" (Is "id-GostR3410-94-a") Undefined (Is 845) [Obj "id_GostR3410_94"; Arc 1];
  Object "id_GostR3410_94_aBis" (Is "id-GostR3410-94-aBis") Undefined (Is 846) [Obj "id_GostR3410_94"; Arc 2];
  Object "id_GostR3410_94_b" (Is "id-GostR3410-94-b") Undefined (Is 847) [Obj "id_GostR3410_94"; Arc 3];
  Object "id_GostR3410_94_bBis" (Is "id-GostR3410-94-bBis") Undefined (Is 848) [Obj "id_GostR3410_94"; Arc 4];
  Object "id_Gost28147_89_cc" (Is "id-Gost28147-89-cc") (Is "GOST 28147-89 Cryptocom ParamSet")
    (Is 849) [Obj "cryptocom"; Arc 1; Arc 6; Arc 1];
  Object "id_GostR3410_94_cc" (Is "gost94cc") (Is "GOST 34.10-94 Cryptocom")
    (Is 850) [Obj "cryptocom"; Arc 1; Arc 5; Arc 3];
  Object "id_GostR3410_2001_cc" (Is "gost2001cc") (Is "GOST 34.10-2001 Cryptocom")
    (Is 851) [Obj "cryptocom"; Arc 1; Arc 5; Arc 4];
  Object "id_GostR3411_94_with_GostR3410_94_cc" (Is "id-GostR3411-94-with-GostR3410-94-cc") (Is "GOST R 34.11-94 with GOST R 34.10-94 Cryptocom")
    (Is 852) [Obj "cryptocom"; Arc 1; Arc 3; Arc 3];
  Object "id_GostR3411_94_with_GostR3410_2001_cc" (Is "id-GostR3411-94-with-GostR3410-2001-cc") (Is "GOST R 34.11-94 with GOST R 34.10-2001 Cryptocom")
    (Is 853) [Obj "cryptocom"; Arc 1; Arc 3; Arc 4];
  Object "id_GostR3410_2001_ParamSet_cc" (Is "id-GostR3410-2001-ParamSet-cc") (Is "GOST R 3410-2001 Parameter Set Cryptocom")
    (Is 854) [Obj "cryptocom"; Arc 1; Arc 8; Arc 1];
  Object "id_tc26_algorithms" (Is "id-tc26-algorithms") Undefined (Is 977) [Obj "id_tc26"; Arc 1];
  Object "id_tc26_sign" (Is "id-tc26-sign") Undefined (Is 978) [Obj "id_tc26_algorithms"; Arc 1];
  Object "id_GostR3410_2012_256" (Is "gost2012_256") (Is "GOST R 34.10-2012 with 256 bit modulus")
    (Is 979) [Obj "id_tc26_sign"; Arc 1]].

Definition objects_30 : list object := [
  Object "id_GostR3410_2012_512" (Is "gost2012_512") (Is "GOST R 34.10-2012 with 512 bit modulus")
    (Is 980) [Obj "id_tc26_sign"; Arc 2];
  Object "id_tc26_digest" (Is "id-tc26-digest") Undefined (Is 981) [Obj "id_tc26_algorithms"; Arc 2];
  Object "id_GostR3411_2012_256" (Is "md_gost12_256") (Is "GOST R 34.11-2012 with 256 bit hash")
    (Is 982) [Obj "id_tc26_digest"; Arc 2];
  Object "id_GostR3411_2012_512" (Is "md_gost12_512") (Is "GOST R 34.11-2012 with 512 bit hash")
    (Is 983) [Obj "id_tc26_digest"; Arc 3];
  Object "id_tc26_signwithdigest" (Is "id-tc26-signwithdigest") Undefined (Is 984) [Obj "id_tc26_algorithms"; Arc 3];
  Object "id_tc26_signwithdigest_gost3410_2012_256" (Is "id-tc26-signwithdigest-gost3410-2012-256") (Is "GOST R 34.10-2012 with GOST R 34.11-2012 (256 bit)")
    (Is 985) [Obj "id_tc26_signwithdigest"; Arc 2];
  Object "id_tc26_signwithdigest_gost3410_2012_512" (Is "id-tc26-signwithdigest-gost3410-2012-512") (Is "GOST R 34.10-2012 with GOST R 34.11-2012 (512 bit)")
    (Is 986) [Obj "id_tc26_signwithdigest"; Arc 3];
  Object "id_tc26_mac" (Is "id-tc26-mac") Undefined (Is 987) [Obj "id_tc26_algorithms"; Arc 4];
  Object "id_tc26_hmac_gost_3411_2012_256" (Is "id-tc26-hmac-gost-3411-2012-256") (Is "HMAC GOST 34.11-2012 256 bit")
    (Is 988) [Obj "id_tc26_mac"; Arc 1];
  Object "id_tc26_hmac_gost_3411_2012_512" (Is "id-tc26-hmac-gost-3411-2012-512") (Is "HMAC GOST 34.11-2012 512 bit")
    (Is 989) [Obj "id_tc26_mac"; Arc 2];
  Object "id_tc26_cipher" (Is "id-tc26-cipher") Undefined (Is 990) [Obj "id_tc26_algorithms"; Arc 5];
  Object "id_tc26_cipher_gostr3412_2015_magma" (Is "id-tc26-cipher-gostr3412-2015-magma") Undefined
    (Is 1173) [Obj "id_tc26_cipher"; Arc 1];
  Object "magma_ctr_acpkm" (Is "magma-ctr-acpkm") Undefined
    (Is 1174) [Obj "id_tc26_cipher_gostr3412_2015_magma"; Arc 1];
  Object "magma_ctr_acpkm_omac" (Is "magma-ctr-acpkm-omac") Undefined
    (Is 1175) [Obj "id_tc26_cipher_gostr3412_2015_magma"; Arc 2];
  Object "id_tc26_cipher_gostr3412_2015_kuznyechik" (Is "id-tc26-cipher-gostr3412-2015-kuznyechik") Undefined
    (Is 1176) [Obj "id_tc26_cipher"; Arc 2];
  Object "kuznyechik_ctr_acpkm" (Is "kuznyechik-ctr-acpkm") Undefined
    (Is 1177) [Obj "id_tc26_cipher_gostr3412_2015_kuznyechik"; Arc 1];
  Object "kuznyechik_ctr_acpkm_omac" (Is "kuznyechik-ctr-acpkm-omac") Undefined
    (Is 1178) [Obj "id_tc26_cipher_gostr3412_2015_kuznyechik"; Arc 2];
  Object "id_tc26_agreement" (Is "id-tc26-agreement") Undefined (Is 991) [Obj "id_tc26_algorithms"; Arc 6];
  Object "id_tc26_agreement_gost_3410_2012_256" (Is "id-tc26-agreement-gost-3410-2012-256") Undefined
    (Is 992) [Obj "id_tc26_agreement"; Arc 1];
  Object "id_tc26_agreement_gost_3410_2012_512" (Is "id-tc26-agreement-gost-3410-2012-512") Undefined
    (Is 993) [Obj "id_tc26_agreement"; Arc 2];
  Object "id_tc26_wrap" (Is "id-tc26-wrap") Undefined (Is 1179) [Obj "id_tc26_algorithms"; Arc 7];
  Object "id_tc26_wrap_gostr3412_2015_magma" (Is "id-tc26-wrap-gostr3412-2015-magma") Undefined
    (Is 1180) [Obj "id_tc26_wrap"; Arc 1];
  Object "magma_kexp15" (Is "magma-kexp15") Undefined (Is 1181) [Obj "id_tc26_wrap_gostr3412_2015_magma"; Arc 1];
  Object "id_tc26_wrap_gostr3412_2015_kuznyechik" (Is "id-tc26-wrap-gostr3412-2015-kuznyechik") Undefined
    (Is 1182) [Obj "id_tc26_wrap"; Arc 2];
  Object "kuznyechik_kexp15" (Is "kuznyechik-kexp15") Undefined
    (Is 1183) [Obj "id_tc26_wrap_gostr3412_2015_kuznyechik"; Arc 1];
  Object "id_tc26_constants" (Is "id-tc26-constants") Undefined (Is 994) [Obj "id_tc26"; Arc 2];
  Object "id_tc26_sign_constants" (Is "id-tc26-sign-constants") Undefined (Is 995) [Obj "id_tc26_constants"; Arc 1];
  Object "id_tc26_gost_3410_2012_256_constants" (Is "id-tc26-gost-3410-2012-256-constants") Undefined
    (Is 1147) [Obj "id_tc26_sign_constants"; Arc 1];
  Object "id_tc26_gost_3410_2012_256_paramSetA" (Is "id-tc26-gost-3410-2012-256-paramSetA") (Is "GOST R 34.10-2012 (256 bit) ParamSet A")
    (Is 1148) [Obj "id_tc26_gost_3410_2012_256_constants"; Arc 1];
  Object "id_tc26_gost_3410_2012_256_paramSetB" (Is "id-tc26-gost-3410-2012-256-paramSetB") (Is "GOST R 34.10-2012 (256 bit) ParamSet B")
    (Is 1184) [Obj "id_tc26_gost_3410_2012_256_constants"; Arc 2];
  Object "id_tc26_gost_3410_2012_256_paramSetC" (Is "id-tc26-gost-3410-2012-256-paramSetC") (Is "GOST R 34.10-2012 (256 bit) ParamSet C")
    (Is 1185) [Obj "id_tc26_gost_3410_2012_256_constants"; Arc 3];
  Object "id_tc26_gost_3410_2012_256_paramSetD" (Is "id-tc26-gost-3410-2012-256-paramSetD") (Is "GOST R 34.10-2012 (256 bit) ParamSet D")
    (Is 1186) [Obj "id_tc26_gost_3410_2012_256_constants"; Arc 4];
  Object "id_tc26_gost_3410_2012_512_constants" (Is "id-tc26-gost-3410-2012-512-constants") Undefined
    (Is 996) [Obj "id_tc26_sign_constants"; Arc 2];
  Object "id_tc26_gost_3410_2012_512_paramSetTest" (Is "id-tc26-gost-3410-2012-512-paramSetTest") (Is "GOST R 34.10-2012 (512 bit) testing parameter set")
    (Is 997) [Obj "id_tc26_gost_3410_2012_512_constants"; Arc 0]].

Definition objects_31 : list object := [
  Object "id_tc26_gost_3410_2012_512_paramSetA" (Is "id-tc26-gost-3410-2012-512-paramSetA") (Is "GOST R 34.10-2012 (512 bit) ParamSet A")
    (Is 998) [Obj "id_tc26_gost_3410_2012_512_constants"; Arc 1];
  Object "id_tc26_gost_3410_2012_512_paramSetB" (Is "id-tc26-gost-3410-2012-512-paramSetB") (Is "GOST R 34.10-2012 (512 bit) ParamSet B")
    (Is 999) [Obj "id_tc26_gost_3410_2012_512_constants"; Arc 2];
  Object "id_tc26_gost_3410_2012_512_paramSetC" (Is "id-tc26-gost-3410-2012-512-paramSetC") (Is "GOST R 34.10-2012 (512 bit) ParamSet C")
    (Is 1149) [Obj "id_tc26_gost_3410_2012_512_constants"; Arc 3];
  Object "id_tc26_digest_constants" (Is "id-tc26-digest-constants") Undefined
    (Is 1000) [Obj "id_tc26_constants"; Arc 2];
  Object "id_tc26_cipher_constants" (Is "id-tc26-cipher-constants") Undefined
    (Is 1001) [Obj "id_tc26_constants"; Arc 5];
  Object "id_tc26_gost_28147_constants" (Is "id-tc26-gost-28147-constants") Undefined
    (Is 1002) [Obj "id_tc26_cipher_constants"; Arc 1];
  Object "id_tc26_gost_28147_param_Z" (Is "id-tc26-gost-28147-param-Z") (Is "GOST 28147-89 TC26 parameter set")
    (Is 1003) [Obj "id_tc26_gost_28147_constants"; Arc 1];
  Object "INN" (Is "INN") (Is "INN") (Is 1004) [Obj "member_body"; Arc 643; Arc 3; Arc 131; Arc 1; Arc 1];
  Object "OGRN" (Is "OGRN") (Is "OGRN") (Is 1005) [Obj "member_body"; Arc 643; Arc 100; Arc 1];
  Object "SNILS" (Is "SNILS") (Is "SNILS") (Is 1006) [Obj "member_body"; Arc 643; Arc 100; Arc 3];
  Object "OGRNIP" (Is "OGRNIP") (Is "OGRNIP") (Is 1226) [Obj "member_body"; Arc 643; Arc 100; Arc 5];
  Object "subjectSignTool" (Is "subjectSignTool") (Is "Signing Tool of Subject")
    (Is 1007) [Obj "member_body"; Arc 643; Arc 100; Arc 111];
  Object "issuerSignTool" (Is "issuerSignTool") (Is "Signing Tool of Issuer")
    (Is 1008) [Obj "member_body"; Arc 643; Arc 100; Arc 112];
  Object "classSignTool" (Is "classSignTool") (Is "Class of Signing Tool")
    (Is 1227) [Obj "member_body"; Arc 643; Arc 100; Arc 113];
  Object "classSignToolKC1" (Is "classSignToolKC1") (Is "Class of Signing Tool KC1")
    (Is 1228) [Obj "member_body"; Arc 643; Arc 100; Arc 113; Arc 1];
  Object "classSignToolKC2" (Is "classSignToolKC2") (Is "Class of Signing Tool KC2")
    (Is 1229) [Obj "member_body"; Arc 643; Arc 100; Arc 113; Arc 2];
  Object "classSignToolKC3" (Is "classSignToolKC3") (Is "Class of Signing Tool KC3")
    (Is 1230) [Obj "member_body"; Arc 643; Arc 100; Arc 113; Arc 3];
  Object "classSignToolKB1" (Is "classSignToolKB1") (Is "Class of Signing Tool KB1")
    (Is 1231) [Obj "member_body"; Arc 643; Arc 100; Arc 113; Arc 4];
  Object "classSignToolKB2" (Is "classSignToolKB2") (Is "Class of Signing Tool KB2")
    (Is 1232) [Obj "member_body"; Arc 643; Arc 100; Arc 113; Arc 5];
  Object "classSignToolKA1" (Is "classSignToolKA1") (Is "Class of Signing Tool KA1")
    (Is 1233) [Obj "member_body"; Arc 643; Arc 100; Arc 113; Arc 6];
  Object "kuznyechik_ecb" (Is "kuznyechik-ecb") Undefined (Is 1012) [];
  Object "kuznyechik_ctr" (Is "kuznyechik-ctr") Undefined (Is 1013) [];
  Object "kuznyechik_ofb" (Is "kuznyechik-ofb") Undefined (Is 1014) [];
  Object "kuznyechik_cbc" (Is "kuznyechik-cbc") Undefined (Is 1015) [];
  Object "kuznyechik_cfb" (Is "kuznyechik-cfb") Undefined (Is 1016) [];
  Object "kuznyechik_mac" (Is "kuznyechik-mac") Undefined (Is 1017) [];
  Object "magma_ecb" (Is "magma-ecb") Undefined (Is 1187) [];
  Object "magma_ctr" (Is "magma-ctr") Undefined (Is 1188) [];
  Object "magma_ofb" (Is "magma-ofb") Undefined (Is 1189) [];
  Object "magma_cbc" (Is "magma-cbc") Undefined (Is 1190) [];
  Object "magma_cfb" (Is "magma-cfb") Undefined (Is 1191) [];
  Object "magma_mac" (Is "magma-mac") Undefined (Is 1192) [];
  Object "camellia_128_cbc" (Is "CAMELLIA-128-CBC") (Is "camellia-128-cbc")
    (Is 751) [Arc 1; Arc 2; Arc 392; Arc 200011; Arc 61; Arc 1; Arc 1; Arc 1; Arc 2];
  Object "camellia_192_cbc" (Is "CAMELLIA-192-CBC") (Is "camellia-192-cbc")
    (Is 752) [Arc 1; Arc 2; Arc 392; Arc 200011; Arc 61; Arc 1; Arc 1; Arc 1; Arc 3];
  Object "camellia_256_cbc" (Is "CAMELLIA-256-CBC") (Is "camellia-256-cbc")
    (Is 753) [Arc 1; Arc 2; Arc 392; Arc 200011; Arc 61; Arc 1; Arc 1; Arc 1; Arc 4]].

Definition objects_32 : list object := [
  Object "id_camellia128_wrap" (Is "id-camellia128-wrap") Undefined
    (Is 907) [Arc 1; Arc 2; Arc 392; Arc 200011; Arc 61; Arc 1; Arc 1; Arc 3; Arc 2];
  Object "id_camellia192_wrap" (Is "id-camellia192-wrap") Undefined
    (Is 908) [Arc 1; Arc 2; Arc 392; Arc 200011; Arc 61; Arc 1; Arc 1; Arc 3; Arc 3];
  Object "id_camellia256_wrap" (Is "id-camellia256-wrap") Undefined
    (Is 909) [Arc 1; Arc 2; Arc 392; Arc 200011; Arc 61; Arc 1; Arc 1; Arc 3; Arc 4];
  Object "ntt_ds" Undefined Undefined Undefined [Arc 0; Arc 3; Arc 4401; Arc 5];
  Object "camellia" Undefined Undefined Undefined [Obj "ntt_ds"; Arc 3; Arc 1; Arc 9];
  Object "camellia_128_ecb" (Is "CAMELLIA-128-ECB") (Is "camellia-128-ecb") (Is 754) [Obj "camellia"; Arc 1];
  Object "camellia_128_ofb128" (Is "CAMELLIA-128-OFB") (Is "camellia-128-ofb") (Is 766) [Obj "camellia"; Arc 3];
  Object "camellia_128_cfb128" (Is "CAMELLIA-128-CFB") (Is "camellia-128-cfb") (Is 757) [Obj "camellia"; Arc 4];
  Object "camellia_128_gcm" (Is "CAMELLIA-128-GCM") (Is "camellia-128-gcm") (Is 961) [Obj "camellia"; Arc 6];
  Object "camellia_128_ccm" (Is "CAMELLIA-128-CCM") (Is "camellia-128-ccm") (Is 962) [Obj "camellia"; Arc 7];
  Object "camellia_128_ctr" (Is "CAMELLIA-128-CTR") (Is "camellia-128-ctr") (Is 963) [Obj "camellia"; Arc 9];
  Object "camellia_128_cmac" (Is "CAMELLIA-128-CMAC") (Is "camellia-128-cmac") (Is 964) [Obj "camellia"; Arc 10];
  Object "camellia_192_ecb" (Is "CAMELLIA-192-ECB") (Is "camellia-192-ecb") (Is 755) [Obj "camellia"; Arc 21];
  Object "camellia_192_ofb128" (Is "CAMELLIA-192-OFB") (Is "camellia-192-ofb") (Is 767) [Obj "camellia"; Arc 23];
  Object "camellia_192_cfb128" (Is "CAMELLIA-192-CFB") (Is "camellia-192-cfb") (Is 758) [Obj "camellia"; Arc 24];
  Object "camellia_192_gcm" (Is "CAMELLIA-192-GCM") (Is "camellia-192-gcm") (Is 965) [Obj "camellia"; Arc 26];
  Object "camellia_192_ccm" (Is "CAMELLIA-192-CCM") (Is "camellia-192-ccm") (Is 966) [Obj "camellia"; Arc 27];
  Object "camellia_192_ctr" (Is "CAMELLIA-192-CTR") (Is "camellia-192-ctr") (Is 967) [Obj "camellia"; Arc 29];
  Object "camellia_192_cmac" (Is "CAMELLIA-192-CMAC") (Is "camellia-192-cmac") (Is 968) [Obj "camellia"; Arc 30];
  Object "camellia_256_ecb" (Is "CAMELLIA-256-ECB") (Is "camellia-256-ecb") (Is 756) [Obj "camellia"; Arc 41];
  Object "camellia_256_ofb128" (Is "CAMELLIA-256-OFB") (Is "camellia-256-ofb") (Is 768) [Obj "camellia"; Arc 43];
  Object "camellia_256_cfb128" (Is "CAMELLIA-256-CFB") (Is "camellia-256-cfb") (Is 759) [Obj "camellia"; Arc 44];
  Object "camellia_256_gcm" (Is "CAMELLIA-256-GCM") (Is "camellia-256-gcm") (Is 969) [Obj "camellia"; Arc 46];
  Object "camellia_256_ccm" (Is "CAMELLIA-256-CCM") (Is "camellia-256-ccm") (Is 970) [Obj "camellia"; Arc 47];
  Object "camellia_256_ctr" (Is "CAMELLIA-256-CTR") (Is "camellia-256-ctr") (Is 971) [Obj "camellia"; Arc 49];
  Object "camellia_256_cmac" (Is "CAMELLIA-256-CMAC") (Is "camellia-256-cmac") (Is 972) [Obj "camellia"; Arc 50];
  Object "camellia_128_cfb1" (Is "CAMELLIA-128-CFB1") (Is "camellia-128-cfb1") (Is 760) [];
  Object "camellia_192_cfb1" (Is "CAMELLIA-192-CFB1") (Is "camellia-192-cfb1") (Is 761) [];
  Object "camellia_256_cfb1" (Is "CAMELLIA-256-CFB1") (Is "camellia-256-cfb1") (Is 762) [];
  Object "camellia_128_cfb8" (Is "CAMELLIA-128-CFB8") (Is "camellia-128-cfb8") (Is 763) [];
  Object "camellia_192_cfb8" (Is "CAMELLIA-192-CFB8") (Is "camellia-192-cfb8") (Is 764) [];
  Object "camellia_256_cfb8" (Is "CAMELLIA-256-CFB8") (Is "camellia-256-cfb8") (Is 765) [];
  Object "aria" Undefined Undefined Undefined [Arc 1; Arc 2; Arc 410; Arc 200046; Arc 1; Arc 1]].

Definition objects_33 : list object := [
  Object "aria_128_ecb" (Is "ARIA-128-ECB") (Is "aria-128-ecb") (Is 1065) [Obj "aria"; Arc 1];
  Object "aria_128_cbc" (Is "ARIA-128-CBC") (Is "aria-128-cbc") (Is 1066) [Obj "aria"; Arc 2];
  Object "aria_128_cfb128" (Is "ARIA-128-CFB") (Is "aria-128-cfb") (Is 1067) [Obj "aria"; Arc 3];
  Object "aria_128_ofb128" (Is "ARIA-128-OFB") (Is "aria-128-ofb") (Is 1068) [Obj "aria"; Arc 4];
  Object "aria_128_ctr" (Is "ARIA-128-CTR") (Is "aria-128-ctr") (Is 1069) [Obj "aria"; Arc 5];
  Object "aria_192_ecb" (Is "ARIA-192-ECB") (Is "aria-192-ecb") (Is 1070) [Obj "aria"; Arc 6];
  Object "aria_192_cbc" (Is "ARIA-192-CBC") (Is "aria-192-cbc") (Is 1071) [Obj "aria"; Arc 7];
  Object "aria_192_cfb128" (Is "ARIA-192-CFB") (Is "aria-192-cfb") (Is 1072) [Obj "aria"; Arc 8];
  Object "aria_192_ofb128" (Is "ARIA-192-OFB") (Is "aria-192-ofb") (Is 1073) [Obj "aria"; Arc 9];
  Object "aria_192_ctr" (Is "ARIA-192-CTR") (Is "aria-192-ctr") (Is 1074) [Obj "aria"; Arc 10];
  Object "aria_256_ecb" (Is "ARIA-256-ECB") (Is "aria-256-ecb") (Is 1075) [Obj "aria"; Arc 11];
  Object "aria_256_cbc" (Is "ARIA-256-CBC") (Is "aria-256-cbc") (Is 1076) [Obj "aria"; Arc 12];
  Object "aria_256_cfb128" (Is "ARIA-256-CFB") (Is "aria-256-cfb") (Is 1077) [Obj "aria"; Arc 13];
  Object "aria_256_ofb128" (Is "ARIA-256-OFB") (Is "aria-256-ofb") (Is 1078) [Obj "aria"; Arc 14];
  Object "aria_256_ctr" (Is "ARIA-256-CTR") (Is "aria-256-ctr") (Is 1079) [Obj "aria"; Arc 15];
  Object "aria_128_cfb1" (Is "ARIA-128-CFB1") (Is "aria-128-cfb1") (Is 1080) [];
  Object "aria_192_cfb1" (Is "ARIA-192-CFB1") (Is "aria-192-cfb1") (Is 1081) [];
  Object "aria_256_cfb1" (Is "ARIA-256-CFB1") (Is "aria-256-cfb1") (Is 1082) [];
  Object "aria_128_cfb8" (Is "ARIA-128-CFB8") (Is "aria-128-cfb8") (Is 1083) [];
  Object "aria_192_cfb8" (Is "ARIA-192-CFB8") (Is "aria-192-cfb8") (Is 1084) [];
  Object "aria_256_cfb8" (Is "ARIA-256-CFB8") (Is "aria-256-cfb8") (Is 1085) [];
  Object "aria_128_ccm" (Is "ARIA-128-CCM") (Is "aria-128-ccm") (Is 1120) [Obj "aria"; Arc 37];
  Object "aria_192_ccm" (Is "ARIA-192-CCM") (Is "aria-192-ccm") (Is 1121) [Obj "aria"; Arc 38];
  Object "aria_256_ccm" (Is "ARIA-256-CCM") (Is "aria-256-ccm") (Is 1122) [Obj "aria"; Arc 39];
  Object "aria_128_gcm" (Is "ARIA-128-GCM") (Is "aria-128-gcm") (Is 1123) [Obj "aria"; Arc 34];
  Object "aria_192_gcm" (Is "ARIA-192-GCM") (Is "aria-192-gcm") (Is 1124) [Obj "aria"; Arc 35];
  Object "aria_256_gcm" (Is "ARIA-256-GCM") (Is "aria-256-gcm") (Is 1125) [Obj "aria"; Arc 36];
  Object "kisa" (Is "KISA") (Is "kisa") (Is 773) [Obj "member_body"; Arc 410; Arc 200004];
  Object "seed_ecb" (Is "SEED-ECB") (Is "seed-ecb") (Is 776) [Obj "kisa"; Arc 1; Arc 3];
  Object "seed_cbc" (Is "SEED-CBC") (Is "seed-cbc") (Is 777) [Obj "kisa"; Arc 1; Arc 4];
  Object "seed_cfb128" (Is "SEED-CFB") (Is "seed-cfb") (Is 779) [Obj "kisa"; Arc 1; Arc 5]].

Definition objects_34 : list object := [
  Object "seed_ofb128" (Is "SEED-OFB") (Is "seed-ofb") (Is 778) [Obj "kisa"; Arc 1; Arc 6];
  Object "sm4_ecb" (Is "SM4-ECB") (Is "sm4-ecb") (Is 1133) [Obj "sm_scheme"; Arc 104; Arc 1];
  Object "sm4_cbc" (Is "SM4-CBC") (Is "sm4-cbc") (Is 1134) [Obj "sm_scheme"; Arc 104; Arc 2];
  Object "sm4_ofb128" (Is "SM4-OFB") (Is "sm4-ofb") (Is 1135) [Obj "sm_scheme"; Arc 104; Arc 3];
  Object "sm4_cfb128" (Is "SM4-CFB") (Is "sm4-cfb") (Is 1137) [Obj "sm_scheme"; Arc 104; Arc 4];
  Object "sm4_cfb1" (Is "SM4-CFB1") (Is "sm4-cfb1") (Is 1136) [Obj "sm_scheme"; Arc 104; Arc 5];
  Object "sm4_cfb8" (Is "SM4-CFB8") (Is "sm4-cfb8") (Is 1138) [Obj "sm_scheme"; Arc 104; Arc 6];
  Object "sm4_ctr" (Is "SM4-CTR") (Is "sm4-ctr") (Is 1139) [Obj "sm_scheme"; Arc 104; Arc 7];
  Object "hmac" (Is "HMAC") (Is "hmac") (Is 855) [];
  Object "cmac" (Is "CMAC") (Is "cmac") (Is 894) [];
  Object "rc4_hmac_md5" (Is "RC4-HMAC-MD5") (Is "rc4-hmac-md5") (Is 915) [];
  Object "aes_128_cbc_hmac_sha1" (Is "AES-128-CBC-HMAC-SHA1") (Is "aes-128-cbc-hmac-sha1") (Is 916) [];
  Object "aes_192_cbc_hmac_sha1" (Is "AES-192-CBC-HMAC-SHA1") (Is "aes-192-cbc-hmac-sha1") (Is 917) [];
  Object "aes_256_cbc_hmac_sha1" (Is "AES-256-CBC-HMAC-SHA1") (Is "aes-256-cbc-hmac-sha1") (Is 918) [];
  Object "aes_128_cbc_hmac_sha256" (Is "AES-128-CBC-HMAC-SHA256") (Is "aes-128-cbc-hmac-sha256") (Is 948) [];
  Object "aes_192_cbc_hmac_sha256" (Is "AES-192-CBC-HMAC-SHA256") (Is "aes-192-cbc-hmac-sha256") (Is 949) [];
  Object "aes_256_cbc_hmac_sha256" (Is "AES-256-CBC-HMAC-SHA256") (Is "aes-256-cbc-hmac-sha256") (Is 950) [];
  Object "chacha20_poly1305" (Is "ChaCha20-Poly1305") (Is "chacha20-poly1305") (Is 1018) [];
  Object "chacha20" (Is "ChaCha20") (Is "chacha20") (Is 1019) [];
  Object "dhpublicnumber" (Is "dhpublicnumber") (Is "X9.42 DH") (Is 920) [Obj "ISO_US"; Arc 10046; Arc 2; Arc 1];
  Object "brainpoolP160r1" (Is "brainpoolP160r1") Undefined
    (Is 921) [Arc 1; Arc 3; Arc 36; Arc 3; Arc 3; Arc 2; Arc 8; Arc 1; Arc 1; Arc 1];
  Object "brainpoolP160t1" (Is "brainpoolP160t1") Undefined
    (Is 922) [Arc 1; Arc 3; Arc 36; Arc 3; Arc 3; Arc 2; Arc 8; Arc 1; Arc 1; Arc 2];
  Object "brainpoolP192r1" (Is "brainpoolP192r1") Undefined
    (Is 923) [Arc 1; Arc 3; Arc 36; Arc 3; Arc 3; Arc 2; Arc 8; Arc 1; Arc 1; Arc 3];
  Object "brainpoolP192t1" (Is "brainpoolP192t1") Undefined
    (Is 924) [Arc 1; Arc 3; Arc 36; Arc 3; Arc 3; Arc 2; Arc 8; Arc 1; Arc 1; Arc 4];
  Object "brainpoolP224r1" (Is "brainpoolP224r1") Undefined
    (Is 925) [Arc 1; Arc 3; Arc 36; Arc 3; Arc 3; Arc 2; Arc 8; Arc 1; Arc 1; Arc 5];
  Object "brainpoolP224t1" (Is "brainpoolP224t1") Undefined
    (Is 926) [Arc 1; Arc 3; Arc 36; Arc 3; Arc 3; Arc 2; Arc 8; Arc 1; Arc 1; Arc 6];
  Object "brainpoolP256r1" (Is "brainpoolP256r1") Undefined
    (Is 927) [Arc 1; Arc 3; Arc 36; Arc 3; Arc 3; Arc 2; Arc 8; Arc 1; Arc 1; Arc 7];
  Object "brainpoolP256t1" (Is "brainpoolP256t1") Undefined
    (Is 928) [Arc 1; Arc 3; Arc 36; Arc 3; Arc 3; Arc 2; Arc 8; Arc 1; Arc 1; Arc 8];
  Object "brainpoolP320r1" (Is "brainpoolP320r1") Undefined
    (Is 929) [Arc 1; Arc 3; Arc 36; Arc 3; Arc 3; Arc 2; Arc 8; Arc 1; Arc 1; Arc 9];
  Object "brainpoolP320t1" (Is "brainpoolP320t1") Undefined
    (Is 930) [Arc 1; Arc 3; Arc 36; Arc 3; Arc 3; Arc 2; Arc 8; Arc 1; Arc 1; Arc 10];
  Object "brainpoolP384r1" (Is "brainpoolP384r1") Undefined
    (Is 931) [Arc 1; Arc 3; Arc 36; Arc 3; Arc 3; Arc 2; Arc 8; Arc 1; Arc 1; Arc 11];
  Object "brainpoolP384t1" (Is "brainpoolP384t1") Undefined
    (Is 932) [Arc 1; Arc 3; Arc 36; Arc 3; Arc 3; Arc 2; Arc 8; Arc 1; Arc 1; Arc 12];
  Object "brainpoolP512r1" (Is "brainpoolP512r1") Undefined
    (Is 933) [Arc 1; Arc 3; Arc 36; Arc 3; Arc 3; Arc 2; Arc 8; Arc 1; Arc 1; Arc 13];
  Object "brainpoolP512t1" (Is "brainpoolP512t1") Undefined
    (Is 934) [Arc 1; Arc 3; Arc 36; Arc 3; Arc 3; Arc 2; Arc 8; Arc 1; Arc 1; Arc 14];
  Object "x9_63_scheme" Undefined Undefined Undefined [Arc 1; Arc 3; Arc 133; Arc 16; Arc 840; Arc 63; Arc 0];
  Object "secg_scheme" Undefined Undefined Undefined [Obj "certicom_arc"; Arc 1]].

Definition objects_35 : list object := [
  Object "dhSinglePass_stdDH_sha1kdf_scheme" (Is "dhSinglePass-stdDH-sha1kdf-scheme") Undefined
    (Is 936) [Obj "x9_63_scheme"; Arc 2];
  Object "dhSinglePass_stdDH_sha224kdf_scheme" (Is "dhSinglePass-stdDH-sha224kdf-scheme") Undefined
    (Is 937) [Obj "secg_scheme"; Arc 11; Arc 0];
  Object "dhSinglePass_stdDH_sha256kdf_scheme" (Is "dhSinglePass-stdDH-sha256kdf-scheme") Undefined
    (Is 938) [Obj "secg_scheme"; Arc 11; Arc 1];
  Object "dhSinglePass_stdDH_sha384kdf_scheme" (Is "dhSinglePass-stdDH-sha384kdf-scheme") Undefined
    (Is 939) [Obj "secg_scheme"; Arc 11; Arc 2];
  Object "dhSinglePass_stdDH_sha512kdf_scheme" (Is "dhSinglePass-stdDH-sha512kdf-scheme") Undefined
    (Is 940) [Obj "secg_scheme"; Arc 11; Arc 3];
  Object "dhSinglePass_cofactorDH_sha1kdf_scheme" (Is "dhSinglePass-cofactorDH-sha1kdf-scheme") Undefined
    (Is 941) [Obj "x9_63_scheme"; Arc 3];
  Object "dhSinglePass_cofactorDH_sha224kdf_scheme" (Is "dhSinglePass-cofactorDH-sha224kdf-scheme") Undefined
    (Is 942) [Obj "secg_scheme"; Arc 14; Arc 0];
  Object "dhSinglePass_cofactorDH_sha256kdf_scheme" (Is "dhSinglePass-cofactorDH-sha256kdf-scheme") Undefined
    (Is 943) [Obj "secg_scheme"; Arc 14; Arc 1];
  Object "dhSinglePass_cofactorDH_sha384kdf_scheme" (Is "dhSinglePass-cofactorDH-sha384kdf-scheme") Undefined
    (Is 944) [Obj "secg_scheme"; Arc 14; Arc 2];
  Object "dhSinglePass_cofactorDH_sha512kdf_scheme" (Is "dhSinglePass-cofactorDH-sha512kdf-scheme") Undefined
    (Is 945) [Obj "secg_scheme"; Arc 14; Arc 3];
  Object "dh_std_kdf" (Is "dh-std-kdf") Undefined (Is 946) [];
  Object "dh_cofactor_kdf" (Is "dh-cofactor-kdf") Undefined (Is 947) [];
  Object "ct_precert_scts" (Is "ct_precert_scts") (Is "CT Precertificate SCTs")
    (Is 951) [Arc 1; Arc 3; Arc 6; Arc 1; Arc 4; Arc 1; Arc 11129; Arc 2; Arc 4; Arc 2];
  Object "ct_precert_poison" (Is "ct_precert_poison") (Is "CT Precertificate Poison")
    (Is 952) [Arc 1; Arc 3; Arc 6; Arc 1; Arc 4; Arc 1; Arc 11129; Arc 2; Arc 4; Arc 3];
  Object "ct_precert_signer" (Is "ct_precert_signer") (Is "CT Precertificate Signer")
    (Is 953) [Arc 1; Arc 3; Arc 6; Arc 1; Arc 4; Arc 1; Arc 11129; Arc 2; Arc 4; Arc 4];
  Object "ct_cert_scts" (Is "ct_cert_scts") (Is "CT Certificate SCTs")
    (Is 954) [Arc 1; Arc 3; Arc 6; Arc 1; Arc 4; Arc 1; Arc 11129; Arc 2; Arc 4; Arc 5];
  Object "jurisdictionLocalityName" (Is "jurisdictionL") (Is "jurisdictionLocalityName")
    (Is 955) [Arc 1; Arc 3; Arc 6; Arc 1; Arc 4; Arc 1; Arc 311; Arc 60; Arc 2; Arc 1; Arc 1];
  Object "jurisdictionStateOrProvinceName" (Is "jurisdictionST") (Is "jurisdictionStateOrProvinceName")
    (Is 956) [Arc 1; Arc 3; Arc 6; Arc 1; Arc 4; Arc 1; Arc 311; Arc 60; Arc 2; Arc 1; Arc 2];
  Object "jurisdictionCountryName" (Is "jurisdictionC") (Is "jurisdictionCountryName")
    (Is 957) [Arc 1; Arc 3; Arc 6; Arc 1; Arc 4; Arc 1; Arc 311; Arc 60; Arc 2; Arc 1; Arc 3];
  Object "id_scrypt" (Is "id-scrypt") (Is "scrypt")
    (Is 973) [Arc 1; Arc 3; Arc 6; Arc 1; Arc 4; Arc 1; Arc 11591; Arc 4; Arc 11];
  Object "tls1_prf" (Is "TLS1-PRF") (Is "tls1-prf") (Is 1021) [];
  Object "hkdf" (Is "HKDF") (Is "hkdf") (Is 1036) [];
  Object "sshkdf" (Is "SSHKDF") (Is "sshkdf") (Is 1203) [];
  Object "sskdf" (Is "SSKDF") (Is "sskdf") (Is 1205) [];
  Object "x942kdf" (Is "X942KDF") (Is "x942kdf") (Is 1207) [];
  Object "x963kdf" (Is "X963KDF") (Is "x963kdf") (Is 1206) [];
  Object "id_pkinit" (Is "id-pkinit") Undefined (Is 1031) [Arc 1; Arc 3; Arc 6; Arc 1; Arc 5; Arc 2; Arc 3];
  Object "pkInitClientAuth" (Is "pkInitClientAuth") (Is "PKINIT Client Auth") (Is 1032) [Obj "id_pkinit"; Arc 4];
  Object "pkInitKDC" (Is "pkInitKDC") (Is "Signing KDC Response") (Is 1033) [Obj "id_pkinit"; Arc 5];
  Object "X25519" (Is "X25519") Undefined (Is 1034) [Arc 1; Arc 3; Arc 101; Arc 110];
  Object "X448" (Is "X448") Undefined (Is 1035) [Arc 1; Arc 3; Arc 101; Arc 111];
  Object "ED25519" (Is "ED25519") Undefined (Is 1087) [Arc 1; Arc 3; Arc 101; Arc 112];
  Object "ED448" (Is "ED448") Undefined (Is 1088) [Arc 1; Arc 3; Arc 101; Arc 113];
  Object "kx_rsa" (Is "KxRSA") (Is "kx-rsa") (Is 1037) [];
  Object "kx_ecdhe" (Is "KxECDHE") (Is "kx-ecdhe") (Is 1038) []].

Definition objects_36 : list object := [
  Object "kx_dhe" (Is "KxDHE") (Is "kx-dhe") (Is 1039) [];
  Object "kx_ecdhe_psk" (Is "KxECDHE-PSK") (Is "kx-ecdhe-psk") (Is 1040) [];
  Object "kx_dhe_psk" (Is "KxDHE-PSK") (Is "kx-dhe-psk") (Is 1041) [];
  Object "kx_rsa_psk" (Is "KxRSA_PSK") (Is "kx-rsa-psk") (Is 1042) [];
  Object "kx_psk" (Is "KxPSK") (Is "kx-psk") (Is 1043) [];
  Object "kx_srp" (Is "KxSRP") (Is "kx-srp") (Is 1044) [];
  Object "kx_gost" (Is "KxGOST") (Is "kx-gost") (Is 1045) [];
  Object "kx_gost18" (Is "KxGOST18") (Is "kx-gost18") (Is 1218) [];
  Object "kx_any" (Is "KxANY") (Is "kx-any") (Is 1063) [];
  Object "auth_rsa" (Is "AuthRSA") (Is "auth-rsa") (Is 1046) [];
  Object "auth_ecdsa" (Is "AuthECDSA") (Is "auth-ecdsa") (Is 1047) [];
  Object "auth_psk" (Is "AuthPSK") (Is "auth-psk") (Is 1048) [];
  Object "auth_dss" (Is "AuthDSS") (Is "auth-dss") (Is 1049) [];
  Object "auth_gost01" (Is "AuthGOST01") (Is "auth-gost01") (Is 1050) [];
  Object "auth_gost12" (Is "AuthGOST12") (Is "auth-gost12") (Is 1051) [];
  Object "auth_srp" (Is "AuthSRP") (Is "auth-srp") (Is 1052) [];
  Object "auth_null" (Is "AuthNULL") (Is "auth-null") (Is 1053) [];
  Object "auth_any" (Is "AuthANY") (Is "auth-any") (Is 1064) [];
  Object "poly1305" (Is "Poly1305") (Is "poly1305") (Is 1061) [];
  Object "siphash" (Is "SipHash") (Is "siphash") (Is 1062) [];
  Object "ffdhe2048" (Is "ffdhe2048") Undefined (Is 1126) [];
  Object "ffdhe3072" (Is "ffdhe3072") Undefined (Is 1127) [];
  Object "ffdhe4096" (Is "ffdhe4096") Undefined (Is 1128) [];
  Object "ffdhe6144" (Is "ffdhe6144") Undefined (Is 1129) [];
  Object "ffdhe8192" (Is "ffdhe8192") Undefined (Is 1130) [];
  Object "modp_1536" (Is "modp_1536") Undefined (Is 1212) [];
  Object "modp_2048" (Is "modp_2048") Undefined (Is 1213) [];
  Object "modp_3072" (Is "modp_3072") Undefined (Is 1214) [];
  Object "modp_4096" (Is "modp_4096") Undefined (Is 1215) [];
  Object "modp_6144" (Is "modp_6144") Undefined (Is 1216) [];
  Object "modp_8192" (Is "modp_8192") Undefined (Is 1217) [];
  Object "ISO_UA" (Is "ISO-UA") Undefined (Is 1150) [Obj "member_body"; Arc 804];
  Object "ua_pki" (Is "ua-pki") Undefined (Is 1151) [Obj "ISO_UA"; Arc 2; Arc 1; Arc 1; Arc 1];
  Object "dstu28147" (Is "dstu28147") (Is "DSTU Gost 28147-2009") (Is 1152) [Obj "ua_pki"; Arc 1; Arc 1; Arc 1];
  Object "dstu28147_ofb" (Is "dstu28147-ofb") (Is "DSTU Gost 28147-2009 OFB mode") (Is 1153) [Obj "dstu28147"; Arc 2];
  Object "dstu28147_cfb" (Is "dstu28147-cfb") (Is "DSTU Gost 28147-2009 CFB mode") (Is 1154) [Obj "dstu28147"; Arc 3];
  Object "dstu28147_wrap" (Is "dstu28147-wrap") (Is "DSTU Gost 28147-2009 key wrap")
    (Is 1155) [Obj "dstu28147"; Arc 5];
  Object "hmacWithDstu34311" (Is "hmacWithDstu34311") (Is "HMAC DSTU Gost 34311-95")
    (Is 1156) [Obj "ua_pki"; Arc 1; Arc 1; Arc 2]].

Definition objects_37 : list object := [
  Object "dstu34311" (Is "dstu34311") (Is "DSTU Gost 34311-95") (Is 1157) [Obj "ua_pki"; Arc 1; Arc 2; Arc 1];
  Object "dstu4145le" (Is "dstu4145le") (Is "DSTU 4145-2002 little endian")
    (Is 1158) [Obj "ua_pki"; Arc 1; Arc 3; Arc 1; Arc 1];
  Object "dstu4145be" (Is "dstu4145be") (Is "DSTU 4145-2002 big endian") (Is 1159) [Obj "dstu4145le"; Arc 1; Arc 1];
  Object "uacurve0" (Is "uacurve0") (Is "DSTU curve 0") (Is 1160) [Obj "dstu4145le"; Arc 2; Arc 0];
  Object "uacurve1" (Is "uacurve1") (Is "DSTU curve 1") (Is 1161) [Obj "dstu4145le"; Arc 2; Arc 1];
  Object "uacurve2" (Is "uacurve2") (Is "DSTU curve 2") (Is 1162) [Obj "dstu4145le"; Arc 2; Arc 2];
  Object "uacurve3" (Is "uacurve3") (Is "DSTU curve 3") (Is 1163) [Obj "dstu4145le"; Arc 2; Arc 3];
  Object "uacurve4" (Is "uacurve4") (Is "DSTU curve 4") (Is 1164) [Obj "dstu4145le"; Arc 2; Arc 4];
  Object "uacurve5" (Is "uacurve5") (Is "DSTU curve 5") (Is 1165) [Obj "dstu4145le"; Arc 2; Arc 5];
  Object "uacurve6" (Is "uacurve6") (Is "DSTU curve 6") (Is 1166) [Obj "dstu4145le"; Arc 2; Arc 6];
  Object "uacurve7" (Is "uacurve7") (Is "DSTU curve 7") (Is 1167) [Obj "dstu4145le"; Arc 2; Arc 7];
  Object "uacurve8" (Is "uacurve8") (Is "DSTU curve 8") (Is 1168) [Obj "dstu4145le"; Arc 2; Arc 8];
  Object "uacurve9" (Is "uacurve9") (Is "DSTU curve 9") (Is 1169) [Obj "dstu4145le"; Arc 2; Arc 9];
  Object "aes_128_siv" (Is "AES-128-SIV") (Is "aes-128-siv") (Is 1198) [];
  Object "aes_192_siv" (Is "AES-192-SIV") (Is "aes-192-siv") (Is 1199) [];
  Object "aes_256_siv" (Is "AES-256-SIV") (Is "aes-256-siv") (Is 1200) []].

(** The names that are there unless OPENSSL_NO_DEPRECATED_3_0 is defined. *)
Definition deprecated_objects : list object := [
  Object "id_tc26_cipher_gostr3412_2015_magma_ctracpkm" (Alias "magma_ctr_acpkm") Undefined
    (Alias "magma_ctr_acpkm") [Obj "magma_ctr_acpkm"];
  Object "id_tc26_cipher_gostr3412_2015_magma_ctracpkm_omac" (Alias "magma_ctr_acpkm_omac") Undefined
    (Alias "magma_ctr_acpkm_omac") [Obj "magma_ctr_acpkm_omac"];
  Object "id_tc26_cipher_gostr3412_2015_kuznyechik_ctracpkm" (Alias "kuznyechik_ctr_acpkm") Undefined
    (Alias "kuznyechik_ctr_acpkm") [Obj "kuznyechik_ctr_acpkm"];
  Object "id_tc26_cipher_gostr3412_2015_kuznyechik_ctracpkm_omac" (Alias "kuznyechik_ctr_acpkm_omac") Undefined
    (Alias "kuznyechik_ctr_acpkm_omac") [Obj "kuznyechik_ctr_acpkm_omac"];
  Object "id_tc26_wrap_gostr3412_2015_magma_kexp15" (Alias "magma_kexp15") Undefined
    (Alias "magma_kexp15") [Obj "magma_kexp15"];
  Object "id_tc26_wrap_gostr3412_2015_kuznyechik_kexp15" (Alias "kuznyechik_kexp15") Undefined
    (Alias "kuznyechik_kexp15") [Obj "kuznyechik_kexp15"];
  Object "grasshopper_ecb" (Alias "kuznyechik_ecb") Undefined (Alias "kuznyechik_ecb") [];
  Object "grasshopper_ctr" (Alias "kuznyechik_ctr") Undefined (Alias "kuznyechik_ctr") [];
  Object "grasshopper_ofb" (Alias "kuznyechik_ofb") Undefined (Alias "kuznyechik_ofb") [];
  Object "grasshopper_cbc" (Alias "kuznyechik_cbc") Undefined (Alias "kuznyechik_cbc") [];
  Object "grasshopper_cfb" (Alias "kuznyechik_cfb") Undefined (Alias "kuznyechik_cfb") [];
  Object "grasshopper_mac" (Alias "kuznyechik_mac") Undefined (Alias "kuznyechik_mac") []].

Definition objects : list object := (
  objects_1 ++ objects_2 ++ objects_3 ++ objects_4 ++ objects_5 ++ objects_6 ++ objects_7 ++ objects_8 ++
  objects_9 ++ objects_10 ++ objects_11 ++ objects_12 ++ objects_13 ++ objects_14 ++ objects_15 ++ objects_16 ++
  objects_17 ++ objects_18 ++ objects_19 ++ objects_20 ++ objects_21 ++ objects_22 ++ objects_23 ++ objects_24 ++
  objects_25 ++ objects_26 ++ objects_27 ++ objects_28 ++ objects_29 ++ objects_30 ++ objects_31 ++ objects_32 ++
  objects_33 ++ objects_34 ++ objects_35 ++ objects_36 ++ objects_37)%list.

(** The table of a build. *)
Definition obj_mac (OPENSSL_NO_DEPRECATED_3_0 : bool) : list object :=
  if OPENSSL_NO_DEPRECATED_3_0 then objects else (objects ++ deprecated_objects)%list.
