(* ===== verification/Objects.v ===== *)
(** * What the preprocessor makes of OpenSSL's objects

    The names, numbers and identifiers that the macros of [ObjMac] expand to. A
    macro's body may name another macro, so expansion is given fuel; the
    definitions are not cyclic, and sixteen levels are enough
    ([ObjProperties]). *)

From S2P Require Import Prelude ObjMac.
From stdpp Require Import strings ssreflect.
Local Open Scope string_scope.
Local Open Scope Z_scope.

(** The macros that are defined, by the name of their object. *)
Definition obj_macros (nd : bool) : gmap string object := list_to_map ((λ o, (obj_name o, o)) <$> obj_mac nd).

Section expand.
Context (m : gmap string object).

(** [SN_x], [LN_x] or [NID_x]. *)
Fixpoint expand_body {A} (field : object → body A) (fuel : nat) (x : string) : option A :=
  match fuel with
  | O => None
  | S fuel =>
      o ← m !! x;
      match field o with
      | Undefined => None
      | Is v => Some v
      | Alias y => expand_body field fuel y
      end
  end.

(** The object whose macros [NID_x] stands for. *)
Fixpoint canonical (fuel : nat) (x : string) : string :=
  match fuel with
  | O => x
  | S fuel => match NID <$> m !! x with Some (Alias y) => canonical fuel y | _ => x end
  end.

(** The items of a body, each expanded by [expand]. *)
Fixpoint expand_items (expand : string → option (list Z)) (l : list item) : option (list Z) :=
  match l with
  | [] => Some []
  | Arc n :: l => cons n <$> expand_items expand l
  | Obj y :: l => oid ← expand y; app oid <$> expand_items expand l
  end.

(** [OBJ_x]: the arcs it expands to. *)
Fixpoint expand_oid (fuel : nat) (x : string) : option (list Z) :=
  match fuel with
  | O => None
  | S fuel =>
      o ← m !! x;
      match OBJ o with [] => None | l => expand_items (expand_oid fuel) l end
  end.

Lemma expand_oid_items fuel x o :
  m !! x = Some o → OBJ o ≠ [] → expand_oid (S fuel) x = expand_items (expand_oid fuel) (OBJ o).
Proof. intros H Ho. cbn. rewrite H. cbn. by destruct (OBJ o). Qed.

Lemma expand_oid_mono fuel fuel' x oid :
  (fuel ≤ fuel')%nat → expand_oid fuel x = Some oid → expand_oid fuel' x = Some oid.
Proof.
  revert fuel' x oid. induction fuel as [|fuel IH]; intros [|fuel'] x oid Hle; [done|done|lia|].
  cbn. destruct (m !! x) as [o|]; [cbn|done].
  assert (∀ l oid, expand_items (expand_oid fuel) l = Some oid →
                   expand_items (expand_oid fuel') l = Some oid) as Hitems.
  { induction l as [|[n|y] l IHl]; cbn; intros oid'; [done| |].
    - intros (r & Hr & ->)%fmap_Some. by rewrite (IHl r).
    - intros (r & Hr & (r' & Hr' & ->)%fmap_Some)%bind_Some. rewrite (IH fuel' y r); [|lia|done].
      cbn. by rewrite (IHl r'). }
  destruct (OBJ o) as [|i l]; [done|]. apply (Hitems (i :: l)).
Qed.
End expand.

Definition depth : nat := 16.

(** The macros of the header as a program sees them. *)
Definition NID_of (nd : bool) (x : string) : option Z := expand_body (obj_macros nd) NID depth x.
Definition SN_of (nd : bool) (x : string) : option string := expand_body (obj_macros nd) SN depth x.
Definition LN_of (nd : bool) (x : string) : option string := expand_body (obj_macros nd) LN depth x.
Definition OBJ_of (nd : bool) (x : string) : option (list Z) := expand_oid (obj_macros nd) depth x.
Definition canonical_name (nd : bool) (x : string) : string := canonical (obj_macros nd) depth x.

(** What X.660 asks of an identifier: the first arc is 0, 1 or 2, and below 0
    and 1 the second is less than 40. The arcs have the suffix [L], so on every
    platform they have to fit 31 bits. *)
Definition valid_oid (oid : list Z) : bool :=
  forallb (λ n, (0 <=? n) && (n <? 2 ^ 31)) oid &&
  match oid with
  | [] => false
  | [a] => a <=? 2
  | a :: b :: _ => (a <=? 2) && ((a =? 2) || (b <? 40))
  end.

(** ** Lemmas *)


Lemma obj_macros_lookup nd x o : obj_macros nd !! x = Some o → o ∈ obj_mac nd ∧ obj_name o = x.
Proof.
  unfold obj_macros. intros H%elem_of_list_to_map_2. apply list_elem_of_fmap in H as (o' & [= -> ->] & Ho). done.
Qed.
#[local] Opaque obj_macros.

Lemma expand_body_name {A} nd (field : object → body A) fuel x v :
  expand_body (obj_macros nd) field fuel x = Some v → x ∈ obj_name <$> obj_mac nd.
Proof.
  destruct fuel as [|fuel]; [done|]. cbn. intros (o & Ho & _)%bind_Some.
  apply obj_macros_lookup in Ho as [Ho <-]. by apply list_elem_of_fmap_2.
Qed.

Lemma OBJ_of_items nd x o :
  obj_macros nd !! x = Some o → OBJ o ≠ [] → OBJ_of nd x = expand_items (expand_oid (obj_macros nd) 15) (OBJ o).
Proof. apply expand_oid_items. Qed.

(** The identifier of an object continues that of the object its macro starts
    with. *)
Lemma OBJ_of_prefix nd x o y l oid :
  obj_macros nd !! x = Some o → OBJ o = Obj y :: l → OBJ_of nd x = Some oid →
  ∃ parent, OBJ_of nd y = Some parent ∧ parent `prefix_of` oid.
Proof.
  intros Hx Ho. assert (OBJ o ≠ []) as Hne by congruence. rewrite (OBJ_of_items nd x o Hx Hne) Ho.
  intros (parent & Hy & (rest & _ & ->)%fmap_Some)%bind_Some. exists parent. split; [|by eexists].
  apply (expand_oid_mono _ 15 16); [lia|done].
Qed.
