(* ===== verification/ObjProperties.v ===== *)
(** * Properties of OpenSSL's table of objects *)

From S2P Require Import Prelude ObjMac Objects.
From stdpp Require Import strings ssreflect.
Local Open Scope string_scope.
Local Open Scope Z_scope.

(** The identifiers that several numbers share: the undefined object and two
    names have 0, both names of the joint arc have 2, and 1.3 is both
    [identified_organization] and [org]. *)
Definition shared_oids : list (list Z) := [[0]; [2]; [1; 3]].
(** The numbers without a name. *)
Definition nameless : list string := ["ccitt"; "joint_iso_ccitt"].

(** ** The checks, on a table and its names *)

Section checks.
Context (m : gmap string object) (l : list object).
Let names : list string := obj_name <$> l.
Let nid x := expand_body m NID depth x.
Let oid x := expand_oid m depth x.

Definition oids_okb : bool :=
  forallb (λ o, match OBJ o with
                | [] => true
                | _ => match oid (obj_name o) with Some a => valid_oid a | None => false end
                end) l.
Definition named_okb : bool :=
  forallb (λ x, match nid x with
                | None => true
                | Some n => (0 <=? n) && (n <=? 1247) && (bool_decide (x ∈ nameless) ||
                    bool_decide (is_Some (expand_body m SN depth x)) ||
                    bool_decide (is_Some (expand_body m LN depth x)))
                end) names.
(** The pairs of a key of an object and a value it has to determine. *)
Definition pairs {K V} (key : string → option K) (value : string → option V) : list (K * V) :=
  omap (λ x, k ← key x; v ← value x; Some (k, v)) names.
Definition unshared_oid (x : string) : option (list Z) :=
  a ← oid x; if decide (a ∈ shared_oids) then None else Some a.

Definition objects_okb : bool :=
  oids_okb && named_okb &&
  functionalb (pairs nid (λ x, Some (canonical m depth x))) &&
  functionalb (pairs unshared_oid nid) &&
  functionalb (pairs (expand_body m SN depth) nid) && functionalb (pairs (expand_body m LN depth) nid).

Lemma pairs_spec `{Countable K, EqDecision V} (key : string → option K) (value : string → option V) x y k v v' :
  functionalb (pairs key value) = true → x ∈ names → y ∈ names →
  key x = Some k → key y = Some k → value x = Some v → value y = Some v' → v = v'.
Proof.
  intros Hf Hx Hy Ekx Eky Evx Evy.
  apply (functionalb_spec (pairs key value) k); [done|apply list_elem_of_omap..].
  - exists x. by rewrite Ekx /= Evx.
  - exists y. by rewrite Eky /= Evy.
Qed.
End checks.

Lemma objects_ok nd : objects_okb (obj_macros nd) (obj_mac nd) = true.
Proof. destruct nd; by vm_compute. Qed.
#[local] Opaque obj_macros obj_mac.

Lemma NID_of_name nd x n : NID_of nd x = Some n → x ∈ obj_name <$> obj_mac nd.
Proof. apply expand_body_name. Qed.

(** C28: OpenSSL's table of objects is well formed, in builds with and without the
    deprecated names: the macros of every identifier expand to a valid one,
    which continues the identifier of the object it starts with; numbers lie
    between 0 and 1247, and a number belongs to one object (the other names it
    has are declared as aliases of that object); an identifier has one number,
    but for 0, 2 and 1.3; a short or long name has one number, and every number
    but two has a name. *)
Theorem objects_well_formed nd :
  (∀ x o, obj_macros nd !! x = Some o → o ∈ obj_mac nd ∧ obj_name o = x) ∧
  (∀ o, o ∈ obj_mac nd → OBJ o ≠ [] → ∃ oid, OBJ_of nd (obj_name o) = Some oid ∧ valid_oid oid = true) ∧
  (∀ x o y l oid, obj_macros nd !! x = Some o → OBJ o = Obj y :: l → OBJ_of nd x = Some oid →
     ∃ parent, OBJ_of nd y = Some parent ∧ parent `prefix_of` oid) ∧
  (∀ x y n, NID_of nd x = Some n → NID_of nd y = Some n → canonical_name nd x = canonical_name nd y) ∧
  (∀ x y n n' oid, NID_of nd x = Some n → NID_of nd y = Some n' → oid ∉ shared_oids →
     OBJ_of nd x = Some oid → OBJ_of nd y = Some oid → n = n') ∧
  (∀ x y n n' s, NID_of nd x = Some n → NID_of nd y = Some n' →
     SN_of nd x = Some s ∧ SN_of nd y = Some s ∨ LN_of nd x = Some s ∧ LN_of nd y = Some s → n = n') ∧
  (∀ x n, NID_of nd x = Some n → 0 ≤ n ≤ 1247 ∧
     (x ∈ nameless ∨ is_Some (SN_of nd x) ∨ is_Some (LN_of nd x))).
Proof.
  pose proof (objects_ok nd) as Hok. unfold objects_okb in Hok.
  apply andb_prop in Hok as [[[[[Hoids Hnamed]%andb_prop Hnid]%andb_prop Hoid]%andb_prop Hsn]%andb_prop Hln].
  split_and!.
  - apply obj_macros_lookup.
  - intros o Ho Hne. unfold oids_okb in Hoids. rewrite forallb_forall in Hoids.
    apply list_elem_of_In, Hoids in Ho. unfold OBJ_of. destruct (OBJ o); [done|].
    destruct (expand_oid _ _ _) as [oid|]; [by exists oid|done].
  - apply OBJ_of_prefix.
  - intros x y n Hx Hy. by apply (pairs_spec _ _ _ x y n _ _ Hnid); try eapply NID_of_name.
  - intros x y n n' oid Hx Hy Hs Ox Oy. unfold OBJ_of in *.
    apply (pairs_spec _ _ _ x y oid _ _ Hoid); [by eapply NID_of_name..| | |done|done];
      unfold unshared_oid; rewrite ?Ox ?Oy /=; by case_decide.
  - intros x y n n' s Hx Hy [[Ex Ey]|[Ex Ey]].
    + apply (pairs_spec _ _ _ x y s _ _ Hsn); try done; by eapply NID_of_name.
    + apply (pairs_spec _ _ _ x y s _ _ Hln); try done; by eapply NID_of_name.
  - intros x n Hx. unfold named_okb in Hnamed. rewrite forallb_forall in Hnamed.
    pose proof (NID_of_name nd x n Hx) as Hin%list_elem_of_In%Hnamed. unfold NID_of in Hx. rewrite Hx in Hin.
    apply andb_prop in Hin as [Hn Hin]. split; [lia|].
    apply orb_prop in Hin as [[?%bool_decide_eq_true|?%bool_decide_eq_true]%orb_prop|?%bool_decide_eq_true]; auto.
Qed.

#[local] Transparent obj_macros obj_mac.

(** rsaEncryption, below pkcs1; the two names of Kuznyechik in counter mode. *)
Lemma objects_well_formed_witness :
  (∃ parent, OBJ_of false "pkcs1" = Some parent ∧ parent `prefix_of` [1; 2; 840; 113549; 1; 1; 1]) ∧
  canonical_name false "grasshopper_ctr" = canonical_name false "kuznyechik_ctr" ∧
  (0 ≤ 6 ≤ 1247 ∧ ("rsaEncryption" ∈ nameless ∨ is_Some (SN_of false "rsaEncryption") ∨ is_Some (LN_of false "rsaEncryption"))).
Proof.
  destruct (objects_well_formed false) as (_ & _ & Hprefix & Hnid & _ & _ & Hname).
  assert (NID_of false "rsaEncryption" = Some 6) as Hrsa by (vm_compute; reflexivity).
  split_and!.
  - apply (Hprefix "rsaEncryption"
      (Object "rsaEncryption" Undefined (Is "rsaEncryption") (Is 6) [Obj "pkcs1"; Arc 1]) "pkcs1" [Arc 1]);
      [vm_compute; reflexivity|reflexivity|vm_compute; reflexivity].
  - apply (Hnid _ _ 1013); vm_compute; reflexivity.
  - apply (Hname _ _ Hrsa).
  - apply (Hname _ _ Hrsa).
  - apply (Hname _ _ Hrsa).
Defined.
