(* ===== verification/OpensslFlags.v ===== *)
(** * The flag words of OpenSSL

    Each family of macros is a word that packs flags of one bit and fields of
    several bits with a mask. A macro that is the union of others is in the
    family's sets. *)

From S2P Require Import Prelude ByteMemory.
From stdpp Require Import strings.
Local Open Scope string_scope.
Local Open Scope Z_scope.

(** A field of a word: its mask, and the macros for its values. *)
Record field : Type := Field { field_mask : Z; field_values : list (string * Z) }.
Definition family : Type := list field.
(** A single bit. *)
Definition flag (name : string) (bit : Z) : field := Field bit [(name, bit)].

(** [((uint64_t)1 << (uint64_t)n)] *)
Definition SSL_OP_BIT (n : Z) : Z := to_unsigned 64 (Z.shiftl 1 (to_unsigned 64 n)).

Definition SSL_OP : family := [
  flag "SSL_OP_NO_EXTENDED_MASTER_SECRET" (SSL_OP_BIT 0);
  flag "SSL_OP_CLEANSE_PLAINTEXT" (SSL_OP_BIT 1);
  flag "SSL_OP_LEGACY_SERVER_CONNECT" (SSL_OP_BIT 2);
  flag "SSL_OP_ENABLE_KTLS" (SSL_OP_BIT 3);
  flag "SSL_OP_TLSEXT_PADDING" (SSL_OP_BIT 4);
  flag "SSL_OP_SAFARI_ECDHE_ECDSA_BUG" (SSL_OP_BIT 6);
  flag "SSL_OP_IGNORE_UNEXPECTED_EOF" (SSL_OP_BIT 7);
  flag "SSL_OP_ALLOW_CLIENT_RENEGOTIATION" (SSL_OP_BIT 8);
  flag "SSL_OP_DISABLE_TLSEXT_CA_NAMES" (SSL_OP_BIT 9);
  flag "SSL_OP_ALLOW_NO_DHE_KEX" (SSL_OP_BIT 10);
  flag "SSL_OP_DONT_INSERT_EMPTY_FRAGMENTS" (SSL_OP_BIT 11);
  flag "SSL_OP_NO_QUERY_MTU" (SSL_OP_BIT 12);
  flag "SSL_OP_COOKIE_EXCHANGE" (SSL_OP_BIT 13);
  flag "SSL_OP_NO_TICKET" (SSL_OP_BIT 14);
  flag "SSL_OP_CISCO_ANYCONNECT" (SSL_OP_BIT 15);
  flag "SSL_OP_NO_SESSION_RESUMPTION_ON_RENEGOTIATION" (SSL_OP_BIT 16);
  flag "SSL_OP_NO_COMPRESSION" (SSL_OP_BIT 17);
  flag "SSL_OP_ALLOW_UNSAFE_LEGACY_RENEGOTIATION" (SSL_OP_BIT 18);
  flag "SSL_OP_NO_ENCRYPT_THEN_MAC" (SSL_OP_BIT 19);
  flag "SSL_OP_ENABLE_MIDDLEBOX_COMPAT" (SSL_OP_BIT 20);
  flag "SSL_OP_PRIORITIZE_CHACHA" (SSL_OP_BIT 21);
  flag "SSL_OP_CIPHER_SERVER_PREFERENCE" (SSL_OP_BIT 22);
  flag "SSL_OP_TLS_ROLLBACK_BUG" (SSL_OP_BIT 23);
  flag "SSL_OP_NO_ANTI_REPLAY" (SSL_OP_BIT 24);
  flag "SSL_OP_NO_SSLv3" (SSL_OP_BIT 25);
  Field (SSL_OP_BIT 26) [
    ("SSL_OP_NO_TLSv1", SSL_OP_BIT 26);
    ("SSL_OP_NO_DTLSv1", SSL_OP_BIT 26)];
  Field (SSL_OP_BIT 27) [
    ("SSL_OP_NO_TLSv1_2", SSL_OP_BIT 27);
    ("SSL_OP_NO_DTLSv1_2", SSL_OP_BIT 27)];
  flag "SSL_OP_NO_TLSv1_1" (SSL_OP_BIT 28);
  flag "SSL_OP_NO_TLSv1_3" (SSL_OP_BIT 29);
  flag "SSL_OP_NO_RENEGOTIATION" (SSL_OP_BIT 30);
  flag "SSL_OP_CRYPTOPRO_TLSEXT_BUG" (SSL_OP_BIT 31);
  Field 0x0 [
    ("SSL_OP_MICROSOFT_SESS_ID_BUG", 0x0);
    ("SSL_OP_NETSCAPE_CHALLENGE_BUG", 0x0);
    ("SSL_OP_NETSCAPE_REUSE_CIPHER_CHANGE_BUG", 0x0);
    ("SSL_OP_SSLREF2_REUSE_CERT_TYPE_BUG", 0x0);
    ("SSL_OP_MICROSOFT_BIG_SSLV3_BUFFER", 0x0);
    ("SSL_OP_MSIE_SSLV2_RSA_PADDING", 0x0);
    ("SSL_OP_SSLEAY_080_CLIENT_DH_BUG", 0x0);
    ("SSL_OP_TLS_D5_BUG", 0x0);
    ("SSL_OP_TLS_BLOCK_PADDING_BUG", 0x0);
    ("SSL_OP_SINGLE_ECDH_USE", 0x0);
    ("SSL_OP_SINGLE_DH_USE", 0x0);
    ("SSL_OP_EPHEMERAL_RSA", 0x0);
    ("SSL_OP_NO_SSLv2", 0x0);
    ("SSL_OP_PKCS1_CHECK_1", 0x0);
    ("SSL_OP_PKCS1_CHECK_2", 0x0);
    ("SSL_OP_NETSCAPE_CA_DN_BUG", 0x0);
    ("SSL_OP_NETSCAPE_DEMO_CIPHER_CHANGE_BUG", 0x0)]].

Definition SSL_OP_sets : list (string * list string) := [
  ("SSL_OP_NO_SSL_MASK", ["SSL_OP_NO_SSLv3"; "SSL_OP_NO_TLSv1"; "SSL_OP_NO_TLSv1_1"; "SSL_OP_NO_TLSv1_2";
    "SSL_OP_NO_TLSv1_3"]);
  ("SSL_OP_NO_DTLS_MASK", ["SSL_OP_NO_DTLSv1"; "SSL_OP_NO_DTLSv1_2"]);
  ("SSL_OP_ALL", ["SSL_OP_CRYPTOPRO_TLSEXT_BUG"; "SSL_OP_DONT_INSERT_EMPTY_FRAGMENTS"; "SSL_OP_TLSEXT_PADDING";
    "SSL_OP_SAFARI_ECDHE_ECDSA_BUG"])].

Definition SSL_MODE : family := [
  flag "SSL_MODE_ENABLE_PARTIAL_WRITE" 0x00000001;
  flag "SSL_MODE_ACCEPT_MOVING_WRITE_BUFFER" 0x00000002;
  flag "SSL_MODE_AUTO_RETRY" 0x00000004;
  flag "SSL_MODE_NO_AUTO_CHAIN" 0x00000008;
  flag "SSL_MODE_RELEASE_BUFFERS" 0x00000010;
  flag "SSL_MODE_SEND_CLIENTHELLO_TIME" 0x00000020;
  flag "SSL_MODE_SEND_SERVERHELLO_TIME" 0x00000040;
  flag "SSL_MODE_SEND_FALLBACK_SCSV" 0x00000080;
  flag "SSL_MODE_ASYNC" 0x00000100;
  flag "SSL_MODE_DTLS_SCTP_LABEL_LENGTH_BUG" 0x00000400].

Definition SSL_CERT_FLAG : family := [
  flag "SSL_CERT_FLAG_TLS_STRICT" 0x00000001;
  Field 0x30000 [
    ("SSL_CERT_FLAG_SUITEB_128_LOS_ONLY", 0x10000);
    ("SSL_CERT_FLAG_SUITEB_192_LOS", 0x20000);
    ("SSL_CERT_FLAG_SUITEB_128_LOS", 0x30000)];
  flag "SSL_CERT_FLAG_BROKEN_PROTOCOL" 0x10000000].

Definition SSL_BUILD_CHAIN_FLAG : family := [
  flag "SSL_BUILD_CHAIN_FLAG_UNTRUSTED" 0x1;
  flag "SSL_BUILD_CHAIN_FLAG_NO_ROOT" 0x2;
  flag "SSL_BUILD_CHAIN_FLAG_CHECK" 0x4;
  flag "SSL_BUILD_CHAIN_FLAG_IGNORE_ERROR" 0x8;
  flag "SSL_BUILD_CHAIN_FLAG_CLEAR_ERROR" 0x10].

Definition SSL_SESS_CACHE : family := [
  Field 0x0000 [
    ("SSL_SESS_CACHE_OFF", 0x0000)];
  flag "SSL_SESS_CACHE_CLIENT" 0x0001;
  flag "SSL_SESS_CACHE_SERVER" 0x0002;
  flag "SSL_SESS_CACHE_NO_AUTO_CLEAR" 0x0080;
  flag "SSL_SESS_CACHE_NO_INTERNAL_LOOKUP" 0x0100;
  flag "SSL_SESS_CACHE_NO_INTERNAL_STORE" 0x0200;
  flag "SSL_SESS_CACHE_UPDATE_TIME" 0x0400].

Definition SSL_SESS_CACHE_sets : list (string * list string) := [
  ("SSL_SESS_CACHE_BOTH", ["SSL_SESS_CACHE_CLIENT"; "SSL_SESS_CACHE_SERVER"]);
  ("SSL_SESS_CACHE_NO_INTERNAL", ["SSL_SESS_CACHE_NO_INTERNAL_LOOKUP"; "SSL_SESS_CACHE_NO_INTERNAL_STORE"])].

Definition SSL_EXT : family := [
  flag "SSL_EXT_TLS_ONLY" 0x0001;
  flag "SSL_EXT_DTLS_ONLY" 0x0002;
  flag "SSL_EXT_TLS_IMPLEMENTATION_ONLY" 0x0004;
  flag "SSL_EXT_SSL3_ALLOWED" 0x0008;
  flag "SSL_EXT_TLS1_2_AND_BELOW_ONLY" 0x0010;
  flag "SSL_EXT_TLS1_3_ONLY" 0x0020;
  flag "SSL_EXT_IGNORE_ON_RESUMPTION" 0x0040;
  flag "SSL_EXT_CLIENT_HELLO" 0x0080;
  flag "SSL_EXT_TLS1_2_SERVER_HELLO" 0x0100;
  flag "SSL_EXT_TLS1_3_SERVER_HELLO" 0x0200;
  flag "SSL_EXT_TLS1_3_ENCRYPTED_EXTENSIONS" 0x0400;
  flag "SSL_EXT_TLS1_3_HELLO_RETRY_REQUEST" 0x0800;
  flag "SSL_EXT_TLS1_3_CERTIFICATE" 0x1000;
  flag "SSL_EXT_TLS1_3_NEW_SESSION_TICKET" 0x2000;
  flag "SSL_EXT_TLS1_3_CERTIFICATE_REQUEST" 0x4000].

Definition SSL_VERIFY : family := [
  Field 0x00 [
    ("SSL_VERIFY_NONE", 0x00)];
  flag "SSL_VERIFY_PEER" 0x01;
  flag "SSL_VERIFY_FAIL_IF_NO_PEER_CERT" 0x02;
  flag "SSL_VERIFY_CLIENT_ONCE" 0x04;
  flag "SSL_VERIFY_POST_HANDSHAKE" 0x08].

Definition OPENSSL_INIT_crypto : family := [
  flag "OPENSSL_INIT_NO_LOAD_CRYPTO_STRINGS" 0x00000001;
  flag "OPENSSL_INIT_LOAD_CRYPTO_STRINGS" 0x00000002;
  flag "OPENSSL_INIT_ADD_ALL_CIPHERS" 0x00000004;
  flag "OPENSSL_INIT_ADD_ALL_DIGESTS" 0x00000008;
  flag "OPENSSL_INIT_NO_ADD_ALL_CIPHERS" 0x00000010;
  flag "OPENSSL_INIT_NO_ADD_ALL_DIGESTS" 0x00000020;
  flag "OPENSSL_INIT_LOAD_CONFIG" 0x00000040;
  flag "OPENSSL_INIT_NO_LOAD_CONFIG" 0x00000080;
  flag "OPENSSL_INIT_ASYNC" 0x00000100;
  flag "OPENSSL_INIT_ENGINE_RDRAND" 0x00000200;
  flag "OPENSSL_INIT_ENGINE_DYNAMIC" 0x00000400;
  flag "OPENSSL_INIT_ENGINE_OPENSSL" 0x00000800;
  flag "OPENSSL_INIT_ENGINE_CRYPTODEV" 0x00001000;
  flag "OPENSSL_INIT_ENGINE_CAPI" 0x00002000;
  flag "OPENSSL_INIT_ENGINE_PADLOCK" 0x00004000;
  flag "OPENSSL_INIT_ENGINE_AFALG" 0x00008000;
  flag "OPENSSL_INIT_ATFORK" 0x00020000;
  flag "OPENSSL_INIT_NO_ATEXIT" 0x00080000].

Definition OPENSSL_INIT_crypto_sets : list (string * list string) := [
  ("OPENSSL_INIT_ENGINE_ALL_BUILTIN", ["OPENSSL_INIT_ENGINE_RDRAND"; "OPENSSL_INIT_ENGINE_DYNAMIC";
    "OPENSSL_INIT_ENGINE_CRYPTODEV"; "OPENSSL_INIT_ENGINE_CAPI"; "OPENSSL_INIT_ENGINE_PADLOCK"])].

Definition OPENSSL_INIT_ssl : family := [
  flag "OPENSSL_INIT_NO_LOAD_SSL_STRINGS" 0x00100000;
  flag "OPENSSL_INIT_LOAD_SSL_STRINGS" 0x00200000].

Definition X509_V_FLAG : family := [
  Field 0x0 [
    ("X509_V_FLAG_CB_ISSUER_CHECK", 0x0)];
  flag "X509_V_FLAG_USE_CHECK_TIME" 0x2;
  flag "X509_V_FLAG_CRL_CHECK" 0x4;
  flag "X509_V_FLAG_CRL_CHECK_ALL" 0x8;
  flag "X509_V_FLAG_IGNORE_CRITICAL" 0x10;
  flag "X509_V_FLAG_X509_STRICT" 0x20;
  flag "X509_V_FLAG_ALLOW_PROXY_CERTS" 0x40;
  flag "X509_V_FLAG_POLICY_CHECK" 0x80;
  flag "X509_V_FLAG_EXPLICIT_POLICY" 0x100;
  flag "X509_V_FLAG_INHIBIT_ANY" 0x200;
  flag "X509_V_FLAG_INHIBIT_MAP" 0x400;
  flag "X509_V_FLAG_NOTIFY_POLICY" 0x800;
  flag "X509_V_FLAG_EXTENDED_CRL_SUPPORT" 0x1000;
  flag "X509_V_FLAG_USE_DELTAS" 0x2000;
  flag "X509_V_FLAG_CHECK_SS_SIGNATURE" 0x4000;
  flag "X509_V_FLAG_TRUSTED_FIRST" 0x8000;
  Field 0x30000 [
    ("X509_V_FLAG_SUITEB_128_LOS_ONLY", 0x10000);
    ("X509_V_FLAG_SUITEB_192_LOS", 0x20000);
    ("X509_V_FLAG_SUITEB_128_LOS", 0x30000)];
  flag "X509_V_FLAG_PARTIAL_CHAIN" 0x80000;
  flag "X509_V_FLAG_NO_ALT_CHAINS" 0x100000;
  flag "X509_V_FLAG_NO_CHECK_TIME" 0x200000].

Definition X509_V_FLAG_sets : list (string * list string) := [
  ("X509_V_FLAG_POLICY_MASK", ["X509_V_FLAG_POLICY_CHECK"; "X509_V_FLAG_EXPLICIT_POLICY";
    "X509_V_FLAG_INHIBIT_ANY"; "X509_V_FLAG_INHIBIT_MAP"])].

Definition X509_CHECK_FLAG : family := [
  flag "X509_CHECK_FLAG_ALWAYS_CHECK_SUBJECT" 0x1;
  flag "X509_CHECK_FLAG_NO_WILDCARDS" 0x2;
  flag "X509_CHECK_FLAG_NO_PARTIAL_WILDCARDS" 0x4;
  flag "X509_CHECK_FLAG_MULTI_LABEL_WILDCARDS" 0x8;
  flag "X509_CHECK_FLAG_SINGLE_LABEL_SUBDOMAINS" 0x10;
  flag "X509_CHECK_FLAG_NEVER_CHECK_SUBJECT" 0x20].

Definition EXFLAG : family := [
  flag "EXFLAG_BCONS" 0x1;
  flag "EXFLAG_KUSAGE" 0x2;
  flag "EXFLAG_XKUSAGE" 0x4;
  flag "EXFLAG_NSCERT" 0x8;
  flag "EXFLAG_CA" 0x10;
  flag "EXFLAG_SI" 0x20;
  flag "EXFLAG_V1" 0x40;
  flag "EXFLAG_INVALID" 0x80;
  flag "EXFLAG_SET" 0x100;
  flag "EXFLAG_CRITICAL" 0x200;
  flag "EXFLAG_PROXY" 0x400;
  flag "EXFLAG_INVALID_POLICY" 0x800;
  flag "EXFLAG_FRESHEST" 0x1000;
  flag "EXFLAG_SS" 0x2000;
  flag "EXFLAG_BCONS_CRITICAL" 0x10000;
  flag "EXFLAG_AKID_CRITICAL" 0x20000;
  flag "EXFLAG_SKID_CRITICAL" 0x40000;
  flag "EXFLAG_SAN_CRITICAL" 0x80000;
  flag "EXFLAG_NO_FINGERPRINT" 0x100000].

Definition KU : family := [
  flag "KU_DIGITAL_SIGNATURE" 0x0080;
  flag "KU_NON_REPUDIATION" 0x0040;
  flag "KU_KEY_ENCIPHERMENT" 0x0020;
  flag "KU_DATA_ENCIPHERMENT" 0x0010;
  flag "KU_KEY_AGREEMENT" 0x0008;
  flag "KU_KEY_CERT_SIGN" 0x0004;
  flag "KU_CRL_SIGN" 0x0002;
  flag "KU_ENCIPHER_ONLY" 0x0001;
  flag "KU_DECIPHER_ONLY" 0x8000].

Definition NS : family := [
  flag "NS_SSL_CLIENT" 0x80;
  flag "NS_SSL_SERVER" 0x40;
  flag "NS_SMIME" 0x20;
  flag "NS_OBJSIGN" 0x10;
  flag "NS_SSL_CA" 0x04;
  flag "NS_SMIME_CA" 0x02;
  flag "NS_OBJSIGN_CA" 0x01].

Definition NS_sets : list (string * list string) := [
  ("NS_ANY_CA", ["NS_SSL_CA"; "NS_SMIME_CA"; "NS_OBJSIGN_CA"])].

Definition XKU : family := [
  flag "XKU_SSL_SERVER" 0x1;
  flag "XKU_SSL_CLIENT" 0x2;
  flag "XKU_SMIME" 0x4;
  flag "XKU_CODE_SIGN" 0x8;
  flag "XKU_SGC" 0x10;
  flag "XKU_OCSP_SIGN" 0x20;
  flag "XKU_TIMESTAMP" 0x40;
  flag "XKU_DVCS" 0x80;
  flag "XKU_ANYEKU" 0x100].

Definition X509V3_ADD : family := [
  Field 0xf [
    ("X509V3_ADD_DEFAULT", 0);
    ("X509V3_ADD_APPEND", 1);
    ("X509V3_ADD_REPLACE", 2);
    ("X509V3_ADD_REPLACE_EXISTING", 3);
    ("X509V3_ADD_KEEP_EXISTING", 4);
    ("X509V3_ADD_DELETE", 5)];
  flag "X509V3_ADD_SILENT" 0x10].

Definition X509V3_EXT_ctx : family := [
  flag "X509V3_EXT_DYNAMIC" 0x1;
  flag "X509V3_EXT_CTX_DEP" 0x2;
  flag "X509V3_EXT_MULTILINE" 0x4].

Definition X509V3_EXT_unknown : family := [
  Field (Z.shiftl 0xf 16) [
    ("X509V3_EXT_DEFAULT", 0);
    ("X509V3_EXT_ERROR_UNKNOWN", Z.shiftl 1 16);
    ("X509V3_EXT_PARSE_UNKNOWN", Z.shiftl 2 16);
    ("X509V3_EXT_DUMP_UNKNOWN", Z.shiftl 3 16)]].

Definition X509_FLAG : family := [
  Field 0 [
    ("X509_FLAG_COMPAT", 0)];
  flag "X509_FLAG_NO_HEADER" 1;
  flag "X509_FLAG_NO_VERSION" (Z.shiftl 1 1);
  flag "X509_FLAG_NO_SERIAL" (Z.shiftl 1 2);
  flag "X509_FLAG_NO_SIGNAME" (Z.shiftl 1 3);
  flag "X509_FLAG_NO_ISSUER" (Z.shiftl 1 4);
  flag "X509_FLAG_NO_VALIDITY" (Z.shiftl 1 5);
  flag "X509_FLAG_NO_SUBJECT" (Z.shiftl 1 6);
  flag "X509_FLAG_NO_PUBKEY" (Z.shiftl 1 7);
  flag "X509_FLAG_NO_EXTENSIONS" (Z.shiftl 1 8);
  flag "X509_FLAG_NO_SIGDUMP" (Z.shiftl 1 9);
  flag "X509_FLAG_NO_AUX" (Z.shiftl 1 10);
  flag "X509_FLAG_NO_ATTRIBUTES" (Z.shiftl 1 11);
  flag "X509_FLAG_NO_IDS" (Z.shiftl 1 12);
  flag "X509_FLAG_EXTENSIONS_ONLY_KID" (Z.shiftl 1 13)].

Definition ASN1_STRFLGS : family := [
  flag "ASN1_STRFLGS_ESC_2253" 1;
  flag "ASN1_STRFLGS_ESC_CTRL" 2;
  flag "ASN1_STRFLGS_ESC_MSB" 4;
  flag "ASN1_STRFLGS_ESC_QUOTE" 8;
  flag "ASN1_STRFLGS_UTF8_CONVERT" 0x10;
  flag "ASN1_STRFLGS_IGNORE_TYPE" 0x20;
  flag "ASN1_STRFLGS_SHOW_TYPE" 0x40;
  flag "ASN1_STRFLGS_DUMP_ALL" 0x80;
  flag "ASN1_STRFLGS_DUMP_UNKNOWN" 0x100;
  flag "ASN1_STRFLGS_DUMP_DER" 0x200;
  flag "ASN1_STRFLGS_ESC_2254" 0x400].

Definition ASN1_STRFLGS_sets : list (string * list string) := [
  ("ASN1_STRFLGS_RFC2253", ["ASN1_STRFLGS_ESC_2253"; "ASN1_STRFLGS_ESC_CTRL"; "ASN1_STRFLGS_ESC_MSB";
    "ASN1_STRFLGS_UTF8_CONVERT"; "ASN1_STRFLGS_DUMP_UNKNOWN"; "ASN1_STRFLGS_DUMP_DER"])].

Definition XN_FLAG : family := [
  Field (Z.shiftl 0xf 16) [
    ("XN_FLAG_SEP_COMMA_PLUS", Z.shiftl 1 16);
    ("XN_FLAG_SEP_CPLUS_SPC", Z.shiftl 2 16);
    ("XN_FLAG_SEP_SPLUS_SPC", Z.shiftl 3 16);
    ("XN_FLAG_SEP_MULTILINE", Z.shiftl 4 16)];
  Field 0 [
    ("XN_FLAG_COMPAT", 0)];
  flag "XN_FLAG_DN_REV" (Z.shiftl 1 20);
  Field (Z.shiftl 0x3 21) [
    ("XN_FLAG_FN_SN", 0);
    ("XN_FLAG_FN_LN", Z.shiftl 1 21);
    ("XN_FLAG_FN_OID", Z.shiftl 2 21);
    ("XN_FLAG_FN_NONE", Z.shiftl 3 21)];
  flag "XN_FLAG_SPC_EQ" (Z.shiftl 1 23);
  flag "XN_FLAG_DUMP_UNKNOWN_FIELDS" (Z.shiftl 1 24);
  flag "XN_FLAG_FN_ALIGN" (Z.shiftl 1 25)].

Definition XN_FLAG_sets : list (string * list string) := [
  ("XN_FLAG_RFC2253", ["ASN1_STRFLGS_RFC2253"; "XN_FLAG_SEP_COMMA_PLUS"; "XN_FLAG_DN_REV"; "XN_FLAG_FN_SN";
    "XN_FLAG_DUMP_UNKNOWN_FIELDS"]);
  ("XN_FLAG_ONELINE", ["ASN1_STRFLGS_RFC2253"; "ASN1_STRFLGS_ESC_QUOTE"; "XN_FLAG_SEP_CPLUS_SPC";
    "XN_FLAG_SPC_EQ"; "XN_FLAG_FN_SN"]);
  ("XN_FLAG_MULTILINE", ["ASN1_STRFLGS_ESC_CTRL"; "ASN1_STRFLGS_ESC_MSB"; "XN_FLAG_SEP_MULTILINE";
    "XN_FLAG_SPC_EQ"; "XN_FLAG_FN_LN"; "XN_FLAG_FN_ALIGN"])].

Definition ASN1_STRING_FLAG : family := [
  flag "ASN1_STRING_FLAG_BITS_LEFT" 0x08;
  flag "ASN1_STRING_FLAG_NDEF" 0x010;
  flag "ASN1_STRING_FLAG_CONT" 0x020;
  flag "ASN1_STRING_FLAG_MSTRING" 0x040;
  flag "ASN1_STRING_FLAG_EMBED" 0x080;
  flag "ASN1_STRING_FLAG_X509_TIME" 0x100].

Definition B_ASN1 : family := [
  flag "B_ASN1_NUMERICSTRING" 0x0001;
  flag "B_ASN1_PRINTABLESTRING" 0x0002;
  Field 0x0004 [
    ("B_ASN1_T61STRING", 0x0004);
    ("B_ASN1_TELETEXSTRING", 0x0004)];
  flag "B_ASN1_VIDEOTEXSTRING" 0x0008;
  flag "B_ASN1_IA5STRING" 0x0010;
  flag "B_ASN1_GRAPHICSTRING" 0x0020;
  Field 0x0040 [
    ("B_ASN1_ISO64STRING", 0x0040);
    ("B_ASN1_VISIBLESTRING", 0x0040)];
  flag "B_ASN1_GENERALSTRING" 0x0080;
  flag "B_ASN1_UNIVERSALSTRING" 0x0100;
  flag "B_ASN1_OCTET_STRING" 0x0200;
  flag "B_ASN1_BIT_STRING" 0x0400;
  flag "B_ASN1_BMPSTRING" 0x0800;
  flag "B_ASN1_UNKNOWN" 0x1000;
  flag "B_ASN1_UTF8STRING" 0x2000;
  flag "B_ASN1_UTCTIME" 0x4000;
  flag "B_ASN1_GENERALIZEDTIME" 0x8000;
  flag "B_ASN1_SEQUENCE" 0x10000].

Definition B_ASN1_sets : list (string * list string) := [
  ("B_ASN1_TIME", ["B_ASN1_UTCTIME"; "B_ASN1_GENERALIZEDTIME"]);
  ("B_ASN1_PRINTABLE", ["B_ASN1_NUMERICSTRING"; "B_ASN1_PRINTABLESTRING"; "B_ASN1_T61STRING";
    "B_ASN1_IA5STRING"; "B_ASN1_BIT_STRING"; "B_ASN1_UNIVERSALSTRING"; "B_ASN1_BMPSTRING"; "B_ASN1_UTF8STRING";
    "B_ASN1_SEQUENCE"; "B_ASN1_UNKNOWN"]);
  ("B_ASN1_DIRECTORYSTRING", ["B_ASN1_PRINTABLESTRING"; "B_ASN1_TELETEXSTRING"; "B_ASN1_BMPSTRING";
    "B_ASN1_UNIVERSALSTRING"; "B_ASN1_UTF8STRING"]);
  ("B_ASN1_DISPLAYTEXT", ["B_ASN1_IA5STRING"; "B_ASN1_VISIBLESTRING"; "B_ASN1_BMPSTRING"; "B_ASN1_UTF8STRING"])].

Definition ASN1_TFLG : family := [
  flag "ASN1_TFLG_OPTIONAL" 0x1;
  Field (Z.shiftl 0x3 1) [
    ("ASN1_TFLG_SET_OF", Z.shiftl 0x1 1);
    ("ASN1_TFLG_SEQUENCE_OF", Z.shiftl 0x2 1);
    ("ASN1_TFLG_SET_ORDER", Z.shiftl 0x3 1)];
  Field (Z.shiftl 0x3 3) [
    ("ASN1_TFLG_IMPTAG", Z.shiftl 0x1 3);
    ("ASN1_TFLG_EXPTAG", Z.shiftl 0x2 3)];
  Field (Z.shiftl 0x3 6) [
    ("ASN1_TFLG_UNIVERSAL", Z.shiftl 0x0 6);
    ("ASN1_TFLG_APPLICATION", Z.shiftl 0x1 6);
    ("ASN1_TFLG_CONTEXT", Z.shiftl 0x2 6);
    ("ASN1_TFLG_PRIVATE", Z.shiftl 0x3 6)];
  Field (Z.shiftl 0x3 8) [
    ("ASN1_TFLG_ADB_OID", Z.shiftl 0x1 8);
    ("ASN1_TFLG_ADB_INT", Z.shiftl 0x1 9)];
  flag "ASN1_TFLG_NDEF" (Z.shiftl 0x1 11);
  flag "ASN1_TFLG_EMBED" (Z.shiftl 0x1 12)].

Definition ASN1_TFLG_sets : list (string * list string) := [
  ("ASN1_TFLG_IMPLICIT", ["ASN1_TFLG_IMPTAG"; "ASN1_TFLG_CONTEXT"]);
  ("ASN1_TFLG_EXPLICIT", ["ASN1_TFLG_EXPTAG"; "ASN1_TFLG_CONTEXT"])].

Definition EVP_CIPH : family := [
  Field 0xF0007 [
    ("EVP_CIPH_STREAM_CIPHER", 0x0);
    ("EVP_CIPH_ECB_MODE", 0x1);
    ("EVP_CIPH_CBC_MODE", 0x2);
    ("EVP_CIPH_CFB_MODE", 0x3);
    ("EVP_CIPH_OFB_MODE", 0x4);
    ("EVP_CIPH_CTR_MODE", 0x5);
    ("EVP_CIPH_GCM_MODE", 0x6);
    ("EVP_CIPH_CCM_MODE", 0x7);
    ("EVP_CIPH_XTS_MODE", 0x10001);
    ("EVP_CIPH_WRAP_MODE", 0x10002);
    ("EVP_CIPH_OCB_MODE", 0x10003);
    ("EVP_CIPH_SIV_MODE", 0x10004)];
  flag "EVP_CIPH_VARIABLE_LENGTH" 0x8;
  flag "EVP_CIPH_CUSTOM_IV" 0x10;
  flag "EVP_CIPH_ALWAYS_CALL_INIT" 0x20;
  flag "EVP_CIPH_CTRL_INIT" 0x40;
  flag "EVP_CIPH_CUSTOM_KEY_LENGTH" 0x80;
  flag "EVP_CIPH_NO_PADDING" 0x100;
  flag "EVP_CIPH_RAND_KEY" 0x200;
  flag "EVP_CIPH_CUSTOM_COPY" 0x400;
  flag "EVP_CIPH_CUSTOM_IV_LENGTH" 0x800;
  Field 0 [
    ("EVP_CIPH_FLAG_DEFAULT_ASN1", 0);
    ("EVP_CIPH_FLAG_FIPS", 0);
    ("EVP_CIPH_FLAG_NON_FIPS_ALLOW", 0)];
  flag "EVP_CIPH_FLAG_LENGTH_BITS" 0x2000;
  flag "EVP_CIPH_FLAG_CTS" 0x4000;
  flag "EVP_CIPH_FLAG_CUSTOM_CIPHER" 0x100000;
  flag "EVP_CIPH_FLAG_AEAD_CIPHER" 0x200000;
  flag "EVP_CIPH_FLAG_TLS1_1_MULTIBLOCK" 0x400000;
  flag "EVP_CIPH_FLAG_PIPELINE" 0x800000;
  flag "EVP_CIPH_FLAG_CUSTOM_ASN1" 0x1000000;
  flag "EVP_CIPH_FLAG_CIPHER_WITH_MAC" 0x2000000;
  flag "EVP_CIPH_FLAG_GET_WRAP_CIPHER" 0x4000000;
  flag "EVP_CIPH_FLAG_INVERSE_CIPHER" 0x8000000].

Definition EVP_MD_FLAG : family := [
  flag "EVP_MD_FLAG_ONESHOT" 0x0001;
  flag "EVP_MD_FLAG_XOF" 0x0002;
  Field 0x0018 [
    ("EVP_MD_FLAG_DIGALGID_NULL", 0x0000);
    ("EVP_MD_FLAG_DIGALGID_ABSENT", 0x0008);
    ("EVP_MD_FLAG_DIGALGID_CUSTOM", 0x0018)];
  flag "EVP_MD_FLAG_FIPS" 0x0400].

Definition EVP_MD_CTX_FLAG : family := [
  flag "EVP_MD_CTX_FLAG_ONESHOT" 0x0001;
  flag "EVP_MD_CTX_FLAG_CLEANED" 0x0002;
  flag "EVP_MD_CTX_FLAG_REUSE" 0x0004;
  flag "EVP_MD_CTX_FLAG_NON_FIPS_ALLOW" 0x0008;
  Field 0xF0 [
    ("EVP_MD_CTX_FLAG_PAD_PKCS1", 0x00);
    ("EVP_MD_CTX_FLAG_PAD_X931", 0x10);
    ("EVP_MD_CTX_FLAG_PAD_PSS", 0x20)];
  flag "EVP_MD_CTX_FLAG_NO_INIT" 0x0100;
  flag "EVP_MD_CTX_FLAG_FINALISE" 0x0200].

Definition EVP_PKEY_OP : family := [
  Field 0 [
    ("EVP_PKEY_OP_UNDEFINED", 0)];
  flag "EVP_PKEY_OP_PARAMGEN" (Z.shiftl 1 1);
  flag "EVP_PKEY_OP_KEYGEN" (Z.shiftl 1 2);
  flag "EVP_PKEY_OP_FROMDATA" (Z.shiftl 1 3);
  flag "EVP_PKEY_OP_SIGN" (Z.shiftl 1 4);
  flag "EVP_PKEY_OP_VERIFY" (Z.shiftl 1 5);
  flag "EVP_PKEY_OP_VERIFYRECOVER" (Z.shiftl 1 6);
  flag "EVP_PKEY_OP_SIGNCTX" (Z.shiftl 1 7);
  flag "EVP_PKEY_OP_VERIFYCTX" (Z.shiftl 1 8);
  flag "EVP_PKEY_OP_ENCRYPT" (Z.shiftl 1 9);
  flag "EVP_PKEY_OP_DECRYPT" (Z.shiftl 1 10);
  flag "EVP_PKEY_OP_DERIVE" (Z.shiftl 1 11);
  flag "EVP_PKEY_OP_ENCAPSULATE" (Z.shiftl 1 12);
  flag "EVP_PKEY_OP_DECAPSULATE" (Z.shiftl 1 13)].

Definition EVP_PKEY_OP_sets : list (string * list string) := [
  ("EVP_PKEY_OP_TYPE_SIG", ["EVP_PKEY_OP_SIGN"; "EVP_PKEY_OP_VERIFY"; "EVP_PKEY_OP_VERIFYRECOVER";
    "EVP_PKEY_OP_SIGNCTX"; "EVP_PKEY_OP_VERIFYCTX"]);
  ("EVP_PKEY_OP_TYPE_CRYPT", ["EVP_PKEY_OP_ENCRYPT"; "EVP_PKEY_OP_DECRYPT"]);
  ("EVP_PKEY_OP_TYPE_NOGEN", ["EVP_PKEY_OP_TYPE_SIG"; "EVP_PKEY_OP_TYPE_CRYPT"; "EVP_PKEY_OP_DERIVE"]);
  ("EVP_PKEY_OP_TYPE_GEN", ["EVP_PKEY_OP_PARAMGEN"; "EVP_PKEY_OP_KEYGEN"])].

Definition RSA_FLAG : family := [
  flag "RSA_METHOD_FLAG_NO_CHECK" 0x0001;
  flag "RSA_FLAG_CACHE_PUBLIC" 0x0002;
  flag "RSA_FLAG_CACHE_PRIVATE" 0x0004;
  flag "RSA_FLAG_BLINDING" 0x0008;
  flag "RSA_FLAG_THREAD_SAFE" 0x0010;
  flag "RSA_FLAG_EXT_PKEY" 0x0020;
  flag "RSA_FLAG_NO_BLINDING" 0x0080;
  Field 0x0000 [
    ("RSA_FLAG_NO_CONSTTIME", 0x0000)];
  Field 0xF000 [
    ("RSA_FLAG_TYPE_RSA", 0x0000);
    ("RSA_FLAG_TYPE_RSASSAPSS", 0x1000);
    ("RSA_FLAG_TYPE_RSAESOAEP", 0x2000)]].
Definition RSA_FLAG_FIPS : family := [
  Field 0x0400 [
    ("RSA_FLAG_FIPS_METHOD", 0x0400);
    ("RSA_FLAG_NON_FIPS_ALLOW", 0x0400)];
  flag "RSA_FLAG_CHECKED" 0x0800].

Definition RSA_FLAG_sets : list (string * list string) := [
  ("RSA_FLAG_NO_EXP_CONSTTIME", ["RSA_FLAG_NO_CONSTTIME"])].

Definition DH_FLAG : family := [
  flag "DH_FLAG_CACHE_MONT_P" 0x01;
  Field 0xF000 [
    ("DH_FLAG_TYPE_DH", 0x0000);
    ("DH_FLAG_TYPE_DHX", 0x1000)];
  Field 0x00 [
    ("DH_FLAG_NO_EXP_CONSTTIME", 0x00)];
  Field 0x0400 [
    ("DH_FLAG_FIPS_METHOD", 0x0400);
    ("DH_FLAG_NON_FIPS_ALLOW", 0x0400)]].

Definition DSA_FLAG : family := [
  Field 0x00 [
    ("DSA_FLAG_NO_EXP_CONSTTIME", 0x00)];
  flag "DSA_FLAG_CACHE_MONT_P" 0x01;
  Field 0x0400 [
    ("DSA_FLAG_FIPS_METHOD", 0x0400);
    ("DSA_FLAG_NON_FIPS_ALLOW", 0x0400)];
  flag "DSA_FLAG_FIPS_CHECKED" 0x0800].

Definition EC_FLAG : family := [
  flag "EC_FLAG_SM2_RANGE" 0x0004;
  flag "EC_FLAG_COFACTOR_ECDH" 0x1000;
  flag "EC_FLAG_CHECK_NAMED_GROUP" 0x2000;
  flag "EC_FLAG_CHECK_NAMED_GROUP_NIST" 0x4000;
  Field 0x0000 [
    ("EC_FLAG_NON_FIPS_ALLOW", 0x0000);
    ("EC_FLAG_FIPS_CHECKED", 0x0000)]].

Definition EC_FLAG_sets : list (string * list string) := [
  ("EC_FLAG_CHECK_NAMED_GROUP_MASK", ["EC_FLAG_CHECK_NAMED_GROUP"; "EC_FLAG_CHECK_NAMED_GROUP_NIST"])].

Definition BN_FLG : family := [
  flag "BN_FLG_MALLOCED" 0x01;
  flag "BN_FLG_STATIC_DATA" 0x02;
  flag "BN_FLG_CONSTTIME" 0x04;
  flag "BN_FLG_SECURE" 0x08;
  flag "BN_FLG_FREE" 0x8000].

Definition BN_FLG_sets : list (string * list string) := [
  ("BN_FLG_EXP_CONSTTIME", ["BN_FLG_CONSTTIME"])].

Definition ENGINE_METHOD : family := [
  flag "ENGINE_METHOD_RSA" 0x0001;
  flag "ENGINE_METHOD_DSA" 0x0002;
  flag "ENGINE_METHOD_DH" 0x0004;
  flag "ENGINE_METHOD_RAND" 0x0008;
  flag "ENGINE_METHOD_CIPHERS" 0x0040;
  flag "ENGINE_METHOD_DIGESTS" 0x0080;
  flag "ENGINE_METHOD_PKEY_METHS" 0x0200;
  flag "ENGINE_METHOD_PKEY_ASN1_METHS" 0x0400;
  flag "ENGINE_METHOD_EC" 0x0800].

Definition ENGINE_CMD_FLAG : family := [
  flag "ENGINE_CMD_FLAG_NUMERIC" 0x0001;
  flag "ENGINE_CMD_FLAG_STRING" 0x0002;
  flag "ENGINE_CMD_FLAG_NO_INPUT" 0x0004;
  flag "ENGINE_CMD_FLAG_INTERNAL" 0x0008].

Definition ENGINE_FLAGS : family := [
  flag "ENGINE_FLAGS_MANUAL_CMD_CTRL" 0x0002;
  flag "ENGINE_FLAGS_BY_ID_COPY" 0x0004;
  flag "ENGINE_FLAGS_NO_REGISTER_ALL" 0x0008].

Definition CMS : family := [
  flag "CMS_TEXT" 0x1;
  flag "CMS_NOCERTS" 0x2;
  flag "CMS_NO_CONTENT_VERIFY" 0x4;
  flag "CMS_NO_ATTR_VERIFY" 0x8;
  flag "CMS_NOINTERN" 0x10;
  Field 0x20 [
    ("CMS_NO_SIGNER_CERT_VERIFY", 0x20);
    ("CMS_NOVERIFY", 0x20)];
  flag "CMS_DETACHED" 0x40;
  flag "CMS_BINARY" 0x80;
  flag "CMS_NOATTR" 0x100;
  flag "CMS_NOSMIMECAP" 0x200;
  flag "CMS_NOOLDMIMETYPE" 0x400;
  flag "CMS_CRLFEOL" 0x800;
  flag "CMS_STREAM" 0x1000;
  flag "CMS_NOCRL" 0x2000;
  flag "CMS_PARTIAL" 0x4000;
  flag "CMS_REUSE_DIGEST" 0x8000;
  flag "CMS_USE_KEYID" 0x10000;
  flag "CMS_DEBUG_DECRYPT" 0x20000;
  flag "CMS_KEY_PARAM" 0x40000;
  flag "CMS_ASCIICRLF" 0x80000;
  flag "CMS_CADES" 0x100000;
  flag "CMS_USE_ORIGINATOR_KEYID" 0x200000].

Definition CMS_sets : list (string * list string) := [
  ("CMS_NOSIGS", ["CMS_NO_CONTENT_VERIFY"; "CMS_NO_ATTR_VERIFY"])].

Definition PKCS7 : family := [
  flag "PKCS7_TEXT" 0x1;
  flag "PKCS7_NOCERTS" 0x2;
  flag "PKCS7_NOSIGS" 0x4;
  flag "PKCS7_NOCHAIN" 0x8;
  flag "PKCS7_NOINTERN" 0x10;
  flag "PKCS7_NOVERIFY" 0x20;
  flag "PKCS7_DETACHED" 0x40;
  flag "PKCS7_BINARY" 0x80;
  flag "PKCS7_NOATTR" 0x100;
  flag "PKCS7_NOSMIMECAP" 0x200;
  flag "PKCS7_NOOLDMIMETYPE" 0x400;
  flag "PKCS7_CRLFEOL" 0x800;
  flag "PKCS7_STREAM" 0x1000;
  flag "PKCS7_NOCRL" 0x2000;
  flag "PKCS7_PARTIAL" 0x4000;
  flag "PKCS7_REUSE_DIGEST" 0x8000;
  flag "PKCS7_NO_DUAL_CONTENT" 0x10000].

Definition OCSP : family := [
  flag "OCSP_NOCERTS" 0x1;
  flag "OCSP_NOINTERN" 0x2;
  flag "OCSP_NOSIGS" 0x4;
  flag "OCSP_NOCHAIN" 0x8;
  flag "OCSP_NOVERIFY" 0x10;
  flag "OCSP_NOEXPLICIT" 0x20;
  flag "OCSP_NOCASIGN" 0x40;
  flag "OCSP_NODELEGATED" 0x80;
  flag "OCSP_NOCHECKS" 0x100;
  flag "OCSP_TRUSTOTHER" 0x200;
  flag "OCSP_RESPID_KEY" 0x400;
  flag "OCSP_NOTIME" 0x800;
  flag "OCSP_PARTIAL_CHAIN" 0x1000].

Definition TS_VFY : family := [
  flag "TS_VFY_SIGNATURE" (Z.shiftl 1 0);
  flag "TS_VFY_VERSION" (Z.shiftl 1 1);
  flag "TS_VFY_POLICY" (Z.shiftl 1 2);
  flag "TS_VFY_IMPRINT" (Z.shiftl 1 3);
  flag "TS_VFY_DATA" (Z.shiftl 1 4);
  flag "TS_VFY_NONCE" (Z.shiftl 1 5);
  flag "TS_VFY_SIGNER" (Z.shiftl 1 6);
  flag "TS_VFY_TSA_NAME" (Z.shiftl 1 7)].

Definition TS_VFY_sets : list (string * list string) := [
  ("TS_VFY_ALL_IMPRINT", ["TS_VFY_SIGNATURE"; "TS_VFY_VERSION"; "TS_VFY_POLICY"; "TS_VFY_IMPRINT";
    "TS_VFY_NONCE"; "TS_VFY_SIGNER"; "TS_VFY_TSA_NAME"]);
  ("TS_VFY_ALL_DATA", ["TS_VFY_SIGNATURE"; "TS_VFY_VERSION"; "TS_VFY_POLICY"; "TS_VFY_DATA"; "TS_VFY_NONCE";
    "TS_VFY_SIGNER"; "TS_VFY_TSA_NAME"])].

Definition CONF_MFLAGS : family := [
  flag "CONF_MFLAGS_IGNORE_ERRORS" 0x1;
  flag "CONF_MFLAGS_IGNORE_RETURN_CODES" 0x2;
  flag "CONF_MFLAGS_SILENT" 0x4;
  flag "CONF_MFLAGS_NO_DSO" 0x8;
  flag "CONF_MFLAGS_IGNORE_MISSING_FILE" 0x10;
  flag "CONF_MFLAGS_DEFAULT_SECTION" 0x20].

Definition OSSL_CMP_CTX_FAILINFO : family := [
  flag "OSSL_CMP_CTX_FAILINFO_badAlg" (Z.shiftl 1 0);
  flag "OSSL_CMP_CTX_FAILINFO_badMessageCheck" (Z.shiftl 1 1);
  flag "OSSL_CMP_CTX_FAILINFO_badRequest" (Z.shiftl 1 2);
  flag "OSSL_CMP_CTX_FAILINFO_badTime" (Z.shiftl 1 3);
  flag "OSSL_CMP_CTX_FAILINFO_badCertId" (Z.shiftl 1 4);
  flag "OSSL_CMP_CTX_FAILINFO_badDataFormat" (Z.shiftl 1 5);
  flag "OSSL_CMP_CTX_FAILINFO_wrongAuthority" (Z.shiftl 1 6);
  flag "OSSL_CMP_CTX_FAILINFO_incorrectData" (Z.shiftl 1 7);
  flag "OSSL_CMP_CTX_FAILINFO_missingTimeStamp" (Z.shiftl 1 8);
  flag "OSSL_CMP_CTX_FAILINFO_badPOP" (Z.shiftl 1 9);
  flag "OSSL_CMP_CTX_FAILINFO_certRevoked" (Z.shiftl 1 10);
  flag "OSSL_CMP_CTX_FAILINFO_certConfirmed" (Z.shiftl 1 11);
  flag "OSSL_CMP_CTX_FAILINFO_wrongIntegrity" (Z.shiftl 1 12);
  flag "OSSL_CMP_CTX_FAILINFO_badRecipientNonce" (Z.shiftl 1 13);
  flag "OSSL_CMP_CTX_FAILINFO_timeNotAvailable" (Z.shiftl 1 14);
  flag "OSSL_CMP_CTX_FAILINFO_unacceptedPolicy" (Z.shiftl 1 15);
  flag "OSSL_CMP_CTX_FAILINFO_unacceptedExtension" (Z.shiftl 1 16);
  flag "OSSL_CMP_CTX_FAILINFO_addInfoNotAvailable" (Z.shiftl 1 17);
  flag "OSSL_CMP_CTX_FAILINFO_badSenderNonce" (Z.shiftl 1 18);
  flag "OSSL_CMP_CTX_FAILINFO_badCertTemplate" (Z.shiftl 1 19);
  flag "OSSL_CMP_CTX_FAILINFO_signerNotTrusted" (Z.shiftl 1 20);
  flag "OSSL_CMP_CTX_FAILINFO_transactionIdInUse" (Z.shiftl 1 21);
  flag "OSSL_CMP_CTX_FAILINFO_unsupportedVersion" (Z.shiftl 1 22);
  flag "OSSL_CMP_CTX_FAILINFO_notAuthorized" (Z.shiftl 1 23);
  flag "OSSL_CMP_CTX_FAILINFO_systemUnavail" (Z.shiftl 1 24);
  flag "OSSL_CMP_CTX_FAILINFO_systemFailure" (Z.shiftl 1 25);
  flag "OSSL_CMP_CTX_FAILINFO_duplicateCertReq" (Z.shiftl 1 26)].

Definition OSSL_KEYMGMT_SELECT : family := [
  flag "OSSL_KEYMGMT_SELECT_PRIVATE_KEY" 0x01;
  flag "OSSL_KEYMGMT_SELECT_PUBLIC_KEY" 0x02;
  flag "OSSL_KEYMGMT_SELECT_DOMAIN_PARAMETERS" 0x04;
  flag "OSSL_KEYMGMT_SELECT_OTHER_PARAMETERS" 0x80].

Definition OSSL_KEYMGMT_SELECT_sets : list (string * list string) := [
  ("OSSL_KEYMGMT_SELECT_ALL_PARAMETERS", ["OSSL_KEYMGMT_SELECT_DOMAIN_PARAMETERS";
    "OSSL_KEYMGMT_SELECT_OTHER_PARAMETERS"]);
  ("OSSL_KEYMGMT_SELECT_KEYPAIR", ["OSSL_KEYMGMT_SELECT_PRIVATE_KEY"; "OSSL_KEYMGMT_SELECT_PUBLIC_KEY"]);
  ("OSSL_KEYMGMT_SELECT_ALL", ["OSSL_KEYMGMT_SELECT_KEYPAIR"; "OSSL_KEYMGMT_SELECT_ALL_PARAMETERS"])].

Definition PEM_FLAG : family := [
  flag "PEM_FLAG_SECURE" 0x1;
  flag "PEM_FLAG_EAY_COMPATIBLE" 0x2;
  flag "PEM_FLAG_ONLY_B64" 0x4].

(** The families with their sets. The flags of [crypto.h] and [ssl.h] for
    initialisation share a word, and so do the flags of [asn1.h] and [x509.h]
    for printing names. *)
Definition flag_families : list (family * list (string * list string)) := [
  (SSL_OP, SSL_OP_sets);
  (SSL_MODE, []);
  (SSL_CERT_FLAG, []);
  (SSL_BUILD_CHAIN_FLAG, []);
  (SSL_SESS_CACHE, SSL_SESS_CACHE_sets);
  (SSL_EXT, []);
  (SSL_VERIFY, []);
  ((OPENSSL_INIT_crypto ++ OPENSSL_INIT_ssl)%list, (OPENSSL_INIT_crypto_sets)%list);
  (X509_V_FLAG, X509_V_FLAG_sets);
  (X509_CHECK_FLAG, []);
  (EXFLAG, []);
  (KU, []);
  (NS, NS_sets);
  (XKU, []);
  (X509V3_ADD, []);
  (X509V3_EXT_ctx, []);
  (X509V3_EXT_unknown, []);
  (X509_FLAG, []);
  ((ASN1_STRFLGS ++ XN_FLAG)%list, (ASN1_STRFLGS_sets ++ XN_FLAG_sets)%list);
  (ASN1_STRING_FLAG, []);
  (B_ASN1, B_ASN1_sets);
  (ASN1_TFLG, ASN1_TFLG_sets);
  (EVP_CIPH, []);
  (EVP_MD_FLAG, []);
  (EVP_MD_CTX_FLAG, []);
  (EVP_PKEY_OP, EVP_PKEY_OP_sets);
  ((RSA_FLAG ++ RSA_FLAG_FIPS)%list, RSA_FLAG_sets);
  (DH_FLAG, []);
  (DSA_FLAG, []);
  (EC_FLAG, EC_FLAG_sets);
  (BN_FLG, BN_FLG_sets);
  (ENGINE_METHOD, []);
  (ENGINE_CMD_FLAG, []);
  (ENGINE_FLAGS, []);
  (CMS, CMS_sets);
  (PKCS7, []);
  (OCSP, []);
  (TS_VFY, TS_VFY_sets);
  (CONF_MFLAGS, []);
  (OSSL_CMP_CTX_FAILINFO, []);
  (OSSL_KEYMGMT_SELECT, OSSL_KEYMGMT_SELECT_sets);
  (PEM_FLAG, [])].

(** The bit numbers of a PKIFailureInfo, whose flags are [OSSL_CMP_CTX_FAILINFO]. *)
Definition OSSL_CMP_PKIFAILUREINFO : list (string * Z) := [
  ("OSSL_CMP_PKIFAILUREINFO_badAlg", 0);
  ("OSSL_CMP_PKIFAILUREINFO_badMessageCheck", 1);
  ("OSSL_CMP_PKIFAILUREINFO_badRequest", 2);
  ("OSSL_CMP_PKIFAILUREINFO_badTime", 3);
  ("OSSL_CMP_PKIFAILUREINFO_badCertId", 4);
  ("OSSL_CMP_PKIFAILUREINFO_badDataFormat", 5);
  ("OSSL_CMP_PKIFAILUREINFO_wrongAuthority", 6);
  ("OSSL_CMP_PKIFAILUREINFO_incorrectData", 7);
  ("OSSL_CMP_PKIFAILUREINFO_missingTimeStamp", 8);
  ("OSSL_CMP_PKIFAILUREINFO_badPOP", 9);
  ("OSSL_CMP_PKIFAILUREINFO_certRevoked", 10);
  ("OSSL_CMP_PKIFAILUREINFO_certConfirmed", 11);
  ("OSSL_CMP_PKIFAILUREINFO_wrongIntegrity", 12);
  ("OSSL_CMP_PKIFAILUREINFO_badRecipientNonce", 13);
  ("OSSL_CMP_PKIFAILUREINFO_timeNotAvailable", 14);
  ("OSSL_CMP_PKIFAILUREINFO_unacceptedPolicy", 15);
  ("OSSL_CMP_PKIFAILUREINFO_unacceptedExtension", 16);
  ("OSSL_CMP_PKIFAILUREINFO_addInfoNotAvailable", 17);
  ("OSSL_CMP_PKIFAILUREINFO_badSenderNonce", 18);
  ("OSSL_CMP_PKIFAILUREINFO_badCertTemplate", 19);
  ("OSSL_CMP_PKIFAILUREINFO_signerNotTrusted", 20);
  ("OSSL_CMP_PKIFAILUREINFO_transactionIdInUse", 21);
  ("OSSL_CMP_PKIFAILUREINFO_unsupportedVersion", 22);
  ("OSSL_CMP_PKIFAILUREINFO_notAuthorized", 23);
  ("OSSL_CMP_PKIFAILUREINFO_systemUnavail", 24);
  ("OSSL_CMP_PKIFAILUREINFO_systemFailure", 25);
  ("OSSL_CMP_PKIFAILUREINFO_duplicateCertReq", 26)].
Definition OSSL_CMP_PKIFAILUREINFO_MAX : Z := 26.
Definition OSSL_CMP_PKIFAILUREINFO_MAX_BIT_PATTERN : Z := Z.shiftl 1 (OSSL_CMP_PKIFAILUREINFO_MAX + 1) - 1.

(** ** The value of a macro *)

Definition flag_value (fam : family) (n : string) : option Z :=
  snd <$> head (filter (λ e, e.1 = n) (concat (field_values <$> fam))).

Section sets.
Context (fam : family) (sets : list (string * list string)).

(** A set is the union of its members, which may be sets themselves. *)
Fixpoint set_value (fuel : nat) (n : string) : option Z :=
  match fuel with
  | O => None
  | S fuel =>
      match head (filter (λ e, e.1 = n) sets) with
      | Some (_, ms) => foldr (λ m acc, v ← set_value fuel m; w ← acc; Some (Z.lor v w)) (Some 0) ms
      | None => flag_value fam n
      end
  end.

(** The flags in a set. *)
Fixpoint set_flags (fuel : nat) (n : string) : list string :=
  match fuel with
  | O => []
  | S fuel =>
      match head (filter (λ e, e.1 = n) sets) with
      | Some (_, ms) => ms ≫= set_flags fuel
      | None => [n]
      end
  end.
End sets.
