(* ===== verification/FlagProperties.v ===== *)
(** * Properties of OpenSSL's flag words *)

From S2P Require Import Prelude ByteMemory OpensslFacts OpensslFlags.
From stdpp Require Import strings ssreflect.
Local Open Scope string_scope.
Local Open Scope Z_scope.

(** ** Words and their fields *)

(** A word with the given value in each field, and the values of its fields. *)
Definition assemble (c : list Z) : Z := foldr Z.lor 0 c.
Definition decode (fam : family) (w : Z) : list Z := (λ f, Z.land w (field_mask f)) <$> fam.
(** Putting the value [v] into one field: [(w & ~mask) | v]. *)
Definition set_field (w : Z) (f : field) (v : Z) : Z := Z.lor (Z.ldiff w (field_mask f)) v.

(** A field may be left alone, or hold one of its values. *)
Definition field_value (f : field) (v : Z) : Prop := v = 0 ∨ v ∈ (field_values f).*2.

Definition field_okb (f : field) : bool :=
  (0 <=? field_mask f) && (field_mask f <? 2 ^ 32) && forallb (λ e, Z.land e.2 (field_mask f) =? e.2) (field_values f).
Definition apart (f g : field) : bool := Z.land (field_mask f) (field_mask g) =? 0.
Fixpoint family_okb (fam : family) : bool :=
  match fam with
  | [] => true
  | f :: fam => field_okb f && forallb (apart f) fam && family_okb fam
  end.

Lemma testbit_above m n i : 0 ≤ m < 2 ^ n → 0 ≤ n ≤ i → Z.testbit m i = false.
Proof. intros Hm Hi. rewrite -(Z.mod_small m (2 ^ n)) // Z.mod_pow2_bits_high //; lia. Qed.

Lemma field_okb_value f v : field_okb f = true → field_value f v → Z.land v (field_mask f) = v.
Proof.
  unfold field_okb. intros [_ H]%andb_prop [->|Hv]; [done|]. rewrite forallb_forall in H.
  apply list_elem_of_fmap in Hv as (e & -> & He%list_elem_of_In%H). lia.
Qed.

Lemma apart_value f g v : apart f g = true → Z.land v (field_mask g) = v → Z.land v (field_mask f) = 0.
Proof.
  unfold apart. intros E%Z.eqb_eq <-. by rewrite -Z.land_assoc (Z.land_comm (field_mask g)) E Z.land_0_r.
Qed.

Lemma assemble_apart f fam c :
  family_okb fam = true → forallb (apart f) fam = true → Forall2 field_value fam c → Z.land (assemble c) (field_mask f) = 0.
Proof.
  intros Hok Hf Hc. induction Hc as [|g v fam c Hv Hc IH]; [done|]. cbn in *.
  apply andb_prop in Hok as [[Hg _]%andb_prop Hok], Hf as [Hfg Hf].
  rewrite Z.land_lor_distr_l IH // (apart_value f g v) //. by apply field_okb_value.
Qed.

Lemma decode_assemble fam c : family_okb fam = true → Forall2 field_value fam c → decode fam (assemble c) = c.
Proof.
  intros Hok Hc. induction Hc as [|f v fam c Hv Hc IH]; [done|]. cbn in *.
  apply andb_prop in Hok as [[Hf Hfam]%andb_prop Hok]. f_equal.
  - rewrite Z.land_lor_distr_l (assemble_apart f fam c) // Z.lor_0_r. by apply field_okb_value.
  - rewrite -{2}IH //. apply map_ext_in. intros g Hg. rewrite Z.land_lor_distr_l.
    rewrite forallb_forall in Hfam. apply Hfam in Hg.
    rewrite (apart_value g f v) //; [|by apply field_okb_value]. unfold apart in *. by rewrite Z.land_comm.
Qed.

Lemma assemble_range fam c :
  family_okb fam = true → Forall2 field_value fam c → 0 ≤ assemble c < 2 ^ 32.
Proof.
  intros Hok Hc. induction Hc as [|f v fam c Hv Hc IH]; [done|]. cbn in *.
  apply andb_prop in Hok as [[Hf _]%andb_prop Hok]. pose proof (field_okb_value f v Hf Hv) as E.
  unfold field_okb in Hf. apply andb_prop in Hf as [Hm _]. specialize (IH Hok).
  apply bits_lt; [done|]. intros i Hi.
  rewrite Z.lor_spec -E Z.land_spec (testbit_above (assemble c) 32 i) ?(testbit_above (field_mask f) 32 i) ?andb_false_r //; lia.
Qed.

Lemma set_field_same f v w : Z.land v (field_mask f) = v → Z.land (set_field w f v) (field_mask f) = v.
Proof.
  intros Hv. unfold set_field. rewrite Z.land_lor_distr_l Hv.
  rewrite (_ : Z.land (Z.ldiff w (field_mask f)) (field_mask f) = 0) //.
  apply Z.bits_inj'. intros i Hi. rewrite Z.land_spec Z.ldiff_spec Z.bits_0. by destruct (Z.testbit w i), (Z.testbit (field_mask f) i).
Qed.

Lemma set_field_other f g v w :
  apart f g = true → Z.land v (field_mask f) = v → Z.land (set_field w f v) (field_mask g) = Z.land w (field_mask g).
Proof.
  unfold apart. rewrite Z.land_comm. fold (apart g f). intros Hfg Hv. unfold set_field. rewrite Z.land_lor_distr_l (apart_value g f v) // Z.lor_0_r.
  apply Z.bits_inj'. intros i Hi. rewrite !Z.land_spec Z.ldiff_spec.
  unfold apart in Hfg. apply Z.eqb_eq in Hfg. apply (f_equal (λ x, Z.testbit x i)) in Hfg.
  rewrite Z.land_spec Z.bits_0 in Hfg. by destruct (Z.testbit w i), (Z.testbit (field_mask f) i), (Z.testbit (field_mask g) i).
Qed.

(** ** The families *)

(** Macros of a field with the same value other than 0: old names of a flag, the
    TLS and DTLS names of one flag, and flags of FIPS builds that share a bit. *)
Definition synonyms : list (string * string) := [
  ("SSL_OP_NO_TLSv1", "SSL_OP_NO_DTLSv1"); ("SSL_OP_NO_TLSv1_2", "SSL_OP_NO_DTLSv1_2");
  ("B_ASN1_T61STRING", "B_ASN1_TELETEXSTRING"); ("B_ASN1_ISO64STRING", "B_ASN1_VISIBLESTRING");
  ("RSA_FLAG_FIPS_METHOD", "RSA_FLAG_NON_FIPS_ALLOW"); ("DH_FLAG_FIPS_METHOD", "DH_FLAG_NON_FIPS_ALLOW");
  ("DSA_FLAG_FIPS_METHOD", "DSA_FLAG_NON_FIPS_ALLOW"); ("CMS_NO_SIGNER_CERT_VERIFY", "CMS_NOVERIFY")].

(** The bits that some flags of a field have together. *)
Definition flags_of (f : field) (ns : list string) : Z :=
  foldr Z.lor 0 (filter (λ e, e.1 ∈ ns) (field_values f)).*2.

Definition names_okb (f : field) : bool :=
  forallb (λ e, forallb (λ e', (e.2 =? 0) || negb (e.2 =? e'.2) || bool_decide (e.1 = e'.1) ||
     bool_decide ((e.1, e'.1) ∈ synonyms) || bool_decide ((e'.1, e.1) ∈ synonyms)) (field_values f)) (field_values f).
Definition sets_okb (fam : family) (sets : list (string * list string)) : bool :=
  forallb (λ e, match set_value fam sets 3 e.1 with
                | Some w => forallb (λ f, Z.land w (field_mask f) =? flags_of f (set_flags sets 3 e.1)) fam
                | None => false
                end) sets.
Lemma flag_families_ok :
  forallb (λ e, family_okb e.1 && forallb names_okb e.1 && sets_okb e.1 e.2) flag_families = true.
Proof. by vm_compute. Qed.

Lemma family_okb_field fam i f :
  family_okb fam = true → fam !! i = Some f → field_okb f = true ∧ ∀ j g, fam !! j = Some g → i ≠ j → apart f g = true.
Proof.
  revert i f. induction fam as [|h fam IH]; intros i f Hok Hi; [done|]. cbn in Hok.
  apply andb_prop in Hok as [[Hh Hfam]%andb_prop Hok]. rewrite forallb_forall in Hfam.
  assert (∀ k g, fam !! k = Some g → apart h g = true) as Hap
    by (intros k g Hk; apply Hfam, list_elem_of_In, (list_elem_of_lookup_2 _ k _ Hk)).
  destruct i as [|i]; cbn in Hi; simplify_eq.
  - split; [done|]. intros [|j] g Hg ?; [done|]. by eapply Hap.
  - destruct (IH i f Hok Hi) as [Hf Hg]. split; [done|]. intros [|j] g Hj Hij; cbn in Hj; simplify_eq.
    + unfold apart in *. rewrite Z.land_comm. by eapply Hap.
    + apply (Hg j g Hj). lia.
Qed.

Lemma decode_set_field fam i f v w :
  family_okb fam = true → fam !! i = Some f → field_value f v → decode fam (set_field w f v) = <[i := v]> (decode fam w).
Proof.
  intros Hok Hi Hv. destruct (family_okb_field fam i f Hok Hi) as [Hf Hother].
  pose proof (field_okb_value f v Hf Hv) as Hval. apply list_eq. intros j. unfold decode, family in *.
  destruct (decide (i = j)) as [<-|Hij].
  - pose proof (lookup_lt_Some _ _ _ Hi). rewrite list_lookup_fmap Hi list_lookup_insert_eq ?length_fmap //.
    cbn. by rewrite set_field_same.
  - rewrite list_lookup_insert_ne // !list_lookup_fmap. destruct (fam !! j) as [g|] eqn:Hj; [cbn|done].
    by rewrite (set_field_other f g) //; apply (Hother j g).
Qed.

(** The flag and the bit number of each reason for a failure have the same name. *)
Definition failinfo_okb (e : string * Z) (f : field) : bool :=
  let s := String.substring 24 64 e.1 in
  bool_decide (e.1 = "OSSL_CMP_PKIFAILUREINFO_" +:+ s ∧
               field_values f = [("OSSL_CMP_CTX_FAILINFO_" +:+ s, Z.shiftl 1 e.2)] ∧
               0 ≤ e.2 ≤ OSSL_CMP_PKIFAILUREINFO_MAX).
Lemma failinfo_ok :
  forallb (λ p, failinfo_okb p.1 p.2) (zip OSSL_CMP_PKIFAILUREINFO OSSL_CMP_CTX_FAILINFO) = true ∧
  length OSSL_CMP_PKIFAILUREINFO = length OSSL_CMP_CTX_FAILINFO.
Proof. by vm_compute. Qed.

(** C30: the flag words of OpenSSL are sets of options: a word assembled from one
    value or nothing for each field of a family fits 32 bits and decodes with
    the masks to exactly these values, and setting a field of any word changes
    no other one. Two macros of a field have the same value, if it is not 0, only
    if they are one of the eight pairs of [synonyms]: two names of a flag, the names
    of a version for TLS and DTLS, or the two flags of a method for FIPS, which
    share a bit. Macros that are 0, such as the options that do nothing any more,
    are no flags of a word: any number of them may be equal. The sets (like
    SSL_OP_ALL) hold the bits of the flags they list and no other. The failure bits
    of CMP are numbered as their flags, up to MAX, and fill MAX_BIT_PATTERN. *)
Theorem flag_words_roundtrip :
  (∀ fam sets, (fam, sets) ∈ flag_families →
     (∀ c, Forall2 field_value fam c → decode fam (assemble c) = c ∧ 0 ≤ assemble c < 2 ^ 32) ∧
     (∀ i f v w, fam !! i = Some f → field_value f v → decode fam (set_field w f v) = <[i := v]> (decode fam w)) ∧
     (∀ f n n' v, f ∈ fam → (n, v) ∈ field_values f → (n', v) ∈ field_values f → v ≠ 0 →
        n = n' ∨ (n, n') ∈ synonyms ∨ (n', n) ∈ synonyms) ∧
     (∀ n ms, (n, ms) ∈ sets → ∃ w, set_value fam sets 3 n = Some w ∧
        ∀ f, f ∈ fam → Z.land w (field_mask f) = flags_of f (set_flags sets 3 n))) ∧
  (∀ i n bit, OSSL_CMP_PKIFAILUREINFO !! i = Some (n, bit) →
     0 ≤ bit ≤ OSSL_CMP_PKIFAILUREINFO_MAX ∧ ∃ s f, n = "OSSL_CMP_PKIFAILUREINFO_" +:+ s ∧
     OSSL_CMP_CTX_FAILINFO !! i = Some f ∧ field_values f = [("OSSL_CMP_CTX_FAILINFO_" +:+ s, Z.shiftl 1 bit)]) ∧
  assemble (field_mask <$> OSSL_CMP_CTX_FAILINFO) = OSSL_CMP_PKIFAILUREINFO_MAX_BIT_PATTERN.
Proof.
  split_and!; [| |by vm_compute].
  - intros fam sets Hin. pose proof flag_families_ok as Hall. rewrite forallb_forall in Hall.
    apply list_elem_of_In, Hall in Hin as [[Hok Hnames]%andb_prop Hsets]%andb_prop. cbn [fst snd] in *. split_and!.
    + intros c Hc. split; [by apply decode_assemble|by apply (assemble_range fam)].
    + intros. by apply decode_set_field.
    + intros f n n' v Hf Hn Hn' Hv. rewrite forallb_forall in Hnames.
      apply list_elem_of_In, Hnames in Hf. unfold names_okb in Hf. rewrite forallb_forall in Hf.
      apply list_elem_of_In, Hf in Hn. rewrite forallb_forall in Hn.
      apply list_elem_of_In, Hn in Hn'. cbn [fst snd] in Hn'. rewrite (proj2 (Z.eqb_neq v 0) Hv) Z.eqb_refl in Hn'.
      apply orb_prop in Hn' as [[H%bool_decide_eq_true|H%bool_decide_eq_true]%orb_prop|H%bool_decide_eq_true]; auto.
    + intros n ms Hn. unfold sets_okb in Hsets. rewrite forallb_forall in Hsets.
      apply list_elem_of_In, Hsets in Hn. cbn [fst] in Hn. destruct (set_value fam sets 3 n) as [w|]; [|done].
      exists w. split; [done|]. intros f Hf. rewrite forallb_forall in Hn.
      apply list_elem_of_In, Hn in Hf. lia.
  - intros i n bit Hi. destruct failinfo_ok as [Hz Hlen]. rewrite forallb_forall in Hz.
    destruct (lookup_lt_is_Some_2 OSSL_CMP_CTX_FAILINFO i) as [f Hf];
      [rewrite -Hlen; by apply lookup_lt_Some in Hi|].
    assert (((n, bit), f) ∈ zip OSSL_CMP_PKIFAILUREINFO OSSL_CMP_CTX_FAILINFO) as H.
    { apply (list_elem_of_lookup_2 _ i), lookup_zip_with_Some. eauto. }
    apply list_elem_of_In, Hz, bool_decide_eq_true in H as (Hn & Hf' & Hb). split; [done|]. cbn [fst snd] in *. eauto.
Qed.

(** A verification mode with two flags; the mode field of a cipher; SSL_OP_ALL. *)
Lemma flag_words_roundtrip_witness :
  decode SSL_VERIFY (assemble [0; 1; 0; 4; 0]) = [0; 1; 0; 4; 0] ∧
  decode EVP_CIPH (set_field 0x208007 (Field 0xF0007 [("EVP_CIPH_CBC_MODE", 2)]) 2) =
    <[0%nat := 2]> (decode EVP_CIPH 0x208007) ∧
  (∃ w, set_value SSL_OP SSL_OP_sets 3 "SSL_OP_ALL" = Some w) ∧
  0 ≤ 26 ≤ OSSL_CMP_PKIFAILUREINFO_MAX.
Proof.
  destruct flag_words_roundtrip as (Hfam & Hcmp & _).
  assert ((SSL_VERIFY, []) ∈ flag_families) as Hv by (unfold flag_families; do 6 right; left).
  assert ((EVP_CIPH, []) ∈ flag_families) as He by (unfold flag_families; do 22 right; left).
  assert ((SSL_OP, SSL_OP_sets) ∈ flag_families) as Hop by (unfold flag_families; left).
  split_and!.
  - apply (proj1 (Hfam _ _ Hv)).
    repeat (apply Forall2_cons; split; [first [left; reflexivity|right; left]|]). by apply Forall2_nil.
  - destruct (Hfam _ _ He) as (_ & Hset & _).
    change (set_field _ _ _) with (set_field 0x208007 (nth 0 EVP_CIPH (Field 0 [])) 2).
    apply Hset; [reflexivity|right; do 2 right; left].
  - destruct (proj2 (proj2 (proj2 (Hfam _ _ Hop))) "SSL_OP_ALL"
      ["SSL_OP_CRYPTOPRO_TLSEXT_BUG"; "SSL_OP_DONT_INSERT_EMPTY_FRAGMENTS"; "SSL_OP_TLSEXT_PADDING";
       "SSL_OP_SAFARI_ECDHE_ECDSA_BUG"]) as (w & Hw & _); [unfold SSL_OP_sets; do 2 right; left|by exists w].
  - apply (proj1 (Hcmp 26%nat "OSSL_CMP_PKIFAILUREINFO_duplicateCertReq" 26 eq_refl)).
  - apply (proj1 (Hcmp 26%nat "OSSL_CMP_PKIFAILUREINFO_duplicateCertReq" 26 eq_refl)).
Defined.
