(* ===== verification/TlsCiphers.v ===== *)
(** * TLS cipher suites and versions: [openssl/ssl3.h], [openssl/tls1.h], [openssl/prov_ssl.h]

    The macros for the codes of the suites ([SSL3_CK_], [TLS1_CK_], [TLS1_3_CK_])
    and for their names, OpenSSL's ([_TXT_]) and the standard's ([_RFC_]). The
    macros of one suite differ in this infix only. *)

From S2P Require Import Prelude.
From stdpp Require Import strings.
Local Open Scope string_scope.
Local Open Scope Z_scope.

(** The body of a code's macro: a number, or another macro. *)
Inductive code : Type := Code (n : Z) | Same_as (macro : string).
#[export] Instance code_eq_dec : EqDecision code.
Proof. solve_decision. Defined.

Definition ssl3_codes_1 : list (string * code) := [
  ("SSL3_CK_SCSV", Code 0x030000FF);
  ("SSL3_CK_FALLBACK_SCSV", Code 0x03005600);
  ("SSL3_CK_RSA_NULL_MD5", Code 0x03000001);
  ("SSL3_CK_RSA_NULL_SHA", Code 0x03000002);
  ("SSL3_CK_RSA_RC4_40_MD5", Code 0x03000003);
  ("SSL3_CK_RSA_RC4_128_MD5", Code 0x03000004);
  ("SSL3_CK_RSA_RC4_128_SHA", Code 0x03000005);
  ("SSL3_CK_RSA_RC2_40_MD5", Code 0x03000006);
  ("SSL3_CK_RSA_IDEA_128_SHA", Code 0x03000007);
  ("SSL3_CK_RSA_DES_40_CBC_SHA", Code 0x03000008);
  ("SSL3_CK_RSA_DES_64_CBC_SHA", Code 0x03000009);
  ("SSL3_CK_RSA_DES_192_CBC3_SHA", Code 0x0300000A);
  ("SSL3_CK_DH_DSS_DES_40_CBC_SHA", Code 0x0300000B);
  ("SSL3_CK_DH_DSS_DES_64_CBC_SHA", Code 0x0300000C);
  ("SSL3_CK_DH_DSS_DES_192_CBC3_SHA", Code 0x0300000D);
  ("SSL3_CK_DH_RSA_DES_40_CBC_SHA", Code 0x0300000E);
  ("SSL3_CK_DH_RSA_DES_64_CBC_SHA", Code 0x0300000F);
  ("SSL3_CK_DH_RSA_DES_192_CBC3_SHA", Code 0x03000010);
  ("SSL3_CK_DHE_DSS_DES_40_CBC_SHA", Code 0x03000011);
  ("SSL3_CK_EDH_DSS_DES_40_CBC_SHA", Same_as "SSL3_CK_DHE_DSS_DES_40_CBC_SHA");
  ("SSL3_CK_DHE_DSS_DES_64_CBC_SHA", Code 0x03000012);
  ("SSL3_CK_EDH_DSS_DES_64_CBC_SHA", Same_as "SSL3_CK_DHE_DSS_DES_64_CBC_SHA");
  ("SSL3_CK_DHE_DSS_DES_192_CBC3_SHA", Code 0x03000013);
  ("SSL3_CK_EDH_DSS_DES_192_CBC3_SHA", Same_as "SSL3_CK_DHE_DSS_DES_192_CBC3_SHA");
  ("SSL3_CK_DHE_RSA_DES_40_CBC_SHA", Code 0x03000014);
  ("SSL3_CK_EDH_RSA_DES_40_CBC_SHA", Same_as "SSL3_CK_DHE_RSA_DES_40_CBC_SHA");
  ("SSL3_CK_DHE_RSA_DES_64_CBC_SHA", Code 0x03000015);
  ("SSL3_CK_EDH_RSA_DES_64_CBC_SHA", Same_as "SSL3_CK_DHE_RSA_DES_64_CBC_SHA");
  ("SSL3_CK_DHE_RSA_DES_192_CBC3_SHA", Code 0x03000016);
  ("SSL3_CK_EDH_RSA_DES_192_CBC3_SHA", Same_as "SSL3_CK_DHE_RSA_DES_192_CBC3_SHA");
  ("SSL3_CK_ADH_RC4_40_MD5", Code 0x03000017);
  ("SSL3_CK_ADH_RC4_128_MD5", Code 0x03000018);
  ("SSL3_CK_ADH_DES_40_CBC_SHA", Code 0x03000019);
  ("SSL3_CK_ADH_DES_64_CBC_SHA", Code 0x0300001A);
  ("SSL3_CK_ADH_DES_192_CBC_SHA", Code 0x0300001B)].

Definition ssl3_names_1 : list (string * string) := [
  ("SSL3_RFC_RSA_NULL_MD5", "TLS_RSA_WITH_NULL_MD5");
  ("SSL3_RFC_RSA_NULL_SHA", "TLS_RSA_WITH_NULL_SHA");
  ("SSL3_RFC_RSA_DES_192_CBC3_SHA", "TLS_RSA_WITH_3DES_EDE_CBC_SHA");
  ("SSL3_RFC_DHE_DSS_DES_192_CBC3_SHA", "TLS_DHE_DSS_WITH_3DES_EDE_CBC_SHA");
  ("SSL3_RFC_DHE_RSA_DES_192_CBC3_SHA", "TLS_DHE_RSA_WITH_3DES_EDE_CBC_SHA");
  ("SSL3_RFC_ADH_DES_192_CBC_SHA", "TLS_DH_anon_WITH_3DES_EDE_CBC_SHA");
  ("SSL3_RFC_RSA_IDEA_128_SHA", "TLS_RSA_WITH_IDEA_CBC_SHA");
  ("SSL3_RFC_RSA_RC4_128_MD5", "TLS_RSA_WITH_RC4_128_MD5");
  ("SSL3_RFC_RSA_RC4_128_SHA", "TLS_RSA_WITH_RC4_128_SHA");
  ("SSL3_RFC_ADH_RC4_128_MD5", "TLS_DH_anon_WITH_RC4_128_MD5");
  ("SSL3_TXT_RSA_NULL_MD5", "NULL-MD5");
  ("SSL3_TXT_RSA_NULL_SHA", "NULL-SHA");
  ("SSL3_TXT_RSA_RC4_40_MD5", "EXP-RC4-MD5");
  ("SSL3_TXT_RSA_RC4_128_MD5", "RC4-MD5");
  ("SSL3_TXT_RSA_RC4_128_SHA", "RC4-SHA");
  ("SSL3_TXT_RSA_RC2_40_MD5", "EXP-RC2-CBC-MD5");
  ("SSL3_TXT_RSA_IDEA_128_SHA", "IDEA-CBC-SHA");
  ("SSL3_TXT_RSA_DES_40_CBC_SHA", "EXP-DES-CBC-SHA");
  ("SSL3_TXT_RSA_DES_64_CBC_SHA", "DES-CBC-SHA");
  ("SSL3_TXT_RSA_DES_192_CBC3_SHA", "DES-CBC3-SHA");
  ("SSL3_TXT_DH_DSS_DES_40_CBC_SHA", "EXP-DH-DSS-DES-CBC-SHA");
  ("SSL3_TXT_DH_DSS_DES_64_CBC_SHA", "DH-DSS-DES-CBC-SHA");
  ("SSL3_TXT_DH_DSS_DES_192_CBC3_SHA", "DH-DSS-DES-CBC3-SHA");
  ("SSL3_TXT_DH_RSA_DES_40_CBC_SHA", "EXP-DH-RSA-DES-CBC-SHA");
  ("SSL3_TXT_DH_RSA_DES_64_CBC_SHA", "DH-RSA-DES-CBC-SHA");
  ("SSL3_TXT_DH_RSA_DES_192_CBC3_SHA", "DH-RSA-DES-CBC3-SHA");
  ("SSL3_TXT_DHE_DSS_DES_40_CBC_SHA", "EXP-DHE-DSS-DES-CBC-SHA");
  ("SSL3_TXT_DHE_DSS_DES_64_CBC_SHA", "DHE-DSS-DES-CBC-SHA");
  ("SSL3_TXT_DHE_DSS_DES_192_CBC3_SHA", "DHE-DSS-DES-CBC3-SHA");
  ("SSL3_TXT_DHE_RSA_DES_40_CBC_SHA", "EXP-DHE-RSA-DES-CBC-SHA");
  ("SSL3_TXT_DHE_RSA_DES_64_CBC_SHA", "DHE-RSA-DES-CBC-SHA");
  ("SSL3_TXT_DHE_RSA_DES_192_CBC3_SHA", "DHE-RSA-DES-CBC3-SHA");
  ("SSL3_TXT_EDH_DSS_DES_40_CBC_SHA", "EXP-EDH-DSS-DES-CBC-SHA");
  ("SSL3_TXT_EDH_DSS_DES_64_CBC_SHA", "EDH-DSS-DES-CBC-SHA");
  ("SSL3_TXT_EDH_DSS_DES_192_CBC3_SHA", "EDH-DSS-DES-CBC3-SHA");
  ("SSL3_TXT_EDH_RSA_DES_40_CBC_SHA", "EXP-EDH-RSA-DES-CBC-SHA");
  ("SSL3_TXT_EDH_RSA_DES_64_CBC_SHA", "EDH-RSA-DES-CBC-SHA");
  ("SSL3_TXT_EDH_RSA_DES_192_CBC3_SHA", "EDH-RSA-DES-CBC3-SHA");
  ("SSL3_TXT_ADH_RC4_40_MD5", "EXP-ADH-RC4-MD5");
  ("SSL3_TXT_ADH_RC4_128_MD5", "ADH-RC4-MD5");
  ("SSL3_TXT_ADH_DES_40_CBC_SHA", "EXP-ADH-DES-CBC-SHA");
  ("SSL3_TXT_ADH_DES_64_CBC_SHA", "ADH-DES-CBC-SHA");
  ("SSL3_TXT_ADH_DES_192_CBC_SHA", "ADH-DES-CBC3-SHA")].

Definition tls1_codes_1 : list (string * code) := [
  ("TLS1_CK_PSK_WITH_RC4_128_SHA", Code 0x0300008A);
  ("TLS1_CK_PSK_WITH_3DES_EDE_CBC_SHA", Code 0x0300008B);
  ("TLS1_CK_PSK_WITH_AES_128_CBC_SHA", Code 0x0300008C);
  ("TLS1_CK_PSK_WITH_AES_256_CBC_SHA", Code 0x0300008D);
  ("TLS1_CK_DHE_PSK_WITH_RC4_128_SHA", Code 0x0300008E);
  ("TLS1_CK_DHE_PSK_WITH_3DES_EDE_CBC_SHA", Code 0x0300008F);
  ("TLS1_CK_DHE_PSK_WITH_AES_128_CBC_SHA", Code 0x03000090);
  ("TLS1_CK_DHE_PSK_WITH_AES_256_CBC_SHA", Code 0x03000091);
  ("TLS1_CK_RSA_PSK_WITH_RC4_128_SHA", Code 0x03000092);
  ("TLS1_CK_RSA_PSK_WITH_3DES_EDE_CBC_SHA", Code 0x03000093);
  ("TLS1_CK_RSA_PSK_WITH_AES_128_CBC_SHA", Code 0x03000094);
  ("TLS1_CK_RSA_PSK_WITH_AES_256_CBC_SHA", Code 0x03000095);
  ("TLS1_CK_PSK_WITH_AES_128_GCM_SHA256", Code 0x030000A8);
  ("TLS1_CK_PSK_WITH_AES_256_GCM_SHA384", Code 0x030000A9);
  ("TLS1_CK_DHE_PSK_WITH_AES_128_GCM_SHA256", Code 0x030000AA);
  ("TLS1_CK_DHE_PSK_WITH_AES_256_GCM_SHA384", Code 0x030000AB);
  ("TLS1_CK_RSA_PSK_WITH_AES_128_GCM_SHA256", Code 0x030000AC);
  ("TLS1_CK_RSA_PSK_WITH_AES_256_GCM_SHA384", Code 0x030000AD);
  ("TLS1_CK_PSK_WITH_AES_128_CBC_SHA256", Code 0x030000AE);
  ("TLS1_CK_PSK_WITH_AES_256_CBC_SHA384", Code 0x030000AF);
  ("TLS1_CK_PSK_WITH_NULL_SHA256", Code 0x030000B0);
  ("TLS1_CK_PSK_WITH_NULL_SHA384", Code 0x030000B1);
  ("TLS1_CK_DHE_PSK_WITH_AES_128_CBC_SHA256", Code 0x030000B2);
  ("TLS1_CK_DHE_PSK_WITH_AES_256_CBC_SHA384", Code 0x030000B3);
  ("TLS1_CK_DHE_PSK_WITH_NULL_SHA256", Code 0x030000B4);
  ("TLS1_CK_DHE_PSK_WITH_NULL_SHA384", Code 0x030000B5);
  ("TLS1_CK_RSA_PSK_WITH_AES_128_CBC_SHA256", Code 0x030000B6);
  ("TLS1_CK_RSA_PSK_WITH_AES_256_CBC_SHA384", Code 0x030000B7);
  ("TLS1_CK_RSA_PSK_WITH_NULL_SHA256", Code 0x030000B8);
  ("TLS1_CK_RSA_PSK_WITH_NULL_SHA384", Code 0x030000B9);
  ("TLS1_CK_PSK_WITH_NULL_SHA", Code 0x0300002C);
  ("TLS1_CK_DHE_PSK_WITH_NULL_SHA", Code 0x0300002D);
  ("TLS1_CK_RSA_PSK_WITH_NULL_SHA", Code 0x0300002E);
  ("TLS1_CK_RSA_WITH_AES_128_SHA", Code 0x0300002F);
  ("TLS1_CK_DH_DSS_WITH_AES_128_SHA", Code 0x03000030);
  ("TLS1_CK_DH_RSA_WITH_AES_128_SHA", Code 0x03000031);
  ("TLS1_CK_DHE_DSS_WITH_AES_128_SHA", Code 0x03000032);
  ("TLS1_CK_DHE_RSA_WITH_AES_128_SHA", Code 0x03000033);
  ("TLS1_CK_ADH_WITH_AES_128_SHA", Code 0x03000034);
  ("TLS1_CK_RSA_WITH_AES_256_SHA", Code 0x03000035);
  ("TLS1_CK_DH_DSS_WITH_AES_256_SHA", Code 0x03000036);
  ("TLS1_CK_DH_RSA_WITH_AES_256_SHA", Code 0x03000037);
  ("TLS1_CK_DHE_DSS_WITH_AES_256_SHA", Code 0x03000038);
  ("TLS1_CK_DHE_RSA_WITH_AES_256_SHA", Code 0x03000039);
  ("TLS1_CK_ADH_WITH_AES_256_SHA", Code 0x0300003A);
  ("TLS1_CK_RSA_WITH_NULL_SHA256", Code 0x0300003B);
  ("TLS1_CK_RSA_WITH_AES_128_SHA256", Code 0x0300003C);
  ("TLS1_CK_RSA_WITH_AES_256_SHA256", Code 0x0300003D);
  ("TLS1_CK_DH_DSS_WITH_AES_128_SHA256", Code 0x0300003E);
  ("TLS1_CK_DH_RSA_WITH_AES_128_SHA256", Code 0x0300003F);
  ("TLS1_CK_DHE_DSS_WITH_AES_128_SHA256", Code 0x03000040);
  ("TLS1_CK_RSA_WITH_CAMELLIA_128_CBC_SHA", Code 0x03000041);
  ("TLS1_CK_DH_DSS_WITH_CAMELLIA_128_CBC_SHA", Code 0x03000042);
  ("TLS1_CK_DH_RSA_WITH_CAMELLIA_128_CBC_SHA", Code 0x03000043);
  ("TLS1_CK_DHE_DSS_WITH_CAMELLIA_128_CBC_SHA", Code 0x03000044);
  ("TLS1_CK_DHE_RSA_WITH_CAMELLIA_128_CBC_SHA", Code 0x03000045);
  ("TLS1_CK_ADH_WITH_CAMELLIA_128_CBC_SHA", Code 0x03000046);
  ("TLS1_CK_DHE_RSA_WITH_AES_128_SHA256", Code 0x03000067);
  ("TLS1_CK_DH_DSS_WITH_AES_256_SHA256", Code 0x03000068);
  ("TLS1_CK_DH_RSA_WITH_AES_256_SHA256", Code 0x03000069);
  ("TLS1_CK_DHE_DSS_WITH_AES_256_SHA256", Code 0x0300006A);
  ("TLS1_CK_DHE_RSA_WITH_AES_256_SHA256", Code 0x0300006B);
  ("TLS1_CK_ADH_WITH_AES_128_SHA256", Code 0x0300006C);
  ("TLS1_CK_ADH_WITH_AES_256_SHA256", Code 0x0300006D);
  ("TLS1_CK_RSA_WITH_CAMELLIA_256_CBC_SHA", Code 0x03000084);
  ("TLS1_CK_DH_DSS_WITH_CAMELLIA_256_CBC_SHA", Code 0x03000085);
  ("TLS1_CK_DH_RSA_WITH_CAMELLIA_256_CBC_SHA", Code 0x03000086);
  ("TLS1_CK_DHE_DSS_WITH_CAMELLIA_256_CBC_SHA", Code 0x03000087);
  ("TLS1_CK_DHE_RSA_WITH_CAMELLIA_256_CBC_SHA", Code 0x03000088);
  ("TLS1_CK_ADH_WITH_CAMELLIA_256_CBC_SHA", Code 0x03000089);
  ("TLS1_CK_RSA_WITH_SEED_SHA", Code 0x03000096);
  ("TLS1_CK_DH_DSS_WITH_SEED_SHA", Code 0x03000097);
  ("TLS1_CK_DH_RSA_WITH_SEED_SHA", Code 0x03000098);
  ("TLS1_CK_DHE_DSS_WITH_SEED_SHA", Code 0x03000099);
  ("TLS1_CK_DHE_RSA_WITH_SEED_SHA", Code 0x0300009A);
  ("TLS1_CK_ADH_WITH_SEED_SHA", Code 0x0300009B);
  ("TLS1_CK_RSA_WITH_AES_128_GCM_SHA256", Code 0x0300009C);
  ("TLS1_CK_RSA_WITH_AES_256_GCM_SHA384", Code 0x0300009D);
  ("TLS1_CK_DHE_RSA_WITH_AES_128_GCM_SHA256", Code 0x0300009E);
  ("TLS1_CK_DHE_RSA_WITH_AES_256_GCM_SHA384", Code 0x0300009F);
  ("TLS1_CK_DH_RSA_WITH_AES_128_GCM_SHA256", Code 0x030000A0);
  ("TLS1_CK_DH_RSA_WITH_AES_256_GCM_SHA384", Code 0x030000A1);
  ("TLS1_CK_DHE_DSS_WITH_AES_128_GCM_SHA256", Code 0x030000A2);
  ("TLS1_CK_DHE_DSS_WITH_AES_256_GCM_SHA384", Code 0x030000A3);
  ("TLS1_CK_DH_DSS_WITH_AES_128_GCM_SHA256", Code 0x030000A4);
  ("TLS1_CK_DH_DSS_WITH_AES_256_GCM_SHA384", Code 0x030000A5);
  ("TLS1_CK_ADH_WITH_AES_128_GCM_SHA256", Code 0x030000A6);
  ("TLS1_CK_ADH_WITH_AES_256_GCM_SHA384", Code 0x030000A7);
  ("TLS1_CK_RSA_WITH_AES_128_CCM", Code 0x0300C09C);
  ("TLS1_CK_RSA_WITH_AES_256_CCM", Code 0x0300C09D);
  ("TLS1_CK_DHE_RSA_WITH_AES_128_CCM", Code 0x0300C09E);
  ("TLS1_CK_DHE_RSA_WITH_AES_256_CCM", Code 0x0300C09F);
  ("TLS1_CK_RSA_WITH_AES_128_CCM_8", Code 0x0300C0A0);
  ("TLS1_CK_RSA_WITH_AES_256_CCM_8", Code 0x0300C0A1);
  ("TLS1_CK_DHE_RSA_WITH_AES_128_CCM_8", Code 0x0300C0A2);
  ("TLS1_CK_DHE_RSA_WITH_AES_256_CCM_8", Code 0x0300C0A3);
  ("TLS1_CK_PSK_WITH_AES_128_CCM", Code 0x0300C0A4);
  ("TLS1_CK_PSK_WITH_AES_256_CCM", Code 0x0300C0A5);
  ("TLS1_CK_DHE_PSK_WITH_AES_128_CCM", Code 0x0300C0A6);
  ("TLS1_CK_DHE_PSK_WITH_AES_256_CCM", Code 0x0300C0A7);
  ("TLS1_CK_PSK_WITH_AES_128_CCM_8", Code 0x0300C0A8);
  ("TLS1_CK_PSK_WITH_AES_256_CCM_8", Code 0x0300C0A9);
  ("TLS1_CK_DHE_PSK_WITH_AES_128_CCM_8", Code 0x0300C0AA);
  ("TLS1_CK_DHE_PSK_WITH_AES_256_CCM_8", Code 0x0300C0AB);
  ("TLS1_CK_ECDHE_ECDSA_WITH_AES_128_CCM", Code 0x0300C0AC);
  ("TLS1_CK_ECDHE_ECDSA_WITH_AES_256_CCM", Code 0x0300C0AD);
  ("TLS1_CK_ECDHE_ECDSA_WITH_AES_128_CCM_8", Code 0x0300C0AE);
  ("TLS1_CK_ECDHE_ECDSA_WITH_AES_256_CCM_8", Code 0x0300C0AF);
  ("TLS1_CK_RSA_WITH_CAMELLIA_128_CBC_SHA256", Code 0x030000BA);
  ("TLS1_CK_DH_DSS_WITH_CAMELLIA_128_CBC_SHA256", Code 0x030000BB);
  ("TLS1_CK_DH_RSA_WITH_CAMELLIA_128_CBC_SHA256", Code 0x030000BC);
  ("TLS1_CK_DHE_DSS_WITH_CAMELLIA_128_CBC_SHA256", Code 0x030000BD);
  ("TLS1_CK_DHE_RSA_WITH_CAMELLIA_128_CBC_SHA256", Code 0x030000BE);
  ("TLS1_CK_ADH_WITH_CAMELLIA_128_CBC_SHA256", Code 0x030000BF);
  ("TLS1_CK_RSA_WITH_CAMELLIA_256_CBC_SHA256", Code 0x030000C0);
  ("TLS1_CK_DH_DSS_WITH_CAMELLIA_256_CBC_SHA256", Code 0x030000C1);
  ("TLS1_CK_DH_RSA_WITH_CAMELLIA_256_CBC_SHA256", Code 0x030000C2);
  ("TLS1_CK_DHE_DSS_WITH_CAMELLIA_256_CBC_SHA256", Code 0x030000C3);
  ("TLS1_CK_DHE_RSA_WITH_CAMELLIA_256_CBC_SHA256", Code 0x030000C4);
  ("TLS1_CK_ADH_WITH_CAMELLIA_256_CBC_SHA256", Code 0x030000C5);
  ("TLS1_CK_ECDH_ECDSA_WITH_NULL_SHA", Code 0x0300C001);
  ("TLS1_CK_ECDH_ECDSA_WITH_RC4_128_SHA", Code 0x0300C002)].

Definition tls1_codes_2 : list (string * code) := [
  ("TLS1_CK_ECDH_ECDSA_WITH_DES_192_CBC3_SHA", Code 0x0300C003);
  ("TLS1_CK_ECDH_ECDSA_WITH_AES_128_CBC_SHA", Code 0x0300C004);
  ("TLS1_CK_ECDH_ECDSA_WITH_AES_256_CBC_SHA", Code 0x0300C005);
  ("TLS1_CK_ECDHE_ECDSA_WITH_NULL_SHA", Code 0x0300C006);
  ("TLS1_CK_ECDHE_ECDSA_WITH_RC4_128_SHA", Code 0x0300C007);
  ("TLS1_CK_ECDHE_ECDSA_WITH_DES_192_CBC3_SHA", Code 0x0300C008);
  ("TLS1_CK_ECDHE_ECDSA_WITH_AES_128_CBC_SHA", Code 0x0300C009);
  ("TLS1_CK_ECDHE_ECDSA_WITH_AES_256_CBC_SHA", Code 0x0300C00A);
  ("TLS1_CK_ECDH_RSA_WITH_NULL_SHA", Code 0x0300C00B);
  ("TLS1_CK_ECDH_RSA_WITH_RC4_128_SHA", Code 0x0300C00C);
  ("TLS1_CK_ECDH_RSA_WITH_DES_192_CBC3_SHA", Code 0x0300C00D);
  ("TLS1_CK_ECDH_RSA_WITH_AES_128_CBC_SHA", Code 0x0300C00E);
  ("TLS1_CK_ECDH_RSA_WITH_AES_256_CBC_SHA", Code 0x0300C00F);
  ("TLS1_CK_ECDHE_RSA_WITH_NULL_SHA", Code 0x0300C010);
  ("TLS1_CK_ECDHE_RSA_WITH_RC4_128_SHA", Code 0x0300C011);
  ("TLS1_CK_ECDHE_RSA_WITH_DES_192_CBC3_SHA", Code 0x0300C012);
  ("TLS1_CK_ECDHE_RSA_WITH_AES_128_CBC_SHA", Code 0x0300C013);
  ("TLS1_CK_ECDHE_RSA_WITH_AES_256_CBC_SHA", Code 0x0300C014);
  ("TLS1_CK_ECDH_anon_WITH_NULL_SHA", Code 0x0300C015);
  ("TLS1_CK_ECDH_anon_WITH_RC4_128_SHA", Code 0x0300C016);
  ("TLS1_CK_ECDH_anon_WITH_DES_192_CBC3_SHA", Code 0x0300C017);
  ("TLS1_CK_ECDH_anon_WITH_AES_128_CBC_SHA", Code 0x0300C018);
  ("TLS1_CK_ECDH_anon_WITH_AES_256_CBC_SHA", Code 0x0300C019);
  ("TLS1_CK_SRP_SHA_WITH_3DES_EDE_CBC_SHA", Code 0x0300C01A);
  ("TLS1_CK_SRP_SHA_RSA_WITH_3DES_EDE_CBC_SHA", Code 0x0300C01B);
  ("TLS1_CK_SRP_SHA_DSS_WITH_3DES_EDE_CBC_SHA", Code 0x0300C01C);
  ("TLS1_CK_SRP_SHA_WITH_AES_128_CBC_SHA", Code 0x0300C01D);
  ("TLS1_CK_SRP_SHA_RSA_WITH_AES_128_CBC_SHA", Code 0x0300C01E);
  ("TLS1_CK_SRP_SHA_DSS_WITH_AES_128_CBC_SHA", Code 0x0300C01F);
  ("TLS1_CK_SRP_SHA_WITH_AES_256_CBC_SHA", Code 0x0300C020);
  ("TLS1_CK_SRP_SHA_RSA_WITH_AES_256_CBC_SHA", Code 0x0300C021);
  ("TLS1_CK_SRP_SHA_DSS_WITH_AES_256_CBC_SHA", Code 0x0300C022);
  ("TLS1_CK_ECDHE_ECDSA_WITH_AES_128_SHA256", Code 0x0300C023);
  ("TLS1_CK_ECDHE_ECDSA_WITH_AES_256_SHA384", Code 0x0300C024);
  ("TLS1_CK_ECDH_ECDSA_WITH_AES_128_SHA256", Code 0x0300C025);
  ("TLS1_CK_ECDH_ECDSA_WITH_AES_256_SHA384", Code 0x0300C026);
  ("TLS1_CK_ECDHE_RSA_WITH_AES_128_SHA256", Code 0x0300C027);
  ("TLS1_CK_ECDHE_RSA_WITH_AES_256_SHA384", Code 0x0300C028);
  ("TLS1_CK_ECDH_RSA_WITH_AES_128_SHA256", Code 0x0300C029);
  ("TLS1_CK_ECDH_RSA_WITH_AES_256_SHA384", Code 0x0300C02A);
  ("TLS1_CK_ECDHE_ECDSA_WITH_AES_128_GCM_SHA256", Code 0x0300C02B);
  ("TLS1_CK_ECDHE_ECDSA_WITH_AES_256_GCM_SHA384", Code 0x0300C02C);
  ("TLS1_CK_ECDH_ECDSA_WITH_AES_128_GCM_SHA256", Code 0x0300C02D);
  ("TLS1_CK_ECDH_ECDSA_WITH_AES_256_GCM_SHA384", Code 0x0300C02E);
  ("TLS1_CK_ECDHE_RSA_WITH_AES_128_GCM_SHA256", Code 0x0300C02F);
  ("TLS1_CK_ECDHE_RSA_WITH_AES_256_GCM_SHA384", Code 0x0300C030);
  ("TLS1_CK_ECDH_RSA_WITH_AES_128_GCM_SHA256", Code 0x0300C031);
  ("TLS1_CK_ECDH_RSA_WITH_AES_256_GCM_SHA384", Code 0x0300C032);
  ("TLS1_CK_ECDHE_PSK_WITH_RC4_128_SHA", Code 0x0300C033);
  ("TLS1_CK_ECDHE_PSK_WITH_3DES_EDE_CBC_SHA", Code 0x0300C034);
  ("TLS1_CK_ECDHE_PSK_WITH_AES_128_CBC_SHA", Code 0x0300C035);
  ("TLS1_CK_ECDHE_PSK_WITH_AES_256_CBC_SHA", Code 0x0300C036);
  ("TLS1_CK_ECDHE_PSK_WITH_AES_128_CBC_SHA256", Code 0x0300C037);
  ("TLS1_CK_ECDHE_PSK_WITH_AES_256_CBC_SHA384", Code 0x0300C038);
  ("TLS1_CK_ECDHE_PSK_WITH_NULL_SHA", Code 0x0300C039);
  ("TLS1_CK_ECDHE_PSK_WITH_NULL_SHA256", Code 0x0300C03A);
  ("TLS1_CK_ECDHE_PSK_WITH_NULL_SHA384", Code 0x0300C03B);
  ("TLS1_CK_ECDHE_ECDSA_WITH_CAMELLIA_128_CBC_SHA256", Code 0x0300C072);
  ("TLS1_CK_ECDHE_ECDSA_WITH_CAMELLIA_256_CBC_SHA384", Code 0x0300C073);
  ("TLS1_CK_ECDH_ECDSA_WITH_CAMELLIA_128_CBC_SHA256", Code 0x0300C074);
  ("TLS1_CK_ECDH_ECDSA_WITH_CAMELLIA_256_CBC_SHA384", Code 0x0300C075);
  ("TLS1_CK_ECDHE_RSA_WITH_CAMELLIA_128_CBC_SHA256", Code 0x0300C076);
  ("TLS1_CK_ECDHE_RSA_WITH_CAMELLIA_256_CBC_SHA384", Code 0x0300C077);
  ("TLS1_CK_ECDH_RSA_WITH_CAMELLIA_128_CBC_SHA256", Code 0x0300C078);
  ("TLS1_CK_ECDH_RSA_WITH_CAMELLIA_256_CBC_SHA384", Code 0x0300C079);
  ("TLS1_CK_PSK_WITH_CAMELLIA_128_CBC_SHA256", Code 0x0300C094);
  ("TLS1_CK_PSK_WITH_CAMELLIA_256_CBC_SHA384", Code 0x0300C095);
  ("TLS1_CK_DHE_PSK_WITH_CAMELLIA_128_CBC_SHA256", Code 0x0300C096);
  ("TLS1_CK_DHE_PSK_WITH_CAMELLIA_256_CBC_SHA384", Code 0x0300C097);
  ("TLS1_CK_RSA_PSK_WITH_CAMELLIA_128_CBC_SHA256", Code 0x0300C098);
  ("TLS1_CK_RSA_PSK_WITH_CAMELLIA_256_CBC_SHA384", Code 0x0300C099);
  ("TLS1_CK_ECDHE_PSK_WITH_CAMELLIA_128_CBC_SHA256", Code 0x0300C09A);
  ("TLS1_CK_ECDHE_PSK_WITH_CAMELLIA_256_CBC_SHA384", Code 0x0300C09B);
  ("TLS1_CK_ECDHE_RSA_WITH_CHACHA20_POLY1305", Code 0x0300CCA8);
  ("TLS1_CK_ECDHE_ECDSA_WITH_CHACHA20_POLY1305", Code 0x0300CCA9);
  ("TLS1_CK_DHE_RSA_WITH_CHACHA20_POLY1305", Code 0x0300CCAA);
  ("TLS1_CK_PSK_WITH_CHACHA20_POLY1305", Code 0x0300CCAB);
  ("TLS1_CK_ECDHE_PSK_WITH_CHACHA20_POLY1305", Code 0x0300CCAC);
  ("TLS1_CK_DHE_PSK_WITH_CHACHA20_POLY1305", Code 0x0300CCAD);
  ("TLS1_CK_RSA_PSK_WITH_CHACHA20_POLY1305", Code 0x0300CCAE);
  ("TLS1_3_CK_AES_128_GCM_SHA256", Code 0x03001301);
  ("TLS1_3_CK_AES_256_GCM_SHA384", Code 0x03001302);
  ("TLS1_3_CK_CHACHA20_POLY1305_SHA256", Code 0x03001303);
  ("TLS1_3_CK_AES_128_CCM_SHA256", Code 0x03001304);
  ("TLS1_3_CK_AES_128_CCM_8_SHA256", Code 0x03001305);
  ("TLS1_CK_RSA_WITH_ARIA_128_GCM_SHA256", Code 0x0300C050);
  ("TLS1_CK_RSA_WITH_ARIA_256_GCM_SHA384", Code 0x0300C051);
  ("TLS1_CK_DHE_RSA_WITH_ARIA_128_GCM_SHA256", Code 0x0300C052);
  ("TLS1_CK_DHE_RSA_WITH_ARIA_256_GCM_SHA384", Code 0x0300C053);
  ("TLS1_CK_DH_RSA_WITH_ARIA_128_GCM_SHA256", Code 0x0300C054);
  ("TLS1_CK_DH_RSA_WITH_ARIA_256_GCM_SHA384", Code 0x0300C055);
  ("TLS1_CK_DHE_DSS_WITH_ARIA_128_GCM_SHA256", Code 0x0300C056);
  ("TLS1_CK_DHE_DSS_WITH_ARIA_256_GCM_SHA384", Code 0x0300C057);
  ("TLS1_CK_DH_DSS_WITH_ARIA_128_GCM_SHA256", Code 0x0300C058);
  ("TLS1_CK_DH_DSS_WITH_ARIA_256_GCM_SHA384", Code 0x0300C059);
  ("TLS1_CK_DH_anon_WITH_ARIA_128_GCM_SHA256", Code 0x0300C05A);
  ("TLS1_CK_DH_anon_WITH_ARIA_256_GCM_SHA384", Code 0x0300C05B);
  ("TLS1_CK_ECDHE_ECDSA_WITH_ARIA_128_GCM_SHA256", Code 0x0300C05C);
  ("TLS1_CK_ECDHE_ECDSA_WITH_ARIA_256_GCM_SHA384", Code 0x0300C05D);
  ("TLS1_CK_ECDH_ECDSA_WITH_ARIA_128_GCM_SHA256", Code 0x0300C05E);
  ("TLS1_CK_ECDH_ECDSA_WITH_ARIA_256_GCM_SHA384", Code 0x0300C05F);
  ("TLS1_CK_ECDHE_RSA_WITH_ARIA_128_GCM_SHA256", Code 0x0300C060);
  ("TLS1_CK_ECDHE_RSA_WITH_ARIA_256_GCM_SHA384", Code 0x0300C061);
  ("TLS1_CK_ECDH_RSA_WITH_ARIA_128_GCM_SHA256", Code 0x0300C062);
  ("TLS1_CK_ECDH_RSA_WITH_ARIA_256_GCM_SHA384", Code 0x0300C063);
  ("TLS1_CK_PSK_WITH_ARIA_128_GCM_SHA256", Code 0x0300C06A);
  ("TLS1_CK_PSK_WITH_ARIA_256_GCM_SHA384", Code 0x0300C06B);
  ("TLS1_CK_DHE_PSK_WITH_ARIA_128_GCM_SHA256", Code 0x0300C06C);
  ("TLS1_CK_DHE_PSK_WITH_ARIA_256_GCM_SHA384", Code 0x0300C06D);
  ("TLS1_CK_RSA_PSK_WITH_ARIA_128_GCM_SHA256", Code 0x0300C06E);
  ("TLS1_CK_RSA_PSK_WITH_ARIA_256_GCM_SHA384", Code 0x0300C06F)].

Definition tls1_names_1 : list (string * string) := [
  ("TLS1_RFC_RSA_WITH_AES_128_SHA", "TLS_RSA_WITH_AES_128_CBC_SHA");
  ("TLS1_RFC_DHE_DSS_WITH_AES_128_SHA", "TLS_DHE_DSS_WITH_AES_128_CBC_SHA");
  ("TLS1_RFC_DHE_RSA_WITH_AES_128_SHA", "TLS_DHE_RSA_WITH_AES_128_CBC_SHA");
  ("TLS1_RFC_ADH_WITH_AES_128_SHA", "TLS_DH_anon_WITH_AES_128_CBC_SHA");
  ("TLS1_RFC_RSA_WITH_AES_256_SHA", "TLS_RSA_WITH_AES_256_CBC_SHA");
  ("TLS1_RFC_DHE_DSS_WITH_AES_256_SHA", "TLS_DHE_DSS_WITH_AES_256_CBC_SHA");
  ("TLS1_RFC_DHE_RSA_WITH_AES_256_SHA", "TLS_DHE_RSA_WITH_AES_256_CBC_SHA");
  ("TLS1_RFC_ADH_WITH_AES_256_SHA", "TLS_DH_anon_WITH_AES_256_CBC_SHA");
  ("TLS1_RFC_RSA_WITH_NULL_SHA256", "TLS_RSA_WITH_NULL_SHA256");
  ("TLS1_RFC_RSA_WITH_AES_128_SHA256", "TLS_RSA_WITH_AES_128_CBC_SHA256");
  ("TLS1_RFC_RSA_WITH_AES_256_SHA256", "TLS_RSA_WITH_AES_256_CBC_SHA256");
  ("TLS1_RFC_DHE_DSS_WITH_AES_128_SHA256", "TLS_DHE_DSS_WITH_AES_128_CBC_SHA256");
  ("TLS1_RFC_DHE_RSA_WITH_AES_128_SHA256", "TLS_DHE_RSA_WITH_AES_128_CBC_SHA256");
  ("TLS1_RFC_DHE_DSS_WITH_AES_256_SHA256", "TLS_DHE_DSS_WITH_AES_256_CBC_SHA256");
  ("TLS1_RFC_DHE_RSA_WITH_AES_256_SHA256", "TLS_DHE_RSA_WITH_AES_256_CBC_SHA256");
  ("TLS1_RFC_ADH_WITH_AES_128_SHA256", "TLS_DH_anon_WITH_AES_128_CBC_SHA256");
  ("TLS1_RFC_ADH_WITH_AES_256_SHA256", "TLS_DH_anon_WITH_AES_256_CBC_SHA256");
  ("TLS1_RFC_RSA_WITH_AES_128_GCM_SHA256", "TLS_RSA_WITH_AES_128_GCM_SHA256");
  ("TLS1_RFC_RSA_WITH_AES_256_GCM_SHA384", "TLS_RSA_WITH_AES_256_GCM_SHA384");
  ("TLS1_RFC_DHE_RSA_WITH_AES_128_GCM_SHA256", "TLS_DHE_RSA_WITH_AES_128_GCM_SHA256");
  ("TLS1_RFC_DHE_RSA_WITH_AES_256_GCM_SHA384", "TLS_DHE_RSA_WITH_AES_256_GCM_SHA384");
  ("TLS1_RFC_DHE_DSS_WITH_AES_128_GCM_SHA256", "TLS_DHE_DSS_WITH_AES_128_GCM_SHA256");
  ("TLS1_RFC_DHE_DSS_WITH_AES_256_GCM_SHA384", "TLS_DHE_DSS_WITH_AES_256_GCM_SHA384");
  ("TLS1_RFC_ADH_WITH_AES_128_GCM_SHA256", "TLS_DH_anon_WITH_AES_128_GCM_SHA256");
  ("TLS1_RFC_ADH_WITH_AES_256_GCM_SHA384", "TLS_DH_anon_WITH_AES_256_GCM_SHA384");
  ("TLS1_RFC_RSA_WITH_AES_128_CCM", "TLS_RSA_WITH_AES_128_CCM");
  ("TLS1_RFC_RSA_WITH_AES_256_CCM", "TLS_RSA_WITH_AES_256_CCM");
  ("TLS1_RFC_DHE_RSA_WITH_AES_128_CCM", "TLS_DHE_RSA_WITH_AES_128_CCM");
  ("TLS1_RFC_DHE_RSA_WITH_AES_256_CCM", "TLS_DHE_RSA_WITH_AES_256_CCM");
  ("TLS1_RFC_RSA_WITH_AES_128_CCM_8", "TLS_RSA_WITH_AES_128_CCM_8");
  ("TLS1_RFC_RSA_WITH_AES_256_CCM_8", "TLS_RSA_WITH_AES_256_CCM_8");
  ("TLS1_RFC_DHE_RSA_WITH_AES_128_CCM_8", "TLS_DHE_RSA_WITH_AES_128_CCM_8");
  ("TLS1_RFC_DHE_RSA_WITH_AES_256_CCM_8", "TLS_DHE_RSA_WITH_AES_256_CCM_8");
  ("TLS1_RFC_PSK_WITH_AES_128_CCM", "TLS_PSK_WITH_AES_128_CCM");
  ("TLS1_RFC_PSK_WITH_AES_256_CCM", "TLS_PSK_WITH_AES_256_CCM");
  ("TLS1_RFC_DHE_PSK_WITH_AES_128_CCM", "TLS_DHE_PSK_WITH_AES_128_CCM");
  ("TLS1_RFC_DHE_PSK_WITH_AES_256_CCM", "TLS_DHE_PSK_WITH_AES_256_CCM");
  ("TLS1_RFC_PSK_WITH_AES_128_CCM_8", "TLS_PSK_WITH_AES_128_CCM_8");
  ("TLS1_RFC_PSK_WITH_AES_256_CCM_8", "TLS_PSK_WITH_AES_256_CCM_8");
  ("TLS1_RFC_DHE_PSK_WITH_AES_128_CCM_8", "TLS_PSK_DHE_WITH_AES_128_CCM_8");
  ("TLS1_RFC_DHE_PSK_WITH_AES_256_CCM_8", "TLS_PSK_DHE_WITH_AES_256_CCM_8");
  ("TLS1_RFC_ECDHE_ECDSA_WITH_AES_128_CCM", "TLS_ECDHE_ECDSA_WITH_AES_128_CCM");
  ("TLS1_RFC_ECDHE_ECDSA_WITH_AES_256_CCM", "TLS_ECDHE_ECDSA_WITH_AES_256_CCM");
  ("TLS1_RFC_ECDHE_ECDSA_WITH_AES_128_CCM_8", "TLS_ECDHE_ECDSA_WITH_AES_128_CCM_8");
  ("TLS1_RFC_ECDHE_ECDSA_WITH_AES_256_CCM_8", "TLS_ECDHE_ECDSA_WITH_AES_256_CCM_8");
  ("TLS1_3_RFC_AES_128_GCM_SHA256", "TLS_AES_128_GCM_SHA256");
  ("TLS1_3_RFC_AES_256_GCM_SHA384", "TLS_AES_256_GCM_SHA384");
  ("TLS1_3_RFC_CHACHA20_POLY1305_SHA256", "TLS_CHACHA20_POLY1305_SHA256");
  ("TLS1_3_RFC_AES_128_CCM_SHA256", "TLS_AES_128_CCM_SHA256");
  ("TLS1_3_RFC_AES_128_CCM_8_SHA256", "TLS_AES_128_CCM_8_SHA256");
  ("TLS1_RFC_ECDHE_ECDSA_WITH_NULL_SHA", "TLS_ECDHE_ECDSA_WITH_NULL_SHA");
  ("TLS1_RFC_ECDHE_ECDSA_WITH_DES_192_CBC3_SHA", "TLS_ECDHE_ECDSA_WITH_3DES_EDE_CBC_SHA");
  ("TLS1_RFC_ECDHE_ECDSA_WITH_AES_128_CBC_SHA", "TLS_ECDHE_ECDSA_WITH_AES_128_CBC_SHA");
  ("TLS1_RFC_ECDHE_ECDSA_WITH_AES_256_CBC_SHA", "TLS_ECDHE_ECDSA_WITH_AES_256_CBC_SHA");
  ("TLS1_RFC_ECDHE_RSA_WITH_NULL_SHA", "TLS_ECDHE_RSA_WITH_NULL_SHA");
  ("TLS1_RFC_ECDHE_RSA_WITH_DES_192_CBC3_SHA", "TLS_ECDHE_RSA_WITH_3DES_EDE_CBC_SHA");
  ("TLS1_RFC_ECDHE_RSA_WITH_AES_128_CBC_SHA", "TLS_ECDHE_RSA_WITH_AES_128_CBC_SHA");
  ("TLS1_RFC_ECDHE_RSA_WITH_AES_256_CBC_SHA", "TLS_ECDHE_RSA_WITH_AES_256_CBC_SHA");
  ("TLS1_RFC_ECDH_anon_WITH_NULL_SHA", "TLS_ECDH_anon_WITH_NULL_SHA");
  ("TLS1_RFC_ECDH_anon_WITH_DES_192_CBC3_SHA", "TLS_ECDH_anon_WITH_3DES_EDE_CBC_SHA");
  ("TLS1_RFC_ECDH_anon_WITH_AES_128_CBC_SHA", "TLS_ECDH_anon_WITH_AES_128_CBC_SHA");
  ("TLS1_RFC_ECDH_anon_WITH_AES_256_CBC_SHA", "TLS_ECDH_anon_WITH_AES_256_CBC_SHA");
  ("TLS1_RFC_ECDHE_ECDSA_WITH_AES_128_SHA256", "TLS_ECDHE_ECDSA_WITH_AES_128_CBC_SHA256");
  ("TLS1_RFC_ECDHE_ECDSA_WITH_AES_256_SHA384", "TLS_ECDHE_ECDSA_WITH_AES_256_CBC_SHA384");
  ("TLS1_RFC_ECDHE_RSA_WITH_AES_128_SHA256", "TLS_ECDHE_RSA_WITH_AES_128_CBC_SHA256");
  ("TLS1_RFC_ECDHE_RSA_WITH_AES_256_SHA384", "TLS_ECDHE_RSA_WITH_AES_256_CBC_SHA384");
  ("TLS1_RFC_ECDHE_ECDSA_WITH_AES_128_GCM_SHA256", "TLS_ECDHE_ECDSA_WITH_AES_128_GCM_SHA256");
  ("TLS1_RFC_ECDHE_ECDSA_WITH_AES_256_GCM_SHA384", "TLS_ECDHE_ECDSA_WITH_AES_256_GCM_SHA384");
  ("TLS1_RFC_ECDHE_RSA_WITH_AES_128_GCM_SHA256", "TLS_ECDHE_RSA_WITH_AES_128_GCM_SHA256");
  ("TLS1_RFC_ECDHE_RSA_WITH_AES_256_GCM_SHA384", "TLS_ECDHE_RSA_WITH_AES_256_GCM_SHA384");
  ("TLS1_RFC_PSK_WITH_NULL_SHA", "TLS_PSK_WITH_NULL_SHA");
  ("TLS1_RFC_DHE_PSK_WITH_NULL_SHA", "TLS_DHE_PSK_WITH_NULL_SHA");
  ("TLS1_RFC_RSA_PSK_WITH_NULL_SHA", "TLS_RSA_PSK_WITH_NULL_SHA");
  ("TLS1_RFC_PSK_WITH_3DES_EDE_CBC_SHA", "TLS_PSK_WITH_3DES_EDE_CBC_SHA");
  ("TLS1_RFC_PSK_WITH_AES_128_CBC_SHA", "TLS_PSK_WITH_AES_128_CBC_SHA");
  ("TLS1_RFC_PSK_WITH_AES_256_CBC_SHA", "TLS_PSK_WITH_AES_256_CBC_SHA");
  ("TLS1_RFC_DHE_PSK_WITH_3DES_EDE_CBC_SHA", "TLS_DHE_PSK_WITH_3DES_EDE_CBC_SHA");
  ("TLS1_RFC_DHE_PSK_WITH_AES_128_CBC_SHA", "TLS_DHE_PSK_WITH_AES_128_CBC_SHA");
  ("TLS1_RFC_DHE_PSK_WITH_AES_256_CBC_SHA", "TLS_DHE_PSK_WITH_AES_256_CBC_SHA");
  ("TLS1_RFC_RSA_PSK_WITH_3DES_EDE_CBC_SHA", "TLS_RSA_PSK_WITH_3DES_EDE_CBC_SHA");
  ("TLS1_RFC_RSA_PSK_WITH_AES_128_CBC_SHA", "TLS_RSA_PSK_WITH_AES_128_CBC_SHA");
  ("TLS1_RFC_RSA_PSK_WITH_AES_256_CBC_SHA", "TLS_RSA_PSK_WITH_AES_256_CBC_SHA");
  ("TLS1_RFC_PSK_WITH_AES_128_GCM_SHA256", "TLS_PSK_WITH_AES_128_GCM_SHA256");
  ("TLS1_RFC_PSK_WITH_AES_256_GCM_SHA384", "TLS_PSK_WITH_AES_256_GCM_SHA384");
  ("TLS1_RFC_DHE_PSK_WITH_AES_128_GCM_SHA256", "TLS_DHE_PSK_WITH_AES_128_GCM_SHA256");
  ("TLS1_RFC_DHE_PSK_WITH_AES_256_GCM_SHA384", "TLS_DHE_PSK_WITH_AES_256_GCM_SHA384");
  ("TLS1_RFC_RSA_PSK_WITH_AES_128_GCM_SHA256", "TLS_RSA_PSK_WITH_AES_128_GCM_SHA256");
  ("TLS1_RFC_RSA_PSK_WITH_AES_256_GCM_SHA384", "TLS_RSA_PSK_WITH_AES_256_GCM_SHA384");
  ("TLS1_RFC_PSK_WITH_AES_128_CBC_SHA256", "TLS_PSK_WITH_AES_128_CBC_SHA256");
  ("TLS1_RFC_PSK_WITH_AES_256_CBC_SHA384", "TLS_PSK_WITH_AES_256_CBC_SHA384");
  ("TLS1_RFC_PSK_WITH_NULL_SHA256", "TLS_PSK_WITH_NULL_SHA256");
  ("TLS1_RFC_PSK_WITH_NULL_SHA384", "TLS_PSK_WITH_NULL_SHA384");
  ("TLS1_RFC_DHE_PSK_WITH_AES_128_CBC_SHA256", "TLS_DHE_PSK_WITH_AES_128_CBC_SHA256");
  ("TLS1_RFC_DHE_PSK_WITH_AES_256_CBC_SHA384", "TLS_DHE_PSK_WITH_AES_256_CBC_SHA384");
  ("TLS1_RFC_DHE_PSK_WITH_NULL_SHA256", "TLS_DHE_PSK_WITH_NULL_SHA256");
  ("TLS1_RFC_DHE_PSK_WITH_NULL_SHA384", "TLS_DHE_PSK_WITH_NULL_SHA384");
  ("TLS1_RFC_RSA_PSK_WITH_AES_128_CBC_SHA256", "TLS_RSA_PSK_WITH_AES_128_CBC_SHA256");
  ("TLS1_RFC_RSA_PSK_WITH_AES_256_CBC_SHA384", "TLS_RSA_PSK_WITH_AES_256_CBC_SHA384");
  ("TLS1_RFC_RSA_PSK_WITH_NULL_SHA256", "TLS_RSA_PSK_WITH_NULL_SHA256");
  ("TLS1_RFC_RSA_PSK_WITH_NULL_SHA384", "TLS_RSA_PSK_WITH_NULL_SHA384");
  ("TLS1_RFC_ECDHE_PSK_WITH_3DES_EDE_CBC_SHA", "TLS_ECDHE_PSK_WITH_3DES_EDE_CBC_SHA");
  ("TLS1_RFC_ECDHE_PSK_WITH_AES_128_CBC_SHA", "TLS_ECDHE_PSK_WITH_AES_128_CBC_SHA");
  ("TLS1_RFC_ECDHE_PSK_WITH_AES_256_CBC_SHA", "TLS_ECDHE_PSK_WITH_AES_256_CBC_SHA");
  ("TLS1_RFC_ECDHE_PSK_WITH_AES_128_CBC_SHA256", "TLS_ECDHE_PSK_WITH_AES_128_CBC_SHA256");
  ("TLS1_RFC_ECDHE_PSK_WITH_AES_256_CBC_SHA384", "TLS_ECDHE_PSK_WITH_AES_256_CBC_SHA384");
  ("TLS1_RFC_ECDHE_PSK_WITH_NULL_SHA", "TLS_ECDHE_PSK_WITH_NULL_SHA");
  ("TLS1_RFC_ECDHE_PSK_WITH_NULL_SHA256", "TLS_ECDHE_PSK_WITH_NULL_SHA256");
  ("TLS1_RFC_ECDHE_PSK_WITH_NULL_SHA384", "TLS_ECDHE_PSK_WITH_NULL_SHA384");
  ("TLS1_RFC_SRP_SHA_WITH_3DES_EDE_CBC_SHA", "TLS_SRP_SHA_WITH_3DES_EDE_CBC_SHA");
  ("TLS1_RFC_SRP_SHA_RSA_WITH_3DES_EDE_CBC_SHA", "TLS_SRP_SHA_RSA_WITH_3DES_EDE_CBC_SHA");
  ("TLS1_RFC_SRP_SHA_DSS_WITH_3DES_EDE_CBC_SHA", "TLS_SRP_SHA_DSS_WITH_3DES_EDE_CBC_SHA");
  ("TLS1_RFC_SRP_SHA_WITH_AES_128_CBC_SHA", "TLS_SRP_SHA_WITH_AES_128_CBC_SHA");
  ("TLS1_RFC_SRP_SHA_RSA_WITH_AES_128_CBC_SHA", "TLS_SRP_SHA_RSA_WITH_AES_128_CBC_SHA");
  ("TLS1_RFC_SRP_SHA_DSS_WITH_AES_128_CBC_SHA", "TLS_SRP_SHA_DSS_WITH_AES_128_CBC_SHA");
  ("TLS1_RFC_SRP_SHA_WITH_AES_256_CBC_SHA", "TLS_SRP_SHA_WITH_AES_256_CBC_SHA");
  ("TLS1_RFC_SRP_SHA_RSA_WITH_AES_256_CBC_SHA", "TLS_SRP_SHA_RSA_WITH_AES_256_CBC_SHA");
  ("TLS1_RFC_SRP_SHA_DSS_WITH_AES_256_CBC_SHA", "TLS_SRP_SHA_DSS_WITH_AES_256_CBC_SHA");
  ("TLS1_RFC_DHE_RSA_WITH_CHACHA20_POLY1305", "TLS_DHE_RSA_WITH_CHACHA20_POLY1305_SHA256");
  ("TLS1_RFC_ECDHE_RSA_WITH_CHACHA20_POLY1305", "TLS_ECDHE_RSA_WITH_CHACHA20_POLY1305_SHA256");
  ("TLS1_RFC_ECDHE_ECDSA_WITH_CHACHA20_POLY1305", "TLS_ECDHE_ECDSA_WITH_CHACHA20_POLY1305_SHA256");
  ("TLS1_RFC_PSK_WITH_CHACHA20_POLY1305", "TLS_PSK_WITH_CHACHA20_POLY1305_SHA256");
  ("TLS1_RFC_ECDHE_PSK_WITH_CHACHA20_POLY1305", "TLS_ECDHE_PSK_WITH_CHACHA20_POLY1305_SHA256");
  ("TLS1_RFC_DHE_PSK_WITH_CHACHA20_POLY1305", "TLS_DHE_PSK_WITH_CHACHA20_POLY1305_SHA256");
  ("TLS1_RFC_RSA_PSK_WITH_CHACHA20_POLY1305", "TLS_RSA_PSK_WITH_CHACHA20_POLY1305_SHA256");
  ("TLS1_RFC_RSA_WITH_CAMELLIA_128_CBC_SHA256", "TLS_RSA_WITH_CAMELLIA_128_CBC_SHA256");
  ("TLS1_RFC_DHE_DSS_WITH_CAMELLIA_128_CBC_SHA256", "TLS_DHE_DSS_WITH_CAMELLIA_128_CBC_SHA256");
  ("TLS1_RFC_DHE_RSA_WITH_CAMELLIA_128_CBC_SHA256", "TLS_DHE_RSA_WITH_CAMELLIA_128_CBC_SHA256");
  ("TLS1_RFC_ADH_WITH_CAMELLIA_128_CBC_SHA256", "TLS_DH_anon_WITH_CAMELLIA_128_CBC_SHA256");
  ("TLS1_RFC_RSA_WITH_CAMELLIA_256_CBC_SHA256", "TLS_RSA_WITH_CAMELLIA_256_CBC_SHA256");
  ("TLS1_RFC_DHE_DSS_WITH_CAMELLIA_256_CBC_SHA256", "TLS_DHE_DSS_WITH_CAMELLIA_256_CBC_SHA256");
  ("TLS1_RFC_DHE_RSA_WITH_CAMELLIA_256_CBC_SHA256", "TLS_DHE_RSA_WITH_CAMELLIA_256_CBC_SHA256");
  ("TLS1_RFC_ADH_WITH_CAMELLIA_256_CBC_SHA256", "TLS_DH_anon_WITH_CAMELLIA_256_CBC_SHA256");
  ("TLS1_RFC_RSA_WITH_CAMELLIA_256_CBC_SHA", "TLS_RSA_WITH_CAMELLIA_256_CBC_SHA");
  ("TLS1_RFC_DHE_DSS_WITH_CAMELLIA_256_CBC_SHA", "TLS_DHE_DSS_WITH_CAMELLIA_256_CBC_SHA");
  ("TLS1_RFC_DHE_RSA_WITH_CAMELLIA_256_CBC_SHA", "TLS_DHE_RSA_WITH_CAMELLIA_256_CBC_SHA");
  ("TLS1_RFC_ADH_WITH_CAMELLIA_256_CBC_SHA", "TLS_DH_anon_WITH_CAMELLIA_256_CBC_SHA");
  ("TLS1_RFC_RSA_WITH_CAMELLIA_128_CBC_SHA", "TLS_RSA_WITH_CAMELLIA_128_CBC_SHA");
  ("TLS1_RFC_DHE_DSS_WITH_CAMELLIA_128_CBC_SHA", "TLS_DHE_DSS_WITH_CAMELLIA_128_CBC_SHA");
  ("TLS1_RFC_DHE_RSA_WITH_CAMELLIA_128_CBC_SHA", "TLS_DHE_RSA_WITH_CAMELLIA_128_CBC_SHA");
  ("TLS1_RFC_ADH_WITH_CAMELLIA_128_CBC_SHA", "TLS_DH_anon_WITH_CAMELLIA_128_CBC_SHA");
  ("TLS1_RFC_ECDHE_ECDSA_WITH_CAMELLIA_128_CBC_SHA256", "TLS_ECDHE_ECDSA_WITH_CAMELLIA_128_CBC_SHA256");
  ("TLS1_RFC_ECDHE_ECDSA_WITH_CAMELLIA_256_CBC_SHA384", "TLS_ECDHE_ECDSA_WITH_CAMELLIA_256_CBC_SHA384");
  ("TLS1_RFC_ECDHE_RSA_WITH_CAMELLIA_128_CBC_SHA256", "TLS_ECDHE_RSA_WITH_CAMELLIA_128_CBC_SHA256");
  ("TLS1_RFC_ECDHE_RSA_WITH_CAMELLIA_256_CBC_SHA384", "TLS_ECDHE_RSA_WITH_CAMELLIA_256_CBC_SHA384");
  ("TLS1_RFC_PSK_WITH_CAMELLIA_128_CBC_SHA256", "TLS_PSK_WITH_CAMELLIA_128_CBC_SHA256");
  ("TLS1_RFC_PSK_WITH_CAMELLIA_256_CBC_SHA384", "TLS_PSK_WITH_CAMELLIA_256_CBC_SHA384");
  ("TLS1_RFC_DHE_PSK_WITH_CAMELLIA_128_CBC_SHA256", "TLS_DHE_PSK_WITH_CAMELLIA_128_CBC_SHA256");
  ("TLS1_RFC_DHE_PSK_WITH_CAMELLIA_256_CBC_SHA384", "TLS_DHE_PSK_WITH_CAMELLIA_256_CBC_SHA384");
  ("TLS1_RFC_RSA_PSK_WITH_CAMELLIA_128_CBC_SHA256", "TLS_RSA_PSK_WITH_CAMELLIA_128_CBC_SHA256")].

Definition tls1_names_2 : list (string * string) := [
  ("TLS1_RFC_RSA_PSK_WITH_CAMELLIA_256_CBC_SHA384", "TLS_RSA_PSK_WITH_CAMELLIA_256_CBC_SHA384");
  ("TLS1_RFC_ECDHE_PSK_WITH_CAMELLIA_128_CBC_SHA256", "TLS_ECDHE_PSK_WITH_CAMELLIA_128_CBC_SHA256");
  ("TLS1_RFC_ECDHE_PSK_WITH_CAMELLIA_256_CBC_SHA384", "TLS_ECDHE_PSK_WITH_CAMELLIA_256_CBC_SHA384");
  ("TLS1_RFC_RSA_WITH_SEED_SHA", "TLS_RSA_WITH_SEED_CBC_SHA");
  ("TLS1_RFC_DHE_DSS_WITH_SEED_SHA", "TLS_DHE_DSS_WITH_SEED_CBC_SHA");
  ("TLS1_RFC_DHE_RSA_WITH_SEED_SHA", "TLS_DHE_RSA_WITH_SEED_CBC_SHA");
  ("TLS1_RFC_ADH_WITH_SEED_SHA", "TLS_DH_anon_WITH_SEED_CBC_SHA");
  ("TLS1_RFC_ECDHE_PSK_WITH_RC4_128_SHA", "TLS_ECDHE_PSK_WITH_RC4_128_SHA");
  ("TLS1_RFC_ECDH_anon_WITH_RC4_128_SHA", "TLS_ECDH_anon_WITH_RC4_128_SHA");
  ("TLS1_RFC_ECDHE_ECDSA_WITH_RC4_128_SHA", "TLS_ECDHE_ECDSA_WITH_RC4_128_SHA");
  ("TLS1_RFC_ECDHE_RSA_WITH_RC4_128_SHA", "TLS_ECDHE_RSA_WITH_RC4_128_SHA");
  ("TLS1_RFC_PSK_WITH_RC4_128_SHA", "TLS_PSK_WITH_RC4_128_SHA");
  ("TLS1_RFC_RSA_PSK_WITH_RC4_128_SHA", "TLS_RSA_PSK_WITH_RC4_128_SHA");
  ("TLS1_RFC_DHE_PSK_WITH_RC4_128_SHA", "TLS_DHE_PSK_WITH_RC4_128_SHA");
  ("TLS1_RFC_RSA_WITH_ARIA_128_GCM_SHA256", "TLS_RSA_WITH_ARIA_128_GCM_SHA256");
  ("TLS1_RFC_RSA_WITH_ARIA_256_GCM_SHA384", "TLS_RSA_WITH_ARIA_256_GCM_SHA384");
  ("TLS1_RFC_DHE_RSA_WITH_ARIA_128_GCM_SHA256", "TLS_DHE_RSA_WITH_ARIA_128_GCM_SHA256");
  ("TLS1_RFC_DHE_RSA_WITH_ARIA_256_GCM_SHA384", "TLS_DHE_RSA_WITH_ARIA_256_GCM_SHA384");
  ("TLS1_RFC_DH_RSA_WITH_ARIA_128_GCM_SHA256", "TLS_DH_RSA_WITH_ARIA_128_GCM_SHA256");
  ("TLS1_RFC_DH_RSA_WITH_ARIA_256_GCM_SHA384", "TLS_DH_RSA_WITH_ARIA_256_GCM_SHA384");
  ("TLS1_RFC_DHE_DSS_WITH_ARIA_128_GCM_SHA256", "TLS_DHE_DSS_WITH_ARIA_128_GCM_SHA256");
  ("TLS1_RFC_DHE_DSS_WITH_ARIA_256_GCM_SHA384", "TLS_DHE_DSS_WITH_ARIA_256_GCM_SHA384");
  ("TLS1_RFC_DH_DSS_WITH_ARIA_128_GCM_SHA256", "TLS_DH_DSS_WITH_ARIA_128_GCM_SHA256");
  ("TLS1_RFC_DH_DSS_WITH_ARIA_256_GCM_SHA384", "TLS_DH_DSS_WITH_ARIA_256_GCM_SHA384");
  ("TLS1_RFC_DH_anon_WITH_ARIA_128_GCM_SHA256", "TLS_DH_anon_WITH_ARIA_128_GCM_SHA256");
  ("TLS1_RFC_DH_anon_WITH_ARIA_256_GCM_SHA384", "TLS_DH_anon_WITH_ARIA_256_GCM_SHA384");
  ("TLS1_RFC_ECDHE_ECDSA_WITH_ARIA_128_GCM_SHA256", "TLS_ECDHE_ECDSA_WITH_ARIA_128_GCM_SHA256");
  ("TLS1_RFC_ECDHE_ECDSA_WITH_ARIA_256_GCM_SHA384", "TLS_ECDHE_ECDSA_WITH_ARIA_256_GCM_SHA384");
  ("TLS1_RFC_ECDH_ECDSA_WITH_ARIA_128_GCM_SHA256", "TLS_ECDH_ECDSA_WITH_ARIA_128_GCM_SHA256");
  ("TLS1_RFC_ECDH_ECDSA_WITH_ARIA_256_GCM_SHA384", "TLS_ECDH_ECDSA_WITH_ARIA_256_GCM_SHA384");
  ("TLS1_RFC_ECDHE_RSA_WITH_ARIA_128_GCM_SHA256", "TLS_ECDHE_RSA_WITH_ARIA_128_GCM_SHA256");
  ("TLS1_RFC_ECDHE_RSA_WITH_ARIA_256_GCM_SHA384", "TLS_ECDHE_RSA_WITH_ARIA_256_GCM_SHA384");
  ("TLS1_RFC_ECDH_RSA_WITH_ARIA_128_GCM_SHA256", "TLS_ECDH_RSA_WITH_ARIA_128_GCM_SHA256");
  ("TLS1_RFC_ECDH_RSA_WITH_ARIA_256_GCM_SHA384", "TLS_ECDH_RSA_WITH_ARIA_256_GCM_SHA384");
  ("TLS1_RFC_PSK_WITH_ARIA_128_GCM_SHA256", "TLS_PSK_WITH_ARIA_128_GCM_SHA256");
  ("TLS1_RFC_PSK_WITH_ARIA_256_GCM_SHA384", "TLS_PSK_WITH_ARIA_256_GCM_SHA384");
  ("TLS1_RFC_DHE_PSK_WITH_ARIA_128_GCM_SHA256", "TLS_DHE_PSK_WITH_ARIA_128_GCM_SHA256");
  ("TLS1_RFC_DHE_PSK_WITH_ARIA_256_GCM_SHA384", "TLS_DHE_PSK_WITH_ARIA_256_GCM_SHA384");
  ("TLS1_RFC_RSA_PSK_WITH_ARIA_128_GCM_SHA256", "TLS_RSA_PSK_WITH_ARIA_128_GCM_SHA256");
  ("TLS1_RFC_RSA_PSK_WITH_ARIA_256_GCM_SHA384", "TLS_RSA_PSK_WITH_ARIA_256_GCM_SHA384");
  ("TLS1_TXT_DHE_DSS_WITH_RC4_128_SHA", "DHE-DSS-RC4-SHA");
  ("TLS1_TXT_PSK_WITH_NULL_SHA", "PSK-NULL-SHA");
  ("TLS1_TXT_DHE_PSK_WITH_NULL_SHA", "DHE-PSK-NULL-SHA");
  ("TLS1_TXT_RSA_PSK_WITH_NULL_SHA", "RSA-PSK-NULL-SHA");
  ("TLS1_TXT_RSA_WITH_AES_128_SHA", "AES128-SHA");
  ("TLS1_TXT_DH_DSS_WITH_AES_128_SHA", "DH-DSS-AES128-SHA");
  ("TLS1_TXT_DH_RSA_WITH_AES_128_SHA", "DH-RSA-AES128-SHA");
  ("TLS1_TXT_DHE_DSS_WITH_AES_128_SHA", "DHE-DSS-AES128-SHA");
  ("TLS1_TXT_DHE_RSA_WITH_AES_128_SHA", "DHE-RSA-AES128-SHA");
  ("TLS1_TXT_ADH_WITH_AES_128_SHA", "ADH-AES128-SHA");
  ("TLS1_TXT_RSA_WITH_AES_256_SHA", "AES256-SHA");
  ("TLS1_TXT_DH_DSS_WITH_AES_256_SHA", "DH-DSS-AES256-SHA");
  ("TLS1_TXT_DH_RSA_WITH_AES_256_SHA", "DH-RSA-AES256-SHA");
  ("TLS1_TXT_DHE_DSS_WITH_AES_256_SHA", "DHE-DSS-AES256-SHA");
  ("TLS1_TXT_DHE_RSA_WITH_AES_256_SHA", "DHE-RSA-AES256-SHA");
  ("TLS1_TXT_ADH_WITH_AES_256_SHA", "ADH-AES256-SHA");
  ("TLS1_TXT_ECDH_ECDSA_WITH_NULL_SHA", "ECDH-ECDSA-NULL-SHA");
  ("TLS1_TXT_ECDH_ECDSA_WITH_RC4_128_SHA", "ECDH-ECDSA-RC4-SHA");
  ("TLS1_TXT_ECDH_ECDSA_WITH_DES_192_CBC3_SHA", "ECDH-ECDSA-DES-CBC3-SHA");
  ("TLS1_TXT_ECDH_ECDSA_WITH_AES_128_CBC_SHA", "ECDH-ECDSA-AES128-SHA");
  ("TLS1_TXT_ECDH_ECDSA_WITH_AES_256_CBC_SHA", "ECDH-ECDSA-AES256-SHA");
  ("TLS1_TXT_ECDHE_ECDSA_WITH_NULL_SHA", "ECDHE-ECDSA-NULL-SHA");
  ("TLS1_TXT_ECDHE_ECDSA_WITH_RC4_128_SHA", "ECDHE-ECDSA-RC4-SHA");
  ("TLS1_TXT_ECDHE_ECDSA_WITH_DES_192_CBC3_SHA", "ECDHE-ECDSA-DES-CBC3-SHA");
  ("TLS1_TXT_ECDHE_ECDSA_WITH_AES_128_CBC_SHA", "ECDHE-ECDSA-AES128-SHA");
  ("TLS1_TXT_ECDHE_ECDSA_WITH_AES_256_CBC_SHA", "ECDHE-ECDSA-AES256-SHA");
  ("TLS1_TXT_ECDH_RSA_WITH_NULL_SHA", "ECDH-RSA-NULL-SHA");
  ("TLS1_TXT_ECDH_RSA_WITH_RC4_128_SHA", "ECDH-RSA-RC4-SHA");
  ("TLS1_TXT_ECDH_RSA_WITH_DES_192_CBC3_SHA", "ECDH-RSA-DES-CBC3-SHA");
  ("TLS1_TXT_ECDH_RSA_WITH_AES_128_CBC_SHA", "ECDH-RSA-AES128-SHA");
  ("TLS1_TXT_ECDH_RSA_WITH_AES_256_CBC_SHA", "ECDH-RSA-AES256-SHA");
  ("TLS1_TXT_ECDHE_RSA_WITH_NULL_SHA", "ECDHE-RSA-NULL-SHA");
  ("TLS1_TXT_ECDHE_RSA_WITH_RC4_128_SHA", "ECDHE-RSA-RC4-SHA");
  ("TLS1_TXT_ECDHE_RSA_WITH_DES_192_CBC3_SHA", "ECDHE-RSA-DES-CBC3-SHA");
  ("TLS1_TXT_ECDHE_RSA_WITH_AES_128_CBC_SHA", "ECDHE-RSA-AES128-SHA");
  ("TLS1_TXT_ECDHE_RSA_WITH_AES_256_CBC_SHA", "ECDHE-RSA-AES256-SHA");
  ("TLS1_TXT_ECDH_anon_WITH_NULL_SHA", "AECDH-NULL-SHA");
  ("TLS1_TXT_ECDH_anon_WITH_RC4_128_SHA", "AECDH-RC4-SHA");
  ("TLS1_TXT_ECDH_anon_WITH_DES_192_CBC3_SHA", "AECDH-DES-CBC3-SHA");
  ("TLS1_TXT_ECDH_anon_WITH_AES_128_CBC_SHA", "AECDH-AES128-SHA");
  ("TLS1_TXT_ECDH_anon_WITH_AES_256_CBC_SHA", "AECDH-AES256-SHA");
  ("TLS1_TXT_PSK_WITH_RC4_128_SHA", "PSK-RC4-SHA");
  ("TLS1_TXT_PSK_WITH_3DES_EDE_CBC_SHA", "PSK-3DES-EDE-CBC-SHA");
  ("TLS1_TXT_PSK_WITH_AES_128_CBC_SHA", "PSK-AES128-CBC-SHA");
  ("TLS1_TXT_PSK_WITH_AES_256_CBC_SHA", "PSK-AES256-CBC-SHA");
  ("TLS1_TXT_DHE_PSK_WITH_RC4_128_SHA", "DHE-PSK-RC4-SHA");
  ("TLS1_TXT_DHE_PSK_WITH_3DES_EDE_CBC_SHA", "DHE-PSK-3DES-EDE-CBC-SHA");
  ("TLS1_TXT_DHE_PSK_WITH_AES_128_CBC_SHA", "DHE-PSK-AES128-CBC-SHA");
  ("TLS1_TXT_DHE_PSK_WITH_AES_256_CBC_SHA", "DHE-PSK-AES256-CBC-SHA");
  ("TLS1_TXT_RSA_PSK_WITH_RC4_128_SHA", "RSA-PSK-RC4-SHA");
  ("TLS1_TXT_RSA_PSK_WITH_3DES_EDE_CBC_SHA", "RSA-PSK-3DES-EDE-CBC-SHA");
  ("TLS1_TXT_RSA_PSK_WITH_AES_128_CBC_SHA", "RSA-PSK-AES128-CBC-SHA");
  ("TLS1_TXT_RSA_PSK_WITH_AES_256_CBC_SHA", "RSA-PSK-AES256-CBC-SHA");
  ("TLS1_TXT_PSK_WITH_AES_128_GCM_SHA256", "PSK-AES128-GCM-SHA256");
  ("TLS1_TXT_PSK_WITH_AES_256_GCM_SHA384", "PSK-AES256-GCM-SHA384");
  ("TLS1_TXT_DHE_PSK_WITH_AES_128_GCM_SHA256", "DHE-PSK-AES128-GCM-SHA256");
  ("TLS1_TXT_DHE_PSK_WITH_AES_256_GCM_SHA384", "DHE-PSK-AES256-GCM-SHA384");
  ("TLS1_TXT_RSA_PSK_WITH_AES_128_GCM_SHA256", "RSA-PSK-AES128-GCM-SHA256");
  ("TLS1_TXT_RSA_PSK_WITH_AES_256_GCM_SHA384", "RSA-PSK-AES256-GCM-SHA384");
  ("TLS1_TXT_PSK_WITH_AES_128_CBC_SHA256", "PSK-AES128-CBC-SHA256");
  ("TLS1_TXT_PSK_WITH_AES_256_CBC_SHA384", "PSK-AES256-CBC-SHA384");
  ("TLS1_TXT_PSK_WITH_NULL_SHA256", "PSK-NULL-SHA256");
  ("TLS1_TXT_PSK_WITH_NULL_SHA384", "PSK-NULL-SHA384");
  ("TLS1_TXT_DHE_PSK_WITH_AES_128_CBC_SHA256", "DHE-PSK-AES128-CBC-SHA256");
  ("TLS1_TXT_DHE_PSK_WITH_AES_256_CBC_SHA384", "DHE-PSK-AES256-CBC-SHA384");
  ("TLS1_TXT_DHE_PSK_WITH_NULL_SHA256", "DHE-PSK-NULL-SHA256");
  ("TLS1_TXT_DHE_PSK_WITH_NULL_SHA384", "DHE-PSK-NULL-SHA384");
  ("TLS1_TXT_RSA_PSK_WITH_AES_128_CBC_SHA256", "RSA-PSK-AES128-CBC-SHA256");
  ("TLS1_TXT_RSA_PSK_WITH_AES_256_CBC_SHA384", "RSA-PSK-AES256-CBC-SHA384");
  ("TLS1_TXT_RSA_PSK_WITH_NULL_SHA256", "RSA-PSK-NULL-SHA256");
  ("TLS1_TXT_RSA_PSK_WITH_NULL_SHA384", "RSA-PSK-NULL-SHA384");
  ("TLS1_TXT_SRP_SHA_WITH_3DES_EDE_CBC_SHA", "SRP-3DES-EDE-CBC-SHA");
  ("TLS1_TXT_SRP_SHA_RSA_WITH_3DES_EDE_CBC_SHA", "SRP-RSA-3DES-EDE-CBC-SHA");
  ("TLS1_TXT_SRP_SHA_DSS_WITH_3DES_EDE_CBC_SHA", "SRP-DSS-3DES-EDE-CBC-SHA");
  ("TLS1_TXT_SRP_SHA_WITH_AES_128_CBC_SHA", "SRP-AES-128-CBC-SHA");
  ("TLS1_TXT_SRP_SHA_RSA_WITH_AES_128_CBC_SHA", "SRP-RSA-AES-128-CBC-SHA");
  ("TLS1_TXT_SRP_SHA_DSS_WITH_AES_128_CBC_SHA", "SRP-DSS-AES-128-CBC-SHA");
  ("TLS1_TXT_SRP_SHA_WITH_AES_256_CBC_SHA", "SRP-AES-256-CBC-SHA");
  ("TLS1_TXT_SRP_SHA_RSA_WITH_AES_256_CBC_SHA", "SRP-RSA-AES-256-CBC-SHA");
  ("TLS1_TXT_SRP_SHA_DSS_WITH_AES_256_CBC_SHA", "SRP-DSS-AES-256-CBC-SHA")].

Definition tls1_names_3 : list (string * string) := [
  ("TLS1_TXT_RSA_WITH_CAMELLIA_128_CBC_SHA", "CAMELLIA128-SHA");
  ("TLS1_TXT_DH_DSS_WITH_CAMELLIA_128_CBC_SHA", "DH-DSS-CAMELLIA128-SHA");
  ("TLS1_TXT_DH_RSA_WITH_CAMELLIA_128_CBC_SHA", "DH-RSA-CAMELLIA128-SHA");
  ("TLS1_TXT_DHE_DSS_WITH_CAMELLIA_128_CBC_SHA", "DHE-DSS-CAMELLIA128-SHA");
  ("TLS1_TXT_DHE_RSA_WITH_CAMELLIA_128_CBC_SHA", "DHE-RSA-CAMELLIA128-SHA");
  ("TLS1_TXT_ADH_WITH_CAMELLIA_128_CBC_SHA", "ADH-CAMELLIA128-SHA");
  ("TLS1_TXT_RSA_WITH_CAMELLIA_256_CBC_SHA", "CAMELLIA256-SHA");
  ("TLS1_TXT_DH_DSS_WITH_CAMELLIA_256_CBC_SHA", "DH-DSS-CAMELLIA256-SHA");
  ("TLS1_TXT_DH_RSA_WITH_CAMELLIA_256_CBC_SHA", "DH-RSA-CAMELLIA256-SHA");
  ("TLS1_TXT_DHE_DSS_WITH_CAMELLIA_256_CBC_SHA", "DHE-DSS-CAMELLIA256-SHA");
  ("TLS1_TXT_DHE_RSA_WITH_CAMELLIA_256_CBC_SHA", "DHE-RSA-CAMELLIA256-SHA");
  ("TLS1_TXT_ADH_WITH_CAMELLIA_256_CBC_SHA", "ADH-CAMELLIA256-SHA");
  ("TLS1_TXT_RSA_WITH_CAMELLIA_128_CBC_SHA256", "CAMELLIA128-SHA256");
  ("TLS1_TXT_DH_DSS_WITH_CAMELLIA_128_CBC_SHA256", "DH-DSS-CAMELLIA128-SHA256");
  ("TLS1_TXT_DH_RSA_WITH_CAMELLIA_128_CBC_SHA256", "DH-RSA-CAMELLIA128-SHA256");
  ("TLS1_TXT_DHE_DSS_WITH_CAMELLIA_128_CBC_SHA256", "DHE-DSS-CAMELLIA128-SHA256");
  ("TLS1_TXT_DHE_RSA_WITH_CAMELLIA_128_CBC_SHA256", "DHE-RSA-CAMELLIA128-SHA256");
  ("TLS1_TXT_ADH_WITH_CAMELLIA_128_CBC_SHA256", "ADH-CAMELLIA128-SHA256");
  ("TLS1_TXT_RSA_WITH_CAMELLIA_256_CBC_SHA256", "CAMELLIA256-SHA256");
  ("TLS1_TXT_DH_DSS_WITH_CAMELLIA_256_CBC_SHA256", "DH-DSS-CAMELLIA256-SHA256");
  ("TLS1_TXT_DH_RSA_WITH_CAMELLIA_256_CBC_SHA256", "DH-RSA-CAMELLIA256-SHA256");
  ("TLS1_TXT_DHE_DSS_WITH_CAMELLIA_256_CBC_SHA256", "DHE-DSS-CAMELLIA256-SHA256");
  ("TLS1_TXT_DHE_RSA_WITH_CAMELLIA_256_CBC_SHA256", "DHE-RSA-CAMELLIA256-SHA256");
  ("TLS1_TXT_ADH_WITH_CAMELLIA_256_CBC_SHA256", "ADH-CAMELLIA256-SHA256");
  ("TLS1_TXT_PSK_WITH_CAMELLIA_128_CBC_SHA256", "PSK-CAMELLIA128-SHA256");
  ("TLS1_TXT_PSK_WITH_CAMELLIA_256_CBC_SHA384", "PSK-CAMELLIA256-SHA384");
  ("TLS1_TXT_DHE_PSK_WITH_CAMELLIA_128_CBC_SHA256", "DHE-PSK-CAMELLIA128-SHA256");
  ("TLS1_TXT_DHE_PSK_WITH_CAMELLIA_256_CBC_SHA384", "DHE-PSK-CAMELLIA256-SHA384");
  ("TLS1_TXT_RSA_PSK_WITH_CAMELLIA_128_CBC_SHA256", "RSA-PSK-CAMELLIA128-SHA256");
  ("TLS1_TXT_RSA_PSK_WITH_CAMELLIA_256_CBC_SHA384", "RSA-PSK-CAMELLIA256-SHA384");
  ("TLS1_TXT_ECDHE_PSK_WITH_CAMELLIA_128_CBC_SHA256", "ECDHE-PSK-CAMELLIA128-SHA256");
  ("TLS1_TXT_ECDHE_PSK_WITH_CAMELLIA_256_CBC_SHA384", "ECDHE-PSK-CAMELLIA256-SHA384");
  ("TLS1_TXT_RSA_WITH_SEED_SHA", "SEED-SHA");
  ("TLS1_TXT_DH_DSS_WITH_SEED_SHA", "DH-DSS-SEED-SHA");
  ("TLS1_TXT_DH_RSA_WITH_SEED_SHA", "DH-RSA-SEED-SHA");
  ("TLS1_TXT_DHE_DSS_WITH_SEED_SHA", "DHE-DSS-SEED-SHA");
  ("TLS1_TXT_DHE_RSA_WITH_SEED_SHA", "DHE-RSA-SEED-SHA");
  ("TLS1_TXT_ADH_WITH_SEED_SHA", "ADH-SEED-SHA");
  ("TLS1_TXT_RSA_WITH_NULL_SHA256", "NULL-SHA256");
  ("TLS1_TXT_RSA_WITH_AES_128_SHA256", "AES128-SHA256");
  ("TLS1_TXT_RSA_WITH_AES_256_SHA256", "AES256-SHA256");
  ("TLS1_TXT_DH_DSS_WITH_AES_128_SHA256", "DH-DSS-AES128-SHA256");
  ("TLS1_TXT_DH_RSA_WITH_AES_128_SHA256", "DH-RSA-AES128-SHA256");
  ("TLS1_TXT_DHE_DSS_WITH_AES_128_SHA256", "DHE-DSS-AES128-SHA256");
  ("TLS1_TXT_DHE_RSA_WITH_AES_128_SHA256", "DHE-RSA-AES128-SHA256");
  ("TLS1_TXT_DH_DSS_WITH_AES_256_SHA256", "DH-DSS-AES256-SHA256");
  ("TLS1_TXT_DH_RSA_WITH_AES_256_SHA256", "DH-RSA-AES256-SHA256");
  ("TLS1_TXT_DHE_DSS_WITH_AES_256_SHA256", "DHE-DSS-AES256-SHA256");
  ("TLS1_TXT_DHE_RSA_WITH_AES_256_SHA256", "DHE-RSA-AES256-SHA256");
  ("TLS1_TXT_ADH_WITH_AES_128_SHA256", "ADH-AES128-SHA256");
  ("TLS1_TXT_ADH_WITH_AES_256_SHA256", "ADH-AES256-SHA256");
  ("TLS1_TXT_RSA_WITH_AES_128_GCM_SHA256", "AES128-GCM-SHA256");
  ("TLS1_TXT_RSA_WITH_AES_256_GCM_SHA384", "AES256-GCM-SHA384");
  ("TLS1_TXT_DHE_RSA_WITH_AES_128_GCM_SHA256", "DHE-RSA-AES128-GCM-SHA256");
  ("TLS1_TXT_DHE_RSA_WITH_AES_256_GCM_SHA384", "DHE-RSA-AES256-GCM-SHA384");
  ("TLS1_TXT_DH_RSA_WITH_AES_128_GCM_SHA256", "DH-RSA-AES128-GCM-SHA256");
  ("TLS1_TXT_DH_RSA_WITH_AES_256_GCM_SHA384", "DH-RSA-AES256-GCM-SHA384");
  ("TLS1_TXT_DHE_DSS_WITH_AES_128_GCM_SHA256", "DHE-DSS-AES128-GCM-SHA256");
  ("TLS1_TXT_DHE_DSS_WITH_AES_256_GCM_SHA384", "DHE-DSS-AES256-GCM-SHA384");
  ("TLS1_TXT_DH_DSS_WITH_AES_128_GCM_SHA256", "DH-DSS-AES128-GCM-SHA256");
  ("TLS1_TXT_DH_DSS_WITH_AES_256_GCM_SHA384", "DH-DSS-AES256-GCM-SHA384");
  ("TLS1_TXT_ADH_WITH_AES_128_GCM_SHA256", "ADH-AES128-GCM-SHA256");
  ("TLS1_TXT_ADH_WITH_AES_256_GCM_SHA384", "ADH-AES256-GCM-SHA384");
  ("TLS1_TXT_RSA_WITH_AES_128_CCM", "AES128-CCM");
  ("TLS1_TXT_RSA_WITH_AES_256_CCM", "AES256-CCM");
  ("TLS1_TXT_DHE_RSA_WITH_AES_128_CCM", "DHE-RSA-AES128-CCM");
  ("TLS1_TXT_DHE_RSA_WITH_AES_256_CCM", "DHE-RSA-AES256-CCM");
  ("TLS1_TXT_RSA_WITH_AES_128_CCM_8", "AES128-CCM8");
  ("TLS1_TXT_RSA_WITH_AES_256_CCM_8", "AES256-CCM8");
  ("TLS1_TXT_DHE_RSA_WITH_AES_128_CCM_8", "DHE-RSA-AES128-CCM8");
  ("TLS1_TXT_DHE_RSA_WITH_AES_256_CCM_8", "DHE-RSA-AES256-CCM8");
  ("TLS1_TXT_PSK_WITH_AES_128_CCM", "PSK-AES128-CCM");
  ("TLS1_TXT_PSK_WITH_AES_256_CCM", "PSK-AES256-CCM");
  ("TLS1_TXT_DHE_PSK_WITH_AES_128_CCM", "DHE-PSK-AES128-CCM");
  ("TLS1_TXT_DHE_PSK_WITH_AES_256_CCM", "DHE-PSK-AES256-CCM");
  ("TLS1_TXT_PSK_WITH_AES_128_CCM_8", "PSK-AES128-CCM8");
  ("TLS1_TXT_PSK_WITH_AES_256_CCM_8", "PSK-AES256-CCM8");
  ("TLS1_TXT_DHE_PSK_WITH_AES_128_CCM_8", "DHE-PSK-AES128-CCM8");
  ("TLS1_TXT_DHE_PSK_WITH_AES_256_CCM_8", "DHE-PSK-AES256-CCM8");
  ("TLS1_TXT_ECDHE_ECDSA_WITH_AES_128_CCM", "ECDHE-ECDSA-AES128-CCM");
  ("TLS1_TXT_ECDHE_ECDSA_WITH_AES_256_CCM", "ECDHE-ECDSA-AES256-CCM");
  ("TLS1_TXT_ECDHE_ECDSA_WITH_AES_128_CCM_8", "ECDHE-ECDSA-AES128-CCM8");
  ("TLS1_TXT_ECDHE_ECDSA_WITH_AES_256_CCM_8", "ECDHE-ECDSA-AES256-CCM8");
  ("TLS1_TXT_ECDHE_ECDSA_WITH_AES_128_SHA256", "ECDHE-ECDSA-AES128-SHA256");
  ("TLS1_TXT_ECDHE_ECDSA_WITH_AES_256_SHA384", "ECDHE-ECDSA-AES256-SHA384");
  ("TLS1_TXT_ECDH_ECDSA_WITH_AES_128_SHA256", "ECDH-ECDSA-AES128-SHA256");
  ("TLS1_TXT_ECDH_ECDSA_WITH_AES_256_SHA384", "ECDH-ECDSA-AES256-SHA384");
  ("TLS1_TXT_ECDHE_RSA_WITH_AES_128_SHA256", "ECDHE-RSA-AES128-SHA256");
  ("TLS1_TXT_ECDHE_RSA_WITH_AES_256_SHA384", "ECDHE-RSA-AES256-SHA384");
  ("TLS1_TXT_ECDH_RSA_WITH_AES_128_SHA256", "ECDH-RSA-AES128-SHA256");
  ("TLS1_TXT_ECDH_RSA_WITH_AES_256_SHA384", "ECDH-RSA-AES256-SHA384");
  ("TLS1_TXT_ECDHE_ECDSA_WITH_AES_128_GCM_SHA256", "ECDHE-ECDSA-AES128-GCM-SHA256");
  ("TLS1_TXT_ECDHE_ECDSA_WITH_AES_256_GCM_SHA384", "ECDHE-ECDSA-AES256-GCM-SHA384");
  ("TLS1_TXT_ECDH_ECDSA_WITH_AES_128_GCM_SHA256", "ECDH-ECDSA-AES128-GCM-SHA256");
  ("TLS1_TXT_ECDH_ECDSA_WITH_AES_256_GCM_SHA384", "ECDH-ECDSA-AES256-GCM-SHA384");
  ("TLS1_TXT_ECDHE_RSA_WITH_AES_128_GCM_SHA256", "ECDHE-RSA-AES128-GCM-SHA256");
  ("TLS1_TXT_ECDHE_RSA_WITH_AES_256_GCM_SHA384", "ECDHE-RSA-AES256-GCM-SHA384");
  ("TLS1_TXT_ECDH_RSA_WITH_AES_128_GCM_SHA256", "ECDH-RSA-AES128-GCM-SHA256");
  ("TLS1_TXT_ECDH_RSA_WITH_AES_256_GCM_SHA384", "ECDH-RSA-AES256-GCM-SHA384");
  ("TLS1_TXT_PSK_WITH_AES_128_GCM_SHA256", "PSK-AES128-GCM-SHA256");
  ("TLS1_TXT_PSK_WITH_AES_256_GCM_SHA384", "PSK-AES256-GCM-SHA384");
  ("TLS1_TXT_ECDHE_PSK_WITH_RC4_128_SHA", "ECDHE-PSK-RC4-SHA");
  ("TLS1_TXT_ECDHE_PSK_WITH_3DES_EDE_CBC_SHA", "ECDHE-PSK-3DES-EDE-CBC-SHA");
  ("TLS1_TXT_ECDHE_PSK_WITH_AES_128_CBC_SHA", "ECDHE-PSK-AES128-CBC-SHA");
  ("TLS1_TXT_ECDHE_PSK_WITH_AES_256_CBC_SHA", "ECDHE-PSK-AES256-CBC-SHA");
  ("TLS1_TXT_ECDHE_PSK_WITH_AES_128_CBC_SHA256", "ECDHE-PSK-AES128-CBC-SHA256");
  ("TLS1_TXT_ECDHE_PSK_WITH_AES_256_CBC_SHA384", "ECDHE-PSK-AES256-CBC-SHA384");
  ("TLS1_TXT_ECDHE_PSK_WITH_NULL_SHA", "ECDHE-PSK-NULL-SHA");
  ("TLS1_TXT_ECDHE_PSK_WITH_NULL_SHA256", "ECDHE-PSK-NULL-SHA256");
  ("TLS1_TXT_ECDHE_PSK_WITH_NULL_SHA384", "ECDHE-PSK-NULL-SHA384");
  ("TLS1_TXT_ECDHE_ECDSA_WITH_CAMELLIA_128_CBC_SHA256", "ECDHE-ECDSA-CAMELLIA128-SHA256");
  ("TLS1_TXT_ECDHE_ECDSA_WITH_CAMELLIA_256_CBC_SHA384", "ECDHE-ECDSA-CAMELLIA256-SHA384");
  ("TLS1_TXT_ECDH_ECDSA_WITH_CAMELLIA_128_CBC_SHA256", "ECDH-ECDSA-CAMELLIA128-SHA256");
  ("TLS1_TXT_ECDH_ECDSA_WITH_CAMELLIA_256_CBC_SHA384", "ECDH-ECDSA-CAMELLIA256-SHA384");
  ("TLS1_TXT_ECDHE_RSA_WITH_CAMELLIA_128_CBC_SHA256", "ECDHE-RSA-CAMELLIA128-SHA256");
  ("TLS1_TXT_ECDHE_RSA_WITH_CAMELLIA_256_CBC_SHA384", "ECDHE-RSA-CAMELLIA256-SHA384");
  ("TLS1_TXT_ECDH_RSA_WITH_CAMELLIA_128_CBC_SHA256", "ECDH-RSA-CAMELLIA128-SHA256");
  ("TLS1_TXT_ECDH_RSA_WITH_CAMELLIA_256_CBC_SHA384", "ECDH-RSA-CAMELLIA256-SHA384")].

Definition tls1_names_4 : list (string * string) := [
  ("TLS1_TXT_ECDHE_RSA_WITH_CHACHA20_POLY1305", "ECDHE-RSA-CHACHA20-POLY1305");
  ("TLS1_TXT_ECDHE_ECDSA_WITH_CHACHA20_POLY1305", "ECDHE-ECDSA-CHACHA20-POLY1305");
  ("TLS1_TXT_DHE_RSA_WITH_CHACHA20_POLY1305", "DHE-RSA-CHACHA20-POLY1305");
  ("TLS1_TXT_PSK_WITH_CHACHA20_POLY1305", "PSK-CHACHA20-POLY1305");
  ("TLS1_TXT_ECDHE_PSK_WITH_CHACHA20_POLY1305", "ECDHE-PSK-CHACHA20-POLY1305");
  ("TLS1_TXT_DHE_PSK_WITH_CHACHA20_POLY1305", "DHE-PSK-CHACHA20-POLY1305");
  ("TLS1_TXT_RSA_PSK_WITH_CHACHA20_POLY1305", "RSA-PSK-CHACHA20-POLY1305");
  ("TLS1_TXT_RSA_WITH_ARIA_128_GCM_SHA256", "ARIA128-GCM-SHA256");
  ("TLS1_TXT_RSA_WITH_ARIA_256_GCM_SHA384", "ARIA256-GCM-SHA384");
  ("TLS1_TXT_DHE_RSA_WITH_ARIA_128_GCM_SHA256", "DHE-RSA-ARIA128-GCM-SHA256");
  ("TLS1_TXT_DHE_RSA_WITH_ARIA_256_GCM_SHA384", "DHE-RSA-ARIA256-GCM-SHA384");
  ("TLS1_TXT_DH_RSA_WITH_ARIA_128_GCM_SHA256", "DH-RSA-ARIA128-GCM-SHA256");
  ("TLS1_TXT_DH_RSA_WITH_ARIA_256_GCM_SHA384", "DH-RSA-ARIA256-GCM-SHA384");
  ("TLS1_TXT_DHE_DSS_WITH_ARIA_128_GCM_SHA256", "DHE-DSS-ARIA128-GCM-SHA256");
  ("TLS1_TXT_DHE_DSS_WITH_ARIA_256_GCM_SHA384", "DHE-DSS-ARIA256-GCM-SHA384");
  ("TLS1_TXT_DH_DSS_WITH_ARIA_128_GCM_SHA256", "DH-DSS-ARIA128-GCM-SHA256");
  ("TLS1_TXT_DH_DSS_WITH_ARIA_256_GCM_SHA384", "DH-DSS-ARIA256-GCM-SHA384");
  ("TLS1_TXT_DH_anon_WITH_ARIA_128_GCM_SHA256", "ADH-ARIA128-GCM-SHA256");
  ("TLS1_TXT_DH_anon_WITH_ARIA_256_GCM_SHA384", "ADH-ARIA256-GCM-SHA384");
  ("TLS1_TXT_ECDHE_ECDSA_WITH_ARIA_128_GCM_SHA256", "ECDHE-ECDSA-ARIA128-GCM-SHA256");
  ("TLS1_TXT_ECDHE_ECDSA_WITH_ARIA_256_GCM_SHA384", "ECDHE-ECDSA-ARIA256-GCM-SHA384");
  ("TLS1_TXT_ECDH_ECDSA_WITH_ARIA_128_GCM_SHA256", "ECDH-ECDSA-ARIA128-GCM-SHA256");
  ("TLS1_TXT_ECDH_ECDSA_WITH_ARIA_256_GCM_SHA384", "ECDH-ECDSA-ARIA256-GCM-SHA384");
  ("TLS1_TXT_ECDHE_RSA_WITH_ARIA_128_GCM_SHA256", "ECDHE-ARIA128-GCM-SHA256");
  ("TLS1_TXT_ECDHE_RSA_WITH_ARIA_256_GCM_SHA384", "ECDHE-ARIA256-GCM-SHA384");
  ("TLS1_TXT_ECDH_RSA_WITH_ARIA_128_GCM_SHA256", "ECDH-ARIA128-GCM-SHA256");
  ("TLS1_TXT_ECDH_RSA_WITH_ARIA_256_GCM_SHA384", "ECDH-ARIA256-GCM-SHA384");
  ("TLS1_TXT_PSK_WITH_ARIA_128_GCM_SHA256", "PSK-ARIA128-GCM-SHA256");
  ("TLS1_TXT_PSK_WITH_ARIA_256_GCM_SHA384", "PSK-ARIA256-GCM-SHA384");
  ("TLS1_TXT_DHE_PSK_WITH_ARIA_128_GCM_SHA256", "DHE-PSK-ARIA128-GCM-SHA256");
  ("TLS1_TXT_DHE_PSK_WITH_ARIA_256_GCM_SHA384", "DHE-PSK-ARIA256-GCM-SHA384");
  ("TLS1_TXT_RSA_PSK_WITH_ARIA_128_GCM_SHA256", "RSA-PSK-ARIA128-GCM-SHA256");
  ("TLS1_TXT_RSA_PSK_WITH_ARIA_256_GCM_SHA384", "RSA-PSK-ARIA256-GCM-SHA384")].

Definition suite_codes : list (string * code) := (
  ssl3_codes_1 ++ tls1_codes_1 ++ tls1_codes_2)%list.
Definition suite_names : list (string * string) := (
  ssl3_names_1 ++ tls1_names_1 ++ tls1_names_2 ++ tls1_names_3 ++ tls1_names_4)%list.

(** ** The suite of a macro *)

(** The part of [s] from the first occurrence of [infix] on, without it; the part
    before it. *)
Fixpoint after (infix s : string) : option string :=
  if String.prefix infix s then Some (String.substring (String.length infix) (String.length s) s)
  else match s with EmptyString => None | String _ s => after infix s end.
Fixpoint before (infix s : string) : string :=
  if String.prefix infix s then ""
  else match s with EmptyString => "" | String c s => String c (before infix s) end.

(** The macro of another kind for the same suite: [change "_CK_" "_TXT_"] of the
    macro of a code is that of its name. *)
Definition change (infix infix' s : string) : option string :=
  t ← after infix s; Some (before infix s +:+ infix' +:+ t).

Section suites.
Context (codes : gmap string code).

(** The code a macro expands to; a macro that names another names one with a
    number. *)
Definition suite_code (macro : string) : option Z :=
  match codes !! macro with
  | Some (Code n) => Some n
  | Some (Same_as macro') => match codes !! macro' with Some (Code n) => Some n | _ => None end
  | None => None
  end.
(** The macro that has the number. *)
Definition suite_macro (macro : string) : string :=
  match codes !! macro with Some (Same_as macro') => macro' | _ => macro end.

(** The macro for the code of the suite that the macro of a name belongs to. *)
Definition code_macro (macro : string) : option string :=
  match change "_TXT_" "_CK_" macro with Some m => Some m | None => change "_RFC_" "_CK_" macro end.
Definition code_of_name (macro : string) : option Z := code_macro macro ≫= suite_code.
End suites.

Definition code_macros : gmap string code := list_to_map suite_codes.
Definition name_macros : gmap string string := list_to_map suite_names.

(** ** Protocol versions *)

Definition SSL3_VERSION : Z := 0x0300.
Definition TLS1_VERSION : Z := 0x0301.
Definition TLS1_1_VERSION : Z := 0x0302.
Definition TLS1_2_VERSION : Z := 0x0303.
Definition TLS1_3_VERSION : Z := 0x0304.
Definition DTLS1_VERSION : Z := 0xFEFF.
Definition DTLS1_2_VERSION : Z := 0xFEFD.
Definition TLS_ANY_VERSION : Z := 0x10000.
Definition DTLS_ANY_VERSION : Z := 0x1FFFF.
Definition SSL3_VERSION_MAJOR : Z := 0x03.
Definition SSL3_VERSION_MINOR : Z := 0x00.
Definition TLS1_VERSION_MAJOR : Z := 0x03.
Definition TLS1_VERSION_MINOR : Z := 0x01.
Definition TLS1_1_VERSION_MAJOR : Z := 0x03.
Definition TLS1_1_VERSION_MINOR : Z := 0x02.
Definition TLS1_2_VERSION_MAJOR : Z := 0x03.
Definition TLS1_2_VERSION_MINOR : Z := 0x03.
Definition DTLS1_VERSION_MAJOR : Z := 0xFE.

(** [version] is [SSL_version(s)], a function of the library. *)
Definition TLS1_get_version (version : Z) : Z :=
  if Z.shiftr version 8 =? TLS1_VERSION_MAJOR then version else 0.
Definition TLS1_get_client_version (client_version : Z) : Z :=
  if Z.shiftr client_version 8 =? TLS1_VERSION_MAJOR then client_version else 0.
