(* ===== verification/TlsProperties.v ===== *)
(** * Properties of the TLS cipher suites and versions *)

From S2P Require Import Prelude TlsCiphers.
From stdpp Require Import strings ssreflect.
Local Open Scope string_scope.
Local Open Scope Z_scope.

(** The macro of a name whose suite has no code. *)
Definition codeless : list string := ["TLS1_TXT_DHE_DSS_WITH_RC4_128_SHA"].
(** The codes without OpenSSL's name: the two signalling values have no name at
    all, the suites of TLS 1.3 only the standard's. *)
Definition signalling : list string := ["SSL3_CK_SCSV"; "SSL3_CK_FALLBACK_SCSV"].

Section checks.
Context (codes : gmap string code) (names : gmap string string).
Let code_of (e : string * code) := suite_code codes e.1.

Definition codes_okb : bool :=
  forallb (λ e, match code_of e with Some n => Z.shiftr n 16 =? 0x0300 | None => false end) suite_codes &&
  functionalb (omap (λ e, n ← code_of e; Some (n, suite_macro codes e.1)) suite_codes).
Definition named_okb : bool :=
  forallb (λ e, bool_decide (e.1 ∈ signalling) ||
                bool_decide (is_Some (m ← change "_CK_" "_TXT_" e.1; names !! m)) ||
                bool_decide (is_Some (m ← change "_CK_" "_RFC_" e.1; names !! m))) suite_codes.
Definition names_okb : bool :=
  forallb (λ e, bool_decide (e.1 ∈ codeless) || bool_decide (is_Some (code_of_name codes e.1))) suite_names &&
  functionalb (omap (λ e, n ← code_of_name codes e.1; Some (e.2, n)) suite_names).
End checks.

Lemma suites_ok : codes_okb code_macros && named_okb name_macros && names_okb code_macros = true.
Proof. by vm_compute. Qed.

#[local] Opaque code_macros name_macros.

Lemma suite_code_in x n : suite_code code_macros x = Some n → ∃ c, (x, c) ∈ suite_codes.
Proof.
  unfold suite_code. destruct (code_macros !! x) as [c|] eqn:E; [|done]. intros _. exists c.
  by apply elem_of_list_to_map_2.
Qed.

(** A code with the top bytes 0x0300 has the other two for the suite. *)
Lemma suite_range n : Z.shiftr n 16 = 0x0300 → 0x03000000 ≤ n < 0x03010000.
Proof.
  rewrite Z.shiftr_div_pow2 //. intros E. pose proof (Z.div_mod n (2 ^ 16)). pose proof (Z.mod_pos_bound n (2 ^ 16)). lia.
Qed.

(** C35: a code identifies a TLS cipher suite: every macro of a code expands to
    0x0300 and the two bytes of the protocol, and two macros have the same code
    only if one is declared as the other (the suites named EDH); every suite
    but the two signalling values has a name; every name but one, left from a
    suite that is gone, belongs to a suite with a code, and a name has only one
    code. A protocol version is its major and minor byte, the versions of
    DTLS have the major byte DTLS1_VERSION_MAJOR, and TLS1_get_version
    gives it back for SSL 3.0 to TLS 1.3 and gives 0 for DTLS and for the
    methods of several versions. *)
Theorem tls_suites_and_versions :
  (∀ x c, (x, c) ∈ suite_codes → ∃ n, suite_code code_macros x = Some n ∧ 0x03000000 ≤ n < 0x03010000) ∧
  (∀ x y n, suite_code code_macros x = Some n → suite_code code_macros y = Some n →
     suite_macro code_macros x = suite_macro code_macros y) ∧
  (∀ x c, (x, c) ∈ suite_codes → x ∈ signalling ∨
     is_Some (m ← change "_CK_" "_TXT_" x; name_macros !! m) ∨ is_Some (m ← change "_CK_" "_RFC_" x; name_macros !! m)) ∧
  (∀ x s, (x, s) ∈ suite_names → x ∈ codeless ∨ is_Some (code_of_name code_macros x)) ∧
  (∀ x y s n n', (x, s) ∈ suite_names → (y, s) ∈ suite_names →
     code_of_name code_macros x = Some n → code_of_name code_macros y = Some n' → n = n') ∧
  (SSL3_VERSION = SSL3_VERSION_MAJOR * 2 ^ 8 + SSL3_VERSION_MINOR ∧
   TLS1_VERSION = TLS1_VERSION_MAJOR * 2 ^ 8 + TLS1_VERSION_MINOR ∧
   TLS1_1_VERSION = TLS1_1_VERSION_MAJOR * 2 ^ 8 + TLS1_1_VERSION_MINOR ∧
   TLS1_2_VERSION = TLS1_2_VERSION_MAJOR * 2 ^ 8 + TLS1_2_VERSION_MINOR) ∧
  (∀ v, v ∈ [DTLS1_VERSION; DTLS1_2_VERSION] → Z.shiftr v 8 = DTLS1_VERSION_MAJOR) ∧
  (∀ v, v ∈ [SSL3_VERSION; TLS1_VERSION; TLS1_1_VERSION; TLS1_2_VERSION; TLS1_3_VERSION] →
     TLS1_get_version v = v ∧ TLS1_get_client_version v = v) ∧
  (∀ v, v ∈ [DTLS1_VERSION; DTLS1_2_VERSION; TLS_ANY_VERSION; DTLS_ANY_VERSION] →
     TLS1_get_version v = 0 ∧ TLS1_get_client_version v = 0).
Proof.
  pose proof suites_ok as H. unfold codes_okb, named_okb, names_okb in H.
  apply andb_prop in H as [[[Hcode Hmacro]%andb_prop Hnamed]%andb_prop [Hname Htext]%andb_prop].
  rewrite forallb_forall in Hcode. rewrite forallb_forall in Hname. rewrite forallb_forall in Hnamed. split_and!.
  - intros x c Hx%list_elem_of_In%Hcode. cbn [fst] in Hx. destruct (suite_code _ x) as [n|]; [|done].
    exists n. split; [done|]. apply suite_range. lia.
  - intros x y n Hx Hy. destruct (suite_code_in x n Hx) as [c Hc], (suite_code_in y n Hy) as [c' Hc'].
    apply (functionalb_spec _ n _ _ Hmacro); apply list_elem_of_omap.
    + exists (x, c). split; [exact Hc|]. cbn [fst snd]. rewrite Hx. reflexivity.
    + exists (y, c'). split; [exact Hc'|]. cbn [fst snd]. rewrite Hy. reflexivity.
  - intros x c Hx%list_elem_of_In%Hnamed. cbn [fst] in Hx.
    apply orb_prop in Hx as [[?%bool_decide_eq_true|?%bool_decide_eq_true]%orb_prop|?%bool_decide_eq_true]; auto.
  - intros x s Hx%list_elem_of_In%Hname. cbn [fst] in Hx.
    apply orb_prop in Hx as [?%bool_decide_eq_true|?%bool_decide_eq_true]; auto.
  - intros x y s n n' Hx Hy Ex Ey. apply (functionalb_spec _ s _ _ Htext); apply list_elem_of_omap.
    + exists (x, s). split; [exact Hx|]. cbn [fst snd]. rewrite Ex. reflexivity.
    + exists (y, s). split; [exact Hy|]. cbn [fst snd]. rewrite Ey. reflexivity.
  - reflexivity.
  - reflexivity.
  - reflexivity.
  - reflexivity.
  - by apply Forall_forall; repeat constructor.
  - by apply Forall_forall; repeat constructor.
  - by apply Forall_forall; repeat constructor.
Qed.

#[local] Transparent code_macros name_macros.

Lemma tls_suites_and_versions_witness :
  (∃ n, suite_code code_macros "TLS1_3_CK_AES_128_GCM_SHA256" = Some n ∧ 0x03000000 ≤ n < 0x03010000) ∧
  suite_macro code_macros "SSL3_CK_EDH_RSA_DES_192_CBC3_SHA" = suite_macro code_macros "SSL3_CK_DHE_RSA_DES_192_CBC3_SHA" ∧
  TLS1_get_version TLS1_2_VERSION = TLS1_2_VERSION ∧ TLS1_get_version DTLS1_2_VERSION = 0.
Proof.
  destruct tls_suites_and_versions as (Hcode & Hmacro & _ & _ & _ & _ & _ & Htls & Hdtls). split_and!.
  - apply (Hcode _ (Code 0x03001301)), (bool_decide_eq_true_1 _). vm_compute. reflexivity.
  - apply (Hmacro _ _ 0x03000016); vm_compute; reflexivity.
  - apply Htls. do 3 right. left.
  - apply Hdtls. right. left.
Defined.
