(* ===== verification/CoreDispatch.v ===== *)
(** * [openssl/core_dispatch.h]: the functions that libcrypto and providers exchange

    A dispatch table is an array of numbered function pointers without types;
    for each number [OSSL_FUNC_FOO] the macro [OSSL_CORE_MAKE_FUNC] defines a
    function [OSSL_FUNC_foo] that casts an entry's pointer to the type of its
    function. *)

From S2P Require Import Prelude.
From stdpp Require Import strings.
Local Open Scope string_scope.
Local Open Scope Z_scope.

(** ** Tables and extractors *)

(** A function: where it is and the type it was defined with. *)
Record function_pointer : Type := Function { fn_address : Z; fn_type : string }.

(** [struct ossl_dispatch_st] of [core.h]. *)
Record OSSL_DISPATCH : Type := Dispatch { function_id : Z; function : function_pointer }.

(** [OSSL_CORE_MAKE_FUNC(type, name, args)]. *)
Record core_func : Type := Core_func { func_name : string; func_return : string; func_args : string }.
Definition func_type (f : core_func) : string := func_return f +:+ func_args f.

(** A pointer of some type, and what it points to. *)
Record typed_pointer : Type := Typed { pointer_type : string; pointer_to : function_pointer }.

(** [OSSL_FUNC_name(opf)]: a cast. *)
Definition OSSL_FUNC (f : core_func) (opf : OSSL_DISPATCH) : typed_pointer := Typed (func_type f) (function opf).

(** A call through a pointer of a type that is not the function's is undefined. *)
Definition callable (p : typed_pointer) : bool := String.eqb (pointer_type p) (fn_type (pointer_to p)).

(** An array ends at the first entry with number 0. *)
Fixpoint dispatch_entries (l : list OSSL_DISPATCH) : list OSSL_DISPATCH :=
  match l with
  | [] => []
  | e :: l => if function_id e =? 0 then [] else e :: dispatch_entries l
  end.

(** ** The operations *)

(** The numbers and the functions of the tables of one kind. *)
Record interface : Type := Interface { ids : list (string * Z); funcs : list core_func }.

Definition core_ids : list (string * Z) := [
  ("OSSL_FUNC_CORE_GETTABLE_PARAMS", 1);
  ("OSSL_FUNC_CORE_GET_PARAMS", 2);
  ("OSSL_FUNC_CORE_THREAD_START", 3);
  ("OSSL_FUNC_CORE_GET_LIBCTX", 4);
  ("OSSL_FUNC_CORE_NEW_ERROR", 5);
  ("OSSL_FUNC_CORE_SET_ERROR_DEBUG", 6);
  ("OSSL_FUNC_CORE_VSET_ERROR", 7);
  ("OSSL_FUNC_CORE_SET_ERROR_MARK", 8);
  ("OSSL_FUNC_CORE_CLEAR_LAST_ERROR_MARK", 9);
  ("OSSL_FUNC_CORE_POP_ERROR_TO_MARK", 10);
  ("OSSL_FUNC_CORE_OBJ_ADD_SIGID", 11);
  ("OSSL_FUNC_CORE_OBJ_CREATE", 12)].

Definition core_funcs : list core_func := [
  Core_func "core_gettable_params" "const OSSL_PARAM *" "(const OSSL_CORE_HANDLE *prov)";
  Core_func "core_get_params" "int" "(const OSSL_CORE_HANDLE *prov, OSSL_PARAM params[])";
  Core_func "core_thread_start" "int" "(const OSSL_CORE_HANDLE *prov, OSSL_thread_stop_handler_fn handfn, void *arg)";
  Core_func "core_get_libctx" "OPENSSL_CORE_CTX *" "(const OSSL_CORE_HANDLE *prov)";
  Core_func "core_new_error" "void" "(const OSSL_CORE_HANDLE *prov)";
  Core_func "core_set_error_debug" "void"
    "(const OSSL_CORE_HANDLE *prov, const char *file, int line, const char *func)";
  Core_func "core_vset_error" "void" "(const OSSL_CORE_HANDLE *prov, uint32_t reason, const char *fmt, va_list args)";
  Core_func "core_set_error_mark" "int" "(const OSSL_CORE_HANDLE *prov)";
  Core_func "core_clear_last_error_mark" "int" "(const OSSL_CORE_HANDLE *prov)";
  Core_func "core_pop_error_to_mark" "int" "(const OSSL_CORE_HANDLE *prov)";
  Core_func "core_obj_add_sigid" "int"
    "(const OSSL_CORE_HANDLE *prov, const char *sign_name, const char *digest_name, const char *pkey_name)";
  Core_func "core_obj_create" "int" "(const OSSL_CORE_HANDLE *prov, const char *oid, const char *sn, const char *ln)"].

Definition memory_ids : list (string * Z) := [
  ("OSSL_FUNC_CRYPTO_MALLOC", 20);
  ("OSSL_FUNC_CRYPTO_ZALLOC", 21);
  ("OSSL_FUNC_CRYPTO_FREE", 22);
  ("OSSL_FUNC_CRYPTO_CLEAR_FREE", 23);
  ("OSSL_FUNC_CRYPTO_REALLOC", 24);
  ("OSSL_FUNC_CRYPTO_CLEAR_REALLOC", 25);
  ("OSSL_FUNC_CRYPTO_SECURE_MALLOC", 26);
  ("OSSL_FUNC_CRYPTO_SECURE_ZALLOC", 27);
  ("OSSL_FUNC_CRYPTO_SECURE_FREE", 28);
  ("OSSL_FUNC_CRYPTO_SECURE_CLEAR_FREE", 29);
  ("OSSL_FUNC_CRYPTO_SECURE_ALLOCATED", 30);
  ("OSSL_FUNC_OPENSSL_CLEANSE", 31)].

Definition memory_funcs : list core_func := [
  Core_func "CRYPTO_malloc" "void *" "(size_t num, const char *file, int line)";
  Core_func "CRYPTO_zalloc" "void *" "(size_t num, const char *file, int line)";
  Core_func "CRYPTO_free" "void" "(void *ptr, const char *file, int line)";
  Core_func "CRYPTO_clear_free" "void" "(void *ptr, size_t num, const char *file, int line)";
  Core_func "CRYPTO_realloc" "void *" "(void *addr, size_t num, const char *file, int line)";
  Core_func "CRYPTO_clear_realloc" "void *" "(void *addr, size_t old_num, size_t num, const char *file, int line)";
  Core_func "CRYPTO_secure_malloc" "void *" "(size_t num, const char *file, int line)";
  Core_func "CRYPTO_secure_zalloc" "void *" "(size_t num, const char *file, int line)";
  Core_func "CRYPTO_secure_free" "void" "(void *ptr, const char *file, int line)";
  Core_func "CRYPTO_secure_clear_free" "void" "(void *ptr, size_t num, const char *file, int line)";
  Core_func "CRYPTO_secure_allocated" "int" "(const void *ptr)";
  Core_func "OPENSSL_cleanse" "void" "(void *ptr, size_t len)"].

Definition bio_ids : list (string * Z) := [
  ("OSSL_FUNC_BIO_NEW_FILE", 40);
  ("OSSL_FUNC_BIO_NEW_MEMBUF", 41);
  ("OSSL_FUNC_BIO_READ_EX", 42);
  ("OSSL_FUNC_BIO_WRITE_EX", 43);
  ("OSSL_FUNC_BIO_UP_REF", 44);
  ("OSSL_FUNC_BIO_FREE", 45);
  ("OSSL_FUNC_BIO_VPRINTF", 46);
  ("OSSL_FUNC_BIO_VSNPRINTF", 47);
  ("OSSL_FUNC_BIO_PUTS", 48);
  ("OSSL_FUNC_BIO_GETS", 49);
  ("OSSL_FUNC_BIO_CTRL", 50)].

Definition bio_funcs : list core_func := [
  Core_func "BIO_new_file" "OSSL_CORE_BIO *" "(const char *filename, const char *mode)";
  Core_func "BIO_new_membuf" "OSSL_CORE_BIO *" "(const void *buf, int len)";
  Core_func "BIO_read_ex" "int" "(OSSL_CORE_BIO *bio, void *data, size_t data_len, size_t *bytes_read)";
  Core_func "BIO_write_ex" "int" "(OSSL_CORE_BIO *bio, const void *data, size_t data_len, size_t *written)";
  Core_func "BIO_gets" "int" "(OSSL_CORE_BIO *bio, char *buf, int size)";
  Core_func "BIO_puts" "int" "(OSSL_CORE_BIO *bio, const char *str)";
  Core_func "BIO_up_ref" "int" "(OSSL_CORE_BIO *bio)";
  Core_func "BIO_free" "int" "(OSSL_CORE_BIO *bio)";
  Core_func "BIO_vprintf" "int" "(OSSL_CORE_BIO *bio, const char *format, va_list args)";
  Core_func "BIO_vsnprintf" "int" "(char *buf, size_t n, const char *fmt, va_list args)";
  Core_func "BIO_ctrl" "int" "(OSSL_CORE_BIO *bio, int cmd, long num, void *ptr)"].

Definition services_ids : list (string * Z) := [
  ("OSSL_FUNC_SELF_TEST_CB", 100);
  ("OSSL_FUNC_GET_ENTROPY", 101);
  ("OSSL_FUNC_CLEANUP_ENTROPY", 102);
  ("OSSL_FUNC_GET_NONCE", 103);
  ("OSSL_FUNC_CLEANUP_NONCE", 104)].

Definition services_funcs : list core_func := [
  Core_func "self_test_cb" "void" "(OPENSSL_CORE_CTX *ctx, OSSL_CALLBACK **cb, void **cbarg)";
  Core_func "get_entropy" "size_t"
    "(const OSSL_CORE_HANDLE *handle, unsigned char **pout, int entropy, size_t min_len, size_t max_len)";
  Core_func "cleanup_entropy" "void" "(const OSSL_CORE_HANDLE *handle, unsigned char *buf, size_t len)";
  Core_func "get_nonce" "size_t"
    "(const OSSL_CORE_HANDLE *handle, unsigned char **pout, size_t min_len, size_t max_len, const void *salt, size_t salt_len)";
  Core_func "cleanup_nonce" "void" "(const OSSL_CORE_HANDLE *handle, unsigned char *buf, size_t len)"].

Definition children_ids : list (string * Z) := [
  ("OSSL_FUNC_PROVIDER_REGISTER_CHILD_CB", 105);
  ("OSSL_FUNC_PROVIDER_DEREGISTER_CHILD_CB", 106);
  ("OSSL_FUNC_PROVIDER_NAME", 107);
  ("OSSL_FUNC_PROVIDER_GET0_PROVIDER_CTX", 108);
  ("OSSL_FUNC_PROVIDER_GET0_DISPATCH", 109);
  ("OSSL_FUNC_PROVIDER_UP_REF", 110);
  ("OSSL_FUNC_PROVIDER_FREE", 111)].

Definition children_funcs : list core_func := [
  Core_func "provider_register_child_cb" "int"
    "(const OSSL_CORE_HANDLE *handle, int (*create_cb)(const OSSL_CORE_HANDLE *provider, void *cbdata), int (*remove_cb)(const OSSL_CORE_HANDLE *provider, void *cbdata), int (*global_props_cb)(const char *props, void *cbdata), void *cbdata)";
  Core_func "provider_deregister_child_cb" "void" "(const OSSL_CORE_HANDLE *handle)";
  Core_func "provider_name" "const char *" "(const OSSL_CORE_HANDLE *prov)";
  Core_func "provider_get0_provider_ctx" "void *" "(const OSSL_CORE_HANDLE *prov)";
  Core_func "provider_get0_dispatch" "const OSSL_DISPATCH *" "(const OSSL_CORE_HANDLE *prov)";
  Core_func "provider_up_ref" "int" "(const OSSL_CORE_HANDLE *prov, int activate)";
  Core_func "provider_free" "int" "(const OSSL_CORE_HANDLE *prov, int deactivate)"].

Definition provider_ids : list (string * Z) := [
  ("OSSL_FUNC_PROVIDER_TEARDOWN", 1024);
  ("OSSL_FUNC_PROVIDER_GETTABLE_PARAMS", 1025);
  ("OSSL_FUNC_PROVIDER_GET_PARAMS", 1026);
  ("OSSL_FUNC_PROVIDER_QUERY_OPERATION", 1027);
  ("OSSL_FUNC_PROVIDER_UNQUERY_OPERATION", 1028);
  ("OSSL_FUNC_PROVIDER_GET_REASON_STRINGS", 1029);
  ("OSSL_FUNC_PROVIDER_GET_CAPABILITIES", 1030);
  ("OSSL_FUNC_PROVIDER_SELF_TEST", 1031)].

Definition provider_funcs : list core_func := [
  Core_func "provider_teardown" "void" "(void *provctx)";
  Core_func "provider_gettable_params" "const OSSL_PARAM *" "(void *provctx)";
  Core_func "provider_get_params" "int" "(void *provctx, OSSL_PARAM params[])";
  Core_func "provider_query_operation" "const OSSL_ALGORITHM *" "(void *provctx, int operation_id, int *no_store)";
  Core_func "provider_unquery_operation" "void" "(void *provctx, int operation_id, const OSSL_ALGORITHM *)";
  Core_func "provider_get_reason_strings" "const OSSL_ITEM *" "(void *provctx)";
  Core_func "provider_get_capabilities" "int" "(void *provctx, const char *capability, OSSL_CALLBACK *cb, void *arg)";
  Core_func "provider_self_test" "int" "(void *provctx)"].

Definition digest_ids : list (string * Z) := [
  ("OSSL_FUNC_DIGEST_NEWCTX", 1);
  ("OSSL_FUNC_DIGEST_INIT", 2);
  ("OSSL_FUNC_DIGEST_UPDATE", 3);
  ("OSSL_FUNC_DIGEST_FINAL", 4);
  ("OSSL_FUNC_DIGEST_DIGEST", 5);
  ("OSSL_FUNC_DIGEST_FREECTX", 6);
  ("OSSL_FUNC_DIGEST_DUPCTX", 7);
  ("OSSL_FUNC_DIGEST_GET_PARAMS", 8);
  ("OSSL_FUNC_DIGEST_SET_CTX_PARAMS", 9);
  ("OSSL_FUNC_DIGEST_GET_CTX_PARAMS", 10);
  ("OSSL_FUNC_DIGEST_GETTABLE_PARAMS", 11);
  ("OSSL_FUNC_DIGEST_SETTABLE_CTX_PARAMS", 12);
  ("OSSL_FUNC_DIGEST_GETTABLE_CTX_PARAMS", 13)].

Definition digest_funcs : list core_func := [
  Core_func "digest_newctx" "void *" "(void *provctx)";
  Core_func "digest_init" "int" "(void *dctx, const OSSL_PARAM params[])";
  Core_func "digest_update" "int" "(void *dctx, const unsigned char *in, size_t inl)";
  Core_func "digest_final" "int" "(void *dctx, unsigned char *out, size_t *outl, size_t outsz)";
  Core_func "digest_digest" "int"
    "(void *provctx, const unsigned char *in, size_t inl, unsigned char *out, size_t *outl, size_t outsz)";
  Core_func "digest_freectx" "void" "(void *dctx)";
  Core_func "digest_dupctx" "void *" "(void *dctx)";
  Core_func "digest_get_params" "int" "(OSSL_PARAM params[])";
  Core_func "digest_set_ctx_params" "int" "(void *vctx, const OSSL_PARAM params[])";
  Core_func "digest_get_ctx_params" "int" "(void *vctx, OSSL_PARAM params[])";
  Core_func "digest_gettable_params" "const OSSL_PARAM *" "(void *provctx)";
  Core_func "digest_settable_ctx_params" "const OSSL_PARAM *" "(void *dctx, void *provctx)";
  Core_func "digest_gettable_ctx_params" "const OSSL_PARAM *" "(void *dctx, void *provctx)"].

Definition cipher_ids : list (string * Z) := [
  ("OSSL_FUNC_CIPHER_NEWCTX", 1);
  ("OSSL_FUNC_CIPHER_ENCRYPT_INIT", 2);
  ("OSSL_FUNC_CIPHER_DECRYPT_INIT", 3);
  ("OSSL_FUNC_CIPHER_UPDATE", 4);
  ("OSSL_FUNC_CIPHER_FINAL", 5);
  ("OSSL_FUNC_CIPHER_CIPHER", 6);
  ("OSSL_FUNC_CIPHER_FREECTX", 7);
  ("OSSL_FUNC_CIPHER_DUPCTX", 8);
  ("OSSL_FUNC_CIPHER_GET_PARAMS", 9);
  ("OSSL_FUNC_CIPHER_GET_CTX_PARAMS", 10);
  ("OSSL_FUNC_CIPHER_SET_CTX_PARAMS", 11);
  ("OSSL_FUNC_CIPHER_GETTABLE_PARAMS", 12);
  ("OSSL_FUNC_CIPHER_GETTABLE_CTX_PARAMS", 13);
  ("OSSL_FUNC_CIPHER_SETTABLE_CTX_PARAMS", 14)].

Definition cipher_funcs : list core_func := [
  Core_func "cipher_newctx" "void *" "(void *provctx)";
  Core_func "cipher_encrypt_init" "int"
    "(void *cctx, const unsigned char *key, size_t keylen, const unsigned char *iv, size_t ivlen, const OSSL_PARAM params[])";
  Core_func "cipher_decrypt_init" "int"
    "(void *cctx, const unsigned char *key, size_t keylen, const unsigned char *iv, size_t ivlen, const OSSL_PARAM params[])";
  Core_func "cipher_update" "int"
    "(void *cctx, unsigned char *out, size_t *outl, size_t outsize, const unsigned char *in, size_t inl)";
  Core_func "cipher_final" "int" "(void *cctx, unsigned char *out, size_t *outl, size_t outsize)";
  Core_func "cipher_cipher" "int"
    "(void *cctx, unsigned char *out, size_t *outl, size_t outsize, const unsigned char *in, size_t inl)";
  Core_func "cipher_freectx" "void" "(void *cctx)";
  Core_func "cipher_dupctx" "void *" "(void *cctx)";
  Core_func "cipher_get_params" "int" "(OSSL_PARAM params[])";
  Core_func "cipher_get_ctx_params" "int" "(void *cctx, OSSL_PARAM params[])";
  Core_func "cipher_set_ctx_params" "int" "(void *cctx, const OSSL_PARAM params[])";
  Core_func "cipher_gettable_params" "const OSSL_PARAM *" "(void *provctx)";
  Core_func "cipher_settable_ctx_params" "const OSSL_PARAM *" "(void *cctx, void *provctx)";
  Core_func "cipher_gettable_ctx_params" "const OSSL_PARAM *" "(void *cctx, void *provctx)"].

Definition mac_ids : list (string * Z) := [
  ("OSSL_FUNC_MAC_NEWCTX", 1);
  ("OSSL_FUNC_MAC_DUPCTX", 2);
  ("OSSL_FUNC_MAC_FREECTX", 3);
  ("OSSL_FUNC_MAC_INIT", 4);
  ("OSSL_FUNC_MAC_UPDATE", 5);
  ("OSSL_FUNC_MAC_FINAL", 6);
  ("OSSL_FUNC_MAC_GET_PARAMS", 7);
  ("OSSL_FUNC_MAC_GET_CTX_PARAMS", 8);
  ("OSSL_FUNC_MAC_SET_CTX_PARAMS", 9);
  ("OSSL_FUNC_MAC_GETTABLE_PARAMS", 10);
  ("OSSL_FUNC_MAC_GETTABLE_CTX_PARAMS", 11);
  ("OSSL_FUNC_MAC_SETTABLE_CTX_PARAMS", 12)].

Definition mac_funcs : list core_func := [
  Core_func "mac_newctx" "void *" "(void *provctx)";
  Core_func "mac_dupctx" "void *" "(void *src)";
  Core_func "mac_freectx" "void" "(void *mctx)";
  Core_func "mac_init" "int" "(void *mctx, const unsigned char *key, size_t keylen, const OSSL_PARAM params[])";
  Core_func "mac_update" "int" "(void *mctx, const unsigned char *in, size_t inl)";
  Core_func "mac_final" "int" "(void *mctx, unsigned char *out, size_t *outl, size_t outsize)";
  Core_func "mac_gettable_params" "const OSSL_PARAM *" "(void *provctx)";
  Core_func "mac_gettable_ctx_params" "const OSSL_PARAM *" "(void *mctx, void *provctx)";
  Core_func "mac_settable_ctx_params" "const OSSL_PARAM *" "(void *mctx, void *provctx)";
  Core_func "mac_get_params" "int" "(OSSL_PARAM params[])";
  Core_func "mac_get_ctx_params" "int" "(void *mctx, OSSL_PARAM params[])";
  Core_func "mac_set_ctx_params" "int" "(void *mctx, const OSSL_PARAM params[])"].

Definition kdf_ids : list (string * Z) := [
  ("OSSL_FUNC_KDF_NEWCTX", 1);
  ("OSSL_FUNC_KDF_DUPCTX", 2);
  ("OSSL_FUNC_KDF_FREECTX", 3);
  ("OSSL_FUNC_KDF_RESET", 4);
  ("OSSL_FUNC_KDF_DERIVE", 5);
  ("OSSL_FUNC_KDF_GETTABLE_PARAMS", 6);
  ("OSSL_FUNC_KDF_GETTABLE_CTX_PARAMS", 7);
  ("OSSL_FUNC_KDF_SETTABLE_CTX_PARAMS", 8);
  ("OSSL_FUNC_KDF_GET_PARAMS", 9);
  ("OSSL_FUNC_KDF_GET_CTX_PARAMS", 10);
  ("OSSL_FUNC_KDF_SET_CTX_PARAMS", 11)].

Definition kdf_funcs : list core_func := [
  Core_func "kdf_newctx" "void *" "(void *provctx)";
  Core_func "kdf_dupctx" "void *" "(void *src)";
  Core_func "kdf_freectx" "void" "(void *kctx)";
  Core_func "kdf_reset" "void" "(void *kctx)";
  Core_func "kdf_derive" "int" "(void *kctx, unsigned char *key, size_t keylen, const OSSL_PARAM params[])";
  Core_func "kdf_gettable_params" "const OSSL_PARAM *" "(void *provctx)";
  Core_func "kdf_gettable_ctx_params" "const OSSL_PARAM *" "(void *kctx, void *provctx)";
  Core_func "kdf_settable_ctx_params" "const OSSL_PARAM *" "(void *kctx, void *provctx)";
  Core_func "kdf_get_params" "int" "(OSSL_PARAM params[])";
  Core_func "kdf_get_ctx_params" "int" "(void *kctx, OSSL_PARAM params[])";
  Core_func "kdf_set_ctx_params" "int" "(void *kctx, const OSSL_PARAM params[])"].

Definition rand_ids : list (string * Z) := [
  ("OSSL_FUNC_RAND_NEWCTX", 1);
  ("OSSL_FUNC_RAND_FREECTX", 2);
  ("OSSL_FUNC_RAND_INSTANTIATE", 3);
  ("OSSL_FUNC_RAND_UNINSTANTIATE", 4);
  ("OSSL_FUNC_RAND_GENERATE", 5);
  ("OSSL_FUNC_RAND_RESEED", 6);
  ("OSSL_FUNC_RAND_NONCE", 7);
  ("OSSL_FUNC_RAND_ENABLE_LOCKING", 8);
  ("OSSL_FUNC_RAND_LOCK", 9);
  ("OSSL_FUNC_RAND_UNLOCK", 10);
  ("OSSL_FUNC_RAND_GETTABLE_PARAMS", 11);
  ("OSSL_FUNC_RAND_GETTABLE_CTX_PARAMS", 12);
  ("OSSL_FUNC_RAND_SETTABLE_CTX_PARAMS", 13);
  ("OSSL_FUNC_RAND_GET_PARAMS", 14);
  ("OSSL_FUNC_RAND_GET_CTX_PARAMS", 15);
  ("OSSL_FUNC_RAND_SET_CTX_PARAMS", 16);
  ("OSSL_FUNC_RAND_VERIFY_ZEROIZATION", 17);
  ("OSSL_FUNC_RAND_GET_SEED", 18);
  ("OSSL_FUNC_RAND_CLEAR_SEED", 19)].

Definition rand_funcs : list core_func := [
  Core_func "rand_newctx" "void *" "(void *provctx, void *parent, const OSSL_DISPATCH *parent_calls)";
  Core_func "rand_freectx" "void" "(void *vctx)";
  Core_func "rand_instantiate" "int"
    "(void *vdrbg, unsigned int strength, int prediction_resistance, const unsigned char *pstr, size_t pstr_len, const OSSL_PARAM params[])";
  Core_func "rand_uninstantiate" "int" "(void *vdrbg)";
  Core_func "rand_generate" "int"
    "(void *vctx, unsigned char *out, size_t outlen, unsigned int strength, int prediction_resistance, const unsigned char *addin, size_t addin_len)";
  Core_func "rand_reseed" "int"
    "(void *vctx, int prediction_resistance, const unsigned char *ent, size_t ent_len, const unsigned char *addin, size_t addin_len)";
  Core_func "rand_nonce" "size_t"
    "(void *vctx, unsigned char *out, unsigned int strength, size_t min_noncelen, size_t max_noncelen)";
  Core_func "rand_enable_locking" "int" "(void *vctx)";
  Core_func "rand_lock" "int" "(void *vctx)";
  Core_func "rand_unlock" "void" "(void *vctx)";
  Core_func "rand_gettable_params" "const OSSL_PARAM *" "(void *provctx)";
  Core_func "rand_gettable_ctx_params" "const OSSL_PARAM *" "(void *vctx, void *provctx)";
  Core_func "rand_settable_ctx_params" "const OSSL_PARAM *" "(void *vctx, void *provctx)";
  Core_func "rand_get_params" "int" "(OSSL_PARAM params[])";
  Core_func "rand_get_ctx_params" "int" "(void *vctx, OSSL_PARAM params[])";
  Core_func "rand_set_ctx_params" "int" "(void *vctx, const OSSL_PARAM params[])";
  Core_func "rand_set_callbacks" "void"
    "(void *vctx, OSSL_INOUT_CALLBACK *get_entropy, OSSL_CALLBACK *cleanup_entropy, OSSL_INOUT_CALLBACK *get_nonce, OSSL_CALLBACK *cleanup_nonce, void *arg)";
  Core_func "rand_verify_zeroization" "int" "(void *vctx)";
  Core_func "rand_get_seed" "size_t"
    "(void *vctx, unsigned char **buffer, int entropy, size_t min_len, size_t max_len, int prediction_resistance, const unsigned char *adin, size_t adin_len)";
  Core_func "rand_clear_seed" "void" "(void *vctx, unsigned char *buffer, size_t b_len)"].

Definition keymgmt_ids : list (string * Z) := [
  ("OSSL_FUNC_KEYMGMT_NEW", 1);
  ("OSSL_FUNC_KEYMGMT_GEN_INIT", 2);
  ("OSSL_FUNC_KEYMGMT_GEN_SET_TEMPLATE", 3);
  ("OSSL_FUNC_KEYMGMT_GEN_SET_PARAMS", 4);
  ("OSSL_FUNC_KEYMGMT_GEN_SETTABLE_PARAMS", 5);
  ("OSSL_FUNC_KEYMGMT_GEN", 6);
  ("OSSL_FUNC_KEYMGMT_GEN_CLEANUP", 7);
  ("OSSL_FUNC_KEYMGMT_LOAD", 8);
  ("OSSL_FUNC_KEYMGMT_FREE", 10);
  ("OSSL_FUNC_KEYMGMT_GET_PARAMS", 11);
  ("OSSL_FUNC_KEYMGMT_GETTABLE_PARAMS", 12);
  ("OSSL_FUNC_KEYMGMT_SET_PARAMS", 13);
  ("OSSL_FUNC_KEYMGMT_SETTABLE_PARAMS", 14);
  ("OSSL_FUNC_KEYMGMT_QUERY_OPERATION_NAME", 20);
  ("OSSL_FUNC_KEYMGMT_HAS", 21);
  ("OSSL_FUNC_KEYMGMT_VALIDATE", 22);
  ("OSSL_FUNC_KEYMGMT_MATCH", 23);
  ("OSSL_FUNC_KEYMGMT_IMPORT", 40);
  ("OSSL_FUNC_KEYMGMT_IMPORT_TYPES", 41);
  ("OSSL_FUNC_KEYMGMT_EXPORT", 42);
  ("OSSL_FUNC_KEYMGMT_EXPORT_TYPES", 43);
  ("OSSL_FUNC_KEYMGMT_DUP", 44)].

Definition keymgmt_funcs : list core_func := [
  Core_func "keymgmt_new" "void *" "(void *provctx)";
  Core_func "keymgmt_gen_init" "void *" "(void *provctx, int selection, const OSSL_PARAM params[])";
  Core_func "keymgmt_gen_set_template" "int" "(void *genctx, void *templ)";
  Core_func "keymgmt_gen_set_params" "int" "(void *genctx, const OSSL_PARAM params[])";
  Core_func "keymgmt_gen_settable_params" "const OSSL_PARAM *" "(void *genctx, void *provctx)";
  Core_func "keymgmt_gen" "void *" "(void *genctx, OSSL_CALLBACK *cb, void *cbarg)";
  Core_func "keymgmt_gen_cleanup" "void" "(void *genctx)";
  Core_func "keymgmt_load" "void *" "(const void *reference, size_t reference_sz)";
  Core_func "keymgmt_free" "void" "(void *keydata)";
  Core_func "keymgmt_get_params" "int" "(void *keydata, OSSL_PARAM params[])";
  Core_func "keymgmt_gettable_params" "const OSSL_PARAM *" "(void *provctx)";
  Core_func "keymgmt_set_params" "int" "(void *keydata, const OSSL_PARAM params[])";
  Core_func "keymgmt_settable_params" "const OSSL_PARAM *" "(void *provctx)";
  Core_func "keymgmt_query_operation_name" "const char *" "(int operation_id)";
  Core_func "keymgmt_has" "int" "(const void *keydata, int selection)";
  Core_func "keymgmt_validate" "int" "(const void *keydata, int selection, int checktype)";
  Core_func "keymgmt_match" "int" "(const void *keydata1, const void *keydata2, int selection)";
  Core_func "keymgmt_import" "int" "(void *keydata, int selection, const OSSL_PARAM params[])";
  Core_func "keymgmt_import_types" "const OSSL_PARAM *" "(int selection)";
  Core_func "keymgmt_export" "int" "(void *keydata, int selection, OSSL_CALLBACK *param_cb, void *cbarg)";
  Core_func "keymgmt_export_types" "const OSSL_PARAM *" "(int selection)";
  Core_func "keymgmt_dup" "void *" "(const void *keydata_from, int selection)"].

Definition keyexch_ids : list (string * Z) := [
  ("OSSL_FUNC_KEYEXCH_NEWCTX", 1);
  ("OSSL_FUNC_KEYEXCH_INIT", 2);
  ("OSSL_FUNC_KEYEXCH_DERIVE", 3);
  ("OSSL_FUNC_KEYEXCH_SET_PEER", 4);
  ("OSSL_FUNC_KEYEXCH_FREECTX", 5);
  ("OSSL_FUNC_KEYEXCH_DUPCTX", 6);
  ("OSSL_FUNC_KEYEXCH_SET_CTX_PARAMS", 7);
  ("OSSL_FUNC_KEYEXCH_SETTABLE_CTX_PARAMS", 8);
  ("OSSL_FUNC_KEYEXCH_GET_CTX_PARAMS", 9);
  ("OSSL_FUNC_KEYEXCH_GETTABLE_CTX_PARAMS", 10)].

Definition keyexch_funcs : list core_func := [
  Core_func "keyexch_newctx" "void *" "(void *provctx)";
  Core_func "keyexch_init" "int" "(void *ctx, void *provkey, const OSSL_PARAM params[])";
  Core_func "keyexch_derive" "int" "(void *ctx, unsigned char *secret, size_t *secretlen, size_t outlen)";
  Core_func "keyexch_set_peer" "int" "(void *ctx, void *provkey)";
  Core_func "keyexch_freectx" "void" "(void *ctx)";
  Core_func "keyexch_dupctx" "void *" "(void *ctx)";
  Core_func "keyexch_set_ctx_params" "int" "(void *ctx, const OSSL_PARAM params[])";
  Core_func "keyexch_settable_ctx_params" "const OSSL_PARAM *" "(void *ctx, void *provctx)";
  Core_func "keyexch_get_ctx_params" "int" "(void *ctx, OSSL_PARAM params[])";
  Core_func "keyexch_gettable_ctx_params" "const OSSL_PARAM *" "(void *ctx, void *provctx)"].

Definition signature_ids : list (string * Z) := [
  ("OSSL_FUNC_SIGNATURE_NEWCTX", 1);
  ("OSSL_FUNC_SIGNATURE_SIGN_INIT", 2);
  ("OSSL_FUNC_SIGNATURE_SIGN", 3);
  ("OSSL_FUNC_SIGNATURE_VERIFY_INIT", 4);
  ("OSSL_FUNC_SIGNATURE_VERIFY", 5);
  ("OSSL_FUNC_SIGNATURE_VERIFY_RECOVER_INIT", 6);
  ("OSSL_FUNC_SIGNATURE_VERIFY_RECOVER", 7);
  ("OSSL_FUNC_SIGNATURE_DIGEST_SIGN_INIT", 8);
  ("OSSL_FUNC_SIGNATURE_DIGEST_SIGN_UPDATE", 9);
  ("OSSL_FUNC_SIGNATURE_DIGEST_SIGN_FINAL", 10);
  ("OSSL_FUNC_SIGNATURE_DIGEST_SIGN", 11);
  ("OSSL_FUNC_SIGNATURE_DIGEST_VERIFY_INIT", 12);
  ("OSSL_FUNC_SIGNATURE_DIGEST_VERIFY_UPDATE", 13);
  ("OSSL_FUNC_SIGNATURE_DIGEST_VERIFY_FINAL", 14);
  ("OSSL_FUNC_SIGNATURE_DIGEST_VERIFY", 15);
  ("OSSL_FUNC_SIGNATURE_FREECTX", 16);
  ("OSSL_FUNC_SIGNATURE_DUPCTX", 17);
  ("OSSL_FUNC_SIGNATURE_GET_CTX_PARAMS", 18);
  ("OSSL_FUNC_SIGNATURE_GETTABLE_CTX_PARAMS", 19);
  ("OSSL_FUNC_SIGNATURE_SET_CTX_PARAMS", 20);
  ("OSSL_FUNC_SIGNATURE_SETTABLE_CTX_PARAMS", 21);
  ("OSSL_FUNC_SIGNATURE_GET_CTX_MD_PARAMS", 22);
  ("OSSL_FUNC_SIGNATURE_GETTABLE_CTX_MD_PARAMS", 23);
  ("OSSL_FUNC_SIGNATURE_SET_CTX_MD_PARAMS", 24);
  ("OSSL_FUNC_SIGNATURE_SETTABLE_CTX_MD_PARAMS", 25)].

Definition signature_funcs : list core_func := [
  Core_func "signature_newctx" "void *" "(void *provctx, const char *propq)";
  Core_func "signature_sign_init" "int" "(void *ctx, void *provkey, const OSSL_PARAM params[])";
  Core_func "signature_sign" "int"
    "(void *ctx, unsigned char *sig, size_t *siglen, size_t sigsize, const unsigned char *tbs, size_t tbslen)";
  Core_func "signature_verify_init" "int" "(void *ctx, void *provkey, const OSSL_PARAM params[])";
  Core_func "signature_verify" "int"
    "(void *ctx, const unsigned char *sig, size_t siglen, const unsigned char *tbs, size_t tbslen)";
  Core_func "signature_verify_recover_init" "int" "(void *ctx, void *provkey, const OSSL_PARAM params[])";
  Core_func "signature_verify_recover" "int"
    "(void *ctx, unsigned char *rout, size_t *routlen, size_t routsize, const unsigned char *sig, size_t siglen)";
  Core_func "signature_digest_sign_init" "int"
    "(void *ctx, const char *mdname, void *provkey, const OSSL_PARAM params[])";
  Core_func "signature_digest_sign_update" "int" "(void *ctx, const unsigned char *data, size_t datalen)";
  Core_func "signature_digest_sign_final" "int" "(void *ctx, unsigned char *sig, size_t *siglen, size_t sigsize)";
  Core_func "signature_digest_sign" "int"
    "(void *ctx, unsigned char *sigret, size_t *siglen, size_t sigsize, const unsigned char *tbs, size_t tbslen)";
  Core_func "signature_digest_verify_init" "int"
    "(void *ctx, const char *mdname, void *provkey, const OSSL_PARAM params[])";
  Core_func "signature_digest_verify_update" "int" "(void *ctx, const unsigned char *data, size_t datalen)";
  Core_func "signature_digest_verify_final" "int" "(void *ctx, const unsigned char *sig, size_t siglen)";
  Core_func "signature_digest_verify" "int"
    "(void *ctx, const unsigned char *sig, size_t siglen, const unsigned char *tbs, size_t tbslen)";
  Core_func "signature_freectx" "void" "(void *ctx)";
  Core_func "signature_dupctx" "void *" "(void *ctx)";
  Core_func "signature_get_ctx_params" "int" "(void *ctx, OSSL_PARAM params[])";
  Core_func "signature_gettable_ctx_params" "const OSSL_PARAM *" "(void *ctx, void *provctx)";
  Core_func "signature_set_ctx_params" "int" "(void *ctx, const OSSL_PARAM params[])";
  Core_func "signature_settable_ctx_params" "const OSSL_PARAM *" "(void *ctx, void *provctx)";
  Core_func "signature_get_ctx_md_params" "int" "(void *ctx, OSSL_PARAM params[])";
  Core_func "signature_gettable_ctx_md_params" "const OSSL_PARAM *" "(void *ctx)";
  Core_func "signature_set_ctx_md_params" "int" "(void *ctx, const OSSL_PARAM params[])";
  Core_func "signature_settable_ctx_md_params" "const OSSL_PARAM *" "(void *ctx)"].

Definition asym_cipher_ids : list (string * Z) := [
  ("OSSL_FUNC_ASYM_CIPHER_NEWCTX", 1);
  ("OSSL_FUNC_ASYM_CIPHER_ENCRYPT_INIT", 2);
  ("OSSL_FUNC_ASYM_CIPHER_ENCRYPT", 3);
  ("OSSL_FUNC_ASYM_CIPHER_DECRYPT_INIT", 4);
  ("OSSL_FUNC_ASYM_CIPHER_DECRYPT", 5);
  ("OSSL_FUNC_ASYM_CIPHER_FREECTX", 6);
  ("OSSL_FUNC_ASYM_CIPHER_DUPCTX", 7);
  ("OSSL_FUNC_ASYM_CIPHER_GET_CTX_PARAMS", 8);
  ("OSSL_FUNC_ASYM_CIPHER_GETTABLE_CTX_PARAMS", 9);
  ("OSSL_FUNC_ASYM_CIPHER_SET_CTX_PARAMS", 10);
  ("OSSL_FUNC_ASYM_CIPHER_SETTABLE_CTX_PARAMS", 11)].

Definition asym_cipher_funcs : list core_func := [
  Core_func "asym_cipher_newctx" "void *" "(void *provctx)";
  Core_func "asym_cipher_encrypt_init" "int" "(void *ctx, void *provkey, const OSSL_PARAM params[])";
  Core_func "asym_cipher_encrypt" "int"
    "(void *ctx, unsigned char *out, size_t *outlen, size_t outsize, const unsigned char *in, size_t inlen)";
  Core_func "asym_cipher_decrypt_init" "int" "(void *ctx, void *provkey, const OSSL_PARAM params[])";
  Core_func "asym_cipher_decrypt" "int"
    "(void *ctx, unsigned char *out, size_t *outlen, size_t outsize, const unsigned char *in, size_t inlen)";
  Core_func "asym_cipher_freectx" "void" "(void *ctx)";
  Core_func "asym_cipher_dupctx" "void *" "(void *ctx)";
  Core_func "asym_cipher_get_ctx_params" "int" "(void *ctx, OSSL_PARAM params[])";
  Core_func "asym_cipher_gettable_ctx_params" "const OSSL_PARAM *" "(void *ctx, void *provctx)";
  Core_func "asym_cipher_set_ctx_params" "int" "(void *ctx, const OSSL_PARAM params[])";
  Core_func "asym_cipher_settable_ctx_params" "const OSSL_PARAM *" "(void *ctx, void *provctx)"].

Definition kem_ids : list (string * Z) := [
  ("OSSL_FUNC_KEM_NEWCTX", 1);
  ("OSSL_FUNC_KEM_ENCAPSULATE_INIT", 2);
  ("OSSL_FUNC_KEM_ENCAPSULATE", 3);
  ("OSSL_FUNC_KEM_DECAPSULATE_INIT", 4);
  ("OSSL_FUNC_KEM_DECAPSULATE", 5);
  ("OSSL_FUNC_KEM_FREECTX", 6);
  ("OSSL_FUNC_KEM_DUPCTX", 7);
  ("OSSL_FUNC_KEM_GET_CTX_PARAMS", 8);
  ("OSSL_FUNC_KEM_GETTABLE_CTX_PARAMS", 9);
  ("OSSL_FUNC_KEM_SET_CTX_PARAMS", 10);
  ("OSSL_FUNC_KEM_SETTABLE_CTX_PARAMS", 11)].

Definition kem_funcs : list core_func := [
  Core_func "kem_newctx" "void *" "(void *provctx)";
  Core_func "kem_encapsulate_init" "int" "(void *ctx, void *provkey, const OSSL_PARAM params[])";
  Core_func "kem_encapsulate" "int"
    "(void *ctx, unsigned char *out, size_t *outlen, unsigned char *secret, size_t *secretlen)";
  Core_func "kem_decapsulate_init" "int" "(void *ctx, void *provkey, const OSSL_PARAM params[])";
  Core_func "kem_decapsulate" "int"
    "(void *ctx, unsigned char *out, size_t *outlen, const unsigned char *in, size_t inlen)";
  Core_func "kem_freectx" "void" "(void *ctx)";
  Core_func "kem_dupctx" "void *" "(void *ctx)";
  Core_func "kem_get_ctx_params" "int" "(void *ctx, OSSL_PARAM params[])";
  Core_func "kem_gettable_ctx_params" "const OSSL_PARAM *" "(void *ctx, void *provctx)";
  Core_func "kem_set_ctx_params" "int" "(void *ctx, const OSSL_PARAM params[])";
  Core_func "kem_settable_ctx_params" "const OSSL_PARAM *" "(void *ctx, void *provctx)"].

Definition encoder_ids : list (string * Z) := [
  ("OSSL_FUNC_ENCODER_NEWCTX", 1);
  ("OSSL_FUNC_ENCODER_FREECTX", 2);
  ("OSSL_FUNC_ENCODER_GET_PARAMS", 3);
  ("OSSL_FUNC_ENCODER_GETTABLE_PARAMS", 4);
  ("OSSL_FUNC_ENCODER_SET_CTX_PARAMS", 5);
  ("OSSL_FUNC_ENCODER_SETTABLE_CTX_PARAMS", 6);
  ("OSSL_FUNC_ENCODER_DOES_SELECTION", 10);
  ("OSSL_FUNC_ENCODER_ENCODE", 11);
  ("OSSL_FUNC_ENCODER_IMPORT_OBJECT", 20);
  ("OSSL_FUNC_ENCODER_FREE_OBJECT", 21)].

Definition encoder_funcs : list core_func := [
  Core_func "encoder_newctx" "void *" "(void *provctx)";
  Core_func "encoder_freectx" "void" "(void *ctx)";
  Core_func "encoder_get_params" "int" "(OSSL_PARAM params[])";
  Core_func "encoder_gettable_params" "const OSSL_PARAM *" "(void *provctx)";
  Core_func "encoder_set_ctx_params" "int" "(void *ctx, const OSSL_PARAM params[])";
  Core_func "encoder_settable_ctx_params" "const OSSL_PARAM *" "(void *provctx)";
  Core_func "encoder_does_selection" "int" "(void *provctx, int selection)";
  Core_func "encoder_encode" "int"
    "(void *ctx, OSSL_CORE_BIO *out, const void *obj_raw, const OSSL_PARAM obj_abstract[], int selection, OSSL_PASSPHRASE_CALLBACK *cb, void *cbarg)";
  Core_func "encoder_import_object" "void *" "(void *ctx, int selection, const OSSL_PARAM params[])";
  Core_func "encoder_free_object" "void" "(void *obj)"].

Definition decoder_ids : list (string * Z) := [
  ("OSSL_FUNC_DECODER_NEWCTX", 1);
  ("OSSL_FUNC_DECODER_FREECTX", 2);
  ("OSSL_FUNC_DECODER_GET_PARAMS", 3);
  ("OSSL_FUNC_DECODER_GETTABLE_PARAMS", 4);
  ("OSSL_FUNC_DECODER_SET_CTX_PARAMS", 5);
  ("OSSL_FUNC_DECODER_SETTABLE_CTX_PARAMS", 6);
  ("OSSL_FUNC_DECODER_DOES_SELECTION", 10);
  ("OSSL_FUNC_DECODER_DECODE", 11);
  ("OSSL_FUNC_DECODER_EXPORT_OBJECT", 20)].

Definition decoder_funcs : list core_func := [
  Core_func "decoder_newctx" "void *" "(void *provctx)";
  Core_func "decoder_freectx" "void" "(void *ctx)";
  Core_func "decoder_get_params" "int" "(OSSL_PARAM params[])";
  Core_func "decoder_gettable_params" "const OSSL_PARAM *" "(void *provctx)";
  Core_func "decoder_set_ctx_params" "int" "(void *ctx, const OSSL_PARAM params[])";
  Core_func "decoder_settable_ctx_params" "const OSSL_PARAM *" "(void *provctx)";
  Core_func "decoder_does_selection" "int" "(void *provctx, int selection)";
  Core_func "decoder_decode" "int"
    "(void *ctx, OSSL_CORE_BIO *in, int selection, OSSL_CALLBACK *data_cb, void *data_cbarg, OSSL_PASSPHRASE_CALLBACK *pw_cb, void *pw_cbarg)";
  Core_func "decoder_export_object" "int"
    "(void *ctx, const void *objref, size_t objref_sz, OSSL_CALLBACK *export_cb, void *export_cbarg)"].

Definition store_ids : list (string * Z) := [
  ("OSSL_FUNC_STORE_OPEN", 1);
  ("OSSL_FUNC_STORE_ATTACH", 2);
  ("OSSL_FUNC_STORE_SETTABLE_CTX_PARAMS", 3);
  ("OSSL_FUNC_STORE_SET_CTX_PARAMS", 4);
  ("OSSL_FUNC_STORE_LOAD", 5);
  ("OSSL_FUNC_STORE_EOF", 6);
  ("OSSL_FUNC_STORE_CLOSE", 7);
  ("OSSL_FUNC_STORE_EXPORT_OBJECT", 8)].

Definition store_funcs : list core_func := [
  Core_func "store_open" "void *" "(void *provctx, const char *uri)";
  Core_func "store_attach" "void *" "(void *provctx, OSSL_CORE_BIO *in)";
  Core_func "store_settable_ctx_params" "const OSSL_PARAM *" "(void *provctx)";
  Core_func "store_set_ctx_params" "int" "(void *loaderctx, const OSSL_PARAM params[])";
  Core_func "store_load" "int"
    "(void *loaderctx, OSSL_CALLBACK *object_cb, void *object_cbarg, OSSL_PASSPHRASE_CALLBACK *pw_cb, void *pw_cbarg)";
  Core_func "store_eof" "int" "(void *loaderctx)";
  Core_func "store_close" "int" "(void *loaderctx)";
  Core_func "store_export_object" "int"
    "(void *loaderctx, const void *objref, size_t objref_sz, OSSL_CALLBACK *export_cb, void *export_cbarg)"].

Definition operations : list (string * Z) := [
  ("OSSL_OP_DIGEST", 1);
  ("OSSL_OP_CIPHER", 2);
  ("OSSL_OP_MAC", 3);
  ("OSSL_OP_KDF", 4);
  ("OSSL_OP_RAND", 5);
  ("OSSL_OP_KEYMGMT", 10);
  ("OSSL_OP_KEYEXCH", 11);
  ("OSSL_OP_SIGNATURE", 12);
  ("OSSL_OP_ASYM_CIPHER", 13);
  ("OSSL_OP_KEM", 14);
  ("OSSL_OP_ENCODER", 20);
  ("OSSL_OP_DECODER", 21);
  ("OSSL_OP_STORE", 22)].
Definition OSSL_OP__HIGHEST : Z := 22.

(** The functions of libcrypto for providers, those of a provider, and those of
    each operation. *)
Definition core_interface : interface :=
  Interface (core_ids ++ memory_ids ++ bio_ids ++ services_ids ++ children_ids)
    (core_funcs ++ memory_funcs ++ bio_funcs ++ services_funcs ++ children_funcs).
Definition provider_interface : interface := Interface provider_ids provider_funcs.
Definition interfaces : list (string * interface) := [
  ("core", core_interface);
  ("provider", provider_interface);
  ("digest", Interface digest_ids digest_funcs);
  ("cipher", Interface cipher_ids cipher_funcs);
  ("mac", Interface mac_ids mac_funcs);
  ("kdf", Interface kdf_ids kdf_funcs);
  ("rand", Interface rand_ids rand_funcs);
  ("keymgmt", Interface keymgmt_ids keymgmt_funcs);
  ("keyexch", Interface keyexch_ids keyexch_funcs);
  ("signature", Interface signature_ids signature_funcs);
  ("asym_cipher", Interface asym_cipher_ids asym_cipher_funcs);
  ("kem", Interface kem_ids kem_funcs);
  ("encoder", Interface encoder_ids encoder_funcs);
  ("decoder", Interface decoder_ids decoder_funcs);
  ("store", Interface store_ids store_funcs)].
