(* ===== verification/DispatchProperties.v ===== *)
(** * Properties of the dispatch tables *)

From S2P Require Import Prelude CoreDispatch.
From stdpp Require Import strings ssreflect.
Local Open Scope string_scope.
Local Open Scope Z_scope.

(** The macro for the number of the function [foo]: [OSSL_FUNC_FOO]. *)
Definition to_upper (c : Ascii.ascii) : Ascii.ascii :=
  let n := Ascii.N_of_ascii c in
  if (97 <=? n)%N && (n <=? 122)%N then Ascii.ascii_of_N (n - 32) else c.
Fixpoint upper (s : string) : string :=
  match s with EmptyString => EmptyString | String c s => String (to_upper c) (upper s) end.
Definition identity (f : core_func) : string := "OSSL_FUNC_" +:+ upper (func_name f).

(** The entries of a table are pairs of a number and a function of its type. *)
Definition entry_typed (i : interface) (e : OSSL_DISPATCH) : Prop :=
  ∃ f k, f ∈ funcs i ∧ (identity f, k) ∈ ids i ∧ function_id e = k ∧ fn_type (function e) = func_type f.

(** An extractor without a number. *)
Definition numberless : list string := ["rand_set_callbacks"].
(** The numbers reserved for a kind of table. *)
Definition reserved (name : string) : Z * Z := if decide (name = "provider") then (1024, 1535) else (1, 1023).

Definition interface_okb (name : string) (i : interface) : bool :=
  bool_decide (NoDup (ids i).*2) && bool_decide (NoDup (ids i).*1) && bool_decide (NoDup (identity <$> funcs i)) &&
  forallb (λ e, ((reserved name).1 <=? e.2) && (e.2 <=? (reserved name).2) && bool_decide (e.1 ∈ identity <$> funcs i)) (ids i) &&
  forallb (λ f, bool_decide (func_name f ∈ numberless) || bool_decide (identity f ∈ (ids i).*1)) (funcs i).
Lemma interfaces_ok : forallb (λ e, interface_okb e.1 e.2) interfaces = true.
Proof. by vm_compute. Qed.

Lemma operations_ok :
  bool_decide (NoDup operations.*2) && forallb (λ e, (0 <? e.2) && (e.2 <=? OSSL_OP__HIGHEST)) operations &&
  bool_decide (NoDup ((func_name <$> concat ((λ e, funcs e.2) <$> interfaces)) : list string)) = true.
Proof. by vm_compute. Qed.

Section interface.
Context (name : string) (i : interface) (Hin : (name, i) ∈ interfaces).

Lemma interface_ok : interface_okb name i = true.
Proof.
  pose proof interfaces_ok as H. rewrite forallb_forall in H. by apply list_elem_of_In, H in Hin.
Qed.

Lemma interface_facts :
  NoDup (ids i).*2 ∧ NoDup (ids i).*1 ∧ NoDup (identity <$> funcs i) ∧
  (∀ n k, (n, k) ∈ ids i → (reserved name).1 ≤ k ≤ (reserved name).2 ∧ n ∈ identity <$> funcs i) ∧
  (∀ f, f ∈ funcs i → func_name f ∈ numberless ∨ identity f ∈ (ids i).*1).
Proof.
  pose proof interface_ok as H. unfold interface_okb in H.
  apply andb_prop in H as [[[[H2 H1]%andb_prop Hf]%andb_prop Hids]%andb_prop Hfuncs].
  apply bool_decide_eq_true in H2, H1, Hf. rewrite forallb_forall in Hids. rewrite forallb_forall in Hfuncs.
  split_and!; [done..| |].
  - intros n k Hk%list_elem_of_In%Hids. cbn [fst snd] in Hk.
    apply andb_prop in Hk as [Hr Hn%bool_decide_eq_true]. split; [lia|done].
  - intros f Hx%list_elem_of_In%Hfuncs. apply orb_prop in Hx as [?%bool_decide_eq_true|?%bool_decide_eq_true]; auto.
Qed.

(** The number of an entry tells its function. *)
Lemma entry_callable f k e :
  f ∈ funcs i → (identity f, k) ∈ ids i → entry_typed i e → function_id e = k → callable (OSSL_FUNC f e) = true.
Proof.
  intros Hf Hk (f' & k' & Hf' & Hk' & Hid & Htype) He.
  destruct interface_facts as (H2 & _ & Hfuncs & _).
  assert ((identity f, k) = (identity f', k')) as E
    by (apply (NoDup_fmap_inj snd (ids i) _ _ H2 Hk Hk'); cbn; congruence).
  apply (f_equal fst) in E. cbn [fst] in E. apply (NoDup_fmap_inj identity (funcs i) _ _ Hfuncs Hf Hf') in E as ->.
  unfold callable, OSSL_FUNC. cbn. by rewrite Htype String.eqb_refl.
Qed.

(** No entry of a table looks like its end. *)
Lemma entries_complete tab rest address type :
  Forall (entry_typed i) tab → dispatch_entries (tab ++ Dispatch 0 (Function address type) :: rest) = tab.
Proof.
  intros H. induction H as [|e tab (f & k & _ & Hk & Hid & _) _ IH]; [done|]. cbn.
  destruct interface_facts as (_ & _ & _ & Hids & _). apply Hids in Hk as [Hk _].
  rewrite IH. destruct (Z.eqb_spec (function_id e) 0); [|done].
  unfold reserved in Hk. case_decide; cbn in Hk; lia.
Qed.
End interface.

(** C19: dispatch tables are type safe: in each interface (of libcrypto, of a
    provider, and of each operation) the numbers are distinct, lie in the range
    reserved for them and never are the 0 that ends a table; every number has
    one extractor, named after it, and every extractor but one has a number;
    so in a table whose entries pair the numbers with functions of their types,
    the extractor of an entry's number gives a pointer that may be called, and
    the end mark ends the table where it should. The operations have distinct
    numbers up to HIGHEST, and no two extractors of the header have one name. *)
Theorem dispatch_type_safe :
  (∀ name i, (name, i) ∈ interfaces →
     (∀ f k e tab, f ∈ funcs i → (identity f, k) ∈ ids i → Forall (entry_typed i) tab →
        e ∈ tab → function_id e = k → callable (OSSL_FUNC f e) = true) ∧
     (∀ tab rest address type, Forall (entry_typed i) tab →
        dispatch_entries (tab ++ Dispatch 0 (Function address type) :: rest) = tab) ∧
     (∀ n k, (n, k) ∈ ids i → (reserved name).1 ≤ k ≤ (reserved name).2 ∧
        ∃ f, f ∈ funcs i ∧ identity f = n ∧ ∀ f', f' ∈ funcs i → identity f' = n → f' = f) ∧
     (∀ f, f ∈ funcs i → func_name f ∈ numberless ∨ ∃ k, (identity f, k) ∈ ids i)) ∧
  (∀ n m k, (n, k) ∈ operations → (m, k) ∈ operations → n = m ∧ 0 < k ≤ OSSL_OP__HIGHEST) ∧
  NoDup (func_name <$> concat ((λ e, funcs e.2) <$> interfaces)).
Proof.
  pose proof operations_ok as [[Hop Hrange]%andb_prop Hnames%bool_decide_eq_true]%andb_prop.
  apply bool_decide_eq_true in Hop. rewrite forallb_forall in Hrange. split_and!; [| |done].
  - intros name i Hin. destruct (interface_facts name i Hin) as (_ & _ & Hf & Hids & Hfuncs). split_and!.
    + intros f k e tab Hfi Hk Htab He Hid. rewrite Forall_forall in Htab.
      exact (entry_callable name i Hin f k e Hfi Hk (Htab e He) Hid).
    + intros tab rest address type. by eapply entries_complete.
    + intros n k Hk. destruct (Hids n k Hk) as [Hr (f & -> & Hff)%list_elem_of_fmap]. split; [done|].
      exists f. split_and!; [done|done|]. intros f' Hf' E. exact (NoDup_fmap_inj identity (funcs i) f' f Hf Hf' Hff E).
    + intros f [Hn|(e & E & He)%list_elem_of_fmap]%Hfuncs; [by left|]. right. exists e.2. rewrite E. by destruct e.
  - intros n m k Hn Hm. split.
    + pose proof (NoDup_fmap_inj snd operations (n, k) (m, k) Hop Hn Hm eq_refl). congruence.
    + apply list_elem_of_In, Hrange in Hn. cbn [snd] in Hn. lia.
Qed.

(** A provider with one function. *)
Lemma dispatch_type_safe_witness :
  let teardown := Core_func "provider_teardown" "void" "(void *provctx)" in
  let entry := Dispatch 1024 (Function 0x401000 "void(void *provctx)") in
  let table := [entry; Dispatch 0 (Function 0 "NULL")] in
  callable (OSSL_FUNC teardown entry) = true ∧ dispatch_entries table = [entry] ∧
  (∀ m, (m, 13) ∈ operations → "OSSL_OP_ASYM_CIPHER" = m).
Proof.
  intros teardown entry table. destruct dispatch_type_safe as (Hi & Hop & _).
  assert (("provider", provider_interface) ∈ interfaces) as Hin by (unfold interfaces; right; left).
  destruct (Hi _ _ Hin) as (Hcall & Hend & _).
  assert (teardown ∈ funcs provider_interface) as Hf by left.
  assert ((identity teardown, 1024) ∈ ids provider_interface) as Hk by left.
  assert (Forall (entry_typed provider_interface) [entry]) as Htab.
  { apply Forall_cons. split; [|by apply Forall_nil]. by exists teardown, 1024. }
  split_and!.
  - apply (Hcall teardown 1024 entry [entry] Hf Hk Htab); [left|reflexivity].
  - exact (Hend [entry] [] 0 "NULL" Htab).
  - intros m Hm. apply (Hop "OSSL_OP_ASYM_CIPHER" m 13); [unfold operations; do 8 right; left|exact Hm].
Defined.
