(* ===== verification/OpensslSizes.v ===== *)
(** * Sizes: [openssl/evp.h], [openssl/bn.h], [openssl/crypto.h], [openssl/ssl3.h]

    The macros that compute the size of a buffer or a number of rounds. Their
    arguments are C integers; [/] truncates. *)

From S2P Require Import Prelude ByteMemory.
Local Open Scope Z_scope.

(** ** Buffers of base64 *)

Definition EVP_ENCODE_LENGTH (l : Z) : Z := Z.quot (l + 2) 3 * 4 + (Z.quot l 48 + 1) * 2 + 80.
Definition EVP_DECODE_LENGTH (l : Z) : Z := Z.quot (l + 3) 4 * 3 + 80.

(** ** Numbers and arrays *)

(** [BN_num_bits] is a function of the library; its result is the argument. *)
Definition BN_num_bytes (num_bits : Z) : Z := Z.quot (num_bits + 7) 8.

(** [sizeof_int] and [sizeof_type] are in bytes; the literal [1U] is an unsigned
    [int]. *)
Definition OPENSSL_MALLOC_MAX_NELEMS (sizeof_int sizeof_type : Z) : Z :=
  Z.quot (to_unsigned (8 * sizeof_int) (Z.shiftl 1 (sizeof_int * 8 - 1)) - 1) sizeof_type.

(** The rounds of the primality test of Miller and Rabin for a prime of [b] bits. *)
Definition BN_prime_checks_for_size (b : Z) : Z :=
  if 3747 <=? b then 3 else
  if 1345 <=? b then 4 else
  if 476 <=? b then 5 else
  if 400 <=? b then 6 else
  if 347 <=? b then 7 else
  if 308 <=? b then 8 else
  if 55 <=? b then 27 else
  34.

(** ** TLS records *)

Definition SSL3_RT_HEADER_LENGTH : Z := 5.
Definition SSL3_RT_MAX_MD_SIZE : Z := 64.
Definition SSL_RT_MAX_CIPHER_BLOCK_SIZE : Z := 16.
Definition SSL3_RT_MAX_PLAIN_LENGTH : Z := 16384.
Definition SSL3_RT_MAX_COMPRESSED_OVERHEAD : Z := 1024.
Definition SSL3_RT_MAX_ENCRYPTED_OVERHEAD : Z := 256 + SSL3_RT_MAX_MD_SIZE.
Definition SSL3_RT_MAX_TLS13_ENCRYPTED_OVERHEAD : Z := 256.
Definition SSL3_RT_SEND_MAX_ENCRYPTED_OVERHEAD : Z := SSL_RT_MAX_CIPHER_BLOCK_SIZE + SSL3_RT_MAX_MD_SIZE.

Section records.
Context (OPENSSL_NO_COMP : bool).

Definition SSL3_RT_MAX_COMPRESSED_LENGTH : Z :=
  if OPENSSL_NO_COMP then SSL3_RT_MAX_PLAIN_LENGTH
  else SSL3_RT_MAX_PLAIN_LENGTH + SSL3_RT_MAX_COMPRESSED_OVERHEAD.
Definition SSL3_RT_MAX_ENCRYPTED_LENGTH : Z := SSL3_RT_MAX_ENCRYPTED_OVERHEAD + SSL3_RT_MAX_COMPRESSED_LENGTH.
Definition SSL3_RT_MAX_TLS13_ENCRYPTED_LENGTH : Z :=
  SSL3_RT_MAX_PLAIN_LENGTH + SSL3_RT_MAX_TLS13_ENCRYPTED_OVERHEAD.
Definition SSL3_RT_MAX_PACKET_SIZE : Z := SSL3_RT_MAX_ENCRYPTED_LENGTH + SSL3_RT_HEADER_LENGTH.
End records.

(** [SSL3_ALIGN_PAYLOAD], 8 unless the build sets it; the test of the [#error]. *)
Definition SSL3_ALIGN_PAYLOAD_default : Z := 8.
Definition SSL3_ALIGN_PAYLOAD_insane (align : Z) : bool := negb (Z.land align (align - 1) =? 0).
