(* ===== verification/SizeProperties.v ===== *)
(** * Properties of the sizes of OpenSSL *)

From S2P Require Import Prelude ByteMemory OpensslSizes.
From stdpp Require Import ssreflect.
Local Open Scope Z_scope.

#[local] Ltac Zify.zify_post_hook ::= Z.div_mod_to_equations.

(** ** What the buffers have to hold *)

(** Four characters for three bytes, the last group padded. *)
Definition base64_chars (l : Z) : Z := (l + 2) / 3 * 4.
(** [EVP_EncodeUpdate] and [EVP_EncodeFinal] write lines of 64 characters, for 48
    bytes each, and a shorter last one, each with a newline, then a NUL. *)
Definition encoded_length (l : Z) : Z :=
  l / 48 * 65 + (if l mod 48 =? 0 then 0 else base64_chars (l mod 48) + 1) + 1.
(** [EVP_EncodeBlock] writes one line and a NUL; [EVP_DecodeBlock] three bytes for
    four characters. *)
Definition encoded_block_length (l : Z) : Z := base64_chars l + 1.
Definition decoded_length (n : Z) : Z := n / 4 * 3.

(** The greatest input whose [EVP_ENCODE_LENGTH] is an [int] of 32 bits. *)
Definition encode_limit : Z := 1561806228.

(** The table in the comment of [bn.h]: the least size of the row, its number of
    tests, and its security level. *)
Definition prime_table : list (Z * Z * Z) := [
  (6394, 3, 256); (3747, 3, 192); (1345, 4, 128); (1080, 5, 128); (852, 5, 112); (476, 5, 80);
  (400, 6, 80); (347, 7, 80); (308, 8, 80); (55, 27, 64); (6, 34, 64)].
(** The tests of the first row that applies. *)
Fixpoint table_checks (rows : list (Z * Z * Z)) (b : Z) : option Z :=
  match rows with
  | [] => None
  | (size, tests, _) :: rows => if size <=? b then Some tests else table_checks rows b
  end.

(** ** Lemmas *)

Lemma ENCODE_LENGTH_div l : 0 ≤ l → EVP_ENCODE_LENGTH l = (l + 2) / 3 * 4 + (l / 48 + 1) * 2 + 80.
Proof. intros. unfold EVP_ENCODE_LENGTH. rewrite (Z.quot_div_nonneg (l + 2)) ?(Z.quot_div_nonneg l); lia. Qed.
Lemma DECODE_LENGTH_div n : 0 ≤ n → EVP_DECODE_LENGTH n = (n + 3) / 4 * 3 + 80.
Proof. intros. unfold EVP_DECODE_LENGTH. rewrite Z.quot_div_nonneg; lia. Qed.

Lemma num_bytes_spec bits : 0 ≤ bits → bits ≤ 8 * BN_num_bytes bits < bits + 8.
Proof. intros. unfold BN_num_bytes. rewrite Z.quot_div_nonneg; lia. Qed.

(** The bytes of a number: it fits them, and if it is not zero it does not fit
    one less. *)
Lemma num_bytes_value x bits :
  0 ≤ bits → (if x =? 0 then bits = 0 else 2 ^ (bits - 1) ≤ x < 2 ^ bits) → 0 ≤ x →
  x < 256 ^ BN_num_bytes bits ∧ (x = 0 ∨ 256 ^ (BN_num_bytes bits - 1) ≤ x).
Proof.
  intros Hb Hx H0. pose proof (num_bytes_spec bits Hb). set (k := BN_num_bytes bits) in *.
  assert (256 ^ k = 2 ^ (8 * k)) as E by (rewrite Z.pow_mul_r //; lia).
  destruct (Z.eqb_spec x 0) as [->|Hne].
  - split; [|by left]. rewrite E. apply Z.pow_pos_nonneg; lia.
  - assert (1 ≤ bits) as Hb1.
    { destruct (decide (bits = 0)) as [->|]; [|lia]. cbn in Hx. lia. }
    split; [|right].
    + rewrite E. pose proof (Z.pow_le_mono_r 2 bits (8 * k)). lia.
    + assert (256 ^ (k - 1) = 2 ^ (8 * (k - 1))) as -> by (rewrite Z.pow_mul_r //; lia).
      pose proof (Z.pow_le_mono_r 2 (8 * (k - 1)) (bits - 1)). lia.
Qed.

Lemma MALLOC_MAX_spec si st :
  0 < si → OPENSSL_MALLOC_MAX_NELEMS si st = Z.quot (2 ^ (8 * si - 1) - 1) st.
Proof.
  intros H. unfold OPENSSL_MALLOC_MAX_NELEMS. rewrite Z.shiftl_mul_pow2; [|lia].
  rewrite Z.mul_1_l (Z.mul_comm si 8) to_unsigned_id //. unfold in_unsigned.
  pose proof (Z.pow_lt_mono_r 2 (8 * si - 1) (8 * si)). pose proof (Z.pow_pos_nonneg 2 (8 * si - 1)). lia.
Qed.

Lemma land_pred_pow2 a : 0 < a → Z.land a (a - 1) = 0 ↔ ∃ k, 0 ≤ k ∧ a = 2 ^ k.
Proof.
  intros Ha. split.
  - intros H. exists (Z.log2 a). split; [apply Z.log2_nonneg|].
    pose proof (Z.log2_spec a Ha) as [Hlo Hhi]. destruct (decide (a = 2 ^ Z.log2 a)) as [|Hne]; [done|exfalso].
    pose proof (Z.log2_nonneg a) as H0.
    assert (Z.log2 (a - 1) = Z.log2 a) as E by (apply Z.log2_unique; lia).
    apply (f_equal (λ x, Z.testbit x (Z.log2 a))) in H. rewrite Z.land_spec Z.bits_0 Z.bit_log2 // in H.
    rewrite -E Z.bit_log2 in H; [done|]. pose proof (Z.pow_pos_nonneg 2 (Z.log2 a)). lia.
  - intros (k & Hk & ->). rewrite (_ : 2 ^ k - 1 = Z.ones k); [|rewrite Z.ones_equiv; lia].
    rewrite Z.land_ones // Z.mod_same //. lia.
Qed.

Lemma table_checks_spec b : 6 ≤ b → table_checks prime_table b = Some (BN_prime_checks_for_size b).
Proof. intros Hb. cbn. unfold BN_prime_checks_for_size. repeat case_match; first [done|lia]. Qed.

(** C34: the size macros of OpenSSL are large enough. EVP_ENCODE_LENGTH holds the
    lines of base64 that are written for [l] bytes, and their NUL, and does not
    overflow an int up to 1561806228 bytes, but does for the next size;
    EVP_DECODE_LENGTH holds what is decoded, so it holds the input again.
    BN_num_bytes is the number of bytes of a number, from its bits. An array of
    OPENSSL_MALLOC_MAX_NELEMS elements has a size that is an int, and one of
    more has not. A TLS record with the greatest overheads fits the 16 bits of
    its length, within what the standards allow. The payload alignments that
    pass the test are the powers of two. BN_prime_checks_for_size is the table
    of its comment. *)
Theorem sizes_sufficient :
  (∀ l, 0 ≤ l → encoded_length l ≤ EVP_ENCODE_LENGTH l ∧ encoded_block_length l ≤ EVP_ENCODE_LENGTH l) ∧
  (∀ l, 0 ≤ l → in_signed 32 (l + 2) → in_signed 32 (EVP_ENCODE_LENGTH l) ↔ l ≤ encode_limit) ∧
  (∀ n, 0 ≤ n → decoded_length n ≤ EVP_DECODE_LENGTH n ∧ (in_signed 32 (n + 3) → in_signed 32 (EVP_DECODE_LENGTH n))) ∧
  (∀ l, 0 ≤ l → l ≤ EVP_DECODE_LENGTH (base64_chars l)) ∧
  (∀ x bits, 0 ≤ x → 0 ≤ bits → (if x =? 0 then bits = 0 else 2 ^ (bits - 1) ≤ x < 2 ^ bits) →
     x < 256 ^ BN_num_bytes bits ∧ (x = 0 ∨ 256 ^ (BN_num_bytes bits - 1) ≤ x)) ∧
  (∀ si st n, 0 < si → 0 < st → 0 ≤ n → n ≤ OPENSSL_MALLOC_MAX_NELEMS si st ↔ in_signed (8 * si) (n * st)) ∧
  (∀ no_comp, SSL3_RT_MAX_PACKET_SIZE no_comp - SSL3_RT_HEADER_LENGTH < 2 ^ 16 ∧
     SSL3_RT_MAX_ENCRYPTED_LENGTH no_comp ≤ 2 ^ 14 + 2048 ∧ SSL3_RT_MAX_TLS13_ENCRYPTED_LENGTH = 2 ^ 14 + 256 ∧
     SSL3_RT_SEND_MAX_ENCRYPTED_OVERHEAD ≤ SSL3_RT_MAX_ENCRYPTED_OVERHEAD) ∧
  (∀ a, 0 < a → SSL3_ALIGN_PAYLOAD_insane a = false ↔ ∃ k, 0 ≤ k ∧ a = 2 ^ k) ∧
  (∀ b, 6 ≤ b → table_checks prime_table b = Some (BN_prime_checks_for_size b)).
Proof.
  split_and!.
  - intros l Hl. unfold encoded_length, encoded_block_length, base64_chars. rewrite ENCODE_LENGTH_div //.
    case_match; lia.
  - intros l Hl Hr. rewrite ENCODE_LENGTH_div //. unfold in_signed, encode_limit in *. lia.
  - intros n Hn. unfold decoded_length, in_signed. rewrite DECODE_LENGTH_div //. lia.
  - intros l Hl. unfold base64_chars. rewrite DECODE_LENGTH_div; lia.
  - intros x bits Hx Hb H. by apply num_bytes_value.
  - intros si st n Hsi Hst Hn. rewrite MALLOC_MAX_spec // Z.quot_div_nonneg //; [|lia]. unfold in_signed.
    pose proof (Z.pow_pos_nonneg 2 (8 * si - 1)). nia.
  - intros []; by vm_compute.
  - intros a Ha. unfold SSL3_ALIGN_PAYLOAD_insane. rewrite negb_false_iff Z.eqb_eq. by apply land_pred_pow2.
  - apply table_checks_spec.
Qed.

Lemma sizes_sufficient_witness :
  encoded_length 1000 = 1358 ∧ 1358 ≤ EVP_ENCODE_LENGTH 1000 ∧ EVP_ENCODE_LENGTH 1000 = 1458 ∧
  1000 < 256 ^ BN_num_bytes 10 ∧ in_signed 32 (536870911 * 4) ∧
  table_checks prime_table 1024 = Some (BN_prime_checks_for_size 1024).
Proof.
  destruct sizes_sufficient as (Henc & _ & _ & _ & Hbn & Hmalloc & _ & _ & Hprime). split_and!.
  - reflexivity.
  - exact (proj1 (Henc 1000 ltac:(lia))).
  - reflexivity.
  - apply (Hbn 1000 10); [lia|lia|]. vm_compute. split; [discriminate|reflexivity].
  - apply (proj1 (Hmalloc 4 4 536870911 ltac:(lia) ltac:(lia) ltac:(lia))). vm_compute. discriminate.
  - apply Hprime. lia.
Defined.
