(* ===== verification/CtrlCommands.v ===== *)
(** * Control commands: [SSL_ctrl], [BIO_ctrl] and their kind

    The library has one function per kind of object that takes a command number
    and two arguments of no particular type; the headers define a macro for
    every command. The tables have the commands of each kind, and the macros of
    [openssl/ssl.h], [openssl/tls1.h], [openssl/bio.h] and [openssl/evp.h] that
    send one, without the casts of their arguments and results. Those that
    depend on a build option are there, too. *)

From S2P Require Import Prelude.
From stdpp Require Import strings.
Local Open Scope string_scope.
Local Open Scope Z_scope.

(** ** Macros *)

(** The body of a command's macro: a number, or another macro. *)
Inductive command : Type := Number (n : Z) | Same (name : string).

(** The arguments of a call: numbers ([NULL] is 0), string literals, parameters
    of the macro, [c ? a : b], and the arguments that the macro was called with. *)
Inductive expr : Type :=
| Num (z : Z)
| Text (s : string)
| Param (x : string)
| Cond (c a b : expr)
| Arg (i : nat).
Abbreviation NULL := (Num 0).

(** The object is the first parameter, and the first argument of the call. *)
Inductive body : Type :=
| Call (fn : string) (cmd : string) (args : list expr)
| Expand (name : string) (args : list expr)
| Rename (name : string).

(** [macro_test] is for the macros that end in [> 0]. *)
Record macro : Type := Macro {
  macro_name : string;
  macro_params : list string;
  macro_body : body;
  macro_test : bool;
}.

Definition BIO_NOCLOSE : Z := 0x00.
Definition BIO_CLOSE : Z := 0x01.
Definition BIO_FP_READ : Z := 0x02.
Definition BIO_FP_WRITE : Z := 0x04.
Definition BIO_FP_APPEND : Z := 0x08.
Definition TLSEXT_NAMETYPE_host_name : Z := 0.
Definition EVP_PKEY_ALG_CTRL : Z := 0x1000.

(** ** The tables *)

Definition SSL_commands_1 : list (string * command) := [
  ("SSL_CTRL_SET_TMP_DH", Number 3);
  ("SSL_CTRL_SET_TMP_ECDH", Number 4);
  ("SSL_CTRL_SET_TMP_DH_CB", Number 6);
  ("SSL_CTRL_GET_CLIENT_CERT_REQUEST", Number 9);
  ("SSL_CTRL_GET_NUM_RENEGOTIATIONS", Number 10);
  ("SSL_CTRL_CLEAR_NUM_RENEGOTIATIONS", Number 11);
  ("SSL_CTRL_GET_TOTAL_RENEGOTIATIONS", Number 12);
  ("SSL_CTRL_GET_FLAGS", Number 13);
  ("SSL_CTRL_EXTRA_CHAIN_CERT", Number 14);
  ("SSL_CTRL_SET_MSG_CALLBACK", Number 15);
  ("SSL_CTRL_SET_MSG_CALLBACK_ARG", Number 16);
  ("SSL_CTRL_SET_MTU", Number 17);
  ("SSL_CTRL_SESS_NUMBER", Number 20);
  ("SSL_CTRL_SESS_CONNECT", Number 21);
  ("SSL_CTRL_SESS_CONNECT_GOOD", Number 22);
  ("SSL_CTRL_SESS_CONNECT_RENEGOTIATE", Number 23);
  ("SSL_CTRL_SESS_ACCEPT", Number 24);
  ("SSL_CTRL_SESS_ACCEPT_GOOD", Number 25);
  ("SSL_CTRL_SESS_ACCEPT_RENEGOTIATE", Number 26);
  ("SSL_CTRL_SESS_HIT", Number 27);
  ("SSL_CTRL_SESS_CB_HIT", Number 28);
  ("SSL_CTRL_SESS_MISSES", Number 29);
  ("SSL_CTRL_SESS_TIMEOUTS", Number 30);
  ("SSL_CTRL_SESS_CACHE_FULL", Number 31);
  ("SSL_CTRL_MODE", Number 33);
  ("SSL_CTRL_GET_READ_AHEAD", Number 40);
  ("SSL_CTRL_SET_READ_AHEAD", Number 41);
  ("SSL_CTRL_SET_SESS_CACHE_SIZE", Number 42);
  ("SSL_CTRL_GET_SESS_CACHE_SIZE", Number 43);
  ("SSL_CTRL_SET_SESS_CACHE_MODE", Number 44);
  ("SSL_CTRL_GET_SESS_CACHE_MODE", Number 45);
  ("SSL_CTRL_GET_MAX_CERT_LIST", Number 50);
  ("SSL_CTRL_SET_MAX_CERT_LIST", Number 51);
  ("SSL_CTRL_SET_MAX_SEND_FRAGMENT", Number 52);
  ("SSL_CTRL_SET_TLSEXT_SERVERNAME_CB", Number 53);
  ("SSL_CTRL_SET_TLSEXT_SERVERNAME_ARG", Number 54);
  ("SSL_CTRL_SET_TLSEXT_HOSTNAME", Number 55);
  ("SSL_CTRL_SET_TLSEXT_DEBUG_CB", Number 56);
  ("SSL_CTRL_SET_TLSEXT_DEBUG_ARG", Number 57);
  ("SSL_CTRL_GET_TLSEXT_TICKET_KEYS", Number 58);
  ("SSL_CTRL_SET_TLSEXT_TICKET_KEYS", Number 59);
  ("SSL_CTRL_SET_TLSEXT_STATUS_REQ_CB", Number 63);
  ("SSL_CTRL_SET_TLSEXT_STATUS_REQ_CB_ARG", Number 64);
  ("SSL_CTRL_SET_TLSEXT_STATUS_REQ_TYPE", Number 65);
  ("SSL_CTRL_GET_TLSEXT_STATUS_REQ_EXTS", Number 66);
  ("SSL_CTRL_SET_TLSEXT_STATUS_REQ_EXTS", Number 67);
  ("SSL_CTRL_GET_TLSEXT_STATUS_REQ_IDS", Number 68);
  ("SSL_CTRL_SET_TLSEXT_STATUS_REQ_IDS", Number 69);
  ("SSL_CTRL_GET_TLSEXT_STATUS_REQ_OCSP_RESP", Number 70);
  ("SSL_CTRL_SET_TLSEXT_STATUS_REQ_OCSP_RESP", Number 71);
  ("SSL_CTRL_SET_TLSEXT_TICKET_KEY_CB", Number 72);
  ("SSL_CTRL_SET_TLS_EXT_SRP_USERNAME_CB", Number 75);
  ("SSL_CTRL_SET_SRP_VERIFY_PARAM_CB", Number 76);
  ("SSL_CTRL_SET_SRP_GIVE_CLIENT_PWD_CB", Number 77);
  ("SSL_CTRL_SET_SRP_ARG", Number 78);
  ("SSL_CTRL_SET_TLS_EXT_SRP_USERNAME", Number 79);
  ("SSL_CTRL_SET_TLS_EXT_SRP_STRENGTH", Number 80);
  ("SSL_CTRL_SET_TLS_EXT_SRP_PASSWORD", Number 81);
  ("DTLS_CTRL_GET_TIMEOUT", Number 73);
  ("DTLS_CTRL_HANDLE_TIMEOUT", Number 74);
  ("SSL_CTRL_GET_RI_SUPPORT", Number 76);
  ("SSL_CTRL_CLEAR_MODE", Number 78);
  ("SSL_CTRL_SET_NOT_RESUMABLE_SESS_CB", Number 79);
  ("SSL_CTRL_GET_EXTRA_CHAIN_CERTS", Number 82);
  ("SSL_CTRL_CLEAR_EXTRA_CHAIN_CERTS", Number 83);
  ("SSL_CTRL_CHAIN", Number 88);
  ("SSL_CTRL_CHAIN_CERT", Number 89);
  ("SSL_CTRL_GET_GROUPS", Number 90);
  ("SSL_CTRL_SET_GROUPS", Number 91);
  ("SSL_CTRL_SET_GROUPS_LIST", Number 92);
  ("SSL_CTRL_GET_SHARED_GROUP", Number 93);
  ("SSL_CTRL_SET_SIGALGS", Number 97);
  ("SSL_CTRL_SET_SIGALGS_LIST", Number 98);
  ("SSL_CTRL_CERT_FLAGS", Number 99);
  ("SSL_CTRL_CLEAR_CERT_FLAGS", Number 100);
  ("SSL_CTRL_SET_CLIENT_SIGALGS", Number 101);
  ("SSL_CTRL_SET_CLIENT_SIGALGS_LIST", Number 102);
  ("SSL_CTRL_GET_CLIENT_CERT_TYPES", Number 103);
  ("SSL_CTRL_SET_CLIENT_CERT_TYPES", Number 104);
  ("SSL_CTRL_BUILD_CERT_CHAIN", Number 105);
  ("SSL_CTRL_SET_VERIFY_CERT_STORE", Number 106);
  ("SSL_CTRL_SET_CHAIN_CERT_STORE", Number 107);
  ("SSL_CTRL_GET_PEER_SIGNATURE_NID", Number 108);
  ("SSL_CTRL_GET_PEER_TMP_KEY", Number 109);
  ("SSL_CTRL_GET_RAW_CIPHERLIST", Number 110);
  ("SSL_CTRL_GET_EC_POINT_FORMATS", Number 111);
  ("SSL_CTRL_GET_CHAIN_CERTS", Number 115);
  ("SSL_CTRL_SELECT_CURRENT_CERT", Number 116);
  ("SSL_CTRL_SET_CURRENT_CERT", Number 117);
  ("SSL_CTRL_SET_DH_AUTO", Number 118);
  ("DTLS_CTRL_SET_LINK_MTU", Number 120);
  ("DTLS_CTRL_GET_LINK_MIN_MTU", Number 121);
  ("SSL_CTRL_GET_EXTMS_SUPPORT", Number 122);
  ("SSL_CTRL_SET_MIN_PROTO_VERSION", Number 123);
  ("SSL_CTRL_SET_MAX_PROTO_VERSION", Number 124);
  ("SSL_CTRL_SET_SPLIT_SEND_FRAGMENT", Number 125);
  ("SSL_CTRL_SET_MAX_PIPELINES", Number 126);
  ("SSL_CTRL_GET_TLSEXT_STATUS_REQ_TYPE", Number 127);
  ("SSL_CTRL_GET_TLSEXT_STATUS_REQ_CB", Number 128);
  ("SSL_CTRL_GET_TLSEXT_STATUS_REQ_CB_ARG", Number 129);
  ("SSL_CTRL_GET_MIN_PROTO_VERSION", Number 130);
  ("SSL_CTRL_GET_MAX_PROTO_VERSION", Number 131);
  ("SSL_CTRL_GET_SIGNATURE_NID", Number 132);
  ("SSL_CTRL_GET_TMP_KEY", Number 133);
  ("SSL_CTRL_GET_NEGOTIATED_GROUP", Number 134);
  ("SSL_CTRL_SET_RETRY_VERIFY", Number 136);
  ("SSL_CTRL_GET_VERIFY_CERT_STORE", Number 137);
  ("SSL_CTRL_GET_CHAIN_CERT_STORE", Number 138)].

Definition SSL_commands_2 : list (string * command) := [
  ("SSL_CTRL_GET_SERVER_TMP_KEY", Same "SSL_CTRL_GET_PEER_TMP_KEY");
  ("SSL_CTRL_GET_CURVES", Same "SSL_CTRL_GET_GROUPS");
  ("SSL_CTRL_SET_CURVES", Same "SSL_CTRL_SET_GROUPS");
  ("SSL_CTRL_SET_CURVES_LIST", Same "SSL_CTRL_SET_GROUPS_LIST");
  ("SSL_CTRL_GET_SHARED_CURVE", Same "SSL_CTRL_GET_SHARED_GROUP")].

Definition SSL_commands : list (string * command) := (SSL_commands_1 ++ SSL_commands_2)%list.

Definition BIO_commands_1 : list (string * command) := [
  ("BIO_CTRL_RESET", Number 1);
  ("BIO_CTRL_EOF", Number 2);
  ("BIO_CTRL_INFO", Number 3);
  ("BIO_CTRL_SET", Number 4);
  ("BIO_CTRL_GET", Number 5);
  ("BIO_CTRL_PUSH", Number 6);
  ("BIO_CTRL_POP", Number 7);
  ("BIO_CTRL_GET_CLOSE", Number 8);
  ("BIO_CTRL_SET_CLOSE", Number 9);
  ("BIO_CTRL_PENDING", Number 10);
  ("BIO_CTRL_FLUSH", Number 11);
  ("BIO_CTRL_DUP", Number 12);
  ("BIO_CTRL_WPENDING", Number 13);
  ("BIO_CTRL_SET_CALLBACK", Number 14);
  ("BIO_CTRL_GET_CALLBACK", Number 15);
  ("BIO_CTRL_PEEK", Number 29);
  ("BIO_CTRL_SET_FILENAME", Number 30);
  ("BIO_CTRL_DGRAM_CONNECT", Number 31);
  ("BIO_CTRL_DGRAM_SET_CONNECTED", Number 32);
  ("BIO_CTRL_DGRAM_SET_RECV_TIMEOUT", Number 33);
  ("BIO_CTRL_DGRAM_GET_RECV_TIMEOUT", Number 34);
  ("BIO_CTRL_DGRAM_SET_SEND_TIMEOUT", Number 35);
  ("BIO_CTRL_DGRAM_GET_SEND_TIMEOUT", Number 36);
  ("BIO_CTRL_DGRAM_GET_RECV_TIMER_EXP", Number 37);
  ("BIO_CTRL_DGRAM_GET_SEND_TIMER_EXP", Number 38);
  ("BIO_CTRL_DGRAM_MTU_DISCOVER", Number 39);
  ("BIO_CTRL_DGRAM_QUERY_MTU", Number 40);
  ("BIO_CTRL_DGRAM_GET_FALLBACK_MTU", Number 47);
  ("BIO_CTRL_DGRAM_GET_MTU", Number 41);
  ("BIO_CTRL_DGRAM_SET_MTU", Number 42);
  ("BIO_CTRL_DGRAM_MTU_EXCEEDED", Number 43);
  ("BIO_CTRL_DGRAM_GET_PEER", Number 46);
  ("BIO_CTRL_DGRAM_SET_PEER", Number 44);
  ("BIO_CTRL_DGRAM_SET_NEXT_TIMEOUT", Number 45);
  ("BIO_CTRL_DGRAM_SET_DONT_FRAG", Number 48);
  ("BIO_CTRL_DGRAM_GET_MTU_OVERHEAD", Number 49);
  ("BIO_CTRL_DGRAM_SCTP_SET_IN_HANDSHAKE", Number 50);
  ("BIO_CTRL_DGRAM_SCTP_ADD_AUTH_KEY", Number 51);
  ("BIO_CTRL_DGRAM_SCTP_NEXT_AUTH_KEY", Number 52);
  ("BIO_CTRL_DGRAM_SCTP_AUTH_CCS_RCVD", Number 53);
  ("BIO_CTRL_DGRAM_SCTP_GET_SNDINFO", Number 60);
  ("BIO_CTRL_DGRAM_SCTP_SET_SNDINFO", Number 61);
  ("BIO_CTRL_DGRAM_SCTP_GET_RCVINFO", Number 62);
  ("BIO_CTRL_DGRAM_SCTP_SET_RCVINFO", Number 63);
  ("BIO_CTRL_DGRAM_SCTP_GET_PRINFO", Number 64);
  ("BIO_CTRL_DGRAM_SCTP_SET_PRINFO", Number 65);
  ("BIO_CTRL_DGRAM_SCTP_SAVE_SHUTDOWN", Number 70);
  ("BIO_CTRL_DGRAM_SET_PEEK_MODE", Number 71);
  ("BIO_CTRL_GET_KTLS_SEND", Number 73);
  ("BIO_CTRL_GET_KTLS_RECV", Number 76);
  ("BIO_CTRL_DGRAM_SCTP_WAIT_FOR_DRY", Number 77);
  ("BIO_CTRL_DGRAM_SCTP_MSG_WAITING", Number 78);
  ("BIO_CTRL_SET_PREFIX", Number 79);
  ("BIO_CTRL_SET_INDENT", Number 80);
  ("BIO_CTRL_GET_INDENT", Number 81)].

Definition BIO_commands_2 : list (string * command) := [
  ("BIO_C_SET_CONNECT", Number 100);
  ("BIO_C_DO_STATE_MACHINE", Number 101);
  ("BIO_C_SET_NBIO", Number 102);
  ("BIO_C_SET_FD", Number 104);
  ("BIO_C_GET_FD", Number 105);
  ("BIO_C_SET_FILE_PTR", Number 106);
  ("BIO_C_GET_FILE_PTR", Number 107);
  ("BIO_C_SET_FILENAME", Number 108);
  ("BIO_C_SET_SSL", Number 109);
  ("BIO_C_GET_SSL", Number 110);
  ("BIO_C_SET_MD", Number 111);
  ("BIO_C_GET_MD", Number 112);
  ("BIO_C_GET_CIPHER_STATUS", Number 113);
  ("BIO_C_SET_BUF_MEM", Number 114);
  ("BIO_C_GET_BUF_MEM_PTR", Number 115);
  ("BIO_C_GET_BUFF_NUM_LINES", Number 116);
  ("BIO_C_SET_BUFF_SIZE", Number 117);
  ("BIO_C_SET_ACCEPT", Number 118);
  ("BIO_C_SSL_MODE", Number 119);
  ("BIO_C_GET_MD_CTX", Number 120);
  ("BIO_C_SET_BUFF_READ_DATA", Number 122);
  ("BIO_C_GET_CONNECT", Number 123);
  ("BIO_C_GET_ACCEPT", Number 124);
  ("BIO_C_SET_SSL_RENEGOTIATE_BYTES", Number 125);
  ("BIO_C_GET_SSL_NUM_RENEGOTIATES", Number 126);
  ("BIO_C_SET_SSL_RENEGOTIATE_TIMEOUT", Number 127);
  ("BIO_C_FILE_SEEK", Number 128);
  ("BIO_C_GET_CIPHER_CTX", Number 129);
  ("BIO_C_SET_BUF_MEM_EOF_RETURN", Number 130);
  ("BIO_C_SET_BIND_MODE", Number 131);
  ("BIO_C_GET_BIND_MODE", Number 132);
  ("BIO_C_FILE_TELL", Number 133);
  ("BIO_C_GET_SOCKS", Number 134);
  ("BIO_C_SET_SOCKS", Number 135);
  ("BIO_C_SET_WRITE_BUF_SIZE", Number 136);
  ("BIO_C_GET_WRITE_BUF_SIZE", Number 137);
  ("BIO_C_MAKE_BIO_PAIR", Number 138);
  ("BIO_C_DESTROY_BIO_PAIR", Number 139);
  ("BIO_C_GET_WRITE_GUARANTEE", Number 140);
  ("BIO_C_GET_READ_REQUEST", Number 141);
  ("BIO_C_SHUTDOWN_WR", Number 142);
  ("BIO_C_NREAD0", Number 143);
  ("BIO_C_NREAD", Number 144);
  ("BIO_C_NWRITE0", Number 145);
  ("BIO_C_NWRITE", Number 146);
  ("BIO_C_RESET_READ_REQUEST", Number 147);
  ("BIO_C_SET_MD_CTX", Number 148);
  ("BIO_C_SET_PREFIX", Number 149);
  ("BIO_C_GET_PREFIX", Number 150);
  ("BIO_C_SET_SUFFIX", Number 151);
  ("BIO_C_GET_SUFFIX", Number 152);
  ("BIO_C_SET_EX_ARG", Number 153);
  ("BIO_C_GET_EX_ARG", Number 154);
  ("BIO_C_SET_CONNECT_MODE", Number 155)].

Definition BIO_commands : list (string * command) := (BIO_commands_1 ++ BIO_commands_2)%list.

Definition EVP_MD_commands : list (string * command) := [
  ("EVP_MD_CTRL_DIGALGID", Number 0x1);
  ("EVP_MD_CTRL_MICALG", Number 0x2);
  ("EVP_MD_CTRL_XOF_LEN", Number 0x3);
  ("EVP_MD_CTRL_TLSTREE", Number 0x4);
  ("EVP_MD_CTRL_ALG_CTRL", Number 0x1000)].

Definition EVP_CIPHER_commands : list (string * command) := [
  ("EVP_CTRL_INIT", Number 0x0);
  ("EVP_CTRL_SET_KEY_LENGTH", Number 0x1);
  ("EVP_CTRL_GET_RC2_KEY_BITS", Number 0x2);
  ("EVP_CTRL_SET_RC2_KEY_BITS", Number 0x3);
  ("EVP_CTRL_GET_RC5_ROUNDS", Number 0x4);
  ("EVP_CTRL_SET_RC5_ROUNDS", Number 0x5);
  ("EVP_CTRL_RAND_KEY", Number 0x6);
  ("EVP_CTRL_PBE_PRF_NID", Number 0x7);
  ("EVP_CTRL_COPY", Number 0x8);
  ("EVP_CTRL_AEAD_SET_IVLEN", Number 0x9);
  ("EVP_CTRL_AEAD_GET_TAG", Number 0x10);
  ("EVP_CTRL_AEAD_SET_TAG", Number 0x11);
  ("EVP_CTRL_AEAD_SET_IV_FIXED", Number 0x12);
  ("EVP_CTRL_GCM_SET_IVLEN", Same "EVP_CTRL_AEAD_SET_IVLEN");
  ("EVP_CTRL_GCM_GET_TAG", Same "EVP_CTRL_AEAD_GET_TAG");
  ("EVP_CTRL_GCM_SET_TAG", Same "EVP_CTRL_AEAD_SET_TAG");
  ("EVP_CTRL_GCM_SET_IV_FIXED", Same "EVP_CTRL_AEAD_SET_IV_FIXED");
  ("EVP_CTRL_GCM_IV_GEN", Number 0x13);
  ("EVP_CTRL_CCM_SET_IVLEN", Same "EVP_CTRL_AEAD_SET_IVLEN");
  ("EVP_CTRL_CCM_GET_TAG", Same "EVP_CTRL_AEAD_GET_TAG");
  ("EVP_CTRL_CCM_SET_TAG", Same "EVP_CTRL_AEAD_SET_TAG");
  ("EVP_CTRL_CCM_SET_IV_FIXED", Same "EVP_CTRL_AEAD_SET_IV_FIXED");
  ("EVP_CTRL_CCM_SET_L", Number 0x14);
  ("EVP_CTRL_CCM_SET_MSGLEN", Number 0x15);
  ("EVP_CTRL_AEAD_TLS1_AAD", Number 0x16);
  ("EVP_CTRL_AEAD_SET_MAC_KEY", Number 0x17);
  ("EVP_CTRL_GCM_SET_IV_INV", Number 0x18);
  ("EVP_CTRL_TLS1_1_MULTIBLOCK_AAD", Number 0x19);
  ("EVP_CTRL_TLS1_1_MULTIBLOCK_ENCRYPT", Number 0x1a);
  ("EVP_CTRL_TLS1_1_MULTIBLOCK_DECRYPT", Number 0x1b);
  ("EVP_CTRL_TLS1_1_MULTIBLOCK_MAX_BUFSIZE", Number 0x1c);
  ("EVP_CTRL_SSL3_MASTER_SECRET", Number 0x1d);
  ("EVP_CTRL_SET_SBOX", Number 0x1e);
  ("EVP_CTRL_SBOX_USED", Number 0x1f);
  ("EVP_CTRL_KEY_MESH", Number 0x20);
  ("EVP_CTRL_BLOCK_PADDING_MODE", Number 0x21);
  ("EVP_CTRL_SET_PIPELINE_OUTPUT_BUFS", Number 0x22);
  ("EVP_CTRL_SET_PIPELINE_INPUT_BUFS", Number 0x23);
  ("EVP_CTRL_SET_PIPELINE_INPUT_LENS", Number 0x24);
  ("EVP_CTRL_GET_IVLEN", Number 0x25);
  ("EVP_CTRL_SET_SPEED", Number 0x27);
  ("EVP_CTRL_PROCESS_UNPROTECTED", Number 0x28);
  ("EVP_CTRL_GET_WRAP_CIPHER", Number 0x29);
  ("EVP_CTRL_TLSTREE", Number 0x2A)].

Definition ASN1_PKEY_commands : list (string * command) := [
  ("ASN1_PKEY_CTRL_PKCS7_SIGN", Number 0x1);
  ("ASN1_PKEY_CTRL_PKCS7_ENCRYPT", Number 0x2);
  ("ASN1_PKEY_CTRL_DEFAULT_MD_NID", Number 0x3);
  ("ASN1_PKEY_CTRL_CMS_SIGN", Number 0x5);
  ("ASN1_PKEY_CTRL_CMS_ENVELOPE", Number 0x7);
  ("ASN1_PKEY_CTRL_CMS_RI_TYPE", Number 0x8);
  ("ASN1_PKEY_CTRL_SET1_TLS_ENCPT", Number 0x9);
  ("ASN1_PKEY_CTRL_GET1_TLS_ENCPT", Number 0xa);
  ("ASN1_PKEY_CTRL_CMS_IS_RI_TYPE_SUPPORTED", Number 0xb)].

Definition EVP_PKEY_commands : list (string * command) := [
  ("EVP_PKEY_CTRL_MD", Number 1);
  ("EVP_PKEY_CTRL_PEER_KEY", Number 2);
  ("EVP_PKEY_CTRL_SET_MAC_KEY", Number 6);
  ("EVP_PKEY_CTRL_DIGESTINIT", Number 7);
  ("EVP_PKEY_CTRL_SET_IV", Number 8);
  ("EVP_PKEY_CTRL_PKCS7_ENCRYPT", Number 3);
  ("EVP_PKEY_CTRL_PKCS7_DECRYPT", Number 4);
  ("EVP_PKEY_CTRL_PKCS7_SIGN", Number 5);
  ("EVP_PKEY_CTRL_CMS_ENCRYPT", Number 9);
  ("EVP_PKEY_CTRL_CMS_DECRYPT", Number 10);
  ("EVP_PKEY_CTRL_CMS_SIGN", Number 11);
  ("EVP_PKEY_CTRL_CIPHER", Number 12);
  ("EVP_PKEY_CTRL_GET_MD", Number 13);
  ("EVP_PKEY_CTRL_SET_DIGEST_SIZE", Number 14);
  ("EVP_PKEY_CTRL_SET1_ID", Number 15);
  ("EVP_PKEY_CTRL_GET1_ID", Number 16);
  ("EVP_PKEY_CTRL_GET1_ID_LEN", Number 17)].

Definition RSA_commands : list (string * command) := [
  ("EVP_PKEY_CTRL_RSA_PADDING", Number (EVP_PKEY_ALG_CTRL + 1));
  ("EVP_PKEY_CTRL_RSA_PSS_SALTLEN", Number (EVP_PKEY_ALG_CTRL + 2));
  ("EVP_PKEY_CTRL_RSA_KEYGEN_BITS", Number (EVP_PKEY_ALG_CTRL + 3));
  ("EVP_PKEY_CTRL_RSA_KEYGEN_PUBEXP", Number (EVP_PKEY_ALG_CTRL + 4));
  ("EVP_PKEY_CTRL_RSA_MGF1_MD", Number (EVP_PKEY_ALG_CTRL + 5));
  ("EVP_PKEY_CTRL_GET_RSA_PADDING", Number (EVP_PKEY_ALG_CTRL + 6));
  ("EVP_PKEY_CTRL_GET_RSA_PSS_SALTLEN", Number (EVP_PKEY_ALG_CTRL + 7));
  ("EVP_PKEY_CTRL_GET_RSA_MGF1_MD", Number (EVP_PKEY_ALG_CTRL + 8));
  ("EVP_PKEY_CTRL_RSA_OAEP_MD", Number (EVP_PKEY_ALG_CTRL + 9));
  ("EVP_PKEY_CTRL_RSA_OAEP_LABEL", Number (EVP_PKEY_ALG_CTRL + 10));
  ("EVP_PKEY_CTRL_GET_RSA_OAEP_MD", Number (EVP_PKEY_ALG_CTRL + 11));
  ("EVP_PKEY_CTRL_GET_RSA_OAEP_LABEL", Number (EVP_PKEY_ALG_CTRL + 12));
  ("EVP_PKEY_CTRL_RSA_KEYGEN_PRIMES", Number (EVP_PKEY_ALG_CTRL + 13))].

Definition DH_commands : list (string * command) := [
  ("EVP_PKEY_CTRL_DH_PARAMGEN_PRIME_LEN", Number (EVP_PKEY_ALG_CTRL + 1));
  ("EVP_PKEY_CTRL_DH_PARAMGEN_GENERATOR", Number (EVP_PKEY_ALG_CTRL + 2));
  ("EVP_PKEY_CTRL_DH_RFC5114", Number (EVP_PKEY_ALG_CTRL + 3));
  ("EVP_PKEY_CTRL_DH_PARAMGEN_SUBPRIME_LEN", Number (EVP_PKEY_ALG_CTRL + 4));
  ("EVP_PKEY_CTRL_DH_PARAMGEN_TYPE", Number (EVP_PKEY_ALG_CTRL + 5));
  ("EVP_PKEY_CTRL_DH_KDF_TYPE", Number (EVP_PKEY_ALG_CTRL + 6));
  ("EVP_PKEY_CTRL_DH_KDF_MD", Number (EVP_PKEY_ALG_CTRL + 7));
  ("EVP_PKEY_CTRL_GET_DH_KDF_MD", Number (EVP_PKEY_ALG_CTRL + 8));
  ("EVP_PKEY_CTRL_DH_KDF_OUTLEN", Number (EVP_PKEY_ALG_CTRL + 9));
  ("EVP_PKEY_CTRL_GET_DH_KDF_OUTLEN", Number (EVP_PKEY_ALG_CTRL + 10));
  ("EVP_PKEY_CTRL_DH_KDF_UKM", Number (EVP_PKEY_ALG_CTRL + 11));
  ("EVP_PKEY_CTRL_GET_DH_KDF_UKM", Number (EVP_PKEY_ALG_CTRL + 12));
  ("EVP_PKEY_CTRL_DH_KDF_OID", Number (EVP_PKEY_ALG_CTRL + 13));
  ("EVP_PKEY_CTRL_GET_DH_KDF_OID", Number (EVP_PKEY_ALG_CTRL + 14));
  ("EVP_PKEY_CTRL_DH_NID", Number (EVP_PKEY_ALG_CTRL + 15));
  ("EVP_PKEY_CTRL_DH_PAD", Number (EVP_PKEY_ALG_CTRL + 16))].

Definition DSA_commands : list (string * command) := [
  ("EVP_PKEY_CTRL_DSA_PARAMGEN_BITS", Number (EVP_PKEY_ALG_CTRL + 1));
  ("EVP_PKEY_CTRL_DSA_PARAMGEN_Q_BITS", Number (EVP_PKEY_ALG_CTRL + 2));
  ("EVP_PKEY_CTRL_DSA_PARAMGEN_MD", Number (EVP_PKEY_ALG_CTRL + 3))].

Definition EC_commands : list (string * command) := [
  ("EVP_PKEY_CTRL_EC_PARAMGEN_CURVE_NID", Number (EVP_PKEY_ALG_CTRL + 1));
  ("EVP_PKEY_CTRL_EC_PARAM_ENC", Number (EVP_PKEY_ALG_CTRL + 2));
  ("EVP_PKEY_CTRL_EC_ECDH_COFACTOR", Number (EVP_PKEY_ALG_CTRL + 3));
  ("EVP_PKEY_CTRL_EC_KDF_TYPE", Number (EVP_PKEY_ALG_CTRL + 4));
  ("EVP_PKEY_CTRL_EC_KDF_MD", Number (EVP_PKEY_ALG_CTRL + 5));
  ("EVP_PKEY_CTRL_GET_EC_KDF_MD", Number (EVP_PKEY_ALG_CTRL + 6));
  ("EVP_PKEY_CTRL_EC_KDF_OUTLEN", Number (EVP_PKEY_ALG_CTRL + 7));
  ("EVP_PKEY_CTRL_GET_EC_KDF_OUTLEN", Number (EVP_PKEY_ALG_CTRL + 8));
  ("EVP_PKEY_CTRL_EC_KDF_UKM", Number (EVP_PKEY_ALG_CTRL + 9));
  ("EVP_PKEY_CTRL_GET_EC_KDF_UKM", Number (EVP_PKEY_ALG_CTRL + 10))].

Definition KDF_commands : list (string * command) := [
  ("EVP_PKEY_CTRL_TLS_MD", Number EVP_PKEY_ALG_CTRL);
  ("EVP_PKEY_CTRL_TLS_SECRET", Number (EVP_PKEY_ALG_CTRL + 1));
  ("EVP_PKEY_CTRL_TLS_SEED", Number (EVP_PKEY_ALG_CTRL + 2));
  ("EVP_PKEY_CTRL_HKDF_MD", Number (EVP_PKEY_ALG_CTRL + 3));
  ("EVP_PKEY_CTRL_HKDF_SALT", Number (EVP_PKEY_ALG_CTRL + 4));
  ("EVP_PKEY_CTRL_HKDF_KEY", Number (EVP_PKEY_ALG_CTRL + 5));
  ("EVP_PKEY_CTRL_HKDF_INFO", Number (EVP_PKEY_ALG_CTRL + 6));
  ("EVP_PKEY_CTRL_HKDF_MODE", Number (EVP_PKEY_ALG_CTRL + 7));
  ("EVP_PKEY_CTRL_PASS", Number (EVP_PKEY_ALG_CTRL + 8));
  ("EVP_PKEY_CTRL_SCRYPT_SALT", Number (EVP_PKEY_ALG_CTRL + 9));
  ("EVP_PKEY_CTRL_SCRYPT_N", Number (EVP_PKEY_ALG_CTRL + 10));
  ("EVP_PKEY_CTRL_SCRYPT_R", Number (EVP_PKEY_ALG_CTRL + 11));
  ("EVP_PKEY_CTRL_SCRYPT_P", Number (EVP_PKEY_ALG_CTRL + 12));
  ("EVP_PKEY_CTRL_SCRYPT_MAXMEM_BYTES", Number (EVP_PKEY_ALG_CTRL + 13))].

Definition ENGINE_commands : list (string * command) := [
  ("ENGINE_CTRL_SET_LOGSTREAM", Number 1);
  ("ENGINE_CTRL_SET_PASSWORD_CALLBACK", Number 2);
  ("ENGINE_CTRL_HUP", Number 3);
  ("ENGINE_CTRL_SET_USER_INTERFACE", Number 4);
  ("ENGINE_CTRL_SET_CALLBACK_DATA", Number 5);
  ("ENGINE_CTRL_LOAD_CONFIGURATION", Number 6);
  ("ENGINE_CTRL_LOAD_SECTION", Number 7);
  ("ENGINE_CTRL_HAS_CTRL_FUNCTION", Number 10);
  ("ENGINE_CTRL_GET_FIRST_CMD_TYPE", Number 11);
  ("ENGINE_CTRL_GET_NEXT_CMD_TYPE", Number 12);
  ("ENGINE_CTRL_GET_CMD_FROM_NAME", Number 13);
  ("ENGINE_CTRL_GET_NAME_LEN_FROM_CMD", Number 14);
  ("ENGINE_CTRL_GET_NAME_FROM_CMD", Number 15);
  ("ENGINE_CTRL_GET_DESC_LEN_FROM_CMD", Number 16);
  ("ENGINE_CTRL_GET_DESC_FROM_CMD", Number 17);
  ("ENGINE_CTRL_GET_CMD_FLAGS", Number 18);
  ("ENGINE_CTRL_CHIL_SET_FORKCHECK", Number 100);
  ("ENGINE_CTRL_CHIL_NO_LOCKING", Number 101)].

Definition SSL_macros_1 : list macro := [
  Macro "SSL_CTX_set_mode" ["ctx"; "op"] (Call "SSL_CTX_ctrl" "SSL_CTRL_MODE" [Param "op"; NULL]) false;
  Macro "SSL_CTX_clear_mode" ["ctx"; "op"] (Call "SSL_CTX_ctrl" "SSL_CTRL_CLEAR_MODE" [Param "op"; NULL]) false;
  Macro "SSL_CTX_get_mode" ["ctx"] (Call "SSL_CTX_ctrl" "SSL_CTRL_MODE" [Num 0; NULL]) false;
  Macro "SSL_clear_mode" ["ssl"; "op"] (Call "SSL_ctrl" "SSL_CTRL_CLEAR_MODE" [Param "op"; NULL]) false;
  Macro "SSL_set_mode" ["ssl"; "op"] (Call "SSL_ctrl" "SSL_CTRL_MODE" [Param "op"; NULL]) false;
  Macro "SSL_get_mode" ["ssl"] (Call "SSL_ctrl" "SSL_CTRL_MODE" [Num 0; NULL]) false;
  Macro "SSL_set_mtu" ["ssl"; "mtu"] (Call "SSL_ctrl" "SSL_CTRL_SET_MTU" [Param "mtu"; NULL]) false;
  Macro "DTLS_set_link_mtu" ["ssl"; "mtu"] (Call "SSL_ctrl" "DTLS_CTRL_SET_LINK_MTU" [Param "mtu"; NULL]) false;
  Macro "DTLS_get_link_min_mtu" ["ssl"] (Call "SSL_ctrl" "DTLS_CTRL_GET_LINK_MIN_MTU" [Num 0; NULL]) false;
  Macro "SSL_get_secure_renegotiation_support" ["ssl"] (Call "SSL_ctrl" "SSL_CTRL_GET_RI_SUPPORT" [Num 0; NULL]) false;
  Macro "SSL_CTX_set_cert_flags" ["ctx"; "op"] (Call "SSL_CTX_ctrl" "SSL_CTRL_CERT_FLAGS" [Param "op"; NULL]) false;
  Macro "SSL_set_cert_flags" ["s"; "op"] (Call "SSL_ctrl" "SSL_CTRL_CERT_FLAGS" [Param "op"; NULL]) false;
  Macro "SSL_CTX_clear_cert_flags" ["ctx"; "op"] (Call "SSL_CTX_ctrl" "SSL_CTRL_CLEAR_CERT_FLAGS" [Param "op"; NULL]) false;
  Macro "SSL_clear_cert_flags" ["s"; "op"] (Call "SSL_ctrl" "SSL_CTRL_CLEAR_CERT_FLAGS" [Param "op"; NULL]) false;
  Macro "SSL_CTX_set_msg_callback_arg" ["ctx"; "arg"] (Call "SSL_CTX_ctrl" "SSL_CTRL_SET_MSG_CALLBACK_ARG" [Num 0; Param "arg"]) false;
  Macro "SSL_set_msg_callback_arg" ["ssl"; "arg"] (Call "SSL_ctrl" "SSL_CTRL_SET_MSG_CALLBACK_ARG" [Num 0; Param "arg"]) false;
  Macro "SSL_get_extms_support" ["s"] (Call "SSL_ctrl" "SSL_CTRL_GET_EXTMS_SUPPORT" [Num 0; NULL]) false].

Definition SSL_macros_2 : list macro := [
  Macro "SSL_CTX_sess_number" ["ctx"] (Call "SSL_CTX_ctrl" "SSL_CTRL_SESS_NUMBER" [Num 0; NULL]) false;
  Macro "SSL_CTX_sess_connect" ["ctx"] (Call "SSL_CTX_ctrl" "SSL_CTRL_SESS_CONNECT" [Num 0; NULL]) false;
  Macro "SSL_CTX_sess_connect_good" ["ctx"] (Call "SSL_CTX_ctrl" "SSL_CTRL_SESS_CONNECT_GOOD" [Num 0; NULL]) false;
  Macro "SSL_CTX_sess_connect_renegotiate" ["ctx"] (Call "SSL_CTX_ctrl" "SSL_CTRL_SESS_CONNECT_RENEGOTIATE" [Num 0; NULL]) false;
  Macro "SSL_CTX_sess_accept" ["ctx"] (Call "SSL_CTX_ctrl" "SSL_CTRL_SESS_ACCEPT" [Num 0; NULL]) false;
  Macro "SSL_CTX_sess_accept_renegotiate" ["ctx"] (Call "SSL_CTX_ctrl" "SSL_CTRL_SESS_ACCEPT_RENEGOTIATE" [Num 0; NULL]) false;
  Macro "SSL_CTX_sess_accept_good" ["ctx"] (Call "SSL_CTX_ctrl" "SSL_CTRL_SESS_ACCEPT_GOOD" [Num 0; NULL]) false;
  Macro "SSL_CTX_sess_hits" ["ctx"] (Call "SSL_CTX_ctrl" "SSL_CTRL_SESS_HIT" [Num 0; NULL]) false;
  Macro "SSL_CTX_sess_cb_hits" ["ctx"] (Call "SSL_CTX_ctrl" "SSL_CTRL_SESS_CB_HIT" [Num 0; NULL]) false;
  Macro "SSL_CTX_sess_misses" ["ctx"] (Call "SSL_CTX_ctrl" "SSL_CTRL_SESS_MISSES" [Num 0; NULL]) false;
  Macro "SSL_CTX_sess_timeouts" ["ctx"] (Call "SSL_CTX_ctrl" "SSL_CTRL_SESS_TIMEOUTS" [Num 0; NULL]) false;
  Macro "SSL_CTX_sess_cache_full" ["ctx"] (Call "SSL_CTX_ctrl" "SSL_CTRL_SESS_CACHE_FULL" [Num 0; NULL]) false].

Definition SSL_macros_3 : list macro := [
  Macro "DTLSv1_get_timeout" ["ssl"; "arg"] (Call "SSL_ctrl" "DTLS_CTRL_GET_TIMEOUT" [Num 0; Param "arg"]) false;
  Macro "DTLSv1_handle_timeout" ["ssl"] (Call "SSL_ctrl" "DTLS_CTRL_HANDLE_TIMEOUT" [Num 0; NULL]) false;
  Macro "SSL_num_renegotiations" ["ssl"] (Call "SSL_ctrl" "SSL_CTRL_GET_NUM_RENEGOTIATIONS" [Num 0; NULL]) false;
  Macro "SSL_clear_num_renegotiations" ["ssl"] (Call "SSL_ctrl" "SSL_CTRL_CLEAR_NUM_RENEGOTIATIONS" [Num 0; NULL]) false;
  Macro "SSL_total_renegotiations" ["ssl"] (Call "SSL_ctrl" "SSL_CTRL_GET_TOTAL_RENEGOTIATIONS" [Num 0; NULL]) false;
  Macro "SSL_CTX_set_tmp_dh" ["ctx"; "dh"] (Call "SSL_CTX_ctrl" "SSL_CTRL_SET_TMP_DH" [Num 0; Param "dh"]) false;
  Macro "SSL_CTX_set_dh_auto" ["ctx"; "onoff"] (Call "SSL_CTX_ctrl" "SSL_CTRL_SET_DH_AUTO" [Param "onoff"; NULL]) false;
  Macro "SSL_set_dh_auto" ["s"; "onoff"] (Call "SSL_ctrl" "SSL_CTRL_SET_DH_AUTO" [Param "onoff"; NULL]) false;
  Macro "SSL_set_tmp_dh" ["ssl"; "dh"] (Call "SSL_ctrl" "SSL_CTRL_SET_TMP_DH" [Num 0; Param "dh"]) false;
  Macro "SSL_CTX_set_tmp_ecdh" ["ctx"; "ecdh"] (Call "SSL_CTX_ctrl" "SSL_CTRL_SET_TMP_ECDH" [Num 0; Param "ecdh"]) false;
  Macro "SSL_set_tmp_ecdh" ["ssl"; "ecdh"] (Call "SSL_ctrl" "SSL_CTRL_SET_TMP_ECDH" [Num 0; Param "ecdh"]) false;
  Macro "SSL_CTX_add_extra_chain_cert" ["ctx"; "x509"] (Call "SSL_CTX_ctrl" "SSL_CTRL_EXTRA_CHAIN_CERT" [Num 0; Param "x509"]) false;
  Macro "SSL_CTX_get_extra_chain_certs" ["ctx"; "px509"] (Call "SSL_CTX_ctrl" "SSL_CTRL_GET_EXTRA_CHAIN_CERTS" [Num 0; Param "px509"]) false;
  Macro "SSL_CTX_get_extra_chain_certs_only" ["ctx"; "px509"] (Call "SSL_CTX_ctrl" "SSL_CTRL_GET_EXTRA_CHAIN_CERTS" [Num 1; Param "px509"]) false;
  Macro "SSL_CTX_clear_extra_chain_certs" ["ctx"] (Call "SSL_CTX_ctrl" "SSL_CTRL_CLEAR_EXTRA_CHAIN_CERTS" [Num 0; NULL]) false;
  Macro "SSL_CTX_set0_chain" ["ctx"; "sk"] (Call "SSL_CTX_ctrl" "SSL_CTRL_CHAIN" [Num 0; Param "sk"]) false;
  Macro "SSL_CTX_set1_chain" ["ctx"; "sk"] (Call "SSL_CTX_ctrl" "SSL_CTRL_CHAIN" [Num 1; Param "sk"]) false;
  Macro "SSL_CTX_add0_chain_cert" ["ctx"; "x509"] (Call "SSL_CTX_ctrl" "SSL_CTRL_CHAIN_CERT" [Num 0; Param "x509"]) false;
  Macro "SSL_CTX_add1_chain_cert" ["ctx"; "x509"] (Call "SSL_CTX_ctrl" "SSL_CTRL_CHAIN_CERT" [Num 1; Param "x509"]) false;
  Macro "SSL_CTX_get0_chain_certs" ["ctx"; "px509"] (Call "SSL_CTX_ctrl" "SSL_CTRL_GET_CHAIN_CERTS" [Num 0; Param "px509"]) false;
  Macro "SSL_CTX_clear_chain_certs" ["ctx"] (Expand "SSL_CTX_set0_chain" [NULL]) false;
  Macro "SSL_CTX_build_cert_chain" ["ctx"; "flags"] (Call "SSL_CTX_ctrl" "SSL_CTRL_BUILD_CERT_CHAIN" [Param "flags"; NULL]) false;
  Macro "SSL_CTX_select_current_cert" ["ctx"; "x509"] (Call "SSL_CTX_ctrl" "SSL_CTRL_SELECT_CURRENT_CERT" [Num 0; Param "x509"]) false;
  Macro "SSL_CTX_set_current_cert" ["ctx"; "op"] (Call "SSL_CTX_ctrl" "SSL_CTRL_SET_CURRENT_CERT" [Param "op"; NULL]) false;
  Macro "SSL_CTX_set0_verify_cert_store" ["ctx"; "st"] (Call "SSL_CTX_ctrl" "SSL_CTRL_SET_VERIFY_CERT_STORE" [Num 0; Param "st"]) false;
  Macro "SSL_CTX_set1_verify_cert_store" ["ctx"; "st"] (Call "SSL_CTX_ctrl" "SSL_CTRL_SET_VERIFY_CERT_STORE" [Num 1; Param "st"]) false;
  Macro "SSL_CTX_get0_verify_cert_store" ["ctx"; "st"] (Call "SSL_CTX_ctrl" "SSL_CTRL_GET_VERIFY_CERT_STORE" [Num 0; Param "st"]) false;
  Macro "SSL_CTX_set0_chain_cert_store" ["ctx"; "st"] (Call "SSL_CTX_ctrl" "SSL_CTRL_SET_CHAIN_CERT_STORE" [Num 0; Param "st"]) false;
  Macro "SSL_CTX_set1_chain_cert_store" ["ctx"; "st"] (Call "SSL_CTX_ctrl" "SSL_CTRL_SET_CHAIN_CERT_STORE" [Num 1; Param "st"]) false;
  Macro "SSL_CTX_get0_chain_cert_store" ["ctx"; "st"] (Call "SSL_CTX_ctrl" "SSL_CTRL_GET_CHAIN_CERT_STORE" [Num 0; Param "st"]) false;
  Macro "SSL_set0_chain" ["s"; "sk"] (Call "SSL_ctrl" "SSL_CTRL_CHAIN" [Num 0; Param "sk"]) false;
  Macro "SSL_set1_chain" ["s"; "sk"] (Call "SSL_ctrl" "SSL_CTRL_CHAIN" [Num 1; Param "sk"]) false;
  Macro "SSL_add0_chain_cert" ["s"; "x509"] (Call "SSL_ctrl" "SSL_CTRL_CHAIN_CERT" [Num 0; Param "x509"]) false;
  Macro "SSL_add1_chain_cert" ["s"; "x509"] (Call "SSL_ctrl" "SSL_CTRL_CHAIN_CERT" [Num 1; Param "x509"]) false;
  Macro "SSL_get0_chain_certs" ["s"; "px509"] (Call "SSL_ctrl" "SSL_CTRL_GET_CHAIN_CERTS" [Num 0; Param "px509"]) false;
  Macro "SSL_clear_chain_certs" ["s"] (Expand "SSL_set0_chain" [NULL]) false;
  Macro "SSL_build_cert_chain" ["s"; "flags"] (Call "SSL_ctrl" "SSL_CTRL_BUILD_CERT_CHAIN" [Param "flags"; NULL]) false;
  Macro "SSL_select_current_cert" ["s"; "x509"] (Call "SSL_ctrl" "SSL_CTRL_SELECT_CURRENT_CERT" [Num 0; Param "x509"]) false;
  Macro "SSL_set_current_cert" ["s"; "op"] (Call "SSL_ctrl" "SSL_CTRL_SET_CURRENT_CERT" [Param "op"; NULL]) false;
  Macro "SSL_set0_verify_cert_store" ["s"; "st"] (Call "SSL_ctrl" "SSL_CTRL_SET_VERIFY_CERT_STORE" [Num 0; Param "st"]) false;
  Macro "SSL_set1_verify_cert_store" ["s"; "st"] (Call "SSL_ctrl" "SSL_CTRL_SET_VERIFY_CERT_STORE" [Num 1; Param "st"]) false;
  Macro "SSL_get0_verify_cert_store" ["s"; "st"] (Call "SSL_ctrl" "SSL_CTRL_GET_VERIFY_CERT_STORE" [Num 0; Param "st"]) false;
  Macro "SSL_set0_chain_cert_store" ["s"; "st"] (Call "SSL_ctrl" "SSL_CTRL_SET_CHAIN_CERT_STORE" [Num 0; Param "st"]) false;
  Macro "SSL_set1_chain_cert_store" ["s"; "st"] (Call "SSL_ctrl" "SSL_CTRL_SET_CHAIN_CERT_STORE" [Num 1; Param "st"]) false;
  Macro "SSL_get0_chain_cert_store" ["s"; "st"] (Call "SSL_ctrl" "SSL_CTRL_GET_CHAIN_CERT_STORE" [Num 0; Param "st"]) false;
  Macro "SSL_get1_groups" ["s"; "glist"] (Call "SSL_ctrl" "SSL_CTRL_GET_GROUPS" [Num 0; Param "glist"]) false;
  Macro "SSL_CTX_set1_groups" ["ctx"; "glist"; "glistlen"] (Call "SSL_CTX_ctrl" "SSL_CTRL_SET_GROUPS" [Param "glistlen"; Param "glist"]) false;
  Macro "SSL_CTX_set1_groups_list" ["ctx"; "s"] (Call "SSL_CTX_ctrl" "SSL_CTRL_SET_GROUPS_LIST" [Num 0; Param "s"]) false;
  Macro "SSL_set1_groups" ["s"; "glist"; "glistlen"] (Call "SSL_ctrl" "SSL_CTRL_SET_GROUPS" [Param "glistlen"; Param "glist"]) false;
  Macro "SSL_set1_groups_list" ["s"; "str"] (Call "SSL_ctrl" "SSL_CTRL_SET_GROUPS_LIST" [Num 0; Param "str"]) false;
  Macro "SSL_get_shared_group" ["s"; "n"] (Call "SSL_ctrl" "SSL_CTRL_GET_SHARED_GROUP" [Param "n"; NULL]) false;
  Macro "SSL_get_negotiated_group" ["s"] (Call "SSL_ctrl" "SSL_CTRL_GET_NEGOTIATED_GROUP" [Num 0; NULL]) false;
  Macro "SSL_CTX_set1_sigalgs" ["ctx"; "slist"; "slistlen"] (Call "SSL_CTX_ctrl" "SSL_CTRL_SET_SIGALGS" [Param "slistlen"; Param "slist"]) false;
  Macro "SSL_CTX_set1_sigalgs_list" ["ctx"; "s"] (Call "SSL_CTX_ctrl" "SSL_CTRL_SET_SIGALGS_LIST" [Num 0; Param "s"]) false;
  Macro "SSL_set1_sigalgs" ["s"; "slist"; "slistlen"] (Call "SSL_ctrl" "SSL_CTRL_SET_SIGALGS" [Param "slistlen"; Param "slist"]) false;
  Macro "SSL_set1_sigalgs_list" ["s"; "str"] (Call "SSL_ctrl" "SSL_CTRL_SET_SIGALGS_LIST" [Num 0; Param "str"]) false;
  Macro "SSL_CTX_set1_client_sigalgs" ["ctx"; "slist"; "slistlen"] (Call "SSL_CTX_ctrl" "SSL_CTRL_SET_CLIENT_SIGALGS" [Param "slistlen"; Param "slist"]) false;
  Macro "SSL_CTX_set1_client_sigalgs_list" ["ctx"; "s"] (Call "SSL_CTX_ctrl" "SSL_CTRL_SET_CLIENT_SIGALGS_LIST" [Num 0; Param "s"]) false;
  Macro "SSL_set1_client_sigalgs" ["s"; "slist"; "slistlen"] (Call "SSL_ctrl" "SSL_CTRL_SET_CLIENT_SIGALGS" [Param "slistlen"; Param "slist"]) false;
  Macro "SSL_set1_client_sigalgs_list" ["s"; "str"] (Call "SSL_ctrl" "SSL_CTRL_SET_CLIENT_SIGALGS_LIST" [Num 0; Param "str"]) false;
  Macro "SSL_get0_certificate_types" ["s"; "clist"] (Call "SSL_ctrl" "SSL_CTRL_GET_CLIENT_CERT_TYPES" [Num 0; Param "clist"]) false;
  Macro "SSL_CTX_set1_client_certificate_types" ["ctx"; "clist"; "clistlen"] (Call "SSL_CTX_ctrl" "SSL_CTRL_SET_CLIENT_CERT_TYPES" [Param "clistlen"; Param "clist"]) false;
  Macro "SSL_set1_client_certificate_types" ["s"; "clist"; "clistlen"] (Call "SSL_ctrl" "SSL_CTRL_SET_CLIENT_CERT_TYPES" [Param "clistlen"; Param "clist"]) false;
  Macro "SSL_get_signature_nid" ["s"; "pn"] (Call "SSL_ctrl" "SSL_CTRL_GET_SIGNATURE_NID" [Num 0; Param "pn"]) false;
  Macro "SSL_get_peer_signature_nid" ["s"; "pn"] (Call "SSL_ctrl" "SSL_CTRL_GET_PEER_SIGNATURE_NID" [Num 0; Param "pn"]) false;
  Macro "SSL_get_peer_tmp_key" ["s"; "pk"] (Call "SSL_ctrl" "SSL_CTRL_GET_PEER_TMP_KEY" [Num 0; Param "pk"]) false;
  Macro "SSL_get_tmp_key" ["s"; "pk"] (Call "SSL_ctrl" "SSL_CTRL_GET_TMP_KEY" [Num 0; Param "pk"]) false;
  Macro "SSL_get0_raw_cipherlist" ["s"; "plst"] (Call "SSL_ctrl" "SSL_CTRL_GET_RAW_CIPHERLIST" [Num 0; Param "plst"]) false].

Definition SSL_macros_4 : list macro := [
  Macro "SSL_get0_ec_point_formats" ["s"; "plst"] (Call "SSL_ctrl" "SSL_CTRL_GET_EC_POINT_FORMATS" [Num 0; Param "plst"]) false;
  Macro "SSL_CTX_set_min_proto_version" ["ctx"; "version"] (Call "SSL_CTX_ctrl" "SSL_CTRL_SET_MIN_PROTO_VERSION" [Param "version"; NULL]) false;
  Macro "SSL_CTX_set_max_proto_version" ["ctx"; "version"] (Call "SSL_CTX_ctrl" "SSL_CTRL_SET_MAX_PROTO_VERSION" [Param "version"; NULL]) false;
  Macro "SSL_CTX_get_min_proto_version" ["ctx"] (Call "SSL_CTX_ctrl" "SSL_CTRL_GET_MIN_PROTO_VERSION" [Num 0; NULL]) false;
  Macro "SSL_CTX_get_max_proto_version" ["ctx"] (Call "SSL_CTX_ctrl" "SSL_CTRL_GET_MAX_PROTO_VERSION" [Num 0; NULL]) false;
  Macro "SSL_set_min_proto_version" ["s"; "version"] (Call "SSL_ctrl" "SSL_CTRL_SET_MIN_PROTO_VERSION" [Param "version"; NULL]) false;
  Macro "SSL_set_max_proto_version" ["s"; "version"] (Call "SSL_ctrl" "SSL_CTRL_SET_MAX_PROTO_VERSION" [Param "version"; NULL]) false;
  Macro "SSL_get_min_proto_version" ["s"] (Call "SSL_ctrl" "SSL_CTRL_GET_MIN_PROTO_VERSION" [Num 0; NULL]) false;
  Macro "SSL_get_max_proto_version" ["s"] (Call "SSL_ctrl" "SSL_CTRL_GET_MAX_PROTO_VERSION" [Num 0; NULL]) false;
  Macro "SSL_get_server_tmp_key" ["s"; "pk"] (Expand "SSL_get_peer_tmp_key" [Param "pk"]) false;
  Macro "SSL_get1_curves" [] (Rename "SSL_get1_groups") false;
  Macro "SSL_CTX_set1_curves" [] (Rename "SSL_CTX_set1_groups") false;
  Macro "SSL_CTX_set1_curves_list" [] (Rename "SSL_CTX_set1_groups_list") false;
  Macro "SSL_set1_curves" [] (Rename "SSL_set1_groups") false;
  Macro "SSL_set1_curves_list" [] (Rename "SSL_set1_groups_list") false;
  Macro "SSL_get_shared_curve" [] (Rename "SSL_get_shared_group") false].

Definition SSL_macros_5 : list macro := [
  Macro "SSL_CTX_sess_set_cache_size" ["ctx"; "t"] (Call "SSL_CTX_ctrl" "SSL_CTRL_SET_SESS_CACHE_SIZE" [Param "t"; NULL]) false;
  Macro "SSL_CTX_sess_get_cache_size" ["ctx"] (Call "SSL_CTX_ctrl" "SSL_CTRL_GET_SESS_CACHE_SIZE" [Num 0; NULL]) false;
  Macro "SSL_CTX_set_session_cache_mode" ["ctx"; "m"] (Call "SSL_CTX_ctrl" "SSL_CTRL_SET_SESS_CACHE_MODE" [Param "m"; NULL]) false;
  Macro "SSL_CTX_get_session_cache_mode" ["ctx"] (Call "SSL_CTX_ctrl" "SSL_CTRL_GET_SESS_CACHE_MODE" [Num 0; NULL]) false;
  Macro "SSL_CTX_get_default_read_ahead" ["ctx"] (Expand "SSL_CTX_get_read_ahead" []) false;
  Macro "SSL_CTX_set_default_read_ahead" ["ctx"; "m"] (Expand "SSL_CTX_set_read_ahead" [Param "m"]) false;
  Macro "SSL_CTX_get_read_ahead" ["ctx"] (Call "SSL_CTX_ctrl" "SSL_CTRL_GET_READ_AHEAD" [Num 0; NULL]) false;
  Macro "SSL_CTX_set_read_ahead" ["ctx"; "m"] (Call "SSL_CTX_ctrl" "SSL_CTRL_SET_READ_AHEAD" [Param "m"; NULL]) false;
  Macro "SSL_CTX_get_max_cert_list" ["ctx"] (Call "SSL_CTX_ctrl" "SSL_CTRL_GET_MAX_CERT_LIST" [Num 0; NULL]) false;
  Macro "SSL_CTX_set_max_cert_list" ["ctx"; "m"] (Call "SSL_CTX_ctrl" "SSL_CTRL_SET_MAX_CERT_LIST" [Param "m"; NULL]) false;
  Macro "SSL_get_max_cert_list" ["ssl"] (Call "SSL_ctrl" "SSL_CTRL_GET_MAX_CERT_LIST" [Num 0; NULL]) false;
  Macro "SSL_set_max_cert_list" ["ssl"; "m"] (Call "SSL_ctrl" "SSL_CTRL_SET_MAX_CERT_LIST" [Param "m"; NULL]) false;
  Macro "SSL_CTX_set_max_send_fragment" ["ctx"; "m"] (Call "SSL_CTX_ctrl" "SSL_CTRL_SET_MAX_SEND_FRAGMENT" [Param "m"; NULL]) false;
  Macro "SSL_set_max_send_fragment" ["ssl"; "m"] (Call "SSL_ctrl" "SSL_CTRL_SET_MAX_SEND_FRAGMENT" [Param "m"; NULL]) false;
  Macro "SSL_CTX_set_split_send_fragment" ["ctx"; "m"] (Call "SSL_CTX_ctrl" "SSL_CTRL_SET_SPLIT_SEND_FRAGMENT" [Param "m"; NULL]) false;
  Macro "SSL_set_split_send_fragment" ["ssl"; "m"] (Call "SSL_ctrl" "SSL_CTRL_SET_SPLIT_SEND_FRAGMENT" [Param "m"; NULL]) false;
  Macro "SSL_CTX_set_max_pipelines" ["ctx"; "m"] (Call "SSL_CTX_ctrl" "SSL_CTRL_SET_MAX_PIPELINES" [Param "m"; NULL]) false;
  Macro "SSL_set_max_pipelines" ["ssl"; "m"] (Call "SSL_ctrl" "SSL_CTRL_SET_MAX_PIPELINES" [Param "m"; NULL]) false;
  Macro "SSL_set_retry_verify" ["ssl"] (Call "SSL_ctrl" "SSL_CTRL_SET_RETRY_VERIFY" [Num 0; NULL]) true].

Definition SSL_macros : list macro := (SSL_macros_1 ++ SSL_macros_2 ++ SSL_macros_3 ++ SSL_macros_4 ++ SSL_macros_5)%list.

Definition TLSEXT_macros : list macro := [
  Macro "SSL_set_tlsext_host_name" ["s"; "name"] (Call "SSL_ctrl" "SSL_CTRL_SET_TLSEXT_HOSTNAME" [Num TLSEXT_NAMETYPE_host_name; Param "name"]) false;
  Macro "SSL_set_tlsext_debug_callback" ["ssl"; "cb"] (Call "SSL_callback_ctrl" "SSL_CTRL_SET_TLSEXT_DEBUG_CB" [Param "cb"]) false;
  Macro "SSL_set_tlsext_debug_arg" ["ssl"; "arg"] (Call "SSL_ctrl" "SSL_CTRL_SET_TLSEXT_DEBUG_ARG" [Num 0; Param "arg"]) false;
  Macro "SSL_get_tlsext_status_type" ["ssl"] (Call "SSL_ctrl" "SSL_CTRL_GET_TLSEXT_STATUS_REQ_TYPE" [Num 0; NULL]) false;
  Macro "SSL_set_tlsext_status_type" ["ssl"; "type"] (Call "SSL_ctrl" "SSL_CTRL_SET_TLSEXT_STATUS_REQ_TYPE" [Param "type"; NULL]) false;
  Macro "SSL_get_tlsext_status_exts" ["ssl"; "arg"] (Call "SSL_ctrl" "SSL_CTRL_GET_TLSEXT_STATUS_REQ_EXTS" [Num 0; Param "arg"]) false;
  Macro "SSL_set_tlsext_status_exts" ["ssl"; "arg"] (Call "SSL_ctrl" "SSL_CTRL_SET_TLSEXT_STATUS_REQ_EXTS" [Num 0; Param "arg"]) false;
  Macro "SSL_get_tlsext_status_ids" ["ssl"; "arg"] (Call "SSL_ctrl" "SSL_CTRL_GET_TLSEXT_STATUS_REQ_IDS" [Num 0; Param "arg"]) false;
  Macro "SSL_set_tlsext_status_ids" ["ssl"; "arg"] (Call "SSL_ctrl" "SSL_CTRL_SET_TLSEXT_STATUS_REQ_IDS" [Num 0; Param "arg"]) false;
  Macro "SSL_get_tlsext_status_ocsp_resp" ["ssl"; "arg"] (Call "SSL_ctrl" "SSL_CTRL_GET_TLSEXT_STATUS_REQ_OCSP_RESP" [Num 0; Param "arg"]) false;
  Macro "SSL_set_tlsext_status_ocsp_resp" ["ssl"; "arg"; "arglen"] (Call "SSL_ctrl" "SSL_CTRL_SET_TLSEXT_STATUS_REQ_OCSP_RESP" [Param "arglen"; Param "arg"]) false;
  Macro "SSL_CTX_set_tlsext_servername_callback" ["ctx"; "cb"] (Call "SSL_CTX_callback_ctrl" "SSL_CTRL_SET_TLSEXT_SERVERNAME_CB" [Param "cb"]) false;
  Macro "SSL_CTX_set_tlsext_servername_arg" ["ctx"; "arg"] (Call "SSL_CTX_ctrl" "SSL_CTRL_SET_TLSEXT_SERVERNAME_ARG" [Num 0; Param "arg"]) false;
  Macro "SSL_CTX_get_tlsext_ticket_keys" ["ctx"; "keys"; "keylen"] (Call "SSL_CTX_ctrl" "SSL_CTRL_GET_TLSEXT_TICKET_KEYS" [Param "keylen"; Param "keys"]) false;
  Macro "SSL_CTX_set_tlsext_ticket_keys" ["ctx"; "keys"; "keylen"] (Call "SSL_CTX_ctrl" "SSL_CTRL_SET_TLSEXT_TICKET_KEYS" [Param "keylen"; Param "keys"]) false;
  Macro "SSL_CTX_get_tlsext_status_cb" ["ssl"; "cb"] (Call "SSL_CTX_ctrl" "SSL_CTRL_GET_TLSEXT_STATUS_REQ_CB" [Num 0; Param "cb"]) false;
  Macro "SSL_CTX_set_tlsext_status_cb" ["ssl"; "cb"] (Call "SSL_CTX_callback_ctrl" "SSL_CTRL_SET_TLSEXT_STATUS_REQ_CB" [Param "cb"]) false;
  Macro "SSL_CTX_get_tlsext_status_arg" ["ssl"; "arg"] (Call "SSL_CTX_ctrl" "SSL_CTRL_GET_TLSEXT_STATUS_REQ_CB_ARG" [Num 0; Param "arg"]) false;
  Macro "SSL_CTX_set_tlsext_status_arg" ["ssl"; "arg"] (Call "SSL_CTX_ctrl" "SSL_CTRL_SET_TLSEXT_STATUS_REQ_CB_ARG" [Num 0; Param "arg"]) false;
  Macro "SSL_CTX_set_tlsext_status_type" ["ssl"; "type"] (Call "SSL_CTX_ctrl" "SSL_CTRL_SET_TLSEXT_STATUS_REQ_TYPE" [Param "type"; NULL]) false;
  Macro "SSL_CTX_get_tlsext_status_type" ["ssl"] (Call "SSL_CTX_ctrl" "SSL_CTRL_GET_TLSEXT_STATUS_REQ_TYPE" [Num 0; NULL]) false;
  Macro "SSL_CTX_set_tlsext_ticket_key_cb" ["ssl"; "cb"] (Call "SSL_CTX_callback_ctrl" "SSL_CTRL_SET_TLSEXT_TICKET_KEY_CB" [Param "cb"]) false].

Definition BIO_macros_1 : list macro := [
  Macro "BIO_get_ktls_send" ["b"] (Call "BIO_ctrl" "BIO_CTRL_GET_KTLS_SEND" [Num 0; NULL]) true;
  Macro "BIO_get_ktls_recv" ["b"] (Call "BIO_ctrl" "BIO_CTRL_GET_KTLS_RECV" [Num 0; NULL]) true].

Definition BIO_macros_2 : list macro := [
  Macro "BIO_set_nbio" ["b"; "n"] (Call "BIO_ctrl" "BIO_C_SET_NBIO" [Param "n"; NULL]) false;
  Macro "BIO_set_conn_hostname" ["b"; "name"] (Call "BIO_ctrl" "BIO_C_SET_CONNECT" [Num 0; Param "name"]) false;
  Macro "BIO_set_conn_port" ["b"; "port"] (Call "BIO_ctrl" "BIO_C_SET_CONNECT" [Num 1; Param "port"]) false;
  Macro "BIO_set_conn_address" ["b"; "addr"] (Call "BIO_ctrl" "BIO_C_SET_CONNECT" [Num 2; Param "addr"]) false;
  Macro "BIO_set_conn_ip_family" ["b"; "f"] (Call "BIO_int_ctrl" "BIO_C_SET_CONNECT" [Num 3; Param "f"]) false;
  Macro "BIO_get_conn_hostname" ["b"] (Call "BIO_ptr_ctrl" "BIO_C_GET_CONNECT" [Num 0]) false;
  Macro "BIO_get_conn_port" ["b"] (Call "BIO_ptr_ctrl" "BIO_C_GET_CONNECT" [Num 1]) false;
  Macro "BIO_get_conn_address" ["b"] (Call "BIO_ptr_ctrl" "BIO_C_GET_CONNECT" [Num 2]) false;
  Macro "BIO_get_conn_ip_family" ["b"] (Call "BIO_ctrl" "BIO_C_GET_CONNECT" [Num 3; NULL]) false;
  Macro "BIO_set_conn_mode" ["b"; "n"] (Call "BIO_ctrl" "BIO_C_SET_CONNECT_MODE" [Param "n"; NULL]) false;
  Macro "BIO_set_accept_name" ["b"; "name"] (Call "BIO_ctrl" "BIO_C_SET_ACCEPT" [Num 0; Param "name"]) false;
  Macro "BIO_set_accept_port" ["b"; "port"] (Call "BIO_ctrl" "BIO_C_SET_ACCEPT" [Num 1; Param "port"]) false;
  Macro "BIO_get_accept_name" ["b"] (Call "BIO_ptr_ctrl" "BIO_C_GET_ACCEPT" [Num 0]) false;
  Macro "BIO_get_accept_port" ["b"] (Call "BIO_ptr_ctrl" "BIO_C_GET_ACCEPT" [Num 1]) false;
  Macro "BIO_get_peer_name" ["b"] (Call "BIO_ptr_ctrl" "BIO_C_GET_ACCEPT" [Num 2]) false;
  Macro "BIO_get_peer_port" ["b"] (Call "BIO_ptr_ctrl" "BIO_C_GET_ACCEPT" [Num 3]) false;
  Macro "BIO_set_nbio_accept" ["b"; "n"] (Call "BIO_ctrl" "BIO_C_SET_ACCEPT" [Num 2; Cond (Param "n") (Text "a") (NULL)]) false;
  Macro "BIO_set_accept_bios" ["b"; "bio"] (Call "BIO_ctrl" "BIO_C_SET_ACCEPT" [Num 3; Param "bio"]) false;
  Macro "BIO_set_accept_ip_family" ["b"; "f"] (Call "BIO_int_ctrl" "BIO_C_SET_ACCEPT" [Num 4; Param "f"]) false;
  Macro "BIO_get_accept_ip_family" ["b"] (Call "BIO_ctrl" "BIO_C_GET_ACCEPT" [Num 4; NULL]) false;
  Macro "BIO_set_bind_mode" ["b"; "mode"] (Call "BIO_ctrl" "BIO_C_SET_BIND_MODE" [Param "mode"; NULL]) false;
  Macro "BIO_get_bind_mode" ["b"] (Call "BIO_ctrl" "BIO_C_GET_BIND_MODE" [Num 0; NULL]) false;
  Macro "BIO_do_connect" ["b"] (Expand "BIO_do_handshake" []) false;
  Macro "BIO_do_accept" ["b"] (Expand "BIO_do_handshake" []) false;
  Macro "BIO_do_handshake" ["b"] (Call "BIO_ctrl" "BIO_C_DO_STATE_MACHINE" [Num 0; NULL]) false;
  Macro "BIO_set_fd" ["b"; "fd"; "c"] (Call "BIO_int_ctrl" "BIO_C_SET_FD" [Param "c"; Param "fd"]) false;
  Macro "BIO_get_fd" ["b"; "c"] (Call "BIO_ctrl" "BIO_C_GET_FD" [Num 0; Param "c"]) false;
  Macro "BIO_set_fp" ["b"; "fp"; "c"] (Call "BIO_ctrl" "BIO_C_SET_FILE_PTR" [Param "c"; Param "fp"]) false;
  Macro "BIO_get_fp" ["b"; "fpp"] (Call "BIO_ctrl" "BIO_C_GET_FILE_PTR" [Num 0; Param "fpp"]) false;
  Macro "BIO_seek" ["b"; "ofs"] (Call "BIO_ctrl" "BIO_C_FILE_SEEK" [Param "ofs"; NULL]) false;
  Macro "BIO_tell" ["b"] (Call "BIO_ctrl" "BIO_C_FILE_TELL" [Num 0; NULL]) false;
  Macro "BIO_read_filename" ["b"; "name"] (Call "BIO_ctrl" "BIO_C_SET_FILENAME" [Num (Z.lor BIO_CLOSE BIO_FP_READ); Param "name"]) false;
  Macro "BIO_write_filename" ["b"; "name"] (Call "BIO_ctrl" "BIO_C_SET_FILENAME" [Num (Z.lor BIO_CLOSE BIO_FP_WRITE); Param "name"]) false;
  Macro "BIO_append_filename" ["b"; "name"] (Call "BIO_ctrl" "BIO_C_SET_FILENAME" [Num (Z.lor BIO_CLOSE BIO_FP_APPEND); Param "name"]) false;
  Macro "BIO_rw_filename" ["b"; "name"] (Call "BIO_ctrl" "BIO_C_SET_FILENAME" [Num (Z.lor (Z.lor BIO_CLOSE BIO_FP_READ) BIO_FP_WRITE); Param "name"]) false;
  Macro "BIO_set_ssl" ["b"; "ssl"; "c"] (Call "BIO_ctrl" "BIO_C_SET_SSL" [Param "c"; Param "ssl"]) false;
  Macro "BIO_get_ssl" ["b"; "sslp"] (Call "BIO_ctrl" "BIO_C_GET_SSL" [Num 0; Param "sslp"]) false;
  Macro "BIO_set_ssl_mode" ["b"; "client"] (Call "BIO_ctrl" "BIO_C_SSL_MODE" [Param "client"; NULL]) false;
  Macro "BIO_set_ssl_renegotiate_bytes" ["b"; "num"] (Call "BIO_ctrl" "BIO_C_SET_SSL_RENEGOTIATE_BYTES" [Param "num"; NULL]) false;
  Macro "BIO_get_num_renegotiates" ["b"] (Call "BIO_ctrl" "BIO_C_GET_SSL_NUM_RENEGOTIATES" [Num 0; NULL]) false;
  Macro "BIO_set_ssl_renegotiate_timeout" ["b"; "seconds"] (Call "BIO_ctrl" "BIO_C_SET_SSL_RENEGOTIATE_TIMEOUT" [Param "seconds"; NULL]) false;
  Macro "BIO_get_mem_data" ["b"; "pp"] (Call "BIO_ctrl" "BIO_CTRL_INFO" [Num 0; Param "pp"]) false;
  Macro "BIO_set_mem_buf" ["b"; "bm"; "c"] (Call "BIO_ctrl" "BIO_C_SET_BUF_MEM" [Param "c"; Param "bm"]) false;
  Macro "BIO_get_mem_ptr" ["b"; "pp"] (Call "BIO_ctrl" "BIO_C_GET_BUF_MEM_PTR" [Num 0; Param "pp"]) false;
  Macro "BIO_set_mem_eof_return" ["b"; "v"] (Call "BIO_ctrl" "BIO_C_SET_BUF_MEM_EOF_RETURN" [Param "v"; NULL]) false;
  Macro "BIO_get_buffer_num_lines" ["b"] (Call "BIO_ctrl" "BIO_C_GET_BUFF_NUM_LINES" [Num 0; NULL]) false;
  Macro "BIO_set_buffer_size" ["b"; "size"] (Call "BIO_ctrl" "BIO_C_SET_BUFF_SIZE" [Param "size"; NULL]) false;
  Macro "BIO_set_read_buffer_size" ["b"; "size"] (Call "BIO_int_ctrl" "BIO_C_SET_BUFF_SIZE" [Param "size"; Num 0]) false;
  Macro "BIO_set_write_buffer_size" ["b"; "size"] (Call "BIO_int_ctrl" "BIO_C_SET_BUFF_SIZE" [Param "size"; Num 1]) false;
  Macro "BIO_set_buffer_read_data" ["b"; "buf"; "num"] (Call "BIO_ctrl" "BIO_C_SET_BUFF_READ_DATA" [Param "num"; Param "buf"]) false;
  Macro "BIO_dup_state" ["b"; "ret"] (Call "BIO_ctrl" "BIO_CTRL_DUP" [Num 0; Param "ret"]) false;
  Macro "BIO_reset" ["b"] (Call "BIO_ctrl" "BIO_CTRL_RESET" [Num 0; NULL]) false;
  Macro "BIO_eof" ["b"] (Call "BIO_ctrl" "BIO_CTRL_EOF" [Num 0; NULL]) false;
  Macro "BIO_set_close" ["b"; "c"] (Call "BIO_ctrl" "BIO_CTRL_SET_CLOSE" [Param "c"; NULL]) false;
  Macro "BIO_get_close" ["b"] (Call "BIO_ctrl" "BIO_CTRL_GET_CLOSE" [Num 0; NULL]) false;
  Macro "BIO_pending" ["b"] (Call "BIO_ctrl" "BIO_CTRL_PENDING" [Num 0; NULL]) false;
  Macro "BIO_wpending" ["b"] (Call "BIO_ctrl" "BIO_CTRL_WPENDING" [Num 0; NULL]) false;
  Macro "BIO_flush" ["b"] (Call "BIO_ctrl" "BIO_CTRL_FLUSH" [Num 0; NULL]) false;
  Macro "BIO_get_info_callback" ["b"; "cbp"] (Call "BIO_ctrl" "BIO_CTRL_GET_CALLBACK" [Num 0; Param "cbp"]) false;
  Macro "BIO_set_info_callback" ["b"; "cb"] (Call "BIO_callback_ctrl" "BIO_CTRL_SET_CALLBACK" [Param "cb"]) false;
  Macro "BIO_buffer_get_num_lines" ["b"] (Call "BIO_ctrl" "BIO_CTRL_GET" [Num 0; NULL]) false;
  Macro "BIO_buffer_peek" ["b"; "s"; "l"] (Call "BIO_ctrl" "BIO_CTRL_PEEK" [Param "l"; Param "s"]) false;
  Macro "BIO_set_write_buf_size" ["b"; "size"] (Call "BIO_ctrl" "BIO_C_SET_WRITE_BUF_SIZE" [Param "size"; NULL]) false;
  Macro "BIO_get_write_buf_size" ["b"; "size"] (Call "BIO_ctrl" "BIO_C_GET_WRITE_BUF_SIZE" [Param "size"; NULL]) false;
  Macro "BIO_make_bio_pair" ["b1"; "b2"] (Call "BIO_ctrl" "BIO_C_MAKE_BIO_PAIR" [Num 0; Param "b2"]) false;
  Macro "BIO_destroy_bio_pair" ["b"] (Call "BIO_ctrl" "BIO_C_DESTROY_BIO_PAIR" [Num 0; NULL]) false;
  Macro "BIO_shutdown_wr" ["b"] (Call "BIO_ctrl" "BIO_C_SHUTDOWN_WR" [Num 0; NULL]) false].

Definition BIO_macros_3 : list macro := [
  Macro "BIO_get_write_guarantee" ["b"] (Call "BIO_ctrl" "BIO_C_GET_WRITE_GUARANTEE" [Num 0; NULL]) false;
  Macro "BIO_get_read_request" ["b"] (Call "BIO_ctrl" "BIO_C_GET_READ_REQUEST" [Num 0; NULL]) false;
  Macro "BIO_ctrl_dgram_connect" ["b"; "peer"] (Call "BIO_ctrl" "BIO_CTRL_DGRAM_CONNECT" [Num 0; Param "peer"]) false;
  Macro "BIO_ctrl_set_connected" ["b"; "peer"] (Call "BIO_ctrl" "BIO_CTRL_DGRAM_SET_CONNECTED" [Num 0; Param "peer"]) false;
  Macro "BIO_dgram_recv_timedout" ["b"] (Call "BIO_ctrl" "BIO_CTRL_DGRAM_GET_RECV_TIMER_EXP" [Num 0; NULL]) false;
  Macro "BIO_dgram_send_timedout" ["b"] (Call "BIO_ctrl" "BIO_CTRL_DGRAM_GET_SEND_TIMER_EXP" [Num 0; NULL]) false;
  Macro "BIO_dgram_get_peer" ["b"; "peer"] (Call "BIO_ctrl" "BIO_CTRL_DGRAM_GET_PEER" [Num 0; Param "peer"]) false;
  Macro "BIO_dgram_set_peer" ["b"; "peer"] (Call "BIO_ctrl" "BIO_CTRL_DGRAM_SET_PEER" [Num 0; Param "peer"]) false;
  Macro "BIO_dgram_get_mtu_overhead" ["b"] (Call "BIO_ctrl" "BIO_CTRL_DGRAM_GET_MTU_OVERHEAD" [Num 0; NULL]) false;
  Macro "BIO_set_prefix" ["b"; "p"] (Call "BIO_ctrl" "BIO_CTRL_SET_PREFIX" [Num 0; Param "p"]) false;
  Macro "BIO_set_indent" ["b"; "i"] (Call "BIO_ctrl" "BIO_CTRL_SET_INDENT" [Param "i"; NULL]) false;
  Macro "BIO_get_indent" ["b"] (Call "BIO_ctrl" "BIO_CTRL_GET_INDENT" [Num 0; NULL]) false].

Definition BIO_macros : list macro := (BIO_macros_1 ++ BIO_macros_2 ++ BIO_macros_3)%list.

Definition EVP_BIO_macros : list macro := [
  Macro "BIO_set_md" ["b"; "md"] (Call "BIO_ctrl" "BIO_C_SET_MD" [Num 0; Param "md"]) false;
  Macro "BIO_get_md" ["b"; "mdp"] (Call "BIO_ctrl" "BIO_C_GET_MD" [Num 0; Param "mdp"]) false;
  Macro "BIO_get_md_ctx" ["b"; "mdcp"] (Call "BIO_ctrl" "BIO_C_GET_MD_CTX" [Num 0; Param "mdcp"]) false;
  Macro "BIO_set_md_ctx" ["b"; "mdcp"] (Call "BIO_ctrl" "BIO_C_SET_MD_CTX" [Num 0; Param "mdcp"]) false;
  Macro "BIO_get_cipher_status" ["b"] (Call "BIO_ctrl" "BIO_C_GET_CIPHER_STATUS" [Num 0; NULL]) false;
  Macro "BIO_get_cipher_ctx" ["b"; "c_pp"] (Call "BIO_ctrl" "BIO_C_GET_CIPHER_CTX" [Num 0; Param "c_pp"]) false].

Definition ctrl_macros : list macro := (SSL_macros ++ TLSEXT_macros ++ BIO_macros ++ EVP_BIO_macros)%list.

(** The commands of one object; an algorithm's commands are sent with those of
    every key. *)
Definition command_families : list (list (string * command)) := [
  SSL_commands; BIO_commands; EVP_MD_commands; EVP_CIPHER_commands; ASN1_PKEY_commands;
  (EVP_PKEY_commands ++ RSA_commands)%list; (EVP_PKEY_commands ++ DH_commands)%list;
  (EVP_PKEY_commands ++ DSA_commands)%list; (EVP_PKEY_commands ++ EC_commands)%list;
  (EVP_PKEY_commands ++ KDF_commands)%list; ENGINE_commands].

(** ** What the preprocessor makes of them *)

(** The number of a command of a family; a macro that names another names one
    with a number. *)
Definition command_number (fam : gmap string command) (name : string) : option Z :=
  match fam !! name with
  | Some (Number n) => Some n
  | Some (Same name') => match fam !! name' with Some (Number n) => Some n | _ => None end
  | None => None
  end.
(** The macro that has the number. *)
Definition command_macro (fam : gmap string command) (name : string) : string :=
  match fam !! name with Some (Same name') => name' | _ => name end.

(** The parameters in an expression, replaced. *)
Fixpoint assoc {A} (s : list (string * A)) (x : string) : option A :=
  match s with
  | [] => None
  | (y, a) :: s => if String.eqb x y then Some a else assoc s x
  end.
Fixpoint subst (s : list (string * expr)) (e : expr) : expr :=
  match e with
  | Param x => default e (assoc s x)
  | Cond c a b => Cond (subst s c) (subst s a) (subst s b)
  | Num _ | Text _ | Arg _ => e
  end.

(** A call of the library in a macro's expansion. *)
Record ctrl : Type := Ctrl {
  ctrl_fn : string;
  ctrl_cmd : string;
  ctrl_object : expr;
  ctrl_args : list expr;
  ctrl_test : bool;
}.

Section expansion.
Context (ms : gmap string macro).

(** The macro with parameters that a name stands for. *)
Definition resolve (name : string) : option macro :=
  m ← ms !! name;
  match macro_body m with Rename name' => ms !! name' | _ => Some m end.
Definition arity (name : string) : option nat := m ← resolve name; Some (length (macro_params m)).

Fixpoint expand (fuel : nat) (name : string) (args : list expr) : option ctrl :=
  match fuel with
  | O => None
  | S fuel =>
      m ← resolve name;
      let s := zip (macro_params m) args in
      match macro_body m, args with
      | Call fn cmd es, obj :: _ => Some (Ctrl fn cmd obj (subst s <$> es) (macro_test m))
      | Expand name' es, obj :: _ => expand fuel name' (obj :: (subst s <$> es))
      | _, _ => None
      end
  end.

(** A macro with the arguments it is called with; no macro expands to one that
    expands to a third. *)
Definition expansion (name : string) : option ctrl := n ← arity name; expand 2 name (Arg <$> seq 0 n).
End expansion.

(** ** What a call passes to the library *)

Inductive value : Type := Int (z : Z) | Chars (s : string).
Fixpoint eval (vs : list value) (e : expr) : option value :=
  match e with
  | Num z => Some (Int z)
  | Text s => Some (Chars s)
  | Param _ => None
  | Cond c a b => v ← eval vs c; match v with Int 0 => eval vs b | _ => eval vs a end
  | Arg i => vs !! i
  end.

Record ctrl_call : Type := Ctrl_call {
  call_fn : string;
  call_cmd : Z;
  call_object : value;
  call_args : list value;
  call_test : bool;
}.

Definition macros : gmap string macro := list_to_map ((λ m, (macro_name m, m)) <$> ctrl_macros).
Definition SSL_family : gmap string command := list_to_map SSL_commands.
Definition BIO_family : gmap string command := list_to_map BIO_commands.
Definition family_of (fn : string) : gmap string command := if String.prefix "SSL" fn then SSL_family else BIO_family.

Definition call_of (vs : list value) (c : ctrl) : option ctrl_call :=
  cmd ← command_number (family_of (ctrl_fn c)) (ctrl_cmd c);
  obj ← eval vs (ctrl_object c);
  args ← mapM (eval vs) (ctrl_args c);
  Some (Ctrl_call (ctrl_fn c) cmd obj args (ctrl_test c)).

(** The call that [name(vs)] makes. *)
Definition send (name : string) (vs : list value) : option ctrl_call :=
  n ← arity macros name;
  if (length vs =? n)%nat then expansion macros name ≫= call_of vs else None.
