(* ===== verification/CtrlProperties.v ===== *)
(** * Properties of the control commands

    The macros of one kind of object never make the same call, so that the
    library can tell which one was used. Two macros are compared by what their
    expansions may pass, whatever the arguments. *)

From S2P Require Import Prelude CtrlCommands.
From stdpp Require Import strings ssreflect.
Local Open Scope string_scope.
Local Open Scope Z_scope.

#[local] Instance value_eq_dec : EqDecision value.
Proof. solve_decision. Defined.
#[local] Instance expr_eq_dec : EqDecision expr.
Proof. solve_decision. Defined.

(** ** Expressions that may have one value *)

(** Can the expression be [v]? *)
Fixpoint may_be (v : value) (e : expr) : bool :=
  match e with
  | Num z => bool_decide (v = Int z)
  | Text s => bool_decide (v = Chars s)
  | Cond _ a b => may_be v a || may_be v b
  | Param _ | Arg _ => true
  end.
Fixpoint may_equal (e e' : expr) : bool :=
  match e with
  | Num z => may_be (Int z) e'
  | Text s => may_be (Chars s) e'
  | Cond _ a b => may_equal a e' || may_equal b e'
  | Param _ | Arg _ => true
  end.
(** Only arguments with a number below [n]. *)
Fixpoint closed (n : nat) (e : expr) : bool :=
  match e with
  | Num _ | Text _ => true
  | Param _ => false
  | Cond c a b => closed n c && closed n a && closed n b
  | Arg i => (i <? n)%nat
  end.

Lemma eval_Cond vs c a b v :
  eval vs (Cond c a b) = Some v → eval vs a = Some v ∨ eval vs b = Some v.
Proof. cbn. destruct (eval vs c) as [[[]|]|]; cbn; auto; done. Qed.

Lemma may_be_eval vs e v : eval vs e = Some v → may_be v e = true.
Proof.
  induction e as [z|s|x|c _ a IHa b IHb|i]; [| |done| |done].
  - intros [= <-]. by apply bool_decide_eq_true.
  - intros [= <-]. by apply bool_decide_eq_true.
  - intros [H|H]%eval_Cond; cbn; apply orb_true_iff; auto.
Qed.

Lemma may_equal_eval vs ws e e' v : eval vs e = Some v → eval ws e' = Some v → may_equal e e' = true.
Proof.
  intros H H'. induction e as [z|s|x|c _ a IHa b IHb|i]; [| |done| |done].
  - injection H as <-. by eapply may_be_eval.
  - injection H as <-. by eapply may_be_eval.
  - apply eval_Cond in H as [H|H]; cbn; apply orb_true_iff; auto.
Qed.

Lemma eval_closed vs e : closed (length vs) e = true → is_Some (eval vs e).
Proof.
  induction e as [z|s|x|c IHc a IHa b IHb|i]; cbn; [by eexists|by eexists|done| |].
  - intros [[[v ->]%IHc Ha%IHa]%andb_prop Hb%IHb]%andb_prop. cbn. by destruct v as [[]|].
  - intros H. by apply lookup_lt_is_Some, Nat.ltb_lt.
Qed.

(** ** Calls that may be the same *)

Definition command_of (c : ctrl) : option Z := command_number (family_of (ctrl_fn c)) (ctrl_cmd c).
Definition may_clash (c c' : ctrl) : bool :=
  if String.eqb (ctrl_fn c) (ctrl_fn c') then
    bool_decide (command_of c = command_of c') && eqb (ctrl_test c) (ctrl_test c') &&
    forallb (λ p, may_equal p.1 p.2) (zip (ctrl_args c) (ctrl_args c'))
  else false.

Lemma mapM_zip vs ws es es' rs :
  mapM (eval vs) es = Some rs → mapM (eval ws) es' = Some rs →
  forallb (λ p, may_equal p.1 p.2) (zip es es') = true.
Proof.
  intros H H'. apply mapM_Some in H, H'. revert es' H'.
  induction H as [|e r es rs He _ IH]; intros es' H'; inversion H' as [|e' ? es2 ? He' H2]; subst; [done|].
  cbn. apply andb_true_iff. split; [by eapply may_equal_eval|by apply IH].
Qed.

Lemma call_of_clash vs ws c c' k : call_of vs c = Some k → call_of ws c' = Some k → may_clash c c' = true.
Proof.
  unfold call_of, may_clash, command_of.
  intros (n & Hn & (o & Ho & (r & Hr & [= <-])%bind_Some)%bind_Some)%bind_Some.
  intros (n' & Hn' & (o' & Ho' & (r' & Hr' & [= Hf E Eo Er Ht])%bind_Some)%bind_Some)%bind_Some.
  rewrite Hn Hn' Hf Ht E String.eqb_refl eqb_reflx bool_decide_true //. cbn.
  subst r'. by apply (mapM_zip vs ws _ _ r).
Qed.

Lemma call_of_closed vs c :
  is_Some (command_of c) → closed (length vs) (ctrl_object c) = true →
  forallb (closed (length vs)) (ctrl_args c) = true → is_Some (call_of vs c).
Proof.
  unfold command_of, call_of. intros [n ->] [o Ho]%eval_closed Hargs. cbn. rewrite Ho. cbn.
  destruct (mapM (eval vs) (ctrl_args c)) as [r|] eqn:E; cbn; [by eexists|exfalso].
  apply mapM_None_1, Exists_exists in E as (e & He & Hn). rewrite forallb_forall in Hargs.
  destruct (eval_closed vs e) as [v Hv]; [by apply Hargs, list_elem_of_In|congruence].
Qed.

(** ** The checks *)

(** Names of one command, and three numbers given twice. *)
Definition shared_numbers : list (string * string) := [
  ("SSL_CTRL_SET_SRP_VERIFY_PARAM_CB", "SSL_CTRL_GET_RI_SUPPORT");
  ("SSL_CTRL_SET_SRP_ARG", "SSL_CTRL_CLEAR_MODE");
  ("SSL_CTRL_SET_TLS_EXT_SRP_USERNAME", "SSL_CTRL_SET_NOT_RESUMABLE_SESS_CB")].
(** Macros that make the same call: a getter that sets nothing, a setter with
    NULL, old names, and the three names of BIO_C_DO_STATE_MACHINE. *)
Definition same_calls : list (string * string) := [
  ("SSL_CTX_set_mode", "SSL_CTX_get_mode"); ("SSL_set_mode", "SSL_get_mode");
  ("SSL_CTX_set0_chain", "SSL_CTX_clear_chain_certs"); ("SSL_set0_chain", "SSL_clear_chain_certs");
  ("SSL_get1_groups", "SSL_get1_curves"); ("SSL_CTX_set1_groups", "SSL_CTX_set1_curves");
  ("SSL_CTX_set1_groups_list", "SSL_CTX_set1_curves_list"); ("SSL_set1_groups", "SSL_set1_curves");
  ("SSL_set1_groups_list", "SSL_set1_curves_list"); ("SSL_get_shared_group", "SSL_get_shared_curve");
  ("SSL_get_peer_tmp_key", "SSL_get_server_tmp_key");
  ("SSL_CTX_get_default_read_ahead", "SSL_CTX_get_read_ahead");
  ("SSL_CTX_set_default_read_ahead", "SSL_CTX_set_read_ahead");
  ("BIO_do_connect", "BIO_do_accept"); ("BIO_do_connect", "BIO_do_handshake"); ("BIO_do_accept", "BIO_do_handshake")].
Definition listed (l : list (string * string)) (x y : string) : bool := bool_decide ((x, y) ∈ l) || bool_decide ((y, x) ∈ l).

Definition family_okb (fam : list (string * command)) : bool :=
  let m : gmap string command := list_to_map fam in
  forallb (λ e, forallb (λ e', if bool_decide (command_number m e.1 = command_number m e'.1)
    then String.eqb (command_macro m e.1) (command_macro m e'.1) || listed shared_numbers e.1 e'.1 else true) fam &&
    bool_decide (is_Some (command_number m e.1))) fam.

(** The functions that take a command. *)
Definition ctrl_functions : list string := [
  "SSL_ctrl"; "SSL_CTX_ctrl"; "SSL_callback_ctrl"; "SSL_CTX_callback_ctrl";
  "BIO_ctrl"; "BIO_int_ctrl"; "BIO_ptr_ctrl"; "BIO_callback_ctrl"].
Definition names : list string := macro_name <$> ctrl_macros.
Definition expansions : list (string * ctrl) := omap (λ x, c ← expansion macros x; Some (x, c)) names.
Definition macro_okb (x : string) : bool :=
  match arity macros x, expansion macros x with
  | Some n, Some c =>
      bool_decide (ctrl_fn c ∈ ctrl_functions) && bool_decide (is_Some (command_of c)) &&
      bool_decide (ctrl_object c = Arg 0) && (0 <? n)%nat && forallb (closed n) (ctrl_args c)
  | _, _ => false
  end.
(** The macro for a connection and the one for a context do the same. *)
Definition parallel_okb (e : string * ctrl) : bool :=
  if String.prefix "SSL_CTX_" e.1 then
    match expansion macros ("SSL_" +:+ String.substring 8 (String.length e.1) e.1) with
    | Some c => bool_decide (ctrl_args e.2 = ctrl_args c) && bool_decide (command_of e.2 = command_of c)
    | None => true
    end
  else true.
Lemma families_ok : forallb family_okb command_families = true.
Proof. by vm_compute. Qed.
Lemma macros_ok : bool_decide (NoDup names) && forallb macro_okb names = true.
Proof. by vm_compute. Qed.
Lemma expansions_ok :
  forallb (λ e, forallb (λ e', if may_clash e.2 e'.2 then String.eqb e.1 e'.1 || listed same_calls e.1 e'.1 else true) expansions) expansions = true.
Proof. by vm_compute. Qed.
Lemma parallel_ok : forallb parallel_okb expansions = true.
Proof. by vm_compute. Qed.

Lemma macros_names x m : macros !! x = Some m → x ∈ names.
Proof.
  unfold macros. intros H%elem_of_list_to_map_2. apply list_elem_of_fmap in H as (m' & [= -> ->] & Hm).
  by apply list_elem_of_fmap_2.
Qed.
Lemma expansions_in x c : x ∈ names → expansion macros x = Some c → (x, c) ∈ expansions.
Proof. intros Hx Hc. apply list_elem_of_omap. exists x. split; [done|]. by rewrite Hc. Qed.
Lemma names_in m : m ∈ ctrl_macros → macro_name m ∈ names.
Proof. apply list_elem_of_fmap_2. Qed.
#[local] Opaque macros ctrl_macros command_families expansions names SSL_family BIO_family.

(** A macro that makes a call has an expansion. *)
Lemma send_expansion x vs k :
  send x vs = Some k → ∃ c, expansion macros x = Some c ∧ (x, c) ∈ expansions ∧ call_of vs c = Some k.
Proof.
  unfold send. intros (n & Hn & H)%bind_Some. case_match; [|done].
  apply bind_Some in H as (c & Hc & Hk). exists c.
  assert (x ∈ names) as Hx.
  { unfold arity, resolve in Hn. apply bind_Some in Hn as (m & (m' & Hm' & _)%bind_Some & _).
    by eapply macros_names. }
  split_and!; [done|by apply expansions_in|done].
Qed.

Lemma listed_spec l x y : listed l x y = true → (x, y) ∈ l ∨ (y, x) ∈ l.
Proof. unfold listed. intros [?%bool_decide_eq_true|?%bool_decide_eq_true]%orb_prop; auto. Qed.

Lemma send_clash x y vs ws k :
  send x vs = Some k → send y ws = Some k → x = y ∨ (x, y) ∈ same_calls ∨ (y, x) ∈ same_calls.
Proof.
  intros (c & _ & Hc & Hk)%send_expansion (c' & _ & Hc' & Hk')%send_expansion.
  pose proof expansions_ok as H. rewrite forallb_forall in H. apply list_elem_of_In, H in Hc. cbn [fst snd] in Hc.
  rewrite forallb_forall in Hc. apply list_elem_of_In, Hc in Hc'. cbn [fst snd] in Hc'.
  rewrite (call_of_clash vs ws c c' k) // in Hc'.
  apply orb_prop in Hc' as [->%String.eqb_eq|?%listed_spec]; auto.
Qed.

Lemma substring_all n s : (String.length s ≤ n)%nat → String.substring 0 n s = s.
Proof. revert n. induction s as [|c s IH]; intros [|n]; cbn; [done..|lia|]. intros. rewrite IH //. lia. Qed.

Lemma send_parallel s vs k k' :
  send ("SSL_CTX_" +:+ s) vs = Some k → send ("SSL_" +:+ s) vs = Some k' →
  call_cmd k = call_cmd k' ∧ call_args k = call_args k'.
Proof.
  intros (c & _ & Hc & Hk)%send_expansion (c' & Hc' & _ & Hk')%send_expansion.
  pose proof parallel_ok as H. rewrite forallb_forall in H. apply list_elem_of_In, H in Hc.
  unfold parallel_okb in Hc. cbn [fst snd] in Hc.
  assert (String.prefix "SSL_CTX_" ("SSL_CTX_" +:+ s) = true) as Hp by (by destruct s). rewrite Hp in Hc.
  assert (String.substring 8 (String.length ("SSL_CTX_" +:+ s)) ("SSL_CTX_" +:+ s) = s) as Hs.
  { cbn. apply substring_all. do 8 apply le_S. done. }
  rewrite Hs Hc' in Hc. apply andb_prop in Hc as [Ha%bool_decide_eq_true Hn%bool_decide_eq_true].
  unfold call_of in Hk, Hk'. unfold command_of in Hn.
  apply bind_Some in Hk as (n & En & (o & _ & (r & Er & [= <-])%bind_Some)%bind_Some).
  apply bind_Some in Hk' as (n' & En' & (o' & _ & (r' & Er' & [= <-])%bind_Some)%bind_Some).
  cbn. split; congruence.
Qed.

Lemma send_total m vs :
  m ∈ ctrl_macros → arity macros (macro_name m) = Some (length vs) →
  ∃ k, send (macro_name m) vs = Some k ∧ call_fn k ∈ ctrl_functions ∧ vs !! 0%nat = Some (call_object k).
Proof.
  intros Hm Ha. pose proof macros_ok as [_ H]%andb_prop. rewrite forallb_forall in H.
  assert (macro_okb (macro_name m) = true) as Hx by (by apply H, list_elem_of_In, names_in). clear H.
  unfold macro_okb in Hx. rewrite Ha in Hx. destruct (expansion macros (macro_name m)) as [c|] eqn:Hc; [|done].
  apply andb_prop in Hx as [[[[Hf%bool_decide_eq_true Hn%bool_decide_eq_true]%andb_prop Ho%bool_decide_eq_true]%andb_prop Hl]%andb_prop Hargs].
  destruct (call_of_closed vs c) as [k Hk]; [done|by rewrite Ho|done|].
  exists k. unfold send. rewrite Ha /= Nat.eqb_refl Hc /=. split; [done|].
  unfold call_of in Hk. apply bind_Some in Hk as (n & _ & (o & Eo & (r & _ & [= <-])%bind_Some)%bind_Some).
  cbn. split; [done|]. by rewrite Ho in Eo.
Qed.

Lemma family_numbers fam x y n :
  fam ∈ command_families → let m : gmap string command := list_to_map fam in
  command_number m x = Some n → command_number m y = Some n →
  command_macro m x = command_macro m y ∨ (x, y) ∈ shared_numbers ∨ (y, x) ∈ shared_numbers.
Proof.
  intros Hfam m Hx Hy. pose proof families_ok as H. rewrite forallb_forall in H.
  apply list_elem_of_In, H in Hfam. unfold family_okb in Hfam. fold m in Hfam. rewrite forallb_forall in Hfam.
  assert (∀ z, is_Some (command_number m z) → ∃ v, (z, v) ∈ fam) as Hin.
  { unfold command_number. intros z [k Hk]. destruct (m !! z) as [v|] eqn:E; [|done].
    exists v. by apply elem_of_list_to_map_2. }
  destruct (Hin x) as [v Hv], (Hin y) as [w Hw]; [by eexists..|].
  apply list_elem_of_In, Hfam, andb_prop in Hv as [Hv _]. rewrite forallb_forall in Hv.
  apply list_elem_of_In, Hv in Hw. cbn [fst] in Hw. rewrite bool_decide_true in Hw; [|congruence].
  apply orb_prop in Hw as [?%String.eqb_eq|?%listed_spec]; auto.
Qed.

(** C31: the control macros of OpenSSL (for connections, contexts and BIOs) and
    the numbers they send. In each family of commands a number belongs to one
    command, but for three numbers that commands for SRP share with others. Every
    macro, with any arguments, calls one of the library's control functions with
    a command that is defined, on its first argument. Two macros make the same
    call only if they are one of the sixteen pairs of [same_calls]: two names of
    one operation (for curves and groups, keys and reading ahead), a getter or a
    macro that clears and the setter of 0 or NULL, or two of BIO_do_connect,
    BIO_do_accept and BIO_do_handshake, which all run the state machine of the
    BIO, whatever it does. The library can tell any others apart whatever their
    arguments. A macro for a context sends the command and the arguments of the
    one for a connection with the same name. *)
Theorem control_calls_distinguished :
  (∀ fam x y n, fam ∈ command_families → let m : gmap string command := list_to_map fam in
     command_number m x = Some n → command_number m y = Some n →
     command_macro m x = command_macro m y ∨ (x, y) ∈ shared_numbers ∨ (y, x) ∈ shared_numbers) ∧
  (∀ m vs, m ∈ ctrl_macros → arity macros (macro_name m) = Some (length vs) →
     ∃ k, send (macro_name m) vs = Some k ∧ call_fn k ∈ ctrl_functions ∧ vs !! 0%nat = Some (call_object k)) ∧
  (∀ x y vs ws k, send x vs = Some k → send y ws = Some k →
     x = y ∨ (x, y) ∈ same_calls ∨ (y, x) ∈ same_calls) ∧
  (∀ s vs k k', send ("SSL_CTX_" +:+ s) vs = Some k → send ("SSL_" +:+ s) vs = Some k' →
     call_cmd k = call_cmd k' ∧ call_args k = call_args k').
Proof.
  split_and!; [intros; by eapply family_numbers|apply send_total|apply send_clash|apply send_parallel].
Qed.

#[local] Transparent macros ctrl_macros command_families expansions names SSL_family BIO_family.

(** Setting the mode 5 of a context and of a connection, both at 0x1000. *)
Lemma control_calls_distinguished_witness :
  (∃ k, send "SSL_set_mode" [Int 0x1000; Int 5] = Some k ∧ call_fn k ∈ ctrl_functions ∧
        [Int 0x1000; Int 5] !! 0%nat = Some (call_object k)) ∧
  (33 = 33 ∧ [Int 5; Int 0] = [Int 5; Int 0]) ∧
  ("SSL_set_mode" = "SSL_get_mode" ∨ ("SSL_set_mode", "SSL_get_mode") ∈ same_calls ∨ ("SSL_get_mode", "SSL_set_mode") ∈ same_calls).
Proof.
  destruct control_calls_distinguished as (_ & Htotal & Hclash & Hparallel). split_and!.
  - apply (Htotal (Macro "SSL_set_mode" ["ssl"; "op"] (Call "SSL_ctrl" "SSL_CTRL_MODE" [Param "op"; NULL]) false));
      [unfold ctrl_macros; do 4 right; left|vm_compute; reflexivity].
  - exact (proj1 (Hparallel "set_mode" [Int 0x1000; Int 5] (Ctrl_call "SSL_CTX_ctrl" 33 (Int 0x1000) [Int 5; Int 0] false)
      (Ctrl_call "SSL_ctrl" 33 (Int 0x1000) [Int 5; Int 0] false) ltac:(vm_compute; reflexivity) ltac:(vm_compute; reflexivity))).
  - exact (proj2 (Hparallel "set_mode" [Int 0x1000; Int 5] (Ctrl_call "SSL_CTX_ctrl" 33 (Int 0x1000) [Int 5; Int 0] false)
      (Ctrl_call "SSL_ctrl" 33 (Int 0x1000) [Int 5; Int 0] false) ltac:(vm_compute; reflexivity) ltac:(vm_compute; reflexivity))).
  - apply (Hclash _ _ [Int 0x1000; Int 0] [Int 0x1000] (Ctrl_call "SSL_ctrl" 33 (Int 0x1000) [Int 0; Int 0] false));
      vm_compute; reflexivity.
Defined.
