(* ===== verification/OpensslRaise.v ===== *)
(** * Raising OpenSSL errors and tracing

    The macros of [openssl/err.h] that raise an error and those of
    [openssl/trace.h] that write trace output: sequences of calls of the
    library, which keeps the queue of errors and the trace channels. Its
    functions and their state are a parameter. *)

From S2P Require Import Prelude OpensslErr.
From stdpp Require Import strings.
Local Open Scope string_scope.
Local Open Scope Z_scope.

(** ** The place of a call *)

(** Where a macro is used, and what the build defines. *)
Record call_site : Type := { FILE : string; LINE : Z; FUNCTION : string }.
Record build : Type := {
  predefined_file : option (string * Z);   (* OPENSSL_FILE and OPENSSL_LINE *)
  predefined_func : option string;         (* OPENSSL_FUNC *)
  OPENSSL_NO_FILENAMES : bool;
  STDC_VERSION : option Z;
  GNUC : option Z;
  MSC_VER : bool;
  OPENSSL_NO_TRACE : bool;
  FIPS_MODULE : bool;
}.

Definition OPENSSL_FILE (b : build) (site : call_site) : string :=
  match predefined_file b with
  | Some (file, _) => file
  | None => if OPENSSL_NO_FILENAMES b then "" else FILE site
  end.
Definition OPENSSL_LINE (b : build) (site : call_site) : Z :=
  match predefined_file b with
  | Some (_, line) => line
  | None => if OPENSSL_NO_FILENAMES b then 0 else LINE site
  end.
Definition OPENSSL_FUNC (b : build) (site : call_site) : string :=
  match predefined_func b with
  | Some f => f
  | None =>
      match STDC_VERSION b with
      | Some v => if v >=? 199901 then FUNCTION site
                  else match GNUC b with Some g => if g >=? 2 then FUNCTION site else "(unknown function)"
                                    | None => "(unknown function)" end
      | None => if MSC_VER b then FUNCTION site else "(unknown function)"
      end
  end.

(** ** Errors *)

(** The functions on the queue of the thread's errors. [None] is a null pointer;
    [format] is a format with its arguments. *)
Class ErrLibrary (S format : Type) := {
  ERR_new : M S unit;
  ERR_set_debug : option string → Z → option string → M S unit;
  ERR_set_error : Z → Z → option format → M S unit;
}.

Section errors.
Context {S format : Type} `{!ErrLibrary S format} (b : build).

Definition ERR_raise_data (site : call_site) (lib reason : Z) (data : option format) : M S unit :=
  ERR_new;;
  ERR_set_debug (Some (OPENSSL_FILE b site)) (OPENSSL_LINE b site) (Some (OPENSSL_FUNC b site));;
  ERR_set_error lib reason data.
Definition ERR_raise (site : call_site) (lib reason : Z) : M S unit := ERR_raise_data site lib reason None.

(** The older macros. The number of the function is not used. *)
Definition ERR_put_error (site : call_site) (lib func reason : Z) (file : option string) (line : Z) : M S unit :=
  ERR_new;;
  ERR_set_debug file line (Some (OPENSSL_FUNC b site));;
  ERR_set_error lib reason None.
Definition ERR_PUT_error (site : call_site) (l f r : Z) (fn : option string) (ln : Z) : M S unit :=
  if OPENSSL_NO_FILENAMES b then ERR_put_error site l f r None 0 else ERR_put_error site l f r fn ln.

(** [ASN1err(f, r)] to [X509err(f, r)]: each with its library. *)
Definition err_macros : list (string * Z) := [
  ("ASN1err", ERR_LIB_ASN1); ("ASYNCerr", ERR_LIB_ASYNC); ("BIOerr", ERR_LIB_BIO);
  ("BNerr", ERR_LIB_BN); ("BUFerr", ERR_LIB_BUF); ("CMPerr", ERR_LIB_CMP);
  ("CMSerr", ERR_LIB_CMS); ("COMPerr", ERR_LIB_COMP); ("CONFerr", ERR_LIB_CONF);
  ("CRMFerr", ERR_LIB_CRMF); ("CRYPTOerr", ERR_LIB_CRYPTO); ("CTerr", ERR_LIB_CT);
  ("DHerr", ERR_LIB_DH); ("DSAerr", ERR_LIB_DSA); ("DSOerr", ERR_LIB_DSO);
  ("ECDHerr", ERR_LIB_ECDH); ("ECDSAerr", ERR_LIB_ECDSA); ("ECerr", ERR_LIB_EC);
  ("ENGINEerr", ERR_LIB_ENGINE); ("ESSerr", ERR_LIB_ESS); ("EVPerr", ERR_LIB_EVP);
  ("FIPSerr", ERR_LIB_FIPS); ("HMACerr", ERR_LIB_HMAC); ("HTTPerr", ERR_LIB_HTTP);
  ("KDFerr", ERR_LIB_KDF); ("OBJerr", ERR_LIB_OBJ); ("OCSPerr", ERR_LIB_OCSP);
  ("OSSL_STOREerr", ERR_LIB_OSSL_STORE); ("PEMerr", ERR_LIB_PEM); ("PKCS12err", ERR_LIB_PKCS12);
  ("PKCS7err", ERR_LIB_PKCS7); ("PROPerr", ERR_LIB_PROP); ("PROVerr", ERR_LIB_PROV);
  ("RANDerr", ERR_LIB_RAND); ("RSAerr", ERR_LIB_RSA); ("KDFerr", ERR_LIB_KDF);
  ("SM2err", ERR_LIB_SM2); ("SSLerr", ERR_LIB_SSL); ("SYSerr", ERR_LIB_SYS);
  ("TSerr", ERR_LIB_TS); ("UIerr", ERR_LIB_UI); ("X509V3err", ERR_LIB_X509V3);
  ("X509err", ERR_LIB_X509)].
Definition library_err (lib : Z) (site : call_site) (f r : Z) : M S unit := ERR_raise_data site lib r None.
End errors.

(** ** Tracing *)

Definition OSSL_TRACE_CATEGORY_ALL : Z := 0.
Definition OSSL_TRACE_CATEGORY_TRACE : Z := 1.
Definition OSSL_TRACE_CATEGORY_INIT : Z := 2.
Definition OSSL_TRACE_CATEGORY_TLS : Z := 3.
Definition OSSL_TRACE_CATEGORY_TLS_CIPHER : Z := 4.
Definition OSSL_TRACE_CATEGORY_CONF : Z := 5.
Definition OSSL_TRACE_CATEGORY_ENGINE_TABLE : Z := 6.
Definition OSSL_TRACE_CATEGORY_ENGINE_REF_COUNT : Z := 7.
Definition OSSL_TRACE_CATEGORY_PKCS5V2 : Z := 8.
Definition OSSL_TRACE_CATEGORY_PKCS12_KEYGEN : Z := 9.
Definition OSSL_TRACE_CATEGORY_PKCS12_DECRYPT : Z := 10.
Definition OSSL_TRACE_CATEGORY_X509V3_POLICY : Z := 11.
Definition OSSL_TRACE_CATEGORY_BN_CTX : Z := 12.
Definition OSSL_TRACE_CATEGORY_CMP : Z := 13.
Definition OSSL_TRACE_CATEGORY_STORE : Z := 14.
Definition OSSL_TRACE_CATEGORY_DECODER : Z := 15.
Definition OSSL_TRACE_CATEGORY_ENCODER : Z := 16.
Definition OSSL_TRACE_CATEGORY_REF_COUNT : Z := 17.
Definition OSSL_TRACE_CATEGORY_NUM : Z := 18.
Definition trace_categories (OPENSSL_NO_ENGINE : bool) : list Z :=
  [OSSL_TRACE_CATEGORY_ALL; OSSL_TRACE_CATEGORY_TRACE; OSSL_TRACE_CATEGORY_INIT; OSSL_TRACE_CATEGORY_TLS;
   OSSL_TRACE_CATEGORY_TLS_CIPHER; OSSL_TRACE_CATEGORY_CONF] ++
  (if OPENSSL_NO_ENGINE then [] else [OSSL_TRACE_CATEGORY_ENGINE_TABLE; OSSL_TRACE_CATEGORY_ENGINE_REF_COUNT]) ++
  [OSSL_TRACE_CATEGORY_PKCS5V2; OSSL_TRACE_CATEGORY_PKCS12_KEYGEN; OSSL_TRACE_CATEGORY_PKCS12_DECRYPT;
   OSSL_TRACE_CATEGORY_X509V3_POLICY; OSSL_TRACE_CATEGORY_BN_CTX; OSSL_TRACE_CATEGORY_CMP;
   OSSL_TRACE_CATEGORY_STORE; OSSL_TRACE_CATEGORY_DECODER; OSSL_TRACE_CATEGORY_ENCODER;
   OSSL_TRACE_CATEGORY_REF_COUNT].

(** A [BIO *] is an address, null when 0; [arg] is the type of the arguments that
    [BIO_printf] formats. *)
Class TraceLibrary (S arg : Type) := {
  OSSL_trace_begin : Z → M S Z;
  OSSL_trace_end : Z → Z → M S unit;
  OSSL_trace_enabled : Z → M S Z;
  BIO_printf : Z → string → list arg → M S Z;
}.

(** How a block ends: it goes on after its end, leaves the loop around it, or
    leaves the function with a value. *)
Inductive flow (R : Type) : Type := Next | Break | Leave (v : R).
Arguments Next {R}.
Arguments Break {R}.
Arguments Leave {R} v.

Section trace.
Context {S arg : Type} `{!TraceLibrary S arg} (b : build).

Definition no_trace : bool := OPENSSL_NO_TRACE b || FIPS_MODULE b.

(** [OSSL_TRACE_BEGIN(category) { body } OSSL_TRACE_END(category)]; the body uses
    [trc_out]. The macros are a loop [do { ... } while (0)]: a [break] of the body
    goes on after it. *)
Definition OSSL_TRACE_BEGIN_END {R} (category : Z) (body : Z → M S (flow R)) : M S (flow R) :=
  if no_trace then
    let trc_out := 0 in
    if false then body trc_out else mret Next
  else
    trc_out ← OSSL_trace_begin category;
    r ← (if negb (trc_out =? 0) then body trc_out else mret Next);
    match r with
    | Next => OSSL_trace_end category trc_out;; mret Next
    | Break => mret Next
    | Leave v => mret (Leave v)
    end.
Definition OSSL_TRACE_CANCEL (category trc_out : Z) : M S unit :=
  if no_trace then mret tt else OSSL_trace_end category trc_out.
Definition OSSL_TRACE_ENABLED (category : Z) : M S Z :=
  if no_trace then mret 0 else OSSL_trace_enabled category.

(** [args] are the arguments of [BIO_printf], in which [trc_out] may occur. *)
Definition OSSL_TRACEV (category : Z) (args : Z → Z * string * list arg) : M S unit :=
  if no_trace then mret tt else
  OSSL_TRACE_BEGIN_END category (λ trc_out,
    let '(bio, format, as_) := args trc_out in
    BIO_printf bio format as_;; mret (Next : flow unit));;
  mret tt.
Definition OSSL_TRACE (category : Z) (text : arg) : M S unit :=
  OSSL_TRACEV category (λ trc_out, (trc_out, "%s", [text])).
Definition OSSL_TRACE1 (category : Z) (format : string) (arg1 : arg) : M S unit :=
  OSSL_TRACEV category (λ trc_out, (trc_out, format, [arg1])).
Definition OSSL_TRACE2 (category : Z) (format : string) (arg1 arg2 : arg) : M S unit :=
  OSSL_TRACEV category (λ trc_out, (trc_out, format, [arg1; arg2])).
Definition OSSL_TRACE3 (category : Z) (format : string) (arg1 arg2 arg3 : arg) : M S unit :=
  OSSL_TRACEV category (λ trc_out, (trc_out, format, [arg1; arg2; arg3])).
Definition OSSL_TRACE4 (category : Z) (format : string) (arg1 arg2 arg3 arg4 : arg) : M S unit :=
  OSSL_TRACEV category (λ trc_out, (trc_out, format, [arg1; arg2; arg3; arg4])).
Definition OSSL_TRACE5 (category : Z) (format : string) (arg1 arg2 arg3 arg4 arg5 : arg) : M S unit :=
  OSSL_TRACEV category (λ trc_out, (trc_out, format, [arg1; arg2; arg3; arg4; arg5])).
Definition OSSL_TRACE6 (category : Z) (format : string) (arg1 arg2 arg3 arg4 arg5 arg6 : arg) : M S unit :=
  OSSL_TRACEV category (λ trc_out, (trc_out, format, [arg1; arg2; arg3; arg4; arg5; arg6])).
Definition OSSL_TRACE7 (category : Z) (format : string) (arg1 arg2 arg3 arg4 arg5 arg6 arg7 : arg) : M S unit :=
  OSSL_TRACEV category (λ trc_out, (trc_out, format, [arg1; arg2; arg3; arg4; arg5; arg6; arg7])).
Definition OSSL_TRACE8 (category : Z) (format : string) (arg1 arg2 arg3 arg4 arg5 arg6 arg7 arg8 : arg) : M S unit :=
  OSSL_TRACEV category (λ trc_out, (trc_out, format, [arg1; arg2; arg3; arg4; arg5; arg6; arg7; arg8])).
Definition OSSL_TRACE9 (category : Z) (format : string) (arg1 arg2 arg3 arg4 arg5 arg6 arg7 arg8 arg9 : arg) : M S unit :=
  OSSL_TRACEV category (λ trc_out, (trc_out, format, [arg1; arg2; arg3; arg4; arg5; arg6; arg7; arg8; arg9])).
End trace.
