(* ===== verification/RaiseProperties.v ===== *)
(** * Properties of the macros that raise errors and trace

    The documented behaviour of the library's functions is a class of laws, of
    which a queue and a table of channels are instances. *)

From S2P Require Import Prelude ByteMemory OpensslErr OpensslFacts OpensslRaise.
From stdpp Require Import strings ssreflect.
Local Open Scope string_scope.
Local Open Scope Z_scope.

(** ** Errors *)

(** An entry of the queue. *)
Record error (format : Type) : Type := {
  err_code : Z;
  err_file : option string;
  err_line : Z;
  err_func : option string;
  err_data : option format;
}.
Arguments err_code {_} _.
Arguments err_file {_} _.
Arguments err_line {_} _.
Arguments err_func {_} _.
Arguments err_data {_} _.

(** A library and a reason that an error's code has room for: a system error has
    31 bits for the reason, another one 8 bits for the library and 23 for the
    reason. *)
Definition encodable (lib reason : Z) : Prop :=
  (lib = ERR_LIB_SYS ∧ 0 ≤ reason < 2 ^ 31) ∨ (0 < lib < 2 ^ 8 ∧ 0 ≤ reason < 2 ^ 23).

(** What [OPENSSL_FUNC] is where no build defines it: the compiler has
    [__func__], or [__FUNCTION__] by one of the rules of macros.h. *)
Definition knows_function (b : build) : Prop :=
  match STDC_VERSION b with
  | Some v => 199901 ≤ v ∨ ∃ g, GNUC b = Some g ∧ 2 ≤ g
  | None => MSC_VER b = true
  end.

Lemma OPENSSL_FUNC_spec b site :
  (∀ f, predefined_func b = Some f → OPENSSL_FUNC b site = f) ∧
  (predefined_func b = None → knows_function b → OPENSSL_FUNC b site = FUNCTION site) ∧
  (predefined_func b = None → ¬ knows_function b → OPENSSL_FUNC b site = "(unknown function)").
Proof.
  unfold OPENSSL_FUNC, knows_function. split_and!; [by intros f ->|..]; intros ->.
  - destruct (STDC_VERSION b) as [v|]; [|by intros ->]. rewrite Z.geb_leb. destruct (Z.leb_spec 199901 v); [done|].
    intros [?|(g & -> & Hg)]; [lia|]. rewrite Z.geb_leb. by rewrite (proj2 (Z.leb_le 2 g) Hg).
  - destruct (STDC_VERSION b) as [v|]; [|by destruct (MSC_VER b)]. rewrite Z.geb_leb.
    destruct (Z.leb_spec 199901 v); [intros []; by left|]. destruct (GNUC b) as [g|]; [|done]. rewrite Z.geb_leb.
    destruct (Z.leb_spec 2 g); [intros []; right; by exists g|done].
Qed.

(** The queue has its newest entry first. [ERR_new] adds an entry, for which the
    oldest makes room when the queue is full; the other two fill in the newest
    entry, and leave each other's part alone. *)
Class ErrLaws (S format : Type) `{!ErrLibrary S format} := {
  errors : S → list (error format);
  room : nat;
  ERR_new_spec s : ∃ s' e, ERR_new s = Ret (tt, s') ∧ errors s' = e :: take room (errors s);
  ERR_set_debug_spec s e es file line func :
    errors s = e :: es →
    ∃ s' e', ERR_set_debug file line func s = Ret (tt, s') ∧ errors s' = e' :: es ∧
      err_file e' = file ∧ err_line e' = line ∧ err_func e' = func;
  ERR_set_error_spec s e es lib reason data :
    errors s = e :: es → encodable lib reason →
    ∃ s' e', ERR_set_error lib reason data s = Ret (tt, s') ∧ errors s' = e' :: es ∧
      ERR_GET_LIB (err_code e') = lib ∧ ERR_GET_REASON (err_code e') = reason ∧ err_data e' = data ∧
      err_file e' = err_file e ∧ err_line e' = err_line e ∧ err_func e' = err_func e;
}.

Section errors.
Context {S format : Type} `{!ErrLibrary S format, !ErrLaws S format}.

(** A call of the library adds one error, with these contents. *)
Definition raises (m : M S unit) (lib reason : Z) (file : option string) (line : Z) (func : option string)
    (data : option format) : Prop :=
  ∀ s, ∃ s' e, m s = Ret (tt, s') ∧ errors s' = e :: take room (errors s) ∧
    ERR_GET_LIB (err_code e) = lib ∧ ERR_GET_REASON (err_code e) = reason ∧
    err_file e = file ∧ err_line e = line ∧ err_func e = func ∧ err_data e = data.

Lemma raise_steps lib reason file line func data :
  encodable lib reason →
  raises (ERR_new;; ERR_set_debug file line func;; ERR_set_error lib reason data) lib reason file line func data.
Proof.
  intros Hok s. destruct (ERR_new_spec s) as (s1 & e1 & Hnew & E1).
  destruct (ERR_set_debug_spec s1 e1 _ file line func E1) as (s2 & e2 & Hdebug & E2 & ? & ? & ?).
  destruct (ERR_set_error_spec s2 e2 _ lib reason data E2 Hok) as (s3 & e3 & Hset & E3 & ? & ? & ? & ? & ? & ?).
  exists s3, e3. rewrite (M_bind_Ret _ _ _ _ _ Hnew) (M_bind_Ret _ _ _ _ _ Hdebug) Hset. split_and!; congruence.
Qed.
End errors.

(** The macros' names without [err]. *)
Lemma err_macros_ok :
  forallb (λ e, existsb (λ l, bool_decide ("ERR_LIB_" +:+ String.substring 0 (String.length e.1 - 3) e.1 = l.1) && (e.2 =? l.2))
                  library_numbers &&
                bool_decide (e.1 = String.substring 0 (String.length e.1 - 3) e.1 +:+ "err")) err_macros = true.
Proof. by vm_compute. Qed.

Lemma err_macros_library x lib :
  (x, lib) ∈ err_macros → ∃ p, x = p +:+ "err" ∧ ("ERR_LIB_" +:+ p, lib) ∈ library_numbers.
Proof.
  pose proof err_macros_ok as H. rewrite forallb_forall in H. intros Hx%list_elem_of_In%H. cbn [fst snd] in Hx.
  apply andb_prop in Hx as [(l & Hl & [Hn%bool_decide_eq_true Hz%Z.eqb_eq]%andb_prop)%existsb_exists Hx%bool_decide_eq_true].
  eexists. split; [exact Hx|]. rewrite Hn Hz. apply list_elem_of_In. by destruct l.
Qed.
Lemma library_number_range n lib : (n, lib) ∈ library_numbers → 0 < lib < 2 ^ 8.
Proof.
  assert (forallb (λ e, (0 <? e.2) && (e.2 <? 2 ^ 8)) library_numbers = true) as H by (by vm_compute).
  rewrite forallb_forall in H. intros Hin%list_elem_of_In%H. cbn [snd] in Hin. lia.
Qed.

(** C33: the macros that raise an error add one entry to the queue, newest first,
    and it has the library and the reason of the macro's arguments, the message
    and the place of the call. The arguments must fit a code: a library from 1 to
    255 and a reason below 2^23, or, for a system error (ERR_LIB_SYS), a reason
    below 2^31. XXXerr(f, r) is an error of the library ERR_LIB_XXX, whatever f
    is; ERR_put_error has the file and line it is given, and ERR_PUT_error a null
    file and the line 0 in a build without file names. The place is the file, the
    line and the function the macro is used in, with these exceptions: names that
    the build defines take their place, a build without file names has an empty
    file and the line 0, and the function is "(unknown function)" where the
    compiler is neither of C99, nor a GNU C from version 2 that defines
    __STDC_VERSION__, nor, without __STDC_VERSION__, Microsoft's. *)
Theorem errors_raised {S format : Type} `{!ErrLibrary S format, !ErrLaws S format} b site :
  (∀ lib reason data, encodable lib reason →
     raises (ERR_raise_data b site lib reason data) lib reason
       (Some (OPENSSL_FILE b site)) (OPENSSL_LINE b site) (Some (OPENSSL_FUNC b site)) data) ∧
  (∀ lib reason, encodable lib reason →
     raises (ERR_raise b site lib reason) lib reason
       (Some (OPENSSL_FILE b site)) (OPENSSL_LINE b site) (Some (OPENSSL_FUNC b site)) None) ∧
  (∀ x lib f r, (x, lib) ∈ err_macros → encodable lib r →
     (∃ p, x = p +:+ "err" ∧ ("ERR_LIB_" +:+ p, lib) ∈ library_numbers) ∧
     raises (library_err b lib site f r) lib r
       (Some (OPENSSL_FILE b site)) (OPENSSL_LINE b site) (Some (OPENSSL_FUNC b site)) None) ∧
  (∀ lib f reason file line, encodable lib reason →
     raises (ERR_put_error b site lib f reason file line) lib reason file line (Some (OPENSSL_FUNC b site)) None ∧
     raises (ERR_PUT_error b site lib f reason file line) lib reason
       (if OPENSSL_NO_FILENAMES b then None else file) (if OPENSSL_NO_FILENAMES b then 0 else line)
       (Some (OPENSSL_FUNC b site)) None) ∧
  (∀ file line, predefined_file b = Some (file, line) → OPENSSL_FILE b site = file ∧ OPENSSL_LINE b site = line) ∧
  (predefined_file b = None → OPENSSL_NO_FILENAMES b = false →
     OPENSSL_FILE b site = FILE site ∧ OPENSSL_LINE b site = LINE site) ∧
  (predefined_file b = None → OPENSSL_NO_FILENAMES b = true → OPENSSL_FILE b site = "" ∧ OPENSSL_LINE b site = 0) ∧
  (∀ f, predefined_func b = Some f → OPENSSL_FUNC b site = f) ∧
  (predefined_func b = None → knows_function b → OPENSSL_FUNC b site = FUNCTION site) ∧
  (predefined_func b = None → ¬ knows_function b → OPENSSL_FUNC b site = "(unknown function)").
Proof.
  unfold OPENSSL_FILE, OPENSSL_LINE. split_and!; try apply OPENSSL_FUNC_spec; try by (intros; by apply raise_steps).
  - intros x lib f r Hx Hr. pose proof (err_macros_library x lib Hx) as (p & Hp & Hl).
    split; [by exists p|by apply raise_steps].
  - intros lib f reason file line Hok. split; [by apply raise_steps|]. unfold ERR_PUT_error.
    destruct (OPENSSL_NO_FILENAMES b); by apply raise_steps.
  - by intros file line ->.
  - by intros -> ->.
  - by intros -> ->.
Qed.

(** ** A queue *)

Section queue.
Context {format : Type}.

Definition update (f : error format → error format) : M (list (error format)) unit := λ s,
  match s with e :: es => Ret (tt, f e :: es) | [] => Undef end.
(** A system error is its reason with the flag of system errors. *)
Definition pack_error (lib reason : Z) : Z :=
  if lib =? ERR_LIB_SYS then Z.lor ERR_SYSTEM_FLAG reason else ERR_PACK 64 lib 0 reason.

Lemma system_code reason :
  0 ≤ reason < 2 ^ 31 →
  ERR_GET_LIB (Z.lor ERR_SYSTEM_FLAG reason) = ERR_LIB_SYS ∧ ERR_GET_REASON (Z.lor ERR_SYSTEM_FLAG reason) = reason.
Proof.
  intros Hr. assert (ERR_SYSTEM_ERROR (Z.lor ERR_SYSTEM_FLAG reason) = true) as Hsys.
  { unfold ERR_SYSTEM_ERROR. rewrite (land_bit _ 31) // Z.lor_spec. apply orb_true_iff. by left. }
  unfold ERR_GET_LIB, ERR_GET_REASON. rewrite Hsys. split; [done|].
  rewrite Z.land_lor_distr_l (_ : Z.land ERR_SYSTEM_FLAG ERR_SYSTEM_MASK = 0) // Z.lor_0_l.
  rewrite (Z.land_ones _ 31) // Z.mod_small //. by apply to_signed_32_small.
Qed.

Lemma pack_error_spec lib reason :
  encodable lib reason → ERR_GET_LIB (pack_error lib reason) = lib ∧ ERR_GET_REASON (pack_error lib reason) = reason.
Proof.
  unfold pack_error. destruct (Z.eqb_spec lib ERR_LIB_SYS) as [->|Hne].
  - intros [[_ H]|[_ H]]; apply system_code; lia.
  - intros [[? _]|[Hl Hr]]; [done|]. rewrite PACK_lib // PACK_reason // !Z.mod_small //. lia.
Qed.

#[export] Instance queue_library : ErrLibrary (list (error format)) format := {|
  ERR_new s := Ret (tt, Build_error _ 0 None 0 None None :: take 14 s);
  ERR_set_debug file line func := update (λ e, Build_error _ (err_code e) file line func (err_data e));
  ERR_set_error lib reason data :=
    update (λ e, Build_error _ (pack_error lib reason) (err_file e) (err_line e) (err_func e) data);
|}.
#[export] Program Instance queue_laws : ErrLaws (list (error format)) format := {| errors s := s; room := 14 |}.
Next Obligation. intros s. by do 2 eexists. Qed.
Next Obligation. intros s e es file line func ->. by do 2 eexists. Qed.
Next Obligation.
  intros s e es lib reason data -> [Hl Hr]%pack_error_spec. by do 2 eexists.
Qed.
End queue.

(** A call, and the build of a C11 compiler. *)
Definition gcc : build := {|
  predefined_file := None; predefined_func := None; OPENSSL_NO_FILENAMES := false; STDC_VERSION := Some 201112;
  GNUC := Some 12; MSC_VER := false; OPENSSL_NO_TRACE := false; FIPS_MODULE := false |}.
Definition here : call_site := {| FILE := "a.c"; LINE := 7; FUNCTION := "main" |}.

(** A BIGNUM error, and a system error of a 31-bit number (a Windows status). *)
Lemma errors_raised_witness :
  let raise x : M (list (error string)) unit := library_err gcc x here 0 103 in
  raises (raise ERR_LIB_BN) ERR_LIB_BN 103 (Some "a.c") 7 (Some "main") None ∧
  raises (ERR_raise gcc here ERR_LIB_SYS 0x40000015 : M (list (error string)) unit)
    ERR_LIB_SYS 0x40000015 (Some "a.c") 7 (Some "main") None.
Proof.
  destruct (errors_raised (S:=list (error string)) (format:=string) gcc here) as (_ & Hraise & Herr & _). split.
  - refine (proj2 (Herr "BNerr" ERR_LIB_BN 0 103 _ _)).
    + apply (bool_decide_eq_true_1 _). vm_compute. reflexivity.
    + right. split; unfold ERR_LIB_BN; lia.
  - apply Hraise. left. split; [reflexivity|lia].
Defined.

(** ** Trace groups *)

(** What a channel gets: formatted text, or the prefix or suffix of a group. *)
Inductive output (arg : Type) : Type :=
| Formatted (bio : Z) (format : string) (args : list arg)
| Text (bio : Z) (text : string).
Arguments Formatted {arg} bio format args.
Arguments Text {arg} bio text.

Definition affix {arg} (out : Z) (text : option string) : list (output arg) :=
  match text with Some t => [Text out t] | None => [] end.

(** A channel is attached to some categories, and a prefix and a suffix to some.
    [OSSL_trace_begin] locks tracing, prints the prefix and returns the channel
    of its category, or returns NULL when there is none; [OSSL_trace_end] prints
    the suffix and unlocks tracing, and does nothing with NULL. [printed] is what
    all channels got. *)
Class TraceLaws (S arg : Type) `{!TraceLibrary S arg} := {
  channel : S → Z → option Z;
  prefix : S → Z → option string;
  suffix : S → Z → option string;
  locked : S → option (Z * Z);
  printed : S → list (output arg);
  begin_disabled s cat : channel s cat = None → OSSL_trace_begin cat s = Ret (0, s);
  begin_enabled s cat out :
    locked s = None → channel s cat = Some out →
    out ≠ 0 ∧ ∃ s', OSSL_trace_begin cat s = Ret (out, s') ∧ locked s' = Some (cat, out) ∧
      printed s' = (printed s ++ affix out (prefix s cat))%list ∧ suffix s' = suffix s;
  end_null s cat : OSSL_trace_end cat 0 s = Ret (tt, s);
  end_locked s cat out :
    out ≠ 0 → locked s = Some (cat, out) →
    ∃ s', OSSL_trace_end cat out s = Ret (tt, s') ∧ locked s' = None ∧
      printed s' = (printed s ++ affix out (suffix s cat))%list;
  BIO_printf_spec s bio format l :
    ∃ n s', BIO_printf bio format l s = Ret (n, s') ∧ locked s' = locked s ∧
      printed s' = (printed s ++ [Formatted bio format l])%list ∧ suffix s' = suffix s;
  enabled_spec s cat : ∃ n, OSSL_trace_enabled cat s = Ret (n, s) ∧ (n ≠ 0 ↔ is_Some (channel s cat));
}.

Section trace.
Context {S arg : Type} `{!TraceLibrary S arg, !TraceLaws S arg} (b : build).

(** The channel of a category, in a build with tracing. *)
Definition traced (s : S) (cat : Z) : option Z := if no_trace b then None else channel s cat.

Lemma traced_enabled s cat out : traced s cat = Some out → no_trace b = false ∧ channel s cat = Some out.
Proof. unfold traced. by destruct (no_trace b). Qed.

Lemma group_disabled {R} cat (body : Z → M S (flow R)) s :
  traced s cat = None → OSSL_TRACE_BEGIN_END b cat body s = Ret (Next, s).
Proof.
  unfold OSSL_TRACE_BEGIN_END, traced. destruct (no_trace b); [done|]. intros Hc.
  rewrite (M_bind_Ret _ _ _ _ _ (begin_disabled s cat Hc)). unfold mbind, M_bind. cbn. by rewrite end_null.
Qed.

Lemma CANCEL_spec s s0 cat out :
  traced s0 cat = Some out → out ≠ 0 → locked s = Some (cat, out) →
  ∃ s', OSSL_TRACE_CANCEL b cat out s = Ret (tt, s') ∧ locked s' = None ∧
    printed s' = (printed s ++ affix out (suffix s cat))%list.
Proof. intros [Hn _]%traced_enabled. unfold OSSL_TRACE_CANCEL. rewrite Hn. apply end_locked. Qed.

(** A group by the way its body ends: only one that goes on to the end of the
    block calls [OSSL_trace_end]. *)
Lemma group_enabled {R} cat (body : Z → M S (flow R)) s out :
  traced s cat = Some out → locked s = None →
  ∃ s1, locked s1 = Some (cat, out) ∧ printed s1 = (printed s ++ affix out (prefix s cat))%list ∧
    suffix s1 = suffix s ∧
    ∀ r s2, body out s1 = Ret (r, s2) →
      match r with
      | Next => locked s2 = Some (cat, out) →
          ∃ s', OSSL_TRACE_BEGIN_END b cat body s = Ret (Next, s') ∧ locked s' = None ∧
            printed s' = (printed s2 ++ affix out (suffix s2 cat))%list
      | Break => OSSL_TRACE_BEGIN_END b cat body s = Ret (Next, s2)
      | Leave v => OSSL_TRACE_BEGIN_END b cat body s = Ret (Leave v, s2)
      end.
Proof.
  intros [Hn Hc]%traced_enabled Hl. destruct (begin_enabled s cat out Hl Hc) as (Hne & s1 & Hbegin & Hl1 & Hp1 & Hs1).
  exists s1. split_and!; [done..|]. intros r s2 Hb. unfold OSSL_TRACE_BEGIN_END.
  rewrite Hn (M_bind_Ret _ _ _ _ _ Hbegin). rewrite (proj2 (Z.eqb_neq out 0) Hne). cbn [negb].
  rewrite (M_bind_Ret _ _ _ _ _ Hb). destruct r as [| |v]; [|done..]. intros Hl2.
  destruct (end_locked s2 cat out Hne Hl2) as (s' & Hend & Hl' & Hp'). exists s'. by rewrite (M_bind_Ret _ _ _ _ _ Hend).
Qed.

(** Code of a body that keeps the lock, prints [w] and ends with [a]. *)
Definition prints {A} (m : M S A) (a : A) (w : list (output arg)) : Prop :=
  ∀ s, ∃ s', m s = Ret (a, s') ∧ locked s' = locked s ∧ printed s' = (printed s ++ w)%list ∧ suffix s' = suffix s.

(** A whole group's output. *)
Definition group_output (s : S) (cat : Z) (w : Z → list (output arg)) : list (output arg) :=
  match traced s cat with
  | Some out => (affix out (prefix s cat) ++ w out ++ affix out (suffix s cat))%list
  | None => []
  end.

Section endings.
Context {R : Type} (cat : Z) (s : S) (out : Z) (w : list (output arg)).
Context (Ht : traced s cat = Some out) (Hl : locked s = None).

Lemma out_nonzero : out ≠ 0.
Proof using Type*. apply traced_enabled in Ht as [_ Hc]. by apply (begin_enabled s cat out). Qed.

Lemma group_next (body : Z → M S (flow R)) :
  prints (body out) Next w →
  ∃ s', OSSL_TRACE_BEGIN_END b cat body s = Ret (Next, s') ∧ locked s' = None ∧
    printed s' = (printed s ++ affix out (prefix s cat) ++ w ++ affix out (suffix s cat))%list.
Proof using Ht Hl.
  intros Hw. destruct (group_enabled cat body s out Ht Hl) as (s1 & Hl1 & Hp1 & Hs1 & Hg).
  destruct (Hw s1) as (s2 & Hrun & Hl2 & Hp2 & Hs2). destruct (Hg Next s2 Hrun) as (s' & Hs' & Hl' & Hp').
  { by rewrite Hl2. }
  exists s'. split_and!; [done..|]. by rewrite Hp' Hp2 Hp1 Hs2 Hs1 -!app_assoc.
Qed.

Lemma group_cancel (work : Z → M S unit) (v : R) :
  prints (work out) tt w →
  ∃ s', OSSL_TRACE_BEGIN_END b cat (λ o, work o;; OSSL_TRACE_CANCEL b cat o;; mret (Leave v)) s = Ret (Leave v, s') ∧
    locked s' = None ∧
    printed s' = (printed s ++ affix out (prefix s cat) ++ w ++ affix out (suffix s cat))%list.
Proof using Ht Hl.
  intros Hw. destruct (group_enabled cat (λ o, work o;; OSSL_TRACE_CANCEL b cat o;; mret (Leave v)) s out Ht Hl)
    as (s1 & Hl1 & Hp1 & Hs1 & Hg).
  destruct (Hw s1) as (s2 & Hrun & Hl2 & Hp2 & Hs2).
  destruct (CANCEL_spec s2 s cat out Ht out_nonzero) as (s' & Hc & Hl' & Hp'); [by rewrite Hl2|].
  exists s'. split_and!; [|done|by rewrite Hp' Hp2 Hp1 Hs2 Hs1 -!app_assoc].
  apply (Hg (Leave v) s'). by rewrite (M_bind_Ret _ _ _ _ _ Hrun) (M_bind_Ret _ _ _ _ _ Hc).
Qed.

(** Leaving the block at once, by [break] or [return], keeps the lock and leaves
    the suffix out. *)
Lemma group_left (body : Z → M S (flow R)) r :
  r ≠ Next → prints (body out) r w →
  ∃ s', OSSL_TRACE_BEGIN_END b cat body s = Ret (match r with Leave v => Leave v | _ => Next end, s') ∧
    locked s' = Some (cat, out) ∧ printed s' = (printed s ++ affix out (prefix s cat) ++ w)%list.
Proof using Ht Hl.
  intros Hr Hw. destruct (group_enabled cat body s out Ht Hl) as (s1 & Hl1 & Hp1 & Hs1 & Hg).
  destruct (Hw s1) as (s2 & Hrun & Hl2 & Hp2 & Hs2). exists s2. specialize (Hg r s2 Hrun).
  split_and!; [by destruct r|by rewrite Hl2|by rewrite Hp2 Hp1 -app_assoc].
Qed.
End endings.

Lemma printf_prints {R} bio format l : prints (BIO_printf bio format l;; mret (Next : flow R)) Next [Formatted bio format l].
Proof.
  intros s. destruct (BIO_printf_spec s bio format l) as (n & s' & Hp & ?). exists s'.
  by rewrite (M_bind_Ret _ _ _ _ _ Hp).
Qed.

(** A one-shot macro prints one text, as a group of its own. *)
Definition one_shot (m : M S unit) (cat : Z) (text : Z → output arg) : Prop :=
  ∀ s, locked s = None → ∃ s', m s = Ret (tt, s') ∧ locked s' = None ∧
    printed s' = (printed s ++ group_output s cat (λ out, [text out]))%list.

Lemma TRACEV_spec cat args :
  one_shot (OSSL_TRACEV b cat args) cat (λ out, Formatted (args out).1.1 (args out).1.2 (args out).2).
Proof.
  intros s Hl. unfold OSSL_TRACEV, group_output. destruct (traced s cat) as [out|] eqn:Ht.
  - rewrite (proj1 (traced_enabled _ _ _ Ht)).
    destruct (group_next (R:=unit) cat s out [Formatted (args out).1.1 (args out).1.2 (args out).2] Ht Hl (λ trc_out,
      let '(bio, format, as_) := args trc_out in BIO_printf bio format as_;; mret Next)) as (s' & Hg & Hl' & Hp').
    { destruct (args out) as [[bio format] l]. apply printf_prints. }
    exists s'. split_and!; [|done|exact Hp']. by rewrite (M_bind_Ret _ _ _ _ _ Hg).
  - exists s. rewrite app_nil_r. split_and!; [|done..]. destruct (no_trace b); [done|].
    by rewrite (M_bind_Ret _ _ _ _ _ (group_disabled cat _ s Ht)).
Qed.
End trace.

(** C32: trace groups: OSSL_TRACE_BEGIN(c) { body } OSSL_TRACE_END(c) runs its body
    only if the category has a channel and the build has tracing, else it does
    nothing. A group whose body goes on to the end of the block, or returns after
    OSSL_TRACE_CANCEL, prints the category's prefix, the body's output and the
    suffix, and returns with tracing unlocked. A body that returns without
    OSSL_TRACE_CANCEL, or leaves the block by break, leaves tracing locked and the
    suffix out. OSSL_TRACEV prints its arguments as one group; OSSL_TRACE prints
    its text with the format "%s", and OSSL_TRACE1 to OSSL_TRACE9 their format
    with all their arguments in order, each to the channel of the category, or
    nothing, and each returns unlocked. OSSL_TRACE_ENABLED tells which. The
    categories are numbered from 0 below OSSL_TRACE_CATEGORY_NUM without
    duplicates. *)
Theorem trace_groups_release {S arg : Type} `{!TraceLibrary S arg, !TraceLaws S arg} b :
  (∀ R cat (body : Z → M S (flow R)) s, traced b s cat = None → OSSL_TRACE_BEGIN_END b cat body s = Ret (Next, s)) ∧
  (∀ R cat s out w, traced b s cat = Some out → locked s = None →
     let whole := (printed s ++ affix out (prefix s cat) ++ w ++ affix out (suffix s cat))%list in
     let cut := (printed s ++ affix out (prefix s cat) ++ w)%list in
     (∀ body : Z → M S (flow R), prints (body out) Next w →
        ∃ s', OSSL_TRACE_BEGIN_END b cat body s = Ret (Next, s') ∧ locked s' = None ∧ printed s' = whole) ∧
     (∀ work (v : R), prints (work out) tt w →
        ∃ s', OSSL_TRACE_BEGIN_END b cat (λ o, work o;; OSSL_TRACE_CANCEL b cat o;; mret (Leave v)) s =
          Ret (Leave v, s') ∧ locked s' = None ∧ printed s' = whole) ∧
     (∀ (body : Z → M S (flow R)) v, prints (body out) (Leave v) w →
        ∃ s', OSSL_TRACE_BEGIN_END b cat body s = Ret (Leave v, s') ∧ locked s' = Some (cat, out) ∧ printed s' = cut) ∧
     (∀ body : Z → M S (flow R), prints (body out) Break w →
        ∃ s', OSSL_TRACE_BEGIN_END b cat body s = Ret (Next, s') ∧ locked s' = Some (cat, out) ∧ printed s' = cut)) ∧
  (∀ cat args, one_shot b (OSSL_TRACEV b cat args) cat (λ out, Formatted (args out).1.1 (args out).1.2 (args out).2)) ∧
  (∀ cat text, one_shot b (OSSL_TRACE b cat text) cat (λ out, Formatted out "%s" [text])) ∧
  (∀ cat f a1 a2 a3 a4 a5 a6 a7 a8 a9,
     one_shot b (OSSL_TRACE1 b cat f a1) cat (λ out, Formatted out f [a1]) ∧
     one_shot b (OSSL_TRACE2 b cat f a1 a2) cat (λ out, Formatted out f [a1; a2]) ∧
     one_shot b (OSSL_TRACE3 b cat f a1 a2 a3) cat (λ out, Formatted out f [a1; a2; a3]) ∧
     one_shot b (OSSL_TRACE4 b cat f a1 a2 a3 a4) cat (λ out, Formatted out f [a1; a2; a3; a4]) ∧
     one_shot b (OSSL_TRACE5 b cat f a1 a2 a3 a4 a5) cat (λ out, Formatted out f [a1; a2; a3; a4; a5]) ∧
     one_shot b (OSSL_TRACE6 b cat f a1 a2 a3 a4 a5 a6) cat (λ out, Formatted out f [a1; a2; a3; a4; a5; a6]) ∧
     one_shot b (OSSL_TRACE7 b cat f a1 a2 a3 a4 a5 a6 a7) cat (λ out, Formatted out f [a1; a2; a3; a4; a5; a6; a7]) ∧
     one_shot b (OSSL_TRACE8 b cat f a1 a2 a3 a4 a5 a6 a7 a8) cat
       (λ out, Formatted out f [a1; a2; a3; a4; a5; a6; a7; a8]) ∧
     one_shot b (OSSL_TRACE9 b cat f a1 a2 a3 a4 a5 a6 a7 a8 a9) cat
       (λ out, Formatted out f [a1; a2; a3; a4; a5; a6; a7; a8; a9])) ∧
  (∀ cat s, ∃ n, OSSL_TRACE_ENABLED b cat s = Ret (n, s) ∧ (n ≠ 0 ↔ is_Some (traced b s cat))) ∧
  (∀ no_engine, NoDup (trace_categories no_engine) ∧
     ∀ c, c ∈ trace_categories no_engine → 0 ≤ c < OSSL_TRACE_CATEGORY_NUM).
Proof.
  split; [intros; by apply group_disabled|]. split.
  { intros R cat s out w Ht Hl. split_and!; intros.
    - by apply group_next.
    - by apply group_cancel.
    - by apply (group_left b cat s out w Ht Hl body (Leave v)).
    - by apply (group_left b cat s out w Ht Hl body Break). }
  split; [apply TRACEV_spec|]. split; [intros; apply TRACEV_spec|].
  split; [intros; split_and!; apply TRACEV_spec|]. split.
  - intros cat s. unfold OSSL_TRACE_ENABLED, traced. destruct (no_trace b); [exists 0|apply enabled_spec].
    split; [done|]. split; [done|by intros []].
  - intros no_engine. split.
    + apply (bool_decide_eq_true_1 _). by destruct no_engine.
    + apply Forall_forall. destruct no_engine; repeat (apply Forall_cons; split; [done|]); by apply Forall_nil.
Qed.

(** ** A table of channels *)

(** Category 3 has the channel 0x500 and a prefix; the state is the lock and the
    output. *)
Record tracer : Type := { tr_locked : option (Z * Z); tr_printed : list (output string) }.
Definition tr_channel (cat : Z) : option Z := if cat =? OSSL_TRACE_CATEGORY_TLS then Some 0x500 else None.
Definition tr_prefix (cat : Z) : option string := if cat =? OSSL_TRACE_CATEGORY_TLS then Some "BEGIN TLS" else None.
Definition tr_suffix (cat : Z) : option string := if cat =? OSSL_TRACE_CATEGORY_TLS then Some "END TLS" else None.
Definition tr_print (s : tracer) (lock : option (Z * Z)) (l : list (output string)) : tracer :=
  {| tr_locked := lock; tr_printed := (tr_printed s ++ l)%list |}.
#[export] Instance tracer_library : TraceLibrary tracer string := {|
  OSSL_trace_begin cat s :=
    match tr_channel cat with
    | None => Ret (0, s)
    | Some out =>
        match tr_locked s with
        | None => Ret (out, tr_print s (Some (cat, out)) (affix out (tr_prefix cat)))
        | Some _ => NoFuel (* a second lock waits for ever *)
        end
    end;
  OSSL_trace_end cat out s :=
    if out =? 0 then Ret (tt, s) else
    match tr_locked s with
    | Some _ => Ret (tt, tr_print s None (affix out (tr_suffix cat)))
    | None => Undef
    end;
  OSSL_trace_enabled cat s := Ret (match tr_channel cat with Some _ => 1 | None => 0 end, s);
  BIO_printf bio format l s := Ret (0, tr_print s (tr_locked s) [Formatted bio format l]);
|}.
#[export] Program Instance tracer_laws : TraceLaws tracer string :=
  {| channel _ := tr_channel; prefix _ := tr_prefix; suffix _ := tr_suffix; locked := tr_locked; printed := tr_printed |}.
Next Obligation. intros s cat Hc. cbn in *. by rewrite Hc. Qed.
Next Obligation.
  intros s cat out Hl Hc. cbn in *. split.
  - unfold tr_channel in Hc. case_match; [by injection Hc as <-|done].
  - rewrite Hc Hl. by eexists.
Qed.
Next Obligation. done. Qed.
Next Obligation.
  intros s cat out Hne Hl. cbn in *. rewrite Hl (proj2 (Z.eqb_neq out 0) Hne). by eexists.
Qed.
Next Obligation. intros. by do 2 eexists. Qed.
Next Obligation.
  intros s cat. cbn. eexists. split; [done|]. destruct (tr_channel cat); split; try done; by intros [].
Qed.

(** A group of two texts that returns after OSSL_TRACE_CANCEL, one that breaks,
    and one-shot macros with and without a channel. *)
Lemma trace_groups_release_witness :
  let s := {| tr_locked := None; tr_printed := [] |} in
  let tls := OSSL_TRACE_CATEGORY_TLS in
  (∃ s', OSSL_TRACE_BEGIN_END gcc tls (λ o,
       (BIO_printf o "%s" ["a"];; BIO_printf o "%s" ["b"];; mret tt);; OSSL_TRACE_CANCEL gcc tls o;; mret (Leave 7)) s =
       Ret (Leave 7, s') ∧ locked s' = None ∧
     printed s' = [Text 0x500 "BEGIN TLS"; Formatted 0x500 "%s" ["a"]; Formatted 0x500 "%s" ["b"]; Text 0x500 "END TLS"]) ∧
  (∃ s', OSSL_TRACE_BEGIN_END gcc tls (λ o, BIO_printf o "%s" ["a"];; mret (Break : flow Z)) s = Ret (Next, s') ∧
     locked s' = Some (tls, 0x500) ∧ printed s' = [Text 0x500 "BEGIN TLS"; Formatted 0x500 "%s" ["a"]]) ∧
  (∃ s', OSSL_TRACE1 gcc tls "%s" "hello" s = Ret (tt, s') ∧ locked s' = None ∧
     printed s' = [Text 0x500 "BEGIN TLS"; Formatted 0x500 "%s" ["hello"]; Text 0x500 "END TLS"]) ∧
  (∃ s', OSSL_TRACE1 gcc OSSL_TRACE_CATEGORY_CMP "%s" "hello" s = Ret (tt, s') ∧ locked s' = None ∧ printed s' = []).
Proof.
  intros s tls. destruct (trace_groups_release (S:=tracer) (arg:=string) gcc) as (_ & Hgroup & _ & _ & Hshot & _).
  assert (traced gcc s tls = Some 0x500) as Ht by reflexivity. split_and!.
  - destruct (Hgroup Z tls s 0x500 [Formatted 0x500 "%s" ["a"]; Formatted 0x500 "%s" ["b"]] Ht eq_refl)
      as (_ & Hcancel & _).
    refine (Hcancel (λ o, BIO_printf o "%s" ["a"];; BIO_printf o "%s" ["b"];; mret tt) 7 _).
    intros s1. eexists. split_and!; [reflexivity|reflexivity| |reflexivity].
    exact (eq_sym (app_assoc (tr_printed s1) [_] [_])).
  - destruct (Hgroup Z tls s 0x500 [Formatted 0x500 "%s" ["a"]] Ht eq_refl) as (_ & _ & _ & Hbreak).
    refine (Hbreak (λ o, BIO_printf o "%s" ["a"];; mret Break) _). intros s1. eexists. by split_and!.
  - exact (proj1 (Hshot tls "%s" "hello" "" "" "" "" "" "" "" "") s eq_refl).
  - exact (proj1 (Hshot OSSL_TRACE_CATEGORY_CMP "%s" "hello" "" "" "" "" "" "" "" "") s eq_refl).
Defined.
