(* ===== verification/TypedMacros.v ===== *)
(** * Macros and inline functions with C's types

    The type-safe containers of OpenSSL are macros and inline functions that
    convert their arguments and call a function on untyped pointers. This file
    has what is needed of C: types and conversions, expressions, their types and
    what they evaluate to. C leaves the order in which the arguments of a call are
    evaluated open; it is a parameter. *)

From S2P Require Import Prelude.
From stdpp Require Import strings.
Local Open Scope string_scope.

(** ** Types *)

(** [Struct tag] is [struct tag]; a structure without a tag has the name of its
    typedef. [Null] is the type of the constant [NULL]. *)
Inductive ctype : Type :=
| Void
| Int
| Long
| ULong
| Char
| UChar
| Null
| Struct (tag : string)
| Const (t : ctype)
| Ptr (t : ctype)
| Fun0 (ret : ctype)
| Fun1 (ret a : ctype)
| Fun2 (ret a b : ctype)
| Fun3 (ret a b c : ctype)
| Fun4 (ret a b c d : ctype).
#[export] Instance ctype_eq_dec : EqDecision ctype.
Proof. solve_decision. Defined.

Definition is_const (t : ctype) : bool := match t with Const _ => true | _ => false end.
Definition unqualified (t : ctype) : ctype := match t with Const t => t | _ => t end.
Definition is_function (t : ctype) : bool :=
  match t with Fun0 _ | Fun1 _ _ | Fun2 _ _ _ | Fun3 _ _ _ _ | Fun4 _ _ _ _ _ => true | _ => false end.
Definition is_arithmetic (t : ctype) : bool :=
  match t with Int | Long | ULong | Char | UChar => true | _ => false end.
Definition is_pointer (t : ctype) : bool := match t with Null | Ptr _ => true | _ => false end.

(** The conversions C makes without a cast, in an assignment and for the
    arguments of a function: between numbers, from [NULL], and between pointers
    to the same type or to and from [void] pointers, unless a qualifier is lost. *)
Definition assignable (from to : ctype) : bool :=
  match from, to with
  | Null, Ptr _ => true
  | Ptr a, Ptr b =>
      (negb (is_const a) || is_const b) &&
      (bool_decide (unqualified a = unqualified b) ||
       bool_decide (unqualified a = Void) && negb (is_function b) ||
       bool_decide (unqualified b = Void) && negb (is_function a))
  | _, _ => is_arithmetic from && is_arithmetic to || bool_decide (from = to)
  end.
(** A cast converts between any two numbers or pointers, and to [void]. *)
Definition castable (from to : ctype) : bool :=
  (is_arithmetic from || is_pointer from) && (is_arithmetic to || is_pointer to) || bool_decide (to = Void).
(** The type of [1 ? a : b]; a pointer's qualifiers are those of both. *)
Definition conditional (a b : ctype) : option ctype :=
  match a, b with
  | Null, (Null | Ptr _) => Some b
  | Ptr _, Null => Some a
  | Ptr a, Ptr b =>
      let qualify t := if is_const a || is_const b then Const t else t in
      if bool_decide (unqualified a = unqualified b) then Some (Ptr (qualify (unqualified a)))
      else if (bool_decide (unqualified a = Void) && negb (is_function b) ||
               bool_decide (unqualified b = Void) && negb (is_function a)) then Some (Ptr (qualify Void))
      else None
  | _, _ => if is_arithmetic a && is_arithmetic b then Some Int else if bool_decide (a = b) then Some a else None
  end.
Fixpoint all_assignable (from to : list ctype) : bool :=
  match from, to with
  | [], [] => true
  | a :: from, b :: to => assignable a b && all_assignable from to
  | _, _ => false
  end.

(** ** Expressions *)

(** A constant: [NULL], a number, a string, a function's name, [sizeof(t)]. *)
Inductive constant : Type :=
| CNull
| CInt (z : Z)
| CString (s : string)
| CFunction (f : string)
| CSizeof (t : ctype).

(** [Local t e] is a local variable of type [t] that is [e] at the start, [Cond]
    is [1 ? a : b], [Comma] is [(a, b)] and [Assign] is [a = b], which no wrapper
    that the compiler accepts has: it has no value here. *)
Inductive expr : Type :=
| Par (x : string)
| Lit (c : constant)
| Cond (a b : expr)
| Comma (a b : expr)
| Assign (a b : expr)
| Cast (t : ctype) (e : expr)
| Local (t : ctype) (e : expr)
| Call (f : string) (args : list expr).

Section expr_ind'.
Context (P : expr → Prop) (Hpar : ∀ x, P (Par x)) (Hlit : ∀ c, P (Lit c))
  (Hcond : ∀ a b, P a → P b → P (Cond a b)) (Hcomma : ∀ a b, P a → P b → P (Comma a b))
  (Hassign : ∀ a b, P a → P b → P (Assign a b)) (Hcast : ∀ t e, P e → P (Cast t e))
  (Hlocal : ∀ t e, P e → P (Local t e)) (Hcall : ∀ f es, Forall P es → P (Call f es)).
Fixpoint expr_ind' (e : expr) : P e :=
  match e with
  | Par x => Hpar x
  | Lit c => Hlit c
  | Cond a b => Hcond a b (expr_ind' a) (expr_ind' b)
  | Comma a b => Hcomma a b (expr_ind' a) (expr_ind' b)
  | Assign a b => Hassign a b (expr_ind' a) (expr_ind' b)
  | Cast t e => Hcast t e (expr_ind' e)
  | Local t e => Hlocal t e (expr_ind' e)
  | Call f es => Hcall f es ((fix go es := match es return Forall P es with
                                           | [] => Forall_nil_2 P
                                           | e :: es => Forall_cons_2 P e es (expr_ind' e) (go es)
                                           end) es)
  end.
End expr_ind'.

(** An inline function evaluates its body and returns it, unless it returns
    [Void]; a macro is replaced by its body. *)
Record cfun : Type := CFun {
  fun_name : string;
  fun_ret : ctype;
  fun_params : list (string * ctype);
  fun_body : expr;
}.
Record cmacro : Type := Macro {
  macro_name : string;
  macro_params : list string;
  macro_body : expr;
}.

Fixpoint named {A} (s : list (string * A)) (x : string) : option A :=
  match s with
  | [] => None
  | (y, a) :: s => if String.eqb x y then Some a else named s x
  end.

(** What a function returns and takes. *)
Definition prototype : Type := ctype * list ctype.
Definition fun_prototype (f : cfun) : prototype := (fun_ret f, snd <$> fun_params f).
(** The type of a pointer to a function. *)
Definition function_pointer (p : prototype) : option ctype :=
  match p.2 with
  | [] => Some (Ptr (Fun0 p.1))
  | [a] => Some (Ptr (Fun1 p.1 a))
  | [a; b] => Some (Ptr (Fun2 p.1 a b))
  | [a; b; c] => Some (Ptr (Fun3 p.1 a b c))
  | [a; b; c; d] => Some (Ptr (Fun4 p.1 a b c d))
  | _ => None
  end.

Section typing.
Context (sig : string → option prototype).

Definition type_of_constant (c : constant) : option ctype :=
  match c with
  | CNull => Some Null
  | CInt _ => Some Int
  | CString _ => Some (Ptr Char)
  | CFunction f => p ← sig f; function_pointer p
  | CSizeof _ => Some ULong
  end.
(** Only a name can be assigned to. *)
Fixpoint type_of (env : list (string * ctype)) (e : expr) : option ctype :=
  match e with
  | Par x => named env x
  | Lit c => type_of_constant c
  | Cond a b => ta ← type_of env a; tb ← type_of env b; conditional ta tb
  | Comma a b => type_of env a;; type_of env b
  | Assign a b =>
      ta ← match a with Par x => named env x | _ => None end;
      tb ← type_of env b;
      if assignable tb ta then Some ta else None
  | Cast t e => t' ← type_of env e; if castable t' t then Some t else None
  | Local t e => t' ← type_of env e; if assignable t' t then Some t else None
  | Call f es =>
      '(r, ps) ← sig f;
      ts ← mapM (type_of env) es;
      if all_assignable ts ps then Some r else None
  end.

(** The type of a function's call, and of a macro's, whose parameters have the
    types of the arguments; [None] if the compiler refuses it. *)
Definition call_type (p : prototype) (args : list ctype) : option ctype :=
  if all_assignable args p.2 then Some p.1 else None.
Definition macro_type (m : cmacro) (args : list ctype) : option ctype :=
  if Nat.eqb (length args) (length (macro_params m)) then type_of (zip (macro_params m) args) (macro_body m) else None.

(** The compiler accepts the body of an inline function. *)
Definition well_typed (f : cfun) : bool :=
  match type_of (fun_params f) (fun_body f) with
  | Some t => bool_decide (fun_ret f = Void) || assignable t (fun_ret f)
  | None => false
  end.
End typing.

(** ** Evaluation *)

(** C does not say in which order the arguments of a call are evaluated. The
    order of a compiler is the list of their positions in which it evaluates [n]
    arguments; an argument is evaluated as a whole. *)
Class ArgumentOrder : Type := {
  argument_order : nat → list nat;
  argument_order_perm n : argument_order n ≡ₚ seq 0 n;
}.

(** The value of the argument at a position. *)
Fixpoint at_position {A} (vs : list (nat * A)) (i : nat) : option A :=
  match vs with
  | [] => None
  | (j, v) :: vs => if Nat.eqb i j then Some v else at_position vs i
  end.
Definition eval_arguments {O : ArgumentOrder} {S V} (args : list (M S V)) : M S (list V) :=
  vs ← mapM (λ i, v ← default undef (args !! i); mret (i, v)) (argument_order (length args));
  mret (omap (at_position vs) (seq 0 (length args))).

(** The library's functions are [lib], those of [inline] only call them. The
    parameters of a function are values; those of a macro are the expressions
    that it is called with, which are evaluated where the body has them. A
    conversion does not change a pointer, and [constant_value] has the constants. *)
Section evaluation.
Context {O : ArgumentOrder}.
Context {S V : Type} (constant_value : constant → V) (lib : string → list V → M S V) (inline : string → option cfun).

Fixpoint eval_with (call : string → list V → M S V) (env : list (string * M S V)) (e : expr) : M S V :=
  match e with
  | Par x => default undef (named env x)
  | Lit c => mret (constant_value c)
  | Cond a _ => eval_with call env a
  | Comma a b => eval_with call env a;; eval_with call env b
  | Assign _ _ => undef
  | Cast _ e | Local _ e => eval_with call env e
  | Call f es => vs ← eval_arguments (eval_with call env <$> es); call f vs
  end.

Definition call_with (call : string → list V → M S V) (f : cfun) (vs : list V) : M S V :=
  eval_with call (zip (fst <$> fun_params f) (mret <$> vs)) (fun_body f).
Definition call (f : string) (vs : list V) : M S V :=
  match inline f with Some g => call_with lib g vs | None => lib f vs end.

Definition eval_function (f : cfun) (args : list (M S V)) : M S V :=
  vs ← eval_arguments args; call_with call f vs.
Definition eval_macro (m : cmacro) (args : list (M S V)) : M S V :=
  eval_with call (zip (macro_params m) args) (macro_body m).
End evaluation.
