(* ===== verification/SafeStack.v ===== *)
(** * The containers of OpenSSL: [openssl/safestack.h] and [openssl/lhash.h]

    [SKM_DEFINE_STACK_OF] and [DEFINE_LHASH_OF] define inline functions for a
    type, and the [_INTERNAL] macros the functions that check the arguments of
    the generated macros of [StackTables]. Here [sk_num] and its kind are the
    functions [sk_##t1##_num], for the arguments of the macro. A typedef in a
    declaration is written as the type that it stands for. *)

From S2P Require Import Prelude TypedMacros.
From stdpp Require Import strings.
Local Open Scope string_scope.

(** ** The types of [openssl/types.h] and the containers *)

Definition types_0 : list (string * ctype) := [
  ("OSSL_PROVIDER", Struct "ossl_provider_st")].

Definition types_1 : list (string * ctype) := [
  ("ASN1_INTEGER", Struct "asn1_string_st");
  ("ASN1_ENUMERATED", Struct "asn1_string_st");
  ("ASN1_BIT_STRING", Struct "asn1_string_st");
  ("ASN1_OCTET_STRING", Struct "asn1_string_st");
  ("ASN1_PRINTABLESTRING", Struct "asn1_string_st");
  ("ASN1_T61STRING", Struct "asn1_string_st");
  ("ASN1_IA5STRING", Struct "asn1_string_st");
  ("ASN1_GENERALSTRING", Struct "asn1_string_st");
  ("ASN1_UNIVERSALSTRING", Struct "asn1_string_st");
  ("ASN1_BMPSTRING", Struct "asn1_string_st");
  ("ASN1_UTCTIME", Struct "asn1_string_st");
  ("ASN1_TIME", Struct "asn1_string_st");
  ("ASN1_GENERALIZEDTIME", Struct "asn1_string_st");
  ("ASN1_VISIBLESTRING", Struct "asn1_string_st");
  ("ASN1_UTF8STRING", Struct "asn1_string_st");
  ("ASN1_STRING", Struct "asn1_string_st");
  ("ASN1_BOOLEAN", Int);
  ("ASN1_NULL", Int);
  ("ASN1_TYPE", Struct "asn1_type_st");
  ("ASN1_OBJECT", Struct "asn1_object_st");
  ("ASN1_STRING_TABLE", Struct "asn1_string_table_st");
  ("ASN1_ITEM", Struct "ASN1_ITEM_st");
  ("ASN1_PCTX", Struct "asn1_pctx_st");
  ("ASN1_SCTX", Struct "asn1_sctx_st");
  ("BIO", Struct "bio_st");
  ("BIGNUM", Struct "bignum_st");
  ("BN_CTX", Struct "bignum_ctx");
  ("BN_BLINDING", Struct "bn_blinding_st");
  ("BN_MONT_CTX", Struct "bn_mont_ctx_st");
  ("BN_RECP_CTX", Struct "bn_recp_ctx_st");
  ("BN_GENCB", Struct "bn_gencb_st");
  ("BUF_MEM", Struct "buf_mem_st");
  ("ERR_STATE", Struct "err_state_st");
  ("EVP_CIPHER", Struct "evp_cipher_st");
  ("EVP_CIPHER_CTX", Struct "evp_cipher_ctx_st");
  ("EVP_MD", Struct "evp_md_st");
  ("EVP_MD_CTX", Struct "evp_md_ctx_st");
  ("EVP_MAC", Struct "evp_mac_st");
  ("EVP_MAC_CTX", Struct "evp_mac_ctx_st");
  ("EVP_PKEY", Struct "evp_pkey_st");
  ("EVP_PKEY_ASN1_METHOD", Struct "evp_pkey_asn1_method_st");
  ("EVP_PKEY_METHOD", Struct "evp_pkey_method_st");
  ("EVP_PKEY_CTX", Struct "evp_pkey_ctx_st");
  ("EVP_KEYMGMT", Struct "evp_keymgmt_st");
  ("EVP_KDF", Struct "evp_kdf_st");
  ("EVP_KDF_CTX", Struct "evp_kdf_ctx_st");
  ("EVP_RAND", Struct "evp_rand_st")].

Definition types_2 : list (string * ctype) := [
  ("EVP_RAND_CTX", Struct "evp_rand_ctx_st");
  ("EVP_KEYEXCH", Struct "evp_keyexch_st");
  ("EVP_SIGNATURE", Struct "evp_signature_st");
  ("EVP_ASYM_CIPHER", Struct "evp_asym_cipher_st");
  ("EVP_KEM", Struct "evp_kem_st");
  ("EVP_ENCODE_CTX", Struct "evp_Encode_Ctx_st");
  ("HMAC_CTX", Struct "hmac_ctx_st");
  ("DH", Struct "dh_st");
  ("DH_METHOD", Struct "dh_method");
  ("DSA", Struct "dsa_st");
  ("DSA_METHOD", Struct "dsa_method");
  ("RSA", Struct "rsa_st");
  ("RSA_METHOD", Struct "rsa_meth_st");
  ("RSA_PSS_PARAMS", Struct "rsa_pss_params_st");
  ("EC_KEY", Struct "ec_key_st");
  ("EC_KEY_METHOD", Struct "ec_key_method_st");
  ("RAND_METHOD", Struct "rand_meth_st");
  ("RAND_DRBG", Struct "rand_drbg_st");
  ("SSL_DANE", Struct "ssl_dane_st");
  ("X509", Struct "x509_st");
  ("X509_ALGOR", Struct "X509_algor_st");
  ("X509_CRL", Struct "X509_crl_st");
  ("X509_CRL_METHOD", Struct "x509_crl_method_st");
  ("X509_REVOKED", Struct "x509_revoked_st");
  ("X509_NAME", Struct "X509_name_st");
  ("X509_PUBKEY", Struct "X509_pubkey_st");
  ("X509_STORE", Struct "x509_store_st");
  ("X509_STORE_CTX", Struct "x509_store_ctx_st");
  ("X509_OBJECT", Struct "x509_object_st");
  ("X509_LOOKUP", Struct "x509_lookup_st");
  ("X509_LOOKUP_METHOD", Struct "x509_lookup_method_st");
  ("X509_VERIFY_PARAM", Struct "X509_VERIFY_PARAM_st");
  ("X509_SIG_INFO", Struct "x509_sig_info_st");
  ("PKCS8_PRIV_KEY_INFO", Struct "pkcs8_priv_key_info_st");
  ("X509V3_CTX", Struct "v3_ext_ctx");
  ("CONF", Struct "conf_st");
  ("OPENSSL_INIT_SETTINGS", Struct "ossl_init_settings_st");
  ("UI", Struct "ui_st");
  ("UI_METHOD", Struct "ui_method_st");
  ("ENGINE", Struct "engine_st");
  ("SSL", Struct "ssl_st");
  ("SSL_CTX", Struct "ssl_ctx_st");
  ("COMP_CTX", Struct "comp_ctx_st");
  ("COMP_METHOD", Struct "comp_method_st");
  ("X509_POLICY_NODE", Struct "X509_POLICY_NODE_st");
  ("X509_POLICY_LEVEL", Struct "X509_POLICY_LEVEL_st");
  ("X509_POLICY_TREE", Struct "X509_POLICY_TREE_st");
  ("X509_POLICY_CACHE", Struct "X509_POLICY_CACHE_st");
  ("AUTHORITY_KEYID", Struct "AUTHORITY_KEYID_st");
  ("DIST_POINT", Struct "DIST_POINT_st");
  ("ISSUING_DIST_POINT", Struct "ISSUING_DIST_POINT_st");
  ("NAME_CONSTRAINTS", Struct "NAME_CONSTRAINTS_st");
  ("CRYPTO_EX_DATA", Struct "crypto_ex_data_st");
  ("OSSL_HTTP_REQ_CTX", Struct "ossl_http_req_ctx_st");
  ("OCSP_RESPONSE", Struct "ocsp_response_st");
  ("OCSP_RESPID", Struct "ocsp_responder_id_st");
  ("SCT", Struct "sct_st");
  ("SCT_CTX", Struct "sct_ctx_st");
  ("CTLOG", Struct "ctlog_st");
  ("CTLOG_STORE", Struct "ctlog_store_st");
  ("CT_POLICY_EVAL_CTX", Struct "ct_policy_eval_ctx_st");
  ("OSSL_STORE_INFO", Struct "ossl_store_info_st");
  ("OSSL_STORE_SEARCH", Struct "ossl_store_search_st");
  ("OSSL_LIB_CTX", Struct "ossl_lib_ctx_st");
  ("OSSL_DISPATCH", Struct "ossl_dispatch_st");
  ("OSSL_ITEM", Struct "ossl_item_st");
  ("OSSL_ALGORITHM", Struct "ossl_algorithm_st");
  ("OSSL_PARAM", Struct "ossl_param_st");
  ("OSSL_PARAM_BLD", Struct "ossl_param_bld_st");
  ("OSSL_ENCODER", Struct "ossl_encoder_st");
  ("OSSL_ENCODER_CTX", Struct "ossl_encoder_ctx_st");
  ("OSSL_DECODER", Struct "ossl_decoder_st");
  ("OSSL_DECODER_CTX", Struct "ossl_decoder_ctx_st");
  ("OSSL_SELF_TEST", Struct "ossl_self_test_st")].

Definition OPENSSL_STRING : ctype := Ptr Char.
Definition OPENSSL_CSTRING : ctype := Ptr (Const Char).
Definition OPENSSL_BLOCK : ctype := Ptr Void.

Definition STACK_OF (type : string) : ctype := Struct ("stack_st_" +:+ type).
Definition x509v3_types : list (string * ctype) := [("GENERAL_NAMES", STACK_OF "GENERAL_NAME")].

Definition typedefs : list (string * ctype) :=
  (types_0 ++ types_1 ++ types_2 ++
   [("OPENSSL_STRING", OPENSSL_STRING); ("OPENSSL_CSTRING", OPENSSL_CSTRING); ("OPENSSL_BLOCK", OPENSSL_BLOCK)] ++
   x509v3_types)%list.

(** The type with a name: what its typedef says, and a structure without one here. *)
Definition TypeName (name : string) : ctype := default (Struct name) (named typedefs name).

(** ** The functions on untyped pointers *)

Definition OPENSSL_STACK : ctype := Struct "stack_st".
Definition OPENSSL_sk_compfunc : ctype := Ptr (Fun2 Int (Ptr (Const Void)) (Ptr (Const Void))).
Definition OPENSSL_sk_freefunc : ctype := Ptr (Fun1 Void (Ptr Void)).
Definition OPENSSL_sk_copyfunc : ctype := Ptr (Fun1 (Ptr Void) (Ptr (Const Void))).
Definition stack_prototypes : list (string * prototype) := [
  ("OPENSSL_sk_num", (Int, [Ptr (Const OPENSSL_STACK)]));
  ("OPENSSL_sk_value", (Ptr Void, [Ptr (Const OPENSSL_STACK); Int]));
  ("OPENSSL_sk_set", (Ptr Void, [Ptr OPENSSL_STACK; Int; Ptr (Const Void)]));
  ("OPENSSL_sk_new", (Ptr OPENSSL_STACK, [OPENSSL_sk_compfunc]));
  ("OPENSSL_sk_new_null", (Ptr OPENSSL_STACK, []));
  ("OPENSSL_sk_new_reserve", (Ptr OPENSSL_STACK, [OPENSSL_sk_compfunc; Int]));
  ("OPENSSL_sk_reserve", (Int, [Ptr OPENSSL_STACK; Int]));
  ("OPENSSL_sk_free", (Void, [Ptr OPENSSL_STACK]));
  ("OPENSSL_sk_pop_free", (Void, [Ptr OPENSSL_STACK; Ptr (Fun1 Void (Ptr Void))]));
  ("OPENSSL_sk_deep_copy", (Ptr OPENSSL_STACK, [Ptr (Const OPENSSL_STACK); OPENSSL_sk_copyfunc; OPENSSL_sk_freefunc]));
  ("OPENSSL_sk_insert", (Int, [Ptr OPENSSL_STACK; Ptr (Const Void); Int]));
  ("OPENSSL_sk_delete", (Ptr Void, [Ptr OPENSSL_STACK; Int]));
  ("OPENSSL_sk_delete_ptr", (Ptr Void, [Ptr OPENSSL_STACK; Ptr (Const Void)]));
  ("OPENSSL_sk_find", (Int, [Ptr OPENSSL_STACK; Ptr (Const Void)]));
  ("OPENSSL_sk_find_ex", (Int, [Ptr OPENSSL_STACK; Ptr (Const Void)]));
  ("OPENSSL_sk_find_all", (Int, [Ptr OPENSSL_STACK; Ptr (Const Void); Ptr Int]));
  ("OPENSSL_sk_push", (Int, [Ptr OPENSSL_STACK; Ptr (Const Void)]));
  ("OPENSSL_sk_unshift", (Int, [Ptr OPENSSL_STACK; Ptr (Const Void)]));
  ("OPENSSL_sk_shift", (Ptr Void, [Ptr OPENSSL_STACK]));
  ("OPENSSL_sk_pop", (Ptr Void, [Ptr OPENSSL_STACK]));
  ("OPENSSL_sk_zero", (Void, [Ptr OPENSSL_STACK]));
  ("OPENSSL_sk_set_cmp_func", (OPENSSL_sk_compfunc, [Ptr OPENSSL_STACK; OPENSSL_sk_compfunc]));
  ("OPENSSL_sk_dup", (Ptr OPENSSL_STACK, [Ptr (Const OPENSSL_STACK)]));
  ("OPENSSL_sk_sort", (Void, [Ptr OPENSSL_STACK]));
  ("OPENSSL_sk_is_sorted", (Int, [Ptr (Const OPENSSL_STACK)]))].

(** The names of the functions before OpenSSL 1.1.0. *)
Definition stack_aliases : list (string * string) := [
  ("sk_num", "OPENSSL_sk_num");
  ("sk_value", "OPENSSL_sk_value");
  ("sk_set", "OPENSSL_sk_set");
  ("sk_new", "OPENSSL_sk_new");
  ("sk_new_null", "OPENSSL_sk_new_null");
  ("sk_free", "OPENSSL_sk_free");
  ("sk_pop_free", "OPENSSL_sk_pop_free");
  ("sk_deep_copy", "OPENSSL_sk_deep_copy");
  ("sk_insert", "OPENSSL_sk_insert");
  ("sk_delete", "OPENSSL_sk_delete");
  ("sk_delete_ptr", "OPENSSL_sk_delete_ptr");
  ("sk_find", "OPENSSL_sk_find");
  ("sk_find_ex", "OPENSSL_sk_find_ex");
  ("sk_push", "OPENSSL_sk_push");
  ("sk_unshift", "OPENSSL_sk_unshift");
  ("sk_shift", "OPENSSL_sk_shift");
  ("sk_pop", "OPENSSL_sk_pop");
  ("sk_zero", "OPENSSL_sk_zero");
  ("sk_set_cmp_func", "OPENSSL_sk_set_cmp_func");
  ("sk_dup", "OPENSSL_sk_dup");
  ("sk_sort", "OPENSSL_sk_sort");
  ("sk_is_sorted", "OPENSSL_sk_is_sorted")].

Definition OPENSSL_LHASH : ctype := Struct "lhash_st".
Definition OPENSSL_LH_COMPFUNC : ctype := Ptr (Fun2 Int (Ptr (Const Void)) (Ptr (Const Void))).
Definition OPENSSL_LH_HASHFUNC : ctype := Ptr (Fun1 ULong (Ptr (Const Void))).
Definition OPENSSL_LH_DOALL_FUNC : ctype := Ptr (Fun1 Void (Ptr Void)).
Definition OPENSSL_LH_DOALL_FUNCARG : ctype := Ptr (Fun2 Void (Ptr Void) (Ptr Void)).
Definition lhash_prototypes : list (string * prototype) := [
  ("OPENSSL_LH_error", (Int, [Ptr OPENSSL_LHASH]));
  ("OPENSSL_LH_new", (Ptr OPENSSL_LHASH, [OPENSSL_LH_HASHFUNC; OPENSSL_LH_COMPFUNC]));
  ("OPENSSL_LH_free", (Void, [Ptr OPENSSL_LHASH]));
  ("OPENSSL_LH_flush", (Void, [Ptr OPENSSL_LHASH]));
  ("OPENSSL_LH_insert", (Ptr Void, [Ptr OPENSSL_LHASH; Ptr Void]));
  ("OPENSSL_LH_delete", (Ptr Void, [Ptr OPENSSL_LHASH; Ptr (Const Void)]));
  ("OPENSSL_LH_retrieve", (Ptr Void, [Ptr OPENSSL_LHASH; Ptr (Const Void)]));
  ("OPENSSL_LH_doall", (Void, [Ptr OPENSSL_LHASH; OPENSSL_LH_DOALL_FUNC]));
  ("OPENSSL_LH_doall_arg", (Void, [Ptr OPENSSL_LHASH; OPENSSL_LH_DOALL_FUNCARG; Ptr Void]));
  ("OPENSSL_LH_strhash", (ULong, [Ptr (Const Char)]));
  ("OPENSSL_LH_num_items", (ULong, [Ptr (Const OPENSSL_LHASH)]));
  ("OPENSSL_LH_get_down_load", (ULong, [Ptr (Const OPENSSL_LHASH)]));
  ("OPENSSL_LH_set_down_load", (Void, [Ptr OPENSSL_LHASH; ULong]));
  ("OPENSSL_LH_stats", (Void, [Ptr (Const OPENSSL_LHASH); Ptr (TypeName "FILE")]));
  ("OPENSSL_LH_node_stats", (Void, [Ptr (Const OPENSSL_LHASH); Ptr (TypeName "FILE")]));
  ("OPENSSL_LH_node_usage_stats", (Void, [Ptr (Const OPENSSL_LHASH); Ptr (TypeName "FILE")]));
  ("OPENSSL_LH_stats_bio", (Void, [Ptr (Const OPENSSL_LHASH); Ptr (TypeName "BIO")]));
  ("OPENSSL_LH_node_stats_bio", (Void, [Ptr (Const OPENSSL_LHASH); Ptr (TypeName "BIO")]));
  ("OPENSSL_LH_node_usage_stats_bio", (Void, [Ptr (Const OPENSSL_LHASH); Ptr (TypeName "BIO")]))].

Definition lhash_aliases : list (string * string) := [
  ("lh_error", "OPENSSL_LH_error");
  ("lh_new", "OPENSSL_LH_new");
  ("lh_free", "OPENSSL_LH_free");
  ("lh_insert", "OPENSSL_LH_insert");
  ("lh_delete", "OPENSSL_LH_delete");
  ("lh_retrieve", "OPENSSL_LH_retrieve");
  ("lh_doall", "OPENSSL_LH_doall");
  ("lh_doall_arg", "OPENSSL_LH_doall_arg");
  ("lh_strhash", "OPENSSL_LH_strhash");
  ("lh_num_items", "OPENSSL_LH_num_items");
  ("lh_stats", "OPENSSL_LH_stats");
  ("lh_node_stats", "OPENSSL_LH_node_stats");
  ("lh_node_usage_stats", "OPENSSL_LH_node_usage_stats");
  ("lh_stats_bio", "OPENSSL_LH_stats_bio");
  ("lh_node_stats_bio", "OPENSSL_LH_node_stats_bio");
  ("lh_node_usage_stats_bio", "OPENSSL_LH_node_usage_stats_bio")].

(** ** Stacks: [openssl/safestack.h] *)

Definition sk_compfunc (t3 : ctype) : ctype := Ptr (Fun2 Int (Ptr (Const (Ptr (Const t3)))) (Ptr (Const (Ptr (Const t3))))).
Definition sk_freefunc (t3 : ctype) : ctype := Ptr (Fun1 Void (Ptr t3)).
Definition sk_copyfunc (t3 : ctype) : ctype := Ptr (Fun1 (Ptr t3) (Ptr (Const t3))).

(** The functions that check the type of an argument. *)
Definition SKM_DEFINE_STACK_OF_INTERNAL (t1 : string) (t2 t3 : ctype) : list cfun := [
  CFun ("ossl_check_" +:+ t1 +:+ "_type") (Ptr t2) [("ptr", Ptr t2)] (Par "ptr");
  CFun ("ossl_check_const_" +:+ t1 +:+ "_sk_type") (Ptr (Const OPENSSL_STACK)) [("sk", Ptr (Const (STACK_OF t1)))]
    (Cast (Ptr (Const OPENSSL_STACK)) (Par "sk"));
  CFun ("ossl_check_" +:+ t1 +:+ "_sk_type") (Ptr OPENSSL_STACK) [("sk", Ptr (STACK_OF t1))]
    (Cast (Ptr OPENSSL_STACK) (Par "sk"));
  CFun ("ossl_check_" +:+ t1 +:+ "_compfunc_type") OPENSSL_sk_compfunc [("cmp", sk_compfunc t3)]
    (Cast OPENSSL_sk_compfunc (Par "cmp"));
  CFun ("ossl_check_" +:+ t1 +:+ "_copyfunc_type") OPENSSL_sk_copyfunc [("cpy", sk_copyfunc t3)]
    (Cast OPENSSL_sk_copyfunc (Par "cpy"));
  CFun ("ossl_check_" +:+ t1 +:+ "_freefunc_type") OPENSSL_sk_freefunc [("fr", sk_freefunc t3)]
    (Cast OPENSSL_sk_freefunc (Par "fr"))].

(** The operations, with what their names end in. *)
Definition sk_num (t1 : string) (t2 t3 : ctype) : cfun :=
  CFun ("sk_" +:+ t1 +:+ "_num") Int [("sk", Ptr (Const (STACK_OF t1)))]
    (Call "OPENSSL_sk_num" [Cast (Ptr (Const OPENSSL_STACK)) (Par "sk")]).
Definition sk_value (t1 : string) (t2 t3 : ctype) : cfun :=
  CFun ("sk_" +:+ t1 +:+ "_value") (Ptr t2) [("sk", Ptr (Const (STACK_OF t1))); ("idx", Int)] (Cast (Ptr t2)
    (Call "OPENSSL_sk_value" [Cast (Ptr (Const OPENSSL_STACK)) (Par "sk"); Par "idx"])).
Definition sk_new (t1 : string) (t2 t3 : ctype) : cfun :=
  CFun ("sk_" +:+ t1 +:+ "_new") (Ptr (STACK_OF t1)) [("compare", sk_compfunc t3)] (Cast (Ptr (STACK_OF t1))
    (Call "OPENSSL_sk_new" [Cast OPENSSL_sk_compfunc (Par "compare")])).
Definition sk_new_null (t1 : string) (t2 t3 : ctype) : cfun :=
  CFun ("sk_" +:+ t1 +:+ "_new_null") (Ptr (STACK_OF t1)) [] (Cast (Ptr (STACK_OF t1)) (Call "OPENSSL_sk_new_null" [])).
Definition sk_new_reserve (t1 : string) (t2 t3 : ctype) : cfun :=
  CFun ("sk_" +:+ t1 +:+ "_new_reserve") (Ptr (STACK_OF t1)) [("compare", sk_compfunc t3); ("n", Int)]
    (Cast (Ptr (STACK_OF t1)) (Call "OPENSSL_sk_new_reserve" [Cast OPENSSL_sk_compfunc (Par "compare"); Par "n"])).
Definition sk_reserve (t1 : string) (t2 t3 : ctype) : cfun :=
  CFun ("sk_" +:+ t1 +:+ "_reserve") Int [("sk", Ptr (STACK_OF t1)); ("n", Int)]
    (Call "OPENSSL_sk_reserve" [Cast (Ptr OPENSSL_STACK) (Par "sk"); Par "n"]).
Definition sk_free (t1 : string) (t2 t3 : ctype) : cfun :=
  CFun ("sk_" +:+ t1 +:+ "_free") Void [("sk", Ptr (STACK_OF t1))]
    (Call "OPENSSL_sk_free" [Cast (Ptr OPENSSL_STACK) (Par "sk")]).
Definition sk_zero (t1 : string) (t2 t3 : ctype) : cfun :=
  CFun ("sk_" +:+ t1 +:+ "_zero") Void [("sk", Ptr (STACK_OF t1))]
    (Call "OPENSSL_sk_zero" [Cast (Ptr OPENSSL_STACK) (Par "sk")]).
Definition sk_delete (t1 : string) (t2 t3 : ctype) : cfun :=
  CFun ("sk_" +:+ t1 +:+ "_delete") (Ptr t2) [("sk", Ptr (STACK_OF t1)); ("i", Int)] (Cast (Ptr t2)
    (Call "OPENSSL_sk_delete" [Cast (Ptr OPENSSL_STACK) (Par "sk"); Par "i"])).
Definition sk_delete_ptr (t1 : string) (t2 t3 : ctype) : cfun :=
  CFun ("sk_" +:+ t1 +:+ "_delete_ptr") (Ptr t2) [("sk", Ptr (STACK_OF t1)); ("ptr", Ptr t2)] (Cast (Ptr t2)
    (Call "OPENSSL_sk_delete_ptr" [Cast (Ptr OPENSSL_STACK) (Par "sk"); Cast (Ptr (Const Void)) (Par "ptr")])).
Definition sk_push (t1 : string) (t2 t3 : ctype) : cfun :=
  CFun ("sk_" +:+ t1 +:+ "_push") Int [("sk", Ptr (STACK_OF t1)); ("ptr", Ptr t2)]
    (Call "OPENSSL_sk_push" [Cast (Ptr OPENSSL_STACK) (Par "sk"); Cast (Ptr (Const Void)) (Par "ptr")]).
Definition sk_unshift (t1 : string) (t2 t3 : ctype) : cfun :=
  CFun ("sk_" +:+ t1 +:+ "_unshift") Int [("sk", Ptr (STACK_OF t1)); ("ptr", Ptr t2)]
    (Call "OPENSSL_sk_unshift" [Cast (Ptr OPENSSL_STACK) (Par "sk"); Cast (Ptr (Const Void)) (Par "ptr")]).
Definition sk_pop (t1 : string) (t2 t3 : ctype) : cfun :=
  CFun ("sk_" +:+ t1 +:+ "_pop") (Ptr t2) [("sk", Ptr (STACK_OF t1))] (Cast (Ptr t2)
    (Call "OPENSSL_sk_pop" [Cast (Ptr OPENSSL_STACK) (Par "sk")])).
Definition sk_shift (t1 : string) (t2 t3 : ctype) : cfun :=
  CFun ("sk_" +:+ t1 +:+ "_shift") (Ptr t2) [("sk", Ptr (STACK_OF t1))] (Cast (Ptr t2)
    (Call "OPENSSL_sk_shift" [Cast (Ptr OPENSSL_STACK) (Par "sk")])).
Definition sk_pop_free (t1 : string) (t2 t3 : ctype) : cfun :=
  CFun ("sk_" +:+ t1 +:+ "_pop_free") Void [("sk", Ptr (STACK_OF t1)); ("freefunc", sk_freefunc t3)]
    (Call "OPENSSL_sk_pop_free" [Cast (Ptr OPENSSL_STACK) (Par "sk"); Cast OPENSSL_sk_freefunc (Par "freefunc")]).
Definition sk_insert (t1 : string) (t2 t3 : ctype) : cfun :=
  CFun ("sk_" +:+ t1 +:+ "_insert") Int [("sk", Ptr (STACK_OF t1)); ("ptr", Ptr t2); ("idx", Int)]
    (Call "OPENSSL_sk_insert" [Cast (Ptr OPENSSL_STACK) (Par "sk"); Cast (Ptr (Const Void)) (Par "ptr"); Par "idx"]).
Definition sk_set (t1 : string) (t2 t3 : ctype) : cfun :=
  CFun ("sk_" +:+ t1 +:+ "_set") (Ptr t2) [("sk", Ptr (STACK_OF t1)); ("idx", Int); ("ptr", Ptr t2)] (Cast (Ptr t2)
    (Call "OPENSSL_sk_set" [Cast (Ptr OPENSSL_STACK) (Par "sk"); Par "idx"; Cast (Ptr (Const Void)) (Par "ptr")])).
Definition sk_find (t1 : string) (t2 t3 : ctype) : cfun :=
  CFun ("sk_" +:+ t1 +:+ "_find") Int [("sk", Ptr (STACK_OF t1)); ("ptr", Ptr t2)]
    (Call "OPENSSL_sk_find" [Cast (Ptr OPENSSL_STACK) (Par "sk"); Cast (Ptr (Const Void)) (Par "ptr")]).
Definition sk_find_ex (t1 : string) (t2 t3 : ctype) : cfun :=
  CFun ("sk_" +:+ t1 +:+ "_find_ex") Int [("sk", Ptr (STACK_OF t1)); ("ptr", Ptr t2)]
    (Call "OPENSSL_sk_find_ex" [Cast (Ptr OPENSSL_STACK) (Par "sk"); Cast (Ptr (Const Void)) (Par "ptr")]).
Definition sk_find_all (t1 : string) (t2 t3 : ctype) : cfun :=
  CFun ("sk_" +:+ t1 +:+ "_find_all") Int [("sk", Ptr (STACK_OF t1)); ("ptr", Ptr t2); ("pnum", Ptr Int)]
    (Call "OPENSSL_sk_find_all" [Cast (Ptr OPENSSL_STACK) (Par "sk"); Cast (Ptr (Const Void)) (Par "ptr");
    Par "pnum"]).
Definition sk_sort (t1 : string) (t2 t3 : ctype) : cfun :=
  CFun ("sk_" +:+ t1 +:+ "_sort") Void [("sk", Ptr (STACK_OF t1))]
    (Call "OPENSSL_sk_sort" [Cast (Ptr OPENSSL_STACK) (Par "sk")]).
Definition sk_is_sorted (t1 : string) (t2 t3 : ctype) : cfun :=
  CFun ("sk_" +:+ t1 +:+ "_is_sorted") Int [("sk", Ptr (Const (STACK_OF t1)))]
    (Call "OPENSSL_sk_is_sorted" [Cast (Ptr (Const OPENSSL_STACK)) (Par "sk")]).
Definition sk_dup (t1 : string) (t2 t3 : ctype) : cfun :=
  CFun ("sk_" +:+ t1 +:+ "_dup") (Ptr (STACK_OF t1)) [("sk", Ptr (Const (STACK_OF t1)))] (Cast (Ptr (STACK_OF t1))
    (Call "OPENSSL_sk_dup" [Cast (Ptr (Const OPENSSL_STACK)) (Par "sk")])).
Definition sk_deep_copy (t1 : string) (t2 t3 : ctype) : cfun :=
  CFun ("sk_" +:+ t1 +:+ "_deep_copy") (Ptr (STACK_OF t1)) [("sk", Ptr (Const (STACK_OF t1)));
    ("copyfunc", sk_copyfunc t3); ("freefunc", sk_freefunc t3)] (Cast (Ptr (STACK_OF t1))
    (Call "OPENSSL_sk_deep_copy" [Cast (Ptr (Const OPENSSL_STACK)) (Par "sk");
    Cast OPENSSL_sk_copyfunc (Par "copyfunc"); Cast OPENSSL_sk_freefunc (Par "freefunc")])).
Definition sk_set_cmp_func (t1 : string) (t2 t3 : ctype) : cfun :=
  CFun ("sk_" +:+ t1 +:+ "_set_cmp_func") (sk_compfunc t3) [("sk", Ptr (STACK_OF t1)); ("compare", sk_compfunc t3)]
    (Cast (sk_compfunc t3) (Call "OPENSSL_sk_set_cmp_func" [Cast (Ptr OPENSSL_STACK) (Par "sk");
    Cast OPENSSL_sk_compfunc (Par "compare")])).
Definition SKM_DEFINE_STACK_OF (t1 : string) (t2 t3 : ctype) : list (string * cfun) := [
  ("num", sk_num t1 t2 t3); ("value", sk_value t1 t2 t3); ("new", sk_new t1 t2 t3); ("new_null", sk_new_null t1 t2 t3);
  ("new_reserve", sk_new_reserve t1 t2 t3); ("reserve", sk_reserve t1 t2 t3); ("free", sk_free t1 t2 t3);
  ("zero", sk_zero t1 t2 t3); ("delete", sk_delete t1 t2 t3); ("delete_ptr", sk_delete_ptr t1 t2 t3);
  ("push", sk_push t1 t2 t3); ("unshift", sk_unshift t1 t2 t3); ("pop", sk_pop t1 t2 t3);
  ("shift", sk_shift t1 t2 t3); ("pop_free", sk_pop_free t1 t2 t3); ("insert", sk_insert t1 t2 t3);
  ("set", sk_set t1 t2 t3); ("find", sk_find t1 t2 t3); ("find_ex", sk_find_ex t1 t2 t3);
  ("find_all", sk_find_all t1 t2 t3); ("sort", sk_sort t1 t2 t3); ("is_sorted", sk_is_sorted t1 t2 t3);
  ("dup", sk_dup t1 t2 t3); ("deep_copy", sk_deep_copy t1 t2 t3); ("set_cmp_func", sk_set_cmp_func t1 t2 t3)].

Definition DEFINE_STACK_OF (t : string) : list (string * cfun) :=
  SKM_DEFINE_STACK_OF t (TypeName t) (TypeName t).
Definition DEFINE_STACK_OF_CONST (t : string) : list (string * cfun) :=
  SKM_DEFINE_STACK_OF t (Const (TypeName t)) (TypeName t).
Definition DEFINE_SPECIAL_STACK_OF (t1 : string) (t2 : ctype) : list (string * cfun) :=
  SKM_DEFINE_STACK_OF t1 t2 t2.
Definition DEFINE_SPECIAL_STACK_OF_CONST (t1 : string) (t2 : ctype) : list (string * cfun) :=
  SKM_DEFINE_STACK_OF t1 (Const t2) t2.
(** ** Hash tables: [openssl/lhash.h] *)

Definition LHASH_OF (type : string) : ctype := Struct ("lhash_st_" +:+ type).
Definition lh_compfunc (type : ctype) : ctype := Ptr (Fun2 Int (Ptr (Const type)) (Ptr (Const type))).
Definition lh_hashfunc (type : ctype) : ctype := Ptr (Fun1 ULong (Ptr (Const type))).
Definition lh_doallfunc (type : ctype) : ctype := Ptr (Fun1 Void (Ptr type)).

Definition DEFINE_LHASH_OF_INTERNAL (type : string) : list cfun := [
  CFun ("ossl_check_" +:+ type +:+ "_lh_plain_type") (Ptr (TypeName type)) [("ptr", Ptr (TypeName type))] (Par "ptr");
  CFun ("ossl_check_const_" +:+ type +:+ "_lh_plain_type") (Ptr (Const (TypeName type)))
    [("ptr", Ptr (Const (TypeName type)))] (Par "ptr");
  CFun ("ossl_check_const_" +:+ type +:+ "_lh_type") (Ptr (Const OPENSSL_LHASH)) [("lh", Ptr (Const (LHASH_OF type)))]
    (Cast (Ptr (Const OPENSSL_LHASH)) (Par "lh"));
  CFun ("ossl_check_" +:+ type +:+ "_lh_type") (Ptr OPENSSL_LHASH) [("lh", Ptr (LHASH_OF type))]
    (Cast (Ptr OPENSSL_LHASH) (Par "lh"));
  CFun ("ossl_check_" +:+ type +:+ "_lh_compfunc_type") OPENSSL_LH_COMPFUNC [("cmp", lh_compfunc (TypeName type))]
    (Cast OPENSSL_LH_COMPFUNC (Par "cmp"));
  CFun ("ossl_check_" +:+ type +:+ "_lh_hashfunc_type") OPENSSL_LH_HASHFUNC [("hfn", lh_hashfunc (TypeName type))]
    (Cast OPENSSL_LH_HASHFUNC (Par "hfn"));
  CFun ("ossl_check_" +:+ type +:+ "_lh_doallfunc_type") OPENSSL_LH_DOALL_FUNC [("dfn", lh_doallfunc (TypeName type))]
    (Cast OPENSSL_LH_DOALL_FUNC (Par "dfn"))].

Definition lh_new (type : string) : cfun :=
  CFun ("lh_" +:+ type +:+ "_new") (Ptr (LHASH_OF type)) [("hfn", Ptr (Fun1 ULong (Ptr (Const (TypeName type)))));
    ("cfn", Ptr (Fun2 Int (Ptr (Const (TypeName type))) (Ptr (Const (TypeName type)))))] (Cast (Ptr (LHASH_OF type))
    (Call "OPENSSL_LH_new" [Cast OPENSSL_LH_HASHFUNC (Par "hfn"); Cast OPENSSL_LH_COMPFUNC (Par "cfn")])).
Definition lh_free (type : string) : cfun :=
  CFun ("lh_" +:+ type +:+ "_free") Void [("lh", Ptr (LHASH_OF type))]
    (Call "OPENSSL_LH_free" [Cast (Ptr OPENSSL_LHASH) (Par "lh")]).
Definition lh_flush (type : string) : cfun :=
  CFun ("lh_" +:+ type +:+ "_flush") Void [("lh", Ptr (LHASH_OF type))]
    (Call "OPENSSL_LH_flush" [Cast (Ptr OPENSSL_LHASH) (Par "lh")]).
Definition lh_insert (type : string) : cfun :=
  CFun ("lh_" +:+ type +:+ "_insert") (Ptr (TypeName type)) [("lh", Ptr (LHASH_OF type)); ("d", Ptr (TypeName type))]
    (Cast (Ptr (TypeName type)) (Call "OPENSSL_LH_insert" [Cast (Ptr OPENSSL_LHASH) (Par "lh"); Par "d"])).
Definition lh_delete (type : string) : cfun :=
  CFun ("lh_" +:+ type +:+ "_delete") (Ptr (TypeName type)) [("lh", Ptr (LHASH_OF type));
    ("d", Ptr (Const (TypeName type)))] (Cast (Ptr (TypeName type))
    (Call "OPENSSL_LH_delete" [Cast (Ptr OPENSSL_LHASH) (Par "lh"); Par "d"])).
Definition lh_retrieve (type : string) : cfun :=
  CFun ("lh_" +:+ type +:+ "_retrieve") (Ptr (TypeName type)) [("lh", Ptr (LHASH_OF type));
    ("d", Ptr (Const (TypeName type)))] (Cast (Ptr (TypeName type))
    (Call "OPENSSL_LH_retrieve" [Cast (Ptr OPENSSL_LHASH) (Par "lh"); Par "d"])).
Definition lh_error (type : string) : cfun :=
  CFun ("lh_" +:+ type +:+ "_error") Int [("lh", Ptr (LHASH_OF type))]
    (Call "OPENSSL_LH_error" [Cast (Ptr OPENSSL_LHASH) (Par "lh")]).
Definition lh_num_items (type : string) : cfun :=
  CFun ("lh_" +:+ type +:+ "_num_items") ULong [("lh", Ptr (LHASH_OF type))]
    (Call "OPENSSL_LH_num_items" [Cast (Ptr OPENSSL_LHASH) (Par "lh")]).
Definition lh_node_stats_bio (type : string) : cfun :=
  CFun ("lh_" +:+ type +:+ "_node_stats_bio") Void [("lh", Ptr (Const (LHASH_OF type))); ("out", Ptr (TypeName "BIO"))]
    (Call "OPENSSL_LH_node_stats_bio" [Cast (Ptr (Const OPENSSL_LHASH)) (Par "lh"); Par "out"]).
Definition lh_node_usage_stats_bio (type : string) : cfun :=
  CFun ("lh_" +:+ type +:+ "_node_usage_stats_bio") Void [("lh", Ptr (Const (LHASH_OF type)));
    ("out", Ptr (TypeName "BIO"))]
    (Call "OPENSSL_LH_node_usage_stats_bio" [Cast (Ptr (Const OPENSSL_LHASH)) (Par "lh"); Par "out"]).
Definition lh_stats_bio (type : string) : cfun :=
  CFun ("lh_" +:+ type +:+ "_stats_bio") Void [("lh", Ptr (Const (LHASH_OF type))); ("out", Ptr (TypeName "BIO"))]
    (Call "OPENSSL_LH_stats_bio" [Cast (Ptr (Const OPENSSL_LHASH)) (Par "lh"); Par "out"]).
Definition lh_get_down_load (type : string) : cfun :=
  CFun ("lh_" +:+ type +:+ "_get_down_load") ULong [("lh", Ptr (LHASH_OF type))]
    (Call "OPENSSL_LH_get_down_load" [Cast (Ptr OPENSSL_LHASH) (Par "lh")]).
Definition lh_set_down_load (type : string) : cfun :=
  CFun ("lh_" +:+ type +:+ "_set_down_load") Void [("lh", Ptr (LHASH_OF type)); ("dl", ULong)]
    (Call "OPENSSL_LH_set_down_load" [Cast (Ptr OPENSSL_LHASH) (Par "lh"); Par "dl"]).
Definition lh_doall (type : string) : cfun :=
  CFun ("lh_" +:+ type +:+ "_doall") Void [("lh", Ptr (LHASH_OF type));
    ("doall", Ptr (Fun1 Void (Ptr (TypeName type))))] (Call "OPENSSL_LH_doall" [Cast (Ptr OPENSSL_LHASH) (Par "lh");
    Cast OPENSSL_LH_DOALL_FUNC (Par "doall")]).
Definition lh_doall_arg (type : string) : cfun :=
  CFun ("lh_" +:+ type +:+ "_doall_arg") Void [("lh", Ptr (LHASH_OF type));
    ("doallarg", Ptr (Fun2 Void (Ptr (TypeName type)) (Ptr Void))); ("arg", Ptr Void)]
    (Call "OPENSSL_LH_doall_arg" [Cast (Ptr OPENSSL_LHASH) (Par "lh"); Cast OPENSSL_LH_DOALL_FUNCARG (Par "doallarg");
    Par "arg"]).
Definition DEFINE_LHASH_OF (type : string) : list (string * cfun) := [
  ("new", lh_new type); ("free", lh_free type); ("flush", lh_flush type); ("insert", lh_insert type);
  ("delete", lh_delete type); ("retrieve", lh_retrieve type); ("error", lh_error type);
  ("num_items", lh_num_items type); ("node_stats_bio", lh_node_stats_bio type);
  ("node_usage_stats_bio", lh_node_usage_stats_bio type); ("stats_bio", lh_stats_bio type);
  ("get_down_load", lh_get_down_load type); ("set_down_load", lh_set_down_load type); ("doall", lh_doall type);
  ("doall_arg", lh_doall_arg type)].


(** The wrappers that make a function on a type a callback on untyped pointers. *)
Definition IMPLEMENT_LHASH_HASH_FN (name : string) (o_type : ctype) : cfun :=
  CFun (name +:+ "_LHASH_HASH") ULong [("arg", Ptr (Const Void))]
    (Call (name +:+ "_hash") [Local (Ptr (Const o_type)) (Par "arg")]).
Definition IMPLEMENT_LHASH_COMP_FN (name : string) (o_type : ctype) : cfun :=
  CFun (name +:+ "_LHASH_COMP") Int [("arg1", Ptr (Const Void)); ("arg2", Ptr (Const Void))]
    (Call (name +:+ "_cmp") [Local (Ptr (Const o_type)) (Par "arg1"); Local (Ptr (Const o_type)) (Par "arg2")]).
Definition IMPLEMENT_LHASH_DOALL_ARG_FN (name : string) (o_type a_type : ctype) : cfun :=
  CFun (name +:+ "_LHASH_DOALL_ARG") Void [("arg1", Ptr Void); ("arg2", Ptr Void)]
    (Call (name +:+ "_doall_arg") [Local (Ptr o_type) (Par "arg1"); Local (Ptr a_type) (Par "arg2")]).

(** The loop with an argument of a type of its own; [cbargtype] is [type] or
    [const type], and [argtype_name] is [argtype]'s name. *)
Definition int_implement_lhash_doall (type argtype_name : string) (argtype cbargtype : ctype) : cfun :=
  CFun ("lh_" +:+ type +:+ "_doall_" +:+ argtype_name) Void
    [("lh", Ptr (LHASH_OF type)); ("fn", Ptr (Fun2 Void (Ptr cbargtype) (Ptr argtype))); ("arg", Ptr argtype)]
    (Call "OPENSSL_LH_doall_arg"
      [Cast (Ptr OPENSSL_LHASH) (Par "lh"); Cast OPENSSL_LH_DOALL_FUNCARG (Par "fn"); Cast (Ptr Void) (Par "arg")]).
Definition IMPLEMENT_LHASH_DOALL_ARG_CONST (type argtype_name : string) (argtype : ctype) : cfun :=
  int_implement_lhash_doall type argtype_name argtype (Const (TypeName type)).
Definition IMPLEMENT_LHASH_DOALL_ARG (type argtype_name : string) (argtype : ctype) : cfun :=
  int_implement_lhash_doall type argtype_name argtype (TypeName type).
