(* ===== verification/StackTables.v ===== *)
(** * The generated macros of OpenSSL's containers

    For every type that has a stack or a hash table, the macros that the headers
    define after the functions that check its arguments. *)

From S2P Require Import Prelude TypedMacros SafeStack.
From stdpp Require Import strings.
Local Open Scope string_scope.

(** The arguments of [SKM_DEFINE_STACK_OF_INTERNAL] and the macros. *)
Record stack : Type := Stack {
  stack_t1 : string;
  stack_t2 : ctype;
  stack_t3 : ctype;
  stack_macros : list cmacro;
}.
Record lhash : Type := LHash {
  lhash_type : string;
  lhash_macros : list cmacro;
}.

Definition stack_X509_ALGOR : stack := Stack "X509_ALGOR" (TypeName "X509_ALGOR") (TypeName "X509_ALGOR") [
  Macro "sk_X509_ALGOR_num" ["sk"] (Call "OPENSSL_sk_num" [Call "ossl_check_const_X509_ALGOR_sk_type" [Par "sk"]]);
  Macro "sk_X509_ALGOR_value" ["sk"; "idx"] (Cast (Ptr (TypeName "X509_ALGOR"))
    (Call "OPENSSL_sk_value" [Call "ossl_check_const_X509_ALGOR_sk_type" [Par "sk"]; Par "idx"]));
  Macro "sk_X509_ALGOR_new" ["cmp"] (Cast (Ptr (STACK_OF "X509_ALGOR"))
    (Call "OPENSSL_sk_new" [Call "ossl_check_X509_ALGOR_compfunc_type" [Par "cmp"]]));
  Macro "sk_X509_ALGOR_new_null" [] (Cast (Ptr (STACK_OF "X509_ALGOR")) (Call "OPENSSL_sk_new_null" []));
  Macro "sk_X509_ALGOR_new_reserve" ["cmp"; "n"] (Cast (Ptr (STACK_OF "X509_ALGOR"))
    (Call "OPENSSL_sk_new_reserve" [Call "ossl_check_X509_ALGOR_compfunc_type" [Par "cmp"]; Par "n"]));
  Macro "sk_X509_ALGOR_reserve" ["sk"; "n"] (Call "OPENSSL_sk_reserve" [Call "ossl_check_X509_ALGOR_sk_type" [Par "sk"];
    Par "n"]);
  Macro "sk_X509_ALGOR_free" ["sk"] (Call "OPENSSL_sk_free" [Call "ossl_check_X509_ALGOR_sk_type" [Par "sk"]]);
  Macro "sk_X509_ALGOR_zero" ["sk"] (Call "OPENSSL_sk_zero" [Call "ossl_check_X509_ALGOR_sk_type" [Par "sk"]]);
  Macro "sk_X509_ALGOR_delete" ["sk"; "i"] (Cast (Ptr (TypeName "X509_ALGOR"))
    (Call "OPENSSL_sk_delete" [Call "ossl_check_X509_ALGOR_sk_type" [Par "sk"]; Par "i"]));
  Macro "sk_X509_ALGOR_delete_ptr" ["sk"; "ptr"] (Cast (Ptr (TypeName "X509_ALGOR"))
    (Call "OPENSSL_sk_delete_ptr" [Call "ossl_check_X509_ALGOR_sk_type" [Par "sk"];
    Call "ossl_check_X509_ALGOR_type" [Par "ptr"]]));
  Macro "sk_X509_ALGOR_push" ["sk"; "ptr"] (Call "OPENSSL_sk_push" [Call "ossl_check_X509_ALGOR_sk_type" [Par "sk"];
    Call "ossl_check_X509_ALGOR_type" [Par "ptr"]]);
  Macro "sk_X509_ALGOR_unshift" ["sk"; "ptr"]
    (Call "OPENSSL_sk_unshift" [Call "ossl_check_X509_ALGOR_sk_type" [Par "sk"];
    Call "ossl_check_X509_ALGOR_type" [Par "ptr"]]);
  Macro "sk_X509_ALGOR_pop" ["sk"] (Cast (Ptr (TypeName "X509_ALGOR"))
    (Call "OPENSSL_sk_pop" [Call "ossl_check_X509_ALGOR_sk_type" [Par "sk"]]));
  Macro "sk_X509_ALGOR_shift" ["sk"] (Cast (Ptr (TypeName "X509_ALGOR"))
    (Call "OPENSSL_sk_shift" [Call "ossl_check_X509_ALGOR_sk_type" [Par "sk"]]));
  Macro "sk_X509_ALGOR_pop_free" ["sk"; "freefunc"]
    (Call "OPENSSL_sk_pop_free" [Call "ossl_check_X509_ALGOR_sk_type" [Par "sk"];
    Call "ossl_check_X509_ALGOR_freefunc_type" [Par "freefunc"]]);
  Macro "sk_X509_ALGOR_insert" ["sk"; "ptr"; "idx"]
    (Call "OPENSSL_sk_insert" [Call "ossl_check_X509_ALGOR_sk_type" [Par "sk"];
    Call "ossl_check_X509_ALGOR_type" [Par "ptr"]; Par "idx"]);
  Macro "sk_X509_ALGOR_set" ["sk"; "idx"; "ptr"] (Cast (Ptr (TypeName "X509_ALGOR"))
    (Call "OPENSSL_sk_set" [Call "ossl_check_X509_ALGOR_sk_type" [Par "sk"]; Par "idx";
    Call "ossl_check_X509_ALGOR_type" [Par "ptr"]]));
  Macro "sk_X509_ALGOR_find" ["sk"; "ptr"] (Call "OPENSSL_sk_find" [Call "ossl_check_X509_ALGOR_sk_type" [Par "sk"];
    Call "ossl_check_X509_ALGOR_type" [Par "ptr"]]);
  Macro "sk_X509_ALGOR_find_ex" ["sk"; "ptr"]
    (Call "OPENSSL_sk_find_ex" [Call "ossl_check_X509_ALGOR_sk_type" [Par "sk"];
    Call "ossl_check_X509_ALGOR_type" [Par "ptr"]]);
  Macro "sk_X509_ALGOR_find_all" ["sk"; "ptr"; "pnum"]
    (Call "OPENSSL_sk_find_all" [Call "ossl_check_X509_ALGOR_sk_type" [Par "sk"];
    Call "ossl_check_X509_ALGOR_type" [Par "ptr"]; Par "pnum"]);
  Macro "sk_X509_ALGOR_sort" ["sk"] (Call "OPENSSL_sk_sort" [Call "ossl_check_X509_ALGOR_sk_type" [Par "sk"]]);
  Macro "sk_X509_ALGOR_is_sorted" ["sk"]
    (Call "OPENSSL_sk_is_sorted" [Call "ossl_check_const_X509_ALGOR_sk_type" [Par "sk"]]);
  Macro "sk_X509_ALGOR_dup" ["sk"] (Cast (Ptr (STACK_OF "X509_ALGOR"))
    (Call "OPENSSL_sk_dup" [Call "ossl_check_const_X509_ALGOR_sk_type" [Par "sk"]]));
  Macro "sk_X509_ALGOR_deep_copy" ["sk"; "copyfunc"; "freefunc"] (Cast (Ptr (STACK_OF "X509_ALGOR"))
    (Call "OPENSSL_sk_deep_copy" [Call "ossl_check_const_X509_ALGOR_sk_type" [Par "sk"];
    Call "ossl_check_X509_ALGOR_copyfunc_type" [Par "copyfunc"];
    Call "ossl_check_X509_ALGOR_freefunc_type" [Par "freefunc"]]));
  Macro "sk_X509_ALGOR_set_cmp_func" ["sk"; "cmp"] (Cast (sk_compfunc (TypeName "X509_ALGOR"))
    (Call "OPENSSL_sk_set_cmp_func" [Call "ossl_check_X509_ALGOR_sk_type" [Par "sk"];
    Call "ossl_check_X509_ALGOR_compfunc_type" [Par "cmp"]]))].

Definition stack_ASN1_STRING_TABLE : stack := Stack "ASN1_STRING_TABLE" (TypeName "ASN1_STRING_TABLE") (TypeName "ASN1_STRING_TABLE") [
  Macro "sk_ASN1_STRING_TABLE_num" ["sk"]
    (Call "OPENSSL_sk_num" [Call "ossl_check_const_ASN1_STRING_TABLE_sk_type" [Par "sk"]]);
  Macro "sk_ASN1_STRING_TABLE_value" ["sk"; "idx"] (Cast (Ptr (TypeName "ASN1_STRING_TABLE"))
    (Call "OPENSSL_sk_value" [Call "ossl_check_const_ASN1_STRING_TABLE_sk_type" [Par "sk"]; Par "idx"]));
  Macro "sk_ASN1_STRING_TABLE_new" ["cmp"] (Cast (Ptr (STACK_OF "ASN1_STRING_TABLE"))
    (Call "OPENSSL_sk_new" [Call "ossl_check_ASN1_STRING_TABLE_compfunc_type" [Par "cmp"]]));
  Macro "sk_ASN1_STRING_TABLE_new_null" [] (Cast (Ptr (STACK_OF "ASN1_STRING_TABLE")) (Call "OPENSSL_sk_new_null" []));
  Macro "sk_ASN1_STRING_TABLE_new_reserve" ["cmp"; "n"] (Cast (Ptr (STACK_OF "ASN1_STRING_TABLE"))
    (Call "OPENSSL_sk_new_reserve" [Call "ossl_check_ASN1_STRING_TABLE_compfunc_type" [Par "cmp"]; Par "n"]));
  Macro "sk_ASN1_STRING_TABLE_reserve" ["sk"; "n"]
    (Call "OPENSSL_sk_reserve" [Call "ossl_check_ASN1_STRING_TABLE_sk_type" [Par "sk"]; Par "n"]);
  Macro "sk_ASN1_STRING_TABLE_free" ["sk"]
    (Call "OPENSSL_sk_free" [Call "ossl_check_ASN1_STRING_TABLE_sk_type" [Par "sk"]]);
  Macro "sk_ASN1_STRING_TABLE_zero" ["sk"]
    (Call "OPENSSL_sk_zero" [Call "ossl_check_ASN1_STRING_TABLE_sk_type" [Par "sk"]]);
  Macro "sk_ASN1_STRING_TABLE_delete" ["sk"; "i"] (Cast (Ptr (TypeName "ASN1_STRING_TABLE"))
    (Call "OPENSSL_sk_delete" [Call "ossl_check_ASN1_STRING_TABLE_sk_type" [Par "sk"]; Par "i"]));
  Macro "sk_ASN1_STRING_TABLE_delete_ptr" ["sk"; "ptr"] (Cast (Ptr (TypeName "ASN1_STRING_TABLE"))
    (Call "OPENSSL_sk_delete_ptr" [Call "ossl_check_ASN1_STRING_TABLE_sk_type" [Par "sk"];
    Call "ossl_check_ASN1_STRING_TABLE_type" [Par "ptr"]]));
  Macro "sk_ASN1_STRING_TABLE_push" ["sk"; "ptr"]
    (Call "OPENSSL_sk_push" [Call "ossl_check_ASN1_STRING_TABLE_sk_type" [Par "sk"];
    Call "ossl_check_ASN1_STRING_TABLE_type" [Par "ptr"]]);
  Macro "sk_ASN1_STRING_TABLE_unshift" ["sk"; "ptr"]
    (Call "OPENSSL_sk_unshift" [Call "ossl_check_ASN1_STRING_TABLE_sk_type" [Par "sk"];
    Call "ossl_check_ASN1_STRING_TABLE_type" [Par "ptr"]]);
  Macro "sk_ASN1_STRING_TABLE_pop" ["sk"] (Cast (Ptr (TypeName "ASN1_STRING_TABLE"))
    (Call "OPENSSL_sk_pop" [Call "ossl_check_ASN1_STRING_TABLE_sk_type" [Par "sk"]]));
  Macro "sk_ASN1_STRING_TABLE_shift" ["sk"] (Cast (Ptr (TypeName "ASN1_STRING_TABLE"))
    (Call "OPENSSL_sk_shift" [Call "ossl_check_ASN1_STRING_TABLE_sk_type" [Par "sk"]]));
  Macro "sk_ASN1_STRING_TABLE_pop_free" ["sk"; "freefunc"]
    (Call "OPENSSL_sk_pop_free" [Call "ossl_check_ASN1_STRING_TABLE_sk_type" [Par "sk"];
    Call "ossl_check_ASN1_STRING_TABLE_freefunc_type" [Par "freefunc"]]);
  Macro "sk_ASN1_STRING_TABLE_insert" ["sk"; "ptr"; "idx"]
    (Call "OPENSSL_sk_insert" [Call "ossl_check_ASN1_STRING_TABLE_sk_type" [Par "sk"];
    Call "ossl_check_ASN1_STRING_TABLE_type" [Par "ptr"]; Par "idx"]);
  Macro "sk_ASN1_STRING_TABLE_set" ["sk"; "idx"; "ptr"] (Cast (Ptr (TypeName "ASN1_STRING_TABLE"))
    (Call "OPENSSL_sk_set" [Call "ossl_check_ASN1_STRING_TABLE_sk_type" [Par "sk"]; Par "idx";
    Call "ossl_check_ASN1_STRING_TABLE_type" [Par "ptr"]]));
  Macro "sk_ASN1_STRING_TABLE_find" ["sk"; "ptr"]
    (Call "OPENSSL_sk_find" [Call "ossl_check_ASN1_STRING_TABLE_sk_type" [Par "sk"];
    Call "ossl_check_ASN1_STRING_TABLE_type" [Par "ptr"]]);
  Macro "sk_ASN1_STRING_TABLE_find_ex" ["sk"; "ptr"]
    (Call "OPENSSL_sk_find_ex" [Call "ossl_check_ASN1_STRING_TABLE_sk_type" [Par "sk"];
    Call "ossl_check_ASN1_STRING_TABLE_type" [Par "ptr"]]);
  Macro "sk_ASN1_STRING_TABLE_find_all" ["sk"; "ptr"; "pnum"]
    (Call "OPENSSL_sk_find_all" [Call "ossl_check_ASN1_STRING_TABLE_sk_type" [Par "sk"];
    Call "ossl_check_ASN1_STRING_TABLE_type" [Par "ptr"]; Par "pnum"]);
  Macro "sk_ASN1_STRING_TABLE_sort" ["sk"]
    (Call "OPENSSL_sk_sort" [Call "ossl_check_ASN1_STRING_TABLE_sk_type" [Par "sk"]]);
  Macro "sk_ASN1_STRING_TABLE_is_sorted" ["sk"]
    (Call "OPENSSL_sk_is_sorted" [Call "ossl_check_const_ASN1_STRING_TABLE_sk_type" [Par "sk"]]);
  Macro "sk_ASN1_STRING_TABLE_dup" ["sk"] (Cast (Ptr (STACK_OF "ASN1_STRING_TABLE"))
    (Call "OPENSSL_sk_dup" [Call "ossl_check_const_ASN1_STRING_TABLE_sk_type" [Par "sk"]]));
  Macro "sk_ASN1_STRING_TABLE_deep_copy" ["sk"; "copyfunc"; "freefunc"] (Cast (Ptr (STACK_OF "ASN1_STRING_TABLE"))
    (Call "OPENSSL_sk_deep_copy" [Call "ossl_check_const_ASN1_STRING_TABLE_sk_type" [Par "sk"];
    Call "ossl_check_ASN1_STRING_TABLE_copyfunc_type" [Par "copyfunc"];
    Call "ossl_check_ASN1_STRING_TABLE_freefunc_type" [Par "freefunc"]]));
  Macro "sk_ASN1_STRING_TABLE_set_cmp_func" ["sk"; "cmp"] (Cast (sk_compfunc (TypeName "ASN1_STRING_TABLE"))
    (Call "OPENSSL_sk_set_cmp_func" [Call "ossl_check_ASN1_STRING_TABLE_sk_type" [Par "sk"];
    Call "ossl_check_ASN1_STRING_TABLE_compfunc_type" [Par "cmp"]]))].

Definition stack_ASN1_TYPE : stack := Stack "ASN1_TYPE" (TypeName "ASN1_TYPE") (TypeName "ASN1_TYPE") [
  Macro "sk_ASN1_TYPE_num" ["sk"] (Call "OPENSSL_sk_num" [Call "ossl_check_const_ASN1_TYPE_sk_type" [Par "sk"]]);
  Macro "sk_ASN1_TYPE_value" ["sk"; "idx"] (Cast (Ptr (TypeName "ASN1_TYPE"))
    (Call "OPENSSL_sk_value" [Call "ossl_check_const_ASN1_TYPE_sk_type" [Par "sk"]; Par "idx"]));
  Macro "sk_ASN1_TYPE_new" ["cmp"] (Cast (Ptr (STACK_OF "ASN1_TYPE"))
    (Call "OPENSSL_sk_new" [Call "ossl_check_ASN1_TYPE_compfunc_type" [Par "cmp"]]));
  Macro "sk_ASN1_TYPE_new_null" [] (Cast (Ptr (STACK_OF "ASN1_TYPE")) (Call "OPENSSL_sk_new_null" []));
  Macro "sk_ASN1_TYPE_new_reserve" ["cmp"; "n"] (Cast (Ptr (STACK_OF "ASN1_TYPE"))
    (Call "OPENSSL_sk_new_reserve" [Call "ossl_check_ASN1_TYPE_compfunc_type" [Par "cmp"]; Par "n"]));
  Macro "sk_ASN1_TYPE_reserve" ["sk"; "n"] (Call "OPENSSL_sk_reserve" [Call "ossl_check_ASN1_TYPE_sk_type" [Par "sk"];
    Par "n"]);
  Macro "sk_ASN1_TYPE_free" ["sk"] (Call "OPENSSL_sk_free" [Call "ossl_check_ASN1_TYPE_sk_type" [Par "sk"]]);
  Macro "sk_ASN1_TYPE_zero" ["sk"] (Call "OPENSSL_sk_zero" [Call "ossl_check_ASN1_TYPE_sk_type" [Par "sk"]]);
  Macro "sk_ASN1_TYPE_delete" ["sk"; "i"] (Cast (Ptr (TypeName "ASN1_TYPE"))
    (Call "OPENSSL_sk_delete" [Call "ossl_check_ASN1_TYPE_sk_type" [Par "sk"]; Par "i"]));
  Macro "sk_ASN1_TYPE_delete_ptr" ["sk"; "ptr"] (Cast (Ptr (TypeName "ASN1_TYPE"))
    (Call "OPENSSL_sk_delete_ptr" [Call "ossl_check_ASN1_TYPE_sk_type" [Par "sk"];
    Call "ossl_check_ASN1_TYPE_type" [Par "ptr"]]));
  Macro "sk_ASN1_TYPE_push" ["sk"; "ptr"] (Call "OPENSSL_sk_push" [Call "ossl_check_ASN1_TYPE_sk_type" [Par "sk"];
    Call "ossl_check_ASN1_TYPE_type" [Par "ptr"]]);
  Macro "sk_ASN1_TYPE_unshift" ["sk"; "ptr"] (Call "OPENSSL_sk_unshift" [Call "ossl_check_ASN1_TYPE_sk_type" [Par "sk"];
    Call "ossl_check_ASN1_TYPE_type" [Par "ptr"]]);
  Macro "sk_ASN1_TYPE_pop" ["sk"] (Cast (Ptr (TypeName "ASN1_TYPE"))
    (Call "OPENSSL_sk_pop" [Call "ossl_check_ASN1_TYPE_sk_type" [Par "sk"]]));
  Macro "sk_ASN1_TYPE_shift" ["sk"] (Cast (Ptr (TypeName "ASN1_TYPE"))
    (Call "OPENSSL_sk_shift" [Call "ossl_check_ASN1_TYPE_sk_type" [Par "sk"]]));
  Macro "sk_ASN1_TYPE_pop_free" ["sk"; "freefunc"]
    (Call "OPENSSL_sk_pop_free" [Call "ossl_check_ASN1_TYPE_sk_type" [Par "sk"];
    Call "ossl_check_ASN1_TYPE_freefunc_type" [Par "freefunc"]]);
  Macro "sk_ASN1_TYPE_insert" ["sk"; "ptr"; "idx"]
    (Call "OPENSSL_sk_insert" [Call "ossl_check_ASN1_TYPE_sk_type" [Par "sk"];
    Call "ossl_check_ASN1_TYPE_type" [Par "ptr"]; Par "idx"]);
  Macro "sk_ASN1_TYPE_set" ["sk"; "idx"; "ptr"] (Cast (Ptr (TypeName "ASN1_TYPE"))
    (Call "OPENSSL_sk_set" [Call "ossl_check_ASN1_TYPE_sk_type" [Par "sk"]; Par "idx";
    Call "ossl_check_ASN1_TYPE_type" [Par "ptr"]]));
  Macro "sk_ASN1_TYPE_find" ["sk"; "ptr"] (Call "OPENSSL_sk_find" [Call "ossl_check_ASN1_TYPE_sk_type" [Par "sk"];
    Call "ossl_check_ASN1_TYPE_type" [Par "ptr"]]);
  Macro "sk_ASN1_TYPE_find_ex" ["sk"; "ptr"] (Call "OPENSSL_sk_find_ex" [Call "ossl_check_ASN1_TYPE_sk_type" [Par "sk"];
    Call "ossl_check_ASN1_TYPE_type" [Par "ptr"]]);
  Macro "sk_ASN1_TYPE_find_all" ["sk"; "ptr"; "pnum"]
    (Call "OPENSSL_sk_find_all" [Call "ossl_check_ASN1_TYPE_sk_type" [Par "sk"];
    Call "ossl_check_ASN1_TYPE_type" [Par "ptr"]; Par "pnum"]);
  Macro "sk_ASN1_TYPE_sort" ["sk"] (Call "OPENSSL_sk_sort" [Call "ossl_check_ASN1_TYPE_sk_type" [Par "sk"]]);
  Macro "sk_ASN1_TYPE_is_sorted" ["sk"]
    (Call "OPENSSL_sk_is_sorted" [Call "ossl_check_const_ASN1_TYPE_sk_type" [Par "sk"]]);
  Macro "sk_ASN1_TYPE_dup" ["sk"] (Cast (Ptr (STACK_OF "ASN1_TYPE"))
    (Call "OPENSSL_sk_dup" [Call "ossl_check_const_ASN1_TYPE_sk_type" [Par "sk"]]));
  Macro "sk_ASN1_TYPE_deep_copy" ["sk"; "copyfunc"; "freefunc"] (Cast (Ptr (STACK_OF "ASN1_TYPE"))
    (Call "OPENSSL_sk_deep_copy" [Call "ossl_check_const_ASN1_TYPE_sk_type" [Par "sk"];
    Call "ossl_check_ASN1_TYPE_copyfunc_type" [Par "copyfunc"];
    Call "ossl_check_ASN1_TYPE_freefunc_type" [Par "freefunc"]]));
  Macro "sk_ASN1_TYPE_set_cmp_func" ["sk"; "cmp"] (Cast (sk_compfunc (TypeName "ASN1_TYPE"))
    (Call "OPENSSL_sk_set_cmp_func" [Call "ossl_check_ASN1_TYPE_sk_type" [Par "sk"];
    Call "ossl_check_ASN1_TYPE_compfunc_type" [Par "cmp"]]))].

Definition stack_ASN1_OBJECT : stack := Stack "ASN1_OBJECT" (TypeName "ASN1_OBJECT") (TypeName "ASN1_OBJECT") [
  Macro "sk_ASN1_OBJECT_num" ["sk"] (Call "OPENSSL_sk_num" [Call "ossl_check_const_ASN1_OBJECT_sk_type" [Par "sk"]]);
  Macro "sk_ASN1_OBJECT_value" ["sk"; "idx"] (Cast (Ptr (TypeName "ASN1_OBJECT"))
    (Call "OPENSSL_sk_value" [Call "ossl_check_const_ASN1_OBJECT_sk_type" [Par "sk"]; Par "idx"]));
  Macro "sk_ASN1_OBJECT_new" ["cmp"] (Cast (Ptr (STACK_OF "ASN1_OBJECT"))
    (Call "OPENSSL_sk_new" [Call "ossl_check_ASN1_OBJECT_compfunc_type" [Par "cmp"]]));
  Macro "sk_ASN1_OBJECT_new_null" [] (Cast (Ptr (STACK_OF "ASN1_OBJECT")) (Call "OPENSSL_sk_new_null" []));
  Macro "sk_ASN1_OBJECT_new_reserve" ["cmp"; "n"] (Cast (Ptr (STACK_OF "ASN1_OBJECT"))
    (Call "OPENSSL_sk_new_reserve" [Call "ossl_check_ASN1_OBJECT_compfunc_type" [Par "cmp"]; Par "n"]));
  Macro "sk_ASN1_OBJECT_reserve" ["sk"; "n"]
    (Call "OPENSSL_sk_reserve" [Call "ossl_check_ASN1_OBJECT_sk_type" [Par "sk"]; Par "n"]);
  Macro "sk_ASN1_OBJECT_free" ["sk"] (Call "OPENSSL_sk_free" [Call "ossl_check_ASN1_OBJECT_sk_type" [Par "sk"]]);
  Macro "sk_ASN1_OBJECT_zero" ["sk"] (Call "OPENSSL_sk_zero" [Call "ossl_check_ASN1_OBJECT_sk_type" [Par "sk"]]);
  Macro "sk_ASN1_OBJECT_delete" ["sk"; "i"] (Cast (Ptr (TypeName "ASN1_OBJECT"))
    (Call "OPENSSL_sk_delete" [Call "ossl_check_ASN1_OBJECT_sk_type" [Par "sk"]; Par "i"]));
  Macro "sk_ASN1_OBJECT_delete_ptr" ["sk"; "ptr"] (Cast (Ptr (TypeName "ASN1_OBJECT"))
    (Call "OPENSSL_sk_delete_ptr" [Call "ossl_check_ASN1_OBJECT_sk_type" [Par "sk"];
    Call "ossl_check_ASN1_OBJECT_type" [Par "ptr"]]));
  Macro "sk_ASN1_OBJECT_push" ["sk"; "ptr"] (Call "OPENSSL_sk_push" [Call "ossl_check_ASN1_OBJECT_sk_type" [Par "sk"];
    Call "ossl_check_ASN1_OBJECT_type" [Par "ptr"]]);
  Macro "sk_ASN1_OBJECT_unshift" ["sk"; "ptr"]
    (Call "OPENSSL_sk_unshift" [Call "ossl_check_ASN1_OBJECT_sk_type" [Par "sk"];
    Call "ossl_check_ASN1_OBJECT_type" [Par "ptr"]]);
  Macro "sk_ASN1_OBJECT_pop" ["sk"] (Cast (Ptr (TypeName "ASN1_OBJECT"))
    (Call "OPENSSL_sk_pop" [Call "ossl_check_ASN1_OBJECT_sk_type" [Par "sk"]]));
  Macro "sk_ASN1_OBJECT_shift" ["sk"] (Cast (Ptr (TypeName "ASN1_OBJECT"))
    (Call "OPENSSL_sk_shift" [Call "ossl_check_ASN1_OBJECT_sk_type" [Par "sk"]]));
  Macro "sk_ASN1_OBJECT_pop_free" ["sk"; "freefunc"]
    (Call "OPENSSL_sk_pop_free" [Call "ossl_check_ASN1_OBJECT_sk_type" [Par "sk"];
    Call "ossl_check_ASN1_OBJECT_freefunc_type" [Par "freefunc"]]);
  Macro "sk_ASN1_OBJECT_insert" ["sk"; "ptr"; "idx"]
    (Call "OPENSSL_sk_insert" [Call "ossl_check_ASN1_OBJECT_sk_type" [Par "sk"];
    Call "ossl_check_ASN1_OBJECT_type" [Par "ptr"]; Par "idx"]);
  Macro "sk_ASN1_OBJECT_set" ["sk"; "idx"; "ptr"] (Cast (Ptr (TypeName "ASN1_OBJECT"))
    (Call "OPENSSL_sk_set" [Call "ossl_check_ASN1_OBJECT_sk_type" [Par "sk"]; Par "idx";
    Call "ossl_check_ASN1_OBJECT_type" [Par "ptr"]]));
  Macro "sk_ASN1_OBJECT_find" ["sk"; "ptr"] (Call "OPENSSL_sk_find" [Call "ossl_check_ASN1_OBJECT_sk_type" [Par "sk"];
    Call "ossl_check_ASN1_OBJECT_type" [Par "ptr"]]);
  Macro "sk_ASN1_OBJECT_find_ex" ["sk"; "ptr"]
    (Call "OPENSSL_sk_find_ex" [Call "ossl_check_ASN1_OBJECT_sk_type" [Par "sk"];
    Call "ossl_check_ASN1_OBJECT_type" [Par "ptr"]]);
  Macro "sk_ASN1_OBJECT_find_all" ["sk"; "ptr"; "pnum"]
    (Call "OPENSSL_sk_find_all" [Call "ossl_check_ASN1_OBJECT_sk_type" [Par "sk"];
    Call "ossl_check_ASN1_OBJECT_type" [Par "ptr"]; Par "pnum"]);
  Macro "sk_ASN1_OBJECT_sort" ["sk"] (Call "OPENSSL_sk_sort" [Call "ossl_check_ASN1_OBJECT_sk_type" [Par "sk"]]);
  Macro "sk_ASN1_OBJECT_is_sorted" ["sk"]
    (Call "OPENSSL_sk_is_sorted" [Call "ossl_check_const_ASN1_OBJECT_sk_type" [Par "sk"]]);
  Macro "sk_ASN1_OBJECT_dup" ["sk"] (Cast (Ptr (STACK_OF "ASN1_OBJECT"))
    (Call "OPENSSL_sk_dup" [Call "ossl_check_const_ASN1_OBJECT_sk_type" [Par "sk"]]));
  Macro "sk_ASN1_OBJECT_deep_copy" ["sk"; "copyfunc"; "freefunc"] (Cast (Ptr (STACK_OF "ASN1_OBJECT"))
    (Call "OPENSSL_sk_deep_copy" [Call "ossl_check_const_ASN1_OBJECT_sk_type" [Par "sk"];
    Call "ossl_check_ASN1_OBJECT_copyfunc_type" [Par "copyfunc"];
    Call "ossl_check_ASN1_OBJECT_freefunc_type" [Par "freefunc"]]));
  Macro "sk_ASN1_OBJECT_set_cmp_func" ["sk"; "cmp"] (Cast (sk_compfunc (TypeName "ASN1_OBJECT"))
    (Call "OPENSSL_sk_set_cmp_func" [Call "ossl_check_ASN1_OBJECT_sk_type" [Par "sk"];
    Call "ossl_check_ASN1_OBJECT_compfunc_type" [Par "cmp"]]))].

Definition stack_ASN1_INTEGER : stack := Stack "ASN1_INTEGER" (TypeName "ASN1_INTEGER") (TypeName "ASN1_INTEGER") [
  Macro "sk_ASN1_INTEGER_num" ["sk"] (Call "OPENSSL_sk_num" [Call "ossl_check_const_ASN1_INTEGER_sk_type" [Par "sk"]]);
  Macro "sk_ASN1_INTEGER_value" ["sk"; "idx"] (Cast (Ptr (TypeName "ASN1_INTEGER"))
    (Call "OPENSSL_sk_value" [Call "ossl_check_const_ASN1_INTEGER_sk_type" [Par "sk"]; Par "idx"]));
  Macro "sk_ASN1_INTEGER_new" ["cmp"] (Cast (Ptr (STACK_OF "ASN1_INTEGER"))
    (Call "OPENSSL_sk_new" [Call "ossl_check_ASN1_INTEGER_compfunc_type" [Par "cmp"]]));
  Macro "sk_ASN1_INTEGER_new_null" [] (Cast (Ptr (STACK_OF "ASN1_INTEGER")) (Call "OPENSSL_sk_new_null" []));
  Macro "sk_ASN1_INTEGER_new_reserve" ["cmp"; "n"] (Cast (Ptr (STACK_OF "ASN1_INTEGER"))
    (Call "OPENSSL_sk_new_reserve" [Call "ossl_check_ASN1_INTEGER_compfunc_type" [Par "cmp"]; Par "n"]));
  Macro "sk_ASN1_INTEGER_reserve" ["sk"; "n"]
    (Call "OPENSSL_sk_reserve" [Call "ossl_check_ASN1_INTEGER_sk_type" [Par "sk"]; Par "n"]);
  Macro "sk_ASN1_INTEGER_free" ["sk"] (Call "OPENSSL_sk_free" [Call "ossl_check_ASN1_INTEGER_sk_type" [Par "sk"]]);
  Macro "sk_ASN1_INTEGER_zero" ["sk"] (Call "OPENSSL_sk_zero" [Call "ossl_check_ASN1_INTEGER_sk_type" [Par "sk"]]);
  Macro "sk_ASN1_INTEGER_delete" ["sk"; "i"] (Cast (Ptr (TypeName "ASN1_INTEGER"))
    (Call "OPENSSL_sk_delete" [Call "ossl_check_ASN1_INTEGER_sk_type" [Par "sk"]; Par "i"]));
  Macro "sk_ASN1_INTEGER_delete_ptr" ["sk"; "ptr"] (Cast (Ptr (TypeName "ASN1_INTEGER"))
    (Call "OPENSSL_sk_delete_ptr" [Call "ossl_check_ASN1_INTEGER_sk_type" [Par "sk"];
    Call "ossl_check_ASN1_INTEGER_type" [Par "ptr"]]));
  Macro "sk_ASN1_INTEGER_push" ["sk"; "ptr"] (Call "OPENSSL_sk_push" [Call "ossl_check_ASN1_INTEGER_sk_type" [Par "sk"];
    Call "ossl_check_ASN1_INTEGER_type" [Par "ptr"]]);
  Macro "sk_ASN1_INTEGER_unshift" ["sk"; "ptr"]
    (Call "OPENSSL_sk_unshift" [Call "ossl_check_ASN1_INTEGER_sk_type" [Par "sk"];
    Call "ossl_check_ASN1_INTEGER_type" [Par "ptr"]]);
  Macro "sk_ASN1_INTEGER_pop" ["sk"] (Cast (Ptr (TypeName "ASN1_INTEGER"))
    (Call "OPENSSL_sk_pop" [Call "ossl_check_ASN1_INTEGER_sk_type" [Par "sk"]]));
  Macro "sk_ASN1_INTEGER_shift" ["sk"] (Cast (Ptr (TypeName "ASN1_INTEGER"))
    (Call "OPENSSL_sk_shift" [Call "ossl_check_ASN1_INTEGER_sk_type" [Par "sk"]]));
  Macro "sk_ASN1_INTEGER_pop_free" ["sk"; "freefunc"]
    (Call "OPENSSL_sk_pop_free" [Call "ossl_check_ASN1_INTEGER_sk_type" [Par "sk"];
    Call "ossl_check_ASN1_INTEGER_freefunc_type" [Par "freefunc"]]);
  Macro "sk_ASN1_INTEGER_insert" ["sk"; "ptr"; "idx"]
    (Call "OPENSSL_sk_insert" [Call "ossl_check_ASN1_INTEGER_sk_type" [Par "sk"];
    Call "ossl_check_ASN1_INTEGER_type" [Par "ptr"]; Par "idx"]);
  Macro "sk_ASN1_INTEGER_set" ["sk"; "idx"; "ptr"] (Cast (Ptr (TypeName "ASN1_INTEGER"))
    (Call "OPENSSL_sk_set" [Call "ossl_check_ASN1_INTEGER_sk_type" [Par "sk"]; Par "idx";
    Call "ossl_check_ASN1_INTEGER_type" [Par "ptr"]]));
  Macro "sk_ASN1_INTEGER_find" ["sk"; "ptr"] (Call "OPENSSL_sk_find" [Call "ossl_check_ASN1_INTEGER_sk_type" [Par "sk"];
    Call "ossl_check_ASN1_INTEGER_type" [Par "ptr"]]);
  Macro "sk_ASN1_INTEGER_find_ex" ["sk"; "ptr"]
    (Call "OPENSSL_sk_find_ex" [Call "ossl_check_ASN1_INTEGER_sk_type" [Par "sk"];
    Call "ossl_check_ASN1_INTEGER_type" [Par "ptr"]]);
  Macro "sk_ASN1_INTEGER_find_all" ["sk"; "ptr"; "pnum"]
    (Call "OPENSSL_sk_find_all" [Call "ossl_check_ASN1_INTEGER_sk_type" [Par "sk"];
    Call "ossl_check_ASN1_INTEGER_type" [Par "ptr"]; Par "pnum"]);
  Macro "sk_ASN1_INTEGER_sort" ["sk"] (Call "OPENSSL_sk_sort" [Call "ossl_check_ASN1_INTEGER_sk_type" [Par "sk"]]);
  Macro "sk_ASN1_INTEGER_is_sorted" ["sk"]
    (Call "OPENSSL_sk_is_sorted" [Call "ossl_check_const_ASN1_INTEGER_sk_type" [Par "sk"]]);
  Macro "sk_ASN1_INTEGER_dup" ["sk"] (Cast (Ptr (STACK_OF "ASN1_INTEGER"))
    (Call "OPENSSL_sk_dup" [Call "ossl_check_const_ASN1_INTEGER_sk_type" [Par "sk"]]));
  Macro "sk_ASN1_INTEGER_deep_copy" ["sk"; "copyfunc"; "freefunc"] (Cast (Ptr (STACK_OF "ASN1_INTEGER"))
    (Call "OPENSSL_sk_deep_copy" [Call "ossl_check_const_ASN1_INTEGER_sk_type" [Par "sk"];
    Call "ossl_check_ASN1_INTEGER_copyfunc_type" [Par "copyfunc"];
    Call "ossl_check_ASN1_INTEGER_freefunc_type" [Par "freefunc"]]));
  Macro "sk_ASN1_INTEGER_set_cmp_func" ["sk"; "cmp"] (Cast (sk_compfunc (TypeName "ASN1_INTEGER"))
    (Call "OPENSSL_sk_set_cmp_func" [Call "ossl_check_ASN1_INTEGER_sk_type" [Par "sk"];
    Call "ossl_check_ASN1_INTEGER_compfunc_type" [Par "cmp"]]))].

Definition stack_ASN1_UTF8STRING : stack := Stack "ASN1_UTF8STRING" (TypeName "ASN1_UTF8STRING") (TypeName "ASN1_UTF8STRING") [
  Macro "sk_ASN1_UTF8STRING_num" ["sk"]
    (Call "OPENSSL_sk_num" [Call "ossl_check_const_ASN1_UTF8STRING_sk_type" [Par "sk"]]);
  Macro "sk_ASN1_UTF8STRING_value" ["sk"; "idx"] (Cast (Ptr (TypeName "ASN1_UTF8STRING"))
    (Call "OPENSSL_sk_value" [Call "ossl_check_const_ASN1_UTF8STRING_sk_type" [Par "sk"]; Par "idx"]));
  Macro "sk_ASN1_UTF8STRING_new" ["cmp"] (Cast (Ptr (STACK_OF "ASN1_UTF8STRING"))
    (Call "OPENSSL_sk_new" [Call "ossl_check_ASN1_UTF8STRING_compfunc_type" [Par "cmp"]]));
  Macro "sk_ASN1_UTF8STRING_new_null" [] (Cast (Ptr (STACK_OF "ASN1_UTF8STRING")) (Call "OPENSSL_sk_new_null" []));
  Macro "sk_ASN1_UTF8STRING_new_reserve" ["cmp"; "n"] (Cast (Ptr (STACK_OF "ASN1_UTF8STRING"))
    (Call "OPENSSL_sk_new_reserve" [Call "ossl_check_ASN1_UTF8STRING_compfunc_type" [Par "cmp"]; Par "n"]));
  Macro "sk_ASN1_UTF8STRING_reserve" ["sk"; "n"]
    (Call "OPENSSL_sk_reserve" [Call "ossl_check_ASN1_UTF8STRING_sk_type" [Par "sk"]; Par "n"]);
  Macro "sk_ASN1_UTF8STRING_free" ["sk"] (Call "OPENSSL_sk_free" [Call "ossl_check_ASN1_UTF8STRING_sk_type" [Par "sk"]]);
  Macro "sk_ASN1_UTF8STRING_zero" ["sk"] (Call "OPENSSL_sk_zero" [Call "ossl_check_ASN1_UTF8STRING_sk_type" [Par "sk"]]);
  Macro "sk_ASN1_UTF8STRING_delete" ["sk"; "i"] (Cast (Ptr (TypeName "ASN1_UTF8STRING"))
    (Call "OPENSSL_sk_delete" [Call "ossl_check_ASN1_UTF8STRING_sk_type" [Par "sk"]; Par "i"]));
  Macro "sk_ASN1_UTF8STRING_delete_ptr" ["sk"; "ptr"] (Cast (Ptr (TypeName "ASN1_UTF8STRING"))
    (Call "OPENSSL_sk_delete_ptr" [Call "ossl_check_ASN1_UTF8STRING_sk_type" [Par "sk"];
    Call "ossl_check_ASN1_UTF8STRING_type" [Par "ptr"]]));
  Macro "sk_ASN1_UTF8STRING_push" ["sk"; "ptr"]
    (Call "OPENSSL_sk_push" [Call "ossl_check_ASN1_UTF8STRING_sk_type" [Par "sk"];
    Call "ossl_check_ASN1_UTF8STRING_type" [Par "ptr"]]);
  Macro "sk_ASN1_UTF8STRING_unshift" ["sk"; "ptr"]
    (Call "OPENSSL_sk_unshift" [Call "ossl_check_ASN1_UTF8STRING_sk_type" [Par "sk"];
    Call "ossl_check_ASN1_UTF8STRING_type" [Par "ptr"]]);
  Macro "sk_ASN1_UTF8STRING_pop" ["sk"] (Cast (Ptr (TypeName "ASN1_UTF8STRING"))
    (Call "OPENSSL_sk_pop" [Call "ossl_check_ASN1_UTF8STRING_sk_type" [Par "sk"]]));
  Macro "sk_ASN1_UTF8STRING_shift" ["sk"] (Cast (Ptr (TypeName "ASN1_UTF8STRING"))
    (Call "OPENSSL_sk_shift" [Call "ossl_check_ASN1_UTF8STRING_sk_type" [Par "sk"]]));
  Macro "sk_ASN1_UTF8STRING_pop_free" ["sk"; "freefunc"]
    (Call "OPENSSL_sk_pop_free" [Call "ossl_check_ASN1_UTF8STRING_sk_type" [Par "sk"];
    Call "ossl_check_ASN1_UTF8STRING_freefunc_type" [Par "freefunc"]]);
  Macro "sk_ASN1_UTF8STRING_insert" ["sk"; "ptr"; "idx"]
    (Call "OPENSSL_sk_insert" [Call "ossl_check_ASN1_UTF8STRING_sk_type" [Par "sk"];
    Call "ossl_check_ASN1_UTF8STRING_type" [Par "ptr"]; Par "idx"]);
  Macro "sk_ASN1_UTF8STRING_set" ["sk"; "idx"; "ptr"] (Cast (Ptr (TypeName "ASN1_UTF8STRING"))
    (Call "OPENSSL_sk_set" [Call "ossl_check_ASN1_UTF8STRING_sk_type" [Par "sk"]; Par "idx";
    Call "ossl_check_ASN1_UTF8STRING_type" [Par "ptr"]]));
  Macro "sk_ASN1_UTF8STRING_find" ["sk"; "ptr"]
    (Call "OPENSSL_sk_find" [Call "ossl_check_ASN1_UTF8STRING_sk_type" [Par "sk"];
    Call "ossl_check_ASN1_UTF8STRING_type" [Par "ptr"]]);
  Macro "sk_ASN1_UTF8STRING_find_ex" ["sk"; "ptr"]
    (Call "OPENSSL_sk_find_ex" [Call "ossl_check_ASN1_UTF8STRING_sk_type" [Par "sk"];
    Call "ossl_check_ASN1_UTF8STRING_type" [Par "ptr"]]);
  Macro "sk_ASN1_UTF8STRING_find_all" ["sk"; "ptr"; "pnum"]
    (Call "OPENSSL_sk_find_all" [Call "ossl_check_ASN1_UTF8STRING_sk_type" [Par "sk"];
    Call "ossl_check_ASN1_UTF8STRING_type" [Par "ptr"]; Par "pnum"]);
  Macro "sk_ASN1_UTF8STRING_sort" ["sk"] (Call "OPENSSL_sk_sort" [Call "ossl_check_ASN1_UTF8STRING_sk_type" [Par "sk"]]);
  Macro "sk_ASN1_UTF8STRING_is_sorted" ["sk"]
    (Call "OPENSSL_sk_is_sorted" [Call "ossl_check_const_ASN1_UTF8STRING_sk_type" [Par "sk"]]);
  Macro "sk_ASN1_UTF8STRING_dup" ["sk"] (Cast (Ptr (STACK_OF "ASN1_UTF8STRING"))
    (Call "OPENSSL_sk_dup" [Call "ossl_check_const_ASN1_UTF8STRING_sk_type" [Par "sk"]]));
  Macro "sk_ASN1_UTF8STRING_deep_copy" ["sk"; "copyfunc"; "freefunc"] (Cast (Ptr (STACK_OF "ASN1_UTF8STRING"))
    (Call "OPENSSL_sk_deep_copy" [Call "ossl_check_const_ASN1_UTF8STRING_sk_type" [Par "sk"];
    Call "ossl_check_ASN1_UTF8STRING_copyfunc_type" [Par "copyfunc"];
    Call "ossl_check_ASN1_UTF8STRING_freefunc_type" [Par "freefunc"]]));
  Macro "sk_ASN1_UTF8STRING_set_cmp_func" ["sk"; "cmp"] (Cast (sk_compfunc (TypeName "ASN1_UTF8STRING"))
    (Call "OPENSSL_sk_set_cmp_func" [Call "ossl_check_ASN1_UTF8STRING_sk_type" [Par "sk"];
    Call "ossl_check_ASN1_UTF8STRING_compfunc_type" [Par "cmp"]]))].

Definition stack_ASN1_GENERALSTRING : stack := Stack "ASN1_GENERALSTRING" (TypeName "ASN1_GENERALSTRING") (TypeName "ASN1_GENERALSTRING") [
  Macro "sk_ASN1_GENERALSTRING_num" ["sk"]
    (Call "OPENSSL_sk_num" [Call "ossl_check_const_ASN1_GENERALSTRING_sk_type" [Par "sk"]]);
  Macro "sk_ASN1_GENERALSTRING_value" ["sk"; "idx"] (Cast (Ptr (TypeName "ASN1_GENERALSTRING"))
    (Call "OPENSSL_sk_value" [Call "ossl_check_const_ASN1_GENERALSTRING_sk_type" [Par "sk"]; Par "idx"]));
  Macro "sk_ASN1_GENERALSTRING_new" ["cmp"] (Cast (Ptr (STACK_OF "ASN1_GENERALSTRING"))
    (Call "OPENSSL_sk_new" [Call "ossl_check_ASN1_GENERALSTRING_compfunc_type" [Par "cmp"]]));
  Macro "sk_ASN1_GENERALSTRING_new_null" [] (Cast (Ptr (STACK_OF "ASN1_GENERALSTRING")) (Call "OPENSSL_sk_new_null" []));
  Macro "sk_ASN1_GENERALSTRING_new_reserve" ["cmp"; "n"] (Cast (Ptr (STACK_OF "ASN1_GENERALSTRING"))
    (Call "OPENSSL_sk_new_reserve" [Call "ossl_check_ASN1_GENERALSTRING_compfunc_type" [Par "cmp"]; Par "n"]));
  Macro "sk_ASN1_GENERALSTRING_reserve" ["sk"; "n"]
    (Call "OPENSSL_sk_reserve" [Call "ossl_check_ASN1_GENERALSTRING_sk_type" [Par "sk"]; Par "n"]);
  Macro "sk_ASN1_GENERALSTRING_free" ["sk"]
    (Call "OPENSSL_sk_free" [Call "ossl_check_ASN1_GENERALSTRING_sk_type" [Par "sk"]]);
  Macro "sk_ASN1_GENERALSTRING_zero" ["sk"]
    (Call "OPENSSL_sk_zero" [Call "ossl_check_ASN1_GENERALSTRING_sk_type" [Par "sk"]]);
  Macro "sk_ASN1_GENERALSTRING_delete" ["sk"; "i"] (Cast (Ptr (TypeName "ASN1_GENERALSTRING"))
    (Call "OPENSSL_sk_delete" [Call "ossl_check_ASN1_GENERALSTRING_sk_type" [Par "sk"]; Par "i"]));
  Macro "sk_ASN1_GENERALSTRING_delete_ptr" ["sk"; "ptr"] (Cast (Ptr (TypeName "ASN1_GENERALSTRING"))
    (Call "OPENSSL_sk_delete_ptr" [Call "ossl_check_ASN1_GENERALSTRING_sk_type" [Par "sk"];
    Call "ossl_check_ASN1_GENERALSTRING_type" [Par "ptr"]]));
  Macro "sk_ASN1_GENERALSTRING_push" ["sk"; "ptr"]
    (Call "OPENSSL_sk_push" [Call "ossl_check_ASN1_GENERALSTRING_sk_type" [Par "sk"];
    Call "ossl_check_ASN1_GENERALSTRING_type" [Par "ptr"]]);
  Macro "sk_ASN1_GENERALSTRING_unshift" ["sk"; "ptr"]
    (Call "OPENSSL_sk_unshift" [Call "ossl_check_ASN1_GENERALSTRING_sk_type" [Par "sk"];
    Call "ossl_check_ASN1_GENERALSTRING_type" [Par "ptr"]]);
  Macro "sk_ASN1_GENERALSTRING_pop" ["sk"] (Cast (Ptr (TypeName "ASN1_GENERALSTRING"))
    (Call "OPENSSL_sk_pop" [Call "ossl_check_ASN1_GENERALSTRING_sk_type" [Par "sk"]]));
  Macro "sk_ASN1_GENERALSTRING_shift" ["sk"] (Cast (Ptr (TypeName "ASN1_GENERALSTRING"))
    (Call "OPENSSL_sk_shift" [Call "ossl_check_ASN1_GENERALSTRING_sk_type" [Par "sk"]]));
  Macro "sk_ASN1_GENERALSTRING_pop_free" ["sk"; "freefunc"]
    (Call "OPENSSL_sk_pop_free" [Call "ossl_check_ASN1_GENERALSTRING_sk_type" [Par "sk"];
    Call "ossl_check_ASN1_GENERALSTRING_freefunc_type" [Par "freefunc"]]);
  Macro "sk_ASN1_GENERALSTRING_insert" ["sk"; "ptr"; "idx"]
    (Call "OPENSSL_sk_insert" [Call "ossl_check_ASN1_GENERALSTRING_sk_type" [Par "sk"];
    Call "ossl_check_ASN1_GENERALSTRING_type" [Par "ptr"]; Par "idx"]);
  Macro "sk_ASN1_GENERALSTRING_set" ["sk"; "idx"; "ptr"] (Cast (Ptr (TypeName "ASN1_GENERALSTRING"))
    (Call "OPENSSL_sk_set" [Call "ossl_check_ASN1_GENERALSTRING_sk_type" [Par "sk"]; Par "idx";
    Call "ossl_check_ASN1_GENERALSTRING_type" [Par "ptr"]]));
  Macro "sk_ASN1_GENERALSTRING_find" ["sk"; "ptr"]
    (Call "OPENSSL_sk_find" [Call "ossl_check_ASN1_GENERALSTRING_sk_type" [Par "sk"];
    Call "ossl_check_ASN1_GENERALSTRING_type" [Par "ptr"]]);
  Macro "sk_ASN1_GENERALSTRING_find_ex" ["sk"; "ptr"]
    (Call "OPENSSL_sk_find_ex" [Call "ossl_check_ASN1_GENERALSTRING_sk_type" [Par "sk"];
    Call "ossl_check_ASN1_GENERALSTRING_type" [Par "ptr"]]);
  Macro "sk_ASN1_GENERALSTRING_find_all" ["sk"; "ptr"; "pnum"]
    (Call "OPENSSL_sk_find_all" [Call "ossl_check_ASN1_GENERALSTRING_sk_type" [Par "sk"];
    Call "ossl_check_ASN1_GENERALSTRING_type" [Par "ptr"]; Par "pnum"]);
  Macro "sk_ASN1_GENERALSTRING_sort" ["sk"]
    (Call "OPENSSL_sk_sort" [Call "ossl_check_ASN1_GENERALSTRING_sk_type" [Par "sk"]]);
  Macro "sk_ASN1_GENERALSTRING_is_sorted" ["sk"]
    (Call "OPENSSL_sk_is_sorted" [Call "ossl_check_const_ASN1_GENERALSTRING_sk_type" [Par "sk"]]);
  Macro "sk_ASN1_GENERALSTRING_dup" ["sk"] (Cast (Ptr (STACK_OF "ASN1_GENERALSTRING"))
    (Call "OPENSSL_sk_dup" [Call "ossl_check_const_ASN1_GENERALSTRING_sk_type" [Par "sk"]]));
  Macro "sk_ASN1_GENERALSTRING_deep_copy" ["sk"; "copyfunc"; "freefunc"] (Cast (Ptr (STACK_OF "ASN1_GENERALSTRING"))
    (Call "OPENSSL_sk_deep_copy" [Call "ossl_check_const_ASN1_GENERALSTRING_sk_type" [Par "sk"];
    Call "ossl_check_ASN1_GENERALSTRING_copyfunc_type" [Par "copyfunc"];
    Call "ossl_check_ASN1_GENERALSTRING_freefunc_type" [Par "freefunc"]]));
  Macro "sk_ASN1_GENERALSTRING_set_cmp_func" ["sk"; "cmp"] (Cast (sk_compfunc (TypeName "ASN1_GENERALSTRING"))
    (Call "OPENSSL_sk_set_cmp_func" [Call "ossl_check_ASN1_GENERALSTRING_sk_type" [Par "sk"];
    Call "ossl_check_ASN1_GENERALSTRING_compfunc_type" [Par "cmp"]]))].

Definition stack_ASN1_VALUE : stack := Stack "ASN1_VALUE" (TypeName "ASN1_VALUE") (TypeName "ASN1_VALUE") [
  Macro "sk_ASN1_VALUE_num" ["sk"] (Call "OPENSSL_sk_num" [Call "ossl_check_const_ASN1_VALUE_sk_type" [Par "sk"]]);
  Macro "sk_ASN1_VALUE_value" ["sk"; "idx"] (Cast (Ptr (TypeName "ASN1_VALUE"))
    (Call "OPENSSL_sk_value" [Call "ossl_check_const_ASN1_VALUE_sk_type" [Par "sk"]; Par "idx"]));
  Macro "sk_ASN1_VALUE_new" ["cmp"] (Cast (Ptr (STACK_OF "ASN1_VALUE"))
    (Call "OPENSSL_sk_new" [Call "ossl_check_ASN1_VALUE_compfunc_type" [Par "cmp"]]));
  Macro "sk_ASN1_VALUE_new_null" [] (Cast (Ptr (STACK_OF "ASN1_VALUE")) (Call "OPENSSL_sk_new_null" []));
  Macro "sk_ASN1_VALUE_new_reserve" ["cmp"; "n"] (Cast (Ptr (STACK_OF "ASN1_VALUE"))
    (Call "OPENSSL_sk_new_reserve" [Call "ossl_check_ASN1_VALUE_compfunc_type" [Par "cmp"]; Par "n"]));
  Macro "sk_ASN1_VALUE_reserve" ["sk"; "n"] (Call "OPENSSL_sk_reserve" [Call "ossl_check_ASN1_VALUE_sk_type" [Par "sk"];
    Par "n"]);
  Macro "sk_ASN1_VALUE_free" ["sk"] (Call "OPENSSL_sk_free" [Call "ossl_check_ASN1_VALUE_sk_type" [Par "sk"]]);
  Macro "sk_ASN1_VALUE_zero" ["sk"] (Call "OPENSSL_sk_zero" [Call "ossl_check_ASN1_VALUE_sk_type" [Par "sk"]]);
  Macro "sk_ASN1_VALUE_delete" ["sk"; "i"] (Cast (Ptr (TypeName "ASN1_VALUE"))
    (Call "OPENSSL_sk_delete" [Call "ossl_check_ASN1_VALUE_sk_type" [Par "sk"]; Par "i"]));
  Macro "sk_ASN1_VALUE_delete_ptr" ["sk"; "ptr"] (Cast (Ptr (TypeName "ASN1_VALUE"))
    (Call "OPENSSL_sk_delete_ptr" [Call "ossl_check_ASN1_VALUE_sk_type" [Par "sk"];
    Call "ossl_check_ASN1_VALUE_type" [Par "ptr"]]));
  Macro "sk_ASN1_VALUE_push" ["sk"; "ptr"] (Call "OPENSSL_sk_push" [Call "ossl_check_ASN1_VALUE_sk_type" [Par "sk"];
    Call "ossl_check_ASN1_VALUE_type" [Par "ptr"]]);
  Macro "sk_ASN1_VALUE_unshift" ["sk"; "ptr"]
    (Call "OPENSSL_sk_unshift" [Call "ossl_check_ASN1_VALUE_sk_type" [Par "sk"];
    Call "ossl_check_ASN1_VALUE_type" [Par "ptr"]]);
  Macro "sk_ASN1_VALUE_pop" ["sk"] (Cast (Ptr (TypeName "ASN1_VALUE"))
    (Call "OPENSSL_sk_pop" [Call "ossl_check_ASN1_VALUE_sk_type" [Par "sk"]]));
  Macro "sk_ASN1_VALUE_shift" ["sk"] (Cast (Ptr (TypeName "ASN1_VALUE"))
    (Call "OPENSSL_sk_shift" [Call "ossl_check_ASN1_VALUE_sk_type" [Par "sk"]]));
  Macro "sk_ASN1_VALUE_pop_free" ["sk"; "freefunc"]
    (Call "OPENSSL_sk_pop_free" [Call "ossl_check_ASN1_VALUE_sk_type" [Par "sk"];
    Call "ossl_check_ASN1_VALUE_freefunc_type" [Par "freefunc"]]);
  Macro "sk_ASN1_VALUE_insert" ["sk"; "ptr"; "idx"]
    (Call "OPENSSL_sk_insert" [Call "ossl_check_ASN1_VALUE_sk_type" [Par "sk"];
    Call "ossl_check_ASN1_VALUE_type" [Par "ptr"]; Par "idx"]);
  Macro "sk_ASN1_VALUE_set" ["sk"; "idx"; "ptr"] (Cast (Ptr (TypeName "ASN1_VALUE"))
    (Call "OPENSSL_sk_set" [Call "ossl_check_ASN1_VALUE_sk_type" [Par "sk"]; Par "idx";
    Call "ossl_check_ASN1_VALUE_type" [Par "ptr"]]));
  Macro "sk_ASN1_VALUE_find" ["sk"; "ptr"] (Call "OPENSSL_sk_find" [Call "ossl_check_ASN1_VALUE_sk_type" [Par "sk"];
    Call "ossl_check_ASN1_VALUE_type" [Par "ptr"]]);
  Macro "sk_ASN1_VALUE_find_ex" ["sk"; "ptr"]
    (Call "OPENSSL_sk_find_ex" [Call "ossl_check_ASN1_VALUE_sk_type" [Par "sk"];
    Call "ossl_check_ASN1_VALUE_type" [Par "ptr"]]);
  Macro "sk_ASN1_VALUE_find_all" ["sk"; "ptr"; "pnum"]
    (Call "OPENSSL_sk_find_all" [Call "ossl_check_ASN1_VALUE_sk_type" [Par "sk"];
    Call "ossl_check_ASN1_VALUE_type" [Par "ptr"]; Par "pnum"]);
  Macro "sk_ASN1_VALUE_sort" ["sk"] (Call "OPENSSL_sk_sort" [Call "ossl_check_ASN1_VALUE_sk_type" [Par "sk"]]);
  Macro "sk_ASN1_VALUE_is_sorted" ["sk"]
    (Call "OPENSSL_sk_is_sorted" [Call "ossl_check_const_ASN1_VALUE_sk_type" [Par "sk"]]);
  Macro "sk_ASN1_VALUE_dup" ["sk"] (Cast (Ptr (STACK_OF "ASN1_VALUE"))
    (Call "OPENSSL_sk_dup" [Call "ossl_check_const_ASN1_VALUE_sk_type" [Par "sk"]]));
  Macro "sk_ASN1_VALUE_deep_copy" ["sk"; "copyfunc"; "freefunc"] (Cast (Ptr (STACK_OF "ASN1_VALUE"))
    (Call "OPENSSL_sk_deep_copy" [Call "ossl_check_const_ASN1_VALUE_sk_type" [Par "sk"];
    Call "ossl_check_ASN1_VALUE_copyfunc_type" [Par "copyfunc"];
    Call "ossl_check_ASN1_VALUE_freefunc_type" [Par "freefunc"]]));
  Macro "sk_ASN1_VALUE_set_cmp_func" ["sk"; "cmp"] (Cast (sk_compfunc (TypeName "ASN1_VALUE"))
    (Call "OPENSSL_sk_set_cmp_func" [Call "ossl_check_ASN1_VALUE_sk_type" [Par "sk"];
    Call "ossl_check_ASN1_VALUE_compfunc_type" [Par "cmp"]]))].

Definition stack_BIO : stack := Stack "BIO" (TypeName "BIO") (TypeName "BIO") [
  Macro "sk_BIO_num" ["sk"] (Call "OPENSSL_sk_num" [Call "ossl_check_const_BIO_sk_type" [Par "sk"]]);
  Macro "sk_BIO_value" ["sk"; "idx"] (Cast (Ptr (TypeName "BIO"))
    (Call "OPENSSL_sk_value" [Call "ossl_check_const_BIO_sk_type" [Par "sk"]; Par "idx"]));
  Macro "sk_BIO_new" ["cmp"] (Cast (Ptr (STACK_OF "BIO"))
    (Call "OPENSSL_sk_new" [Call "ossl_check_BIO_compfunc_type" [Par "cmp"]]));
  Macro "sk_BIO_new_null" [] (Cast (Ptr (STACK_OF "BIO")) (Call "OPENSSL_sk_new_null" []));
  Macro "sk_BIO_new_reserve" ["cmp"; "n"] (Cast (Ptr (STACK_OF "BIO"))
    (Call "OPENSSL_sk_new_reserve" [Call "ossl_check_BIO_compfunc_type" [Par "cmp"]; Par "n"]));
  Macro "sk_BIO_reserve" ["sk"; "n"] (Call "OPENSSL_sk_reserve" [Call "ossl_check_BIO_sk_type" [Par "sk"]; Par "n"]);
  Macro "sk_BIO_free" ["sk"] (Call "OPENSSL_sk_free" [Call "ossl_check_BIO_sk_type" [Par "sk"]]);
  Macro "sk_BIO_zero" ["sk"] (Call "OPENSSL_sk_zero" [Call "ossl_check_BIO_sk_type" [Par "sk"]]);
  Macro "sk_BIO_delete" ["sk"; "i"] (Cast (Ptr (TypeName "BIO"))
    (Call "OPENSSL_sk_delete" [Call "ossl_check_BIO_sk_type" [Par "sk"]; Par "i"]));
  Macro "sk_BIO_delete_ptr" ["sk"; "ptr"] (Cast (Ptr (TypeName "BIO"))
    (Call "OPENSSL_sk_delete_ptr" [Call "ossl_check_BIO_sk_type" [Par "sk"]; Call "ossl_check_BIO_type" [Par "ptr"]]));
  Macro "sk_BIO_push" ["sk"; "ptr"] (Call "OPENSSL_sk_push" [Call "ossl_check_BIO_sk_type" [Par "sk"];
    Call "ossl_check_BIO_type" [Par "ptr"]]);
  Macro "sk_BIO_unshift" ["sk"; "ptr"] (Call "OPENSSL_sk_unshift" [Call "ossl_check_BIO_sk_type" [Par "sk"];
    Call "ossl_check_BIO_type" [Par "ptr"]]);
  Macro "sk_BIO_pop" ["sk"] (Cast (Ptr (TypeName "BIO"))
    (Call "OPENSSL_sk_pop" [Call "ossl_check_BIO_sk_type" [Par "sk"]]));
  Macro "sk_BIO_shift" ["sk"] (Cast (Ptr (TypeName "BIO"))
    (Call "OPENSSL_sk_shift" [Call "ossl_check_BIO_sk_type" [Par "sk"]]));
  Macro "sk_BIO_pop_free" ["sk"; "freefunc"] (Call "OPENSSL_sk_pop_free" [Call "ossl_check_BIO_sk_type" [Par "sk"];
    Call "ossl_check_BIO_freefunc_type" [Par "freefunc"]]);
  Macro "sk_BIO_insert" ["sk"; "ptr"; "idx"] (Call "OPENSSL_sk_insert" [Call "ossl_check_BIO_sk_type" [Par "sk"];
    Call "ossl_check_BIO_type" [Par "ptr"]; Par "idx"]);
  Macro "sk_BIO_set" ["sk"; "idx"; "ptr"] (Cast (Ptr (TypeName "BIO"))
    (Call "OPENSSL_sk_set" [Call "ossl_check_BIO_sk_type" [Par "sk"]; Par "idx";
    Call "ossl_check_BIO_type" [Par "ptr"]]));
  Macro "sk_BIO_find" ["sk"; "ptr"] (Call "OPENSSL_sk_find" [Call "ossl_check_BIO_sk_type" [Par "sk"];
    Call "ossl_check_BIO_type" [Par "ptr"]]);
  Macro "sk_BIO_find_ex" ["sk"; "ptr"] (Call "OPENSSL_sk_find_ex" [Call "ossl_check_BIO_sk_type" [Par "sk"];
    Call "ossl_check_BIO_type" [Par "ptr"]]);
  Macro "sk_BIO_find_all" ["sk"; "ptr"; "pnum"] (Call "OPENSSL_sk_find_all" [Call "ossl_check_BIO_sk_type" [Par "sk"];
    Call "ossl_check_BIO_type" [Par "ptr"]; Par "pnum"]);
  Macro "sk_BIO_sort" ["sk"] (Call "OPENSSL_sk_sort" [Call "ossl_check_BIO_sk_type" [Par "sk"]]);
  Macro "sk_BIO_is_sorted" ["sk"] (Call "OPENSSL_sk_is_sorted" [Call "ossl_check_const_BIO_sk_type" [Par "sk"]]);
  Macro "sk_BIO_dup" ["sk"] (Cast (Ptr (STACK_OF "BIO"))
    (Call "OPENSSL_sk_dup" [Call "ossl_check_const_BIO_sk_type" [Par "sk"]]));
  Macro "sk_BIO_deep_copy" ["sk"; "copyfunc"; "freefunc"] (Cast (Ptr (STACK_OF "BIO"))
    (Call "OPENSSL_sk_deep_copy" [Call "ossl_check_const_BIO_sk_type" [Par "sk"];
    Call "ossl_check_BIO_copyfunc_type" [Par "copyfunc"]; Call "ossl_check_BIO_freefunc_type" [Par "freefunc"]]));
  Macro "sk_BIO_set_cmp_func" ["sk"; "cmp"] (Cast (sk_compfunc (TypeName "BIO"))
    (Call "OPENSSL_sk_set_cmp_func" [Call "ossl_check_BIO_sk_type" [Par "sk"];
    Call "ossl_check_BIO_compfunc_type" [Par "cmp"]]))].

Definition stack_OSSL_CMP_CERTSTATUS : stack := Stack "OSSL_CMP_CERTSTATUS" (TypeName "OSSL_CMP_CERTSTATUS") (TypeName "OSSL_CMP_CERTSTATUS") [
  Macro "sk_OSSL_CMP_CERTSTATUS_num" ["sk"]
    (Call "OPENSSL_sk_num" [Call "ossl_check_const_OSSL_CMP_CERTSTATUS_sk_type" [Par "sk"]]);
  Macro "sk_OSSL_CMP_CERTSTATUS_value" ["sk"; "idx"] (Cast (Ptr (TypeName "OSSL_CMP_CERTSTATUS"))
    (Call "OPENSSL_sk_value" [Call "ossl_check_const_OSSL_CMP_CERTSTATUS_sk_type" [Par "sk"]; Par "idx"]));
  Macro "sk_OSSL_CMP_CERTSTATUS_new" ["cmp"] (Cast (Ptr (STACK_OF "OSSL_CMP_CERTSTATUS"))
    (Call "OPENSSL_sk_new" [Call "ossl_check_OSSL_CMP_CERTSTATUS_compfunc_type" [Par "cmp"]]));
  Macro "sk_OSSL_CMP_CERTSTATUS_new_null" [] (Cast (Ptr (STACK_OF "OSSL_CMP_CERTSTATUS"))
    (Call "OPENSSL_sk_new_null" []));
  Macro "sk_OSSL_CMP_CERTSTATUS_new_reserve" ["cmp"; "n"] (Cast (Ptr (STACK_OF "OSSL_CMP_CERTSTATUS"))
    (Call "OPENSSL_sk_new_reserve" [Call "ossl_check_OSSL_CMP_CERTSTATUS_compfunc_type" [Par "cmp"]; Par "n"]));
  Macro "sk_OSSL_CMP_CERTSTATUS_reserve" ["sk"; "n"]
    (Call "OPENSSL_sk_reserve" [Call "ossl_check_OSSL_CMP_CERTSTATUS_sk_type" [Par "sk"]; Par "n"]);
  Macro "sk_OSSL_CMP_CERTSTATUS_free" ["sk"]
    (Call "OPENSSL_sk_free" [Call "ossl_check_OSSL_CMP_CERTSTATUS_sk_type" [Par "sk"]]);
  Macro "sk_OSSL_CMP_CERTSTATUS_zero" ["sk"]
    (Call "OPENSSL_sk_zero" [Call "ossl_check_OSSL_CMP_CERTSTATUS_sk_type" [Par "sk"]]);
  Macro "sk_OSSL_CMP_CERTSTATUS_delete" ["sk"; "i"] (Cast (Ptr (TypeName "OSSL_CMP_CERTSTATUS"))
    (Call "OPENSSL_sk_delete" [Call "ossl_check_OSSL_CMP_CERTSTATUS_sk_type" [Par "sk"]; Par "i"]));
  Macro "sk_OSSL_CMP_CERTSTATUS_delete_ptr" ["sk"; "ptr"] (Cast (Ptr (TypeName "OSSL_CMP_CERTSTATUS"))
    (Call "OPENSSL_sk_delete_ptr" [Call "ossl_check_OSSL_CMP_CERTSTATUS_sk_type" [Par "sk"];
    Call "ossl_check_OSSL_CMP_CERTSTATUS_type" [Par "ptr"]]));
  Macro "sk_OSSL_CMP_CERTSTATUS_push" ["sk"; "ptr"]
    (Call "OPENSSL_sk_push" [Call "ossl_check_OSSL_CMP_CERTSTATUS_sk_type" [Par "sk"];
    Call "ossl_check_OSSL_CMP_CERTSTATUS_type" [Par "ptr"]]);
  Macro "sk_OSSL_CMP_CERTSTATUS_unshift" ["sk"; "ptr"]
    (Call "OPENSSL_sk_unshift" [Call "ossl_check_OSSL_CMP_CERTSTATUS_sk_type" [Par "sk"];
    Call "ossl_check_OSSL_CMP_CERTSTATUS_type" [Par "ptr"]]);
  Macro "sk_OSSL_CMP_CERTSTATUS_pop" ["sk"] (Cast (Ptr (TypeName "OSSL_CMP_CERTSTATUS"))
    (Call "OPENSSL_sk_pop" [Call "ossl_check_OSSL_CMP_CERTSTATUS_sk_type" [Par "sk"]]));
  Macro "sk_OSSL_CMP_CERTSTATUS_shift" ["sk"] (Cast (Ptr (TypeName "OSSL_CMP_CERTSTATUS"))
    (Call "OPENSSL_sk_shift" [Call "ossl_check_OSSL_CMP_CERTSTATUS_sk_type" [Par "sk"]]));
  Macro "sk_OSSL_CMP_CERTSTATUS_pop_free" ["sk"; "freefunc"]
    (Call "OPENSSL_sk_pop_free" [Call "ossl_check_OSSL_CMP_CERTSTATUS_sk_type" [Par "sk"];
    Call "ossl_check_OSSL_CMP_CERTSTATUS_freefunc_type" [Par "freefunc"]]);
  Macro "sk_OSSL_CMP_CERTSTATUS_insert" ["sk"; "ptr"; "idx"]
    (Call "OPENSSL_sk_insert" [Call "ossl_check_OSSL_CMP_CERTSTATUS_sk_type" [Par "sk"];
    Call "ossl_check_OSSL_CMP_CERTSTATUS_type" [Par "ptr"]; Par "idx"]);
  Macro "sk_OSSL_CMP_CERTSTATUS_set" ["sk"; "idx"; "ptr"] (Cast (Ptr (TypeName "OSSL_CMP_CERTSTATUS"))
    (Call "OPENSSL_sk_set" [Call "ossl_check_OSSL_CMP_CERTSTATUS_sk_type" [Par "sk"]; Par "idx";
    Call "ossl_check_OSSL_CMP_CERTSTATUS_type" [Par "ptr"]]));
  Macro "sk_OSSL_CMP_CERTSTATUS_find" ["sk"; "ptr"]
    (Call "OPENSSL_sk_find" [Call "ossl_check_OSSL_CMP_CERTSTATUS_sk_type" [Par "sk"];
    Call "ossl_check_OSSL_CMP_CERTSTATUS_type" [Par "ptr"]]);
  Macro "sk_OSSL_CMP_CERTSTATUS_find_ex" ["sk"; "ptr"]
    (Call "OPENSSL_sk_find_ex" [Call "ossl_check_OSSL_CMP_CERTSTATUS_sk_type" [Par "sk"];
    Call "ossl_check_OSSL_CMP_CERTSTATUS_type" [Par "ptr"]]);
  Macro "sk_OSSL_CMP_CERTSTATUS_find_all" ["sk"; "ptr"; "pnum"]
    (Call "OPENSSL_sk_find_all" [Call "ossl_check_OSSL_CMP_CERTSTATUS_sk_type" [Par "sk"];
    Call "ossl_check_OSSL_CMP_CERTSTATUS_type" [Par "ptr"]; Par "pnum"]);
  Macro "sk_OSSL_CMP_CERTSTATUS_sort" ["sk"]
    (Call "OPENSSL_sk_sort" [Call "ossl_check_OSSL_CMP_CERTSTATUS_sk_type" [Par "sk"]]);
  Macro "sk_OSSL_CMP_CERTSTATUS_is_sorted" ["sk"]
    (Call "OPENSSL_sk_is_sorted" [Call "ossl_check_const_OSSL_CMP_CERTSTATUS_sk_type" [Par "sk"]]);
  Macro "sk_OSSL_CMP_CERTSTATUS_dup" ["sk"] (Cast (Ptr (STACK_OF "OSSL_CMP_CERTSTATUS"))
    (Call "OPENSSL_sk_dup" [Call "ossl_check_const_OSSL_CMP_CERTSTATUS_sk_type" [Par "sk"]]));
  Macro "sk_OSSL_CMP_CERTSTATUS_deep_copy" ["sk"; "copyfunc"; "freefunc"] (Cast (Ptr (STACK_OF "OSSL_CMP_CERTSTATUS"))
    (Call "OPENSSL_sk_deep_copy" [Call "ossl_check_const_OSSL_CMP_CERTSTATUS_sk_type" [Par "sk"];
    Call "ossl_check_OSSL_CMP_CERTSTATUS_copyfunc_type" [Par "copyfunc"];
    Call "ossl_check_OSSL_CMP_CERTSTATUS_freefunc_type" [Par "freefunc"]]));
  Macro "sk_OSSL_CMP_CERTSTATUS_set_cmp_func" ["sk"; "cmp"] (Cast (sk_compfunc (TypeName "OSSL_CMP_CERTSTATUS"))
    (Call "OPENSSL_sk_set_cmp_func" [Call "ossl_check_OSSL_CMP_CERTSTATUS_sk_type" [Par "sk"];
    Call "ossl_check_OSSL_CMP_CERTSTATUS_compfunc_type" [Par "cmp"]]))].

Definition stack_OSSL_CMP_ITAV : stack := Stack "OSSL_CMP_ITAV" (TypeName "OSSL_CMP_ITAV") (TypeName "OSSL_CMP_ITAV") [
  Macro "sk_OSSL_CMP_ITAV_num" ["sk"] (Call "OPENSSL_sk_num" [Call "ossl_check_const_OSSL_CMP_ITAV_sk_type" [Par "sk"]]);
  Macro "sk_OSSL_CMP_ITAV_value" ["sk"; "idx"] (Cast (Ptr (TypeName "OSSL_CMP_ITAV"))
    (Call "OPENSSL_sk_value" [Call "ossl_check_const_OSSL_CMP_ITAV_sk_type" [Par "sk"]; Par "idx"]));
  Macro "sk_OSSL_CMP_ITAV_new" ["cmp"] (Cast (Ptr (STACK_OF "OSSL_CMP_ITAV"))
    (Call "OPENSSL_sk_new" [Call "ossl_check_OSSL_CMP_ITAV_compfunc_type" [Par "cmp"]]));
  Macro "sk_OSSL_CMP_ITAV_new_null" [] (Cast (Ptr (STACK_OF "OSSL_CMP_ITAV")) (Call "OPENSSL_sk_new_null" []));
  Macro "sk_OSSL_CMP_ITAV_new_reserve" ["cmp"; "n"] (Cast (Ptr (STACK_OF "OSSL_CMP_ITAV"))
    (Call "OPENSSL_sk_new_reserve" [Call "ossl_check_OSSL_CMP_ITAV_compfunc_type" [Par "cmp"]; Par "n"]));
  Macro "sk_OSSL_CMP_ITAV_reserve" ["sk"; "n"]
    (Call "OPENSSL_sk_reserve" [Call "ossl_check_OSSL_CMP_ITAV_sk_type" [Par "sk"]; Par "n"]);
  Macro "sk_OSSL_CMP_ITAV_free" ["sk"] (Call "OPENSSL_sk_free" [Call "ossl_check_OSSL_CMP_ITAV_sk_type" [Par "sk"]]);
  Macro "sk_OSSL_CMP_ITAV_zero" ["sk"] (Call "OPENSSL_sk_zero" [Call "ossl_check_OSSL_CMP_ITAV_sk_type" [Par "sk"]]);
  Macro "sk_OSSL_CMP_ITAV_delete" ["sk"; "i"] (Cast (Ptr (TypeName "OSSL_CMP_ITAV"))
    (Call "OPENSSL_sk_delete" [Call "ossl_check_OSSL_CMP_ITAV_sk_type" [Par "sk"]; Par "i"]));
  Macro "sk_OSSL_CMP_ITAV_delete_ptr" ["sk"; "ptr"] (Cast (Ptr (TypeName "OSSL_CMP_ITAV"))
    (Call "OPENSSL_sk_delete_ptr" [Call "ossl_check_OSSL_CMP_ITAV_sk_type" [Par "sk"];
    Call "ossl_check_OSSL_CMP_ITAV_type" [Par "ptr"]]));
  Macro "sk_OSSL_CMP_ITAV_push" ["sk"; "ptr"]
    (Call "OPENSSL_sk_push" [Call "ossl_check_OSSL_CMP_ITAV_sk_type" [Par "sk"];
    Call "ossl_check_OSSL_CMP_ITAV_type" [Par "ptr"]]);
  Macro "sk_OSSL_CMP_ITAV_unshift" ["sk"; "ptr"]
    (Call "OPENSSL_sk_unshift" [Call "ossl_check_OSSL_CMP_ITAV_sk_type" [Par "sk"];
    Call "ossl_check_OSSL_CMP_ITAV_type" [Par "ptr"]]);
  Macro "sk_OSSL_CMP_ITAV_pop" ["sk"] (Cast (Ptr (TypeName "OSSL_CMP_ITAV"))
    (Call "OPENSSL_sk_pop" [Call "ossl_check_OSSL_CMP_ITAV_sk_type" [Par "sk"]]));
  Macro "sk_OSSL_CMP_ITAV_shift" ["sk"] (Cast (Ptr (TypeName "OSSL_CMP_ITAV"))
    (Call "OPENSSL_sk_shift" [Call "ossl_check_OSSL_CMP_ITAV_sk_type" [Par "sk"]]));
  Macro "sk_OSSL_CMP_ITAV_pop_free" ["sk"; "freefunc"]
    (Call "OPENSSL_sk_pop_free" [Call "ossl_check_OSSL_CMP_ITAV_sk_type" [Par "sk"];
    Call "ossl_check_OSSL_CMP_ITAV_freefunc_type" [Par "freefunc"]]);
  Macro "sk_OSSL_CMP_ITAV_insert" ["sk"; "ptr"; "idx"]
    (Call "OPENSSL_sk_insert" [Call "ossl_check_OSSL_CMP_ITAV_sk_type" [Par "sk"];
    Call "ossl_check_OSSL_CMP_ITAV_type" [Par "ptr"]; Par "idx"]);
  Macro "sk_OSSL_CMP_ITAV_set" ["sk"; "idx"; "ptr"] (Cast (Ptr (TypeName "OSSL_CMP_ITAV"))
    (Call "OPENSSL_sk_set" [Call "ossl_check_OSSL_CMP_ITAV_sk_type" [Par "sk"]; Par "idx";
    Call "ossl_check_OSSL_CMP_ITAV_type" [Par "ptr"]]));
  Macro "sk_OSSL_CMP_ITAV_find" ["sk"; "ptr"]
    (Call "OPENSSL_sk_find" [Call "ossl_check_OSSL_CMP_ITAV_sk_type" [Par "sk"];
    Call "ossl_check_OSSL_CMP_ITAV_type" [Par "ptr"]]);
  Macro "sk_OSSL_CMP_ITAV_find_ex" ["sk"; "ptr"]
    (Call "OPENSSL_sk_find_ex" [Call "ossl_check_OSSL_CMP_ITAV_sk_type" [Par "sk"];
    Call "ossl_check_OSSL_CMP_ITAV_type" [Par "ptr"]]);
  Macro "sk_OSSL_CMP_ITAV_find_all" ["sk"; "ptr"; "pnum"]
    (Call "OPENSSL_sk_find_all" [Call "ossl_check_OSSL_CMP_ITAV_sk_type" [Par "sk"];
    Call "ossl_check_OSSL_CMP_ITAV_type" [Par "ptr"]; Par "pnum"]);
  Macro "sk_OSSL_CMP_ITAV_sort" ["sk"] (Call "OPENSSL_sk_sort" [Call "ossl_check_OSSL_CMP_ITAV_sk_type" [Par "sk"]]);
  Macro "sk_OSSL_CMP_ITAV_is_sorted" ["sk"]
    (Call "OPENSSL_sk_is_sorted" [Call "ossl_check_const_OSSL_CMP_ITAV_sk_type" [Par "sk"]]);
  Macro "sk_OSSL_CMP_ITAV_dup" ["sk"] (Cast (Ptr (STACK_OF "OSSL_CMP_ITAV"))
    (Call "OPENSSL_sk_dup" [Call "ossl_check_const_OSSL_CMP_ITAV_sk_type" [Par "sk"]]));
  Macro "sk_OSSL_CMP_ITAV_deep_copy" ["sk"; "copyfunc"; "freefunc"] (Cast (Ptr (STACK_OF "OSSL_CMP_ITAV"))
    (Call "OPENSSL_sk_deep_copy" [Call "ossl_check_const_OSSL_CMP_ITAV_sk_type" [Par "sk"];
    Call "ossl_check_OSSL_CMP_ITAV_copyfunc_type" [Par "copyfunc"];
    Call "ossl_check_OSSL_CMP_ITAV_freefunc_type" [Par "freefunc"]]));
  Macro "sk_OSSL_CMP_ITAV_set_cmp_func" ["sk"; "cmp"] (Cast (sk_compfunc (TypeName "OSSL_CMP_ITAV"))
    (Call "OPENSSL_sk_set_cmp_func" [Call "ossl_check_OSSL_CMP_ITAV_sk_type" [Par "sk"];
    Call "ossl_check_OSSL_CMP_ITAV_compfunc_type" [Par "cmp"]]))].

Definition stack_OSSL_CMP_PKISI : stack := Stack "OSSL_CMP_PKISI" (TypeName "OSSL_CMP_PKISI") (TypeName "OSSL_CMP_PKISI") [
  Macro "sk_OSSL_CMP_PKISI_num" ["sk"]
    (Call "OPENSSL_sk_num" [Call "ossl_check_const_OSSL_CMP_PKISI_sk_type" [Par "sk"]]);
  Macro "sk_OSSL_CMP_PKISI_value" ["sk"; "idx"] (Cast (Ptr (TypeName "OSSL_CMP_PKISI"))
    (Call "OPENSSL_sk_value" [Call "ossl_check_const_OSSL_CMP_PKISI_sk_type" [Par "sk"]; Par "idx"]));
  Macro "sk_OSSL_CMP_PKISI_new" ["cmp"] (Cast (Ptr (STACK_OF "OSSL_CMP_PKISI"))
    (Call "OPENSSL_sk_new" [Call "ossl_check_OSSL_CMP_PKISI_compfunc_type" [Par "cmp"]]));
  Macro "sk_OSSL_CMP_PKISI_new_null" [] (Cast (Ptr (STACK_OF "OSSL_CMP_PKISI")) (Call "OPENSSL_sk_new_null" []));
  Macro "sk_OSSL_CMP_PKISI_new_reserve" ["cmp"; "n"] (Cast (Ptr (STACK_OF "OSSL_CMP_PKISI"))
    (Call "OPENSSL_sk_new_reserve" [Call "ossl_check_OSSL_CMP_PKISI_compfunc_type" [Par "cmp"]; Par "n"]));
  Macro "sk_OSSL_CMP_PKISI_reserve" ["sk"; "n"]
    (Call "OPENSSL_sk_reserve" [Call "ossl_check_OSSL_CMP_PKISI_sk_type" [Par "sk"]; Par "n"]);
  Macro "sk_OSSL_CMP_PKISI_free" ["sk"] (Call "OPENSSL_sk_free" [Call "ossl_check_OSSL_CMP_PKISI_sk_type" [Par "sk"]]);
  Macro "sk_OSSL_CMP_PKISI_zero" ["sk"] (Call "OPENSSL_sk_zero" [Call "ossl_check_OSSL_CMP_PKISI_sk_type" [Par "sk"]]);
  Macro "sk_OSSL_CMP_PKISI_delete" ["sk"; "i"] (Cast (Ptr (TypeName "OSSL_CMP_PKISI"))
    (Call "OPENSSL_sk_delete" [Call "ossl_check_OSSL_CMP_PKISI_sk_type" [Par "sk"]; Par "i"]));
  Macro "sk_OSSL_CMP_PKISI_delete_ptr" ["sk"; "ptr"] (Cast (Ptr (TypeName "OSSL_CMP_PKISI"))
    (Call "OPENSSL_sk_delete_ptr" [Call "ossl_check_OSSL_CMP_PKISI_sk_type" [Par "sk"];
    Call "ossl_check_OSSL_CMP_PKISI_type" [Par "ptr"]]));
  Macro "sk_OSSL_CMP_PKISI_push" ["sk"; "ptr"]
    (Call "OPENSSL_sk_push" [Call "ossl_check_OSSL_CMP_PKISI_sk_type" [Par "sk"];
    Call "ossl_check_OSSL_CMP_PKISI_type" [Par "ptr"]]);
  Macro "sk_OSSL_CMP_PKISI_unshift" ["sk"; "ptr"]
    (Call "OPENSSL_sk_unshift" [Call "ossl_check_OSSL_CMP_PKISI_sk_type" [Par "sk"];
    Call "ossl_check_OSSL_CMP_PKISI_type" [Par "ptr"]]);
  Macro "sk_OSSL_CMP_PKISI_pop" ["sk"] (Cast (Ptr (TypeName "OSSL_CMP_PKISI"))
    (Call "OPENSSL_sk_pop" [Call "ossl_check_OSSL_CMP_PKISI_sk_type" [Par "sk"]]));
  Macro "sk_OSSL_CMP_PKISI_shift" ["sk"] (Cast (Ptr (TypeName "OSSL_CMP_PKISI"))
    (Call "OPENSSL_sk_shift" [Call "ossl_check_OSSL_CMP_PKISI_sk_type" [Par "sk"]]));
  Macro "sk_OSSL_CMP_PKISI_pop_free" ["sk"; "freefunc"]
    (Call "OPENSSL_sk_pop_free" [Call "ossl_check_OSSL_CMP_PKISI_sk_type" [Par "sk"];
    Call "ossl_check_OSSL_CMP_PKISI_freefunc_type" [Par "freefunc"]]);
  Macro "sk_OSSL_CMP_PKISI_insert" ["sk"; "ptr"; "idx"]
    (Call "OPENSSL_sk_insert" [Call "ossl_check_OSSL_CMP_PKISI_sk_type" [Par "sk"];
    Call "ossl_check_OSSL_CMP_PKISI_type" [Par "ptr"]; Par "idx"]);
  Macro "sk_OSSL_CMP_PKISI_set" ["sk"; "idx"; "ptr"] (Cast (Ptr (TypeName "OSSL_CMP_PKISI"))
    (Call "OPENSSL_sk_set" [Call "ossl_check_OSSL_CMP_PKISI_sk_type" [Par "sk"]; Par "idx";
    Call "ossl_check_OSSL_CMP_PKISI_type" [Par "ptr"]]));
  Macro "sk_OSSL_CMP_PKISI_find" ["sk"; "ptr"]
    (Call "OPENSSL_sk_find" [Call "ossl_check_OSSL_CMP_PKISI_sk_type" [Par "sk"];
    Call "ossl_check_OSSL_CMP_PKISI_type" [Par "ptr"]]);
  Macro "sk_OSSL_CMP_PKISI_find_ex" ["sk"; "ptr"]
    (Call "OPENSSL_sk_find_ex" [Call "ossl_check_OSSL_CMP_PKISI_sk_type" [Par "sk"];
    Call "ossl_check_OSSL_CMP_PKISI_type" [Par "ptr"]]);
  Macro "sk_OSSL_CMP_PKISI_find_all" ["sk"; "ptr"; "pnum"]
    (Call "OPENSSL_sk_find_all" [Call "ossl_check_OSSL_CMP_PKISI_sk_type" [Par "sk"];
    Call "ossl_check_OSSL_CMP_PKISI_type" [Par "ptr"]; Par "pnum"]);
  Macro "sk_OSSL_CMP_PKISI_sort" ["sk"] (Call "OPENSSL_sk_sort" [Call "ossl_check_OSSL_CMP_PKISI_sk_type" [Par "sk"]]);
  Macro "sk_OSSL_CMP_PKISI_is_sorted" ["sk"]
    (Call "OPENSSL_sk_is_sorted" [Call "ossl_check_const_OSSL_CMP_PKISI_sk_type" [Par "sk"]]);
  Macro "sk_OSSL_CMP_PKISI_dup" ["sk"] (Cast (Ptr (STACK_OF "OSSL_CMP_PKISI"))
    (Call "OPENSSL_sk_dup" [Call "ossl_check_const_OSSL_CMP_PKISI_sk_type" [Par "sk"]]));
  Macro "sk_OSSL_CMP_PKISI_deep_copy" ["sk"; "copyfunc"; "freefunc"] (Cast (Ptr (STACK_OF "OSSL_CMP_PKISI"))
    (Call "OPENSSL_sk_deep_copy" [Call "ossl_check_const_OSSL_CMP_PKISI_sk_type" [Par "sk"];
    Call "ossl_check_OSSL_CMP_PKISI_copyfunc_type" [Par "copyfunc"];
    Call "ossl_check_OSSL_CMP_PKISI_freefunc_type" [Par "freefunc"]]));
  Macro "sk_OSSL_CMP_PKISI_set_cmp_func" ["sk"; "cmp"] (Cast (sk_compfunc (TypeName "OSSL_CMP_PKISI"))
    (Call "OPENSSL_sk_set_cmp_func" [Call "ossl_check_OSSL_CMP_PKISI_sk_type" [Par "sk"];
    Call "ossl_check_OSSL_CMP_PKISI_compfunc_type" [Par "cmp"]]))].

Definition stack_OSSL_CMP_CERTREPMESSAGE : stack := Stack "OSSL_CMP_CERTREPMESSAGE" (TypeName "OSSL_CMP_CERTREPMESSAGE") (TypeName "OSSL_CMP_CERTREPMESSAGE") [
  Macro "sk_OSSL_CMP_CERTREPMESSAGE_num" ["sk"]
    (Call "OPENSSL_sk_num" [Call "ossl_check_const_OSSL_CMP_CERTREPMESSAGE_sk_type" [Par "sk"]]);
  Macro "sk_OSSL_CMP_CERTREPMESSAGE_value" ["sk"; "idx"] (Cast (Ptr (TypeName "OSSL_CMP_CERTREPMESSAGE"))
    (Call "OPENSSL_sk_value" [Call "ossl_check_const_OSSL_CMP_CERTREPMESSAGE_sk_type" [Par "sk"]; Par "idx"]));
  Macro "sk_OSSL_CMP_CERTREPMESSAGE_new" ["cmp"] (Cast (Ptr (STACK_OF "OSSL_CMP_CERTREPMESSAGE"))
    (Call "OPENSSL_sk_new" [Call "ossl_check_OSSL_CMP_CERTREPMESSAGE_compfunc_type" [Par "cmp"]]));
  Macro "sk_OSSL_CMP_CERTREPMESSAGE_new_null" [] (Cast (Ptr (STACK_OF "OSSL_CMP_CERTREPMESSAGE"))
    (Call "OPENSSL_sk_new_null" []));
  Macro "sk_OSSL_CMP_CERTREPMESSAGE_new_reserve" ["cmp"; "n"] (Cast (Ptr (STACK_OF "OSSL_CMP_CERTREPMESSAGE"))
    (Call "OPENSSL_sk_new_reserve" [Call "ossl_check_OSSL_CMP_CERTREPMESSAGE_compfunc_type" [Par "cmp"]; Par "n"]));
  Macro "sk_OSSL_CMP_CERTREPMESSAGE_reserve" ["sk"; "n"]
    (Call "OPENSSL_sk_reserve" [Call "ossl_check_OSSL_CMP_CERTREPMESSAGE_sk_type" [Par "sk"]; Par "n"]);
  Macro "sk_OSSL_CMP_CERTREPMESSAGE_free" ["sk"]
    (Call "OPENSSL_sk_free" [Call "ossl_check_OSSL_CMP_CERTREPMESSAGE_sk_type" [Par "sk"]]);
  Macro "sk_OSSL_CMP_CERTREPMESSAGE_zero" ["sk"]
    (Call "OPENSSL_sk_zero" [Call "ossl_check_OSSL_CMP_CERTREPMESSAGE_sk_type" [Par "sk"]]);
  Macro "sk_OSSL_CMP_CERTREPMESSAGE_delete" ["sk"; "i"] (Cast (Ptr (TypeName "OSSL_CMP_CERTREPMESSAGE"))
    (Call "OPENSSL_sk_delete" [Call "ossl_check_OSSL_CMP_CERTREPMESSAGE_sk_type" [Par "sk"]; Par "i"]));
  Macro "sk_OSSL_CMP_CERTREPMESSAGE_delete_ptr" ["sk"; "ptr"] (Cast (Ptr (TypeName "OSSL_CMP_CERTREPMESSAGE"))
    (Call "OPENSSL_sk_delete_ptr" [Call "ossl_check_OSSL_CMP_CERTREPMESSAGE_sk_type" [Par "sk"];
    Call "ossl_check_OSSL_CMP_CERTREPMESSAGE_type" [Par "ptr"]]));
  Macro "sk_OSSL_CMP_CERTREPMESSAGE_push" ["sk"; "ptr"]
    (Call "OPENSSL_sk_push" [Call "ossl_check_OSSL_CMP_CERTREPMESSAGE_sk_type" [Par "sk"];
    Call "ossl_check_OSSL_CMP_CERTREPMESSAGE_type" [Par "ptr"]]);
  Macro "sk_OSSL_CMP_CERTREPMESSAGE_unshift" ["sk"; "ptr"]
    (Call "OPENSSL_sk_unshift" [Call "ossl_check_OSSL_CMP_CERTREPMESSAGE_sk_type" [Par "sk"];
    Call "ossl_check_OSSL_CMP_CERTREPMESSAGE_type" [Par "ptr"]]);
  Macro "sk_OSSL_CMP_CERTREPMESSAGE_pop" ["sk"] (Cast (Ptr (TypeName "OSSL_CMP_CERTREPMESSAGE"))
    (Call "OPENSSL_sk_pop" [Call "ossl_check_OSSL_CMP_CERTREPMESSAGE_sk_type" [Par "sk"]]));
  Macro "sk_OSSL_CMP_CERTREPMESSAGE_shift" ["sk"] (Cast (Ptr (TypeName "OSSL_CMP_CERTREPMESSAGE"))
    (Call "OPENSSL_sk_shift" [Call "ossl_check_OSSL_CMP_CERTREPMESSAGE_sk_type" [Par "sk"]]));
  Macro "sk_OSSL_CMP_CERTREPMESSAGE_pop_free" ["sk"; "freefunc"]
    (Call "OPENSSL_sk_pop_free" [Call "ossl_check_OSSL_CMP_CERTREPMESSAGE_sk_type" [Par "sk"];
    Call "ossl_check_OSSL_CMP_CERTREPMESSAGE_freefunc_type" [Par "freefunc"]]);
  Macro "sk_OSSL_CMP_CERTREPMESSAGE_insert" ["sk"; "ptr"; "idx"]
    (Call "OPENSSL_sk_insert" [Call "ossl_check_OSSL_CMP_CERTREPMESSAGE_sk_type" [Par "sk"];
    Call "ossl_check_OSSL_CMP_CERTREPMESSAGE_type" [Par "ptr"]; Par "idx"]);
  Macro "sk_OSSL_CMP_CERTREPMESSAGE_set" ["sk"; "idx"; "ptr"] (Cast (Ptr (TypeName "OSSL_CMP_CERTREPMESSAGE"))
    (Call "OPENSSL_sk_set" [Call "ossl_check_OSSL_CMP_CERTREPMESSAGE_sk_type" [Par "sk"]; Par "idx";
    Call "ossl_check_OSSL_CMP_CERTREPMESSAGE_type" [Par "ptr"]]));
  Macro "sk_OSSL_CMP_CERTREPMESSAGE_find" ["sk"; "ptr"]
    (Call "OPENSSL_sk_find" [Call "ossl_check_OSSL_CMP_CERTREPMESSAGE_sk_type" [Par "sk"];
    Call "ossl_check_OSSL_CMP_CERTREPMESSAGE_type" [Par "ptr"]]);
  Macro "sk_OSSL_CMP_CERTREPMESSAGE_find_ex" ["sk"; "ptr"]
    (Call "OPENSSL_sk_find_ex" [Call "ossl_check_OSSL_CMP_CERTREPMESSAGE_sk_type" [Par "sk"];
    Call "ossl_check_OSSL_CMP_CERTREPMESSAGE_type" [Par "ptr"]]);
  Macro "sk_OSSL_CMP_CERTREPMESSAGE_find_all" ["sk"; "ptr"; "pnum"]
    (Call "OPENSSL_sk_find_all" [Call "ossl_check_OSSL_CMP_CERTREPMESSAGE_sk_type" [Par "sk"];
    Call "ossl_check_OSSL_CMP_CERTREPMESSAGE_type" [Par "ptr"]; Par "pnum"]);
  Macro "sk_OSSL_CMP_CERTREPMESSAGE_sort" ["sk"]
    (Call "OPENSSL_sk_sort" [Call "ossl_check_OSSL_CMP_CERTREPMESSAGE_sk_type" [Par "sk"]]);
  Macro "sk_OSSL_CMP_CERTREPMESSAGE_is_sorted" ["sk"]
    (Call "OPENSSL_sk_is_sorted" [Call "ossl_check_const_OSSL_CMP_CERTREPMESSAGE_sk_type" [Par "sk"]]);
  Macro "sk_OSSL_CMP_CERTREPMESSAGE_dup" ["sk"] (Cast (Ptr (STACK_OF "OSSL_CMP_CERTREPMESSAGE"))
    (Call "OPENSSL_sk_dup" [Call "ossl_check_const_OSSL_CMP_CERTREPMESSAGE_sk_type" [Par "sk"]]));
  Macro "sk_OSSL_CMP_CERTREPMESSAGE_deep_copy" ["sk"; "copyfunc"; "freefunc"]
    (Cast (Ptr (STACK_OF "OSSL_CMP_CERTREPMESSAGE"))
    (Call "OPENSSL_sk_deep_copy" [Call "ossl_check_const_OSSL_CMP_CERTREPMESSAGE_sk_type" [Par "sk"];
    Call "ossl_check_OSSL_CMP_CERTREPMESSAGE_copyfunc_type" [Par "copyfunc"];
    Call "ossl_check_OSSL_CMP_CERTREPMESSAGE_freefunc_type" [Par "freefunc"]]));
  Macro "sk_OSSL_CMP_CERTREPMESSAGE_set_cmp_func" ["sk"; "cmp"] (Cast (sk_compfunc (TypeName "OSSL_CMP_CERTREPMESSAGE"))
    (Call "OPENSSL_sk_set_cmp_func" [Call "ossl_check_OSSL_CMP_CERTREPMESSAGE_sk_type" [Par "sk"];
    Call "ossl_check_OSSL_CMP_CERTREPMESSAGE_compfunc_type" [Par "cmp"]]))].

Definition stack_OSSL_CMP_CERTRESPONSE : stack := Stack "OSSL_CMP_CERTRESPONSE" (TypeName "OSSL_CMP_CERTRESPONSE") (TypeName "OSSL_CMP_CERTRESPONSE") [
  Macro "sk_OSSL_CMP_CERTRESPONSE_num" ["sk"]
    (Call "OPENSSL_sk_num" [Call "ossl_check_const_OSSL_CMP_CERTRESPONSE_sk_type" [Par "sk"]]);
  Macro "sk_OSSL_CMP_CERTRESPONSE_value" ["sk"; "idx"] (Cast (Ptr (TypeName "OSSL_CMP_CERTRESPONSE"))
    (Call "OPENSSL_sk_value" [Call "ossl_check_const_OSSL_CMP_CERTRESPONSE_sk_type" [Par "sk"]; Par "idx"]));
  Macro "sk_OSSL_CMP_CERTRESPONSE_new" ["cmp"] (Cast (Ptr (STACK_OF "OSSL_CMP_CERTRESPONSE"))
    (Call "OPENSSL_sk_new" [Call "ossl_check_OSSL_CMP_CERTRESPONSE_compfunc_type" [Par "cmp"]]));
  Macro "sk_OSSL_CMP_CERTRESPONSE_new_null" [] (Cast (Ptr (STACK_OF "OSSL_CMP_CERTRESPONSE"))
    (Call "OPENSSL_sk_new_null" []));
  Macro "sk_OSSL_CMP_CERTRESPONSE_new_reserve" ["cmp"; "n"] (Cast (Ptr (STACK_OF "OSSL_CMP_CERTRESPONSE"))
    (Call "OPENSSL_sk_new_reserve" [Call "ossl_check_OSSL_CMP_CERTRESPONSE_compfunc_type" [Par "cmp"]; Par "n"]));
  Macro "sk_OSSL_CMP_CERTRESPONSE_reserve" ["sk"; "n"]
    (Call "OPENSSL_sk_reserve" [Call "ossl_check_OSSL_CMP_CERTRESPONSE_sk_type" [Par "sk"]; Par "n"]);
  Macro "sk_OSSL_CMP_CERTRESPONSE_free" ["sk"]
    (Call "OPENSSL_sk_free" [Call "ossl_check_OSSL_CMP_CERTRESPONSE_sk_type" [Par "sk"]]);
  Macro "sk_OSSL_CMP_CERTRESPONSE_zero" ["sk"]
    (Call "OPENSSL_sk_zero" [Call "ossl_check_OSSL_CMP_CERTRESPONSE_sk_type" [Par "sk"]]);
  Macro "sk_OSSL_CMP_CERTRESPONSE_delete" ["sk"; "i"] (Cast (Ptr (TypeName "OSSL_CMP_CERTRESPONSE"))
    (Call "OPENSSL_sk_delete" [Call "ossl_check_OSSL_CMP_CERTRESPONSE_sk_type" [Par "sk"]; Par "i"]));
  Macro "sk_OSSL_CMP_CERTRESPONSE_delete_ptr" ["sk"; "ptr"] (Cast (Ptr (TypeName "OSSL_CMP_CERTRESPONSE"))
    (Call "OPENSSL_sk_delete_ptr" [Call "ossl_check_OSSL_CMP_CERTRESPONSE_sk_type" [Par "sk"];
    Call "ossl_check_OSSL_CMP_CERTRESPONSE_type" [Par "ptr"]]));
  Macro "sk_OSSL_CMP_CERTRESPONSE_push" ["sk"; "ptr"]
    (Call "OPENSSL_sk_push" [Call "ossl_check_OSSL_CMP_CERTRESPONSE_sk_type" [Par "sk"];
    Call "ossl_check_OSSL_CMP_CERTRESPONSE_type" [Par "ptr"]]);
  Macro "sk_OSSL_CMP_CERTRESPONSE_unshift" ["sk"; "ptr"]
    (Call "OPENSSL_sk_unshift" [Call "ossl_check_OSSL_CMP_CERTRESPONSE_sk_type" [Par "sk"];
    Call "ossl_check_OSSL_CMP_CERTRESPONSE_type" [Par "ptr"]]);
  Macro "sk_OSSL_CMP_CERTRESPONSE_pop" ["sk"] (Cast (Ptr (TypeName "OSSL_CMP_CERTRESPONSE"))
    (Call "OPENSSL_sk_pop" [Call "ossl_check_OSSL_CMP_CERTRESPONSE_sk_type" [Par "sk"]]));
  Macro "sk_OSSL_CMP_CERTRESPONSE_shift" ["sk"] (Cast (Ptr (TypeName "OSSL_CMP_CERTRESPONSE"))
    (Call "OPENSSL_sk_shift" [Call "ossl_check_OSSL_CMP_CERTRESPONSE_sk_type" [Par "sk"]]));
  Macro "sk_OSSL_CMP_CERTRESPONSE_pop_free" ["sk"; "freefunc"]
    (Call "OPENSSL_sk_pop_free" [Call "ossl_check_OSSL_CMP_CERTRESPONSE_sk_type" [Par "sk"];
    Call "ossl_check_OSSL_CMP_CERTRESPONSE_freefunc_type" [Par "freefunc"]]);
  Macro "sk_OSSL_CMP_CERTRESPONSE_insert" ["sk"; "ptr"; "idx"]
    (Call "OPENSSL_sk_insert" [Call "ossl_check_OSSL_CMP_CERTRESPONSE_sk_type" [Par "sk"];
    Call "ossl_check_OSSL_CMP_CERTRESPONSE_type" [Par "ptr"]; Par "idx"]);
  Macro "sk_OSSL_CMP_CERTRESPONSE_set" ["sk"; "idx"; "ptr"] (Cast (Ptr (TypeName "OSSL_CMP_CERTRESPONSE"))
    (Call "OPENSSL_sk_set" [Call "ossl_check_OSSL_CMP_CERTRESPONSE_sk_type" [Par "sk"]; Par "idx";
    Call "ossl_check_OSSL_CMP_CERTRESPONSE_type" [Par "ptr"]]));
  Macro "sk_OSSL_CMP_CERTRESPONSE_find" ["sk"; "ptr"]
    (Call "OPENSSL_sk_find" [Call "ossl_check_OSSL_CMP_CERTRESPONSE_sk_type" [Par "sk"];
    Call "ossl_check_OSSL_CMP_CERTRESPONSE_type" [Par "ptr"]]);
  Macro "sk_OSSL_CMP_CERTRESPONSE_find_ex" ["sk"; "ptr"]
    (Call "OPENSSL_sk_find_ex" [Call "ossl_check_OSSL_CMP_CERTRESPONSE_sk_type" [Par "sk"];
    Call "ossl_check_OSSL_CMP_CERTRESPONSE_type" [Par "ptr"]]);
  Macro "sk_OSSL_CMP_CERTRESPONSE_find_all" ["sk"; "ptr"; "pnum"]
    (Call "OPENSSL_sk_find_all" [Call "ossl_check_OSSL_CMP_CERTRESPONSE_sk_type" [Par "sk"];
    Call "ossl_check_OSSL_CMP_CERTRESPONSE_type" [Par "ptr"]; Par "pnum"]);
  Macro "sk_OSSL_CMP_CERTRESPONSE_sort" ["sk"]
    (Call "OPENSSL_sk_sort" [Call "ossl_check_OSSL_CMP_CERTRESPONSE_sk_type" [Par "sk"]]);
  Macro "sk_OSSL_CMP_CERTRESPONSE_is_sorted" ["sk"]
    (Call "OPENSSL_sk_is_sorted" [Call "ossl_check_const_OSSL_CMP_CERTRESPONSE_sk_type" [Par "sk"]]);
  Macro "sk_OSSL_CMP_CERTRESPONSE_dup" ["sk"] (Cast (Ptr (STACK_OF "OSSL_CMP_CERTRESPONSE"))
    (Call "OPENSSL_sk_dup" [Call "ossl_check_const_OSSL_CMP_CERTRESPONSE_sk_type" [Par "sk"]]));
  Macro "sk_OSSL_CMP_CERTRESPONSE_deep_copy" ["sk"; "copyfunc"; "freefunc"]
    (Cast (Ptr (STACK_OF "OSSL_CMP_CERTRESPONSE"))
    (Call "OPENSSL_sk_deep_copy" [Call "ossl_check_const_OSSL_CMP_CERTRESPONSE_sk_type" [Par "sk"];
    Call "ossl_check_OSSL_CMP_CERTRESPONSE_copyfunc_type" [Par "copyfunc"];
    Call "ossl_check_OSSL_CMP_CERTRESPONSE_freefunc_type" [Par "freefunc"]]));
  Macro "sk_OSSL_CMP_CERTRESPONSE_set_cmp_func" ["sk"; "cmp"] (Cast (sk_compfunc (TypeName "OSSL_CMP_CERTRESPONSE"))
    (Call "OPENSSL_sk_set_cmp_func" [Call "ossl_check_OSSL_CMP_CERTRESPONSE_sk_type" [Par "sk"];
    Call "ossl_check_OSSL_CMP_CERTRESPONSE_compfunc_type" [Par "cmp"]]))].

Definition stack_CMS_SignerInfo : stack := Stack "CMS_SignerInfo" (TypeName "CMS_SignerInfo") (TypeName "CMS_SignerInfo") [
  Macro "sk_CMS_SignerInfo_num" ["sk"]
    (Call "OPENSSL_sk_num" [Call "ossl_check_const_CMS_SignerInfo_sk_type" [Par "sk"]]);
  Macro "sk_CMS_SignerInfo_value" ["sk"; "idx"] (Cast (Ptr (TypeName "CMS_SignerInfo"))
    (Call "OPENSSL_sk_value" [Call "ossl_check_const_CMS_SignerInfo_sk_type" [Par "sk"]; Par "idx"]));
  Macro "sk_CMS_SignerInfo_new" ["cmp"] (Cast (Ptr (STACK_OF "CMS_SignerInfo"))
    (Call "OPENSSL_sk_new" [Call "ossl_check_CMS_SignerInfo_compfunc_type" [Par "cmp"]]));
  Macro "sk_CMS_SignerInfo_new_null" [] (Cast (Ptr (STACK_OF "CMS_SignerInfo")) (Call "OPENSSL_sk_new_null" []));
  Macro "sk_CMS_SignerInfo_new_reserve" ["cmp"; "n"] (Cast (Ptr (STACK_OF "CMS_SignerInfo"))
    (Call "OPENSSL_sk_new_reserve" [Call "ossl_check_CMS_SignerInfo_compfunc_type" [Par "cmp"]; Par "n"]));
  Macro "sk_CMS_SignerInfo_reserve" ["sk"; "n"]
    (Call "OPENSSL_sk_reserve" [Call "ossl_check_CMS_SignerInfo_sk_type" [Par "sk"]; Par "n"]);
  Macro "sk_CMS_SignerInfo_free" ["sk"] (Call "OPENSSL_sk_free" [Call "ossl_check_CMS_SignerInfo_sk_type" [Par "sk"]]);
  Macro "sk_CMS_SignerInfo_zero" ["sk"] (Call "OPENSSL_sk_zero" [Call "ossl_check_CMS_SignerInfo_sk_type" [Par "sk"]]);
  Macro "sk_CMS_SignerInfo_delete" ["sk"; "i"] (Cast (Ptr (TypeName "CMS_SignerInfo"))
    (Call "OPENSSL_sk_delete" [Call "ossl_check_CMS_SignerInfo_sk_type" [Par "sk"]; Par "i"]));
  Macro "sk_CMS_SignerInfo_delete_ptr" ["sk"; "ptr"] (Cast (Ptr (TypeName "CMS_SignerInfo"))
    (Call "OPENSSL_sk_delete_ptr" [Call "ossl_check_CMS_SignerInfo_sk_type" [Par "sk"];
    Call "ossl_check_CMS_SignerInfo_type" [Par "ptr"]]));
  Macro "sk_CMS_SignerInfo_push" ["sk"; "ptr"]
    (Call "OPENSSL_sk_push" [Call "ossl_check_CMS_SignerInfo_sk_type" [Par "sk"];
    Call "ossl_check_CMS_SignerInfo_type" [Par "ptr"]]);
  Macro "sk_CMS_SignerInfo_unshift" ["sk"; "ptr"]
    (Call "OPENSSL_sk_unshift" [Call "ossl_check_CMS_SignerInfo_sk_type" [Par "sk"];
    Call "ossl_check_CMS_SignerInfo_type" [Par "ptr"]]);
  Macro "sk_CMS_SignerInfo_pop" ["sk"] (Cast (Ptr (TypeName "CMS_SignerInfo"))
    (Call "OPENSSL_sk_pop" [Call "ossl_check_CMS_SignerInfo_sk_type" [Par "sk"]]));
  Macro "sk_CMS_SignerInfo_shift" ["sk"] (Cast (Ptr (TypeName "CMS_SignerInfo"))
    (Call "OPENSSL_sk_shift" [Call "ossl_check_CMS_SignerInfo_sk_type" [Par "sk"]]));
  Macro "sk_CMS_SignerInfo_pop_free" ["sk"; "freefunc"]
    (Call "OPENSSL_sk_pop_free" [Call "ossl_check_CMS_SignerInfo_sk_type" [Par "sk"];
    Call "ossl_check_CMS_SignerInfo_freefunc_type" [Par "freefunc"]]);
  Macro "sk_CMS_SignerInfo_insert" ["sk"; "ptr"; "idx"]
    (Call "OPENSSL_sk_insert" [Call "ossl_check_CMS_SignerInfo_sk_type" [Par "sk"];
    Call "ossl_check_CMS_SignerInfo_type" [Par "ptr"]; Par "idx"]);
  Macro "sk_CMS_SignerInfo_set" ["sk"; "idx"; "ptr"] (Cast (Ptr (TypeName "CMS_SignerInfo"))
    (Call "OPENSSL_sk_set" [Call "ossl_check_CMS_SignerInfo_sk_type" [Par "sk"]; Par "idx";
    Call "ossl_check_CMS_SignerInfo_type" [Par "ptr"]]));
  Macro "sk_CMS_SignerInfo_find" ["sk"; "ptr"]
    (Call "OPENSSL_sk_find" [Call "ossl_check_CMS_SignerInfo_sk_type" [Par "sk"];
    Call "ossl_check_CMS_SignerInfo_type" [Par "ptr"]]);
  Macro "sk_CMS_SignerInfo_find_ex" ["sk"; "ptr"]
    (Call "OPENSSL_sk_find_ex" [Call "ossl_check_CMS_SignerInfo_sk_type" [Par "sk"];
    Call "ossl_check_CMS_SignerInfo_type" [Par "ptr"]]);
  Macro "sk_CMS_SignerInfo_find_all" ["sk"; "ptr"; "pnum"]
    (Call "OPENSSL_sk_find_all" [Call "ossl_check_CMS_SignerInfo_sk_type" [Par "sk"];
    Call "ossl_check_CMS_SignerInfo_type" [Par "ptr"]; Par "pnum"]);
  Macro "sk_CMS_SignerInfo_sort" ["sk"] (Call "OPENSSL_sk_sort" [Call "ossl_check_CMS_SignerInfo_sk_type" [Par "sk"]]);
  Macro "sk_CMS_SignerInfo_is_sorted" ["sk"]
    (Call "OPENSSL_sk_is_sorted" [Call "ossl_check_const_CMS_SignerInfo_sk_type" [Par "sk"]]);
  Macro "sk_CMS_SignerInfo_dup" ["sk"] (Cast (Ptr (STACK_OF "CMS_SignerInfo"))
    (Call "OPENSSL_sk_dup" [Call "ossl_check_const_CMS_SignerInfo_sk_type" [Par "sk"]]));
  Macro "sk_CMS_SignerInfo_deep_copy" ["sk"; "copyfunc"; "freefunc"] (Cast (Ptr (STACK_OF "CMS_SignerInfo"))
    (Call "OPENSSL_sk_deep_copy" [Call "ossl_check_const_CMS_SignerInfo_sk_type" [Par "sk"];
    Call "ossl_check_CMS_SignerInfo_copyfunc_type" [Par "copyfunc"];
    Call "ossl_check_CMS_SignerInfo_freefunc_type" [Par "freefunc"]]));
  Macro "sk_CMS_SignerInfo_set_cmp_func" ["sk"; "cmp"] (Cast (sk_compfunc (TypeName "CMS_SignerInfo"))
    (Call "OPENSSL_sk_set_cmp_func" [Call "ossl_check_CMS_SignerInfo_sk_type" [Par "sk"];
    Call "ossl_check_CMS_SignerInfo_compfunc_type" [Par "cmp"]]))].

Definition stack_CMS_RecipientEncryptedKey : stack := Stack "CMS_RecipientEncryptedKey" (TypeName "CMS_RecipientEncryptedKey") (TypeName "CMS_RecipientEncryptedKey") [
  Macro "sk_CMS_RecipientEncryptedKey_num" ["sk"]
    (Call "OPENSSL_sk_num" [Call "ossl_check_const_CMS_RecipientEncryptedKey_sk_type" [Par "sk"]]);
  Macro "sk_CMS_RecipientEncryptedKey_value" ["sk"; "idx"] (Cast (Ptr (TypeName "CMS_RecipientEncryptedKey"))
    (Call "OPENSSL_sk_value" [Call "ossl_check_const_CMS_RecipientEncryptedKey_sk_type" [Par "sk"]; Par "idx"]));
  Macro "sk_CMS_RecipientEncryptedKey_new" ["cmp"] (Cast (Ptr (STACK_OF "CMS_RecipientEncryptedKey"))
    (Call "OPENSSL_sk_new" [Call "ossl_check_CMS_RecipientEncryptedKey_compfunc_type" [Par "cmp"]]));
  Macro "sk_CMS_RecipientEncryptedKey_new_null" [] (Cast (Ptr (STACK_OF "CMS_RecipientEncryptedKey"))
    (Call "OPENSSL_sk_new_null" []));
  Macro "sk_CMS_RecipientEncryptedKey_new_reserve" ["cmp"; "n"] (Cast (Ptr (STACK_OF "CMS_RecipientEncryptedKey"))
    (Call "OPENSSL_sk_new_reserve" [Call "ossl_check_CMS_RecipientEncryptedKey_compfunc_type" [Par "cmp"]; Par "n"]));
  Macro "sk_CMS_RecipientEncryptedKey_reserve" ["sk"; "n"]
    (Call "OPENSSL_sk_reserve" [Call "ossl_check_CMS_RecipientEncryptedKey_sk_type" [Par "sk"]; Par "n"]);
  Macro "sk_CMS_RecipientEncryptedKey_free" ["sk"]
    (Call "OPENSSL_sk_free" [Call "ossl_check_CMS_RecipientEncryptedKey_sk_type" [Par "sk"]]);
  Macro "sk_CMS_RecipientEncryptedKey_zero" ["sk"]
    (Call "OPENSSL_sk_zero" [Call "ossl_check_CMS_RecipientEncryptedKey_sk_type" [Par "sk"]]);
  Macro "sk_CMS_RecipientEncryptedKey_delete" ["sk"; "i"] (Cast (Ptr (TypeName "CMS_RecipientEncryptedKey"))
    (Call "OPENSSL_sk_delete" [Call "ossl_check_CMS_RecipientEncryptedKey_sk_type" [Par "sk"]; Par "i"]));
  Macro "sk_CMS_RecipientEncryptedKey_delete_ptr" ["sk"; "ptr"] (Cast (Ptr (TypeName "CMS_RecipientEncryptedKey"))
    (Call "OPENSSL_sk_delete_ptr" [Call "ossl_check_CMS_RecipientEncryptedKey_sk_type" [Par "sk"];
    Call "ossl_check_CMS_RecipientEncryptedKey_type" [Par "ptr"]]));
  Macro "sk_CMS_RecipientEncryptedKey_push" ["sk"; "ptr"]
    (Call "OPENSSL_sk_push" [Call "ossl_check_CMS_RecipientEncryptedKey_sk_type" [Par "sk"];
    Call "ossl_check_CMS_RecipientEncryptedKey_type" [Par "ptr"]]);
  Macro "sk_CMS_RecipientEncryptedKey_unshift" ["sk"; "ptr"]
    (Call "OPENSSL_sk_unshift" [Call "ossl_check_CMS_RecipientEncryptedKey_sk_type" [Par "sk"];
    Call "ossl_check_CMS_RecipientEncryptedKey_type" [Par "ptr"]]);
  Macro "sk_CMS_RecipientEncryptedKey_pop" ["sk"] (Cast (Ptr (TypeName "CMS_RecipientEncryptedKey"))
    (Call "OPENSSL_sk_pop" [Call "ossl_check_CMS_RecipientEncryptedKey_sk_type" [Par "sk"]]));
  Macro "sk_CMS_RecipientEncryptedKey_shift" ["sk"] (Cast (Ptr (TypeName "CMS_RecipientEncryptedKey"))
    (Call "OPENSSL_sk_shift" [Call "ossl_check_CMS_RecipientEncryptedKey_sk_type" [Par "sk"]]));
  Macro "sk_CMS_RecipientEncryptedKey_pop_free" ["sk"; "freefunc"]
    (Call "OPENSSL_sk_pop_free" [Call "ossl_check_CMS_RecipientEncryptedKey_sk_type" [Par "sk"];
    Call "ossl_check_CMS_RecipientEncryptedKey_freefunc_type" [Par "freefunc"]]);
  Macro "sk_CMS_RecipientEncryptedKey_insert" ["sk"; "ptr"; "idx"]
    (Call "OPENSSL_sk_insert" [Call "ossl_check_CMS_RecipientEncryptedKey_sk_type" [Par "sk"];
    Call "ossl_check_CMS_RecipientEncryptedKey_type" [Par "ptr"]; Par "idx"]);
  Macro "sk_CMS_RecipientEncryptedKey_set" ["sk"; "idx"; "ptr"] (Cast (Ptr (TypeName "CMS_RecipientEncryptedKey"))
    (Call "OPENSSL_sk_set" [Call "ossl_check_CMS_RecipientEncryptedKey_sk_type" [Par "sk"]; Par "idx";
    Call "ossl_check_CMS_RecipientEncryptedKey_type" [Par "ptr"]]));
  Macro "sk_CMS_RecipientEncryptedKey_find" ["sk"; "ptr"]
    (Call "OPENSSL_sk_find" [Call "ossl_check_CMS_RecipientEncryptedKey_sk_type" [Par "sk"];
    Call "ossl_check_CMS_RecipientEncryptedKey_type" [Par "ptr"]]);
  Macro "sk_CMS_RecipientEncryptedKey_find_ex" ["sk"; "ptr"]
    (Call "OPENSSL_sk_find_ex" [Call "ossl_check_CMS_RecipientEncryptedKey_sk_type" [Par "sk"];
    Call "ossl_check_CMS_RecipientEncryptedKey_type" [Par "ptr"]]);
  Macro "sk_CMS_RecipientEncryptedKey_find_all" ["sk"; "ptr"; "pnum"]
    (Call "OPENSSL_sk_find_all" [Call "ossl_check_CMS_RecipientEncryptedKey_sk_type" [Par "sk"];
    Call "ossl_check_CMS_RecipientEncryptedKey_type" [Par "ptr"]; Par "pnum"]);
  Macro "sk_CMS_RecipientEncryptedKey_sort" ["sk"]
    (Call "OPENSSL_sk_sort" [Call "ossl_check_CMS_RecipientEncryptedKey_sk_type" [Par "sk"]]);
  Macro "sk_CMS_RecipientEncryptedKey_is_sorted" ["sk"]
    (Call "OPENSSL_sk_is_sorted" [Call "ossl_check_const_CMS_RecipientEncryptedKey_sk_type" [Par "sk"]]);
  Macro "sk_CMS_RecipientEncryptedKey_dup" ["sk"] (Cast (Ptr (STACK_OF "CMS_RecipientEncryptedKey"))
    (Call "OPENSSL_sk_dup" [Call "ossl_check_const_CMS_RecipientEncryptedKey_sk_type" [Par "sk"]]));
  Macro "sk_CMS_RecipientEncryptedKey_deep_copy" ["sk"; "copyfunc"; "freefunc"]
    (Cast (Ptr (STACK_OF "CMS_RecipientEncryptedKey"))
    (Call "OPENSSL_sk_deep_copy" [Call "ossl_check_const_CMS_RecipientEncryptedKey_sk_type" [Par "sk"];
    Call "ossl_check_CMS_RecipientEncryptedKey_copyfunc_type" [Par "copyfunc"];
    Call "ossl_check_CMS_RecipientEncryptedKey_freefunc_type" [Par "freefunc"]]));
  Macro "sk_CMS_RecipientEncryptedKey_set_cmp_func" ["sk"; "cmp"]
    (Cast (sk_compfunc (TypeName "CMS_RecipientEncryptedKey"))
    (Call "OPENSSL_sk_set_cmp_func" [Call "ossl_check_CMS_RecipientEncryptedKey_sk_type" [Par "sk"];
    Call "ossl_check_CMS_RecipientEncryptedKey_compfunc_type" [Par "cmp"]]))].

Definition stack_CMS_RecipientInfo : stack := Stack "CMS_RecipientInfo" (TypeName "CMS_RecipientInfo") (TypeName "CMS_RecipientInfo") [
  Macro "sk_CMS_RecipientInfo_num" ["sk"]
    (Call "OPENSSL_sk_num" [Call "ossl_check_const_CMS_RecipientInfo_sk_type" [Par "sk"]]);
  Macro "sk_CMS_RecipientInfo_value" ["sk"; "idx"] (Cast (Ptr (TypeName "CMS_RecipientInfo"))
    (Call "OPENSSL_sk_value" [Call "ossl_check_const_CMS_RecipientInfo_sk_type" [Par "sk"]; Par "idx"]));
  Macro "sk_CMS_RecipientInfo_new" ["cmp"] (Cast (Ptr (STACK_OF "CMS_RecipientInfo"))
    (Call "OPENSSL_sk_new" [Call "ossl_check_CMS_RecipientInfo_compfunc_type" [Par "cmp"]]));
  Macro "sk_CMS_RecipientInfo_new_null" [] (Cast (Ptr (STACK_OF "CMS_RecipientInfo")) (Call "OPENSSL_sk_new_null" []));
  Macro "sk_CMS_RecipientInfo_new_reserve" ["cmp"; "n"] (Cast (Ptr (STACK_OF "CMS_RecipientInfo"))
    (Call "OPENSSL_sk_new_reserve" [Call "ossl_check_CMS_RecipientInfo_compfunc_type" [Par "cmp"]; Par "n"]));
  Macro "sk_CMS_RecipientInfo_reserve" ["sk"; "n"]
    (Call "OPENSSL_sk_reserve" [Call "ossl_check_CMS_RecipientInfo_sk_type" [Par "sk"]; Par "n"]);
  Macro "sk_CMS_RecipientInfo_free" ["sk"]
    (Call "OPENSSL_sk_free" [Call "ossl_check_CMS_RecipientInfo_sk_type" [Par "sk"]]);
  Macro "sk_CMS_RecipientInfo_zero" ["sk"]
    (Call "OPENSSL_sk_zero" [Call "ossl_check_CMS_RecipientInfo_sk_type" [Par "sk"]]);
  Macro "sk_CMS_RecipientInfo_delete" ["sk"; "i"] (Cast (Ptr (TypeName "CMS_RecipientInfo"))
    (Call "OPENSSL_sk_delete" [Call "ossl_check_CMS_RecipientInfo_sk_type" [Par "sk"]; Par "i"]));
  Macro "sk_CMS_RecipientInfo_delete_ptr" ["sk"; "ptr"] (Cast (Ptr (TypeName "CMS_RecipientInfo"))
    (Call "OPENSSL_sk_delete_ptr" [Call "ossl_check_CMS_RecipientInfo_sk_type" [Par "sk"];
    Call "ossl_check_CMS_RecipientInfo_type" [Par "ptr"]]));
  Macro "sk_CMS_RecipientInfo_push" ["sk"; "ptr"]
    (Call "OPENSSL_sk_push" [Call "ossl_check_CMS_RecipientInfo_sk_type" [Par "sk"];
    Call "ossl_check_CMS_RecipientInfo_type" [Par "ptr"]]);
  Macro "sk_CMS_RecipientInfo_unshift" ["sk"; "ptr"]
    (Call "OPENSSL_sk_unshift" [Call "ossl_check_CMS_RecipientInfo_sk_type" [Par "sk"];
    Call "ossl_check_CMS_RecipientInfo_type" [Par "ptr"]]);
  Macro "sk_CMS_RecipientInfo_pop" ["sk"] (Cast (Ptr (TypeName "CMS_RecipientInfo"))
    (Call "OPENSSL_sk_pop" [Call "ossl_check_CMS_RecipientInfo_sk_type" [Par "sk"]]));
  Macro "sk_CMS_RecipientInfo_shift" ["sk"] (Cast (Ptr (TypeName "CMS_RecipientInfo"))
    (Call "OPENSSL_sk_shift" [Call "ossl_check_CMS_RecipientInfo_sk_type" [Par "sk"]]));
  Macro "sk_CMS_RecipientInfo_pop_free" ["sk"; "freefunc"]
    (Call "OPENSSL_sk_pop_free" [Call "ossl_check_CMS_RecipientInfo_sk_type" [Par "sk"];
    Call "ossl_check_CMS_RecipientInfo_freefunc_type" [Par "freefunc"]]);
  Macro "sk_CMS_RecipientInfo_insert" ["sk"; "ptr"; "idx"]
    (Call "OPENSSL_sk_insert" [Call "ossl_check_CMS_RecipientInfo_sk_type" [Par "sk"];
    Call "ossl_check_CMS_RecipientInfo_type" [Par "ptr"]; Par "idx"]);
  Macro "sk_CMS_RecipientInfo_set" ["sk"; "idx"; "ptr"] (Cast (Ptr (TypeName "CMS_RecipientInfo"))
    (Call "OPENSSL_sk_set" [Call "ossl_check_CMS_RecipientInfo_sk_type" [Par "sk"]; Par "idx";
    Call "ossl_check_CMS_RecipientInfo_type" [Par "ptr"]]));
  Macro "sk_CMS_RecipientInfo_find" ["sk"; "ptr"]
    (Call "OPENSSL_sk_find" [Call "ossl_check_CMS_RecipientInfo_sk_type" [Par "sk"];
    Call "ossl_check_CMS_RecipientInfo_type" [Par "ptr"]]);
  Macro "sk_CMS_RecipientInfo_find_ex" ["sk"; "ptr"]
    (Call "OPENSSL_sk_find_ex" [Call "ossl_check_CMS_RecipientInfo_sk_type" [Par "sk"];
    Call "ossl_check_CMS_RecipientInfo_type" [Par "ptr"]]);
  Macro "sk_CMS_RecipientInfo_find_all" ["sk"; "ptr"; "pnum"]
    (Call "OPENSSL_sk_find_all" [Call "ossl_check_CMS_RecipientInfo_sk_type" [Par "sk"];
    Call "ossl_check_CMS_RecipientInfo_type" [Par "ptr"]; Par "pnum"]);
  Macro "sk_CMS_RecipientInfo_sort" ["sk"]
    (Call "OPENSSL_sk_sort" [Call "ossl_check_CMS_RecipientInfo_sk_type" [Par "sk"]]);
  Macro "sk_CMS_RecipientInfo_is_sorted" ["sk"]
    (Call "OPENSSL_sk_is_sorted" [Call "ossl_check_const_CMS_RecipientInfo_sk_type" [Par "sk"]]);
  Macro "sk_CMS_RecipientInfo_dup" ["sk"] (Cast (Ptr (STACK_OF "CMS_RecipientInfo"))
    (Call "OPENSSL_sk_dup" [Call "ossl_check_const_CMS_RecipientInfo_sk_type" [Par "sk"]]));
  Macro "sk_CMS_RecipientInfo_deep_copy" ["sk"; "copyfunc"; "freefunc"] (Cast (Ptr (STACK_OF "CMS_RecipientInfo"))
    (Call "OPENSSL_sk_deep_copy" [Call "ossl_check_const_CMS_RecipientInfo_sk_type" [Par "sk"];
    Call "ossl_check_CMS_RecipientInfo_copyfunc_type" [Par "copyfunc"];
    Call "ossl_check_CMS_RecipientInfo_freefunc_type" [Par "freefunc"]]));
  Macro "sk_CMS_RecipientInfo_set_cmp_func" ["sk"; "cmp"] (Cast (sk_compfunc (TypeName "CMS_RecipientInfo"))
    (Call "OPENSSL_sk_set_cmp_func" [Call "ossl_check_CMS_RecipientInfo_sk_type" [Par "sk"];
    Call "ossl_check_CMS_RecipientInfo_compfunc_type" [Par "cmp"]]))].

Definition stack_CMS_RevocationInfoChoice : stack := Stack "CMS_RevocationInfoChoice" (TypeName "CMS_RevocationInfoChoice") (TypeName "CMS_RevocationInfoChoice") [
  Macro "sk_CMS_RevocationInfoChoice_num" ["sk"]
    (Call "OPENSSL_sk_num" [Call "ossl_check_const_CMS_RevocationInfoChoice_sk_type" [Par "sk"]]);
  Macro "sk_CMS_RevocationInfoChoice_value" ["sk"; "idx"] (Cast (Ptr (TypeName "CMS_RevocationInfoChoice"))
    (Call "OPENSSL_sk_value" [Call "ossl_check_const_CMS_RevocationInfoChoice_sk_type" [Par "sk"]; Par "idx"]));
  Macro "sk_CMS_RevocationInfoChoice_new" ["cmp"] (Cast (Ptr (STACK_OF "CMS_RevocationInfoChoice"))
    (Call "OPENSSL_sk_new" [Call "ossl_check_CMS_RevocationInfoChoice_compfunc_type" [Par "cmp"]]));
  Macro "sk_CMS_RevocationInfoChoice_new_null" [] (Cast (Ptr (STACK_OF "CMS_RevocationInfoChoice"))
    (Call "OPENSSL_sk_new_null" []));
  Macro "sk_CMS_RevocationInfoChoice_new_reserve" ["cmp"; "n"] (Cast (Ptr (STACK_OF "CMS_RevocationInfoChoice"))
    (Call "OPENSSL_sk_new_reserve" [Call "ossl_check_CMS_RevocationInfoChoice_compfunc_type" [Par "cmp"]; Par "n"]));
  Macro "sk_CMS_RevocationInfoChoice_reserve" ["sk"; "n"]
    (Call "OPENSSL_sk_reserve" [Call "ossl_check_CMS_RevocationInfoChoice_sk_type" [Par "sk"]; Par "n"]);
  Macro "sk_CMS_RevocationInfoChoice_free" ["sk"]
    (Call "OPENSSL_sk_free" [Call "ossl_check_CMS_RevocationInfoChoice_sk_type" [Par "sk"]]);
  Macro "sk_CMS_RevocationInfoChoice_zero" ["sk"]
    (Call "OPENSSL_sk_zero" [Call "ossl_check_CMS_RevocationInfoChoice_sk_type" [Par "sk"]]);
  Macro "sk_CMS_RevocationInfoChoice_delete" ["sk"; "i"] (Cast (Ptr (TypeName "CMS_RevocationInfoChoice"))
    (Call "OPENSSL_sk_delete" [Call "ossl_check_CMS_RevocationInfoChoice_sk_type" [Par "sk"]; Par "i"]));
  Macro "sk_CMS_RevocationInfoChoice_delete_ptr" ["sk"; "ptr"] (Cast (Ptr (TypeName "CMS_RevocationInfoChoice"))
    (Call "OPENSSL_sk_delete_ptr" [Call "ossl_check_CMS_RevocationInfoChoice_sk_type" [Par "sk"];
    Call "ossl_check_CMS_RevocationInfoChoice_type" [Par "ptr"]]));
  Macro "sk_CMS_RevocationInfoChoice_push" ["sk"; "ptr"]
    (Call "OPENSSL_sk_push" [Call "ossl_check_CMS_RevocationInfoChoice_sk_type" [Par "sk"];
    Call "ossl_check_CMS_RevocationInfoChoice_type" [Par "ptr"]]);
  Macro "sk_CMS_RevocationInfoChoice_unshift" ["sk"; "ptr"]
    (Call "OPENSSL_sk_unshift" [Call "ossl_check_CMS_RevocationInfoChoice_sk_type" [Par "sk"];
    Call "ossl_check_CMS_RevocationInfoChoice_type" [Par "ptr"]]);
  Macro "sk_CMS_RevocationInfoChoice_pop" ["sk"] (Cast (Ptr (TypeName "CMS_RevocationInfoChoice"))
    (Call "OPENSSL_sk_pop" [Call "ossl_check_CMS_RevocationInfoChoice_sk_type" [Par "sk"]]));
  Macro "sk_CMS_RevocationInfoChoice_shift" ["sk"] (Cast (Ptr (TypeName "CMS_RevocationInfoChoice"))
    (Call "OPENSSL_sk_shift" [Call "ossl_check_CMS_RevocationInfoChoice_sk_type" [Par "sk"]]));
  Macro "sk_CMS_RevocationInfoChoice_pop_free" ["sk"; "freefunc"]
    (Call "OPENSSL_sk_pop_free" [Call "ossl_check_CMS_RevocationInfoChoice_sk_type" [Par "sk"];
    Call "ossl_check_CMS_RevocationInfoChoice_freefunc_type" [Par "freefunc"]]);
  Macro "sk_CMS_RevocationInfoChoice_insert" ["sk"; "ptr"; "idx"]
    (Call "OPENSSL_sk_insert" [Call "ossl_check_CMS_RevocationInfoChoice_sk_type" [Par "sk"];
    Call "ossl_check_CMS_RevocationInfoChoice_type" [Par "ptr"]; Par "idx"]);
  Macro "sk_CMS_RevocationInfoChoice_set" ["sk"; "idx"; "ptr"] (Cast (Ptr (TypeName "CMS_RevocationInfoChoice"))
    (Call "OPENSSL_sk_set" [Call "ossl_check_CMS_RevocationInfoChoice_sk_type" [Par "sk"]; Par "idx";
    Call "ossl_check_CMS_RevocationInfoChoice_type" [Par "ptr"]]));
  Macro "sk_CMS_RevocationInfoChoice_find" ["sk"; "ptr"]
    (Call "OPENSSL_sk_find" [Call "ossl_check_CMS_RevocationInfoChoice_sk_type" [Par "sk"];
    Call "ossl_check_CMS_RevocationInfoChoice_type" [Par "ptr"]]);
  Macro "sk_CMS_RevocationInfoChoice_find_ex" ["sk"; "ptr"]
    (Call "OPENSSL_sk_find_ex" [Call "ossl_check_CMS_RevocationInfoChoice_sk_type" [Par "sk"];
    Call "ossl_check_CMS_RevocationInfoChoice_type" [Par "ptr"]]);
  Macro "sk_CMS_RevocationInfoChoice_find_all" ["sk"; "ptr"; "pnum"]
    (Call "OPENSSL_sk_find_all" [Call "ossl_check_CMS_RevocationInfoChoice_sk_type" [Par "sk"];
    Call "ossl_check_CMS_RevocationInfoChoice_type" [Par "ptr"]; Par "pnum"]);
  Macro "sk_CMS_RevocationInfoChoice_sort" ["sk"]
    (Call "OPENSSL_sk_sort" [Call "ossl_check_CMS_RevocationInfoChoice_sk_type" [Par "sk"]]);
  Macro "sk_CMS_RevocationInfoChoice_is_sorted" ["sk"]
    (Call "OPENSSL_sk_is_sorted" [Call "ossl_check_const_CMS_RevocationInfoChoice_sk_type" [Par "sk"]]);
  Macro "sk_CMS_RevocationInfoChoice_dup" ["sk"] (Cast (Ptr (STACK_OF "CMS_RevocationInfoChoice"))
    (Call "OPENSSL_sk_dup" [Call "ossl_check_const_CMS_RevocationInfoChoice_sk_type" [Par "sk"]]));
  Macro "sk_CMS_RevocationInfoChoice_deep_copy" ["sk"; "copyfunc"; "freefunc"]
    (Cast (Ptr (STACK_OF "CMS_RevocationInfoChoice"))
    (Call "OPENSSL_sk_deep_copy" [Call "ossl_check_const_CMS_RevocationInfoChoice_sk_type" [Par "sk"];
    Call "ossl_check_CMS_RevocationInfoChoice_copyfunc_type" [Par "copyfunc"];
    Call "ossl_check_CMS_RevocationInfoChoice_freefunc_type" [Par "freefunc"]]));
  Macro "sk_CMS_RevocationInfoChoice_set_cmp_func" ["sk"; "cmp"]
    (Cast (sk_compfunc (TypeName "CMS_RevocationInfoChoice"))
    (Call "OPENSSL_sk_set_cmp_func" [Call "ossl_check_CMS_RevocationInfoChoice_sk_type" [Par "sk"];
    Call "ossl_check_CMS_RevocationInfoChoice_compfunc_type" [Par "cmp"]]))].

Definition stack_CONF_VALUE : stack := Stack "CONF_VALUE" (TypeName "CONF_VALUE") (TypeName "CONF_VALUE") [
  Macro "sk_CONF_VALUE_num" ["sk"] (Call "OPENSSL_sk_num" [Call "ossl_check_const_CONF_VALUE_sk_type" [Par "sk"]]);
  Macro "sk_CONF_VALUE_value" ["sk"; "idx"] (Cast (Ptr (TypeName "CONF_VALUE"))
    (Call "OPENSSL_sk_value" [Call "ossl_check_const_CONF_VALUE_sk_type" [Par "sk"]; Par "idx"]));
  Macro "sk_CONF_VALUE_new" ["cmp"] (Cast (Ptr (STACK_OF "CONF_VALUE"))
    (Call "OPENSSL_sk_new" [Call "ossl_check_CONF_VALUE_compfunc_type" [Par "cmp"]]));
  Macro "sk_CONF_VALUE_new_null" [] (Cast (Ptr (STACK_OF "CONF_VALUE")) (Call "OPENSSL_sk_new_null" []));
  Macro "sk_CONF_VALUE_new_reserve" ["cmp"; "n"] (Cast (Ptr (STACK_OF "CONF_VALUE"))
    (Call "OPENSSL_sk_new_reserve" [Call "ossl_check_CONF_VALUE_compfunc_type" [Par "cmp"]; Par "n"]));
  Macro "sk_CONF_VALUE_reserve" ["sk"; "n"] (Call "OPENSSL_sk_reserve" [Call "ossl_check_CONF_VALUE_sk_type" [Par "sk"];
    Par "n"]);
  Macro "sk_CONF_VALUE_free" ["sk"] (Call "OPENSSL_sk_free" [Call "ossl_check_CONF_VALUE_sk_type" [Par "sk"]]);
  Macro "sk_CONF_VALUE_zero" ["sk"] (Call "OPENSSL_sk_zero" [Call "ossl_check_CONF_VALUE_sk_type" [Par "sk"]]);
  Macro "sk_CONF_VALUE_delete" ["sk"; "i"] (Cast (Ptr (TypeName "CONF_VALUE"))
    (Call "OPENSSL_sk_delete" [Call "ossl_check_CONF_VALUE_sk_type" [Par "sk"]; Par "i"]));
  Macro "sk_CONF_VALUE_delete_ptr" ["sk"; "ptr"] (Cast (Ptr (TypeName "CONF_VALUE"))
    (Call "OPENSSL_sk_delete_ptr" [Call "ossl_check_CONF_VALUE_sk_type" [Par "sk"];
    Call "ossl_check_CONF_VALUE_type" [Par "ptr"]]));
  Macro "sk_CONF_VALUE_push" ["sk"; "ptr"] (Call "OPENSSL_sk_push" [Call "ossl_check_CONF_VALUE_sk_type" [Par "sk"];
    Call "ossl_check_CONF_VALUE_type" [Par "ptr"]]);
  Macro "sk_CONF_VALUE_unshift" ["sk"; "ptr"]
    (Call "OPENSSL_sk_unshift" [Call "ossl_check_CONF_VALUE_sk_type" [Par "sk"];
    Call "ossl_check_CONF_VALUE_type" [Par "ptr"]]);
  Macro "sk_CONF_VALUE_pop" ["sk"] (Cast (Ptr (TypeName "CONF_VALUE"))
    (Call "OPENSSL_sk_pop" [Call "ossl_check_CONF_VALUE_sk_type" [Par "sk"]]));
  Macro "sk_CONF_VALUE_shift" ["sk"] (Cast (Ptr (TypeName "CONF_VALUE"))
    (Call "OPENSSL_sk_shift" [Call "ossl_check_CONF_VALUE_sk_type" [Par "sk"]]));
  Macro "sk_CONF_VALUE_pop_free" ["sk"; "freefunc"]
    (Call "OPENSSL_sk_pop_free" [Call "ossl_check_CONF_VALUE_sk_type" [Par "sk"];
    Call "ossl_check_CONF_VALUE_freefunc_type" [Par "freefunc"]]);
  Macro "sk_CONF_VALUE_insert" ["sk"; "ptr"; "idx"]
    (Call "OPENSSL_sk_insert" [Call "ossl_check_CONF_VALUE_sk_type" [Par "sk"];
    Call "ossl_check_CONF_VALUE_type" [Par "ptr"]; Par "idx"]);
  Macro "sk_CONF_VALUE_set" ["sk"; "idx"; "ptr"] (Cast (Ptr (TypeName "CONF_VALUE"))
    (Call "OPENSSL_sk_set" [Call "ossl_check_CONF_VALUE_sk_type" [Par "sk"]; Par "idx";
    Call "ossl_check_CONF_VALUE_type" [Par "ptr"]]));
  Macro "sk_CONF_VALUE_find" ["sk"; "ptr"] (Call "OPENSSL_sk_find" [Call "ossl_check_CONF_VALUE_sk_type" [Par "sk"];
    Call "ossl_check_CONF_VALUE_type" [Par "ptr"]]);
  Macro "sk_CONF_VALUE_find_ex" ["sk"; "ptr"]
    (Call "OPENSSL_sk_find_ex" [Call "ossl_check_CONF_VALUE_sk_type" [Par "sk"];
    Call "ossl_check_CONF_VALUE_type" [Par "ptr"]]);
  Macro "sk_CONF_VALUE_find_all" ["sk"; "ptr"; "pnum"]
    (Call "OPENSSL_sk_find_all" [Call "ossl_check_CONF_VALUE_sk_type" [Par "sk"];
    Call "ossl_check_CONF_VALUE_type" [Par "ptr"]; Par "pnum"]);
  Macro "sk_CONF_VALUE_sort" ["sk"] (Call "OPENSSL_sk_sort" [Call "ossl_check_CONF_VALUE_sk_type" [Par "sk"]]);
  Macro "sk_CONF_VALUE_is_sorted" ["sk"]
    (Call "OPENSSL_sk_is_sorted" [Call "ossl_check_const_CONF_VALUE_sk_type" [Par "sk"]]);
  Macro "sk_CONF_VALUE_dup" ["sk"] (Cast (Ptr (STACK_OF "CONF_VALUE"))
    (Call "OPENSSL_sk_dup" [Call "ossl_check_const_CONF_VALUE_sk_type" [Par "sk"]]));
  Macro "sk_CONF_VALUE_deep_copy" ["sk"; "copyfunc"; "freefunc"] (Cast (Ptr (STACK_OF "CONF_VALUE"))
    (Call "OPENSSL_sk_deep_copy" [Call "ossl_check_const_CONF_VALUE_sk_type" [Par "sk"];
    Call "ossl_check_CONF_VALUE_copyfunc_type" [Par "copyfunc"];
    Call "ossl_check_CONF_VALUE_freefunc_type" [Par "freefunc"]]));
  Macro "sk_CONF_VALUE_set_cmp_func" ["sk"; "cmp"] (Cast (sk_compfunc (TypeName "CONF_VALUE"))
    (Call "OPENSSL_sk_set_cmp_func" [Call "ossl_check_CONF_VALUE_sk_type" [Par "sk"];
    Call "ossl_check_CONF_VALUE_compfunc_type" [Par "cmp"]]))].

Definition stack_OSSL_CRMF_MSG : stack := Stack "OSSL_CRMF_MSG" (TypeName "OSSL_CRMF_MSG") (TypeName "OSSL_CRMF_MSG") [
  Macro "sk_OSSL_CRMF_MSG_num" ["sk"] (Call "OPENSSL_sk_num" [Call "ossl_check_const_OSSL_CRMF_MSG_sk_type" [Par "sk"]]);
  Macro "sk_OSSL_CRMF_MSG_value" ["sk"; "idx"] (Cast (Ptr (TypeName "OSSL_CRMF_MSG"))
    (Call "OPENSSL_sk_value" [Call "ossl_check_const_OSSL_CRMF_MSG_sk_type" [Par "sk"]; Par "idx"]));
  Macro "sk_OSSL_CRMF_MSG_new" ["cmp"] (Cast (Ptr (STACK_OF "OSSL_CRMF_MSG"))
    (Call "OPENSSL_sk_new" [Call "ossl_check_OSSL_CRMF_MSG_compfunc_type" [Par "cmp"]]));
  Macro "sk_OSSL_CRMF_MSG_new_null" [] (Cast (Ptr (STACK_OF "OSSL_CRMF_MSG")) (Call "OPENSSL_sk_new_null" []));
  Macro "sk_OSSL_CRMF_MSG_new_reserve" ["cmp"; "n"] (Cast (Ptr (STACK_OF "OSSL_CRMF_MSG"))
    (Call "OPENSSL_sk_new_reserve" [Call "ossl_check_OSSL_CRMF_MSG_compfunc_type" [Par "cmp"]; Par "n"]));
  Macro "sk_OSSL_CRMF_MSG_reserve" ["sk"; "n"]
    (Call "OPENSSL_sk_reserve" [Call "ossl_check_OSSL_CRMF_MSG_sk_type" [Par "sk"]; Par "n"]);
  Macro "sk_OSSL_CRMF_MSG_free" ["sk"] (Call "OPENSSL_sk_free" [Call "ossl_check_OSSL_CRMF_MSG_sk_type" [Par "sk"]]);
  Macro "sk_OSSL_CRMF_MSG_zero" ["sk"] (Call "OPENSSL_sk_zero" [Call "ossl_check_OSSL_CRMF_MSG_sk_type" [Par "sk"]]);
  Macro "sk_OSSL_CRMF_MSG_delete" ["sk"; "i"] (Cast (Ptr (TypeName "OSSL_CRMF_MSG"))
    (Call "OPENSSL_sk_delete" [Call "ossl_check_OSSL_CRMF_MSG_sk_type" [Par "sk"]; Par "i"]));
  Macro "sk_OSSL_CRMF_MSG_delete_ptr" ["sk"; "ptr"] (Cast (Ptr (TypeName "OSSL_CRMF_MSG"))
    (Call "OPENSSL_sk_delete_ptr" [Call "ossl_check_OSSL_CRMF_MSG_sk_type" [Par "sk"];
    Call "ossl_check_OSSL_CRMF_MSG_type" [Par "ptr"]]));
  Macro "sk_OSSL_CRMF_MSG_push" ["sk"; "ptr"]
    (Call "OPENSSL_sk_push" [Call "ossl_check_OSSL_CRMF_MSG_sk_type" [Par "sk"];
    Call "ossl_check_OSSL_CRMF_MSG_type" [Par "ptr"]]);
  Macro "sk_OSSL_CRMF_MSG_unshift" ["sk"; "ptr"]
    (Call "OPENSSL_sk_unshift" [Call "ossl_check_OSSL_CRMF_MSG_sk_type" [Par "sk"];
    Call "ossl_check_OSSL_CRMF_MSG_type" [Par "ptr"]]);
  Macro "sk_OSSL_CRMF_MSG_pop" ["sk"] (Cast (Ptr (TypeName "OSSL_CRMF_MSG"))
    (Call "OPENSSL_sk_pop" [Call "ossl_check_OSSL_CRMF_MSG_sk_type" [Par "sk"]]));
  Macro "sk_OSSL_CRMF_MSG_shift" ["sk"] (Cast (Ptr (TypeName "OSSL_CRMF_MSG"))
    (Call "OPENSSL_sk_shift" [Call "ossl_check_OSSL_CRMF_MSG_sk_type" [Par "sk"]]));
  Macro "sk_OSSL_CRMF_MSG_pop_free" ["sk"; "freefunc"]
    (Call "OPENSSL_sk_pop_free" [Call "ossl_check_OSSL_CRMF_MSG_sk_type" [Par "sk"];
    Call "ossl_check_OSSL_CRMF_MSG_freefunc_type" [Par "freefunc"]]);
  Macro "sk_OSSL_CRMF_MSG_insert" ["sk"; "ptr"; "idx"]
    (Call "OPENSSL_sk_insert" [Call "ossl_check_OSSL_CRMF_MSG_sk_type" [Par "sk"];
    Call "ossl_check_OSSL_CRMF_MSG_type" [Par "ptr"]; Par "idx"]);
  Macro "sk_OSSL_CRMF_MSG_set" ["sk"; "idx"; "ptr"] (Cast (Ptr (TypeName "OSSL_CRMF_MSG"))
    (Call "OPENSSL_sk_set" [Call "ossl_check_OSSL_CRMF_MSG_sk_type" [Par "sk"]; Par "idx";
    Call "ossl_check_OSSL_CRMF_MSG_type" [Par "ptr"]]));
  Macro "sk_OSSL_CRMF_MSG_find" ["sk"; "ptr"]
    (Call "OPENSSL_sk_find" [Call "ossl_check_OSSL_CRMF_MSG_sk_type" [Par "sk"];
    Call "ossl_check_OSSL_CRMF_MSG_type" [Par "ptr"]]);
  Macro "sk_OSSL_CRMF_MSG_find_ex" ["sk"; "ptr"]
    (Call "OPENSSL_sk_find_ex" [Call "ossl_check_OSSL_CRMF_MSG_sk_type" [Par "sk"];
    Call "ossl_check_OSSL_CRMF_MSG_type" [Par "ptr"]]);
  Macro "sk_OSSL_CRMF_MSG_find_all" ["sk"; "ptr"; "pnum"]
    (Call "OPENSSL_sk_find_all" [Call "ossl_check_OSSL_CRMF_MSG_sk_type" [Par "sk"];
    Call "ossl_check_OSSL_CRMF_MSG_type" [Par "ptr"]; Par "pnum"]);
  Macro "sk_OSSL_CRMF_MSG_sort" ["sk"] (Call "OPENSSL_sk_sort" [Call "ossl_check_OSSL_CRMF_MSG_sk_type" [Par "sk"]]);
  Macro "sk_OSSL_CRMF_MSG_is_sorted" ["sk"]
    (Call "OPENSSL_sk_is_sorted" [Call "ossl_check_const_OSSL_CRMF_MSG_sk_type" [Par "sk"]]);
  Macro "sk_OSSL_CRMF_MSG_dup" ["sk"] (Cast (Ptr (STACK_OF "OSSL_CRMF_MSG"))
    (Call "OPENSSL_sk_dup" [Call "ossl_check_const_OSSL_CRMF_MSG_sk_type" [Par "sk"]]));
  Macro "sk_OSSL_CRMF_MSG_deep_copy" ["sk"; "copyfunc"; "freefunc"] (Cast (Ptr (STACK_OF "OSSL_CRMF_MSG"))
    (Call "OPENSSL_sk_deep_copy" [Call "ossl_check_const_OSSL_CRMF_MSG_sk_type" [Par "sk"];
    Call "ossl_check_OSSL_CRMF_MSG_copyfunc_type" [Par "copyfunc"];
    Call "ossl_check_OSSL_CRMF_MSG_freefunc_type" [Par "freefunc"]]));
  Macro "sk_OSSL_CRMF_MSG_set_cmp_func" ["sk"; "cmp"] (Cast (sk_compfunc (TypeName "OSSL_CRMF_MSG"))
    (Call "OPENSSL_sk_set_cmp_func" [Call "ossl_check_OSSL_CRMF_MSG_sk_type" [Par "sk"];
    Call "ossl_check_OSSL_CRMF_MSG_compfunc_type" [Par "cmp"]]))].

Definition stack_OSSL_CRMF_CERTID : stack := Stack "OSSL_CRMF_CERTID" (TypeName "OSSL_CRMF_CERTID") (TypeName "OSSL_CRMF_CERTID") [
  Macro "sk_OSSL_CRMF_CERTID_num" ["sk"]
    (Call "OPENSSL_sk_num" [Call "ossl_check_const_OSSL_CRMF_CERTID_sk_type" [Par "sk"]]);
  Macro "sk_OSSL_CRMF_CERTID_value" ["sk"; "idx"] (Cast (Ptr (TypeName "OSSL_CRMF_CERTID"))
    (Call "OPENSSL_sk_value" [Call "ossl_check_const_OSSL_CRMF_CERTID_sk_type" [Par "sk"]; Par "idx"]));
  Macro "sk_OSSL_CRMF_CERTID_new" ["cmp"] (Cast (Ptr (STACK_OF "OSSL_CRMF_CERTID"))
    (Call "OPENSSL_sk_new" [Call "ossl_check_OSSL_CRMF_CERTID_compfunc_type" [Par "cmp"]]));
  Macro "sk_OSSL_CRMF_CERTID_new_null" [] (Cast (Ptr (STACK_OF "OSSL_CRMF_CERTID")) (Call "OPENSSL_sk_new_null" []));
  Macro "sk_OSSL_CRMF_CERTID_new_reserve" ["cmp"; "n"] (Cast (Ptr (STACK_OF "OSSL_CRMF_CERTID"))
    (Call "OPENSSL_sk_new_reserve" [Call "ossl_check_OSSL_CRMF_CERTID_compfunc_type" [Par "cmp"]; Par "n"]));
  Macro "sk_OSSL_CRMF_CERTID_reserve" ["sk"; "n"]
    (Call "OPENSSL_sk_reserve" [Call "ossl_check_OSSL_CRMF_CERTID_sk_type" [Par "sk"]; Par "n"]);
  Macro "sk_OSSL_CRMF_CERTID_free" ["sk"]
    (Call "OPENSSL_sk_free" [Call "ossl_check_OSSL_CRMF_CERTID_sk_type" [Par "sk"]]);
  Macro "sk_OSSL_CRMF_CERTID_zero" ["sk"]
    (Call "OPENSSL_sk_zero" [Call "ossl_check_OSSL_CRMF_CERTID_sk_type" [Par "sk"]]);
  Macro "sk_OSSL_CRMF_CERTID_delete" ["sk"; "i"] (Cast (Ptr (TypeName "OSSL_CRMF_CERTID"))
    (Call "OPENSSL_sk_delete" [Call "ossl_check_OSSL_CRMF_CERTID_sk_type" [Par "sk"]; Par "i"]));
  Macro "sk_OSSL_CRMF_CERTID_delete_ptr" ["sk"; "ptr"] (Cast (Ptr (TypeName "OSSL_CRMF_CERTID"))
    (Call "OPENSSL_sk_delete_ptr" [Call "ossl_check_OSSL_CRMF_CERTID_sk_type" [Par "sk"];
    Call "ossl_check_OSSL_CRMF_CERTID_type" [Par "ptr"]]));
  Macro "sk_OSSL_CRMF_CERTID_push" ["sk"; "ptr"]
    (Call "OPENSSL_sk_push" [Call "ossl_check_OSSL_CRMF_CERTID_sk_type" [Par "sk"];
    Call "ossl_check_OSSL_CRMF_CERTID_type" [Par "ptr"]]);
  Macro "sk_OSSL_CRMF_CERTID_unshift" ["sk"; "ptr"]
    (Call "OPENSSL_sk_unshift" [Call "ossl_check_OSSL_CRMF_CERTID_sk_type" [Par "sk"];
    Call "ossl_check_OSSL_CRMF_CERTID_type" [Par "ptr"]]);
  Macro "sk_OSSL_CRMF_CERTID_pop" ["sk"] (Cast (Ptr (TypeName "OSSL_CRMF_CERTID"))
    (Call "OPENSSL_sk_pop" [Call "ossl_check_OSSL_CRMF_CERTID_sk_type" [Par "sk"]]));
  Macro "sk_OSSL_CRMF_CERTID_shift" ["sk"] (Cast (Ptr (TypeName "OSSL_CRMF_CERTID"))
    (Call "OPENSSL_sk_shift" [Call "ossl_check_OSSL_CRMF_CERTID_sk_type" [Par "sk"]]));
  Macro "sk_OSSL_CRMF_CERTID_pop_free" ["sk"; "freefunc"]
    (Call "OPENSSL_sk_pop_free" [Call "ossl_check_OSSL_CRMF_CERTID_sk_type" [Par "sk"];
    Call "ossl_check_OSSL_CRMF_CERTID_freefunc_type" [Par "freefunc"]]);
  Macro "sk_OSSL_CRMF_CERTID_insert" ["sk"; "ptr"; "idx"]
    (Call "OPENSSL_sk_insert" [Call "ossl_check_OSSL_CRMF_CERTID_sk_type" [Par "sk"];
    Call "ossl_check_OSSL_CRMF_CERTID_type" [Par "ptr"]; Par "idx"]);
  Macro "sk_OSSL_CRMF_CERTID_set" ["sk"; "idx"; "ptr"] (Cast (Ptr (TypeName "OSSL_CRMF_CERTID"))
    (Call "OPENSSL_sk_set" [Call "ossl_check_OSSL_CRMF_CERTID_sk_type" [Par "sk"]; Par "idx";
    Call "ossl_check_OSSL_CRMF_CERTID_type" [Par "ptr"]]));
  Macro "sk_OSSL_CRMF_CERTID_find" ["sk"; "ptr"]
    (Call "OPENSSL_sk_find" [Call "ossl_check_OSSL_CRMF_CERTID_sk_type" [Par "sk"];
    Call "ossl_check_OSSL_CRMF_CERTID_type" [Par "ptr"]]);
  Macro "sk_OSSL_CRMF_CERTID_find_ex" ["sk"; "ptr"]
    (Call "OPENSSL_sk_find_ex" [Call "ossl_check_OSSL_CRMF_CERTID_sk_type" [Par "sk"];
    Call "ossl_check_OSSL_CRMF_CERTID_type" [Par "ptr"]]);
  Macro "sk_OSSL_CRMF_CERTID_find_all" ["sk"; "ptr"; "pnum"]
    (Call "OPENSSL_sk_find_all" [Call "ossl_check_OSSL_CRMF_CERTID_sk_type" [Par "sk"];
    Call "ossl_check_OSSL_CRMF_CERTID_type" [Par "ptr"]; Par "pnum"]);
  Macro "sk_OSSL_CRMF_CERTID_sort" ["sk"]
    (Call "OPENSSL_sk_sort" [Call "ossl_check_OSSL_CRMF_CERTID_sk_type" [Par "sk"]]);
  Macro "sk_OSSL_CRMF_CERTID_is_sorted" ["sk"]
    (Call "OPENSSL_sk_is_sorted" [Call "ossl_check_const_OSSL_CRMF_CERTID_sk_type" [Par "sk"]]);
  Macro "sk_OSSL_CRMF_CERTID_dup" ["sk"] (Cast (Ptr (STACK_OF "OSSL_CRMF_CERTID"))
    (Call "OPENSSL_sk_dup" [Call "ossl_check_const_OSSL_CRMF_CERTID_sk_type" [Par "sk"]]));
  Macro "sk_OSSL_CRMF_CERTID_deep_copy" ["sk"; "copyfunc"; "freefunc"] (Cast (Ptr (STACK_OF "OSSL_CRMF_CERTID"))
    (Call "OPENSSL_sk_deep_copy" [Call "ossl_check_const_OSSL_CRMF_CERTID_sk_type" [Par "sk"];
    Call "ossl_check_OSSL_CRMF_CERTID_copyfunc_type" [Par "copyfunc"];
    Call "ossl_check_OSSL_CRMF_CERTID_freefunc_type" [Par "freefunc"]]));
  Macro "sk_OSSL_CRMF_CERTID_set_cmp_func" ["sk"; "cmp"] (Cast (sk_compfunc (TypeName "OSSL_CRMF_CERTID"))
    (Call "OPENSSL_sk_set_cmp_func" [Call "ossl_check_OSSL_CRMF_CERTID_sk_type" [Par "sk"];
    Call "ossl_check_OSSL_CRMF_CERTID_compfunc_type" [Par "cmp"]]))].

Definition stack_void : stack := Stack "void" Void Void [
  Macro "sk_void_num" ["sk"] (Call "OPENSSL_sk_num" [Call "ossl_check_const_void_sk_type" [Par "sk"]]);
  Macro "sk_void_value" ["sk"; "idx"] (Cast (Ptr Void)
    (Call "OPENSSL_sk_value" [Call "ossl_check_const_void_sk_type" [Par "sk"]; Par "idx"]));
  Macro "sk_void_new" ["cmp"] (Cast (Ptr (STACK_OF "void"))
    (Call "OPENSSL_sk_new" [Call "ossl_check_void_compfunc_type" [Par "cmp"]]));
  Macro "sk_void_new_null" [] (Cast (Ptr (STACK_OF "void")) (Call "OPENSSL_sk_new_null" []));
  Macro "sk_void_new_reserve" ["cmp"; "n"] (Cast (Ptr (STACK_OF "void"))
    (Call "OPENSSL_sk_new_reserve" [Call "ossl_check_void_compfunc_type" [Par "cmp"]; Par "n"]));
  Macro "sk_void_reserve" ["sk"; "n"] (Call "OPENSSL_sk_reserve" [Call "ossl_check_void_sk_type" [Par "sk"]; Par "n"]);
  Macro "sk_void_free" ["sk"] (Call "OPENSSL_sk_free" [Call "ossl_check_void_sk_type" [Par "sk"]]);
  Macro "sk_void_zero" ["sk"] (Call "OPENSSL_sk_zero" [Call "ossl_check_void_sk_type" [Par "sk"]]);
  Macro "sk_void_delete" ["sk"; "i"] (Cast (Ptr Void)
    (Call "OPENSSL_sk_delete" [Call "ossl_check_void_sk_type" [Par "sk"]; Par "i"]));
  Macro "sk_void_delete_ptr" ["sk"; "ptr"] (Cast (Ptr Void)
    (Call "OPENSSL_sk_delete_ptr" [Call "ossl_check_void_sk_type" [Par "sk"];
    Call "ossl_check_void_type" [Par "ptr"]]));
  Macro "sk_void_push" ["sk"; "ptr"] (Call "OPENSSL_sk_push" [Call "ossl_check_void_sk_type" [Par "sk"];
    Call "ossl_check_void_type" [Par "ptr"]]);
  Macro "sk_void_unshift" ["sk"; "ptr"] (Call "OPENSSL_sk_unshift" [Call "ossl_check_void_sk_type" [Par "sk"];
    Call "ossl_check_void_type" [Par "ptr"]]);
  Macro "sk_void_pop" ["sk"] (Cast (Ptr Void) (Call "OPENSSL_sk_pop" [Call "ossl_check_void_sk_type" [Par "sk"]]));
  Macro "sk_void_shift" ["sk"] (Cast (Ptr Void) (Call "OPENSSL_sk_shift" [Call "ossl_check_void_sk_type" [Par "sk"]]));
  Macro "sk_void_pop_free" ["sk"; "freefunc"] (Call "OPENSSL_sk_pop_free" [Call "ossl_check_void_sk_type" [Par "sk"];
    Call "ossl_check_void_freefunc_type" [Par "freefunc"]]);
  Macro "sk_void_insert" ["sk"; "ptr"; "idx"] (Call "OPENSSL_sk_insert" [Call "ossl_check_void_sk_type" [Par "sk"];
    Call "ossl_check_void_type" [Par "ptr"]; Par "idx"]);
  Macro "sk_void_set" ["sk"; "idx"; "ptr"] (Cast (Ptr Void)
    (Call "OPENSSL_sk_set" [Call "ossl_check_void_sk_type" [Par "sk"]; Par "idx";
    Call "ossl_check_void_type" [Par "ptr"]]));
  Macro "sk_void_find" ["sk"; "ptr"] (Call "OPENSSL_sk_find" [Call "ossl_check_void_sk_type" [Par "sk"];
    Call "ossl_check_void_type" [Par "ptr"]]);
  Macro "sk_void_find_ex" ["sk"; "ptr"] (Call "OPENSSL_sk_find_ex" [Call "ossl_check_void_sk_type" [Par "sk"];
    Call "ossl_check_void_type" [Par "ptr"]]);
  Macro "sk_void_find_all" ["sk"; "ptr"; "pnum"] (Call "OPENSSL_sk_find_all" [Call "ossl_check_void_sk_type" [Par "sk"];
    Call "ossl_check_void_type" [Par "ptr"]; Par "pnum"]);
  Macro "sk_void_sort" ["sk"] (Call "OPENSSL_sk_sort" [Call "ossl_check_void_sk_type" [Par "sk"]]);
  Macro "sk_void_is_sorted" ["sk"] (Call "OPENSSL_sk_is_sorted" [Call "ossl_check_const_void_sk_type" [Par "sk"]]);
  Macro "sk_void_dup" ["sk"] (Cast (Ptr (STACK_OF "void"))
    (Call "OPENSSL_sk_dup" [Call "ossl_check_const_void_sk_type" [Par "sk"]]));
  Macro "sk_void_deep_copy" ["sk"; "copyfunc"; "freefunc"] (Cast (Ptr (STACK_OF "void"))
    (Call "OPENSSL_sk_deep_copy" [Call "ossl_check_const_void_sk_type" [Par "sk"];
    Call "ossl_check_void_copyfunc_type" [Par "copyfunc"]; Call "ossl_check_void_freefunc_type" [Par "freefunc"]]));
  Macro "sk_void_set_cmp_func" ["sk"; "cmp"] (Cast (sk_compfunc Void)
    (Call "OPENSSL_sk_set_cmp_func" [Call "ossl_check_void_sk_type" [Par "sk"];
    Call "ossl_check_void_compfunc_type" [Par "cmp"]]))].

Definition stack_SCT : stack := Stack "SCT" (TypeName "SCT") (TypeName "SCT") [
  Macro "sk_SCT_num" ["sk"] (Call "OPENSSL_sk_num" [Call "ossl_check_const_SCT_sk_type" [Par "sk"]]);
  Macro "sk_SCT_value" ["sk"; "idx"] (Cast (Ptr (TypeName "SCT"))
    (Call "OPENSSL_sk_value" [Call "ossl_check_const_SCT_sk_type" [Par "sk"]; Par "idx"]));
  Macro "sk_SCT_new" ["cmp"] (Cast (Ptr (STACK_OF "SCT"))
    (Call "OPENSSL_sk_new" [Call "ossl_check_SCT_compfunc_type" [Par "cmp"]]));
  Macro "sk_SCT_new_null" [] (Cast (Ptr (STACK_OF "SCT")) (Call "OPENSSL_sk_new_null" []));
  Macro "sk_SCT_new_reserve" ["cmp"; "n"] (Cast (Ptr (STACK_OF "SCT"))
    (Call "OPENSSL_sk_new_reserve" [Call "ossl_check_SCT_compfunc_type" [Par "cmp"]; Par "n"]));
  Macro "sk_SCT_reserve" ["sk"; "n"] (Call "OPENSSL_sk_reserve" [Call "ossl_check_SCT_sk_type" [Par "sk"]; Par "n"]);
  Macro "sk_SCT_free" ["sk"] (Call "OPENSSL_sk_free" [Call "ossl_check_SCT_sk_type" [Par "sk"]]);
  Macro "sk_SCT_zero" ["sk"] (Call "OPENSSL_sk_zero" [Call "ossl_check_SCT_sk_type" [Par "sk"]]);
  Macro "sk_SCT_delete" ["sk"; "i"] (Cast (Ptr (TypeName "SCT"))
    (Call "OPENSSL_sk_delete" [Call "ossl_check_SCT_sk_type" [Par "sk"]; Par "i"]));
  Macro "sk_SCT_delete_ptr" ["sk"; "ptr"] (Cast (Ptr (TypeName "SCT"))
    (Call "OPENSSL_sk_delete_ptr" [Call "ossl_check_SCT_sk_type" [Par "sk"]; Call "ossl_check_SCT_type" [Par "ptr"]]));
  Macro "sk_SCT_push" ["sk"; "ptr"] (Call "OPENSSL_sk_push" [Call "ossl_check_SCT_sk_type" [Par "sk"];
    Call "ossl_check_SCT_type" [Par "ptr"]]);
  Macro "sk_SCT_unshift" ["sk"; "ptr"] (Call "OPENSSL_sk_unshift" [Call "ossl_check_SCT_sk_type" [Par "sk"];
    Call "ossl_check_SCT_type" [Par "ptr"]]);
  Macro "sk_SCT_pop" ["sk"] (Cast (Ptr (TypeName "SCT"))
    (Call "OPENSSL_sk_pop" [Call "ossl_check_SCT_sk_type" [Par "sk"]]));
  Macro "sk_SCT_shift" ["sk"] (Cast (Ptr (TypeName "SCT"))
    (Call "OPENSSL_sk_shift" [Call "ossl_check_SCT_sk_type" [Par "sk"]]));
  Macro "sk_SCT_pop_free" ["sk"; "freefunc"] (Call "OPENSSL_sk_pop_free" [Call "ossl_check_SCT_sk_type" [Par "sk"];
    Call "ossl_check_SCT_freefunc_type" [Par "freefunc"]]);
  Macro "sk_SCT_insert" ["sk"; "ptr"; "idx"] (Call "OPENSSL_sk_insert" [Call "ossl_check_SCT_sk_type" [Par "sk"];
    Call "ossl_check_SCT_type" [Par "ptr"]; Par "idx"]);
  Macro "sk_SCT_set" ["sk"; "idx"; "ptr"] (Cast (Ptr (TypeName "SCT"))
    (Call "OPENSSL_sk_set" [Call "ossl_check_SCT_sk_type" [Par "sk"]; Par "idx";
    Call "ossl_check_SCT_type" [Par "ptr"]]));
  Macro "sk_SCT_find" ["sk"; "ptr"] (Call "OPENSSL_sk_find" [Call "ossl_check_SCT_sk_type" [Par "sk"];
    Call "ossl_check_SCT_type" [Par "ptr"]]);
  Macro "sk_SCT_find_ex" ["sk"; "ptr"] (Call "OPENSSL_sk_find_ex" [Call "ossl_check_SCT_sk_type" [Par "sk"];
    Call "ossl_check_SCT_type" [Par "ptr"]]);
  Macro "sk_SCT_find_all" ["sk"; "ptr"; "pnum"] (Call "OPENSSL_sk_find_all" [Call "ossl_check_SCT_sk_type" [Par "sk"];
    Call "ossl_check_SCT_type" [Par "ptr"]; Par "pnum"]);
  Macro "sk_SCT_sort" ["sk"] (Call "OPENSSL_sk_sort" [Call "ossl_check_SCT_sk_type" [Par "sk"]]);
  Macro "sk_SCT_is_sorted" ["sk"] (Call "OPENSSL_sk_is_sorted" [Call "ossl_check_const_SCT_sk_type" [Par "sk"]]);
  Macro "sk_SCT_dup" ["sk"] (Cast (Ptr (STACK_OF "SCT"))
    (Call "OPENSSL_sk_dup" [Call "ossl_check_const_SCT_sk_type" [Par "sk"]]));
  Macro "sk_SCT_deep_copy" ["sk"; "copyfunc"; "freefunc"] (Cast (Ptr (STACK_OF "SCT"))
    (Call "OPENSSL_sk_deep_copy" [Call "ossl_check_const_SCT_sk_type" [Par "sk"];
    Call "ossl_check_SCT_copyfunc_type" [Par "copyfunc"]; Call "ossl_check_SCT_freefunc_type" [Par "freefunc"]]));
  Macro "sk_SCT_set_cmp_func" ["sk"; "cmp"] (Cast (sk_compfunc (TypeName "SCT"))
    (Call "OPENSSL_sk_set_cmp_func" [Call "ossl_check_SCT_sk_type" [Par "sk"];
    Call "ossl_check_SCT_compfunc_type" [Par "cmp"]]))].

Definition stack_CTLOG : stack := Stack "CTLOG" (TypeName "CTLOG") (TypeName "CTLOG") [
  Macro "sk_CTLOG_num" ["sk"] (Call "OPENSSL_sk_num" [Call "ossl_check_const_CTLOG_sk_type" [Par "sk"]]);
  Macro "sk_CTLOG_value" ["sk"; "idx"] (Cast (Ptr (TypeName "CTLOG"))
    (Call "OPENSSL_sk_value" [Call "ossl_check_const_CTLOG_sk_type" [Par "sk"]; Par "idx"]));
  Macro "sk_CTLOG_new" ["cmp"] (Cast (Ptr (STACK_OF "CTLOG"))
    (Call "OPENSSL_sk_new" [Call "ossl_check_CTLOG_compfunc_type" [Par "cmp"]]));
  Macro "sk_CTLOG_new_null" [] (Cast (Ptr (STACK_OF "CTLOG")) (Call "OPENSSL_sk_new_null" []));
  Macro "sk_CTLOG_new_reserve" ["cmp"; "n"] (Cast (Ptr (STACK_OF "CTLOG"))
    (Call "OPENSSL_sk_new_reserve" [Call "ossl_check_CTLOG_compfunc_type" [Par "cmp"]; Par "n"]));
  Macro "sk_CTLOG_reserve" ["sk"; "n"] (Call "OPENSSL_sk_reserve" [Call "ossl_check_CTLOG_sk_type" [Par "sk"]; Par "n"]);
  Macro "sk_CTLOG_free" ["sk"] (Call "OPENSSL_sk_free" [Call "ossl_check_CTLOG_sk_type" [Par "sk"]]);
  Macro "sk_CTLOG_zero" ["sk"] (Call "OPENSSL_sk_zero" [Call "ossl_check_CTLOG_sk_type" [Par "sk"]]);
  Macro "sk_CTLOG_delete" ["sk"; "i"] (Cast (Ptr (TypeName "CTLOG"))
    (Call "OPENSSL_sk_delete" [Call "ossl_check_CTLOG_sk_type" [Par "sk"]; Par "i"]));
  Macro "sk_CTLOG_delete_ptr" ["sk"; "ptr"] (Cast (Ptr (TypeName "CTLOG"))
    (Call "OPENSSL_sk_delete_ptr" [Call "ossl_check_CTLOG_sk_type" [Par "sk"];
    Call "ossl_check_CTLOG_type" [Par "ptr"]]));
  Macro "sk_CTLOG_push" ["sk"; "ptr"] (Call "OPENSSL_sk_push" [Call "ossl_check_CTLOG_sk_type" [Par "sk"];
    Call "ossl_check_CTLOG_type" [Par "ptr"]]);
  Macro "sk_CTLOG_unshift" ["sk"; "ptr"] (Call "OPENSSL_sk_unshift" [Call "ossl_check_CTLOG_sk_type" [Par "sk"];
    Call "ossl_check_CTLOG_type" [Par "ptr"]]);
  Macro "sk_CTLOG_pop" ["sk"] (Cast (Ptr (TypeName "CTLOG"))
    (Call "OPENSSL_sk_pop" [Call "ossl_check_CTLOG_sk_type" [Par "sk"]]));
  Macro "sk_CTLOG_shift" ["sk"] (Cast (Ptr (TypeName "CTLOG"))
    (Call "OPENSSL_sk_shift" [Call "ossl_check_CTLOG_sk_type" [Par "sk"]]));
  Macro "sk_CTLOG_pop_free" ["sk"; "freefunc"] (Call "OPENSSL_sk_pop_free" [Call "ossl_check_CTLOG_sk_type" [Par "sk"];
    Call "ossl_check_CTLOG_freefunc_type" [Par "freefunc"]]);
  Macro "sk_CTLOG_insert" ["sk"; "ptr"; "idx"] (Call "OPENSSL_sk_insert" [Call "ossl_check_CTLOG_sk_type" [Par "sk"];
    Call "ossl_check_CTLOG_type" [Par "ptr"]; Par "idx"]);
  Macro "sk_CTLOG_set" ["sk"; "idx"; "ptr"] (Cast (Ptr (TypeName "CTLOG"))
    (Call "OPENSSL_sk_set" [Call "ossl_check_CTLOG_sk_type" [Par "sk"]; Par "idx";
    Call "ossl_check_CTLOG_type" [Par "ptr"]]));
  Macro "sk_CTLOG_find" ["sk"; "ptr"] (Call "OPENSSL_sk_find" [Call "ossl_check_CTLOG_sk_type" [Par "sk"];
    Call "ossl_check_CTLOG_type" [Par "ptr"]]);
  Macro "sk_CTLOG_find_ex" ["sk"; "ptr"] (Call "OPENSSL_sk_find_ex" [Call "ossl_check_CTLOG_sk_type" [Par "sk"];
    Call "ossl_check_CTLOG_type" [Par "ptr"]]);
  Macro "sk_CTLOG_find_all" ["sk"; "ptr"; "pnum"]
    (Call "OPENSSL_sk_find_all" [Call "ossl_check_CTLOG_sk_type" [Par "sk"]; Call "ossl_check_CTLOG_type" [Par "ptr"];
    Par "pnum"]);
  Macro "sk_CTLOG_sort" ["sk"] (Call "OPENSSL_sk_sort" [Call "ossl_check_CTLOG_sk_type" [Par "sk"]]);
  Macro "sk_CTLOG_is_sorted" ["sk"] (Call "OPENSSL_sk_is_sorted" [Call "ossl_check_const_CTLOG_sk_type" [Par "sk"]]);
  Macro "sk_CTLOG_dup" ["sk"] (Cast (Ptr (STACK_OF "CTLOG"))
    (Call "OPENSSL_sk_dup" [Call "ossl_check_const_CTLOG_sk_type" [Par "sk"]]));
  Macro "sk_CTLOG_deep_copy" ["sk"; "copyfunc"; "freefunc"] (Cast (Ptr (STACK_OF "CTLOG"))
    (Call "OPENSSL_sk_deep_copy" [Call "ossl_check_const_CTLOG_sk_type" [Par "sk"];
    Call "ossl_check_CTLOG_copyfunc_type" [Par "copyfunc"]; Call "ossl_check_CTLOG_freefunc_type" [Par "freefunc"]]));
  Macro "sk_CTLOG_set_cmp_func" ["sk"; "cmp"] (Cast (sk_compfunc (TypeName "CTLOG"))
    (Call "OPENSSL_sk_set_cmp_func" [Call "ossl_check_CTLOG_sk_type" [Par "sk"];
    Call "ossl_check_CTLOG_compfunc_type" [Par "cmp"]]))].

Definition stack_ESS_CERT_ID : stack := Stack "ESS_CERT_ID" (TypeName "ESS_CERT_ID") (TypeName "ESS_CERT_ID") [
  Macro "sk_ESS_CERT_ID_num" ["sk"] (Call "OPENSSL_sk_num" [Call "ossl_check_const_ESS_CERT_ID_sk_type" [Par "sk"]]);
  Macro "sk_ESS_CERT_ID_value" ["sk"; "idx"] (Cast (Ptr (TypeName "ESS_CERT_ID"))
    (Call "OPENSSL_sk_value" [Call "ossl_check_const_ESS_CERT_ID_sk_type" [Par "sk"]; Par "idx"]));
  Macro "sk_ESS_CERT_ID_new" ["cmp"] (Cast (Ptr (STACK_OF "ESS_CERT_ID"))
    (Call "OPENSSL_sk_new" [Call "ossl_check_ESS_CERT_ID_compfunc_type" [Par "cmp"]]));
  Macro "sk_ESS_CERT_ID_new_null" [] (Cast (Ptr (STACK_OF "ESS_CERT_ID")) (Call "OPENSSL_sk_new_null" []));
  Macro "sk_ESS_CERT_ID_new_reserve" ["cmp"; "n"] (Cast (Ptr (STACK_OF "ESS_CERT_ID"))
    (Call "OPENSSL_sk_new_reserve" [Call "ossl_check_ESS_CERT_ID_compfunc_type" [Par "cmp"]; Par "n"]));
  Macro "sk_ESS_CERT_ID_reserve" ["sk"; "n"]
    (Call "OPENSSL_sk_reserve" [Call "ossl_check_ESS_CERT_ID_sk_type" [Par "sk"]; Par "n"]);
  Macro "sk_ESS_CERT_ID_free" ["sk"] (Call "OPENSSL_sk_free" [Call "ossl_check_ESS_CERT_ID_sk_type" [Par "sk"]]);
  Macro "sk_ESS_CERT_ID_zero" ["sk"] (Call "OPENSSL_sk_zero" [Call "ossl_check_ESS_CERT_ID_sk_type" [Par "sk"]]);
  Macro "sk_ESS_CERT_ID_delete" ["sk"; "i"] (Cast (Ptr (TypeName "ESS_CERT_ID"))
    (Call "OPENSSL_sk_delete" [Call "ossl_check_ESS_CERT_ID_sk_type" [Par "sk"]; Par "i"]));
  Macro "sk_ESS_CERT_ID_delete_ptr" ["sk"; "ptr"] (Cast (Ptr (TypeName "ESS_CERT_ID"))
    (Call "OPENSSL_sk_delete_ptr" [Call "ossl_check_ESS_CERT_ID_sk_type" [Par "sk"];
    Call "ossl_check_ESS_CERT_ID_type" [Par "ptr"]]));
  Macro "sk_ESS_CERT_ID_push" ["sk"; "ptr"] (Call "OPENSSL_sk_push" [Call "ossl_check_ESS_CERT_ID_sk_type" [Par "sk"];
    Call "ossl_check_ESS_CERT_ID_type" [Par "ptr"]]);
  Macro "sk_ESS_CERT_ID_unshift" ["sk"; "ptr"]
    (Call "OPENSSL_sk_unshift" [Call "ossl_check_ESS_CERT_ID_sk_type" [Par "sk"];
    Call "ossl_check_ESS_CERT_ID_type" [Par "ptr"]]);
  Macro "sk_ESS_CERT_ID_pop" ["sk"] (Cast (Ptr (TypeName "ESS_CERT_ID"))
    (Call "OPENSSL_sk_pop" [Call "ossl_check_ESS_CERT_ID_sk_type" [Par "sk"]]));
  Macro "sk_ESS_CERT_ID_shift" ["sk"] (Cast (Ptr (TypeName "ESS_CERT_ID"))
    (Call "OPENSSL_sk_shift" [Call "ossl_check_ESS_CERT_ID_sk_type" [Par "sk"]]));
  Macro "sk_ESS_CERT_ID_pop_free" ["sk"; "freefunc"]
    (Call "OPENSSL_sk_pop_free" [Call "ossl_check_ESS_CERT_ID_sk_type" [Par "sk"];
    Call "ossl_check_ESS_CERT_ID_freefunc_type" [Par "freefunc"]]);
  Macro "sk_ESS_CERT_ID_insert" ["sk"; "ptr"; "idx"]
    (Call "OPENSSL_sk_insert" [Call "ossl_check_ESS_CERT_ID_sk_type" [Par "sk"];
    Call "ossl_check_ESS_CERT_ID_type" [Par "ptr"]; Par "idx"]);
  Macro "sk_ESS_CERT_ID_set" ["sk"; "idx"; "ptr"] (Cast (Ptr (TypeName "ESS_CERT_ID"))
    (Call "OPENSSL_sk_set" [Call "ossl_check_ESS_CERT_ID_sk_type" [Par "sk"]; Par "idx";
    Call "ossl_check_ESS_CERT_ID_type" [Par "ptr"]]));
  Macro "sk_ESS_CERT_ID_find" ["sk"; "ptr"] (Call "OPENSSL_sk_find" [Call "ossl_check_ESS_CERT_ID_sk_type" [Par "sk"];
    Call "ossl_check_ESS_CERT_ID_type" [Par "ptr"]]);
  Macro "sk_ESS_CERT_ID_find_ex" ["sk"; "ptr"]
    (Call "OPENSSL_sk_find_ex" [Call "ossl_check_ESS_CERT_ID_sk_type" [Par "sk"];
    Call "ossl_check_ESS_CERT_ID_type" [Par "ptr"]]);
  Macro "sk_ESS_CERT_ID_find_all" ["sk"; "ptr"; "pnum"]
    (Call "OPENSSL_sk_find_all" [Call "ossl_check_ESS_CERT_ID_sk_type" [Par "sk"];
    Call "ossl_check_ESS_CERT_ID_type" [Par "ptr"]; Par "pnum"]);
  Macro "sk_ESS_CERT_ID_sort" ["sk"] (Call "OPENSSL_sk_sort" [Call "ossl_check_ESS_CERT_ID_sk_type" [Par "sk"]]);
  Macro "sk_ESS_CERT_ID_is_sorted" ["sk"]
    (Call "OPENSSL_sk_is_sorted" [Call "ossl_check_const_ESS_CERT_ID_sk_type" [Par "sk"]]);
  Macro "sk_ESS_CERT_ID_dup" ["sk"] (Cast (Ptr (STACK_OF "ESS_CERT_ID"))
    (Call "OPENSSL_sk_dup" [Call "ossl_check_const_ESS_CERT_ID_sk_type" [Par "sk"]]));
  Macro "sk_ESS_CERT_ID_deep_copy" ["sk"; "copyfunc"; "freefunc"] (Cast (Ptr (STACK_OF "ESS_CERT_ID"))
    (Call "OPENSSL_sk_deep_copy" [Call "ossl_check_const_ESS_CERT_ID_sk_type" [Par "sk"];
    Call "ossl_check_ESS_CERT_ID_copyfunc_type" [Par "copyfunc"];
    Call "ossl_check_ESS_CERT_ID_freefunc_type" [Par "freefunc"]]));
  Macro "sk_ESS_CERT_ID_set_cmp_func" ["sk"; "cmp"] (Cast (sk_compfunc (TypeName "ESS_CERT_ID"))
    (Call "OPENSSL_sk_set_cmp_func" [Call "ossl_check_ESS_CERT_ID_sk_type" [Par "sk"];
    Call "ossl_check_ESS_CERT_ID_compfunc_type" [Par "cmp"]]))].

Definition stack_ESS_CERT_ID_V2 : stack := Stack "ESS_CERT_ID_V2" (TypeName "ESS_CERT_ID_V2") (TypeName "ESS_CERT_ID_V2") [
  Macro "sk_ESS_CERT_ID_V2_num" ["sk"]
    (Call "OPENSSL_sk_num" [Call "ossl_check_const_ESS_CERT_ID_V2_sk_type" [Par "sk"]]);
  Macro "sk_ESS_CERT_ID_V2_value" ["sk"; "idx"] (Cast (Ptr (TypeName "ESS_CERT_ID_V2"))
    (Call "OPENSSL_sk_value" [Call "ossl_check_const_ESS_CERT_ID_V2_sk_type" [Par "sk"]; Par "idx"]));
  Macro "sk_ESS_CERT_ID_V2_new" ["cmp"] (Cast (Ptr (STACK_OF "ESS_CERT_ID_V2"))
    (Call "OPENSSL_sk_new" [Call "ossl_check_ESS_CERT_ID_V2_compfunc_type" [Par "cmp"]]));
  Macro "sk_ESS_CERT_ID_V2_new_null" [] (Cast (Ptr (STACK_OF "ESS_CERT_ID_V2")) (Call "OPENSSL_sk_new_null" []));
  Macro "sk_ESS_CERT_ID_V2_new_reserve" ["cmp"; "n"] (Cast (Ptr (STACK_OF "ESS_CERT_ID_V2"))
    (Call "OPENSSL_sk_new_reserve" [Call "ossl_check_ESS_CERT_ID_V2_compfunc_type" [Par "cmp"]; Par "n"]));
  Macro "sk_ESS_CERT_ID_V2_reserve" ["sk"; "n"]
    (Call "OPENSSL_sk_reserve" [Call "ossl_check_ESS_CERT_ID_V2_sk_type" [Par "sk"]; Par "n"]);
  Macro "sk_ESS_CERT_ID_V2_free" ["sk"] (Call "OPENSSL_sk_free" [Call "ossl_check_ESS_CERT_ID_V2_sk_type" [Par "sk"]]);
  Macro "sk_ESS_CERT_ID_V2_zero" ["sk"] (Call "OPENSSL_sk_zero" [Call "ossl_check_ESS_CERT_ID_V2_sk_type" [Par "sk"]]);
  Macro "sk_ESS_CERT_ID_V2_delete" ["sk"; "i"] (Cast (Ptr (TypeName "ESS_CERT_ID_V2"))
    (Call "OPENSSL_sk_delete" [Call "ossl_check_ESS_CERT_ID_V2_sk_type" [Par "sk"]; Par "i"]));
  Macro "sk_ESS_CERT_ID_V2_delete_ptr" ["sk"; "ptr"] (Cast (Ptr (TypeName "ESS_CERT_ID_V2"))
    (Call "OPENSSL_sk_delete_ptr" [Call "ossl_check_ESS_CERT_ID_V2_sk_type" [Par "sk"];
    Call "ossl_check_ESS_CERT_ID_V2_type" [Par "ptr"]]));
  Macro "sk_ESS_CERT_ID_V2_push" ["sk"; "ptr"]
    (Call "OPENSSL_sk_push" [Call "ossl_check_ESS_CERT_ID_V2_sk_type" [Par "sk"];
    Call "ossl_check_ESS_CERT_ID_V2_type" [Par "ptr"]]);
  Macro "sk_ESS_CERT_ID_V2_unshift" ["sk"; "ptr"]
    (Call "OPENSSL_sk_unshift" [Call "ossl_check_ESS_CERT_ID_V2_sk_type" [Par "sk"];
    Call "ossl_check_ESS_CERT_ID_V2_type" [Par "ptr"]]);
  Macro "sk_ESS_CERT_ID_V2_pop" ["sk"] (Cast (Ptr (TypeName "ESS_CERT_ID_V2"))
    (Call "OPENSSL_sk_pop" [Call "ossl_check_ESS_CERT_ID_V2_sk_type" [Par "sk"]]));
  Macro "sk_ESS_CERT_ID_V2_shift" ["sk"] (Cast (Ptr (TypeName "ESS_CERT_ID_V2"))
    (Call "OPENSSL_sk_shift" [Call "ossl_check_ESS_CERT_ID_V2_sk_type" [Par "sk"]]));
  Macro "sk_ESS_CERT_ID_V2_pop_free" ["sk"; "freefunc"]
    (Call "OPENSSL_sk_pop_free" [Call "ossl_check_ESS_CERT_ID_V2_sk_type" [Par "sk"];
    Call "ossl_check_ESS_CERT_ID_V2_freefunc_type" [Par "freefunc"]]);
  Macro "sk_ESS_CERT_ID_V2_insert" ["sk"; "ptr"; "idx"]
    (Call "OPENSSL_sk_insert" [Call "ossl_check_ESS_CERT_ID_V2_sk_type" [Par "sk"];
    Call "ossl_check_ESS_CERT_ID_V2_type" [Par "ptr"]; Par "idx"]);
  Macro "sk_ESS_CERT_ID_V2_set" ["sk"; "idx"; "ptr"] (Cast (Ptr (TypeName "ESS_CERT_ID_V2"))
    (Call "OPENSSL_sk_set" [Call "ossl_check_ESS_CERT_ID_V2_sk_type" [Par "sk"]; Par "idx";
    Call "ossl_check_ESS_CERT_ID_V2_type" [Par "ptr"]]));
  Macro "sk_ESS_CERT_ID_V2_find" ["sk"; "ptr"]
    (Call "OPENSSL_sk_find" [Call "ossl_check_ESS_CERT_ID_V2_sk_type" [Par "sk"];
    Call "ossl_check_ESS_CERT_ID_V2_type" [Par "ptr"]]);
  Macro "sk_ESS_CERT_ID_V2_find_ex" ["sk"; "ptr"]
    (Call "OPENSSL_sk_find_ex" [Call "ossl_check_ESS_CERT_ID_V2_sk_type" [Par "sk"];
    Call "ossl_check_ESS_CERT_ID_V2_type" [Par "ptr"]]);
  Macro "sk_ESS_CERT_ID_V2_find_all" ["sk"; "ptr"; "pnum"]
    (Call "OPENSSL_sk_find_all" [Call "ossl_check_ESS_CERT_ID_V2_sk_type" [Par "sk"];
    Call "ossl_check_ESS_CERT_ID_V2_type" [Par "ptr"]; Par "pnum"]);
  Macro "sk_ESS_CERT_ID_V2_sort" ["sk"] (Call "OPENSSL_sk_sort" [Call "ossl_check_ESS_CERT_ID_V2_sk_type" [Par "sk"]]);
  Macro "sk_ESS_CERT_ID_V2_is_sorted" ["sk"]
    (Call "OPENSSL_sk_is_sorted" [Call "ossl_check_const_ESS_CERT_ID_V2_sk_type" [Par "sk"]]);
  Macro "sk_ESS_CERT_ID_V2_dup" ["sk"] (Cast (Ptr (STACK_OF "ESS_CERT_ID_V2"))
    (Call "OPENSSL_sk_dup" [Call "ossl_check_const_ESS_CERT_ID_V2_sk_type" [Par "sk"]]));
  Macro "sk_ESS_CERT_ID_V2_deep_copy" ["sk"; "copyfunc"; "freefunc"] (Cast (Ptr (STACK_OF "ESS_CERT_ID_V2"))
    (Call "OPENSSL_sk_deep_copy" [Call "ossl_check_const_ESS_CERT_ID_V2_sk_type" [Par "sk"];
    Call "ossl_check_ESS_CERT_ID_V2_copyfunc_type" [Par "copyfunc"];
    Call "ossl_check_ESS_CERT_ID_V2_freefunc_type" [Par "freefunc"]]));
  Macro "sk_ESS_CERT_ID_V2_set_cmp_func" ["sk"; "cmp"] (Cast (sk_compfunc (TypeName "ESS_CERT_ID_V2"))
    (Call "OPENSSL_sk_set_cmp_func" [Call "ossl_check_ESS_CERT_ID_V2_sk_type" [Par "sk"];
    Call "ossl_check_ESS_CERT_ID_V2_compfunc_type" [Par "cmp"]]))].

Definition stack_OCSP_CERTID : stack := Stack "OCSP_CERTID" (TypeName "OCSP_CERTID") (TypeName "OCSP_CERTID") [
  Macro "sk_OCSP_CERTID_num" ["sk"] (Call "OPENSSL_sk_num" [Call "ossl_check_const_OCSP_CERTID_sk_type" [Par "sk"]]);
  Macro "sk_OCSP_CERTID_value" ["sk"; "idx"] (Cast (Ptr (TypeName "OCSP_CERTID"))
    (Call "OPENSSL_sk_value" [Call "ossl_check_const_OCSP_CERTID_sk_type" [Par "sk"]; Par "idx"]));
  Macro "sk_OCSP_CERTID_new" ["cmp"] (Cast (Ptr (STACK_OF "OCSP_CERTID"))
    (Call "OPENSSL_sk_new" [Call "ossl_check_OCSP_CERTID_compfunc_type" [Par "cmp"]]));
  Macro "sk_OCSP_CERTID_new_null" [] (Cast (Ptr (STACK_OF "OCSP_CERTID")) (Call "OPENSSL_sk_new_null" []));
  Macro "sk_OCSP_CERTID_new_reserve" ["cmp"; "n"] (Cast (Ptr (STACK_OF "OCSP_CERTID"))
    (Call "OPENSSL_sk_new_reserve" [Call "ossl_check_OCSP_CERTID_compfunc_type" [Par "cmp"]; Par "n"]));
  Macro "sk_OCSP_CERTID_reserve" ["sk"; "n"]
    (Call "OPENSSL_sk_reserve" [Call "ossl_check_OCSP_CERTID_sk_type" [Par "sk"]; Par "n"]);
  Macro "sk_OCSP_CERTID_free" ["sk"] (Call "OPENSSL_sk_free" [Call "ossl_check_OCSP_CERTID_sk_type" [Par "sk"]]);
  Macro "sk_OCSP_CERTID_zero" ["sk"] (Call "OPENSSL_sk_zero" [Call "ossl_check_OCSP_CERTID_sk_type" [Par "sk"]]);
  Macro "sk_OCSP_CERTID_delete" ["sk"; "i"] (Cast (Ptr (TypeName "OCSP_CERTID"))
    (Call "OPENSSL_sk_delete" [Call "ossl_check_OCSP_CERTID_sk_type" [Par "sk"]; Par "i"]));
  Macro "sk_OCSP_CERTID_delete_ptr" ["sk"; "ptr"] (Cast (Ptr (TypeName "OCSP_CERTID"))
    (Call "OPENSSL_sk_delete_ptr" [Call "ossl_check_OCSP_CERTID_sk_type" [Par "sk"];
    Call "ossl_check_OCSP_CERTID_type" [Par "ptr"]]));
  Macro "sk_OCSP_CERTID_push" ["sk"; "ptr"] (Call "OPENSSL_sk_push" [Call "ossl_check_OCSP_CERTID_sk_type" [Par "sk"];
    Call "ossl_check_OCSP_CERTID_type" [Par "ptr"]]);
  Macro "sk_OCSP_CERTID_unshift" ["sk"; "ptr"]
    (Call "OPENSSL_sk_unshift" [Call "ossl_check_OCSP_CERTID_sk_type" [Par "sk"];
    Call "ossl_check_OCSP_CERTID_type" [Par "ptr"]]);
  Macro "sk_OCSP_CERTID_pop" ["sk"] (Cast (Ptr (TypeName "OCSP_CERTID"))
    (Call "OPENSSL_sk_pop" [Call "ossl_check_OCSP_CERTID_sk_type" [Par "sk"]]));
  Macro "sk_OCSP_CERTID_shift" ["sk"] (Cast (Ptr (TypeName "OCSP_CERTID"))
    (Call "OPENSSL_sk_shift" [Call "ossl_check_OCSP_CERTID_sk_type" [Par "sk"]]));
  Macro "sk_OCSP_CERTID_pop_free" ["sk"; "freefunc"]
    (Call "OPENSSL_sk_pop_free" [Call "ossl_check_OCSP_CERTID_sk_type" [Par "sk"];
    Call "ossl_check_OCSP_CERTID_freefunc_type" [Par "freefunc"]]);
  Macro "sk_OCSP_CERTID_insert" ["sk"; "ptr"; "idx"]
    (Call "OPENSSL_sk_insert" [Call "ossl_check_OCSP_CERTID_sk_type" [Par "sk"];
    Call "ossl_check_OCSP_CERTID_type" [Par "ptr"]; Par "idx"]);
  Macro "sk_OCSP_CERTID_set" ["sk"; "idx"; "ptr"] (Cast (Ptr (TypeName "OCSP_CERTID"))
    (Call "OPENSSL_sk_set" [Call "ossl_check_OCSP_CERTID_sk_type" [Par "sk"]; Par "idx";
    Call "ossl_check_OCSP_CERTID_type" [Par "ptr"]]));
  Macro "sk_OCSP_CERTID_find" ["sk"; "ptr"] (Call "OPENSSL_sk_find" [Call "ossl_check_OCSP_CERTID_sk_type" [Par "sk"];
    Call "ossl_check_OCSP_CERTID_type" [Par "ptr"]]);
  Macro "sk_OCSP_CERTID_find_ex" ["sk"; "ptr"]
    (Call "OPENSSL_sk_find_ex" [Call "ossl_check_OCSP_CERTID_sk_type" [Par "sk"];
    Call "ossl_check_OCSP_CERTID_type" [Par "ptr"]]);
  Macro "sk_OCSP_CERTID_find_all" ["sk"; "ptr"; "pnum"]
    (Call "OPENSSL_sk_find_all" [Call "ossl_check_OCSP_CERTID_sk_type" [Par "sk"];
    Call "ossl_check_OCSP_CERTID_type" [Par "ptr"]; Par "pnum"]);
  Macro "sk_OCSP_CERTID_sort" ["sk"] (Call "OPENSSL_sk_sort" [Call "ossl_check_OCSP_CERTID_sk_type" [Par "sk"]]);
  Macro "sk_OCSP_CERTID_is_sorted" ["sk"]
    (Call "OPENSSL_sk_is_sorted" [Call "ossl_check_const_OCSP_CERTID_sk_type" [Par "sk"]]);
  Macro "sk_OCSP_CERTID_dup" ["sk"] (Cast (Ptr (STACK_OF "OCSP_CERTID"))
    (Call "OPENSSL_sk_dup" [Call "ossl_check_const_OCSP_CERTID_sk_type" [Par "sk"]]));
  Macro "sk_OCSP_CERTID_deep_copy" ["sk"; "copyfunc"; "freefunc"] (Cast (Ptr (STACK_OF "OCSP_CERTID"))
    (Call "OPENSSL_sk_deep_copy" [Call "ossl_check_const_OCSP_CERTID_sk_type" [Par "sk"];
    Call "ossl_check_OCSP_CERTID_copyfunc_type" [Par "copyfunc"];
    Call "ossl_check_OCSP_CERTID_freefunc_type" [Par "freefunc"]]));
  Macro "sk_OCSP_CERTID_set_cmp_func" ["sk"; "cmp"] (Cast (sk_compfunc (TypeName "OCSP_CERTID"))
    (Call "OPENSSL_sk_set_cmp_func" [Call "ossl_check_OCSP_CERTID_sk_type" [Par "sk"];
    Call "ossl_check_OCSP_CERTID_compfunc_type" [Par "cmp"]]))].

Definition stack_OCSP_ONEREQ : stack := Stack "OCSP_ONEREQ" (TypeName "OCSP_ONEREQ") (TypeName "OCSP_ONEREQ") [
  Macro "sk_OCSP_ONEREQ_num" ["sk"] (Call "OPENSSL_sk_num" [Call "ossl_check_const_OCSP_ONEREQ_sk_type" [Par "sk"]]);
  Macro "sk_OCSP_ONEREQ_value" ["sk"; "idx"] (Cast (Ptr (TypeName "OCSP_ONEREQ"))
    (Call "OPENSSL_sk_value" [Call "ossl_check_const_OCSP_ONEREQ_sk_type" [Par "sk"]; Par "idx"]));
  Macro "sk_OCSP_ONEREQ_new" ["cmp"] (Cast (Ptr (STACK_OF "OCSP_ONEREQ"))
    (Call "OPENSSL_sk_new" [Call "ossl_check_OCSP_ONEREQ_compfunc_type" [Par "cmp"]]));
  Macro "sk_OCSP_ONEREQ_new_null" [] (Cast (Ptr (STACK_OF "OCSP_ONEREQ")) (Call "OPENSSL_sk_new_null" []));
  Macro "sk_OCSP_ONEREQ_new_reserve" ["cmp"; "n"] (Cast (Ptr (STACK_OF "OCSP_ONEREQ"))
    (Call "OPENSSL_sk_new_reserve" [Call "ossl_check_OCSP_ONEREQ_compfunc_type" [Par "cmp"]; Par "n"]));
  Macro "sk_OCSP_ONEREQ_reserve" ["sk"; "n"]
    (Call "OPENSSL_sk_reserve" [Call "ossl_check_OCSP_ONEREQ_sk_type" [Par "sk"]; Par "n"]);
  Macro "sk_OCSP_ONEREQ_free" ["sk"] (Call "OPENSSL_sk_free" [Call "ossl_check_OCSP_ONEREQ_sk_type" [Par "sk"]]);
  Macro "sk_OCSP_ONEREQ_zero" ["sk"] (Call "OPENSSL_sk_zero" [Call "ossl_check_OCSP_ONEREQ_sk_type" [Par "sk"]]);
  Macro "sk_OCSP_ONEREQ_delete" ["sk"; "i"] (Cast (Ptr (TypeName "OCSP_ONEREQ"))
    (Call "OPENSSL_sk_delete" [Call "ossl_check_OCSP_ONEREQ_sk_type" [Par "sk"]; Par "i"]));
  Macro "sk_OCSP_ONEREQ_delete_ptr" ["sk"; "ptr"] (Cast (Ptr (TypeName "OCSP_ONEREQ"))
    (Call "OPENSSL_sk_delete_ptr" [Call "ossl_check_OCSP_ONEREQ_sk_type" [Par "sk"];
    Call "ossl_check_OCSP_ONEREQ_type" [Par "ptr"]]));
  Macro "sk_OCSP_ONEREQ_push" ["sk"; "ptr"] (Call "OPENSSL_sk_push" [Call "ossl_check_OCSP_ONEREQ_sk_type" [Par "sk"];
    Call "ossl_check_OCSP_ONEREQ_type" [Par "ptr"]]);
  Macro "sk_OCSP_ONEREQ_unshift" ["sk"; "ptr"]
    (Call "OPENSSL_sk_unshift" [Call "ossl_check_OCSP_ONEREQ_sk_type" [Par "sk"];
    Call "ossl_check_OCSP_ONEREQ_type" [Par "ptr"]]);
  Macro "sk_OCSP_ONEREQ_pop" ["sk"] (Cast (Ptr (TypeName "OCSP_ONEREQ"))
    (Call "OPENSSL_sk_pop" [Call "ossl_check_OCSP_ONEREQ_sk_type" [Par "sk"]]));
  Macro "sk_OCSP_ONEREQ_shift" ["sk"] (Cast (Ptr (TypeName "OCSP_ONEREQ"))
    (Call "OPENSSL_sk_shift" [Call "ossl_check_OCSP_ONEREQ_sk_type" [Par "sk"]]));
  Macro "sk_OCSP_ONEREQ_pop_free" ["sk"; "freefunc"]
    (Call "OPENSSL_sk_pop_free" [Call "ossl_check_OCSP_ONEREQ_sk_type" [Par "sk"];
    Call "ossl_check_OCSP_ONEREQ_freefunc_type" [Par "freefunc"]]);
  Macro "sk_OCSP_ONEREQ_insert" ["sk"; "ptr"; "idx"]
    (Call "OPENSSL_sk_insert" [Call "ossl_check_OCSP_ONEREQ_sk_type" [Par "sk"];
    Call "ossl_check_OCSP_ONEREQ_type" [Par "ptr"]; Par "idx"]);
  Macro "sk_OCSP_ONEREQ_set" ["sk"; "idx"; "ptr"] (Cast (Ptr (TypeName "OCSP_ONEREQ"))
    (Call "OPENSSL_sk_set" [Call "ossl_check_OCSP_ONEREQ_sk_type" [Par "sk"]; Par "idx";
    Call "ossl_check_OCSP_ONEREQ_type" [Par "ptr"]]));
  Macro "sk_OCSP_ONEREQ_find" ["sk"; "ptr"] (Call "OPENSSL_sk_find" [Call "ossl_check_OCSP_ONEREQ_sk_type" [Par "sk"];
    Call "ossl_check_OCSP_ONEREQ_type" [Par "ptr"]]);
  Macro "sk_OCSP_ONEREQ_find_ex" ["sk"; "ptr"]
    (Call "OPENSSL_sk_find_ex" [Call "ossl_check_OCSP_ONEREQ_sk_type" [Par "sk"];
    Call "ossl_check_OCSP_ONEREQ_type" [Par "ptr"]]);
  Macro "sk_OCSP_ONEREQ_find_all" ["sk"; "ptr"; "pnum"]
    (Call "OPENSSL_sk_find_all" [Call "ossl_check_OCSP_ONEREQ_sk_type" [Par "sk"];
    Call "ossl_check_OCSP_ONEREQ_type" [Par "ptr"]; Par "pnum"]);
  Macro "sk_OCSP_ONEREQ_sort" ["sk"] (Call "OPENSSL_sk_sort" [Call "ossl_check_OCSP_ONEREQ_sk_type" [Par "sk"]]);
  Macro "sk_OCSP_ONEREQ_is_sorted" ["sk"]
    (Call "OPENSSL_sk_is_sorted" [Call "ossl_check_const_OCSP_ONEREQ_sk_type" [Par "sk"]]);
  Macro "sk_OCSP_ONEREQ_dup" ["sk"] (Cast (Ptr (STACK_OF "OCSP_ONEREQ"))
    (Call "OPENSSL_sk_dup" [Call "ossl_check_const_OCSP_ONEREQ_sk_type" [Par "sk"]]));
  Macro "sk_OCSP_ONEREQ_deep_copy" ["sk"; "copyfunc"; "freefunc"] (Cast (Ptr (STACK_OF "OCSP_ONEREQ"))
    (Call "OPENSSL_sk_deep_copy" [Call "ossl_check_const_OCSP_ONEREQ_sk_type" [Par "sk"];
    Call "ossl_check_OCSP_ONEREQ_copyfunc_type" [Par "copyfunc"];
    Call "ossl_check_OCSP_ONEREQ_freefunc_type" [Par "freefunc"]]));
  Macro "sk_OCSP_ONEREQ_set_cmp_func" ["sk"; "cmp"] (Cast (sk_compfunc (TypeName "OCSP_ONEREQ"))
    (Call "OPENSSL_sk_set_cmp_func" [Call "ossl_check_OCSP_ONEREQ_sk_type" [Par "sk"];
    Call "ossl_check_OCSP_ONEREQ_compfunc_type" [Par "cmp"]]))].

Definition stack_OCSP_RESPID : stack := Stack "OCSP_RESPID" (TypeName "OCSP_RESPID") (TypeName "OCSP_RESPID") [
  Macro "sk_OCSP_RESPID_num" ["sk"] (Call "OPENSSL_sk_num" [Call "ossl_check_const_OCSP_RESPID_sk_type" [Par "sk"]]);
  Macro "sk_OCSP_RESPID_value" ["sk"; "idx"] (Cast (Ptr (TypeName "OCSP_RESPID"))
    (Call "OPENSSL_sk_value" [Call "ossl_check_const_OCSP_RESPID_sk_type" [Par "sk"]; Par "idx"]));
  Macro "sk_OCSP_RESPID_new" ["cmp"] (Cast (Ptr (STACK_OF "OCSP_RESPID"))
    (Call "OPENSSL_sk_new" [Call "ossl_check_OCSP_RESPID_compfunc_type" [Par "cmp"]]));
  Macro "sk_OCSP_RESPID_new_null" [] (Cast (Ptr (STACK_OF "OCSP_RESPID")) (Call "OPENSSL_sk_new_null" []));
  Macro "sk_OCSP_RESPID_new_reserve" ["cmp"; "n"] (Cast (Ptr (STACK_OF "OCSP_RESPID"))
    (Call "OPENSSL_sk_new_reserve" [Call "ossl_check_OCSP_RESPID_compfunc_type" [Par "cmp"]; Par "n"]));
  Macro "sk_OCSP_RESPID_reserve" ["sk"; "n"]
    (Call "OPENSSL_sk_reserve" [Call "ossl_check_OCSP_RESPID_sk_type" [Par "sk"]; Par "n"]);
  Macro "sk_OCSP_RESPID_free" ["sk"] (Call "OPENSSL_sk_free" [Call "ossl_check_OCSP_RESPID_sk_type" [Par "sk"]]);
  Macro "sk_OCSP_RESPID_zero" ["sk"] (Call "OPENSSL_sk_zero" [Call "ossl_check_OCSP_RESPID_sk_type" [Par "sk"]]);
  Macro "sk_OCSP_RESPID_delete" ["sk"; "i"] (Cast (Ptr (TypeName "OCSP_RESPID"))
    (Call "OPENSSL_sk_delete" [Call "ossl_check_OCSP_RESPID_sk_type" [Par "sk"]; Par "i"]));
  Macro "sk_OCSP_RESPID_delete_ptr" ["sk"; "ptr"] (Cast (Ptr (TypeName "OCSP_RESPID"))
    (Call "OPENSSL_sk_delete_ptr" [Call "ossl_check_OCSP_RESPID_sk_type" [Par "sk"];
    Call "ossl_check_OCSP_RESPID_type" [Par "ptr"]]));
  Macro "sk_OCSP_RESPID_push" ["sk"; "ptr"] (Call "OPENSSL_sk_push" [Call "ossl_check_OCSP_RESPID_sk_type" [Par "sk"];
    Call "ossl_check_OCSP_RESPID_type" [Par "ptr"]]);
  Macro "sk_OCSP_RESPID_unshift" ["sk"; "ptr"]
    (Call "OPENSSL_sk_unshift" [Call "ossl_check_OCSP_RESPID_sk_type" [Par "sk"];
    Call "ossl_check_OCSP_RESPID_type" [Par "ptr"]]);
  Macro "sk_OCSP_RESPID_pop" ["sk"] (Cast (Ptr (TypeName "OCSP_RESPID"))
    (Call "OPENSSL_sk_pop" [Call "ossl_check_OCSP_RESPID_sk_type" [Par "sk"]]));
  Macro "sk_OCSP_RESPID_shift" ["sk"] (Cast (Ptr (TypeName "OCSP_RESPID"))
    (Call "OPENSSL_sk_shift" [Call "ossl_check_OCSP_RESPID_sk_type" [Par "sk"]]));
  Macro "sk_OCSP_RESPID_pop_free" ["sk"; "freefunc"]
    (Call "OPENSSL_sk_pop_free" [Call "ossl_check_OCSP_RESPID_sk_type" [Par "sk"];
    Call "ossl_check_OCSP_RESPID_freefunc_type" [Par "freefunc"]]);
  Macro "sk_OCSP_RESPID_insert" ["sk"; "ptr"; "idx"]
    (Call "OPENSSL_sk_insert" [Call "ossl_check_OCSP_RESPID_sk_type" [Par "sk"];
    Call "ossl_check_OCSP_RESPID_type" [Par "ptr"]; Par "idx"]);
  Macro "sk_OCSP_RESPID_set" ["sk"; "idx"; "ptr"] (Cast (Ptr (TypeName "OCSP_RESPID"))
    (Call "OPENSSL_sk_set" [Call "ossl_check_OCSP_RESPID_sk_type" [Par "sk"]; Par "idx";
    Call "ossl_check_OCSP_RESPID_type" [Par "ptr"]]));
  Macro "sk_OCSP_RESPID_find" ["sk"; "ptr"] (Call "OPENSSL_sk_find" [Call "ossl_check_OCSP_RESPID_sk_type" [Par "sk"];
    Call "ossl_check_OCSP_RESPID_type" [Par "ptr"]]);
  Macro "sk_OCSP_RESPID_find_ex" ["sk"; "ptr"]
    (Call "OPENSSL_sk_find_ex" [Call "ossl_check_OCSP_RESPID_sk_type" [Par "sk"];
    Call "ossl_check_OCSP_RESPID_type" [Par "ptr"]]);
  Macro "sk_OCSP_RESPID_find_all" ["sk"; "ptr"; "pnum"]
    (Call "OPENSSL_sk_find_all" [Call "ossl_check_OCSP_RESPID_sk_type" [Par "sk"];
    Call "ossl_check_OCSP_RESPID_type" [Par "ptr"]; Par "pnum"]);
  Macro "sk_OCSP_RESPID_sort" ["sk"] (Call "OPENSSL_sk_sort" [Call "ossl_check_OCSP_RESPID_sk_type" [Par "sk"]]);
  Macro "sk_OCSP_RESPID_is_sorted" ["sk"]
    (Call "OPENSSL_sk_is_sorted" [Call "ossl_check_const_OCSP_RESPID_sk_type" [Par "sk"]]);
  Macro "sk_OCSP_RESPID_dup" ["sk"] (Cast (Ptr (STACK_OF "OCSP_RESPID"))
    (Call "OPENSSL_sk_dup" [Call "ossl_check_const_OCSP_RESPID_sk_type" [Par "sk"]]));
  Macro "sk_OCSP_RESPID_deep_copy" ["sk"; "copyfunc"; "freefunc"] (Cast (Ptr (STACK_OF "OCSP_RESPID"))
    (Call "OPENSSL_sk_deep_copy" [Call "ossl_check_const_OCSP_RESPID_sk_type" [Par "sk"];
    Call "ossl_check_OCSP_RESPID_copyfunc_type" [Par "copyfunc"];
    Call "ossl_check_OCSP_RESPID_freefunc_type" [Par "freefunc"]]));
  Macro "sk_OCSP_RESPID_set_cmp_func" ["sk"; "cmp"] (Cast (sk_compfunc (TypeName "OCSP_RESPID"))
    (Call "OPENSSL_sk_set_cmp_func" [Call "ossl_check_OCSP_RESPID_sk_type" [Par "sk"];
    Call "ossl_check_OCSP_RESPID_compfunc_type" [Par "cmp"]]))].

Definition stack_OCSP_SINGLERESP : stack := Stack "OCSP_SINGLERESP" (TypeName "OCSP_SINGLERESP") (TypeName "OCSP_SINGLERESP") [
  Macro "sk_OCSP_SINGLERESP_num" ["sk"]
    (Call "OPENSSL_sk_num" [Call "ossl_check_const_OCSP_SINGLERESP_sk_type" [Par "sk"]]);
  Macro "sk_OCSP_SINGLERESP_value" ["sk"; "idx"] (Cast (Ptr (TypeName "OCSP_SINGLERESP"))
    (Call "OPENSSL_sk_value" [Call "ossl_check_const_OCSP_SINGLERESP_sk_type" [Par "sk"]; Par "idx"]));
  Macro "sk_OCSP_SINGLERESP_new" ["cmp"] (Cast (Ptr (STACK_OF "OCSP_SINGLERESP"))
    (Call "OPENSSL_sk_new" [Call "ossl_check_OCSP_SINGLERESP_compfunc_type" [Par "cmp"]]));
  Macro "sk_OCSP_SINGLERESP_new_null" [] (Cast (Ptr (STACK_OF "OCSP_SINGLERESP")) (Call "OPENSSL_sk_new_null" []));
  Macro "sk_OCSP_SINGLERESP_new_reserve" ["cmp"; "n"] (Cast (Ptr (STACK_OF "OCSP_SINGLERESP"))
    (Call "OPENSSL_sk_new_reserve" [Call "ossl_check_OCSP_SINGLERESP_compfunc_type" [Par "cmp"]; Par "n"]));
  Macro "sk_OCSP_SINGLERESP_reserve" ["sk"; "n"]
    (Call "OPENSSL_sk_reserve" [Call "ossl_check_OCSP_SINGLERESP_sk_type" [Par "sk"]; Par "n"]);
  Macro "sk_OCSP_SINGLERESP_free" ["sk"] (Call "OPENSSL_sk_free" [Call "ossl_check_OCSP_SINGLERESP_sk_type" [Par "sk"]]);
  Macro "sk_OCSP_SINGLERESP_zero" ["sk"] (Call "OPENSSL_sk_zero" [Call "ossl_check_OCSP_SINGLERESP_sk_type" [Par "sk"]]);
  Macro "sk_OCSP_SINGLERESP_delete" ["sk"; "i"] (Cast (Ptr (TypeName "OCSP_SINGLERESP"))
    (Call "OPENSSL_sk_delete" [Call "ossl_check_OCSP_SINGLERESP_sk_type" [Par "sk"]; Par "i"]));
  Macro "sk_OCSP_SINGLERESP_delete_ptr" ["sk"; "ptr"] (Cast (Ptr (TypeName "OCSP_SINGLERESP"))
    (Call "OPENSSL_sk_delete_ptr" [Call "ossl_check_OCSP_SINGLERESP_sk_type" [Par "sk"];
    Call "ossl_check_OCSP_SINGLERESP_type" [Par "ptr"]]));
  Macro "sk_OCSP_SINGLERESP_push" ["sk"; "ptr"]
    (Call "OPENSSL_sk_push" [Call "ossl_check_OCSP_SINGLERESP_sk_type" [Par "sk"];
    Call "ossl_check_OCSP_SINGLERESP_type" [Par "ptr"]]);
  Macro "sk_OCSP_SINGLERESP_unshift" ["sk"; "ptr"]
    (Call "OPENSSL_sk_unshift" [Call "ossl_check_OCSP_SINGLERESP_sk_type" [Par "sk"];
    Call "ossl_check_OCSP_SINGLERESP_type" [Par "ptr"]]);
  Macro "sk_OCSP_SINGLERESP_pop" ["sk"] (Cast (Ptr (TypeName "OCSP_SINGLERESP"))
    (Call "OPENSSL_sk_pop" [Call "ossl_check_OCSP_SINGLERESP_sk_type" [Par "sk"]]));
  Macro "sk_OCSP_SINGLERESP_shift" ["sk"] (Cast (Ptr (TypeName "OCSP_SINGLERESP"))
    (Call "OPENSSL_sk_shift" [Call "ossl_check_OCSP_SINGLERESP_sk_type" [Par "sk"]]));
  Macro "sk_OCSP_SINGLERESP_pop_free" ["sk"; "freefunc"]
    (Call "OPENSSL_sk_pop_free" [Call "ossl_check_OCSP_SINGLERESP_sk_type" [Par "sk"];
    Call "ossl_check_OCSP_SINGLERESP_freefunc_type" [Par "freefunc"]]);
  Macro "sk_OCSP_SINGLERESP_insert" ["sk"; "ptr"; "idx"]
    (Call "OPENSSL_sk_insert" [Call "ossl_check_OCSP_SINGLERESP_sk_type" [Par "sk"];
    Call "ossl_check_OCSP_SINGLERESP_type" [Par "ptr"]; Par "idx"]);
  Macro "sk_OCSP_SINGLERESP_set" ["sk"; "idx"; "ptr"] (Cast (Ptr (TypeName "OCSP_SINGLERESP"))
    (Call "OPENSSL_sk_set" [Call "ossl_check_OCSP_SINGLERESP_sk_type" [Par "sk"]; Par "idx";
    Call "ossl_check_OCSP_SINGLERESP_type" [Par "ptr"]]));
  Macro "sk_OCSP_SINGLERESP_find" ["sk"; "ptr"]
    (Call "OPENSSL_sk_find" [Call "ossl_check_OCSP_SINGLERESP_sk_type" [Par "sk"];
    Call "ossl_check_OCSP_SINGLERESP_type" [Par "ptr"]]);
  Macro "sk_OCSP_SINGLERESP_find_ex" ["sk"; "ptr"]
    (Call "OPENSSL_sk_find_ex" [Call "ossl_check_OCSP_SINGLERESP_sk_type" [Par "sk"];
    Call "ossl_check_OCSP_SINGLERESP_type" [Par "ptr"]]);
  Macro "sk_OCSP_SINGLERESP_find_all" ["sk"; "ptr"; "pnum"]
    (Call "OPENSSL_sk_find_all" [Call "ossl_check_OCSP_SINGLERESP_sk_type" [Par "sk"];
    Call "ossl_check_OCSP_SINGLERESP_type" [Par "ptr"]; Par "pnum"]);
  Macro "sk_OCSP_SINGLERESP_sort" ["sk"] (Call "OPENSSL_sk_sort" [Call "ossl_check_OCSP_SINGLERESP_sk_type" [Par "sk"]]);
  Macro "sk_OCSP_SINGLERESP_is_sorted" ["sk"]
    (Call "OPENSSL_sk_is_sorted" [Call "ossl_check_const_OCSP_SINGLERESP_sk_type" [Par "sk"]]);
  Macro "sk_OCSP_SINGLERESP_dup" ["sk"] (Cast (Ptr (STACK_OF "OCSP_SINGLERESP"))
    (Call "OPENSSL_sk_dup" [Call "ossl_check_const_OCSP_SINGLERESP_sk_type" [Par "sk"]]));
  Macro "sk_OCSP_SINGLERESP_deep_copy" ["sk"; "copyfunc"; "freefunc"] (Cast (Ptr (STACK_OF "OCSP_SINGLERESP"))
    (Call "OPENSSL_sk_deep_copy" [Call "ossl_check_const_OCSP_SINGLERESP_sk_type" [Par "sk"];
    Call "ossl_check_OCSP_SINGLERESP_copyfunc_type" [Par "copyfunc"];
    Call "ossl_check_OCSP_SINGLERESP_freefunc_type" [Par "freefunc"]]));
  Macro "sk_OCSP_SINGLERESP_set_cmp_func" ["sk"; "cmp"] (Cast (sk_compfunc (TypeName "OCSP_SINGLERESP"))
    (Call "OPENSSL_sk_set_cmp_func" [Call "ossl_check_OCSP_SINGLERESP_sk_type" [Par "sk"];
    Call "ossl_check_OCSP_SINGLERESP_compfunc_type" [Par "cmp"]]))].

Definition stack_PKCS12_SAFEBAG : stack := Stack "PKCS12_SAFEBAG" (TypeName "PKCS12_SAFEBAG") (TypeName "PKCS12_SAFEBAG") [
  Macro "sk_PKCS12_SAFEBAG_num" ["sk"]
    (Call "OPENSSL_sk_num" [Call "ossl_check_const_PKCS12_SAFEBAG_sk_type" [Par "sk"]]);
  Macro "sk_PKCS12_SAFEBAG_value" ["sk"; "idx"] (Cast (Ptr (TypeName "PKCS12_SAFEBAG"))
    (Call "OPENSSL_sk_value" [Call "ossl_check_const_PKCS12_SAFEBAG_sk_type" [Par "sk"]; Par "idx"]));
  Macro "sk_PKCS12_SAFEBAG_new" ["cmp"] (Cast (Ptr (STACK_OF "PKCS12_SAFEBAG"))
    (Call "OPENSSL_sk_new" [Call "ossl_check_PKCS12_SAFEBAG_compfunc_type" [Par "cmp"]]));
  Macro "sk_PKCS12_SAFEBAG_new_null" [] (Cast (Ptr (STACK_OF "PKCS12_SAFEBAG")) (Call "OPENSSL_sk_new_null" []));
  Macro "sk_PKCS12_SAFEBAG_new_reserve" ["cmp"; "n"] (Cast (Ptr (STACK_OF "PKCS12_SAFEBAG"))
    (Call "OPENSSL_sk_new_reserve" [Call "ossl_check_PKCS12_SAFEBAG_compfunc_type" [Par "cmp"]; Par "n"]));
  Macro "sk_PKCS12_SAFEBAG_reserve" ["sk"; "n"]
    (Call "OPENSSL_sk_reserve" [Call "ossl_check_PKCS12_SAFEBAG_sk_type" [Par "sk"]; Par "n"]);
  Macro "sk_PKCS12_SAFEBAG_free" ["sk"] (Call "OPENSSL_sk_free" [Call "ossl_check_PKCS12_SAFEBAG_sk_type" [Par "sk"]]);
  Macro "sk_PKCS12_SAFEBAG_zero" ["sk"] (Call "OPENSSL_sk_zero" [Call "ossl_check_PKCS12_SAFEBAG_sk_type" [Par "sk"]]);
  Macro "sk_PKCS12_SAFEBAG_delete" ["sk"; "i"] (Cast (Ptr (TypeName "PKCS12_SAFEBAG"))
    (Call "OPENSSL_sk_delete" [Call "ossl_check_PKCS12_SAFEBAG_sk_type" [Par "sk"]; Par "i"]));
  Macro "sk_PKCS12_SAFEBAG_delete_ptr" ["sk"; "ptr"] (Cast (Ptr (TypeName "PKCS12_SAFEBAG"))
    (Call "OPENSSL_sk_delete_ptr" [Call "ossl_check_PKCS12_SAFEBAG_sk_type" [Par "sk"];
    Call "ossl_check_PKCS12_SAFEBAG_type" [Par "ptr"]]));
  Macro "sk_PKCS12_SAFEBAG_push" ["sk"; "ptr"]
    (Call "OPENSSL_sk_push" [Call "ossl_check_PKCS12_SAFEBAG_sk_type" [Par "sk"];
    Call "ossl_check_PKCS12_SAFEBAG_type" [Par "ptr"]]);
  Macro "sk_PKCS12_SAFEBAG_unshift" ["sk"; "ptr"]
    (Call "OPENSSL_sk_unshift" [Call "ossl_check_PKCS12_SAFEBAG_sk_type" [Par "sk"];
    Call "ossl_check_PKCS12_SAFEBAG_type" [Par "ptr"]]);
  Macro "sk_PKCS12_SAFEBAG_pop" ["sk"] (Cast (Ptr (TypeName "PKCS12_SAFEBAG"))
    (Call "OPENSSL_sk_pop" [Call "ossl_check_PKCS12_SAFEBAG_sk_type" [Par "sk"]]));
  Macro "sk_PKCS12_SAFEBAG_shift" ["sk"] (Cast (Ptr (TypeName "PKCS12_SAFEBAG"))
    (Call "OPENSSL_sk_shift" [Call "ossl_check_PKCS12_SAFEBAG_sk_type" [Par "sk"]]));
  Macro "sk_PKCS12_SAFEBAG_pop_free" ["sk"; "freefunc"]
    (Call "OPENSSL_sk_pop_free" [Call "ossl_check_PKCS12_SAFEBAG_sk_type" [Par "sk"];
    Call "ossl_check_PKCS12_SAFEBAG_freefunc_type" [Par "freefunc"]]);
  Macro "sk_PKCS12_SAFEBAG_insert" ["sk"; "ptr"; "idx"]
    (Call "OPENSSL_sk_insert" [Call "ossl_check_PKCS12_SAFEBAG_sk_type" [Par "sk"];
    Call "ossl_check_PKCS12_SAFEBAG_type" [Par "ptr"]; Par "idx"]);
  Macro "sk_PKCS12_SAFEBAG_set" ["sk"; "idx"; "ptr"] (Cast (Ptr (TypeName "PKCS12_SAFEBAG"))
    (Call "OPENSSL_sk_set" [Call "ossl_check_PKCS12_SAFEBAG_sk_type" [Par "sk"]; Par "idx";
    Call "ossl_check_PKCS12_SAFEBAG_type" [Par "ptr"]]));
  Macro "sk_PKCS12_SAFEBAG_find" ["sk"; "ptr"]
    (Call "OPENSSL_sk_find" [Call "ossl_check_PKCS12_SAFEBAG_sk_type" [Par "sk"];
    Call "ossl_check_PKCS12_SAFEBAG_type" [Par "ptr"]]);
  Macro "sk_PKCS12_SAFEBAG_find_ex" ["sk"; "ptr"]
    (Call "OPENSSL_sk_find_ex" [Call "ossl_check_PKCS12_SAFEBAG_sk_type" [Par "sk"];
    Call "ossl_check_PKCS12_SAFEBAG_type" [Par "ptr"]]);
  Macro "sk_PKCS12_SAFEBAG_find_all" ["sk"; "ptr"; "pnum"]
    (Call "OPENSSL_sk_find_all" [Call "ossl_check_PKCS12_SAFEBAG_sk_type" [Par "sk"];
    Call "ossl_check_PKCS12_SAFEBAG_type" [Par "ptr"]; Par "pnum"]);
  Macro "sk_PKCS12_SAFEBAG_sort" ["sk"] (Call "OPENSSL_sk_sort" [Call "ossl_check_PKCS12_SAFEBAG_sk_type" [Par "sk"]]);
  Macro "sk_PKCS12_SAFEBAG_is_sorted" ["sk"]
    (Call "OPENSSL_sk_is_sorted" [Call "ossl_check_const_PKCS12_SAFEBAG_sk_type" [Par "sk"]]);
  Macro "sk_PKCS12_SAFEBAG_dup" ["sk"] (Cast (Ptr (STACK_OF "PKCS12_SAFEBAG"))
    (Call "OPENSSL_sk_dup" [Call "ossl_check_const_PKCS12_SAFEBAG_sk_type" [Par "sk"]]));
  Macro "sk_PKCS12_SAFEBAG_deep_copy" ["sk"; "copyfunc"; "freefunc"] (Cast (Ptr (STACK_OF "PKCS12_SAFEBAG"))
    (Call "OPENSSL_sk_deep_copy" [Call "ossl_check_const_PKCS12_SAFEBAG_sk_type" [Par "sk"];
    Call "ossl_check_PKCS12_SAFEBAG_copyfunc_type" [Par "copyfunc"];
    Call "ossl_check_PKCS12_SAFEBAG_freefunc_type" [Par "freefunc"]]));
  Macro "sk_PKCS12_SAFEBAG_set_cmp_func" ["sk"; "cmp"] (Cast (sk_compfunc (TypeName "PKCS12_SAFEBAG"))
    (Call "OPENSSL_sk_set_cmp_func" [Call "ossl_check_PKCS12_SAFEBAG_sk_type" [Par "sk"];
    Call "ossl_check_PKCS12_SAFEBAG_compfunc_type" [Par "cmp"]]))].

Definition stack_PKCS7_SIGNER_INFO : stack := Stack "PKCS7_SIGNER_INFO" (TypeName "PKCS7_SIGNER_INFO") (TypeName "PKCS7_SIGNER_INFO") [
  Macro "sk_PKCS7_SIGNER_INFO_num" ["sk"]
    (Call "OPENSSL_sk_num" [Call "ossl_check_const_PKCS7_SIGNER_INFO_sk_type" [Par "sk"]]);
  Macro "sk_PKCS7_SIGNER_INFO_value" ["sk"; "idx"] (Cast (Ptr (TypeName "PKCS7_SIGNER_INFO"))
    (Call "OPENSSL_sk_value" [Call "ossl_check_const_PKCS7_SIGNER_INFO_sk_type" [Par "sk"]; Par "idx"]));
  Macro "sk_PKCS7_SIGNER_INFO_new" ["cmp"] (Cast (Ptr (STACK_OF "PKCS7_SIGNER_INFO"))
    (Call "OPENSSL_sk_new" [Call "ossl_check_PKCS7_SIGNER_INFO_compfunc_type" [Par "cmp"]]));
  Macro "sk_PKCS7_SIGNER_INFO_new_null" [] (Cast (Ptr (STACK_OF "PKCS7_SIGNER_INFO")) (Call "OPENSSL_sk_new_null" []));
  Macro "sk_PKCS7_SIGNER_INFO_new_reserve" ["cmp"; "n"] (Cast (Ptr (STACK_OF "PKCS7_SIGNER_INFO"))
    (Call "OPENSSL_sk_new_reserve" [Call "ossl_check_PKCS7_SIGNER_INFO_compfunc_type" [Par "cmp"]; Par "n"]));
  Macro "sk_PKCS7_SIGNER_INFO_reserve" ["sk"; "n"]
    (Call "OPENSSL_sk_reserve" [Call "ossl_check_PKCS7_SIGNER_INFO_sk_type" [Par "sk"]; Par "n"]);
  Macro "sk_PKCS7_SIGNER_INFO_free" ["sk"]
    (Call "OPENSSL_sk_free" [Call "ossl_check_PKCS7_SIGNER_INFO_sk_type" [Par "sk"]]);
  Macro "sk_PKCS7_SIGNER_INFO_zero" ["sk"]
    (Call "OPENSSL_sk_zero" [Call "ossl_check_PKCS7_SIGNER_INFO_sk_type" [Par "sk"]]);
  Macro "sk_PKCS7_SIGNER_INFO_delete" ["sk"; "i"] (Cast (Ptr (TypeName "PKCS7_SIGNER_INFO"))
    (Call "OPENSSL_sk_delete" [Call "ossl_check_PKCS7_SIGNER_INFO_sk_type" [Par "sk"]; Par "i"]));
  Macro "sk_PKCS7_SIGNER_INFO_delete_ptr" ["sk"; "ptr"] (Cast (Ptr (TypeName "PKCS7_SIGNER_INFO"))
    (Call "OPENSSL_sk_delete_ptr" [Call "ossl_check_PKCS7_SIGNER_INFO_sk_type" [Par "sk"];
    Call "ossl_check_PKCS7_SIGNER_INFO_type" [Par "ptr"]]));
  Macro "sk_PKCS7_SIGNER_INFO_push" ["sk"; "ptr"]
    (Call "OPENSSL_sk_push" [Call "ossl_check_PKCS7_SIGNER_INFO_sk_type" [Par "sk"];
    Call "ossl_check_PKCS7_SIGNER_INFO_type" [Par "ptr"]]);
  Macro "sk_PKCS7_SIGNER_INFO_unshift" ["sk"; "ptr"]
    (Call "OPENSSL_sk_unshift" [Call "ossl_check_PKCS7_SIGNER_INFO_sk_type" [Par "sk"];
    Call "ossl_check_PKCS7_SIGNER_INFO_type" [Par "ptr"]]);
  Macro "sk_PKCS7_SIGNER_INFO_pop" ["sk"] (Cast (Ptr (TypeName "PKCS7_SIGNER_INFO"))
    (Call "OPENSSL_sk_pop" [Call "ossl_check_PKCS7_SIGNER_INFO_sk_type" [Par "sk"]]));
  Macro "sk_PKCS7_SIGNER_INFO_shift" ["sk"] (Cast (Ptr (TypeName "PKCS7_SIGNER_INFO"))
    (Call "OPENSSL_sk_shift" [Call "ossl_check_PKCS7_SIGNER_INFO_sk_type" [Par "sk"]]));
  Macro "sk_PKCS7_SIGNER_INFO_pop_free" ["sk"; "freefunc"]
    (Call "OPENSSL_sk_pop_free" [Call "ossl_check_PKCS7_SIGNER_INFO_sk_type" [Par "sk"];
    Call "ossl_check_PKCS7_SIGNER_INFO_freefunc_type" [Par "freefunc"]]);
  Macro "sk_PKCS7_SIGNER_INFO_insert" ["sk"; "ptr"; "idx"]
    (Call "OPENSSL_sk_insert" [Call "ossl_check_PKCS7_SIGNER_INFO_sk_type" [Par "sk"];
    Call "ossl_check_PKCS7_SIGNER_INFO_type" [Par "ptr"]; Par "idx"]);
  Macro "sk_PKCS7_SIGNER_INFO_set" ["sk"; "idx"; "ptr"] (Cast (Ptr (TypeName "PKCS7_SIGNER_INFO"))
    (Call "OPENSSL_sk_set" [Call "ossl_check_PKCS7_SIGNER_INFO_sk_type" [Par "sk"]; Par "idx";
    Call "ossl_check_PKCS7_SIGNER_INFO_type" [Par "ptr"]]));
  Macro "sk_PKCS7_SIGNER_INFO_find" ["sk"; "ptr"]
    (Call "OPENSSL_sk_find" [Call "ossl_check_PKCS7_SIGNER_INFO_sk_type" [Par "sk"];
    Call "ossl_check_PKCS7_SIGNER_INFO_type" [Par "ptr"]]);
  Macro "sk_PKCS7_SIGNER_INFO_find_ex" ["sk"; "ptr"]
    (Call "OPENSSL_sk_find_ex" [Call "ossl_check_PKCS7_SIGNER_INFO_sk_type" [Par "sk"];
    Call "ossl_check_PKCS7_SIGNER_INFO_type" [Par "ptr"]]);
  Macro "sk_PKCS7_SIGNER_INFO_find_all" ["sk"; "ptr"; "pnum"]
    (Call "OPENSSL_sk_find_all" [Call "ossl_check_PKCS7_SIGNER_INFO_sk_type" [Par "sk"];
    Call "ossl_check_PKCS7_SIGNER_INFO_type" [Par "ptr"]; Par "pnum"]);
  Macro "sk_PKCS7_SIGNER_INFO_sort" ["sk"]
    (Call "OPENSSL_sk_sort" [Call "ossl_check_PKCS7_SIGNER_INFO_sk_type" [Par "sk"]]);
  Macro "sk_PKCS7_SIGNER_INFO_is_sorted" ["sk"]
    (Call "OPENSSL_sk_is_sorted" [Call "ossl_check_const_PKCS7_SIGNER_INFO_sk_type" [Par "sk"]]);
  Macro "sk_PKCS7_SIGNER_INFO_dup" ["sk"] (Cast (Ptr (STACK_OF "PKCS7_SIGNER_INFO"))
    (Call "OPENSSL_sk_dup" [Call "ossl_check_const_PKCS7_SIGNER_INFO_sk_type" [Par "sk"]]));
  Macro "sk_PKCS7_SIGNER_INFO_deep_copy" ["sk"; "copyfunc"; "freefunc"] (Cast (Ptr (STACK_OF "PKCS7_SIGNER_INFO"))
    (Call "OPENSSL_sk_deep_copy" [Call "ossl_check_const_PKCS7_SIGNER_INFO_sk_type" [Par "sk"];
    Call "ossl_check_PKCS7_SIGNER_INFO_copyfunc_type" [Par "copyfunc"];
    Call "ossl_check_PKCS7_SIGNER_INFO_freefunc_type" [Par "freefunc"]]));
  Macro "sk_PKCS7_SIGNER_INFO_set_cmp_func" ["sk"; "cmp"] (Cast (sk_compfunc (TypeName "PKCS7_SIGNER_INFO"))
    (Call "OPENSSL_sk_set_cmp_func" [Call "ossl_check_PKCS7_SIGNER_INFO_sk_type" [Par "sk"];
    Call "ossl_check_PKCS7_SIGNER_INFO_compfunc_type" [Par "cmp"]]))].

Definition stack_PKCS7_RECIP_INFO : stack := Stack "PKCS7_RECIP_INFO" (TypeName "PKCS7_RECIP_INFO") (TypeName "PKCS7_RECIP_INFO") [
  Macro "sk_PKCS7_RECIP_INFO_num" ["sk"]
    (Call "OPENSSL_sk_num" [Call "ossl_check_const_PKCS7_RECIP_INFO_sk_type" [Par "sk"]]);
  Macro "sk_PKCS7_RECIP_INFO_value" ["sk"; "idx"] (Cast (Ptr (TypeName "PKCS7_RECIP_INFO"))
    (Call "OPENSSL_sk_value" [Call "ossl_check_const_PKCS7_RECIP_INFO_sk_type" [Par "sk"]; Par "idx"]));
  Macro "sk_PKCS7_RECIP_INFO_new" ["cmp"] (Cast (Ptr (STACK_OF "PKCS7_RECIP_INFO"))
    (Call "OPENSSL_sk_new" [Call "ossl_check_PKCS7_RECIP_INFO_compfunc_type" [Par "cmp"]]));
  Macro "sk_PKCS7_RECIP_INFO_new_null" [] (Cast (Ptr (STACK_OF "PKCS7_RECIP_INFO")) (Call "OPENSSL_sk_new_null" []));
  Macro "sk_PKCS7_RECIP_INFO_new_reserve" ["cmp"; "n"] (Cast (Ptr (STACK_OF "PKCS7_RECIP_INFO"))
    (Call "OPENSSL_sk_new_reserve" [Call "ossl_check_PKCS7_RECIP_INFO_compfunc_type" [Par "cmp"]; Par "n"]));
  Macro "sk_PKCS7_RECIP_INFO_reserve" ["sk"; "n"]
    (Call "OPENSSL_sk_reserve" [Call "ossl_check_PKCS7_RECIP_INFO_sk_type" [Par "sk"]; Par "n"]);
  Macro "sk_PKCS7_RECIP_INFO_free" ["sk"]
    (Call "OPENSSL_sk_free" [Call "ossl_check_PKCS7_RECIP_INFO_sk_type" [Par "sk"]]);
  Macro "sk_PKCS7_RECIP_INFO_zero" ["sk"]
    (Call "OPENSSL_sk_zero" [Call "ossl_check_PKCS7_RECIP_INFO_sk_type" [Par "sk"]]);
  Macro "sk_PKCS7_RECIP_INFO_delete" ["sk"; "i"] (Cast (Ptr (TypeName "PKCS7_RECIP_INFO"))
    (Call "OPENSSL_sk_delete" [Call "ossl_check_PKCS7_RECIP_INFO_sk_type" [Par "sk"]; Par "i"]));
  Macro "sk_PKCS7_RECIP_INFO_delete_ptr" ["sk"; "ptr"] (Cast (Ptr (TypeName "PKCS7_RECIP_INFO"))
    (Call "OPENSSL_sk_delete_ptr" [Call "ossl_check_PKCS7_RECIP_INFO_sk_type" [Par "sk"];
    Call "ossl_check_PKCS7_RECIP_INFO_type" [Par "ptr"]]));
  Macro "sk_PKCS7_RECIP_INFO_push" ["sk"; "ptr"]
    (Call "OPENSSL_sk_push" [Call "ossl_check_PKCS7_RECIP_INFO_sk_type" [Par "sk"];
    Call "ossl_check_PKCS7_RECIP_INFO_type" [Par "ptr"]]);
  Macro "sk_PKCS7_RECIP_INFO_unshift" ["sk"; "ptr"]
    (Call "OPENSSL_sk_unshift" [Call "ossl_check_PKCS7_RECIP_INFO_sk_type" [Par "sk"];
    Call "ossl_check_PKCS7_RECIP_INFO_type" [Par "ptr"]]);
  Macro "sk_PKCS7_RECIP_INFO_pop" ["sk"] (Cast (Ptr (TypeName "PKCS7_RECIP_INFO"))
    (Call "OPENSSL_sk_pop" [Call "ossl_check_PKCS7_RECIP_INFO_sk_type" [Par "sk"]]));
  Macro "sk_PKCS7_RECIP_INFO_shift" ["sk"] (Cast (Ptr (TypeName "PKCS7_RECIP_INFO"))
    (Call "OPENSSL_sk_shift" [Call "ossl_check_PKCS7_RECIP_INFO_sk_type" [Par "sk"]]));
  Macro "sk_PKCS7_RECIP_INFO_pop_free" ["sk"; "freefunc"]
    (Call "OPENSSL_sk_pop_free" [Call "ossl_check_PKCS7_RECIP_INFO_sk_type" [Par "sk"];
    Call "ossl_check_PKCS7_RECIP_INFO_freefunc_type" [Par "freefunc"]]);
  Macro "sk_PKCS7_RECIP_INFO_insert" ["sk"; "ptr"; "idx"]
    (Call "OPENSSL_sk_insert" [Call "ossl_check_PKCS7_RECIP_INFO_sk_type" [Par "sk"];
    Call "ossl_check_PKCS7_RECIP_INFO_type" [Par "ptr"]; Par "idx"]);
  Macro "sk_PKCS7_RECIP_INFO_set" ["sk"; "idx"; "ptr"] (Cast (Ptr (TypeName "PKCS7_RECIP_INFO"))
    (Call "OPENSSL_sk_set" [Call "ossl_check_PKCS7_RECIP_INFO_sk_type" [Par "sk"]; Par "idx";
    Call "ossl_check_PKCS7_RECIP_INFO_type" [Par "ptr"]]));
  Macro "sk_PKCS7_RECIP_INFO_find" ["sk"; "ptr"]
    (Call "OPENSSL_sk_find" [Call "ossl_check_PKCS7_RECIP_INFO_sk_type" [Par "sk"];
    Call "ossl_check_PKCS7_RECIP_INFO_type" [Par "ptr"]]);
  Macro "sk_PKCS7_RECIP_INFO_find_ex" ["sk"; "ptr"]
    (Call "OPENSSL_sk_find_ex" [Call "ossl_check_PKCS7_RECIP_INFO_sk_type" [Par "sk"];
    Call "ossl_check_PKCS7_RECIP_INFO_type" [Par "ptr"]]);
  Macro "sk_PKCS7_RECIP_INFO_find_all" ["sk"; "ptr"; "pnum"]
    (Call "OPENSSL_sk_find_all" [Call "ossl_check_PKCS7_RECIP_INFO_sk_type" [Par "sk"];
    Call "ossl_check_PKCS7_RECIP_INFO_type" [Par "ptr"]; Par "pnum"]);
  Macro "sk_PKCS7_RECIP_INFO_sort" ["sk"]
    (Call "OPENSSL_sk_sort" [Call "ossl_check_PKCS7_RECIP_INFO_sk_type" [Par "sk"]]);
  Macro "sk_PKCS7_RECIP_INFO_is_sorted" ["sk"]
    (Call "OPENSSL_sk_is_sorted" [Call "ossl_check_const_PKCS7_RECIP_INFO_sk_type" [Par "sk"]]);
  Macro "sk_PKCS7_RECIP_INFO_dup" ["sk"] (Cast (Ptr (STACK_OF "PKCS7_RECIP_INFO"))
    (Call "OPENSSL_sk_dup" [Call "ossl_check_const_PKCS7_RECIP_INFO_sk_type" [Par "sk"]]));
  Macro "sk_PKCS7_RECIP_INFO_deep_copy" ["sk"; "copyfunc"; "freefunc"] (Cast (Ptr (STACK_OF "PKCS7_RECIP_INFO"))
    (Call "OPENSSL_sk_deep_copy" [Call "ossl_check_const_PKCS7_RECIP_INFO_sk_type" [Par "sk"];
    Call "ossl_check_PKCS7_RECIP_INFO_copyfunc_type" [Par "copyfunc"];
    Call "ossl_check_PKCS7_RECIP_INFO_freefunc_type" [Par "freefunc"]]));
  Macro "sk_PKCS7_RECIP_INFO_set_cmp_func" ["sk"; "cmp"] (Cast (sk_compfunc (TypeName "PKCS7_RECIP_INFO"))
    (Call "OPENSSL_sk_set_cmp_func" [Call "ossl_check_PKCS7_RECIP_INFO_sk_type" [Par "sk"];
    Call "ossl_check_PKCS7_RECIP_INFO_compfunc_type" [Par "cmp"]]))].

Definition stack_PKCS7 : stack := Stack "PKCS7" (TypeName "PKCS7") (TypeName "PKCS7") [
  Macro "sk_PKCS7_num" ["sk"] (Call "OPENSSL_sk_num" [Call "ossl_check_const_PKCS7_sk_type" [Par "sk"]]);
  Macro "sk_PKCS7_value" ["sk"; "idx"] (Cast (Ptr (TypeName "PKCS7"))
    (Call "OPENSSL_sk_value" [Call "ossl_check_const_PKCS7_sk_type" [Par "sk"]; Par "idx"]));
  Macro "sk_PKCS7_new" ["cmp"] (Cast (Ptr (STACK_OF "PKCS7"))
    (Call "OPENSSL_sk_new" [Call "ossl_check_PKCS7_compfunc_type" [Par "cmp"]]));
  Macro "sk_PKCS7_new_null" [] (Cast (Ptr (STACK_OF "PKCS7")) (Call "OPENSSL_sk_new_null" []));
  Macro "sk_PKCS7_new_reserve" ["cmp"; "n"] (Cast (Ptr (STACK_OF "PKCS7"))
    (Call "OPENSSL_sk_new_reserve" [Call "ossl_check_PKCS7_compfunc_type" [Par "cmp"]; Par "n"]));
  Macro "sk_PKCS7_reserve" ["sk"; "n"] (Call "OPENSSL_sk_reserve" [Call "ossl_check_PKCS7_sk_type" [Par "sk"]; Par "n"]);
  Macro "sk_PKCS7_free" ["sk"] (Call "OPENSSL_sk_free" [Call "ossl_check_PKCS7_sk_type" [Par "sk"]]);
  Macro "sk_PKCS7_zero" ["sk"] (Call "OPENSSL_sk_zero" [Call "ossl_check_PKCS7_sk_type" [Par "sk"]]);
  Macro "sk_PKCS7_delete" ["sk"; "i"] (Cast (Ptr (TypeName "PKCS7"))
    (Call "OPENSSL_sk_delete" [Call "ossl_check_PKCS7_sk_type" [Par "sk"]; Par "i"]));
  Macro "sk_PKCS7_delete_ptr" ["sk"; "ptr"] (Cast (Ptr (TypeName "PKCS7"))
    (Call "OPENSSL_sk_delete_ptr" [Call "ossl_check_PKCS7_sk_type" [Par "sk"];
    Call "ossl_check_PKCS7_type" [Par "ptr"]]));
  Macro "sk_PKCS7_push" ["sk"; "ptr"] (Call "OPENSSL_sk_push" [Call "ossl_check_PKCS7_sk_type" [Par "sk"];
    Call "ossl_check_PKCS7_type" [Par "ptr"]]);
  Macro "sk_PKCS7_unshift" ["sk"; "ptr"] (Call "OPENSSL_sk_unshift" [Call "ossl_check_PKCS7_sk_type" [Par "sk"];
    Call "ossl_check_PKCS7_type" [Par "ptr"]]);
  Macro "sk_PKCS7_pop" ["sk"] (Cast (Ptr (TypeName "PKCS7"))
    (Call "OPENSSL_sk_pop" [Call "ossl_check_PKCS7_sk_type" [Par "sk"]]));
  Macro "sk_PKCS7_shift" ["sk"] (Cast (Ptr (TypeName "PKCS7"))
    (Call "OPENSSL_sk_shift" [Call "ossl_check_PKCS7_sk_type" [Par "sk"]]));
  Macro "sk_PKCS7_pop_free" ["sk"; "freefunc"] (Call "OPENSSL_sk_pop_free" [Call "ossl_check_PKCS7_sk_type" [Par "sk"];
    Call "ossl_check_PKCS7_freefunc_type" [Par "freefunc"]]);
  Macro "sk_PKCS7_insert" ["sk"; "ptr"; "idx"] (Call "OPENSSL_sk_insert" [Call "ossl_check_PKCS7_sk_type" [Par "sk"];
    Call "ossl_check_PKCS7_type" [Par "ptr"]; Par "idx"]);
  Macro "sk_PKCS7_set" ["sk"; "idx"; "ptr"] (Cast (Ptr (TypeName "PKCS7"))
    (Call "OPENSSL_sk_set" [Call "ossl_check_PKCS7_sk_type" [Par "sk"]; Par "idx";
    Call "ossl_check_PKCS7_type" [Par "ptr"]]));
  Macro "sk_PKCS7_find" ["sk"; "ptr"] (Call "OPENSSL_sk_find" [Call "ossl_check_PKCS7_sk_type" [Par "sk"];
    Call "ossl_check_PKCS7_type" [Par "ptr"]]);
  Macro "sk_PKCS7_find_ex" ["sk"; "ptr"] (Call "OPENSSL_sk_find_ex" [Call "ossl_check_PKCS7_sk_type" [Par "sk"];
    Call "ossl_check_PKCS7_type" [Par "ptr"]]);
  Macro "sk_PKCS7_find_all" ["sk"; "ptr"; "pnum"]
    (Call "OPENSSL_sk_find_all" [Call "ossl_check_PKCS7_sk_type" [Par "sk"]; Call "ossl_check_PKCS7_type" [Par "ptr"];
    Par "pnum"]);
  Macro "sk_PKCS7_sort" ["sk"] (Call "OPENSSL_sk_sort" [Call "ossl_check_PKCS7_sk_type" [Par "sk"]]);
  Macro "sk_PKCS7_is_sorted" ["sk"] (Call "OPENSSL_sk_is_sorted" [Call "ossl_check_const_PKCS7_sk_type" [Par "sk"]]);
  Macro "sk_PKCS7_dup" ["sk"] (Cast (Ptr (STACK_OF "PKCS7"))
    (Call "OPENSSL_sk_dup" [Call "ossl_check_const_PKCS7_sk_type" [Par "sk"]]));
  Macro "sk_PKCS7_deep_copy" ["sk"; "copyfunc"; "freefunc"] (Cast (Ptr (STACK_OF "PKCS7"))
    (Call "OPENSSL_sk_deep_copy" [Call "ossl_check_const_PKCS7_sk_type" [Par "sk"];
    Call "ossl_check_PKCS7_copyfunc_type" [Par "copyfunc"]; Call "ossl_check_PKCS7_freefunc_type" [Par "freefunc"]]));
  Macro "sk_PKCS7_set_cmp_func" ["sk"; "cmp"] (Cast (sk_compfunc (TypeName "PKCS7"))
    (Call "OPENSSL_sk_set_cmp_func" [Call "ossl_check_PKCS7_sk_type" [Par "sk"];
    Call "ossl_check_PKCS7_compfunc_type" [Par "cmp"]]))].

Definition stack_OPENSSL_STRING : stack := Stack "OPENSSL_STRING" Char Char [
  Macro "sk_OPENSSL_STRING_num" ["sk"]
    (Call "OPENSSL_sk_num" [Call "ossl_check_const_OPENSSL_STRING_sk_type" [Par "sk"]]);
  Macro "sk_OPENSSL_STRING_value" ["sk"; "idx"] (Cast (Ptr Char)
    (Call "OPENSSL_sk_value" [Call "ossl_check_const_OPENSSL_STRING_sk_type" [Par "sk"]; Par "idx"]));
  Macro "sk_OPENSSL_STRING_new" ["cmp"] (Cast (Ptr (STACK_OF "OPENSSL_STRING"))
    (Call "OPENSSL_sk_new" [Call "ossl_check_OPENSSL_STRING_compfunc_type" [Par "cmp"]]));
  Macro "sk_OPENSSL_STRING_new_null" [] (Cast (Ptr (STACK_OF "OPENSSL_STRING")) (Call "OPENSSL_sk_new_null" []));
  Macro "sk_OPENSSL_STRING_new_reserve" ["cmp"; "n"] (Cast (Ptr (STACK_OF "OPENSSL_STRING"))
    (Call "OPENSSL_sk_new_reserve" [Call "ossl_check_OPENSSL_STRING_compfunc_type" [Par "cmp"]; Par "n"]));
  Macro "sk_OPENSSL_STRING_reserve" ["sk"; "n"]
    (Call "OPENSSL_sk_reserve" [Call "ossl_check_OPENSSL_STRING_sk_type" [Par "sk"]; Par "n"]);
  Macro "sk_OPENSSL_STRING_free" ["sk"] (Call "OPENSSL_sk_free" [Call "ossl_check_OPENSSL_STRING_sk_type" [Par "sk"]]);
  Macro "sk_OPENSSL_STRING_zero" ["sk"] (Call "OPENSSL_sk_zero" [Call "ossl_check_OPENSSL_STRING_sk_type" [Par "sk"]]);
  Macro "sk_OPENSSL_STRING_delete" ["sk"; "i"] (Cast (Ptr Char)
    (Call "OPENSSL_sk_delete" [Call "ossl_check_OPENSSL_STRING_sk_type" [Par "sk"]; Par "i"]));
  Macro "sk_OPENSSL_STRING_delete_ptr" ["sk"; "ptr"] (Cast (Ptr Char)
    (Call "OPENSSL_sk_delete_ptr" [Call "ossl_check_OPENSSL_STRING_sk_type" [Par "sk"];
    Call "ossl_check_OPENSSL_STRING_type" [Par "ptr"]]));
  Macro "sk_OPENSSL_STRING_push" ["sk"; "ptr"]
    (Call "OPENSSL_sk_push" [Call "ossl_check_OPENSSL_STRING_sk_type" [Par "sk"];
    Call "ossl_check_OPENSSL_STRING_type" [Par "ptr"]]);
  Macro "sk_OPENSSL_STRING_unshift" ["sk"; "ptr"]
    (Call "OPENSSL_sk_unshift" [Call "ossl_check_OPENSSL_STRING_sk_type" [Par "sk"];
    Call "ossl_check_OPENSSL_STRING_type" [Par "ptr"]]);
  Macro "sk_OPENSSL_STRING_pop" ["sk"] (Cast (Ptr Char)
    (Call "OPENSSL_sk_pop" [Call "ossl_check_OPENSSL_STRING_sk_type" [Par "sk"]]));
  Macro "sk_OPENSSL_STRING_shift" ["sk"] (Cast (Ptr Char)
    (Call "OPENSSL_sk_shift" [Call "ossl_check_OPENSSL_STRING_sk_type" [Par "sk"]]));
  Macro "sk_OPENSSL_STRING_pop_free" ["sk"; "freefunc"]
    (Call "OPENSSL_sk_pop_free" [Call "ossl_check_OPENSSL_STRING_sk_type" [Par "sk"];
    Call "ossl_check_OPENSSL_STRING_freefunc_type" [Par "freefunc"]]);
  Macro "sk_OPENSSL_STRING_insert" ["sk"; "ptr"; "idx"]
    (Call "OPENSSL_sk_insert" [Call "ossl_check_OPENSSL_STRING_sk_type" [Par "sk"];
    Call "ossl_check_OPENSSL_STRING_type" [Par "ptr"]; Par "idx"]);
  Macro "sk_OPENSSL_STRING_set" ["sk"; "idx"; "ptr"] (Cast (Ptr Char)
    (Call "OPENSSL_sk_set" [Call "ossl_check_OPENSSL_STRING_sk_type" [Par "sk"]; Par "idx";
    Call "ossl_check_OPENSSL_STRING_type" [Par "ptr"]]));
  Macro "sk_OPENSSL_STRING_find" ["sk"; "ptr"]
    (Call "OPENSSL_sk_find" [Call "ossl_check_OPENSSL_STRING_sk_type" [Par "sk"];
    Call "ossl_check_OPENSSL_STRING_type" [Par "ptr"]]);
  Macro "sk_OPENSSL_STRING_find_ex" ["sk"; "ptr"]
    (Call "OPENSSL_sk_find_ex" [Call "ossl_check_OPENSSL_STRING_sk_type" [Par "sk"];
    Call "ossl_check_OPENSSL_STRING_type" [Par "ptr"]]);
  Macro "sk_OPENSSL_STRING_find_all" ["sk"; "ptr"; "pnum"]
    (Call "OPENSSL_sk_find_all" [Call "ossl_check_OPENSSL_STRING_sk_type" [Par "sk"];
    Call "ossl_check_OPENSSL_STRING_type" [Par "ptr"]; Par "pnum"]);
  Macro "sk_OPENSSL_STRING_sort" ["sk"] (Call "OPENSSL_sk_sort" [Call "ossl_check_OPENSSL_STRING_sk_type" [Par "sk"]]);
  Macro "sk_OPENSSL_STRING_is_sorted" ["sk"]
    (Call "OPENSSL_sk_is_sorted" [Call "ossl_check_const_OPENSSL_STRING_sk_type" [Par "sk"]]);
  Macro "sk_OPENSSL_STRING_dup" ["sk"] (Cast (Ptr (STACK_OF "OPENSSL_STRING"))
    (Call "OPENSSL_sk_dup" [Call "ossl_check_const_OPENSSL_STRING_sk_type" [Par "sk"]]));
  Macro "sk_OPENSSL_STRING_deep_copy" ["sk"; "copyfunc"; "freefunc"] (Cast (Ptr (STACK_OF "OPENSSL_STRING"))
    (Call "OPENSSL_sk_deep_copy" [Call "ossl_check_const_OPENSSL_STRING_sk_type" [Par "sk"];
    Call "ossl_check_OPENSSL_STRING_copyfunc_type" [Par "copyfunc"];
    Call "ossl_check_OPENSSL_STRING_freefunc_type" [Par "freefunc"]]));
  Macro "sk_OPENSSL_STRING_set_cmp_func" ["sk"; "cmp"] (Cast (sk_compfunc Char)
    (Call "OPENSSL_sk_set_cmp_func" [Call "ossl_check_OPENSSL_STRING_sk_type" [Par "sk"];
    Call "ossl_check_OPENSSL_STRING_compfunc_type" [Par "cmp"]]))].

Definition stack_OPENSSL_CSTRING : stack := Stack "OPENSSL_CSTRING" (Const Char) Char [
  Macro "sk_OPENSSL_CSTRING_num" ["sk"]
    (Call "OPENSSL_sk_num" [Call "ossl_check_const_OPENSSL_CSTRING_sk_type" [Par "sk"]]);
  Macro "sk_OPENSSL_CSTRING_value" ["sk"; "idx"] (Cast (Ptr (Const Char))
    (Call "OPENSSL_sk_value" [Call "ossl_check_const_OPENSSL_CSTRING_sk_type" [Par "sk"]; Par "idx"]));
  Macro "sk_OPENSSL_CSTRING_new" ["cmp"] (Cast (Ptr (STACK_OF "OPENSSL_CSTRING"))
    (Call "OPENSSL_sk_new" [Call "ossl_check_OPENSSL_CSTRING_compfunc_type" [Par "cmp"]]));
  Macro "sk_OPENSSL_CSTRING_new_null" [] (Cast (Ptr (STACK_OF "OPENSSL_CSTRING")) (Call "OPENSSL_sk_new_null" []));
  Macro "sk_OPENSSL_CSTRING_new_reserve" ["cmp"; "n"] (Cast (Ptr (STACK_OF "OPENSSL_CSTRING"))
    (Call "OPENSSL_sk_new_reserve" [Call "ossl_check_OPENSSL_CSTRING_compfunc_type" [Par "cmp"]; Par "n"]));
  Macro "sk_OPENSSL_CSTRING_reserve" ["sk"; "n"]
    (Call "OPENSSL_sk_reserve" [Call "ossl_check_OPENSSL_CSTRING_sk_type" [Par "sk"]; Par "n"]);
  Macro "sk_OPENSSL_CSTRING_free" ["sk"] (Call "OPENSSL_sk_free" [Call "ossl_check_OPENSSL_CSTRING_sk_type" [Par "sk"]]);
  Macro "sk_OPENSSL_CSTRING_zero" ["sk"] (Call "OPENSSL_sk_zero" [Call "ossl_check_OPENSSL_CSTRING_sk_type" [Par "sk"]]);
  Macro "sk_OPENSSL_CSTRING_delete" ["sk"; "i"] (Cast (Ptr (Const Char))
    (Call "OPENSSL_sk_delete" [Call "ossl_check_OPENSSL_CSTRING_sk_type" [Par "sk"]; Par "i"]));
  Macro "sk_OPENSSL_CSTRING_delete_ptr" ["sk"; "ptr"] (Cast (Ptr (Const Char))
    (Call "OPENSSL_sk_delete_ptr" [Call "ossl_check_OPENSSL_CSTRING_sk_type" [Par "sk"];
    Call "ossl_check_OPENSSL_CSTRING_type" [Par "ptr"]]));
  Macro "sk_OPENSSL_CSTRING_push" ["sk"; "ptr"]
    (Call "OPENSSL_sk_push" [Call "ossl_check_OPENSSL_CSTRING_sk_type" [Par "sk"];
    Call "ossl_check_OPENSSL_CSTRING_type" [Par "ptr"]]);
  Macro "sk_OPENSSL_CSTRING_unshift" ["sk"; "ptr"]
    (Call "OPENSSL_sk_unshift" [Call "ossl_check_OPENSSL_CSTRING_sk_type" [Par "sk"];
    Call "ossl_check_OPENSSL_CSTRING_type" [Par "ptr"]]);
  Macro "sk_OPENSSL_CSTRING_pop" ["sk"] (Cast (Ptr (Const Char))
    (Call "OPENSSL_sk_pop" [Call "ossl_check_OPENSSL_CSTRING_sk_type" [Par "sk"]]));
  Macro "sk_OPENSSL_CSTRING_shift" ["sk"] (Cast (Ptr (Const Char))
    (Call "OPENSSL_sk_shift" [Call "ossl_check_OPENSSL_CSTRING_sk_type" [Par "sk"]]));
  Macro "sk_OPENSSL_CSTRING_pop_free" ["sk"; "freefunc"]
    (Call "OPENSSL_sk_pop_free" [Call "ossl_check_OPENSSL_CSTRING_sk_type" [Par "sk"];
    Call "ossl_check_OPENSSL_CSTRING_freefunc_type" [Par "freefunc"]]);
  Macro "sk_OPENSSL_CSTRING_insert" ["sk"; "ptr"; "idx"]
    (Call "OPENSSL_sk_insert" [Call "ossl_check_OPENSSL_CSTRING_sk_type" [Par "sk"];
    Call "ossl_check_OPENSSL_CSTRING_type" [Par "ptr"]; Par "idx"]);
  Macro "sk_OPENSSL_CSTRING_set" ["sk"; "idx"; "ptr"] (Cast (Ptr (Const Char))
    (Call "OPENSSL_sk_set" [Call "ossl_check_OPENSSL_CSTRING_sk_type" [Par "sk"]; Par "idx";
    Call "ossl_check_OPENSSL_CSTRING_type" [Par "ptr"]]));
  Macro "sk_OPENSSL_CSTRING_find" ["sk"; "ptr"]
    (Call "OPENSSL_sk_find" [Call "ossl_check_OPENSSL_CSTRING_sk_type" [Par "sk"];
    Call "ossl_check_OPENSSL_CSTRING_type" [Par "ptr"]]);
  Macro "sk_OPENSSL_CSTRING_find_ex" ["sk"; "ptr"]
    (Call "OPENSSL_sk_find_ex" [Call "ossl_check_OPENSSL_CSTRING_sk_type" [Par "sk"];
    Call "ossl_check_OPENSSL_CSTRING_type" [Par "ptr"]]);
  Macro "sk_OPENSSL_CSTRING_find_all" ["sk"; "ptr"; "pnum"]
    (Call "OPENSSL_sk_find_all" [Call "ossl_check_OPENSSL_CSTRING_sk_type" [Par "sk"];
    Call "ossl_check_OPENSSL_CSTRING_type" [Par "ptr"]; Par "pnum"]);
  Macro "sk_OPENSSL_CSTRING_sort" ["sk"] (Call "OPENSSL_sk_sort" [Call "ossl_check_OPENSSL_CSTRING_sk_type" [Par "sk"]]);
  Macro "sk_OPENSSL_CSTRING_is_sorted" ["sk"]
    (Call "OPENSSL_sk_is_sorted" [Call "ossl_check_const_OPENSSL_CSTRING_sk_type" [Par "sk"]]);
  Macro "sk_OPENSSL_CSTRING_dup" ["sk"] (Cast (Ptr (STACK_OF "OPENSSL_CSTRING"))
    (Call "OPENSSL_sk_dup" [Call "ossl_check_const_OPENSSL_CSTRING_sk_type" [Par "sk"]]));
  Macro "sk_OPENSSL_CSTRING_deep_copy" ["sk"; "copyfunc"; "freefunc"] (Cast (Ptr (STACK_OF "OPENSSL_CSTRING"))
    (Call "OPENSSL_sk_deep_copy" [Call "ossl_check_const_OPENSSL_CSTRING_sk_type" [Par "sk"];
    Call "ossl_check_OPENSSL_CSTRING_copyfunc_type" [Par "copyfunc"];
    Call "ossl_check_OPENSSL_CSTRING_freefunc_type" [Par "freefunc"]]));
  Macro "sk_OPENSSL_CSTRING_set_cmp_func" ["sk"; "cmp"] (Cast (sk_compfunc Char)
    (Call "OPENSSL_sk_set_cmp_func" [Call "ossl_check_OPENSSL_CSTRING_sk_type" [Par "sk"];
    Call "ossl_check_OPENSSL_CSTRING_compfunc_type" [Par "cmp"]]))].

Definition stack_OPENSSL_BLOCK : stack := Stack "OPENSSL_BLOCK" Void Void [
  Macro "sk_OPENSSL_BLOCK_num" ["sk"] (Call "OPENSSL_sk_num" [Call "ossl_check_const_OPENSSL_BLOCK_sk_type" [Par "sk"]]);
  Macro "sk_OPENSSL_BLOCK_value" ["sk"; "idx"] (Cast (Ptr Void)
    (Call "OPENSSL_sk_value" [Call "ossl_check_const_OPENSSL_BLOCK_sk_type" [Par "sk"]; Par "idx"]));
  Macro "sk_OPENSSL_BLOCK_new" ["cmp"] (Cast (Ptr (STACK_OF "OPENSSL_BLOCK"))
    (Call "OPENSSL_sk_new" [Call "ossl_check_OPENSSL_BLOCK_compfunc_type" [Par "cmp"]]));
  Macro "sk_OPENSSL_BLOCK_new_null" [] (Cast (Ptr (STACK_OF "OPENSSL_BLOCK")) (Call "OPENSSL_sk_new_null" []));
  Macro "sk_OPENSSL_BLOCK_new_reserve" ["cmp"; "n"] (Cast (Ptr (STACK_OF "OPENSSL_BLOCK"))
    (Call "OPENSSL_sk_new_reserve" [Call "ossl_check_OPENSSL_BLOCK_compfunc_type" [Par "cmp"]; Par "n"]));
  Macro "sk_OPENSSL_BLOCK_reserve" ["sk"; "n"]
    (Call "OPENSSL_sk_reserve" [Call "ossl_check_OPENSSL_BLOCK_sk_type" [Par "sk"]; Par "n"]);
  Macro "sk_OPENSSL_BLOCK_free" ["sk"] (Call "OPENSSL_sk_free" [Call "ossl_check_OPENSSL_BLOCK_sk_type" [Par "sk"]]);
  Macro "sk_OPENSSL_BLOCK_zero" ["sk"] (Call "OPENSSL_sk_zero" [Call "ossl_check_OPENSSL_BLOCK_sk_type" [Par "sk"]]);
  Macro "sk_OPENSSL_BLOCK_delete" ["sk"; "i"] (Cast (Ptr Void)
    (Call "OPENSSL_sk_delete" [Call "ossl_check_OPENSSL_BLOCK_sk_type" [Par "sk"]; Par "i"]));
  Macro "sk_OPENSSL_BLOCK_delete_ptr" ["sk"; "ptr"] (Cast (Ptr Void)
    (Call "OPENSSL_sk_delete_ptr" [Call "ossl_check_OPENSSL_BLOCK_sk_type" [Par "sk"];
    Call "ossl_check_OPENSSL_BLOCK_type" [Par "ptr"]]));
  Macro "sk_OPENSSL_BLOCK_push" ["sk"; "ptr"]
    (Call "OPENSSL_sk_push" [Call "ossl_check_OPENSSL_BLOCK_sk_type" [Par "sk"];
    Call "ossl_check_OPENSSL_BLOCK_type" [Par "ptr"]]);
  Macro "sk_OPENSSL_BLOCK_unshift" ["sk"; "ptr"]
    (Call "OPENSSL_sk_unshift" [Call "ossl_check_OPENSSL_BLOCK_sk_type" [Par "sk"];
    Call "ossl_check_OPENSSL_BLOCK_type" [Par "ptr"]]);
  Macro "sk_OPENSSL_BLOCK_pop" ["sk"] (Cast (Ptr Void)
    (Call "OPENSSL_sk_pop" [Call "ossl_check_OPENSSL_BLOCK_sk_type" [Par "sk"]]));
  Macro "sk_OPENSSL_BLOCK_shift" ["sk"] (Cast (Ptr Void)
    (Call "OPENSSL_sk_shift" [Call "ossl_check_OPENSSL_BLOCK_sk_type" [Par "sk"]]));
  Macro "sk_OPENSSL_BLOCK_pop_free" ["sk"; "freefunc"]
    (Call "OPENSSL_sk_pop_free" [Call "ossl_check_OPENSSL_BLOCK_sk_type" [Par "sk"];
    Call "ossl_check_OPENSSL_BLOCK_freefunc_type" [Par "freefunc"]]);
  Macro "sk_OPENSSL_BLOCK_insert" ["sk"; "ptr"; "idx"]
    (Call "OPENSSL_sk_insert" [Call "ossl_check_OPENSSL_BLOCK_sk_type" [Par "sk"];
    Call "ossl_check_OPENSSL_BLOCK_type" [Par "ptr"]; Par "idx"]);
  Macro "sk_OPENSSL_BLOCK_set" ["sk"; "idx"; "ptr"] (Cast (Ptr Void)
    (Call "OPENSSL_sk_set" [Call "ossl_check_OPENSSL_BLOCK_sk_type" [Par "sk"]; Par "idx";
    Call "ossl_check_OPENSSL_BLOCK_type" [Par "ptr"]]));
  Macro "sk_OPENSSL_BLOCK_find" ["sk"; "ptr"]
    (Call "OPENSSL_sk_find" [Call "ossl_check_OPENSSL_BLOCK_sk_type" [Par "sk"];
    Call "ossl_check_OPENSSL_BLOCK_type" [Par "ptr"]]);
  Macro "sk_OPENSSL_BLOCK_find_ex" ["sk"; "ptr"]
    (Call "OPENSSL_sk_find_ex" [Call "ossl_check_OPENSSL_BLOCK_sk_type" [Par "sk"];
    Call "ossl_check_OPENSSL_BLOCK_type" [Par "ptr"]]);
  Macro "sk_OPENSSL_BLOCK_find_all" ["sk"; "ptr"; "pnum"]
    (Call "OPENSSL_sk_find_all" [Call "ossl_check_OPENSSL_BLOCK_sk_type" [Par "sk"];
    Call "ossl_check_OPENSSL_BLOCK_type" [Par "ptr"]; Par "pnum"]);
  Macro "sk_OPENSSL_BLOCK_sort" ["sk"] (Call "OPENSSL_sk_sort" [Call "ossl_check_OPENSSL_BLOCK_sk_type" [Par "sk"]]);
  Macro "sk_OPENSSL_BLOCK_is_sorted" ["sk"]
    (Call "OPENSSL_sk_is_sorted" [Call "ossl_check_const_OPENSSL_BLOCK_sk_type" [Par "sk"]]);
  Macro "sk_OPENSSL_BLOCK_dup" ["sk"] (Cast (Ptr (STACK_OF "OPENSSL_BLOCK"))
    (Call "OPENSSL_sk_dup" [Call "ossl_check_const_OPENSSL_BLOCK_sk_type" [Par "sk"]]));
  Macro "sk_OPENSSL_BLOCK_deep_copy" ["sk"; "copyfunc"; "freefunc"] (Cast (Ptr (STACK_OF "OPENSSL_BLOCK"))
    (Call "OPENSSL_sk_deep_copy" [Call "ossl_check_const_OPENSSL_BLOCK_sk_type" [Par "sk"];
    Call "ossl_check_OPENSSL_BLOCK_copyfunc_type" [Par "copyfunc"];
    Call "ossl_check_OPENSSL_BLOCK_freefunc_type" [Par "freefunc"]]));
  Macro "sk_OPENSSL_BLOCK_set_cmp_func" ["sk"; "cmp"] (Cast (sk_compfunc Void)
    (Call "OPENSSL_sk_set_cmp_func" [Call "ossl_check_OPENSSL_BLOCK_sk_type" [Par "sk"];
    Call "ossl_check_OPENSSL_BLOCK_compfunc_type" [Par "cmp"]]))].

Definition stack_SRP_gN_cache : stack := Stack "SRP_gN_cache" (TypeName "SRP_gN_cache") (TypeName "SRP_gN_cache") [
  Macro "sk_SRP_gN_cache_num" ["sk"] (Call "OPENSSL_sk_num" [Call "ossl_check_const_SRP_gN_cache_sk_type" [Par "sk"]]);
  Macro "sk_SRP_gN_cache_value" ["sk"; "idx"] (Cast (Ptr (TypeName "SRP_gN_cache"))
    (Call "OPENSSL_sk_value" [Call "ossl_check_const_SRP_gN_cache_sk_type" [Par "sk"]; Par "idx"]));
  Macro "sk_SRP_gN_cache_new" ["cmp"] (Cast (Ptr (STACK_OF "SRP_gN_cache"))
    (Call "OPENSSL_sk_new" [Call "ossl_check_SRP_gN_cache_compfunc_type" [Par "cmp"]]));
  Macro "sk_SRP_gN_cache_new_null" [] (Cast (Ptr (STACK_OF "SRP_gN_cache")) (Call "OPENSSL_sk_new_null" []));
  Macro "sk_SRP_gN_cache_new_reserve" ["cmp"; "n"] (Cast (Ptr (STACK_OF "SRP_gN_cache"))
    (Call "OPENSSL_sk_new_reserve" [Call "ossl_check_SRP_gN_cache_compfunc_type" [Par "cmp"]; Par "n"]));
  Macro "sk_SRP_gN_cache_reserve" ["sk"; "n"]
    (Call "OPENSSL_sk_reserve" [Call "ossl_check_SRP_gN_cache_sk_type" [Par "sk"]; Par "n"]);
  Macro "sk_SRP_gN_cache_free" ["sk"] (Call "OPENSSL_sk_free" [Call "ossl_check_SRP_gN_cache_sk_type" [Par "sk"]]);
  Macro "sk_SRP_gN_cache_zero" ["sk"] (Call "OPENSSL_sk_zero" [Call "ossl_check_SRP_gN_cache_sk_type" [Par "sk"]]);
  Macro "sk_SRP_gN_cache_delete" ["sk"; "i"] (Cast (Ptr (TypeName "SRP_gN_cache"))
    (Call "OPENSSL_sk_delete" [Call "ossl_check_SRP_gN_cache_sk_type" [Par "sk"]; Par "i"]));
  Macro "sk_SRP_gN_cache_delete_ptr" ["sk"; "ptr"] (Cast (Ptr (TypeName "SRP_gN_cache"))
    (Call "OPENSSL_sk_delete_ptr" [Call "ossl_check_SRP_gN_cache_sk_type" [Par "sk"];
    Call "ossl_check_SRP_gN_cache_type" [Par "ptr"]]));
  Macro "sk_SRP_gN_cache_push" ["sk"; "ptr"] (Call "OPENSSL_sk_push" [Call "ossl_check_SRP_gN_cache_sk_type" [Par "sk"];
    Call "ossl_check_SRP_gN_cache_type" [Par "ptr"]]);
  Macro "sk_SRP_gN_cache_unshift" ["sk"; "ptr"]
    (Call "OPENSSL_sk_unshift" [Call "ossl_check_SRP_gN_cache_sk_type" [Par "sk"];
    Call "ossl_check_SRP_gN_cache_type" [Par "ptr"]]);
  Macro "sk_SRP_gN_cache_pop" ["sk"] (Cast (Ptr (TypeName "SRP_gN_cache"))
    (Call "OPENSSL_sk_pop" [Call "ossl_check_SRP_gN_cache_sk_type" [Par "sk"]]));
  Macro "sk_SRP_gN_cache_shift" ["sk"] (Cast (Ptr (TypeName "SRP_gN_cache"))
    (Call "OPENSSL_sk_shift" [Call "ossl_check_SRP_gN_cache_sk_type" [Par "sk"]]));
  Macro "sk_SRP_gN_cache_pop_free" ["sk"; "freefunc"]
    (Call "OPENSSL_sk_pop_free" [Call "ossl_check_SRP_gN_cache_sk_type" [Par "sk"];
    Call "ossl_check_SRP_gN_cache_freefunc_type" [Par "freefunc"]]);
  Macro "sk_SRP_gN_cache_insert" ["sk"; "ptr"; "idx"]
    (Call "OPENSSL_sk_insert" [Call "ossl_check_SRP_gN_cache_sk_type" [Par "sk"];
    Call "ossl_check_SRP_gN_cache_type" [Par "ptr"]; Par "idx"]);
  Macro "sk_SRP_gN_cache_set" ["sk"; "idx"; "ptr"] (Cast (Ptr (TypeName "SRP_gN_cache"))
    (Call "OPENSSL_sk_set" [Call "ossl_check_SRP_gN_cache_sk_type" [Par "sk"]; Par "idx";
    Call "ossl_check_SRP_gN_cache_type" [Par "ptr"]]));
  Macro "sk_SRP_gN_cache_find" ["sk"; "ptr"] (Call "OPENSSL_sk_find" [Call "ossl_check_SRP_gN_cache_sk_type" [Par "sk"];
    Call "ossl_check_SRP_gN_cache_type" [Par "ptr"]]);
  Macro "sk_SRP_gN_cache_find_ex" ["sk"; "ptr"]
    (Call "OPENSSL_sk_find_ex" [Call "ossl_check_SRP_gN_cache_sk_type" [Par "sk"];
    Call "ossl_check_SRP_gN_cache_type" [Par "ptr"]]);
  Macro "sk_SRP_gN_cache_find_all" ["sk"; "ptr"; "pnum"]
    (Call "OPENSSL_sk_find_all" [Call "ossl_check_SRP_gN_cache_sk_type" [Par "sk"];
    Call "ossl_check_SRP_gN_cache_type" [Par "ptr"]; Par "pnum"]);
  Macro "sk_SRP_gN_cache_sort" ["sk"] (Call "OPENSSL_sk_sort" [Call "ossl_check_SRP_gN_cache_sk_type" [Par "sk"]]);
  Macro "sk_SRP_gN_cache_is_sorted" ["sk"]
    (Call "OPENSSL_sk_is_sorted" [Call "ossl_check_const_SRP_gN_cache_sk_type" [Par "sk"]]);
  Macro "sk_SRP_gN_cache_dup" ["sk"] (Cast (Ptr (STACK_OF "SRP_gN_cache"))
    (Call "OPENSSL_sk_dup" [Call "ossl_check_const_SRP_gN_cache_sk_type" [Par "sk"]]));
  Macro "sk_SRP_gN_cache_deep_copy" ["sk"; "copyfunc"; "freefunc"] (Cast (Ptr (STACK_OF "SRP_gN_cache"))
    (Call "OPENSSL_sk_deep_copy" [Call "ossl_check_const_SRP_gN_cache_sk_type" [Par "sk"];
    Call "ossl_check_SRP_gN_cache_copyfunc_type" [Par "copyfunc"];
    Call "ossl_check_SRP_gN_cache_freefunc_type" [Par "freefunc"]]));
  Macro "sk_SRP_gN_cache_set_cmp_func" ["sk"; "cmp"] (Cast (sk_compfunc (TypeName "SRP_gN_cache"))
    (Call "OPENSSL_sk_set_cmp_func" [Call "ossl_check_SRP_gN_cache_sk_type" [Par "sk"];
    Call "ossl_check_SRP_gN_cache_compfunc_type" [Par "cmp"]]))].

Definition stack_SRP_user_pwd : stack := Stack "SRP_user_pwd" (TypeName "SRP_user_pwd") (TypeName "SRP_user_pwd") [
  Macro "sk_SRP_user_pwd_num" ["sk"] (Call "OPENSSL_sk_num" [Call "ossl_check_const_SRP_user_pwd_sk_type" [Par "sk"]]);
  Macro "sk_SRP_user_pwd_value" ["sk"; "idx"] (Cast (Ptr (TypeName "SRP_user_pwd"))
    (Call "OPENSSL_sk_value" [Call "ossl_check_const_SRP_user_pwd_sk_type" [Par "sk"]; Par "idx"]));
  Macro "sk_SRP_user_pwd_new" ["cmp"] (Cast (Ptr (STACK_OF "SRP_user_pwd"))
    (Call "OPENSSL_sk_new" [Call "ossl_check_SRP_user_pwd_compfunc_type" [Par "cmp"]]));
  Macro "sk_SRP_user_pwd_new_null" [] (Cast (Ptr (STACK_OF "SRP_user_pwd")) (Call "OPENSSL_sk_new_null" []));
  Macro "sk_SRP_user_pwd_new_reserve" ["cmp"; "n"] (Cast (Ptr (STACK_OF "SRP_user_pwd"))
    (Call "OPENSSL_sk_new_reserve" [Call "ossl_check_SRP_user_pwd_compfunc_type" [Par "cmp"]; Par "n"]));
  Macro "sk_SRP_user_pwd_reserve" ["sk"; "n"]
    (Call "OPENSSL_sk_reserve" [Call "ossl_check_SRP_user_pwd_sk_type" [Par "sk"]; Par "n"]);
  Macro "sk_SRP_user_pwd_free" ["sk"] (Call "OPENSSL_sk_free" [Call "ossl_check_SRP_user_pwd_sk_type" [Par "sk"]]);
  Macro "sk_SRP_user_pwd_zero" ["sk"] (Call "OPENSSL_sk_zero" [Call "ossl_check_SRP_user_pwd_sk_type" [Par "sk"]]);
  Macro "sk_SRP_user_pwd_delete" ["sk"; "i"] (Cast (Ptr (TypeName "SRP_user_pwd"))
    (Call "OPENSSL_sk_delete" [Call "ossl_check_SRP_user_pwd_sk_type" [Par "sk"]; Par "i"]));
  Macro "sk_SRP_user_pwd_delete_ptr" ["sk"; "ptr"] (Cast (Ptr (TypeName "SRP_user_pwd"))
    (Call "OPENSSL_sk_delete_ptr" [Call "ossl_check_SRP_user_pwd_sk_type" [Par "sk"];
    Call "ossl_check_SRP_user_pwd_type" [Par "ptr"]]));
  Macro "sk_SRP_user_pwd_push" ["sk"; "ptr"] (Call "OPENSSL_sk_push" [Call "ossl_check_SRP_user_pwd_sk_type" [Par "sk"];
    Call "ossl_check_SRP_user_pwd_type" [Par "ptr"]]);
  Macro "sk_SRP_user_pwd_unshift" ["sk"; "ptr"]
    (Call "OPENSSL_sk_unshift" [Call "ossl_check_SRP_user_pwd_sk_type" [Par "sk"];
    Call "ossl_check_SRP_user_pwd_type" [Par "ptr"]]);
  Macro "sk_SRP_user_pwd_pop" ["sk"] (Cast (Ptr (TypeName "SRP_user_pwd"))
    (Call "OPENSSL_sk_pop" [Call "ossl_check_SRP_user_pwd_sk_type" [Par "sk"]]));
  Macro "sk_SRP_user_pwd_shift" ["sk"] (Cast (Ptr (TypeName "SRP_user_pwd"))
    (Call "OPENSSL_sk_shift" [Call "ossl_check_SRP_user_pwd_sk_type" [Par "sk"]]));
  Macro "sk_SRP_user_pwd_pop_free" ["sk"; "freefunc"]
    (Call "OPENSSL_sk_pop_free" [Call "ossl_check_SRP_user_pwd_sk_type" [Par "sk"];
    Call "ossl_check_SRP_user_pwd_freefunc_type" [Par "freefunc"]]);
  Macro "sk_SRP_user_pwd_insert" ["sk"; "ptr"; "idx"]
    (Call "OPENSSL_sk_insert" [Call "ossl_check_SRP_user_pwd_sk_type" [Par "sk"];
    Call "ossl_check_SRP_user_pwd_type" [Par "ptr"]; Par "idx"]);
  Macro "sk_SRP_user_pwd_set" ["sk"; "idx"; "ptr"] (Cast (Ptr (TypeName "SRP_user_pwd"))
    (Call "OPENSSL_sk_set" [Call "ossl_check_SRP_user_pwd_sk_type" [Par "sk"]; Par "idx";
    Call "ossl_check_SRP_user_pwd_type" [Par "ptr"]]));
  Macro "sk_SRP_user_pwd_find" ["sk"; "ptr"] (Call "OPENSSL_sk_find" [Call "ossl_check_SRP_user_pwd_sk_type" [Par "sk"];
    Call "ossl_check_SRP_user_pwd_type" [Par "ptr"]]);
  Macro "sk_SRP_user_pwd_find_ex" ["sk"; "ptr"]
    (Call "OPENSSL_sk_find_ex" [Call "ossl_check_SRP_user_pwd_sk_type" [Par "sk"];
    Call "ossl_check_SRP_user_pwd_type" [Par "ptr"]]);
  Macro "sk_SRP_user_pwd_find_all" ["sk"; "ptr"; "pnum"]
    (Call "OPENSSL_sk_find_all" [Call "ossl_check_SRP_user_pwd_sk_type" [Par "sk"];
    Call "ossl_check_SRP_user_pwd_type" [Par "ptr"]; Par "pnum"]);
  Macro "sk_SRP_user_pwd_sort" ["sk"] (Call "OPENSSL_sk_sort" [Call "ossl_check_SRP_user_pwd_sk_type" [Par "sk"]]);
  Macro "sk_SRP_user_pwd_is_sorted" ["sk"]
    (Call "OPENSSL_sk_is_sorted" [Call "ossl_check_const_SRP_user_pwd_sk_type" [Par "sk"]]);
  Macro "sk_SRP_user_pwd_dup" ["sk"] (Cast (Ptr (STACK_OF "SRP_user_pwd"))
    (Call "OPENSSL_sk_dup" [Call "ossl_check_const_SRP_user_pwd_sk_type" [Par "sk"]]));
  Macro "sk_SRP_user_pwd_deep_copy" ["sk"; "copyfunc"; "freefunc"] (Cast (Ptr (STACK_OF "SRP_user_pwd"))
    (Call "OPENSSL_sk_deep_copy" [Call "ossl_check_const_SRP_user_pwd_sk_type" [Par "sk"];
    Call "ossl_check_SRP_user_pwd_copyfunc_type" [Par "copyfunc"];
    Call "ossl_check_SRP_user_pwd_freefunc_type" [Par "freefunc"]]));
  Macro "sk_SRP_user_pwd_set_cmp_func" ["sk"; "cmp"] (Cast (sk_compfunc (TypeName "SRP_user_pwd"))
    (Call "OPENSSL_sk_set_cmp_func" [Call "ossl_check_SRP_user_pwd_sk_type" [Par "sk"];
    Call "ossl_check_SRP_user_pwd_compfunc_type" [Par "cmp"]]))].

Definition stack_SRP_gN : stack := Stack "SRP_gN" (TypeName "SRP_gN") (TypeName "SRP_gN") [
  Macro "sk_SRP_gN_num" ["sk"] (Call "OPENSSL_sk_num" [Call "ossl_check_const_SRP_gN_sk_type" [Par "sk"]]);
  Macro "sk_SRP_gN_value" ["sk"; "idx"] (Cast (Ptr (TypeName "SRP_gN"))
    (Call "OPENSSL_sk_value" [Call "ossl_check_const_SRP_gN_sk_type" [Par "sk"]; Par "idx"]));
  Macro "sk_SRP_gN_new" ["cmp"] (Cast (Ptr (STACK_OF "SRP_gN"))
    (Call "OPENSSL_sk_new" [Call "ossl_check_SRP_gN_compfunc_type" [Par "cmp"]]));
  Macro "sk_SRP_gN_new_null" [] (Cast (Ptr (STACK_OF "SRP_gN")) (Call "OPENSSL_sk_new_null" []));
  Macro "sk_SRP_gN_new_reserve" ["cmp"; "n"] (Cast (Ptr (STACK_OF "SRP_gN"))
    (Call "OPENSSL_sk_new_reserve" [Call "ossl_check_SRP_gN_compfunc_type" [Par "cmp"]; Par "n"]));
  Macro "sk_SRP_gN_reserve" ["sk"; "n"] (Call "OPENSSL_sk_reserve" [Call "ossl_check_SRP_gN_sk_type" [Par "sk"];
    Par "n"]);
  Macro "sk_SRP_gN_free" ["sk"] (Call "OPENSSL_sk_free" [Call "ossl_check_SRP_gN_sk_type" [Par "sk"]]);
  Macro "sk_SRP_gN_zero" ["sk"] (Call "OPENSSL_sk_zero" [Call "ossl_check_SRP_gN_sk_type" [Par "sk"]]);
  Macro "sk_SRP_gN_delete" ["sk"; "i"] (Cast (Ptr (TypeName "SRP_gN"))
    (Call "OPENSSL_sk_delete" [Call "ossl_check_SRP_gN_sk_type" [Par "sk"]; Par "i"]));
  Macro "sk_SRP_gN_delete_ptr" ["sk"; "ptr"] (Cast (Ptr (TypeName "SRP_gN"))
    (Call "OPENSSL_sk_delete_ptr" [Call "ossl_check_SRP_gN_sk_type" [Par "sk"];
    Call "ossl_check_SRP_gN_type" [Par "ptr"]]));
  Macro "sk_SRP_gN_push" ["sk"; "ptr"] (Call "OPENSSL_sk_push" [Call "ossl_check_SRP_gN_sk_type" [Par "sk"];
    Call "ossl_check_SRP_gN_type" [Par "ptr"]]);
  Macro "sk_SRP_gN_unshift" ["sk"; "ptr"] (Call "OPENSSL_sk_unshift" [Call "ossl_check_SRP_gN_sk_type" [Par "sk"];
    Call "ossl_check_SRP_gN_type" [Par "ptr"]]);
  Macro "sk_SRP_gN_pop" ["sk"] (Cast (Ptr (TypeName "SRP_gN"))
    (Call "OPENSSL_sk_pop" [Call "ossl_check_SRP_gN_sk_type" [Par "sk"]]));
  Macro "sk_SRP_gN_shift" ["sk"] (Cast (Ptr (TypeName "SRP_gN"))
    (Call "OPENSSL_sk_shift" [Call "ossl_check_SRP_gN_sk_type" [Par "sk"]]));
  Macro "sk_SRP_gN_pop_free" ["sk"; "freefunc"]
    (Call "OPENSSL_sk_pop_free" [Call "ossl_check_SRP_gN_sk_type" [Par "sk"];
    Call "ossl_check_SRP_gN_freefunc_type" [Par "freefunc"]]);
  Macro "sk_SRP_gN_insert" ["sk"; "ptr"; "idx"] (Call "OPENSSL_sk_insert" [Call "ossl_check_SRP_gN_sk_type" [Par "sk"];
    Call "ossl_check_SRP_gN_type" [Par "ptr"]; Par "idx"]);
  Macro "sk_SRP_gN_set" ["sk"; "idx"; "ptr"] (Cast (Ptr (TypeName "SRP_gN"))
    (Call "OPENSSL_sk_set" [Call "ossl_check_SRP_gN_sk_type" [Par "sk"]; Par "idx";
    Call "ossl_check_SRP_gN_type" [Par "ptr"]]));
  Macro "sk_SRP_gN_find" ["sk"; "ptr"] (Call "OPENSSL_sk_find" [Call "ossl_check_SRP_gN_sk_type" [Par "sk"];
    Call "ossl_check_SRP_gN_type" [Par "ptr"]]);
  Macro "sk_SRP_gN_find_ex" ["sk"; "ptr"] (Call "OPENSSL_sk_find_ex" [Call "ossl_check_SRP_gN_sk_type" [Par "sk"];
    Call "ossl_check_SRP_gN_type" [Par "ptr"]]);
  Macro "sk_SRP_gN_find_all" ["sk"; "ptr"; "pnum"]
    (Call "OPENSSL_sk_find_all" [Call "ossl_check_SRP_gN_sk_type" [Par "sk"];
    Call "ossl_check_SRP_gN_type" [Par "ptr"]; Par "pnum"]);
  Macro "sk_SRP_gN_sort" ["sk"] (Call "OPENSSL_sk_sort" [Call "ossl_check_SRP_gN_sk_type" [Par "sk"]]);
  Macro "sk_SRP_gN_is_sorted" ["sk"] (Call "OPENSSL_sk_is_sorted" [Call "ossl_check_const_SRP_gN_sk_type" [Par "sk"]]);
  Macro "sk_SRP_gN_dup" ["sk"] (Cast (Ptr (STACK_OF "SRP_gN"))
    (Call "OPENSSL_sk_dup" [Call "ossl_check_const_SRP_gN_sk_type" [Par "sk"]]));
  Macro "sk_SRP_gN_deep_copy" ["sk"; "copyfunc"; "freefunc"] (Cast (Ptr (STACK_OF "SRP_gN"))
    (Call "OPENSSL_sk_deep_copy" [Call "ossl_check_const_SRP_gN_sk_type" [Par "sk"];
    Call "ossl_check_SRP_gN_copyfunc_type" [Par "copyfunc"];
    Call "ossl_check_SRP_gN_freefunc_type" [Par "freefunc"]]));
  Macro "sk_SRP_gN_set_cmp_func" ["sk"; "cmp"] (Cast (sk_compfunc (TypeName "SRP_gN"))
    (Call "OPENSSL_sk_set_cmp_func" [Call "ossl_check_SRP_gN_sk_type" [Par "sk"];
    Call "ossl_check_SRP_gN_compfunc_type" [Par "cmp"]]))].

Definition stack_SRTP_PROTECTION_PROFILE : stack := Stack "SRTP_PROTECTION_PROFILE" (TypeName "SRTP_PROTECTION_PROFILE") (TypeName "SRTP_PROTECTION_PROFILE") [
  Macro "sk_SRTP_PROTECTION_PROFILE_num" ["sk"]
    (Call "OPENSSL_sk_num" [Call "ossl_check_const_SRTP_PROTECTION_PROFILE_sk_type" [Par "sk"]]);
  Macro "sk_SRTP_PROTECTION_PROFILE_value" ["sk"; "idx"] (Cast (Ptr (TypeName "SRTP_PROTECTION_PROFILE"))
    (Call "OPENSSL_sk_value" [Call "ossl_check_const_SRTP_PROTECTION_PROFILE_sk_type" [Par "sk"]; Par "idx"]));
  Macro "sk_SRTP_PROTECTION_PROFILE_new" ["cmp"] (Cast (Ptr (STACK_OF "SRTP_PROTECTION_PROFILE"))
    (Call "OPENSSL_sk_new" [Call "ossl_check_SRTP_PROTECTION_PROFILE_compfunc_type" [Par "cmp"]]));
  Macro "sk_SRTP_PROTECTION_PROFILE_new_null" [] (Cast (Ptr (STACK_OF "SRTP_PROTECTION_PROFILE"))
    (Call "OPENSSL_sk_new_null" []));
  Macro "sk_SRTP_PROTECTION_PROFILE_new_reserve" ["cmp"; "n"] (Cast (Ptr (STACK_OF "SRTP_PROTECTION_PROFILE"))
    (Call "OPENSSL_sk_new_reserve" [Call "ossl_check_SRTP_PROTECTION_PROFILE_compfunc_type" [Par "cmp"]; Par "n"]));
  Macro "sk_SRTP_PROTECTION_PROFILE_reserve" ["sk"; "n"]
    (Call "OPENSSL_sk_reserve" [Call "ossl_check_SRTP_PROTECTION_PROFILE_sk_type" [Par "sk"]; Par "n"]);
  Macro "sk_SRTP_PROTECTION_PROFILE_free" ["sk"]
    (Call "OPENSSL_sk_free" [Call "ossl_check_SRTP_PROTECTION_PROFILE_sk_type" [Par "sk"]]);
  Macro "sk_SRTP_PROTECTION_PROFILE_zero" ["sk"]
    (Call "OPENSSL_sk_zero" [Call "ossl_check_SRTP_PROTECTION_PROFILE_sk_type" [Par "sk"]]);
  Macro "sk_SRTP_PROTECTION_PROFILE_delete" ["sk"; "i"] (Cast (Ptr (TypeName "SRTP_PROTECTION_PROFILE"))
    (Call "OPENSSL_sk_delete" [Call "ossl_check_SRTP_PROTECTION_PROFILE_sk_type" [Par "sk"]; Par "i"]));
  Macro "sk_SRTP_PROTECTION_PROFILE_delete_ptr" ["sk"; "ptr"] (Cast (Ptr (TypeName "SRTP_PROTECTION_PROFILE"))
    (Call "OPENSSL_sk_delete_ptr" [Call "ossl_check_SRTP_PROTECTION_PROFILE_sk_type" [Par "sk"];
    Call "ossl_check_SRTP_PROTECTION_PROFILE_type" [Par "ptr"]]));
  Macro "sk_SRTP_PROTECTION_PROFILE_push" ["sk"; "ptr"]
    (Call "OPENSSL_sk_push" [Call "ossl_check_SRTP_PROTECTION_PROFILE_sk_type" [Par "sk"];
    Call "ossl_check_SRTP_PROTECTION_PROFILE_type" [Par "ptr"]]);
  Macro "sk_SRTP_PROTECTION_PROFILE_unshift" ["sk"; "ptr"]
    (Call "OPENSSL_sk_unshift" [Call "ossl_check_SRTP_PROTECTION_PROFILE_sk_type" [Par "sk"];
    Call "ossl_check_SRTP_PROTECTION_PROFILE_type" [Par "ptr"]]);
  Macro "sk_SRTP_PROTECTION_PROFILE_pop" ["sk"] (Cast (Ptr (TypeName "SRTP_PROTECTION_PROFILE"))
    (Call "OPENSSL_sk_pop" [Call "ossl_check_SRTP_PROTECTION_PROFILE_sk_type" [Par "sk"]]));
  Macro "sk_SRTP_PROTECTION_PROFILE_shift" ["sk"] (Cast (Ptr (TypeName "SRTP_PROTECTION_PROFILE"))
    (Call "OPENSSL_sk_shift" [Call "ossl_check_SRTP_PROTECTION_PROFILE_sk_type" [Par "sk"]]));
  Macro "sk_SRTP_PROTECTION_PROFILE_pop_free" ["sk"; "freefunc"]
    (Call "OPENSSL_sk_pop_free" [Call "ossl_check_SRTP_PROTECTION_PROFILE_sk_type" [Par "sk"];
    Call "ossl_check_SRTP_PROTECTION_PROFILE_freefunc_type" [Par "freefunc"]]);
  Macro "sk_SRTP_PROTECTION_PROFILE_insert" ["sk"; "ptr"; "idx"]
    (Call "OPENSSL_sk_insert" [Call "ossl_check_SRTP_PROTECTION_PROFILE_sk_type" [Par "sk"];
    Call "ossl_check_SRTP_PROTECTION_PROFILE_type" [Par "ptr"]; Par "idx"]);
  Macro "sk_SRTP_PROTECTION_PROFILE_set" ["sk"; "idx"; "ptr"] (Cast (Ptr (TypeName "SRTP_PROTECTION_PROFILE"))
    (Call "OPENSSL_sk_set" [Call "ossl_check_SRTP_PROTECTION_PROFILE_sk_type" [Par "sk"]; Par "idx";
    Call "ossl_check_SRTP_PROTECTION_PROFILE_type" [Par "ptr"]]));
  Macro "sk_SRTP_PROTECTION_PROFILE_find" ["sk"; "ptr"]
    (Call "OPENSSL_sk_find" [Call "ossl_check_SRTP_PROTECTION_PROFILE_sk_type" [Par "sk"];
    Call "ossl_check_SRTP_PROTECTION_PROFILE_type" [Par "ptr"]]);
  Macro "sk_SRTP_PROTECTION_PROFILE_find_ex" ["sk"; "ptr"]
    (Call "OPENSSL_sk_find_ex" [Call "ossl_check_SRTP_PROTECTION_PROFILE_sk_type" [Par "sk"];
    Call "ossl_check_SRTP_PROTECTION_PROFILE_type" [Par "ptr"]]);
  Macro "sk_SRTP_PROTECTION_PROFILE_find_all" ["sk"; "ptr"; "pnum"]
    (Call "OPENSSL_sk_find_all" [Call "ossl_check_SRTP_PROTECTION_PROFILE_sk_type" [Par "sk"];
    Call "ossl_check_SRTP_PROTECTION_PROFILE_type" [Par "ptr"]; Par "pnum"]);
  Macro "sk_SRTP_PROTECTION_PROFILE_sort" ["sk"]
    (Call "OPENSSL_sk_sort" [Call "ossl_check_SRTP_PROTECTION_PROFILE_sk_type" [Par "sk"]]);
  Macro "sk_SRTP_PROTECTION_PROFILE_is_sorted" ["sk"]
    (Call "OPENSSL_sk_is_sorted" [Call "ossl_check_const_SRTP_PROTECTION_PROFILE_sk_type" [Par "sk"]]);
  Macro "sk_SRTP_PROTECTION_PROFILE_dup" ["sk"] (Cast (Ptr (STACK_OF "SRTP_PROTECTION_PROFILE"))
    (Call "OPENSSL_sk_dup" [Call "ossl_check_const_SRTP_PROTECTION_PROFILE_sk_type" [Par "sk"]]));
  Macro "sk_SRTP_PROTECTION_PROFILE_deep_copy" ["sk"; "copyfunc"; "freefunc"]
    (Cast (Ptr (STACK_OF "SRTP_PROTECTION_PROFILE"))
    (Call "OPENSSL_sk_deep_copy" [Call "ossl_check_const_SRTP_PROTECTION_PROFILE_sk_type" [Par "sk"];
    Call "ossl_check_SRTP_PROTECTION_PROFILE_copyfunc_type" [Par "copyfunc"];
    Call "ossl_check_SRTP_PROTECTION_PROFILE_freefunc_type" [Par "freefunc"]]));
  Macro "sk_SRTP_PROTECTION_PROFILE_set_cmp_func" ["sk"; "cmp"] (Cast (sk_compfunc (TypeName "SRTP_PROTECTION_PROFILE"))
    (Call "OPENSSL_sk_set_cmp_func" [Call "ossl_check_SRTP_PROTECTION_PROFILE_sk_type" [Par "sk"];
    Call "ossl_check_SRTP_PROTECTION_PROFILE_compfunc_type" [Par "cmp"]]))].

Definition stack_SSL_CIPHER : stack := Stack "SSL_CIPHER" (Const (TypeName "SSL_CIPHER")) (TypeName "SSL_CIPHER") [
  Macro "sk_SSL_CIPHER_num" ["sk"] (Call "OPENSSL_sk_num" [Call "ossl_check_const_SSL_CIPHER_sk_type" [Par "sk"]]);
  Macro "sk_SSL_CIPHER_value" ["sk"; "idx"] (Cast (Ptr (Const (TypeName "SSL_CIPHER")))
    (Call "OPENSSL_sk_value" [Call "ossl_check_const_SSL_CIPHER_sk_type" [Par "sk"]; Par "idx"]));
  Macro "sk_SSL_CIPHER_new" ["cmp"] (Cast (Ptr (STACK_OF "SSL_CIPHER"))
    (Call "OPENSSL_sk_new" [Call "ossl_check_SSL_CIPHER_compfunc_type" [Par "cmp"]]));
  Macro "sk_SSL_CIPHER_new_null" [] (Cast (Ptr (STACK_OF "SSL_CIPHER")) (Call "OPENSSL_sk_new_null" []));
  Macro "sk_SSL_CIPHER_new_reserve" ["cmp"; "n"] (Cast (Ptr (STACK_OF "SSL_CIPHER"))
    (Call "OPENSSL_sk_new_reserve" [Call "ossl_check_SSL_CIPHER_compfunc_type" [Par "cmp"]; Par "n"]));
  Macro "sk_SSL_CIPHER_reserve" ["sk"; "n"] (Call "OPENSSL_sk_reserve" [Call "ossl_check_SSL_CIPHER_sk_type" [Par "sk"];
    Par "n"]);
  Macro "sk_SSL_CIPHER_free" ["sk"] (Call "OPENSSL_sk_free" [Call "ossl_check_SSL_CIPHER_sk_type" [Par "sk"]]);
  Macro "sk_SSL_CIPHER_zero" ["sk"] (Call "OPENSSL_sk_zero" [Call "ossl_check_SSL_CIPHER_sk_type" [Par "sk"]]);
  Macro "sk_SSL_CIPHER_delete" ["sk"; "i"] (Cast (Ptr (Const (TypeName "SSL_CIPHER")))
    (Call "OPENSSL_sk_delete" [Call "ossl_check_SSL_CIPHER_sk_type" [Par "sk"]; Par "i"]));
  Macro "sk_SSL_CIPHER_delete_ptr" ["sk"; "ptr"] (Cast (Ptr (Const (TypeName "SSL_CIPHER")))
    (Call "OPENSSL_sk_delete_ptr" [Call "ossl_check_SSL_CIPHER_sk_type" [Par "sk"];
    Call "ossl_check_SSL_CIPHER_type" [Par "ptr"]]));
  Macro "sk_SSL_CIPHER_push" ["sk"; "ptr"] (Call "OPENSSL_sk_push" [Call "ossl_check_SSL_CIPHER_sk_type" [Par "sk"];
    Call "ossl_check_SSL_CIPHER_type" [Par "ptr"]]);
  Macro "sk_SSL_CIPHER_unshift" ["sk"; "ptr"]
    (Call "OPENSSL_sk_unshift" [Call "ossl_check_SSL_CIPHER_sk_type" [Par "sk"];
    Call "ossl_check_SSL_CIPHER_type" [Par "ptr"]]);
  Macro "sk_SSL_CIPHER_pop" ["sk"] (Cast (Ptr (Const (TypeName "SSL_CIPHER")))
    (Call "OPENSSL_sk_pop" [Call "ossl_check_SSL_CIPHER_sk_type" [Par "sk"]]));
  Macro "sk_SSL_CIPHER_shift" ["sk"] (Cast (Ptr (Const (TypeName "SSL_CIPHER")))
    (Call "OPENSSL_sk_shift" [Call "ossl_check_SSL_CIPHER_sk_type" [Par "sk"]]));
  Macro "sk_SSL_CIPHER_pop_free" ["sk"; "freefunc"]
    (Call "OPENSSL_sk_pop_free" [Call "ossl_check_SSL_CIPHER_sk_type" [Par "sk"];
    Call "ossl_check_SSL_CIPHER_freefunc_type" [Par "freefunc"]]);
  Macro "sk_SSL_CIPHER_insert" ["sk"; "ptr"; "idx"]
    (Call "OPENSSL_sk_insert" [Call "ossl_check_SSL_CIPHER_sk_type" [Par "sk"];
    Call "ossl_check_SSL_CIPHER_type" [Par "ptr"]; Par "idx"]);
  Macro "sk_SSL_CIPHER_set" ["sk"; "idx"; "ptr"] (Cast (Ptr (Const (TypeName "SSL_CIPHER")))
    (Call "OPENSSL_sk_set" [Call "ossl_check_SSL_CIPHER_sk_type" [Par "sk"]; Par "idx";
    Call "ossl_check_SSL_CIPHER_type" [Par "ptr"]]));
  Macro "sk_SSL_CIPHER_find" ["sk"; "ptr"] (Call "OPENSSL_sk_find" [Call "ossl_check_SSL_CIPHER_sk_type" [Par "sk"];
    Call "ossl_check_SSL_CIPHER_type" [Par "ptr"]]);
  Macro "sk_SSL_CIPHER_find_ex" ["sk"; "ptr"]
    (Call "OPENSSL_sk_find_ex" [Call "ossl_check_SSL_CIPHER_sk_type" [Par "sk"];
    Call "ossl_check_SSL_CIPHER_type" [Par "ptr"]]);
  Macro "sk_SSL_CIPHER_find_all" ["sk"; "ptr"; "pnum"]
    (Call "OPENSSL_sk_find_all" [Call "ossl_check_SSL_CIPHER_sk_type" [Par "sk"];
    Call "ossl_check_SSL_CIPHER_type" [Par "ptr"]; Par "pnum"]);
  Macro "sk_SSL_CIPHER_sort" ["sk"] (Call "OPENSSL_sk_sort" [Call "ossl_check_SSL_CIPHER_sk_type" [Par "sk"]]);
  Macro "sk_SSL_CIPHER_is_sorted" ["sk"]
    (Call "OPENSSL_sk_is_sorted" [Call "ossl_check_const_SSL_CIPHER_sk_type" [Par "sk"]]);
  Macro "sk_SSL_CIPHER_dup" ["sk"] (Cast (Ptr (STACK_OF "SSL_CIPHER"))
    (Call "OPENSSL_sk_dup" [Call "ossl_check_const_SSL_CIPHER_sk_type" [Par "sk"]]));
  Macro "sk_SSL_CIPHER_deep_copy" ["sk"; "copyfunc"; "freefunc"] (Cast (Ptr (STACK_OF "SSL_CIPHER"))
    (Call "OPENSSL_sk_deep_copy" [Call "ossl_check_const_SSL_CIPHER_sk_type" [Par "sk"];
    Call "ossl_check_SSL_CIPHER_copyfunc_type" [Par "copyfunc"];
    Call "ossl_check_SSL_CIPHER_freefunc_type" [Par "freefunc"]]));
  Macro "sk_SSL_CIPHER_set_cmp_func" ["sk"; "cmp"] (Cast (sk_compfunc (TypeName "SSL_CIPHER"))
    (Call "OPENSSL_sk_set_cmp_func" [Call "ossl_check_SSL_CIPHER_sk_type" [Par "sk"];
    Call "ossl_check_SSL_CIPHER_compfunc_type" [Par "cmp"]]))].

Definition stack_SSL_COMP : stack := Stack "SSL_COMP" (TypeName "SSL_COMP") (TypeName "SSL_COMP") [
  Macro "sk_SSL_COMP_num" ["sk"] (Call "OPENSSL_sk_num" [Call "ossl_check_const_SSL_COMP_sk_type" [Par "sk"]]);
  Macro "sk_SSL_COMP_value" ["sk"; "idx"] (Cast (Ptr (TypeName "SSL_COMP"))
    (Call "OPENSSL_sk_value" [Call "ossl_check_const_SSL_COMP_sk_type" [Par "sk"]; Par "idx"]));
  Macro "sk_SSL_COMP_new" ["cmp"] (Cast (Ptr (STACK_OF "SSL_COMP"))
    (Call "OPENSSL_sk_new" [Call "ossl_check_SSL_COMP_compfunc_type" [Par "cmp"]]));
  Macro "sk_SSL_COMP_new_null" [] (Cast (Ptr (STACK_OF "SSL_COMP")) (Call "OPENSSL_sk_new_null" []));
  Macro "sk_SSL_COMP_new_reserve" ["cmp"; "n"] (Cast (Ptr (STACK_OF "SSL_COMP"))
    (Call "OPENSSL_sk_new_reserve" [Call "ossl_check_SSL_COMP_compfunc_type" [Par "cmp"]; Par "n"]));
  Macro "sk_SSL_COMP_reserve" ["sk"; "n"] (Call "OPENSSL_sk_reserve" [Call "ossl_check_SSL_COMP_sk_type" [Par "sk"];
    Par "n"]);
  Macro "sk_SSL_COMP_free" ["sk"] (Call "OPENSSL_sk_free" [Call "ossl_check_SSL_COMP_sk_type" [Par "sk"]]);
  Macro "sk_SSL_COMP_zero" ["sk"] (Call "OPENSSL_sk_zero" [Call "ossl_check_SSL_COMP_sk_type" [Par "sk"]]);
  Macro "sk_SSL_COMP_delete" ["sk"; "i"] (Cast (Ptr (TypeName "SSL_COMP"))
    (Call "OPENSSL_sk_delete" [Call "ossl_check_SSL_COMP_sk_type" [Par "sk"]; Par "i"]));
  Macro "sk_SSL_COMP_delete_ptr" ["sk"; "ptr"] (Cast (Ptr (TypeName "SSL_COMP"))
    (Call "OPENSSL_sk_delete_ptr" [Call "ossl_check_SSL_COMP_sk_type" [Par "sk"];
    Call "ossl_check_SSL_COMP_type" [Par "ptr"]]));
  Macro "sk_SSL_COMP_push" ["sk"; "ptr"] (Call "OPENSSL_sk_push" [Call "ossl_check_SSL_COMP_sk_type" [Par "sk"];
    Call "ossl_check_SSL_COMP_type" [Par "ptr"]]);
  Macro "sk_SSL_COMP_unshift" ["sk"; "ptr"] (Call "OPENSSL_sk_unshift" [Call "ossl_check_SSL_COMP_sk_type" [Par "sk"];
    Call "ossl_check_SSL_COMP_type" [Par "ptr"]]);
  Macro "sk_SSL_COMP_pop" ["sk"] (Cast (Ptr (TypeName "SSL_COMP"))
    (Call "OPENSSL_sk_pop" [Call "ossl_check_SSL_COMP_sk_type" [Par "sk"]]));
  Macro "sk_SSL_COMP_shift" ["sk"] (Cast (Ptr (TypeName "SSL_COMP"))
    (Call "OPENSSL_sk_shift" [Call "ossl_check_SSL_COMP_sk_type" [Par "sk"]]));
  Macro "sk_SSL_COMP_pop_free" ["sk"; "freefunc"]
    (Call "OPENSSL_sk_pop_free" [Call "ossl_check_SSL_COMP_sk_type" [Par "sk"];
    Call "ossl_check_SSL_COMP_freefunc_type" [Par "freefunc"]]);
  Macro "sk_SSL_COMP_insert" ["sk"; "ptr"; "idx"]
    (Call "OPENSSL_sk_insert" [Call "ossl_check_SSL_COMP_sk_type" [Par "sk"];
    Call "ossl_check_SSL_COMP_type" [Par "ptr"]; Par "idx"]);
  Macro "sk_SSL_COMP_set" ["sk"; "idx"; "ptr"] (Cast (Ptr (TypeName "SSL_COMP"))
    (Call "OPENSSL_sk_set" [Call "ossl_check_SSL_COMP_sk_type" [Par "sk"]; Par "idx";
    Call "ossl_check_SSL_COMP_type" [Par "ptr"]]));
  Macro "sk_SSL_COMP_find" ["sk"; "ptr"] (Call "OPENSSL_sk_find" [Call "ossl_check_SSL_COMP_sk_type" [Par "sk"];
    Call "ossl_check_SSL_COMP_type" [Par "ptr"]]);
  Macro "sk_SSL_COMP_find_ex" ["sk"; "ptr"] (Call "OPENSSL_sk_find_ex" [Call "ossl_check_SSL_COMP_sk_type" [Par "sk"];
    Call "ossl_check_SSL_COMP_type" [Par "ptr"]]);
  Macro "sk_SSL_COMP_find_all" ["sk"; "ptr"; "pnum"]
    (Call "OPENSSL_sk_find_all" [Call "ossl_check_SSL_COMP_sk_type" [Par "sk"];
    Call "ossl_check_SSL_COMP_type" [Par "ptr"]; Par "pnum"]);
  Macro "sk_SSL_COMP_sort" ["sk"] (Call "OPENSSL_sk_sort" [Call "ossl_check_SSL_COMP_sk_type" [Par "sk"]]);
  Macro "sk_SSL_COMP_is_sorted" ["sk"]
    (Call "OPENSSL_sk_is_sorted" [Call "ossl_check_const_SSL_COMP_sk_type" [Par "sk"]]);
  Macro "sk_SSL_COMP_dup" ["sk"] (Cast (Ptr (STACK_OF "SSL_COMP"))
    (Call "OPENSSL_sk_dup" [Call "ossl_check_const_SSL_COMP_sk_type" [Par "sk"]]));
  Macro "sk_SSL_COMP_deep_copy" ["sk"; "copyfunc"; "freefunc"] (Cast (Ptr (STACK_OF "SSL_COMP"))
    (Call "OPENSSL_sk_deep_copy" [Call "ossl_check_const_SSL_COMP_sk_type" [Par "sk"];
    Call "ossl_check_SSL_COMP_copyfunc_type" [Par "copyfunc"];
    Call "ossl_check_SSL_COMP_freefunc_type" [Par "freefunc"]]));
  Macro "sk_SSL_COMP_set_cmp_func" ["sk"; "cmp"] (Cast (sk_compfunc (TypeName "SSL_COMP"))
    (Call "OPENSSL_sk_set_cmp_func" [Call "ossl_check_SSL_COMP_sk_type" [Par "sk"];
    Call "ossl_check_SSL_COMP_compfunc_type" [Par "cmp"]]))].

Definition stack_UI_STRING : stack := Stack "UI_STRING" (TypeName "UI_STRING") (TypeName "UI_STRING") [
  Macro "sk_UI_STRING_num" ["sk"] (Call "OPENSSL_sk_num" [Call "ossl_check_const_UI_STRING_sk_type" [Par "sk"]]);
  Macro "sk_UI_STRING_value" ["sk"; "idx"] (Cast (Ptr (TypeName "UI_STRING"))
    (Call "OPENSSL_sk_value" [Call "ossl_check_const_UI_STRING_sk_type" [Par "sk"]; Par "idx"]));
  Macro "sk_UI_STRING_new" ["cmp"] (Cast (Ptr (STACK_OF "UI_STRING"))
    (Call "OPENSSL_sk_new" [Call "ossl_check_UI_STRING_compfunc_type" [Par "cmp"]]));
  Macro "sk_UI_STRING_new_null" [] (Cast (Ptr (STACK_OF "UI_STRING")) (Call "OPENSSL_sk_new_null" []));
  Macro "sk_UI_STRING_new_reserve" ["cmp"; "n"] (Cast (Ptr (STACK_OF "UI_STRING"))
    (Call "OPENSSL_sk_new_reserve" [Call "ossl_check_UI_STRING_compfunc_type" [Par "cmp"]; Par "n"]));
  Macro "sk_UI_STRING_reserve" ["sk"; "n"] (Call "OPENSSL_sk_reserve" [Call "ossl_check_UI_STRING_sk_type" [Par "sk"];
    Par "n"]);
  Macro "sk_UI_STRING_free" ["sk"] (Call "OPENSSL_sk_free" [Call "ossl_check_UI_STRING_sk_type" [Par "sk"]]);
  Macro "sk_UI_STRING_zero" ["sk"] (Call "OPENSSL_sk_zero" [Call "ossl_check_UI_STRING_sk_type" [Par "sk"]]);
  Macro "sk_UI_STRING_delete" ["sk"; "i"] (Cast (Ptr (TypeName "UI_STRING"))
    (Call "OPENSSL_sk_delete" [Call "ossl_check_UI_STRING_sk_type" [Par "sk"]; Par "i"]));
  Macro "sk_UI_STRING_delete_ptr" ["sk"; "ptr"] (Cast (Ptr (TypeName "UI_STRING"))
    (Call "OPENSSL_sk_delete_ptr" [Call "ossl_check_UI_STRING_sk_type" [Par "sk"];
    Call "ossl_check_UI_STRING_type" [Par "ptr"]]));
  Macro "sk_UI_STRING_push" ["sk"; "ptr"] (Call "OPENSSL_sk_push" [Call "ossl_check_UI_STRING_sk_type" [Par "sk"];
    Call "ossl_check_UI_STRING_type" [Par "ptr"]]);
  Macro "sk_UI_STRING_unshift" ["sk"; "ptr"] (Call "OPENSSL_sk_unshift" [Call "ossl_check_UI_STRING_sk_type" [Par "sk"];
    Call "ossl_check_UI_STRING_type" [Par "ptr"]]);
  Macro "sk_UI_STRING_pop" ["sk"] (Cast (Ptr (TypeName "UI_STRING"))
    (Call "OPENSSL_sk_pop" [Call "ossl_check_UI_STRING_sk_type" [Par "sk"]]));
  Macro "sk_UI_STRING_shift" ["sk"] (Cast (Ptr (TypeName "UI_STRING"))
    (Call "OPENSSL_sk_shift" [Call "ossl_check_UI_STRING_sk_type" [Par "sk"]]));
  Macro "sk_UI_STRING_pop_free" ["sk"; "freefunc"]
    (Call "OPENSSL_sk_pop_free" [Call "ossl_check_UI_STRING_sk_type" [Par "sk"];
    Call "ossl_check_UI_STRING_freefunc_type" [Par "freefunc"]]);
  Macro "sk_UI_STRING_insert" ["sk"; "ptr"; "idx"]
    (Call "OPENSSL_sk_insert" [Call "ossl_check_UI_STRING_sk_type" [Par "sk"];
    Call "ossl_check_UI_STRING_type" [Par "ptr"]; Par "idx"]);
  Macro "sk_UI_STRING_set" ["sk"; "idx"; "ptr"] (Cast (Ptr (TypeName "UI_STRING"))
    (Call "OPENSSL_sk_set" [Call "ossl_check_UI_STRING_sk_type" [Par "sk"]; Par "idx";
    Call "ossl_check_UI_STRING_type" [Par "ptr"]]));
  Macro "sk_UI_STRING_find" ["sk"; "ptr"] (Call "OPENSSL_sk_find" [Call "ossl_check_UI_STRING_sk_type" [Par "sk"];
    Call "ossl_check_UI_STRING_type" [Par "ptr"]]);
  Macro "sk_UI_STRING_find_ex" ["sk"; "ptr"] (Call "OPENSSL_sk_find_ex" [Call "ossl_check_UI_STRING_sk_type" [Par "sk"];
    Call "ossl_check_UI_STRING_type" [Par "ptr"]]);
  Macro "sk_UI_STRING_find_all" ["sk"; "ptr"; "pnum"]
    (Call "OPENSSL_sk_find_all" [Call "ossl_check_UI_STRING_sk_type" [Par "sk"];
    Call "ossl_check_UI_STRING_type" [Par "ptr"]; Par "pnum"]);
  Macro "sk_UI_STRING_sort" ["sk"] (Call "OPENSSL_sk_sort" [Call "ossl_check_UI_STRING_sk_type" [Par "sk"]]);
  Macro "sk_UI_STRING_is_sorted" ["sk"]
    (Call "OPENSSL_sk_is_sorted" [Call "ossl_check_const_UI_STRING_sk_type" [Par "sk"]]);
  Macro "sk_UI_STRING_dup" ["sk"] (Cast (Ptr (STACK_OF "UI_STRING"))
    (Call "OPENSSL_sk_dup" [Call "ossl_check_const_UI_STRING_sk_type" [Par "sk"]]));
  Macro "sk_UI_STRING_deep_copy" ["sk"; "copyfunc"; "freefunc"] (Cast (Ptr (STACK_OF "UI_STRING"))
    (Call "OPENSSL_sk_deep_copy" [Call "ossl_check_const_UI_STRING_sk_type" [Par "sk"];
    Call "ossl_check_UI_STRING_copyfunc_type" [Par "copyfunc"];
    Call "ossl_check_UI_STRING_freefunc_type" [Par "freefunc"]]));
  Macro "sk_UI_STRING_set_cmp_func" ["sk"; "cmp"] (Cast (sk_compfunc (TypeName "UI_STRING"))
    (Call "OPENSSL_sk_set_cmp_func" [Call "ossl_check_UI_STRING_sk_type" [Par "sk"];
    Call "ossl_check_UI_STRING_compfunc_type" [Par "cmp"]]))].

Definition stack_X509_NAME : stack := Stack "X509_NAME" (TypeName "X509_NAME") (TypeName "X509_NAME") [
  Macro "sk_X509_NAME_num" ["sk"] (Call "OPENSSL_sk_num" [Call "ossl_check_const_X509_NAME_sk_type" [Par "sk"]]);
  Macro "sk_X509_NAME_value" ["sk"; "idx"] (Cast (Ptr (TypeName "X509_NAME"))
    (Call "OPENSSL_sk_value" [Call "ossl_check_const_X509_NAME_sk_type" [Par "sk"]; Par "idx"]));
  Macro "sk_X509_NAME_new" ["cmp"] (Cast (Ptr (STACK_OF "X509_NAME"))
    (Call "OPENSSL_sk_new" [Call "ossl_check_X509_NAME_compfunc_type" [Par "cmp"]]));
  Macro "sk_X509_NAME_new_null" [] (Cast (Ptr (STACK_OF "X509_NAME")) (Call "OPENSSL_sk_new_null" []));
  Macro "sk_X509_NAME_new_reserve" ["cmp"; "n"] (Cast (Ptr (STACK_OF "X509_NAME"))
    (Call "OPENSSL_sk_new_reserve" [Call "ossl_check_X509_NAME_compfunc_type" [Par "cmp"]; Par "n"]));
  Macro "sk_X509_NAME_reserve" ["sk"; "n"] (Call "OPENSSL_sk_reserve" [Call "ossl_check_X509_NAME_sk_type" [Par "sk"];
    Par "n"]);
  Macro "sk_X509_NAME_free" ["sk"] (Call "OPENSSL_sk_free" [Call "ossl_check_X509_NAME_sk_type" [Par "sk"]]);
  Macro "sk_X509_NAME_zero" ["sk"] (Call "OPENSSL_sk_zero" [Call "ossl_check_X509_NAME_sk_type" [Par "sk"]]);
  Macro "sk_X509_NAME_delete" ["sk"; "i"] (Cast (Ptr (TypeName "X509_NAME"))
    (Call "OPENSSL_sk_delete" [Call "ossl_check_X509_NAME_sk_type" [Par "sk"]; Par "i"]));
  Macro "sk_X509_NAME_delete_ptr" ["sk"; "ptr"] (Cast (Ptr (TypeName "X509_NAME"))
    (Call "OPENSSL_sk_delete_ptr" [Call "ossl_check_X509_NAME_sk_type" [Par "sk"];
    Call "ossl_check_X509_NAME_type" [Par "ptr"]]));
  Macro "sk_X509_NAME_push" ["sk"; "ptr"] (Call "OPENSSL_sk_push" [Call "ossl_check_X509_NAME_sk_type" [Par "sk"];
    Call "ossl_check_X509_NAME_type" [Par "ptr"]]);
  Macro "sk_X509_NAME_unshift" ["sk"; "ptr"] (Call "OPENSSL_sk_unshift" [Call "ossl_check_X509_NAME_sk_type" [Par "sk"];
    Call "ossl_check_X509_NAME_type" [Par "ptr"]]);
  Macro "sk_X509_NAME_pop" ["sk"] (Cast (Ptr (TypeName "X509_NAME"))
    (Call "OPENSSL_sk_pop" [Call "ossl_check_X509_NAME_sk_type" [Par "sk"]]));
  Macro "sk_X509_NAME_shift" ["sk"] (Cast (Ptr (TypeName "X509_NAME"))
    (Call "OPENSSL_sk_shift" [Call "ossl_check_X509_NAME_sk_type" [Par "sk"]]));
  Macro "sk_X509_NAME_pop_free" ["sk"; "freefunc"]
    (Call "OPENSSL_sk_pop_free" [Call "ossl_check_X509_NAME_sk_type" [Par "sk"];
    Call "ossl_check_X509_NAME_freefunc_type" [Par "freefunc"]]);
  Macro "sk_X509_NAME_insert" ["sk"; "ptr"; "idx"]
    (Call "OPENSSL_sk_insert" [Call "ossl_check_X509_NAME_sk_type" [Par "sk"];
    Call "ossl_check_X509_NAME_type" [Par "ptr"]; Par "idx"]);
  Macro "sk_X509_NAME_set" ["sk"; "idx"; "ptr"] (Cast (Ptr (TypeName "X509_NAME"))
    (Call "OPENSSL_sk_set" [Call "ossl_check_X509_NAME_sk_type" [Par "sk"]; Par "idx";
    Call "ossl_check_X509_NAME_type" [Par "ptr"]]));
  Macro "sk_X509_NAME_find" ["sk"; "ptr"] (Call "OPENSSL_sk_find" [Call "ossl_check_X509_NAME_sk_type" [Par "sk"];
    Call "ossl_check_X509_NAME_type" [Par "ptr"]]);
  Macro "sk_X509_NAME_find_ex" ["sk"; "ptr"] (Call "OPENSSL_sk_find_ex" [Call "ossl_check_X509_NAME_sk_type" [Par "sk"];
    Call "ossl_check_X509_NAME_type" [Par "ptr"]]);
  Macro "sk_X509_NAME_find_all" ["sk"; "ptr"; "pnum"]
    (Call "OPENSSL_sk_find_all" [Call "ossl_check_X509_NAME_sk_type" [Par "sk"];
    Call "ossl_check_X509_NAME_type" [Par "ptr"]; Par "pnum"]);
  Macro "sk_X509_NAME_sort" ["sk"] (Call "OPENSSL_sk_sort" [Call "ossl_check_X509_NAME_sk_type" [Par "sk"]]);
  Macro "sk_X509_NAME_is_sorted" ["sk"]
    (Call "OPENSSL_sk_is_sorted" [Call "ossl_check_const_X509_NAME_sk_type" [Par "sk"]]);
  Macro "sk_X509_NAME_dup" ["sk"] (Cast (Ptr (STACK_OF "X509_NAME"))
    (Call "OPENSSL_sk_dup" [Call "ossl_check_const_X509_NAME_sk_type" [Par "sk"]]));
  Macro "sk_X509_NAME_deep_copy" ["sk"; "copyfunc"; "freefunc"] (Cast (Ptr (STACK_OF "X509_NAME"))
    (Call "OPENSSL_sk_deep_copy" [Call "ossl_check_const_X509_NAME_sk_type" [Par "sk"];
    Call "ossl_check_X509_NAME_copyfunc_type" [Par "copyfunc"];
    Call "ossl_check_X509_NAME_freefunc_type" [Par "freefunc"]]));
  Macro "sk_X509_NAME_set_cmp_func" ["sk"; "cmp"] (Cast (sk_compfunc (TypeName "X509_NAME"))
    (Call "OPENSSL_sk_set_cmp_func" [Call "ossl_check_X509_NAME_sk_type" [Par "sk"];
    Call "ossl_check_X509_NAME_compfunc_type" [Par "cmp"]]))].

Definition stack_X509 : stack := Stack "X509" (TypeName "X509") (TypeName "X509") [
  Macro "sk_X509_num" ["sk"] (Call "OPENSSL_sk_num" [Call "ossl_check_const_X509_sk_type" [Par "sk"]]);
  Macro "sk_X509_value" ["sk"; "idx"] (Cast (Ptr (TypeName "X509"))
    (Call "OPENSSL_sk_value" [Call "ossl_check_const_X509_sk_type" [Par "sk"]; Par "idx"]));
  Macro "sk_X509_new" ["cmp"] (Cast (Ptr (STACK_OF "X509"))
    (Call "OPENSSL_sk_new" [Call "ossl_check_X509_compfunc_type" [Par "cmp"]]));
  Macro "sk_X509_new_null" [] (Cast (Ptr (STACK_OF "X509")) (Call "OPENSSL_sk_new_null" []));
  Macro "sk_X509_new_reserve" ["cmp"; "n"] (Cast (Ptr (STACK_OF "X509"))
    (Call "OPENSSL_sk_new_reserve" [Call "ossl_check_X509_compfunc_type" [Par "cmp"]; Par "n"]));
  Macro "sk_X509_reserve" ["sk"; "n"] (Call "OPENSSL_sk_reserve" [Call "ossl_check_X509_sk_type" [Par "sk"]; Par "n"]);
  Macro "sk_X509_free" ["sk"] (Call "OPENSSL_sk_free" [Call "ossl_check_X509_sk_type" [Par "sk"]]);
  Macro "sk_X509_zero" ["sk"] (Call "OPENSSL_sk_zero" [Call "ossl_check_X509_sk_type" [Par "sk"]]);
  Macro "sk_X509_delete" ["sk"; "i"] (Cast (Ptr (TypeName "X509"))
    (Call "OPENSSL_sk_delete" [Call "ossl_check_X509_sk_type" [Par "sk"]; Par "i"]));
  Macro "sk_X509_delete_ptr" ["sk"; "ptr"] (Cast (Ptr (TypeName "X509"))
    (Call "OPENSSL_sk_delete_ptr" [Call "ossl_check_X509_sk_type" [Par "sk"];
    Call "ossl_check_X509_type" [Par "ptr"]]));
  Macro "sk_X509_push" ["sk"; "ptr"] (Call "OPENSSL_sk_push" [Call "ossl_check_X509_sk_type" [Par "sk"];
    Call "ossl_check_X509_type" [Par "ptr"]]);
  Macro "sk_X509_unshift" ["sk"; "ptr"] (Call "OPENSSL_sk_unshift" [Call "ossl_check_X509_sk_type" [Par "sk"];
    Call "ossl_check_X509_type" [Par "ptr"]]);
  Macro "sk_X509_pop" ["sk"] (Cast (Ptr (TypeName "X509"))
    (Call "OPENSSL_sk_pop" [Call "ossl_check_X509_sk_type" [Par "sk"]]));
  Macro "sk_X509_shift" ["sk"] (Cast (Ptr (TypeName "X509"))
    (Call "OPENSSL_sk_shift" [Call "ossl_check_X509_sk_type" [Par "sk"]]));
  Macro "sk_X509_pop_free" ["sk"; "freefunc"] (Call "OPENSSL_sk_pop_free" [Call "ossl_check_X509_sk_type" [Par "sk"];
    Call "ossl_check_X509_freefunc_type" [Par "freefunc"]]);
  Macro "sk_X509_insert" ["sk"; "ptr"; "idx"] (Call "OPENSSL_sk_insert" [Call "ossl_check_X509_sk_type" [Par "sk"];
    Call "ossl_check_X509_type" [Par "ptr"]; Par "idx"]);
  Macro "sk_X509_set" ["sk"; "idx"; "ptr"] (Cast (Ptr (TypeName "X509"))
    (Call "OPENSSL_sk_set" [Call "ossl_check_X509_sk_type" [Par "sk"]; Par "idx";
    Call "ossl_check_X509_type" [Par "ptr"]]));
  Macro "sk_X509_find" ["sk"; "ptr"] (Call "OPENSSL_sk_find" [Call "ossl_check_X509_sk_type" [Par "sk"];
    Call "ossl_check_X509_type" [Par "ptr"]]);
  Macro "sk_X509_find_ex" ["sk"; "ptr"] (Call "OPENSSL_sk_find_ex" [Call "ossl_check_X509_sk_type" [Par "sk"];
    Call "ossl_check_X509_type" [Par "ptr"]]);
  Macro "sk_X509_find_all" ["sk"; "ptr"; "pnum"] (Call "OPENSSL_sk_find_all" [Call "ossl_check_X509_sk_type" [Par "sk"];
    Call "ossl_check_X509_type" [Par "ptr"]; Par "pnum"]);
  Macro "sk_X509_sort" ["sk"] (Call "OPENSSL_sk_sort" [Call "ossl_check_X509_sk_type" [Par "sk"]]);
  Macro "sk_X509_is_sorted" ["sk"] (Call "OPENSSL_sk_is_sorted" [Call "ossl_check_const_X509_sk_type" [Par "sk"]]);
  Macro "sk_X509_dup" ["sk"] (Cast (Ptr (STACK_OF "X509"))
    (Call "OPENSSL_sk_dup" [Call "ossl_check_const_X509_sk_type" [Par "sk"]]));
  Macro "sk_X509_deep_copy" ["sk"; "copyfunc"; "freefunc"] (Cast (Ptr (STACK_OF "X509"))
    (Call "OPENSSL_sk_deep_copy" [Call "ossl_check_const_X509_sk_type" [Par "sk"];
    Call "ossl_check_X509_copyfunc_type" [Par "copyfunc"]; Call "ossl_check_X509_freefunc_type" [Par "freefunc"]]));
  Macro "sk_X509_set_cmp_func" ["sk"; "cmp"] (Cast (sk_compfunc (TypeName "X509"))
    (Call "OPENSSL_sk_set_cmp_func" [Call "ossl_check_X509_sk_type" [Par "sk"];
    Call "ossl_check_X509_compfunc_type" [Par "cmp"]]))].

Definition stack_X509_REVOKED : stack := Stack "X509_REVOKED" (TypeName "X509_REVOKED") (TypeName "X509_REVOKED") [
  Macro "sk_X509_REVOKED_num" ["sk"] (Call "OPENSSL_sk_num" [Call "ossl_check_const_X509_REVOKED_sk_type" [Par "sk"]]);
  Macro "sk_X509_REVOKED_value" ["sk"; "idx"] (Cast (Ptr (TypeName "X509_REVOKED"))
    (Call "OPENSSL_sk_value" [Call "ossl_check_const_X509_REVOKED_sk_type" [Par "sk"]; Par "idx"]));
  Macro "sk_X509_REVOKED_new" ["cmp"] (Cast (Ptr (STACK_OF "X509_REVOKED"))
    (Call "OPENSSL_sk_new" [Call "ossl_check_X509_REVOKED_compfunc_type" [Par "cmp"]]));
  Macro "sk_X509_REVOKED_new_null" [] (Cast (Ptr (STACK_OF "X509_REVOKED")) (Call "OPENSSL_sk_new_null" []));
  Macro "sk_X509_REVOKED_new_reserve" ["cmp"; "n"] (Cast (Ptr (STACK_OF "X509_REVOKED"))
    (Call "OPENSSL_sk_new_reserve" [Call "ossl_check_X509_REVOKED_compfunc_type" [Par "cmp"]; Par "n"]));
  Macro "sk_X509_REVOKED_reserve" ["sk"; "n"]
    (Call "OPENSSL_sk_reserve" [Call "ossl_check_X509_REVOKED_sk_type" [Par "sk"]; Par "n"]);
  Macro "sk_X509_REVOKED_free" ["sk"] (Call "OPENSSL_sk_free" [Call "ossl_check_X509_REVOKED_sk_type" [Par "sk"]]);
  Macro "sk_X509_REVOKED_zero" ["sk"] (Call "OPENSSL_sk_zero" [Call "ossl_check_X509_REVOKED_sk_type" [Par "sk"]]);
  Macro "sk_X509_REVOKED_delete" ["sk"; "i"] (Cast (Ptr (TypeName "X509_REVOKED"))
    (Call "OPENSSL_sk_delete" [Call "ossl_check_X509_REVOKED_sk_type" [Par "sk"]; Par "i"]));
  Macro "sk_X509_REVOKED_delete_ptr" ["sk"; "ptr"] (Cast (Ptr (TypeName "X509_REVOKED"))
    (Call "OPENSSL_sk_delete_ptr" [Call "ossl_check_X509_REVOKED_sk_type" [Par "sk"];
    Call "ossl_check_X509_REVOKED_type" [Par "ptr"]]));
  Macro "sk_X509_REVOKED_push" ["sk"; "ptr"] (Call "OPENSSL_sk_push" [Call "ossl_check_X509_REVOKED_sk_type" [Par "sk"];
    Call "ossl_check_X509_REVOKED_type" [Par "ptr"]]);
  Macro "sk_X509_REVOKED_unshift" ["sk"; "ptr"]
    (Call "OPENSSL_sk_unshift" [Call "ossl_check_X509_REVOKED_sk_type" [Par "sk"];
    Call "ossl_check_X509_REVOKED_type" [Par "ptr"]]);
  Macro "sk_X509_REVOKED_pop" ["sk"] (Cast (Ptr (TypeName "X509_REVOKED"))
    (Call "OPENSSL_sk_pop" [Call "ossl_check_X509_REVOKED_sk_type" [Par "sk"]]));
  Macro "sk_X509_REVOKED_shift" ["sk"] (Cast (Ptr (TypeName "X509_REVOKED"))
    (Call "OPENSSL_sk_shift" [Call "ossl_check_X509_REVOKED_sk_type" [Par "sk"]]));
  Macro "sk_X509_REVOKED_pop_free" ["sk"; "freefunc"]
    (Call "OPENSSL_sk_pop_free" [Call "ossl_check_X509_REVOKED_sk_type" [Par "sk"];
    Call "ossl_check_X509_REVOKED_freefunc_type" [Par "freefunc"]]);
  Macro "sk_X509_REVOKED_insert" ["sk"; "ptr"; "idx"]
    (Call "OPENSSL_sk_insert" [Call "ossl_check_X509_REVOKED_sk_type" [Par "sk"];
    Call "ossl_check_X509_REVOKED_type" [Par "ptr"]; Par "idx"]);
  Macro "sk_X509_REVOKED_set" ["sk"; "idx"; "ptr"] (Cast (Ptr (TypeName "X509_REVOKED"))
    (Call "OPENSSL_sk_set" [Call "ossl_check_X509_REVOKED_sk_type" [Par "sk"]; Par "idx";
    Call "ossl_check_X509_REVOKED_type" [Par "ptr"]]));
  Macro "sk_X509_REVOKED_find" ["sk"; "ptr"] (Call "OPENSSL_sk_find" [Call "ossl_check_X509_REVOKED_sk_type" [Par "sk"];
    Call "ossl_check_X509_REVOKED_type" [Par "ptr"]]);
  Macro "sk_X509_REVOKED_find_ex" ["sk"; "ptr"]
    (Call "OPENSSL_sk_find_ex" [Call "ossl_check_X509_REVOKED_sk_type" [Par "sk"];
    Call "ossl_check_X509_REVOKED_type" [Par "ptr"]]);
  Macro "sk_X509_REVOKED_find_all" ["sk"; "ptr"; "pnum"]
    (Call "OPENSSL_sk_find_all" [Call "ossl_check_X509_REVOKED_sk_type" [Par "sk"];
    Call "ossl_check_X509_REVOKED_type" [Par "ptr"]; Par "pnum"]);
  Macro "sk_X509_REVOKED_sort" ["sk"] (Call "OPENSSL_sk_sort" [Call "ossl_check_X509_REVOKED_sk_type" [Par "sk"]]);
  Macro "sk_X509_REVOKED_is_sorted" ["sk"]
    (Call "OPENSSL_sk_is_sorted" [Call "ossl_check_const_X509_REVOKED_sk_type" [Par "sk"]]);
  Macro "sk_X509_REVOKED_dup" ["sk"] (Cast (Ptr (STACK_OF "X509_REVOKED"))
    (Call "OPENSSL_sk_dup" [Call "ossl_check_const_X509_REVOKED_sk_type" [Par "sk"]]));
  Macro "sk_X509_REVOKED_deep_copy" ["sk"; "copyfunc"; "freefunc"] (Cast (Ptr (STACK_OF "X509_REVOKED"))
    (Call "OPENSSL_sk_deep_copy" [Call "ossl_check_const_X509_REVOKED_sk_type" [Par "sk"];
    Call "ossl_check_X509_REVOKED_copyfunc_type" [Par "copyfunc"];
    Call "ossl_check_X509_REVOKED_freefunc_type" [Par "freefunc"]]));
  Macro "sk_X509_REVOKED_set_cmp_func" ["sk"; "cmp"] (Cast (sk_compfunc (TypeName "X509_REVOKED"))
    (Call "OPENSSL_sk_set_cmp_func" [Call "ossl_check_X509_REVOKED_sk_type" [Par "sk"];
    Call "ossl_check_X509_REVOKED_compfunc_type" [Par "cmp"]]))].

Definition stack_X509_CRL : stack := Stack "X509_CRL" (TypeName "X509_CRL") (TypeName "X509_CRL") [
  Macro "sk_X509_CRL_num" ["sk"] (Call "OPENSSL_sk_num" [Call "ossl_check_const_X509_CRL_sk_type" [Par "sk"]]);
  Macro "sk_X509_CRL_value" ["sk"; "idx"] (Cast (Ptr (TypeName "X509_CRL"))
    (Call "OPENSSL_sk_value" [Call "ossl_check_const_X509_CRL_sk_type" [Par "sk"]; Par "idx"]));
  Macro "sk_X509_CRL_new" ["cmp"] (Cast (Ptr (STACK_OF "X509_CRL"))
    (Call "OPENSSL_sk_new" [Call "ossl_check_X509_CRL_compfunc_type" [Par "cmp"]]));
  Macro "sk_X509_CRL_new_null" [] (Cast (Ptr (STACK_OF "X509_CRL")) (Call "OPENSSL_sk_new_null" []));
  Macro "sk_X509_CRL_new_reserve" ["cmp"; "n"] (Cast (Ptr (STACK_OF "X509_CRL"))
    (Call "OPENSSL_sk_new_reserve" [Call "ossl_check_X509_CRL_compfunc_type" [Par "cmp"]; Par "n"]));
  Macro "sk_X509_CRL_reserve" ["sk"; "n"] (Call "OPENSSL_sk_reserve" [Call "ossl_check_X509_CRL_sk_type" [Par "sk"];
    Par "n"]);
  Macro "sk_X509_CRL_free" ["sk"] (Call "OPENSSL_sk_free" [Call "ossl_check_X509_CRL_sk_type" [Par "sk"]]);
  Macro "sk_X509_CRL_zero" ["sk"] (Call "OPENSSL_sk_zero" [Call "ossl_check_X509_CRL_sk_type" [Par "sk"]]);
  Macro "sk_X509_CRL_delete" ["sk"; "i"] (Cast (Ptr (TypeName "X509_CRL"))
    (Call "OPENSSL_sk_delete" [Call "ossl_check_X509_CRL_sk_type" [Par "sk"]; Par "i"]));
  Macro "sk_X509_CRL_delete_ptr" ["sk"; "ptr"] (Cast (Ptr (TypeName "X509_CRL"))
    (Call "OPENSSL_sk_delete_ptr" [Call "ossl_check_X509_CRL_sk_type" [Par "sk"];
    Call "ossl_check_X509_CRL_type" [Par "ptr"]]));
  Macro "sk_X509_CRL_push" ["sk"; "ptr"] (Call "OPENSSL_sk_push" [Call "ossl_check_X509_CRL_sk_type" [Par "sk"];
    Call "ossl_check_X509_CRL_type" [Par "ptr"]]);
  Macro "sk_X509_CRL_unshift" ["sk"; "ptr"] (Call "OPENSSL_sk_unshift" [Call "ossl_check_X509_CRL_sk_type" [Par "sk"];
    Call "ossl_check_X509_CRL_type" [Par "ptr"]]);
  Macro "sk_X509_CRL_pop" ["sk"] (Cast (Ptr (TypeName "X509_CRL"))
    (Call "OPENSSL_sk_pop" [Call "ossl_check_X509_CRL_sk_type" [Par "sk"]]));
  Macro "sk_X509_CRL_shift" ["sk"] (Cast (Ptr (TypeName "X509_CRL"))
    (Call "OPENSSL_sk_shift" [Call "ossl_check_X509_CRL_sk_type" [Par "sk"]]));
  Macro "sk_X509_CRL_pop_free" ["sk"; "freefunc"]
    (Call "OPENSSL_sk_pop_free" [Call "ossl_check_X509_CRL_sk_type" [Par "sk"];
    Call "ossl_check_X509_CRL_freefunc_type" [Par "freefunc"]]);
  Macro "sk_X509_CRL_insert" ["sk"; "ptr"; "idx"]
    (Call "OPENSSL_sk_insert" [Call "ossl_check_X509_CRL_sk_type" [Par "sk"];
    Call "ossl_check_X509_CRL_type" [Par "ptr"]; Par "idx"]);
  Macro "sk_X509_CRL_set" ["sk"; "idx"; "ptr"] (Cast (Ptr (TypeName "X509_CRL"))
    (Call "OPENSSL_sk_set" [Call "ossl_check_X509_CRL_sk_type" [Par "sk"]; Par "idx";
    Call "ossl_check_X509_CRL_type" [Par "ptr"]]));
  Macro "sk_X509_CRL_find" ["sk"; "ptr"] (Call "OPENSSL_sk_find" [Call "ossl_check_X509_CRL_sk_type" [Par "sk"];
    Call "ossl_check_X509_CRL_type" [Par "ptr"]]);
  Macro "sk_X509_CRL_find_ex" ["sk"; "ptr"] (Call "OPENSSL_sk_find_ex" [Call "ossl_check_X509_CRL_sk_type" [Par "sk"];
    Call "ossl_check_X509_CRL_type" [Par "ptr"]]);
  Macro "sk_X509_CRL_find_all" ["sk"; "ptr"; "pnum"]
    (Call "OPENSSL_sk_find_all" [Call "ossl_check_X509_CRL_sk_type" [Par "sk"];
    Call "ossl_check_X509_CRL_type" [Par "ptr"]; Par "pnum"]);
  Macro "sk_X509_CRL_sort" ["sk"] (Call "OPENSSL_sk_sort" [Call "ossl_check_X509_CRL_sk_type" [Par "sk"]]);
  Macro "sk_X509_CRL_is_sorted" ["sk"]
    (Call "OPENSSL_sk_is_sorted" [Call "ossl_check_const_X509_CRL_sk_type" [Par "sk"]]);
  Macro "sk_X509_CRL_dup" ["sk"] (Cast (Ptr (STACK_OF "X509_CRL"))
    (Call "OPENSSL_sk_dup" [Call "ossl_check_const_X509_CRL_sk_type" [Par "sk"]]));
  Macro "sk_X509_CRL_deep_copy" ["sk"; "copyfunc"; "freefunc"] (Cast (Ptr (STACK_OF "X509_CRL"))
    (Call "OPENSSL_sk_deep_copy" [Call "ossl_check_const_X509_CRL_sk_type" [Par "sk"];
    Call "ossl_check_X509_CRL_copyfunc_type" [Par "copyfunc"];
    Call "ossl_check_X509_CRL_freefunc_type" [Par "freefunc"]]));
  Macro "sk_X509_CRL_set_cmp_func" ["sk"; "cmp"] (Cast (sk_compfunc (TypeName "X509_CRL"))
    (Call "OPENSSL_sk_set_cmp_func" [Call "ossl_check_X509_CRL_sk_type" [Par "sk"];
    Call "ossl_check_X509_CRL_compfunc_type" [Par "cmp"]]))].

Definition stack_X509_NAME_ENTRY : stack := Stack "X509_NAME_ENTRY" (TypeName "X509_NAME_ENTRY") (TypeName "X509_NAME_ENTRY") [
  Macro "sk_X509_NAME_ENTRY_num" ["sk"]
    (Call "OPENSSL_sk_num" [Call "ossl_check_const_X509_NAME_ENTRY_sk_type" [Par "sk"]]);
  Macro "sk_X509_NAME_ENTRY_value" ["sk"; "idx"] (Cast (Ptr (TypeName "X509_NAME_ENTRY"))
    (Call "OPENSSL_sk_value" [Call "ossl_check_const_X509_NAME_ENTRY_sk_type" [Par "sk"]; Par "idx"]));
  Macro "sk_X509_NAME_ENTRY_new" ["cmp"] (Cast (Ptr (STACK_OF "X509_NAME_ENTRY"))
    (Call "OPENSSL_sk_new" [Call "ossl_check_X509_NAME_ENTRY_compfunc_type" [Par "cmp"]]));
  Macro "sk_X509_NAME_ENTRY_new_null" [] (Cast (Ptr (STACK_OF "X509_NAME_ENTRY")) (Call "OPENSSL_sk_new_null" []));
  Macro "sk_X509_NAME_ENTRY_new_reserve" ["cmp"; "n"] (Cast (Ptr (STACK_OF "X509_NAME_ENTRY"))
    (Call "OPENSSL_sk_new_reserve" [Call "ossl_check_X509_NAME_ENTRY_compfunc_type" [Par "cmp"]; Par "n"]));
  Macro "sk_X509_NAME_ENTRY_reserve" ["sk"; "n"]
    (Call "OPENSSL_sk_reserve" [Call "ossl_check_X509_NAME_ENTRY_sk_type" [Par "sk"]; Par "n"]);
  Macro "sk_X509_NAME_ENTRY_free" ["sk"] (Call "OPENSSL_sk_free" [Call "ossl_check_X509_NAME_ENTRY_sk_type" [Par "sk"]]);
  Macro "sk_X509_NAME_ENTRY_zero" ["sk"] (Call "OPENSSL_sk_zero" [Call "ossl_check_X509_NAME_ENTRY_sk_type" [Par "sk"]]);
  Macro "sk_X509_NAME_ENTRY_delete" ["sk"; "i"] (Cast (Ptr (TypeName "X509_NAME_ENTRY"))
    (Call "OPENSSL_sk_delete" [Call "ossl_check_X509_NAME_ENTRY_sk_type" [Par "sk"]; Par "i"]));
  Macro "sk_X509_NAME_ENTRY_delete_ptr" ["sk"; "ptr"] (Cast (Ptr (TypeName "X509_NAME_ENTRY"))
    (Call "OPENSSL_sk_delete_ptr" [Call "ossl_check_X509_NAME_ENTRY_sk_type" [Par "sk"];
    Call "ossl_check_X509_NAME_ENTRY_type" [Par "ptr"]]));
  Macro "sk_X509_NAME_ENTRY_push" ["sk"; "ptr"]
    (Call "OPENSSL_sk_push" [Call "ossl_check_X509_NAME_ENTRY_sk_type" [Par "sk"];
    Call "ossl_check_X509_NAME_ENTRY_type" [Par "ptr"]]);
  Macro "sk_X509_NAME_ENTRY_unshift" ["sk"; "ptr"]
    (Call "OPENSSL_sk_unshift" [Call "ossl_check_X509_NAME_ENTRY_sk_type" [Par "sk"];
    Call "ossl_check_X509_NAME_ENTRY_type" [Par "ptr"]]);
  Macro "sk_X509_NAME_ENTRY_pop" ["sk"] (Cast (Ptr (TypeName "X509_NAME_ENTRY"))
    (Call "OPENSSL_sk_pop" [Call "ossl_check_X509_NAME_ENTRY_sk_type" [Par "sk"]]));
  Macro "sk_X509_NAME_ENTRY_shift" ["sk"] (Cast (Ptr (TypeName "X509_NAME_ENTRY"))
    (Call "OPENSSL_sk_shift" [Call "ossl_check_X509_NAME_ENTRY_sk_type" [Par "sk"]]));
  Macro "sk_X509_NAME_ENTRY_pop_free" ["sk"; "freefunc"]
    (Call "OPENSSL_sk_pop_free" [Call "ossl_check_X509_NAME_ENTRY_sk_type" [Par "sk"];
    Call "ossl_check_X509_NAME_ENTRY_freefunc_type" [Par "freefunc"]]);
  Macro "sk_X509_NAME_ENTRY_insert" ["sk"; "ptr"; "idx"]
    (Call "OPENSSL_sk_insert" [Call "ossl_check_X509_NAME_ENTRY_sk_type" [Par "sk"];
    Call "ossl_check_X509_NAME_ENTRY_type" [Par "ptr"]; Par "idx"]);
  Macro "sk_X509_NAME_ENTRY_set" ["sk"; "idx"; "ptr"] (Cast (Ptr (TypeName "X509_NAME_ENTRY"))
    (Call "OPENSSL_sk_set" [Call "ossl_check_X509_NAME_ENTRY_sk_type" [Par "sk"]; Par "idx";
    Call "ossl_check_X509_NAME_ENTRY_type" [Par "ptr"]]));
  Macro "sk_X509_NAME_ENTRY_find" ["sk"; "ptr"]
    (Call "OPENSSL_sk_find" [Call "ossl_check_X509_NAME_ENTRY_sk_type" [Par "sk"];
    Call "ossl_check_X509_NAME_ENTRY_type" [Par "ptr"]]);
  Macro "sk_X509_NAME_ENTRY_find_ex" ["sk"; "ptr"]
    (Call "OPENSSL_sk_find_ex" [Call "ossl_check_X509_NAME_ENTRY_sk_type" [Par "sk"];
    Call "ossl_check_X509_NAME_ENTRY_type" [Par "ptr"]]);
  Macro "sk_X509_NAME_ENTRY_find_all" ["sk"; "ptr"; "pnum"]
    (Call "OPENSSL_sk_find_all" [Call "ossl_check_X509_NAME_ENTRY_sk_type" [Par "sk"];
    Call "ossl_check_X509_NAME_ENTRY_type" [Par "ptr"]; Par "pnum"]);
  Macro "sk_X509_NAME_ENTRY_sort" ["sk"] (Call "OPENSSL_sk_sort" [Call "ossl_check_X509_NAME_ENTRY_sk_type" [Par "sk"]]);
  Macro "sk_X509_NAME_ENTRY_is_sorted" ["sk"]
    (Call "OPENSSL_sk_is_sorted" [Call "ossl_check_const_X509_NAME_ENTRY_sk_type" [Par "sk"]]);
  Macro "sk_X509_NAME_ENTRY_dup" ["sk"] (Cast (Ptr (STACK_OF "X509_NAME_ENTRY"))
    (Call "OPENSSL_sk_dup" [Call "ossl_check_const_X509_NAME_ENTRY_sk_type" [Par "sk"]]));
  Macro "sk_X509_NAME_ENTRY_deep_copy" ["sk"; "copyfunc"; "freefunc"] (Cast (Ptr (STACK_OF "X509_NAME_ENTRY"))
    (Call "OPENSSL_sk_deep_copy" [Call "ossl_check_const_X509_NAME_ENTRY_sk_type" [Par "sk"];
    Call "ossl_check_X509_NAME_ENTRY_copyfunc_type" [Par "copyfunc"];
    Call "ossl_check_X509_NAME_ENTRY_freefunc_type" [Par "freefunc"]]));
  Macro "sk_X509_NAME_ENTRY_set_cmp_func" ["sk"; "cmp"] (Cast (sk_compfunc (TypeName "X509_NAME_ENTRY"))
    (Call "OPENSSL_sk_set_cmp_func" [Call "ossl_check_X509_NAME_ENTRY_sk_type" [Par "sk"];
    Call "ossl_check_X509_NAME_ENTRY_compfunc_type" [Par "cmp"]]))].

Definition stack_X509_EXTENSION : stack := Stack "X509_EXTENSION" (TypeName "X509_EXTENSION") (TypeName "X509_EXTENSION") [
  Macro "sk_X509_EXTENSION_num" ["sk"]
    (Call "OPENSSL_sk_num" [Call "ossl_check_const_X509_EXTENSION_sk_type" [Par "sk"]]);
  Macro "sk_X509_EXTENSION_value" ["sk"; "idx"] (Cast (Ptr (TypeName "X509_EXTENSION"))
    (Call "OPENSSL_sk_value" [Call "ossl_check_const_X509_EXTENSION_sk_type" [Par "sk"]; Par "idx"]));
  Macro "sk_X509_EXTENSION_new" ["cmp"] (Cast (Ptr (STACK_OF "X509_EXTENSION"))
    (Call "OPENSSL_sk_new" [Call "ossl_check_X509_EXTENSION_compfunc_type" [Par "cmp"]]));
  Macro "sk_X509_EXTENSION_new_null" [] (Cast (Ptr (STACK_OF "X509_EXTENSION")) (Call "OPENSSL_sk_new_null" []));
  Macro "sk_X509_EXTENSION_new_reserve" ["cmp"; "n"] (Cast (Ptr (STACK_OF "X509_EXTENSION"))
    (Call "OPENSSL_sk_new_reserve" [Call "ossl_check_X509_EXTENSION_compfunc_type" [Par "cmp"]; Par "n"]));
  Macro "sk_X509_EXTENSION_reserve" ["sk"; "n"]
    (Call "OPENSSL_sk_reserve" [Call "ossl_check_X509_EXTENSION_sk_type" [Par "sk"]; Par "n"]);
  Macro "sk_X509_EXTENSION_free" ["sk"] (Call "OPENSSL_sk_free" [Call "ossl_check_X509_EXTENSION_sk_type" [Par "sk"]]);
  Macro "sk_X509_EXTENSION_zero" ["sk"] (Call "OPENSSL_sk_zero" [Call "ossl_check_X509_EXTENSION_sk_type" [Par "sk"]]);
  Macro "sk_X509_EXTENSION_delete" ["sk"; "i"] (Cast (Ptr (TypeName "X509_EXTENSION"))
    (Call "OPENSSL_sk_delete" [Call "ossl_check_X509_EXTENSION_sk_type" [Par "sk"]; Par "i"]));
  Macro "sk_X509_EXTENSION_delete_ptr" ["sk"; "ptr"] (Cast (Ptr (TypeName "X509_EXTENSION"))
    (Call "OPENSSL_sk_delete_ptr" [Call "ossl_check_X509_EXTENSION_sk_type" [Par "sk"];
    Call "ossl_check_X509_EXTENSION_type" [Par "ptr"]]));
  Macro "sk_X509_EXTENSION_push" ["sk"; "ptr"]
    (Call "OPENSSL_sk_push" [Call "ossl_check_X509_EXTENSION_sk_type" [Par "sk"];
    Call "ossl_check_X509_EXTENSION_type" [Par "ptr"]]);
  Macro "sk_X509_EXTENSION_unshift" ["sk"; "ptr"]
    (Call "OPENSSL_sk_unshift" [Call "ossl_check_X509_EXTENSION_sk_type" [Par "sk"];
    Call "ossl_check_X509_EXTENSION_type" [Par "ptr"]]);
  Macro "sk_X509_EXTENSION_pop" ["sk"] (Cast (Ptr (TypeName "X509_EXTENSION"))
    (Call "OPENSSL_sk_pop" [Call "ossl_check_X509_EXTENSION_sk_type" [Par "sk"]]));
  Macro "sk_X509_EXTENSION_shift" ["sk"] (Cast (Ptr (TypeName "X509_EXTENSION"))
    (Call "OPENSSL_sk_shift" [Call "ossl_check_X509_EXTENSION_sk_type" [Par "sk"]]));
  Macro "sk_X509_EXTENSION_pop_free" ["sk"; "freefunc"]
    (Call "OPENSSL_sk_pop_free" [Call "ossl_check_X509_EXTENSION_sk_type" [Par "sk"];
    Call "ossl_check_X509_EXTENSION_freefunc_type" [Par "freefunc"]]);
  Macro "sk_X509_EXTENSION_insert" ["sk"; "ptr"; "idx"]
    (Call "OPENSSL_sk_insert" [Call "ossl_check_X509_EXTENSION_sk_type" [Par "sk"];
    Call "ossl_check_X509_EXTENSION_type" [Par "ptr"]; Par "idx"]);
  Macro "sk_X509_EXTENSION_set" ["sk"; "idx"; "ptr"] (Cast (Ptr (TypeName "X509_EXTENSION"))
    (Call "OPENSSL_sk_set" [Call "ossl_check_X509_EXTENSION_sk_type" [Par "sk"]; Par "idx";
    Call "ossl_check_X509_EXTENSION_type" [Par "ptr"]]));
  Macro "sk_X509_EXTENSION_find" ["sk"; "ptr"]
    (Call "OPENSSL_sk_find" [Call "ossl_check_X509_EXTENSION_sk_type" [Par "sk"];
    Call "ossl_check_X509_EXTENSION_type" [Par "ptr"]]);
  Macro "sk_X509_EXTENSION_find_ex" ["sk"; "ptr"]
    (Call "OPENSSL_sk_find_ex" [Call "ossl_check_X509_EXTENSION_sk_type" [Par "sk"];
    Call "ossl_check_X509_EXTENSION_type" [Par "ptr"]]);
  Macro "sk_X509_EXTENSION_find_all" ["sk"; "ptr"; "pnum"]
    (Call "OPENSSL_sk_find_all" [Call "ossl_check_X509_EXTENSION_sk_type" [Par "sk"];
    Call "ossl_check_X509_EXTENSION_type" [Par "ptr"]; Par "pnum"]);
  Macro "sk_X509_EXTENSION_sort" ["sk"] (Call "OPENSSL_sk_sort" [Call "ossl_check_X509_EXTENSION_sk_type" [Par "sk"]]);
  Macro "sk_X509_EXTENSION_is_sorted" ["sk"]
    (Call "OPENSSL_sk_is_sorted" [Call "ossl_check_const_X509_EXTENSION_sk_type" [Par "sk"]]);
  Macro "sk_X509_EXTENSION_dup" ["sk"] (Cast (Ptr (STACK_OF "X509_EXTENSION"))
    (Call "OPENSSL_sk_dup" [Call "ossl_check_const_X509_EXTENSION_sk_type" [Par "sk"]]));
  Macro "sk_X509_EXTENSION_deep_copy" ["sk"; "copyfunc"; "freefunc"] (Cast (Ptr (STACK_OF "X509_EXTENSION"))
    (Call "OPENSSL_sk_deep_copy" [Call "ossl_check_const_X509_EXTENSION_sk_type" [Par "sk"];
    Call "ossl_check_X509_EXTENSION_copyfunc_type" [Par "copyfunc"];
    Call "ossl_check_X509_EXTENSION_freefunc_type" [Par "freefunc"]]));
  Macro "sk_X509_EXTENSION_set_cmp_func" ["sk"; "cmp"] (Cast (sk_compfunc (TypeName "X509_EXTENSION"))
    (Call "OPENSSL_sk_set_cmp_func" [Call "ossl_check_X509_EXTENSION_sk_type" [Par "sk"];
    Call "ossl_check_X509_EXTENSION_compfunc_type" [Par "cmp"]]))].

Definition stack_X509_ATTRIBUTE : stack := Stack "X509_ATTRIBUTE" (TypeName "X509_ATTRIBUTE") (TypeName "X509_ATTRIBUTE") [
  Macro "sk_X509_ATTRIBUTE_num" ["sk"]
    (Call "OPENSSL_sk_num" [Call "ossl_check_const_X509_ATTRIBUTE_sk_type" [Par "sk"]]);
  Macro "sk_X509_ATTRIBUTE_value" ["sk"; "idx"] (Cast (Ptr (TypeName "X509_ATTRIBUTE"))
    (Call "OPENSSL_sk_value" [Call "ossl_check_const_X509_ATTRIBUTE_sk_type" [Par "sk"]; Par "idx"]));
  Macro "sk_X509_ATTRIBUTE_new" ["cmp"] (Cast (Ptr (STACK_OF "X509_ATTRIBUTE"))
    (Call "OPENSSL_sk_new" [Call "ossl_check_X509_ATTRIBUTE_compfunc_type" [Par "cmp"]]));
  Macro "sk_X509_ATTRIBUTE_new_null" [] (Cast (Ptr (STACK_OF "X509_ATTRIBUTE")) (Call "OPENSSL_sk_new_null" []));
  Macro "sk_X509_ATTRIBUTE_new_reserve" ["cmp"; "n"] (Cast (Ptr (STACK_OF "X509_ATTRIBUTE"))
    (Call "OPENSSL_sk_new_reserve" [Call "ossl_check_X509_ATTRIBUTE_compfunc_type" [Par "cmp"]; Par "n"]));
  Macro "sk_X509_ATTRIBUTE_reserve" ["sk"; "n"]
    (Call "OPENSSL_sk_reserve" [Call "ossl_check_X509_ATTRIBUTE_sk_type" [Par "sk"]; Par "n"]);
  Macro "sk_X509_ATTRIBUTE_free" ["sk"] (Call "OPENSSL_sk_free" [Call "ossl_check_X509_ATTRIBUTE_sk_type" [Par "sk"]]);
  Macro "sk_X509_ATTRIBUTE_zero" ["sk"] (Call "OPENSSL_sk_zero" [Call "ossl_check_X509_ATTRIBUTE_sk_type" [Par "sk"]]);
  Macro "sk_X509_ATTRIBUTE_delete" ["sk"; "i"] (Cast (Ptr (TypeName "X509_ATTRIBUTE"))
    (Call "OPENSSL_sk_delete" [Call "ossl_check_X509_ATTRIBUTE_sk_type" [Par "sk"]; Par "i"]));
  Macro "sk_X509_ATTRIBUTE_delete_ptr" ["sk"; "ptr"] (Cast (Ptr (TypeName "X509_ATTRIBUTE"))
    (Call "OPENSSL_sk_delete_ptr" [Call "ossl_check_X509_ATTRIBUTE_sk_type" [Par "sk"];
    Call "ossl_check_X509_ATTRIBUTE_type" [Par "ptr"]]));
  Macro "sk_X509_ATTRIBUTE_push" ["sk"; "ptr"]
    (Call "OPENSSL_sk_push" [Call "ossl_check_X509_ATTRIBUTE_sk_type" [Par "sk"];
    Call "ossl_check_X509_ATTRIBUTE_type" [Par "ptr"]]);
  Macro "sk_X509_ATTRIBUTE_unshift" ["sk"; "ptr"]
    (Call "OPENSSL_sk_unshift" [Call "ossl_check_X509_ATTRIBUTE_sk_type" [Par "sk"];
    Call "ossl_check_X509_ATTRIBUTE_type" [Par "ptr"]]);
  Macro "sk_X509_ATTRIBUTE_pop" ["sk"] (Cast (Ptr (TypeName "X509_ATTRIBUTE"))
    (Call "OPENSSL_sk_pop" [Call "ossl_check_X509_ATTRIBUTE_sk_type" [Par "sk"]]));
  Macro "sk_X509_ATTRIBUTE_shift" ["sk"] (Cast (Ptr (TypeName "X509_ATTRIBUTE"))
    (Call "OPENSSL_sk_shift" [Call "ossl_check_X509_ATTRIBUTE_sk_type" [Par "sk"]]));
  Macro "sk_X509_ATTRIBUTE_pop_free" ["sk"; "freefunc"]
    (Call "OPENSSL_sk_pop_free" [Call "ossl_check_X509_ATTRIBUTE_sk_type" [Par "sk"];
    Call "ossl_check_X509_ATTRIBUTE_freefunc_type" [Par "freefunc"]]);
  Macro "sk_X509_ATTRIBUTE_insert" ["sk"; "ptr"; "idx"]
    (Call "OPENSSL_sk_insert" [Call "ossl_check_X509_ATTRIBUTE_sk_type" [Par "sk"];
    Call "ossl_check_X509_ATTRIBUTE_type" [Par "ptr"]; Par "idx"]);
  Macro "sk_X509_ATTRIBUTE_set" ["sk"; "idx"; "ptr"] (Cast (Ptr (TypeName "X509_ATTRIBUTE"))
    (Call "OPENSSL_sk_set" [Call "ossl_check_X509_ATTRIBUTE_sk_type" [Par "sk"]; Par "idx";
    Call "ossl_check_X509_ATTRIBUTE_type" [Par "ptr"]]));
  Macro "sk_X509_ATTRIBUTE_find" ["sk"; "ptr"]
    (Call "OPENSSL_sk_find" [Call "ossl_check_X509_ATTRIBUTE_sk_type" [Par "sk"];
    Call "ossl_check_X509_ATTRIBUTE_type" [Par "ptr"]]);
  Macro "sk_X509_ATTRIBUTE_find_ex" ["sk"; "ptr"]
    (Call "OPENSSL_sk_find_ex" [Call "ossl_check_X509_ATTRIBUTE_sk_type" [Par "sk"];
    Call "ossl_check_X509_ATTRIBUTE_type" [Par "ptr"]]);
  Macro "sk_X509_ATTRIBUTE_find_all" ["sk"; "ptr"; "pnum"]
    (Call "OPENSSL_sk_find_all" [Call "ossl_check_X509_ATTRIBUTE_sk_type" [Par "sk"];
    Call "ossl_check_X509_ATTRIBUTE_type" [Par "ptr"]; Par "pnum"]);
  Macro "sk_X509_ATTRIBUTE_sort" ["sk"] (Call "OPENSSL_sk_sort" [Call "ossl_check_X509_ATTRIBUTE_sk_type" [Par "sk"]]);
  Macro "sk_X509_ATTRIBUTE_is_sorted" ["sk"]
    (Call "OPENSSL_sk_is_sorted" [Call "ossl_check_const_X509_ATTRIBUTE_sk_type" [Par "sk"]]);
  Macro "sk_X509_ATTRIBUTE_dup" ["sk"] (Cast (Ptr (STACK_OF "X509_ATTRIBUTE"))
    (Call "OPENSSL_sk_dup" [Call "ossl_check_const_X509_ATTRIBUTE_sk_type" [Par "sk"]]));
  Macro "sk_X509_ATTRIBUTE_deep_copy" ["sk"; "copyfunc"; "freefunc"] (Cast (Ptr (STACK_OF "X509_ATTRIBUTE"))
    (Call "OPENSSL_sk_deep_copy" [Call "ossl_check_const_X509_ATTRIBUTE_sk_type" [Par "sk"];
    Call "ossl_check_X509_ATTRIBUTE_copyfunc_type" [Par "copyfunc"];
    Call "ossl_check_X509_ATTRIBUTE_freefunc_type" [Par "freefunc"]]));
  Macro "sk_X509_ATTRIBUTE_set_cmp_func" ["sk"; "cmp"] (Cast (sk_compfunc (TypeName "X509_ATTRIBUTE"))
    (Call "OPENSSL_sk_set_cmp_func" [Call "ossl_check_X509_ATTRIBUTE_sk_type" [Par "sk"];
    Call "ossl_check_X509_ATTRIBUTE_compfunc_type" [Par "cmp"]]))].

Definition stack_X509_INFO : stack := Stack "X509_INFO" (TypeName "X509_INFO") (TypeName "X509_INFO") [
  Macro "sk_X509_INFO_num" ["sk"] (Call "OPENSSL_sk_num" [Call "ossl_check_const_X509_INFO_sk_type" [Par "sk"]]);
  Macro "sk_X509_INFO_value" ["sk"; "idx"] (Cast (Ptr (TypeName "X509_INFO"))
    (Call "OPENSSL_sk_value" [Call "ossl_check_const_X509_INFO_sk_type" [Par "sk"]; Par "idx"]));
  Macro "sk_X509_INFO_new" ["cmp"] (Cast (Ptr (STACK_OF "X509_INFO"))
    (Call "OPENSSL_sk_new" [Call "ossl_check_X509_INFO_compfunc_type" [Par "cmp"]]));
  Macro "sk_X509_INFO_new_null" [] (Cast (Ptr (STACK_OF "X509_INFO")) (Call "OPENSSL_sk_new_null" []));
  Macro "sk_X509_INFO_new_reserve" ["cmp"; "n"] (Cast (Ptr (STACK_OF "X509_INFO"))
    (Call "OPENSSL_sk_new_reserve" [Call "ossl_check_X509_INFO_compfunc_type" [Par "cmp"]; Par "n"]));
  Macro "sk_X509_INFO_reserve" ["sk"; "n"] (Call "OPENSSL_sk_reserve" [Call "ossl_check_X509_INFO_sk_type" [Par "sk"];
    Par "n"]);
  Macro "sk_X509_INFO_free" ["sk"] (Call "OPENSSL_sk_free" [Call "ossl_check_X509_INFO_sk_type" [Par "sk"]]);
  Macro "sk_X509_INFO_zero" ["sk"] (Call "OPENSSL_sk_zero" [Call "ossl_check_X509_INFO_sk_type" [Par "sk"]]);
  Macro "sk_X509_INFO_delete" ["sk"; "i"] (Cast (Ptr (TypeName "X509_INFO"))
    (Call "OPENSSL_sk_delete" [Call "ossl_check_X509_INFO_sk_type" [Par "sk"]; Par "i"]));
  Macro "sk_X509_INFO_delete_ptr" ["sk"; "ptr"] (Cast (Ptr (TypeName "X509_INFO"))
    (Call "OPENSSL_sk_delete_ptr" [Call "ossl_check_X509_INFO_sk_type" [Par "sk"];
    Call "ossl_check_X509_INFO_type" [Par "ptr"]]));
  Macro "sk_X509_INFO_push" ["sk"; "ptr"] (Call "OPENSSL_sk_push" [Call "ossl_check_X509_INFO_sk_type" [Par "sk"];
    Call "ossl_check_X509_INFO_type" [Par "ptr"]]);
  Macro "sk_X509_INFO_unshift" ["sk"; "ptr"] (Call "OPENSSL_sk_unshift" [Call "ossl_check_X509_INFO_sk_type" [Par "sk"];
    Call "ossl_check_X509_INFO_type" [Par "ptr"]]);
  Macro "sk_X509_INFO_pop" ["sk"] (Cast (Ptr (TypeName "X509_INFO"))
    (Call "OPENSSL_sk_pop" [Call "ossl_check_X509_INFO_sk_type" [Par "sk"]]));
  Macro "sk_X509_INFO_shift" ["sk"] (Cast (Ptr (TypeName "X509_INFO"))
    (Call "OPENSSL_sk_shift" [Call "ossl_check_X509_INFO_sk_type" [Par "sk"]]));
  Macro "sk_X509_INFO_pop_free" ["sk"; "freefunc"]
    (Call "OPENSSL_sk_pop_free" [Call "ossl_check_X509_INFO_sk_type" [Par "sk"];
    Call "ossl_check_X509_INFO_freefunc_type" [Par "freefunc"]]);
  Macro "sk_X509_INFO_insert" ["sk"; "ptr"; "idx"]
    (Call "OPENSSL_sk_insert" [Call "ossl_check_X509_INFO_sk_type" [Par "sk"];
    Call "ossl_check_X509_INFO_type" [Par "ptr"]; Par "idx"]);
  Macro "sk_X509_INFO_set" ["sk"; "idx"; "ptr"] (Cast (Ptr (TypeName "X509_INFO"))
    (Call "OPENSSL_sk_set" [Call "ossl_check_X509_INFO_sk_type" [Par "sk"]; Par "idx";
    Call "ossl_check_X509_INFO_type" [Par "ptr"]]));
  Macro "sk_X509_INFO_find" ["sk"; "ptr"] (Call "OPENSSL_sk_find" [Call "ossl_check_X509_INFO_sk_type" [Par "sk"];
    Call "ossl_check_X509_INFO_type" [Par "ptr"]]);
  Macro "sk_X509_INFO_find_ex" ["sk"; "ptr"] (Call "OPENSSL_sk_find_ex" [Call "ossl_check_X509_INFO_sk_type" [Par "sk"];
    Call "ossl_check_X509_INFO_type" [Par "ptr"]]);
  Macro "sk_X509_INFO_find_all" ["sk"; "ptr"; "pnum"]
    (Call "OPENSSL_sk_find_all" [Call "ossl_check_X509_INFO_sk_type" [Par "sk"];
    Call "ossl_check_X509_INFO_type" [Par "ptr"]; Par "pnum"]);
  Macro "sk_X509_INFO_sort" ["sk"] (Call "OPENSSL_sk_sort" [Call "ossl_check_X509_INFO_sk_type" [Par "sk"]]);
  Macro "sk_X509_INFO_is_sorted" ["sk"]
    (Call "OPENSSL_sk_is_sorted" [Call "ossl_check_const_X509_INFO_sk_type" [Par "sk"]]);
  Macro "sk_X509_INFO_dup" ["sk"] (Cast (Ptr (STACK_OF "X509_INFO"))
    (Call "OPENSSL_sk_dup" [Call "ossl_check_const_X509_INFO_sk_type" [Par "sk"]]));
  Macro "sk_X509_INFO_deep_copy" ["sk"; "copyfunc"; "freefunc"] (Cast (Ptr (STACK_OF "X509_INFO"))
    (Call "OPENSSL_sk_deep_copy" [Call "ossl_check_const_X509_INFO_sk_type" [Par "sk"];
    Call "ossl_check_X509_INFO_copyfunc_type" [Par "copyfunc"];
    Call "ossl_check_X509_INFO_freefunc_type" [Par "freefunc"]]));
  Macro "sk_X509_INFO_set_cmp_func" ["sk"; "cmp"] (Cast (sk_compfunc (TypeName "X509_INFO"))
    (Call "OPENSSL_sk_set_cmp_func" [Call "ossl_check_X509_INFO_sk_type" [Par "sk"];
    Call "ossl_check_X509_INFO_compfunc_type" [Par "cmp"]]))].

Definition stack_X509_LOOKUP : stack := Stack "X509_LOOKUP" (TypeName "X509_LOOKUP") (TypeName "X509_LOOKUP") [
  Macro "sk_X509_LOOKUP_num" ["sk"] (Call "OPENSSL_sk_num" [Call "ossl_check_const_X509_LOOKUP_sk_type" [Par "sk"]]);
  Macro "sk_X509_LOOKUP_value" ["sk"; "idx"] (Cast (Ptr (TypeName "X509_LOOKUP"))
    (Call "OPENSSL_sk_value" [Call "ossl_check_const_X509_LOOKUP_sk_type" [Par "sk"]; Par "idx"]));
  Macro "sk_X509_LOOKUP_new" ["cmp"] (Cast (Ptr (STACK_OF "X509_LOOKUP"))
    (Call "OPENSSL_sk_new" [Call "ossl_check_X509_LOOKUP_compfunc_type" [Par "cmp"]]));
  Macro "sk_X509_LOOKUP_new_null" [] (Cast (Ptr (STACK_OF "X509_LOOKUP")) (Call "OPENSSL_sk_new_null" []));
  Macro "sk_X509_LOOKUP_new_reserve" ["cmp"; "n"] (Cast (Ptr (STACK_OF "X509_LOOKUP"))
    (Call "OPENSSL_sk_new_reserve" [Call "ossl_check_X509_LOOKUP_compfunc_type" [Par "cmp"]; Par "n"]));
  Macro "sk_X509_LOOKUP_reserve" ["sk"; "n"]
    (Call "OPENSSL_sk_reserve" [Call "ossl_check_X509_LOOKUP_sk_type" [Par "sk"]; Par "n"]);
  Macro "sk_X509_LOOKUP_free" ["sk"] (Call "OPENSSL_sk_free" [Call "ossl_check_X509_LOOKUP_sk_type" [Par "sk"]]);
  Macro "sk_X509_LOOKUP_zero" ["sk"] (Call "OPENSSL_sk_zero" [Call "ossl_check_X509_LOOKUP_sk_type" [Par "sk"]]);
  Macro "sk_X509_LOOKUP_delete" ["sk"; "i"] (Cast (Ptr (TypeName "X509_LOOKUP"))
    (Call "OPENSSL_sk_delete" [Call "ossl_check_X509_LOOKUP_sk_type" [Par "sk"]; Par "i"]));
  Macro "sk_X509_LOOKUP_delete_ptr" ["sk"; "ptr"] (Cast (Ptr (TypeName "X509_LOOKUP"))
    (Call "OPENSSL_sk_delete_ptr" [Call "ossl_check_X509_LOOKUP_sk_type" [Par "sk"];
    Call "ossl_check_X509_LOOKUP_type" [Par "ptr"]]));
  Macro "sk_X509_LOOKUP_push" ["sk"; "ptr"] (Call "OPENSSL_sk_push" [Call "ossl_check_X509_LOOKUP_sk_type" [Par "sk"];
    Call "ossl_check_X509_LOOKUP_type" [Par "ptr"]]);
  Macro "sk_X509_LOOKUP_unshift" ["sk"; "ptr"]
    (Call "OPENSSL_sk_unshift" [Call "ossl_check_X509_LOOKUP_sk_type" [Par "sk"];
    Call "ossl_check_X509_LOOKUP_type" [Par "ptr"]]);
  Macro "sk_X509_LOOKUP_pop" ["sk"] (Cast (Ptr (TypeName "X509_LOOKUP"))
    (Call "OPENSSL_sk_pop" [Call "ossl_check_X509_LOOKUP_sk_type" [Par "sk"]]));
  Macro "sk_X509_LOOKUP_shift" ["sk"] (Cast (Ptr (TypeName "X509_LOOKUP"))
    (Call "OPENSSL_sk_shift" [Call "ossl_check_X509_LOOKUP_sk_type" [Par "sk"]]));
  Macro "sk_X509_LOOKUP_pop_free" ["sk"; "freefunc"]
    (Call "OPENSSL_sk_pop_free" [Call "ossl_check_X509_LOOKUP_sk_type" [Par "sk"];
    Call "ossl_check_X509_LOOKUP_freefunc_type" [Par "freefunc"]]);
  Macro "sk_X509_LOOKUP_insert" ["sk"; "ptr"; "idx"]
    (Call "OPENSSL_sk_insert" [Call "ossl_check_X509_LOOKUP_sk_type" [Par "sk"];
    Call "ossl_check_X509_LOOKUP_type" [Par "ptr"]; Par "idx"]);
  Macro "sk_X509_LOOKUP_set" ["sk"; "idx"; "ptr"] (Cast (Ptr (TypeName "X509_LOOKUP"))
    (Call "OPENSSL_sk_set" [Call "ossl_check_X509_LOOKUP_sk_type" [Par "sk"]; Par "idx";
    Call "ossl_check_X509_LOOKUP_type" [Par "ptr"]]));
  Macro "sk_X509_LOOKUP_find" ["sk"; "ptr"] (Call "OPENSSL_sk_find" [Call "ossl_check_X509_LOOKUP_sk_type" [Par "sk"];
    Call "ossl_check_X509_LOOKUP_type" [Par "ptr"]]);
  Macro "sk_X509_LOOKUP_find_ex" ["sk"; "ptr"]
    (Call "OPENSSL_sk_find_ex" [Call "ossl_check_X509_LOOKUP_sk_type" [Par "sk"];
    Call "ossl_check_X509_LOOKUP_type" [Par "ptr"]]);
  Macro "sk_X509_LOOKUP_find_all" ["sk"; "ptr"; "pnum"]
    (Call "OPENSSL_sk_find_all" [Call "ossl_check_X509_LOOKUP_sk_type" [Par "sk"];
    Call "ossl_check_X509_LOOKUP_type" [Par "ptr"]; Par "pnum"]);
  Macro "sk_X509_LOOKUP_sort" ["sk"] (Call "OPENSSL_sk_sort" [Call "ossl_check_X509_LOOKUP_sk_type" [Par "sk"]]);
  Macro "sk_X509_LOOKUP_is_sorted" ["sk"]
    (Call "OPENSSL_sk_is_sorted" [Call "ossl_check_const_X509_LOOKUP_sk_type" [Par "sk"]]);
  Macro "sk_X509_LOOKUP_dup" ["sk"] (Cast (Ptr (STACK_OF "X509_LOOKUP"))
    (Call "OPENSSL_sk_dup" [Call "ossl_check_const_X509_LOOKUP_sk_type" [Par "sk"]]));
  Macro "sk_X509_LOOKUP_deep_copy" ["sk"; "copyfunc"; "freefunc"] (Cast (Ptr (STACK_OF "X509_LOOKUP"))
    (Call "OPENSSL_sk_deep_copy" [Call "ossl_check_const_X509_LOOKUP_sk_type" [Par "sk"];
    Call "ossl_check_X509_LOOKUP_copyfunc_type" [Par "copyfunc"];
    Call "ossl_check_X509_LOOKUP_freefunc_type" [Par "freefunc"]]));
  Macro "sk_X509_LOOKUP_set_cmp_func" ["sk"; "cmp"] (Cast (sk_compfunc (TypeName "X509_LOOKUP"))
    (Call "OPENSSL_sk_set_cmp_func" [Call "ossl_check_X509_LOOKUP_sk_type" [Par "sk"];
    Call "ossl_check_X509_LOOKUP_compfunc_type" [Par "cmp"]]))].

Definition stack_X509_OBJECT : stack := Stack "X509_OBJECT" (TypeName "X509_OBJECT") (TypeName "X509_OBJECT") [
  Macro "sk_X509_OBJECT_num" ["sk"] (Call "OPENSSL_sk_num" [Call "ossl_check_const_X509_OBJECT_sk_type" [Par "sk"]]);
  Macro "sk_X509_OBJECT_value" ["sk"; "idx"] (Cast (Ptr (TypeName "X509_OBJECT"))
    (Call "OPENSSL_sk_value" [Call "ossl_check_const_X509_OBJECT_sk_type" [Par "sk"]; Par "idx"]));
  Macro "sk_X509_OBJECT_new" ["cmp"] (Cast (Ptr (STACK_OF "X509_OBJECT"))
    (Call "OPENSSL_sk_new" [Call "ossl_check_X509_OBJECT_compfunc_type" [Par "cmp"]]));
  Macro "sk_X509_OBJECT_new_null" [] (Cast (Ptr (STACK_OF "X509_OBJECT")) (Call "OPENSSL_sk_new_null" []));
  Macro "sk_X509_OBJECT_new_reserve" ["cmp"; "n"] (Cast (Ptr (STACK_OF "X509_OBJECT"))
    (Call "OPENSSL_sk_new_reserve" [Call "ossl_check_X509_OBJECT_compfunc_type" [Par "cmp"]; Par "n"]));
  Macro "sk_X509_OBJECT_reserve" ["sk"; "n"]
    (Call "OPENSSL_sk_reserve" [Call "ossl_check_X509_OBJECT_sk_type" [Par "sk"]; Par "n"]);
  Macro "sk_X509_OBJECT_free" ["sk"] (Call "OPENSSL_sk_free" [Call "ossl_check_X509_OBJECT_sk_type" [Par "sk"]]);
  Macro "sk_X509_OBJECT_zero" ["sk"] (Call "OPENSSL_sk_zero" [Call "ossl_check_X509_OBJECT_sk_type" [Par "sk"]]);
  Macro "sk_X509_OBJECT_delete" ["sk"; "i"] (Cast (Ptr (TypeName "X509_OBJECT"))
    (Call "OPENSSL_sk_delete" [Call "ossl_check_X509_OBJECT_sk_type" [Par "sk"]; Par "i"]));
  Macro "sk_X509_OBJECT_delete_ptr" ["sk"; "ptr"] (Cast (Ptr (TypeName "X509_OBJECT"))
    (Call "OPENSSL_sk_delete_ptr" [Call "ossl_check_X509_OBJECT_sk_type" [Par "sk"];
    Call "ossl_check_X509_OBJECT_type" [Par "ptr"]]));
  Macro "sk_X509_OBJECT_push" ["sk"; "ptr"] (Call "OPENSSL_sk_push" [Call "ossl_check_X509_OBJECT_sk_type" [Par "sk"];
    Call "ossl_check_X509_OBJECT_type" [Par "ptr"]]);
  Macro "sk_X509_OBJECT_unshift" ["sk"; "ptr"]
    (Call "OPENSSL_sk_unshift" [Call "ossl_check_X509_OBJECT_sk_type" [Par "sk"];
    Call "ossl_check_X509_OBJECT_type" [Par "ptr"]]);
  Macro "sk_X509_OBJECT_pop" ["sk"] (Cast (Ptr (TypeName "X509_OBJECT"))
    (Call "OPENSSL_sk_pop" [Call "ossl_check_X509_OBJECT_sk_type" [Par "sk"]]));
  Macro "sk_X509_OBJECT_shift" ["sk"] (Cast (Ptr (TypeName "X509_OBJECT"))
    (Call "OPENSSL_sk_shift" [Call "ossl_check_X509_OBJECT_sk_type" [Par "sk"]]));
  Macro "sk_X509_OBJECT_pop_free" ["sk"; "freefunc"]
    (Call "OPENSSL_sk_pop_free" [Call "ossl_check_X509_OBJECT_sk_type" [Par "sk"];
    Call "ossl_check_X509_OBJECT_freefunc_type" [Par "freefunc"]]);
  Macro "sk_X509_OBJECT_insert" ["sk"; "ptr"; "idx"]
    (Call "OPENSSL_sk_insert" [Call "ossl_check_X509_OBJECT_sk_type" [Par "sk"];
    Call "ossl_check_X509_OBJECT_type" [Par "ptr"]; Par "idx"]);
  Macro "sk_X509_OBJECT_set" ["sk"; "idx"; "ptr"] (Cast (Ptr (TypeName "X509_OBJECT"))
    (Call "OPENSSL_sk_set" [Call "ossl_check_X509_OBJECT_sk_type" [Par "sk"]; Par "idx";
    Call "ossl_check_X509_OBJECT_type" [Par "ptr"]]));
  Macro "sk_X509_OBJECT_find" ["sk"; "ptr"] (Call "OPENSSL_sk_find" [Call "ossl_check_X509_OBJECT_sk_type" [Par "sk"];
    Call "ossl_check_X509_OBJECT_type" [Par "ptr"]]);
  Macro "sk_X509_OBJECT_find_ex" ["sk"; "ptr"]
    (Call "OPENSSL_sk_find_ex" [Call "ossl_check_X509_OBJECT_sk_type" [Par "sk"];
    Call "ossl_check_X509_OBJECT_type" [Par "ptr"]]);
  Macro "sk_X509_OBJECT_find_all" ["sk"; "ptr"; "pnum"]
    (Call "OPENSSL_sk_find_all" [Call "ossl_check_X509_OBJECT_sk_type" [Par "sk"];
    Call "ossl_check_X509_OBJECT_type" [Par "ptr"]; Par "pnum"]);
  Macro "sk_X509_OBJECT_sort" ["sk"] (Call "OPENSSL_sk_sort" [Call "ossl_check_X509_OBJECT_sk_type" [Par "sk"]]);
  Macro "sk_X509_OBJECT_is_sorted" ["sk"]
    (Call "OPENSSL_sk_is_sorted" [Call "ossl_check_const_X509_OBJECT_sk_type" [Par "sk"]]);
  Macro "sk_X509_OBJECT_dup" ["sk"] (Cast (Ptr (STACK_OF "X509_OBJECT"))
    (Call "OPENSSL_sk_dup" [Call "ossl_check_const_X509_OBJECT_sk_type" [Par "sk"]]));
  Macro "sk_X509_OBJECT_deep_copy" ["sk"; "copyfunc"; "freefunc"] (Cast (Ptr (STACK_OF "X509_OBJECT"))
    (Call "OPENSSL_sk_deep_copy" [Call "ossl_check_const_X509_OBJECT_sk_type" [Par "sk"];
    Call "ossl_check_X509_OBJECT_copyfunc_type" [Par "copyfunc"];
    Call "ossl_check_X509_OBJECT_freefunc_type" [Par "freefunc"]]));
  Macro "sk_X509_OBJECT_set_cmp_func" ["sk"; "cmp"] (Cast (sk_compfunc (TypeName "X509_OBJECT"))
    (Call "OPENSSL_sk_set_cmp_func" [Call "ossl_check_X509_OBJECT_sk_type" [Par "sk"];
    Call "ossl_check_X509_OBJECT_compfunc_type" [Par "cmp"]]))].

Definition stack_X509_VERIFY_PARAM : stack := Stack "X509_VERIFY_PARAM" (TypeName "X509_VERIFY_PARAM") (TypeName "X509_VERIFY_PARAM") [
  Macro "sk_X509_VERIFY_PARAM_num" ["sk"]
    (Call "OPENSSL_sk_num" [Call "ossl_check_const_X509_VERIFY_PARAM_sk_type" [Par "sk"]]);
  Macro "sk_X509_VERIFY_PARAM_value" ["sk"; "idx"] (Cast (Ptr (TypeName "X509_VERIFY_PARAM"))
    (Call "OPENSSL_sk_value" [Call "ossl_check_const_X509_VERIFY_PARAM_sk_type" [Par "sk"]; Par "idx"]));
  Macro "sk_X509_VERIFY_PARAM_new" ["cmp"] (Cast (Ptr (STACK_OF "X509_VERIFY_PARAM"))
    (Call "OPENSSL_sk_new" [Call "ossl_check_X509_VERIFY_PARAM_compfunc_type" [Par "cmp"]]));
  Macro "sk_X509_VERIFY_PARAM_new_null" [] (Cast (Ptr (STACK_OF "X509_VERIFY_PARAM")) (Call "OPENSSL_sk_new_null" []));
  Macro "sk_X509_VERIFY_PARAM_new_reserve" ["cmp"; "n"] (Cast (Ptr (STACK_OF "X509_VERIFY_PARAM"))
    (Call "OPENSSL_sk_new_reserve" [Call "ossl_check_X509_VERIFY_PARAM_compfunc_type" [Par "cmp"]; Par "n"]));
  Macro "sk_X509_VERIFY_PARAM_reserve" ["sk"; "n"]
    (Call "OPENSSL_sk_reserve" [Call "ossl_check_X509_VERIFY_PARAM_sk_type" [Par "sk"]; Par "n"]);
  Macro "sk_X509_VERIFY_PARAM_free" ["sk"]
    (Call "OPENSSL_sk_free" [Call "ossl_check_X509_VERIFY_PARAM_sk_type" [Par "sk"]]);
  Macro "sk_X509_VERIFY_PARAM_zero" ["sk"]
    (Call "OPENSSL_sk_zero" [Call "ossl_check_X509_VERIFY_PARAM_sk_type" [Par "sk"]]);
  Macro "sk_X509_VERIFY_PARAM_delete" ["sk"; "i"] (Cast (Ptr (TypeName "X509_VERIFY_PARAM"))
    (Call "OPENSSL_sk_delete" [Call "ossl_check_X509_VERIFY_PARAM_sk_type" [Par "sk"]; Par "i"]));
  Macro "sk_X509_VERIFY_PARAM_delete_ptr" ["sk"; "ptr"] (Cast (Ptr (TypeName "X509_VERIFY_PARAM"))
    (Call "OPENSSL_sk_delete_ptr" [Call "ossl_check_X509_VERIFY_PARAM_sk_type" [Par "sk"];
    Call "ossl_check_X509_VERIFY_PARAM_type" [Par "ptr"]]));
  Macro "sk_X509_VERIFY_PARAM_push" ["sk"; "ptr"]
    (Call "OPENSSL_sk_push" [Call "ossl_check_X509_VERIFY_PARAM_sk_type" [Par "sk"];
    Call "ossl_check_X509_VERIFY_PARAM_type" [Par "ptr"]]);
  Macro "sk_X509_VERIFY_PARAM_unshift" ["sk"; "ptr"]
    (Call "OPENSSL_sk_unshift" [Call "ossl_check_X509_VERIFY_PARAM_sk_type" [Par "sk"];
    Call "ossl_check_X509_VERIFY_PARAM_type" [Par "ptr"]]);
  Macro "sk_X509_VERIFY_PARAM_pop" ["sk"] (Cast (Ptr (TypeName "X509_VERIFY_PARAM"))
    (Call "OPENSSL_sk_pop" [Call "ossl_check_X509_VERIFY_PARAM_sk_type" [Par "sk"]]));
  Macro "sk_X509_VERIFY_PARAM_shift" ["sk"] (Cast (Ptr (TypeName "X509_VERIFY_PARAM"))
    (Call "OPENSSL_sk_shift" [Call "ossl_check_X509_VERIFY_PARAM_sk_type" [Par "sk"]]));
  Macro "sk_X509_VERIFY_PARAM_pop_free" ["sk"; "freefunc"]
    (Call "OPENSSL_sk_pop_free" [Call "ossl_check_X509_VERIFY_PARAM_sk_type" [Par "sk"];
    Call "ossl_check_X509_VERIFY_PARAM_freefunc_type" [Par "freefunc"]]);
  Macro "sk_X509_VERIFY_PARAM_insert" ["sk"; "ptr"; "idx"]
    (Call "OPENSSL_sk_insert" [Call "ossl_check_X509_VERIFY_PARAM_sk_type" [Par "sk"];
    Call "ossl_check_X509_VERIFY_PARAM_type" [Par "ptr"]; Par "idx"]);
  Macro "sk_X509_VERIFY_PARAM_set" ["sk"; "idx"; "ptr"] (Cast (Ptr (TypeName "X509_VERIFY_PARAM"))
    (Call "OPENSSL_sk_set" [Call "ossl_check_X509_VERIFY_PARAM_sk_type" [Par "sk"]; Par "idx";
    Call "ossl_check_X509_VERIFY_PARAM_type" [Par "ptr"]]));
  Macro "sk_X509_VERIFY_PARAM_find" ["sk"; "ptr"]
    (Call "OPENSSL_sk_find" [Call "ossl_check_X509_VERIFY_PARAM_sk_type" [Par "sk"];
    Call "ossl_check_X509_VERIFY_PARAM_type" [Par "ptr"]]);
  Macro "sk_X509_VERIFY_PARAM_find_ex" ["sk"; "ptr"]
    (Call "OPENSSL_sk_find_ex" [Call "ossl_check_X509_VERIFY_PARAM_sk_type" [Par "sk"];
    Call "ossl_check_X509_VERIFY_PARAM_type" [Par "ptr"]]);
  Macro "sk_X509_VERIFY_PARAM_find_all" ["sk"; "ptr"; "pnum"]
    (Call "OPENSSL_sk_find_all" [Call "ossl_check_X509_VERIFY_PARAM_sk_type" [Par "sk"];
    Call "ossl_check_X509_VERIFY_PARAM_type" [Par "ptr"]; Par "pnum"]);
  Macro "sk_X509_VERIFY_PARAM_sort" ["sk"]
    (Call "OPENSSL_sk_sort" [Call "ossl_check_X509_VERIFY_PARAM_sk_type" [Par "sk"]]);
  Macro "sk_X509_VERIFY_PARAM_is_sorted" ["sk"]
    (Call "OPENSSL_sk_is_sorted" [Call "ossl_check_const_X509_VERIFY_PARAM_sk_type" [Par "sk"]]);
  Macro "sk_X509_VERIFY_PARAM_dup" ["sk"] (Cast (Ptr (STACK_OF "X509_VERIFY_PARAM"))
    (Call "OPENSSL_sk_dup" [Call "ossl_check_const_X509_VERIFY_PARAM_sk_type" [Par "sk"]]));
  Macro "sk_X509_VERIFY_PARAM_deep_copy" ["sk"; "copyfunc"; "freefunc"] (Cast (Ptr (STACK_OF "X509_VERIFY_PARAM"))
    (Call "OPENSSL_sk_deep_copy" [Call "ossl_check_const_X509_VERIFY_PARAM_sk_type" [Par "sk"];
    Call "ossl_check_X509_VERIFY_PARAM_copyfunc_type" [Par "copyfunc"];
    Call "ossl_check_X509_VERIFY_PARAM_freefunc_type" [Par "freefunc"]]));
  Macro "sk_X509_VERIFY_PARAM_set_cmp_func" ["sk"; "cmp"] (Cast (sk_compfunc (TypeName "X509_VERIFY_PARAM"))
    (Call "OPENSSL_sk_set_cmp_func" [Call "ossl_check_X509_VERIFY_PARAM_sk_type" [Par "sk"];
    Call "ossl_check_X509_VERIFY_PARAM_compfunc_type" [Par "cmp"]]))].

Definition stack_X509_TRUST : stack := Stack "X509_TRUST" (TypeName "X509_TRUST") (TypeName "X509_TRUST") [
  Macro "sk_X509_TRUST_num" ["sk"] (Call "OPENSSL_sk_num" [Call "ossl_check_const_X509_TRUST_sk_type" [Par "sk"]]);
  Macro "sk_X509_TRUST_value" ["sk"; "idx"] (Cast (Ptr (TypeName "X509_TRUST"))
    (Call "OPENSSL_sk_value" [Call "ossl_check_const_X509_TRUST_sk_type" [Par "sk"]; Par "idx"]));
  Macro "sk_X509_TRUST_new" ["cmp"] (Cast (Ptr (STACK_OF "X509_TRUST"))
    (Call "OPENSSL_sk_new" [Call "ossl_check_X509_TRUST_compfunc_type" [Par "cmp"]]));
  Macro "sk_X509_TRUST_new_null" [] (Cast (Ptr (STACK_OF "X509_TRUST")) (Call "OPENSSL_sk_new_null" []));
  Macro "sk_X509_TRUST_new_reserve" ["cmp"; "n"] (Cast (Ptr (STACK_OF "X509_TRUST"))
    (Call "OPENSSL_sk_new_reserve" [Call "ossl_check_X509_TRUST_compfunc_type" [Par "cmp"]; Par "n"]));
  Macro "sk_X509_TRUST_reserve" ["sk"; "n"] (Call "OPENSSL_sk_reserve" [Call "ossl_check_X509_TRUST_sk_type" [Par "sk"];
    Par "n"]);
  Macro "sk_X509_TRUST_free" ["sk"] (Call "OPENSSL_sk_free" [Call "ossl_check_X509_TRUST_sk_type" [Par "sk"]]);
  Macro "sk_X509_TRUST_zero" ["sk"] (Call "OPENSSL_sk_zero" [Call "ossl_check_X509_TRUST_sk_type" [Par "sk"]]);
  Macro "sk_X509_TRUST_delete" ["sk"; "i"] (Cast (Ptr (TypeName "X509_TRUST"))
    (Call "OPENSSL_sk_delete" [Call "ossl_check_X509_TRUST_sk_type" [Par "sk"]; Par "i"]));
  Macro "sk_X509_TRUST_delete_ptr" ["sk"; "ptr"] (Cast (Ptr (TypeName "X509_TRUST"))
    (Call "OPENSSL_sk_delete_ptr" [Call "ossl_check_X509_TRUST_sk_type" [Par "sk"];
    Call "ossl_check_X509_TRUST_type" [Par "ptr"]]));
  Macro "sk_X509_TRUST_push" ["sk"; "ptr"] (Call "OPENSSL_sk_push" [Call "ossl_check_X509_TRUST_sk_type" [Par "sk"];
    Call "ossl_check_X509_TRUST_type" [Par "ptr"]]);
  Macro "sk_X509_TRUST_unshift" ["sk"; "ptr"]
    (Call "OPENSSL_sk_unshift" [Call "ossl_check_X509_TRUST_sk_type" [Par "sk"];
    Call "ossl_check_X509_TRUST_type" [Par "ptr"]]);
  Macro "sk_X509_TRUST_pop" ["sk"] (Cast (Ptr (TypeName "X509_TRUST"))
    (Call "OPENSSL_sk_pop" [Call "ossl_check_X509_TRUST_sk_type" [Par "sk"]]));
  Macro "sk_X509_TRUST_shift" ["sk"] (Cast (Ptr (TypeName "X509_TRUST"))
    (Call "OPENSSL_sk_shift" [Call "ossl_check_X509_TRUST_sk_type" [Par "sk"]]));
  Macro "sk_X509_TRUST_pop_free" ["sk"; "freefunc"]
    (Call "OPENSSL_sk_pop_free" [Call "ossl_check_X509_TRUST_sk_type" [Par "sk"];
    Call "ossl_check_X509_TRUST_freefunc_type" [Par "freefunc"]]);
  Macro "sk_X509_TRUST_insert" ["sk"; "ptr"; "idx"]
    (Call "OPENSSL_sk_insert" [Call "ossl_check_X509_TRUST_sk_type" [Par "sk"];
    Call "ossl_check_X509_TRUST_type" [Par "ptr"]; Par "idx"]);
  Macro "sk_X509_TRUST_set" ["sk"; "idx"; "ptr"] (Cast (Ptr (TypeName "X509_TRUST"))
    (Call "OPENSSL_sk_set" [Call "ossl_check_X509_TRUST_sk_type" [Par "sk"]; Par "idx";
    Call "ossl_check_X509_TRUST_type" [Par "ptr"]]));
  Macro "sk_X509_TRUST_find" ["sk"; "ptr"] (Call "OPENSSL_sk_find" [Call "ossl_check_X509_TRUST_sk_type" [Par "sk"];
    Call "ossl_check_X509_TRUST_type" [Par "ptr"]]);
  Macro "sk_X509_TRUST_find_ex" ["sk"; "ptr"]
    (Call "OPENSSL_sk_find_ex" [Call "ossl_check_X509_TRUST_sk_type" [Par "sk"];
    Call "ossl_check_X509_TRUST_type" [Par "ptr"]]);
  Macro "sk_X509_TRUST_find_all" ["sk"; "ptr"; "pnum"]
    (Call "OPENSSL_sk_find_all" [Call "ossl_check_X509_TRUST_sk_type" [Par "sk"];
    Call "ossl_check_X509_TRUST_type" [Par "ptr"]; Par "pnum"]);
  Macro "sk_X509_TRUST_sort" ["sk"] (Call "OPENSSL_sk_sort" [Call "ossl_check_X509_TRUST_sk_type" [Par "sk"]]);
  Macro "sk_X509_TRUST_is_sorted" ["sk"]
    (Call "OPENSSL_sk_is_sorted" [Call "ossl_check_const_X509_TRUST_sk_type" [Par "sk"]]);
  Macro "sk_X509_TRUST_dup" ["sk"] (Cast (Ptr (STACK_OF "X509_TRUST"))
    (Call "OPENSSL_sk_dup" [Call "ossl_check_const_X509_TRUST_sk_type" [Par "sk"]]));
  Macro "sk_X509_TRUST_deep_copy" ["sk"; "copyfunc"; "freefunc"] (Cast (Ptr (STACK_OF "X509_TRUST"))
    (Call "OPENSSL_sk_deep_copy" [Call "ossl_check_const_X509_TRUST_sk_type" [Par "sk"];
    Call "ossl_check_X509_TRUST_copyfunc_type" [Par "copyfunc"];
    Call "ossl_check_X509_TRUST_freefunc_type" [Par "freefunc"]]));
  Macro "sk_X509_TRUST_set_cmp_func" ["sk"; "cmp"] (Cast (sk_compfunc (TypeName "X509_TRUST"))
    (Call "OPENSSL_sk_set_cmp_func" [Call "ossl_check_X509_TRUST_sk_type" [Par "sk"];
    Call "ossl_check_X509_TRUST_compfunc_type" [Par "cmp"]]))].

Definition stack_X509V3_EXT_METHOD : stack := Stack "X509V3_EXT_METHOD" (TypeName "X509V3_EXT_METHOD") (TypeName "X509V3_EXT_METHOD") [
  Macro "sk_X509V3_EXT_METHOD_num" ["sk"]
    (Call "OPENSSL_sk_num" [Call "ossl_check_const_X509V3_EXT_METHOD_sk_type" [Par "sk"]]);
  Macro "sk_X509V3_EXT_METHOD_value" ["sk"; "idx"] (Cast (Ptr (TypeName "X509V3_EXT_METHOD"))
    (Call "OPENSSL_sk_value" [Call "ossl_check_const_X509V3_EXT_METHOD_sk_type" [Par "sk"]; Par "idx"]));
  Macro "sk_X509V3_EXT_METHOD_new" ["cmp"] (Cast (Ptr (STACK_OF "X509V3_EXT_METHOD"))
    (Call "OPENSSL_sk_new" [Call "ossl_check_X509V3_EXT_METHOD_compfunc_type" [Par "cmp"]]));
  Macro "sk_X509V3_EXT_METHOD_new_null" [] (Cast (Ptr (STACK_OF "X509V3_EXT_METHOD")) (Call "OPENSSL_sk_new_null" []));
  Macro "sk_X509V3_EXT_METHOD_new_reserve" ["cmp"; "n"] (Cast (Ptr (STACK_OF "X509V3_EXT_METHOD"))
    (Call "OPENSSL_sk_new_reserve" [Call "ossl_check_X509V3_EXT_METHOD_compfunc_type" [Par "cmp"]; Par "n"]));
  Macro "sk_X509V3_EXT_METHOD_reserve" ["sk"; "n"]
    (Call "OPENSSL_sk_reserve" [Call "ossl_check_X509V3_EXT_METHOD_sk_type" [Par "sk"]; Par "n"]);
  Macro "sk_X509V3_EXT_METHOD_free" ["sk"]
    (Call "OPENSSL_sk_free" [Call "ossl_check_X509V3_EXT_METHOD_sk_type" [Par "sk"]]);
  Macro "sk_X509V3_EXT_METHOD_zero" ["sk"]
    (Call "OPENSSL_sk_zero" [Call "ossl_check_X509V3_EXT_METHOD_sk_type" [Par "sk"]]);
  Macro "sk_X509V3_EXT_METHOD_delete" ["sk"; "i"] (Cast (Ptr (TypeName "X509V3_EXT_METHOD"))
    (Call "OPENSSL_sk_delete" [Call "ossl_check_X509V3_EXT_METHOD_sk_type" [Par "sk"]; Par "i"]));
  Macro "sk_X509V3_EXT_METHOD_delete_ptr" ["sk"; "ptr"] (Cast (Ptr (TypeName "X509V3_EXT_METHOD"))
    (Call "OPENSSL_sk_delete_ptr" [Call "ossl_check_X509V3_EXT_METHOD_sk_type" [Par "sk"];
    Call "ossl_check_X509V3_EXT_METHOD_type" [Par "ptr"]]));
  Macro "sk_X509V3_EXT_METHOD_push" ["sk"; "ptr"]
    (Call "OPENSSL_sk_push" [Call "ossl_check_X509V3_EXT_METHOD_sk_type" [Par "sk"];
    Call "ossl_check_X509V3_EXT_METHOD_type" [Par "ptr"]]);
  Macro "sk_X509V3_EXT_METHOD_unshift" ["sk"; "ptr"]
    (Call "OPENSSL_sk_unshift" [Call "ossl_check_X509V3_EXT_METHOD_sk_type" [Par "sk"];
    Call "ossl_check_X509V3_EXT_METHOD_type" [Par "ptr"]]);
  Macro "sk_X509V3_EXT_METHOD_pop" ["sk"] (Cast (Ptr (TypeName "X509V3_EXT_METHOD"))
    (Call "OPENSSL_sk_pop" [Call "ossl_check_X509V3_EXT_METHOD_sk_type" [Par "sk"]]));
  Macro "sk_X509V3_EXT_METHOD_shift" ["sk"] (Cast (Ptr (TypeName "X509V3_EXT_METHOD"))
    (Call "OPENSSL_sk_shift" [Call "ossl_check_X509V3_EXT_METHOD_sk_type" [Par "sk"]]));
  Macro "sk_X509V3_EXT_METHOD_pop_free" ["sk"; "freefunc"]
    (Call "OPENSSL_sk_pop_free" [Call "ossl_check_X509V3_EXT_METHOD_sk_type" [Par "sk"];
    Call "ossl_check_X509V3_EXT_METHOD_freefunc_type" [Par "freefunc"]]);
  Macro "sk_X509V3_EXT_METHOD_insert" ["sk"; "ptr"; "idx"]
    (Call "OPENSSL_sk_insert" [Call "ossl_check_X509V3_EXT_METHOD_sk_type" [Par "sk"];
    Call "ossl_check_X509V3_EXT_METHOD_type" [Par "ptr"]; Par "idx"]);
  Macro "sk_X509V3_EXT_METHOD_set" ["sk"; "idx"; "ptr"] (Cast (Ptr (TypeName "X509V3_EXT_METHOD"))
    (Call "OPENSSL_sk_set" [Call "ossl_check_X509V3_EXT_METHOD_sk_type" [Par "sk"]; Par "idx";
    Call "ossl_check_X509V3_EXT_METHOD_type" [Par "ptr"]]));
  Macro "sk_X509V3_EXT_METHOD_find" ["sk"; "ptr"]
    (Call "OPENSSL_sk_find" [Call "ossl_check_X509V3_EXT_METHOD_sk_type" [Par "sk"];
    Call "ossl_check_X509V3_EXT_METHOD_type" [Par "ptr"]]);
  Macro "sk_X509V3_EXT_METHOD_find_ex" ["sk"; "ptr"]
    (Call "OPENSSL_sk_find_ex" [Call "ossl_check_X509V3_EXT_METHOD_sk_type" [Par "sk"];
    Call "ossl_check_X509V3_EXT_METHOD_type" [Par "ptr"]]);
  Macro "sk_X509V3_EXT_METHOD_find_all" ["sk"; "ptr"; "pnum"]
    (Call "OPENSSL_sk_find_all" [Call "ossl_check_X509V3_EXT_METHOD_sk_type" [Par "sk"];
    Call "ossl_check_X509V3_EXT_METHOD_type" [Par "ptr"]; Par "pnum"]);
  Macro "sk_X509V3_EXT_METHOD_sort" ["sk"]
    (Call "OPENSSL_sk_sort" [Call "ossl_check_X509V3_EXT_METHOD_sk_type" [Par "sk"]]);
  Macro "sk_X509V3_EXT_METHOD_is_sorted" ["sk"]
    (Call "OPENSSL_sk_is_sorted" [Call "ossl_check_const_X509V3_EXT_METHOD_sk_type" [Par "sk"]]);
  Macro "sk_X509V3_EXT_METHOD_dup" ["sk"] (Cast (Ptr (STACK_OF "X509V3_EXT_METHOD"))
    (Call "OPENSSL_sk_dup" [Call "ossl_check_const_X509V3_EXT_METHOD_sk_type" [Par "sk"]]));
  Macro "sk_X509V3_EXT_METHOD_deep_copy" ["sk"; "copyfunc"; "freefunc"] (Cast (Ptr (STACK_OF "X509V3_EXT_METHOD"))
    (Call "OPENSSL_sk_deep_copy" [Call "ossl_check_const_X509V3_EXT_METHOD_sk_type" [Par "sk"];
    Call "ossl_check_X509V3_EXT_METHOD_copyfunc_type" [Par "copyfunc"];
    Call "ossl_check_X509V3_EXT_METHOD_freefunc_type" [Par "freefunc"]]));
  Macro "sk_X509V3_EXT_METHOD_set_cmp_func" ["sk"; "cmp"] (Cast (sk_compfunc (TypeName "X509V3_EXT_METHOD"))
    (Call "OPENSSL_sk_set_cmp_func" [Call "ossl_check_X509V3_EXT_METHOD_sk_type" [Par "sk"];
    Call "ossl_check_X509V3_EXT_METHOD_compfunc_type" [Par "cmp"]]))].

Definition stack_ACCESS_DESCRIPTION : stack := Stack "ACCESS_DESCRIPTION" (TypeName "ACCESS_DESCRIPTION") (TypeName "ACCESS_DESCRIPTION") [
  Macro "sk_ACCESS_DESCRIPTION_num" ["sk"]
    (Call "OPENSSL_sk_num" [Call "ossl_check_const_ACCESS_DESCRIPTION_sk_type" [Par "sk"]]);
  Macro "sk_ACCESS_DESCRIPTION_value" ["sk"; "idx"] (Cast (Ptr (TypeName "ACCESS_DESCRIPTION"))
    (Call "OPENSSL_sk_value" [Call "ossl_check_const_ACCESS_DESCRIPTION_sk_type" [Par "sk"]; Par "idx"]));
  Macro "sk_ACCESS_DESCRIPTION_new" ["cmp"] (Cast (Ptr (STACK_OF "ACCESS_DESCRIPTION"))
    (Call "OPENSSL_sk_new" [Call "ossl_check_ACCESS_DESCRIPTION_compfunc_type" [Par "cmp"]]));
  Macro "sk_ACCESS_DESCRIPTION_new_null" [] (Cast (Ptr (STACK_OF "ACCESS_DESCRIPTION")) (Call "OPENSSL_sk_new_null" []));
  Macro "sk_ACCESS_DESCRIPTION_new_reserve" ["cmp"; "n"] (Cast (Ptr (STACK_OF "ACCESS_DESCRIPTION"))
    (Call "OPENSSL_sk_new_reserve" [Call "ossl_check_ACCESS_DESCRIPTION_compfunc_type" [Par "cmp"]; Par "n"]));
  Macro "sk_ACCESS_DESCRIPTION_reserve" ["sk"; "n"]
    (Call "OPENSSL_sk_reserve" [Call "ossl_check_ACCESS_DESCRIPTION_sk_type" [Par "sk"]; Par "n"]);
  Macro "sk_ACCESS_DESCRIPTION_free" ["sk"]
    (Call "OPENSSL_sk_free" [Call "ossl_check_ACCESS_DESCRIPTION_sk_type" [Par "sk"]]);
  Macro "sk_ACCESS_DESCRIPTION_zero" ["sk"]
    (Call "OPENSSL_sk_zero" [Call "ossl_check_ACCESS_DESCRIPTION_sk_type" [Par "sk"]]);
  Macro "sk_ACCESS_DESCRIPTION_delete" ["sk"; "i"] (Cast (Ptr (TypeName "ACCESS_DESCRIPTION"))
    (Call "OPENSSL_sk_delete" [Call "ossl_check_ACCESS_DESCRIPTION_sk_type" [Par "sk"]; Par "i"]));
  Macro "sk_ACCESS_DESCRIPTION_delete_ptr" ["sk"; "ptr"] (Cast (Ptr (TypeName "ACCESS_DESCRIPTION"))
    (Call "OPENSSL_sk_delete_ptr" [Call "ossl_check_ACCESS_DESCRIPTION_sk_type" [Par "sk"];
    Call "ossl_check_ACCESS_DESCRIPTION_type" [Par "ptr"]]));
  Macro "sk_ACCESS_DESCRIPTION_push" ["sk"; "ptr"]
    (Call "OPENSSL_sk_push" [Call "ossl_check_ACCESS_DESCRIPTION_sk_type" [Par "sk"];
    Call "ossl_check_ACCESS_DESCRIPTION_type" [Par "ptr"]]);
  Macro "sk_ACCESS_DESCRIPTION_unshift" ["sk"; "ptr"]
    (Call "OPENSSL_sk_unshift" [Call "ossl_check_ACCESS_DESCRIPTION_sk_type" [Par "sk"];
    Call "ossl_check_ACCESS_DESCRIPTION_type" [Par "ptr"]]);
  Macro "sk_ACCESS_DESCRIPTION_pop" ["sk"] (Cast (Ptr (TypeName "ACCESS_DESCRIPTION"))
    (Call "OPENSSL_sk_pop" [Call "ossl_check_ACCESS_DESCRIPTION_sk_type" [Par "sk"]]));
  Macro "sk_ACCESS_DESCRIPTION_shift" ["sk"] (Cast (Ptr (TypeName "ACCESS_DESCRIPTION"))
    (Call "OPENSSL_sk_shift" [Call "ossl_check_ACCESS_DESCRIPTION_sk_type" [Par "sk"]]));
  Macro "sk_ACCESS_DESCRIPTION_pop_free" ["sk"; "freefunc"]
    (Call "OPENSSL_sk_pop_free" [Call "ossl_check_ACCESS_DESCRIPTION_sk_type" [Par "sk"];
    Call "ossl_check_ACCESS_DESCRIPTION_freefunc_type" [Par "freefunc"]]);
  Macro "sk_ACCESS_DESCRIPTION_insert" ["sk"; "ptr"; "idx"]
    (Call "OPENSSL_sk_insert" [Call "ossl_check_ACCESS_DESCRIPTION_sk_type" [Par "sk"];
    Call "ossl_check_ACCESS_DESCRIPTION_type" [Par "ptr"]; Par "idx"]);
  Macro "sk_ACCESS_DESCRIPTION_set" ["sk"; "idx"; "ptr"] (Cast (Ptr (TypeName "ACCESS_DESCRIPTION"))
    (Call "OPENSSL_sk_set" [Call "ossl_check_ACCESS_DESCRIPTION_sk_type" [Par "sk"]; Par "idx";
    Call "ossl_check_ACCESS_DESCRIPTION_type" [Par "ptr"]]));
  Macro "sk_ACCESS_DESCRIPTION_find" ["sk"; "ptr"]
    (Call "OPENSSL_sk_find" [Call "ossl_check_ACCESS_DESCRIPTION_sk_type" [Par "sk"];
    Call "ossl_check_ACCESS_DESCRIPTION_type" [Par "ptr"]]);
  Macro "sk_ACCESS_DESCRIPTION_find_ex" ["sk"; "ptr"]
    (Call "OPENSSL_sk_find_ex" [Call "ossl_check_ACCESS_DESCRIPTION_sk_type" [Par "sk"];
    Call "ossl_check_ACCESS_DESCRIPTION_type" [Par "ptr"]]);
  Macro "sk_ACCESS_DESCRIPTION_find_all" ["sk"; "ptr"; "pnum"]
    (Call "OPENSSL_sk_find_all" [Call "ossl_check_ACCESS_DESCRIPTION_sk_type" [Par "sk"];
    Call "ossl_check_ACCESS_DESCRIPTION_type" [Par "ptr"]; Par "pnum"]);
  Macro "sk_ACCESS_DESCRIPTION_sort" ["sk"]
    (Call "OPENSSL_sk_sort" [Call "ossl_check_ACCESS_DESCRIPTION_sk_type" [Par "sk"]]);
  Macro "sk_ACCESS_DESCRIPTION_is_sorted" ["sk"]
    (Call "OPENSSL_sk_is_sorted" [Call "ossl_check_const_ACCESS_DESCRIPTION_sk_type" [Par "sk"]]);
  Macro "sk_ACCESS_DESCRIPTION_dup" ["sk"] (Cast (Ptr (STACK_OF "ACCESS_DESCRIPTION"))
    (Call "OPENSSL_sk_dup" [Call "ossl_check_const_ACCESS_DESCRIPTION_sk_type" [Par "sk"]]));
  Macro "sk_ACCESS_DESCRIPTION_deep_copy" ["sk"; "copyfunc"; "freefunc"] (Cast (Ptr (STACK_OF "ACCESS_DESCRIPTION"))
    (Call "OPENSSL_sk_deep_copy" [Call "ossl_check_const_ACCESS_DESCRIPTION_sk_type" [Par "sk"];
    Call "ossl_check_ACCESS_DESCRIPTION_copyfunc_type" [Par "copyfunc"];
    Call "ossl_check_ACCESS_DESCRIPTION_freefunc_type" [Par "freefunc"]]));
  Macro "sk_ACCESS_DESCRIPTION_set_cmp_func" ["sk"; "cmp"] (Cast (sk_compfunc (TypeName "ACCESS_DESCRIPTION"))
    (Call "OPENSSL_sk_set_cmp_func" [Call "ossl_check_ACCESS_DESCRIPTION_sk_type" [Par "sk"];
    Call "ossl_check_ACCESS_DESCRIPTION_compfunc_type" [Par "cmp"]]))].

Definition stack_GENERAL_NAME : stack := Stack "GENERAL_NAME" (TypeName "GENERAL_NAME") (TypeName "GENERAL_NAME") [
  Macro "sk_GENERAL_NAME_num" ["sk"] (Call "OPENSSL_sk_num" [Call "ossl_check_const_GENERAL_NAME_sk_type" [Par "sk"]]);
  Macro "sk_GENERAL_NAME_value" ["sk"; "idx"] (Cast (Ptr (TypeName "GENERAL_NAME"))
    (Call "OPENSSL_sk_value" [Call "ossl_check_const_GENERAL_NAME_sk_type" [Par "sk"]; Par "idx"]));
  Macro "sk_GENERAL_NAME_new" ["cmp"] (Cast (Ptr (STACK_OF "GENERAL_NAME"))
    (Call "OPENSSL_sk_new" [Call "ossl_check_GENERAL_NAME_compfunc_type" [Par "cmp"]]));
  Macro "sk_GENERAL_NAME_new_null" [] (Cast (Ptr (STACK_OF "GENERAL_NAME")) (Call "OPENSSL_sk_new_null" []));
  Macro "sk_GENERAL_NAME_new_reserve" ["cmp"; "n"] (Cast (Ptr (STACK_OF "GENERAL_NAME"))
    (Call "OPENSSL_sk_new_reserve" [Call "ossl_check_GENERAL_NAME_compfunc_type" [Par "cmp"]; Par "n"]));
  Macro "sk_GENERAL_NAME_reserve" ["sk"; "n"]
    (Call "OPENSSL_sk_reserve" [Call "ossl_check_GENERAL_NAME_sk_type" [Par "sk"]; Par "n"]);
  Macro "sk_GENERAL_NAME_free" ["sk"] (Call "OPENSSL_sk_free" [Call "ossl_check_GENERAL_NAME_sk_type" [Par "sk"]]);
  Macro "sk_GENERAL_NAME_zero" ["sk"] (Call "OPENSSL_sk_zero" [Call "ossl_check_GENERAL_NAME_sk_type" [Par "sk"]]);
  Macro "sk_GENERAL_NAME_delete" ["sk"; "i"] (Cast (Ptr (TypeName "GENERAL_NAME"))
    (Call "OPENSSL_sk_delete" [Call "ossl_check_GENERAL_NAME_sk_type" [Par "sk"]; Par "i"]));
  Macro "sk_GENERAL_NAME_delete_ptr" ["sk"; "ptr"] (Cast (Ptr (TypeName "GENERAL_NAME"))
    (Call "OPENSSL_sk_delete_ptr" [Call "ossl_check_GENERAL_NAME_sk_type" [Par "sk"];
    Call "ossl_check_GENERAL_NAME_type" [Par "ptr"]]));
  Macro "sk_GENERAL_NAME_push" ["sk"; "ptr"] (Call "OPENSSL_sk_push" [Call "ossl_check_GENERAL_NAME_sk_type" [Par "sk"];
    Call "ossl_check_GENERAL_NAME_type" [Par "ptr"]]);
  Macro "sk_GENERAL_NAME_unshift" ["sk"; "ptr"]
    (Call "OPENSSL_sk_unshift" [Call "ossl_check_GENERAL_NAME_sk_type" [Par "sk"];
    Call "ossl_check_GENERAL_NAME_type" [Par "ptr"]]);
  Macro "sk_GENERAL_NAME_pop" ["sk"] (Cast (Ptr (TypeName "GENERAL_NAME"))
    (Call "OPENSSL_sk_pop" [Call "ossl_check_GENERAL_NAME_sk_type" [Par "sk"]]));
  Macro "sk_GENERAL_NAME_shift" ["sk"] (Cast (Ptr (TypeName "GENERAL_NAME"))
    (Call "OPENSSL_sk_shift" [Call "ossl_check_GENERAL_NAME_sk_type" [Par "sk"]]));
  Macro "sk_GENERAL_NAME_pop_free" ["sk"; "freefunc"]
    (Call "OPENSSL_sk_pop_free" [Call "ossl_check_GENERAL_NAME_sk_type" [Par "sk"];
    Call "ossl_check_GENERAL_NAME_freefunc_type" [Par "freefunc"]]);
  Macro "sk_GENERAL_NAME_insert" ["sk"; "ptr"; "idx"]
    (Call "OPENSSL_sk_insert" [Call "ossl_check_GENERAL_NAME_sk_type" [Par "sk"];
    Call "ossl_check_GENERAL_NAME_type" [Par "ptr"]; Par "idx"]);
  Macro "sk_GENERAL_NAME_set" ["sk"; "idx"; "ptr"] (Cast (Ptr (TypeName "GENERAL_NAME"))
    (Call "OPENSSL_sk_set" [Call "ossl_check_GENERAL_NAME_sk_type" [Par "sk"]; Par "idx";
    Call "ossl_check_GENERAL_NAME_type" [Par "ptr"]]));
  Macro "sk_GENERAL_NAME_find" ["sk"; "ptr"] (Call "OPENSSL_sk_find" [Call "ossl_check_GENERAL_NAME_sk_type" [Par "sk"];
    Call "ossl_check_GENERAL_NAME_type" [Par "ptr"]]);
  Macro "sk_GENERAL_NAME_find_ex" ["sk"; "ptr"]
    (Call "OPENSSL_sk_find_ex" [Call "ossl_check_GENERAL_NAME_sk_type" [Par "sk"];
    Call "ossl_check_GENERAL_NAME_type" [Par "ptr"]]);
  Macro "sk_GENERAL_NAME_find_all" ["sk"; "ptr"; "pnum"]
    (Call "OPENSSL_sk_find_all" [Call "ossl_check_GENERAL_NAME_sk_type" [Par "sk"];
    Call "ossl_check_GENERAL_NAME_type" [Par "ptr"]; Par "pnum"]);
  Macro "sk_GENERAL_NAME_sort" ["sk"] (Call "OPENSSL_sk_sort" [Call "ossl_check_GENERAL_NAME_sk_type" [Par "sk"]]);
  Macro "sk_GENERAL_NAME_is_sorted" ["sk"]
    (Call "OPENSSL_sk_is_sorted" [Call "ossl_check_const_GENERAL_NAME_sk_type" [Par "sk"]]);
  Macro "sk_GENERAL_NAME_dup" ["sk"] (Cast (Ptr (STACK_OF "GENERAL_NAME"))
    (Call "OPENSSL_sk_dup" [Call "ossl_check_const_GENERAL_NAME_sk_type" [Par "sk"]]));
  Macro "sk_GENERAL_NAME_deep_copy" ["sk"; "copyfunc"; "freefunc"] (Cast (Ptr (STACK_OF "GENERAL_NAME"))
    (Call "OPENSSL_sk_deep_copy" [Call "ossl_check_const_GENERAL_NAME_sk_type" [Par "sk"];
    Call "ossl_check_GENERAL_NAME_copyfunc_type" [Par "copyfunc"];
    Call "ossl_check_GENERAL_NAME_freefunc_type" [Par "freefunc"]]));
  Macro "sk_GENERAL_NAME_set_cmp_func" ["sk"; "cmp"] (Cast (sk_compfunc (TypeName "GENERAL_NAME"))
    (Call "OPENSSL_sk_set_cmp_func" [Call "ossl_check_GENERAL_NAME_sk_type" [Par "sk"];
    Call "ossl_check_GENERAL_NAME_compfunc_type" [Par "cmp"]]))].

Definition stack_GENERAL_NAMES : stack := Stack "GENERAL_NAMES" (TypeName "GENERAL_NAMES") (TypeName "GENERAL_NAMES") [
  Macro "sk_GENERAL_NAMES_num" ["sk"] (Call "OPENSSL_sk_num" [Call "ossl_check_const_GENERAL_NAMES_sk_type" [Par "sk"]]);
  Macro "sk_GENERAL_NAMES_value" ["sk"; "idx"] (Cast (Ptr (TypeName "GENERAL_NAMES"))
    (Call "OPENSSL_sk_value" [Call "ossl_check_const_GENERAL_NAMES_sk_type" [Par "sk"]; Par "idx"]));
  Macro "sk_GENERAL_NAMES_new" ["cmp"] (Cast (Ptr (STACK_OF "GENERAL_NAMES"))
    (Call "OPENSSL_sk_new" [Call "ossl_check_GENERAL_NAMES_compfunc_type" [Par "cmp"]]));
  Macro "sk_GENERAL_NAMES_new_null" [] (Cast (Ptr (STACK_OF "GENERAL_NAMES")) (Call "OPENSSL_sk_new_null" []));
  Macro "sk_GENERAL_NAMES_new_reserve" ["cmp"; "n"] (Cast (Ptr (STACK_OF "GENERAL_NAMES"))
    (Call "OPENSSL_sk_new_reserve" [Call "ossl_check_GENERAL_NAMES_compfunc_type" [Par "cmp"]; Par "n"]));
  Macro "sk_GENERAL_NAMES_reserve" ["sk"; "n"]
    (Call "OPENSSL_sk_reserve" [Call "ossl_check_GENERAL_NAMES_sk_type" [Par "sk"]; Par "n"]);
  Macro "sk_GENERAL_NAMES_free" ["sk"] (Call "OPENSSL_sk_free" [Call "ossl_check_GENERAL_NAMES_sk_type" [Par "sk"]]);
  Macro "sk_GENERAL_NAMES_zero" ["sk"] (Call "OPENSSL_sk_zero" [Call "ossl_check_GENERAL_NAMES_sk_type" [Par "sk"]]);
  Macro "sk_GENERAL_NAMES_delete" ["sk"; "i"] (Cast (Ptr (TypeName "GENERAL_NAMES"))
    (Call "OPENSSL_sk_delete" [Call "ossl_check_GENERAL_NAMES_sk_type" [Par "sk"]; Par "i"]));
  Macro "sk_GENERAL_NAMES_delete_ptr" ["sk"; "ptr"] (Cast (Ptr (TypeName "GENERAL_NAMES"))
    (Call "OPENSSL_sk_delete_ptr" [Call "ossl_check_GENERAL_NAMES_sk_type" [Par "sk"];
    Call "ossl_check_GENERAL_NAMES_type" [Par "ptr"]]));
  Macro "sk_GENERAL_NAMES_push" ["sk"; "ptr"]
    (Call "OPENSSL_sk_push" [Call "ossl_check_GENERAL_NAMES_sk_type" [Par "sk"];
    Call "ossl_check_GENERAL_NAMES_type" [Par "ptr"]]);
  Macro "sk_GENERAL_NAMES_unshift" ["sk"; "ptr"]
    (Call "OPENSSL_sk_unshift" [Call "ossl_check_GENERAL_NAMES_sk_type" [Par "sk"];
    Call "ossl_check_GENERAL_NAMES_type" [Par "ptr"]]);
  Macro "sk_GENERAL_NAMES_pop" ["sk"] (Cast (Ptr (TypeName "GENERAL_NAMES"))
    (Call "OPENSSL_sk_pop" [Call "ossl_check_GENERAL_NAMES_sk_type" [Par "sk"]]));
  Macro "sk_GENERAL_NAMES_shift" ["sk"] (Cast (Ptr (TypeName "GENERAL_NAMES"))
    (Call "OPENSSL_sk_shift" [Call "ossl_check_GENERAL_NAMES_sk_type" [Par "sk"]]));
  Macro "sk_GENERAL_NAMES_pop_free" ["sk"; "freefunc"]
    (Call "OPENSSL_sk_pop_free" [Call "ossl_check_GENERAL_NAMES_sk_type" [Par "sk"];
    Call "ossl_check_GENERAL_NAMES_freefunc_type" [Par "freefunc"]]);
  Macro "sk_GENERAL_NAMES_insert" ["sk"; "ptr"; "idx"]
    (Call "OPENSSL_sk_insert" [Call "ossl_check_GENERAL_NAMES_sk_type" [Par "sk"];
    Call "ossl_check_GENERAL_NAMES_type" [Par "ptr"]; Par "idx"]);
  Macro "sk_GENERAL_NAMES_set" ["sk"; "idx"; "ptr"] (Cast (Ptr (TypeName "GENERAL_NAMES"))
    (Call "OPENSSL_sk_set" [Call "ossl_check_GENERAL_NAMES_sk_type" [Par "sk"]; Par "idx";
    Call "ossl_check_GENERAL_NAMES_type" [Par "ptr"]]));
  Macro "sk_GENERAL_NAMES_find" ["sk"; "ptr"]
    (Call "OPENSSL_sk_find" [Call "ossl_check_GENERAL_NAMES_sk_type" [Par "sk"];
    Call "ossl_check_GENERAL_NAMES_type" [Par "ptr"]]);
  Macro "sk_GENERAL_NAMES_find_ex" ["sk"; "ptr"]
    (Call "OPENSSL_sk_find_ex" [Call "ossl_check_GENERAL_NAMES_sk_type" [Par "sk"];
    Call "ossl_check_GENERAL_NAMES_type" [Par "ptr"]]);
  Macro "sk_GENERAL_NAMES_find_all" ["sk"; "ptr"; "pnum"]
    (Call "OPENSSL_sk_find_all" [Call "ossl_check_GENERAL_NAMES_sk_type" [Par "sk"];
    Call "ossl_check_GENERAL_NAMES_type" [Par "ptr"]; Par "pnum"]);
  Macro "sk_GENERAL_NAMES_sort" ["sk"] (Call "OPENSSL_sk_sort" [Call "ossl_check_GENERAL_NAMES_sk_type" [Par "sk"]]);
  Macro "sk_GENERAL_NAMES_is_sorted" ["sk"]
    (Call "OPENSSL_sk_is_sorted" [Call "ossl_check_const_GENERAL_NAMES_sk_type" [Par "sk"]]);
  Macro "sk_GENERAL_NAMES_dup" ["sk"] (Cast (Ptr (STACK_OF "GENERAL_NAMES"))
    (Call "OPENSSL_sk_dup" [Call "ossl_check_const_GENERAL_NAMES_sk_type" [Par "sk"]]));
  Macro "sk_GENERAL_NAMES_deep_copy" ["sk"; "copyfunc"; "freefunc"] (Cast (Ptr (STACK_OF "GENERAL_NAMES"))
    (Call "OPENSSL_sk_deep_copy" [Call "ossl_check_const_GENERAL_NAMES_sk_type" [Par "sk"];
    Call "ossl_check_GENERAL_NAMES_copyfunc_type" [Par "copyfunc"];
    Call "ossl_check_GENERAL_NAMES_freefunc_type" [Par "freefunc"]]));
  Macro "sk_GENERAL_NAMES_set_cmp_func" ["sk"; "cmp"] (Cast (sk_compfunc (TypeName "GENERAL_NAMES"))
    (Call "OPENSSL_sk_set_cmp_func" [Call "ossl_check_GENERAL_NAMES_sk_type" [Par "sk"];
    Call "ossl_check_GENERAL_NAMES_compfunc_type" [Par "cmp"]]))].

Definition stack_DIST_POINT : stack := Stack "DIST_POINT" (TypeName "DIST_POINT") (TypeName "DIST_POINT") [
  Macro "sk_DIST_POINT_num" ["sk"] (Call "OPENSSL_sk_num" [Call "ossl_check_const_DIST_POINT_sk_type" [Par "sk"]]);
  Macro "sk_DIST_POINT_value" ["sk"; "idx"] (Cast (Ptr (TypeName "DIST_POINT"))
    (Call "OPENSSL_sk_value" [Call "ossl_check_const_DIST_POINT_sk_type" [Par "sk"]; Par "idx"]));
  Macro "sk_DIST_POINT_new" ["cmp"] (Cast (Ptr (STACK_OF "DIST_POINT"))
    (Call "OPENSSL_sk_new" [Call "ossl_check_DIST_POINT_compfunc_type" [Par "cmp"]]));
  Macro "sk_DIST_POINT_new_null" [] (Cast (Ptr (STACK_OF "DIST_POINT")) (Call "OPENSSL_sk_new_null" []));
  Macro "sk_DIST_POINT_new_reserve" ["cmp"; "n"] (Cast (Ptr (STACK_OF "DIST_POINT"))
    (Call "OPENSSL_sk_new_reserve" [Call "ossl_check_DIST_POINT_compfunc_type" [Par "cmp"]; Par "n"]));
  Macro "sk_DIST_POINT_reserve" ["sk"; "n"] (Call "OPENSSL_sk_reserve" [Call "ossl_check_DIST_POINT_sk_type" [Par "sk"];
    Par "n"]);
  Macro "sk_DIST_POINT_free" ["sk"] (Call "OPENSSL_sk_free" [Call "ossl_check_DIST_POINT_sk_type" [Par "sk"]]);
  Macro "sk_DIST_POINT_zero" ["sk"] (Call "OPENSSL_sk_zero" [Call "ossl_check_DIST_POINT_sk_type" [Par "sk"]]);
  Macro "sk_DIST_POINT_delete" ["sk"; "i"] (Cast (Ptr (TypeName "DIST_POINT"))
    (Call "OPENSSL_sk_delete" [Call "ossl_check_DIST_POINT_sk_type" [Par "sk"]; Par "i"]));
  Macro "sk_DIST_POINT_delete_ptr" ["sk"; "ptr"] (Cast (Ptr (TypeName "DIST_POINT"))
    (Call "OPENSSL_sk_delete_ptr" [Call "ossl_check_DIST_POINT_sk_type" [Par "sk"];
    Call "ossl_check_DIST_POINT_type" [Par "ptr"]]));
  Macro "sk_DIST_POINT_push" ["sk"; "ptr"] (Call "OPENSSL_sk_push" [Call "ossl_check_DIST_POINT_sk_type" [Par "sk"];
    Call "ossl_check_DIST_POINT_type" [Par "ptr"]]);
  Macro "sk_DIST_POINT_unshift" ["sk"; "ptr"]
    (Call "OPENSSL_sk_unshift" [Call "ossl_check_DIST_POINT_sk_type" [Par "sk"];
    Call "ossl_check_DIST_POINT_type" [Par "ptr"]]);
  Macro "sk_DIST_POINT_pop" ["sk"] (Cast (Ptr (TypeName "DIST_POINT"))
    (Call "OPENSSL_sk_pop" [Call "ossl_check_DIST_POINT_sk_type" [Par "sk"]]));
  Macro "sk_DIST_POINT_shift" ["sk"] (Cast (Ptr (TypeName "DIST_POINT"))
    (Call "OPENSSL_sk_shift" [Call "ossl_check_DIST_POINT_sk_type" [Par "sk"]]));
  Macro "sk_DIST_POINT_pop_free" ["sk"; "freefunc"]
    (Call "OPENSSL_sk_pop_free" [Call "ossl_check_DIST_POINT_sk_type" [Par "sk"];
    Call "ossl_check_DIST_POINT_freefunc_type" [Par "freefunc"]]);
  Macro "sk_DIST_POINT_insert" ["sk"; "ptr"; "idx"]
    (Call "OPENSSL_sk_insert" [Call "ossl_check_DIST_POINT_sk_type" [Par "sk"];
    Call "ossl_check_DIST_POINT_type" [Par "ptr"]; Par "idx"]);
  Macro "sk_DIST_POINT_set" ["sk"; "idx"; "ptr"] (Cast (Ptr (TypeName "DIST_POINT"))
    (Call "OPENSSL_sk_set" [Call "ossl_check_DIST_POINT_sk_type" [Par "sk"]; Par "idx";
    Call "ossl_check_DIST_POINT_type" [Par "ptr"]]));
  Macro "sk_DIST_POINT_find" ["sk"; "ptr"] (Call "OPENSSL_sk_find" [Call "ossl_check_DIST_POINT_sk_type" [Par "sk"];
    Call "ossl_check_DIST_POINT_type" [Par "ptr"]]);
  Macro "sk_DIST_POINT_find_ex" ["sk"; "ptr"]
    (Call "OPENSSL_sk_find_ex" [Call "ossl_check_DIST_POINT_sk_type" [Par "sk"];
    Call "ossl_check_DIST_POINT_type" [Par "ptr"]]);
  Macro "sk_DIST_POINT_find_all" ["sk"; "ptr"; "pnum"]
    (Call "OPENSSL_sk_find_all" [Call "ossl_check_DIST_POINT_sk_type" [Par "sk"];
    Call "ossl_check_DIST_POINT_type" [Par "ptr"]; Par "pnum"]);
  Macro "sk_DIST_POINT_sort" ["sk"] (Call "OPENSSL_sk_sort" [Call "ossl_check_DIST_POINT_sk_type" [Par "sk"]]);
  Macro "sk_DIST_POINT_is_sorted" ["sk"]
    (Call "OPENSSL_sk_is_sorted" [Call "ossl_check_const_DIST_POINT_sk_type" [Par "sk"]]);
  Macro "sk_DIST_POINT_dup" ["sk"] (Cast (Ptr (STACK_OF "DIST_POINT"))
    (Call "OPENSSL_sk_dup" [Call "ossl_check_const_DIST_POINT_sk_type" [Par "sk"]]));
  Macro "sk_DIST_POINT_deep_copy" ["sk"; "copyfunc"; "freefunc"] (Cast (Ptr (STACK_OF "DIST_POINT"))
    (Call "OPENSSL_sk_deep_copy" [Call "ossl_check_const_DIST_POINT_sk_type" [Par "sk"];
    Call "ossl_check_DIST_POINT_copyfunc_type" [Par "copyfunc"];
    Call "ossl_check_DIST_POINT_freefunc_type" [Par "freefunc"]]));
  Macro "sk_DIST_POINT_set_cmp_func" ["sk"; "cmp"] (Cast (sk_compfunc (TypeName "DIST_POINT"))
    (Call "OPENSSL_sk_set_cmp_func" [Call "ossl_check_DIST_POINT_sk_type" [Par "sk"];
    Call "ossl_check_DIST_POINT_compfunc_type" [Par "cmp"]]))].

Definition stack_SXNETID : stack := Stack "SXNETID" (TypeName "SXNETID") (TypeName "SXNETID") [
  Macro "sk_SXNETID_num" ["sk"] (Call "OPENSSL_sk_num" [Call "ossl_check_const_SXNETID_sk_type" [Par "sk"]]);
  Macro "sk_SXNETID_value" ["sk"; "idx"] (Cast (Ptr (TypeName "SXNETID"))
    (Call "OPENSSL_sk_value" [Call "ossl_check_const_SXNETID_sk_type" [Par "sk"]; Par "idx"]));
  Macro "sk_SXNETID_new" ["cmp"] (Cast (Ptr (STACK_OF "SXNETID"))
    (Call "OPENSSL_sk_new" [Call "ossl_check_SXNETID_compfunc_type" [Par "cmp"]]));
  Macro "sk_SXNETID_new_null" [] (Cast (Ptr (STACK_OF "SXNETID")) (Call "OPENSSL_sk_new_null" []));
  Macro "sk_SXNETID_new_reserve" ["cmp"; "n"] (Cast (Ptr (STACK_OF "SXNETID"))
    (Call "OPENSSL_sk_new_reserve" [Call "ossl_check_SXNETID_compfunc_type" [Par "cmp"]; Par "n"]));
  Macro "sk_SXNETID_reserve" ["sk"; "n"] (Call "OPENSSL_sk_reserve" [Call "ossl_check_SXNETID_sk_type" [Par "sk"];
    Par "n"]);
  Macro "sk_SXNETID_free" ["sk"] (Call "OPENSSL_sk_free" [Call "ossl_check_SXNETID_sk_type" [Par "sk"]]);
  Macro "sk_SXNETID_zero" ["sk"] (Call "OPENSSL_sk_zero" [Call "ossl_check_SXNETID_sk_type" [Par "sk"]]);
  Macro "sk_SXNETID_delete" ["sk"; "i"] (Cast (Ptr (TypeName "SXNETID"))
    (Call "OPENSSL_sk_delete" [Call "ossl_check_SXNETID_sk_type" [Par "sk"]; Par "i"]));
  Macro "sk_SXNETID_delete_ptr" ["sk"; "ptr"] (Cast (Ptr (TypeName "SXNETID"))
    (Call "OPENSSL_sk_delete_ptr" [Call "ossl_check_SXNETID_sk_type" [Par "sk"];
    Call "ossl_check_SXNETID_type" [Par "ptr"]]));
  Macro "sk_SXNETID_push" ["sk"; "ptr"] (Call "OPENSSL_sk_push" [Call "ossl_check_SXNETID_sk_type" [Par "sk"];
    Call "ossl_check_SXNETID_type" [Par "ptr"]]);
  Macro "sk_SXNETID_unshift" ["sk"; "ptr"] (Call "OPENSSL_sk_unshift" [Call "ossl_check_SXNETID_sk_type" [Par "sk"];
    Call "ossl_check_SXNETID_type" [Par "ptr"]]);
  Macro "sk_SXNETID_pop" ["sk"] (Cast (Ptr (TypeName "SXNETID"))
    (Call "OPENSSL_sk_pop" [Call "ossl_check_SXNETID_sk_type" [Par "sk"]]));
  Macro "sk_SXNETID_shift" ["sk"] (Cast (Ptr (TypeName "SXNETID"))
    (Call "OPENSSL_sk_shift" [Call "ossl_check_SXNETID_sk_type" [Par "sk"]]));
  Macro "sk_SXNETID_pop_free" ["sk"; "freefunc"]
    (Call "OPENSSL_sk_pop_free" [Call "ossl_check_SXNETID_sk_type" [Par "sk"];
    Call "ossl_check_SXNETID_freefunc_type" [Par "freefunc"]]);
  Macro "sk_SXNETID_insert" ["sk"; "ptr"; "idx"]
    (Call "OPENSSL_sk_insert" [Call "ossl_check_SXNETID_sk_type" [Par "sk"];
    Call "ossl_check_SXNETID_type" [Par "ptr"]; Par "idx"]);
  Macro "sk_SXNETID_set" ["sk"; "idx"; "ptr"] (Cast (Ptr (TypeName "SXNETID"))
    (Call "OPENSSL_sk_set" [Call "ossl_check_SXNETID_sk_type" [Par "sk"]; Par "idx";
    Call "ossl_check_SXNETID_type" [Par "ptr"]]));
  Macro "sk_SXNETID_find" ["sk"; "ptr"] (Call "OPENSSL_sk_find" [Call "ossl_check_SXNETID_sk_type" [Par "sk"];
    Call "ossl_check_SXNETID_type" [Par "ptr"]]);
  Macro "sk_SXNETID_find_ex" ["sk"; "ptr"] (Call "OPENSSL_sk_find_ex" [Call "ossl_check_SXNETID_sk_type" [Par "sk"];
    Call "ossl_check_SXNETID_type" [Par "ptr"]]);
  Macro "sk_SXNETID_find_all" ["sk"; "ptr"; "pnum"]
    (Call "OPENSSL_sk_find_all" [Call "ossl_check_SXNETID_sk_type" [Par "sk"];
    Call "ossl_check_SXNETID_type" [Par "ptr"]; Par "pnum"]);
  Macro "sk_SXNETID_sort" ["sk"] (Call "OPENSSL_sk_sort" [Call "ossl_check_SXNETID_sk_type" [Par "sk"]]);
  Macro "sk_SXNETID_is_sorted" ["sk"] (Call "OPENSSL_sk_is_sorted" [Call "ossl_check_const_SXNETID_sk_type" [Par "sk"]]);
  Macro "sk_SXNETID_dup" ["sk"] (Cast (Ptr (STACK_OF "SXNETID"))
    (Call "OPENSSL_sk_dup" [Call "ossl_check_const_SXNETID_sk_type" [Par "sk"]]));
  Macro "sk_SXNETID_deep_copy" ["sk"; "copyfunc"; "freefunc"] (Cast (Ptr (STACK_OF "SXNETID"))
    (Call "OPENSSL_sk_deep_copy" [Call "ossl_check_const_SXNETID_sk_type" [Par "sk"];
    Call "ossl_check_SXNETID_copyfunc_type" [Par "copyfunc"];
    Call "ossl_check_SXNETID_freefunc_type" [Par "freefunc"]]));
  Macro "sk_SXNETID_set_cmp_func" ["sk"; "cmp"] (Cast (sk_compfunc (TypeName "SXNETID"))
    (Call "OPENSSL_sk_set_cmp_func" [Call "ossl_check_SXNETID_sk_type" [Par "sk"];
    Call "ossl_check_SXNETID_compfunc_type" [Par "cmp"]]))].

Definition stack_POLICYQUALINFO : stack := Stack "POLICYQUALINFO" (TypeName "POLICYQUALINFO") (TypeName "POLICYQUALINFO") [
  Macro "sk_POLICYQUALINFO_num" ["sk"]
    (Call "OPENSSL_sk_num" [Call "ossl_check_const_POLICYQUALINFO_sk_type" [Par "sk"]]);
  Macro "sk_POLICYQUALINFO_value" ["sk"; "idx"] (Cast (Ptr (TypeName "POLICYQUALINFO"))
    (Call "OPENSSL_sk_value" [Call "ossl_check_const_POLICYQUALINFO_sk_type" [Par "sk"]; Par "idx"]));
  Macro "sk_POLICYQUALINFO_new" ["cmp"] (Cast (Ptr (STACK_OF "POLICYQUALINFO"))
    (Call "OPENSSL_sk_new" [Call "ossl_check_POLICYQUALINFO_compfunc_type" [Par "cmp"]]));
  Macro "sk_POLICYQUALINFO_new_null" [] (Cast (Ptr (STACK_OF "POLICYQUALINFO")) (Call "OPENSSL_sk_new_null" []));
  Macro "sk_POLICYQUALINFO_new_reserve" ["cmp"; "n"] (Cast (Ptr (STACK_OF "POLICYQUALINFO"))
    (Call "OPENSSL_sk_new_reserve" [Call "ossl_check_POLICYQUALINFO_compfunc_type" [Par "cmp"]; Par "n"]));
  Macro "sk_POLICYQUALINFO_reserve" ["sk"; "n"]
    (Call "OPENSSL_sk_reserve" [Call "ossl_check_POLICYQUALINFO_sk_type" [Par "sk"]; Par "n"]);
  Macro "sk_POLICYQUALINFO_free" ["sk"] (Call "OPENSSL_sk_free" [Call "ossl_check_POLICYQUALINFO_sk_type" [Par "sk"]]);
  Macro "sk_POLICYQUALINFO_zero" ["sk"] (Call "OPENSSL_sk_zero" [Call "ossl_check_POLICYQUALINFO_sk_type" [Par "sk"]]);
  Macro "sk_POLICYQUALINFO_delete" ["sk"; "i"] (Cast (Ptr (TypeName "POLICYQUALINFO"))
    (Call "OPENSSL_sk_delete" [Call "ossl_check_POLICYQUALINFO_sk_type" [Par "sk"]; Par "i"]));
  Macro "sk_POLICYQUALINFO_delete_ptr" ["sk"; "ptr"] (Cast (Ptr (TypeName "POLICYQUALINFO"))
    (Call "OPENSSL_sk_delete_ptr" [Call "ossl_check_POLICYQUALINFO_sk_type" [Par "sk"];
    Call "ossl_check_POLICYQUALINFO_type" [Par "ptr"]]));
  Macro "sk_POLICYQUALINFO_push" ["sk"; "ptr"]
    (Call "OPENSSL_sk_push" [Call "ossl_check_POLICYQUALINFO_sk_type" [Par "sk"];
    Call "ossl_check_POLICYQUALINFO_type" [Par "ptr"]]);
  Macro "sk_POLICYQUALINFO_unshift" ["sk"; "ptr"]
    (Call "OPENSSL_sk_unshift" [Call "ossl_check_POLICYQUALINFO_sk_type" [Par "sk"];
    Call "ossl_check_POLICYQUALINFO_type" [Par "ptr"]]);
  Macro "sk_POLICYQUALINFO_pop" ["sk"] (Cast (Ptr (TypeName "POLICYQUALINFO"))
    (Call "OPENSSL_sk_pop" [Call "ossl_check_POLICYQUALINFO_sk_type" [Par "sk"]]));
  Macro "sk_POLICYQUALINFO_shift" ["sk"] (Cast (Ptr (TypeName "POLICYQUALINFO"))
    (Call "OPENSSL_sk_shift" [Call "ossl_check_POLICYQUALINFO_sk_type" [Par "sk"]]));
  Macro "sk_POLICYQUALINFO_pop_free" ["sk"; "freefunc"]
    (Call "OPENSSL_sk_pop_free" [Call "ossl_check_POLICYQUALINFO_sk_type" [Par "sk"];
    Call "ossl_check_POLICYQUALINFO_freefunc_type" [Par "freefunc"]]);
  Macro "sk_POLICYQUALINFO_insert" ["sk"; "ptr"; "idx"]
    (Call "OPENSSL_sk_insert" [Call "ossl_check_POLICYQUALINFO_sk_type" [Par "sk"];
    Call "ossl_check_POLICYQUALINFO_type" [Par "ptr"]; Par "idx"]);
  Macro "sk_POLICYQUALINFO_set" ["sk"; "idx"; "ptr"] (Cast (Ptr (TypeName "POLICYQUALINFO"))
    (Call "OPENSSL_sk_set" [Call "ossl_check_POLICYQUALINFO_sk_type" [Par "sk"]; Par "idx";
    Call "ossl_check_POLICYQUALINFO_type" [Par "ptr"]]));
  Macro "sk_POLICYQUALINFO_find" ["sk"; "ptr"]
    (Call "OPENSSL_sk_find" [Call "ossl_check_POLICYQUALINFO_sk_type" [Par "sk"];
    Call "ossl_check_POLICYQUALINFO_type" [Par "ptr"]]);
  Macro "sk_POLICYQUALINFO_find_ex" ["sk"; "ptr"]
    (Call "OPENSSL_sk_find_ex" [Call "ossl_check_POLICYQUALINFO_sk_type" [Par "sk"];
    Call "ossl_check_POLICYQUALINFO_type" [Par "ptr"]]);
  Macro "sk_POLICYQUALINFO_find_all" ["sk"; "ptr"; "pnum"]
    (Call "OPENSSL_sk_find_all" [Call "ossl_check_POLICYQUALINFO_sk_type" [Par "sk"];
    Call "ossl_check_POLICYQUALINFO_type" [Par "ptr"]; Par "pnum"]);
  Macro "sk_POLICYQUALINFO_sort" ["sk"] (Call "OPENSSL_sk_sort" [Call "ossl_check_POLICYQUALINFO_sk_type" [Par "sk"]]);
  Macro "sk_POLICYQUALINFO_is_sorted" ["sk"]
    (Call "OPENSSL_sk_is_sorted" [Call "ossl_check_const_POLICYQUALINFO_sk_type" [Par "sk"]]);
  Macro "sk_POLICYQUALINFO_dup" ["sk"] (Cast (Ptr (STACK_OF "POLICYQUALINFO"))
    (Call "OPENSSL_sk_dup" [Call "ossl_check_const_POLICYQUALINFO_sk_type" [Par "sk"]]));
  Macro "sk_POLICYQUALINFO_deep_copy" ["sk"; "copyfunc"; "freefunc"] (Cast (Ptr (STACK_OF "POLICYQUALINFO"))
    (Call "OPENSSL_sk_deep_copy" [Call "ossl_check_const_POLICYQUALINFO_sk_type" [Par "sk"];
    Call "ossl_check_POLICYQUALINFO_copyfunc_type" [Par "copyfunc"];
    Call "ossl_check_POLICYQUALINFO_freefunc_type" [Par "freefunc"]]));
  Macro "sk_POLICYQUALINFO_set_cmp_func" ["sk"; "cmp"] (Cast (sk_compfunc (TypeName "POLICYQUALINFO"))
    (Call "OPENSSL_sk_set_cmp_func" [Call "ossl_check_POLICYQUALINFO_sk_type" [Par "sk"];
    Call "ossl_check_POLICYQUALINFO_compfunc_type" [Par "cmp"]]))].

Definition stack_POLICYINFO : stack := Stack "POLICYINFO" (TypeName "POLICYINFO") (TypeName "POLICYINFO") [
  Macro "sk_POLICYINFO_num" ["sk"] (Call "OPENSSL_sk_num" [Call "ossl_check_const_POLICYINFO_sk_type" [Par "sk"]]);
  Macro "sk_POLICYINFO_value" ["sk"; "idx"] (Cast (Ptr (TypeName "POLICYINFO"))
    (Call "OPENSSL_sk_value" [Call "ossl_check_const_POLICYINFO_sk_type" [Par "sk"]; Par "idx"]));
  Macro "sk_POLICYINFO_new" ["cmp"] (Cast (Ptr (STACK_OF "POLICYINFO"))
    (Call "OPENSSL_sk_new" [Call "ossl_check_POLICYINFO_compfunc_type" [Par "cmp"]]));
  Macro "sk_POLICYINFO_new_null" [] (Cast (Ptr (STACK_OF "POLICYINFO")) (Call "OPENSSL_sk_new_null" []));
  Macro "sk_POLICYINFO_new_reserve" ["cmp"; "n"] (Cast (Ptr (STACK_OF "POLICYINFO"))
    (Call "OPENSSL_sk_new_reserve" [Call "ossl_check_POLICYINFO_compfunc_type" [Par "cmp"]; Par "n"]));
  Macro "sk_POLICYINFO_reserve" ["sk"; "n"] (Call "OPENSSL_sk_reserve" [Call "ossl_check_POLICYINFO_sk_type" [Par "sk"];
    Par "n"]);
  Macro "sk_POLICYINFO_free" ["sk"] (Call "OPENSSL_sk_free" [Call "ossl_check_POLICYINFO_sk_type" [Par "sk"]]);
  Macro "sk_POLICYINFO_zero" ["sk"] (Call "OPENSSL_sk_zero" [Call "ossl_check_POLICYINFO_sk_type" [Par "sk"]]);
  Macro "sk_POLICYINFO_delete" ["sk"; "i"] (Cast (Ptr (TypeName "POLICYINFO"))
    (Call "OPENSSL_sk_delete" [Call "ossl_check_POLICYINFO_sk_type" [Par "sk"]; Par "i"]));
  Macro "sk_POLICYINFO_delete_ptr" ["sk"; "ptr"] (Cast (Ptr (TypeName "POLICYINFO"))
    (Call "OPENSSL_sk_delete_ptr" [Call "ossl_check_POLICYINFO_sk_type" [Par "sk"];
    Call "ossl_check_POLICYINFO_type" [Par "ptr"]]));
  Macro "sk_POLICYINFO_push" ["sk"; "ptr"] (Call "OPENSSL_sk_push" [Call "ossl_check_POLICYINFO_sk_type" [Par "sk"];
    Call "ossl_check_POLICYINFO_type" [Par "ptr"]]);
  Macro "sk_POLICYINFO_unshift" ["sk"; "ptr"]
    (Call "OPENSSL_sk_unshift" [Call "ossl_check_POLICYINFO_sk_type" [Par "sk"];
    Call "ossl_check_POLICYINFO_type" [Par "ptr"]]);
  Macro "sk_POLICYINFO_pop" ["sk"] (Cast (Ptr (TypeName "POLICYINFO"))
    (Call "OPENSSL_sk_pop" [Call "ossl_check_POLICYINFO_sk_type" [Par "sk"]]));
  Macro "sk_POLICYINFO_shift" ["sk"] (Cast (Ptr (TypeName "POLICYINFO"))
    (Call "OPENSSL_sk_shift" [Call "ossl_check_POLICYINFO_sk_type" [Par "sk"]]));
  Macro "sk_POLICYINFO_pop_free" ["sk"; "freefunc"]
    (Call "OPENSSL_sk_pop_free" [Call "ossl_check_POLICYINFO_sk_type" [Par "sk"];
    Call "ossl_check_POLICYINFO_freefunc_type" [Par "freefunc"]]);
  Macro "sk_POLICYINFO_insert" ["sk"; "ptr"; "idx"]
    (Call "OPENSSL_sk_insert" [Call "ossl_check_POLICYINFO_sk_type" [Par "sk"];
    Call "ossl_check_POLICYINFO_type" [Par "ptr"]; Par "idx"]);
  Macro "sk_POLICYINFO_set" ["sk"; "idx"; "ptr"] (Cast (Ptr (TypeName "POLICYINFO"))
    (Call "OPENSSL_sk_set" [Call "ossl_check_POLICYINFO_sk_type" [Par "sk"]; Par "idx";
    Call "ossl_check_POLICYINFO_type" [Par "ptr"]]));
  Macro "sk_POLICYINFO_find" ["sk"; "ptr"] (Call "OPENSSL_sk_find" [Call "ossl_check_POLICYINFO_sk_type" [Par "sk"];
    Call "ossl_check_POLICYINFO_type" [Par "ptr"]]);
  Macro "sk_POLICYINFO_find_ex" ["sk"; "ptr"]
    (Call "OPENSSL_sk_find_ex" [Call "ossl_check_POLICYINFO_sk_type" [Par "sk"];
    Call "ossl_check_POLICYINFO_type" [Par "ptr"]]);
  Macro "sk_POLICYINFO_find_all" ["sk"; "ptr"; "pnum"]
    (Call "OPENSSL_sk_find_all" [Call "ossl_check_POLICYINFO_sk_type" [Par "sk"];
    Call "ossl_check_POLICYINFO_type" [Par "ptr"]; Par "pnum"]);
  Macro "sk_POLICYINFO_sort" ["sk"] (Call "OPENSSL_sk_sort" [Call "ossl_check_POLICYINFO_sk_type" [Par "sk"]]);
  Macro "sk_POLICYINFO_is_sorted" ["sk"]
    (Call "OPENSSL_sk_is_sorted" [Call "ossl_check_const_POLICYINFO_sk_type" [Par "sk"]]);
  Macro "sk_POLICYINFO_dup" ["sk"] (Cast (Ptr (STACK_OF "POLICYINFO"))
    (Call "OPENSSL_sk_dup" [Call "ossl_check_const_POLICYINFO_sk_type" [Par "sk"]]));
  Macro "sk_POLICYINFO_deep_copy" ["sk"; "copyfunc"; "freefunc"] (Cast (Ptr (STACK_OF "POLICYINFO"))
    (Call "OPENSSL_sk_deep_copy" [Call "ossl_check_const_POLICYINFO_sk_type" [Par "sk"];
    Call "ossl_check_POLICYINFO_copyfunc_type" [Par "copyfunc"];
    Call "ossl_check_POLICYINFO_freefunc_type" [Par "freefunc"]]));
  Macro "sk_POLICYINFO_set_cmp_func" ["sk"; "cmp"] (Cast (sk_compfunc (TypeName "POLICYINFO"))
    (Call "OPENSSL_sk_set_cmp_func" [Call "ossl_check_POLICYINFO_sk_type" [Par "sk"];
    Call "ossl_check_POLICYINFO_compfunc_type" [Par "cmp"]]))].

Definition stack_POLICY_MAPPING : stack := Stack "POLICY_MAPPING" (TypeName "POLICY_MAPPING") (TypeName "POLICY_MAPPING") [
  Macro "sk_POLICY_MAPPING_num" ["sk"]
    (Call "OPENSSL_sk_num" [Call "ossl_check_const_POLICY_MAPPING_sk_type" [Par "sk"]]);
  Macro "sk_POLICY_MAPPING_value" ["sk"; "idx"] (Cast (Ptr (TypeName "POLICY_MAPPING"))
    (Call "OPENSSL_sk_value" [Call "ossl_check_const_POLICY_MAPPING_sk_type" [Par "sk"]; Par "idx"]));
  Macro "sk_POLICY_MAPPING_new" ["cmp"] (Cast (Ptr (STACK_OF "POLICY_MAPPING"))
    (Call "OPENSSL_sk_new" [Call "ossl_check_POLICY_MAPPING_compfunc_type" [Par "cmp"]]));
  Macro "sk_POLICY_MAPPING_new_null" [] (Cast (Ptr (STACK_OF "POLICY_MAPPING")) (Call "OPENSSL_sk_new_null" []));
  Macro "sk_POLICY_MAPPING_new_reserve" ["cmp"; "n"] (Cast (Ptr (STACK_OF "POLICY_MAPPING"))
    (Call "OPENSSL_sk_new_reserve" [Call "ossl_check_POLICY_MAPPING_compfunc_type" [Par "cmp"]; Par "n"]));
  Macro "sk_POLICY_MAPPING_reserve" ["sk"; "n"]
    (Call "OPENSSL_sk_reserve" [Call "ossl_check_POLICY_MAPPING_sk_type" [Par "sk"]; Par "n"]);
  Macro "sk_POLICY_MAPPING_free" ["sk"] (Call "OPENSSL_sk_free" [Call "ossl_check_POLICY_MAPPING_sk_type" [Par "sk"]]);
  Macro "sk_POLICY_MAPPING_zero" ["sk"] (Call "OPENSSL_sk_zero" [Call "ossl_check_POLICY_MAPPING_sk_type" [Par "sk"]]);
  Macro "sk_POLICY_MAPPING_delete" ["sk"; "i"] (Cast (Ptr (TypeName "POLICY_MAPPING"))
    (Call "OPENSSL_sk_delete" [Call "ossl_check_POLICY_MAPPING_sk_type" [Par "sk"]; Par "i"]));
  Macro "sk_POLICY_MAPPING_delete_ptr" ["sk"; "ptr"] (Cast (Ptr (TypeName "POLICY_MAPPING"))
    (Call "OPENSSL_sk_delete_ptr" [Call "ossl_check_POLICY_MAPPING_sk_type" [Par "sk"];
    Call "ossl_check_POLICY_MAPPING_type" [Par "ptr"]]));
  Macro "sk_POLICY_MAPPING_push" ["sk"; "ptr"]
    (Call "OPENSSL_sk_push" [Call "ossl_check_POLICY_MAPPING_sk_type" [Par "sk"];
    Call "ossl_check_POLICY_MAPPING_type" [Par "ptr"]]);
  Macro "sk_POLICY_MAPPING_unshift" ["sk"; "ptr"]
    (Call "OPENSSL_sk_unshift" [Call "ossl_check_POLICY_MAPPING_sk_type" [Par "sk"];
    Call "ossl_check_POLICY_MAPPING_type" [Par "ptr"]]);
  Macro "sk_POLICY_MAPPING_pop" ["sk"] (Cast (Ptr (TypeName "POLICY_MAPPING"))
    (Call "OPENSSL_sk_pop" [Call "ossl_check_POLICY_MAPPING_sk_type" [Par "sk"]]));
  Macro "sk_POLICY_MAPPING_shift" ["sk"] (Cast (Ptr (TypeName "POLICY_MAPPING"))
    (Call "OPENSSL_sk_shift" [Call "ossl_check_POLICY_MAPPING_sk_type" [Par "sk"]]));
  Macro "sk_POLICY_MAPPING_pop_free" ["sk"; "freefunc"]
    (Call "OPENSSL_sk_pop_free" [Call "ossl_check_POLICY_MAPPING_sk_type" [Par "sk"];
    Call "ossl_check_POLICY_MAPPING_freefunc_type" [Par "freefunc"]]);
  Macro "sk_POLICY_MAPPING_insert" ["sk"; "ptr"; "idx"]
    (Call "OPENSSL_sk_insert" [Call "ossl_check_POLICY_MAPPING_sk_type" [Par "sk"];
    Call "ossl_check_POLICY_MAPPING_type" [Par "ptr"]; Par "idx"]);
  Macro "sk_POLICY_MAPPING_set" ["sk"; "idx"; "ptr"] (Cast (Ptr (TypeName "POLICY_MAPPING"))
    (Call "OPENSSL_sk_set" [Call "ossl_check_POLICY_MAPPING_sk_type" [Par "sk"]; Par "idx";
    Call "ossl_check_POLICY_MAPPING_type" [Par "ptr"]]));
  Macro "sk_POLICY_MAPPING_find" ["sk"; "ptr"]
    (Call "OPENSSL_sk_find" [Call "ossl_check_POLICY_MAPPING_sk_type" [Par "sk"];
    Call "ossl_check_POLICY_MAPPING_type" [Par "ptr"]]);
  Macro "sk_POLICY_MAPPING_find_ex" ["sk"; "ptr"]
    (Call "OPENSSL_sk_find_ex" [Call "ossl_check_POLICY_MAPPING_sk_type" [Par "sk"];
    Call "ossl_check_POLICY_MAPPING_type" [Par "ptr"]]);
  Macro "sk_POLICY_MAPPING_find_all" ["sk"; "ptr"; "pnum"]
    (Call "OPENSSL_sk_find_all" [Call "ossl_check_POLICY_MAPPING_sk_type" [Par "sk"];
    Call "ossl_check_POLICY_MAPPING_type" [Par "ptr"]; Par "pnum"]);
  Macro "sk_POLICY_MAPPING_sort" ["sk"] (Call "OPENSSL_sk_sort" [Call "ossl_check_POLICY_MAPPING_sk_type" [Par "sk"]]);
  Macro "sk_POLICY_MAPPING_is_sorted" ["sk"]
    (Call "OPENSSL_sk_is_sorted" [Call "ossl_check_const_POLICY_MAPPING_sk_type" [Par "sk"]]);
  Macro "sk_POLICY_MAPPING_dup" ["sk"] (Cast (Ptr (STACK_OF "POLICY_MAPPING"))
    (Call "OPENSSL_sk_dup" [Call "ossl_check_const_POLICY_MAPPING_sk_type" [Par "sk"]]));
  Macro "sk_POLICY_MAPPING_deep_copy" ["sk"; "copyfunc"; "freefunc"] (Cast (Ptr (STACK_OF "POLICY_MAPPING"))
    (Call "OPENSSL_sk_deep_copy" [Call "ossl_check_const_POLICY_MAPPING_sk_type" [Par "sk"];
    Call "ossl_check_POLICY_MAPPING_copyfunc_type" [Par "copyfunc"];
    Call "ossl_check_POLICY_MAPPING_freefunc_type" [Par "freefunc"]]));
  Macro "sk_POLICY_MAPPING_set_cmp_func" ["sk"; "cmp"] (Cast (sk_compfunc (TypeName "POLICY_MAPPING"))
    (Call "OPENSSL_sk_set_cmp_func" [Call "ossl_check_POLICY_MAPPING_sk_type" [Par "sk"];
    Call "ossl_check_POLICY_MAPPING_compfunc_type" [Par "cmp"]]))].

Definition stack_GENERAL_SUBTREE : stack := Stack "GENERAL_SUBTREE" (TypeName "GENERAL_SUBTREE") (TypeName "GENERAL_SUBTREE") [
  Macro "sk_GENERAL_SUBTREE_num" ["sk"]
    (Call "OPENSSL_sk_num" [Call "ossl_check_const_GENERAL_SUBTREE_sk_type" [Par "sk"]]);
  Macro "sk_GENERAL_SUBTREE_value" ["sk"; "idx"] (Cast (Ptr (TypeName "GENERAL_SUBTREE"))
    (Call "OPENSSL_sk_value" [Call "ossl_check_const_GENERAL_SUBTREE_sk_type" [Par "sk"]; Par "idx"]));
  Macro "sk_GENERAL_SUBTREE_new" ["cmp"] (Cast (Ptr (STACK_OF "GENERAL_SUBTREE"))
    (Call "OPENSSL_sk_new" [Call "ossl_check_GENERAL_SUBTREE_compfunc_type" [Par "cmp"]]));
  Macro "sk_GENERAL_SUBTREE_new_null" [] (Cast (Ptr (STACK_OF "GENERAL_SUBTREE")) (Call "OPENSSL_sk_new_null" []));
  Macro "sk_GENERAL_SUBTREE_new_reserve" ["cmp"; "n"] (Cast (Ptr (STACK_OF "GENERAL_SUBTREE"))
    (Call "OPENSSL_sk_new_reserve" [Call "ossl_check_GENERAL_SUBTREE_compfunc_type" [Par "cmp"]; Par "n"]));
  Macro "sk_GENERAL_SUBTREE_reserve" ["sk"; "n"]
    (Call "OPENSSL_sk_reserve" [Call "ossl_check_GENERAL_SUBTREE_sk_type" [Par "sk"]; Par "n"]);
  Macro "sk_GENERAL_SUBTREE_free" ["sk"] (Call "OPENSSL_sk_free" [Call "ossl_check_GENERAL_SUBTREE_sk_type" [Par "sk"]]);
  Macro "sk_GENERAL_SUBTREE_zero" ["sk"] (Call "OPENSSL_sk_zero" [Call "ossl_check_GENERAL_SUBTREE_sk_type" [Par "sk"]]);
  Macro "sk_GENERAL_SUBTREE_delete" ["sk"; "i"] (Cast (Ptr (TypeName "GENERAL_SUBTREE"))
    (Call "OPENSSL_sk_delete" [Call "ossl_check_GENERAL_SUBTREE_sk_type" [Par "sk"]; Par "i"]));
  Macro "sk_GENERAL_SUBTREE_delete_ptr" ["sk"; "ptr"] (Cast (Ptr (TypeName "GENERAL_SUBTREE"))
    (Call "OPENSSL_sk_delete_ptr" [Call "ossl_check_GENERAL_SUBTREE_sk_type" [Par "sk"];
    Call "ossl_check_GENERAL_SUBTREE_type" [Par "ptr"]]));
  Macro "sk_GENERAL_SUBTREE_push" ["sk"; "ptr"]
    (Call "OPENSSL_sk_push" [Call "ossl_check_GENERAL_SUBTREE_sk_type" [Par "sk"];
    Call "ossl_check_GENERAL_SUBTREE_type" [Par "ptr"]]);
  Macro "sk_GENERAL_SUBTREE_unshift" ["sk"; "ptr"]
    (Call "OPENSSL_sk_unshift" [Call "ossl_check_GENERAL_SUBTREE_sk_type" [Par "sk"];
    Call "ossl_check_GENERAL_SUBTREE_type" [Par "ptr"]]);
  Macro "sk_GENERAL_SUBTREE_pop" ["sk"] (Cast (Ptr (TypeName "GENERAL_SUBTREE"))
    (Call "OPENSSL_sk_pop" [Call "ossl_check_GENERAL_SUBTREE_sk_type" [Par "sk"]]));
  Macro "sk_GENERAL_SUBTREE_shift" ["sk"] (Cast (Ptr (TypeName "GENERAL_SUBTREE"))
    (Call "OPENSSL_sk_shift" [Call "ossl_check_GENERAL_SUBTREE_sk_type" [Par "sk"]]));
  Macro "sk_GENERAL_SUBTREE_pop_free" ["sk"; "freefunc"]
    (Call "OPENSSL_sk_pop_free" [Call "ossl_check_GENERAL_SUBTREE_sk_type" [Par "sk"];
    Call "ossl_check_GENERAL_SUBTREE_freefunc_type" [Par "freefunc"]]);
  Macro "sk_GENERAL_SUBTREE_insert" ["sk"; "ptr"; "idx"]
    (Call "OPENSSL_sk_insert" [Call "ossl_check_GENERAL_SUBTREE_sk_type" [Par "sk"];
    Call "ossl_check_GENERAL_SUBTREE_type" [Par "ptr"]; Par "idx"]);
  Macro "sk_GENERAL_SUBTREE_set" ["sk"; "idx"; "ptr"] (Cast (Ptr (TypeName "GENERAL_SUBTREE"))
    (Call "OPENSSL_sk_set" [Call "ossl_check_GENERAL_SUBTREE_sk_type" [Par "sk"]; Par "idx";
    Call "ossl_check_GENERAL_SUBTREE_type" [Par "ptr"]]));
  Macro "sk_GENERAL_SUBTREE_find" ["sk"; "ptr"]
    (Call "OPENSSL_sk_find" [Call "ossl_check_GENERAL_SUBTREE_sk_type" [Par "sk"];
    Call "ossl_check_GENERAL_SUBTREE_type" [Par "ptr"]]);
  Macro "sk_GENERAL_SUBTREE_find_ex" ["sk"; "ptr"]
    (Call "OPENSSL_sk_find_ex" [Call "ossl_check_GENERAL_SUBTREE_sk_type" [Par "sk"];
    Call "ossl_check_GENERAL_SUBTREE_type" [Par "ptr"]]);
  Macro "sk_GENERAL_SUBTREE_find_all" ["sk"; "ptr"; "pnum"]
    (Call "OPENSSL_sk_find_all" [Call "ossl_check_GENERAL_SUBTREE_sk_type" [Par "sk"];
    Call "ossl_check_GENERAL_SUBTREE_type" [Par "ptr"]; Par "pnum"]);
  Macro "sk_GENERAL_SUBTREE_sort" ["sk"] (Call "OPENSSL_sk_sort" [Call "ossl_check_GENERAL_SUBTREE_sk_type" [Par "sk"]]);
  Macro "sk_GENERAL_SUBTREE_is_sorted" ["sk"]
    (Call "OPENSSL_sk_is_sorted" [Call "ossl_check_const_GENERAL_SUBTREE_sk_type" [Par "sk"]]);
  Macro "sk_GENERAL_SUBTREE_dup" ["sk"] (Cast (Ptr (STACK_OF "GENERAL_SUBTREE"))
    (Call "OPENSSL_sk_dup" [Call "ossl_check_const_GENERAL_SUBTREE_sk_type" [Par "sk"]]));
  Macro "sk_GENERAL_SUBTREE_deep_copy" ["sk"; "copyfunc"; "freefunc"] (Cast (Ptr (STACK_OF "GENERAL_SUBTREE"))
    (Call "OPENSSL_sk_deep_copy" [Call "ossl_check_const_GENERAL_SUBTREE_sk_type" [Par "sk"];
    Call "ossl_check_GENERAL_SUBTREE_copyfunc_type" [Par "copyfunc"];
    Call "ossl_check_GENERAL_SUBTREE_freefunc_type" [Par "freefunc"]]));
  Macro "sk_GENERAL_SUBTREE_set_cmp_func" ["sk"; "cmp"] (Cast (sk_compfunc (TypeName "GENERAL_SUBTREE"))
    (Call "OPENSSL_sk_set_cmp_func" [Call "ossl_check_GENERAL_SUBTREE_sk_type" [Par "sk"];
    Call "ossl_check_GENERAL_SUBTREE_compfunc_type" [Par "cmp"]]))].

Definition stack_X509_PURPOSE : stack := Stack "X509_PURPOSE" (TypeName "X509_PURPOSE") (TypeName "X509_PURPOSE") [
  Macro "sk_X509_PURPOSE_num" ["sk"] (Call "OPENSSL_sk_num" [Call "ossl_check_const_X509_PURPOSE_sk_type" [Par "sk"]]);
  Macro "sk_X509_PURPOSE_value" ["sk"; "idx"] (Cast (Ptr (TypeName "X509_PURPOSE"))
    (Call "OPENSSL_sk_value" [Call "ossl_check_const_X509_PURPOSE_sk_type" [Par "sk"]; Par "idx"]));
  Macro "sk_X509_PURPOSE_new" ["cmp"] (Cast (Ptr (STACK_OF "X509_PURPOSE"))
    (Call "OPENSSL_sk_new" [Call "ossl_check_X509_PURPOSE_compfunc_type" [Par "cmp"]]));
  Macro "sk_X509_PURPOSE_new_null" [] (Cast (Ptr (STACK_OF "X509_PURPOSE")) (Call "OPENSSL_sk_new_null" []));
  Macro "sk_X509_PURPOSE_new_reserve" ["cmp"; "n"] (Cast (Ptr (STACK_OF "X509_PURPOSE"))
    (Call "OPENSSL_sk_new_reserve" [Call "ossl_check_X509_PURPOSE_compfunc_type" [Par "cmp"]; Par "n"]));
  Macro "sk_X509_PURPOSE_reserve" ["sk"; "n"]
    (Call "OPENSSL_sk_reserve" [Call "ossl_check_X509_PURPOSE_sk_type" [Par "sk"]; Par "n"]);
  Macro "sk_X509_PURPOSE_free" ["sk"] (Call "OPENSSL_sk_free" [Call "ossl_check_X509_PURPOSE_sk_type" [Par "sk"]]);
  Macro "sk_X509_PURPOSE_zero" ["sk"] (Call "OPENSSL_sk_zero" [Call "ossl_check_X509_PURPOSE_sk_type" [Par "sk"]]);
  Macro "sk_X509_PURPOSE_delete" ["sk"; "i"] (Cast (Ptr (TypeName "X509_PURPOSE"))
    (Call "OPENSSL_sk_delete" [Call "ossl_check_X509_PURPOSE_sk_type" [Par "sk"]; Par "i"]));
  Macro "sk_X509_PURPOSE_delete_ptr" ["sk"; "ptr"] (Cast (Ptr (TypeName "X509_PURPOSE"))
    (Call "OPENSSL_sk_delete_ptr" [Call "ossl_check_X509_PURPOSE_sk_type" [Par "sk"];
    Call "ossl_check_X509_PURPOSE_type" [Par "ptr"]]));
  Macro "sk_X509_PURPOSE_push" ["sk"; "ptr"] (Call "OPENSSL_sk_push" [Call "ossl_check_X509_PURPOSE_sk_type" [Par "sk"];
    Call "ossl_check_X509_PURPOSE_type" [Par "ptr"]]);
  Macro "sk_X509_PURPOSE_unshift" ["sk"; "ptr"]
    (Call "OPENSSL_sk_unshift" [Call "ossl_check_X509_PURPOSE_sk_type" [Par "sk"];
    Call "ossl_check_X509_PURPOSE_type" [Par "ptr"]]);
  Macro "sk_X509_PURPOSE_pop" ["sk"] (Cast (Ptr (TypeName "X509_PURPOSE"))
    (Call "OPENSSL_sk_pop" [Call "ossl_check_X509_PURPOSE_sk_type" [Par "sk"]]));
  Macro "sk_X509_PURPOSE_shift" ["sk"] (Cast (Ptr (TypeName "X509_PURPOSE"))
    (Call "OPENSSL_sk_shift" [Call "ossl_check_X509_PURPOSE_sk_type" [Par "sk"]]));
  Macro "sk_X509_PURPOSE_pop_free" ["sk"; "freefunc"]
    (Call "OPENSSL_sk_pop_free" [Call "ossl_check_X509_PURPOSE_sk_type" [Par "sk"];
    Call "ossl_check_X509_PURPOSE_freefunc_type" [Par "freefunc"]]);
  Macro "sk_X509_PURPOSE_insert" ["sk"; "ptr"; "idx"]
    (Call "OPENSSL_sk_insert" [Call "ossl_check_X509_PURPOSE_sk_type" [Par "sk"];
    Call "ossl_check_X509_PURPOSE_type" [Par "ptr"]; Par "idx"]);
  Macro "sk_X509_PURPOSE_set" ["sk"; "idx"; "ptr"] (Cast (Ptr (TypeName "X509_PURPOSE"))
    (Call "OPENSSL_sk_set" [Call "ossl_check_X509_PURPOSE_sk_type" [Par "sk"]; Par "idx";
    Call "ossl_check_X509_PURPOSE_type" [Par "ptr"]]));
  Macro "sk_X509_PURPOSE_find" ["sk"; "ptr"] (Call "OPENSSL_sk_find" [Call "ossl_check_X509_PURPOSE_sk_type" [Par "sk"];
    Call "ossl_check_X509_PURPOSE_type" [Par "ptr"]]);
  Macro "sk_X509_PURPOSE_find_ex" ["sk"; "ptr"]
    (Call "OPENSSL_sk_find_ex" [Call "ossl_check_X509_PURPOSE_sk_type" [Par "sk"];
    Call "ossl_check_X509_PURPOSE_type" [Par "ptr"]]);
  Macro "sk_X509_PURPOSE_find_all" ["sk"; "ptr"; "pnum"]
    (Call "OPENSSL_sk_find_all" [Call "ossl_check_X509_PURPOSE_sk_type" [Par "sk"];
    Call "ossl_check_X509_PURPOSE_type" [Par "ptr"]; Par "pnum"]);
  Macro "sk_X509_PURPOSE_sort" ["sk"] (Call "OPENSSL_sk_sort" [Call "ossl_check_X509_PURPOSE_sk_type" [Par "sk"]]);
  Macro "sk_X509_PURPOSE_is_sorted" ["sk"]
    (Call "OPENSSL_sk_is_sorted" [Call "ossl_check_const_X509_PURPOSE_sk_type" [Par "sk"]]);
  Macro "sk_X509_PURPOSE_dup" ["sk"] (Cast (Ptr (STACK_OF "X509_PURPOSE"))
    (Call "OPENSSL_sk_dup" [Call "ossl_check_const_X509_PURPOSE_sk_type" [Par "sk"]]));
  Macro "sk_X509_PURPOSE_deep_copy" ["sk"; "copyfunc"; "freefunc"] (Cast (Ptr (STACK_OF "X509_PURPOSE"))
    (Call "OPENSSL_sk_deep_copy" [Call "ossl_check_const_X509_PURPOSE_sk_type" [Par "sk"];
    Call "ossl_check_X509_PURPOSE_copyfunc_type" [Par "copyfunc"];
    Call "ossl_check_X509_PURPOSE_freefunc_type" [Par "freefunc"]]));
  Macro "sk_X509_PURPOSE_set_cmp_func" ["sk"; "cmp"] (Cast (sk_compfunc (TypeName "X509_PURPOSE"))
    (Call "OPENSSL_sk_set_cmp_func" [Call "ossl_check_X509_PURPOSE_sk_type" [Par "sk"];
    Call "ossl_check_X509_PURPOSE_compfunc_type" [Par "cmp"]]))].

Definition stack_X509_POLICY_NODE : stack := Stack "X509_POLICY_NODE" (TypeName "X509_POLICY_NODE") (TypeName "X509_POLICY_NODE") [
  Macro "sk_X509_POLICY_NODE_num" ["sk"]
    (Call "OPENSSL_sk_num" [Call "ossl_check_const_X509_POLICY_NODE_sk_type" [Par "sk"]]);
  Macro "sk_X509_POLICY_NODE_value" ["sk"; "idx"] (Cast (Ptr (TypeName "X509_POLICY_NODE"))
    (Call "OPENSSL_sk_value" [Call "ossl_check_const_X509_POLICY_NODE_sk_type" [Par "sk"]; Par "idx"]));
  Macro "sk_X509_POLICY_NODE_new" ["cmp"] (Cast (Ptr (STACK_OF "X509_POLICY_NODE"))
    (Call "OPENSSL_sk_new" [Call "ossl_check_X509_POLICY_NODE_compfunc_type" [Par "cmp"]]));
  Macro "sk_X509_POLICY_NODE_new_null" [] (Cast (Ptr (STACK_OF "X509_POLICY_NODE")) (Call "OPENSSL_sk_new_null" []));
  Macro "sk_X509_POLICY_NODE_new_reserve" ["cmp"; "n"] (Cast (Ptr (STACK_OF "X509_POLICY_NODE"))
    (Call "OPENSSL_sk_new_reserve" [Call "ossl_check_X509_POLICY_NODE_compfunc_type" [Par "cmp"]; Par "n"]));
  Macro "sk_X509_POLICY_NODE_reserve" ["sk"; "n"]
    (Call "OPENSSL_sk_reserve" [Call "ossl_check_X509_POLICY_NODE_sk_type" [Par "sk"]; Par "n"]);
  Macro "sk_X509_POLICY_NODE_free" ["sk"]
    (Call "OPENSSL_sk_free" [Call "ossl_check_X509_POLICY_NODE_sk_type" [Par "sk"]]);
  Macro "sk_X509_POLICY_NODE_zero" ["sk"]
    (Call "OPENSSL_sk_zero" [Call "ossl_check_X509_POLICY_NODE_sk_type" [Par "sk"]]);
  Macro "sk_X509_POLICY_NODE_delete" ["sk"; "i"] (Cast (Ptr (TypeName "X509_POLICY_NODE"))
    (Call "OPENSSL_sk_delete" [Call "ossl_check_X509_POLICY_NODE_sk_type" [Par "sk"]; Par "i"]));
  Macro "sk_X509_POLICY_NODE_delete_ptr" ["sk"; "ptr"] (Cast (Ptr (TypeName "X509_POLICY_NODE"))
    (Call "OPENSSL_sk_delete_ptr" [Call "ossl_check_X509_POLICY_NODE_sk_type" [Par "sk"];
    Call "ossl_check_X509_POLICY_NODE_type" [Par "ptr"]]));
  Macro "sk_X509_POLICY_NODE_push" ["sk"; "ptr"]
    (Call "OPENSSL_sk_push" [Call "ossl_check_X509_POLICY_NODE_sk_type" [Par "sk"];
    Call "ossl_check_X509_POLICY_NODE_type" [Par "ptr"]]);
  Macro "sk_X509_POLICY_NODE_unshift" ["sk"; "ptr"]
    (Call "OPENSSL_sk_unshift" [Call "ossl_check_X509_POLICY_NODE_sk_type" [Par "sk"];
    Call "ossl_check_X509_POLICY_NODE_type" [Par "ptr"]]);
  Macro "sk_X509_POLICY_NODE_pop" ["sk"] (Cast (Ptr (TypeName "X509_POLICY_NODE"))
    (Call "OPENSSL_sk_pop" [Call "ossl_check_X509_POLICY_NODE_sk_type" [Par "sk"]]));
  Macro "sk_X509_POLICY_NODE_shift" ["sk"] (Cast (Ptr (TypeName "X509_POLICY_NODE"))
    (Call "OPENSSL_sk_shift" [Call "ossl_check_X509_POLICY_NODE_sk_type" [Par "sk"]]));
  Macro "sk_X509_POLICY_NODE_pop_free" ["sk"; "freefunc"]
    (Call "OPENSSL_sk_pop_free" [Call "ossl_check_X509_POLICY_NODE_sk_type" [Par "sk"];
    Call "ossl_check_X509_POLICY_NODE_freefunc_type" [Par "freefunc"]]);
  Macro "sk_X509_POLICY_NODE_insert" ["sk"; "ptr"; "idx"]
    (Call "OPENSSL_sk_insert" [Call "ossl_check_X509_POLICY_NODE_sk_type" [Par "sk"];
    Call "ossl_check_X509_POLICY_NODE_type" [Par "ptr"]; Par "idx"]);
  Macro "sk_X509_POLICY_NODE_set" ["sk"; "idx"; "ptr"] (Cast (Ptr (TypeName "X509_POLICY_NODE"))
    (Call "OPENSSL_sk_set" [Call "ossl_check_X509_POLICY_NODE_sk_type" [Par "sk"]; Par "idx";
    Call "ossl_check_X509_POLICY_NODE_type" [Par "ptr"]]));
  Macro "sk_X509_POLICY_NODE_find" ["sk"; "ptr"]
    (Call "OPENSSL_sk_find" [Call "ossl_check_X509_POLICY_NODE_sk_type" [Par "sk"];
    Call "ossl_check_X509_POLICY_NODE_type" [Par "ptr"]]);
  Macro "sk_X509_POLICY_NODE_find_ex" ["sk"; "ptr"]
    (Call "OPENSSL_sk_find_ex" [Call "ossl_check_X509_POLICY_NODE_sk_type" [Par "sk"];
    Call "ossl_check_X509_POLICY_NODE_type" [Par "ptr"]]);
  Macro "sk_X509_POLICY_NODE_find_all" ["sk"; "ptr"; "pnum"]
    (Call "OPENSSL_sk_find_all" [Call "ossl_check_X509_POLICY_NODE_sk_type" [Par "sk"];
    Call "ossl_check_X509_POLICY_NODE_type" [Par "ptr"]; Par "pnum"]);
  Macro "sk_X509_POLICY_NODE_sort" ["sk"]
    (Call "OPENSSL_sk_sort" [Call "ossl_check_X509_POLICY_NODE_sk_type" [Par "sk"]]);
  Macro "sk_X509_POLICY_NODE_is_sorted" ["sk"]
    (Call "OPENSSL_sk_is_sorted" [Call "ossl_check_const_X509_POLICY_NODE_sk_type" [Par "sk"]]);
  Macro "sk_X509_POLICY_NODE_dup" ["sk"] (Cast (Ptr (STACK_OF "X509_POLICY_NODE"))
    (Call "OPENSSL_sk_dup" [Call "ossl_check_const_X509_POLICY_NODE_sk_type" [Par "sk"]]));
  Macro "sk_X509_POLICY_NODE_deep_copy" ["sk"; "copyfunc"; "freefunc"] (Cast (Ptr (STACK_OF "X509_POLICY_NODE"))
    (Call "OPENSSL_sk_deep_copy" [Call "ossl_check_const_X509_POLICY_NODE_sk_type" [Par "sk"];
    Call "ossl_check_X509_POLICY_NODE_copyfunc_type" [Par "copyfunc"];
    Call "ossl_check_X509_POLICY_NODE_freefunc_type" [Par "freefunc"]]));
  Macro "sk_X509_POLICY_NODE_set_cmp_func" ["sk"; "cmp"] (Cast (sk_compfunc (TypeName "X509_POLICY_NODE"))
    (Call "OPENSSL_sk_set_cmp_func" [Call "ossl_check_X509_POLICY_NODE_sk_type" [Par "sk"];
    Call "ossl_check_X509_POLICY_NODE_compfunc_type" [Par "cmp"]]))].

Definition stack_ASIdOrRange : stack := Stack "ASIdOrRange" (TypeName "ASIdOrRange") (TypeName "ASIdOrRange") [
  Macro "sk_ASIdOrRange_num" ["sk"] (Call "OPENSSL_sk_num" [Call "ossl_check_const_ASIdOrRange_sk_type" [Par "sk"]]);
  Macro "sk_ASIdOrRange_value" ["sk"; "idx"] (Cast (Ptr (TypeName "ASIdOrRange"))
    (Call "OPENSSL_sk_value" [Call "ossl_check_const_ASIdOrRange_sk_type" [Par "sk"]; Par "idx"]));
  Macro "sk_ASIdOrRange_new" ["cmp"] (Cast (Ptr (STACK_OF "ASIdOrRange"))
    (Call "OPENSSL_sk_new" [Call "ossl_check_ASIdOrRange_compfunc_type" [Par "cmp"]]));
  Macro "sk_ASIdOrRange_new_null" [] (Cast (Ptr (STACK_OF "ASIdOrRange")) (Call "OPENSSL_sk_new_null" []));
  Macro "sk_ASIdOrRange_new_reserve" ["cmp"; "n"] (Cast (Ptr (STACK_OF "ASIdOrRange"))
    (Call "OPENSSL_sk_new_reserve" [Call "ossl_check_ASIdOrRange_compfunc_type" [Par "cmp"]; Par "n"]));
  Macro "sk_ASIdOrRange_reserve" ["sk"; "n"]
    (Call "OPENSSL_sk_reserve" [Call "ossl_check_ASIdOrRange_sk_type" [Par "sk"]; Par "n"]);
  Macro "sk_ASIdOrRange_free" ["sk"] (Call "OPENSSL_sk_free" [Call "ossl_check_ASIdOrRange_sk_type" [Par "sk"]]);
  Macro "sk_ASIdOrRange_zero" ["sk"] (Call "OPENSSL_sk_zero" [Call "ossl_check_ASIdOrRange_sk_type" [Par "sk"]]);
  Macro "sk_ASIdOrRange_delete" ["sk"; "i"] (Cast (Ptr (TypeName "ASIdOrRange"))
    (Call "OPENSSL_sk_delete" [Call "ossl_check_ASIdOrRange_sk_type" [Par "sk"]; Par "i"]));
  Macro "sk_ASIdOrRange_delete_ptr" ["sk"; "ptr"] (Cast (Ptr (TypeName "ASIdOrRange"))
    (Call "OPENSSL_sk_delete_ptr" [Call "ossl_check_ASIdOrRange_sk_type" [Par "sk"];
    Call "ossl_check_ASIdOrRange_type" [Par "ptr"]]));
  Macro "sk_ASIdOrRange_push" ["sk"; "ptr"] (Call "OPENSSL_sk_push" [Call "ossl_check_ASIdOrRange_sk_type" [Par "sk"];
    Call "ossl_check_ASIdOrRange_type" [Par "ptr"]]);
  Macro "sk_ASIdOrRange_unshift" ["sk"; "ptr"]
    (Call "OPENSSL_sk_unshift" [Call "ossl_check_ASIdOrRange_sk_type" [Par "sk"];
    Call "ossl_check_ASIdOrRange_type" [Par "ptr"]]);
  Macro "sk_ASIdOrRange_pop" ["sk"] (Cast (Ptr (TypeName "ASIdOrRange"))
    (Call "OPENSSL_sk_pop" [Call "ossl_check_ASIdOrRange_sk_type" [Par "sk"]]));
  Macro "sk_ASIdOrRange_shift" ["sk"] (Cast (Ptr (TypeName "ASIdOrRange"))
    (Call "OPENSSL_sk_shift" [Call "ossl_check_ASIdOrRange_sk_type" [Par "sk"]]));
  Macro "sk_ASIdOrRange_pop_free" ["sk"; "freefunc"]
    (Call "OPENSSL_sk_pop_free" [Call "ossl_check_ASIdOrRange_sk_type" [Par "sk"];
    Call "ossl_check_ASIdOrRange_freefunc_type" [Par "freefunc"]]);
  Macro "sk_ASIdOrRange_insert" ["sk"; "ptr"; "idx"]
    (Call "OPENSSL_sk_insert" [Call "ossl_check_ASIdOrRange_sk_type" [Par "sk"];
    Call "ossl_check_ASIdOrRange_type" [Par "ptr"]; Par "idx"]);
  Macro "sk_ASIdOrRange_set" ["sk"; "idx"; "ptr"] (Cast (Ptr (TypeName "ASIdOrRange"))
    (Call "OPENSSL_sk_set" [Call "ossl_check_ASIdOrRange_sk_type" [Par "sk"]; Par "idx";
    Call "ossl_check_ASIdOrRange_type" [Par "ptr"]]));
  Macro "sk_ASIdOrRange_find" ["sk"; "ptr"] (Call "OPENSSL_sk_find" [Call "ossl_check_ASIdOrRange_sk_type" [Par "sk"];
    Call "ossl_check_ASIdOrRange_type" [Par "ptr"]]);
  Macro "sk_ASIdOrRange_find_ex" ["sk"; "ptr"]
    (Call "OPENSSL_sk_find_ex" [Call "ossl_check_ASIdOrRange_sk_type" [Par "sk"];
    Call "ossl_check_ASIdOrRange_type" [Par "ptr"]]);
  Macro "sk_ASIdOrRange_find_all" ["sk"; "ptr"; "pnum"]
    (Call "OPENSSL_sk_find_all" [Call "ossl_check_ASIdOrRange_sk_type" [Par "sk"];
    Call "ossl_check_ASIdOrRange_type" [Par "ptr"]; Par "pnum"]);
  Macro "sk_ASIdOrRange_sort" ["sk"] (Call "OPENSSL_sk_sort" [Call "ossl_check_ASIdOrRange_sk_type" [Par "sk"]]);
  Macro "sk_ASIdOrRange_is_sorted" ["sk"]
    (Call "OPENSSL_sk_is_sorted" [Call "ossl_check_const_ASIdOrRange_sk_type" [Par "sk"]]);
  Macro "sk_ASIdOrRange_dup" ["sk"] (Cast (Ptr (STACK_OF "ASIdOrRange"))
    (Call "OPENSSL_sk_dup" [Call "ossl_check_const_ASIdOrRange_sk_type" [Par "sk"]]));
  Macro "sk_ASIdOrRange_deep_copy" ["sk"; "copyfunc"; "freefunc"] (Cast (Ptr (STACK_OF "ASIdOrRange"))
    (Call "OPENSSL_sk_deep_copy" [Call "ossl_check_const_ASIdOrRange_sk_type" [Par "sk"];
    Call "ossl_check_ASIdOrRange_copyfunc_type" [Par "copyfunc"];
    Call "ossl_check_ASIdOrRange_freefunc_type" [Par "freefunc"]]));
  Macro "sk_ASIdOrRange_set_cmp_func" ["sk"; "cmp"] (Cast (sk_compfunc (TypeName "ASIdOrRange"))
    (Call "OPENSSL_sk_set_cmp_func" [Call "ossl_check_ASIdOrRange_sk_type" [Par "sk"];
    Call "ossl_check_ASIdOrRange_compfunc_type" [Par "cmp"]]))].

Definition stack_IPAddressOrRange : stack := Stack "IPAddressOrRange" (TypeName "IPAddressOrRange") (TypeName "IPAddressOrRange") [
  Macro "sk_IPAddressOrRange_num" ["sk"]
    (Call "OPENSSL_sk_num" [Call "ossl_check_const_IPAddressOrRange_sk_type" [Par "sk"]]);
  Macro "sk_IPAddressOrRange_value" ["sk"; "idx"] (Cast (Ptr (TypeName "IPAddressOrRange"))
    (Call "OPENSSL_sk_value" [Call "ossl_check_const_IPAddressOrRange_sk_type" [Par "sk"]; Par "idx"]));
  Macro "sk_IPAddressOrRange_new" ["cmp"] (Cast (Ptr (STACK_OF "IPAddressOrRange"))
    (Call "OPENSSL_sk_new" [Call "ossl_check_IPAddressOrRange_compfunc_type" [Par "cmp"]]));
  Macro "sk_IPAddressOrRange_new_null" [] (Cast (Ptr (STACK_OF "IPAddressOrRange")) (Call "OPENSSL_sk_new_null" []));
  Macro "sk_IPAddressOrRange_new_reserve" ["cmp"; "n"] (Cast (Ptr (STACK_OF "IPAddressOrRange"))
    (Call "OPENSSL_sk_new_reserve" [Call "ossl_check_IPAddressOrRange_compfunc_type" [Par "cmp"]; Par "n"]));
  Macro "sk_IPAddressOrRange_reserve" ["sk"; "n"]
    (Call "OPENSSL_sk_reserve" [Call "ossl_check_IPAddressOrRange_sk_type" [Par "sk"]; Par "n"]);
  Macro "sk_IPAddressOrRange_free" ["sk"]
    (Call "OPENSSL_sk_free" [Call "ossl_check_IPAddressOrRange_sk_type" [Par "sk"]]);
  Macro "sk_IPAddressOrRange_zero" ["sk"]
    (Call "OPENSSL_sk_zero" [Call "ossl_check_IPAddressOrRange_sk_type" [Par "sk"]]);
  Macro "sk_IPAddressOrRange_delete" ["sk"; "i"] (Cast (Ptr (TypeName "IPAddressOrRange"))
    (Call "OPENSSL_sk_delete" [Call "ossl_check_IPAddressOrRange_sk_type" [Par "sk"]; Par "i"]));
  Macro "sk_IPAddressOrRange_delete_ptr" ["sk"; "ptr"] (Cast (Ptr (TypeName "IPAddressOrRange"))
    (Call "OPENSSL_sk_delete_ptr" [Call "ossl_check_IPAddressOrRange_sk_type" [Par "sk"];
    Call "ossl_check_IPAddressOrRange_type" [Par "ptr"]]));
  Macro "sk_IPAddressOrRange_push" ["sk"; "ptr"]
    (Call "OPENSSL_sk_push" [Call "ossl_check_IPAddressOrRange_sk_type" [Par "sk"];
    Call "ossl_check_IPAddressOrRange_type" [Par "ptr"]]);
  Macro "sk_IPAddressOrRange_unshift" ["sk"; "ptr"]
    (Call "OPENSSL_sk_unshift" [Call "ossl_check_IPAddressOrRange_sk_type" [Par "sk"];
    Call "ossl_check_IPAddressOrRange_type" [Par "ptr"]]);
  Macro "sk_IPAddressOrRange_pop" ["sk"] (Cast (Ptr (TypeName "IPAddressOrRange"))
    (Call "OPENSSL_sk_pop" [Call "ossl_check_IPAddressOrRange_sk_type" [Par "sk"]]));
  Macro "sk_IPAddressOrRange_shift" ["sk"] (Cast (Ptr (TypeName "IPAddressOrRange"))
    (Call "OPENSSL_sk_shift" [Call "ossl_check_IPAddressOrRange_sk_type" [Par "sk"]]));
  Macro "sk_IPAddressOrRange_pop_free" ["sk"; "freefunc"]
    (Call "OPENSSL_sk_pop_free" [Call "ossl_check_IPAddressOrRange_sk_type" [Par "sk"];
    Call "ossl_check_IPAddressOrRange_freefunc_type" [Par "freefunc"]]);
  Macro "sk_IPAddressOrRange_insert" ["sk"; "ptr"; "idx"]
    (Call "OPENSSL_sk_insert" [Call "ossl_check_IPAddressOrRange_sk_type" [Par "sk"];
    Call "ossl_check_IPAddressOrRange_type" [Par "ptr"]; Par "idx"]);
  Macro "sk_IPAddressOrRange_set" ["sk"; "idx"; "ptr"] (Cast (Ptr (TypeName "IPAddressOrRange"))
    (Call "OPENSSL_sk_set" [Call "ossl_check_IPAddressOrRange_sk_type" [Par "sk"]; Par "idx";
    Call "ossl_check_IPAddressOrRange_type" [Par "ptr"]]));
  Macro "sk_IPAddressOrRange_find" ["sk"; "ptr"]
    (Call "OPENSSL_sk_find" [Call "ossl_check_IPAddressOrRange_sk_type" [Par "sk"];
    Call "ossl_check_IPAddressOrRange_type" [Par "ptr"]]);
  Macro "sk_IPAddressOrRange_find_ex" ["sk"; "ptr"]
    (Call "OPENSSL_sk_find_ex" [Call "ossl_check_IPAddressOrRange_sk_type" [Par "sk"];
    Call "ossl_check_IPAddressOrRange_type" [Par "ptr"]]);
  Macro "sk_IPAddressOrRange_find_all" ["sk"; "ptr"; "pnum"]
    (Call "OPENSSL_sk_find_all" [Call "ossl_check_IPAddressOrRange_sk_type" [Par "sk"];
    Call "ossl_check_IPAddressOrRange_type" [Par "ptr"]; Par "pnum"]);
  Macro "sk_IPAddressOrRange_sort" ["sk"]
    (Call "OPENSSL_sk_sort" [Call "ossl_check_IPAddressOrRange_sk_type" [Par "sk"]]);
  Macro "sk_IPAddressOrRange_is_sorted" ["sk"]
    (Call "OPENSSL_sk_is_sorted" [Call "ossl_check_const_IPAddressOrRange_sk_type" [Par "sk"]]);
  Macro "sk_IPAddressOrRange_dup" ["sk"] (Cast (Ptr (STACK_OF "IPAddressOrRange"))
    (Call "OPENSSL_sk_dup" [Call "ossl_check_const_IPAddressOrRange_sk_type" [Par "sk"]]));
  Macro "sk_IPAddressOrRange_deep_copy" ["sk"; "copyfunc"; "freefunc"] (Cast (Ptr (STACK_OF "IPAddressOrRange"))
    (Call "OPENSSL_sk_deep_copy" [Call "ossl_check_const_IPAddressOrRange_sk_type" [Par "sk"];
    Call "ossl_check_IPAddressOrRange_copyfunc_type" [Par "copyfunc"];
    Call "ossl_check_IPAddressOrRange_freefunc_type" [Par "freefunc"]]));
  Macro "sk_IPAddressOrRange_set_cmp_func" ["sk"; "cmp"] (Cast (sk_compfunc (TypeName "IPAddressOrRange"))
    (Call "OPENSSL_sk_set_cmp_func" [Call "ossl_check_IPAddressOrRange_sk_type" [Par "sk"];
    Call "ossl_check_IPAddressOrRange_compfunc_type" [Par "cmp"]]))].

Definition stack_IPAddressFamily : stack := Stack "IPAddressFamily" (TypeName "IPAddressFamily") (TypeName "IPAddressFamily") [
  Macro "sk_IPAddressFamily_num" ["sk"]
    (Call "OPENSSL_sk_num" [Call "ossl_check_const_IPAddressFamily_sk_type" [Par "sk"]]);
  Macro "sk_IPAddressFamily_value" ["sk"; "idx"] (Cast (Ptr (TypeName "IPAddressFamily"))
    (Call "OPENSSL_sk_value" [Call "ossl_check_const_IPAddressFamily_sk_type" [Par "sk"]; Par "idx"]));
  Macro "sk_IPAddressFamily_new" ["cmp"] (Cast (Ptr (STACK_OF "IPAddressFamily"))
    (Call "OPENSSL_sk_new" [Call "ossl_check_IPAddressFamily_compfunc_type" [Par "cmp"]]));
  Macro "sk_IPAddressFamily_new_null" [] (Cast (Ptr (STACK_OF "IPAddressFamily")) (Call "OPENSSL_sk_new_null" []));
  Macro "sk_IPAddressFamily_new_reserve" ["cmp"; "n"] (Cast (Ptr (STACK_OF "IPAddressFamily"))
    (Call "OPENSSL_sk_new_reserve" [Call "ossl_check_IPAddressFamily_compfunc_type" [Par "cmp"]; Par "n"]));
  Macro "sk_IPAddressFamily_reserve" ["sk"; "n"]
    (Call "OPENSSL_sk_reserve" [Call "ossl_check_IPAddressFamily_sk_type" [Par "sk"]; Par "n"]);
  Macro "sk_IPAddressFamily_free" ["sk"] (Call "OPENSSL_sk_free" [Call "ossl_check_IPAddressFamily_sk_type" [Par "sk"]]);
  Macro "sk_IPAddressFamily_zero" ["sk"] (Call "OPENSSL_sk_zero" [Call "ossl_check_IPAddressFamily_sk_type" [Par "sk"]]);
  Macro "sk_IPAddressFamily_delete" ["sk"; "i"] (Cast (Ptr (TypeName "IPAddressFamily"))
    (Call "OPENSSL_sk_delete" [Call "ossl_check_IPAddressFamily_sk_type" [Par "sk"]; Par "i"]));
  Macro "sk_IPAddressFamily_delete_ptr" ["sk"; "ptr"] (Cast (Ptr (TypeName "IPAddressFamily"))
    (Call "OPENSSL_sk_delete_ptr" [Call "ossl_check_IPAddressFamily_sk_type" [Par "sk"];
    Call "ossl_check_IPAddressFamily_type" [Par "ptr"]]));
  Macro "sk_IPAddressFamily_push" ["sk"; "ptr"]
    (Call "OPENSSL_sk_push" [Call "ossl_check_IPAddressFamily_sk_type" [Par "sk"];
    Call "ossl_check_IPAddressFamily_type" [Par "ptr"]]);
  Macro "sk_IPAddressFamily_unshift" ["sk"; "ptr"]
    (Call "OPENSSL_sk_unshift" [Call "ossl_check_IPAddressFamily_sk_type" [Par "sk"];
    Call "ossl_check_IPAddressFamily_type" [Par "ptr"]]);
  Macro "sk_IPAddressFamily_pop" ["sk"] (Cast (Ptr (TypeName "IPAddressFamily"))
    (Call "OPENSSL_sk_pop" [Call "ossl_check_IPAddressFamily_sk_type" [Par "sk"]]));
  Macro "sk_IPAddressFamily_shift" ["sk"] (Cast (Ptr (TypeName "IPAddressFamily"))
    (Call "OPENSSL_sk_shift" [Call "ossl_check_IPAddressFamily_sk_type" [Par "sk"]]));
  Macro "sk_IPAddressFamily_pop_free" ["sk"; "freefunc"]
    (Call "OPENSSL_sk_pop_free" [Call "ossl_check_IPAddressFamily_sk_type" [Par "sk"];
    Call "ossl_check_IPAddressFamily_freefunc_type" [Par "freefunc"]]);
  Macro "sk_IPAddressFamily_insert" ["sk"; "ptr"; "idx"]
    (Call "OPENSSL_sk_insert" [Call "ossl_check_IPAddressFamily_sk_type" [Par "sk"];
    Call "ossl_check_IPAddressFamily_type" [Par "ptr"]; Par "idx"]);
  Macro "sk_IPAddressFamily_set" ["sk"; "idx"; "ptr"] (Cast (Ptr (TypeName "IPAddressFamily"))
    (Call "OPENSSL_sk_set" [Call "ossl_check_IPAddressFamily_sk_type" [Par "sk"]; Par "idx";
    Call "ossl_check_IPAddressFamily_type" [Par "ptr"]]));
  Macro "sk_IPAddressFamily_find" ["sk"; "ptr"]
    (Call "OPENSSL_sk_find" [Call "ossl_check_IPAddressFamily_sk_type" [Par "sk"];
    Call "ossl_check_IPAddressFamily_type" [Par "ptr"]]);
  Macro "sk_IPAddressFamily_find_ex" ["sk"; "ptr"]
    (Call "OPENSSL_sk_find_ex" [Call "ossl_check_IPAddressFamily_sk_type" [Par "sk"];
    Call "ossl_check_IPAddressFamily_type" [Par "ptr"]]);
  Macro "sk_IPAddressFamily_find_all" ["sk"; "ptr"; "pnum"]
    (Call "OPENSSL_sk_find_all" [Call "ossl_check_IPAddressFamily_sk_type" [Par "sk"];
    Call "ossl_check_IPAddressFamily_type" [Par "ptr"]; Par "pnum"]);
  Macro "sk_IPAddressFamily_sort" ["sk"] (Call "OPENSSL_sk_sort" [Call "ossl_check_IPAddressFamily_sk_type" [Par "sk"]]);
  Macro "sk_IPAddressFamily_is_sorted" ["sk"]
    (Call "OPENSSL_sk_is_sorted" [Call "ossl_check_const_IPAddressFamily_sk_type" [Par "sk"]]);
  Macro "sk_IPAddressFamily_dup" ["sk"] (Cast (Ptr (STACK_OF "IPAddressFamily"))
    (Call "OPENSSL_sk_dup" [Call "ossl_check_const_IPAddressFamily_sk_type" [Par "sk"]]));
  Macro "sk_IPAddressFamily_deep_copy" ["sk"; "copyfunc"; "freefunc"] (Cast (Ptr (STACK_OF "IPAddressFamily"))
    (Call "OPENSSL_sk_deep_copy" [Call "ossl_check_const_IPAddressFamily_sk_type" [Par "sk"];
    Call "ossl_check_IPAddressFamily_copyfunc_type" [Par "copyfunc"];
    Call "ossl_check_IPAddressFamily_freefunc_type" [Par "freefunc"]]));
  Macro "sk_IPAddressFamily_set_cmp_func" ["sk"; "cmp"] (Cast (sk_compfunc (TypeName "IPAddressFamily"))
    (Call "OPENSSL_sk_set_cmp_func" [Call "ossl_check_IPAddressFamily_sk_type" [Par "sk"];
    Call "ossl_check_IPAddressFamily_compfunc_type" [Par "cmp"]]))].

Definition stack_ASN1_STRING : stack := Stack "ASN1_STRING" (TypeName "ASN1_STRING") (TypeName "ASN1_STRING") [
  Macro "sk_ASN1_STRING_num" ["sk"] (Call "OPENSSL_sk_num" [Call "ossl_check_const_ASN1_STRING_sk_type" [Par "sk"]]);
  Macro "sk_ASN1_STRING_value" ["sk"; "idx"] (Cast (Ptr (TypeName "ASN1_STRING"))
    (Call "OPENSSL_sk_value" [Call "ossl_check_const_ASN1_STRING_sk_type" [Par "sk"]; Par "idx"]));
  Macro "sk_ASN1_STRING_new" ["cmp"] (Cast (Ptr (STACK_OF "ASN1_STRING"))
    (Call "OPENSSL_sk_new" [Call "ossl_check_ASN1_STRING_compfunc_type" [Par "cmp"]]));
  Macro "sk_ASN1_STRING_new_null" [] (Cast (Ptr (STACK_OF "ASN1_STRING")) (Call "OPENSSL_sk_new_null" []));
  Macro "sk_ASN1_STRING_new_reserve" ["cmp"; "n"] (Cast (Ptr (STACK_OF "ASN1_STRING"))
    (Call "OPENSSL_sk_new_reserve" [Call "ossl_check_ASN1_STRING_compfunc_type" [Par "cmp"]; Par "n"]));
  Macro "sk_ASN1_STRING_reserve" ["sk"; "n"]
    (Call "OPENSSL_sk_reserve" [Call "ossl_check_ASN1_STRING_sk_type" [Par "sk"]; Par "n"]);
  Macro "sk_ASN1_STRING_free" ["sk"] (Call "OPENSSL_sk_free" [Call "ossl_check_ASN1_STRING_sk_type" [Par "sk"]]);
  Macro "sk_ASN1_STRING_zero" ["sk"] (Call "OPENSSL_sk_zero" [Call "ossl_check_ASN1_STRING_sk_type" [Par "sk"]]);
  Macro "sk_ASN1_STRING_delete" ["sk"; "i"] (Cast (Ptr (TypeName "ASN1_STRING"))
    (Call "OPENSSL_sk_delete" [Call "ossl_check_ASN1_STRING_sk_type" [Par "sk"]; Par "i"]));
  Macro "sk_ASN1_STRING_delete_ptr" ["sk"; "ptr"] (Cast (Ptr (TypeName "ASN1_STRING"))
    (Call "OPENSSL_sk_delete_ptr" [Call "ossl_check_ASN1_STRING_sk_type" [Par "sk"];
    Call "ossl_check_ASN1_STRING_type" [Par "ptr"]]));
  Macro "sk_ASN1_STRING_push" ["sk"; "ptr"] (Call "OPENSSL_sk_push" [Call "ossl_check_ASN1_STRING_sk_type" [Par "sk"];
    Call "ossl_check_ASN1_STRING_type" [Par "ptr"]]);
  Macro "sk_ASN1_STRING_unshift" ["sk"; "ptr"]
    (Call "OPENSSL_sk_unshift" [Call "ossl_check_ASN1_STRING_sk_type" [Par "sk"];
    Call "ossl_check_ASN1_STRING_type" [Par "ptr"]]);
  Macro "sk_ASN1_STRING_pop" ["sk"] (Cast (Ptr (TypeName "ASN1_STRING"))
    (Call "OPENSSL_sk_pop" [Call "ossl_check_ASN1_STRING_sk_type" [Par "sk"]]));
  Macro "sk_ASN1_STRING_shift" ["sk"] (Cast (Ptr (TypeName "ASN1_STRING"))
    (Call "OPENSSL_sk_shift" [Call "ossl_check_ASN1_STRING_sk_type" [Par "sk"]]));
  Macro "sk_ASN1_STRING_pop_free" ["sk"; "freefunc"]
    (Call "OPENSSL_sk_pop_free" [Call "ossl_check_ASN1_STRING_sk_type" [Par "sk"];
    Call "ossl_check_ASN1_STRING_freefunc_type" [Par "freefunc"]]);
  Macro "sk_ASN1_STRING_insert" ["sk"; "ptr"; "idx"]
    (Call "OPENSSL_sk_insert" [Call "ossl_check_ASN1_STRING_sk_type" [Par "sk"];
    Call "ossl_check_ASN1_STRING_type" [Par "ptr"]; Par "idx"]);
  Macro "sk_ASN1_STRING_set" ["sk"; "idx"; "ptr"] (Cast (Ptr (TypeName "ASN1_STRING"))
    (Call "OPENSSL_sk_set" [Call "ossl_check_ASN1_STRING_sk_type" [Par "sk"]; Par "idx";
    Call "ossl_check_ASN1_STRING_type" [Par "ptr"]]));
  Macro "sk_ASN1_STRING_find" ["sk"; "ptr"] (Call "OPENSSL_sk_find" [Call "ossl_check_ASN1_STRING_sk_type" [Par "sk"];
    Call "ossl_check_ASN1_STRING_type" [Par "ptr"]]);
  Macro "sk_ASN1_STRING_find_ex" ["sk"; "ptr"]
    (Call "OPENSSL_sk_find_ex" [Call "ossl_check_ASN1_STRING_sk_type" [Par "sk"];
    Call "ossl_check_ASN1_STRING_type" [Par "ptr"]]);
  Macro "sk_ASN1_STRING_find_all" ["sk"; "ptr"; "pnum"]
    (Call "OPENSSL_sk_find_all" [Call "ossl_check_ASN1_STRING_sk_type" [Par "sk"];
    Call "ossl_check_ASN1_STRING_type" [Par "ptr"]; Par "pnum"]);
  Macro "sk_ASN1_STRING_sort" ["sk"] (Call "OPENSSL_sk_sort" [Call "ossl_check_ASN1_STRING_sk_type" [Par "sk"]]);
  Macro "sk_ASN1_STRING_is_sorted" ["sk"]
    (Call "OPENSSL_sk_is_sorted" [Call "ossl_check_const_ASN1_STRING_sk_type" [Par "sk"]]);
  Macro "sk_ASN1_STRING_dup" ["sk"] (Cast (Ptr (STACK_OF "ASN1_STRING"))
    (Call "OPENSSL_sk_dup" [Call "ossl_check_const_ASN1_STRING_sk_type" [Par "sk"]]));
  Macro "sk_ASN1_STRING_deep_copy" ["sk"; "copyfunc"; "freefunc"] (Cast (Ptr (STACK_OF "ASN1_STRING"))
    (Call "OPENSSL_sk_deep_copy" [Call "ossl_check_const_ASN1_STRING_sk_type" [Par "sk"];
    Call "ossl_check_ASN1_STRING_copyfunc_type" [Par "copyfunc"];
    Call "ossl_check_ASN1_STRING_freefunc_type" [Par "freefunc"]]));
  Macro "sk_ASN1_STRING_set_cmp_func" ["sk"; "cmp"] (Cast (sk_compfunc (TypeName "ASN1_STRING"))
    (Call "OPENSSL_sk_set_cmp_func" [Call "ossl_check_ASN1_STRING_sk_type" [Par "sk"];
    Call "ossl_check_ASN1_STRING_compfunc_type" [Par "cmp"]]))].

Definition stack_PROFESSION_INFO : stack := Stack "PROFESSION_INFO" (TypeName "PROFESSION_INFO") (TypeName "PROFESSION_INFO") [
  Macro "sk_PROFESSION_INFO_num" ["sk"]
    (Call "OPENSSL_sk_num" [Call "ossl_check_const_PROFESSION_INFO_sk_type" [Par "sk"]]);
  Macro "sk_PROFESSION_INFO_value" ["sk"; "idx"] (Cast (Ptr (TypeName "PROFESSION_INFO"))
    (Call "OPENSSL_sk_value" [Call "ossl_check_const_PROFESSION_INFO_sk_type" [Par "sk"]; Par "idx"]));
  Macro "sk_PROFESSION_INFO_new" ["cmp"] (Cast (Ptr (STACK_OF "PROFESSION_INFO"))
    (Call "OPENSSL_sk_new" [Call "ossl_check_PROFESSION_INFO_compfunc_type" [Par "cmp"]]));
  Macro "sk_PROFESSION_INFO_new_null" [] (Cast (Ptr (STACK_OF "PROFESSION_INFO")) (Call "OPENSSL_sk_new_null" []));
  Macro "sk_PROFESSION_INFO_new_reserve" ["cmp"; "n"] (Cast (Ptr (STACK_OF "PROFESSION_INFO"))
    (Call "OPENSSL_sk_new_reserve" [Call "ossl_check_PROFESSION_INFO_compfunc_type" [Par "cmp"]; Par "n"]));
  Macro "sk_PROFESSION_INFO_reserve" ["sk"; "n"]
    (Call "OPENSSL_sk_reserve" [Call "ossl_check_PROFESSION_INFO_sk_type" [Par "sk"]; Par "n"]);
  Macro "sk_PROFESSION_INFO_free" ["sk"] (Call "OPENSSL_sk_free" [Call "ossl_check_PROFESSION_INFO_sk_type" [Par "sk"]]);
  Macro "sk_PROFESSION_INFO_zero" ["sk"] (Call "OPENSSL_sk_zero" [Call "ossl_check_PROFESSION_INFO_sk_type" [Par "sk"]]);
  Macro "sk_PROFESSION_INFO_delete" ["sk"; "i"] (Cast (Ptr (TypeName "PROFESSION_INFO"))
    (Call "OPENSSL_sk_delete" [Call "ossl_check_PROFESSION_INFO_sk_type" [Par "sk"]; Par "i"]));
  Macro "sk_PROFESSION_INFO_delete_ptr" ["sk"; "ptr"] (Cast (Ptr (TypeName "PROFESSION_INFO"))
    (Call "OPENSSL_sk_delete_ptr" [Call "ossl_check_PROFESSION_INFO_sk_type" [Par "sk"];
    Call "ossl_check_PROFESSION_INFO_type" [Par "ptr"]]));
  Macro "sk_PROFESSION_INFO_push" ["sk"; "ptr"]
    (Call "OPENSSL_sk_push" [Call "ossl_check_PROFESSION_INFO_sk_type" [Par "sk"];
    Call "ossl_check_PROFESSION_INFO_type" [Par "ptr"]]);
  Macro "sk_PROFESSION_INFO_unshift" ["sk"; "ptr"]
    (Call "OPENSSL_sk_unshift" [Call "ossl_check_PROFESSION_INFO_sk_type" [Par "sk"];
    Call "ossl_check_PROFESSION_INFO_type" [Par "ptr"]]);
  Macro "sk_PROFESSION_INFO_pop" ["sk"] (Cast (Ptr (TypeName "PROFESSION_INFO"))
    (Call "OPENSSL_sk_pop" [Call "ossl_check_PROFESSION_INFO_sk_type" [Par "sk"]]));
  Macro "sk_PROFESSION_INFO_shift" ["sk"] (Cast (Ptr (TypeName "PROFESSION_INFO"))
    (Call "OPENSSL_sk_shift" [Call "ossl_check_PROFESSION_INFO_sk_type" [Par "sk"]]));
  Macro "sk_PROFESSION_INFO_pop_free" ["sk"; "freefunc"]
    (Call "OPENSSL_sk_pop_free" [Call "ossl_check_PROFESSION_INFO_sk_type" [Par "sk"];
    Call "ossl_check_PROFESSION_INFO_freefunc_type" [Par "freefunc"]]);
  Macro "sk_PROFESSION_INFO_insert" ["sk"; "ptr"; "idx"]
    (Call "OPENSSL_sk_insert" [Call "ossl_check_PROFESSION_INFO_sk_type" [Par "sk"];
    Call "ossl_check_PROFESSION_INFO_type" [Par "ptr"]; Par "idx"]);
  Macro "sk_PROFESSION_INFO_set" ["sk"; "idx"; "ptr"] (Cast (Ptr (TypeName "PROFESSION_INFO"))
    (Call "OPENSSL_sk_set" [Call "ossl_check_PROFESSION_INFO_sk_type" [Par "sk"]; Par "idx";
    Call "ossl_check_PROFESSION_INFO_type" [Par "ptr"]]));
  Macro "sk_PROFESSION_INFO_find" ["sk"; "ptr"]
    (Call "OPENSSL_sk_find" [Call "ossl_check_PROFESSION_INFO_sk_type" [Par "sk"];
    Call "ossl_check_PROFESSION_INFO_type" [Par "ptr"]]);
  Macro "sk_PROFESSION_INFO_find_ex" ["sk"; "ptr"]
    (Call "OPENSSL_sk_find_ex" [Call "ossl_check_PROFESSION_INFO_sk_type" [Par "sk"];
    Call "ossl_check_PROFESSION_INFO_type" [Par "ptr"]]);
  Macro "sk_PROFESSION_INFO_find_all" ["sk"; "ptr"; "pnum"]
    (Call "OPENSSL_sk_find_all" [Call "ossl_check_PROFESSION_INFO_sk_type" [Par "sk"];
    Call "ossl_check_PROFESSION_INFO_type" [Par "ptr"]; Par "pnum"]);
  Macro "sk_PROFESSION_INFO_sort" ["sk"] (Call "OPENSSL_sk_sort" [Call "ossl_check_PROFESSION_INFO_sk_type" [Par "sk"]]);
  Macro "sk_PROFESSION_INFO_is_sorted" ["sk"]
    (Call "OPENSSL_sk_is_sorted" [Call "ossl_check_const_PROFESSION_INFO_sk_type" [Par "sk"]]);
  Macro "sk_PROFESSION_INFO_dup" ["sk"] (Cast (Ptr (STACK_OF "PROFESSION_INFO"))
    (Call "OPENSSL_sk_dup" [Call "ossl_check_const_PROFESSION_INFO_sk_type" [Par "sk"]]));
  Macro "sk_PROFESSION_INFO_deep_copy" ["sk"; "copyfunc"; "freefunc"] (Cast (Ptr (STACK_OF "PROFESSION_INFO"))
    (Call "OPENSSL_sk_deep_copy" [Call "ossl_check_const_PROFESSION_INFO_sk_type" [Par "sk"];
    Call "ossl_check_PROFESSION_INFO_copyfunc_type" [Par "copyfunc"];
    Call "ossl_check_PROFESSION_INFO_freefunc_type" [Par "freefunc"]]));
  Macro "sk_PROFESSION_INFO_set_cmp_func" ["sk"; "cmp"] (Cast (sk_compfunc (TypeName "PROFESSION_INFO"))
    (Call "OPENSSL_sk_set_cmp_func" [Call "ossl_check_PROFESSION_INFO_sk_type" [Par "sk"];
    Call "ossl_check_PROFESSION_INFO_compfunc_type" [Par "cmp"]]))].

Definition stack_ADMISSIONS : stack := Stack "ADMISSIONS" (TypeName "ADMISSIONS") (TypeName "ADMISSIONS") [
  Macro "sk_ADMISSIONS_num" ["sk"] (Call "OPENSSL_sk_num" [Call "ossl_check_const_ADMISSIONS_sk_type" [Par "sk"]]);
  Macro "sk_ADMISSIONS_value" ["sk"; "idx"] (Cast (Ptr (TypeName "ADMISSIONS"))
    (Call "OPENSSL_sk_value" [Call "ossl_check_const_ADMISSIONS_sk_type" [Par "sk"]; Par "idx"]));
  Macro "sk_ADMISSIONS_new" ["cmp"] (Cast (Ptr (STACK_OF "ADMISSIONS"))
    (Call "OPENSSL_sk_new" [Call "ossl_check_ADMISSIONS_compfunc_type" [Par "cmp"]]));
  Macro "sk_ADMISSIONS_new_null" [] (Cast (Ptr (STACK_OF "ADMISSIONS")) (Call "OPENSSL_sk_new_null" []));
  Macro "sk_ADMISSIONS_new_reserve" ["cmp"; "n"] (Cast (Ptr (STACK_OF "ADMISSIONS"))
    (Call "OPENSSL_sk_new_reserve" [Call "ossl_check_ADMISSIONS_compfunc_type" [Par "cmp"]; Par "n"]));
  Macro "sk_ADMISSIONS_reserve" ["sk"; "n"] (Call "OPENSSL_sk_reserve" [Call "ossl_check_ADMISSIONS_sk_type" [Par "sk"];
    Par "n"]);
  Macro "sk_ADMISSIONS_free" ["sk"] (Call "OPENSSL_sk_free" [Call "ossl_check_ADMISSIONS_sk_type" [Par "sk"]]);
  Macro "sk_ADMISSIONS_zero" ["sk"] (Call "OPENSSL_sk_zero" [Call "ossl_check_ADMISSIONS_sk_type" [Par "sk"]]);
  Macro "sk_ADMISSIONS_delete" ["sk"; "i"] (Cast (Ptr (TypeName "ADMISSIONS"))
    (Call "OPENSSL_sk_delete" [Call "ossl_check_ADMISSIONS_sk_type" [Par "sk"]; Par "i"]));
  Macro "sk_ADMISSIONS_delete_ptr" ["sk"; "ptr"] (Cast (Ptr (TypeName "ADMISSIONS"))
    (Call "OPENSSL_sk_delete_ptr" [Call "ossl_check_ADMISSIONS_sk_type" [Par "sk"];
    Call "ossl_check_ADMISSIONS_type" [Par "ptr"]]));
  Macro "sk_ADMISSIONS_push" ["sk"; "ptr"] (Call "OPENSSL_sk_push" [Call "ossl_check_ADMISSIONS_sk_type" [Par "sk"];
    Call "ossl_check_ADMISSIONS_type" [Par "ptr"]]);
  Macro "sk_ADMISSIONS_unshift" ["sk"; "ptr"]
    (Call "OPENSSL_sk_unshift" [Call "ossl_check_ADMISSIONS_sk_type" [Par "sk"];
    Call "ossl_check_ADMISSIONS_type" [Par "ptr"]]);
  Macro "sk_ADMISSIONS_pop" ["sk"] (Cast (Ptr (TypeName "ADMISSIONS"))
    (Call "OPENSSL_sk_pop" [Call "ossl_check_ADMISSIONS_sk_type" [Par "sk"]]));
  Macro "sk_ADMISSIONS_shift" ["sk"] (Cast (Ptr (TypeName "ADMISSIONS"))
    (Call "OPENSSL_sk_shift" [Call "ossl_check_ADMISSIONS_sk_type" [Par "sk"]]));
  Macro "sk_ADMISSIONS_pop_free" ["sk"; "freefunc"]
    (Call "OPENSSL_sk_pop_free" [Call "ossl_check_ADMISSIONS_sk_type" [Par "sk"];
    Call "ossl_check_ADMISSIONS_freefunc_type" [Par "freefunc"]]);
  Macro "sk_ADMISSIONS_insert" ["sk"; "ptr"; "idx"]
    (Call "OPENSSL_sk_insert" [Call "ossl_check_ADMISSIONS_sk_type" [Par "sk"];
    Call "ossl_check_ADMISSIONS_type" [Par "ptr"]; Par "idx"]);
  Macro "sk_ADMISSIONS_set" ["sk"; "idx"; "ptr"] (Cast (Ptr (TypeName "ADMISSIONS"))
    (Call "OPENSSL_sk_set" [Call "ossl_check_ADMISSIONS_sk_type" [Par "sk"]; Par "idx";
    Call "ossl_check_ADMISSIONS_type" [Par "ptr"]]));
  Macro "sk_ADMISSIONS_find" ["sk"; "ptr"] (Call "OPENSSL_sk_find" [Call "ossl_check_ADMISSIONS_sk_type" [Par "sk"];
    Call "ossl_check_ADMISSIONS_type" [Par "ptr"]]);
  Macro "sk_ADMISSIONS_find_ex" ["sk"; "ptr"]
    (Call "OPENSSL_sk_find_ex" [Call "ossl_check_ADMISSIONS_sk_type" [Par "sk"];
    Call "ossl_check_ADMISSIONS_type" [Par "ptr"]]);
  Macro "sk_ADMISSIONS_find_all" ["sk"; "ptr"; "pnum"]
    (Call "OPENSSL_sk_find_all" [Call "ossl_check_ADMISSIONS_sk_type" [Par "sk"];
    Call "ossl_check_ADMISSIONS_type" [Par "ptr"]; Par "pnum"]);
  Macro "sk_ADMISSIONS_sort" ["sk"] (Call "OPENSSL_sk_sort" [Call "ossl_check_ADMISSIONS_sk_type" [Par "sk"]]);
  Macro "sk_ADMISSIONS_is_sorted" ["sk"]
    (Call "OPENSSL_sk_is_sorted" [Call "ossl_check_const_ADMISSIONS_sk_type" [Par "sk"]]);
  Macro "sk_ADMISSIONS_dup" ["sk"] (Cast (Ptr (STACK_OF "ADMISSIONS"))
    (Call "OPENSSL_sk_dup" [Call "ossl_check_const_ADMISSIONS_sk_type" [Par "sk"]]));
  Macro "sk_ADMISSIONS_deep_copy" ["sk"; "copyfunc"; "freefunc"] (Cast (Ptr (STACK_OF "ADMISSIONS"))
    (Call "OPENSSL_sk_deep_copy" [Call "ossl_check_const_ADMISSIONS_sk_type" [Par "sk"];
    Call "ossl_check_ADMISSIONS_copyfunc_type" [Par "copyfunc"];
    Call "ossl_check_ADMISSIONS_freefunc_type" [Par "freefunc"]]));
  Macro "sk_ADMISSIONS_set_cmp_func" ["sk"; "cmp"] (Cast (sk_compfunc (TypeName "ADMISSIONS"))
    (Call "OPENSSL_sk_set_cmp_func" [Call "ossl_check_ADMISSIONS_sk_type" [Par "sk"];
    Call "ossl_check_ADMISSIONS_compfunc_type" [Par "cmp"]]))].

Definition stacks : list stack := [
  stack_X509_ALGOR; stack_ASN1_STRING_TABLE; stack_ASN1_TYPE; stack_ASN1_OBJECT; stack_ASN1_INTEGER;
  stack_ASN1_UTF8STRING; stack_ASN1_GENERALSTRING; stack_ASN1_VALUE; stack_BIO; stack_OSSL_CMP_CERTSTATUS;
  stack_OSSL_CMP_ITAV; stack_OSSL_CMP_PKISI; stack_OSSL_CMP_CERTREPMESSAGE; stack_OSSL_CMP_CERTRESPONSE;
  stack_CMS_SignerInfo; stack_CMS_RecipientEncryptedKey; stack_CMS_RecipientInfo; stack_CMS_RevocationInfoChoice;
  stack_CONF_VALUE; stack_OSSL_CRMF_MSG; stack_OSSL_CRMF_CERTID; stack_void; stack_SCT; stack_CTLOG;
  stack_ESS_CERT_ID; stack_ESS_CERT_ID_V2; stack_OCSP_CERTID; stack_OCSP_ONEREQ; stack_OCSP_RESPID;
  stack_OCSP_SINGLERESP; stack_PKCS12_SAFEBAG; stack_PKCS7_SIGNER_INFO; stack_PKCS7_RECIP_INFO; stack_PKCS7;
  stack_OPENSSL_STRING; stack_OPENSSL_CSTRING; stack_OPENSSL_BLOCK; stack_SRP_gN_cache; stack_SRP_user_pwd;
  stack_SRP_gN; stack_SRTP_PROTECTION_PROFILE; stack_SSL_CIPHER; stack_SSL_COMP; stack_UI_STRING; stack_X509_NAME;
  stack_X509; stack_X509_REVOKED; stack_X509_CRL; stack_X509_NAME_ENTRY; stack_X509_EXTENSION; stack_X509_ATTRIBUTE;
  stack_X509_INFO; stack_X509_LOOKUP; stack_X509_OBJECT; stack_X509_VERIFY_PARAM; stack_X509_TRUST;
  stack_X509V3_EXT_METHOD; stack_ACCESS_DESCRIPTION; stack_GENERAL_NAME; stack_GENERAL_NAMES; stack_DIST_POINT;
  stack_SXNETID; stack_POLICYQUALINFO; stack_POLICYINFO; stack_POLICY_MAPPING; stack_GENERAL_SUBTREE;
  stack_X509_PURPOSE; stack_X509_POLICY_NODE; stack_ASIdOrRange; stack_IPAddressOrRange; stack_IPAddressFamily;
  stack_ASN1_STRING; stack_PROFESSION_INFO; stack_ADMISSIONS].

Definition lhash_CONF_VALUE : lhash := LHash "CONF_VALUE" [
  Macro "lh_CONF_VALUE_new" ["hfn"; "cmp"] (Cast (Ptr (LHASH_OF "CONF_VALUE"))
    (Call "OPENSSL_LH_new" [Call "ossl_check_CONF_VALUE_lh_hashfunc_type" [Par "hfn"];
    Call "ossl_check_CONF_VALUE_lh_compfunc_type" [Par "cmp"]]));
  Macro "lh_CONF_VALUE_free" ["lh"] (Call "OPENSSL_LH_free" [Call "ossl_check_CONF_VALUE_lh_type" [Par "lh"]]);
  Macro "lh_CONF_VALUE_flush" ["lh"] (Call "OPENSSL_LH_flush" [Call "ossl_check_CONF_VALUE_lh_type" [Par "lh"]]);
  Macro "lh_CONF_VALUE_insert" ["lh"; "ptr"] (Cast (Ptr (TypeName "CONF_VALUE"))
    (Call "OPENSSL_LH_insert" [Call "ossl_check_CONF_VALUE_lh_type" [Par "lh"];
    Call "ossl_check_CONF_VALUE_lh_plain_type" [Par "ptr"]]));
  Macro "lh_CONF_VALUE_delete" ["lh"; "ptr"] (Cast (Ptr (TypeName "CONF_VALUE"))
    (Call "OPENSSL_LH_delete" [Call "ossl_check_CONF_VALUE_lh_type" [Par "lh"];
    Call "ossl_check_const_CONF_VALUE_lh_plain_type" [Par "ptr"]]));
  Macro "lh_CONF_VALUE_retrieve" ["lh"; "ptr"] (Cast (Ptr (TypeName "CONF_VALUE"))
    (Call "OPENSSL_LH_retrieve" [Call "ossl_check_CONF_VALUE_lh_type" [Par "lh"];
    Call "ossl_check_const_CONF_VALUE_lh_plain_type" [Par "ptr"]]));
  Macro "lh_CONF_VALUE_error" ["lh"] (Call "OPENSSL_LH_error" [Call "ossl_check_CONF_VALUE_lh_type" [Par "lh"]]);
  Macro "lh_CONF_VALUE_num_items" ["lh"] (Call "OPENSSL_LH_num_items" [Call "ossl_check_CONF_VALUE_lh_type" [Par "lh"]]);
  Macro "lh_CONF_VALUE_node_stats_bio" ["lh"; "out"]
    (Call "OPENSSL_LH_node_stats_bio" [Call "ossl_check_const_CONF_VALUE_lh_type" [Par "lh"]; Par "out"]);
  Macro "lh_CONF_VALUE_node_usage_stats_bio" ["lh"; "out"]
    (Call "OPENSSL_LH_node_usage_stats_bio" [Call "ossl_check_const_CONF_VALUE_lh_type" [Par "lh"]; Par "out"]);
  Macro "lh_CONF_VALUE_stats_bio" ["lh"; "out"]
    (Call "OPENSSL_LH_stats_bio" [Call "ossl_check_const_CONF_VALUE_lh_type" [Par "lh"]; Par "out"]);
  Macro "lh_CONF_VALUE_get_down_load" ["lh"]
    (Call "OPENSSL_LH_get_down_load" [Call "ossl_check_CONF_VALUE_lh_type" [Par "lh"]]);
  Macro "lh_CONF_VALUE_set_down_load" ["lh"; "dl"]
    (Call "OPENSSL_LH_set_down_load" [Call "ossl_check_CONF_VALUE_lh_type" [Par "lh"]; Par "dl"]);
  Macro "lh_CONF_VALUE_doall" ["lh"; "dfn"] (Call "OPENSSL_LH_doall" [Call "ossl_check_CONF_VALUE_lh_type" [Par "lh"];
    Call "ossl_check_CONF_VALUE_lh_doallfunc_type" [Par "dfn"]])].

Definition lhash_ERR_STRING_DATA : lhash := LHash "ERR_STRING_DATA" [
  Macro "lh_ERR_STRING_DATA_new" ["hfn"; "cmp"] (Cast (Ptr (LHASH_OF "ERR_STRING_DATA"))
    (Call "OPENSSL_LH_new" [Call "ossl_check_ERR_STRING_DATA_lh_hashfunc_type" [Par "hfn"];
    Call "ossl_check_ERR_STRING_DATA_lh_compfunc_type" [Par "cmp"]]));
  Macro "lh_ERR_STRING_DATA_free" ["lh"] (Call "OPENSSL_LH_free" [Call "ossl_check_ERR_STRING_DATA_lh_type" [Par "lh"]]);
  Macro "lh_ERR_STRING_DATA_flush" ["lh"]
    (Call "OPENSSL_LH_flush" [Call "ossl_check_ERR_STRING_DATA_lh_type" [Par "lh"]]);
  Macro "lh_ERR_STRING_DATA_insert" ["lh"; "ptr"] (Cast (Ptr (TypeName "ERR_STRING_DATA"))
    (Call "OPENSSL_LH_insert" [Call "ossl_check_ERR_STRING_DATA_lh_type" [Par "lh"];
    Call "ossl_check_ERR_STRING_DATA_lh_plain_type" [Par "ptr"]]));
  Macro "lh_ERR_STRING_DATA_delete" ["lh"; "ptr"] (Cast (Ptr (TypeName "ERR_STRING_DATA"))
    (Call "OPENSSL_LH_delete" [Call "ossl_check_ERR_STRING_DATA_lh_type" [Par "lh"];
    Call "ossl_check_const_ERR_STRING_DATA_lh_plain_type" [Par "ptr"]]));
  Macro "lh_ERR_STRING_DATA_retrieve" ["lh"; "ptr"] (Cast (Ptr (TypeName "ERR_STRING_DATA"))
    (Call "OPENSSL_LH_retrieve" [Call "ossl_check_ERR_STRING_DATA_lh_type" [Par "lh"];
    Call "ossl_check_const_ERR_STRING_DATA_lh_plain_type" [Par "ptr"]]));
  Macro "lh_ERR_STRING_DATA_error" ["lh"]
    (Call "OPENSSL_LH_error" [Call "ossl_check_ERR_STRING_DATA_lh_type" [Par "lh"]]);
  Macro "lh_ERR_STRING_DATA_num_items" ["lh"]
    (Call "OPENSSL_LH_num_items" [Call "ossl_check_ERR_STRING_DATA_lh_type" [Par "lh"]]);
  Macro "lh_ERR_STRING_DATA_node_stats_bio" ["lh"; "out"]
    (Call "OPENSSL_LH_node_stats_bio" [Call "ossl_check_const_ERR_STRING_DATA_lh_type" [Par "lh"]; Par "out"]);
  Macro "lh_ERR_STRING_DATA_node_usage_stats_bio" ["lh"; "out"]
    (Call "OPENSSL_LH_node_usage_stats_bio" [Call "ossl_check_const_ERR_STRING_DATA_lh_type" [Par "lh"]; Par "out"]);
  Macro "lh_ERR_STRING_DATA_stats_bio" ["lh"; "out"]
    (Call "OPENSSL_LH_stats_bio" [Call "ossl_check_const_ERR_STRING_DATA_lh_type" [Par "lh"]; Par "out"]);
  Macro "lh_ERR_STRING_DATA_get_down_load" ["lh"]
    (Call "OPENSSL_LH_get_down_load" [Call "ossl_check_ERR_STRING_DATA_lh_type" [Par "lh"]]);
  Macro "lh_ERR_STRING_DATA_set_down_load" ["lh"; "dl"]
    (Call "OPENSSL_LH_set_down_load" [Call "ossl_check_ERR_STRING_DATA_lh_type" [Par "lh"]; Par "dl"]);
  Macro "lh_ERR_STRING_DATA_doall" ["lh"; "dfn"]
    (Call "OPENSSL_LH_doall" [Call "ossl_check_ERR_STRING_DATA_lh_type" [Par "lh"];
    Call "ossl_check_ERR_STRING_DATA_lh_doallfunc_type" [Par "dfn"]])].

Definition lhash_OPENSSL_STRING : lhash := LHash "OPENSSL_STRING" [
  Macro "lh_OPENSSL_STRING_new" ["hfn"; "cmp"] (Cast (Ptr (LHASH_OF "OPENSSL_STRING"))
    (Call "OPENSSL_LH_new" [Call "ossl_check_OPENSSL_STRING_lh_hashfunc_type" [Par "hfn"];
    Call "ossl_check_OPENSSL_STRING_lh_compfunc_type" [Par "cmp"]]));
  Macro "lh_OPENSSL_STRING_free" ["lh"] (Call "OPENSSL_LH_free" [Call "ossl_check_OPENSSL_STRING_lh_type" [Par "lh"]]);
  Macro "lh_OPENSSL_STRING_flush" ["lh"] (Call "OPENSSL_LH_flush" [Call "ossl_check_OPENSSL_STRING_lh_type" [Par "lh"]]);
  Macro "lh_OPENSSL_STRING_insert" ["lh"; "ptr"] (Cast (Ptr (TypeName "OPENSSL_STRING"))
    (Call "OPENSSL_LH_insert" [Call "ossl_check_OPENSSL_STRING_lh_type" [Par "lh"];
    Call "ossl_check_OPENSSL_STRING_lh_plain_type" [Par "ptr"]]));
  Macro "lh_OPENSSL_STRING_delete" ["lh"; "ptr"] (Cast (Ptr (TypeName "OPENSSL_STRING"))
    (Call "OPENSSL_LH_delete" [Call "ossl_check_OPENSSL_STRING_lh_type" [Par "lh"];
    Call "ossl_check_const_OPENSSL_STRING_lh_plain_type" [Par "ptr"]]));
  Macro "lh_OPENSSL_STRING_retrieve" ["lh"; "ptr"] (Cast (Ptr (TypeName "OPENSSL_STRING"))
    (Call "OPENSSL_LH_retrieve" [Call "ossl_check_OPENSSL_STRING_lh_type" [Par "lh"];
    Call "ossl_check_const_OPENSSL_STRING_lh_plain_type" [Par "ptr"]]));
  Macro "lh_OPENSSL_STRING_error" ["lh"] (Call "OPENSSL_LH_error" [Call "ossl_check_OPENSSL_STRING_lh_type" [Par "lh"]]);
  Macro "lh_OPENSSL_STRING_num_items" ["lh"]
    (Call "OPENSSL_LH_num_items" [Call "ossl_check_OPENSSL_STRING_lh_type" [Par "lh"]]);
  Macro "lh_OPENSSL_STRING_node_stats_bio" ["lh"; "out"]
    (Call "OPENSSL_LH_node_stats_bio" [Call "ossl_check_const_OPENSSL_STRING_lh_type" [Par "lh"]; Par "out"]);
  Macro "lh_OPENSSL_STRING_node_usage_stats_bio" ["lh"; "out"]
    (Call "OPENSSL_LH_node_usage_stats_bio" [Call "ossl_check_const_OPENSSL_STRING_lh_type" [Par "lh"]; Par "out"]);
  Macro "lh_OPENSSL_STRING_stats_bio" ["lh"; "out"]
    (Call "OPENSSL_LH_stats_bio" [Call "ossl_check_const_OPENSSL_STRING_lh_type" [Par "lh"]; Par "out"]);
  Macro "lh_OPENSSL_STRING_get_down_load" ["lh"]
    (Call "OPENSSL_LH_get_down_load" [Call "ossl_check_OPENSSL_STRING_lh_type" [Par "lh"]]);
  Macro "lh_OPENSSL_STRING_set_down_load" ["lh"; "dl"]
    (Call "OPENSSL_LH_set_down_load" [Call "ossl_check_OPENSSL_STRING_lh_type" [Par "lh"]; Par "dl"]);
  Macro "lh_OPENSSL_STRING_doall" ["lh"; "dfn"]
    (Call "OPENSSL_LH_doall" [Call "ossl_check_OPENSSL_STRING_lh_type" [Par "lh"];
    Call "ossl_check_OPENSSL_STRING_lh_doallfunc_type" [Par "dfn"]])].

Definition lhash_OPENSSL_CSTRING : lhash := LHash "OPENSSL_CSTRING" [
  Macro "lh_OPENSSL_CSTRING_new" ["hfn"; "cmp"] (Cast (Ptr (LHASH_OF "OPENSSL_CSTRING"))
    (Call "OPENSSL_LH_new" [Call "ossl_check_OPENSSL_CSTRING_lh_hashfunc_type" [Par "hfn"];
    Call "ossl_check_OPENSSL_CSTRING_lh_compfunc_type" [Par "cmp"]]));
  Macro "lh_OPENSSL_CSTRING_free" ["lh"] (Call "OPENSSL_LH_free" [Call "ossl_check_OPENSSL_CSTRING_lh_type" [Par "lh"]]);
  Macro "lh_OPENSSL_CSTRING_flush" ["lh"]
    (Call "OPENSSL_LH_flush" [Call "ossl_check_OPENSSL_CSTRING_lh_type" [Par "lh"]]);
  Macro "lh_OPENSSL_CSTRING_insert" ["lh"; "ptr"] (Cast (Ptr (TypeName "OPENSSL_CSTRING"))
    (Call "OPENSSL_LH_insert" [Call "ossl_check_OPENSSL_CSTRING_lh_type" [Par "lh"];
    Call "ossl_check_OPENSSL_CSTRING_lh_plain_type" [Par "ptr"]]));
  Macro "lh_OPENSSL_CSTRING_delete" ["lh"; "ptr"] (Cast (Ptr (TypeName "OPENSSL_CSTRING"))
    (Call "OPENSSL_LH_delete" [Call "ossl_check_OPENSSL_CSTRING_lh_type" [Par "lh"];
    Call "ossl_check_const_OPENSSL_CSTRING_lh_plain_type" [Par "ptr"]]));
  Macro "lh_OPENSSL_CSTRING_retrieve" ["lh"; "ptr"] (Cast (Ptr (TypeName "OPENSSL_CSTRING"))
    (Call "OPENSSL_LH_retrieve" [Call "ossl_check_OPENSSL_CSTRING_lh_type" [Par "lh"];
    Call "ossl_check_const_OPENSSL_CSTRING_lh_plain_type" [Par "ptr"]]));
  Macro "lh_OPENSSL_CSTRING_error" ["lh"]
    (Call "OPENSSL_LH_error" [Call "ossl_check_OPENSSL_CSTRING_lh_type" [Par "lh"]]);
  Macro "lh_OPENSSL_CSTRING_num_items" ["lh"]
    (Call "OPENSSL_LH_num_items" [Call "ossl_check_OPENSSL_CSTRING_lh_type" [Par "lh"]]);
  Macro "lh_OPENSSL_CSTRING_node_stats_bio" ["lh"; "out"]
    (Call "OPENSSL_LH_node_stats_bio" [Call "ossl_check_const_OPENSSL_CSTRING_lh_type" [Par "lh"]; Par "out"]);
  Macro "lh_OPENSSL_CSTRING_node_usage_stats_bio" ["lh"; "out"]
    (Call "OPENSSL_LH_node_usage_stats_bio" [Call "ossl_check_const_OPENSSL_CSTRING_lh_type" [Par "lh"]; Par "out"]);
  Macro "lh_OPENSSL_CSTRING_stats_bio" ["lh"; "out"]
    (Call "OPENSSL_LH_stats_bio" [Call "ossl_check_const_OPENSSL_CSTRING_lh_type" [Par "lh"]; Par "out"]);
  Macro "lh_OPENSSL_CSTRING_get_down_load" ["lh"]
    (Call "OPENSSL_LH_get_down_load" [Call "ossl_check_OPENSSL_CSTRING_lh_type" [Par "lh"]]);
  Macro "lh_OPENSSL_CSTRING_set_down_load" ["lh"; "dl"]
    (Call "OPENSSL_LH_set_down_load" [Call "ossl_check_OPENSSL_CSTRING_lh_type" [Par "lh"]; Par "dl"]);
  Macro "lh_OPENSSL_CSTRING_doall" ["lh"; "dfn"]
    (Call "OPENSSL_LH_doall" [Call "ossl_check_OPENSSL_CSTRING_lh_type" [Par "lh"];
    Call "ossl_check_OPENSSL_CSTRING_lh_doallfunc_type" [Par "dfn"]])].

Definition lhashes : list lhash := [
  lhash_CONF_VALUE; lhash_ERR_STRING_DATA; lhash_OPENSSL_STRING; lhash_OPENSSL_CSTRING].

(** ** The functions the macros call *)

Definition check_functions : list cfun :=
  ((stacks ≫= λ T, SKM_DEFINE_STACK_OF_INTERNAL (stack_t1 T) (stack_t2 T) (stack_t3 T)) ++
   (lhashes ≫= λ T, DEFINE_LHASH_OF_INTERNAL (lhash_type T)))%list.
Definition inline_functions : gmap string cfun := list_to_map ((λ f, (fun_name f, f)) <$> check_functions).
Definition prototypes : gmap string prototype :=
  list_to_map (stack_prototypes ++ lhash_prototypes ++ ((λ f, (fun_name f, fun_prototype f)) <$> check_functions))%list.

Definition inline (f : string) : option cfun := inline_functions !! f.
Definition signature (f : string) : option prototype := prototypes !! f.
