(* ===== verification/TypedMacrosFacts.v ===== *)
(** * Facts on macros and inline functions

    The body of a wrapper passes each of its parameters once, in their order, to
    one function, perhaps through functions that only check a type. For such a
    body there are two analyses: [constraints] gives the type that each parameter
    is converted to, and [callee] the function that is called. *)

From S2P Require Import Prelude TypedMacros.
From stdpp Require Import strings ssreflect.
Local Open Scope string_scope.

(** ** Parameters *)

Lemma named_cons_ne {A} x (a : A) E y : y ≠ x → named ((x, a) :: E) y = named E y.
Proof. intros H. cbn. by rewrite (proj2 (String.eqb_neq y x) H). Qed.
Lemma named_cons_eq {A} x (a : A) E : named ((x, a) :: E) x = Some a.
Proof. cbn. by rewrite String.eqb_refl. Qed.

(** ** Types *)

(** A [void] pointer converts to a pointer to an object. *)
Lemma assignable_from_void t : is_function t = false → assignable (Ptr Void) (Ptr t) = true.
Proof. intros H. cbn. by rewrite H orb_true_r. Qed.

Definition concatM {A B C} (f : A → B → option (list C)) : list A → list B → option (list C) :=
  fix go l k :=
    match l, k with
    | [], [] => Some []
    | a :: l, b :: k => x ← f a b; y ← go l k; Some (x ++ y)%list
    | _, _ => None
    end.

Section constraints.
Context (sig : string → option prototype).

(** The types that the parameters are converted to in an argument of type [p]. *)
Fixpoint needs (e : expr) (p : ctype) : option (list (string * ctype)) :=
  match e with
  | Par x => Some [(x, p)]
  | Call f es => '(r, ps) ← sig f; if assignable r p then concatM needs es ps else None
  | _ => None
  end.
Definition constraints (e : expr) : option (list (string * ctype) * ctype) :=
  match e with
  | Call f es => '(r, ps) ← sig f; cs ← concatM needs es ps; Some (cs, r)
  | Cast t (Call f es) =>
      '(r, ps) ← sig f; cs ← concatM needs es ps; if castable r t then Some (cs, t) else None
  | _ => None
  end.

(** The parameter of a constraint has a type that meets it. *)
Definition meets (env : list (string * ctype)) (c : string * ctype) : bool :=
  match named env c.1 with Some t => assignable t c.2 | None => false end.
Definition accepts (env : list (string * ctype)) (es : list expr) (ps : list ctype) : bool :=
  match mapM (type_of sig env) es with Some ts => all_assignable ts ps | None => false end.

Lemma accepts_concatM env es : Forall (λ e, ∀ p cs, needs e p = Some cs →
    match type_of sig env e with Some t => assignable t p | None => false end = forallb (meets env) cs) es →
  ∀ ps cs, concatM needs es ps = Some cs → accepts env es ps = forallb (meets env) cs.
Proof.
  unfold accepts. induction 1 as [|e es He _ IH]; intros [|p ps] cs; cbn; try done; [by intros [= <-]|].
  destruct (needs e p) as [c|] eqn:Ec; cbn; [|done].
  destruct (concatM needs es ps) as [cs'|] eqn:Ecs; cbn; [|done]. intros [= <-].
  rewrite forallb_app -(He p c Ec) -(IH ps cs' Ecs).
  destruct (type_of sig env e) as [t|], (mapM (type_of sig env) es) as [ts|]; cbn; try done.
  by rewrite andb_false_r.
Qed.

Lemma needs_type env e p cs :
  needs e p = Some cs →
  match type_of sig env e with Some t => assignable t p | None => false end = forallb (meets env) cs.
Proof.
  revert p cs. induction e as [x| | | | | | |f es IH] using expr_ind'; intros p cs; cbn; [|done..|].
  - intros [= <-]. cbn. unfold meets. cbn. by rewrite andb_true_r.
  - destruct (sig f) as [[r ps]|]; cbn; [|done]. destruct (assignable r p) eqn:Er; [|done]. intros Hcs.
    rewrite -(accepts_concatM env es IH ps cs Hcs). unfold accepts.
    destruct (mapM (type_of sig env) es) as [ts|]; cbn; [|done]. by destruct (all_assignable ts ps).
Qed.

Lemma call_type_of env f es :
  type_of sig env (Call f es) = '(r, ps) ← sig f; if accepts env es ps then Some r else None.
Proof.
  unfold accepts. cbn. destruct (sig f) as [[r ps]|]; cbn; [|done].
  by destruct (mapM (type_of sig env) es) as [ts|].
Qed.

Lemma constraints_type env e cs t :
  constraints e = Some (cs, t) → type_of sig env e = if forallb (meets env) cs then Some t else None.
Proof.
  assert (∀ es ps cs, concatM needs es ps = Some cs → accepts env es ps = forallb (meets env) cs) as Hargs.
  { intros es. apply accepts_concatM, Forall_true. intros e'. apply needs_type. }
  destruct e as [| | | | |t0 [| | | | | | |f es]| |f es]; try done; unfold constraints.
  - change (type_of sig env (Cast t0 (Call f es))) with
      (t' ← type_of sig env (Call f es); if castable t' t0 then Some t0 else None).
    rewrite call_type_of. destruct (sig f) as [[r ps]|]; cbn; [|done].
    destruct (concatM needs es ps) as [cs'|] eqn:E; cbn; [|done]. destruct (castable r t0) eqn:Er; [|done].
    intros [= <- <-]. rewrite (Hargs _ _ _ E). destruct (forallb _ cs'); cbn; [by rewrite Er|done].
  - rewrite call_type_of. destruct (sig f) as [[r ps]|]; cbn; [|done].
    destruct (concatM needs es ps) as [cs'|] eqn:E; cbn; [|done]. intros [= <- <-]. by rewrite (Hargs _ _ _ E).
Qed.
End constraints.

(** The constraints are one for each parameter, in order. *)
Lemma meets_zip xs ts ps :
  NoDup xs → length xs = length ps → length ts = length xs →
  forallb (meets (zip xs ts)) (zip xs ps) = all_assignable ts ps.
Proof.
  intros Hd. revert ts ps. induction Hd as [|x xs Hx Hd IH]; intros [|t ts] [|p ps]; try done; cbn [length].
  intros [= Hps] [= Hts]. cbn [zip zip_with forallb all_assignable].
  unfold meets at 1. cbn [fst snd]. rewrite named_cons_eq. f_equal. rewrite -(IH ts ps Hps Hts).
  assert (∀ c, c ∈ zip xs ps → meets ((x, t) :: zip xs ts) c = meets (zip xs ts) c) as Hc.
  { intros [y p'] Hy%elem_of_zip_l. unfold meets. cbn [fst snd]. rewrite named_cons_ne; [done|congruence]. }
  revert Hc. generalize (zip xs ps) (meets ((x, t) :: zip xs ts)) (meets (zip xs ts)). clear.
  intros l f g Hc. induction l as [|c l IH]; [done|]. cbn. rewrite Hc; [|by left]. f_equal. apply IH.
  intros c' Hc'. apply Hc. by right.
Qed.

Lemma all_assignable_length ts ps : all_assignable ts ps = true → length ts = length ps.
Proof.
  revert ps. induction ts as [|t ts IH]; intros [|p ps]; cbn; try done. intros [_ H]%andb_prop. by rewrite (IH ps H).
Qed.

(** A macro that passes on each parameter once has the prototype of a function. *)
Lemma macro_type_call sig m ps r :
  NoDup (macro_params m) → length (macro_params m) = length ps →
  constraints sig (macro_body m) = Some (zip (macro_params m) ps, r) →
  ∀ ts, macro_type sig m ts = call_type (r, ps) ts.
Proof.
  intros Hd Hlen Hc ts. unfold macro_type, call_type. cbn [fst snd].
  destruct (Nat.eqb_spec (length ts) (length (macro_params m))) as [E|E].
  - by rewrite (constraints_type sig _ _ _ _ Hc) meets_zip.
  - destruct (all_assignable ts ps) eqn:Ea; [|done]. apply all_assignable_length in Ea. lia.
Qed.

(** ** Evaluation *)

(** *** Arguments *)

Section arguments.
Context {O : ArgumentOrder} {S V : Type}.
Implicit Types (args : list (M S V)) (vs : list V) (s : S).

Lemma mapM_ext {A B} (f g : A → M S B) l s :
  (∀ a s, a ∈ l → f a s = g a s) → mapM f l s = mapM g l s.
Proof.
  revert s. induction l as [|a l IH]; intros s H; cbn; [done|]. cbv [mbind M_bind mret M_ret].
  rewrite H; [|by left]. destruct (g a s) as [[b s']| |]; [|done..]. by rewrite IH; [|intros; apply H; right].
Qed.

Lemma at_position_lookup (ws : list (nat * V)) i : i ∈ ws.*1 → is_Some (at_position ws i).
Proof.
  induction ws as [|[j v] ws IH]; cbn; [by intros ?%elem_of_nil|].
  destruct (Nat.eqb_spec i j) as [->|Hne]; [by eexists|]. intros [->|?]%elem_of_cons; [done|by apply IH].
Qed.
Lemma mapM_keys (f : nat → M S V) l s ws s' :
  mapM (λ i, v ← f i; mret (i, v)) l s = Ret (ws, s') → ws.*1 = l.
Proof.
  revert s ws s'. induction l as [|i l IH]; intros s ws s'; cbn; cbv [mbind M_bind mret M_ret].
  - by intros [= <- <-].
  - destruct (f i s) as [[v s1]| |]; [|done..].
    destruct (mapM (M := M S) _ l s1) as [[ws' s2]| |] eqn:E; [|done..]. intros [= <- <-]. cbn. f_equal. by eapply IH.
Qed.
Lemma omap_total {A} (f : nat → option A) l : (∀ i, i ∈ l → is_Some (f i)) → length (omap f l) = length l.
Proof.
  induction l as [|i l IH]; intros H; cbn; [done|]. destruct (H i ltac:(by left)) as [v ->]. cbn.
  by rewrite IH; [|intros; apply H; right].
Qed.

Lemma eval_arguments_length args s vs s' : eval_arguments args s = Ret (vs, s') → length vs = length args.
Proof.
  unfold eval_arguments. cbv [mbind M_bind mret M_ret].
  destruct (mapM (M := M S) _ _ s) as [[ws s1]| |] eqn:E; [|done..]. intros [= <- <-].
  apply mapM_keys in E. rewrite omap_total ?length_seq //. intros i Hi. apply at_position_lookup.
  by rewrite E argument_order_perm.
Qed.

(** Arguments that do the same are evaluated to the same. *)
Lemma eval_arguments_ext args args' s :
  Forall2 (λ a b : M S V, ∀ s, a s = b s) args args' → eval_arguments args s = eval_arguments args' s.
Proof.
  intros H. unfold eval_arguments. rewrite -(Forall2_length _ _ _ H). cbv [mbind M_bind]. erewrite mapM_ext; [done|].
  intros i s1 _. cbv [mbind M_bind].
  assert (default undef (args !! i) s1 = default undef (args' !! i) s1) as ->; [|done].
  destruct (proj1 (Forall2_lookup (A := M S V) (B := M S V) _ _ _) H i) as [a b Hab|]; [apply Hab|done].
Qed.

(** In whatever order, values are evaluated to themselves. *)
Lemma mapM_positions vs l s :
  (∀ i, i ∈ l → i < length vs) →
  ∃ ws, mapM (λ i, v ← default undef ((mret (M := M S) <$> vs) !! i); mret (i, v)) l s = Ret (ws, s) ∧
    ∀ i, at_position ws i = if decide (i ∈ l) then vs !! i else None.
Proof.
  induction l as [|i l IH]; intros Hl; cbn; cbv [mbind M_bind mret M_ret].
  { by exists []. }
  destruct (lookup_lt_is_Some_2 vs i) as [v Hv]; [by apply Hl; left|].
  rewrite list_lookup_fmap Hv. cbn. destruct IH as (ws & Hws & Hat); [by intros; apply Hl; right|].
  cbv [mbind M_bind mret M_ret] in Hws. rewrite Hws. exists ((i, v) :: ws). split; [done|]. intros j. cbn. rewrite Hat.
  destruct (Nat.eqb_spec j i) as [->|Hne].
  - rewrite decide_True; [done|by left].
  - destruct (decide (j ∈ l)) as [Hj|Hj].
    + rewrite decide_True; [done|by right].
    + rewrite decide_False; [done|by intros [->|?]%elem_of_cons].
Qed.
Lemma omap_lookup_seq vs : omap (λ i, vs !! i) (seq 0 (length vs)) = vs.
Proof.
  assert (∀ k, omap (λ i, vs !! i) (seq k (length vs - k)) = drop k vs) as H.
  { intros k. remember (length vs - k) as n eqn:En. revert k En. induction n as [|n IH]; intros k En; cbn.
    - by rewrite drop_ge; [|lia].
    - destruct (lookup_lt_is_Some_2 vs k) as [v Hv]; [lia|]. rewrite Hv. cbn. rewrite IH; [|lia].
      by rewrite -(drop_S _ _ _ Hv). }
  specialize (H 0). by rewrite Nat.sub_0_r drop_0 in H.
Qed.
Lemma eval_arguments_values vs s : eval_arguments (mret (M := M S) <$> vs) s = Ret (vs, s).
Proof.
  unfold eval_arguments. destruct (mapM_positions vs (argument_order (length vs)) s) as (ws & Hws & Hat).
  { intros i. rewrite argument_order_perm elem_of_seq. lia. }
  rewrite length_fmap. cbv [mbind M_bind mret M_ret] in *. rewrite Hws. do 2 f_equal.
  rewrite -{2}(omap_lookup_seq vs). apply list_omap_ext, Forall_Forall2_diag, Forall_forall.
  intros i Hi. cbn. rewrite Hat decide_True //. by rewrite argument_order_perm.
Qed.

(** So are arguments that have values in every state. *)
Lemma eval_arguments_pure args vs s :
  Forall2 (λ (a : M S V) v, ∀ s, a s = Ret (v, s)) args vs → eval_arguments args s = Ret (vs, s).
Proof.
  intros H. rewrite (eval_arguments_ext _ (mret <$> vs)); [apply eval_arguments_values|].
  apply Forall2_fmap_r. eapply Forall2_impl; [exact H|]. done.
Qed.

Lemma eval_arguments_nil s : eval_arguments (S := S) (V := V) [] s = Ret ([], s).
Proof. apply (eval_arguments_values []). Qed.
Lemma eval_arguments_one (a : M S V) s : eval_arguments [a] s = (v ← a; mret [v]) s.
Proof.
  unfold eval_arguments. cbn [length]. pose proof (argument_order_perm 1) as H. apply Permutation_singleton_r in H.
  rewrite H. cbn. cbv [mbind M_bind mret M_ret]. by destruct (a s) as [[v s']| |].
Qed.
(** With an argument that has a value in every state, too. *)
Lemma eval_arguments_value_last (a b : M S V) v s :
  (∀ s, b s = Ret (v, s)) → eval_arguments [a; b] s = (u ← a; mret [u; v]) s.
Proof.
  intros Hb. unfold eval_arguments. cbn [length]. pose proof (argument_order_perm 2) as H.
  apply Permutation_sym, Permutation_length_2_inv in H as [-> | ->]; cbn; cbv [mbind M_bind mret M_ret];
    rewrite ?Hb; (destruct (a s) as [[u s']| |]; [|done..]); by rewrite ?Hb.
Qed.
End arguments.

(** *** The function that is called *)

Section callee.
Context (inline : string → option cfun).

(** The parameter that an expression is, but for its type. *)
Fixpoint converted (e : expr) : option string :=
  match e with Par x => Some x | Cast _ e | Local _ e | Cond e _ => converted e | _ => None end.
Definition returns_argument (f : cfun) : bool :=
  match fun_params f with [(x, _)] => bool_decide (converted (fun_body f) = Some x) | _ => false end.
Fixpoint argument (e : expr) : option string :=
  match e with
  | Par x => Some x
  | Cast _ e | Local _ e | Cond e _ => argument e
  | Call f [e] => g ← inline f; if returns_argument g then argument e else None
  | _ => None
  end.
(** The function that the others pass the parameters to. *)
Fixpoint callee (e : expr) : option (string * list string) :=
  match e with
  | Cast _ e | Local _ e => callee e
  | Call f es => match inline f with None => xs ← mapM argument es; Some (f, xs) | Some _ => None end
  | _ => None
  end.

Context {O : ArgumentOrder} {S V : Type} (value_of : constant → V) (lib : string → list V → M S V).
Implicit Types (env : list (string * M S V)) (s : S).
Abbreviation value env x := (default undef (named env x)).

Lemma converted_eval k env e x s : converted e = Some x → eval_with value_of k env e s = value env x s.
Proof. by induction e using expr_ind'; cbn; intros; simplify_eq; auto. Qed.

Lemma argument_eval env e x s : argument e = Some x → eval_with value_of (call value_of lib inline) env e s = value env x s.
Proof.
  revert x s. induction e as [y| |a b IHa _| | | | |f es IH] using expr_ind'; intros x s; cbn;
    [by intros [= <-]|done|auto|done..|auto|auto|].
  destruct es as [|e [|? ?]]; try done. apply Forall_cons_1 in IH as [IH _].
  destruct (inline f) as [g|] eqn:Ef; cbn; [|done]. destruct (returns_argument g) eqn:Eg; [|done]. intros Hx.
  rewrite -(IH x s Hx). cbv [mbind M_bind]. rewrite eval_arguments_one. cbv [mbind M_bind mret M_ret].
  destruct (eval_with _ _ _ e s) as [[v s']| |]; [|done..].
  unfold call. rewrite Ef. unfold call_with, returns_argument in *. destruct (fun_params g) as [|[p t] [|]]; try done.
  apply bool_decide_eq_true in Eg. rewrite (converted_eval _ _ _ _ _ Eg). cbn [fst zip zip_with fmap list_fmap].
  by rewrite named_cons_eq.
Qed.

Lemma callee_eval env e f xs s :
  callee e = Some (f, xs) →
  eval_with value_of (call value_of lib inline) env e s = (vs ← eval_arguments ((λ x, value env x) <$> xs); lib f vs) s.
Proof.
  induction e as [y| | | | | | |g es _] using expr_ind'; cbn; [done..|auto|auto|].
  destruct (inline g) as [?|] eqn:Eg; [done|]. destruct (mapM argument es) as [xs'|] eqn:E; cbn; [|done].
  intros [= <- <-]. apply mapM_Some_1 in E. cbv [mbind M_bind].
  rewrite (eval_arguments_ext _ ((λ x, value env x) <$> xs')).
  - destruct (eval_arguments _ s) as [[vs s']| |]; [|done..]. unfold call. by rewrite Eg.
  - apply Forall2_fmap. eapply Forall2_impl; [exact E|]. intros e x He s'. by apply argument_eval.
Qed.

Lemma named_arguments xs (args : list (M S V)) :
  NoDup xs → length args = length xs → (λ x, value (zip xs args) x) <$> xs = args.
Proof.
  intros Hd. revert args. induction Hd as [|x xs Hx Hd IH]; intros [|a args]; try done. intros [= Hl].
  cbn [fmap list_fmap zip zip_with]. rewrite named_cons_eq. f_equal. rewrite -{2}(IH args Hl).
  apply list_fmap_ext. intros i y Hy. rewrite named_cons_ne; [done|]. intros ->. by apply list_elem_of_lookup_2, Hx in Hy.
Qed.

Lemma eval_macro_callee m f args s :
  NoDup (macro_params m) → length args = length (macro_params m) →
  callee (macro_body m) = Some (f, macro_params m) →
  eval_macro value_of lib inline m args s = (vs ← eval_arguments args; lib f vs) s.
Proof. intros Hd Hl Hc. unfold eval_macro. by rewrite (callee_eval _ _ _ _ _ Hc) named_arguments. Qed.
Lemma eval_function_callee g f args s :
  NoDup (fst <$> fun_params g) → length args = length (fun_params g) →
  callee (fun_body g) = Some (f, fst <$> fun_params g) →
  eval_function value_of lib inline g args s = (vs ← eval_arguments args; lib f vs) s.
Proof.
  intros Hd Hl Hc. unfold eval_function. cbv [mbind M_bind].
  destruct (eval_arguments args s) as [[vs s']| |] eqn:E; [|done..]. apply eval_arguments_length in E as Hvs.
  unfold call_with. rewrite (callee_eval _ _ _ _ _ Hc). cbv [mbind M_bind].
  rewrite named_arguments; [|done|by rewrite !length_fmap Hvs]. by rewrite eval_arguments_values.
Qed.
End callee.

(** The orders of two compilers. *)
Definition left_to_right : ArgumentOrder := {| argument_order n := seq 0 n; argument_order_perm n := reflexivity _ |}.
Program Definition right_to_left : ArgumentOrder := {| argument_order n := reverse (seq 0 n) |}.
Next Obligation. intros n. apply reverse_Permutation. Qed.
