(* ===== verification/StackProperties.v ===== *)
(** * Properties of the type-safe containers

    The generated macros are the inline functions of the same names; neither
    takes the container of another type. *)

From S2P Require Import Prelude TypedMacros SafeStack StackTables TypedMacrosFacts.
From stdpp Require Import strings ssreflect.
Local Open Scope string_scope.

(** ** Macros and functions that are the same *)

(** A macro has the name, the number of parameters and the types of an inline
    function that the compiler accepts, and a call of either evaluates the
    arguments once each, in the order of the compiler, and passes them on to one
    function. *)
Definition same_calls (m : cmacro) (f : cfun) (target : string) : Prop :=
  macro_name m = fun_name f ∧ length (macro_params m) = length (fun_params f) ∧ well_typed signature f = true ∧
  (∀ ts, macro_type signature m ts = call_type (fun_prototype f) ts) ∧
  (∀ (O : ArgumentOrder) (S V : Type) (value_of : constant → V) (lib : string → list V → M S V) args s,
     length args = length (fun_params f) →
     eval_macro value_of lib inline m args s = (vs ← eval_arguments args; lib target vs) s ∧
     eval_function value_of lib inline f args s = (vs ← eval_arguments args; lib target vs) s).

Definition same_callsb (m : cmacro) (f : cfun) (target : string) : bool :=
  bool_decide (macro_name m = fun_name f) && bool_decide (length (macro_params m) = length (fun_params f)) &&
  well_typed signature f &&
  bool_decide (NoDup (macro_params m)) && bool_decide (NoDup (fst <$> fun_params f)) &&
  bool_decide (constraints signature (macro_body m) = Some (zip (macro_params m) (snd <$> fun_params f), fun_ret f)) &&
  bool_decide (callee inline (macro_body m) = Some (target, macro_params m)) &&
  bool_decide (callee inline (fun_body f) = Some (target, fst <$> fun_params f)).

Lemma same_callsb_spec m f target : same_callsb m f target = true → same_calls m f target.
Proof.
  unfold same_callsb. rewrite !andb_true_iff !bool_decide_eq_true.
  intros (((((((Hn & Hl) & Ht) & Hdm) & Hdf) & Hc) & Hm) & Hf). split_and!; [done..| |].
  - intros ts. apply macro_type_call; [done| |done]. by rewrite length_fmap.
  - intros O S V value_of lib args s Ha. split; [apply eval_macro_callee; [done|congruence|done]|by apply eval_function_callee].
Qed.

Lemma forallb2_Forall2 {A B} (f : A → B → bool) (P : A → B → Prop) l k :
  (∀ a b, f a b = true → P a b) → length l = length k → forallb (uncurry f) (zip l k) = true → Forall2 P l k.
Proof.
  intros Hf. revert k. induction l as [|a l IH]; intros [|b k]; try done. intros [= Hl] [? ?]%andb_prop.
  constructor; auto.
Qed.

(** ** Stacks *)

Definition stack_operations (T : stack) : list (string * cfun) :=
  SKM_DEFINE_STACK_OF (stack_t1 T) (stack_t2 T) (stack_t3 T).
(** A macro is the operation [op]. *)
Definition stack_macro (T : stack) (m : cmacro) (op : string * cfun) : Prop :=
  fun_name op.2 = "sk_" +:+ stack_t1 T +:+ "_" +:+ op.1 ∧ same_calls m op.2 ("OPENSSL_sk_" +:+ op.1).

Lemma stack_macros_same T : T ∈ stacks → Forall2 (stack_macro T) (stack_macros T) (stack_operations T).
Proof.
  intros HT.
  assert (forallb (λ T, Nat.eqb (length (stack_macros T)) (length (stack_operations T)) &&
            forallb (uncurry (λ m op, bool_decide (fun_name op.2 = "sk_" +:+ stack_t1 T +:+ "_" +:+ op.1) &&
                                      same_callsb m op.2 ("OPENSSL_sk_" +:+ op.1)))
              (zip (stack_macros T) (stack_operations T))) stacks = true) as H.
  { by vm_compute. }
  rewrite forallb_forall in H. apply list_elem_of_In, H in HT. apply andb_prop in HT as [Hl%Nat.eqb_eq Ho].
  eapply forallb2_Forall2; [|done|exact Ho]. intros m op [Hn%bool_decide_eq_true Hs%same_callsb_spec]%andb_prop.
  by split.
Qed.

(** The operations that only read the stack. *)
Definition reading : list string := ["num"; "value"; "is_sorted"; "dup"; "deep_copy"].

Lemma stack_argument T T' : assignable (Ptr (STACK_OF T')) (Ptr (STACK_OF T)) = true → T' = T.
Proof.
  cbn. rewrite !orb_false_r. intros H%bool_decide_eq_true. unfold STACK_OF in H. injection H as H. exact H.
Qed.
Lemma const_stack_argument c T T' :
  assignable (Ptr (if c : bool then Const (STACK_OF T') else STACK_OF T')) (Ptr (Const (STACK_OF T))) = true → T' = T.
Proof. intros H. apply stack_argument. by destruct c. Qed.

Lemma operation_first t1 t2 t3 op f :
  (op, f) ∈ SKM_DEFINE_STACK_OF t1 t2 t3 →
  match (fun_prototype f).2 with
  | [] => True
  | p :: _ => p = Ptr (STACK_OF t1) ∨ p = Ptr (Const (STACK_OF t1)) ∧ op ∈ reading ∨ p = sk_compfunc t3
  end.
Proof.
  unfold SKM_DEFINE_STACK_OF. intros Hop.
  repeat (apply elem_of_cons in Hop as [[= -> ->]|Hop];
    [cbn; first [done|by left|by right; right|right; left; split; [done|unfold reading; set_solver]]|]).
  by apply elem_of_nil in Hop.
Qed.

(** So the first argument decides which stacks an operation takes. *)
Lemma operation_stack t1 t2 t3 op f c T' ts r :
  (op, f) ∈ SKM_DEFINE_STACK_OF t1 t2 t3 →
  call_type (fun_prototype f) (Ptr (if c : bool then Const (STACK_OF T') else STACK_OF T') :: ts) = Some r →
  T' = t1 ∧ (c = true → op ∈ reading).
Proof.
  intros Hop%operation_first. unfold call_type. destruct (fun_prototype f) as [r' [|p ps]]; [done|].
  cbn [fst snd all_assignable] in *. destruct (assignable _ p) eqn:E; [|done]. intros _.
  destruct Hop as [->|[[-> Hr]| ->]].
  - destruct c; [done|]. split; [by apply stack_argument|done].
  - split; [by eapply const_stack_argument|done].
  - by destruct c.
Qed.

(** ** Hash tables *)

Definition lhash_macro (T : lhash) (m : cmacro) (op : string * cfun) : Prop :=
  fun_name op.2 = "lh_" +:+ lhash_type T +:+ "_" +:+ op.1 ∧ same_calls m op.2 ("OPENSSL_LH_" +:+ op.1).

(** There is no macro for [doall_arg], the last operation. *)
Lemma lhash_macros_same T :
  T ∈ lhashes →
  ∃ ops, DEFINE_LHASH_OF (lhash_type T) = (ops ++ [("doall_arg", lh_doall_arg (lhash_type T))])%list ∧
    Forall2 (lhash_macro T) (lhash_macros T) ops.
Proof.
  intros HT. exists (take 14 (DEFINE_LHASH_OF (lhash_type T))). split; [done|].
  assert (forallb (λ T, Nat.eqb (length (lhash_macros T)) 14 &&
            forallb (uncurry (λ m op, bool_decide (fun_name op.2 = "lh_" +:+ lhash_type T +:+ "_" +:+ op.1) &&
                                      same_callsb m op.2 ("OPENSSL_LH_" +:+ op.1)))
              (zip (lhash_macros T) (take 14 (DEFINE_LHASH_OF (lhash_type T))))) lhashes = true) as H.
  { by vm_compute. }
  rewrite forallb_forall in H. apply list_elem_of_In, H in HT. apply andb_prop in HT as [Hl%Nat.eqb_eq Ho].
  eapply forallb2_Forall2; [|by rewrite Hl|exact Ho]. intros m op [Hn%bool_decide_eq_true Hs%same_callsb_spec]%andb_prop.
  by split.
Qed.

(** ** Callbacks *)

(** The compiler accepts a function, which passes its arguments on to [target]. *)
Definition wraps (sig : string → option prototype) (f : cfun) (target : string) : Prop :=
  well_typed sig f = true ∧
  ∀ (O : ArgumentOrder) (S V : Type) (value_of : constant → V) (lib : string → list V → M S V) args s,
    length args = length (fun_params f) →
    eval_function value_of lib (λ _, None) f args s = (vs ← eval_arguments args; lib target vs) s.

Lemma assignable_same t : assignable (Ptr t) (Ptr t) = true.
Proof. cbn. rewrite bool_decide_true // andb_true_r. by destruct (is_const t). Qed.
Lemma assignable_from_const_void t : assignable (Ptr (Const Void)) (Ptr (Const t)) = true.
Proof. cbn. by rewrite orb_true_r. Qed.

Ltac passes_on :=
  intros; eapply eval_function_callee; [by apply (bool_decide_eq_true_1 (NoDup _))|done|done].

Lemma hash_fn_wraps sig name o :
  sig (name +:+ "_hash") = Some (ULong, [Ptr (Const o)]) →
  wraps sig (IMPLEMENT_LHASH_HASH_FN name o) (name +:+ "_hash").
Proof.
  intros Hs. split; [|passes_on].
  unfold well_typed. cbn -[assignable bool_decide]. rewrite assignable_from_const_void Hs.
  cbn -[assignable bool_decide]. by rewrite assignable_same.
Qed.
Lemma comp_fn_wraps sig name o :
  sig (name +:+ "_cmp") = Some (Int, [Ptr (Const o); Ptr (Const o)]) →
  wraps sig (IMPLEMENT_LHASH_COMP_FN name o) (name +:+ "_cmp").
Proof.
  intros Hs. split; [|passes_on].
  unfold well_typed. cbn -[assignable bool_decide]. rewrite assignable_from_const_void Hs.
  cbn -[assignable bool_decide]. by rewrite assignable_same.
Qed.
Lemma doall_arg_fn_wraps sig name o a :
  is_function o = false → is_function a = false →
  sig (name +:+ "_doall_arg") = Some (Void, [Ptr o; Ptr a]) →
  wraps sig (IMPLEMENT_LHASH_DOALL_ARG_FN name o a) (name +:+ "_doall_arg").
Proof.
  intros Ho Ha Hs. split; [|passes_on].
  unfold well_typed. cbn -[assignable bool_decide]. rewrite !assignable_from_void // Hs.
  cbn -[assignable bool_decide]. by rewrite !assignable_same.
Qed.
Lemma doall_wraps type x a cb : wraps signature (int_implement_lhash_doall type x a cb) "OPENSSL_LH_doall_arg".
Proof.
  split; [|passes_on].
  unfold well_typed. cbn -[signature]. replace (signature "OPENSSL_LH_doall_arg") with
    (Some (Void, [Ptr OPENSSL_LHASH; OPENSSL_LH_DOALL_FUNCARG; Ptr Void])) by (symmetry; by vm_compute).
  by vm_compute.
Qed.

(** ** Names before OpenSSL 1.1.0 *)

Definition old_name (old new : string) (a : string * string) : Prop :=
  (∃ op, a = (old +:+ op, new +:+ op)) ∧ is_Some (signature a.2).
Lemma old_names_ok old new l :
  forallb (λ a, let op := String.substring (String.length old) 30 a.1 in
                bool_decide (a = (old +:+ op, new +:+ op)) && bool_decide (is_Some (signature a.2))) l = true →
  Forall (old_name old new) l.
Proof.
  intros H. apply Forall_forall. intros a Ha%list_elem_of_In. rewrite forallb_forall in H. apply H in Ha.
  apply andb_prop in Ha as [E%bool_decide_eq_true Hs%bool_decide_eq_true]. split; [by eexists|done].
Qed.

(** C29: the containers of OpenSSL are type safe. For each of the 74 types with a
    stack and the 4 with a hash table, the generated macros are exactly the
    inline functions that SKM_DEFINE_STACK_OF and DEFINE_LHASH_OF would define
    (a hash table's macros lack doall_arg): the compiler accepts a macro's call
    for the same types of arguments, with the same type of result, as the
    function's, and both evaluate every argument once, in whatever order the
    compiler has for the arguments of a call, and pass them to the function on
    untyped pointers with the name of the operation. An operation
    takes the stack of no other type, and a stack that is const only if it is one
    that reads; no two types have the same stack. The wrappers that make a
    function on a type a callback have the type of the callback, and pass their
    arguments on. The old names stand for the functions named after them. *)
Theorem containers_type_safe :
  (∀ T, T ∈ stacks → Forall2 (stack_macro T) (stack_macros T) (stack_operations T)) ∧
  (∀ T, T ∈ lhashes →
     ∃ ops, DEFINE_LHASH_OF (lhash_type T) = (ops ++ [("doall_arg", lh_doall_arg (lhash_type T))])%list ∧
       Forall2 (lhash_macro T) (lhash_macros T) ops) ∧
  (∀ T m c T' ts r, T ∈ stacks → m ∈ stack_macros T →
     macro_type signature m (Ptr (if c : bool then Const (STACK_OF T') else STACK_OF T') :: ts) = Some r →
     T' = stack_t1 T ∧ (c = true → ∃ op, op ∈ reading ∧ macro_name m = "sk_" +:+ stack_t1 T +:+ "_" +:+ op)) ∧
  NoDup (stack_t1 <$> stacks) ∧
  (∀ sig name o a, is_function o = false → is_function a = false →
     (sig (name +:+ "_hash") = Some (ULong, [Ptr (Const o)]) →
        let f := IMPLEMENT_LHASH_HASH_FN name o in
        wraps sig f (name +:+ "_hash") ∧ function_pointer (fun_prototype f) = Some OPENSSL_LH_HASHFUNC) ∧
     (sig (name +:+ "_cmp") = Some (Int, [Ptr (Const o); Ptr (Const o)]) →
        let f := IMPLEMENT_LHASH_COMP_FN name o in
        wraps sig f (name +:+ "_cmp") ∧ function_pointer (fun_prototype f) = Some OPENSSL_LH_COMPFUNC) ∧
     (sig (name +:+ "_doall_arg") = Some (Void, [Ptr o; Ptr a]) →
        let f := IMPLEMENT_LHASH_DOALL_ARG_FN name o a in
        wraps sig f (name +:+ "_doall_arg") ∧ function_pointer (fun_prototype f) = Some OPENSSL_LH_DOALL_FUNCARG)) ∧
  (∀ type x a, wraps signature (IMPLEMENT_LHASH_DOALL_ARG type x a) "OPENSSL_LH_doall_arg" ∧
     wraps signature (IMPLEMENT_LHASH_DOALL_ARG_CONST type x a) "OPENSSL_LH_doall_arg") ∧
  Forall (old_name "sk_" "OPENSSL_sk_") stack_aliases ∧ Forall (old_name "lh_" "OPENSSL_LH_") lhash_aliases.
Proof.
  split_and!.
  - apply stack_macros_same.
  - apply lhash_macros_same.
  - intros T m c T' ts r HT Hm. pose proof (stack_macros_same T HT) as Hs.
    apply list_elem_of_lookup_1 in Hm as [i Hi]. destruct (Forall2_lookup_l _ _ _ _ _ Hs Hi) as ([op f] & Hop & Hn & Hf).
    destruct Hf as (En & _ & _ & Et & _). rewrite Et.
    intros H. apply list_elem_of_lookup_2 in Hop. destruct (operation_stack _ _ _ _ _ _ _ _ _ Hop H) as [-> Hr].
    split; [done|]. intros Hc. exists op. split; [by apply Hr|]. by rewrite En Hn.
  - apply (bool_decide_eq_true_1 _). by vm_compute.
  - intros sig name o a Ho Ha. split_and!; intros Hs; (split; [|done]);
      [by apply hash_fn_wraps|by apply comp_fn_wraps|by apply doall_arg_fn_wraps].
  - intros type x a. split; apply doall_wraps.
  - apply old_names_ok. by vm_compute.
  - apply old_names_ok. by vm_compute.
Qed.

(** Pushing on a stack of certificates, which fails for const stacks; a getter of
    configuration values; and a comparison of strings. *)
Definition push_X509 : cmacro := default (Macro "" [] (Par "")) (stack_macros stack_X509 !! 10%nat).
Definition num_X509 : cmacro := default (Macro "" [] (Par "")) (stack_macros stack_X509 !! 0%nat).

Lemma containers_type_safe_witness :
  macro_name push_X509 = "sk_X509_push" ∧
  (∀ (O : ArgumentOrder) (s : list nat),
     eval_macro (λ _, 0%nat) (λ _ vs s, Ret (length s, vs ++ s)%list) inline push_X509 [mret 1; mret 5]%nat s = Ret (length s, 1 :: 5 :: s)%nat) ∧
  (let next : M (list nat) nat := λ s, Ret (length s, 0%nat :: s) in
   eval_macro (O := right_to_left) (λ _, 0%nat) (λ _ vs s, Ret (0%nat, vs)) inline push_X509 [next; next] [] = Ret (0, [1; 0])%nat) ∧
  "X509" = "X509" ∧ macro_type signature push_X509 [Ptr (STACK_OF "X509_CRL"); Null] = None ∧
  function_pointer (fun_prototype (IMPLEMENT_LHASH_COMP_FN "entry" (Struct "entry"))) = Some OPENSSL_LH_COMPFUNC.
Proof.
  destruct containers_type_safe as (Hsame & _ & Honly & _ & Hwrap & _).
  assert (stack_X509 ∈ stacks) as HT by (apply list_elem_of_In; unfold stacks; cbn; tauto).
  assert (num_X509 ∈ stack_macros stack_X509) as Hm by (left).
  split_and!.
  - vm_compute. reflexivity.
  - intros O s. destruct (Forall2_lookup_l _ _ _ 10 push_X509 (Hsame _ HT) eq_refl) as (op & Hop & _ & H).
    injection Hop as <-. destruct H as (_ & _ & _ & _ & H).
    rewrite (proj1 (H O _ _ (λ _, 0%nat) (λ _ vs s, Ret (length s, vs ++ s)%list) [mret 1; mret 5]%nat s eq_refl)).
    unfold mbind, M_bind. rewrite (eval_arguments_values [1; 5]%nat). reflexivity.
  - vm_compute. reflexivity.
  - exact (proj1 (Honly stack_X509 num_X509 true "X509" [] Int HT Hm ltac:(vm_compute; reflexivity))).
  - vm_compute. reflexivity.
  - refine (proj2 (proj1 (proj2 (Hwrap (λ _, Some (Int, [Ptr (Const (Struct "entry")); Ptr (Const (Struct "entry"))]))
      "entry" (Struct "entry") Int eq_refl eq_refl)) eq_refl)).
Defined.
