(* ===== verification/Asn1Macros.v ===== *)
(** * The function-generating macros of ASN.1: [openssl/asn1.h], [openssl/asn1t.h]

    A macro that declares or implements functions is the list of them, for the
    names that it is given; a name that is a type, too, is one with [TypeName].
    Macros that check an argument's type are macros of expressions. *)

From S2P Require Import Prelude TypedMacros SafeStack.
From stdpp Require Import strings.
Local Open Scope string_scope.
Local Open Scope list_scope.

(** ** Builds *)

(** The macros that select what a build has, such as OPENSSL_NO_STDIO: those that
    are defined. *)
Definition build : Type := string → bool.
Definition ifndef {A} (defined : bool) (l : list A) : list A := if defined then [] else l.

(** ** Declarations and functions *)

Record fsig : Type := Signature {
  sig_name : string;
  sig_ret : ctype;
  sig_params : list (string * ctype);
}.
Definition sig_prototype (s : fsig) : prototype := (sig_ret s, snd <$> sig_params s).
Definition Implement (s : fsig) (body : expr) : cfun := CFun (sig_name s) (sig_ret s) (sig_params s) body.

(** [decl_attr] is what stands before the declaration: [extern], or what marks it
    as deprecated. *)
Record declaration : Type := Decl {
  decl_attr : string;
  decl_sig : fsig;
}.

(** ** The macros that declare *)

Definition DECLARE_ASN1_ALLOC_FUNCTIONS_name_attr (attr type name : string) : list declaration :=
  [Decl attr (Signature (name +:+ "_new") (Ptr (TypeName type)) []);
   Decl attr (Signature (name +:+ "_free") Void [("a", Ptr (TypeName type))])].
Definition DECLARE_ASN1_ENCODE_FUNCTIONS_only_attr (attr type name : string) : list declaration :=
  [Decl attr (Signature ("d2i_" +:+ name) (Ptr (TypeName type)) [("a", Ptr (Ptr (TypeName type)));
      ("in", Ptr (Ptr (Const UChar))); ("len", Long)]);
   Decl attr (Signature ("i2d_" +:+ name) Int [("a", Ptr (Const (TypeName type))); ("out", Ptr (Ptr UChar))])].
Definition DECLARE_ASN1_ITEM_attr (attr name : string) : list declaration :=
  [Decl attr (Signature (name +:+ "_it") (Ptr (Const (TypeName "ASN1_ITEM"))) [])].
Definition DECLARE_ASN1_ENCODE_FUNCTIONS_attr (attr type itname name : string) : list declaration :=
  DECLARE_ASN1_ENCODE_FUNCTIONS_only_attr attr type name ++ DECLARE_ASN1_ITEM_attr attr itname.
Definition DECLARE_ASN1_ENCODE_FUNCTIONS_name_attr (attr type name : string) : list declaration :=
  DECLARE_ASN1_ENCODE_FUNCTIONS_attr attr type name name.
Definition DECLARE_ASN1_FUNCTIONS_name_attr (attr type name : string) : list declaration :=
  DECLARE_ASN1_ALLOC_FUNCTIONS_name_attr attr type name ++ DECLARE_ASN1_ENCODE_FUNCTIONS_name_attr attr type name.
Definition DECLARE_ASN1_FUNCTIONS_attr (attr type : string) : list declaration :=
  DECLARE_ASN1_FUNCTIONS_name_attr attr type type.
Definition DECLARE_ASN1_FUNCTIONS (type : string) : list declaration := DECLARE_ASN1_FUNCTIONS_attr "extern" type.
Definition DECLARE_ASN1_ALLOC_FUNCTIONS_attr (attr type : string) : list declaration :=
  DECLARE_ASN1_ALLOC_FUNCTIONS_name_attr attr type type.
Definition DECLARE_ASN1_ALLOC_FUNCTIONS (type : string) : list declaration :=
  DECLARE_ASN1_ALLOC_FUNCTIONS_attr "extern" type.
Definition DECLARE_ASN1_FUNCTIONS_name (type name : string) : list declaration :=
  DECLARE_ASN1_FUNCTIONS_name_attr "extern" type name.
Definition DECLARE_ASN1_ENCODE_FUNCTIONS (type itname name : string) : list declaration :=
  DECLARE_ASN1_ENCODE_FUNCTIONS_attr "extern" type itname name.
Definition DECLARE_ASN1_ENCODE_FUNCTIONS_name (type name : string) : list declaration :=
  DECLARE_ASN1_ENCODE_FUNCTIONS_name_attr "extern" type name.
Definition DECLARE_ASN1_ENCODE_FUNCTIONS_only (type name : string) : list declaration :=
  DECLARE_ASN1_ENCODE_FUNCTIONS_only_attr "extern" type name.
Definition DECLARE_ASN1_NDEF_FUNCTION_attr (attr name : string) : list declaration :=
  [Decl attr (Signature ("i2d_" +:+ name +:+ "_NDEF") Int [("a", Ptr (Const (TypeName name)));
      ("out", Ptr (Ptr UChar))])].
Definition DECLARE_ASN1_NDEF_FUNCTION (name : string) : list declaration :=
  DECLARE_ASN1_NDEF_FUNCTION_attr "extern" name.
Definition DECLARE_ASN1_ALLOC_FUNCTIONS_name (type name : string) : list declaration :=
  DECLARE_ASN1_ALLOC_FUNCTIONS_name_attr "extern" type name.
Definition DECLARE_ASN1_DUP_FUNCTION_name_attr (attr type name : string) : list declaration :=
  [Decl attr (Signature (name +:+ "_dup") (Ptr (TypeName type)) [("a", Ptr (Const (TypeName type)))])].
Definition DECLARE_ASN1_DUP_FUNCTION_attr (attr type : string) : list declaration :=
  DECLARE_ASN1_DUP_FUNCTION_name_attr attr type type.
Definition DECLARE_ASN1_DUP_FUNCTION (type : string) : list declaration :=
  DECLARE_ASN1_DUP_FUNCTION_attr "extern" type.
Definition DECLARE_ASN1_DUP_FUNCTION_name (type name : string) : list declaration :=
  DECLARE_ASN1_DUP_FUNCTION_name_attr "extern" type name.
Definition DECLARE_ASN1_PRINT_FUNCTION_fname_attr (attr stname fname : string) : list declaration :=
  [Decl attr (Signature (fname +:+ "_print_ctx") Int [("out", Ptr (TypeName "BIO"));
      ("x", Ptr (Const (TypeName stname))); ("indent", Int); ("pctx", Ptr (Const (TypeName "ASN1_PCTX")))])].
Definition DECLARE_ASN1_PRINT_FUNCTION_attr (attr stname : string) : list declaration :=
  DECLARE_ASN1_PRINT_FUNCTION_fname_attr attr stname stname.
Definition DECLARE_ASN1_PRINT_FUNCTION (stname : string) : list declaration :=
  DECLARE_ASN1_PRINT_FUNCTION_attr "extern" stname.
Definition DECLARE_ASN1_PRINT_FUNCTION_fname (stname fname : string) : list declaration :=
  DECLARE_ASN1_PRINT_FUNCTION_fname_attr "extern" stname fname.
Definition DECLARE_ASN1_ITEM (name : string) : list declaration := DECLARE_ASN1_ITEM_attr "extern" name.
Definition DECLARE_ASN1_FUNCTIONS_fname (type itname name : string) : list declaration :=
  DECLARE_ASN1_ALLOC_FUNCTIONS_name type name ++ DECLARE_ASN1_ENCODE_FUNCTIONS type itname name.
Definition DECLARE_ASN1_FUNCTIONS_const (type : string) : list declaration := DECLARE_ASN1_FUNCTIONS type.

(** ** The types of functions *)

Definition D2I_OF (type : ctype) : ctype :=
  Ptr (Fun3 (Ptr type) (Ptr (Ptr type)) (Ptr (Ptr (Const UChar))) Long).
Definition I2D_OF (type : ctype) : ctype := Ptr (Fun2 Int (Ptr (Const type)) (Ptr (Ptr UChar))).
Definition d2i_of_void : ctype := Fun3 (Ptr Void) (Ptr (Ptr Void)) (Ptr (Ptr (Const UChar))) Long.
Definition i2d_of_void : ctype := Fun2 Int (Ptr (Const Void)) (Ptr (Ptr UChar)).
Definition new_of_void : ctype := Ptr (Fun0 (Ptr Void)).

(** ** The macros that check a type *)

Definition checked (to type : ctype) (e : expr) : expr := Cast to (Cond e (Cast type (Lit (CInt 0)))).
Definition CHECKED_D2I_OF (type : ctype) (d2i : expr) : expr := checked (Ptr d2i_of_void) (D2I_OF type) d2i.
Definition CHECKED_I2D_OF (type : ctype) (i2d : expr) : expr := checked (Ptr i2d_of_void) (I2D_OF type) i2d.
Definition CHECKED_NEW_OF (type : ctype) (xnew : expr) : expr := checked new_of_void (Ptr (Fun0 (Ptr type))) xnew.
Definition CHECKED_PTR_OF (type : ctype) (p : expr) : expr := checked (Ptr Void) (Ptr type) p.
Definition CHECKED_PPTR_OF (type : ctype) (p : expr) : expr := checked (Ptr (Ptr Void)) (Ptr (Ptr type)) p.

Definition ASN1_ITEM_rptr (ref : string) : expr := Call (ref +:+ "_it") [].

Definition ASN1_dup_of (type : ctype) : cmacro := Macro "ASN1_dup_of" ["i2d"; "d2i"; "x"]
  (Cast (Ptr type) (Call "ASN1_dup" [CHECKED_I2D_OF type (Par "i2d"); CHECKED_D2I_OF type (Par "d2i");
    CHECKED_PTR_OF (Const type) (Par "x")])).
Definition M_ASN1_new_of (type : string) : cmacro := Macro "M_ASN1_new_of" []
  (Cast (Ptr (TypeName type)) (Call "ASN1_item_new" [ASN1_ITEM_rptr type])).
Definition M_ASN1_free_of (type : string) : cmacro := Macro "M_ASN1_free_of" ["x"]
  (Call "ASN1_item_free" [CHECKED_PTR_OF (TypeName type) (Par "x"); ASN1_ITEM_rptr type]).
(** The macros on a [FILE] are not defined in every build. *)
Definition ASN1_d2i_fp_of (b : build) (type : ctype) : option cmacro :=
  if b "OPENSSL_NO_STDIO" then None else Some (Macro "ASN1_d2i_fp_of" ["xnew"; "d2i"; "in"; "x"]
  (Cast (Ptr type) (Call "ASN1_d2i_fp" [CHECKED_NEW_OF type (Par "xnew"); CHECKED_D2I_OF type (Par "d2i"); Par "in";
    CHECKED_PPTR_OF type (Par "x")]))).
Definition ASN1_i2d_fp_of (b : build) (type : ctype) : option cmacro :=
  if b "OPENSSL_NO_STDIO" then None else Some (Macro "ASN1_i2d_fp_of" ["i2d"; "out"; "x"]
  (Call "ASN1_i2d_fp" [CHECKED_I2D_OF type (Par "i2d"); Par "out"; CHECKED_PTR_OF (Const type) (Par "x")])).
Definition ASN1_d2i_bio_of (type : ctype) : cmacro := Macro "ASN1_d2i_bio_of" ["xnew"; "d2i"; "in"; "x"]
  (Cast (Ptr type) (Call "ASN1_d2i_bio" [CHECKED_NEW_OF type (Par "xnew"); CHECKED_D2I_OF type (Par "d2i"); Par "in";
    CHECKED_PPTR_OF type (Par "x")])).
Definition ASN1_i2d_bio_of (type : ctype) : cmacro := Macro "ASN1_i2d_bio_of" ["i2d"; "out"; "x"]
  (Call "ASN1_i2d_bio" [CHECKED_I2D_OF type (Par "i2d"); Par "out"; CHECKED_PTR_OF (Const type) (Par "x")]).

(** ** The macros that implement *)

Definition IMPLEMENT_ASN1_ALLOC_FUNCTIONS_fname (stname itname fname : string) : list cfun := [
  CFun (fname +:+ "_new") (Ptr (TypeName stname)) []
    (Cast (Ptr (TypeName stname)) (Call "ASN1_item_new" [ASN1_ITEM_rptr itname]));
  CFun (fname +:+ "_free") Void [("a", Ptr (TypeName stname))]
    (Call "ASN1_item_free" [Cast (Ptr (TypeName "ASN1_VALUE")) (Par "a"); ASN1_ITEM_rptr itname])].
(** A function with what stands before it: [pre] is a storage class. *)
Definition IMPLEMENT_ASN1_ALLOC_FUNCTIONS_pfname (pre stname itname fname : string) : list (string * cfun) := [
  (pre, CFun (fname +:+ "_new") (Ptr (TypeName stname)) []
    (Cast (Ptr (TypeName stname)) (Call "ASN1_item_new" [ASN1_ITEM_rptr itname])));
  (pre, CFun (fname +:+ "_free") Void [("a", Ptr (TypeName stname))]
    (Call "ASN1_item_free" [Cast (Ptr (TypeName "ASN1_VALUE")) (Par "a"); ASN1_ITEM_rptr itname]))].
Definition IMPLEMENT_ASN1_ENCODE_FUNCTIONS_fname (stname itname fname : string) : list cfun := [
  CFun ("d2i_" +:+ fname) (Ptr (TypeName stname))
    [("a", Ptr (Ptr (TypeName stname))); ("in", Ptr (Ptr (Const UChar))); ("len", Long)]
    (Cast (Ptr (TypeName stname)) (Call "ASN1_item_d2i"
      [Cast (Ptr (Ptr (TypeName "ASN1_VALUE"))) (Par "a"); Par "in"; Par "len"; ASN1_ITEM_rptr itname]));
  CFun ("i2d_" +:+ fname) Int [("a", Ptr (Const (TypeName stname))); ("out", Ptr (Ptr UChar))]
    (Call "ASN1_item_i2d" [Cast (Ptr (Const (TypeName "ASN1_VALUE"))) (Par "a"); Par "out"; ASN1_ITEM_rptr itname])].
Definition IMPLEMENT_ASN1_FUNCTIONS_fname (stname itname fname : string) : list cfun :=
  IMPLEMENT_ASN1_ENCODE_FUNCTIONS_fname stname itname fname ++
  IMPLEMENT_ASN1_ALLOC_FUNCTIONS_fname stname itname fname.
Definition IMPLEMENT_ASN1_FUNCTIONS (stname : string) : list cfun :=
  IMPLEMENT_ASN1_FUNCTIONS_fname stname stname stname.
Definition IMPLEMENT_ASN1_FUNCTIONS_name (stname itname : string) : list cfun :=
  IMPLEMENT_ASN1_FUNCTIONS_fname stname itname itname.
Definition IMPLEMENT_STATIC_ASN1_ALLOC_FUNCTIONS (stname : string) : list (string * cfun) :=
  IMPLEMENT_ASN1_ALLOC_FUNCTIONS_pfname "static" stname stname stname.
Definition IMPLEMENT_ASN1_ALLOC_FUNCTIONS (stname : string) : list cfun :=
  IMPLEMENT_ASN1_ALLOC_FUNCTIONS_fname stname stname stname.
Definition IMPLEMENT_ASN1_NDEF_FUNCTION (stname : string) : list cfun := [
  CFun ("i2d_" +:+ stname +:+ "_NDEF") Int [("a", Ptr (Const (TypeName stname))); ("out", Ptr (Ptr UChar))]
    (Call "ASN1_item_ndef_i2d"
      [Cast (Ptr (Const (TypeName "ASN1_VALUE"))) (Par "a"); Par "out"; ASN1_ITEM_rptr stname])].
Definition IMPLEMENT_STATIC_ASN1_ENCODE_FUNCTIONS (stname : string) : list (string * cfun) := [
  ("static", CFun ("d2i_" +:+ stname) (Ptr (TypeName stname))
    [("a", Ptr (Ptr (TypeName stname))); ("in", Ptr (Ptr (Const UChar))); ("len", Long)]
    (Cast (Ptr (TypeName stname)) (Call "ASN1_item_d2i"
      [Cast (Ptr (Ptr (TypeName "ASN1_VALUE"))) (Par "a"); Par "in"; Par "len"; ASN1_ITEM_rptr stname])));
  ("static", CFun ("i2d_" +:+ stname) Int [("a", Ptr (Const (TypeName stname))); ("out", Ptr (Ptr UChar))]
    (Call "ASN1_item_i2d" [Cast (Ptr (Const (TypeName "ASN1_VALUE"))) (Par "a"); Par "out"; ASN1_ITEM_rptr stname]))].
Definition IMPLEMENT_ASN1_DUP_FUNCTION (stname : string) : list cfun := [
  CFun (stname +:+ "_dup") (Ptr (TypeName stname)) [("x", Ptr (Const (TypeName stname)))]
    (Call "ASN1_item_dup" [ASN1_ITEM_rptr stname; Par "x"])].
Definition IMPLEMENT_ASN1_PRINT_FUNCTION_fname (stname itname fname : string) : list cfun := [
  CFun (fname +:+ "_print_ctx") Int
    [("out", Ptr (TypeName "BIO")); ("x", Ptr (Const (TypeName stname))); ("indent", Int);
     ("pctx", Ptr (Const (TypeName "ASN1_PCTX")))]
    (Call "ASN1_item_print" [Par "out"; Cast (Ptr (Const (TypeName "ASN1_VALUE"))) (Par "x"); Par "indent";
      ASN1_ITEM_rptr itname; Par "pctx"])].
Definition IMPLEMENT_ASN1_PRINT_FUNCTION (stname : string) : list cfun :=
  IMPLEMENT_ASN1_PRINT_FUNCTION_fname stname stname stname.

(** ** The functions of the library that they call *)

Definition ASN1_dup_prototype : prototype := (Ptr Void, [Ptr i2d_of_void; Ptr d2i_of_void; Ptr (Const Void)]).
Definition ASN1_item_dup_prototype : prototype := (Ptr Void, [Ptr (Const (TypeName "ASN1_ITEM")); Ptr (Const Void)]).
Definition ASN1_d2i_fp_prototype : prototype :=
  (Ptr Void, [new_of_void; Ptr d2i_of_void; Ptr (TypeName "FILE"); Ptr (Ptr Void)]).
Definition ASN1_i2d_fp_prototype : prototype := (Int, [Ptr i2d_of_void; Ptr (TypeName "FILE"); Ptr (Const Void)]).
Definition ASN1_d2i_bio_prototype : prototype :=
  (Ptr Void, [new_of_void; Ptr d2i_of_void; Ptr (TypeName "BIO"); Ptr (Ptr Void)]).
Definition ASN1_i2d_bio_prototype : prototype := (Int, [Ptr i2d_of_void; Ptr (TypeName "BIO"); Ptr (Const Void)]).
Definition ASN1_item_new_prototypes : list (string * prototype) := [
  ("ASN1_item_new", (Ptr (TypeName "ASN1_VALUE"), [Ptr (Const (TypeName "ASN1_ITEM"))]));
  ("ASN1_item_new_ex", (Ptr (TypeName "ASN1_VALUE"),
     [Ptr (Const (TypeName "ASN1_ITEM")); Ptr (TypeName "OSSL_LIB_CTX"); Ptr (Const Char)]));
  ("ASN1_item_free", (Void, [Ptr (TypeName "ASN1_VALUE"); Ptr (Const (TypeName "ASN1_ITEM"))]))].
Definition ASN1_item_prototypes : list (string * prototype) := [
  ("ASN1_item_d2i", (Ptr (TypeName "ASN1_VALUE"),
     [Ptr (Ptr (TypeName "ASN1_VALUE")); Ptr (Ptr (Const UChar)); Long; Ptr (Const (TypeName "ASN1_ITEM"))]));
  ("ASN1_item_i2d", (Int, [Ptr (Const (TypeName "ASN1_VALUE")); Ptr (Ptr UChar); Ptr (Const (TypeName "ASN1_ITEM"))]));
  ("ASN1_item_ndef_i2d",
     (Int, [Ptr (Const (TypeName "ASN1_VALUE")); Ptr (Ptr UChar); Ptr (Const (TypeName "ASN1_ITEM"))]))].
Definition ASN1_item_print_prototype : prototype :=
  (Int, [Ptr (TypeName "BIO"); Ptr (Const (TypeName "ASN1_VALUE")); Int; Ptr (Const (TypeName "ASN1_ITEM"));
         Ptr (Const (TypeName "ASN1_PCTX"))]).
Definition ASN1_prototypes (b : build) : list (string * prototype) :=
  [("ASN1_dup", ASN1_dup_prototype); ("ASN1_item_dup", ASN1_item_dup_prototype);
   ("ASN1_d2i_bio", ASN1_d2i_bio_prototype); ("ASN1_i2d_bio", ASN1_i2d_bio_prototype);
   ("ASN1_item_print", ASN1_item_print_prototype)] ++ ASN1_item_new_prototypes ++ ASN1_item_prototypes ++
  ifndef (b "OPENSSL_NO_STDIO") [("ASN1_d2i_fp", ASN1_d2i_fp_prototype); ("ASN1_i2d_fp", ASN1_i2d_fp_prototype)].
