(* ===== verification/PemMacros.v ===== *)
(** * The function-generating macros of PEM: [openssl/pem.h]

    [IMPLEMENT_PEM_rw] and its kind implement the functions that read and write
    objects of a type in the PEM format, [DECLARE_PEM_rw] and its kind declare
    them; a macro is the list of its functions. In a build with OPENSSL_NO_STDIO
    there are none that work on a [FILE]; in one with OPENSSL_NO_DEPRECATED_3_0
    the macros for constant objects, which are deprecated, are not defined: they
    are [None]. *)

From S2P Require Import Prelude TypedMacros SafeStack Asn1Macros.
From stdpp Require Import strings.
Local Open Scope string_scope.
Local Open Scope list_scope.

Definition pem_password_cb : ctype := Fun4 Int (Ptr Char) Int Int (Ptr Void).

(** The names that begin an object. *)
Definition PEM_strings : list (string * string) := [
  ("PEM_STRING_X509_OLD", "X509 CERTIFICATE");
  ("PEM_STRING_X509", "CERTIFICATE");
  ("PEM_STRING_X509_TRUSTED", "TRUSTED CERTIFICATE");
  ("PEM_STRING_X509_REQ_OLD", "NEW CERTIFICATE REQUEST");
  ("PEM_STRING_X509_REQ", "CERTIFICATE REQUEST");
  ("PEM_STRING_X509_CRL", "X509 CRL");
  ("PEM_STRING_EVP_PKEY", "ANY PRIVATE KEY");
  ("PEM_STRING_PUBLIC", "PUBLIC KEY");
  ("PEM_STRING_RSA", "RSA PRIVATE KEY");
  ("PEM_STRING_RSA_PUBLIC", "RSA PUBLIC KEY");
  ("PEM_STRING_DSA", "DSA PRIVATE KEY");
  ("PEM_STRING_DSA_PUBLIC", "DSA PUBLIC KEY");
  ("PEM_STRING_PKCS7", "PKCS7");
  ("PEM_STRING_PKCS7_SIGNED", "PKCS #7 SIGNED DATA");
  ("PEM_STRING_PKCS8", "ENCRYPTED PRIVATE KEY");
  ("PEM_STRING_PKCS8INF", "PRIVATE KEY");
  ("PEM_STRING_DHPARAMS", "DH PARAMETERS");
  ("PEM_STRING_DHXPARAMS", "X9.42 DH PARAMETERS");
  ("PEM_STRING_SSL_SESSION", "SSL SESSION PARAMETERS");
  ("PEM_STRING_DSAPARAMS", "DSA PARAMETERS");
  ("PEM_STRING_ECDSA_PUBLIC", "ECDSA PUBLIC KEY");
  ("PEM_STRING_ECPARAMETERS", "EC PARAMETERS");
  ("PEM_STRING_ECPRIVATEKEY", "EC PRIVATE KEY");
  ("PEM_STRING_PARAMETERS", "PARAMETERS");
  ("PEM_STRING_CMS", "CMS")].

Section pem.
Context (b : build).
Local Abbreviation OPENSSL_NO_STDIO := (b "OPENSSL_NO_STDIO").
Local Abbreviation OPENSSL_NO_DEPRECATED_3_0 := (b "OPENSSL_NO_DEPRECATED_3_0").

(** ** Prototypes *)

Definition PEM_read_cb_fnsig (name type INTYPE readname : string) : fsig :=
  Signature ("PEM_" +:+ readname +:+ "_" +:+ name) (Ptr (TypeName type))
    [("out", Ptr (TypeName INTYPE)); ("x", Ptr (Ptr (TypeName type))); ("cb", Ptr pem_password_cb); ("u", Ptr Void)].
Definition PEM_read_cb_ex_fnsig (name type INTYPE readname : string) : fsig :=
  Signature ("PEM_" +:+ readname +:+ "_" +:+ name +:+ "_ex") (Ptr (TypeName type)) [("out", Ptr (TypeName INTYPE));
    ("x", Ptr (Ptr (TypeName type))); ("cb", Ptr pem_password_cb); ("u", Ptr Void);
    ("libctx", Ptr (TypeName "OSSL_LIB_CTX")); ("propq", Ptr (Const Char))].
Definition PEM_write_fnsig (name type OUTTYPE writename : string) : fsig :=
  Signature ("PEM_" +:+ writename +:+ "_" +:+ name) Int
    [("out", Ptr (TypeName OUTTYPE)); ("x", Ptr (Const (TypeName type)))].
Definition PEM_write_cb_fnsig (name type OUTTYPE writename : string) : fsig :=
  Signature ("PEM_" +:+ writename +:+ "_" +:+ name) Int [("out", Ptr (TypeName OUTTYPE));
    ("x", Ptr (Const (TypeName type))); ("enc", Ptr (Const (TypeName "EVP_CIPHER"))); ("kstr", Ptr (Const UChar));
    ("klen", Int); ("cb", Ptr pem_password_cb); ("u", Ptr Void)].
Definition PEM_write_ex_fnsig (name type OUTTYPE writename : string) : fsig :=
  Signature ("PEM_" +:+ writename +:+ "_" +:+ name +:+ "_ex") Int [("out", Ptr (TypeName OUTTYPE));
    ("x", Ptr (Const (TypeName type))); ("libctx", Ptr (TypeName "OSSL_LIB_CTX")); ("propq", Ptr (Const Char))].
Definition PEM_write_cb_ex_fnsig (name type OUTTYPE writename : string) : fsig :=
  Signature ("PEM_" +:+ writename +:+ "_" +:+ name +:+ "_ex") Int [("out", Ptr (TypeName OUTTYPE));
    ("x", Ptr (Const (TypeName type))); ("enc", Ptr (Const (TypeName "EVP_CIPHER"))); ("kstr", Ptr (Const UChar));
    ("klen", Int); ("cb", Ptr pem_password_cb); ("u", Ptr Void); ("libctx", Ptr (TypeName "OSSL_LIB_CTX"));
    ("propq", Ptr (Const Char))].

(** ** Functions *)

Definition IMPLEMENT_PEM_read_fp (name type str asn1 : string) : list cfun :=
  if OPENSSL_NO_STDIO then [] else
  [Implement (Signature ("PEM_read_" +:+ name) (Ptr (TypeName type)) [("fp", Ptr (TypeName "FILE"));
      ("x", Ptr (Ptr (TypeName type))); ("cb", Ptr pem_password_cb); ("u", Ptr Void)])
    (Call "PEM_ASN1_read" [Cast (Ptr d2i_of_void) (Lit (CFunction ("d2i_" +:+ asn1))); Lit (CString str); Par "fp";
      Cast (Ptr (Ptr Void)) (Par "x"); Par "cb"; Par "u"])].
Definition IMPLEMENT_PEM_write_fp (name type str asn1 : string) : list cfun :=
  if OPENSSL_NO_STDIO then [] else
  [Implement (PEM_write_fnsig name type "FILE" "write")
    (Call "PEM_ASN1_write" [Cast (Ptr i2d_of_void) (Lit (CFunction ("i2d_" +:+ asn1))); Lit (CString str); Par "out";
      Par "x"; Lit CNull; Lit CNull; Lit (CInt 0); Lit CNull; Lit CNull])].
Definition IMPLEMENT_PEM_write_fp_const (name type str asn1 : string) : option (list cfun) :=
  if OPENSSL_NO_DEPRECATED_3_0 then None else
  Some (if OPENSSL_NO_STDIO then [] else IMPLEMENT_PEM_write_fp name type str asn1).
Definition IMPLEMENT_PEM_write_cb_fp (name type str asn1 : string) : list cfun :=
  if OPENSSL_NO_STDIO then [] else
  [Implement (PEM_write_cb_fnsig name type "FILE" "write")
    (Call "PEM_ASN1_write" [Cast (Ptr i2d_of_void) (Lit (CFunction ("i2d_" +:+ asn1))); Lit (CString str); Par "out";
      Par "x"; Par "enc"; Par "kstr"; Par "klen"; Par "cb"; Par "u"])].
Definition IMPLEMENT_PEM_write_cb_fp_const (name type str asn1 : string) : option (list cfun) :=
  if OPENSSL_NO_DEPRECATED_3_0 then None else
  Some (if OPENSSL_NO_STDIO then [] else IMPLEMENT_PEM_write_cb_fp name type str asn1).
Definition IMPLEMENT_PEM_read_bio (name type str asn1 : string) : list cfun :=
  [Implement (Signature ("PEM_read_bio_" +:+ name) (Ptr (TypeName type)) [("bp", Ptr (TypeName "BIO"));
      ("x", Ptr (Ptr (TypeName type))); ("cb", Ptr pem_password_cb); ("u", Ptr Void)])
    (Call "PEM_ASN1_read_bio" [Cast (Ptr d2i_of_void) (Lit (CFunction ("d2i_" +:+ asn1))); Lit (CString str);
      Par "bp"; Cast (Ptr (Ptr Void)) (Par "x"); Par "cb"; Par "u"])].
Definition IMPLEMENT_PEM_write_bio (name type str asn1 : string) : list cfun :=
  [Implement (PEM_write_fnsig name type "BIO" "write_bio")
    (Call "PEM_ASN1_write_bio" [Cast (Ptr i2d_of_void) (Lit (CFunction ("i2d_" +:+ asn1))); Lit (CString str);
      Par "out"; Par "x"; Lit CNull; Lit CNull; Lit (CInt 0); Lit CNull; Lit CNull])].
Definition IMPLEMENT_PEM_write_bio_const (name type str asn1 : string) : option (list cfun) :=
  if OPENSSL_NO_DEPRECATED_3_0 then None else
  Some (IMPLEMENT_PEM_write_bio name type str asn1).
Definition IMPLEMENT_PEM_write_cb_bio (name type str asn1 : string) : list cfun :=
  [Implement (PEM_write_cb_fnsig name type "BIO" "write_bio")
    (Call "PEM_ASN1_write_bio" [Cast (Ptr i2d_of_void) (Lit (CFunction ("i2d_" +:+ asn1))); Lit (CString str);
      Par "out"; Par "x"; Par "enc"; Par "kstr"; Par "klen"; Par "cb"; Par "u"])].
Definition IMPLEMENT_PEM_write_cb_bio_const (name type str asn1 : string) : option (list cfun) :=
  if OPENSSL_NO_DEPRECATED_3_0 then None else
  Some (IMPLEMENT_PEM_write_cb_bio name type str asn1).
Definition IMPLEMENT_PEM_write (name type str asn1 : string) : list cfun :=
  IMPLEMENT_PEM_write_bio name type str asn1 ++ IMPLEMENT_PEM_write_fp name type str asn1.
Definition IMPLEMENT_PEM_write_const (name type str asn1 : string) : option (list cfun) :=
  if OPENSSL_NO_DEPRECATED_3_0 then None else
  bio ← IMPLEMENT_PEM_write_bio_const name type str asn1; fp ← IMPLEMENT_PEM_write_fp_const name type str asn1; Some (bio ++ fp).
Definition IMPLEMENT_PEM_write_cb (name type str asn1 : string) : list cfun :=
  IMPLEMENT_PEM_write_cb_bio name type str asn1 ++ IMPLEMENT_PEM_write_cb_fp name type str asn1.
Definition IMPLEMENT_PEM_write_cb_const (name type str asn1 : string) : option (list cfun) :=
  if OPENSSL_NO_DEPRECATED_3_0 then None else
  bio ← IMPLEMENT_PEM_write_cb_bio_const name type str asn1; fp ← IMPLEMENT_PEM_write_cb_fp_const name type str asn1; Some (bio ++ fp).
Definition IMPLEMENT_PEM_read (name type str asn1 : string) : list cfun :=
  IMPLEMENT_PEM_read_bio name type str asn1 ++ IMPLEMENT_PEM_read_fp name type str asn1.
Definition IMPLEMENT_PEM_rw (name type str asn1 : string) : list cfun :=
  IMPLEMENT_PEM_read name type str asn1 ++ IMPLEMENT_PEM_write name type str asn1.
Definition IMPLEMENT_PEM_rw_const (name type str asn1 : string) : option (list cfun) :=
  if OPENSSL_NO_DEPRECATED_3_0 then None else
  write ← IMPLEMENT_PEM_write_const name type str asn1; Some (IMPLEMENT_PEM_read name type str asn1 ++ write).
Definition IMPLEMENT_PEM_rw_cb (name type str asn1 : string) : list cfun :=
  IMPLEMENT_PEM_read name type str asn1 ++ IMPLEMENT_PEM_write_cb name type str asn1.

(** ** Declarations *)

Definition DECLARE_PEM_read_fp_attr (attr name type : string) : list declaration :=
  if OPENSSL_NO_STDIO then [] else [Decl attr (PEM_read_cb_fnsig name type "FILE" "read")].
Definition DECLARE_PEM_read_fp_ex_attr (attr name type : string) : list declaration :=
  if OPENSSL_NO_STDIO then [] else
  [Decl attr (PEM_read_cb_fnsig name type "FILE" "read");
   Decl attr (PEM_read_cb_ex_fnsig name type "FILE" "read")].
Definition DECLARE_PEM_write_fp_attr (attr name type : string) : list declaration :=
  if OPENSSL_NO_STDIO then [] else [Decl attr (PEM_write_fnsig name type "FILE" "write")].
Definition DECLARE_PEM_write_fp_ex_attr (attr name type : string) : list declaration :=
  if OPENSSL_NO_STDIO then [] else
  [Decl attr (PEM_write_fnsig name type "FILE" "write");
   Decl attr (PEM_write_ex_fnsig name type "FILE" "write")].
Definition DECLARE_PEM_write_fp_const_attr (attr name type : string) : option (list declaration) :=
  if OPENSSL_NO_DEPRECATED_3_0 then None else
  Some (if OPENSSL_NO_STDIO then [] else [Decl attr (PEM_write_fnsig name type "FILE" "write")]).
Definition DECLARE_PEM_write_cb_fp_attr (attr name type : string) : list declaration :=
  if OPENSSL_NO_STDIO then [] else [Decl attr (PEM_write_cb_fnsig name type "FILE" "write")].
Definition DECLARE_PEM_write_cb_fp_ex_attr (attr name type : string) : list declaration :=
  if OPENSSL_NO_STDIO then [] else
  [Decl attr (PEM_write_cb_fnsig name type "FILE" "write");
   Decl attr (PEM_write_cb_ex_fnsig name type "FILE" "write")].
Definition DECLARE_PEM_read_fp (name type : string) : list declaration := DECLARE_PEM_read_fp_attr "extern" name type.
Definition DECLARE_PEM_write_fp (name type : string) : list declaration :=
  DECLARE_PEM_write_fp_attr "extern" name type.
Definition DECLARE_PEM_write_fp_const (name type : string) : option (list declaration) :=
  if OPENSSL_NO_DEPRECATED_3_0 then None else
  DECLARE_PEM_write_fp_const_attr "extern" name type.
Definition DECLARE_PEM_write_cb_fp (name type : string) : list declaration :=
  DECLARE_PEM_write_cb_fp_attr "extern" name type.
Definition DECLARE_PEM_read_bio_attr (attr name type : string) : list declaration :=
  [Decl attr (PEM_read_cb_fnsig name type "BIO" "read_bio")].
Definition DECLARE_PEM_read_bio_ex_attr (attr name type : string) : list declaration :=
  [Decl attr (PEM_read_cb_fnsig name type "BIO" "read_bio");
   Decl attr (PEM_read_cb_ex_fnsig name type "BIO" "read_bio")].
Definition DECLARE_PEM_read_bio (name type : string) : list declaration :=
  DECLARE_PEM_read_bio_attr "extern" name type.
Definition DECLARE_PEM_read_bio_ex (name type : string) : list declaration :=
  DECLARE_PEM_read_bio_ex_attr "extern" name type.
Definition DECLARE_PEM_write_bio_attr (attr name type : string) : list declaration :=
  [Decl attr (PEM_write_fnsig name type "BIO" "write_bio")].
Definition DECLARE_PEM_write_bio_ex_attr (attr name type : string) : list declaration :=
  [Decl attr (PEM_write_fnsig name type "BIO" "write_bio");
   Decl attr (PEM_write_ex_fnsig name type "BIO" "write_bio")].
Definition DECLARE_PEM_write_bio (name type : string) : list declaration :=
  DECLARE_PEM_write_bio_attr "extern" name type.
Definition DECLARE_PEM_write_bio_ex (name type : string) : list declaration :=
  DECLARE_PEM_write_bio_ex_attr "extern" name type.
Definition DECLARE_PEM_write_bio_const_attr (attr name type : string) : option (list declaration) :=
  if OPENSSL_NO_DEPRECATED_3_0 then None else
  Some [Decl attr (PEM_write_fnsig name type "BIO" "write_bio")].
Definition DECLARE_PEM_write_bio_const (name type : string) : option (list declaration) :=
  if OPENSSL_NO_DEPRECATED_3_0 then None else
  DECLARE_PEM_write_bio_const_attr "extern" name type.
Definition DECLARE_PEM_write_cb_bio_attr (attr name type : string) : list declaration :=
  [Decl attr (PEM_write_cb_fnsig name type "BIO" "write_bio")].
Definition DECLARE_PEM_write_cb_bio_ex_attr (attr name type : string) : list declaration :=
  [Decl attr (PEM_write_cb_fnsig name type "BIO" "write_bio");
   Decl attr (PEM_write_cb_ex_fnsig name type "BIO" "write_bio")].
Definition DECLARE_PEM_write_cb_bio (name type : string) : list declaration :=
  DECLARE_PEM_write_cb_bio_attr "extern" name type.
Definition DECLARE_PEM_write_cb_ex_bio (name type : string) : list declaration :=
  DECLARE_PEM_write_cb_bio_ex_attr "extern" name type.
Definition DECLARE_PEM_write_attr (attr name type : string) : list declaration :=
  DECLARE_PEM_write_bio_attr attr name type ++ DECLARE_PEM_write_fp_attr attr name type.
Definition DECLARE_PEM_write_ex_attr (attr name type : string) : list declaration :=
  DECLARE_PEM_write_bio_ex_attr attr name type ++ DECLARE_PEM_write_fp_ex_attr attr name type.
Definition DECLARE_PEM_write (name type : string) : list declaration := DECLARE_PEM_write_attr "extern" name type.
Definition DECLARE_PEM_write_ex (name type : string) : list declaration :=
  DECLARE_PEM_write_ex_attr "extern" name type.
Definition DECLARE_PEM_write_const_attr (attr name type : string) : option (list declaration) :=
  if OPENSSL_NO_DEPRECATED_3_0 then None else
  bio ← DECLARE_PEM_write_bio_const_attr attr name type; fp ← DECLARE_PEM_write_fp_const_attr attr name type;
  Some (bio ++ fp).
Definition DECLARE_PEM_write_const (name type : string) : option (list declaration) :=
  if OPENSSL_NO_DEPRECATED_3_0 then None else
  DECLARE_PEM_write_const_attr "extern" name type.
Definition DECLARE_PEM_write_cb_attr (attr name type : string) : list declaration :=
  DECLARE_PEM_write_cb_bio_attr attr name type ++ DECLARE_PEM_write_cb_fp_attr attr name type.
Definition DECLARE_PEM_write_cb_ex_attr (attr name type : string) : list declaration :=
  DECLARE_PEM_write_cb_bio_ex_attr attr name type ++ DECLARE_PEM_write_cb_fp_ex_attr attr name type.
Definition DECLARE_PEM_write_cb (name type : string) : list declaration :=
  DECLARE_PEM_write_cb_attr "extern" name type.
Definition DECLARE_PEM_write_cb_ex (name type : string) : list declaration :=
  DECLARE_PEM_write_cb_ex_attr "extern" name type.
Definition DECLARE_PEM_read_attr (attr name type : string) : list declaration :=
  DECLARE_PEM_read_bio_attr attr name type ++ DECLARE_PEM_read_fp_attr attr name type.
Definition DECLARE_PEM_read_ex_attr (attr name type : string) : list declaration :=
  DECLARE_PEM_read_bio_ex_attr attr name type ++ DECLARE_PEM_read_fp_ex_attr attr name type.
Definition DECLARE_PEM_read (name type : string) : list declaration := DECLARE_PEM_read_attr "extern" name type.
Definition DECLARE_PEM_read_ex (name type : string) : list declaration := DECLARE_PEM_read_ex_attr "extern" name type.
Definition DECLARE_PEM_rw_attr (attr name type : string) : list declaration :=
  DECLARE_PEM_read_attr attr name type ++ DECLARE_PEM_write_attr attr name type.
Definition DECLARE_PEM_rw_ex_attr (attr name type : string) : list declaration :=
  DECLARE_PEM_read_ex_attr attr name type ++ DECLARE_PEM_write_ex_attr attr name type.
Definition DECLARE_PEM_rw (name type : string) : list declaration := DECLARE_PEM_rw_attr "extern" name type.
Definition DECLARE_PEM_rw_ex (name type : string) : list declaration := DECLARE_PEM_rw_ex_attr "extern" name type.
Definition DECLARE_PEM_rw_const_attr (attr name type : string) : option (list declaration) :=
  if OPENSSL_NO_DEPRECATED_3_0 then None else
  write ← DECLARE_PEM_write_const_attr attr name type; Some (DECLARE_PEM_read_attr attr name type ++ write).
Definition DECLARE_PEM_rw_const (name type : string) : option (list declaration) :=
  if OPENSSL_NO_DEPRECATED_3_0 then None else
  DECLARE_PEM_rw_const_attr "extern" name type.
Definition DECLARE_PEM_rw_cb_attr (attr name type : string) : list declaration :=
  DECLARE_PEM_read_attr attr name type ++ DECLARE_PEM_write_cb_attr attr name type.
Definition DECLARE_PEM_rw_cb_ex_attr (attr name type : string) : list declaration :=
  DECLARE_PEM_read_ex_attr attr name type ++ DECLARE_PEM_write_cb_ex_attr attr name type.
Definition DECLARE_PEM_rw_cb (name type : string) : list declaration := DECLARE_PEM_rw_cb_attr "extern" name type.
Definition DECLARE_PEM_rw_cb_ex (name type : string) : list declaration :=
  DECLARE_PEM_rw_cb_ex_attr "extern" name type.

(** The functions of the header. *)
Definition PEM_declarations : list declaration :=
  DECLARE_PEM_rw "X509" "X509" ++
  DECLARE_PEM_rw "X509_AUX" "X509" ++
  DECLARE_PEM_rw "X509_REQ" "X509_REQ" ++
  DECLARE_PEM_write "X509_REQ_NEW" "X509_REQ" ++
  DECLARE_PEM_rw "X509_CRL" "X509_CRL" ++
  DECLARE_PEM_rw "X509_PUBKEY" "X509_PUBKEY" ++
  DECLARE_PEM_rw "PKCS7" "PKCS7" ++
  DECLARE_PEM_rw "NETSCAPE_CERT_SEQUENCE" "NETSCAPE_CERT_SEQUENCE" ++
  DECLARE_PEM_rw "PKCS8" "X509_SIG" ++
  DECLARE_PEM_rw "PKCS8_PRIV_KEY_INFO" "PKCS8_PRIV_KEY_INFO" ++
  ifndef OPENSSL_NO_DEPRECATED_3_0 (
    DECLARE_PEM_rw_cb_attr "OSSL_DEPRECATEDIN_3_0" "RSAPrivateKey" "RSA" ++
    DECLARE_PEM_rw_attr "OSSL_DEPRECATEDIN_3_0" "RSAPublicKey" "RSA" ++
    DECLARE_PEM_rw_attr "OSSL_DEPRECATEDIN_3_0" "RSA_PUBKEY" "RSA") ++
  ifndef OPENSSL_NO_DEPRECATED_3_0 (ifndef (b "OPENSSL_NO_DSA") (
    DECLARE_PEM_rw_cb_attr "OSSL_DEPRECATEDIN_3_0" "DSAPrivateKey" "DSA" ++
    DECLARE_PEM_rw_attr "OSSL_DEPRECATEDIN_3_0" "DSA_PUBKEY" "DSA" ++
    DECLARE_PEM_rw_attr "OSSL_DEPRECATEDIN_3_0" "DSAparams" "DSA")) ++
  ifndef OPENSSL_NO_DEPRECATED_3_0 (ifndef (b "OPENSSL_NO_EC") (
    DECLARE_PEM_rw_attr "OSSL_DEPRECATEDIN_3_0" "ECPKParameters" "EC_GROUP" ++
    DECLARE_PEM_rw_cb_attr "OSSL_DEPRECATEDIN_3_0" "ECPrivateKey" "EC_KEY" ++
    DECLARE_PEM_rw_attr "OSSL_DEPRECATEDIN_3_0" "EC_PUBKEY" "EC_KEY")) ++
  ifndef (b "OPENSSL_NO_DH") (ifndef OPENSSL_NO_DEPRECATED_3_0 (
    DECLARE_PEM_rw_attr "OSSL_DEPRECATEDIN_3_0" "DHparams" "DH" ++
    DECLARE_PEM_write_attr "OSSL_DEPRECATEDIN_3_0" "DHxparams" "DH")) ++
  DECLARE_PEM_rw_cb_ex "PrivateKey" "EVP_PKEY" ++
  DECLARE_PEM_rw_ex "PUBKEY" "EVP_PKEY".

(** ** The functions of the library that they call *)

Definition PEM_bio_prototypes : list (string * prototype) := [
  ("PEM_ASN1_read_bio", (Ptr Void, [Ptr d2i_of_void; Ptr (Const Char); Ptr (TypeName "BIO"); Ptr (Ptr Void);
     Ptr pem_password_cb; Ptr Void]));
  ("PEM_ASN1_write_bio", (Int, [Ptr i2d_of_void; Ptr (Const Char); Ptr (TypeName "BIO"); Ptr (Const Void);
     Ptr (Const (TypeName "EVP_CIPHER")); Ptr (Const UChar); Int; Ptr pem_password_cb; Ptr Void]))].
Definition PEM_fp_prototypes : list (string * prototype) := [
  ("PEM_ASN1_read", (Ptr Void, [Ptr d2i_of_void; Ptr (Const Char); Ptr (TypeName "FILE"); Ptr (Ptr Void);
     Ptr pem_password_cb; Ptr Void]));
  ("PEM_ASN1_write", (Int, [Ptr i2d_of_void; Ptr (Const Char); Ptr (TypeName "FILE"); Ptr (Const Void);
     Ptr (Const (TypeName "EVP_CIPHER")); Ptr (Const UChar); Int; Ptr pem_password_cb; Ptr Void]))].
Definition PEM_prototypes : list (string * prototype) :=
  PEM_bio_prototypes ++ ifndef OPENSSL_NO_STDIO PEM_fp_prototypes.
End pem.
