(* ===== verification/Asn1Declarations.v ===== *)
(** * The functions that the headers declare with the macros of ASN.1

    One list for each group of declarations of a header, which is empty in a build
    that leaves it out. *)

From S2P Require Import Prelude TypedMacros SafeStack Asn1Macros.
From stdpp Require Import strings.
Local Open Scope string_scope.
Local Open Scope list_scope.

Section declarations.
Context (b : build).

Definition asn1_declarations_1 : list declaration :=
  DECLARE_ASN1_ENCODE_FUNCTIONS_name "ASN1_SEQUENCE_ANY" "ASN1_SEQUENCE_ANY" ++
  DECLARE_ASN1_ENCODE_FUNCTIONS_name "ASN1_SEQUENCE_ANY" "ASN1_SET_ANY".
Definition asn1_declarations_2 : list declaration :=
  DECLARE_ASN1_ALLOC_FUNCTIONS_name "ASN1_TYPE" "ASN1_TYPE" ++
  DECLARE_ASN1_ENCODE_FUNCTIONS "ASN1_TYPE" "ASN1_ANY" "ASN1_TYPE".
Definition asn1_declarations_3 : list declaration :=
  DECLARE_ASN1_FUNCTIONS "ASN1_OBJECT".
Definition asn1_declarations_4 : list declaration :=
  DECLARE_ASN1_DUP_FUNCTION "ASN1_STRING".
Definition asn1_declarations_5 : list declaration :=
  DECLARE_ASN1_FUNCTIONS "ASN1_BIT_STRING".
Definition asn1_declarations_6 : list declaration :=
  DECLARE_ASN1_FUNCTIONS "ASN1_INTEGER" ++
  DECLARE_ASN1_DUP_FUNCTION "ASN1_INTEGER" ++
  DECLARE_ASN1_FUNCTIONS "ASN1_ENUMERATED".
Definition asn1_declarations_7 : list declaration :=
  DECLARE_ASN1_FUNCTIONS "ASN1_OCTET_STRING" ++
  DECLARE_ASN1_DUP_FUNCTION "ASN1_OCTET_STRING".
Definition asn1_declarations_8 : list declaration :=
  DECLARE_ASN1_FUNCTIONS "ASN1_VISIBLESTRING" ++
  DECLARE_ASN1_FUNCTIONS "ASN1_UNIVERSALSTRING" ++
  DECLARE_ASN1_FUNCTIONS "ASN1_UTF8STRING" ++
  DECLARE_ASN1_FUNCTIONS "ASN1_NULL" ++
  DECLARE_ASN1_FUNCTIONS "ASN1_BMPSTRING".
Definition asn1_declarations_9 : list declaration :=
  DECLARE_ASN1_FUNCTIONS_name "ASN1_STRING" "ASN1_PRINTABLE" ++
  DECLARE_ASN1_FUNCTIONS_name "ASN1_STRING" "DIRECTORYSTRING" ++
  DECLARE_ASN1_FUNCTIONS_name "ASN1_STRING" "DISPLAYTEXT" ++
  DECLARE_ASN1_FUNCTIONS "ASN1_PRINTABLESTRING" ++
  DECLARE_ASN1_FUNCTIONS "ASN1_T61STRING" ++
  DECLARE_ASN1_FUNCTIONS "ASN1_IA5STRING" ++
  DECLARE_ASN1_FUNCTIONS "ASN1_GENERALSTRING" ++
  DECLARE_ASN1_FUNCTIONS "ASN1_UTCTIME" ++
  DECLARE_ASN1_FUNCTIONS "ASN1_GENERALIZEDTIME" ++
  DECLARE_ASN1_FUNCTIONS "ASN1_TIME" ++
  DECLARE_ASN1_DUP_FUNCTION "ASN1_TIME" ++
  DECLARE_ASN1_DUP_FUNCTION "ASN1_UTCTIME" ++
  DECLARE_ASN1_DUP_FUNCTION "ASN1_GENERALIZEDTIME" ++
  DECLARE_ASN1_ITEM "ASN1_OCTET_STRING_NDEF".

Definition asn1t_declarations_1 : list declaration :=
  DECLARE_ASN1_ITEM "ASN1_BOOLEAN" ++
  DECLARE_ASN1_ITEM "ASN1_TBOOLEAN" ++
  DECLARE_ASN1_ITEM "ASN1_FBOOLEAN" ++
  DECLARE_ASN1_ITEM "ASN1_SEQUENCE" ++
  DECLARE_ASN1_ITEM "CBIGNUM" ++
  DECLARE_ASN1_ITEM "BIGNUM" ++
  DECLARE_ASN1_ITEM "INT32" ++
  DECLARE_ASN1_ITEM "ZINT32" ++
  DECLARE_ASN1_ITEM "UINT32" ++
  DECLARE_ASN1_ITEM "ZUINT32" ++
  DECLARE_ASN1_ITEM "INT64" ++
  DECLARE_ASN1_ITEM "ZINT64" ++
  DECLARE_ASN1_ITEM "UINT64" ++
  DECLARE_ASN1_ITEM "ZUINT64".
Definition asn1t_declarations_2 : list declaration :=
  ifndef (b "OPENSSL_NO_DEPRECATED_3_0") (DECLARE_ASN1_ITEM "LONG" ++
  DECLARE_ASN1_ITEM "ZLONG").

Definition cmp_declarations_1 : list declaration :=
  ifndef (b "OPENSSL_NO_CMP") (DECLARE_ASN1_ITEM "OSSL_CMP_PKISTATUS").
Definition cmp_declarations_2 : list declaration :=
  ifndef (b "OPENSSL_NO_CMP") (DECLARE_ASN1_FUNCTIONS "OSSL_CMP_PKIHEADER" ++
  DECLARE_ASN1_DUP_FUNCTION "OSSL_CMP_MSG" ++
  DECLARE_ASN1_ENCODE_FUNCTIONS "OSSL_CMP_MSG" "OSSL_CMP_MSG" "OSSL_CMP_MSG").
Definition cmp_declarations_3 : list declaration :=
  ifndef (b "OPENSSL_NO_CMP") (DECLARE_ASN1_DUP_FUNCTION "OSSL_CMP_ITAV").
Definition cmp_declarations_4 : list declaration :=
  ifndef (b "OPENSSL_NO_CMP") (DECLARE_ASN1_FUNCTIONS "OSSL_CMP_PKISI" ++
  DECLARE_ASN1_DUP_FUNCTION "OSSL_CMP_PKISI").

Definition cms_declarations : list declaration :=
  ifndef (b "OPENSSL_NO_CMS") (DECLARE_ASN1_FUNCTIONS "CMS_ContentInfo" ++
  DECLARE_ASN1_FUNCTIONS "CMS_ReceiptRequest" ++
  DECLARE_ASN1_PRINT_FUNCTION "CMS_ContentInfo").

Definition crmf_declarations_1 : list declaration :=
  ifndef (b "OPENSSL_NO_CRMF") (DECLARE_ASN1_FUNCTIONS "OSSL_CRMF_ENCRYPTEDVALUE" ++
  DECLARE_ASN1_FUNCTIONS "OSSL_CRMF_MSG" ++
  DECLARE_ASN1_DUP_FUNCTION "OSSL_CRMF_MSG").
Definition crmf_declarations_2 : list declaration :=
  ifndef (b "OPENSSL_NO_CRMF") (DECLARE_ASN1_FUNCTIONS "OSSL_CRMF_PBMPARAMETER").
Definition crmf_declarations_3 : list declaration :=
  ifndef (b "OPENSSL_NO_CRMF") (DECLARE_ASN1_FUNCTIONS "OSSL_CRMF_CERTID" ++
  DECLARE_ASN1_DUP_FUNCTION "OSSL_CRMF_CERTID").
Definition crmf_declarations_4 : list declaration :=
  ifndef (b "OPENSSL_NO_CRMF") (DECLARE_ASN1_FUNCTIONS "OSSL_CRMF_PKIPUBLICATIONINFO" ++
  DECLARE_ASN1_FUNCTIONS "OSSL_CRMF_SINGLEPUBINFO" ++
  DECLARE_ASN1_FUNCTIONS "OSSL_CRMF_CERTTEMPLATE" ++
  DECLARE_ASN1_FUNCTIONS "OSSL_CRMF_MSGS").

Definition ess_declarations : list declaration :=
  DECLARE_ASN1_ALLOC_FUNCTIONS "ESS_ISSUER_SERIAL" ++
  DECLARE_ASN1_ENCODE_FUNCTIONS_only "ESS_ISSUER_SERIAL" "ESS_ISSUER_SERIAL" ++
  DECLARE_ASN1_DUP_FUNCTION "ESS_ISSUER_SERIAL" ++
  DECLARE_ASN1_ALLOC_FUNCTIONS "ESS_CERT_ID" ++
  DECLARE_ASN1_ENCODE_FUNCTIONS_only "ESS_CERT_ID" "ESS_CERT_ID" ++
  DECLARE_ASN1_DUP_FUNCTION "ESS_CERT_ID" ++
  DECLARE_ASN1_FUNCTIONS "ESS_SIGNING_CERT" ++
  DECLARE_ASN1_DUP_FUNCTION "ESS_SIGNING_CERT" ++
  DECLARE_ASN1_ALLOC_FUNCTIONS "ESS_CERT_ID_V2" ++
  DECLARE_ASN1_ENCODE_FUNCTIONS_only "ESS_CERT_ID_V2" "ESS_CERT_ID_V2" ++
  DECLARE_ASN1_DUP_FUNCTION "ESS_CERT_ID_V2" ++
  DECLARE_ASN1_FUNCTIONS "ESS_SIGNING_CERT_V2" ++
  DECLARE_ASN1_DUP_FUNCTION "ESS_SIGNING_CERT_V2".

Definition ocsp_declarations_1 : list declaration :=
  ifndef (b "OPENSSL_NO_OCSP") (DECLARE_ASN1_DUP_FUNCTION "OCSP_CERTID").
Definition ocsp_declarations_2 : list declaration :=
  ifndef (b "OPENSSL_NO_OCSP") (DECLARE_ASN1_FUNCTIONS "OCSP_SINGLERESP" ++
  DECLARE_ASN1_FUNCTIONS "OCSP_CERTSTATUS" ++
  DECLARE_ASN1_FUNCTIONS "OCSP_REVOKEDINFO" ++
  DECLARE_ASN1_FUNCTIONS "OCSP_BASICRESP" ++
  DECLARE_ASN1_FUNCTIONS "OCSP_RESPDATA" ++
  DECLARE_ASN1_FUNCTIONS "OCSP_RESPID" ++
  DECLARE_ASN1_FUNCTIONS "OCSP_RESPONSE" ++
  DECLARE_ASN1_FUNCTIONS "OCSP_RESPBYTES" ++
  DECLARE_ASN1_FUNCTIONS "OCSP_ONEREQ" ++
  DECLARE_ASN1_FUNCTIONS "OCSP_CERTID" ++
  DECLARE_ASN1_FUNCTIONS "OCSP_REQUEST" ++
  DECLARE_ASN1_FUNCTIONS "OCSP_SIGNATURE" ++
  DECLARE_ASN1_FUNCTIONS "OCSP_REQINFO" ++
  DECLARE_ASN1_FUNCTIONS "OCSP_CRLID" ++
  DECLARE_ASN1_FUNCTIONS "OCSP_SERVICELOC").

Definition pkcs12_declarations : list declaration :=
  DECLARE_ASN1_FUNCTIONS "PKCS12" ++
  DECLARE_ASN1_FUNCTIONS "PKCS12_MAC_DATA" ++
  DECLARE_ASN1_FUNCTIONS "PKCS12_SAFEBAG" ++
  DECLARE_ASN1_FUNCTIONS "PKCS12_BAGS" ++
  DECLARE_ASN1_ITEM "PKCS12_SAFEBAGS" ++
  DECLARE_ASN1_ITEM "PKCS12_AUTHSAFES".

Definition pkcs7_declarations_1 : list declaration :=
  DECLARE_ASN1_FUNCTIONS "PKCS7_ISSUER_AND_SERIAL".
Definition pkcs7_declarations_2 : list declaration :=
  DECLARE_ASN1_DUP_FUNCTION "PKCS7".
Definition pkcs7_declarations_3 : list declaration :=
  DECLARE_ASN1_FUNCTIONS "PKCS7_SIGNER_INFO" ++
  DECLARE_ASN1_FUNCTIONS "PKCS7_RECIP_INFO" ++
  DECLARE_ASN1_FUNCTIONS "PKCS7_SIGNED" ++
  DECLARE_ASN1_FUNCTIONS "PKCS7_ENC_CONTENT" ++
  DECLARE_ASN1_FUNCTIONS "PKCS7_ENVELOPE" ++
  DECLARE_ASN1_FUNCTIONS "PKCS7_SIGN_ENVELOPE" ++
  DECLARE_ASN1_FUNCTIONS "PKCS7_DIGEST" ++
  DECLARE_ASN1_FUNCTIONS "PKCS7_ENCRYPT" ++
  DECLARE_ASN1_FUNCTIONS "PKCS7" ++
  DECLARE_ASN1_ITEM "PKCS7_ATTR_SIGN" ++
  DECLARE_ASN1_ITEM "PKCS7_ATTR_VERIFY" ++
  DECLARE_ASN1_NDEF_FUNCTION "PKCS7" ++
  DECLARE_ASN1_PRINT_FUNCTION "PKCS7".

Definition x509_declarations_1 : list declaration :=
  DECLARE_ASN1_DUP_FUNCTION "X509" ++
  DECLARE_ASN1_DUP_FUNCTION "X509_ALGOR" ++
  DECLARE_ASN1_DUP_FUNCTION "X509_ATTRIBUTE" ++
  DECLARE_ASN1_DUP_FUNCTION "X509_CRL" ++
  DECLARE_ASN1_DUP_FUNCTION "X509_EXTENSION" ++
  DECLARE_ASN1_DUP_FUNCTION "X509_PUBKEY" ++
  DECLARE_ASN1_DUP_FUNCTION "X509_REQ" ++
  DECLARE_ASN1_DUP_FUNCTION "X509_REVOKED".
Definition x509_declarations_2 : list declaration :=
  DECLARE_ASN1_DUP_FUNCTION "X509_NAME" ++
  DECLARE_ASN1_DUP_FUNCTION "X509_NAME_ENTRY".
Definition x509_declarations_3 : list declaration :=
  DECLARE_ASN1_FUNCTIONS "X509_ALGOR" ++
  DECLARE_ASN1_ENCODE_FUNCTIONS "X509_ALGORS" "X509_ALGORS" "X509_ALGORS" ++
  DECLARE_ASN1_FUNCTIONS "X509_VAL" ++
  DECLARE_ASN1_FUNCTIONS "X509_PUBKEY".
Definition x509_declarations_4 : list declaration :=
  DECLARE_ASN1_ENCODE_FUNCTIONS_only "EVP_PKEY" "PUBKEY".
Definition x509_declarations_5 : list declaration :=
  ifndef (b "OPENSSL_NO_DEPRECATED_3_0") (DECLARE_ASN1_ENCODE_FUNCTIONS_only_attr "OSSL_DEPRECATEDIN_3_0" "RSA" "RSA_PUBKEY").
Definition x509_declarations_6 : list declaration :=
  ifndef (b "OPENSSL_NO_DEPRECATED_3_0") (ifndef (b "OPENSSL_NO_DSA") (DECLARE_ASN1_ENCODE_FUNCTIONS_only_attr "OSSL_DEPRECATEDIN_3_0" "DSA" "DSA_PUBKEY")).
Definition x509_declarations_7 : list declaration :=
  ifndef (b "OPENSSL_NO_DEPRECATED_3_0") (ifndef (b "OPENSSL_NO_EC") (DECLARE_ASN1_ENCODE_FUNCTIONS_only_attr "OSSL_DEPRECATEDIN_3_0" "EC_KEY" "EC_PUBKEY")).
Definition x509_declarations_8 : list declaration :=
  DECLARE_ASN1_FUNCTIONS "X509_SIG".
Definition x509_declarations_9 : list declaration :=
  DECLARE_ASN1_FUNCTIONS "X509_REQ_INFO" ++
  DECLARE_ASN1_FUNCTIONS "X509_REQ" ++
  DECLARE_ASN1_FUNCTIONS "X509_ATTRIBUTE" ++
  DECLARE_ASN1_FUNCTIONS "X509_EXTENSION" ++
  DECLARE_ASN1_ENCODE_FUNCTIONS "X509_EXTENSIONS" "X509_EXTENSIONS" "X509_EXTENSIONS" ++
  DECLARE_ASN1_FUNCTIONS "X509_NAME_ENTRY" ++
  DECLARE_ASN1_FUNCTIONS "X509_NAME".
Definition x509_declarations_10 : list declaration :=
  DECLARE_ASN1_FUNCTIONS "X509_CINF" ++
  DECLARE_ASN1_FUNCTIONS "X509" ++
  DECLARE_ASN1_FUNCTIONS "X509_CERT_AUX".
Definition x509_declarations_11 : list declaration :=
  DECLARE_ASN1_ENCODE_FUNCTIONS_only "X509" "X509_AUX".
Definition x509_declarations_12 : list declaration :=
  DECLARE_ASN1_FUNCTIONS "X509_REVOKED" ++
  DECLARE_ASN1_FUNCTIONS "X509_CRL_INFO" ++
  DECLARE_ASN1_FUNCTIONS "X509_CRL".
Definition x509_declarations_13 : list declaration :=
  DECLARE_ASN1_FUNCTIONS "NETSCAPE_SPKI" ++
  DECLARE_ASN1_FUNCTIONS "NETSCAPE_SPKAC" ++
  DECLARE_ASN1_FUNCTIONS "NETSCAPE_CERT_SEQUENCE".
Definition x509_declarations_14 : list declaration :=
  DECLARE_ASN1_FUNCTIONS "PBEPARAM" ++
  DECLARE_ASN1_FUNCTIONS "PBE2PARAM" ++
  DECLARE_ASN1_FUNCTIONS "PBKDF2PARAM".
Definition x509_declarations_15 : list declaration :=
  ifndef (b "OPENSSL_NO_SCRYPT") (DECLARE_ASN1_FUNCTIONS "SCRYPT_PARAMS").
Definition x509_declarations_16 : list declaration :=
  DECLARE_ASN1_FUNCTIONS "PKCS8_PRIV_KEY_INFO".

Definition x509v3_declarations_1 : list declaration :=
  DECLARE_ASN1_FUNCTIONS "PROXY_POLICY" ++
  DECLARE_ASN1_FUNCTIONS "PROXY_CERT_INFO_EXTENSION".
Definition x509v3_declarations_2 : list declaration :=
  DECLARE_ASN1_FUNCTIONS "BASIC_CONSTRAINTS" ++
  DECLARE_ASN1_FUNCTIONS "SXNET" ++
  DECLARE_ASN1_FUNCTIONS "SXNETID" ++
  DECLARE_ASN1_FUNCTIONS "ISSUER_SIGN_TOOL".
Definition x509v3_declarations_3 : list declaration :=
  DECLARE_ASN1_FUNCTIONS "AUTHORITY_KEYID" ++
  DECLARE_ASN1_FUNCTIONS "PKEY_USAGE_PERIOD" ++
  DECLARE_ASN1_FUNCTIONS "GENERAL_NAME" ++
  DECLARE_ASN1_DUP_FUNCTION "GENERAL_NAME".
Definition x509v3_declarations_4 : list declaration :=
  DECLARE_ASN1_FUNCTIONS "GENERAL_NAMES".
Definition x509v3_declarations_5 : list declaration :=
  DECLARE_ASN1_FUNCTIONS "OTHERNAME" ++
  DECLARE_ASN1_FUNCTIONS "EDIPARTYNAME".
Definition x509v3_declarations_6 : list declaration :=
  DECLARE_ASN1_FUNCTIONS "EXTENDED_KEY_USAGE" ++
  DECLARE_ASN1_ALLOC_FUNCTIONS "TLS_FEATURE" ++
  DECLARE_ASN1_FUNCTIONS "CERTIFICATEPOLICIES" ++
  DECLARE_ASN1_FUNCTIONS "POLICYINFO" ++
  DECLARE_ASN1_FUNCTIONS "POLICYQUALINFO" ++
  DECLARE_ASN1_FUNCTIONS "USERNOTICE" ++
  DECLARE_ASN1_FUNCTIONS "NOTICEREF" ++
  DECLARE_ASN1_FUNCTIONS "CRL_DIST_POINTS" ++
  DECLARE_ASN1_FUNCTIONS "DIST_POINT" ++
  DECLARE_ASN1_FUNCTIONS "DIST_POINT_NAME" ++
  DECLARE_ASN1_FUNCTIONS "ISSUING_DIST_POINT".
Definition x509v3_declarations_7 : list declaration :=
  DECLARE_ASN1_FUNCTIONS "ACCESS_DESCRIPTION" ++
  DECLARE_ASN1_FUNCTIONS "AUTHORITY_INFO_ACCESS" ++
  DECLARE_ASN1_ITEM "POLICY_MAPPING" ++
  DECLARE_ASN1_ALLOC_FUNCTIONS "POLICY_MAPPING" ++
  DECLARE_ASN1_ITEM "POLICY_MAPPINGS" ++
  DECLARE_ASN1_ITEM "GENERAL_SUBTREE" ++
  DECLARE_ASN1_ALLOC_FUNCTIONS "GENERAL_SUBTREE" ++
  DECLARE_ASN1_ITEM "NAME_CONSTRAINTS" ++
  DECLARE_ASN1_ALLOC_FUNCTIONS "NAME_CONSTRAINTS" ++
  DECLARE_ASN1_ALLOC_FUNCTIONS "POLICY_CONSTRAINTS" ++
  DECLARE_ASN1_ITEM "POLICY_CONSTRAINTS".
Definition x509v3_declarations_8 : list declaration :=
  ifndef (b "OPENSSL_NO_RFC3779") (DECLARE_ASN1_FUNCTIONS "ASRange" ++
  DECLARE_ASN1_FUNCTIONS "ASIdOrRange" ++
  DECLARE_ASN1_FUNCTIONS "ASIdentifierChoice" ++
  DECLARE_ASN1_FUNCTIONS "ASIdentifiers").
Definition x509v3_declarations_9 : list declaration :=
  ifndef (b "OPENSSL_NO_RFC3779") (DECLARE_ASN1_FUNCTIONS "IPAddressRange" ++
  DECLARE_ASN1_FUNCTIONS "IPAddressOrRange" ++
  DECLARE_ASN1_FUNCTIONS "IPAddressChoice" ++
  DECLARE_ASN1_FUNCTIONS "IPAddressFamily").
Definition x509v3_declarations_10 : list declaration :=
  DECLARE_ASN1_FUNCTIONS "NAMING_AUTHORITY" ++
  DECLARE_ASN1_FUNCTIONS "PROFESSION_INFO" ++
  DECLARE_ASN1_FUNCTIONS "ADMISSIONS" ++
  DECLARE_ASN1_FUNCTIONS "ADMISSION_SYNTAX".

Definition dh_declarations_1 : list declaration :=
  ifndef (b "OPENSSL_NO_DH") (DECLARE_ASN1_ITEM "DHparams").
Definition dh_declarations_2 : list declaration :=
  ifndef (b "OPENSSL_NO_DH") (ifndef (b "OPENSSL_NO_DEPRECATED_3_0") (DECLARE_ASN1_DUP_FUNCTION_name_attr "OSSL_DEPRECATEDIN_3_0" "DH" "DHparams")).
Definition dh_declarations_3 : list declaration :=
  ifndef (b "OPENSSL_NO_DH") (ifndef (b "OPENSSL_NO_DEPRECATED_3_0") (DECLARE_ASN1_ENCODE_FUNCTIONS_only_attr "OSSL_DEPRECATEDIN_3_0" "DH" "DHparams" ++
  DECLARE_ASN1_ENCODE_FUNCTIONS_only_attr "OSSL_DEPRECATEDIN_3_0" "DH" "DHxparams")).

Definition dsa_declarations_1 : list declaration :=
  ifndef (b "OPENSSL_NO_DSA") (DECLARE_ASN1_ENCODE_FUNCTIONS_only "DSA_SIG" "DSA_SIG").
Definition dsa_declarations_2 : list declaration :=
  ifndef (b "OPENSSL_NO_DSA") (ifndef (b "OPENSSL_NO_DEPRECATED_3_0") (DECLARE_ASN1_DUP_FUNCTION_name_attr "OSSL_DEPRECATEDIN_3_0" "DSA" "DSAparams")).
Definition dsa_declarations_3 : list declaration :=
  ifndef (b "OPENSSL_NO_DSA") (ifndef (b "OPENSSL_NO_DEPRECATED_3_0") (DECLARE_ASN1_ENCODE_FUNCTIONS_only_attr "OSSL_DEPRECATEDIN_3_0" "DSA" "DSAPublicKey" ++
  DECLARE_ASN1_ENCODE_FUNCTIONS_only_attr "OSSL_DEPRECATEDIN_3_0" "DSA" "DSAPrivateKey" ++
  DECLARE_ASN1_ENCODE_FUNCTIONS_only_attr "OSSL_DEPRECATEDIN_3_0" "DSA" "DSAparams")).

Definition ec_declarations_1 : list declaration :=
  ifndef (b "OPENSSL_NO_EC") (DECLARE_ASN1_ITEM "ECPKPARAMETERS" ++
  DECLARE_ASN1_ALLOC_FUNCTIONS "ECPKPARAMETERS" ++
  DECLARE_ASN1_ITEM "ECPARAMETERS" ++
  DECLARE_ASN1_ALLOC_FUNCTIONS "ECPARAMETERS").
Definition ec_declarations_2 : list declaration :=
  ifndef (b "OPENSSL_NO_EC") (DECLARE_ASN1_ENCODE_FUNCTIONS_only "ECDSA_SIG" "ECDSA_SIG").

Definition objects_declarations : list declaration :=
  DECLARE_ASN1_DUP_FUNCTION_name "ASN1_OBJECT" "OBJ".

Definition rsa_declarations_1 : list declaration :=
  ifndef (b "OPENSSL_NO_DEPRECATED_3_0") (DECLARE_ASN1_ENCODE_FUNCTIONS_name_attr "OSSL_DEPRECATEDIN_3_0" "RSA" "RSAPublicKey" ++
  DECLARE_ASN1_ENCODE_FUNCTIONS_name_attr "OSSL_DEPRECATEDIN_3_0" "RSA" "RSAPrivateKey").
Definition rsa_declarations_2 : list declaration :=
  DECLARE_ASN1_FUNCTIONS "RSA_PSS_PARAMS" ++
  DECLARE_ASN1_DUP_FUNCTION "RSA_PSS_PARAMS".
Definition rsa_declarations_3 : list declaration :=
  DECLARE_ASN1_FUNCTIONS "RSA_OAEP_PARAMS".
Definition rsa_declarations_4 : list declaration :=
  ifndef (b "OPENSSL_NO_DEPRECATED_3_0") (DECLARE_ASN1_DUP_FUNCTION_name_attr "OSSL_DEPRECATEDIN_3_0" "RSA" "RSAPublicKey" ++
  DECLARE_ASN1_DUP_FUNCTION_name_attr "OSSL_DEPRECATEDIN_3_0" "RSA" "RSAPrivateKey").

Definition ts_declarations_1 : list declaration :=
  ifndef (b "OPENSSL_NO_TS") (DECLARE_ASN1_ALLOC_FUNCTIONS "TS_REQ" ++
  DECLARE_ASN1_ENCODE_FUNCTIONS_only "TS_REQ" "TS_REQ" ++
  DECLARE_ASN1_DUP_FUNCTION "TS_REQ").
Definition ts_declarations_2 : list declaration :=
  ifndef (b "OPENSSL_NO_TS") (DECLARE_ASN1_ALLOC_FUNCTIONS "TS_MSG_IMPRINT" ++
  DECLARE_ASN1_ENCODE_FUNCTIONS_only "TS_MSG_IMPRINT" "TS_MSG_IMPRINT" ++
  DECLARE_ASN1_DUP_FUNCTION "TS_MSG_IMPRINT").
Definition ts_declarations_3 : list declaration :=
  ifndef (b "OPENSSL_NO_TS") (DECLARE_ASN1_ALLOC_FUNCTIONS "TS_RESP" ++
  DECLARE_ASN1_ENCODE_FUNCTIONS_only "TS_RESP" "TS_RESP" ++
  DECLARE_ASN1_DUP_FUNCTION "TS_RESP").
Definition ts_declarations_4 : list declaration :=
  ifndef (b "OPENSSL_NO_TS") (DECLARE_ASN1_ALLOC_FUNCTIONS "TS_STATUS_INFO" ++
  DECLARE_ASN1_ENCODE_FUNCTIONS_only "TS_STATUS_INFO" "TS_STATUS_INFO" ++
  DECLARE_ASN1_DUP_FUNCTION "TS_STATUS_INFO" ++
  DECLARE_ASN1_ALLOC_FUNCTIONS "TS_TST_INFO" ++
  DECLARE_ASN1_ENCODE_FUNCTIONS_only "TS_TST_INFO" "TS_TST_INFO" ++
  DECLARE_ASN1_DUP_FUNCTION "TS_TST_INFO").
Definition ts_declarations_5 : list declaration :=
  ifndef (b "OPENSSL_NO_TS") (DECLARE_ASN1_ALLOC_FUNCTIONS "TS_ACCURACY" ++
  DECLARE_ASN1_ENCODE_FUNCTIONS_only "TS_ACCURACY" "TS_ACCURACY" ++
  DECLARE_ASN1_DUP_FUNCTION "TS_ACCURACY").

Definition ASN1_declarations : list declaration :=
  asn1_declarations_1 ++ asn1_declarations_2 ++ asn1_declarations_3 ++ asn1_declarations_4 ++
  asn1_declarations_5 ++ asn1_declarations_6 ++ asn1_declarations_7 ++ asn1_declarations_8 ++
  asn1_declarations_9 ++
  asn1t_declarations_1 ++ asn1t_declarations_2 ++
  cmp_declarations_1 ++ cmp_declarations_2 ++ cmp_declarations_3 ++ cmp_declarations_4 ++
  cms_declarations ++
  crmf_declarations_1 ++ crmf_declarations_2 ++ crmf_declarations_3 ++ crmf_declarations_4 ++
  ess_declarations ++
  ocsp_declarations_1 ++ ocsp_declarations_2 ++
  pkcs12_declarations ++
  pkcs7_declarations_1 ++ pkcs7_declarations_2 ++ pkcs7_declarations_3 ++
  x509_declarations_1 ++ x509_declarations_2 ++ x509_declarations_3 ++ x509_declarations_4 ++
  x509_declarations_5 ++ x509_declarations_6 ++ x509_declarations_7 ++ x509_declarations_8 ++
  x509_declarations_9 ++ x509_declarations_10 ++ x509_declarations_11 ++ x509_declarations_12 ++
  x509_declarations_13 ++ x509_declarations_14 ++ x509_declarations_15 ++ x509_declarations_16 ++
  x509v3_declarations_1 ++ x509v3_declarations_2 ++ x509v3_declarations_3 ++ x509v3_declarations_4 ++
  x509v3_declarations_5 ++ x509v3_declarations_6 ++ x509v3_declarations_7 ++ x509v3_declarations_8 ++
  x509v3_declarations_9 ++ x509v3_declarations_10 ++
  dh_declarations_1 ++ dh_declarations_2 ++ dh_declarations_3 ++
  dsa_declarations_1 ++ dsa_declarations_2 ++ dsa_declarations_3 ++
  ec_declarations_1 ++ ec_declarations_2 ++
  objects_declarations ++
  rsa_declarations_1 ++ rsa_declarations_2 ++ rsa_declarations_3 ++ rsa_declarations_4 ++
  ts_declarations_1 ++ ts_declarations_2 ++ ts_declarations_3 ++ ts_declarations_4 ++
  ts_declarations_5.
End declarations.
