(* ===== verification/CodecFacts.v ===== *)
(** * Facts on the functions of the ASN.1 and PEM macros

    What the macros implement has the prototypes that they declare, and the
    compiler accepts it; the macros that check a type take what they say. *)

From S2P Require Import Prelude TypedMacros TypedMacrosFacts SafeStack Asn1Macros PemMacros.
From stdpp Require Import strings ssreflect.
Local Open Scope string_scope.
Local Open Scope list_scope.

(** ** Declared and defined functions *)

Definition declared (d : declaration) : string * prototype := (sig_name (decl_sig d), sig_prototype (decl_sig d)).
Definition defined (f : cfun) : string * prototype := (fun_name f, fun_prototype f).
Definition in_scope (sig : string → option prototype) (l : list (string * prototype)) : Prop :=
  Forall (λ d, sig d.1 = Some d.2) l.
#[export] Instance in_scope_dec sig l : Decision (in_scope sig l).
Proof. unfold in_scope. apply _. Defined.

(** The functions [fs] are those that [ds] declares, but for those that [others]
    declares too, and the compiler accepts them. *)
Definition implements sig (fs : list cfun) (others ds : list declaration) : Prop :=
  ((defined <$> fs) ++ (declared <$> others) ≡ₚ declared <$> ds) ∧ Forall (λ f, well_typed sig f = true) fs.

(** What a macro stands for, which is not defined in a build with [no]. *)
Definition defined_unless {A} (no : bool) (m : option A) (P : A → Prop) : Prop :=
  if no then m = None else ∃ a, m = Some a ∧ P a.

(** A function with its storage class, and a declaration with what stands before
    it. *)
Definition stored (f : string * cfun) : string * (string * prototype) := (f.1, defined f.2).
Definition attributed (d : declaration) : string * (string * prototype) := (decl_attr d, declared d).

Lemma in_scope_named sig l f p : in_scope sig l → named l f = Some p → sig f = Some p.
Proof.
  induction 1 as [|[g q] l Hg _ IH]; cbn; [done|]. destruct (String.eqb_spec f g) as [->|]; [by intros [= <-]|done].
Qed.

Lemma implements_app sig fs fs' o o' ds ds' :
  implements sig fs o ds → implements sig fs' o' ds' → implements sig (fs ++ fs') (o ++ o') (ds ++ ds').
Proof.
  intros [Hp Hf] [Hp' Hf']. split; [|by apply Forall_app].
  rewrite !fmap_app -Hp -Hp' -!app_assoc. f_equiv. rewrite !app_assoc. f_equiv. apply Permutation_app_comm.
Qed.

(** ** Conversions of pointers *)

Lemma assignable_refl t : assignable t t = true.
Proof.
  destruct t as [| | | | | | | | |t| | | | |]; try done; cbn; try (by rewrite bool_decide_true).
  rewrite !(bool_decide_true (unqualified t = unqualified t)) //. by destruct (is_const t).
Qed.
Lemma castable_pointer a b : castable (Ptr a) (Ptr b) = true.
Proof. done. Qed.
Lemma assignable_to_void t : assignable (Ptr (Const t)) (Ptr (Const Void)) = true.
Proof. cbn. by rewrite orb_true_r. Qed.
Lemma assignable_string : assignable (Ptr Char) (Ptr (Const Char)) = true.
Proof. done. Qed.
Lemma assignable_null t : assignable Null (Ptr t) = true.
Proof. done. Qed.
Lemma TypeName_plain t : is_const (TypeName t) = false ∧ is_function (TypeName t) = false.
Proof.
  unfold TypeName. destruct (named typedefs t) as [c|] eqn:E; [|done]. cbn.
  assert (Forall (λ d : string * ctype, is_const d.2 = false ∧ is_function d.2 = false) typedefs) as H.
  { by vm_compute; repeat constructor. }
  revert E. induction H as [|[y d] l Hd _ IH]; cbn; [done|]. destruct (String.eqb t y); [by intros [= <-]|done].
Qed.

(** ** The functions of [openssl/asn1t.h] *)

Local Arguments String.append : simpl never.
Local Arguments TypeName : simpl never.
Local Arguments assignable : simpl never.
Local Arguments castable : simpl never.

Ltac solve_well_typed Hlib :=
  repeat constructor; unfold well_typed; cbn;
  repeat (first
    [ progress erewrite (in_scope_named _ _ _ _ Hlib) by reflexivity
    | match goal with H : ?sig ?f = Some _ |- context [?sig ?f] => rewrite H end
    | rewrite assignable_refl | rewrite castable_pointer | rewrite assignable_to_void | rewrite assignable_string | rewrite assignable_null
    | rewrite assignable_from_void; [|by apply TypeName_plain] ]; cbn);
  try reflexivity.

Section asn1.
Context (sig : string → option prototype) (b : build) (Hlib : in_scope sig (ASN1_prototypes b)).
Context (itname : string) (Hit : in_scope sig (declared <$> DECLARE_ASN1_ITEM itname)).

Local Lemma item_in_scope : sig (itname +:+ "_it") = Some (Ptr (Const (TypeName "ASN1_ITEM")), []).
Proof using Hit. by inversion Hit. Qed.

Lemma alloc_functions_implemented stname fname :
  implements sig (IMPLEMENT_ASN1_ALLOC_FUNCTIONS_fname stname itname fname) []
    (DECLARE_ASN1_ALLOC_FUNCTIONS_name stname fname).
Proof using All. pose proof item_in_scope. split; [reflexivity|]. solve_well_typed Hlib. Qed.
Lemma encode_functions_implemented stname fname :
  implements sig (IMPLEMENT_ASN1_ENCODE_FUNCTIONS_fname stname itname fname) (DECLARE_ASN1_ITEM itname)
    (DECLARE_ASN1_ENCODE_FUNCTIONS stname itname fname).
Proof using All. pose proof item_in_scope. split; [reflexivity|]. solve_well_typed Hlib. Qed.
Lemma asn1_functions_implemented stname fname :
  implements sig (IMPLEMENT_ASN1_FUNCTIONS_fname stname itname fname) (DECLARE_ASN1_ITEM itname)
    (DECLARE_ASN1_FUNCTIONS_fname stname itname fname).
Proof using All.
  destruct (implements_app _ _ _ _ _ _ _ (encode_functions_implemented stname fname)
              (alloc_functions_implemented stname fname)) as [Hp Hf]. rewrite app_nil_r in Hp.
  split; [|done]. etrans; [exact Hp|]. unfold DECLARE_ASN1_FUNCTIONS_fname. rewrite !fmap_app. apply Permutation_app_comm.
Qed.
Lemma ndef_function_implemented :
  implements sig (IMPLEMENT_ASN1_NDEF_FUNCTION itname) [] (DECLARE_ASN1_NDEF_FUNCTION itname).
Proof using All. pose proof item_in_scope. split; [reflexivity|]. solve_well_typed Hlib. Qed.
Lemma pfname_functions_implemented pre stname fname :
  implements sig (snd <$> IMPLEMENT_ASN1_ALLOC_FUNCTIONS_pfname pre stname itname fname) []
    (DECLARE_ASN1_ALLOC_FUNCTIONS_name_attr pre stname fname).
Proof using All. pose proof item_in_scope. split; [reflexivity|]. solve_well_typed Hlib. Qed.
Lemma static_encode_functions_implemented :
  implements sig (snd <$> IMPLEMENT_STATIC_ASN1_ENCODE_FUNCTIONS itname) []
    (DECLARE_ASN1_ENCODE_FUNCTIONS_only_attr "static" itname itname).
Proof using All. pose proof item_in_scope. split; [reflexivity|]. solve_well_typed Hlib. Qed.
Lemma dup_function_implemented :
  implements sig (IMPLEMENT_ASN1_DUP_FUNCTION itname) [] (DECLARE_ASN1_DUP_FUNCTION itname).
Proof using All. pose proof item_in_scope. split; [reflexivity|]. solve_well_typed Hlib. Qed.
Lemma print_function_implemented stname fname :
  implements sig (IMPLEMENT_ASN1_PRINT_FUNCTION_fname stname itname fname) []
    (DECLARE_ASN1_PRINT_FUNCTION_fname stname fname).
Proof using All. pose proof item_in_scope. split; [reflexivity|]. solve_well_typed Hlib. Qed.
End asn1.

(** ** The functions of [openssl/pem.h] *)

Section pem.
Context (sig : string → option prototype) (b : build) (Hlib : in_scope sig (PEM_prototypes b)).
(** Where [d2i_asn1] and [i2d_asn1] are declared, for objects of any type. *)
Context (asn1 atype : string) (Hasn1 : in_scope sig (declared <$> DECLARE_ASN1_ENCODE_FUNCTIONS_only atype asn1)).
Local Lemma d2i_in_scope : sig ("d2i_" +:+ asn1) = Some (Ptr (TypeName atype),
  [Ptr (Ptr (TypeName atype)); Ptr (Ptr (Const UChar)); Long]).
Proof using Hasn1. by inversion Hasn1. Qed.
Local Lemma i2d_in_scope : sig ("i2d_" +:+ asn1) = Some (Int, [Ptr (Const (TypeName atype)); Ptr (Ptr UChar)]).
Proof using Hasn1. by inversion Hasn1 as [|? ? _ H]; inversion H. Qed.

Context (name type str : string).

Local Ltac solve_pem :=
  pose proof d2i_in_scope; pose proof i2d_in_scope; clear Hasn1;
  unfold PEM_prototypes, IMPLEMENT_PEM_read, IMPLEMENT_PEM_write, IMPLEMENT_PEM_write_cb, IMPLEMENT_PEM_read_fp,
    IMPLEMENT_PEM_write_fp, IMPLEMENT_PEM_write_cb_fp, DECLARE_PEM_read, DECLARE_PEM_write, DECLARE_PEM_write_cb,
    DECLARE_PEM_read_attr, DECLARE_PEM_write_attr, DECLARE_PEM_write_cb_attr, DECLARE_PEM_read_fp_attr,
    DECLARE_PEM_write_fp_attr, DECLARE_PEM_write_cb_fp_attr in *;
  destruct (b "OPENSSL_NO_STDIO"); (split; [reflexivity|]); solve_well_typed Hlib.

Lemma pem_read_implemented : implements sig (IMPLEMENT_PEM_read b name type str asn1) [] (DECLARE_PEM_read b name type).
Proof using All. solve_pem. Qed.
Lemma pem_write_implemented : implements sig (IMPLEMENT_PEM_write b name type str asn1) [] (DECLARE_PEM_write b name type).
Proof using All. solve_pem. Qed.
Lemma pem_write_cb_implemented :
  implements sig (IMPLEMENT_PEM_write_cb b name type str asn1) [] (DECLARE_PEM_write_cb b name type).
Proof using All. solve_pem. Qed.
Lemma pem_rw_implemented : implements sig (IMPLEMENT_PEM_rw b name type str asn1) [] (DECLARE_PEM_rw b name type).
Proof using All. apply (implements_app _ _ _ [] []); [apply pem_read_implemented|apply pem_write_implemented]. Qed.
Lemma pem_rw_cb_implemented :
  implements sig (IMPLEMENT_PEM_rw_cb b name type str asn1) [] (DECLARE_PEM_rw_cb b name type).
Proof using All. apply (implements_app _ _ _ [] []); [apply pem_read_implemented|apply pem_write_cb_implemented]. Qed.

(** The macros for constant objects are the others. *)
Lemma pem_const_macros :
  defined_unless (b "OPENSSL_NO_DEPRECATED_3_0") (IMPLEMENT_PEM_rw_const b name type str asn1) (λ fs,
    fs = IMPLEMENT_PEM_rw b name type str asn1) ∧
  defined_unless (b "OPENSSL_NO_DEPRECATED_3_0") (IMPLEMENT_PEM_write_cb_const b name type str asn1) (λ fs,
    fs = IMPLEMENT_PEM_write_cb b name type str asn1) ∧
  defined_unless (b "OPENSSL_NO_DEPRECATED_3_0") (DECLARE_PEM_rw_const b name type) (λ ds,
    ds = DECLARE_PEM_rw b name type).
Proof using.
  unfold defined_unless, IMPLEMENT_PEM_rw_const, IMPLEMENT_PEM_write_const, IMPLEMENT_PEM_write_bio_const,
    IMPLEMENT_PEM_write_fp_const, IMPLEMENT_PEM_write_cb_const, IMPLEMENT_PEM_write_cb_bio_const, IMPLEMENT_PEM_write_cb_fp_const,
    DECLARE_PEM_rw_const, DECLARE_PEM_rw_const_attr, DECLARE_PEM_write_const_attr, DECLARE_PEM_write_bio_const_attr,
    DECLARE_PEM_write_fp_const_attr, IMPLEMENT_PEM_rw, IMPLEMENT_PEM_write, IMPLEMENT_PEM_write_fp, IMPLEMENT_PEM_write_cb,
    IMPLEMENT_PEM_write_cb_fp.
  destruct (b "OPENSSL_NO_DEPRECATED_3_0"); cbn -[String.append]; [done|].
  split_and!; (eexists; split; [reflexivity|]); [by destruct (b "OPENSSL_NO_STDIO")..|].
  unfold DECLARE_PEM_rw, DECLARE_PEM_rw_attr, DECLARE_PEM_write_attr, DECLARE_PEM_write_bio_attr, DECLARE_PEM_write_fp_attr. done.
Qed.
End pem.

(** ** The macros that check a type *)

(** A pointer to [t], perhaps to a constant one, or [NULL]. *)
Definition points_to (t a : ctype) : bool :=
  match a with Null => true | Ptr u => bool_decide (unqualified u = t) | _ => false end.
(** Or one to [void]. *)
Definition points_to_object (t a : ctype) : bool := points_to t a || points_to Void a.

(** A type of objects: not constant, and neither [void] nor a function. *)
Definition object_type (t : ctype) : bool :=
  negb (is_const t) && negb (is_function t) && negb (bool_decide (t = Void)).

Section checked.
Context (sig : string → option prototype) (env : list (string * ctype)).

Lemma checked_function to f e :
  is_function f = true →
  type_of sig env (checked (Ptr to) (Ptr f) e) =
    a ← type_of sig env e; if points_to f a then Some (Ptr to) else None.
Proof.
  intros Hf. assert (is_const f = false ∧ unqualified f = f ∧ f ≠ Void) as (Hc & Hu & Hv) by by destruct f.
  unfold checked. cbn. destruct (type_of sig env e) as [a|]; cbn; [|done].
  assert (castable Int (Ptr f) = true) as -> by done. cbn.
  destruct a as [| | | | | | | | |u| | | | |]; try done; cbn -[castable].
  rewrite Hu Hf Hc (bool_decide_false (f = Void)) // andb_false_r orb_false_r.
  destruct (decide (unqualified u = f)) as [->|Hn].
  - by rewrite !bool_decide_true.
  - by rewrite !(bool_decide_false (unqualified u = f)).
Qed.

Lemma checked_object to t e :
  is_function t = false → unqualified t ≠ Void →
  type_of sig env (checked (Ptr to) (Ptr t) e) =
    a ← type_of sig env e; if points_to_object (unqualified t) a then Some (Ptr to) else None.
Proof.
  intros Hf Hv. unfold checked. cbn. destruct (type_of sig env e) as [a|]; cbn; [|done].
  assert (castable Int (Ptr t) = true) as -> by done. cbn.
  destruct a as [| | | | | | | | |u| | | | |]; try done; unfold points_to_object; cbn -[castable].
  rewrite Hf (bool_decide_false (unqualified t = Void)) //=. rewrite andb_true_r orb_false_r.
  destruct (bool_decide_reflect (unqualified u = unqualified t)) as [E|E]; [done|].
  by destruct (bool_decide (unqualified u = Void)).
Qed.
End checked.

(** A macro takes arguments of the types that [checks] accept, one for each. *)
Definition takes (sig : string → option prototype) (m : cmacro) (checks : list (ctype → bool)) (r : ctype) : Prop :=
  ∀ ts, macro_type sig m ts =
    if Nat.eqb (length ts) (length checks) && forallb (λ c, c.1 c.2) (zip checks ts) then Some r else None.

Definition i2d_function (t : ctype) : ctype := Fun2 Int (Ptr (Const t)) (Ptr (Ptr UChar)).
Definition d2i_function (t : ctype) : ctype := Fun3 (Ptr t) (Ptr (Ptr t)) (Ptr (Ptr (Const UChar))) Long.
Definition new_function (t : ctype) : ctype := Fun0 (Ptr t).
Definition stream_of (name : string) (a : ctype) : bool := assignable a (Ptr (TypeName name)).

Section takes.
Context (sig : string → option prototype) (b : build) (Hlib : in_scope sig (ASN1_prototypes b)) (t : ctype) (Ht : object_type t = true).

Lemma object_facts : is_const t = false ∧ is_function t = false ∧ t ≠ Void ∧ unqualified t = t.
Proof using Ht.
  revert Ht. unfold object_type. rewrite !andb_true_iff !negb_true_iff. intros [[Hc Hf] Hv%bool_decide_eq_false].
  split_and!; try done. by destruct t.
Qed.

Lemma CHECKED_I2D_OF_type env e :
  type_of sig env (CHECKED_I2D_OF t e) =
    a ← type_of sig env e; if points_to (i2d_function t) a then Some (Ptr i2d_of_void) else None.
Proof. by apply checked_function. Qed.
Lemma CHECKED_D2I_OF_type env e :
  type_of sig env (CHECKED_D2I_OF t e) =
    a ← type_of sig env e; if points_to (d2i_function t) a then Some (Ptr d2i_of_void) else None.
Proof. by apply checked_function. Qed.
Lemma CHECKED_NEW_OF_type env e :
  type_of sig env (CHECKED_NEW_OF t e) =
    a ← type_of sig env e; if points_to (new_function t) a then Some new_of_void else None.
Proof. by apply checked_function. Qed.
Lemma CHECKED_PTR_OF_type c env e :
  type_of sig env (CHECKED_PTR_OF (if c : bool then Const t else t) e) =
    a ← type_of sig env e; if points_to_object t a then Some (Ptr Void) else None.
Proof using Ht.
  destruct object_facts as (Hc & Hf & Hv & Hu). unfold CHECKED_PTR_OF. rewrite checked_object.
  - by destruct c; cbn; rewrite ?Hu.
  - by destruct c.
  - by destruct c; cbn; rewrite ?Hu.
Qed.
Lemma CHECKED_PPTR_OF_type env e :
  type_of sig env (CHECKED_PPTR_OF t e) =
    a ← type_of sig env e; if points_to_object (Ptr t) a then Some (Ptr (Ptr Void)) else None.
Proof. by apply checked_object. Qed.

(** An argument of a call, for a parameter of type [p]. *)
Definition argument_type env (e : expr) (p : ctype) : bool :=
  match type_of sig env e with Some a => assignable a p | None => false end.
Definition parameter (env : list (string * ctype)) (x : string) (check : ctype → bool) : bool :=
  match named env x with Some a => check a | None => false end.

Lemma accepts_nil env : accepts sig env [] [] = true.
Proof. done. Qed.
Lemma accepts_cons env e es p ps : accepts sig env (e :: es) (p :: ps) = argument_type env e p && accepts sig env es ps.
Proof.
  unfold accepts, argument_type. cbn. destruct (type_of sig env e) as [a|]; cbn; [|done].
  destruct (mapM (type_of sig env) es); cbn; [done|by rewrite andb_false_r].
Qed.

Lemma par_argument env x p : argument_type env (Par x) p = parameter env x (λ a, assignable a p).
Proof. done. Qed.
Ltac solve_argument H := unfold argument_type, parameter; rewrite H; cbn [type_of]; destruct (named _ _); cbn -[assignable points_to points_to_object];
  [|done]; first [destruct (points_to_object _ _)|destruct (points_to _ _)]; [by rewrite ?assignable_refl ?assignable_to_void|done].
Lemma i2d_argument env x : argument_type env (CHECKED_I2D_OF t (Par x)) (Ptr i2d_of_void) = parameter env x (points_to (i2d_function t)).
Proof. solve_argument CHECKED_I2D_OF_type. Qed.
Lemma d2i_argument env x : argument_type env (CHECKED_D2I_OF t (Par x)) (Ptr d2i_of_void) = parameter env x (points_to (d2i_function t)).
Proof. solve_argument CHECKED_D2I_OF_type. Qed.
Lemma new_argument env x : argument_type env (CHECKED_NEW_OF t (Par x)) new_of_void = parameter env x (points_to (new_function t)).
Proof. solve_argument CHECKED_NEW_OF_type. Qed.
Lemma const_argument env x : argument_type env (CHECKED_PTR_OF (Const t) (Par x)) (Ptr (Const Void)) = parameter env x (points_to_object t).
Proof using Ht. solve_argument (CHECKED_PTR_OF_type true). Qed.
Lemma object_argument env x u :
  assignable (Ptr Void) (Ptr u) = true →
  argument_type env (CHECKED_PTR_OF t (Par x)) (Ptr u) = parameter env x (points_to_object t).
Proof using Ht.
  intros Hu. unfold argument_type, parameter. rewrite (CHECKED_PTR_OF_type false). cbn [type_of].
  destruct (named _ _); cbn -[assignable points_to points_to_object]; [|done]. destruct (points_to_object _ _); [exact Hu|done].
Qed.
Lemma pptr_argument env x : argument_type env (CHECKED_PPTR_OF t (Par x)) (Ptr (Ptr Void)) = parameter env x (points_to_object (Ptr t)).
Proof. solve_argument CHECKED_PPTR_OF_type. Qed.

Local Arguments argument_type : simpl never.
Ltac solve_takes :=
  intros ts; unfold macro_type; cbn [macro_params macro_body]; destruct ts as [|? [|? [|? [|? [|? ts]]]]]; try reflexivity;
  cbn -[type_of forallb zip Nat.eqb]; change (zip ?x ?y) with (zip x y);
  try (match goal with |- context [type_of sig ?env (Cast ?u (Call ?f ?es))] =>
         change (type_of sig env (Cast u (Call f es))) with
           (t' ← type_of sig env (Call f es); if castable t' u then Some u else None) end);
  rewrite call_type_of; erewrite (in_scope_named _ _ _ _ Hlib) by reflexivity; cbn -[accepts];
  rewrite !accepts_cons accepts_nil
    ?i2d_argument ?d2i_argument ?new_argument ?const_argument ?pptr_argument ?par_argument;
  cbn -[points_to points_to_object assignable castable];
  try reflexivity; destruct (_ && _); reflexivity.

Lemma ASN1_dup_of_takes : takes sig (ASN1_dup_of t)
  [points_to (i2d_function t); points_to (d2i_function t); points_to_object t] (Ptr t).
Proof using All. solve_takes. Qed.
Lemma ASN1_d2i_fp_of_takes : defined_unless (b "OPENSSL_NO_STDIO") (ASN1_d2i_fp_of b t) (λ m, takes sig m
  [points_to (new_function t); points_to (d2i_function t); stream_of "FILE"; points_to_object (Ptr t)] (Ptr t)).
Proof using All.
  unfold defined_unless, ASN1_d2i_fp_of, ASN1_prototypes in *. destruct (b "OPENSSL_NO_STDIO"); [done|].
  eexists. split; [done|]. solve_takes.
Qed.
Lemma ASN1_i2d_fp_of_takes : defined_unless (b "OPENSSL_NO_STDIO") (ASN1_i2d_fp_of b t) (λ m, takes sig m
  [points_to (i2d_function t); stream_of "FILE"; points_to_object t] Int).
Proof using All.
  unfold defined_unless, ASN1_i2d_fp_of, ASN1_prototypes in *. destruct (b "OPENSSL_NO_STDIO"); [done|].
  eexists. split; [done|]. solve_takes.
Qed.
Lemma ASN1_d2i_bio_of_takes : takes sig (ASN1_d2i_bio_of t)
  [points_to (new_function t); points_to (d2i_function t); stream_of "BIO"; points_to_object (Ptr t)] (Ptr t).
Proof using All. solve_takes. Qed.
Lemma ASN1_i2d_bio_of_takes : takes sig (ASN1_i2d_bio_of t)
  [points_to (i2d_function t); stream_of "BIO"; points_to_object t] Int.
Proof using All. solve_takes. Qed.
Lemma M_ASN1_free_of_takes type :
  TypeName type = t → in_scope sig (declared <$> DECLARE_ASN1_ITEM type) →
  takes sig (M_ASN1_free_of type) [points_to_object t] Void.
Proof using All.
  intros Et Hit%item_in_scope ts. unfold macro_type. cbn [macro_params macro_body M_ASN1_free_of].
  destruct ts as [|a [|? ts]]; try reflexivity. cbn -[type_of forallb zip Nat.eqb].
  rewrite call_type_of; erewrite (in_scope_named _ _ _ _ Hlib) by reflexivity; cbn -[accepts].
  rewrite !accepts_cons accepts_nil Et object_argument; [|done].
  assert (∀ env, argument_type env (ASN1_ITEM_rptr type) (Ptr (Const (TypeName "ASN1_ITEM"))) = true) as Hi.
  { intros env. unfold argument_type, ASN1_ITEM_rptr. cbn -[String.append assignable]. rewrite Hit. cbn -[assignable].
    apply assignable_refl. }
  rewrite Hi. cbn -[points_to_object]. by rewrite andb_true_r.
Qed.
Lemma M_ASN1_new_of_takes type :
  TypeName type = t → in_scope sig (declared <$> DECLARE_ASN1_ITEM type) → takes sig (M_ASN1_new_of type) [] (Ptr t).
Proof using All.
  intros <- Hit%item_in_scope [|a ts]; [|done]. unfold macro_type. cbn -[type_of String.append].
  change (type_of sig ?env (Cast ?u (Call ?f ?es))) with
    (t' ← type_of sig env (Call f es); if castable t' u then Some u else None).
  rewrite call_type_of; erewrite (in_scope_named _ _ _ _ Hlib) by reflexivity; cbn -[accepts castable].
  rewrite accepts_cons accepts_nil. unfold argument_type, ASN1_ITEM_rptr. cbn -[String.append assignable castable].
  rewrite Hit. cbn -[assignable castable]. by rewrite assignable_refl.
Qed.
End takes.

(** A macro evaluates its arguments once each, in the order of the compiler, and
    passes them on. *)
Definition passes_on (m : cmacro) (target : string) : Prop :=
  ∀ (O : ArgumentOrder) (S V : Type) (value_of : constant → V) (lib : string → list V → M S V) (inline : string → option cfun) args s,
    inline target = None → length args = length (macro_params m) →
    eval_macro value_of lib inline m args s = (vs ← eval_arguments args; lib target vs) s.

Lemma callee_passes_on m target :
  NoDup (macro_params m) → (∀ inline, inline target = None → callee inline (macro_body m) = Some (target, macro_params m)) →
  passes_on m target.
Proof. intros Hd Hc O S V value_of lib inline args s Hn Ha. apply eval_macro_callee; auto. Qed.
Ltac passes_on := apply callee_passes_on; [by apply (bool_decide_eq_true_1 (NoDup _))|by intros inline Hn; cbn; rewrite Hn].

Lemma checked_macros_pass_on t b :
  passes_on (ASN1_dup_of t) "ASN1_dup" ∧
  defined_unless (b "OPENSSL_NO_STDIO") (ASN1_d2i_fp_of b t) (λ m, passes_on m "ASN1_d2i_fp") ∧
  defined_unless (b "OPENSSL_NO_STDIO") (ASN1_i2d_fp_of b t) (λ m, passes_on m "ASN1_i2d_fp") ∧
  passes_on (ASN1_d2i_bio_of t) "ASN1_d2i_bio" ∧ passes_on (ASN1_i2d_bio_of t) "ASN1_i2d_bio".
Proof.
  unfold defined_unless, ASN1_d2i_fp_of, ASN1_i2d_fp_of.
  split_and!; [|destruct (b "OPENSSL_NO_STDIO"); [done|eexists; split; [done|]]..| |]; passes_on.
Qed.

(** The macros that find the item of a type call its function, which only returns
    it. *)
Lemma item_macros_pass_on type (O : ArgumentOrder) (S V : Type) (value_of : constant → V) (lib : string → list V → M S V)
    (inline : string → option cfun) (it : V) :
  inline (type +:+ "_it") = None → (∀ s, lib (type +:+ "_it") [] s = Ret (it, s)) →
  (inline "ASN1_item_new" = None → ∀ s, eval_macro value_of lib inline (M_ASN1_new_of type) [] s = lib "ASN1_item_new" [it] s) ∧
  (inline "ASN1_item_free" = None → ∀ x s,
     eval_macro value_of lib inline (M_ASN1_free_of type) [x] s = (v ← x; lib "ASN1_item_free" [v; it]) s).
Proof.
  intros Hi Hit.
  assert (∀ env s, eval_with value_of (call value_of lib inline) env (ASN1_ITEM_rptr type) s = Ret (it, s)) as Hr.
  { intros env s. cbn -[String.append]. unfold mbind, M_bind. rewrite eval_arguments_nil. unfold call. by rewrite Hi. }
  split.
  - intros Hn s. unfold eval_macro. cbn -[ASN1_ITEM_rptr]. unfold mbind, M_bind.
    rewrite (eval_arguments_pure _ [it]); [|by repeat constructor]. unfold call. by rewrite Hn.
  - intros Hn x s. unfold eval_macro. cbn -[ASN1_ITEM_rptr]. unfold mbind, M_bind.
    rewrite (eval_arguments_value_last _ _ it); [|done]. unfold mbind, M_bind, mret, M_ret, named. cbn.
    destruct (x s) as [[v s']| |]; [|done..]. unfold call. by rewrite Hn.
Qed.
