(* ===== verification/CodecModels.v ===== *)
(** * The library behind the functions of the PEM macros

    [PemLibrary] has what is documented of the functions that the generated ones
    call, for a library that has the memory it needs and files that take what is
    written. *)

From S2P Require Import Prelude TypedMacros TypedMacrosFacts SafeStack Asn1Macros PemMacros CodecFacts.
From stdpp Require Import strings ssreflect.
Local Open Scope string_scope.
Local Open Scope list_scope.

(** ** PEM objects *)

(** A PEM object of a file or BIO: the name that begins it, the password that
    opens it, if it is encrypted, and the encoding of the object in it. *)
Definition pem_entry (K : Type) : Type := string * option K * list Z.

Section entries.
Context {K : Type} (matches : string → string → bool).

(** The next object with a name that is asked for, and what comes after it. *)
Fixpoint next_entry (asked : string) (l : list (pem_entry K)) : option (pem_entry K) * list (pem_entry K) :=
  match l with
  | [] => (None, [])
  | e :: l => if matches asked e.1.1 then (Some e, l) else next_entry asked l
  end.
End entries.

(** ** The library *)

Section linked.
Context `{!ArgumentOrder} {S V : Type} (constant_of : constant → V) (library : string → list V → M S V) (program : string → option cfun).

(** The functions [i2d] and [d2i] of the program encode and decode by an item. *)
Definition encodes_with (i2d : string) (it : V) : Prop :=
  ∀ x out s, call constant_of library program i2d [x; out] s = library "ASN1_item_i2d" [x; out; it] s.
Definition decodes_with (d2i : string) (it : V) : Prop :=
  ∀ a p len s, call constant_of library program d2i [a; p; len] s = library "ASN1_item_d2i" [a; p; len; it] s.
End linked.

(** [program] is what the library calls back. [der it x] is the encoding of the
    object [x] by the item [it], [valid it] says which bytes it decodes, and
    [entries b] are the PEM objects left in the file or BIO [b]. [seal] finds the
    password for a cipher, from [kstr] and [klen] or from the callback [cb] and
    its argument [u], and [opens] the one to read with. *)
Class PemLibrary (O : ArgumentOrder) (S V K : Type) : Type := {
  constant_of : constant → V;
  library : string → list V → M S V;
  program : string → option cfun;
  der : V → V → S → option (list Z);
  valid : V → list Z → bool;
  entries : V → S → list (pem_entry K);
  seal : V → V → V → V → V → option (option K);
  opens : V → V → option K → bool;
  matches : string → string → bool;
  der_valid it x s d : der it x s = Some d → valid it d = true;
  seal_null kstr klen cb u : seal (constant_of CNull) kstr klen cb u = Some None;
  opens_plain cb u : opens cb u None = true;
  matches_refl label : matches label label = true;
  PEM_ASN1_write_law w i2d it label out x enc kstr klen cb u s d k :
    w ∈ ["PEM_ASN1_write_bio"; "PEM_ASN1_write"] → encodes_with constant_of library program i2d it →
    der it x s = Some d → seal enc kstr klen cb u = Some k →
    ∃ s', library w [constant_of (CFunction i2d); constant_of (CString label); out; x; enc; kstr; klen; cb; u] s =
            Ret (constant_of (CInt 1), s') ∧
      entries out s' = entries out s ++ [(label, k, d)] ∧
      (∀ it x, der it x s' = der it x s);
  PEM_ASN1_read_law r d2i it label b cb u s :
    r ∈ ["PEM_ASN1_read_bio"; "PEM_ASN1_read"] → decodes_with constant_of library program d2i it →
    ∃ y s', library r [constant_of (CFunction d2i); constant_of (CString label); b; constant_of CNull; cb; u] s =
              Ret (y, s') ∧
      entries b s' = (next_entry matches label (entries b s)).2 ∧
      (∀ it x d, der it x s = Some d → der it x s' = Some d) ∧
      match (next_entry matches label (entries b s)).1 with
      | Some (_, k, d) => if opens cb u k && valid it d then der it y s' = Some d else y = constant_of CNull
      | None => y = constant_of CNull
      end;
}.

(** The program's functions, linked with the library. *)
Definition run `{PemLibrary St V K} (f : string) (vs : list V) : M St V := call constant_of library program f vs.

(** ** The functions of a type *)

Inductive pem_macro : Type := rw | rw_const | rw_cb.
(** The arguments of a macro that implements functions of PEM, and the item that
    [d2i_asn1] and [i2d_asn1] are implemented with. *)
Record codec : Type := Codec {
  c_macro : pem_macro;
  c_name : string;
  c_type : string;
  c_str : string;
  c_asn1 : string;
  c_item : string;
}.
Definition pem_functions (b : build) (c : codec) : option (list cfun) :=
  match c_macro c with
  | rw => Some (IMPLEMENT_PEM_rw b (c_name c) (c_type c) (c_str c) (c_asn1 c))
  | rw_const => IMPLEMENT_PEM_rw_const b (c_name c) (c_type c) (c_str c) (c_asn1 c)
  | rw_cb => Some (IMPLEMENT_PEM_rw_cb b (c_name c) (c_type c) (c_str c) (c_asn1 c))
  end.
Definition codec_functions (b : build) (c : codec) : option (list cfun) :=
  fs ← pem_functions b c; Some (fs ++ IMPLEMENT_ASN1_FUNCTIONS_fname (c_type c) (c_item c) (c_asn1 c)).

(** The program has the functions, and [it] is the item that they name. *)
Definition has_codec `{PemLibrary St V K} (b : build) (c : codec) (it : V) : Prop :=
  (∃ fs, codec_functions b c = Some fs ∧ Forall (λ f, program (fun_name f) = Some f) fs) ∧
  ∀ s, library (c_item c +:+ "_it") [] s = Ret (it, s).

(** The functions for files or for BIOs. *)
Definition write_name (fp : bool) (c : codec) : string := (if fp then "PEM_write_" else "PEM_write_bio_") +:+ c_name c.
Definition read_name (fp : bool) (c : codec) : string := (if fp then "PEM_read_" else "PEM_read_bio_") +:+ c_name c.

(** An object to write, with the arguments for a cipher, which only the macros
    with a callback pass on, and those to read it. *)
Record message (V : Type) : Type := Message {
  m_codec : codec;
  m_item : V;
  m_object : V;
  m_cipher : V * V * V * V * V;
  m_reader : V * V;
}.
Arguments Message {V}.
Arguments m_codec {V}.
Arguments m_item {V}.
Arguments m_object {V}.
Arguments m_cipher {V}.
Arguments m_reader {V}.

Definition pem_write `{PemLibrary St V K} (fp : bool) (out : V) (m : message V) : M St V :=
  let '(enc, kstr, klen, cb, u) := m_cipher m in
  run (write_name fp (m_codec m))
    ([out; m_object m] ++ match c_macro (m_codec m) with rw_cb => [enc; kstr; klen; cb; u] | _ => [] end).
Definition pem_read `{PemLibrary St V K} (fp : bool) (b : V) (m : message V) : M St V :=
  run (read_name fp (m_codec m)) [b; constant_of CNull; (m_reader m).1; (m_reader m).2].

(** The password that an object is written with. *)
Definition sealed `{PemLibrary St V K} (m : message V) : option (option K) :=
  let '(enc, kstr, klen, cb, u) := m_cipher m in
  match c_macro (m_codec m) with rw_cb => seal enc kstr klen cb u | _ => Some None end.

(** ** Facts on the functions *)

Lemma call_defined `{!ArgumentOrder} {S V} (value_of : constant → V) (lib : string → list V → M S V) inline f g vs :
  inline f = Some g → call value_of lib inline f vs = call_with value_of lib g vs.
Proof. unfold call. by intros ->. Qed.

Section pem.
Context `{PemLibrary St V K} (b : build) (fp : bool) (Hfp : fp && b "OPENSSL_NO_STDIO" = false) (c : codec) (it : V) (Hc : has_codec b c it).

Local Lemma codec_nth fs i f : codec_functions b c = Some fs → fs !! i = Some f → program (fun_name f) = Some f.
Proof using Hc.
  destruct Hc as [(gs & -> & Hf) _]. intros [= <-] Hi%list_elem_of_lookup_2. rewrite Forall_forall in Hf. by apply Hf.
Qed.
Local Lemma asn1_nth i f :
  IMPLEMENT_ASN1_FUNCTIONS_fname (c_type c) (c_item c) (c_asn1 c) !! i = Some f → program (fun_name f) = Some f.
Proof using Hc.
  destruct Hc as [(gs & Hg & Hf) _]. unfold codec_functions in Hg. destruct (pem_functions b c) as [fs|]; [|done].
  injection Hg as <-. intros Hi%list_elem_of_lookup_2. rewrite Forall_forall in Hf. apply Hf, elem_of_app. by right.
Qed.

Local Ltac call_asn1 i vs :=
  erewrite call_defined; [|exact (asn1_nth i _ eq_refl)];
  unfold call_with; cbn -[String.append eval_arguments]; unfold mbind, M_bind;
  rewrite (eval_arguments_pure _ vs); [done|];
  repeat constructor; intros s'; cbn -[String.append]; unfold mbind, M_bind; rewrite eval_arguments_nil; apply Hc.

(** Each function of the ASN.1 macros calls the library's with the item. *)
Lemma i2d_encodes : encodes_with constant_of library program ("i2d_" +:+ c_asn1 c) it.
Proof using Hc. intros x out s. call_asn1 1 [x; out; it]. Qed.
Lemma d2i_decodes : decodes_with constant_of library program ("d2i_" +:+ c_asn1 c) it.
Proof using Hc. intros a p len s. call_asn1 0 [a; p; len; it]. Qed.
Lemma new_calls s : run (c_asn1 c +:+ "_new") [] s = library "ASN1_item_new" [it] s.
Proof using Hc. unfold run. call_asn1 2 [it]. Qed.
Lemma free_calls x s : run (c_asn1 c +:+ "_free") [x] s = library "ASN1_item_free" [x; it] s.
Proof using Hc. unfold run. call_asn1 3 [x; it]. Qed.

(** And those of the PEM macros pass on the functions, the name and what they are
    called with. *)
Definition write_target : string := if fp then "PEM_ASN1_write" else "PEM_ASN1_write_bio".
Definition read_target : string := if fp then "PEM_ASN1_read" else "PEM_ASN1_read_bio".
Definition cipher_arguments (m : message V) : list V :=
  let '(enc, kstr, klen, cb, u) := m_cipher m in
  match c_macro c with
  | rw_cb => [enc; kstr; klen; cb; u]
  | _ => [constant_of CNull; constant_of CNull; constant_of (CInt 0); constant_of CNull; constant_of CNull]
  end.

(** The functions, which are the same for [rw] and [rw_const]. *)
Local Lemma pem_defined fs i f :
  fs = (match c_macro c with
        | rw_cb => IMPLEMENT_PEM_rw_cb b (c_name c) (c_type c) (c_str c) (c_asn1 c)
        | _ => IMPLEMENT_PEM_rw b (c_name c) (c_type c) (c_str c) (c_asn1 c)
        end) →
  fs !! i = Some f → program (fun_name f) = Some f.
Proof using Hc.
  intros -> Hi. destruct Hc as [(gs & Hgs & Hf) _]. rewrite Forall_forall in Hf. apply Hf.
  apply list_elem_of_lookup_2 in Hi. revert Hgs. unfold codec_functions, pem_functions.
  destruct (pem_const_macros b (c_asn1 c) (c_name c) (c_type c) (c_str c)) as [Hw _]. unfold defined_unless in Hw.
  destruct (c_macro c); [intros Hgs%(inj Some); rewrite -Hgs; apply elem_of_app; by left| |
    intros Hgs%(inj Some); rewrite -Hgs; apply elem_of_app; by left].
  destruct (b "OPENSSL_NO_DEPRECATED_3_0"); [by rewrite Hw|]. destruct Hw as (ws & -> & ->).
  intros Hgs%(inj Some). rewrite -Hgs. apply elem_of_app. by left.
Qed.

Local Ltac call_pem i :=
  pose proof (λ f, pem_defined _ i f eq_refl) as Hn;
  unfold IMPLEMENT_PEM_rw, IMPLEMENT_PEM_rw_cb, IMPLEMENT_PEM_read, IMPLEMENT_PEM_write, IMPLEMENT_PEM_write_cb,
    IMPLEMENT_PEM_read_fp, IMPLEMENT_PEM_write_fp, IMPLEMENT_PEM_write_cb_fp in Hn;
  destruct fp, (b "OPENSSL_NO_STDIO"), (c_macro c); try done;
  (erewrite call_defined; [|exact (Hn _ eq_refl)]; unfold call_with; cbn -[String.append eval_arguments];
   unfold mbind, M_bind; erewrite eval_arguments_pure; [|by repeat (constructor; [intros ?; reflexivity|])]; done).

Lemma pem_write_calls out m s :
  m_codec m = c →
  pem_write fp out m s = library write_target
    ([constant_of (CFunction ("i2d_" +:+ c_asn1 c)); constant_of (CString (c_str c)); out; m_object m] ++
     cipher_arguments m) s.
Proof using Hc Hfp.
  intros Hm. unfold pem_write, cipher_arguments, write_target, write_name, run. rewrite Hm.
  destruct (m_cipher m) as [[[[enc kstr] klen] cb] u].
  call_pem (if b "OPENSSL_NO_STDIO" then 1 else if fp then 3 else 2).
Qed.

Lemma pem_read_calls bp m s :
  m_codec m = c →
  pem_read fp bp m s = library read_target
    [constant_of (CFunction ("d2i_" +:+ c_asn1 c)); constant_of (CString (c_str c)); bp; constant_of CNull;
     (m_reader m).1; (m_reader m).2] s.
Proof using Hc Hfp.
  intros Hm. unfold pem_read, read_target, read_name, run. rewrite Hm.
  call_pem (if b "OPENSSL_NO_STDIO" then 0 else if fp then 1 else 0).
Qed.

(** So they read and write. *)
Lemma pem_write_correct out m s d k :
  m_codec m = c → der it (m_object m) s = Some d → sealed m = Some k →
  ∃ s', pem_write fp out m s = Ret (constant_of (CInt 1), s') ∧
    entries out s' = entries out s ++ [(c_str c, k, d)] ∧ (∀ it x, der it x s' = der it x s).
Proof using Hc Hfp.
  intros Hm Hd Hk. rewrite pem_write_calls //. revert Hk. unfold sealed, cipher_arguments. rewrite Hm.
  destruct (m_cipher m) as [[[[enc kstr] klen] cb] u].
  assert (write_target ∈ ["PEM_ASN1_write_bio"; "PEM_ASN1_write"]) as Hw.
  { unfold write_target. destruct fp; [right; left|left]. }
  intros Hk. destruct (c_macro c); (eapply PEM_ASN1_write_law; [done|apply i2d_encodes|done|]);
    first [done|injection Hk as <-; apply seal_null].
Qed.

Lemma pem_read_correct bp m s :
  m_codec m = c →
  ∃ y s', pem_read fp bp m s = Ret (y, s') ∧ entries bp s' = (next_entry matches (c_str c) (entries bp s)).2 ∧
    (∀ it x d, der it x s = Some d → der it x s' = Some d) ∧
    match (next_entry matches (c_str c) (entries bp s)).1 with
    | Some (_, k, d) =>
        if opens (m_reader m).1 (m_reader m).2 k && valid it d then der it y s' = Some d else y = constant_of CNull
    | None => y = constant_of CNull
    end.
Proof using Hc Hfp.
  intros Hm. rewrite pem_read_calls //. apply PEM_ASN1_read_law; [|apply d2i_decodes].
  unfold read_target. destruct fp; [right; left|left].
Qed.
End pem.

(** ** A library *)

(** A small library, to run the functions with: objects are bytes with the item
    that they belong to, and a buffer takes what is encoded. *)
Module PemModel.

(** The order of the arguments. *)
#[local] Existing Instance right_to_left.

Inductive value : Type :=
| VNull
| VInt (z : Z)
| VString (s : string)
| VFunction (f : string)
| VSize (t : ctype)
| VObject (n : nat)
| VItem (i : string)
| VStream (n : nat)
| VPassword (p : string)
| VBuffer.
#[export] Instance value_eq_dec : EqDecision value.
Proof. solve_decision. Defined.

Record state : Type := State {
  heap : list (string * list Z);
  streams : value → list (pem_entry string);
  buffer : list Z;
}.

Definition value_of (c : constant) : value :=
  match c with
  | CNull => VNull | CInt z => VInt z | CString s => VString s | CFunction f => VFunction f | CSizeof t => VSize t
  end.
Definition set_stream (b : value) (l : list (pem_entry string)) (s : state) : state :=
  State (heap s) (λ b', if decide (b' = b) then l else streams s b') (buffer s).

Definition valid_der (it : value) (d : list Z) : bool := match it, d with VItem _, _ :: _ => true | _, _ => false end.
Definition object_der (it x : value) (s : state) : option (list Z) :=
  match it, x with
  | VItem i, VObject n => '(j, d) ← heap s !! n; if bool_decide (i = j) && valid_der it d then Some d else None
  | _, _ => None
  end.

Definition items (f : string) (vs : list value) : M state value := λ s,
  if String.eqb f "ASN1_item_i2d" then
    match vs with
    | [x; VBuffer; it] =>
        match object_der it x s with
        | Some d => Ret (VInt (Z.of_nat (length d)), State (heap s) (streams s) d)
        | None => Ret (VInt (-1), s)
        end
    | _ => Undef
    end
  else if String.eqb f "ASN1_item_d2i" then
    match vs with
    | [_; VBuffer; _; it] =>
        match it with
        | VItem i =>
            if valid_der it (buffer s)
            then Ret (VObject (length (heap s)), State (heap s ++ [(i, buffer s)]) (streams s) (buffer s))
            else Ret (VNull, s)
        | _ => Ret (VNull, s)
        end
    | _ => Undef
    end
  else match vs with
  | [] => if String.eqb f "X509_it" then Ret (VItem "X509", s)
          else if String.eqb f "X509_REQ_it" then Ret (VItem "X509_REQ", s) else Undef
  | _ => Undef
  end.

Definition X509_codec : codec := Codec rw "X509" "X509" "CERTIFICATE" "X509" "X509".
Definition X509_REQ_codec : codec := Codec rw_cb "X509_REQ" "X509_REQ" "CERTIFICATE REQUEST" "X509_REQ" "X509_REQ".
(** A build with everything, and the functions of two types in it. *)
Definition everything : build := λ _, false.
Definition functions : list cfun :=
  default [] (codec_functions everything X509_codec) ++ default [] (codec_functions everything X509_REQ_codec).
Definition linked (f : string) : option cfun := named ((λ g, (fun_name g, g)) <$> functions) f.

(** A password is given, or found by the callback. *)
Definition find_seal (enc kstr klen cb u : value) : option (option string) :=
  match enc, kstr, cb with
  | VNull, _, _ => Some None
  | _, VPassword p, _ => Some (Some p)
  | _, VNull, VPassword p => Some (Some p)
  | _, _, _ => None
  end.
Definition opens_with (cb u : value) (k : option string) : bool :=
  match k, cb with
  | None, _ => true
  | Some p, VPassword q => String.eqb p q
  | _, _ => false
  end.
Definition label_matches (asked found : string) : bool :=
  String.eqb asked found || String.eqb asked "CERTIFICATE" && String.eqb found "X509 CERTIFICATE".

Definition append_entry (out : value) (e : string * option string) : M state value := λ s,
  Ret (VInt 1, set_stream out (streams s out ++ [(e, buffer s)]) s).
Definition pem_asn1_write (i2d label out x enc kstr klen cb u : value) : M state value :=
  match i2d, label, find_seal enc kstr klen cb u with
  | VFunction f, VString l, Some k =>
      n ← call value_of items linked f [x; VBuffer];
      match n with VInt (Zpos _) => append_entry out (l, k) | _ => mret (VInt 0) end
  | _, _, _ => mret (VInt 0)
  end.
Definition pem_asn1_read (d2i label b cb u : value) : M state value :=
  match d2i, label with
  | VFunction f, VString l => λ s,
      match next_entry label_matches l (streams s b) with
      | (Some (_, k, d), rest) =>
          let s := State (heap s) (streams (set_stream b rest s)) d in
          if opens_with cb u k then call value_of items linked f [VNull; VBuffer; VInt (Z.of_nat (length d))] s else Ret (VNull, s)
      | (None, rest) => Ret (VNull, set_stream b rest s)
      end
  | _, _ => mret VNull
  end.
Definition lib (f : string) (vs : list value) : M state value :=
  if String.eqb f "PEM_ASN1_write_bio" || String.eqb f "PEM_ASN1_write" then
    match vs with
    | [i2d; label; out; x; enc; kstr; klen; cb; u] => pem_asn1_write i2d label out x enc kstr klen cb u
    | _ => undef
    end
  else if String.eqb f "PEM_ASN1_read_bio" || String.eqb f "PEM_ASN1_read" then
    match vs with
    | [d2i; label; b; VNull; cb; u] => pem_asn1_read d2i label b cb u
    | _ => undef
    end
  else items f vs.

Lemma linked_in f g : linked f = Some g → g ∈ functions ∧ f = fun_name g.
Proof.
  unfold linked. generalize functions. intros l. induction l as [|h l IH]; cbn; [done|].
  destruct (String.eqb_spec f (fun_name h)) as [->|]; [intros [= <-]; split; [left|done]|].
  intros [??]%IH. split; [by right|done].
Qed.

(** Only the functions that call it are like the library's. *)
Lemma encodes_items f it x s d :
  encodes_with value_of lib linked f it → object_der it x s = Some d →
  call value_of items linked f [x; VBuffer] s = Ret (VInt (Z.of_nat (length d)), State (heap s) (streams s) d).
Proof.
  intros Hf Hd. specialize (Hf x VBuffer s). revert Hf. unfold call.
  assert (lib "ASN1_item_i2d" [x; VBuffer; it] s = Ret (VInt (Z.of_nat (length d)), State (heap s) (streams s) d)) as ->.
  { cbn. by rewrite Hd. }
  assert (Z.of_nat (length d) ≠ 0%Z ∧ Z.of_nat (length d) ≠ (-1)%Z) as [Hz Hz'].
  { destruct it, x; cbn in Hd; try done. destruct (heap s !! n) as [[j e]|]; cbn in Hd; [|done].
    destruct (bool_decide _); [|done]. destruct e; [done|]. injection Hd as <-. done. }
  destruct (linked f) as [g|] eqn:Hg.
  - apply linked_in in Hg as [Hg _]. revert Hg. generalize (Z.of_nat (length d)) Hz Hz'. clear.
    unfold functions, codec_functions, pem_functions. intros z Hz Hz' Hg. cbn in Hg.
    repeat (apply elem_of_cons in Hg as [->|Hg];
      [vm_compute; congruence|]).
    by apply elem_of_nil in Hg.
  - intros Hf. exfalso. revert Hf. unfold lib, items. by repeat case_match.
Qed.
Lemma decodes_items f it n s :
  decodes_with value_of lib linked f it →
  call value_of items linked f [VNull; VBuffer; VInt n] s = items "ASN1_item_d2i" [VNull; VBuffer; VInt n; it] s.
Proof.
  intros Hf. specialize (Hf VNull VBuffer (VInt n) s). revert Hf. unfold call.
  change (lib "ASN1_item_d2i" [VNull; VBuffer; VInt n; it] s) with (items "ASN1_item_d2i" [VNull; VBuffer; VInt n; it] s).
  assert (∃ y s', items "ASN1_item_d2i" [VNull; VBuffer; VInt n; it] s = Ret (y, s') ∧ ∀ z, y ≠ VInt z) as (y & s' & -> & Hy).
  { unfold items. cbn. destruct it; eauto. destruct (valid_der _ _); eauto. }
  destruct (linked f) as [g|] eqn:Hg.
  - apply linked_in in Hg as [Hg _]. revert Hg Hy. clear.
    unfold functions, codec_functions, pem_functions. intros Hg Hy. cbn in Hg.
    repeat (apply elem_of_cons in Hg as [->|Hg]; [vm_compute; congruence|]).
    by apply elem_of_nil in Hg.
  - intros Hf. exfalso. revert Hf. unfold lib, items. repeat case_match; try congruence; intros [= <- <-]; by eapply Hy.
Qed.

#[export] Program Instance library_laws : PemLibrary right_to_left state value string := {|
  constant_of := value_of; library := lib; program := linked; der := object_der; valid := valid_der;
  entries := λ b s, streams s b; seal := find_seal; opens := opens_with; matches := label_matches;
|}.
Next Obligation.
  intros it x s d. cbn. unfold object_der. destruct it, x; try done. destruct (heap s !! n) as [[j e]|]; cbn; [|done].
  destruct (bool_decide _); cbn; [|done]. destruct e; [done|]. by intros [= <-].
Qed.
Next Obligation. done. Qed.
Next Obligation. by destruct cb. Qed.
Next Obligation. intros label. unfold label_matches. by rewrite String.eqb_refl. Qed.
Next Obligation.
  intros w i2d it label out x enc kstr klen cb u s d k Hw Hi Hd Hk.
  exists (set_stream out (streams s out ++ [(label, k, d)]) (State (heap s) (streams s) d)). split_and!.
  - assert (lib w [VFunction i2d; VString label; out; x; enc; kstr; klen; cb; u] =
            pem_asn1_write (VFunction i2d) (VString label) out x enc kstr klen cb u) as Hl by set_solver.
    cbn. rewrite Hl. unfold pem_asn1_write. rewrite Hk. unfold mbind, M_bind. rewrite (encodes_items _ _ _ _ _ Hi Hd).
    destruct it, x; cbn in Hd; try done. destruct (heap s !! n) as [[j e]|]; cbn in Hd; [|done].
    destruct (bool_decide _); [|done]. destruct e; [done|]. injection Hd as <-. done.
  - cbn. by rewrite decide_True.
  - done.
Qed.
Next Obligation.
  intros r d2i it label b cb u s Hr Hd.
  assert (lib r [VFunction d2i; VString label; b; VNull; cb; u] =
            pem_asn1_read (VFunction d2i) (VString label) b cb u) as Hl by set_solver.
  cbn. rewrite Hl. unfold pem_asn1_read.
  destruct (next_entry label_matches label (streams s b)) as [[[[l k] d]|] rest]; cbn [fst snd].
  2: { eexists _, _. split_and!; [done| |done..]. cbn. by rewrite decide_True. }
  destruct (opens_with cb u k); cbn [andb].
  2: { eexists _, _. split_and!; [done| |done..]. cbn. by rewrite decide_True. }
  rewrite (decodes_items _ _ _ _ Hd). unfold items. cbn.
  destruct (valid_der it d) eqn:Hv.
  - destruct it; try done. eexists _, _. split_and!; [done| | |].
    + cbn. by rewrite decide_True.
    + intros it x e. cbn. destruct it, x; try done. cbn. destruct (heap s !! n) as [?|] eqn:E; [|done].
      rewrite lookup_app_l; [by rewrite E|]. by apply lookup_lt_Some in E.
    + cbn. rewrite lookup_app_r // Nat.sub_diag. cbn. rewrite bool_decide_true //. cbn in Hv. by rewrite Hv.
  - destruct it; eexists _, _; (split_and!; [done| |done..]); cbn; by rewrite decide_True.
Qed.
End PemModel.
