(* ===== verification/CodecProperties.v ===== *)
(** * Properties of the functions of the ASN.1 and PEM macros

    The compiler accepts what the macros implement where what they declare is in
    scope, and nothing is declared twice; objects that are written can be read. *)

From S2P Require Import Prelude TypedMacros TypedMacrosFacts SafeStack Asn1Macros PemMacros Asn1Declarations CodecFacts CodecModels.
From stdpp Require Import strings ssreflect.
Local Open Scope string_scope.
Local Open Scope list_scope.

(** ** Sessions *)

Section sessions.
Context `{PemLibrary St V K} (bl : build) (fp : bool) (Hfp : fp && bl "OPENSSL_NO_STDIO" = false) (b : V).

(** The program has the functions for a message, whose object has an encoding,
    and the reader has the password that it is written with. *)
Definition ready (s : St) (m : message V) : Prop :=
  has_codec bl (m_codec m) (m_item m) ∧ is_Some (der (m_item m) (m_object m) s) ∧
  ∃ k, sealed m = Some k ∧ opens (m_reader m).1 (m_reader m).2 k = true.

Definition writes (s : St) (m : message V) (e : pem_entry K) : Prop :=
  e.1.1 = c_str (m_codec m) ∧ der (m_item m) (m_object m) s = Some e.2 ∧
  opens (m_reader m).1 (m_reader m).2 e.1.2 = true.

Lemma write_all ms s :
  Forall (ready s) ms →
  ∃ s' es, mapM (pem_write fp b) ms s = Ret (replicate (length ms) (constant_of (CInt 1)), s') ∧
    entries b s' = entries b s ++ es ∧ Forall2 (writes s) ms es ∧ ∀ it x, der it x s' = der it x s.
Proof using Hfp.
  revert s. induction ms as [|m ms IH]; intros s Hms.
  { exists s, []. by rewrite app_nil_r. }
  apply Forall_cons in Hms as [(Hc & [d Hd] & k & Hk & Ho) Hms].
  destruct (pem_write_correct bl fp Hfp _ _ Hc b m s d k) as (s1 & Hw & He & Hs); [done..|].
  destruct (IH s1) as (s2 & es & Hw2 & He2 & Hes & Hs2).
  { eapply Forall_impl; [exact Hms|]. intros m' (? & ? & ?). split_and!; [done| |done]. by rewrite Hs. }
  exists s2, ((c_str (m_codec m), k, d) :: es). split_and!.
  - cbn. unfold mbind, M_bind. rewrite Hw. unfold mbind, M_bind in Hw2. by rewrite Hw2.
  - by rewrite He2 He -app_assoc.
  - constructor; [done|]. eapply Forall2_impl; [exact Hes|]. intros m' e (? & ? & ?). split_and!; [done| |done].
    by rewrite -Hs.
  - intros it x. by rewrite Hs2.
Qed.

Lemma read_all ms es s0 s :
  Forall (λ m, has_codec bl (m_codec m) (m_item m)) ms → Forall2 (writes s0) ms es → entries b s = es →
  ∃ ys s', mapM (pem_read fp b) ms s = Ret (ys, s') ∧ entries b s' = [] ∧
    Forall2 (λ m y, der (m_item m) y s' = der (m_item m) (m_object m) s0) ms ys ∧
    ∀ it x d, der it x s = Some d → der it x s' = Some d.
Proof using Hfp.
  intros Hms Hes. revert s Hms. induction Hes as [|m [[l k] d] ms es (Hl & Hd & Ho) _ IH]; intros s Hms He.
  { by exists [], s. }
  apply Forall_cons in Hms as [Hc Hms]. cbn in Hl, Hd, Ho.
  destruct (pem_read_correct bl fp Hfp _ _ Hc b m s) as (y & s1 & Hr & He1 & Hs & Hy); [done|].
  rewrite He in He1, Hy. cbn in He1, Hy. subst l. rewrite matches_refl in He1, Hy. cbn in He1, Hy.
  rewrite Ho (der_valid _ _ _ _ Hd) in Hy.
  destruct (IH s1) as (ys & s2 & Hr2 & He2 & Hys & Hs2); [done..|].
  exists (y :: ys), s2. split_and!; [|done| |by eauto].
  - cbn. unfold mbind, M_bind. rewrite Hr. unfold mbind, M_bind in Hr2. by rewrite Hr2.
  - constructor; [|done]. rewrite Hd. by apply Hs2.
Qed.
End sessions.

(** ** Declarations *)





(** ** Theorems *)


(** C20: objects that the functions of [IMPLEMENT_PEM_rw], [IMPLEMENT_PEM_rw_const]
    or [IMPLEMENT_PEM_rw_cb] write to an empty file or BIO, of types whose [d2i_]
    and [i2d_] are those of [IMPLEMENT_ASN1_FUNCTIONS_fname], encrypted or not,
    are read back in order by the functions of the same macros: every write
    returns 1, every object that is read has the encoding that the written one
    had, and nothing is left. A function reads the next object whose name it
    asks for, skipping the others, and returns NULL if there is none, or it
    cannot be opened or decoded. The functions of the ASN.1 macros call the
    library's with the item. *)
Theorem pem_roundtrip `{PemLibrary St V K} bl fp b ms s :
  fp && bl "OPENSSL_NO_STDIO" = false → entries b s = [] → Forall (ready bl s) ms →
  (∃ s1 ys s2, mapM (pem_write fp b) ms s = Ret (replicate (length ms) (constant_of (CInt 1)), s1) ∧
     mapM (pem_read fp b) ms s1 = Ret (ys, s2) ∧
     Forall2 (λ m y, der (m_item m) y s2 = der (m_item m) (m_object m) s) ms ys ∧ entries b s2 = []) ∧
  Forall (λ m, let c := m_codec m in let it := m_item m in
    (∀ s, ∃ y s', pem_read fp b m s = Ret (y, s') ∧ entries b s' = (next_entry matches (c_str c) (entries b s)).2 ∧
       match (next_entry matches (c_str c) (entries b s)).1 with
       | Some (_, k, d) =>
           if opens (m_reader m).1 (m_reader m).2 k && valid it d then der it y s' = Some d else y = constant_of CNull
       | None => y = constant_of CNull
       end) ∧
    (∀ s, run (c_asn1 c +:+ "_new") [] s = library "ASN1_item_new" [it] s) ∧
    (∀ x s, run (c_asn1 c +:+ "_free") [x] s = library "ASN1_item_free" [x; it] s)) ms.
Proof.
  intros Hfp Hb Hms. split.
  - destruct (write_all bl fp Hfp b ms s Hms) as (s1 & es & Hw & He & Hes & Hs).
    destruct (read_all bl fp Hfp b ms es s s1) as (ys & s2 & Hr & He2 & Hys & _).
    + eapply Forall_impl; [exact Hms|]. by intros m [].
    + done.
    + by rewrite He Hb.
    + by exists s1, ys, s2.
  - eapply Forall_impl; [exact Hms|]. intros m (Hc & _). cbn. split_and!.
    + intros s'. destruct (pem_read_correct bl fp Hfp _ _ Hc b m s') as (y & s2 & ? & ? & _ & ?); [done|].
      by exists y, s2.
    + intros s'. by eapply new_calls.
    + intros x s'. by eapply free_calls.
Qed.

(** ** Examples *)

Import PemModel.


#[local] Existing Instance right_to_left.
Definition two_objects : state := State [("X509", [48; 3]%Z); ("X509_REQ", [48; 5; 1]%Z)] (λ _, []) [].
Definition two_messages : list (message value) :=
  [Message X509_codec (VItem "X509") (VObject 0) (VNull, VNull, VInt 0, VNull, VNull) (VNull, VNull);
   Message X509_REQ_codec (VItem "X509_REQ") (VObject 1) (VString "aes", VPassword "key", VInt 3, VNull, VNull)
     (VPassword "key", VNull)].
Lemma two_messages_ready : Forall (ready everything two_objects) two_messages.
Proof.
  apply Forall_cons; split; [|apply Forall_cons; split; [|constructor]];
    (split; [split; [eexists; split; [reflexivity|repeat constructor]|done]|]);
    (split; [by eexists|eexists; split; vm_compute; reflexivity]).
Qed.

Lemma pem_roundtrip_witness :
  ∃ s1 ys s2, mapM (pem_write true (VStream 0)) two_messages two_objects = Ret ([VInt 1; VInt 1], s1) ∧
    mapM (pem_read true (VStream 0)) two_messages s1 = Ret (ys, s2) ∧
    Forall2 (λ m y, object_der (m_item m) y s2 = object_der (m_item m) (m_object m) two_objects) two_messages ys.
Proof.
  destruct (@pem_roundtrip right_to_left state value string library_laws everything true (VStream 0) two_messages two_objects eq_refl eq_refl two_messages_ready)
    as [(s1 & ys & s2 & Hw & Hr & Hys & _) _].
  exists s1, ys, s2. split; [exact Hw|]. split; [exact Hr|exact Hys].
Defined.
