(* ===== verification/ObjSearch.v ===== *)
(** * Typed searches of [openssl/objects.h]

    The macros that declare and implement the search of a table of a type by a
    comparison function, on top of [OBJ_bsearch_], which works on untyped
    pointers. *)

From S2P Require Import Prelude TypedMacros Asn1Macros.
From stdpp Require Import strings.
Local Open Scope string_scope.
Local Open Scope list_scope.

Definition untyped_cmp : ctype := Fun2 Int (Ptr (Const Void)) (Ptr (Const Void)).
Definition OBJ_bsearch_prototypes : list (string * prototype) := [
  ("OBJ_bsearch_", (Ptr (Const Void), [Ptr (Const Void); Ptr (Const Void); Int; Int; Ptr untyped_cmp]));
  ("OBJ_bsearch_ex_", (Ptr (Const Void), [Ptr (Const Void); Ptr (Const Void); Int; Int; Ptr untyped_cmp; Int]))].

(** ** Declarations *)

Definition DECLARE_OBJ_BSEARCH_CMP_FN_scope (scope : string) (type1 type2 : ctype) (nm : string) : list declaration := [
  Decl "static" (Signature (nm +:+ "_cmp_BSEARCH_CMP_FN") Int [("a_", Ptr (Const Void)); ("b_", Ptr (Const Void))]);
  Decl "static" (Signature (nm +:+ "_cmp") Int [("a", Ptr (Const type1)); ("b", Ptr (Const type2))]);
  Decl scope (Signature ("OBJ_bsearch_" +:+ nm) (Ptr type2)
    [("key", Ptr type1); ("base", Ptr (Const type2)); ("num", Int)])].
Definition DECLARE_OBJ_BSEARCH_CMP_FN (type1 type2 : ctype) (cmp : string) : list declaration :=
  DECLARE_OBJ_BSEARCH_CMP_FN_scope "static" type1 type2 cmp.
Definition DECLARE_OBJ_BSEARCH_GLOBAL_CMP_FN (type1 type2 : ctype) (nm : string) : list declaration := [
  Decl "" (Signature ("OBJ_bsearch_" +:+ nm) (Ptr type2)
    [("key", Ptr type1); ("base", Ptr (Const type2)); ("num", Int)])].

(** ** Functions *)

(** Each function with its storage class. After them, the macros declare
    [dummy_prototype], to take the semicolon. *)
Definition IMPLEMENT_OBJ_BSEARCH_CMP_FN (type1 type2 : ctype) (nm : string) : list (string * cfun) := [
  ("static", CFun (nm +:+ "_cmp_BSEARCH_CMP_FN") Int [("a_", Ptr (Const Void)); ("b_", Ptr (Const Void))]
    (Call (nm +:+ "_cmp") [Local (Ptr (Const type1)) (Par "a_"); Local (Ptr (Const type2)) (Par "b_")]));
  ("static", CFun ("OBJ_bsearch_" +:+ nm) (Ptr type2) [("key", Ptr type1); ("base", Ptr (Const type2)); ("num", Int)]
    (Cast (Ptr type2) (Call "OBJ_bsearch_" [Par "key"; Par "base"; Par "num"; Lit (CSizeof type2);
       Lit (CFunction (nm +:+ "_cmp_BSEARCH_CMP_FN"))])))].
Definition IMPLEMENT_OBJ_BSEARCH_GLOBAL_CMP_FN (type1 type2 : ctype) (nm : string) : list (string * cfun) := [
  ("static", CFun (nm +:+ "_cmp_BSEARCH_CMP_FN") Int [("a_", Ptr (Const Void)); ("b_", Ptr (Const Void))]
    (Call (nm +:+ "_cmp") [Local (Ptr (Const type1)) (Par "a_"); Local (Ptr (Const type2)) (Par "b_")]));
  ("", CFun ("OBJ_bsearch_" +:+ nm) (Ptr type2) [("key", Ptr type1); ("base", Ptr (Const type2)); ("num", Int)]
    (Cast (Ptr type2) (Call "OBJ_bsearch_" [Par "key"; Par "base"; Par "num"; Lit (CSizeof type2);
       Lit (CFunction (nm +:+ "_cmp_BSEARCH_CMP_FN"))])))].

(** ** Macros *)

(** The macro reads two variables named after [cmp], to check their types. *)
Definition OBJ_bsearch (type1 type2 : ctype) (cmp : string) : cmacro := Macro "OBJ_bsearch" ["key"; "base"; "num"]
  (Cast (Ptr type2) (Call "OBJ_bsearch_" [CHECKED_PTR_OF type1 (Par "key"); CHECKED_PTR_OF type2 (Par "base");
     Par "num"; Lit (CSizeof type2);
     Comma (Cast Void (CHECKED_PTR_OF type1 (Par (cmp +:+ "_type_1"))))
       (Comma (Cast Void (CHECKED_PTR_OF type2 (Par (cmp +:+ "_type_2")))) (Lit (CFunction (cmp +:+ "_BSEARCH_CMP_FN"))))])).
(** Here the parentheses leave [flags] outside the call, and [(void)type_2] is
    assigned to. *)
Definition OBJ_bsearch_ex (type1 type2 : ctype) (cmp : string) : cmacro := Macro "OBJ_bsearch_ex" ["key"; "base"; "num"; "flags"]
  (Comma
     (Cast (Ptr type2) (Call "OBJ_bsearch_ex_" [CHECKED_PTR_OF type1 (Par "key"); CHECKED_PTR_OF type2 (Par "base");
        Par "num"; Lit (CSizeof type2);
        Comma (Cast Void (CHECKED_PTR_OF type1 (Par (cmp +:+ "_type_1"))))
          (Comma (Assign (Cast Void (Par "type_2")) (CHECKED_PTR_OF type2 (Par (cmp +:+ "_type_2"))))
             (Lit (CFunction (cmp +:+ "_BSEARCH_CMP_FN"))))]))
     (Par "flags")).
