(* ===== verification/ObjSearchProperties.v ===== *)
(** * Properties of typed searches

    A search by the implemented functions finds the element that compares equal
    to the key, and the compiler accepts them for the declared types and [void]. *)

From S2P Require Import Prelude TypedMacros TypedMacrosFacts Asn1Macros CodecFacts ObjSearch.
From stdpp Require Import strings ssreflect.
Local Open Scope string_scope.
Local Open Scope list_scope.

(** ** Types *)

Section types.
Local Arguments String.append : simpl never.
Local Arguments assignable : simpl never.
Local Arguments castable : simpl never.

Context (sig : string → option prototype) (Hlib : in_scope sig OBJ_bsearch_prototypes).
Context (type1 type2 : ctype) (nm : string) (H1 : object_type type1 = true) (H2 : object_type type2 = true).

Lemma const_from_void t : object_type t = true → assignable (Ptr (Const Void)) (Ptr (Const t)) = true.
Proof. intros (Hc & Hf & Hv & Hu)%object_facts. unfold assignable. cbn. by rewrite orb_true_r. Qed.
Lemma const_to_void t : object_type t = true → assignable (Ptr t) (Ptr (Const Void)) = true.
Proof. intros (Hc & Hf & Hv & Hu)%object_facts. unfold assignable. cbn. rewrite Hc Hf. cbn. by rewrite orb_true_r. Qed.

Lemma bsearch_in_scope :
  sig "OBJ_bsearch_" = Some (Ptr (Const Void), [Ptr (Const Void); Ptr (Const Void); Int; Int; Ptr untyped_cmp]) ∧
  sig "OBJ_bsearch_ex_" = Some (Ptr (Const Void), [Ptr (Const Void); Ptr (Const Void); Int; Int; Ptr untyped_cmp; Int]).
Proof. split; by apply (in_scope_named _ _ _ _ Hlib). Qed.

Lemma bsearch_implemented :
  in_scope sig (declared <$> DECLARE_OBJ_BSEARCH_CMP_FN type1 type2 nm) →
  implements sig (IMPLEMENT_OBJ_BSEARCH_CMP_FN type1 type2 nm).*2
    [Decl "static" (Signature (nm +:+ "_cmp") Int [("a", Ptr (Const type1)); ("b", Ptr (Const type2))])]
    (DECLARE_OBJ_BSEARCH_CMP_FN type1 type2 nm) ∧
  (stored <$> IMPLEMENT_OBJ_BSEARCH_CMP_FN type1 type2 nm) ⊆ (attributed <$> DECLARE_OBJ_BSEARCH_CMP_FN type1 type2 nm) ∧
  (IMPLEMENT_OBJ_BSEARCH_GLOBAL_CMP_FN type1 type2 nm).*2 = (IMPLEMENT_OBJ_BSEARCH_CMP_FN type1 type2 nm).*2 ∧
  (attributed <$> DECLARE_OBJ_BSEARCH_GLOBAL_CMP_FN type1 type2 nm) ⊆
    (stored <$> IMPLEMENT_OBJ_BSEARCH_GLOBAL_CMP_FN type1 type2 nm).
Proof.
  intros Hd. inversion Hd as [|? ? E1 Hd1]; subst. inversion Hd1 as [|? ? E2 Hd2]; subst. inversion Hd2 as [|? ? E3 _]; subst.
  cbn in E1, E2, E3. split_and!; [|set_solver|done|set_solver].
  split; [cbn; apply perm_skip, perm_swap|].
    pose proof (castable_pointer (Const Void) type2) as Hcast.
    repeat constructor; unfold well_typed; cbn.
    + rewrite E2. cbn. rewrite !const_from_void //. cbn. by rewrite !assignable_refl.
    + rewrite (proj1 bsearch_in_scope) E1. cbn.
      change (assignable ULong Int) with true. rewrite const_to_void // assignable_to_void !assignable_refl. cbn.
      rewrite Hcast. cbn. by rewrite assignable_refl.
Qed.

(** A checked variable in an argument. *)
Lemma comma_argument env t x e p :
  object_type t = true →
  argument_type sig env (Comma (Cast Void (CHECKED_PTR_OF t (Par x))) e) p =
    parameter env x (points_to_object t) && argument_type sig env e p.
Proof.
  intros Ht. unfold argument_type, parameter.
  change (type_of sig env (Comma ?a ?b)) with (type_of sig env a;; type_of sig env b).
  change (type_of sig env (Cast Void ?a)) with (t' ← type_of sig env a; if castable t' Void then Some Void else None).
  rewrite (CHECKED_PTR_OF_type sig t Ht false). cbn [type_of]. destruct (named env x) as [a|]; cbn -[points_to_object]; [|done].
  by destruct (points_to_object t a).
Qed.

(** The macro takes a key and a table of the types, if the variables that are
    named after the comparison have the types, too. *)
Lemma OBJ_bsearch_type env :
  sig (nm +:+ "_BSEARCH_CMP_FN") = Some (Int, [Ptr (Const Void); Ptr (Const Void)]) →
  type_of sig env (macro_body (OBJ_bsearch type1 type2 nm)) =
    if parameter env "key" (points_to_object type1) && (parameter env "base" (points_to_object type2) &&
       (parameter env "num" (λ n, assignable n Int) &&
       (parameter env (nm +:+ "_type_1") (points_to_object type1) && parameter env (nm +:+ "_type_2") (points_to_object type2))))
    then Some (Ptr type2) else None.
Proof.
  intros Hcmp. unfold OBJ_bsearch. cbn [macro_body].
  change (type_of sig env (Cast (Ptr type2) ?e)) with (t' ← type_of sig env e; if castable t' (Ptr type2) then Some (Ptr type2) else None).
  rewrite call_type_of (proj1 bsearch_in_scope). cbn [mbind option_bind].
  rewrite !accepts_cons accepts_nil !(object_argument sig) // !comma_argument // par_argument.
  assert (argument_type sig env (Lit (CSizeof type2)) Int = true) as -> by done.
  assert (argument_type sig env (Lit (CFunction (nm +:+ "_BSEARCH_CMP_FN"))) (Ptr untyped_cmp) = true) as ->.
  { unfold argument_type. cbn. rewrite Hcmp. cbn. apply assignable_refl. }
  rewrite !andb_true_r. cbn -[points_to_object]. by destruct (_ && _).
Qed.

Lemma OBJ_bsearch_ex_type env : type_of sig env (macro_body (OBJ_bsearch_ex type1 type2 nm)) = None.
Proof.
  unfold OBJ_bsearch_ex. cbn [macro_body].
  change (type_of sig env (Comma ?a ?b)) with (type_of sig env a;; type_of sig env b).
  change (type_of sig env (Cast (Ptr type2) ?e)) with (t' ← type_of sig env e; if castable t' (Ptr type2) then Some (Ptr type2) else None).
  rewrite call_type_of (proj2 bsearch_in_scope). cbn [mbind option_bind].
  by rewrite !accepts_cons /= !andb_false_r.
Qed.
End types.

(** ** Searches *)

(** [OBJ_bsearch_], as it is documented: [element base size i] is the address of
    the element [i] of a table, and [c] what the comparison of the key with each
    element returns, which is positive for those before the one that is equal. *)
Class SearchLibrary (O : ArgumentOrder) (S V : Type) : Type := {
  constant_of : constant → V;
  library : string → list V → M S V;
  program : string → option cfun;
  element : V → V → nat → V;
  OBJ_bsearch_law f key base n size c s :
    (∀ i s, i < n → call constant_of library program f [key; element base size i] s = Ret (constant_of (CInt (c i)), s)) →
    (∀ i j, i < j → j < n → (0 ≤ c j → 0 < c i)%Z) →
    ∃ r, library "OBJ_bsearch_" [key; base; constant_of (CInt (Z.of_nat n)); size; constant_of (CFunction f)] s = Ret (r, s) ∧
      ((∃ i, i < n ∧ c i = 0%Z ∧ r = element base size i) ∨ ((∀ i, i < n → c i ≠ 0%Z) ∧ r = constant_of CNull));
}.

Lemma call_program `{!ArgumentOrder} {S V} (value_of : constant → V) (lib : string → list V → M S V) inline f g vs :
  inline f = Some g → call value_of lib inline f vs = call_with value_of lib g vs.
Proof. unfold call. by intros ->. Qed.

(** The body of a function is a call, whose arguments have values. *)
Local Ltac call_body :=
  unfold call_with; cbn -[eval_arguments String.append]; unfold mbind, M_bind; erewrite eval_arguments_pure;
    [|by repeat (constructor; [intros ?; reflexivity|])].

Section search.
Context `{SearchLibrary St V} (type1 type2 : ctype) (nm : string).
Context (Hprogram : Forall (λ f, program (fun_name f) = Some f) (IMPLEMENT_OBJ_BSEARCH_CMP_FN type1 type2 nm).*2).

Lemma bsearch_finds key base n c s :
  let size := constant_of (CSizeof type2) in
  (∀ i s, i < n → library (nm +:+ "_cmp") [key; element base size i] s = Ret (constant_of (CInt (c i)), s)) →
  (∀ i j, i < j → j < n → (0 ≤ c j → 0 < c i)%Z) →
  ∃ r, call constant_of library program ("OBJ_bsearch_" +:+ nm) [key; base; constant_of (CInt (Z.of_nat n))] s = Ret (r, s) ∧
    ((∃ i, i < n ∧ c i = 0%Z ∧ r = element base size i) ∨ ((∀ i, i < n → c i ≠ 0%Z) ∧ r = constant_of CNull)).
Proof using Hprogram.
  intros size Hcmp Hsorted. inversion Hprogram as [|? ? E1 Hp]; subst. inversion Hp as [|? ? E2 _]; subst. cbn in E1, E2.
  rewrite (call_program _ _ _ _ _ _ E2). call_body.
  apply OBJ_bsearch_law; [|done]. intros i s' Hi. rewrite (call_program _ _ _ _ _ _ E1). call_body. by apply Hcmp.
Qed.
End search.

(** C27: the functions of [IMPLEMENT_OBJ_BSEARCH_CMP_FN] and its global variant are
    accepted by the compiler and are those that are declared, static or not as
    they are declared; the one that searches a table that is sorted for the
    comparison with the key returns the element that compares equal, which the
    comparison is given after the key, or NULL if there is none. The macro
    [OBJ_bsearch] takes exactly, for the key and for the table, a pointer to its
    type or to [void], constant or not, or NULL, and a number; and it takes them
    only where the two variables named after the comparison are such pointers,
    too; the compiler never accepts [OBJ_bsearch_ex]. *)
Theorem obj_bsearch_correct `{SearchLibrary St V} sig (type1 type2 : ctype) (nm : string) :
  in_scope sig OBJ_bsearch_prototypes → object_type type1 = true → object_type type2 = true →
  (in_scope sig (declared <$> DECLARE_OBJ_BSEARCH_CMP_FN type1 type2 nm) →
   implements sig (IMPLEMENT_OBJ_BSEARCH_CMP_FN type1 type2 nm).*2
     [Decl "static" (Signature (nm +:+ "_cmp") Int [("a", Ptr (Const type1)); ("b", Ptr (Const type2))])]
     (DECLARE_OBJ_BSEARCH_CMP_FN type1 type2 nm) ∧
   (stored <$> IMPLEMENT_OBJ_BSEARCH_CMP_FN type1 type2 nm) ⊆ (attributed <$> DECLARE_OBJ_BSEARCH_CMP_FN type1 type2 nm) ∧
   (IMPLEMENT_OBJ_BSEARCH_GLOBAL_CMP_FN type1 type2 nm).*2 = (IMPLEMENT_OBJ_BSEARCH_CMP_FN type1 type2 nm).*2 ∧
   (attributed <$> DECLARE_OBJ_BSEARCH_GLOBAL_CMP_FN type1 type2 nm) ⊆
     (stored <$> IMPLEMENT_OBJ_BSEARCH_GLOBAL_CMP_FN type1 type2 nm)) ∧
  (Forall (λ f, program (fun_name f) = Some f) (IMPLEMENT_OBJ_BSEARCH_CMP_FN type1 type2 nm).*2 →
   ∀ key base n c s, let size := constant_of (CSizeof type2) in
     (∀ i s, i < n → library (nm +:+ "_cmp") [key; element base size i] s = Ret (constant_of (CInt (c i)), s)) →
     (∀ i j, i < j → j < n → (0 ≤ c j → 0 < c i)%Z) →
     ∃ r, call constant_of library program ("OBJ_bsearch_" +:+ nm) [key; base; constant_of (CInt (Z.of_nat n))] s = Ret (r, s) ∧
       ((∃ i, i < n ∧ c i = 0%Z ∧ r = element base size i) ∨ ((∀ i, i < n → c i ≠ 0%Z) ∧ r = constant_of CNull))) ∧
  (∀ env, sig (nm +:+ "_BSEARCH_CMP_FN") = Some (Int, [Ptr (Const Void); Ptr (Const Void)]) →
     type_of sig env (macro_body (OBJ_bsearch type1 type2 nm)) =
       if parameter env "key" (points_to_object type1) && (parameter env "base" (points_to_object type2) &&
          (parameter env "num" (λ n, assignable n Int) &&
          (parameter env (nm +:+ "_type_1") (points_to_object type1) && parameter env (nm +:+ "_type_2") (points_to_object type2))))
       then Some (Ptr type2) else None) ∧
  (∀ env, type_of sig env (macro_body (OBJ_bsearch_ex type1 type2 nm)) = None).
Proof.
  intros Hlib H1 H2. split_and!.
  - by apply bsearch_implemented.
  - intros Hp key base n c s. by apply (bsearch_finds type1).
  - intros env. by apply OBJ_bsearch_type.
  - intros env. by apply OBJ_bsearch_ex_type.
Qed.

(** ** A library *)

(** Tables of numbers, and a search that looks at each element in turn. *)
Module SearchModel.

(** The order of the arguments. *)
#[local] Existing Instance right_to_left.

Inductive value : Type := VNull | VInt (z : Z) | VString (s : string) | VFunction (f : string) | VSize (t : ctype) | VTable (l : list Z) | VElement (l : list Z) (i : nat).
Definition value_of (c : constant) : value :=
  match c with CNull => VNull | CInt z => VInt z | CString s => VString s | CFunction f => VFunction f | CSizeof t => VSize t end.
Definition at_index (base size : value) (i : nat) : value := match base with VTable l => VElement l i | _ => VNull end.

Definition compare (f : string) (vs : list value) : M unit value := λ s,
  if String.eqb f "number_cmp" then
    match vs with
    | [VInt k; VElement l i] => match l !! i with Some z => Ret (VInt (k - z), s) | None => Undef end
    | _ => Undef
    end
  else Undef.
Definition linked (f : string) : option cfun :=
  named ((λ g, (fun_name g.2, g.2)) <$> IMPLEMENT_OBJ_BSEARCH_CMP_FN Int Int "number") f.
(** [k] elements are left from [i] on. *)
Fixpoint search (f : string) (key base size : value) (k i : nat) : M unit value :=
  match k with
  | O => mret VNull
  | Datatypes.S k =>
      r ← call value_of compare linked f [key; at_index base size i];
      match r with
      | VInt 0 => mret (at_index base size i)
      | VInt _ => search f key base size k (Datatypes.S i)
      | _ => undef
      end
  end.
Definition lib (f : string) (vs : list value) : M unit value :=
  if String.eqb f "OBJ_bsearch_" then
    match vs with
    | [key; base; VInt n; size; VFunction f] => search f key base size (Z.to_nat n) 0
    | _ => undef
    end
  else compare f vs.

Lemma callback_same f x y s : call value_of lib linked f [x; y] s = call value_of compare linked f [x; y] s.
Proof.
  unfold call, linked. cbn -[String.eqb lib compare].
  destruct (String.eqb f ("number" +:+ "_cmp_BSEARCH_CMP_FN")); [by vm_compute|].
  destruct (String.eqb f ("OBJ_bsearch_" +:+ "number")); [by vm_compute|].
  unfold lib. destruct (String.eqb_spec f "OBJ_bsearch_") as [->|]; [by vm_compute|done].
Qed.

Lemma search_law f key base size c s (k i : nat) :
  (∀ j s, (i ≤ j)%nat → (j < i + k)%nat → call value_of compare linked f [key; at_index base size j] s = Ret (VInt (c j), s)) →
  ∃ r, search f key base size k i s = Ret (r, s) ∧
    ((∃ j, (i ≤ j)%nat ∧ (j < i + k)%nat ∧ c j = 0%Z ∧ r = at_index base size j) ∨
     ((∀ j, (i ≤ j)%nat → (j < i + k)%nat → c j ≠ 0%Z) ∧ r = VNull)).
Proof.
  revert i. induction k as [|k IH]; intros i Hc; cbn.
  { exists VNull. split; [done|]. right. split; [lia|done]. }
  rewrite (M_bind_Ret _ _ _ _ _ (Hc i s ltac:(lia) ltac:(lia))).
  destruct (decide (c i = 0%Z)) as [E|E].
  { rewrite E. eexists. split; [done|]. left. exists i. split_and!; done || lia. }
  destruct (IH (Datatypes.S i)) as (r & Hr & Hcase).
  { intros j s' ??. apply Hc; lia. }
  exists r. split; [by destruct (c i)|]. destruct Hcase as [(j & ? & ? & ? & ?)|[Hn ?]].
  - left. exists j. split_and!; done || lia.
  - right. split; [|done]. intros j ??. destruct (decide (j = i)) as [->|]; [done|]. apply Hn; lia.
Qed.

#[export] Program Instance library_laws : SearchLibrary right_to_left unit value := {|
  constant_of := value_of; library := lib; program := linked; element := at_index;
|}.
Next Obligation.
  intros f key base n size c s Hc _. cbn. rewrite Nat2Z.id.
  destruct (search_law f key base size c s n 0) as (r & Hr & Hcase).
  { intros j s' _ Hj. rewrite -callback_same. by apply Hc. }
  exists r. split; [done|]. destruct Hcase as [(j & ? & ? & ? & ?)|[Hn ?]].
  - left. exists j. split_and!; done || lia.
  - right. split; [|done]. intros j ?. apply Hn; lia.
Qed.
End SearchModel.

Import SearchModel.
#[local] Existing Instance right_to_left.
Definition search_scope : string → option prototype :=
  named (OBJ_bsearch_prototypes ++ (declared <$> DECLARE_OBJ_BSEARCH_CMP_FN Int Int "number")).

Lemma obj_bsearch_correct_witness :
  in_scope search_scope OBJ_bsearch_prototypes ∧
  ∃ r, call value_of lib linked "OBJ_bsearch_number" [VInt 7; VTable [2; 5; 7; 9]%Z; VInt 4] tt = Ret (r, tt) ∧
    r ≠ VNull.
Proof.
  assert (in_scope search_scope OBJ_bsearch_prototypes) as H by (apply (bool_decide_unpack _); vm_compute; exact I).
  split; [exact H|].
  destruct (@obj_bsearch_correct right_to_left unit value library_laws search_scope Int Int "number" H eq_refl eq_refl) as (_ & Hs & _).
  destruct (Hs ltac:(repeat constructor) (VInt 7) (VTable [2; 5; 7; 9]%Z) 4
    (λ i, default (-2)%Z ([5; 2; 0]%Z !! i)) tt) as (r & E & Hr).
  - intros i [] Hi. do 4 (destruct i as [|i]; [reflexivity|]). lia.
  - intros i j Hij Hj. do 4 (destruct i as [|i]; [do 4 (destruct j as [|j]; [cbn; lia|]); lia|]). lia.
  - exists r. split; [exact E|]. destruct Hr as [(i & Hi & Hc & Hr)|[Hn _]].
    + rewrite Hr. discriminate.
    + exfalso. apply (Hn 2 ltac:(lia)). reflexivity.
Defined.
