(* ===== verification/EngineLoad.v ===== *)
(** * Loading an engine of OpenSSL: [openssl/engine.h]

    The functions that a shared library implements an engine with, as the macros
    [IMPLEMENT_DYNAMIC_CHECK_FN] and [IMPLEMENT_DYNAMIC_BIND_FN] define them. *)

From S2P Require Import Prelude ByteMemory.
From stdpp Require Import strings ssreflect.
Local Open Scope Z_scope.

Definition OSSL_DYNAMIC_VERSION : Z := 0x00030000.
Definition OSSL_DYNAMIC_OLDEST : Z := 0x00030000.

(** Pointers are addresses. *)
Record dynamic_MEM_fns : Type := DynamicMemFns {
  malloc_fn : Z;
  realloc_fn : Z;
  free_fn : Z;
}.
Record dynamic_fns : Type := DynamicFns {
  static_state : Z;
  mem_fns : dynamic_MEM_fns;
}.

(** [v] is an [unsigned long]. *)
Definition IMPLEMENT_DYNAMIC_CHECK_FN (v : Z) : Z :=
  if OSSL_DYNAMIC_OLDEST <=? v then OSSL_DYNAMIC_VERSION else 0.

(** The functions of the library [bind_engine] calls. *)
Class EngineLibrary (S : Type) : Type := {
  ENGINE_get_static_state : M S Z;
  CRYPTO_set_mem_functions : Z → Z → Z → M S Z;
  OPENSSL_init_crypto : Z → Z → M S Z;
}.
(** Of [openssl/crypto.h]. *)
Definition OPENSSL_INIT_NO_ATEXIT : Z := 0x00080000.

Definition IMPLEMENT_DYNAMIC_BIND_FN `{EngineLibrary St} {E : Type} (fn : E → option string → M St Z)
    (e : E) (id : option string) (fns : dynamic_fns) : M St Z :=
  state ← ENGINE_get_static_state;
  (if state =? static_state fns then mret tt
   else
     CRYPTO_set_mem_functions (malloc_fn (mem_fns fns)) (realloc_fn (mem_fns fns)) (free_fn (mem_fns fns));;
     OPENSSL_init_crypto OPENSSL_INIT_NO_ATEXIT 0;;
     mret tt);;
  r ← fn e id;
  if r =? 0 then mret 0 else mret 1.

(** ** Correctness *)

(** [allocator] is what the library allocates memory with, which can be set until
    it has [allocated] any; [shared] is the address of its static data, and
    [options] what it was initialised with. *)
Class EngineLaws (S : Type) `{!EngineLibrary S} : Type := {
  allocator : S → dynamic_MEM_fns;
  allocated : S → bool;
  shared : S → Z;
  options : S → Z;
  ENGINE_get_static_state_law s : ENGINE_get_static_state s = Ret (shared s, s);
  CRYPTO_set_mem_functions_law m r f s :
    ∃ x s', CRYPTO_set_mem_functions m r f s = Ret (x, s') ∧ shared s' = shared s ∧ options s' = options s ∧
      allocator s' = if allocated s then allocator s else DynamicMemFns m r f;
  OPENSSL_init_crypto_law o settings s :
    ∃ x s', OPENSSL_init_crypto o settings s = Ret (x, s') ∧ shared s' = shared s ∧ allocator s' = allocator s ∧
      options s' = Z.lor (options s) o;
}.

(** C26: [v_check] accepts exactly the versions that are not older than the oldest
    one, the loader's among them, and [bind_engine] calls the engine's own
    function once. If the engine's library is the loader's, nothing is changed
    before that; if it is a copy that has not allocated memory, it allocates with
    the loader's functions, and is initialised without a handler at exit. It
    returns 1 if the function does not return 0, and 0 if it does. *)
Theorem engine_loading_correct `{EngineLaws St} {E : Type} (fn : E → option string → M St Z) e id fns s :
  (∀ v, (IMPLEMENT_DYNAMIC_CHECK_FN v ≠ 0 ↔ OSSL_DYNAMIC_OLDEST ≤ v) ∧
     (IMPLEMENT_DYNAMIC_CHECK_FN v = OSSL_DYNAMIC_VERSION ∨ IMPLEMENT_DYNAMIC_CHECK_FN v = 0)) ∧
  IMPLEMENT_DYNAMIC_CHECK_FN OSSL_DYNAMIC_VERSION ≠ 0 ∧
  ∃ s', IMPLEMENT_DYNAMIC_BIND_FN fn e id fns s =
          match fn e id s' with
          | Ret (r, s'') => Ret (if decide (r = 0) then 0 else 1, s'')
          | Undef => Undef
          | NoFuel => NoFuel
          end ∧
    shared s' = shared s ∧
    (shared s = static_state fns → s' = s) ∧
    (shared s ≠ static_state fns →
       (allocated s = false → allocator s' = mem_fns fns) ∧
       options s' = Z.lor (options s) OPENSSL_INIT_NO_ATEXIT).
Proof.
  split; [|split].
  - intros v. unfold IMPLEMENT_DYNAMIC_CHECK_FN. destruct (Z.leb_spec OSSL_DYNAMIC_OLDEST v); split; try (by left); try (by right).
    + split; [done|by vm_compute].
    + split; [done|lia].
  - by vm_compute.
  - unfold IMPLEMENT_DYNAMIC_BIND_FN. rewrite (M_bind_Ret _ _ _ _ _ (ENGINE_get_static_state_law s)).
    assert (∀ s', (r ← fn e id; if r =? 0 then mret 0 else mret 1) s' =
      match fn e id s' with Ret (r, s'') => Ret (if decide (r = 0) then 0 else 1, s'') | Undef => Undef | NoFuel => NoFuel end) as Hfn.
    { intros s'. unfold mbind, M_bind. destruct (fn e id s') as [[r s'']| |]; [|done..].
      destruct (Z.eqb_spec r 0) as [->|Hr]; [done|]. by rewrite decide_False. }
    destruct (Z.eqb_spec (shared s) (static_state fns)) as [Es|Es].
    + exists s. rewrite M_bind_ret_l Hfn. by split_and!.
    + destruct (CRYPTO_set_mem_functions_law (malloc_fn (mem_fns fns)) (realloc_fn (mem_fns fns)) (free_fn (mem_fns fns)) s) as (x & s1 & E1 & Hs1 & Ho1 & Ha1).
      destruct (OPENSSL_init_crypto_law OPENSSL_INIT_NO_ATEXIT 0 s1) as (y & s2 & E2 & Hs2 & Ha2 & Ho2).
      exists s2. split; [|split_and!; [by rewrite Hs2 Hs1|by intros ?%Es|]].
      * rewrite -Hfn. unfold mbind, M_bind. rewrite E1 E2. done.
      * intros _. split; [intros Hal; rewrite Ha2 Ha1 Hal; by destruct (mem_fns fns)|]. by rewrite Ho2 Ho1.
Qed.

(** A copy of the library that has not allocated memory yet. *)
Module EngineModel.
Record state : Type := State { memory : dynamic_MEM_fns; in_use : bool; address : Z; initialised : Z }.
#[export] Instance library : EngineLibrary state := {|
  ENGINE_get_static_state := λ s, Ret (address s, s);
  CRYPTO_set_mem_functions := λ m r f s,
    if in_use s then Ret (0, s) else Ret (1, State (DynamicMemFns m r f) false (address s) (initialised s));
  OPENSSL_init_crypto := λ o _ s, Ret (1, State (memory s) true (address s) (Z.lor (initialised s) o));
|}.
#[export] Program Instance laws : EngineLaws state := {|
  allocator := memory; allocated := in_use; shared := address; options := initialised;
|}.
Next Obligation. done. Qed.
Next Obligation. intros m r f s. cbn. destruct (in_use s) eqn:E; eexists _, _; by split_and!. Qed.
Next Obligation. intros o i s. eexists _, _. by split_and!. Qed.
End EngineModel.

Import EngineModel.
Lemma engine_loading_correct_witness :
  ∃ s', IMPLEMENT_DYNAMIC_BIND_FN (λ _ _ s, Ret (7, s)) tt (Some "engine"%string) (DynamicFns 1 (DynamicMemFns 10 20 30))
          (State (DynamicMemFns 0 0 0) false 2 0) = Ret (1, s') ∧ memory s' = DynamicMemFns 10 20 30.
Proof.
  destruct (engine_loading_correct (E := unit) (λ _ _ s, Ret (7, s)) tt (Some "engine"%string)
    (DynamicFns 1 (DynamicMemFns 10 20 30)) (State (DynamicMemFns 0 0 0) false 2 0)) as (_ & _ & s' & E & _ & _ & Hd).
  exists s'. split; [exact E|]. apply (Hd ltac:(discriminate)). reflexivity.
Defined.
