(* ===== verification/V8Embedder.v ===== *)
(** * What an embedder calls: [v8-initialization.h], [v8-platform.h], the scopes

    The inline functions that start the engine with the build's configuration,
    convert the identifiers of shared memory, and enter isolates and contexts. *)

From S2P Require Import Prelude ByteMemory V8Internal.
Local Open Scope Z_scope.

(** ** Initialisation *)

Definition kPointerCompression : Z := Z.shiftl 1 0.
Definition k31BitSmis : Z := Z.shiftl 1 1.
Definition kSandboxedExternalPointers : Z := Z.shiftl 1 2.
Definition kSandbox : Z := Z.shiftl 1 3.

(** [initialize] is the function of the engine that takes the configuration. *)
Definition V8_Initialize `{!V8Config} {S} (initialize : Z → M S bool) : M S bool :=
  let kBuildConfiguration :=
    Z.lor (Z.lor (Z.lor (if PointerCompressionIsEnabled then kPointerCompression else 0)
      (if SmiValuesAre31Bits then k31BitSmis else 0))
      (if SandboxedExternalPointersAreEnabled then kSandboxedExternalPointers else 0))
      (if SandboxIsEnabled then kSandbox else 0) in
  initialize kBuildConfiguration.

(** ** Shared memory *)

Section shared_memory.
Context `{!V8Config}.

(** [intptr_t] *)
Definition kInvalidSharedMemoryHandle : Z := -1.

Definition SharedMemoryHandleFromMachMemoryEntry (port : Z) : Z := to_signed ptr_bits port.
Definition MachMemoryEntryFromSharedMemoryHandle (handle : Z) : Z := to_unsigned 32 handle.
Definition SharedMemoryHandleFromVMO (handle : Z) : Z := to_signed ptr_bits handle.
Definition VMOFromSharedMemoryHandle (handle : Z) : Z := to_unsigned 32 handle.
(** A [void *] is an address. *)
Definition SharedMemoryHandleFromFileMapping (handle : Z) : Z := to_signed ptr_bits handle.
Definition FileMappingFromSharedMemoryHandle (handle : Z) : Z := to_unsigned ptr_bits handle.
Definition SharedMemoryHandleFromFileDescriptor (fd : Z) : Z := to_signed ptr_bits fd.
Definition FileDescriptorFromSharedMemoryHandle (handle : Z) : Z := to_signed 32 handle.
End shared_memory.

(** ** Scopes *)

(** An [Isolate::Scope] or a [Context::Scope], and what is done while it exists. *)
Section scopes.
Context {S I A : Type} (Enter Exit : I → M S unit).

Definition Isolate_Scope (isolate : I) (body : M S A) : M S A :=
  let isolate_ := isolate in
  Enter isolate;;
  a ← body;
  Exit isolate_;;
  mret a.
Definition Context_Scope (context : I) (body : M S A) : M S A :=
  let context_ := context in
  Enter context_;;
  a ← body;
  Exit context_;;
  mret a.
End scopes.
