(* ===== verification/NodeAddon.v ===== *)
(** * What an addon of Node.js uses: [node.h], [node_buffer.h], [node_api.h]

    The macros that register an addon, the functions and macros that install its
    methods and constants, the flags of a process and an environment, the
    objects of an embedder, and small functions. The engine's functions are a
    class, [V8Api], and those of Node.js are parameters. *)

From S2P Require Import Prelude ByteMemory Versions V8Internal.
From stdpp Require Import strings pretty.
Local Open Scope string_scope.
Local Open Scope Z_scope.

(** ** Compilers *)

Definition NODE_MAKE_VERSION (major minor patch : Z) : Z := major * 0x1000 + minor * 0x100 + patch.
(** [clang] and [gnuc] are the numbers that the compiler defines, if it does. *)
Definition NODE_CLANG_AT_LEAST (clang : option (Z * Z * Z)) (major minor patch : Z) : bool :=
  match clang with
  | Some (clang_major, clang_minor, clang_patchlevel) =>
      NODE_MAKE_VERSION major minor patch <=? NODE_MAKE_VERSION clang_major clang_minor clang_patchlevel
  | None => false
  end.
Definition NODE_GNUC_AT_LEAST (gnuc : option (Z * Z * Z)) (major minor patch : Z) : bool :=
  match gnuc with
  | Some (GNUC, GNUC_MINOR, GNUC_PATCHLEVEL) =>
      NODE_MAKE_VERSION major minor patch <=? NODE_MAKE_VERSION GNUC GNUC_MINOR GNUC_PATCHLEVEL
  | None => false
  end.
(** What is written before a deprecated declaration. *)
Inductive deprecation : Type := Attribute (message : string) | Declspec | Unmarked.
Definition NODE_DEPRECATED (NODE_WANT_INTERNALS : bool) (clang gnuc : option (Z * Z * Z)) (MSC_VER : bool) (message : string) : deprecation :=
  if NODE_WANT_INTERNALS then Unmarked
  else if NODE_CLANG_AT_LEAST clang 2 9 0 || NODE_GNUC_AT_LEAST gnuc 4 5 0 then Attribute message
  else if MSC_VER then Declspec else Unmarked.

(** ** Flags *)

Definition ProcessFlags : list (string * Z) := [
  ("kNoFlags", 0);
  ("kEnableStdioInheritance", Z.shiftl 1 0);
  ("kDisableNodeOptionsEnv", Z.shiftl 1 1);
  ("kDisableCLIOptions", Z.shiftl 1 2);
  ("kNoICU", Z.shiftl 1 3);
  ("kNoStdioInitialization", Z.shiftl 1 4);
  ("kNoDefaultSignalHandling", Z.shiftl 1 5);
  ("kNoInitializeV8", Z.shiftl 1 6);
  ("kNoInitializeNodeV8Platform", Z.shiftl 1 7);
  ("kNoInitOpenSSL", Z.shiftl 1 8);
  ("kNoParseGlobalDebugVariables", Z.shiftl 1 9);
  ("kNoAdjustResourceLimits", Z.shiftl 1 10);
  ("kNoUseLargePages", Z.shiftl 1 11);
  ("kNoPrintHelpOrVersionOutput", Z.shiftl 1 12)].
(** The flag [kLegacyInitializeNodeWithArgsBehavior]: the flags that it is made of. *)
Definition kLegacyInitializeNodeWithArgsBehavior : list string := [
  "kNoStdioInitialization"; "kNoDefaultSignalHandling"; "kNoInitializeV8"; "kNoInitializeNodeV8Platform";
  "kNoInitOpenSSL"; "kNoParseGlobalDebugVariables"; "kNoAdjustResourceLimits"; "kNoUseLargePages";
  "kNoPrintHelpOrVersionOutput"].
Definition EnvironmentFlags : list (string * Z) := [
  ("kNoFlags", 0);
  ("kDefaultFlags", Z.shiftl 1 0);
  ("kOwnsProcessState", Z.shiftl 1 1);
  ("kOwnsInspector", Z.shiftl 1 2);
  ("kNoRegisterESMLoader", Z.shiftl 1 3);
  ("kTrackUnmanagedFds", Z.shiftl 1 4);
  ("kHideConsoleWindows", Z.shiftl 1 5);
  ("kNoNativeAddons", Z.shiftl 1 6);
  ("kNoGlobalSearchPaths", Z.shiftl 1 7);
  ("kNoBrowserGlobals", Z.shiftl 1 8);
  ("kNoCreateInspector", Z.shiftl 1 9)].
Definition IsolateSettingsFlags : list (string * Z) := [
  ("MESSAGE_LISTENER_WITH_ERROR_LEVEL", Z.shiftl 1 0);
  ("DETAILED_SOURCE_POSITIONS_FOR_PROFILING", Z.shiftl 1 1);
  ("SHOULD_NOT_SET_PROMISE_REJECTION_CALLBACK", Z.shiftl 1 2);
  ("SHOULD_NOT_SET_PREPARE_STACK_TRACE_CALLBACK", Z.shiftl 1 3)].

(** The overload of [InitializeOncePerProcess] for a list of flags, and the other
    one, a parameter, that it calls. *)
Definition InitializeOncePerProcess {S R} (other : list string → Z → M S R) (args : list string) (l : list Z) : M S R :=
  let flags_accum := foldl (λ flags_accum flag, Z.lor flags_accum (to_unsigned 64 flag)) 0 l in
  other args flags_accum.

(** ** Buffers *)

(** On [size_t], of [sizet_bits] bits. *)
Definition IsWithinBounds (sizet_bits off len max : Z) : bool :=
  if max <? off then false
  else if to_unsigned sizet_bits (max - off) <? len then false
  else true.

(** ** Modules *)

Definition kLinked : Z := 0x02.
(** A function pointer is the function's name, a [void] pointer an address. *)
Record node_module : Type := NodeModule {
  nm_version : Z;
  nm_flags : Z;
  nm_dso_handle : Z;
  nm_filename : string;
  nm_register_func : option string;
  nm_context_register_func : option string;
  nm_modname : string;
  nm_priv : Z;
  nm_link : Z;
}.
Record napi_module : Type := NapiModule {
  napi_nm_version : Z;
  napi_nm_flags : Z;
  napi_nm_filename : string;
  napi_nm_register_func : option string;
  napi_nm_modname : string;
  napi_nm_priv : Z;
  napi_nm_reserved : list Z;
}.

(** A constructor: a function, by its name and body, that runs when the library is
    loaded. A library is loaded by running its constructors. *)
Definition constructor (S : Type) : Type := string * M S unit.
Definition NODE_C_CTOR {S} (fn : string) (body : M S unit) : constructor S := (fn, body).
Definition NAPI_C_CTOR {S} (fn : string) (body : M S unit) : constructor S := (fn, body).
Fixpoint load_library {S} (ctors : list (constructor S)) : M S unit :=
  match ctors with [] => mret tt | (_, body) :: ctors => body;; load_library ctors end.

(** What the macros define: the static module, and the constructor. *)
Record addon (S module : Type) : Type := Addon {
  addon_module : module;
  addon_ctor : constructor S;
}.
Arguments Addon {S module}.
Arguments addon_module {S module}.
Arguments addon_ctor {S module}.

(** [expand] replaces a macro name by what it is defined as, a name without a
    definition by itself; it is done for each argument of a macro that is
    neither next to [##] nor after [#]. *)
Section modules.
Context (FILE : string) (expand : string → string).
(** The functions of Node.js that take a pointer to a module and register it. *)
Context {St : Type} (node_module_register : node_module → M St unit) (napi_module_register : napi_module → M St unit).

Definition NODE_STRINGIFY_HELPER (n : string) : string := n.
(** The constructor's name is pasted from the argument as it is written, its text is expanded. *)
Definition NODE_MODULE_X (modname regfunc : string) (priv flags : Z) : addon St node_module :=
  let _module := NodeModule NODE_MODULE_VERSION flags 0 FILE (Some (expand regfunc)) None
    (NODE_STRINGIFY_HELPER (expand modname)) priv 0 in
  {| addon_module := _module; addon_ctor := NODE_C_CTOR ("_register_" +:+ modname) (node_module_register _module) |}.
Definition NODE_MODULE_CONTEXT_AWARE_X (modname regfunc : string) (priv flags : Z) : addon St node_module :=
  let _module := NodeModule NODE_MODULE_VERSION flags 0 FILE None (Some (expand regfunc))
    (NODE_STRINGIFY_HELPER (expand modname)) priv 0 in
  {| addon_module := _module; addon_ctor := NODE_C_CTOR ("_register_" +:+ modname) (node_module_register _module) |}.
Definition NODE_MODULE (modname regfunc : string) : addon St node_module :=
  NODE_MODULE_X (expand modname) (expand regfunc) 0 0.
Definition NODE_MODULE_CONTEXT_AWARE (modname regfunc : string) : addon St node_module :=
  NODE_MODULE_CONTEXT_AWARE_X (expand modname) (expand regfunc) 0 0.
Definition NODE_MODULE_LINKED (modname regfunc : string) : addon St node_module :=
  NODE_MODULE_CONTEXT_AWARE_X (expand modname) (expand regfunc) 0 kLinked.

Definition NODE_MODULE_INITIALIZER_BASE : string := "node_register_module_v".
Definition NODE_MODULE_INITIALIZER_X_HELPER (base version : string) : string := base +:+ version.
Definition NODE_MODULE_INITIALIZER_X (base version : string) : string :=
  NODE_MODULE_INITIALIZER_X_HELPER (expand base) (expand version).
Definition NODE_MODULE_INITIALIZER : string :=
  NODE_MODULE_INITIALIZER_X NODE_MODULE_INITIALIZER_BASE (pretty NODE_MODULE_VERSION).
(** The function that is exported, whose body follows the macro, and the module. *)
Definition NODE_MODULE_INIT : string * addon St node_module :=
  (NODE_MODULE_INITIALIZER, NODE_MODULE_CONTEXT_AWARE "NODE_GYP_MODULE_NAME" NODE_MODULE_INITIALIZER).

Definition NAPI_MODULE_VERSION : Z := 1.
(** Here the text, too, is the argument as it is written. *)
Definition NAPI_MODULE_X (modname regfunc : string) (priv flags : Z) : addon St napi_module :=
  let _module := NapiModule NAPI_MODULE_VERSION flags FILE (Some (expand regfunc)) modname priv [0; 0; 0; 0] in
  {| addon_module := _module; addon_ctor := NAPI_C_CTOR ("_register_" +:+ modname) (napi_module_register _module) |}.
Definition NAPI_MODULE_INITIALIZER_X_HELPER (base version : string) : string := base +:+ version.
Definition NAPI_MODULE_INITIALIZER_X (base version : string) : string :=
  NAPI_MODULE_INITIALIZER_X_HELPER (expand base) (expand version).
(** Except for WebAssembly. *)
Definition NAPI_MODULE (modname regfunc : string) : addon St napi_module :=
  NAPI_MODULE_X (expand modname) (expand regfunc) 0 0.
Definition NAPI_MODULE_INITIALIZER_BASE : string := "napi_register_module_v".
Definition NAPI_MODULE_INITIALIZER : string :=
  NAPI_MODULE_INITIALIZER_X NAPI_MODULE_INITIALIZER_BASE (pretty NAPI_MODULE_VERSION).
Definition NAPI_MODULE_INIT : string * addon St napi_module :=
  (NAPI_MODULE_INITIALIZER, NAPI_MODULE "NODE_GYP_MODULE_NAME" NAPI_MODULE_INITIALIZER).
(** For WebAssembly: the function that is exported calls [regfunc]. *)
Definition NAPI_WASM_INITIALIZER : string :=
  NAPI_MODULE_INITIALIZER_X "napi_register_wasm_v" (pretty NAPI_MODULE_VERSION).
Definition NAPI_MODULE_wasm {S V} (call : string → list V → M S V) (modname regfunc : string) : string * (V → V → M S V) :=
  (NAPI_WASM_INITIALIZER, λ env exports, call (expand regfunc) [env; exports]).
End modules.

(** ** The engine *)

(** The functions of the engine that the header's inline functions call, on local
    handles [L], callbacks [C] and numbers [D]. An empty [MaybeLocal] or [Maybe] is
    [None]. *)
Class V8Api (S L C D : Type) : Type := {
  Isolate_GetCurrent : M S L;
  Object_GetIsolate : L → M S L;
  Isolate_GetCurrentContext : L → M S L;
  HandleScope_HandleScope : L → M S unit;
  HandleScope_delete : M S unit;
  String_NewFromUtf8 : L → string → bool → M S (option L);
  Number_New : L → D → M S L;
  Date_New : L → D → M S (option L);
  Date_ValueOf : L → M S D;
  Signature_New : L → L → M S L;
  FunctionTemplate_New : L → C → option L → option L → M S L;
  FunctionTemplate_SetClassName : L → L → M S unit;
  FunctionTemplate_PrototypeTemplate : L → M S L;
  FunctionTemplate_GetFunction : L → L → M S (option L);
  Template_Set : L → L → L → M S unit;
  Function_SetName : L → L → M S unit;
  Object_Set : L → L → L → L → M S (option bool);
  Object_DefineOwnProperty : L → L → L → L → Z → M S (option bool);
}.

(** [ToLocalChecked] and [Check], here [CheckJust], stop the process when there is no value. *)
Definition ToLocalChecked {S L} (m : M S (option L)) : M S L :=
  x ← m; match x with Some x => mret x | None => undef end.
Definition CheckJust {S A} (m : M S (option A)) : M S unit :=
  x ← m; match x with Some _ => mret tt | None => undef end.

Definition ReadOnly : Z := Z.shiftl 1 0.
Definition DontEnum : Z := Z.shiftl 1 1.
Definition DontDelete : Z := Z.shiftl 1 2.

Section v8.
Context `{V8Api St L C D}.

(** A [HandleScope] is closed when the function that declares it returns. *)
Definition with_HandleScope {A} (isolate : L) (body : M St A) : M St A :=
  HandleScope_HandleScope isolate;;
  a ← body;
  HandleScope_delete;;
  mret a.

(** The macros' argument [constant] is a name, whose value is [value]. *)
Definition NODE_DEFINE_CONSTANT (target : L) (constant : string) (value : D) : M St unit :=
  isolate ← Object_GetIsolate target;
  context ← Isolate_GetCurrentContext isolate;
  constant_name ← ToLocalChecked (String_NewFromUtf8 isolate constant true);
  constant_value ← Number_New isolate value;
  let constant_attributes := Z.lor ReadOnly DontDelete in
  CheckJust (Object_DefineOwnProperty target context constant_name constant_value constant_attributes).
Definition NODE_DEFINE_HIDDEN_CONSTANT (target : L) (constant : string) (value : D) : M St unit :=
  isolate ← Object_GetIsolate target;
  context ← Isolate_GetCurrentContext isolate;
  constant_name ← ToLocalChecked (String_NewFromUtf8 isolate constant true);
  constant_value ← Number_New isolate value;
  let constant_attributes := Z.lor (Z.lor ReadOnly DontDelete) DontEnum in
  CheckJust (Object_DefineOwnProperty target context constant_name constant_value constant_attributes).

(** The overloads for templates and for objects. *)
Definition NODE_SET_METHOD_template (recv : L) (name : string) (callback : C) : M St unit :=
  isolate ← Isolate_GetCurrent;
  with_HandleScope isolate (
    t ← FunctionTemplate_New isolate callback None None;
    fn_name ← ToLocalChecked (String_NewFromUtf8 isolate name true);
    FunctionTemplate_SetClassName t fn_name;;
    Template_Set recv fn_name t).
Definition NODE_SET_METHOD_object (recv : L) (name : string) (callback : C) : M St unit :=
  isolate ← Isolate_GetCurrent;
  with_HandleScope isolate (
    context ← Isolate_GetCurrentContext isolate;
    t ← FunctionTemplate_New isolate callback None None;
    fn ← ToLocalChecked (FunctionTemplate_GetFunction t context);
    fn_name ← ToLocalChecked (String_NewFromUtf8 isolate name true);
    Function_SetName fn fn_name;;
    CheckJust (Object_Set recv context fn_name fn)).
Definition NODE_SET_PROTOTYPE_METHOD (recv : L) (name : string) (callback : C) : M St unit :=
  isolate ← Isolate_GetCurrent;
  with_HandleScope isolate (
    s ← Signature_New isolate recv;
    t ← FunctionTemplate_New isolate callback None (Some s);
    fn_name ← ToLocalChecked (String_NewFromUtf8 isolate name true);
    FunctionTemplate_SetClassName t fn_name;;
    prototype ← FunctionTemplate_PrototypeTemplate recv;
    Template_Set prototype fn_name t).

(** Times, with the arithmetic of [double]. *)
Definition NODE_UNIXTIME_V8 (times_1000 : D → D) (time : D) : M St L :=
  isolate ← Isolate_GetCurrent;
  context ← Isolate_GetCurrentContext isolate;
  ToLocalChecked (Date_New context (times_1000 time)).
Definition NODE_V8_UNIXTIME (by_1000 : D → D) (date : L) : M St D :=
  t ← Date_ValueOf date; mret (by_1000 t).

(** The overloads without an isolate, of the functions of Node.js that take one. *)
Definition ErrnoException (with_isolate : L → Z → option string → option string → option string → M St L)
    (errorno : Z) (syscall message path : option string) : M St L :=
  isolate ← Isolate_GetCurrent; with_isolate isolate errorno syscall message path.
Definition UVException (with_isolate : L → Z → option string → option string → option string → option string → M St L)
    (errorno : Z) (syscall message path : option string) : M St L :=
  isolate ← Isolate_GetCurrent; with_isolate isolate errorno syscall message path None.
End v8.

(** ** The objects of an embedder *)

Section embedder.
Context {S A : Type}.

(** [new] allocates a CommonEnvironmentSetup and constructs it, [delete] destroys
    and frees it; [errors] reads the vector that the constructor adds to. [None]
    is an empty [unique_ptr]. *)
Definition CommonEnvironmentSetup_Create {Platform Env Arg Data Ctx : Type}
    (new : Platform → (A → M S Env) → M S A) (delete : A → M S unit) (errors : M S (list string))
    (isolate_data : A → M S Data) (context : A → M S Ctx) (CreateEnvironment : Data → Ctx → Arg → M S Env)
    (platform : Platform) (env_args : Arg) : M S (option A) :=
  ret ← new platform (λ setup,
    data ← isolate_data setup;
    ctx ← context setup;
    CreateEnvironment data ctx env_args);
  es ← errors;
  match es with
  | [] => mret (Some ret)
  | _ => delete ret;; mret None
  end.

(** An [AsyncCleanupHookHandle] owns the handle of a hook: whoever holds it deletes
    it. The function that removes a hook takes it over, and deletes it at the end. *)
Definition AddEnvironmentCleanupHook {Isolate Fun Arg : Type}
    (AddEnvironmentCleanupHookInternal : Isolate → Fun → Arg → M S A) (isolate : Isolate) (fun_ : Fun) (arg : Arg) : M S A :=
  AddEnvironmentCleanupHookInternal isolate fun_ arg.
Definition RemoveEnvironmentCleanupHook (RemoveEnvironmentCleanupHookInternal DeleteACHHandle : option A → M S unit)
    (holder : option A) : M S unit :=
  RemoveEnvironmentCleanupHookInternal holder;;
  match holder with Some _ => DeleteACHHandle holder | None => mret tt end.
End embedder.
