(* ===== verification/NodeModels.v ===== *)
(** * What an addon relies on in the engine

    [V8Laws] has what the engine promises of the functions of [V8Api], and
    [NodeModel] is a small engine that has it. *)

From S2P Require Import Prelude ByteMemory V8Internal NodeAddon.
From stdpp Require Import strings ssreflect.
Local Open Scope string_scope.
Local Open Scope Z_scope.

(** ** Views of the engine's state *)

(** What a local handle is a handle of, and how a property is set. *)
Inductive thing (L C D : Type) : Type :=
| AString (s : string)
| ANumber (d : D)
| ASignature (receiver : L)
| ATemplate (callback : C) (signature : option L)
| AFunction (callback : C).
Arguments AString {L C D}.
Arguments ANumber {L C D}.
Arguments ASignature {L C D}.
Arguments ATemplate {L C D}.
Arguments AFunction {L C D}.
Inductive set_outcome : Type := Stored | Refused | Thrown.

(** A property has a value, which has a name if it is a function or a template. *)
Definition content (L C D : Type) : Type := thing L C D * option string.

(** The length that a string may have. *)
Definition String_kMaxLength `{!V8Config} : Z := if kApiSystemPointerSize =? 4 then Z.shiftl 1 28 - 16 else Z.shiftl 1 29 - 24.

(** Views of the state: the number of open handle scopes, handles and the names of
    functions, the properties of objects and templates with their attributes, and
    those of the prototype template; whether execution is being terminated, and
    what setting or defining a property would do. *)
Class V8Views (S L C D : Type) : Type := {
  scopes : S → nat;
  describe : L → S → option (thing L C D);
  name_of : L → S → option string;
  property : L → string → S → option (content L C D);
  attributes : L → string → S → option Z;
  prototype_property : L → string → S → option (content L C D);
  terminating : S → bool;
  set_result : L → string → S → set_outcome;
  define_result : L → string → S → set_outcome;
}.

Section views.
Context `{V8Views St L C D}.

(** Objects and templates are as before. *)
Definition same_objects (s s' : St) : Prop :=
  (∀ o n, property o n s' = property o n s) ∧ (∀ o n, attributes o n s' = attributes o n s) ∧
  (∀ o n, prototype_property o n s' = prototype_property o n s).
Definition same_checks (s s' : St) : Prop :=
  terminating s' = terminating s ∧ (∀ o n, set_result o n s' = set_result o n s) ∧
  (∀ o n, define_result o n s' = define_result o n s).
(** And so are the handles. *)
Definition same_handles (s s' : St) : Prop := ∀ h d, describe h s = Some d → describe h s' = Some d.
Definition same_names (s s' : St) : Prop := ∀ h n, name_of h s = Some n → name_of h s' = Some n.
Definition quiet (s s' : St) : Prop :=
  scopes s' = scopes s ∧ same_objects s s' ∧ same_checks s s' ∧ same_handles s s' ∧ same_names s s'.

(** Properties with other names than [n] have not changed. *)
Definition other_properties (n : string) (s s' : St) : Prop :=
  ∀ o' n', n' ≠ n → property o' n' s' = property o' n' s ∧ attributes o' n' s' = attributes o' n' s ∧
    prototype_property o' n' s' = prototype_property o' n' s.

Lemma quiet_refl s : quiet s s.
Proof. split_and!; [done|split_and!; done|split_and!; done|by intros ?|by intros ?]. Qed.
Lemma quiet_trans s1 s2 s3 : quiet s1 s2 → quiet s2 s3 → quiet s1 s3.
Proof.
  intros (Hs & (Ho & Ha & Hp) & (Ht & Hr & Hd) & Hh & Hn) (Hs' & (Ho' & Ha' & Hp') & (Ht' & Hr' & Hd') & Hh' & Hn').
  split; [by rewrite Hs'|]. split; [split_and!; intros; by rewrite ?Ho' ?Ha' ?Hp'|].
  split; [split_and!; intros; by rewrite ?Ht' ?Hr' ?Hd'|]. split; intros h x Hx; eauto.
Qed.
End views.

(** ** The laws *)

(** Of the functions of [V8Api], for objects without accessors. A string is empty
    only when it is too long, and a function only when execution is terminated.
    [Object_Set] returns [Just(true)] or nothing, so an object that refuses the
    property looks like one that has stored it. *)
Class V8Laws (S L C D : Type) `{!V8Config, !V8Api S L C D, !V8Views S L C D} : Prop := {
  Isolate_GetCurrent_law s : ∃ i s', Isolate_GetCurrent s = Ret (i, s') ∧ quiet s s';
  Object_GetIsolate_law o s : ∃ i s', Object_GetIsolate o s = Ret (i, s') ∧ quiet s s';
  Isolate_GetCurrentContext_law i s : ∃ c s', Isolate_GetCurrentContext i s = Ret (c, s') ∧ quiet s s';
  HandleScope_law i s : ∃ s', HandleScope_HandleScope i s = Ret (tt, s') ∧ scopes s' = Datatypes.S (scopes s) ∧
    same_objects s s' ∧ same_checks s s' ∧ same_handles s s' ∧ same_names s s';
  HandleScope_delete_law s n : scopes s = Datatypes.S n →
    ∃ s', HandleScope_delete s = Ret (tt, s') ∧ scopes s' = n ∧ same_objects s s';
  String_NewFromUtf8_law i n b s :
    if Z.of_nat (String.length n) <=? String_kMaxLength
    then ∃ h s', String_NewFromUtf8 i n b s = Ret (Some h, s') ∧ quiet s s' ∧ describe h s' = Some (AString n)
    else ∃ s', String_NewFromUtf8 i n b s = Ret (None, s');
  Number_New_law i d s : ∃ h s', Number_New i d s = Ret (h, s') ∧ quiet s s' ∧ describe h s' = Some (ANumber d);
  Signature_New_law i r s : ∃ h s', Signature_New i r s = Ret (h, s') ∧ quiet s s' ∧ describe h s' = Some (ASignature r);
  FunctionTemplate_New_law i c data sig s :
    ∃ h s', FunctionTemplate_New i c data sig s = Ret (h, s') ∧ quiet s s' ∧
      ∀ r, (sig = None ∧ r = None) ∨ (∃ g x, sig = Some g ∧ describe g s = Some (ASignature x) ∧ r = Some x) →
        describe h s' = Some (ATemplate c r);
  FunctionTemplate_SetClassName_law t h n s : describe h s = Some (AString n) →
    ∃ s', FunctionTemplate_SetClassName t h s = Ret (tt, s') ∧ scopes s' = scopes s ∧ same_objects s s' ∧
      same_checks s s' ∧ same_handles s s' ∧ name_of t s' = Some n;
  Function_SetName_law f h n s : describe h s = Some (AString n) →
    ∃ s', Function_SetName f h s = Ret (tt, s') ∧ scopes s' = scopes s ∧ same_objects s s' ∧
      same_checks s s' ∧ same_handles s s' ∧ name_of f s' = Some n;
  FunctionTemplate_PrototypeTemplate_law t s :
    ∃ p s', FunctionTemplate_PrototypeTemplate t s = Ret (p, s') ∧ quiet s s' ∧
      ∀ n s'', property p n s'' = prototype_property t n s'';
  FunctionTemplate_GetFunction_law t ctx c r s : describe t s = Some (ATemplate c r) →
    if terminating s then ∃ s', FunctionTemplate_GetFunction t ctx s = Ret (None, s')
    else ∃ f s', FunctionTemplate_GetFunction t ctx s = Ret (Some f, s') ∧ quiet s s' ∧ describe f s' = Some (AFunction c);
  Template_Set_law o h v n d s : describe h s = Some (AString n) → describe v s = Some d →
    ∃ s', Template_Set o h v s = Ret (tt, s') ∧ scopes s' = scopes s ∧ property o n s' = Some (d, name_of v s) ∧
      other_properties n s s';
  Object_Set_law o ctx h v n d s : describe h s = Some (AString n) → describe v s = Some d →
    match set_result o n s with
    | Stored => ∃ s', Object_Set o ctx h v s = Ret (Some true, s') ∧ scopes s' = scopes s ∧
        property o n s' = Some (d, name_of v s) ∧ other_properties n s s'
    | Refused => ∃ s', Object_Set o ctx h v s = Ret (Some true, s') ∧ quiet s s'
    | Thrown => ∃ s', Object_Set o ctx h v s = Ret (None, s')
    end;
  Object_DefineOwnProperty_law o ctx h v a n d s : describe h s = Some (AString n) → describe v s = Some d →
    match define_result o n s with
    | Stored => ∃ s', Object_DefineOwnProperty o ctx h v a s = Ret (Some true, s') ∧ scopes s' = scopes s ∧
        property o n s' = Some (d, name_of v s) ∧ attributes o n s' = Some a ∧ other_properties n s s'
    | Refused => ∃ s', Object_DefineOwnProperty o ctx h v a s = Ret (Some false, s') ∧ quiet s s'
    | Thrown => ∃ s', Object_DefineOwnProperty o ctx h v a s = Ret (None, s')
    end;
}.

(** ** A small engine *)

(** Things are numbered as they are made; a receiver is an object, or a template's
    prototype. A property that is read-only cannot be set, and one that cannot be
    deleted cannot be defined again. *)
Module NodeModel.

Inductive handle : Type := HIsolate | HContext | HObject (n : nat) | HPrototype (h : handle) | HThing (i : nat).
#[export] Instance handle_eq_dec : EqDecision handle.
Proof. solve_decision. Defined.
Abbreviation thing := (thing handle nat Z).
Abbreviation content := (content handle nat Z).

Record state : Type := State {
  opened : nat;
  things : list thing;
  names : list (handle * string);
  props : list (handle * string * (content * Z));
  terminated : bool;
}.
Fixpoint find_prop (o : handle) (n : string) (l : list (handle * string * (content * Z))) : option (content * Z) :=
  match l with
  | [] => None
  | (o', n', c) :: l => if decide (o = o' ∧ n = n') then Some c else find_prop o n l
  end.

Fixpoint find_name (h : handle) (l : list (handle * string)) : option string :=
  match l with [] => None | (h', n) :: l => if decide (h = h') then Some n else find_name h l end.

#[export] Instance views : V8Views state handle nat Z := {|
  scopes := opened;
  describe := λ h s, match h with HThing i => things s !! i | _ => None end;
  name_of := λ h s, find_name h (names s);
  property := λ o n s, fst <$> find_prop o n (props s);
  attributes := λ o n s, snd <$> find_prop o n (props s);
  prototype_property := λ t n s, fst <$> find_prop (HPrototype t) n (props s);
  terminating := terminated;
  set_result := λ o n s, match find_prop o n (props s) with
                         | Some (_, a) => if Z.testbit a 0 then Refused else Stored | None => Stored end;
  define_result := λ o n s, match find_prop o n (props s) with
                            | Some (_, a) => if Z.testbit a 2 then Refused else Stored | None => Stored end;
|}.

Definition make (t : thing) : M state handle := λ s,
  Ret (HThing (length (things s)), State (opened s) (things s ++ [t]) (names s) (props s) (terminated s)).
Definition set_name (h v : handle) : M state unit := λ s,
  match describe v s with
  | Some (AString n) => Ret (tt, State (opened s) (things s) ((h, n) :: names s) (props s) (terminated s))
  | _ => Undef
  end.
Definition store (o h v : handle) (a : Z) : M state unit := λ s,
  match describe h s, describe v s with
  | Some (AString n), Some d =>
      Ret (tt, State (opened s) (things s) (names s) ((o, n, ((d, name_of v s), a)) :: props s) (terminated s))
  | _, _ => Undef
  end.

Section api.
Context `{!V8Config}.
#[export] Instance api : V8Api state handle nat Z := {|
  Isolate_GetCurrent := mret HIsolate;
  Object_GetIsolate := λ _, mret HIsolate;
  Isolate_GetCurrentContext := λ _, mret HContext;
  HandleScope_HandleScope := λ _ s, Ret (tt, State (Datatypes.S (opened s)) (things s) (names s) (props s) (terminated s));
  HandleScope_delete := λ s, Ret (tt, State (pred (opened s)) (things s) (names s) (props s) (terminated s));
  String_NewFromUtf8 := λ _ n _,
    if Z.of_nat (String.length n) <=? String_kMaxLength then h ← make (AString n); mret (Some h) else mret None;
  Number_New := λ _ d, make (ANumber d);
  Date_New := λ _ _, mret None;
  Date_ValueOf := λ _, mret 0%Z;
  Signature_New := λ _ r, make (ASignature r);
  FunctionTemplate_New := λ _ c _ sig s,
    match sig with
    | None => make (ATemplate c None) s
    | Some g => match describe g s with Some (ASignature r) => make (ATemplate c (Some r)) s | _ => make (ATemplate c None) s end
    end;
  FunctionTemplate_SetClassName := set_name;
  FunctionTemplate_PrototypeTemplate := λ t, mret (HPrototype t);
  FunctionTemplate_GetFunction := λ t _ s,
    if terminated s then Ret (None, s)
    else match describe t s with
         | Some (ATemplate c _) => (h ← make (AFunction c); mret (Some h)) s
         | _ => Undef
         end;
  Template_Set := λ o h v, store o h v 0;
  Function_SetName := set_name;
  Object_Set := λ o _ h v s,
    match describe h s with
    | Some (AString n) =>
        match set_result o n s with
        | Stored => (store o h v 0;; mret (Some true)) s | Refused => Ret (Some true, s) | Thrown => Ret (None, s)
        end
    | _ => Undef
    end;
  Object_DefineOwnProperty := λ o _ h v a s,
    match describe h s with
    | Some (AString n) =>
        match define_result o n s with
        | Stored => (store o h v a;; mret (Some true)) s | Refused => Ret (Some false, s) | Thrown => Ret (None, s)
        end
    | _ => Undef
    end;
|}.

Lemma make_law t s : ∃ i s', make t s = Ret (i, s') ∧ quiet s s' ∧ describe i s' = Some t.
Proof.
  eexists _, _. split; [done|]. split; [|cbn; by rewrite lookup_app_r // Nat.sub_diag].
  repeat split; [|by intros ?]. intros [] d; try done. cbn. intros Hd. rewrite lookup_app_l; [done|]. by eapply lookup_lt_Some.
Qed.
Lemma set_name_law t h n s : describe h s = Some (AString n) →
  ∃ s', set_name t h s = Ret (tt, s') ∧ scopes s' = scopes s ∧ same_objects s s' ∧
    same_checks s s' ∧ same_handles s s' ∧ name_of t s' = Some n.
Proof.
  intros Hh. unfold set_name. rewrite Hh. eexists. split; [done|]. repeat split.
  - by intros ?.
  - cbn. by rewrite decide_True.
Qed.
Lemma store_law o h v a n d s : describe h s = Some (AString n) → describe v s = Some d →
  ∃ s', store o h v a s = Ret (tt, s') ∧ scopes s' = scopes s ∧ property o n s' = Some (d, name_of v s) ∧
    attributes o n s' = Some a ∧ other_properties n s s'.
Proof.
  intros Hh Hv. unfold store. rewrite Hh Hv. eexists. split; [done|]. cbn. rewrite !decide_True //. split_and!; [done..|].
  intros o' n' Hn. cbn. by rewrite !decide_False; [|by intros []..].
Qed.

#[export] Instance laws : V8Laws state handle nat Z.
Proof.
  split.
  - intros s. by exists HIsolate, s; split; [|apply quiet_refl].
  - intros o s. by exists HIsolate, s; split; [|apply quiet_refl].
  - intros i s. by exists HContext, s; split; [|apply quiet_refl].
  - intros i s. eexists. split; [done|]. repeat split; by intros ?.
  - intros s n Hn. eexists. split; [done|]. cbn in Hn |- *. rewrite Hn. repeat split.
  - intros i n b s. cbn. destruct (_ <=? _); [|by exists s].
    destruct (make_law (AString n) s) as (h & s' & E & Q). exists h, s'. by rewrite (M_bind_Ret _ _ _ _ _ E).
  - intros i d s. apply make_law.
  - intros i r s. apply make_law.
  - intros i c data sig s.
    assert (∃ r, FunctionTemplate_New i c data sig s = make (ATemplate c r) s ∧
      ∀ r', sig = None ∧ r' = None ∨ (∃ g x, sig = Some g ∧ describe g s = Some (ASignature x) ∧ r' = Some x) → r' = r)
      as (r & -> & Hr).
    { destruct sig as [g|]; cbn [FunctionTemplate_New api].
      - destruct (describe g s) as [[]|] eqn:Hg; eexists; (split; [done|]); intros r' [[? ?]|(g' & x & [= <-] & Hx & ->)]; congruence.
      - exists None. split; [done|]. by intros r [[_ ->]|(? & ? & ? & _)]. }
    destruct (make_law (ATemplate c r) s) as (h & s' & E & Q & Hd). exists h, s'. split_and!; [done..|].
    by intros r' ->%Hr.
  - intros t h n s. apply set_name_law.
  - intros t h n s. apply set_name_law.
  - intros t s. by exists (HPrototype t), s; split_and!; [|apply quiet_refl|].
  - intros t ctx c r s Ht. cbn [terminating views]. cbn -[describe]. destruct (terminated s); [by exists s|]. rewrite Ht.
    destruct (make_law (AFunction c) s) as (f & s' & E & Q & Hd). exists f, s'. by rewrite (M_bind_Ret _ _ _ _ _ E).
  - intros o h v n d s Hh Hv. destruct (store_law o h v 0 n d s Hh Hv) as (s' & ? & ? & ? & _ & ?). by exists s'.
  - intros o ctx h v n d s Hh Hv. destruct (store_law o h v 0 n d s Hh Hv) as (s' & E & ? & ? & _ & ?).
    cbn -[describe set_result]. rewrite Hh. destruct (set_result o n s); [|by exists s; split; [|apply quiet_refl]|by exists s].
    exists s'. by rewrite (M_bind_Ret _ _ _ _ _ E).
  - intros o ctx h v a n d s Hh Hv. destruct (store_law o h v a n d s Hh Hv) as (s' & E & ? & ? & ? & ?).
    cbn -[describe define_result]. rewrite Hh. destruct (define_result o n s); [|by exists s; split; [|apply quiet_refl]|by exists s].
    exists s'. by rewrite (M_bind_Ret _ _ _ _ _ E).
Qed.
End api.
End NodeModel.
