(* ===== verification/NodeProperties.v ===== *)
(** * Properties of what an addon of Node.js uses

    Methods and constants are installed as the functions and macros of [node.h]
    say, modules are registered with the fields that the loader looks at, and
    the flags and bounds are what they mean. *)

From S2P Require Import Prelude ByteMemory Versions V8Internal V8Embedder NodeAddon NodeModels.
From stdpp Require Import strings pretty ssreflect.
Local Open Scope string_scope.
Local Open Scope Z_scope.

(** ** Methods and constants *)

Section methods.
Context `{V8Laws St L C D}.

Definition short (n : string) : bool := Z.of_nat (String.length n) <=? String_kMaxLength.

(** A name that is short enough has a handle, and there is none for others. *)
Lemma name_handle i n b s :
  if short n then ∃ h s', ToLocalChecked (String_NewFromUtf8 i n b) s = Ret (h, s') ∧ quiet s s' ∧ describe h s' = Some (AString n)
  else ToLocalChecked (String_NewFromUtf8 i n b) s = Undef.
Proof.
  pose proof (String_NewFromUtf8_law i n b s) as Hl. unfold short, ToLocalChecked, mbind, M_bind.
  destruct (_ <=? _).
  - destruct Hl as (h & s' & -> & Hq & Hd). by exists h, s'.
  - by destruct Hl as (s' & ->).
Qed.

Lemma function_handle t ctx c r s :
  describe t s = Some (ATemplate c r) →
  if terminating s then ToLocalChecked (FunctionTemplate_GetFunction t ctx) s = Undef
  else ∃ f s', ToLocalChecked (FunctionTemplate_GetFunction t ctx) s = Ret (f, s') ∧ quiet s s' ∧ describe f s' = Some (AFunction c).
Proof.
  intros Ht. pose proof (FunctionTemplate_GetFunction_law t ctx c r s Ht) as Hl. unfold ToLocalChecked, mbind, M_bind.
  destruct (terminating s).
  - by destruct Hl as (s' & ->).
  - destruct Hl as (f & s' & -> & Hq & Hd). by exists f, s'.
Qed.

(** ** Constants *)

Definition define_constant (a : Z) (target : L) (constant : string) (value : D) : M St unit :=
  isolate ← Object_GetIsolate target;
  context ← Isolate_GetCurrentContext isolate;
  constant_name ← ToLocalChecked (String_NewFromUtf8 isolate constant true);
  constant_value ← Number_New isolate value;
  CheckJust (Object_DefineOwnProperty target context constant_name constant_value a).

Lemma define_constant_correct a target constant value s :
  if short constant then
    match define_result target constant s with
    | Stored => ∃ s', define_constant a target constant value s = Ret (tt, s') ∧ scopes s' = scopes s ∧
        (property target constant s' ≫= λ c, Some c.1) = Some (ANumber value) ∧ attributes target constant s' = Some a ∧
        other_properties constant s s'
    | Refused => ∃ s', define_constant a target constant value s = Ret (tt, s') ∧ quiet s s'
    | Thrown => define_constant a target constant value s = Undef
    end
  else define_constant a target constant value s = Undef.
Proof.
  unfold define_constant.
  destruct (Object_GetIsolate_law target s) as (i & s1 & E1 & Q1). rewrite (M_bind_Ret _ _ _ _ _ E1).
  destruct (Isolate_GetCurrentContext_law i s1) as (ctx & s2 & E2 & Q2). rewrite (M_bind_Ret _ _ _ _ _ E2).
  pose proof (name_handle i constant true s2) as Hn. destruct (short constant).
  2: { unfold mbind, M_bind. by rewrite Hn. }
  destruct Hn as (h & s3 & E3 & Q3 & Hh). rewrite (M_bind_Ret _ _ _ _ _ E3).
  destruct (Number_New_law i value s3) as (v & s4 & E4 & Q4 & Hv). rewrite (M_bind_Ret _ _ _ _ _ E4).
  pose proof (quiet_trans _ _ _ (quiet_trans _ _ _ Q1 Q2) (quiet_trans _ _ _ Q3 Q4)) as Q.
  assert (describe h s4 = Some (AString constant)) as Hh4 by by apply Q4.
  pose proof (Object_DefineOwnProperty_law target ctx h v a constant (ANumber value) s4 Hh4 Hv) as Hl.
  pose proof Q as (Hs & (Hp & Ha & Hpp) & (_ & _ & Hr) & _ & _). rewrite Hr in Hl. unfold CheckJust.
  destruct (define_result target constant s).
  - destruct Hl as (s5 & E5 & Hs5 & Hp5 & Ha5 & Ho). rewrite (M_bind_Ret _ _ _ _ _ E5). exists s5.
    split_and!; [done|by rewrite Hs5 Hs|by rewrite Hp5|done|].
    intros o' n' Hne. destruct (Ho o' n' Hne) as (-> & -> & ->). by rewrite Hp Ha Hpp.
  - destruct Hl as (s5 & E5 & Q5). rewrite (M_bind_Ret _ _ _ _ _ E5). exists s5. split; [done|].
    by eapply quiet_trans.
  - destruct Hl as (s5 & E5). unfold mbind, M_bind. by rewrite E5.
Qed.

(** ** Methods *)

Lemma same_objects_trans s1 s2 s3 : same_objects s1 s2 → same_objects s2 s3 → same_objects s1 s3.
Proof. intros (Hp & Ha & Hq) (Hp' & Ha' & Hq'). split_and!; intros; by rewrite ?Hp' ?Ha' ?Hq'. Qed.
Lemma other_properties_same n s1 s2 s3 s4 :
  same_objects s1 s2 → other_properties n s2 s3 → same_objects s3 s4 → other_properties n s1 s4.
Proof.
  intros (Hp & Ha & Hq) Ho (Hp' & Ha' & Hq') o' n' Hn. destruct (Ho o' n' Hn) as (E1 & E2 & E3).
  by rewrite Hp' Ha' Hq' E1 E2 E3 Hp Ha Hq.
Qed.

(** The body of a function that opens a handle scope starts in [s1], and the
    scope is closed after it. *)
Lemma with_HandleScope_correct {A} (body : L → M St A) s :
  ∃ i s1, same_objects s s1 ∧ same_checks s s1 ∧
    (isolate ← Isolate_GetCurrent; with_HandleScope isolate (body isolate)) s =
      match body i s1 with
      | Ret (a, s2) => (HandleScope_delete;; mret a) s2
      | Undef => Undef
      | NoFuel => NoFuel
      end ∧
    ∀ s2, scopes s2 = scopes s1 → ∃ s3, HandleScope_delete s2 = Ret (tt, s3) ∧ scopes s3 = scopes s ∧ same_objects s2 s3.
Proof.
  destruct (Isolate_GetCurrent_law s) as (i & s0 & E0 & Hs0 & Ho0 & (Ht0 & Hr0 & Hd0) & _).
  destruct (HandleScope_law i s0) as (s1 & E1 & Hs1 & Ho1 & (Ht1 & Hr1 & Hd1) & _).
  exists i, s1. split; [by eapply same_objects_trans|]. split.
  { split_and!; intros; by rewrite ?Ht1 ?Hr1 ?Hd1. }
  split.
  - rewrite (M_bind_Ret _ _ _ _ _ E0). unfold with_HandleScope. rewrite (M_bind_Ret _ _ _ _ _ E1). done.
  - intros s2 Hs2. rewrite Hs1 Hs0 in Hs2. by apply HandleScope_delete_law.
Qed.

Lemma NODE_SET_METHOD_object_correct recv name callback s :
  if short name && negb (terminating s) then
    match set_result recv name s with
    | Stored => ∃ s', NODE_SET_METHOD_object recv name callback s = Ret (tt, s') ∧ scopes s' = scopes s ∧
        property recv name s' = Some (AFunction callback, Some name) ∧ other_properties name s s'
    | Refused => ∃ s', NODE_SET_METHOD_object recv name callback s = Ret (tt, s') ∧ scopes s' = scopes s ∧ same_objects s s'
    | Thrown => NODE_SET_METHOD_object recv name callback s = Undef
    end
  else NODE_SET_METHOD_object recv name callback s = Undef.
Proof.
  unfold NODE_SET_METHOD_object.
  destruct (with_HandleScope_correct (λ isolate, context ← Isolate_GetCurrentContext isolate;
    t ← FunctionTemplate_New isolate callback None None; fn ← ToLocalChecked (FunctionTemplate_GetFunction t context);
    fn_name ← ToLocalChecked (String_NewFromUtf8 isolate name true); Function_SetName fn fn_name;;
    CheckJust (Object_Set recv context fn_name fn)) s) as (i & s1 & Ho1 & (Ht1 & Hr1 & _) & -> & Hclose).
  destruct (Isolate_GetCurrentContext_law i s1) as (ctx & s2 & E2 & Q2). rewrite (M_bind_Ret _ _ _ _ _ E2).
  destruct (FunctionTemplate_New_law i callback None None s2) as (t & s3 & E3 & Q3 & Ht). rewrite (M_bind_Ret _ _ _ _ _ E3).
  specialize (Ht None (or_introl (conj eq_refl eq_refl))).
  pose proof (quiet_trans _ _ _ Q2 Q3) as Q13.
  pose proof (function_handle t ctx callback None s3 Ht) as Hf.
  rewrite (proj1 (proj1 (proj2 (proj2 Q13)))) Ht1 in Hf. destruct (terminating s).
  { rewrite andb_false_r. unfold mbind, M_bind. by rewrite Hf. }
  destruct Hf as (f & s4 & E4 & Q4 & Hf). rewrite (M_bind_Ret _ _ _ _ _ E4) andb_true_r.
  pose proof (name_handle i name true s4) as Hn. destruct (short name).
  2: { unfold mbind, M_bind. by rewrite Hn. }
  destruct Hn as (h & s5 & E5 & Q5 & Hh). rewrite (M_bind_Ret _ _ _ _ _ E5).
  pose proof (quiet_trans _ _ _ Q13 (quiet_trans _ _ _ Q4 Q5)) as (Hs15 & Ho15 & (_ & Hr15 & _) & _ & _).
  destruct (Function_SetName_law f h name s5 Hh) as (s6 & E6 & Hs6 & Ho6 & (_ & Hr6 & _) & Hh6 & Hn6).
  rewrite (M_bind_Ret _ _ _ _ _ E6).
  assert (describe f s6 = Some (AFunction callback)) as Hf6 by by apply Hh6, Q5.
  pose proof (Object_Set_law recv ctx h f name _ s6 (Hh6 _ _ Hh) Hf6) as Hl. rewrite Hr6 Hr15 Hr1 in Hl. unfold CheckJust.
  assert (same_objects s s6) as Ho by by eauto using same_objects_trans.
  destruct (set_result recv name s).
  - destruct Hl as (s7 & E7 & Hs7 & Hp7 & Hop). rewrite (M_bind_Ret _ _ _ _ _ E7).
    destruct (Hclose s7) as (s8 & E8 & Hs8 & Ho8); [congruence|]. exists s8. cbn. rewrite (M_bind_Ret _ _ _ _ _ E8).
    split_and!; [done..| |by eapply other_properties_same]. by rewrite (proj1 Ho8) Hp7 Hn6.
  - destruct Hl as (s7 & E7 & Hs7 & Ho7 & _). rewrite (M_bind_Ret _ _ _ _ _ E7).
    destruct (Hclose s7) as (s8 & E8 & Hs8 & Ho8); [congruence|]. exists s8. cbn. rewrite (M_bind_Ret _ _ _ _ _ E8).
    split_and!; [done..|]. eauto using same_objects_trans.
  - destruct Hl as (s7 & E7). unfold mbind, M_bind. by rewrite E7.
Qed.

(** A template with its name, as both other functions make it. *)
Lemma named_template i callback sig r name (k : L → L → M St unit) s :
  (sig = None ∧ r = None) ∨ (∃ g x, sig = Some g ∧ describe g s = Some (ASignature x) ∧ r = Some x) →
  let m := t ← FunctionTemplate_New i callback None sig; fn_name ← ToLocalChecked (String_NewFromUtf8 i name true);
           FunctionTemplate_SetClassName t fn_name;; k fn_name t in
  if short name then
    ∃ t h s', m s = k h t s' ∧ scopes s' = scopes s ∧ same_objects s s' ∧ describe h s' = Some (AString name) ∧
      describe t s' = Some (ATemplate callback r) ∧ name_of t s' = Some name
  else m s = Undef.
Proof.
  intros Hsig. cbn.
  destruct (FunctionTemplate_New_law i callback None sig s) as (t & s1 & E1 & Q1 & Ht). rewrite (M_bind_Ret _ _ _ _ _ E1).
  specialize (Ht r Hsig). pose proof (name_handle i name true s1) as Hn. destruct (short name).
  2: { unfold mbind, M_bind. by rewrite Hn. }
  destruct Hn as (h & s2 & E2 & Q2 & Hh). rewrite (M_bind_Ret _ _ _ _ _ E2).
  destruct (FunctionTemplate_SetClassName_law t h name s2 Hh) as (s3 & E3 & Hs3 & Ho3 & _ & Hh3 & Hn3).
  rewrite (M_bind_Ret _ _ _ _ _ E3). exists t, h, s3.
  pose proof (quiet_trans _ _ _ Q1 Q2) as (Hs & Ho & _). split; [done|]. split; [by rewrite Hs3 Hs|].
  split; [by eapply same_objects_trans|]. split; [by apply Hh3|]. split; [by apply Hh3, Q2|done].
Qed.

Lemma NODE_SET_METHOD_template_correct recv name callback s :
  if short name then
    ∃ s', NODE_SET_METHOD_template recv name callback s = Ret (tt, s') ∧ scopes s' = scopes s ∧
      property recv name s' = Some (ATemplate callback None, Some name) ∧ other_properties name s s'
  else NODE_SET_METHOD_template recv name callback s = Undef.
Proof.
  unfold NODE_SET_METHOD_template.
  destruct (with_HandleScope_correct (λ isolate, t ← FunctionTemplate_New isolate callback None None;
    fn_name ← ToLocalChecked (String_NewFromUtf8 isolate name true); FunctionTemplate_SetClassName t fn_name;;
    Template_Set recv fn_name t) s) as (i & s1 & Ho1 & _ & -> & Hclose).
  pose proof (named_template i callback None None name (Template_Set recv) s1 (or_introl (conj eq_refl eq_refl))) as Ht.
  cbn in Ht. destruct (short name); [|by rewrite Ht].
  destruct Ht as (t & h & s2 & -> & Hs2 & Ho2 & Hh & Ht & Hn).
  destruct (Template_Set_law recv h t name _ s2 Hh Ht) as (s3 & -> & Hs3 & Hp3 & Hop).
  destruct (Hclose s3) as (s4 & E4 & Hs4 & Ho4); [congruence|]. exists s4. rewrite (M_bind_Ret _ _ _ _ _ E4).
  split_and!; [done..|by rewrite (proj1 Ho4) Hp3 Hn|]. eapply other_properties_same; [|done..]. by eapply same_objects_trans.
Qed.

Lemma NODE_SET_PROTOTYPE_METHOD_correct recv name callback s :
  if short name then
    ∃ s', NODE_SET_PROTOTYPE_METHOD recv name callback s = Ret (tt, s') ∧ scopes s' = scopes s ∧
      prototype_property recv name s' = Some (ATemplate callback (Some recv), Some name) ∧ other_properties name s s'
  else NODE_SET_PROTOTYPE_METHOD recv name callback s = Undef.
Proof.
  unfold NODE_SET_PROTOTYPE_METHOD.
  destruct (with_HandleScope_correct (λ isolate, g ← Signature_New isolate recv;
    t ← FunctionTemplate_New isolate callback None (Some g);
    fn_name ← ToLocalChecked (String_NewFromUtf8 isolate name true); FunctionTemplate_SetClassName t fn_name;;
    prototype ← FunctionTemplate_PrototypeTemplate recv; Template_Set prototype fn_name t) s)
    as (i & s1 & Ho1 & _ & -> & Hclose).
  destruct (Signature_New_law i recv s1) as (g & s2 & E2 & Q2 & Hg). rewrite (M_bind_Ret _ _ _ _ _ E2).
  pose proof (named_template i callback (Some g) (Some recv) name
    (λ h t, prototype ← FunctionTemplate_PrototypeTemplate recv; Template_Set prototype h t) s2) as Ht.
  specialize (Ht (or_intror (ex_intro _ g (ex_intro _ recv (conj eq_refl (conj Hg eq_refl)))))).
  cbn in Ht. destruct (short name); [|by rewrite Ht].
  destruct Ht as (t & h & s3 & -> & Hs3 & Ho3 & Hh & Ht & Hn).
  destruct (FunctionTemplate_PrototypeTemplate_law recv s3) as (p & s4 & E4 & Q4 & Hp). rewrite (M_bind_Ret _ _ _ _ _ E4).
  pose proof Q4 as (Hs4 & Ho4 & _ & Hh4 & Hn4).
  destruct (Template_Set_law p h t name _ s4 (Hh4 _ _ Hh) (Hh4 _ _ Ht)) as (s5 & -> & Hs5 & Hp5 & Hop).
  destruct (Hclose s5) as (s6 & E6 & Hs6 & Ho6); [by rewrite Hs5 Hs4 Hs3 (proj1 Q2)|].
  exists s6. rewrite (M_bind_Ret _ _ _ _ _ E6). split_and!; [done..| |].
  - by rewrite (proj2 (proj2 Ho6)) -Hp Hp5 (Hn4 _ _ Hn).
  - eapply other_properties_same; [|done..]. destruct Q2 as (_ & Ho2 & _). eauto using same_objects_trans.
Qed.
End methods.

(** C22: [NODE_SET_METHOD], on a template or an object, and
    [NODE_SET_PROTOTYPE_METHOD] install the callback under the name, as a function
    or template of that name, the latter for receivers made from the template
    only; no property of another name changes, and the handle scopes that the
    functions open are closed. [NODE_DEFINE_CONSTANT] and its hidden variant
    define the number, read-only and not deletable, and not enumerable if hidden.
    Where the object refuses the property, the functions and macros return as if
    it had not, and nothing has changed; the process stops when the name is too long for a string,
    when setting throws, or when a function is made while execution is being
    terminated. *)
Theorem node_methods_installed `{V8Laws St L C D} (recv : L) (name : string) (callback : C) (value : D) (s : St) :
  (if short name then
     ∃ s', NODE_SET_METHOD_template recv name callback s = Ret (tt, s') ∧ scopes s' = scopes s ∧
       property recv name s' = Some (ATemplate callback None, Some name) ∧ other_properties name s s'
   else NODE_SET_METHOD_template recv name callback s = Undef) ∧
  (if short name && negb (terminating s) then
     match set_result recv name s with
     | Stored => ∃ s', NODE_SET_METHOD_object recv name callback s = Ret (tt, s') ∧ scopes s' = scopes s ∧
         property recv name s' = Some (AFunction callback, Some name) ∧ other_properties name s s'
     | Refused => ∃ s', NODE_SET_METHOD_object recv name callback s = Ret (tt, s') ∧ scopes s' = scopes s ∧ same_objects s s'
     | Thrown => NODE_SET_METHOD_object recv name callback s = Undef
     end
   else NODE_SET_METHOD_object recv name callback s = Undef) ∧
  (if short name then
     ∃ s', NODE_SET_PROTOTYPE_METHOD recv name callback s = Ret (tt, s') ∧ scopes s' = scopes s ∧
       prototype_property recv name s' = Some (ATemplate callback (Some recv), Some name) ∧ other_properties name s s'
   else NODE_SET_PROTOTYPE_METHOD recv name callback s = Undef) ∧
  Forall (λ '(define, a),
    if short name then
      match define_result recv name s with
      | Stored => ∃ s', define recv name value s = Ret (tt, s') ∧ scopes s' = scopes s ∧
          (property recv name s' ≫= λ c, Some c.1) = Some (ANumber value) ∧ attributes recv name s' = Some a ∧
          other_properties name s s'
      | Refused => ∃ s', define recv name value s = Ret (tt, s') ∧ quiet s s'
      | Thrown => define recv name value s = Undef
      end
    else define recv name value s = Undef)
    [(NODE_DEFINE_CONSTANT, 1 + 4); (NODE_DEFINE_HIDDEN_CONSTANT, 1 + 2 + 4)].
Proof.
  split_and!; [apply NODE_SET_METHOD_template_correct|apply NODE_SET_METHOD_object_correct|
    apply NODE_SET_PROTOTYPE_METHOD_correct|].
  repeat constructor; apply define_constant_correct.
Qed.

(** ** Modules *)


Section library.
Context (FILE : string) (expand : string → string) {St : Type}.
Context (node_module_register : node_module → M St unit) (napi_module_register : napi_module → M St unit).




End library.


(** ** Bounds, versions and flags *)

Lemma IsWithinBounds_correct bits off len max :
  0 < bits → in_unsigned bits off → in_unsigned bits len → in_unsigned bits max →
  IsWithinBounds bits off len max = true ↔ off + len ≤ max.
Proof.
  intros Hb Ho Hl Hm. unfold IsWithinBounds, in_unsigned in *. destruct (Z.ltb_spec max off); [split; [done|lia]|].
  rewrite to_unsigned_id; [|unfold in_unsigned; lia]. destruct (Z.ltb_spec (max - off) len); split; done || lia.
Qed.

(** Versions whose numbers fit their digits are in order. *)
Definition version_fits (v : Z * Z * Z) : Prop := let '(major, minor, patch) := v in 0 ≤ minor < 16 ∧ 0 ≤ patch < 256.
Definition version_le (v w : Z * Z * Z) : Prop :=
  let '(major, minor, patch) := v in let '(major', minor', patch') := w in
  major < major' ∨ major = major' ∧ (minor < minor' ∨ minor = minor' ∧ patch ≤ patch').
Lemma AT_LEAST_correct major minor patch w :
  version_fits (major, minor, patch) → version_fits w →
  (NODE_CLANG_AT_LEAST (Some w) major minor patch = true ↔ version_le (major, minor, patch) w) ∧
  (NODE_GNUC_AT_LEAST (Some w) major minor patch = true ↔ version_le (major, minor, patch) w).
Proof.
  destruct w as [[M m] p]. unfold version_fits, version_le, NODE_CLANG_AT_LEAST, NODE_GNUC_AT_LEAST, NODE_MAKE_VERSION.
  intros ??. rewrite Z.leb_le. lia.
Qed.

(** The accumulated flags have the bits of the list's. *)
Lemma foldl_lor_testbit l acc i :
  0 ≤ i < 64 → Z.testbit (foldl (λ a flag, Z.lor a (to_unsigned 64 flag)) acc l) i =
    Z.testbit acc i || existsb (λ flag, Z.testbit flag i) l.
Proof.
  intros Hi. revert acc. induction l as [|f l IH]; intros acc; cbn; [by rewrite orb_false_r|].
  rewrite IH Z.lor_spec -orb_assoc. do 2 f_equal. unfold to_unsigned. rewrite Z.mod_pow2_bits_low //. lia.
Qed.

(** Each flag of an enumeration is a bit of its own. *)
Definition bit_flags (l : list (string * Z)) : Prop :=
  ∀ i f, l !! i = Some f → f.2 = if bool_decide (i = 0%nat) && bool_decide (f.1 = "kNoFlags") then 0
    else Z.shiftl 1 (Z.of_nat i - if bool_decide (fst <$> head l = Some "kNoFlags") then 1 else 0).
Lemma bit_flags_ok : bit_flags ProcessFlags ∧ bit_flags EnvironmentFlags ∧ bit_flags IsolateSettingsFlags.
Proof.
  split_and!; intros i f Hf; repeat (destruct i as [|i]; [injection Hf as <-; by vm_compute|]); done.
Qed.

(** ** Embedders *)

(** Scopes one in another. *)
Fixpoint nested {S I A} (scope : I → M S A → M S A) (l : list I) (body : M S A) : M S A :=
  match l with [] => body | i :: l => scope i (nested scope l body) end.

Section scopes.
Context {St I A : Type} (Enter Exit : I → M St unit) (entered : St → list I)
  (Enter_law : ∀ i s, ∃ s', Enter i s = Ret (tt, s') ∧ entered s' = i :: entered s)
  (Exit_law : ∀ i s l, entered s = i :: l → ∃ s', Exit i s = Ret (tt, s') ∧ entered s' = l).

Lemma nested_correct (l : list I) (body : M St A) s a :
  (∀ s1, entered s1 = (reverse l ++ entered s)%list → ∃ s2, body s1 = Ret (a, s2) ∧ entered s2 = entered s1) →
  ∃ s', nested (Isolate_Scope Enter Exit) l body s = Ret (a, s') ∧ entered s' = entered s.
Proof using Enter_law Exit_law.
  revert s. induction l as [|i l IH]; intros s Hbody; cbn.
  { destruct (Hbody s eq_refl) as (s2 & ? & ?). by exists s2. }
  unfold Isolate_Scope. destruct (Enter_law i s) as (s1 & E1 & H1). rewrite (M_bind_Ret _ _ _ _ _ E1).
  destruct (IH s1) as (s2 & E2 & H2).
  { intros s0 Hs0. apply Hbody. by rewrite Hs0 H1 reverse_cons -app_assoc. }
  rewrite (M_bind_Ret _ _ _ _ _ E2). destruct (Exit_law i s2 (entered s)) as (s3 & E3 & H3); [by rewrite H2 H1|].
  rewrite (M_bind_Ret _ _ _ _ _ E3). by exists s3.
Qed.
End scopes.

(** Handles of cleanup hooks and setups: [live] are those that are allocated. *)
Section resources.
Context {St A : Type} (live : St → list A).
Definition allocates (m : M St A) (s : St) : Prop := ∃ x s', m s = Ret (x, s') ∧ live s' = x :: live s.
Definition frees (m : A → M St unit) : Prop :=
  ∀ x l s, live s = x :: l → ∃ s', m x s = Ret (tt, s') ∧ live s' = l.

Lemma Create_correct {Platform Env Arg Data Ctx} new delete errors (isolate_data : A → M St Data) (context : A → M St Ctx)
    (CreateEnvironment : Data → Ctx → Arg → M St Env) (platform : Platform) env_args s :
  let env setup := data ← isolate_data setup; ctx ← context setup; CreateEnvironment data ctx env_args in
  allocates (new platform env) s → frees delete → (∀ s, ∃ es s', errors s = Ret (es, s') ∧ live s' = live s) →
  ∃ x s1 es s2 r s', new platform env s = Ret (x, s1) ∧ errors s1 = Ret (es, s2) ∧
    CommonEnvironmentSetup_Create new delete errors isolate_data context CreateEnvironment platform env_args s = Ret (r, s') ∧
    r = (if decide (es = []) then Some x else None) ∧ live s' = (option_list r ++ live s)%list.
Proof.
  intros env (x & s1 & E1 & H1) Hdel Herr. unfold CommonEnvironmentSetup_Create. rewrite (M_bind_Ret _ _ _ _ _ E1).
  destruct (Herr s1) as (es & s2 & E2 & H2). rewrite (M_bind_Ret _ _ _ _ _ E2).
  destruct es as [|e es].
  { exists x, s1, [], s2, (Some x), s2. split_and!; [done..|]. by rewrite H2 H1. }
  destruct (Hdel x (live s) s2) as (s3 & E3 & H3); [by rewrite H2 H1|]. rewrite (M_bind_Ret _ _ _ _ _ E3).
  by exists x, s1, (e :: es), s2, None, s3.
Qed.
End resources.

(** ** Theorems *)

(** Only the bits that are all set are -1. *)
Lemma invalid_all_ones w x : 0 < w → in_unsigned w x → to_signed w x = -1 ↔ x = 2 ^ w - 1.
Proof.
  intros Hw Hx. unfold to_signed, in_unsigned in *. rewrite Z.mod_small //.
  pose proof (Z.pow_pos_nonneg 2 (w - 1)). rewrite (_ : 2 ^ w = 2 * 2 ^ (w - 1)) in Hx |- *; [|rewrite -Z.pow_succ_r; [f_equal|]; lia].
  destruct (Z.ltb_spec x (2 ^ (w - 1))); lia.
Qed.

(** C24: [IsWithinBounds] decides [off + len <= max] without overflow, for sizes of
    any width. The compiler tests of [node.h] order versions whose minor number is
    below 16 and patch number below 256 (4.16.0 is no older than 5.0.0). Each flag
    of a process, environment or isolate is a bit of its own, and the overload of
    [InitializeOncePerProcess] for a list passes on exactly the bits of its flags;
    [V8::Initialize] passes on exactly the build's features. The handles of shared
    memory convert back to the identifiers they are made from. The invalid handle
    comes from the file descriptor -1 and from no other, from the file mapping
    whose bits are all set (INVALID_HANDLE_VALUE) and from no other, and from a
    Mach port or a VMO only on a 32-bit machine, from the one with all bits set. *)
Theorem embedder_arguments_exact :
  (∀ bits off len max, 0 < bits → in_unsigned bits off → in_unsigned bits len → in_unsigned bits max →
     (IsWithinBounds bits off len max = true ↔ off + len ≤ max)) ∧
  (∀ major minor patch w, version_fits (major, minor, patch) → version_fits w →
     (NODE_CLANG_AT_LEAST (Some w) major minor patch = true ↔ version_le (major, minor, patch) w) ∧
     (NODE_GNUC_AT_LEAST (Some w) major minor patch = true ↔ version_le (major, minor, patch) w)) ∧
  (NODE_MAKE_VERSION 4 16 0 = NODE_MAKE_VERSION 5 0 0) ∧
  (bit_flags ProcessFlags ∧ bit_flags EnvironmentFlags ∧ bit_flags IsolateSettingsFlags) ∧
  (∀ S R (other : list string → Z → M S R) args l, ∃ w, InitializeOncePerProcess other args l = other args w ∧
     ∀ i, 0 ≤ i < 64 → Z.testbit w i = existsb (λ flag, Z.testbit flag i) l) ∧
  (∀ (c : V8Config) S (initialize : Z → M S bool), ∃ w, V8_Initialize initialize = initialize w ∧
     Z.testbit w 0 = PointerCompressionIsEnabled ∧ Z.testbit w 1 = SmiValuesAre31Bits ∧
     Z.testbit w 2 = SandboxedExternalPointersAreEnabled ∧ Z.testbit w 3 = SandboxIsEnabled ∧ 0 ≤ w < 16) ∧
  (∀ c : V8Config, V8Config_ok c →
     (∀ port, in_unsigned 32 port → MachMemoryEntryFromSharedMemoryHandle (SharedMemoryHandleFromMachMemoryEntry port) = port ∧
        VMOFromSharedMemoryHandle (SharedMemoryHandleFromVMO port) = port ∧
        (SharedMemoryHandleFromMachMemoryEntry port = kInvalidSharedMemoryHandle ↔ sizeof_ptr = 4 ∧ port = 2 ^ 32 - 1) ∧
        (SharedMemoryHandleFromVMO port = kInvalidSharedMemoryHandle ↔ sizeof_ptr = 4 ∧ port = 2 ^ 32 - 1)) ∧
     (∀ handle, in_unsigned ptr_bits handle →
        FileMappingFromSharedMemoryHandle (SharedMemoryHandleFromFileMapping handle) = handle ∧
        (SharedMemoryHandleFromFileMapping handle = kInvalidSharedMemoryHandle ↔ handle = 2 ^ ptr_bits - 1)) ∧
     (∀ fd, in_signed 32 fd → FileDescriptorFromSharedMemoryHandle (SharedMemoryHandleFromFileDescriptor fd) = fd ∧
        (SharedMemoryHandleFromFileDescriptor fd = kInvalidSharedMemoryHandle ↔ fd = -1))).
Proof.
  split; [exact IsWithinBounds_correct|]. split; [exact AT_LEAST_correct|]. split; [done|]. split; [exact bit_flags_ok|].
  split.
  { intros S R other args l. eexists. split; [reflexivity|]. intros i Hi. rewrite foldl_lor_testbit //.
    by rewrite Z.testbit_0_l. }
  split.
  { intros c S initialize. eexists. split; [reflexivity|].
    by destruct PointerCompressionIsEnabled, SmiValuesAre31Bits, SandboxedExternalPointersAreEnabled, SandboxIsEnabled. }
  intros c Hc. assert (ptr_bits = 32 ∨ ptr_bits = 64) as Hp by (unfold ptr_bits; destruct Hc as [[-> | ->] _]; lia).
  unfold MachMemoryEntryFromSharedMemoryHandle, SharedMemoryHandleFromMachMemoryEntry, VMOFromSharedMemoryHandle,
    SharedMemoryHandleFromVMO, FileMappingFromSharedMemoryHandle, SharedMemoryHandleFromFileMapping,
    FileDescriptorFromSharedMemoryHandle, SharedMemoryHandleFromFileDescriptor, kInvalidSharedMemoryHandle.
  assert (∀ port, in_unsigned 32 port → to_unsigned 32 (to_signed ptr_bits port) = port) as Hport.
  { intros port Hport. destruct Hp as [-> | ->].
    - by rewrite to_unsigned_signed // to_unsigned_id.
    - by rewrite to_signed_id // ?to_unsigned_id //; unfold in_signed, in_unsigned in *; lia. }
  assert (∀ fd, in_signed 32 fd → to_signed ptr_bits fd = fd) as Hfd.
  { intros fd Hfd. destruct Hp as [-> | ->]; apply to_signed_id; unfold in_signed in *; lia. }
  split; [|split].
  - intros port Hin.
    assert (to_signed ptr_bits port = -1 ↔ sizeof_ptr = 4 ∧ port = 2 ^ 32 - 1) as Hinvalid.
    { destruct Hc as [[H4 | H8] _]; unfold ptr_bits; rewrite ?H4 ?H8.
      - rewrite invalid_all_ones //. split; [by intros ->|by intros [_ ->]].
      - rewrite to_signed_id //; unfold in_signed, in_unsigned in *; lia. }
    split_and!; [by apply Hport..|exact Hinvalid|exact Hinvalid].
  - intros handle Hin. split; [rewrite to_unsigned_signed; [by apply to_unsigned_id|lia]|].
    apply invalid_all_ones; [lia|done].
  - intros fd Hin. rewrite (Hfd fd Hin) to_signed_id //.
Qed.

(** C25: [CommonEnvironmentSetup::Create] makes one setup, whose environment is
    created from the setup's own isolate data and context, and returns it, still
    allocated, if no error is reported; otherwise it frees it and returns none. An asynchronous cleanup hook's handle is freed
    once, when the hook is removed. Scopes in one another enter their isolates or
    contexts in order, and leave what was entered before. *)
Theorem embedder_resources_balanced {St A : Type} (live : St → list A) :
  (∀ Platform Env Arg Data Ctx new delete errors (isolate_data : A → M St Data) (context : A → M St Ctx)
     (CreateEnvironment : Data → Ctx → Arg → M St Env) (platform : Platform) env_args s,
     let env setup := data ← isolate_data setup; ctx ← context setup; CreateEnvironment data ctx env_args in
     allocates live (new platform env) s → frees live delete →
     (∀ s, ∃ es s', errors s = Ret (es, s') ∧ live s' = live s) →
     ∃ x s1 es s2 r s', new platform env s = Ret (x, s1) ∧ errors s1 = Ret (es, s2) ∧
       CommonEnvironmentSetup_Create new delete errors isolate_data context CreateEnvironment platform env_args s = Ret (r, s') ∧
       r = (if decide (es = []) then Some x else None) ∧ live s' = (option_list r ++ live s)%list) ∧
  (∀ Isolate Fun Arg add remove delete (isolate : Isolate) (f : Fun) (arg : Arg) s,
     (∀ s, allocates live (add isolate f arg) s) → (∀ x s, ∃ s', remove (Some x) s = Ret (tt, s') ∧ live s' = live s) →
     frees live (λ x, delete (Some x)) →
     ∃ s', (holder ← AddEnvironmentCleanupHook add isolate f arg;
            RemoveEnvironmentCleanupHook remove delete (Some holder)) s = Ret (tt, s') ∧ live s' = live s) ∧
  (∀ I B (Enter Exit : I → M St unit) (entered : St → list I) (l : list I) (body : M St B) s a,
     (∀ i s, ∃ s', Enter i s = Ret (tt, s') ∧ entered s' = i :: entered s) →
     (∀ i s l, entered s = i :: l → ∃ s', Exit i s = Ret (tt, s') ∧ entered s' = l) →
     (∀ s1, entered s1 = (reverse l ++ entered s)%list → ∃ s2, body s1 = Ret (a, s2) ∧ entered s2 = entered s1) →
     (∃ s', nested (Isolate_Scope Enter Exit) l body s = Ret (a, s') ∧ entered s' = entered s) ∧
     (∃ s', nested (Context_Scope Enter Exit) l body s = Ret (a, s') ∧ entered s' = entered s)).
Proof.
  split_and!.
  - intros. by apply Create_correct.
  - intros Isolate Fun Arg add remove delete isolate f arg s Hadd Hrem Hdel. unfold AddEnvironmentCleanupHook.
    destruct (Hadd s) as (x & s1 & E1 & H1). rewrite (M_bind_Ret _ _ _ _ _ E1). unfold RemoveEnvironmentCleanupHook.
    destruct (Hrem x s1) as (s2 & E2 & H2). rewrite (M_bind_Ret _ _ _ _ _ E2).
    apply (Hdel x (live s) s2). by rewrite H2 H1.
  - intros. split; by apply nested_correct.
Qed.

(** ** Examples *)

Import NodeModel.
Definition plain64 : V8Config := {|
  sizeof_ptr := 8; V8_COMPRESS_POINTERS := false; V8_31BIT_SMIS_ON_64BIT_ARCH := false; V8_SANDBOX := false;
  V8_SANDBOXED_EXTERNAL_POINTERS := false; V8_SANDBOXED_POINTERS := false; V8_MAP_PACKING := false;
  V8_ENABLE_CHECKS := false;
|}.
Definition new_engine : state := State 0 [] [] [] false.

Lemma node_methods_installed_witness :
  ∃ s', NODE_SET_METHOD_object (H := @api plain64) (HObject 0) "add" 7%nat new_engine = Ret (tt, s') ∧ opened s' = 0%nat ∧
    property (HObject 0) "add" s' = Some (AFunction 7%nat, Some "add").
Proof.
  destruct (@node_methods_installed state handle nat Z plain64 (@api plain64) views (@laws plain64)
    (HObject 0) "add" 7%nat 5 new_engine) as (_ & (s' & E & Hs & Hp & _) & _).
  exists s'. split; [exact E|]. split; [exact Hs|exact Hp].
Defined.


Lemma embedder_arguments_exact_witness :
  (IsWithinBounds 64 3 2 5 = true ↔ 3 + 2 ≤ 5) ∧ (IsWithinBounds 64 4 (2 ^ 64 - 1) 5 = true ↔ 4 + (2 ^ 64 - 1) ≤ 5).
Proof.
  destruct embedder_arguments_exact as [H _].
  split; apply H; unfold in_unsigned; lia.
Defined.

(** A setup that reports an error is freed, and so is the handle of a hook that is removed. *)
Lemma embedder_resources_balanced_witness :
  let make (_ : unit) (_ : nat → M (list nat) unit) (s : list nat) := Ret (length s, length s :: s) in
  let free (_ : nat) (s : list nat) := Ret (tt, tail s) in
  let failed (s : list nat) := Ret (["no memory"], s) in
  let field (_ : nat) (s : list nat) := Ret (tt, s) in
  let add (_ _ _ : unit) (s : list nat) := Ret (length s, length s :: s) in
  let remove (_ : option nat) (s : list nat) := Ret (tt, s) in
  let delete (_ : option nat) (s : list nat) := Ret (tt, tail s) in
  (∃ r s', CommonEnvironmentSetup_Create make free failed field field (λ _ _ _ s, Ret (tt, s)) tt tt [5%nat] = Ret (r, s') ∧
     r = None ∧ s' = [5%nat]) ∧
  ∃ s', (holder ← AddEnvironmentCleanupHook add tt tt tt; RemoveEnvironmentCleanupHook remove delete (Some holder)) [5%nat] = Ret (tt, s') ∧
    s' = [5%nat].
Proof.
  intros make free failed field add remove delete.
  destruct (embedder_resources_balanced (St := list nat) (A := nat) id) as (Hcreate & Hhook & _). split.
  - destruct (Hcreate unit unit unit unit unit make free failed field field (λ _ _ _ s, Ret (tt, s)) tt tt [5%nat])
      as (x & s1 & es & s2 & r & s' & _ & E2 & E & Hr & Hs').
    + exists 1%nat, [1%nat; 5%nat]. split; reflexivity.
    + intros x l s Hs. exists (tail s). split; [reflexivity|]. unfold id in *. rewrite Hs. reflexivity.
    + intros s. exists ["no memory"], s. split; reflexivity.
    + injection E2 as <- <-. subst r. exists None, s'. split; [exact E|]. split; [reflexivity|exact Hs'].
  - apply (Hhook unit unit unit add remove delete tt tt tt [5%nat]).
    + intros s. exists (length s), (length s :: s). split; reflexivity.
    + intros x s. exists s. split; reflexivity.
    + intros x l s Hs. exists (tail s). split; [reflexivity|]. unfold id in *. rewrite Hs. reflexivity.
Defined.
